(* ===== verification/_CoqProject ===== *)
-Q . S2P
Prelude.v
Ids.v
Digest.v
Pulse.v
Samples.v
Wire.v
ObservationDigest.v
Context.v
Judgment.v
Qualification.v
Package.v
Activation.v
CustodyTypes.v
Escalation.v
Certificate.v
Event.v
Policy.v
Receiver.v
EvaluatorState.v
Derive.v
Explain.v
Evaluator.v
EvalSamples.v
Bridge.v
DeriveProps.v
Frame.v
Expiry.v
Commands.v
Ingestion.v
Invariant.v
Support.v
Standing.v
Custody.v
EscalationProps.v
BridgeProps.v
Lockstep.v
Boundary.v
RuntimeState.v
RuntimeArtifacts.v
Runtime.v
RuntimeOps.v
RuntimeHistory.v
Journal.v
RuntimeLogic.v
RuntimeInvariant.v
RuntimeMethods.v
RuntimeSafety.v
RuntimeStanding.v
RuntimeBounds.v
PackageSamples.v
PackageProps.v
ActivationProps.v
RuntimeSamples.v
RuntimeProps.v
JournalProps.v
JournalCrash.v
JournalHistory.v
JournalSamples.v
LiveSupport.v
LiveSupportProps.v
Reactor.v
ReactorActor.v
ReactorMachine.v
ReactorLogic.v
ReactorSink.v
ReactorInvariant.v
ReactorProps.v
ReactorLive.v
LiveTransport.v
ReactorSamples.v
ReactorJournalSamples.v
CustodyRecords.v
CustodyWire.v
CustodyWireProps.v
CustodyReceiver.v
CustodyAdmission.v
CustodyReceiverProps.v
CustodySender.v
CustodySenderProps.v
CustodySamples.v
