(* ===== verification/Prelude.v ===== *)
(** * Constellation Monitor: verification development

    The program watches subjects through observers that send _pulses_ and
    answers, per consumer, whether the consumer may rely on the present state
    of a subject: a judgment CURRENT, DEGRADED, SUSPECT, UNKNOWN or
    CONTRADICTED.  CURRENT is never an absence of bad news: it needs fresh, sufficiently
    independent coverage, expires by itself, and is withdrawn when the monitor
    itself may have missed something.

    ** The parts and the files that model them

    Source paths are under src/crates.

    - [Prelude]: [Result], saturating and checked [u64] arithmetic, byte and
      hexadecimal encodings, ordered collections, shared lemmas and tactics.
    - Records and their validation, pulse-types/src: [Ids] (ids.rs), [Digest]
      (digest.rs), [Pulse] (pulse.rs), [Judgment] (judgment.rs), [Escalation]
      (escalation.rs), [Context] and [Certificate] (runtime.rs),
      [Qualification] (qualification.rs), [CustodyTypes] (custody.rs), [Event]
      (event.rs and the history record of runtime.rs).
    - The activation gate, pulse-types/src/qualification.rs: [Package] has the
      manifest, evidence report and qualification certificate and how they
      verify together, [Activation] the measurement of the running process
      and [verify_local_activation].
    - [Wire]: the binary pulse format, [encode_wire] and [decode_wire] of
      pulse.rs; [ObservationDigest]: what the observation digest binds.
    - [Policy] (pulse-evaluator/src/policy.rs) and [Receiver] (receiver.rs).
    - The evaluator, pulse-evaluator/src/evaluator.rs: [EvaluatorState] has
      the struct and one assignment per field, [Derive] the reading of the
      evidence, [Explain] explanations and trigger selection, [Evaluator]
      every method that changes state.  [Commands] makes the public methods a
      transition relation.
    - [Bridge]: the closed diagnostic bridge, pulse-l3-bridge/src/lib.rs.
    - [RuntimeArtifacts]: the artifacts a runtime measures of itself and the
      assembly of a package, pulse-runtime/src/binding.rs.
    - The runtime owner, pulse-runtime/src/lib.rs: [RuntimeState] has the
      [ReceiverSchedulerRuntime] struct, its configuration and inputs;
      [Runtime] certificates, schedules, refusals, bindings and blindness;
      [RuntimeOps] registration, the input queue, the cycle [run_until],
      activation and lifecycle; [RuntimeHistory] history export and recovery.
    - [Journal]: the append-only file of history records and its recovery,
      pulse-runtime/src/journal.rs.
    - The reactor, pulse-runtime/src/reactor.rs: [LiveSupport] has the records
      of a live query (pulse-types/src/live_support.rs), [Reactor] the shared
      state, what clients do to it and the journal sink, [ReactorActor] an
      iteration of the thread, [ReactorMachine] the interleavings of both,
      [LiveTransport] the frames on the local stream.
    - Remote custody, pulse-types/src/custody.rs and
      pulse-runtime/src/custody.rs: [CustodyRecords] has keys, policies and
      the five signed messages, [CustodyWire] their bytes and signatures,
      [CustodyReceiver] and [CustodySender] the two ends.

    The runtime holds one evaluator per consumer.  A pulse reaches the runtime
    through [enqueue]; [run_until] takes inputs and expired schedules in time
    order, annotates pulses with the receiver's tracker, lets the evaluators
    ingest them, turns every judgment into a certificate and schedules the
    certificate's expiry.  A CURRENT certificate also needs a qualified
    generation binding that still matches.  An evaluator that leaves CURRENT
    may publish an escalation request, which the runtime dispatches and a
    bridge answers.  The reactor's thread owns a runtime and a journal: it
    takes the commands and queries its clients queued, calls [run_until] at
    every deadline, journals what came out, publishes a snapshot and only
    then answers.  Observations of another process reach it through the custody
    protocol: sender and receiver exchange an offer, a challenge, a binding and an
    acceptance, each signed; the receiver then admits the sender's signed
    envelopes and hands each on as a token the runtime takes as input.

    Methods that take [&mut self] are functions from the state to the new
    state and the result; the runtime's methods, which can fail half-way
    through, run in the monad [rt] of [RuntimeState], in which a failing call
    leaves its state behind.  Code that asks the operating system runs in the
    monad [sys] of [Activation], whose state is the process's statics and the
    number of system calls made: the n-th call gets the n-th answer.  The
    reactor is a transition system: an [Action] is what a client or the thread
    does while it holds the mutex, or what the thread does in between, and the
    theorems hold for every sequence of actions.  A [u64] is a [Z] with the source's saturating,
    checked or wrapping operation written out.  A [BTreeMap] whose order is
    observable is a sorted association list, any other map a [gmap].

    ** What the theorems show

    - [Wire], [ObservationDigest] (C1-C3): encoding and decoding are inverse
      on valid frames and decoding accepts nothing else; the digest of a valid
      frame determines every field it covers.
    - [Expiry], [Support], [Standing], [Boundary] (C4-C8): the
      invariant of every reachable evaluator; the evidence behind CURRENT; the
      exact instant at which it ends; barriers, blindness, regressed clocks
      and inconsistent annotations never leave CURRENT.
    - [Custody] (C9-C11): what may happen to evidence, contradictions and the
      event log.
    - [EscalationProps], [BridgeProps] (C12-C13): when a request is issued,
      that it is deduplicated, when the bridge accepts it, and that the
      evaluator admits the answers of any bridge that keeps the promises of
      the class [DiagnosticBridge], which the stub does.
    - [Lockstep] (C14-C15): tracker and evaluator agree on every steady
      delivery, and three runs outside those conditions on which they do not.
    - [PackageProps], [ActivationProps] (C16-C18): a document has one
      encoding, a verified package is about one manifest, the activation gate
      opens only for a qualified package and an executable whose bytes the
      process hashed (the other measurements are those of the context it is
      given), opens for such a package unless the receipt is too long or
      hashes to zero, and whatever it is given it does not panic.
    - [JournalProps], [JournalCrash], [JournalHistory] (C19-C21): scanning a
      file is an abstract journal of committed frames, a cut file is never
      more history than the whole, appends interrupted at any byte lose
      nothing that was acknowledged, and recovered history can be projected.
    - [RuntimeProps] (C22-C23, C38-C40): CURRENT certificates are backed by a live
      binding and a scheduled expiry and none is stale when [run_until]
      returns; restarts and terminated generations do not recover standing;
      refused inputs withdraw it; the collections of [within] keep their
      bounds; and two behaviours that depart from the intent of the code.
    - [ReactorProps], [ReactorLive] (C24-C29, C37): what a snapshot exposes and that
      it is fresh when it is made, that failures stay latched and a stopped
      reactor stays silent, that answers are about the certificate they name
      and that nobody relies on one past its expiry, that an acknowledged
      output is in the journal's file; and two races ([withdrawal_overwritten]
      is the other) in which the reactor does less, or more, than it means to.
      [LiveTransport]: frames survive the stream.  [LiveSupportProps]:
      what the digests of a response bind.
    - [CustodyReceiverProps], [CustodySenderProps], [CustodyAdmission],
      [CustodyWireProps] (C30-C36): whatever arrives, as long as the
      challenges signed are distinct, no observation is admitted twice, and an admitted one was signed by the accepted sender for
      a live session both ends opened; a sender emits only in a session both
      have signed, and nothing it fills in but the epoch can disagree with what
      the receiver demands; the replay window answers as the list of accepted
      sequences would; signed messages
      survive the wire; a withdrawn certificate is final.  Receipts are never
      released ([exhausted_receipts_end_admission]).

    [RuntimeLogic] is the program logic these proofs use, [RuntimeInvariant]
    the class of invariants that survive every assignment, [RuntimeMethods]
    the proof that every method keeps any such invariant; [RuntimeSafety],
    [RuntimeStanding] and [RuntimeBounds] give the instances.  [DeriveProps],
    [Frame], [Ingestion], [Invariant] carry the evaluator's proofs.
    [ReactorLogic] says what an iteration of the reactor keeps, [ReactorSink]
    what its sink does to the journal, [ReactorInvariant] has the invariant of
    the interleavings.  [CustodyAdmission] says what the receiver's calls leave of
    a session and what an admission establishes.  [Samples], [EvalSamples], [PackageSamples],
    [JournalSamples], [RuntimeSamples], [ReactorSamples],
    [ReactorJournalSamples] and [CustodySamples] hold concrete values on which the definitions are
    evaluated.

    ** Fuel

    Two loops are not structural.  That of [run_until] gets one unit of fuel
    per queued input and per schedule; every step consumes one of them, and a
    step at or before the time asked for schedules only later ones, so the fuel
    suffices (C38).  That of [scan_bytes] gets one unit per byte of the file;
    an iteration that goes on consumes a whole frame ([scan_loop_total]).  The
    loops on a stream recurse on what the kernel answers.

    ** Parameters

    - [Sha256]: the hash of the sha2 crate, with its output size; nothing else
      is assumed of it.  Where a hash of zeros would be refused as a digest, the
      theorem says so of the digests at hand.
    - [FactJson], [CustodyJson]: the JSON text serde_json writes for the
      records whose digest is taken over it.
    - [PackageJson], [ArtifactJson]: the JSON text of the package documents and
      of the artifacts, and the parser of the documents read from outside.
    - [JournalJson]: the JSON text of a journal record and its parser.
      [FileSystem]: which file operation fails and how far a failing write
      got; what was written stays written.
    - [OperatingSystem]: the answers to the system calls of an activation.
    - [RuntimeEnvironment]: these together, with the package version and the
      target platform the runtime was built for.
    - [LiveSupportJson], [ContradictionJson]: the JSON text of a live query's
      records, and of a contradiction's custody.  [DebugText]: the text of a
      string under Rust's [Debug].
    - [CustodyPolicyJson]: the JSON text of keys and policies and its parser.
      [SignatureScheme]: Ed25519 of the ed25519-dalek crate, with the sizes of
      keys and signatures and that what a key signs verifies under its public
      key.  That only the holder of a key can sign for it is assumed nowhere:
      the theorems say that a signature verified, not who made it.
    - [DiagnosticBridge]: any bridge, for the theorems about its clients.

    ** Not modelled

    JSON decoding (serde), the elliptic-curve arithmetic of signatures, the UDP
    socket and the private key file of custody.rs, the agent and the
    command-line programs.  Of the reactor, the qualification
    hooks, the branches for a poisoned mutex and the polling [wait_until].
    The attention evaluator, the remediation programs and the status
    projection are further parts that are not modelled. *)

From stdpp Require Export base gmap sets list strings sorting pretty.
From Stdlib Require Export ZArith Lia Ascii.
From Stdlib Require Import SpecFloat.

Open Scope Z_scope.

(* ------------------------------------------------------------------ *)
(** ** Results: Rust's [Result<A, E>] *)

Inductive result (E A : Type) : Type :=
| Ok (a : A)
| Err (e : E).
Arguments Ok {E A} _.
Arguments Err {E A} _.

#[global] Instance result_ret {E} : MRet (result E) := fun A => Ok.

#[global] Instance result_bind {E} : MBind (result E) :=
  fun A B k r => match r with Ok a => k a | Err e => Err e end.

(** [Result::map_err]. *)
Definition map_err {E F A} (f : E → F) (r : result E A) : result F A :=
  match r with Ok a => Ok a | Err e => Err (f e) end.

(** [if !ok { return Err(e) }]. *)
Definition ensure {E} (ok : bool) (e : E) : result E unit :=
  if ok then Ok tt else Err e.

Definition is_ok {E A} (r : result E A) : bool :=
  match r with Ok _ => true | Err _ => false end.

(** A loop [for x in xs { f(x)?; }]. *)
Fixpoint for_each {E A} (f : A → result E unit) (xs : list A) : result E unit :=
  match xs with
  | [] => Ok tt
  | x :: rest => f x;; for_each f rest
  end.

(* ------------------------------------------------------------------ *)
(** ** Machine integers *)

Definition u16_max : Z := 65535.
Definition u32_max : Z := 4294967295.
Definition u64_max : Z := 18446744073709551615.
(** [isize::MAX]: no slice is longer. *)
Definition i64_max : Z := 9223372036854775807.

Definition is_u16 (z : Z) : bool := (0 <=? z) && (z <=? u16_max).
Definition is_u32 (z : Z) : bool := (0 <=? z) && (z <=? u32_max).
Definition is_u64 (z : Z) : bool := (0 <=? z) && (z <=? u64_max).

(** [u64::saturating_add] and [u64::saturating_sub]. *)
Definition sat_add (a b : Z) : Z := Z.min (a + b) u64_max.
Definition sat_sub (a b : Z) : Z := Z.max (a - b) 0.

(** [u32::try_from(n).unwrap_or(u32::MAX)] and the [u64] version. *)
Definition len_u32 (n : nat) : Z := Z.min (Z.of_nat n) u32_max.
Definition len_u64 (n : nat) : Z := Z.min (Z.of_nat n) u64_max.

(* ------------------------------------------------------------------ *)
(** ** Bytes.  A [Vec<u8>], a [&[u8]] and the bytes of a [String] are all
    Rocq strings: a string is a sequence of 8-bit characters. *)

Definition byte_of (z : Z) : ascii := ascii_of_N (Z.to_N z).
Definition byte_val (c : ascii) : Z := Z.of_N (N_of_ascii c).

(** [len()] of a string or byte slice. *)
Definition slen (s : string) : Z := Z.of_nat (String.length s).

(** [to_be_bytes] of a [k]-byte integer and [from_be_bytes]. *)
Fixpoint be_bytes (k : nat) (z : Z) : string :=
  match k with
  | O => ""
  | S k' => String (byte_of ((z / 256 ^ Z.of_nat k') mod 256)) (be_bytes k' z)
  end.

Fixpoint be_value (s : string) : Z :=
  match s with
  | "" => 0
  | String c rest => byte_val c * 256 ^ Z.of_nat (String.length rest) + be_value rest
  end.

(** [split_at(n)], refused when fewer than [n] bytes remain. *)
Fixpoint str_take (n : nat) (s : string) : option (string * string) :=
  match n, s with
  | O, _ => Some ("", s)
  | S n', String c rest =>
      '(a, b) ← str_take n' rest; Some (String c a, b)
  | S _, "" => None
  end.

(** [str::strip_prefix]. *)
Fixpoint strip_prefix (p s : string) : option string :=
  match p, s with
  | "", _ => Some s
  | String a p', String b s' => if Ascii.eqb a b then strip_prefix p' s' else None
  | String _ _, "" => None
  end.

(** [bytes().all(f)]. *)
Fixpoint str_all (f : ascii → bool) (s : string) : bool :=
  match s with
  | "" => true
  | String c rest => f c && str_all f rest
  end.

(** [str::contains(c)] and [str::split(c)], for an ASCII character. *)
Definition str_contains (c : ascii) (s : string) : bool :=
  negb (str_all (fun d => negb (Ascii.eqb c d)) s).
Fixpoint str_split (c : ascii) (s : string) : list string :=
  match s with
  | "" => [""]
  | String d rest =>
      if Ascii.eqb c d then "" :: str_split c rest
      else match str_split c rest with
           | [] => [String d ""]
           | first :: others => String d first :: others
           end
  end.

(** [concat] of byte chunks and [join] with a separator. *)
Fixpoint str_concat (xs : list string) : string :=
  match xs with
  | [] => ""
  | x :: rest => x +:+ str_concat rest
  end.

Fixpoint str_join (sep : string) (xs : list string) : string :=
  match xs with
  | [] => ""
  | [x] => x
  | x :: rest => x +:+ sep +:+ str_join sep rest
  end.

(* ------------------------------------------------------------------ *)
(** ** UTF-8.  [utf8_chars] follows the validation table of
    [core::str::from_utf8]: it returns the scalar values, or [None] where
    [from_utf8] returns an error. *)

Definition cont_byte (b : Z) : bool := (128 <=? b) && (b <=? 191).

Definition second_of_three (b0 b1 : Z) : bool :=
  if b0 =? 224 then (160 <=? b1) && (b1 <=? 191)
  else if b0 =? 237 then (128 <=? b1) && (b1 <=? 159)
  else cont_byte b1.

Definition second_of_four (b0 b1 : Z) : bool :=
  if b0 =? 240 then (144 <=? b1) && (b1 <=? 191)
  else if b0 =? 244 then (128 <=? b1) && (b1 <=? 143)
  else cont_byte b1.

Fixpoint utf8_chars (s : string) : option (list Z) :=
  match s with
  | "" => Some []
  | String c0 s0 =>
    let b0 := byte_val c0 in
    if b0 <? 128 then cons b0 <$> utf8_chars s0 else
    match s0 with
    | "" => None
    | String c1 s1 =>
      let b1 := byte_val c1 in
      if (194 <=? b0) && (b0 <=? 223) then
        if cont_byte b1
        then cons ((b0 - 192) * 64 + (b1 - 128)) <$> utf8_chars s1 else None
      else
      match s1 with
      | "" => None
      | String c2 s2 =>
        let b2 := byte_val c2 in
        if (224 <=? b0) && (b0 <=? 239) then
          if second_of_three b0 b1 && cont_byte b2
          then cons ((b0 - 224) * 4096 + (b1 - 128) * 64 + (b2 - 128)) <$> utf8_chars s2
          else None
        else
        match s2 with
        | "" => None
        | String c3 s3 =>
          let b3 := byte_val c3 in
          if (240 <=? b0) && (b0 <=? 244) then
            if second_of_four b0 b1 && cont_byte b2 && cont_byte b3
            then cons ((b0 - 240) * 262144 + (b1 - 128) * 4096
                       + (b2 - 128) * 64 + (b3 - 128)) <$> utf8_chars s3
            else None
          else None
        end
      end
    end
  end.

(** The invariant of Rust's [String]: its bytes are valid UTF-8. *)
Definition is_utf8 (s : string) : bool :=
  match utf8_chars s with Some _ => true | None => false end.

(** [char::is_control]: general category Cc. *)
Definition is_control (ch : Z) : bool := (ch <? 32) || ((127 <=? ch) && (ch <=? 159)).

(** [value.chars().any(char::is_control)]. *)
Definition has_control (s : string) : bool :=
  match utf8_chars s with
  | Some cs => existsb is_control cs
  | None => false
  end.

(* ------------------------------------------------------------------ *)
(** ** Formatting *)

(** [{}] of an unsigned integer. *)
Definition dec (z : Z) : string := pretty (Z.to_N z).

Definition hex_digit (z : Z) : ascii :=
  if z <? 10 then byte_of (48 + z) else byte_of (87 + z).

(** The [k] low hexadecimal digits of [z], most significant first. *)
Fixpoint hex_digits (k : nat) (z : Z) : string :=
  match k with
  | O => ""
  | S k' => String (hex_digit ((z / 16 ^ Z.of_nat k') mod 16)) (hex_digits k' z)
  end.

(** [{:016x}] of a [u64]: sixteen digits hold every value of the type. *)
Definition hex16 (z : Z) : string := hex_digits 16 z.

(** Two lower-case hexadecimal digits per byte. *)
Fixpoint hex_encode (s : string) : string :=
  match s with
  | "" => ""
  | String c rest =>
      String (hex_digit (byte_val c / 16))
        (String (hex_digit (byte_val c mod 16)) (hex_encode rest))
  end.

(** [trim_start_matches(p)] for a non-empty [p]: every leading copy goes.
    Each copy removed shortens the string, so its length bounds the loop. *)
Fixpoint trim_start_fuel (fuel : nat) (p s : string) : string :=
  match fuel with
  | O => s
  | S fuel' =>
      match strip_prefix p s with
      | Some rest => trim_start_fuel fuel' p rest
      | None => s
      end
  end.
Definition trim_start_matches (p s : string) : string :=
  trim_start_fuel (String.length s) p s.

(* ------------------------------------------------------------------ *)
(** ** IEEE binary64.  An [f64] is its bit pattern ([to_bits]). *)

Definition f64_exponent (b : Z) : Z := (b / 2 ^ 52) mod 2048.
Definition f64_mantissa (b : Z) : Z := b mod 2 ^ 52.
Definition f64_negative (b : Z) : bool := Z.testbit b 63.

Definition f64_is_finite (b : Z) : bool := negb (f64_exponent b =? 2047).

Definition f64_decode (b : Z) : spec_float :=
  let s := f64_negative b in
  let e := f64_exponent b in
  let m := f64_mantissa b in
  if e =? 2047 then if m =? 0 then S754_infinity s else S754_nan
  else
    let m' := if e =? 0 then m else m + 2 ^ 52 in
    let e' := if e =? 0 then -1074 else e - 1075 in
    match m' with
    | Z.pos p => S754_finite s p e'
    | _ => S754_zero s
    end.

(** [(a - b).abs() > limit] and [v < 0.0]. *)
Definition f64_abs_diff_gt (a b limit : Z) : bool :=
  SFltb (f64_decode limit) (SFabs (SFsub 53 1024 (f64_decode a) (f64_decode b))).
Definition f64_is_negative_number (v : Z) : bool :=
  SFltb (f64_decode v) (S754_zero false).

(** [{}] of an [f64]: the shortest decimal that reads back as the value,
    written without an exponent, as [core::num::flt2dec] produces it.  The
    record is its [Decoded] value [mant * 2^exp] with the half-gaps to the
    neighbours. *)
Record f64_decoded := F64Decoded
  { dec_mant : Z; dec_minus : Z; dec_plus : Z; dec_exp : Z; dec_inclusive : bool }.

Definition f64_full_decode (b : Z) : f64_decoded :=
  let e := f64_exponent b in
  let frac := f64_mantissa b in
  if e =? 0 then F64Decoded (2 * frac) 1 1 (-1075) true
  else
    let m := frac + 2 ^ 52 in
    if frac =? 0 then F64Decoded (4 * m) 1 2 (e - 1077) (Z.even m)
    else F64Decoded (2 * m) 1 1 (e - 1076) (Z.even m).

(** One digit position: the digits of the value divided by [10^p], and
    whether truncation or rounding up stays within the neighbours' gap. *)
Definition f64_digits_at (d : f64_decoded) (p : Z) : option Z :=
  let up2 := 2 ^ Z.max (dec_exp d) 0 * 10 ^ Z.max (- p) 0 in
  let scale := 2 ^ Z.max (- dec_exp d) 0 * 10 ^ Z.max p 0 in
  let v := dec_mant d * up2 in
  let q := v / scale in
  let r := v mod scale in
  let minus := dec_minus d * up2 in
  let plus := dec_plus d * up2 in
  let down := if dec_inclusive d then r <=? minus else r <? minus in
  let up := if dec_inclusive d then scale <=? r + plus else scale <? r + plus in
  if up && (negb down || (scale <=? 2 * r)) then Some (q + 1)
  else if down then Some q else None.

(** Positions are tried from above the leading digit; seventeen significant
    digits always identify a binary64 value, so 24 positions suffice. *)
Fixpoint f64_shortest (fuel : nat) (d : f64_decoded) (p : Z) : Z * Z :=
  match fuel with
  | O => (0, p)
  | S fuel' =>
      match f64_digits_at d p with
      | Some q => (q, p)
      | None => f64_shortest fuel' d (p - 1)
      end
  end.

Definition zeros (n : Z) : string := str_concat (replicate (Z.to_nat n) "0").

Definition decimal_point (digits : string) (p : Z) : string :=
  if 0 <=? p then digits +:+ zeros p
  else
    let n := slen digits in
    if - p <? n then
      match str_take (Z.to_nat (n + p)) digits with
      | Some (whole, frac) => whole +:+ "." +:+ frac
      | None => digits
      end
    else "0." +:+ zeros (- p - n) +:+ digits.

Definition f64_display (b : Z) : string :=
  if f64_exponent b =? 2047 then
    if negb (f64_mantissa b =? 0) then "NaN"
    else if f64_negative b then "-inf" else "inf"
  else
    let sign := if f64_negative b then "-" else "" in
    let d := f64_full_decode b in
    if dec_mant d =? 0 then sign +:+ "0"
    else
      let p0 := (Z.log2 (dec_mant d) + dec_exp d) * 30103 / 100000 + 2 in
      let '(q, p) := f64_shortest 24 d p0 in
      sign +:+ decimal_point (dec q) p.

(* ------------------------------------------------------------------ *)
(** ** Ordered collections.  A [BTreeMap<String-like, V>] is a [gmap string V];
    iteration visits its entries in increasing key order. *)

Definition entry_le {V} (a b : string * V) : Prop := String.le a.1 b.1.

#[global] Instance entry_le_dec {V} : RelDecision (@entry_le V).
Proof. intros a b. unfold entry_le. apply _. Defined.

Definition bt_entries {V} (m : gmap string V) : list (string * V) :=
  merge_sort entry_le (map_to_list m).
Definition bt_values {V} (m : gmap string V) : list V := snd <$> bt_entries m.

(** [slice::sort] on strings and [Vec::dedup] (adjacent equal elements). *)
Definition sort_strings (xs : list string) : list string := merge_sort String.le xs.

Fixpoint dedup (xs : list string) : list string :=
  match xs with
  | [] => []
  | x :: rest =>
      match dedup rest with
      | [] => [x]
      | y :: ys => if decide (x = y) then y :: ys else x :: y :: ys
      end
  end.

(** [windows(2).any(|p| p[0] >= p[1])] negated: strictly increasing. *)
Fixpoint strictly_sorted (xs : list string) : bool :=
  match xs with
  | x :: ((y :: _) as rest) => String.ltb x y && strictly_sorted rest
  | _ => true
  end.

(** Derived [Ord] on structs: the fields in order. *)
Definition lex (c d : comparison) : comparison := match c with Eq => d | _ => c end.

(** The same for any order: [windows(2).any(|p| p[0] >= p[1])] negated. *)
Fixpoint sorted_by {A} (cmp : A → A → comparison) (xs : list A) : bool :=
  match xs with
  | x :: ((y :: _) as rest) => match cmp x y with Lt => sorted_by cmp rest | _ => false end
  | _ => true
  end.

(** [slice::binary_search(x).is_ok()]: the halving loop of the standard
    library, [size] shrinking to one around the last element not above [x]. *)
Fixpoint bs_loop (fuel : nat) (xs : list string) (x : string) (base size : nat) : nat :=
  match fuel with
  | O => base
  | S fuel' =>
      if Nat.leb size 1 then base
      else
        let half := Nat.div2 size in
        let mid := (base + half)%nat in
        let base' :=
          match xs !! mid with
          | Some y => if String.leb y x then mid else base
          | None => base
          end in
        bs_loop fuel' xs x base' (size - half)
  end.

Definition binary_search (xs : list string) (x : string) : bool :=
  match xs with
  | [] => false
  | _ => bool_decide (xs !! bs_loop (length xs) xs x 0 (length xs) = Some x)
  end.

(* ------------------------------------------------------------------ *)
(** ** Tactics and hint databases *)

Create HintDb pulse.

Ltac split_and_bool :=
  repeat match goal with
  | H : _ && _ = true |- _ => apply andb_true_iff in H; destruct H
  | H : _ || _ = false |- _ => apply orb_false_iff in H; destruct H
  | H : negb _ = true |- _ => apply negb_true_iff in H
  | H : negb _ = false |- _ => apply negb_false_iff in H
  end.

(** Case on the innermost scrutinee of the first [match] of the goal. *)
Ltac case_goal :=
  match goal with
  | |- context [ match ?x with _ => _ end ] =>
      lazymatch x with
      | context [ match _ with _ => _ end ] => fail
      | _ => destruct x eqn:?
      end
  end.

Ltac case_in H :=
  match type of H with
  | context [ match ?x with _ => _ end ] =>
      lazymatch x with
      | context [ match _ with _ => _ end ] => fail
      | _ => destruct x eqn:?
      end
  end.

(* ------------------------------------------------------------------ *)
(** ** Lemmas on results *)

Lemma bind_Ok {E A B} (m : result E A) (k : A → result E B) b :
  (m ≫= k) = Ok b ↔ ∃ a, m = Ok a ∧ k a = Ok b.
Proof. destruct m; cbn; naive_solver. Qed.

Lemma map_err_Ok {E F A} (f : E → F) (r : result E A) a :
  map_err f r = Ok a ↔ r = Ok a.
Proof. destruct r; cbn; naive_solver. Qed.

Lemma ensure_Ok {E} b (e : E) u : ensure b e = Ok u ↔ b = true.
Proof. destruct b, u; cbn; naive_solver. Qed.

Lemma for_each_Ok {E A} (f : A → result E unit) xs u :
  for_each f xs = Ok u ↔ Forall (λ x, f x = Ok tt) xs.
Proof.
  destruct u. induction xs as [|x rest IH]; cbn; [naive_solver|].
  rewrite Forall_cons. destruct (f x) as [[]|]; cbn; naive_solver.
Qed.

(** [is_some()]; its lemma turns an evaluated test into a value. *)
Definition has_value {A} (o : option A) : bool := match o with Some _ => true | None => false end.

Lemma has_value_true {A} (o : option A) : has_value o = true → ∃ a, o = Some a.
Proof. destruct o; [eauto|done]. Qed.

Lemma is_ok_unit {E} (r : result E unit) : is_ok r = true → r = Ok tt.
Proof. by destruct r as [[]|]. Qed.

Lemma forallb_Forall {A} (f : A → bool) xs :
  forallb f xs = true ↔ Forall (λ x, f x = true) xs.
Proof. rewrite forallb_forall, Forall_forall. setoid_rewrite list_elem_of_In. done. Qed.

(** Peel the binds of a computation known to succeed. *)
Ltac inv_ok H :=
  repeat lazymatch type of H with
  | (_ ≫= _) = Ok _ =>
      let a := fresh "a" in let Ha := fresh "Hok" in
      apply bind_Ok in H; destruct H as (a & Ha & H);
      try (destruct a as []; [])
  | ensure _ _ = Ok _ => apply ensure_Ok in H
  | map_err _ _ = Ok _ => apply map_err_Ok in H
  end.

(** The same on every hypothesis, turning guards into boolean equations. *)
Ltac inv_oks :=
  repeat match goal with
  | H : (_ ≫= _) = Ok _ |- _ => inv_ok H
  | H : ensure _ _ = Ok _ |- _ => apply ensure_Ok in H
  | H : map_err _ _ = Ok _ |- _ => apply map_err_Ok in H
  end.

(* ------------------------------------------------------------------ *)
(** ** Lemmas on strings and bytes *)

Lemma str_app_cons c a b : String c a +:+ b = String c (a +:+ b).
Proof. reflexivity. Qed.

Lemma str_app_nil_l s : "" +:+ s = s.
Proof. reflexivity. Qed.

Lemma str_app_nil_r s : s +:+ "" = s.
Proof. induction s as [|c s IH]; [done|]. rewrite str_app_cons. by f_equal. Qed.

Lemma str_app_assoc a b c : (a +:+ b) +:+ c = a +:+ (b +:+ c).
Proof. induction a as [|x a IH]; [done|]. rewrite !str_app_cons. by f_equal. Qed.

Lemma str_length_app a b :
  String.length (a +:+ b) = (String.length a + String.length b)%nat.
Proof. induction a as [|x a IH]; [done|]. rewrite str_app_cons. cbn. by rewrite IH. Qed.

Lemma slen_app a b : slen (a +:+ b) = slen a + slen b.
Proof. unfold slen. rewrite str_length_app. lia. Qed.

Lemma slen_nonneg s : 0 <= slen s.
Proof. unfold slen. lia. Qed.

Lemma slen_nil s : slen s = 0 → s = "".
Proof. destruct s; [done|]. unfold slen. cbn. lia. Qed.

Lemma str_app_inj_len a1 a2 b1 b2 :
  String.length a1 = String.length a2 →
  a1 +:+ b1 = a2 +:+ b2 → a1 = a2 ∧ b1 = b2.
Proof.
  revert a2. induction a1 as [|x a1 IH]; intros [|y a2] Hlen; try discriminate Hlen; [done|].
  rewrite !str_app_cons. intros [= -> H]. injection Hlen as Hlen.
  by destruct (IH _ Hlen H) as [-> ->].
Qed.

Lemma byte_val_range c : 0 <= byte_val c < 256.
Proof. unfold byte_val. pose proof (N_ascii_bounded c). lia. Qed.

Lemma byte_val_of z : 0 <= z < 256 → byte_val (byte_of z) = z.
Proof. intros Hz. unfold byte_val, byte_of. rewrite N_ascii_embedding; lia. Qed.

Lemma byte_of_val c : byte_of (byte_val c) = c.
Proof. unfold byte_val, byte_of. rewrite N2Z.id. apply ascii_N_embedding. Qed.

Lemma be_bytes_length k z : String.length (be_bytes k z) = k.
Proof. induction k; cbn; congruence. Qed.

Lemma be_value_range s : 0 <= be_value s < 256 ^ Z.of_nat (String.length s).
Proof.
  induction s as [|c s IH]; cbn [be_value String.length]; [cbn; lia|].
  pose proof (byte_val_range c).
  replace (Z.of_nat (S (String.length s))) with (Z.of_nat (String.length s) + 1) by lia.
  rewrite Z.pow_add_r by lia. nia.
Qed.

Lemma be_value_be_bytes k z : 0 <= z → be_value (be_bytes k z) = z mod 256 ^ Z.of_nat k.
Proof.
  intros Hz. induction k as [|k IH]; cbn [be_bytes be_value].
  { cbn. by rewrite Z.mod_1_r. }
  pose proof (Z.mod_pos_bound (z / 256 ^ Z.of_nat k) 256).
  rewrite byte_val_of by lia. rewrite be_bytes_length, IH.
  replace (Z.of_nat (S k)) with (Z.of_nat k + 1) by lia.
  rewrite Z.pow_add_r by lia. change (256 ^ 1) with 256.
  assert (0 < 256 ^ Z.of_nat k) by (apply Z.pow_pos_nonneg; lia).
  rewrite (Z.rem_mul_r z) by lia. lia.
Qed.

Lemma be_roundtrip k z : 0 <= z < 256 ^ Z.of_nat k → be_value (be_bytes k z) = z.
Proof. intros Hz. rewrite be_value_be_bytes by lia. by apply Z.mod_small. Qed.

Lemma be_bytes_mod k z m :
  0 <= m → 0 <= z < 256 ^ Z.of_nat k →
  be_bytes k (m * 256 ^ Z.of_nat k + z) = be_bytes k z.
Proof.
  revert z m. induction k as [|k IH]; intros z m Hm Hz; cbn [be_bytes]; [done|].
  replace (Z.of_nat (S k)) with (Z.of_nat k + 1) in * by lia.
  rewrite Z.pow_add_r in * by lia. change (256 ^ 1) with 256 in *.
  set (p := 256 ^ Z.of_nat k) in *.
  assert (0 < p) by (apply Z.pow_pos_nonneg; lia).
  assert (Hdiv : z = (z / p) * p + z mod p) by (pose proof (Z.div_mod z p); lia).
  pose proof (Z.mod_pos_bound z p ltac:(lia)) as Hmod.
  assert (0 <= z / p) by (apply Z.div_pos; lia).
  f_equal.
  - f_equal. replace (m * (p * 256) + z) with (z + (m * 256) * p) by ring.
    rewrite Z.div_add by lia. replace (z / p + m * 256) with (z / p + m * 256) by ring.
    by rewrite Z.mod_add by lia.
  - rewrite Hdiv at 2. rewrite (IH (z mod p) (z / p)) by lia.
    replace (m * (p * 256) + z) with ((m * 256 + z / p) * p + z mod p) by lia.
    apply IH; lia.
Qed.

Lemma be_bytes_be_value s : be_bytes (String.length s) (be_value s) = s.
Proof.
  induction s as [|c s IH]; cbn [be_value String.length be_bytes]; [done|].
  pose proof (be_value_range s). pose proof (byte_val_range c).
  set (p := 256 ^ Z.of_nat (String.length s)) in *.
  f_equal.
  - rewrite Z.div_add_l by lia. rewrite Z.div_small by lia.
    rewrite Z.mod_small by lia. rewrite Z.add_0_r. apply byte_of_val.
  - rewrite be_bytes_mod; [done|lia|done].
Qed.

Lemma str_take_app a b : str_take (String.length a) (a +:+ b) = Some (a, b).
Proof.
  induction a as [|c a IH]; [by destruct b|].
  rewrite str_app_cons. cbn. by rewrite IH.
Qed.

Lemma str_take_Some n s a b :
  str_take n s = Some (a, b) ↔ s = a +:+ b ∧ String.length a = n.
Proof.
  split.
  - revert s a b. induction n as [|n IH]; intros s a b; cbn.
    + intros [= <- <-]. done.
    + destruct s as [|c s]; [done|].
      destruct (str_take n s) as [[x y]|] eqn:E; cbn; [|done].
      intros [= <- <-]. apply IH in E as [-> <-]. by rewrite str_app_cons.
  - intros [-> <-]. apply str_take_app.
Qed.

(** Slices [s[i..i + n]] of a byte string. *)
Lemma substring_0 s : String.substring 0 0 s = "".
Proof. by destruct s. Qed.
Lemma substring_skip a b i n :
  String.substring (String.length a + i) n (a +:+ b) = String.substring i n b.
Proof. induction a as [|c a IH]; [done|]. rewrite str_app_cons. exact IH. Qed.
Lemma substring_take a b : String.substring 0 (String.length a) (a +:+ b) = a.
Proof.
  induction a as [|c a IH]; [apply substring_0|]. rewrite str_app_cons. cbn. by rewrite IH.
Qed.
Lemma substring_mid a b c i n :
  i = String.length a → n = String.length b → String.substring i n (a +:+ b +:+ c) = b.
Proof.
  intros -> ->. rewrite <- (Nat.add_0_r (String.length a)), substring_skip. apply substring_take.
Qed.
Lemma substring_split s i m n :
  String.substring i (m + n) s = String.substring i m s +:+ String.substring (i + m) n s.
Proof.
  revert i m. induction s as [|c s IH]; intros i m.
  - by destruct i, m, n.
  - destruct i as [|i]; [|apply IH]. destruct m as [|m]; [by destruct n|].
    cbn. rewrite str_app_cons. f_equal. apply (IH 0%nat).
Qed.
Lemma substring_all s : String.substring 0 (String.length s) s = s.
Proof. induction s as [|c s IH]; [done|]. cbn. by rewrite IH. Qed.
Lemma substring_length s i n :
  (i + n <= String.length s)%nat → String.length (String.substring i n s) = n.
Proof.
  revert i n. induction s as [|c s IH]; intros i n Hn; cbn in Hn.
  - by destruct i, n; try lia.
  - destruct i as [|i]; [|cbn; apply IH; lia]. destruct n as [|n]; [done|]. cbn. f_equal.
    apply (IH 0%nat). lia.
Qed.
Lemma str_take_extend n s t a b : str_take n s = Some (a, b) → str_take n (s +:+ t) = Some (a, b +:+ t).
Proof. rewrite !str_take_Some. intros [-> <-]. by rewrite str_app_assoc. Qed.
Lemma str_take_None n s : str_take n s = None ↔ (String.length s < n)%nat.
Proof.
  revert s. induction n as [|n IH]; intros s; [split; [done|lia]|]. destruct s as [|c s]; cbn.
  - split; [lia|done].
  - rewrite <- Nat.succ_lt_mono, <- IH. destruct (str_take n s) as [[]|]; done.
Qed.
Lemma str_app_prefix a b m t :
  a +:+ b = m +:+ t → (String.length m <= String.length a)%nat → ∃ a', a = m +:+ a'.
Proof.
  revert a. induction m as [|c m IH]; intros a; [by exists a|].
  destruct a as [|d a]; cbn [String.length]; [lia|]. rewrite !str_app_cons. intros [= -> E] Hle.
  destruct (IH a E) as [a' ->]; [lia|]. by exists a'.
Qed.
Lemma strip_prefix_Some p s t : strip_prefix p s = Some t ↔ s = p +:+ t.
Proof.
  revert s. induction p as [|a p IH]; intros s; cbn [strip_prefix].
  - rewrite str_app_nil_l. split; congruence.
  - destruct s as [|b s]; [done|]. rewrite str_app_cons. destruct (Ascii.eqb_spec a b) as [->|Hne].
    + rewrite IH. split; congruence.
    + split; [done|congruence].
Qed.
(** [str_prefix n]: the first bytes of a string, all of them past the end. *)
Lemma substring_prefix s n :
  ∃ t, s = String.substring 0 n s +:+ t
       ∧ (String.length (String.substring 0 n s) = n ∨ t = "").
Proof.
  revert n. induction s as [|c s IH]; intros n; [exists ""; destruct n; auto|].
  destruct n as [|n]; [exists (String c s); auto|].
  destruct (IH n) as (t&Hs&Hn). exists t. cbn. rewrite str_app_cons, <- Hs. split; [done|].
  destruct Hn as [Hn|]; [left; by rewrite Hn|by right].
Qed.

(* ------------------------------------------------------------------ *)
(** ** Lemmas on the order of strings *)

Lemma str_compare_refl s : String.compare s s = Eq.
Proof.
  induction s as [|c s IH]; cbn; [done|].
  unfold Ascii.compare. by rewrite N.compare_refl.
Qed.

Lemma str_leb_le a b : String.leb a b = true ↔ String.le a b.
Proof. unfold String.le. symmetry. apply Is_true_true. Qed.

Lemma str_ltb_lt a b : String.ltb a b = true ↔ String.le a b ∧ a ≠ b.
Proof.
  rewrite <-str_leb_le. unfold String.ltb, String.leb.
  destruct (String.compare a b) eqn:E; split; try done.
  - intros [_ Hne]. by apply String.compare_eq_iff in E.
  - intros _. split; [done|]. intros ->. by rewrite str_compare_refl in E.
  - by intros [? _].
Qed.

Lemma str_ltb_trans a b c :
  String.ltb a b = true → String.ltb b c = true → String.ltb a c = true.
Proof.
  rewrite !str_ltb_lt. intros [Hab Hne] [Hbc Hne']. split; [by etrans|].
  intros ->. apply Hne'. by apply (anti_symm String.le).
Qed.

Lemma str_ltb_irrefl a : String.ltb a a = false.
Proof. unfold String.ltb. by rewrite str_compare_refl. Qed.

Lemma str_ltb_leb a b : String.ltb a b = true → String.leb b a = false.
Proof.
  rewrite str_ltb_lt. intros [Hle Hne]. apply not_true_iff_false. rewrite str_leb_le.
  intros Hle'. apply Hne. by apply (anti_symm String.le).
Qed.

Lemma str_leb_false_ltb a b : String.leb a b = false → String.ltb b a = true.
Proof.
  unfold String.leb, String.ltb. rewrite (String.compare_antisym b a).
  by destruct (String.compare a b).
Qed.

Lemma strictly_sorted_cons x xs :
  strictly_sorted (x :: xs) = true ↔
  strictly_sorted xs = true ∧ Forall (λ y, String.ltb x y = true) xs.
Proof.
  revert x. induction xs as [|y xs IH]; intros x; [cbn; naive_solver|].
  change (strictly_sorted (x :: y :: xs)) with (String.ltb x y && strictly_sorted (y :: xs)).
  rewrite andb_true_iff, Forall_cons. split.
  - intros [Hxy Hs]. split; [done|]. split; [done|].
    apply IH in Hs as [_ Hall]. eapply Forall_impl; [exact Hall|].
    intros z Hz. by eapply str_ltb_trans.
  - intros [Hs [Hxy _]]. done.
Qed.

Lemma strictly_sorted_lookup xs i j a b :
  strictly_sorted xs = true → (i < j)%nat →
  xs !! i = Some a → xs !! j = Some b → String.ltb a b = true.
Proof.
  revert i j. induction xs as [|x xs IH]; intros i j Hs Hij Ha Hb; [done|].
  apply strictly_sorted_cons in Hs as [Hs Hall].
  destruct j as [|j]; [lia|]. destruct i as [|i]; cbn in *.
  - simplify_eq. rewrite Forall_lookup in Hall. eauto.
  - eapply (IH i j); eauto with lia.
Qed.

(** The halving loop keeps every index of [x] inside its window and narrows
    the window to one index within [size] rounds. *)
Lemma bs_loop_spec fuel xs x base size i :
  strictly_sorted xs = true →
  (1 <= size <= fuel)%nat → (base + size <= length xs)%nat →
  xs !! i = Some x → (base <= i < base + size)%nat →
  bs_loop fuel xs x base size = i.
Proof.
  intros Hs. revert base size. induction fuel as [|fuel IH];
    intros base size Hsz Hlen Hx Hi; [lia|].
  cbn [bs_loop]. destruct (Nat.leb_spec size 1) as [Hle|Hgt]; [lia|].
  assert (Hh : (1 <= Nat.div2 size /\ 2 * Nat.div2 size <= size)%nat).
  { rewrite Nat.div2_div.
    pose proof (Nat.div_mod_eq size 2). pose proof (Nat.mod_upper_bound size 2). lia. }
  destruct Hh as [Hh1 Hh2].
  destruct (lookup_lt_is_Some_2 xs (base + Nat.div2 size)) as [y Hy]; [lia|]. rewrite Hy.
  destruct (String.leb y x) eqn:Hc.
  - apply IH; try lia; try done.
    destruct (decide (i < base + Nat.div2 size)%nat) as [Hlt|]; [|lia].
    pose proof (str_ltb_leb _ _ (strictly_sorted_lookup _ _ _ _ _ Hs Hlt Hx Hy)). congruence.
  - assert (i < base + Nat.div2 size)%nat; [|apply IH; try lia; done].
    destruct (decide (i < base + Nat.div2 size)%nat); [done|].
    assert (i = base + Nat.div2 size ∨ base + Nat.div2 size < i)%nat as [->|Hlt] by lia.
    + rewrite Hx in Hy. injection Hy as ->.
      pose proof (str_leb_false_ltb _ _ Hc) as Hz. by rewrite str_ltb_irrefl in Hz.
    + pose proof (strictly_sorted_lookup _ _ _ _ _ Hs Hlt Hy Hx) as Hz.
      apply str_ltb_lt in Hz as [Hz _]. apply str_leb_le in Hz. congruence.
Qed.

Lemma binary_search_correct xs x :
  strictly_sorted xs = true → binary_search xs x = true ↔ x ∈ xs.
Proof.
  intros Hs. unfold binary_search. destruct xs as [|y ys]; [split; [done|inversion 1]|].
  rewrite bool_decide_eq_true, list_elem_of_lookup. split; [eauto|].
  intros [i Hi]. erewrite (bs_loop_spec _ (y :: ys) x 0 (length (y :: ys)) i);
    [done|done|cbn; lia|lia|done|]. apply lookup_lt_Some in Hi. lia.
Qed.

(* ------------------------------------------------------------------ *)
(** ** Lemmas on ordered maps *)

#[global] Instance entry_le_total {V} : Total (@entry_le V).
Proof. intros a b. apply (total String.le). Qed.

#[global] Instance entry_le_trans {V} : Transitive (@entry_le V).
Proof. intros a b c. unfold entry_le. intros. by etrans. Qed.

Lemma bt_entries_Permutation {V} (m : gmap string V) : bt_entries m ≡ₚ map_to_list m.
Proof. apply merge_sort_Permutation. Qed.

Lemma elem_of_bt_entries {V} (m : gmap string V) k v :
  (k, v) ∈ bt_entries m ↔ m !! k = Some v.
Proof. by rewrite bt_entries_Permutation, elem_of_map_to_list. Qed.

Lemma elem_of_bt_values {V} (m : gmap string V) v :
  v ∈ bt_values m ↔ ∃ k, m !! k = Some v.
Proof.
  unfold bt_values. rewrite list_elem_of_fmap. split.
  - intros [[k w] [-> H]]. exists k. by apply elem_of_bt_entries.
  - intros [k H]. exists (k, v). split; [done|]. by apply elem_of_bt_entries.
Qed.

Lemma bt_entries_keys_NoDup {V} (m : gmap string V) : NoDup (bt_entries m).*1.
Proof. rewrite bt_entries_Permutation. apply NoDup_fst_map_to_list. Qed.

Lemma bt_entries_sorted {V} (m : gmap string V) : StronglySorted entry_le (bt_entries m).
Proof. apply StronglySorted_merge_sort; apply _. Qed.

Lemma bt_values_empty {V} : bt_values (∅ : gmap string V) = [].
Proof. unfold bt_values, bt_entries. by rewrite map_to_list_empty. Qed.

#[global] Arguments be_bytes : simpl never.
#[global] Arguments be_value : simpl never.
#[global] Arguments utf8_chars : simpl never.
