(* ===== verification/Ids.v ===== *)
(** * Identities: [crates/pulse-types/src/ids.rs]

    The identity newtypes are transparent wrappers of [String], so each is a
    notation for [string]; [validate_identity] is the one check they share. *)

From S2P Require Import Prelude.

Abbreviation SubjectId := string (only parsing).
Abbreviation ObserverId := string (only parsing).
Abbreviation ReceiverId := string (only parsing).
Abbreviation IncarnationId := string (only parsing).
Abbreviation ClockId := string (only parsing).
Abbreviation PolicyGenerationId := string (only parsing).
Abbreviation ObservationPolicyGenerationId := string (only parsing).
Abbreviation EvidenceWindowId := string (only parsing).
Abbreviation TransitionId := string (only parsing).
Abbreviation ContradictionId := string (only parsing).
Abbreviation EscalationRequestId := string (only parsing).
Abbreviation DiagnosticRunId := string (only parsing).
Abbreviation DiagnosticReceiptId := string (only parsing).
Abbreviation BridgeId := string (only parsing).
Abbreviation ConsumerId := string (only parsing).
Abbreviation SparseEventId := string (only parsing).
Abbreviation ConsumerProfileGenerationId := string (only parsing).
Abbreviation EvaluatorSemanticGenerationId := string (only parsing).
Abbreviation ObserverSetGenerationId := string (only parsing).
Abbreviation ContextActivationId := string (only parsing).
Abbreviation SupportCertificateId := string (only parsing).
Abbreviation RuntimeRefusalId := string (only parsing).

(** [lib.rs]: the schema version shared by the v1 records. *)
Definition SCHEMA_VERSION_V1 : Z := 1.

Definition MAX_IDENTITY_BYTES : Z := 160.

Record IdentityError := mkIdentityError { ie_field : string; ie_reason : string }.

Definition validate_identity (field value : string) : result IdentityError unit :=
  ensure (negb (slen value =? 0)) (mkIdentityError field "identity is empty");;
  ensure (negb (MAX_IDENTITY_BYTES <? slen value))
    (mkIdentityError field "identity exceeds the byte bound");;
  ensure (negb (has_control value))
    (mkIdentityError field "identity contains a control character").

Record SubjectScopeV1 := mkSubjectScope
  { ss_subject : SubjectId; ss_subject_incarnation : IncarnationId; ss_scope : string }.

#[global] Instance SubjectScopeV1_eq_dec : EqDecision SubjectScopeV1.
Proof. solve_decision. Defined.

(** [Display] of [IdentityError]. *)
Definition identity_error_display (e : IdentityError) : string :=
  "invalid " +:+ ie_field e +:+ ": " +:+ ie_reason e.

(** [SubjectScopeV1::validate]. *)
Definition subject_scope_validate (s : SubjectScopeV1) : result IdentityError unit :=
  validate_identity "SubjectId" (ss_subject s);;
  validate_identity "IncarnationId" (ss_subject_incarnation s);;
  validate_identity "subject scope" (ss_scope s).

(** What the check means, whatever field name is reported. *)
Definition valid_identity (value : string) : bool :=
  negb (slen value =? 0) && negb (MAX_IDENTITY_BYTES <? slen value) && negb (has_control value).

Lemma validate_identity_Ok field value :
  validate_identity field value = Ok tt ↔ valid_identity value = true.
Proof.
  unfold validate_identity, valid_identity.
  destruct (slen value =? 0); cbn; [done|].
  destruct (MAX_IDENTITY_BYTES <? slen value); cbn; [done|].
  by destruct (has_control value).
Qed.

Lemma valid_identity_bound value :
  valid_identity value = true → 1 <= slen value <= MAX_IDENTITY_BYTES.
Proof. unfold valid_identity. intros H. split_and_bool. pose proof (slen_nonneg value). lia. Qed.

#[export] Hint Resolve valid_identity_bound : pulse.
