(* ===== verification/Digest.v ===== *)
(** * Digests: [crates/pulse-types/src/digest.rs]

    [digest_parts] hashes a length-delimited transcript and prints the hash
    in lower-case hexadecimal.  SHA-256 itself is the [sha2] crate, code that
    is not part of the repository: it is the operation of the class [Sha256],
    whose law is the documented output size. *)

From S2P Require Import Prelude.

Class Sha256 := {
  sha256 : string → string;
  sha256_length : ∀ s, String.length (sha256 s) = 32%nat;
}.

Abbreviation DigestV1 := string (only parsing).

Definition canonical_hex (c : ascii) : bool :=
  let b := byte_val c in ((48 <=? b) && (b <=? 57)) || ((97 <=? b) && (b <=? 102)).

(** [DigestV1::validate]; the error is the message of [DigestError]. *)
Definition digest_validate (d : DigestV1) : result string unit :=
  match strip_prefix "sha256:" d with
  | None => Err "digest has no sha256 prefix"
  | Some hex =>
      ensure (slen hex =? 64) "digest has the wrong length";;
      ensure (str_all canonical_hex hex) "digest contains non-canonical hexadecimal bytes";;
      ensure (negb (str_all (fun c => byte_val c =? 48) hex))
        "all-zero digest is not a content identity"
  end.

Definition digest_header : string := "monitor-skunkworks.digest.v1" +:+ String "000" "".

(** [hasher.update(len.to_be_bytes()); hasher.update(part)]. *)
Definition length_delimited (part : string) : string := be_bytes 8 (slen part) +:+ part.

(** The byte stream fed to the hasher. *)
Definition digest_transcript (domain : string) (parts : list string) : string :=
  digest_header +:+ length_delimited domain +:+ str_concat (length_delimited <$> parts).

Definition digest_parts `{Sha256} (domain : string) (parts : list string) : DigestV1 :=
  "sha256:" +:+ hex_encode (sha256 (digest_transcript domain parts)).

(* ------------------------------------------------------------------ *)
(** ** Lemmas *)

Definition addressable (s : string) : Prop := slen s <= u64_max.

Lemma length_delimited_inj a b r1 r2 :
  addressable a → addressable b →
  length_delimited a +:+ r1 = length_delimited b +:+ r2 → a = b ∧ r1 = r2.
Proof.
  unfold addressable, length_delimited. intros Ha Hb. rewrite !str_app_assoc. intros H.
  apply str_app_inj_len in H as [Hlen H]; [|by rewrite !be_bytes_length].
  apply (f_equal be_value) in Hlen.
  pose proof (slen_nonneg a). pose proof (slen_nonneg b). unfold u64_max in *.
  rewrite !be_roundtrip in Hlen by (cbn; lia).
  apply str_app_inj_len in H; [done|]. unfold slen in Hlen. lia.
Qed.

Lemma length_delimited_nonempty part : length_delimited part ≠ "".
Proof. unfold length_delimited. done. Qed.

Lemma str_app_nonempty a b : a ≠ "" → a +:+ b ≠ "".
Proof. by destruct a. Qed.

Lemma str_concat_delimited_inj ps qs :
  Forall addressable ps → Forall addressable qs →
  str_concat (length_delimited <$> ps) = str_concat (length_delimited <$> qs) → ps = qs.
Proof.
  intros Hp. revert qs. induction Hp as [|p ps Hp Hps IH]; intros qs Hq Heq.
  - destruct qs as [|q qs]; [done|]. cbn in Heq. symmetry in Heq. exfalso.
    revert Heq. apply str_app_nonempty, length_delimited_nonempty.
  - inversion Hq as [|q qs' Hq1 Hq2]; subst; cbn in Heq.
    { exfalso. revert Heq. apply str_app_nonempty, length_delimited_nonempty. }
    apply length_delimited_inj in Heq as [-> Heq]; [|done..].
    f_equal. by apply IH.
Qed.

Lemma digest_transcript_inj d1 d2 ps qs :
  addressable d1 → addressable d2 → Forall addressable ps → Forall addressable qs →
  digest_transcript d1 ps = digest_transcript d2 qs → d1 = d2 ∧ ps = qs.
Proof.
  unfold digest_transcript. intros H1 H2 Hp Hq H. apply (inj (String.append digest_header)) in H.
  apply length_delimited_inj in H as [-> H]; [|done..].
  split; [done|]. by apply str_concat_delimited_inj.
Qed.

Lemma hex_encode_length s : String.length (hex_encode s) = (2 * String.length s)%nat.
Proof. induction s; cbn; lia. Qed.

Lemma hex_digit_val z :
  0 <= z < 16 → byte_val (hex_digit z) = if z <? 10 then 48 + z else 87 + z.
Proof. intros Hz. unfold hex_digit. destruct (z <? 10) eqn:?; rewrite byte_val_of; lia. Qed.

Lemma nibbles c : 0 <= byte_val c / 16 < 16 ∧ 0 <= byte_val c mod 16 < 16.
Proof.
  pose proof (byte_val_range c). split; [|apply Z.mod_pos_bound; lia].
  split; [apply Z.div_pos; lia|]. apply Z.div_lt_upper_bound; lia.
Qed.

Lemma canonical_hex_digit z : 0 <= z < 16 → canonical_hex (hex_digit z) = true.
Proof. intros Hz. unfold canonical_hex. rewrite hex_digit_val by done. destruct (z <? 10) eqn:?; lia. Qed.

Lemma hex_digit_zero z : 0 <= z < 16 → (byte_val (hex_digit z) =? 48) = (z =? 0).
Proof. intros Hz. rewrite hex_digit_val by done. destruct (z <? 10) eqn:?; lia. Qed.

Lemma hex_encode_canonical s : str_all canonical_hex (hex_encode s) = true.
Proof.
  induction s as [|c s IH]; cbn [hex_encode str_all]; [done|].
  destruct (nibbles c). by rewrite !canonical_hex_digit, IH.
Qed.

Lemma hex_encode_zero s :
  str_all (fun c => byte_val c =? 48) (hex_encode s) = str_all (fun c => byte_val c =? 0) s.
Proof.
  induction s as [|c s IH]; cbn [hex_encode str_all]; [done|].
  destruct (nibbles c). rewrite !hex_digit_zero, IH by done.
  pose proof (byte_val_range c). pose proof (Z.div_mod (byte_val c) 16).
  destruct (byte_val c =? 0) eqn:?, (byte_val c / 16 =? 0) eqn:?, (byte_val c mod 16 =? 0) eqn:?;
    cbn; lia || done.
Qed.

Section digests.
Context `{Sha256}.

Lemma digest_parts_slen d ps : slen (digest_parts d ps) = 71.
Proof.
  unfold digest_parts. rewrite slen_app. unfold slen.
  rewrite hex_encode_length, sha256_length. done.
Qed.

(** A printed digest passes its own validation, except for the all-zero hash
    that [validate] refuses by name. *)
Lemma digest_parts_validate d ps :
  digest_validate (digest_parts d ps) = Ok tt ↔
  str_all (fun c => byte_val c =? 0) (sha256 (digest_transcript d ps)) = false.
Proof.
  unfold digest_validate, digest_parts.
  change (strip_prefix "sha256:" ("sha256:" +:+ ?x)) with (Some x). cbn iota.
  unfold slen at 1. rewrite hex_encode_length, sha256_length, hex_encode_canonical, hex_encode_zero.
  by destruct (str_all _ (sha256 _)).
Qed.

End digests.

Lemma digest_validate_slen d : digest_validate d = Ok tt → slen d = 71.
Proof.
  unfold digest_validate. destruct (strip_prefix "sha256:" d) as [hex|] eqn:E; [|done].
  intros H. inv_ok H. apply ensure_Ok in Hok. assert (d = "sha256:" +:+ hex) as ->.
  { clear -E. revert E. generalize "sha256:". intros p. revert d.
    induction p as [|a p IH]; intros d E; [cbn in E; by simplify_eq|].
    destruct d as [|b d]; [done|]. cbn in E. destruct (Ascii.eqb_spec a b) as [->|]; [|done].
    rewrite str_app_cons. f_equal. by apply IH. }
  rewrite slen_app. unfold slen at 1. cbn [String.length]. lia.
Qed.
