(* ===== verification/Pulse.v ===== *)
(** * Pulse records: [crates/pulse-types/src/pulse.rs]

    The observation frame, its receiver annotation and their validation.  The
    binary wire format of the same file is in [Wire].  An [f64] field holds
    the bit pattern of the value. *)

From S2P Require Import Prelude Ids Digest.

Definition MAX_WIRE_FRAME_BYTES : Z := 64 * 1024.
Definition MAX_COVERAGE_TAGS : Z := 64.
Definition MAX_SIGNALS : Z := 32.
Definition MAX_FIELD_BYTES : Z := 256.
Definition MAX_VALIDITY_MS : Z := 60 * 60 * 1000.

Record PulseError := mkPulseError { pe_code : string; pe_field : string; pe_detail : string }.

Definition err_invalid (field detail : string) : PulseError := mkPulseError "invalid" field detail.
Definition err_bound (field : string) : PulseError :=
  mkPulseError "bound_exceeded" field "bounded field exceeds the v1 maximum".
Definition err_unsupported (field : string) : PulseError :=
  mkPulseError "unsupported" field "unsupported v1 value".
Definition err_truncated : PulseError :=
  mkPulseError "malformed" "wire frame" "truncated binary frame".

(** [Display for PulseError]. *)
Definition pulse_error_display (e : PulseError) : string :=
  pe_code e +:+ " " +:+ pe_field e +:+ ": " +:+ pe_detail e.

(** [previous.is_some_and(|p| p >= value)]. *)
Definition not_above (previous : option string) (value : string) : bool :=
  match previous with Some p => String.leb value p | None => false end.

Definition validate_field (field value : string) : result PulseError unit :=
  ensure (negb (slen value =? 0)) (err_invalid field "field is empty");;
  ensure (negb (MAX_FIELD_BYTES <? slen value)) (err_bound field);;
  ensure (negb (has_control value)) (err_invalid field "field contains a control character").

Fixpoint sorted_tags_loop (field : string) (previous : option string) (values : list string)
  : result PulseError unit :=
  match values with
  | [] => Ok tt
  | value :: rest =>
      validate_field field value;;
      ensure (negb (not_above previous value))
        (err_invalid field "tags must be unique and sorted");;
      sorted_tags_loop field (Some value) rest
  end.

Definition validate_sorted_tags (field : string) (values : list string) : result PulseError unit :=
  ensure (negb (MAX_COVERAGE_TAGS <? Z.of_nat (length values))) (err_bound field);;
  sorted_tags_loop field None values.

Record ObservationProfileIdV1 := mkObservationProfile
  { op_name : string; op_version : Z; op_semantic_digest : DigestV1 }.

#[global] Instance ObservationProfileIdV1_eq_dec : EqDecision ObservationProfileIdV1.
Proof. solve_decision. Defined.

Definition profile_validate (p : ObservationProfileIdV1) : result PulseError unit :=
  validate_field "profile.name" (op_name p);;
  ensure (negb (op_version p =? 0))
    (err_invalid "profile.version" "version zero is unsupported");;
  map_err (err_invalid "profile.semantic_digest") (digest_validate (op_semantic_digest p)).

Record CoverageDescriptorV1 := mkCoverage { cd_expected : list string; cd_observed : list string }.

Definition coverage_validate (c : CoverageDescriptorV1) : result PulseError unit :=
  validate_sorted_tags "coverage.expected" (cd_expected c);;
  validate_sorted_tags "coverage.observed" (cd_observed c);;
  ensure (forallb (fun tag => bool_decide (tag ∈ cd_expected c)) (cd_observed c))
    (err_invalid "coverage.observed" "observed coverage is not declared in expected coverage").

(** [CoverageDescriptorV1::missing]. *)
Definition coverage_missing (c : CoverageDescriptorV1) : list string :=
  filter (fun tag => tag ∉ cd_observed c) (cd_expected c).

Inductive SignalAssessmentV1 :=
| Observed | WithinDeclaredBound | OutsideDeclaredBound | Unavailable.

#[global] Instance SignalAssessmentV1_eq_dec : EqDecision SignalAssessmentV1.
Proof. solve_decision. Defined.

Record BoundedSignalValueV1 := mkSignal
  { sg_name : string; sg_value : Z; sg_unit : string; sg_assessment : SignalAssessmentV1 }.

Definition signal_validate (s : BoundedSignalValueV1) : result PulseError unit :=
  validate_field "signal.name" (sg_name s);;
  validate_field "signal.unit" (sg_unit s);;
  ensure (f64_is_finite (sg_value s)) (err_invalid "signal.value" "value must be finite").

Inductive AuthenticationFieldV1 :=
| Placeholder (disclosure : string)
| Mac (scheme key_id tag : string).

Definition authentication_validate (a : AuthenticationFieldV1) : result PulseError unit :=
  match a with
  | Placeholder disclosure => validate_field "authentication.disclosure" disclosure
  | Mac scheme key_id tag =>
      validate_field "authentication.scheme" scheme;;
      validate_field "authentication.key_id" key_id;;
      validate_field "authentication.tag" tag
  end.

Record PulseFrameV1 := mkFrame {
  pf_schema_version : Z;
  pf_subject : SubjectId;
  pf_subject_incarnation : IncarnationId;
  pf_observer : ObserverId;
  pf_observer_incarnation : IncarnationId;
  pf_sequence : Z;
  pf_observer_monotonic_ns : Z;
  pf_validity_ms : Z;
  pf_profile : ObservationProfileIdV1;
  pf_observation_policy_generation : ObservationPolicyGenerationId;
  pf_coverage : CoverageDescriptorV1;
  pf_signals : list BoundedSignalValueV1;
  pf_observation_digest : DigestV1;
  pf_authentication : AuthenticationFieldV1;
}.

Definition assessment_tag (a : SignalAssessmentV1) : Z :=
  match a with
  | Observed => 0 | WithinDeclaredBound => 1 | OutsideDeclaredBound => 2 | Unavailable => 3
  end.

Definition tag_parts (label : string) (tags : list string) : list string :=
  flat_map (fun tag => [label; tag]) tags.

Definition signal_parts (s : BoundedSignalValueV1) : list string :=
  [sg_name s; be_bytes 8 (sg_value s); sg_unit s; be_bytes 1 (assessment_tag (sg_assessment s))].

(** The transcript parts of [recompute_observation_digest]. *)
Definition observation_parts (f : PulseFrameV1) : list string :=
  [ be_bytes 2 (pf_schema_version f);
    pf_subject f;
    pf_subject_incarnation f;
    pf_observer f;
    pf_observer_incarnation f;
    be_bytes 8 (pf_sequence f);
    be_bytes 8 (pf_observer_monotonic_ns f);
    be_bytes 8 (pf_validity_ms f);
    op_name (pf_profile f);
    be_bytes 2 (op_version (pf_profile f));
    op_semantic_digest (pf_profile f);
    pf_observation_policy_generation f ]
  ++ tag_parts "expected" (cd_expected (pf_coverage f))
  ++ tag_parts "observed" (cd_observed (pf_coverage f))
  ++ flat_map signal_parts (pf_signals f).

Definition recompute_observation_digest `{Sha256} (f : PulseFrameV1) : DigestV1 :=
  digest_parts "pulse.observation.v1" (observation_parts f).

(** [PulseFrameV1::seal]. *)
Definition seal `{Sha256} (f : PulseFrameV1) : PulseFrameV1 :=
  {| pf_schema_version := pf_schema_version f;
     pf_subject := pf_subject f;
     pf_subject_incarnation := pf_subject_incarnation f;
     pf_observer := pf_observer f;
     pf_observer_incarnation := pf_observer_incarnation f;
     pf_sequence := pf_sequence f;
     pf_observer_monotonic_ns := pf_observer_monotonic_ns f;
     pf_validity_ms := pf_validity_ms f;
     pf_profile := pf_profile f;
     pf_observation_policy_generation := pf_observation_policy_generation f;
     pf_coverage := pf_coverage f;
     pf_signals := pf_signals f;
     pf_observation_digest := recompute_observation_digest f;
     pf_authentication := pf_authentication f |}.

Fixpoint signals_loop (previous : option string) (signals : list BoundedSignalValueV1)
  : result PulseError unit :=
  match signals with
  | [] => Ok tt
  | signal :: rest =>
      signal_validate signal;;
      ensure (negb (not_above previous (sg_name signal)))
        (err_invalid "signals" "signal names must be unique and sorted");;
      signals_loop (Some (sg_name signal)) rest
  end.

(** [x.validate().map_err(|error| PulseError::invalid(field, error.reason))]. *)
Definition identity_field (field kind value : string) : result PulseError unit :=
  map_err (fun e => err_invalid field (ie_reason e)) (validate_identity kind value).

(** [PulseFrameV1::validate]. *)
Definition frame_validate `{Sha256} (f : PulseFrameV1) : result PulseError unit :=
  ensure (pf_schema_version f =? SCHEMA_VERSION_V1) (err_unsupported "pulse schema version");;
  identity_field "subject" "SubjectId" (pf_subject f);;
  identity_field "subject_incarnation" "IncarnationId" (pf_subject_incarnation f);;
  identity_field "observer" "ObserverId" (pf_observer f);;
  identity_field "observer_incarnation" "IncarnationId" (pf_observer_incarnation f);;
  identity_field "observation_policy_generation" "ObservationPolicyGenerationId"
    (pf_observation_policy_generation f);;
  ensure (negb ((pf_validity_ms f =? 0) || (MAX_VALIDITY_MS <? pf_validity_ms f)))
    (err_invalid "validity_ms" "validity must be nonzero and within the v1 maximum");;
  profile_validate (pf_profile f);;
  coverage_validate (pf_coverage f);;
  ensure (negb (MAX_SIGNALS <? Z.of_nat (length (pf_signals f)))) (err_bound "signals");;
  signals_loop None (pf_signals f);;
  authentication_validate (pf_authentication f);;
  map_err (err_invalid "observation_digest") (digest_validate (pf_observation_digest f));;
  ensure (bool_decide (pf_observation_digest f = recompute_observation_digest f))
    (err_invalid "observation_digest" "digest does not match the observation transcript").

Inductive ArrivalDispositionV1 :=
| First | Continuous | Gap | Duplicate | Replay | Restarted | Stale.

#[global] Instance ArrivalDispositionV1_eq_dec : EqDecision ArrivalDispositionV1.
Proof. solve_decision. Defined.

Record SequenceGapV1 := mkGap { gap_expected_next : Z; gap_received : Z; gap_missing_count : Z }.

#[global] Instance SequenceGapV1_eq_dec : EqDecision SequenceGapV1.
Proof. solve_decision. Defined.

Inductive AuthenticationResultV1 :=
| NotChecked
| Unauthenticated (disclosure : string)
| Verified (method principal : string)
| Failed (reason : string).

Definition authentication_result_validate (a : AuthenticationResultV1) : result PulseError unit :=
  match a with
  | NotChecked => Ok tt
  | Unauthenticated disclosure => validate_field "authentication_result.disclosure" disclosure
  | Verified method principal =>
      validate_field "authentication_result.method" method;;
      validate_field "authentication_result.principal" principal
  | Failed reason => validate_field "authentication_result.reason" reason
  end.

Record ReceiverAnnotationV1 := mkAnnotation {
  ra_schema_version : Z;
  ra_receiver : ReceiverId;
  ra_receiver_incarnation : IncarnationId;
  ra_clock_id : ClockId;
  ra_arrival_monotonic_ms : Z;
  ra_disposition : ArrivalDispositionV1;
  ra_sequence_gap : option SequenceGapV1;
  ra_transport_path : string;
  ra_transport_observed_delay_ms : option Z;
  ra_authentication : AuthenticationResultV1;
}.

(** The [match (&self.disposition, &self.sequence_gap)] of the validation. *)
Definition gap_detail_validate (d : ArrivalDispositionV1) (g : option SequenceGapV1)
  : result PulseError unit :=
  match d, g with
  | Gap, Some gap =>
      ensure (negb ((gap_received gap <=? gap_expected_next gap)
                    || negb (gap_missing_count gap =? gap_received gap - gap_expected_next gap)))
        (err_invalid "sequence_gap" "gap arithmetic is inconsistent")
  | Gap, None => Err (err_invalid "sequence_gap" "gap disposition requires gap detail")
  | _, Some _ =>
      Err (err_invalid "sequence_gap" "gap detail is only valid for a gap disposition")
  | _, None => Ok tt
  end.

(** [ReceiverAnnotationV1::validate]. *)
Definition annotation_validate (a : ReceiverAnnotationV1) : result PulseError unit :=
  ensure (ra_schema_version a =? SCHEMA_VERSION_V1) (err_unsupported "receiver schema version");;
  identity_field "receiver" "ReceiverId" (ra_receiver a);;
  identity_field "receiver_incarnation" "IncarnationId" (ra_receiver_incarnation a);;
  identity_field "clock_id" "ClockId" (ra_clock_id a);;
  validate_field "transport_path" (ra_transport_path a);;
  authentication_result_validate (ra_authentication a);;
  gap_detail_validate (ra_disposition a) (ra_sequence_gap a).

Record ReceivedPulseV1 := mkReceived
  { rp_frame : PulseFrameV1; rp_receiver : ReceiverAnnotationV1 }.

Definition received_validate `{Sha256} (r : ReceivedPulseV1) : result PulseError unit :=
  frame_validate (rp_frame r);; annotation_validate (rp_receiver r).

(* ------------------------------------------------------------------ *)
(** ** Type invariants.  What Rust's types guarantee of every frame value:
    strings are UTF-8 and integers fit their width. *)

Definition signal_wf (s : BoundedSignalValueV1) : bool :=
  is_utf8 (sg_name s) && is_u64 (sg_value s) && is_utf8 (sg_unit s).

Definition authentication_wf (a : AuthenticationFieldV1) : bool :=
  match a with
  | Placeholder d => is_utf8 d
  | Mac s k t => is_utf8 s && is_utf8 k && is_utf8 t
  end.

Definition frame_wf (f : PulseFrameV1) : bool :=
  is_u16 (pf_schema_version f) && is_utf8 (pf_subject f) && is_utf8 (pf_subject_incarnation f)
  && is_utf8 (pf_observer f) && is_utf8 (pf_observer_incarnation f)
  && is_u64 (pf_sequence f) && is_u64 (pf_observer_monotonic_ns f) && is_u64 (pf_validity_ms f)
  && is_utf8 (op_name (pf_profile f)) && is_u16 (op_version (pf_profile f))
  && is_utf8 (op_semantic_digest (pf_profile f))
  && is_utf8 (pf_observation_policy_generation f)
  && forallb is_utf8 (cd_expected (pf_coverage f))
  && forallb is_utf8 (cd_observed (pf_coverage f))
  && forallb signal_wf (pf_signals f)
  && is_utf8 (pf_observation_digest f) && authentication_wf (pf_authentication f).

(* ------------------------------------------------------------------ *)
(** ** Facts carried by validated fields *)

Lemma validate_field_slen field v : validate_field field v = Ok tt → 1 <= slen v <= MAX_FIELD_BYTES.
Proof.
  unfold validate_field. intros H. inv_ok H. apply ensure_Ok in Hok, Hok0.
  split_and_bool. pose proof (slen_nonneg v). lia.
Qed.

Lemma identity_field_slen field kind v :
  identity_field field kind v = Ok tt → 1 <= slen v <= MAX_FIELD_BYTES.
Proof.
  unfold identity_field. rewrite map_err_Ok, validate_identity_Ok.
  intros H%valid_identity_bound. unfold MAX_IDENTITY_BYTES, MAX_FIELD_BYTES in *. lia.
Qed.

Lemma sorted_tags_loop_fields field prev xs :
  sorted_tags_loop field prev xs = Ok tt → Forall (λ x, validate_field field x = Ok tt) xs.
Proof.
  revert prev. induction xs as [|x xs IH]; intros prev H; [done|]. cbn in H. inv_ok H.
  constructor; [done|eauto].
Qed.

Lemma signals_loop_fields prev xs :
  signals_loop prev xs = Ok tt → Forall (λ x, signal_validate x = Ok tt) xs.
Proof.
  revert prev. induction xs as [|x xs IH]; intros prev H; [done|]. cbn in H. inv_ok H.
  constructor; [done|eauto].
Qed.
