(* ===== verification/Samples.v ===== *)
(** * Sample values

    A concrete instance of [Sha256] and a few concrete records, used to
    evaluate the definitions.  [toy_sha256] is a polynomial hash with a
    32-byte output, not SHA-256. *)

From S2P Require Import Prelude Ids Digest Pulse.

Fixpoint toy_hash (acc : Z) (s : string) : Z :=
  match s with
  | "" => acc
  | String c rest => toy_hash (Z.land (acc * 8191 + byte_val c + 1) 281474976710655) rest
  end.

Lemma toy_hash_length s : String.length (be_bytes 32 (toy_hash 7919 s)) = 32%nat.
Proof. apply be_bytes_length. Qed.

#[global] Instance toy_sha256 : Sha256 :=
  {| sha256 s := be_bytes 32 (toy_hash 7919 s); sha256_length := toy_hash_length |}.

Definition sample_profile : ObservationProfileIdV1 :=
  mkObservationProfile "local.summary" 1 (digest_parts "profile" ["local.summary/v1"]).

(** 0.25 and 30.0 as bit patterns. *)
Definition bits_quarter : Z := 4598175219545276416.
Definition bits_thirty : Z := 4629137466983448576.

Definition sample_frame_for (observer : string) (sequence : Z) (assessment : SignalAssessmentV1)
  : PulseFrameV1 :=
  seal {|
    pf_schema_version := SCHEMA_VERSION_V1;
    pf_subject := "host:a";
    pf_subject_incarnation := "boot:1";
    pf_observer := observer;
    pf_observer_incarnation := "process:1";
    pf_sequence := sequence;
    pf_observer_monotonic_ns := 99;
    pf_validity_ms := 1000;
    pf_profile := sample_profile;
    pf_observation_policy_generation := "policy:1";
    pf_coverage := mkCoverage ["load"; "memory"] ["load"; "memory"];
    pf_signals := [mkSignal "load" bits_quarter "ratio" assessment];
    pf_observation_digest := "";
    pf_authentication := Placeholder "unauthenticated test pulse" |}.

Definition sample_frame : PulseFrameV1 :=
  sample_frame_for "observer:a" 7 WithinDeclaredBound.

Definition sample_annotation (arrival : Z) (disposition : ArrivalDispositionV1)
  : ReceiverAnnotationV1 :=
  {| ra_schema_version := SCHEMA_VERSION_V1;
     ra_receiver := "receiver:a";
     ra_receiver_incarnation := "receiver-process:1";
     ra_clock_id := "clock:1";
     ra_arrival_monotonic_ms := arrival;
     ra_disposition := disposition;
     ra_sequence_gap := None;
     ra_transport_path := "local";
     ra_transport_observed_delay_ms := None;
     ra_authentication := NotChecked |}.
