(* ===== verification/Wire.v ===== *)
(** * The binary wire format: [encode_wire] and [decode_wire] of
    [crates/pulse-types/src/pulse.rs]

    The writer appends to a byte string; the reader ([WireReader]) threads the
    remaining bytes.  The theorems are the round trips in both directions and
    the size bound that makes encoding a valid frame total. *)

From S2P Require Import Prelude Ids Digest Pulse Samples.

Definition WIRE_MAGIC : string := "PLS1".

Definition assessment_from_tag (v : Z) : result PulseError SignalAssessmentV1 :=
  if v =? 0 then Ok Observed
  else if v =? 1 then Ok WithinDeclaredBound
  else if v =? 2 then Ok OutsideDeclaredBound
  else if v =? 3 then Ok Unavailable
  else Err (err_unsupported "signal.assessment").

(* ------------------------------------------------------------------ *)
(** ** Writer *)

Definition put_u16 (v : Z) : string := be_bytes 2 v.
Definition put_u64 (v : Z) : string := be_bytes 8 v.

Definition put_string (value : string) : result PulseError string :=
  ensure (negb (MAX_FIELD_BYTES <? slen value)) (err_bound "wire string");;
  ensure (slen value <=? u16_max) (err_bound "wire string");;
  Ok (put_u16 (slen value) +:+ value).

Fixpoint put_string_list (values : list string) : result PulseError string :=
  match values with
  | [] => Ok ""
  | value :: rest =>
      a ← put_string value; b ← put_string_list rest; Ok (a +:+ b)
  end.

Definition put_strings (values : list string) : result PulseError string :=
  ensure (Z.of_nat (length values) <=? u16_max) (err_bound "wire list");;
  body ← put_string_list values;
  Ok (put_u16 (Z.of_nat (length values)) +:+ body).

Definition put_signal (s : BoundedSignalValueV1) : result PulseError string :=
  name ← put_string (sg_name s);
  unit_ ← put_string (sg_unit s);
  Ok (name +:+ put_u64 (sg_value s) +:+ unit_ +:+ be_bytes 1 (assessment_tag (sg_assessment s))).

Fixpoint put_signal_list (signals : list BoundedSignalValueV1) : result PulseError string :=
  match signals with
  | [] => Ok ""
  | s :: rest => a ← put_signal s; b ← put_signal_list rest; Ok (a +:+ b)
  end.

Definition put_signals (signals : list BoundedSignalValueV1) : result PulseError string :=
  ensure (Z.of_nat (length signals) <=? u16_max) (err_bound "signals");;
  body ← put_signal_list signals;
  Ok (put_u16 (Z.of_nat (length signals)) +:+ body).

Definition put_authentication (a : AuthenticationFieldV1) : result PulseError string :=
  match a with
  | Placeholder disclosure =>
      d ← put_string disclosure; Ok (be_bytes 1 0 +:+ d)
  | Mac scheme key_id tag =>
      s ← put_string scheme; k ← put_string key_id; t ← put_string tag;
      Ok (be_bytes 1 1 +:+ s +:+ k +:+ t)
  end.

(** The frame body, in the order [encode_wire] pushes it. *)
Definition put_frame (f : PulseFrameV1) : result PulseError string :=
  subject ← put_string (pf_subject f);
  subject_incarnation ← put_string (pf_subject_incarnation f);
  observer ← put_string (pf_observer f);
  observer_incarnation ← put_string (pf_observer_incarnation f);
  profile_name ← put_string (op_name (pf_profile f));
  profile_digest ← put_string (op_semantic_digest (pf_profile f));
  generation ← put_string (pf_observation_policy_generation f);
  expected ← put_strings (cd_expected (pf_coverage f));
  observed ← put_strings (cd_observed (pf_coverage f));
  signals ← put_signals (pf_signals f);
  digest ← put_string (pf_observation_digest f);
  authentication ← put_authentication (pf_authentication f);
  Ok (WIRE_MAGIC +:+ put_u16 (pf_schema_version f) +:+ subject +:+ subject_incarnation
      +:+ observer +:+ observer_incarnation +:+ put_u64 (pf_sequence f)
      +:+ put_u64 (pf_observer_monotonic_ns f) +:+ put_u64 (pf_validity_ms f)
      +:+ profile_name +:+ put_u16 (op_version (pf_profile f)) +:+ profile_digest
      +:+ generation +:+ expected +:+ observed +:+ signals +:+ digest +:+ authentication).

Definition encode_wire `{Sha256} (f : PulseFrameV1) : result PulseError string :=
  frame_validate f;;
  output ← put_frame f;
  ensure (negb (MAX_WIRE_FRAME_BYTES <? slen output)) (err_bound "wire frame");;
  Ok output.

(* ------------------------------------------------------------------ *)
(** ** Reader *)

(** One [WireReader] operation: it consumes a prefix of the remaining bytes. *)
Definition reader (A : Type) : Type := string → result PulseError (A * string).

#[global] Instance reader_ret : MRet reader := fun A a bytes => Ok (a, bytes).
#[global] Instance reader_bind : MBind reader :=
  fun A B k m bytes =>
    match m bytes with Ok (a, rest) => k a rest | Err e => Err e end.

Definition rd_fail {A} (e : PulseError) : reader A := fun _ => Err e.
Definition rd_ensure (b : bool) (e : PulseError) : reader unit :=
  if b then mret tt else rd_fail e.

Definition rd_take (count : nat) : reader string :=
  fun bytes =>
    match str_take count bytes with
    | Some p => Ok p
    | None => Err err_truncated
    end.

Definition rd_byte : reader Z := b ← rd_take 1; mret (be_value b).
Definition rd_u16 : reader Z := b ← rd_take 2; mret (be_value b).
Definition rd_u64 : reader Z := b ← rd_take 8; mret (be_value b).

Definition rd_string (field : string) : reader string :=
  length_ ← rd_u16;
  rd_ensure (negb (MAX_FIELD_BYTES <? length_)) (err_bound field);;
  value ← rd_take (Z.to_nat length_);
  rd_ensure (is_utf8 value) (err_invalid field "string is not UTF-8");;
  mret value.

(** [for _ in 0..count { values.push(read?) }]. *)
Fixpoint rd_repeat {A} (count : nat) (read : reader A) : reader (list A) :=
  match count with
  | O => mret []
  | S count' => x ← read; xs ← rd_repeat count' read; mret (x :: xs)
  end.

Definition rd_strings (field : string) (maximum : Z) : reader (list string) :=
  count ← rd_u16;
  rd_ensure (negb (maximum <? count)) (err_bound field);;
  rd_repeat (Z.to_nat count) (rd_string field).

Definition rd_assessment : reader SignalAssessmentV1 :=
  tag ← rd_byte;
  match assessment_from_tag tag with Ok a => mret a | Err e => rd_fail e end.

Definition rd_signal : reader BoundedSignalValueV1 :=
  name ← rd_string "signal.name";
  value ← rd_u64;
  unit_ ← rd_string "signal.unit";
  assessment ← rd_assessment;
  mret (mkSignal name value unit_ assessment).

Definition rd_signals : reader (list BoundedSignalValueV1) :=
  count ← rd_u16;
  rd_ensure (negb (MAX_SIGNALS <? count)) (err_bound "signals");;
  rd_repeat (Z.to_nat count) rd_signal.

Definition rd_authentication : reader AuthenticationFieldV1 :=
  kind ← rd_byte;
  if kind =? 0 then
    disclosure ← rd_string "authentication.disclosure"; mret (Placeholder disclosure)
  else if kind =? 1 then
    scheme ← rd_string "authentication.scheme";
    key_id ← rd_string "authentication.key_id";
    tag ← rd_string "authentication.tag";
    mret (Mac scheme key_id tag)
  else rd_fail (err_unsupported "authentication kind").

Definition rd_frame : reader PulseFrameV1 :=
  magic ← rd_take 4;
  rd_ensure (String.eqb magic WIRE_MAGIC) (err_unsupported "wire magic");;
  schema_version ← rd_u16;
  subject ← rd_string "subject";
  subject_incarnation ← rd_string "subject_incarnation";
  observer ← rd_string "observer";
  observer_incarnation ← rd_string "observer_incarnation";
  sequence ← rd_u64;
  observer_monotonic_ns ← rd_u64;
  validity_ms ← rd_u64;
  profile_name ← rd_string "profile.name";
  profile_version ← rd_u16;
  profile_digest ← rd_string "profile.semantic_digest";
  generation ← rd_string "observation_policy_generation";
  expected ← rd_strings "coverage.expected" MAX_COVERAGE_TAGS;
  observed ← rd_strings "coverage.observed" MAX_COVERAGE_TAGS;
  signals ← rd_signals;
  digest ← rd_string "observation_digest";
  authentication ← rd_authentication;
  mret (mkFrame schema_version subject subject_incarnation observer observer_incarnation
          sequence observer_monotonic_ns validity_ms
          (mkObservationProfile profile_name profile_version profile_digest)
          generation (mkCoverage expected observed) signals digest authentication).

Definition decode_wire `{Sha256} (bytes : string) : result PulseError PulseFrameV1 :=
  ensure (negb (MAX_WIRE_FRAME_BYTES <? slen bytes)) (err_bound "wire frame");;
  '(frame, rest) ← rd_frame bytes;
  ensure (slen rest =? 0) (err_invalid "wire frame" "trailing bytes are forbidden");;
  frame_validate frame;;
  Ok frame.

(* ------------------------------------------------------------------ *)
(** Element counts the reader admits. *)
Definition frame_counts_ok (f : PulseFrameV1) : bool :=
  (Z.of_nat (length (cd_expected (pf_coverage f))) <=? MAX_COVERAGE_TAGS)
  && (Z.of_nat (length (cd_observed (pf_coverage f))) <=? MAX_COVERAGE_TAGS)
  && (Z.of_nat (length (pf_signals f)) <=? MAX_SIGNALS).

(* ------------------------------------------------------------------ *)
(** ** Codecs.  A reader and a writer that invert each other on the values
    satisfying [ok]; the reader leaves the bytes after the encoding. *)

Record codec {A} (read : reader A) (write : A → result PulseError string) (ok : A → Prop) : Prop := {
  codec_fwd a b rest : ok a → write a = Ok b → read (b +:+ rest) = Ok (a, rest);
  codec_bwd bytes a rest :
    read bytes = Ok (a, rest) → ok a ∧ ∃ b, write a = Ok b ∧ bytes = b +:+ rest;
}.

Lemma rd_bind_step {A B} (m : reader A) (k : A → reader B) bytes a rest :
  m bytes = Ok (a, rest) → (m ≫= k) bytes = k a rest.
Proof. unfold mbind, reader_bind. by intros ->. Qed.

Lemma rd_bind_inv {A B} (m : reader A) (k : A → reader B) bytes b rest' :
  (m ≫= k) bytes = Ok (b, rest') → ∃ a rest, m bytes = Ok (a, rest) ∧ k a rest = Ok (b, rest').
Proof. unfold mbind, reader_bind. destruct (m bytes) as [[a rest]|]; [eauto|done]. Qed.

Lemma rd_ensure_inv b e bytes u rest :
  rd_ensure b e bytes = Ok (u, rest) → b = true ∧ rest = bytes.
Proof. unfold rd_ensure. by destruct b; [intros [= _ ->]|]. Qed.

Lemma rd_take_inv n bytes a rest :
  rd_take n bytes = Ok (a, rest) ↔ bytes = a +:+ rest ∧ String.length a = n.
Proof.
  rewrite <-str_take_Some. unfold rd_take. destruct (str_take n bytes); naive_solver.
Qed.

(** Peel one read off a successful run / advance a run by one known read. *)
Ltac rd_inv H :=
  let a := fresh "v" in let r := fresh "rest" in let Hr := fresh "Hrd" in
  apply rd_bind_inv in H; destruct H as (a & r & Hr & H).
Ltac rd_done H := injection H as <- <-.
Tactic Notation "rd_step" open_constr(lem) := erewrite (rd_bind_step _ _ _ _ _ lem).

Lemma codec_be k :
  codec (b ← rd_take k; mret (be_value b)) (fun z => Ok (be_bytes k z))
    (fun z => 0 <= z < 256 ^ Z.of_nat k).
Proof.
  split.
  - intros z b rest Hz [= <-].
    rewrite (rd_bind_step _ _ _ (be_bytes k z) rest).
    { cbn. by rewrite be_roundtrip. }
    apply rd_take_inv. by rewrite be_bytes_length.
  - intros bytes z rest H. rd_inv H. apply rd_take_inv in Hrd as [-> <-].
    rd_done H.
    split; [apply be_value_range|]. eexists. split; [done|]. by rewrite be_bytes_be_value.
Qed.

Lemma codec_ext {A} (r : reader A) w (P Q : A → Prop) :
  codec r w P → (∀ a, P a ↔ Q a) → codec r w Q.
Proof.
  intros [F B] Heq. split; [intros; apply F; [by apply Heq|done]|].
  intros bytes a rest H. apply B in H as [? ?]. split; [by apply Heq|done].
Qed.

Lemma codec_byte : codec rd_byte (fun z => Ok (be_bytes 1 z)) (fun z => 0 <= z < 256).
Proof. apply (codec_be 1). Qed.

Lemma codec_u16 : codec rd_u16 (fun z => Ok (put_u16 z)) (fun z => is_u16 z = true).
Proof.
  eapply codec_ext; [apply (codec_be 2)|]. intros z. unfold is_u16, u16_max.
  rewrite andb_true_iff. cbn. lia.
Qed.

Lemma codec_u64 : codec rd_u64 (fun z => Ok (put_u64 z)) (fun z => is_u64 z = true).
Proof.
  eapply codec_ext; [apply (codec_be 8)|]. intros z. unfold is_u64, u64_max.
  rewrite andb_true_iff. cbn. lia.
Qed.

Lemma put_string_Ok s b :
  put_string s = Ok b ↔ slen s <= MAX_FIELD_BYTES ∧ b = put_u16 (slen s) +:+ s.
Proof.
  unfold put_string. destruct (MAX_FIELD_BYTES <? slen s) eqn:E; cbn.
  { split; [done|]. intros [? _]. lia. }
  unfold MAX_FIELD_BYTES in *. replace (slen s <=? u16_max) with true by (unfold u16_max; lia).
  cbn. split; [intros [= <-]; split; [lia|done]|by intros [_ ->]].
Qed.

Lemma is_u16_slen s : slen s <= MAX_FIELD_BYTES → is_u16 (slen s) = true.
Proof. unfold MAX_FIELD_BYTES, is_u16, u16_max. pose proof (slen_nonneg s). lia. Qed.

Lemma codec_string field :
  codec (rd_string field) put_string (fun s => is_utf8 s = true).
Proof.
  split.
  - intros s b rest Hs Hb. apply put_string_Ok in Hb as [Hlen ->].
    unfold rd_string. rewrite str_app_assoc.
    rd_step (codec_fwd _ _ _ codec_u16 _ _ (s +:+ rest) (is_u16_slen _ Hlen) eq_refl).
    replace (MAX_FIELD_BYTES <? slen s) with false by lia.
    rewrite (rd_bind_step _ _ _ tt (s +:+ rest)) by done.
    rewrite (rd_bind_step _ _ _ s rest).
    { rewrite (rd_bind_step _ _ _ tt rest); [done|]. by rewrite Hs. }
    apply rd_take_inv. unfold slen. by rewrite Nat2Z.id.
  - intros bytes s rest H. unfold rd_string in H.
    rd_inv H. apply (codec_bwd _ _ _ codec_u16) in Hrd as [Hv (b & [= <-] & ->)].
    rd_inv H. apply rd_ensure_inv in Hrd as [Hlen ->].
    rd_inv H. apply rd_take_inv in Hrd as [-> Hx].
    rd_inv H. apply rd_ensure_inv in Hrd as [Hu ->]. rd_done H.
    split; [done|].
    assert (slen v1 = v) as <-.
    { unfold slen. rewrite Hx. unfold is_u16 in Hv. split_and_bool. lia. }
    eexists. rewrite put_string_Ok. split; [split; [|done]|by rewrite str_app_assoc].
    split_and_bool. lia.
Qed.


Fixpoint write_all {A} (write : A → result PulseError string) (xs : list A)
  : result PulseError string :=
  match xs with
  | [] => Ok ""
  | x :: rest => a ← write x; b ← write_all write rest; Ok (a +:+ b)
  end.

Lemma put_string_list_all xs : put_string_list xs = write_all put_string xs.
Proof. induction xs as [|x xs IH]; cbn; [done|]. by rewrite IH. Qed.

Lemma put_signal_list_all xs : put_signal_list xs = write_all put_signal xs.
Proof. induction xs as [|x xs IH]; cbn; [done|]. by rewrite IH. Qed.

Lemma codec_repeat {A} (r : reader A) w P n :
  codec r w P →
  codec (rd_repeat n r) (write_all w) (fun xs => length xs = n ∧ Forall P xs).
Proof.
  intros [F B]. split.
  - intros xs. revert n. induction xs as [|x xs IH]; intros n b rest [<- HP] Hb; cbn in *.
    { by injection Hb as <-. }
    inv_ok Hb. injection Hb as <-. apply Forall_cons in HP as [Hx HP].
    rewrite str_app_assoc. rd_step (F _ _ _ Hx Hok).
    by rd_step (IH _ _ rest (conj eq_refl HP) Hok0).
  - induction n as [|n IH]; intros bytes xs rest H; cbn in H.
    { rd_done H. split; [by split|]. by exists "". }
    rd_inv H. apply B in Hrd as [Hv (b & Hb & ->)].
    rd_inv H. apply IH in Hrd as [[Hlen HP] (b' & Hb' & ->)]. rd_done H.
    split; [split; [cbn; by rewrite Hlen|by constructor]|].
    exists (b +:+ b'). cbn. rewrite Hb. cbn. rewrite Hb'. by rewrite str_app_assoc.
Qed.

(** A counted list: a [u16] count, refused above [maximum], then the items. *)
Lemma codec_counted {A} (r : reader A) w P maximum e e' :
  maximum <= u16_max → codec r w P →
  codec (count ← rd_u16; rd_ensure (negb (maximum <? count)) e;; rd_repeat (Z.to_nat count) r)
    (fun xs => ensure (Z.of_nat (length xs) <=? u16_max) e';;
               body ← write_all w xs; Ok (put_u16 (Z.of_nat (length xs)) +:+ body))
    (fun xs => Z.of_nat (length xs) <= maximum ∧ Forall P xs).
Proof.
  intros Hmax Hc. split.
  - intros xs b rest [Hlen HP] Hb. inv_ok Hb. injection Hb as <-. rewrite str_app_assoc.
    rd_step (codec_fwd _ _ _ codec_u16 (Z.of_nat (length xs)) _ (a +:+ rest)
               ltac:(unfold is_u16; lia) eq_refl).
    rewrite (rd_bind_step _ _ _ tt (a +:+ rest)).
    2: { replace (maximum <? _) with false by lia. done. }
    rewrite Nat2Z.id. by apply (codec_fwd _ _ _ (codec_repeat _ _ _ (length xs) Hc)).
  - intros bytes xs rest H.
    rd_inv H. apply (codec_bwd _ _ _ codec_u16) in Hrd as [Hv (b & [= <-] & ->)].
    rd_inv H. apply rd_ensure_inv in Hrd as [Hm ->].
    apply (codec_bwd _ _ _ (codec_repeat _ _ _ _ Hc)) in H as [[Hlen HP] (b & Hb & ->)].
    unfold is_u16 in Hv. split_and_bool.
    assert (Hn : Z.of_nat (length xs) = v) by lia.
    split; [split; [lia|done]|]. eexists. rewrite Hn.
    replace (v <=? u16_max) with true by lia. cbn. rewrite Hb. cbn.
    split; [done|]. by rewrite str_app_assoc.
Qed.

Lemma codec_proper {A} (r : reader A) w w' P :
  (∀ a, w a = w' a) → codec r w P → codec r w' P.
Proof.
  intros Hw [F B]. split.
  - intros a b rest HP H. apply F; [done|]. by rewrite Hw.
  - intros bytes a rest H. apply B in H as [? (b & ? & ?)]. split; [done|].
    exists b. by rewrite <-Hw.
Qed.

Lemma codec_strings field :
  codec (rd_strings field MAX_COVERAGE_TAGS) put_strings
    (fun xs => Z.of_nat (length xs) <= MAX_COVERAGE_TAGS ∧ Forall (fun s => is_utf8 s = true) xs).
Proof.
  eapply codec_proper, codec_counted; [|done|apply codec_string].
  intros xs. unfold put_strings. by rewrite put_string_list_all.
Qed.

Lemma codec_assessment :
  codec rd_assessment (fun a => Ok (be_bytes 1 (assessment_tag a))) (fun _ => True).
Proof.
  split.
  - intros a b rest _ [= <-]. unfold rd_assessment.
    rd_step (codec_fwd _ _ _ codec_byte (assessment_tag a) _ rest ltac:(by destruct a) eq_refl).
    by destruct a.
  - intros bytes a rest H. unfold rd_assessment in H.
    rd_inv H. apply (codec_bwd _ _ _ codec_byte) in Hrd as [Hv (b & [= <-] & ->)].
    split; [done|]. eexists. split; [done|].
    unfold assessment_from_tag in H.
    repeat case_in H; try done; rd_done H;
      match goal with E : (v =? _) = true |- _ => apply Z.eqb_eq in E as -> end; done.
Qed.

Lemma codec_signal : codec rd_signal put_signal (fun s => signal_wf s = true).
Proof.
  split.
  - intros [n v u a] b rest Hwf Hb. unfold signal_wf in Hwf. cbn in *. split_and_bool.
    unfold put_signal in Hb. inv_ok Hb. injection Hb as <-. cbn in *. unfold rd_signal.
    rewrite !str_app_assoc.
    rd_step (codec_fwd _ _ _ (codec_string _) n _ _ ltac:(eassumption) Hok).
    rd_step (codec_fwd _ _ _ codec_u64 v _ _ ltac:(eassumption) eq_refl).
    rd_step (codec_fwd _ _ _ (codec_string _) u _ _ ltac:(eassumption) Hok0).
    by rd_step (codec_fwd _ _ _ codec_assessment a _ _ I eq_refl).
  - intros bytes s rest H. unfold rd_signal in H.
    rd_inv H. apply (codec_bwd _ _ _ (codec_string _)) in Hrd as [Hn (bn & Hbn & ->)].
    rd_inv H. apply (codec_bwd _ _ _ codec_u64) in Hrd as [Hv (bv & [= <-] & ->)].
    rd_inv H. apply (codec_bwd _ _ _ (codec_string _)) in Hrd as [Hu (bu & Hbu & ->)].
    rd_inv H. apply (codec_bwd _ _ _ codec_assessment) in Hrd as [_ (ba & [= <-] & ->)].
    rd_done H. unfold signal_wf. cbn. rewrite Hn, Hv, Hu. split; [done|].
    eexists. unfold put_signal. cbn. rewrite Hbn. cbn. rewrite Hbu. cbn.
    split; [done|]. by rewrite !str_app_assoc.
Qed.

Lemma codec_signals :
  codec rd_signals put_signals
    (fun xs => Z.of_nat (length xs) <= MAX_SIGNALS ∧ Forall (fun s => signal_wf s = true) xs).
Proof.
  eapply codec_proper, codec_counted; [|done|apply codec_signal].
  intros xs. unfold put_signals. by rewrite put_signal_list_all.
Qed.

Lemma codec_authentication :
  codec rd_authentication put_authentication (fun a => authentication_wf a = true).
Proof.
  split.
  - intros a b rest Hwf Hb. unfold rd_authentication.
    destruct a as [d|s k t]; cbn in Hwf; split_and_bool; unfold put_authentication in Hb;
      inv_ok Hb; injection Hb as <-; rewrite !str_app_assoc.
    + rd_step (codec_fwd _ _ _ codec_byte 0 _ _ ltac:(done) eq_refl).
      cbv beta iota delta [Z.eqb Pos.eqb].
      by rd_step (codec_fwd _ _ _ (codec_string _) _ _ _ Hwf Hok).
    + rd_step (codec_fwd _ _ _ codec_byte 1 _ _ ltac:(done) eq_refl).
      cbv beta iota delta [Z.eqb Pos.eqb].
      rd_step (codec_fwd _ _ _ (codec_string _) s _ _ ltac:(eassumption) Hok).
      rd_step (codec_fwd _ _ _ (codec_string _) k _ _ ltac:(eassumption) Hok0).
      by rd_step (codec_fwd _ _ _ (codec_string _) t _ _ ltac:(eassumption) Hok1).
  - intros bytes a rest H. unfold rd_authentication in H.
    rd_inv H. apply (codec_bwd _ _ _ codec_byte) in Hrd as [Hv (b & [= <-] & ->)].
    destruct (v =? 0) eqn:E0; [|destruct (v =? 1) eqn:E1; [|done]];
      apply Z.eqb_eq in E0 || apply Z.eqb_eq in E1; subst v.
    + rd_inv H. apply (codec_bwd _ _ _ (codec_string _)) in Hrd as [Hd (bd & Hbd & ->)].
      rd_done H. split; [done|]. eexists. cbn. rewrite Hbd. cbn.
      split; [done|]. by rewrite !str_app_assoc.
    + rd_inv H. apply (codec_bwd _ _ _ (codec_string _)) in Hrd as [Hs (bs & Hbs & ->)].
      rd_inv H. apply (codec_bwd _ _ _ (codec_string _)) in Hrd as [Hk (bk & Hbk & ->)].
      rd_inv H. apply (codec_bwd _ _ _ (codec_string _)) in Hrd as [Ht (bt & Hbt & ->)].
      rd_done H. cbn. rewrite Hs, Hk, Ht. split; [done|].
      eexists. rewrite Hbs. cbn. rewrite Hbk. cbn. rewrite Hbt. cbn.
      split; [done|]. by rewrite !str_app_assoc.
Qed.

Lemma codec_magic :
  codec (magic ← rd_take 4; rd_ensure (String.eqb magic WIRE_MAGIC) (err_unsupported "wire magic"))
    (fun _ => Ok WIRE_MAGIC) (fun _ => True).
Proof.
  split.
  - intros [] b rest _ [= <-].
    by rewrite (rd_bind_step _ _ _ WIRE_MAGIC rest) by (by apply rd_take_inv).
  - intros bytes [] rest H. split; [done|]. exists WIRE_MAGIC. split; [done|].
    rd_inv H. apply rd_take_inv in Hrd as [-> _].
    apply rd_ensure_inv in H as [E ->]. by apply String.eqb_eq in E as ->.
Qed.

Lemma rd_frame_put_frame f b rest :
  frame_wf f = true → frame_counts_ok f = true → put_frame f = Ok b →
  rd_frame (b +:+ rest) = Ok (f, rest).
Proof.
  destruct f as [sv sub subi obs obsi sq ns val [pn pv pd] gen [ex ob] sig dg au]. intros Hwf Hc Hb.
  unfold frame_wf in Hwf. unfold frame_counts_ok in Hc. cbn in Hwf, Hc. split_and_bool.
  rewrite !forallb_Forall in *.
  unfold put_frame in Hb. cbn -[put_u16 put_u64] in Hb. inv_ok Hb. injection Hb as <-.
  unfold rd_frame. rewrite !str_app_assoc.
  rewrite (rd_bind_step _ _ _ WIRE_MAGIC _) by (by apply rd_take_inv).
  rewrite (rd_bind_step _ _ _ tt _) by done.
  rd_step (codec_fwd _ _ _ codec_u16 sv _ _ ltac:(done) eq_refl).
  rd_step (codec_fwd _ _ _ (codec_string _) sub _ _ ltac:(done) Hok).
  rd_step (codec_fwd _ _ _ (codec_string _) subi _ _ ltac:(done) Hok0).
  rd_step (codec_fwd _ _ _ (codec_string _) obs _ _ ltac:(done) Hok1).
  rd_step (codec_fwd _ _ _ (codec_string _) obsi _ _ ltac:(done) Hok2).
  rd_step (codec_fwd _ _ _ codec_u64 sq _ _ ltac:(done) eq_refl).
  rd_step (codec_fwd _ _ _ codec_u64 ns _ _ ltac:(done) eq_refl).
  rd_step (codec_fwd _ _ _ codec_u64 val _ _ ltac:(done) eq_refl).
  rd_step (codec_fwd _ _ _ (codec_string _) pn _ _ ltac:(done) Hok3).
  rd_step (codec_fwd _ _ _ codec_u16 pv _ _ ltac:(done) eq_refl).
  rd_step (codec_fwd _ _ _ (codec_string _) pd _ _ ltac:(done) Hok4).
  rd_step (codec_fwd _ _ _ (codec_string _) gen _ _ ltac:(done) Hok5).
  rd_step (codec_fwd _ _ _ (codec_strings _) ex _ _ ltac:(cbn beta; split; [lia|assumption]) Hok6).
  rd_step (codec_fwd _ _ _ (codec_strings _) ob _ _ ltac:(cbn beta; split; [lia|assumption]) Hok7).
  rd_step (codec_fwd _ _ _ codec_signals sig _ _ ltac:(cbn beta; split; [lia|assumption]) Hok8).
  rd_step (codec_fwd _ _ _ (codec_string _) dg _ _ ltac:(done) Hok9).
  by rd_step (codec_fwd _ _ _ codec_authentication au _ _ ltac:(done) Hok10).
Qed.

Lemma put_frame_rd_frame bytes f rest :
  rd_frame bytes = Ok (f, rest) →
  (frame_wf f = true ∧ frame_counts_ok f = true) ∧ ∃ b, put_frame f = Ok b ∧ bytes = b +:+ rest.
Proof.
  intros H. unfold rd_frame in H.
  rd_inv H. apply rd_take_inv in Hrd as [-> _].
  rd_inv H. apply rd_ensure_inv in Hrd as [E ->]. apply String.eqb_eq in E as ->.
  rd_inv H. apply (codec_bwd _ _ _ codec_u16) in Hrd as [W1 (b1 & [= <-] & ->)].
  rd_inv H. apply (codec_bwd _ _ _ (codec_string _)) in Hrd as [W2 (b2 & E2 & ->)].
  rd_inv H. apply (codec_bwd _ _ _ (codec_string _)) in Hrd as [W3 (b3 & E3 & ->)].
  rd_inv H. apply (codec_bwd _ _ _ (codec_string _)) in Hrd as [W4 (b4 & E4 & ->)].
  rd_inv H. apply (codec_bwd _ _ _ (codec_string _)) in Hrd as [W5 (b5 & E5 & ->)].
  rd_inv H. apply (codec_bwd _ _ _ codec_u64) in Hrd as [W6 (b6 & [= <-] & ->)].
  rd_inv H. apply (codec_bwd _ _ _ codec_u64) in Hrd as [W7 (b7 & [= <-] & ->)].
  rd_inv H. apply (codec_bwd _ _ _ codec_u64) in Hrd as [W8 (b8 & [= <-] & ->)].
  rd_inv H. apply (codec_bwd _ _ _ (codec_string _)) in Hrd as [W9 (b9 & E9 & ->)].
  rd_inv H. apply (codec_bwd _ _ _ codec_u16) in Hrd as [W10 (b10 & [= <-] & ->)].
  rd_inv H. apply (codec_bwd _ _ _ (codec_string _)) in Hrd as [W11 (b11 & E11 & ->)].
  rd_inv H. apply (codec_bwd _ _ _ (codec_string _)) in Hrd as [W12 (b12 & E12 & ->)].
  rd_inv H. apply (codec_bwd _ _ _ (codec_strings _)) in Hrd as [[L13 W13] (b13 & E13 & ->)].
  rd_inv H. apply (codec_bwd _ _ _ (codec_strings _)) in Hrd as [[L14 W14] (b14 & E14 & ->)].
  rd_inv H. apply (codec_bwd _ _ _ codec_signals) in Hrd as [[L15 W15] (b15 & E15 & ->)].
  rd_inv H. apply (codec_bwd _ _ _ (codec_string _)) in Hrd as [W16 (b16 & E16 & ->)].
  rd_inv H. apply (codec_bwd _ _ _ codec_authentication) in Hrd as [W17 (b17 & E17 & ->)].
  rd_done H. rewrite <-!forallb_Forall in *. apply Z.leb_le in L13, L14, L15.
  split.
  { unfold frame_wf, frame_counts_ok. cbn.
      by rewrite W1, W2, W3, W4, W5, W6, W7, W8, W9, W10, W11, W12, W13, W14, W15, W16, W17,
        L13, L14, L15. }
  unfold put_frame. cbn -[put_u16 put_u64]. eexists.
  rewrite E2, E3, E4, E5, E9, E11, E12, E13, E14, E15, E16, E17. cbn -[put_u16 put_u64].
  split; [done|]. by rewrite !str_app_assoc.
Qed.

(* ------------------------------------------------------------------ *)
(** ** Size of an encoding *)

Lemma put_string_total s :
  slen s <= MAX_FIELD_BYTES → ∃ b, put_string s = Ok b ∧ slen b <= 258.
Proof.
  intros Hs. eexists. rewrite put_string_Ok. split; [done|].
  rewrite slen_app. unfold put_u16, slen at 1. rewrite be_bytes_length.
  unfold MAX_FIELD_BYTES in *. lia.
Qed.

Lemma write_all_total {A} (w : A → result PulseError string) bound xs :
  Forall (λ x, ∃ b, w x = Ok b ∧ slen b <= bound) xs →
  ∃ b, write_all w xs = Ok b ∧ slen b <= bound * Z.of_nat (length xs).
Proof.
  induction 1 as [|x xs (b & Hb & Hlen) _ (b' & Hb' & Hlen')]; cbn [write_all length].
  { exists "". split; [done|]. unfold slen. cbn. lia. }
  exists (b +:+ b'). rewrite Hb. cbn. rewrite Hb'. cbn. split; [done|]. rewrite slen_app. lia.
Qed.

Lemma slen_be k z : slen (be_bytes k z) = Z.of_nat k.
Proof. unfold slen. by rewrite be_bytes_length. Qed.

Lemma put_strings_total field xs :
  validate_sorted_tags field xs = Ok tt →
  ∃ b, put_strings xs = Ok b ∧ slen b <= 2 + 258 * MAX_COVERAGE_TAGS.
Proof.
  unfold validate_sorted_tags, put_strings. intros H. inv_ok H. apply ensure_Ok in Hok.
  split_and_bool. unfold MAX_COVERAGE_TAGS in *.
  destruct (write_all_total put_string 258 xs) as (b & Hb & Hlen).
  { apply sorted_tags_loop_fields in H. eapply Forall_impl; [exact H|].
    intros x Hx%validate_field_slen. apply put_string_total. lia. }
  rewrite put_string_list_all, Hb. unfold u16_max.
  replace (_ <=? 65535) with true by lia. cbn. eexists. split; [done|].
  rewrite slen_app. unfold put_u16. rewrite slen_be. lia.
Qed.

Lemma put_signals_total xs :
  Z.of_nat (length xs) <= MAX_SIGNALS → signals_loop None xs = Ok tt →
  ∃ b, put_signals xs = Ok b ∧ slen b <= 2 + 525 * MAX_SIGNALS.
Proof.
  unfold put_signals, MAX_SIGNALS. intros Hn H.
  destruct (write_all_total put_signal 525 xs) as (b & Hb & Hlen).
  { apply signals_loop_fields in H. eapply Forall_impl; [exact H|]. cbn.
    intros [n v u a] Hx. unfold signal_validate in Hx. cbn in Hx. inv_ok Hx.
    apply validate_field_slen in Hok, Hok0.
    destruct (put_string_total n ltac:(lia)) as (bn & Hbn & Ln).
    destruct (put_string_total u ltac:(lia)) as (bu & Hbu & Lu).
    unfold put_signal. cbn. rewrite Hbn. cbn. rewrite Hbu. cbn.
    eexists. split; [done|]. unfold put_u64. rewrite !slen_app, !slen_be. lia. }
  rewrite put_signal_list_all, Hb. unfold u16_max.
  replace (_ <=? 65535) with true by lia. cbn. eexists. split; [done|].
  rewrite slen_app. unfold put_u16. rewrite slen_be. lia.
Qed.

Lemma put_authentication_total a :
  authentication_validate a = Ok tt → ∃ b, put_authentication a = Ok b ∧ slen b <= 775.
Proof.
  destruct a as [d|s k t]; cbn; intros H; inv_ok H.
  - apply validate_field_slen in H.
    destruct (put_string_total d ltac:(lia)) as (b & -> & Hlen). cbn. eexists. split; [done|].
    rewrite slen_app, slen_be. lia.
  - apply validate_field_slen in H, Hok, Hok0.
    destruct (put_string_total s ltac:(lia)) as (bs & -> & ?).
    destruct (put_string_total k ltac:(lia)) as (bk & -> & ?).
    destruct (put_string_total t ltac:(lia)) as (bt & -> & ?). cbn. eexists. split; [done|].
    rewrite !slen_app, slen_be. lia.
Qed.

Section wire.
Context `{Sha256}.

(** The bound on every frame: 64 KiB is never reached by a valid one. *)
Definition MAX_VALID_FRAME_BYTES : Z := 52701.

Lemma put_frame_total f :
  frame_validate f = Ok tt → ∃ b, put_frame f = Ok b ∧ slen b <= MAX_VALID_FRAME_BYTES.
Proof.
  destruct f as [sv sub subi obs obsi sq ns val [pn pv pd] gen [ex ob] sig dg au].
  unfold frame_validate, profile_validate, coverage_validate, put_frame. cbn.
  intros Hv. inv_ok Hv. inv_ok Hok6. inv_ok Hok7. inv_ok Hok11. clear Hv Hok5 Hok13 Hok.
  apply identity_field_slen in Hok0, Hok1, Hok2, Hok3, Hok4. apply validate_field_slen in Hok12.
  apply digest_validate_slen in Hok6, Hok11.
  apply ensure_Ok in Hok8. apply negb_true_iff in Hok8.
  destruct (put_string_total sub ltac:(lia)) as (b1 & -> & ?).
  destruct (put_string_total subi ltac:(lia)) as (b2 & -> & ?).
  destruct (put_string_total obs ltac:(lia)) as (b3 & -> & ?).
  destruct (put_string_total obsi ltac:(lia)) as (b4 & -> & ?).
  destruct (put_string_total pn ltac:(lia)) as (b5 & -> & ?).
  unfold MAX_FIELD_BYTES in *.
  destruct (put_string_total pd) as (b6 & -> & ?); [unfold MAX_FIELD_BYTES; lia|].
  destruct (put_string_total gen) as (b7 & -> & ?); [unfold MAX_FIELD_BYTES; lia|].
  destruct (put_strings_total _ _ Hok14) as (b8 & -> & ?).
  destruct (put_strings_total _ _ Hok15) as (b9 & -> & ?).
  destruct (put_signals_total sig) as (b10 & -> & ?); [lia|done|].
  destruct (put_string_total dg) as (b11 & -> & ?); [unfold MAX_FIELD_BYTES; lia|].
  destruct (put_authentication_total _ Hok10) as (b12 & -> & ?).
  cbn. eexists. split; [done|].
  unfold put_u16, put_u64. rewrite !slen_app, !slen_be.
  unfold MAX_VALID_FRAME_BYTES, MAX_COVERAGE_TAGS, MAX_SIGNALS in *.
  change (slen WIRE_MAGIC) with 4. lia.
Qed.

Lemma encode_wire_eq f b :
  encode_wire f = Ok b ↔
  frame_validate f = Ok tt ∧ put_frame f = Ok b ∧ slen b <= MAX_WIRE_FRAME_BYTES.
Proof.
  unfold encode_wire. split.
  - intros Hb. inv_ok Hb. apply ensure_Ok in Hok1. simplify_eq. split_and_bool.
    split; [done|]. split; [done|lia].
  - intros (-> & -> & Hlen). cbn.
    by replace (MAX_WIRE_FRAME_BYTES <? slen b) with false by lia.
Qed.

Lemma decode_wire_eq bytes f :
  decode_wire bytes = Ok f ↔
  slen bytes <= MAX_WIRE_FRAME_BYTES ∧ rd_frame bytes = Ok (f, "") ∧ frame_validate f = Ok tt.
Proof.
  unfold decode_wire. split.
  - intros Hb. inv_ok Hb. simplify_eq.
    apply ensure_Ok in Hok, Hok1. split_and_bool. apply Z.eqb_eq, slen_nil in Hok1 as ->.
    split; [lia|done].
  - intros (Hlen & -> & Hv). replace (MAX_WIRE_FRAME_BYTES <? slen bytes) with false by lia.
    cbn. by rewrite Hv.
Qed.

Lemma frame_validate_counts f : frame_validate f = Ok tt → frame_counts_ok f = true.
Proof.
  unfold frame_validate, coverage_validate, validate_sorted_tags, frame_counts_ok.
  intros Hv. inv_oks. split_and_bool. rewrite !andb_true_iff. lia.
Qed.

(** C1. Encoding is total on valid frames and decoding inverts it: every
    frame that satisfies its type invariants and [validate] has a wire form of
    at most 52701 bytes, below the 64 KiB limit, and [decode_wire] returns
    exactly that frame. *)
Theorem wire_roundtrip f :
  frame_wf f = true → frame_validate f = Ok tt →
  ∃ b, encode_wire f = Ok b ∧ slen b <= MAX_VALID_FRAME_BYTES ∧ decode_wire b = Ok f.
Proof.
  intros Hwf Hv. destruct (put_frame_total f Hv) as (b & Hb & Hlen).
  assert (slen b <= MAX_WIRE_FRAME_BYTES)
    by (unfold MAX_VALID_FRAME_BYTES, MAX_WIRE_FRAME_BYTES in *; lia).
  exists b. rewrite encode_wire_eq, decode_wire_eq. repeat split; try done.
  rewrite <-(str_app_nil_r b). by apply rd_frame_put_frame, Hb; [|apply frame_validate_counts].
Qed.

(** C2. The wire form is canonical: whatever bytes [decode_wire] accepts are
    the bytes [encode_wire] produces for the decoded frame, which satisfies
    the type invariants and validates.  No two byte strings decode to one
    frame, and trailing or non-minimal bytes are never accepted. *)
Theorem wire_canonical bytes f :
  decode_wire bytes = Ok f →
  encode_wire f = Ok bytes ∧ frame_wf f = true ∧ frame_validate f = Ok tt.
Proof.
  rewrite decode_wire_eq, encode_wire_eq. intros (Hlen & Hrd & Hv).
  apply put_frame_rd_frame in Hrd as [[Hwf _] (b & Hb & ->)].
  rewrite str_app_nil_r in *. done.
Qed.

End wire.

Lemma wire_roundtrip_witness :
  frame_wf sample_frame = true ∧ frame_validate sample_frame = Ok tt ∧
  ∃ b, encode_wire sample_frame = Ok b ∧ slen b <= MAX_VALID_FRAME_BYTES ∧
       decode_wire b = Ok sample_frame.
Proof.
  split; [vm_compute; reflexivity|]. split; [vm_compute; reflexivity|].
  apply wire_roundtrip; vm_compute; reflexivity.
Defined.

Definition sample_bytes : string :=
  match encode_wire sample_frame with Ok b => b | Err _ => "" end.

Lemma wire_canonical_witness :
  decode_wire sample_bytes = Ok sample_frame ∧
  encode_wire sample_frame = Ok sample_bytes ∧ frame_wf sample_frame = true ∧
  frame_validate sample_frame = Ok tt.
Proof.
  split; [vm_compute; reflexivity|].
  apply wire_canonical. vm_compute. reflexivity.
Defined.
