(* ===== verification/ObservationDigest.v ===== *)
(** * What the observation digest binds

    [recompute_observation_digest] hashes a flat list of parts: twelve fixed
    fields, then a label and a tag per coverage tag, then four parts per
    signal, with no count in between.  The theorem is that on validated frames
    the list can still be read back in one way only, so the hash input
    determines every field but the authentication. *)

From S2P Require Import Prelude Ids Digest Pulse Samples.

(* ------------------------------------------------------------------ *)
(** ** Reading the part list back *)

(** Four parts of one signal cannot be two (label, tag) pairs: the fourth is a
    single control byte, which no validated tag and no value part is. *)
Definition second_part_ok (parts : list string) : Prop :=
  parts = [] ∨ ∃ a b rest, parts = a :: b :: rest ∧ (has_control b = false ∨ String.length b = 8%nat).

Definition clean_tags (tags : list string) : Prop := Forall (λ t, has_control t = false) tags.

Definition signals_in_range (signals : list BoundedSignalValueV1) : Prop :=
  Forall (λ s, is_u64 (sg_value s) = true) signals.

Lemma assessment_part_control a : has_control (be_bytes 1 (assessment_tag a)) = true.
Proof. by destruct a. Qed.

Lemma signals_second_ok sg : second_part_ok (flat_map signal_parts sg).
Proof.
  destruct sg as [|s sg]; [by left|]. right. cbn. do 3 eexists. split; [done|].
  right. apply be_bytes_length.
Qed.

Lemma tags_second_ok label tags rest :
  clean_tags tags → second_part_ok rest → second_part_ok (tag_parts label tags ++ rest).
Proof.
  intros Ht Hr. destruct tags as [|t tags]; [done|]. right. cbn.
  apply Forall_cons in Ht as [Ht _]. do 3 eexists. split; [done|]. by left.
Qed.

Lemma tag_not_signals label t rest sg :
  second_part_ok rest → label :: t :: rest ≠ flat_map signal_parts sg.
Proof.
  intros Hr. destruct sg as [|s sg]; cbn; [done|]. intros [= _ _ Heq].
  destruct Hr as [->|(a & b & rest' & -> & Hb)]; [done|]. simplify_eq.
  rewrite assessment_part_control, be_bytes_length in Hb. by destruct Hb.
Qed.

Lemma be8_inj x y : is_u64 x = true → is_u64 y = true → be_bytes 8 x = be_bytes 8 y → x = y.
Proof.
  unfold is_u64, u64_max. intros Hx Hy Heq. split_and_bool.
  apply (f_equal be_value) in Heq. by rewrite !be_roundtrip in Heq by (cbn; lia).
Qed.

Lemma be2_inj x y : is_u16 x = true → is_u16 y = true → be_bytes 2 x = be_bytes 2 y → x = y.
Proof.
  unfold is_u16, u16_max. intros Hx Hy Heq. split_and_bool.
  apply (f_equal be_value) in Heq. by rewrite !be_roundtrip in Heq by (cbn; lia).
Qed.

Lemma assessment_part_inj a b :
  be_bytes 1 (assessment_tag a) = be_bytes 1 (assessment_tag b) → a = b.
Proof. by destruct a, b. Qed.

Lemma cons4_inj {A} (a b c d a' b' c' d' : A) r r' :
  a :: b :: c :: d :: r = a' :: b' :: c' :: d' :: r' →
  a = a' ∧ b = b' ∧ c = c' ∧ d = d' ∧ r = r'.
Proof. by intros [= -> -> -> -> ->]. Qed.

Lemma signals_parts_inj sg1 sg2 :
  signals_in_range sg1 → signals_in_range sg2 →
  flat_map signal_parts sg1 = flat_map signal_parts sg2 → sg1 = sg2.
Proof.
  intros H1. revert sg2. induction H1 as [|[n1 v1 u1 a1] sg1 Hv1 H1 IH];
    intros [|[n2 v2 u2 a2] sg2] H2 Heq; try done.
  apply Forall_cons in H2 as [Hv2 H2]. cbn in *. apply cons4_inj in Heq as (-> & Hv & -> & Ha & Hrest).
  apply be8_inj in Hv as ->; [|done..]. apply assessment_part_inj in Ha as ->.
  f_equal. by apply IH.
Qed.

Lemma observed_parts_inj ob1 sg1 ob2 sg2 :
  clean_tags ob1 → clean_tags ob2 → signals_in_range sg1 → signals_in_range sg2 →
  tag_parts "observed" ob1 ++ flat_map signal_parts sg1 =
  tag_parts "observed" ob2 ++ flat_map signal_parts sg2 → ob1 = ob2 ∧ sg1 = sg2.
Proof.
  intros H1 H2 Hs1 Hs2. revert ob2 H2. induction H1 as [|t1 ob1 Ht1 H1 IH];
    intros ob2 H2 Heq; destruct H2 as [|t2 ob2 Ht2 H2]; cbn in Heq.
  - split; [done|]. by apply signals_parts_inj.
  - symmetry in Heq. exfalso. revert Heq. apply tag_not_signals.
    by apply tags_second_ok, signals_second_ok.
  - exfalso. revert Heq. apply tag_not_signals. by apply tags_second_ok, signals_second_ok.
  - injection Heq as -> Heq. by destruct (IH _ H2 Heq) as [-> ->].
Qed.

Lemma coverage_parts_inj ex1 ob1 sg1 ex2 ob2 sg2 :
  clean_tags ex1 → clean_tags ex2 → clean_tags ob1 → clean_tags ob2 →
  signals_in_range sg1 → signals_in_range sg2 →
  tag_parts "expected" ex1 ++ tag_parts "observed" ob1 ++ flat_map signal_parts sg1 =
  tag_parts "expected" ex2 ++ tag_parts "observed" ob2 ++ flat_map signal_parts sg2 →
  ex1 = ex2 ∧ ob1 = ob2 ∧ sg1 = sg2.
Proof.
  intros H1 H2 Ho1 Ho2 Hs1 Hs2.
  assert (Hcross : ∀ t ex ob ob' sg sg', clean_tags ex → clean_tags ob →
    "expected" :: t :: tag_parts "expected" ex ++ tag_parts "observed" ob ++ flat_map signal_parts sg
    ≠ tag_parts "observed" ob' ++ flat_map signal_parts sg').
  { intros t ex ob [|t' ob'] sg sg' He Ho; [|done]. apply tag_not_signals.
    by apply tags_second_ok, tags_second_ok, signals_second_ok. }
  revert ex2 H2. induction H1 as [|t1 ex1 Ht1 H1 IH];
    intros ex2 H2 Heq; destruct H2 as [|t2 ex2 Ht2 H2]; cbn in Heq.
  - split; [done|]. by apply observed_parts_inj.
  - symmetry in Heq. by apply Hcross in Heq.
  - by apply Hcross in Heq.
  - injection Heq as -> Heq. by destruct (IH _ H2 Heq) as (-> & -> & ->).
Qed.

(* ------------------------------------------------------------------ *)
(** ** The theorem *)

Lemma validate_field_clean field v : validate_field field v = Ok tt → has_control v = false.
Proof. unfold validate_field. intros H. inv_oks. by split_and_bool. Qed.

Lemma sorted_tags_clean field prev xs :
  sorted_tags_loop field prev xs = Ok tt → clean_tags xs.
Proof.
  revert prev. induction xs as [|x xs IH]; intros prev H; [constructor|]. cbn in H. inv_oks.
  constructor; [by eapply validate_field_clean|by eapply IH].
Qed.

Section binding.
Context `{Sha256}.

Lemma frame_validate_clean f :
  frame_validate f = Ok tt →
  clean_tags (cd_expected (pf_coverage f)) ∧ clean_tags (cd_observed (pf_coverage f)).
Proof.
  unfold frame_validate, coverage_validate, validate_sorted_tags. intros Hv. inv_oks.
  split; by eapply sorted_tags_clean.
Qed.

Lemma frame_validate_digest f :
  frame_validate f = Ok tt → pf_observation_digest f = recompute_observation_digest f.
Proof. unfold frame_validate. intros Hv. inv_oks. by apply bool_decide_eq_true in Hv. Qed.

Lemma frame_wf_signals f : frame_wf f = true → signals_in_range (pf_signals f).
Proof.
  unfold frame_wf. intros Hwf. split_and_bool.
  match goal with E : forallb signal_wf _ = true |- _ => apply forallb_Forall in E; rename E into Hs end.
  eapply Forall_impl; [exact Hs|]. intros s. unfold signal_wf. intros. by split_and_bool.
Qed.

(** The two frames differ at most in their authentication field. *)
Definition same_observation (f g : PulseFrameV1) : Prop :=
  g = {| pf_schema_version := pf_schema_version f;
         pf_subject := pf_subject f;
         pf_subject_incarnation := pf_subject_incarnation f;
         pf_observer := pf_observer f;
         pf_observer_incarnation := pf_observer_incarnation f;
         pf_sequence := pf_sequence f;
         pf_observer_monotonic_ns := pf_observer_monotonic_ns f;
         pf_validity_ms := pf_validity_ms f;
         pf_profile := pf_profile f;
         pf_observation_policy_generation := pf_observation_policy_generation f;
         pf_coverage := pf_coverage f;
         pf_signals := pf_signals f;
         pf_observation_digest := pf_observation_digest f;
         pf_authentication := pf_authentication g |}.

Lemma observation_parts_inj f g :
  frame_wf f = true → frame_wf g = true →
  frame_validate f = Ok tt → frame_validate g = Ok tt →
  observation_parts f = observation_parts g → same_observation f g.
Proof.
  intros Wf Wg Vf Vg Heq.
  pose proof (frame_validate_digest f Vf) as Df. pose proof (frame_validate_digest g Vg) as Dg.
  unfold recompute_observation_digest in Df, Dg. rewrite <-Heq, <-Df in Dg.
  destruct (frame_validate_clean f Vf) as [Ef Of]. destruct (frame_validate_clean g Vg) as [Eg Og].
  pose proof (frame_wf_signals f Wf) as Sf. pose proof (frame_wf_signals g Wg) as Sg.
  unfold frame_wf in Wf, Wg. clear Vf Vg Df. unfold same_observation.
  destruct f as [sv sub subi obs obsi sq ns val [pn pv pd] gen [ex ob] sig dg au].
  destruct g as [sv' sub' subi' obs' obsi' sq' ns' val' [pn' pv' pd'] gen' [ex' ob'] sig' dg' au'].
  cbn in *. split_and_bool.
  unfold observation_parts in Heq. cbn in Heq.
  apply cons4_inj in Heq as (Hsv & -> & -> & -> & Heq).
  apply cons4_inj in Heq as (-> & Hsq & Hns & Hval & Heq).
  apply cons4_inj in Heq as (-> & Hpv & -> & -> & Heq).
  apply coverage_parts_inj in Heq as (-> & -> & ->); [|done..].
  apply be2_inj in Hsv as ->; [|done..]. apply be2_inj in Hpv as ->; [|done..].
  apply be8_inj in Hsq as ->; [|done..]. apply be8_inj in Hns as ->; [|done..].
  apply be8_inj in Hval as ->; [|done..]. by subst.
Qed.

Lemma hex_encode_inj a b : hex_encode a = hex_encode b → a = b.
Proof.
  revert b. induction a as [|x a IH]; intros [|y b] Heq; try done.
  cbn in Heq. injection Heq as Hh Hl Heq. f_equal; [|by apply IH].
  destruct (nibbles x), (nibbles y).
  apply (f_equal byte_val) in Hh, Hl. rewrite !hex_digit_val in Hh, Hl by done.
  rewrite <-(byte_of_val x), <-(byte_of_val y). f_equal.
  pose proof (Z.div_mod (byte_val x) 16). pose proof (Z.div_mod (byte_val y) 16).
  repeat case_in Hh; repeat case_in Hl; lia.
Qed.

Lemma small_addressable v : slen v <= MAX_FIELD_BYTES → addressable v.
Proof. unfold addressable, MAX_FIELD_BYTES, u64_max. lia. Qed.

Lemma tag_parts_addressable label xs :
  addressable label → Forall addressable xs → Forall addressable (tag_parts label xs).
Proof. intros Hl. induction 1; cbn; [constructor|]. repeat constructor; done. Qed.

Lemma signal_parts_addressable xs :
  Forall (λ s, signal_validate s = Ok tt) xs → Forall addressable (flat_map signal_parts xs).
Proof.
  induction 1 as [|s xs Hs _ IH]; [constructor|].
  unfold signal_validate in Hs. inv_oks.
  repeat match goal with E : validate_field _ _ = Ok tt |- _ => apply validate_field_slen in E end.
  cbn. repeat constructor; [|done|..|done]; try done; apply small_addressable; lia.
Qed.

Lemma sorted_tags_addressable field prev xs :
  sorted_tags_loop field prev xs = Ok tt → Forall addressable xs.
Proof.
  intros Hx%sorted_tags_loop_fields. eapply Forall_impl; [exact Hx|].
  intros x Hv%validate_field_slen. apply small_addressable. lia.
Qed.

(** Validation bounds every hashed part, so its length prefix is exact. *)
Lemma observation_parts_addressable f :
  frame_validate f = Ok tt → Forall addressable (observation_parts f).
Proof.
  unfold frame_validate, profile_validate, coverage_validate, validate_sorted_tags, observation_parts.
  intros Hv. inv_oks.
  repeat match goal with
  | E : identity_field _ _ _ = Ok tt |- _ => apply identity_field_slen in E
  | E : validate_field _ _ = Ok tt |- _ => apply validate_field_slen in E
  | E : digest_validate _ = Ok tt |- _ => apply digest_validate_slen in E
  | E : sorted_tags_loop _ _ _ = Ok tt |- _ => apply sorted_tags_addressable in E
  | E : signals_loop _ _ = Ok tt |- _ => apply signals_loop_fields, signal_parts_addressable in E
  end.
  unfold MAX_FIELD_BYTES in *. rewrite !Forall_app.
  split; [repeat constructor; try done; apply small_addressable; unfold MAX_FIELD_BYTES; lia|].
  split; [by apply tag_parts_addressable|]. split; [by apply tag_parts_addressable|done].
Qed.

(** The bytes hashed for a frame. *)
Definition observation_transcript (f : PulseFrameV1) : string :=
  digest_transcript "pulse.observation.v1" (observation_parts f).

(** C3. The observation digest binds the observation.  Two validated frames
    that carry the same digest have hash inputs with equal SHA-256 values, and
    if those inputs are equal (that is, short of an exhibited SHA-256
    collision) the frames agree in every field except the authentication:
    subject, observer, incarnations, sequence, validity, profile, generation,
    coverage and signals.  The part list has no counts, so this rests on
    validation refusing control characters in tags. *)
Theorem observation_digest_binds f g :
  frame_wf f = true → frame_wf g = true →
  frame_validate f = Ok tt → frame_validate g = Ok tt →
  pf_observation_digest f = pf_observation_digest g →
  sha256 (observation_transcript f) = sha256 (observation_transcript g) ∧
  (observation_transcript f = observation_transcript g → same_observation f g).
Proof.
  intros Wf Wg Vf Vg Hd. split.
  - rewrite (frame_validate_digest f Vf), (frame_validate_digest g Vg) in Hd.
    unfold recompute_observation_digest, digest_parts in Hd.
    apply (inj (String.append "sha256:")) in Hd. by apply hex_encode_inj.
  - intros Ht. apply digest_transcript_inj in Ht as [_ Hp];
      [|done|done|by apply observation_parts_addressable..].
    by apply observation_parts_inj.
Qed.

End binding.

Lemma observation_digest_binds_witness :
  frame_wf sample_frame = true ∧
  sha256 (observation_transcript sample_frame) = sha256 (observation_transcript sample_frame) ∧
  (observation_transcript sample_frame = observation_transcript sample_frame →
   same_observation sample_frame sample_frame).
Proof.
  split; [vm_compute; reflexivity|].
  apply (observation_digest_binds sample_frame sample_frame); vm_compute; reflexivity.
Defined.
