(* ===== verification/Context.v ===== *)
(** * Reliance contexts: the context records of [crates/pulse-types/src/runtime.rs]

    A context names every semantic input whose change invalidates a reliance
    result.  Its identity digest is what a support certificate binds. *)

From S2P Require Import Prelude Ids Digest.

Record RuntimeTypeError := mkRuntimeTypeError { rte_code : string; rte_detail : string }.

(** [RuntimeTypeError::identity]. *)
Definition rte_identity (field : string) : RuntimeTypeError :=
  mkRuntimeTypeError "invalid_identity" field.

Record RelianceContextV1 := mkContext {
  cx_schema_version : Z;
  cx_activation_id : ContextActivationId;
  cx_reliance_policy_generation : PolicyGenerationId;
  cx_reliance_policy_semantic_digest : DigestV1;
  cx_consumer_profile_generation : ConsumerProfileGenerationId;
  cx_evaluator_semantic_generation : EvaluatorSemanticGenerationId;
  cx_observer_set_generation : ObserverSetGenerationId;
  cx_observation_policy_generation : ObservationPolicyGenerationId;
}.
#[global] Instance RelianceContextV1_eq_dec : EqDecision RelianceContextV1.
Proof. solve_decision. Defined.

(** [field.validate().map_err(|_| RuntimeTypeError::identity(field))]. *)
Definition context_identity (kind value field : string) : result RuntimeTypeError unit :=
  map_err (fun _ => rte_identity field) (validate_identity kind value).

(** [RelianceContextV1::validate]. *)
Definition context_validate (c : RelianceContextV1) : result RuntimeTypeError unit :=
  ensure (cx_schema_version c =? SCHEMA_VERSION_V1)
    (mkRuntimeTypeError "unsupported_schema" "reliance context schema is unsupported");;
  context_identity "ContextActivationId" (cx_activation_id c) "activation_id";;
  context_identity "PolicyGenerationId" (cx_reliance_policy_generation c)
    "reliance_policy_generation";;
  map_err (fun _ => mkRuntimeTypeError "invalid_digest" "invalid policy digest")
    (digest_validate (cx_reliance_policy_semantic_digest c));;
  context_identity "ConsumerProfileGenerationId" (cx_consumer_profile_generation c)
    "consumer_profile_generation";;
  context_identity "EvaluatorSemanticGenerationId" (cx_evaluator_semantic_generation c)
    "evaluator_semantic_generation";;
  context_identity "ObserverSetGenerationId" (cx_observer_set_generation c)
    "observer_set_generation";;
  context_identity "ObservationPolicyGenerationId" (cx_observation_policy_generation c)
    "observation_policy_generation".

(** The transcript of [RelianceContextV1::identity_digest]. *)
Definition context_parts (c : RelianceContextV1) : list string :=
  [ cx_activation_id c;
    cx_reliance_policy_generation c;
    cx_reliance_policy_semantic_digest c;
    cx_consumer_profile_generation c;
    cx_evaluator_semantic_generation c;
    cx_observer_set_generation c;
    cx_observation_policy_generation c ].

Definition context_identity_digest `{Sha256} (c : RelianceContextV1) : DigestV1 :=
  digest_parts "reliance.context.v1" (context_parts c).

Inductive GenerationTransitionCauseV1 :=
| InitialActivation
| ReliancePolicyChanged
| ConsumerProfileChanged
| EvaluatorSemanticsChanged
| ObserverSetChanged
| ObservationPolicyChanged
| EquivalentBodyNewGeneration
| PolicyRollback
| AbaReactivation
| SubjectIncarnationChanged
| ReceiverRestarted.

(** The derived [Debug]. *)
Definition cause_debug (c : GenerationTransitionCauseV1) : string :=
  match c with
  | InitialActivation => "InitialActivation"
  | ReliancePolicyChanged => "ReliancePolicyChanged"
  | ConsumerProfileChanged => "ConsumerProfileChanged"
  | EvaluatorSemanticsChanged => "EvaluatorSemanticsChanged"
  | ObserverSetChanged => "ObserverSetChanged"
  | ObservationPolicyChanged => "ObservationPolicyChanged"
  | EquivalentBodyNewGeneration => "EquivalentBodyNewGeneration"
  | PolicyRollback => "PolicyRollback"
  | AbaReactivation => "AbaReactivation"
  | SubjectIncarnationChanged => "SubjectIncarnationChanged"
  | ReceiverRestarted => "ReceiverRestarted"
  end.

Record RelianceContextTransitionV1 := mkContextTransition {
  ct_schema_version : Z;
  ct_subject_scope : SubjectScopeV1;
  ct_consumer : ConsumerId;
  ct_prior_context : option RelianceContextV1;
  ct_new_context : RelianceContextV1;
  ct_cause : GenerationTransitionCauseV1;
  ct_at_monotonic_ms : Z;
  ct_standing_inherited : bool;
}.
