(* ===== verification/Judgment.v ===== *)
(** * Judgments

    The closed records of [crates/pulse-types/src/judgment.rs].  Enum variants carry a prefix where two enums share a variant name. *)

From S2P Require Import Prelude Ids Digest Pulse.

Definition INCOMPLETE_COVERAGE_EXPLANATION : string :=
  "No violating observation is currently known, but coverage is incomplete and reliance is therefore UNKNOWN.".
Definition NO_MUTATION_NONCLAIM : string :=
  "This judgment grants no authority to execute, repair, or mutate anything.".

Inductive JudgmentCategoryV1 :=
| CatCurrent | CatDegraded | CatSuspect | CatUnknown | CatContradicted.
#[global] Instance JudgmentCategoryV1_eq_dec : EqDecision JudgmentCategoryV1.
Proof. solve_decision. Defined.

(** [JudgmentCategoryV1::as_str], also its [Display]. *)
Definition category_as_str (c : JudgmentCategoryV1) : string :=
  match c with
  | CatCurrent => "CURRENT"
  | CatDegraded => "DEGRADED"
  | CatSuspect => "SUSPECT"
  | CatUnknown => "UNKNOWN"
  | CatContradicted => "CONTRADICTED"
  end.

(** [JudgmentCategoryV1::supports_present_reliance]. *)
Definition category_supports_present_reliance (c : JudgmentCategoryV1) : bool :=
  match c with CatCurrent => true | _ => false end.

Inductive FreshnessDimensionV1 := FreshCurrent | FreshMixed | FreshExpired | FreshNoEvidence.
#[global] Instance FreshnessDimensionV1_eq_dec : EqDecision FreshnessDimensionV1.
Proof. solve_decision. Defined.

Inductive SequenceContinuityDimensionV1 :=
| SeqFirstSeen | SeqContinuous | SeqGapped | SeqRestarted | SeqUnknown.
#[global] Instance SequenceContinuityDimensionV1_eq_dec : EqDecision SequenceContinuityDimensionV1.
Proof. solve_decision. Defined.

Inductive ObserverAvailabilityDimensionV1 := ObsAvailable | ObsPartial | ObsUnavailable.
#[global] Instance ObserverAvailabilityDimensionV1_eq_dec : EqDecision ObserverAvailabilityDimensionV1.
Proof. solve_decision. Defined.

Inductive CrossObserverCoherenceDimensionV1 := Coherent | Disagreement | Insufficient.
#[global] Instance CrossObserverCoherenceDimensionV1_eq_dec : EqDecision CrossObserverCoherenceDimensionV1.
Proof. solve_decision. Defined.

Inductive CoverageDimensionV1 := CovComplete | CovPartial | CovAbsent.
#[global] Instance CoverageDimensionV1_eq_dec : EqDecision CoverageDimensionV1.
Proof. solve_decision. Defined.

Inductive ProvenanceDimensionV1 := ProvVerified | ProvDegraded | ProvFailed | ProvUnknown.
#[global] Instance ProvenanceDimensionV1_eq_dec : EqDecision ProvenanceDimensionV1.
Proof. solve_decision. Defined.

Inductive TransportDimensionV1 := TransNormal | TransDegraded | TransBlind.
#[global] Instance TransportDimensionV1_eq_dec : EqDecision TransportDimensionV1.
Proof. solve_decision. Defined.

Inductive SubjectSignalConsistencyDimensionV1 :=
| SigConsistent | SigViolation | SigContradictory | SigUnknown.
#[global] Instance SubjectSignalConsistencyDimensionV1_eq_dec :
  EqDecision SubjectSignalConsistencyDimensionV1.
Proof. solve_decision. Defined.

Record ConfidenceDimensionsV1 := mkDimensions {
  dim_freshness : FreshnessDimensionV1;
  dim_sequence_continuity : SequenceContinuityDimensionV1;
  dim_observer_availability : ObserverAvailabilityDimensionV1;
  dim_cross_observer_coherence : CrossObserverCoherenceDimensionV1;
  dim_coverage : CoverageDimensionV1;
  dim_provenance : ProvenanceDimensionV1;
  dim_transport : TransportDimensionV1;
  dim_subject_signal_consistency : SubjectSignalConsistencyDimensionV1;
}.
#[global] Instance ConfidenceDimensionsV1_eq_dec : EqDecision ConfidenceDimensionsV1.
Proof. solve_decision. Defined.

Record CoverageCountV1 := mkCoverageCount {
  cc_tag : string;
  cc_active_observers : Z;
  cc_expired_observers : Z;
  cc_required_observers : Z;
}.
#[global] Instance CoverageCountV1_eq_dec : EqDecision CoverageCountV1.
Proof. solve_decision. Defined.

Record CoverageSummaryV1 := mkCoverageSummary {
  cs_required : list string;
  cs_active : list string;
  cs_missing : list string;
  cs_expired : list string;
  cs_active_observers : Z;
  cs_required_observers : Z;
  cs_per_tag : list CoverageCountV1;
}.
#[global] Instance CoverageSummaryV1_eq_dec : EqDecision CoverageSummaryV1.
Proof. solve_decision. Defined.

Record JudgmentReasonV1 := mkReason
  { jr_code : string; jr_detail : string; jr_evidence_refs : list string }.
#[global] Instance JudgmentReasonV1_eq_dec : EqDecision JudgmentReasonV1.
Proof. solve_decision. Defined.

Record JudgmentExplanationV1 := mkExplanation {
  je_summary : string;
  je_reasons : list JudgmentReasonV1;
  je_claims : list string;
  je_nonclaims : list string;
}.
#[global] Instance JudgmentExplanationV1_eq_dec : EqDecision JudgmentExplanationV1.
Proof. solve_decision. Defined.

Inductive MutationAuthorityV1 := MutationNone.
#[global] Instance MutationAuthorityV1_eq_dec : EqDecision MutationAuthorityV1.
Proof. solve_decision. Defined.

Inductive EscalationStateV1 :=
| NotRequested
| Requested (request_id : string)
| Accepted (request_id : string)
| Refused (request_id reason : string)
| Narrowed (request_id : string)
| Deferred (request_id : string)
| Completed (request_id : string) (receipt_id : DiagnosticReceiptId).
#[global] Instance EscalationStateV1_eq_dec : EqDecision EscalationStateV1.
Proof. solve_decision. Defined.

Record PresentStateJudgmentV1 := mkJudgment {
  pj_schema_version : Z;
  pj_subject_scope : SubjectScopeV1;
  pj_consumer : ConsumerId;
  pj_policy_generation : PolicyGenerationId;
  pj_coverage : CoverageSummaryV1;
  pj_evaluated_at_monotonic_ms : Z;
  pj_positive_support_expires_at_monotonic_ms : option Z;
  pj_receiver_clock_id : string;
  pj_evidence_window_id : EvidenceWindowId;
  pj_category : JudgmentCategoryV1;
  pj_dimensions : ConfidenceDimensionsV1;
  pj_explanation : JudgmentExplanationV1;
  pj_escalation : EscalationStateV1;
  pj_mutation_authority : MutationAuthorityV1;
}.
#[global] Instance PresentStateJudgmentV1_eq_dec : EqDecision PresentStateJudgmentV1.
Proof. solve_decision. Defined.

Definition judgment_supports_present_reliance (j : PresentStateJudgmentV1) : bool :=
  category_supports_present_reliance (pj_category j).
Definition grants_mutation_authority (j : PresentStateJudgmentV1) : bool := false.

Record JudgmentTransitionV1 := mkTransition {
  jt_schema_version : Z;
  jt_transition_id : TransitionId;
  jt_subject_scope : SubjectScopeV1;
  jt_consumer : ConsumerId;
  jt_policy_generation : PolicyGenerationId;
  jt_at_monotonic_ms : Z;
  jt_from : option JudgmentCategoryV1;
  jt_to : JudgmentCategoryV1;
  jt_prior_evidence_window : option EvidenceWindowId;
  jt_evidence_window : EvidenceWindowId;
  jt_reason_codes : list string;
}.

Inductive ContradictionStatusV1 :=
| Active
| Resolved (resolver : string) (resolved_at_monotonic_ms : Z) (rule explanation : string)
| Superseded (superseding_record : ContradictionId) (at_monotonic_ms : Z) (rule : string)
| ExpiredUnderNamedRule (at_monotonic_ms : Z) (rule : string)
| InapplicableBySubjectReplacement
    (prior_subject_incarnation replacement_subject_incarnation : IncarnationId)
    (at_monotonic_ms : Z) (rule : string).
#[global] Instance ContradictionStatusV1_eq_dec : EqDecision ContradictionStatusV1.
Proof. solve_decision. Defined.

Record ContradictionRecordV1 := mkContradiction {
  cr_schema_version : Z;
  cr_contradiction_id : ContradictionId;
  cr_subject_scope : SubjectScopeV1;
  cr_policy_generation : PolicyGenerationId;
  cr_signal : string;
  cr_first_observed_at_monotonic_ms : Z;
  cr_evidence_refs : list string;
  cr_incompatible_statements : list string;
  cr_status : ContradictionStatusV1;
}.
#[global] Instance ContradictionRecordV1_eq_dec : EqDecision ContradictionRecordV1.
Proof. solve_decision. Defined.

(** [ContradictionRecordV1::is_active]. *)
Definition contradiction_is_active (r : ContradictionRecordV1) : bool :=
  match cr_status r with Active => true | _ => false end.

(** [record.status = status]. *)
Definition set_contradiction_status (status : ContradictionStatusV1) (r : ContradictionRecordV1)
  : ContradictionRecordV1 :=
  {| cr_schema_version := cr_schema_version r;
     cr_contradiction_id := cr_contradiction_id r;
     cr_subject_scope := cr_subject_scope r;
     cr_policy_generation := cr_policy_generation r;
     cr_signal := cr_signal r;
     cr_first_observed_at_monotonic_ms := cr_first_observed_at_monotonic_ms r;
     cr_evidence_refs := cr_evidence_refs r;
     cr_incompatible_statements := cr_incompatible_statements r;
     cr_status := status |}.

Record ExperimentalMetricsV1 := mkMetrics {
  em_schema_version : Z;
  em_pulse_to_evaluation_latency_ms : Z;
  em_maximum_stale_positive_duration_ms : Z;
  em_failure_to_unknown_latency_ms : option Z;
  em_failure_to_contradicted_latency_ms : option Z;
  em_failure_to_escalation_latency_ms : option Z;
  em_false_escalation_count : Z;
  em_active_coverage : Z;
  em_expired_coverage : Z;
  em_dropped_stale_pulse_count : Z;
  em_duplicate_count : Z;
  em_sequence_gap_count : Z;
  em_escalation_deduplication_count : Z;
  em_monitor_input_drop_count : Z;
}.

(** [ExperimentalMetricsV1::empty]. *)
Definition metrics_empty : ExperimentalMetricsV1 :=
  {| em_schema_version := SCHEMA_VERSION_V1;
     em_pulse_to_evaluation_latency_ms := 0;
     em_maximum_stale_positive_duration_ms := 0;
     em_failure_to_unknown_latency_ms := None;
     em_failure_to_contradicted_latency_ms := None;
     em_failure_to_escalation_latency_ms := None;
     em_false_escalation_count := 0;
     em_active_coverage := 0;
     em_expired_coverage := 0;
     em_dropped_stale_pulse_count := 0;
     em_duplicate_count := 0;
     em_sequence_gap_count := 0;
     em_escalation_deduplication_count := 0;
     em_monitor_input_drop_count := 0 |}.

Record DiagnosticEvidenceReferenceV1 := mkEvidenceReference {
  der_receipt_id : DiagnosticReceiptId;
  der_result_digest : DigestV1;
  der_recorded_at_monotonic_ms : Z;
  der_applicable_until_monotonic_ms : Z;
  der_nonclaims : list string;
}.
