(* ===== verification/Qualification.v ===== *)
(** * Qualified generations: the records of
    [crates/pulse-types/src/qualification.rs] the runtime holds

    A binding ties one subject and consumer to the exact generations a local
    activation verified.  JSON serialisation ([serde_json]) is code that is not
    part of the repository: the text of a lifecycle fact's body is the
    operation of the class [FactJson]. *)

From S2P Require Import Prelude Ids Digest Judgment Context.

Definition MAX_QUALIFICATION_PACKAGE_BYTES : Z := 2 * 1024 * 1024.
Definition MAX_QUALIFICATION_STRING_BYTES : Z := 1024.

Record QualificationError := mkQualificationError { qe_code : string; qe_detail : string }.

(** [Display] of [QualificationError]. *)
Definition qualification_error_display (e : QualificationError) : string :=
  qe_code e +:+ ": " +:+ qe_detail e.

(** [error.to_string()] of an identity and of a digest error, wrapped. *)
Definition qualified_identity (kind value : string) : result QualificationError unit :=
  map_err (fun e => mkQualificationError "invalid_identity" (identity_error_display e))
    (validate_identity kind value).
Definition qualified_digest (d : DigestV1) : result QualificationError unit :=
  map_err (fun e => mkQualificationError "invalid_digest" e) (digest_validate d).

Definition qualification_schema (version : Z) (label : string) : result QualificationError unit :=
  ensure (version =? SCHEMA_VERSION_V1)
    (mkQualificationError "unsupported_version" (label +:+ " schema version is unsupported")).

Definition qualification_text (field value : string) : result QualificationError unit :=
  ensure (negb ((slen value =? 0) || (MAX_QUALIFICATION_STRING_BYTES <? slen value)
                || has_control value))
    (mkQualificationError "invalid_text"
       (field +:+ " is empty, over its bound, or contains control characters")).

(** [canonical_encode] and [body_digest] of a value whose JSON text
    [serde_json::to_vec] writes: the text is refused above the package bound.
    The derived encoders of these closed records do not fail. *)
Definition canonical_encode {A} (json : A → string) (value : A)
  : result QualificationError string :=
  if MAX_QUALIFICATION_PACKAGE_BYTES <? slen (json value) then
    Err (mkQualificationError "bound_exceeded" "canonical object exceeds the package byte bound")
  else Ok (json value).
Definition body_digest `{Sha256} {A} (json : A → string) (domain : string) (value : A)
  : result QualificationError DigestV1 :=
  bytes ← canonical_encode json value;
  Ok (digest_parts domain [bytes]).

(** [artifact_content_digest]. *)
Definition artifact_content_digest `{Sha256} (bytes : string) : DigestV1 :=
  digest_parts "qualified.artifact-content.v1" [bytes].

(** [canonical_decode]: the bytes must be exactly the encoding of the value
    [serde_json::from_slice] reads from them. *)
Definition canonical_decode {A} (json : A → string) (parse : string → result string A)
    (bytes label : string) : result QualificationError A :=
  ensure (negb ((slen bytes =? 0) || (MAX_QUALIFICATION_PACKAGE_BYTES <? slen bytes)))
    (mkQualificationError "bound_exceeded" (label +:+ " is empty or exceeds its byte bound"));;
  value ← map_err (fun error => mkQualificationError "malformed_canonical_encoding"
                       (label +:+ " does not decode as its closed schema: " +:+ error))
            (parse bytes);
  canonical ← canonical_encode json value;
  ensure (bool_decide (canonical = bytes))
    (mkQualificationError "noncanonical_encoding"
       (label +:+ " bytes are not the unique canonical encoding"));;
  Ok value.

Inductive RuntimeBindingStateV1 :=
| Unbound
| BindingPending
| QualifiedAndMatched
| MissingCertificate
| UnsupportedCertificate
| ManifestMismatch
| ExecutableMismatch
| EvaluatorMismatch
| PolicyMismatch
| ProfileMismatch
| ObserverSetMismatch
| ObservationPolicyMismatch
| ConfigurationMismatch
| ContractMismatch
| QualificationEvidenceMissing
| StateSuperseded
| StateRevoked
| MutableAfterActivation
| MeasurementUnavailable
| Ambiguous.
#[global] Instance RuntimeBindingStateV1_eq_dec : EqDecision RuntimeBindingStateV1.
Proof. solve_decision. Defined.

Definition binding_state_debug (s : RuntimeBindingStateV1) : string :=
  match s with
  | Unbound => "Unbound"
  | BindingPending => "BindingPending"
  | QualifiedAndMatched => "QualifiedAndMatched"
  | MissingCertificate => "MissingCertificate"
  | UnsupportedCertificate => "UnsupportedCertificate"
  | ManifestMismatch => "ManifestMismatch"
  | ExecutableMismatch => "ExecutableMismatch"
  | EvaluatorMismatch => "EvaluatorMismatch"
  | PolicyMismatch => "PolicyMismatch"
  | ProfileMismatch => "ProfileMismatch"
  | ObserverSetMismatch => "ObserverSetMismatch"
  | ObservationPolicyMismatch => "ObservationPolicyMismatch"
  | ConfigurationMismatch => "ConfigurationMismatch"
  | ContractMismatch => "ContractMismatch"
  | QualificationEvidenceMissing => "QualificationEvidenceMissing"
  | StateSuperseded => "Superseded"
  | StateRevoked => "Revoked"
  | MutableAfterActivation => "MutableAfterActivation"
  | MeasurementUnavailable => "MeasurementUnavailable"
  | Ambiguous => "Ambiguous"
  end.

(** [RuntimeBindingStateV1::permits_current]. *)
Definition permits_current (s : RuntimeBindingStateV1) : bool :=
  match s with QualifiedAndMatched => true | _ => false end.

Inductive ArtifactRoleV1 :=
| RunningExecutable
| EvaluatorImplementation
| RoleReliancePolicy
| RoleConsumerProfile
| RoleObserverSet
| RoleObservationPolicy
| RuntimeConfiguration
| SemanticContracts
| QualificationCorpus
| QualificationResults.
#[global] Instance ArtifactRoleV1_eq_dec : EqDecision ArtifactRoleV1.
Proof. solve_decision. Defined.

Definition role_debug (r : ArtifactRoleV1) : string :=
  match r with
  | RunningExecutable => "RunningExecutable"
  | EvaluatorImplementation => "EvaluatorImplementation"
  | RoleReliancePolicy => "ReliancePolicy"
  | RoleConsumerProfile => "ConsumerProfile"
  | RoleObserverSet => "ObserverSet"
  | RoleObservationPolicy => "ObservationPolicy"
  | RuntimeConfiguration => "RuntimeConfiguration"
  | SemanticContracts => "SemanticContracts"
  | QualificationCorpus => "QualificationCorpus"
  | QualificationResults => "QualificationResults"
  end.

(** [ArtifactRoleV1::mismatch_state]. *)
Definition mismatch_state (r : ArtifactRoleV1) : RuntimeBindingStateV1 :=
  match r with
  | RunningExecutable => ExecutableMismatch
  | EvaluatorImplementation => EvaluatorMismatch
  | RoleReliancePolicy => PolicyMismatch
  | RoleConsumerProfile => ProfileMismatch
  | RoleObserverSet => ObserverSetMismatch
  | RoleObservationPolicy => ObservationPolicyMismatch
  | RuntimeConfiguration => ConfigurationMismatch
  | SemanticContracts => ContractMismatch
  | QualificationCorpus | QualificationResults => QualificationEvidenceMissing
  end.

Inductive AuthorityGrantV1 := GrantNone.
#[global] Instance AuthorityGrantV1_eq_dec : EqDecision AuthorityGrantV1.
Proof. solve_decision. Defined.

Record AuthorityGrantsV1 := mkGrants {
  ag_continuation : AuthorityGrantV1;
  ag_diagnostic_execution : AuthorityGrantV1;
  ag_deployment : AuthorityGrantV1;
  ag_signing : AuthorityGrantV1;
  ag_revocation : AuthorityGrantV1;
  ag_mutation : MutationAuthorityV1;
}.
#[global] Instance AuthorityGrantsV1_eq_dec : EqDecision AuthorityGrantsV1.
Proof. solve_decision. Defined.

(** [AuthorityGrantsV1::none] and [grants_nothing]. *)
Definition grants_none : AuthorityGrantsV1 :=
  mkGrants GrantNone GrantNone GrantNone GrantNone GrantNone MutationNone.
Definition grants_nothing (g : AuthorityGrantsV1) : bool :=
  match g with
  | mkGrants GrantNone GrantNone GrantNone GrantNone GrantNone MutationNone => true
  end.

(* ------------------------------------------------------------------ *)
(** ** Generation sets and bindings *)

Record QualifiedGenerationSetV1 := mkGenerationSet {
  gs_subject : SubjectId;
  gs_consumer : ConsumerId;
  gs_reliance_policy_generation : PolicyGenerationId;
  gs_reliance_policy_semantic_digest : DigestV1;
  gs_consumer_profile_generation : ConsumerProfileGenerationId;
  gs_evaluator_semantic_generation : EvaluatorSemanticGenerationId;
  gs_observer_set_generation : ObserverSetGenerationId;
  gs_observation_policy_generation : ObservationPolicyGenerationId;
}.
#[global] Instance QualifiedGenerationSetV1_eq_dec : EqDecision QualifiedGenerationSetV1.
Proof. solve_decision. Defined.

(** [QualifiedGenerationSetV1::from_context]. *)
Definition generation_set_from_context (subject : SubjectId) (consumer : ConsumerId)
    (c : RelianceContextV1) : QualifiedGenerationSetV1 :=
  {| gs_subject := subject;
     gs_consumer := consumer;
     gs_reliance_policy_generation := cx_reliance_policy_generation c;
     gs_reliance_policy_semantic_digest := cx_reliance_policy_semantic_digest c;
     gs_consumer_profile_generation := cx_consumer_profile_generation c;
     gs_evaluator_semantic_generation := cx_evaluator_semantic_generation c;
     gs_observer_set_generation := cx_observer_set_generation c;
     gs_observation_policy_generation := cx_observation_policy_generation c |}.

(** [QualifiedGenerationSetV1::validate]. *)
Definition generation_set_validate (g : QualifiedGenerationSetV1)
  : result QualificationError unit :=
  qualified_identity "SubjectId" (gs_subject g);;
  qualified_identity "ConsumerId" (gs_consumer g);;
  qualified_identity "PolicyGenerationId" (gs_reliance_policy_generation g);;
  qualified_digest (gs_reliance_policy_semantic_digest g);;
  qualified_identity "ConsumerProfileGenerationId" (gs_consumer_profile_generation g);;
  qualified_identity "EvaluatorSemanticGenerationId" (gs_evaluator_semantic_generation g);;
  qualified_identity "ObserverSetGenerationId" (gs_observer_set_generation g);;
  qualified_identity "ObservationPolicyGenerationId" (gs_observation_policy_generation g).

(** [QualifiedGenerationSetV1::matches_context]. *)
Definition matches_context (g : QualifiedGenerationSetV1) (c : RelianceContextV1) : bool :=
  bool_decide (gs_reliance_policy_generation g = cx_reliance_policy_generation c)
  && bool_decide (gs_reliance_policy_semantic_digest g = cx_reliance_policy_semantic_digest c)
  && bool_decide (gs_consumer_profile_generation g = cx_consumer_profile_generation c)
  && bool_decide (gs_evaluator_semantic_generation g = cx_evaluator_semantic_generation c)
  && bool_decide (gs_observer_set_generation g = cx_observer_set_generation c)
  && bool_decide (gs_observation_policy_generation g = cx_observation_policy_generation c).

(** [QualifiedGenerationSetV1::identity_digest]. *)
Definition generation_set_identity_digest `{Sha256} (g : QualifiedGenerationSetV1) : DigestV1 :=
  digest_parts "qualified.generation-set.v1"
    [ gs_subject g;
      gs_consumer g;
      gs_reliance_policy_generation g;
      gs_reliance_policy_semantic_digest g;
      gs_consumer_profile_generation g;
      gs_evaluator_semantic_generation g;
      gs_observer_set_generation g;
      gs_observation_policy_generation g ].

Record QualifiedGenerationBindingV1 := mkBinding {
  qb_schema_version : Z;
  qb_manifest_digest : DigestV1;
  qb_qualification_certificate_digest : DigestV1;
  qb_activation_receipt_digest : DigestV1;
  qb_activation_occurrence_id : IncarnationId;
  qb_process_epoch_id : IncarnationId;
  qb_generation_set : QualifiedGenerationSetV1;
  qb_authority_grants : AuthorityGrantsV1;
}.
#[global] Instance QualifiedGenerationBindingV1_eq_dec : EqDecision QualifiedGenerationBindingV1.
Proof. solve_decision. Defined.

(** [QualifiedGenerationBindingV1::validate]. *)
Definition binding_validate (b : QualifiedGenerationBindingV1) : result QualificationError unit :=
  qualification_schema (qb_schema_version b) "qualified generation binding";;
  for_each qualified_digest
    [qb_manifest_digest b; qb_qualification_certificate_digest b; qb_activation_receipt_digest b];;
  qualified_identity "IncarnationId" (qb_activation_occurrence_id b);;
  qualified_identity "IncarnationId" (qb_process_epoch_id b);;
  generation_set_validate (qb_generation_set b);;
  ensure (grants_nothing (qb_authority_grants b))
    (mkQualificationError "authority_laundering" "qualified binding cannot grant authority").

(** [QualifiedGenerationBindingV1::identity_digest]. *)
Definition binding_identity_digest `{Sha256} (b : QualifiedGenerationBindingV1) : DigestV1 :=
  digest_parts "qualified.generation-binding.v1"
    [ qb_manifest_digest b;
      qb_qualification_certificate_digest b;
      qb_activation_receipt_digest b;
      qb_activation_occurrence_id b;
      qb_process_epoch_id b;
      generation_set_identity_digest (qb_generation_set b) ].

(* ------------------------------------------------------------------ *)
(** ** Lifecycle facts and local acceptance *)

Inductive GenerationLifecycleKindV1 := KindSuperseded | KindRevoked.
#[global] Instance GenerationLifecycleKindV1_eq_dec : EqDecision GenerationLifecycleKindV1.
Proof. solve_decision. Defined.

Record GenerationLifecycleFactBodyV1 := mkFactBody {
  fb_schema_version : Z;
  fb_authority_id : string;
  fb_fact_sequence : Z;
  fb_certificate_digest : DigestV1;
  fb_kind : GenerationLifecycleKindV1;
  fb_successor_manifest_digest : option DigestV1;
  fb_successor_certificate_digest : option DigestV1;
  fb_reason : string;
  fb_authority_grants : AuthorityGrantsV1;
}.

Definition invalid_fact (detail : string) : QualificationError :=
  mkQualificationError "invalid_lifecycle_fact" detail.

(** The successor fields a fact's kind demands. *)
Definition successor_validate (b : GenerationLifecycleFactBodyV1)
  : result QualificationError unit :=
  match fb_kind b with
  | KindSuperseded =>
      match fb_successor_manifest_digest b, fb_successor_certificate_digest b with
      | Some manifest, Some certificate => qualified_digest manifest;; qualified_digest certificate
      | _, _ => Err (invalid_fact "supersession requires exact successor manifest and certificate")
      end
  | KindRevoked =>
      match fb_successor_manifest_digest b, fb_successor_certificate_digest b with
      | None, None => Ok tt
      | _, _ => Err (invalid_fact "revocation cannot imply a successor activation")
      end
  end.

(** [GenerationLifecycleFactBodyV1::validate]. *)
Definition fact_body_validate (b : GenerationLifecycleFactBodyV1)
  : result QualificationError unit :=
  qualification_schema (fb_schema_version b) "generation lifecycle fact body";;
  qualification_text "lifecycle.authority_id" (fb_authority_id b);;
  ensure (negb (fb_fact_sequence b =? 0)) (invalid_fact "lifecycle fact sequence must be nonzero");;
  qualified_digest (fb_certificate_digest b);;
  successor_validate b;;
  qualification_text "lifecycle.reason" (fb_reason b);;
  ensure (grants_nothing (fb_authority_grants b))
    (mkQualificationError "authority_laundering"
       "lifecycle fact cannot grant revocation or any other authority").

Class FactJson := { fact_json : GenerationLifecycleFactBodyV1 → string }.

Record GenerationLifecycleFactV1 := mkFact {
  lf_schema_version : Z;
  lf_fact_digest : DigestV1;
  lf_body : GenerationLifecycleFactBodyV1;
}.

Definition fact_body_digest `{Sha256} `{FactJson} (b : GenerationLifecycleFactBodyV1)
  : result QualificationError DigestV1 :=
  body_digest fact_json "qualified.lifecycle-fact.body.v1" b.

(** [GenerationLifecycleFactV1::validate]. *)
Definition fact_validate `{Sha256} `{FactJson} (f : GenerationLifecycleFactV1)
  : result QualificationError unit :=
  qualification_schema (lf_schema_version f) "generation lifecycle fact";;
  fact_body_validate (lf_body f);;
  digest ← fact_body_digest (lf_body f);
  ensure (bool_decide (lf_fact_digest f = digest))
    (mkQualificationError "lifecycle_fact_identity_mismatch"
       "lifecycle fact digest does not identify its body").

Inductive LocalCertificateStatusV1 :=
| StatusAccepted (observed_through_sequence : Z)
| StatusUnknown
| StatusSuperseded (fact : GenerationLifecycleFactV1)
| StatusRevoked (fact : GenerationLifecycleFactV1).

Record LocalActivationAcceptanceV1 := mkAcceptance {
  la_schema_version : Z;
  la_accepted_certificate_digest : DigestV1;
  la_lifecycle_authority_id : string;
  la_certificate_status : LocalCertificateStatusV1;
  la_pinned_superseded_activation_allowed : bool;
  la_authority_grants : AuthorityGrantsV1;
}.

(* ------------------------------------------------------------------ *)
(** ** Measurements, receipts and live activations *)

Inductive MeasurementProvenanceV1 :=
| ProcSelfExeOpenedHandle (link_label : string) (device inode : Z)
| EmbeddedArtifact (name : string)
| OwnedCanonicalValue (type_name : string).

Record ArtifactMeasurementV1 := mkMeasurement {
  am_role : ArtifactRoleV1;
  am_content_digest : DigestV1;
  am_byte_length : Z;
  am_provenance : MeasurementProvenanceV1;
  am_caller_supplied : bool;
}.

Record BindingMismatchV1 := mkMismatch {
  bm_code : string;
  bm_role : option ArtifactRoleV1;
  bm_expected : option DigestV1;
  bm_observed : option DigestV1;
  bm_detail : string;
}.

Record LocalProcessIdentityV1 := mkProcess {
  lp_process_epoch_id : IncarnationId;
  lp_process_id : Z;
  lp_linux_boot_id_digest : DigestV1;
  lp_process_start_ticks : Z;
}.

Record ActivationReceiptBodyV1 := mkReceiptBody {
  rb_schema_version : Z;
  rb_manifest_digest : option DigestV1;
  rb_qualification_certificate_digest : option DigestV1;
  rb_qualification_report_digest : option DigestV1;
  rb_generation_set : option QualifiedGenerationSetV1;
  rb_process : option LocalProcessIdentityV1;
  rb_activation_occurrence_id : IncarnationId;
  rb_activation_sequence : Z;
  rb_receiver_incarnation : IncarnationId;
  rb_receiver_clock_id : ClockId;
  rb_activated_at_monotonic_ms : Z;
  rb_runtime_version : string;
  rb_target_platform : string;
  rb_measurements : list ArtifactMeasurementV1;
  rb_state : RuntimeBindingStateV1;
  rb_mismatches : list BindingMismatchV1;
  rb_all_required_artifacts_measured : bool;
  rb_any_measurement_caller_supplied : bool;
  rb_mutable_after_activation : bool;
  rb_independent_attestation_claimed : bool;
  rb_authority_grants : AuthorityGrantsV1;
}.

Record ActivationReceiptV1 := mkActivationReceipt {
  arc_schema_version : Z;
  arc_receipt_digest : DigestV1;
  arc_body : ActivationReceiptBodyV1;
}.

(** What [fstat] says of the retained executable. *)
Record ExecutableMetadataSnapshot := mkSnapshot {
  ms_device : Z;
  ms_inode : Z;
  ms_length : Z;
  ms_modified_seconds : Z;
  ms_modified_nanoseconds : Z;
  ms_changed_seconds : Z;
  ms_changed_nanoseconds : Z;
}.
#[global] Instance ExecutableMetadataSnapshot_eq_dec : EqDecision ExecutableMetadataSnapshot.
Proof. solve_decision. Defined.

(** The retained executable: an open file, by the number the operating system
    knows it by, its measurement and the last metadata seen. *)
Record ExecutableMeasurementGuard := mkGuard {
  eg_file : Z;
  eg_expected : ArtifactMeasurementV1;
  eg_metadata : ExecutableMetadataSnapshot;
}.

(** The live activation. *)
Record VerifiedActivationV1 := mkVerified {
  va_binding : QualifiedGenerationBindingV1;
  va_receipt : ActivationReceiptV1;
  va_measurements : list ArtifactMeasurementV1;
  va_executable : ExecutableMeasurementGuard;
}.
Definition set_eg_metadata (g : ExecutableMeasurementGuard) (m : ExecutableMetadataSnapshot)
  : ExecutableMeasurementGuard := mkGuard (eg_file g) (eg_expected g) m.
Definition set_va_executable (v : VerifiedActivationV1) (g : ExecutableMeasurementGuard)
  : VerifiedActivationV1 := mkVerified (va_binding v) (va_receipt v) (va_measurements v) g.

Record LocalActivationAttemptV1 := mkAttempt {
  lat_receipt : ActivationReceiptV1;
  lat_accepted : option VerifiedActivationV1;
}.

Record LocalActivationContextV1 := mkActivationContext {
  lc_expected_generation_set : QualifiedGenerationSetV1;
  lc_receiver_incarnation : IncarnationId;
  lc_receiver_clock_id : ClockId;
  lc_activated_at_monotonic_ms : Z;
  lc_runtime_version : string;
  lc_target_platform : string;
  lc_semantic_measurements : list ArtifactMeasurementV1;
}.

(* ------------------------------------------------------------------ *)
(** ** Lemmas *)

(** A generation set built from a context matches exactly that context's
    generations: only the activation identity may differ. *)
Lemma matches_from_context subject consumer c c' :
  matches_context (generation_set_from_context subject consumer c) c' = true ↔
  generation_set_from_context subject consumer c = generation_set_from_context subject consumer c'.
Proof.
  unfold matches_context, generation_set_from_context. cbn.
  rewrite !andb_true_iff, !bool_decide_eq_true. split; [|by intros [=]].
  intros (((((-> & ->) & ->) & ->) & ->) & ->). done.
Qed.
