(* ===== verification/Package.v ===== *)
(** * Qualification packages: the manifest, report and certificate of
    [crates/pulse-types/src/qualification.rs]

    A package is three JSON documents: a manifest that lists every artifact of
    a generation, a report of the commands that qualified it and a certificate
    that binds the two.  Each document carries the digest of the canonical
    encoding of its body.  The JSON encoder and decoder are those of [serde]:
    the operations of the class [PackageJson]. *)

From S2P Require Import Prelude Ids Digest Judgment Context Qualification.

Definition MAX_QUALIFICATION_ARTIFACTS : Z := 16.
Definition MAX_QUALIFICATION_COMMANDS : Z := 16.
Definition MAX_QUALIFICATION_COMMAND_ARGUMENTS : Z := 32.
Definition MAX_QUALIFICATION_CLAIMS : Z := 64.
Definition MAX_QUALIFICATION_ASSUMPTIONS : Z := 64.
Definition MAX_QUALIFICATION_DEPENDENCIES : Z := 128.

(** [validate_logical_path]. *)
Definition validate_logical_path (path : string) : result QualificationError unit :=
  qualification_text "artifact.logical_path" path;;
  ensure (negb (bool_decide (is_Some (strip_prefix "/" path)) || str_contains "\"%char path
                || existsb (fun component => bool_decide (component ∈ [""; "."; ".."]))
                     (str_split "/"%char path)))
    (mkQualificationError "ambiguous_path"
       "logical path must be normalized, relative, and traversal-free").

(** [validate_sorted] and [validate_sorted_texts]. *)
Definition validate_sorted {A} (cmp : A → A → comparison) (field : string) (values : list A)
    (maximum : Z) : result QualificationError unit :=
  ensure (negb (maximum <? Z.of_nat (length values)) && sorted_by cmp values)
    (mkQualificationError "noncanonical_collection"
       (field +:+ " exceeds its bound or is not sorted and unique")).
Definition validate_sorted_texts (field : string) (values : list string) (maximum : Z)
  : result QualificationError unit :=
  validate_sorted String.compare field values maximum;;
  for_each (qualification_text field) values.

(** [is_subset]: the superset is searched by bisection. *)
Definition is_subset (subset superset : list string) : bool :=
  forallb (binary_search superset) subset.

(* ------------------------------------------------------------------ *)
(** ** Artifacts *)

(** [ArtifactRoleV1::all], in declaration order, which is also its [Ord]. *)
Definition all_roles : list ArtifactRoleV1 :=
  [ RunningExecutable; EvaluatorImplementation; RoleReliancePolicy; RoleConsumerProfile;
    RoleObserverSet; RoleObservationPolicy; RuntimeConfiguration; SemanticContracts;
    QualificationCorpus; QualificationResults ].
Definition role_index (r : ArtifactRoleV1) : Z :=
  match r with
  | RunningExecutable => 0
  | EvaluatorImplementation => 1
  | RoleReliancePolicy => 2
  | RoleConsumerProfile => 3
  | RoleObserverSet => 4
  | RoleObservationPolicy => 5
  | RuntimeConfiguration => 6
  | SemanticContracts => 7
  | QualificationCorpus => 8
  | QualificationResults => 9
  end.
Definition role_compare (a b : ArtifactRoleV1) : comparison := role_index a ?= role_index b.
Definition role_activation_required (r : ArtifactRoleV1) : bool :=
  match r with QualificationCorpus | QualificationResults => false | _ => true end.

Record ArtifactDigestBindingV1 := mkDigestBinding {
  db_role : ArtifactRoleV1;
  db_content_digest : DigestV1;
}.
#[global] Instance ArtifactDigestBindingV1_eq_dec : EqDecision ArtifactDigestBindingV1.
Proof. solve_decision. Defined.
Definition digest_binding_compare (a b : ArtifactDigestBindingV1) : comparison :=
  lex (role_compare (db_role a) (db_role b))
    (String.compare (db_content_digest a) (db_content_digest b)).

Record ArtifactIdentityV1 := mkArtifact {
  ai_role : ArtifactRoleV1;
  ai_logical_name : string;
  ai_logical_path : string;
  ai_media_type : string;
  ai_byte_length : Z;
  ai_content_digest : DigestV1;
  ai_activation_required : bool;
}.

(** [ArtifactIdentityV1::validate] and [digest_binding]. *)
Definition artifact_validate (a : ArtifactIdentityV1) : result QualificationError unit :=
  qualification_text "artifact.logical_name" (ai_logical_name a);;
  validate_logical_path (ai_logical_path a);;
  qualification_text "artifact.media_type" (ai_media_type a);;
  ensure (negb (ai_byte_length a =? 0))
    (mkQualificationError "invalid_artifact" "artifact byte length must be nonzero");;
  qualified_digest (ai_content_digest a);;
  ensure (Bool.eqb (ai_activation_required a) (role_activation_required (ai_role a)))
    (mkQualificationError "ambiguous_artifact_role"
       "artifact activation posture does not match its closed role").
Definition artifact_digest_binding (a : ArtifactIdentityV1) : ArtifactDigestBindingV1 :=
  mkDigestBinding (ai_role a) (ai_content_digest a).

(* ------------------------------------------------------------------ *)
(** ** Source, build and contract identities *)

Record SemanticContractIdentityV1 := mkContract {
  sci_name : string;
  sci_version : Z;
  sci_digest : DigestV1;
}.
#[global] Instance SemanticContractIdentityV1_eq_dec : EqDecision SemanticContractIdentityV1.
Proof. solve_decision. Defined.
Definition contract_compare (a b : SemanticContractIdentityV1) : comparison :=
  lex (String.compare (sci_name a) (sci_name b))
    (lex (sci_version a ?= sci_version b) (String.compare (sci_digest a) (sci_digest b))).
Definition contract_validate (c : SemanticContractIdentityV1) : result QualificationError unit :=
  qualification_text "semantic_contract.name" (sci_name c);;
  ensure (negb (sci_version c =? 0))
    (mkQualificationError "unsupported_contract" "semantic contract version zero is unsupported");;
  qualified_digest (sci_digest c).

Record RuntimeDependencyIdentityV1 := mkDependency {
  rd_name : string;
  rd_version : string;
  rd_source_digest : DigestV1;
}.
#[global] Instance RuntimeDependencyIdentityV1_eq_dec : EqDecision RuntimeDependencyIdentityV1.
Proof. solve_decision. Defined.
Definition dependency_compare (a b : RuntimeDependencyIdentityV1) : comparison :=
  lex (String.compare (rd_name a) (rd_name b))
    (lex (String.compare (rd_version a) (rd_version b))
       (String.compare (rd_source_digest a) (rd_source_digest b))).
Definition dependency_validate (d : RuntimeDependencyIdentityV1)
  : result QualificationError unit :=
  qualification_text "dependency.name" (rd_name d);;
  qualification_text "dependency.version" (rd_version d);;
  qualified_digest (rd_source_digest d).

Record SourceIdentityV1 := mkSource {
  si_repository_identity : string;
  si_commit : string;
  si_source_tree_digest : DigestV1;
  si_dirty : bool;
}.
#[global] Instance SourceIdentityV1_eq_dec : EqDecision SourceIdentityV1.
Proof. solve_decision. Defined.
Definition source_validate (s : SourceIdentityV1) : result QualificationError unit :=
  qualification_text "source.repository_identity" (si_repository_identity s);;
  ensure ((slen (si_commit s) =? 40) && str_all canonical_hex (si_commit s))
    (mkQualificationError "invalid_source_identity"
       "source commit must be a lowercase forty-hex identity");;
  qualified_digest (si_source_tree_digest s);;
  ensure (negb (si_dirty s))
    (mkQualificationError "ambiguous_source_identity"
       "a qualified source identity cannot be marked dirty").

Record BuildIdentityV1 := mkBuild {
  bi_toolchain_identity : string;
  bi_target_triple : string;
  bi_build_profile : string;
  bi_enabled_features : list string;
  bi_runtime_dependencies : list RuntimeDependencyIdentityV1;
}.
#[global] Instance BuildIdentityV1_eq_dec : EqDecision BuildIdentityV1.
Proof. solve_decision. Defined.
Definition build_validate (b : BuildIdentityV1) : result QualificationError unit :=
  qualification_text "build.toolchain_identity" (bi_toolchain_identity b);;
  qualification_text "build.target_triple" (bi_target_triple b);;
  qualification_text "build.build_profile" (bi_build_profile b);;
  validate_sorted_texts "build.enabled_features" (bi_enabled_features b)
    MAX_QUALIFICATION_DEPENDENCIES;;
  validate_sorted dependency_compare "build.runtime_dependencies" (bi_runtime_dependencies b)
    MAX_QUALIFICATION_DEPENDENCIES;;
  for_each dependency_validate (bi_runtime_dependencies b).

(* ------------------------------------------------------------------ *)
(** ** The three documents *)

Record ArtifactManifestBodyV1 := mkManifestBody {
  mb_schema_version : Z;
  mb_generation_set : QualifiedGenerationSetV1;
  mb_artifacts : list ArtifactIdentityV1;
  mb_source : SourceIdentityV1;
  mb_build : BuildIdentityV1;
  mb_semantic_contracts : list SemanticContractIdentityV1;
  mb_platform_assumptions : list string;
  mb_qualification_corpus_identities : list DigestV1;
  mb_declared_claims : list string;
  mb_nonclaims : list string;
  mb_supersedes_manifest_digests : list DigestV1;
  mb_lifecycle_authority_id : string;
  mb_authority_grants : AuthorityGrantsV1;
}.

Record QualifiedArtifactManifestV1 := mkManifest {
  mf_schema_version : Z;
  mf_manifest_digest : DigestV1;
  mf_body : ArtifactManifestBodyV1;
}.

Record QualificationCommandResultV1 := mkCommandResult {
  cmd_sequence : Z;
  cmd_argv : list string;
  cmd_exit_code : Z;
  cmd_stdout_digest : DigestV1;
  cmd_stderr_digest : DigestV1;
  cmd_observed_test_count : option Z;
}.
#[global] Instance QualificationCommandResultV1_eq_dec : EqDecision QualificationCommandResultV1.
Proof. solve_decision. Defined.

Record QualificationEvidenceBodyV1 := mkEvidenceBody {
  eb_schema_version : Z;
  eb_manifest_digest : DigestV1;
  eb_artifact_digests : list ArtifactDigestBindingV1;
  eb_source : SourceIdentityV1;
  eb_build : BuildIdentityV1;
  eb_semantic_contracts : list SemanticContractIdentityV1;
  eb_command_results : list QualificationCommandResultV1;
  eb_qualification_corpus_identities : list DigestV1;
  eb_hostile_scenarios : list string;
  eb_earned_claims : list string;
  eb_nonclaims : list string;
  eb_total_tests_passed : Z;
  eb_all_required_commands_passed : bool;
  eb_authority_grants : AuthorityGrantsV1;
}.

Record QualificationEvidenceReportV1 := mkReport {
  er_schema_version : Z;
  er_report_digest : DigestV1;
  er_body : QualificationEvidenceBodyV1;
}.

Inductive CertificateProvenanceMethodV1 := LocalUnsignedExactBytes.

Record CertificateProvenanceV1 := mkProvenance {
  cp_issuance_id : string;
  cp_issuer_id : string;
  cp_method : CertificateProvenanceMethodV1;
}.

Record QualificationCertificateBodyV1 := mkCertificateBody {
  cb_schema_version : Z;
  cb_manifest_digest : DigestV1;
  cb_qualification_report_digest : DigestV1;
  cb_artifact_digests : list ArtifactDigestBindingV1;
  cb_source : SourceIdentityV1;
  cb_build : BuildIdentityV1;
  cb_semantic_contracts : list SemanticContractIdentityV1;
  cb_qualification_commands : list QualificationCommandResultV1;
  cb_qualification_corpus_identities : list DigestV1;
  cb_hostile_coverage : list string;
  cb_earned_claims : list string;
  cb_nonclaims : list string;
  cb_provenance : CertificateProvenanceV1;
  cb_lifecycle_authority_id : string;
  cb_authority_grants : AuthorityGrantsV1;
}.

Record QualificationCertificateV1 := mkQualificationCertificate {
  qc_schema_version : Z;
  qc_certificate_digest : DigestV1;
  qc_body : QualificationCertificateBodyV1;
}.

(** What [serde_json] writes for, and reads as, the documents of a package
    and the receipt of an activation. *)
Class PackageJson := {
  manifest_body_json : ArtifactManifestBodyV1 → string;
  manifest_json : QualifiedArtifactManifestV1 → string;
  parse_manifest : string → result string QualifiedArtifactManifestV1;
  evidence_body_json : QualificationEvidenceBodyV1 → string;
  report_json : QualificationEvidenceReportV1 → string;
  parse_report : string → result string QualificationEvidenceReportV1;
  certificate_body_json : QualificationCertificateBodyV1 → string;
  certificate_json : QualificationCertificateV1 → string;
  parse_certificate : string → result string QualificationCertificateV1;
  receipt_body_json : ActivationReceiptBodyV1 → string;
  receipt_json : ActivationReceiptV1 → string;
  parse_receipt : string → result string ActivationReceiptV1;
}.

(** The inventory check of a manifest: the ten roles in order, each artifact
    valid. *)
Fixpoint inventory_validate (artifacts : list ArtifactIdentityV1) (roles : list ArtifactRoleV1)
  : result QualificationError unit :=
  match artifacts, roles with
  | artifact :: rest, expected_role :: roles =>
      ensure (bool_decide (ai_role artifact = expected_role))
        (mkQualificationError "artifact_role_order"
           "artifact roles must be complete, unique, and in canonical order");;
      artifact_validate artifact;;
      inventory_validate rest roles
  | _, _ => Ok tt
  end.

(** The manifest names exactly its corpus artifact.  After the inventory check
    the corpus role is present, so the [expect] of the source succeeds. *)
Definition corpus_identity (artifacts : list ArtifactIdentityV1) : option (list DigestV1) :=
  (fun a => [ai_content_digest a])
    <$> find (fun a => bool_decide (ai_role a = QualificationCorpus)) artifacts.

(** [ArtifactManifestBodyV1::validate]. *)
Definition manifest_body_validate (b : ArtifactManifestBodyV1) : result QualificationError unit :=
  qualification_schema (mb_schema_version b) "artifact manifest body";;
  generation_set_validate (mb_generation_set b);;
  ensure ((length (mb_artifacts b) =? length all_roles)%nat
          && negb (MAX_QUALIFICATION_ARTIFACTS <? Z.of_nat (length (mb_artifacts b))))
    (mkQualificationError "artifact_inventory_incomplete"
       "manifest must contain every closed v1 artifact role exactly once");;
  inventory_validate (mb_artifacts b) all_roles;;
  source_validate (mb_source b);;
  build_validate (mb_build b);;
  validate_sorted contract_compare "manifest.semantic_contracts" (mb_semantic_contracts b)
    MAX_QUALIFICATION_ASSUMPTIONS;;
  for_each contract_validate (mb_semantic_contracts b);;
  validate_sorted_texts "manifest.platform_assumptions" (mb_platform_assumptions b)
    MAX_QUALIFICATION_ASSUMPTIONS;;
  validate_sorted String.compare "manifest.qualification_corpus_identities"
    (mb_qualification_corpus_identities b) MAX_QUALIFICATION_ASSUMPTIONS;;
  for_each qualified_digest (mb_qualification_corpus_identities b);;
  ensure (bool_decide (Some (mb_qualification_corpus_identities b)
                       = corpus_identity (mb_artifacts b)))
    (mkQualificationError "qualification_corpus_mismatch"
       "manifest corpus identity must exactly name its corpus artifact bytes");;
  validate_sorted_texts "manifest.declared_claims" (mb_declared_claims b)
    MAX_QUALIFICATION_CLAIMS;;
  validate_sorted_texts "manifest.nonclaims" (mb_nonclaims b) MAX_QUALIFICATION_CLAIMS;;
  validate_sorted String.compare "manifest.supersedes_manifest_digests"
    (mb_supersedes_manifest_digests b) MAX_QUALIFICATION_ASSUMPTIONS;;
  for_each qualified_digest (mb_supersedes_manifest_digests b);;
  qualification_text "manifest.lifecycle_authority_id" (mb_lifecycle_authority_id b);;
  ensure (grants_nothing (mb_authority_grants b))
    (mkQualificationError "authority_laundering" "manifest cannot carry an authority grant").

(** [ArtifactManifestBodyV1::artifact_digests]. *)
Definition artifact_digests (b : ArtifactManifestBodyV1) : list ArtifactDigestBindingV1 :=
  artifact_digest_binding <$> mb_artifacts b.

(** [QualificationCommandResultV1::validate]. *)
Definition command_validate (c : QualificationCommandResultV1) : result QualificationError unit :=
  ensure (negb ((cmd_sequence c =? 0) || bool_decide (cmd_argv c = [])
                || (MAX_QUALIFICATION_COMMAND_ARGUMENTS <? Z.of_nat (length (cmd_argv c)))))
    (mkQualificationError "invalid_qualification_command"
       "qualification command sequence and argument bounds are invalid");;
  for_each (qualification_text "qualification_command.argv") (cmd_argv c);;
  qualified_digest (cmd_stdout_digest c);;
  qualified_digest (cmd_stderr_digest c).

(** The loop over a report's commands: valid, and numbered from one. *)
Fixpoint report_commands_validate (index : Z) (commands : list QualificationCommandResultV1)
  : result QualificationError unit :=
  match commands with
  | [] => Ok tt
  | command :: rest =>
      command_validate command;;
      ensure (index + 1 <=? u16_max)
        (mkQualificationError "bound_exceeded" "command sequence exceeds u16");;
      ensure (cmd_sequence command =? index + 1)
        (mkQualificationError "qualification_command_sequence"
           "qualification command results must have a contiguous canonical sequence");;
      report_commands_validate (index + 1) rest
  end.

(** The saturating [u32] sum of the observed test counts. *)
Definition summed_tests (commands : list QualificationCommandResultV1) : Z :=
  fold_left (fun total count => Z.min (total + count) u32_max)
    (omap cmd_observed_test_count commands) 0.

(** [QualificationEvidenceBodyV1::validate]. *)
Definition evidence_body_validate (b : QualificationEvidenceBodyV1)
  : result QualificationError unit :=
  qualification_schema (eb_schema_version b) "qualification evidence body";;
  qualified_digest (eb_manifest_digest b);;
  validate_sorted digest_binding_compare "qualification.artifact_digests" (eb_artifact_digests b)
    MAX_QUALIFICATION_ARTIFACTS;;
  for_each (fun binding => qualified_digest (db_content_digest binding)) (eb_artifact_digests b);;
  source_validate (eb_source b);;
  build_validate (eb_build b);;
  validate_sorted contract_compare "qualification.semantic_contracts" (eb_semantic_contracts b)
    MAX_QUALIFICATION_ASSUMPTIONS;;
  for_each contract_validate (eb_semantic_contracts b);;
  ensure (negb (bool_decide (eb_command_results b = [])
                || (MAX_QUALIFICATION_COMMANDS <? Z.of_nat (length (eb_command_results b)))))
    (mkQualificationError "qualification_evidence_missing"
       "qualification command results are absent or exceed their bound");;
  report_commands_validate 0 (eb_command_results b);;
  validate_sorted String.compare "qualification.corpus" (eb_qualification_corpus_identities b)
    MAX_QUALIFICATION_ASSUMPTIONS;;
  for_each qualified_digest (eb_qualification_corpus_identities b);;
  validate_sorted_texts "qualification.hostile_scenarios" (eb_hostile_scenarios b)
    MAX_QUALIFICATION_CLAIMS;;
  validate_sorted_texts "qualification.earned_claims" (eb_earned_claims b)
    MAX_QUALIFICATION_CLAIMS;;
  validate_sorted_texts "qualification.nonclaims" (eb_nonclaims b) MAX_QUALIFICATION_CLAIMS;;
  ensure (negb (negb (eb_all_required_commands_passed b)
                || existsb (fun c => negb (cmd_exit_code c =? 0)) (eb_command_results b)
                || negb (summed_tests (eb_command_results b) =? eb_total_tests_passed b)))
    (mkQualificationError "qualification_command_failed"
       "qualification success and exact test count are not supported by command results");;
  ensure (grants_nothing (eb_authority_grants b))
    (mkQualificationError "authority_laundering" "qualification evidence cannot carry authority").

(** [CertificateProvenanceV1::validate]. *)
Definition provenance_validate (p : CertificateProvenanceV1) : result QualificationError unit :=
  qualification_text "certificate.issuance_id" (cp_issuance_id p);;
  qualification_text "certificate.issuer_id" (cp_issuer_id p).

(** The loop over the commands of a certificate or of a results artifact:
    valid, contiguous and successful. *)
Fixpoint passed_commands_validate (detail : string) (index : Z)
    (commands : list QualificationCommandResultV1) : result QualificationError unit :=
  match commands with
  | [] => Ok tt
  | command :: rest =>
      command_validate command;;
      ensure ((cmd_sequence command =? index + 1) && (cmd_exit_code command =? 0))
        (mkQualificationError "qualification_command_failed" detail);;
      passed_commands_validate detail (index + 1) rest
  end.

(** [QualificationCertificateBodyV1::validate]. *)
Definition certificate_body_validate (b : QualificationCertificateBodyV1)
  : result QualificationError unit :=
  qualification_schema (cb_schema_version b) "qualification certificate body";;
  qualified_digest (cb_manifest_digest b);;
  qualified_digest (cb_qualification_report_digest b);;
  validate_sorted digest_binding_compare "certificate.artifact_digests" (cb_artifact_digests b)
    MAX_QUALIFICATION_ARTIFACTS;;
  for_each (fun binding => qualified_digest (db_content_digest binding)) (cb_artifact_digests b);;
  source_validate (cb_source b);;
  build_validate (cb_build b);;
  validate_sorted contract_compare "certificate.semantic_contracts" (cb_semantic_contracts b)
    MAX_QUALIFICATION_ASSUMPTIONS;;
  for_each contract_validate (cb_semantic_contracts b);;
  ensure (negb (bool_decide (cb_qualification_commands b = [])
                || (MAX_QUALIFICATION_COMMANDS <? Z.of_nat (length (cb_qualification_commands b)))))
    (mkQualificationError "qualification_evidence_missing"
       "certificate contains no bounded qualification command evidence");;
  passed_commands_validate "certificate command evidence is not contiguous and successful" 0
    (cb_qualification_commands b);;
  validate_sorted String.compare "certificate.corpus" (cb_qualification_corpus_identities b)
    MAX_QUALIFICATION_ASSUMPTIONS;;
  validate_sorted_texts "certificate.hostile_coverage" (cb_hostile_coverage b)
    MAX_QUALIFICATION_CLAIMS;;
  validate_sorted_texts "certificate.earned_claims" (cb_earned_claims b)
    MAX_QUALIFICATION_CLAIMS;;
  validate_sorted_texts "certificate.nonclaims" (cb_nonclaims b) MAX_QUALIFICATION_CLAIMS;;
  provenance_validate (cb_provenance b);;
  qualification_text "certificate.lifecycle_authority_id" (cb_lifecycle_authority_id b);;
  ensure (grants_nothing (cb_authority_grants b))
    (mkQualificationError "authority_laundering"
       "qualification certificate cannot carry authority").

Section documents.
Context `{Sha256} `{PackageJson}.

(** [QualifiedArtifactManifestV1]: [new], [validate], [canonical_bytes] and
    [decode_canonical]. *)
Definition manifest_new (body : ArtifactManifestBodyV1)
  : result QualificationError QualifiedArtifactManifestV1 :=
  manifest_body_validate body;;
  digest ← body_digest manifest_body_json "qualified.artifact-manifest.body.v1" body;
  Ok (mkManifest SCHEMA_VERSION_V1 digest body).
Definition manifest_validate (m : QualifiedArtifactManifestV1) : result QualificationError unit :=
  qualification_schema (mf_schema_version m) "artifact manifest";;
  manifest_body_validate (mf_body m);;
  expected ← body_digest manifest_body_json "qualified.artifact-manifest.body.v1" (mf_body m);
  ensure (bool_decide (mf_manifest_digest m = expected))
    (mkQualificationError "manifest_identity_mismatch"
       "manifest digest does not identify its canonical body").
Definition manifest_canonical_bytes (m : QualifiedArtifactManifestV1)
  : result QualificationError string :=
  manifest_validate m;; canonical_encode manifest_json m.
Definition manifest_decode_canonical (bytes : string)
  : result QualificationError QualifiedArtifactManifestV1 :=
  value ← canonical_decode manifest_json parse_manifest bytes "artifact manifest";
  manifest_validate value;;
  Ok value.

(** [QualificationEvidenceReportV1]. *)
Definition report_new (body : QualificationEvidenceBodyV1)
  : result QualificationError QualificationEvidenceReportV1 :=
  evidence_body_validate body;;
  digest ← body_digest evidence_body_json "qualified.evidence-report.body.v1" body;
  Ok (mkReport SCHEMA_VERSION_V1 digest body).
Definition report_validate (r : QualificationEvidenceReportV1) : result QualificationError unit :=
  qualification_schema (er_schema_version r) "qualification evidence report";;
  evidence_body_validate (er_body r);;
  expected ← body_digest evidence_body_json "qualified.evidence-report.body.v1" (er_body r);
  ensure (bool_decide (er_report_digest r = expected))
    (mkQualificationError "qualification_report_identity_mismatch"
       "qualification report digest does not identify its canonical body").
Definition report_canonical_bytes (r : QualificationEvidenceReportV1)
  : result QualificationError string :=
  report_validate r;; canonical_encode report_json r.
Definition report_decode_canonical (bytes : string)
  : result QualificationError QualificationEvidenceReportV1 :=
  value ← canonical_decode report_json parse_report bytes "qualification evidence report";
  report_validate value;;
  Ok value.

(** [verify_manifest_report]. *)
Definition verify_manifest_report (m : QualifiedArtifactManifestV1)
    (r : QualificationEvidenceReportV1) : result QualificationError unit :=
  manifest_validate m;;
  report_validate r;;
  ensure (bool_decide (eb_manifest_digest (er_body r) = mf_manifest_digest m)
          && bool_decide (eb_artifact_digests (er_body r) = artifact_digests (mf_body m))
          && bool_decide (eb_source (er_body r) = mb_source (mf_body m))
          && bool_decide (eb_build (er_body r) = mb_build (mf_body m))
          && bool_decide (eb_semantic_contracts (er_body r) = mb_semantic_contracts (mf_body m))
          && bool_decide (eb_qualification_corpus_identities (er_body r)
                          = mb_qualification_corpus_identities (mf_body m))
          && is_subset (eb_earned_claims (er_body r)) (mb_declared_claims (mf_body m))
          && bool_decide (eb_nonclaims (er_body r) = mb_nonclaims (mf_body m)))
    (mkQualificationError "qualification_evidence_mismatch"
       "checked qualification evidence does not exactly support the manifest").

(** [QualificationCertificateV1]: [issue], [validate], [canonical_bytes] and
    [decode_canonical]. *)
Definition qualification_certificate_issue (m : QualifiedArtifactManifestV1)
    (r : QualificationEvidenceReportV1) (provenance : CertificateProvenanceV1)
  : result QualificationError QualificationCertificateV1 :=
  verify_manifest_report m r;;
  let body :=
    {| cb_schema_version := SCHEMA_VERSION_V1;
       cb_manifest_digest := mf_manifest_digest m;
       cb_qualification_report_digest := er_report_digest r;
       cb_artifact_digests := eb_artifact_digests (er_body r);
       cb_source := eb_source (er_body r);
       cb_build := eb_build (er_body r);
       cb_semantic_contracts := eb_semantic_contracts (er_body r);
       cb_qualification_commands := eb_command_results (er_body r);
       cb_qualification_corpus_identities := eb_qualification_corpus_identities (er_body r);
       cb_hostile_coverage := eb_hostile_scenarios (er_body r);
       cb_earned_claims := eb_earned_claims (er_body r);
       cb_nonclaims := eb_nonclaims (er_body r);
       cb_provenance := provenance;
       cb_lifecycle_authority_id := mb_lifecycle_authority_id (mf_body m);
       cb_authority_grants := grants_none |} in
  certificate_body_validate body;;
  digest ← body_digest certificate_body_json "qualified.certificate.body.v1" body;
  Ok (mkQualificationCertificate SCHEMA_VERSION_V1 digest body).
Definition qualification_certificate_validate (c : QualificationCertificateV1)
  : result QualificationError unit :=
  qualification_schema (qc_schema_version c) "qualification certificate";;
  certificate_body_validate (qc_body c);;
  expected ← body_digest certificate_body_json "qualified.certificate.body.v1" (qc_body c);
  ensure (bool_decide (qc_certificate_digest c = expected))
    (mkQualificationError "certificate_identity_mismatch"
       "certificate digest does not identify its canonical body").
Definition qualification_certificate_canonical_bytes (c : QualificationCertificateV1)
  : result QualificationError string :=
  qualification_certificate_validate c;; canonical_encode certificate_json c.
Definition qualification_certificate_decode_canonical (bytes : string)
  : result QualificationError QualificationCertificateV1 :=
  value ← canonical_decode certificate_json parse_certificate bytes "qualification certificate";
  qualification_certificate_validate value;;
  Ok value.

(** [verify_qualification_package]. *)
Definition verify_qualification_package (m : QualifiedArtifactManifestV1)
    (r : QualificationEvidenceReportV1) (c : QualificationCertificateV1)
  : result QualificationError unit :=
  verify_manifest_report m r;;
  qualification_certificate_validate c;;
  ensure (bool_decide (cb_manifest_digest (qc_body c) = mf_manifest_digest m)
          && bool_decide (cb_qualification_report_digest (qc_body c) = er_report_digest r)
          && bool_decide (cb_artifact_digests (qc_body c) = eb_artifact_digests (er_body r))
          && bool_decide (cb_source (qc_body c) = eb_source (er_body r))
          && bool_decide (cb_build (qc_body c) = eb_build (er_body r))
          && bool_decide (cb_semantic_contracts (qc_body c) = eb_semantic_contracts (er_body r))
          && bool_decide (cb_qualification_commands (qc_body c) = eb_command_results (er_body r))
          && bool_decide (cb_qualification_corpus_identities (qc_body c)
                          = eb_qualification_corpus_identities (er_body r))
          && bool_decide (cb_hostile_coverage (qc_body c) = eb_hostile_scenarios (er_body r))
          && bool_decide (cb_earned_claims (qc_body c) = eb_earned_claims (er_body r))
          && bool_decide (cb_nonclaims (qc_body c) = eb_nonclaims (er_body r))
          && bool_decide (cb_lifecycle_authority_id (qc_body c)
                          = mb_lifecycle_authority_id (mf_body m)))
    (mkQualificationError "certificate_package_mismatch"
       "certificate does not exactly bind the checked manifest and report").
End documents.
