(* ===== verification/Activation.v ===== *)
(** * Local activation: [verify_local_activation] of
    [crates/pulse-types/src/qualification.rs]

    An activation checks a qualification package against what the running
    process is: its executable, read through [/proc/self/exe], and the
    artifacts the runtime owns.  The operating system is the class
    [OperatingSystem]; its answers depend on how many calls were made before,
    so nothing is assumed to stay as it was.  The process-wide statics (the
    occurrence counter and the cache of the executable's digest) are the state
    [Process]; a poisoned lock, which takes a panic elsewhere, is left out. *)

From S2P Require Import Prelude Ids Digest Judgment Context Qualification Package.

Definition MAX_EXECUTABLE_MEASUREMENT_BYTES : Z := 128 * 1024 * 1024.

(* ------------------------------------------------------------------ *)
(** ** Acceptance, measurements and receipts *)

(** [LocalActivationAcceptanceV1::validate]: the fact of a terminal status. *)
Definition status_fact (s : LocalCertificateStatusV1) : option GenerationLifecycleFactV1 :=
  match s with
  | StatusSuperseded fact | StatusRevoked fact => Some fact
  | StatusAccepted _ | StatusUnknown => None
  end.
Definition status_validate `{Sha256} `{FactJson} (s : LocalCertificateStatusV1)
  : result QualificationError unit :=
  match s with
  | StatusAccepted _ | StatusUnknown => Ok tt
  | StatusSuperseded fact =>
      fact_validate fact;;
      ensure (bool_decide (fb_kind (lf_body fact) = KindSuperseded))
        (invalid_fact "superseded status carries another lifecycle fact kind")
  | StatusRevoked fact =>
      fact_validate fact;;
      ensure (bool_decide (fb_kind (lf_body fact) = KindRevoked))
        (invalid_fact "revoked status carries another lifecycle fact kind")
  end.
Definition acceptance_policy_validate `{Sha256} `{FactJson} (a : LocalActivationAcceptanceV1)
  : result QualificationError unit :=
  qualification_schema (la_schema_version a) "local activation acceptance";;
  qualified_digest (la_accepted_certificate_digest a);;
  qualification_text "acceptance.lifecycle_authority_id" (la_lifecycle_authority_id a);;
  ensure (negb (la_pinned_superseded_activation_allowed a))
    (mkQualificationError "unsupported_acceptance_policy"
       "v1 deliberately does not support pinned superseded activation");;
  status_validate (la_certificate_status a);;
  match status_fact (la_certificate_status a) with
  | None => Ok tt
  | Some fact =>
      ensure (bool_decide (fb_authority_id (lf_body fact) = la_lifecycle_authority_id a)
              && bool_decide (fb_certificate_digest (lf_body fact)
                              = la_accepted_certificate_digest a))
        (mkQualificationError "lifecycle_authority_mismatch"
           "lifecycle fact is not from the configured local authority for this certificate")
  end;;
  ensure (grants_nothing (la_authority_grants a))
    (mkQualificationError "authority_laundering"
       "local acceptance policy cannot emit authority").

(** [ArtifactMeasurementV1::validate]. *)
Definition measurement_validate (m : ArtifactMeasurementV1) : result QualificationError unit :=
  qualified_digest (am_content_digest m);;
  ensure (negb (am_byte_length m =? 0))
    (mkQualificationError "invalid_measurement"
       "artifact measurement byte length must be nonzero");;
  match am_provenance m with
  | ProcSelfExeOpenedHandle link_label _ _ =>
      qualification_text "measurement.link_label" link_label;;
      ensure (bool_decide (am_role m = RunningExecutable))
        (mkQualificationError "ambiguous_measurement"
           "proc executable provenance is valid only for executable role")
  | EmbeddedArtifact name => qualification_text "measurement.embedded_name" name
  | OwnedCanonicalValue type_name => qualification_text "measurement.type_name" type_name
  end.

(** [validate_measurements]. *)
Definition validate_measurements (measurements : list ArtifactMeasurementV1)
    (executable_must_be_absent : bool) : result QualificationError unit :=
  ensure (negb (MAX_QUALIFICATION_ARTIFACTS <? Z.of_nat (length measurements))
          && sorted_by (fun a b => role_compare (am_role a) (am_role b)) measurements)
    (mkQualificationError "ambiguous_measurement"
       "artifact measurements exceed their bound or are not role-sorted and unique");;
  ensure (negb (executable_must_be_absent
                && existsb (fun m => bool_decide (am_role m = RunningExecutable)) measurements))
    (mkQualificationError "ambiguous_measurement"
       "caller cannot supply the running executable measurement");;
  for_each measurement_validate measurements.

(** [LocalProcessIdentityV1::validate]. *)
Definition process_validate (p : LocalProcessIdentityV1) : result QualificationError unit :=
  qualified_identity "IncarnationId" (lp_process_epoch_id p);;
  ensure (negb (lp_process_id p =? 0))
    (mkQualificationError "measurement_unavailable" "process identity has process id zero");;
  qualified_digest (lp_linux_boot_id_digest p).

(** [if let Some(value) = value { f(value)?; }]. *)
Definition for_option {A} (f : A → result QualificationError unit) (o : option A)
  : result QualificationError unit := match o with None => Ok tt | Some a => f a end.

Definition mismatch_validate (m : BindingMismatchV1) : result QualificationError unit :=
  qualification_text "activation.mismatch.code" (bm_code m);;
  qualification_text "activation.mismatch.detail" (bm_detail m);;
  for_option qualified_digest (bm_expected m);;
  for_option qualified_digest (bm_observed m).

(** The premises a matched receipt must carry. *)
Definition matched_premises (b : ActivationReceiptBodyV1) : bool :=
  rb_all_required_artifacts_measured b
  && negb (rb_any_measurement_caller_supplied b)
  && negb (rb_mutable_after_activation b)
  && bool_decide (length (rb_mismatches b) = 0%nat)
  && has_value (rb_process b)
  && has_value (rb_manifest_digest b)
  && has_value (rb_qualification_certificate_digest b)
  && has_value (rb_qualification_report_digest b)
  && has_value (rb_generation_set b).

(** [ActivationReceiptBodyV1::validate]. *)
Definition receipt_body_validate (b : ActivationReceiptBodyV1) : result QualificationError unit :=
  qualification_schema (rb_schema_version b) "activation receipt body";;
  for_option qualified_digest (rb_manifest_digest b);;
  for_option qualified_digest (rb_qualification_certificate_digest b);;
  for_option qualified_digest (rb_qualification_report_digest b);;
  for_option generation_set_validate (rb_generation_set b);;
  for_option process_validate (rb_process b);;
  qualified_identity "IncarnationId" (rb_activation_occurrence_id b);;
  ensure (negb (rb_activation_sequence b =? 0))
    (mkQualificationError "invalid_activation_receipt"
       "activation occurrence sequence must be nonzero");;
  qualified_identity "IncarnationId" (rb_receiver_incarnation b);;
  qualified_identity "ClockId" (rb_receiver_clock_id b);;
  qualification_text "activation.runtime_version" (rb_runtime_version b);;
  qualification_text "activation.target_platform" (rb_target_platform b);;
  validate_measurements (rb_measurements b) false;;
  ensure (negb (MAX_QUALIFICATION_ARTIFACTS <? Z.of_nat (length (rb_mismatches b))))
    (mkQualificationError "bound_exceeded" "activation mismatch collection exceeds its bound");;
  for_each mismatch_validate (rb_mismatches b);;
  ensure (negb (bool_decide (rb_state b = QualifiedAndMatched) && negb (matched_premises b)))
    (mkQualificationError "invalid_matched_activation"
       "matched activation receipt lacks an exact non-caller-supplied premise");;
  ensure (negb (rb_independent_attestation_claimed b) && grants_nothing (rb_authority_grants b))
    (mkQualificationError "authority_laundering"
       "local activation receipt cannot claim attestation or authority").

(** [ActivationReceiptV1]: [new], [validate], [canonical_bytes] and
    [decode_canonical]. *)
Definition receipt_new `{Sha256} `{PackageJson} (body : ActivationReceiptBodyV1)
  : result QualificationError ActivationReceiptV1 :=
  receipt_body_validate body;;
  digest ← body_digest receipt_body_json "qualified.activation-receipt.body.v1" body;
  Ok (mkActivationReceipt SCHEMA_VERSION_V1 digest body).
Definition activation_receipt_validate `{Sha256} `{PackageJson} (r : ActivationReceiptV1)
  : result QualificationError unit :=
  qualification_schema (arc_schema_version r) "activation receipt";;
  receipt_body_validate (arc_body r);;
  expected ← body_digest receipt_body_json "qualified.activation-receipt.body.v1" (arc_body r);
  ensure (bool_decide (arc_receipt_digest r = expected))
    (mkQualificationError "activation_receipt_identity_mismatch"
       "activation receipt digest does not identify its canonical body").
Definition receipt_canonical_bytes `{Sha256} `{PackageJson} (r : ActivationReceiptV1)
  : result QualificationError string :=
  activation_receipt_validate r;; canonical_encode receipt_json r.
Definition receipt_decode_canonical `{Sha256} `{PackageJson} (bytes : string)
  : result QualificationError ActivationReceiptV1 :=
  value ← canonical_decode receipt_json parse_receipt bytes "activation receipt";
  activation_receipt_validate value;;
  Ok value.

(* ------------------------------------------------------------------ *)
(** ** The operating system and the process *)

Record FileMetadata := mkFileMetadata { md_is_file : bool; md_snapshot : ExecutableMetadataSnapshot }.

(** Every operation takes the number of calls made before it; an error is its
    text. *)
Class OperatingSystem := {
  os_open_executable : nat → result string Z;
  os_metadata : nat → Z → result string FileMetadata;
  os_seek_start : nat → Z → result string unit;
  os_read_to_end : nat → Z → Z → result string string;
  os_executable_link : nat → option string;
  os_boot_id : nat → result string string;
  os_process_stat : nat → result string string;
  os_process_id : Z;
}.

Record ExecutableContentCache := mkContentCache {
  ecc_metadata : ExecutableMetadataSnapshot;
  ecc_content_digest : DigestV1;
}.

(** The statics [NEXT_ACTIVATION_OCCURRENCE] and [EXECUTABLE_CONTENT_CACHE],
    and the number of system calls made. *)
Record Process := mkProcessState {
  ps_calls : nat;
  ps_next_activation_occurrence : Z;
  ps_executable_content_cache : option ExecutableContentCache;
}.
Definition process_start : Process := mkProcessState 0 1 None.

(** Computations that ask the operating system: they fail with an error or by
    a panic of [expect], and keep the process's state. *)
Inductive ActivationFailure :=
| Refused (error : QualificationError)
| ExpectFailed (message : string).
Definition sys (A : Type) : Type := Process → Process * result ActivationFailure A.
#[global] Instance sys_ret : MRet sys := fun A a p => (p, Ok a).
#[global] Instance sys_bind : MBind sys :=
  fun A B k m p => match m p with (p', Ok a) => k a p' | (p', Err e) => (p', Err e) end.

Definition sys_lift {A} (r : result QualificationError A) : sys A :=
  fun p => (p, map_err Refused r).
Definition sys_refuse {A} (code detail : string) : sys A :=
  sys_lift (Err (mkQualificationError code detail)).
Definition sys_expect {A} (message : string) (o : option A) : sys A :=
  fun p => (p, match o with Some a => Ok a | None => Err (ExpectFailed message) end).
Definition ask {A} (f : nat → A) : sys A :=
  fun p => (mkProcessState (S (ps_calls p)) (ps_next_activation_occurrence p)
              (ps_executable_content_cache p), Ok (f (ps_calls p))).
(** A system call whose error becomes [measurement_unavailable]. *)
Definition call {A} (what : string) (f : nat → result string A) : sys A :=
  answer ← ask f;
  sys_lift (map_err (fun error => mkQualificationError "measurement_unavailable" (what +:+ error))
              answer).
Definition get_cache : sys (option ExecutableContentCache) :=
  fun p => (p, Ok (ps_executable_content_cache p)).
Definition set_cache (c : ExecutableContentCache) : sys unit :=
  fun p => (mkProcessState (ps_calls p) (ps_next_activation_occurrence p) (Some c), Ok tt).
(** [fetch_add(1)] wraps. *)
Definition next_activation_occurrence : sys Z :=
  fun p => (mkProcessState (ps_calls p) ((ps_next_activation_occurrence p + 1) mod (u64_max + 1))
              (ps_executable_content_cache p), Ok (ps_next_activation_occurrence p)).
(** A result kept as a value: [.ok()] and [match]. *)
Definition sys_try {A} (m : sys A) : sys (result QualificationError A) :=
  fun p => match m p with
           | (p', Ok a) => (p', Ok (Ok a))
           | (p', Err (Refused e)) => (p', Ok (Err e))
           | (p', Err (ExpectFailed message)) => (p', Err (ExpectFailed message))
           end.

(* ------------------------------------------------------------------ *)
(** ** Measuring the executable *)

Section executable.
Context `{Sha256} `{OperatingSystem}.

(** [ExecutableMetadataSnapshot::observe]. *)
Definition observe_metadata (file : Z) : sys ExecutableMetadataSnapshot :=
  metadata ← call "cannot inspect retained executable: " (fun n => os_metadata n file);
  mret (md_snapshot metadata).

Definition link_label : sys string :=
  link ← ask os_executable_link;
  let label := default "/proc/self/exe (link label unavailable)" link in
  sys_lift (qualification_text "measurement.link_label" label);;
  mret label.

Definition executable_measurement (digest : DigestV1) (byte_length : Z) (label : string)
    (device inode : Z) : ArtifactMeasurementV1 :=
  {| am_role := RunningExecutable;
     am_content_digest := digest;
     am_byte_length := byte_length;
     am_provenance := ProcSelfExeOpenedHandle label device inode;
     am_caller_supplied := false |}.

(** [measure_open_executable]. *)
Definition measure_open_executable (file : Z) : sys ArtifactMeasurementV1 :=
  before ← call "cannot inspect opened executable: " (fun n => os_metadata n file);
  let length := ms_length (md_snapshot before) in
  sys_lift (ensure (md_is_file before && negb (length =? 0))
    (mkQualificationError "measurement_unavailable"
       "opened executable is not a nonempty regular file"));;
  sys_lift (ensure (negb (MAX_EXECUTABLE_MEASUREMENT_BYTES <? length))
    (mkQualificationError "bound_exceeded"
       "running executable exceeds the v1 measurement bound"));;
  call "cannot seek opened executable: " (fun n => os_seek_start n file);;
  bytes ← call "cannot read opened executable: "
            (fun n => os_read_to_end n file (MAX_EXECUTABLE_MEASUREMENT_BYTES + 1));
  sys_lift (ensure ((slen bytes =? length) && negb (MAX_EXECUTABLE_MEASUREMENT_BYTES <? slen bytes))
    (mkQualificationError "ambiguous_measurement"
       "opened executable length changed or exceeded its bound while measured"));;
  after ← call "cannot reinspect opened executable: " (fun n => os_metadata n file);
  sys_lift (ensure ((ms_device (md_snapshot before) =? ms_device (md_snapshot after))
                    && (ms_inode (md_snapshot before) =? ms_inode (md_snapshot after))
                    && (length =? ms_length (md_snapshot after)))
    (mkQualificationError "ambiguous_measurement"
       "opened executable identity changed during measurement"));;
  call "cannot reset opened executable: " (fun n => os_seek_start n file);;
  label ← link_label;
  mret (executable_measurement (artifact_content_digest bytes) (slen bytes) label
          (ms_device (md_snapshot before)) (ms_inode (md_snapshot before))).

(** [open_and_measure_executable], with [executable_measurement_from_identity]
    where the cache knows the metadata. *)
Definition open_and_measure_executable : sys (Z * ArtifactMeasurementV1) :=
  file ← call "cannot open /proc/self/exe: " os_open_executable;
  before ← observe_metadata file;
  cache ← get_cache;
  match cache with
  | Some entry =>
      if decide (ecc_metadata entry = before) then
        after ← observe_metadata file;
        sys_lift (ensure (bool_decide (before = after))
          (mkQualificationError "ambiguous_measurement"
             "opened executable metadata changed while cached content identity was checked"));;
        label ← link_label;
        mret (file, executable_measurement (ecc_content_digest entry) (ms_length before) label
                      (ms_device before) (ms_inode before))
      else
        measurement ← measure_open_executable file;
        after ← observe_metadata file;
        set_cache (mkContentCache after (am_content_digest measurement));;
        mret (file, measurement)
  | None =>
      measurement ← measure_open_executable file;
      after ← observe_metadata file;
      set_cache (mkContentCache after (am_content_digest measurement));;
      mret (file, measurement)
  end.

(** [observe_running_executable]. *)
Definition observe_running_executable : sys ArtifactMeasurementV1 :=
  opened ← open_and_measure_executable; mret opened.2.

(** [VerifiedActivationV1::revalidate_executable]: the activation with the
    metadata it leaves behind. *)
Definition revalidate_executable (v : VerifiedActivationV1) : sys VerifiedActivationV1 :=
  let guard := va_executable v in
  metadata ← observe_metadata (eg_file guard);
  if decide (metadata = eg_metadata guard) then mret v
  else
    observed ← measure_open_executable (eg_file guard);
    sys_lift (ensure (bool_decide (am_content_digest observed = am_content_digest (eg_expected guard))
                      && (am_byte_length observed =? am_byte_length (eg_expected guard)))
      (mkQualificationError "mutable_after_activation"
         "retained executable object no longer matches its activation measurement"));;
    mret (set_va_executable v (set_eg_metadata guard metadata)).

End executable.

(* ------------------------------------------------------------------ *)
(** ** The process identity, from [/proc] *)

(** [char::is_whitespace] and [split_whitespace], on scalar values. *)
Definition is_whitespace (c : Z) : bool :=
  ((9 <=? c) && (c <=? 13)) || (c =? 32) || (c =? 133) || (c =? 160) || (c =? 5760)
  || ((8192 <=? c) && (c <=? 8202)) || (c =? 8232) || (c =? 8233) || (c =? 8239) || (c =? 8287)
  || (c =? 12288).
Fixpoint split_whitespace_loop (word : list Z) (chars : list Z) : list (list Z) :=
  match chars with
  | [] => match word with [] => [] | _ => [rev word] end
  | c :: rest =>
      if is_whitespace c then
        match word with
        | [] => split_whitespace_loop [] rest
        | _ => rev word :: split_whitespace_loop [] rest
        end
      else split_whitespace_loop (c :: word) rest
  end.
Definition split_whitespace (chars : list Z) : list (list Z) := split_whitespace_loop [] chars.

(** What follows the last occurrence of a character. *)
Fixpoint after_last (c : Z) (chars : list Z) : option (list Z) :=
  match chars with
  | [] => None
  | d :: rest =>
      match after_last c rest with
      | Some tail => Some tail
      | None => if d =? c then Some rest else None
      end
  end.

(** [str::parse::<u64>]: an optional sign, then digits that fit. *)
Fixpoint parse_digits (value : Z) (chars : list Z) : option Z :=
  match chars with
  | [] => Some value
  | c :: rest =>
      if (48 <=? c) && (c <=? 57) then
        let value := value * 10 + (c - 48) in
        if value <=? u64_max then parse_digits value rest else None
      else None
  end.
Definition parse_u64 (chars : list Z) : option Z :=
  match chars with
  | [] => None
  | c :: rest => if c =? 43 then match rest with [] => None | _ => parse_digits 0 rest end
                 else parse_digits 0 chars
  end.

Section process.
Context `{Sha256} `{OperatingSystem}.

(** The start time in [/proc/self/stat]: the twentieth field after the name. *)
Definition process_start_ticks (stat : list Z) : result QualificationError Z :=
  match after_last 41 stat with
  | None => Err (mkQualificationError "ambiguous_measurement"
                   "process stat has no command terminator")
  | Some tail =>
      match split_whitespace tail !! 19%nat with
      | None => Err (mkQualificationError "ambiguous_measurement"
                       "process stat has no start-time field")
      | Some field =>
          match parse_u64 field with
          | None => Err (mkQualificationError "ambiguous_measurement"
                           "process start-time field is not an integer")
          | Some ticks => Ok ticks
          end
      end
  end.

(** [observe_local_process_identity]; [read_to_string] refuses text that is
    not UTF-8. *)
Definition observe_local_process_identity : sys LocalProcessIdentityV1 :=
  boot_id ← call "cannot read Linux boot identity: " os_boot_id;
  sys_lift (ensure (negb ((slen boot_id =? 0) || (256 <? slen boot_id)))
    (mkQualificationError "ambiguous_measurement" "Linux boot identity has an invalid bound"));;
  stat ← call "cannot read process start identity: "
           (fun n => text ← os_process_stat n;
                     match utf8_chars text with
                     | Some chars => Ok chars
                     | None => Err "stream did not contain valid UTF-8"
                     end);
  ticks ← sys_lift (process_start_ticks stat);
  let boot_digest := digest_parts "qualified.linux-boot-id.v1" [boot_id] in
  let epoch_digest :=
    digest_parts "qualified.process-epoch.v1"
      [boot_digest; be_bytes 4 os_process_id; be_bytes 8 ticks] in
  let identity := {| lp_process_epoch_id :=
                       "process-epoch:" +:+ trim_start_matches "sha256:" epoch_digest;
                     lp_process_id := os_process_id;
                     lp_linux_boot_id_digest := boot_digest;
                     lp_process_start_ticks := ticks |} in
  sys_lift (process_validate identity);;
  mret identity.

(** [activation_occurrence_id]. *)
Definition activation_occurrence_id (process : option LocalProcessIdentityV1) (sequence : Z)
  : IncarnationId :=
  let process_identity := default "process-unavailable" (lp_process_epoch_id <$> process) in
  "activation-occurrence:"
  +:+ trim_start_matches "sha256:"
        (digest_parts "qualified.activation-occurrence.v1"
           [process_identity; be_bytes 8 sequence]).
End process.

(* ------------------------------------------------------------------ *)
(** ** The activation gate *)

(** The [state] and [mismatches] variables of [verify_local_activation]. *)
Record Verdict := mkVerdict {
  vd_state : RuntimeBindingStateV1;
  vd_mismatches : list BindingMismatchV1;
}.
(** [mismatch]. *)
Definition mismatch (code : string) (role : option ArtifactRoleV1) (detail : string)
  : BindingMismatchV1 := mkMismatch code role None None detail.
(** Assign the state, or assign it only while nothing is decided, and push. *)
Definition decide_as (state : RuntimeBindingStateV1) (m : BindingMismatchV1) (v : Verdict)
  : Verdict := mkVerdict state (vd_mismatches v ++ [m]).
Definition decide_first (state : RuntimeBindingStateV1) (m : BindingMismatchV1) (v : Verdict)
  : Verdict :=
  decide_as (if decide (vd_state v = BindingPending) then state else vd_state v) m v.

(** One document: decoded, invalid or missing. *)
Definition decode_document {A} (decode : string → result QualificationError A)
    (on_invalid on_missing : BindingMismatchV1 → Verdict → Verdict)
    (invalid_code missing_code missing_detail : string) (bytes : option string) (v : Verdict)
  : option A * Verdict :=
  match bytes with
  | Some bytes =>
      match decode bytes with
      | Ok value => (Some value, v)
      | Err error =>
          (None, on_invalid (mismatch invalid_code None (qualification_error_display error)) v)
      end
  | None => (None, on_missing (mismatch missing_code None missing_detail) v)
  end.

Section gate.
Context `{Sha256} `{FactJson} `{PackageJson} `{OperatingSystem}.

Definition decode_manifest : option string → Verdict → option QualifiedArtifactManifestV1 * Verdict :=
  decode_document manifest_decode_canonical (decide_as ManifestMismatch)
    (decide_as ManifestMismatch) "manifest_invalid" "manifest_missing"
    "qualified artifact manifest is missing".
Definition decode_certificate
  : option string → Verdict → option QualificationCertificateV1 * Verdict :=
  decode_document qualification_certificate_decode_canonical (decide_first UnsupportedCertificate)
    (decide_first MissingCertificate) "certificate_invalid" "certificate_missing"
    "qualification certificate is missing".
Definition decode_report
  : option string → Verdict → option QualificationEvidenceReportV1 * Verdict :=
  decode_document report_decode_canonical (decide_first QualificationEvidenceMissing)
    (decide_first QualificationEvidenceMissing) "qualification_report_invalid"
    "qualification_report_missing" "checked qualification report is missing".

(** The checks on a complete package: cross-binding, local acceptance,
    lifecycle status and generation set. *)
Definition check_package (m : QualifiedArtifactManifestV1) (r : QualificationEvidenceReportV1)
    (c : QualificationCertificateV1) (acceptance : LocalActivationAcceptanceV1)
    (expected : QualifiedGenerationSetV1) (v : Verdict) : Verdict :=
  let v := match verify_qualification_package m r c with
           | Ok _ => v
           | Err error =>
               decide_as ManifestMismatch
                 (mismatch "package_cross_binding" None (qualification_error_display error)) v
           end in
  let v := if bool_decide (qc_certificate_digest c = la_accepted_certificate_digest acceptance)
              && bool_decide (cb_lifecycle_authority_id (qc_body c)
                              = la_lifecycle_authority_id acceptance)
           then v
           else decide_as Ambiguous
                  (mismatch "local_acceptance_mismatch" None
                     "local acceptance policy does not name this exact certificate and authority")
                  v in
  let v := match la_certificate_status acceptance with
           | StatusAccepted _ => v
           | StatusUnknown =>
               decide_as Ambiguous
                 (mismatch "lifecycle_status_unknown" None "local revocation status is not known") v
           | StatusSuperseded _ =>
               decide_as StateSuperseded
                 (mismatch "certificate_superseded" None
                    "local accepted supersession prevents activation") v
           | StatusRevoked _ =>
               decide_as StateRevoked
                 (mismatch "certificate_revoked" None
                    "local accepted revocation prevents activation") v
           end in
  if decide (mb_generation_set (mf_body m) = expected) then v
  else decide_as Ambiguous
         (mismatch "generation_set_mismatch" None
            "manifest generation set does not match the runtime context") v.

(** [sort_by_key] on the role, which is stable. *)
Fixpoint insert_by_role {A} (role : A → ArtifactRoleV1) (x : A) (xs : list A) : list A :=
  match xs with
  | [] => [x]
  | y :: rest =>
      match role_compare (role x) (role y) with
      | Gt => y :: insert_by_role role x rest
      | _ => x :: xs
      end
  end.
Definition sort_by_role {A} (role : A → ArtifactRoleV1) (xs : list A) : list A :=
  foldr (insert_by_role role) [] xs.

(** Open, measure and observe the executable, and add it to the
    measurements. *)
Definition measure_executable (semantic : list ArtifactMeasurementV1) (v : Verdict)
  : sys (option ExecutableMeasurementGuard * list ArtifactMeasurementV1 * Verdict) :=
  opened ← sys_try open_and_measure_executable;
  match opened with
  | Ok (file, measurement) =>
      metadata ← observe_metadata file;
      mret (Some (mkGuard file measurement metadata),
            sort_by_role am_role (semantic ++ [measurement]), v)
  | Err error =>
      mret (None, semantic,
            decide_first MeasurementUnavailable
              (mismatch "executable_measurement" (Some RunningExecutable)
                 (qualification_error_display error)) v)
  end.

(** A measurement that is exactly the artifact. *)
Definition measures (a : ArtifactIdentityV1) (m : ArtifactMeasurementV1) : bool :=
  bool_decide (am_content_digest m = ai_content_digest a)
  && (am_byte_length m =? ai_byte_length a) && negb (am_caller_supplied m).

(** One required artifact of the manifest. *)
Definition check_artifact (measurements : list ArtifactMeasurementV1) (v : Verdict)
    (a : ArtifactIdentityV1) : Verdict :=
  match find (fun m => bool_decide (am_role m = ai_role a)) measurements with
  | Some m =>
      if measures a m then v
      else decide_first (mismatch_state (ai_role a))
             (mkMismatch "artifact_identity_mismatch" (Some (ai_role a))
                (Some (ai_content_digest a)) (Some (am_content_digest m))
                "active artifact does not exactly match qualified identity") v
  | None =>
      decide_first MeasurementUnavailable
        (mismatch "artifact_measurement_missing" (Some (ai_role a))
           "required active artifact was not measured") v
  end.
Definition required_artifacts (m : QualifiedArtifactManifestV1) : list ArtifactIdentityV1 :=
  List.filter ai_activation_required (mb_artifacts (mf_body m)).
Definition check_artifacts (manifest : option QualifiedArtifactManifestV1)
    (measurements : list ArtifactMeasurementV1) (v : Verdict) : Verdict :=
  match manifest with
  | None => v
  | Some m => fold_left (check_artifact measurements) (required_artifacts m) v
  end.
Definition all_required_measured (manifest : option QualifiedArtifactManifestV1)
    (measurements : list ArtifactMeasurementV1) : bool :=
  match manifest with
  | None => false
  | Some m =>
      forallb (fun a => existsb (fun x => bool_decide (am_role x = ai_role a) && measures a x)
                          measurements) (required_artifacts m)
  end.

(** The state at the end: matched only if nothing spoke against it. *)
Definition final_state (process : option LocalProcessIdentityV1) (all_measured caller_supplied : bool)
    (v : Verdict) : RuntimeBindingStateV1 :=
  if decide (vd_state v = BindingPending) then
    if has_value process && all_measured && negb caller_supplied
       && bool_decide (length (vd_mismatches v) = 0%nat)
    then QualifiedAndMatched else MeasurementUnavailable
  else vd_state v.

(** The receipt's body. *)
Definition receipt_body (manifest : option QualifiedArtifactManifestV1)
    (certificate : option QualificationCertificateV1)
    (report : option QualificationEvidenceReportV1) (process : option LocalProcessIdentityV1)
    (sequence : Z) (context : LocalActivationContextV1)
    (measurements : list ArtifactMeasurementV1) (all_measured caller_supplied : bool)
    (state : RuntimeBindingStateV1) (mismatches : list BindingMismatchV1)
  : ActivationReceiptBodyV1 :=
  {| rb_schema_version := SCHEMA_VERSION_V1;
     rb_manifest_digest := mf_manifest_digest <$> manifest;
     rb_qualification_certificate_digest := qc_certificate_digest <$> certificate;
     rb_qualification_report_digest := er_report_digest <$> report;
     rb_generation_set := (fun m => mb_generation_set (mf_body m)) <$> manifest;
     rb_process := process;
     rb_activation_occurrence_id := activation_occurrence_id process sequence;
     rb_activation_sequence := sequence;
     rb_receiver_incarnation := lc_receiver_incarnation context;
     rb_receiver_clock_id := lc_receiver_clock_id context;
     rb_activated_at_monotonic_ms := lc_activated_at_monotonic_ms context;
     rb_runtime_version := lc_runtime_version context;
     rb_target_platform := lc_target_platform context;
     rb_measurements := measurements;
     rb_state := state;
     rb_mismatches := mismatches;
     rb_all_required_artifacts_measured := all_measured;
     rb_any_measurement_caller_supplied := caller_supplied;
     rb_mutable_after_activation := false;
     rb_independent_attestation_claimed := false;
     rb_authority_grants := grants_none |}.

(** The live activation of a matched state. *)
Definition accept_activation (manifest : option QualifiedArtifactManifestV1)
    (certificate : option QualificationCertificateV1) (process : option LocalProcessIdentityV1)
    (guard : option ExecutableMeasurementGuard) (receipt : ActivationReceiptV1)
    (measurements : list ArtifactMeasurementV1) : sys VerifiedActivationV1 :=
  manifest ← sys_expect "matched state has manifest" manifest;
  certificate ← sys_expect "matched state has certificate" certificate;
  process ← sys_expect "matched state has process identity" process;
  executable ← sys_expect "matched state has executable measurement" guard;
  let binding :=
    {| qb_schema_version := SCHEMA_VERSION_V1;
       qb_manifest_digest := mf_manifest_digest manifest;
       qb_qualification_certificate_digest := qc_certificate_digest certificate;
       qb_activation_receipt_digest := arc_receipt_digest receipt;
       qb_activation_occurrence_id := rb_activation_occurrence_id (arc_body receipt);
       qb_process_epoch_id := lp_process_epoch_id process;
       qb_generation_set := mb_generation_set (mf_body manifest);
       qb_authority_grants := grants_none |} in
  sys_lift (binding_validate binding);;
  mret (mkVerified binding receipt measurements executable).

(** The checks before anything is observed. *)
Definition activation_arguments_validate (acceptance : LocalActivationAcceptanceV1)
    (context : LocalActivationContextV1) : result QualificationError unit :=
  generation_set_validate (lc_expected_generation_set context);;
  qualified_identity "IncarnationId" (lc_receiver_incarnation context);;
  qualified_identity "ClockId" (lc_receiver_clock_id context);;
  qualification_text "activation.runtime_version" (lc_runtime_version context);;
  qualification_text "activation.target_platform" (lc_target_platform context);;
  validate_measurements (lc_semantic_measurements context) true;;
  acceptance_policy_validate acceptance.

(** Everything the package and the acceptance policy say by themselves. *)
Definition package_verdict (manifest_bytes certificate_bytes report_bytes : option string)
    (acceptance : LocalActivationAcceptanceV1) (context : LocalActivationContextV1)
  : option QualifiedArtifactManifestV1 * option QualificationCertificateV1
    * option QualificationEvidenceReportV1 * Verdict :=
  let '(manifest, v) := decode_manifest manifest_bytes (mkVerdict BindingPending []) in
  let '(certificate, v) := decode_certificate certificate_bytes v in
  let '(report, v) := decode_report report_bytes v in
  let v := match manifest, report, certificate with
           | Some m, Some r, Some c =>
               check_package m r c acceptance (lc_expected_generation_set context) v
           | _, _, _ => v
           end in
  (manifest, certificate, report, v).

(** [verify_local_activation]. *)
Definition verify_local_activation (manifest_bytes certificate_bytes report_bytes : option string)
    (acceptance : LocalActivationAcceptanceV1) (context : LocalActivationContextV1)
  : sys LocalActivationAttemptV1 :=
  sys_lift (activation_arguments_validate acceptance context);;
  sequence ← next_activation_occurrence;
  observed ← sys_try observe_local_process_identity;
  let process := match observed with Ok p => Some p | Err _ => None end in
  let '(manifest, certificate, report, v) :=
    package_verdict manifest_bytes certificate_bytes report_bytes acceptance context in
  measured ← measure_executable (lc_semantic_measurements context) v;
  let '(guard, measurements, v) := measured in
  let v := check_artifacts manifest measurements v in
  let all_measured := all_required_measured manifest measurements in
  let caller_supplied := existsb am_caller_supplied measurements in
  let state := final_state process all_measured caller_supplied v in
  receipt ← sys_lift (receipt_new
    (receipt_body manifest certificate report process sequence context measurements all_measured
       caller_supplied state (vd_mismatches v)));
  if decide (state = QualifiedAndMatched) then
    accepted ← accept_activation manifest certificate process guard receipt measurements;
    mret (mkAttempt receipt (Some accepted))
  else mret (mkAttempt receipt None).
End gate.
