(* ===== verification/CustodyTypes.v ===== *)
(** * Receiver custody records: the part of
    [crates/pulse-types/src/custody.rs] the runtime stores

    A remote pulse carries a custody reference and an acceptance receipt.  Their
    JSON text ([serde_json::to_vec]) is the operation of the class
    [CustodyJson]. *)

From S2P Require Import Prelude Ids Digest Judgment Qualification.

Definition MAX_CUSTODY_TEXT_BYTES : Z := 256.

Record CustodyTypeError := mkCustodyTypeError { cte_code : string; cte_detail : string }.
Definition custody_error_display (e : CustodyTypeError) : string :=
  cte_code e +:+ ": " +:+ cte_detail e.

Inductive CustodyPeerRoleV1 := PeerSender | PeerReceiver.
#[global] Instance CustodyPeerRoleV1_eq_dec : EqDecision CustodyPeerRoleV1.
Proof. solve_decision. Defined.

Inductive RemoteFreshnessModeV1 := ArrivalAnchored.
#[global] Instance RemoteFreshnessModeV1_eq_dec : EqDecision RemoteFreshnessModeV1.
Proof. solve_decision. Defined.

Inductive CustodyCheckResultV1 := CheckNotChecked | CheckAccepted | CheckRejected.
#[global] Instance CustodyCheckResultV1_eq_dec : EqDecision CustodyCheckResultV1.
Proof. solve_decision. Defined.

Inductive ReplayWindowResultV1 :=
| WindowNotChecked | WindowFirst | WindowContinuous | WindowGap | WindowDuplicate | WindowReplay
| WindowReordered | WindowBoundExceeded.

Inductive TransportCustodyFindingV1 :=
| TransportUnavailable
| TransportOverloaded
| TransportMalformed
| AuthenticationFailed
| SenderKeyMismatch
| ReceiverChallengeInvalid
| SessionExpired
| SessionUnknown
| SessionConflict
| SenderOccurrenceConflict
| SignatureInvalid
| QualifiedIdentityMismatch
| CertificateSuperseded
| CertificateRevoked
| ReplayDetected
| DuplicateDetected
| SequenceGap
| ObservationRejected
| PayloadMalformed
| SubjectScopeMismatch
| ObserverRoleMismatch
| ReceiverBlind
| EvidenceAdmitted.
#[global] Instance TransportCustodyFindingV1_eq_dec : EqDecision TransportCustodyFindingV1.
Proof. solve_decision. Defined.

Definition finding_debug (f : TransportCustodyFindingV1) : string :=
  match f with
  | TransportUnavailable => "TransportUnavailable"
  | TransportOverloaded => "TransportOverloaded"
  | TransportMalformed => "TransportMalformed"
  | AuthenticationFailed => "AuthenticationFailed"
  | SenderKeyMismatch => "SenderKeyMismatch"
  | ReceiverChallengeInvalid => "ReceiverChallengeInvalid"
  | SessionExpired => "SessionExpired"
  | SessionUnknown => "SessionUnknown"
  | SessionConflict => "SessionConflict"
  | SenderOccurrenceConflict => "SenderOccurrenceConflict"
  | SignatureInvalid => "SignatureInvalid"
  | QualifiedIdentityMismatch => "QualifiedIdentityMismatch"
  | CertificateSuperseded => "CertificateSuperseded"
  | CertificateRevoked => "CertificateRevoked"
  | ReplayDetected => "ReplayDetected"
  | DuplicateDetected => "DuplicateDetected"
  | SequenceGap => "SequenceGap"
  | ObservationRejected => "ObservationRejected"
  | PayloadMalformed => "PayloadMalformed"
  | SubjectScopeMismatch => "SubjectScopeMismatch"
  | ObserverRoleMismatch => "ObserverRoleMismatch"
  | ReceiverBlind => "ReceiverBlind"
  | EvidenceAdmitted => "EvidenceAdmitted"
  end.

Record CustodyAuthorityGrantsV1 := mkCustodyGrants {
  cg_continuation : AuthorityGrantV1;
  cg_transport_administration : AuthorityGrantV1;
  cg_diagnostic_execution : AuthorityGrantV1;
  cg_deployment : AuthorityGrantV1;
  cg_signing : AuthorityGrantV1;
  cg_revocation : AuthorityGrantV1;
  cg_mutation : AuthorityGrantV1;
}.
#[global] Instance CustodyAuthorityGrantsV1_eq_dec : EqDecision CustodyAuthorityGrantsV1.
Proof. solve_decision. Defined.

Definition custody_grants_nothing (g : CustodyAuthorityGrantsV1) : bool :=
  match g with
  | mkCustodyGrants GrantNone GrantNone GrantNone GrantNone GrantNone GrantNone GrantNone => true
  end.

(** The shared field checks of [custody.rs]. *)
Definition custody_schema (version : Z) : result CustodyTypeError unit :=
  ensure (version =? SCHEMA_VERSION_V1)
    (mkCustodyTypeError "unsupported_schema" "custody schema version is unsupported").
Definition custody_digest (d : DigestV1) : result CustodyTypeError unit :=
  map_err (fun e => mkCustodyTypeError "invalid_digest" e) (digest_validate d).
Definition custody_identity (kind value : string) : result CustodyTypeError unit :=
  map_err (fun e => mkCustodyTypeError "invalid_identity" (identity_error_display e))
    (validate_identity kind value).
Definition custody_text (field value : string) : result CustodyTypeError unit :=
  ensure (negb ((slen value =? 0) || (MAX_CUSTODY_TEXT_BYTES <? slen value) || has_control value))
    (mkCustodyTypeError "invalid_text"
       (field +:+ " is empty, oversized, or contains control characters")).

Record TransportCustodyPolicyBindingV1 := mkPolicyBinding {
  tp_schema_version : Z;
  tp_role : CustodyPeerRoleV1;
  tp_policy_generation : string;
  tp_policy_digest : DigestV1;
}.
#[global] Instance TransportCustodyPolicyBindingV1_eq_dec :
  EqDecision TransportCustodyPolicyBindingV1.
Proof. solve_decision. Defined.

(** [TransportCustodyPolicyBindingV1::validate]. *)
Definition policy_binding_validate (b : TransportCustodyPolicyBindingV1)
  : result CustodyTypeError unit :=
  custody_schema (tp_schema_version b);;
  custody_text "transport policy generation" (tp_policy_generation b);;
  custody_digest (tp_policy_digest b).

Record CustodySequenceGapV1 := mkCustodyGap
  { csg_expected_next : Z; csg_received : Z; csg_missing_count : Z }.

(** [CustodySequenceGapV1::validate]. *)
Definition custody_gap_validate (g : CustodySequenceGapV1) : result CustodyTypeError unit :=
  ensure (negb ((csg_received g <=? csg_expected_next g)
                || negb (csg_missing_count g =? csg_received g - csg_expected_next g)))
    (mkCustodyTypeError "invalid_sequence_gap" "custody sequence gap arithmetic is inconsistent").

Record ReceiverAcceptanceReceiptV1 := mkAcceptanceReceipt {
  rar_schema_version : Z;
  rar_receipt_digest : DigestV1;
  rar_receiver_process_occurrence : IncarnationId;
  rar_receiver_monotonic_epoch : IncarnationId;
  rar_receiver_acceptance_policy_generation : string;
  rar_receiver_acceptance_policy_digest : DigestV1;
  rar_session_binding_digest : option DigestV1;
  rar_envelope_digest : option DigestV1;
  rar_receiver_arrival_monotonic_ms : Z;
  rar_remote_network_endpoint : string;
  rar_sender_key_verification : CustodyCheckResultV1;
  rar_receiver_challenge_verification : CustodyCheckResultV1;
  rar_session_binding_verification : CustodyCheckResultV1;
  rar_sender_qualification_package_acceptance : CustodyCheckResultV1;
  rar_exact_identity_match : CustodyCheckResultV1;
  rar_replay_window_result : ReplayWindowResultV1;
  rar_sequence_gap : option CustodySequenceGapV1;
  rar_queue_and_capacity_result : CustodyCheckResultV1;
  rar_subject_scope_result : CustodyCheckResultV1;
  rar_observer_role_result : CustodyCheckResultV1;
  rar_payload_decoding_result : CustodyCheckResultV1;
  rar_finding : TransportCustodyFindingV1;
  rar_accepted_evidence_identity : option DigestV1;
  rar_refusal_reason : option string;
  rar_complete : bool;
  rar_receipt_sequence : Z;
  rar_journal_identity : string;
  rar_mutation_authority : MutationAuthorityV1;
  rar_authority_grants : CustodyAuthorityGrantsV1;
}.

Record RemoteObservationCustodyReferenceV1 := mkCustodyReference {
  roc_schema_version : Z;
  roc_receiver_process_occurrence : IncarnationId;
  roc_receiver_monotonic_epoch : IncarnationId;
  roc_receiver_manifest_digest : DigestV1;
  roc_receiver_qualification_certificate_digest : DigestV1;
  roc_receiver_activation_receipt_digest : DigestV1;
  roc_receiver_acceptance_policy_generation : string;
  roc_receiver_acceptance_policy_digest : DigestV1;
  roc_receiver_key_identity_digest : DigestV1;
  roc_sender_key_identity_digest : DigestV1;
  roc_sender_process_occurrence : IncarnationId;
  roc_sender_monotonic_epoch : IncarnationId;
  roc_sender_manifest_digest : DigestV1;
  roc_sender_qualification_certificate_digest : DigestV1;
  roc_sender_activation_receipt_digest : DigestV1;
  roc_sender_session_offer_digest : DigestV1;
  roc_receiver_challenge_digest : DigestV1;
  roc_session_binding_digest : DigestV1;
  roc_receiver_session_acceptance_digest : DigestV1;
  roc_envelope_digest : DigestV1;
  roc_acceptance_receipt_digest : DigestV1;
  roc_observer : ObserverId;
  roc_failure_domain_claim : string;
  roc_subject_scope : SubjectScopeV1;
  roc_observation_sequence : Z;
  roc_session_sequence : Z;
  roc_payload_digest : DigestV1;
  roc_observation_identity : DigestV1;
  roc_supporting_evidence_id : string;
  roc_receiver_arrival_monotonic_ms : Z;
  roc_accepted_evidence_identity : DigestV1;
  roc_freshness_mode : RemoteFreshnessModeV1;
  roc_authority_grants : CustodyAuthorityGrantsV1;
}.
#[global] Instance RemoteObservationCustodyReferenceV1_eq_dec :
  EqDecision RemoteObservationCustodyReferenceV1.
Proof. solve_decision. Defined.

Class CustodyJson := {
  acceptance_json : ReceiverAcceptanceReceiptV1 → string;
  custody_json : RemoteObservationCustodyReferenceV1 → string;
}.

Section operations.
Context `{Sha256} `{CustodyJson}.

Definition set_rar_receipt_digest (r : ReceiverAcceptanceReceiptV1) (d : DigestV1)
  : ReceiverAcceptanceReceiptV1 :=
  let 'mkAcceptanceReceipt a _ b c e f g h i j k l m n o p q s t u v w x y z aa bb cc dd := r in
  mkAcceptanceReceipt a d b c e f g h i j k l m n o p q s t u v w x y z aa bb cc dd.

(** [ReceiverAcceptanceReceiptV1::compute_digest]. *)
Definition acceptance_compute_digest (r : ReceiverAcceptanceReceiptV1) : DigestV1 :=
  digest_parts "transport.receiver-acceptance-receipt.v1"
    [acceptance_json (set_rar_receipt_digest r
       (artifact_content_digest "receiver-acceptance-receipt-digest-field/v1"))].

Definition optional_digest (d : option DigestV1) : result CustodyTypeError unit :=
  match d with Some d => custody_digest d | None => Ok tt end.

(** The premises an admitted receipt must carry. *)
Definition admission_premises (r : ReceiverAcceptanceReceiptV1) : bool :=
  negb (bool_decide (rar_accepted_evidence_identity r = None))
  && bool_decide (rar_refusal_reason r = None)
  && forallb (fun c => bool_decide (c = CheckAccepted))
       [ rar_sender_key_verification r; rar_receiver_challenge_verification r;
         rar_session_binding_verification r; rar_sender_qualification_package_acceptance r;
         rar_exact_identity_match r; rar_queue_and_capacity_result r; rar_subject_scope_result r;
         rar_observer_role_result r; rar_payload_decoding_result r ].

(** [ReceiverAcceptanceReceiptV1::validate]. *)
Definition acceptance_validate (r : ReceiverAcceptanceReceiptV1) : result CustodyTypeError unit :=
  custody_schema (rar_schema_version r);;
  custody_digest (rar_receipt_digest r);;
  custody_identity "IncarnationId" (rar_receiver_process_occurrence r);;
  custody_identity "IncarnationId" (rar_receiver_monotonic_epoch r);;
  custody_text "receiver acceptance policy generation"
    (rar_receiver_acceptance_policy_generation r);;
  custody_digest (rar_receiver_acceptance_policy_digest r);;
  for_each optional_digest
    [ rar_session_binding_digest r; rar_envelope_digest r; rar_accepted_evidence_identity r ];;
  custody_text "remote endpoint metadata" (rar_remote_network_endpoint r);;
  match rar_sequence_gap r with Some gap => custody_gap_validate gap | None => Ok tt end;;
  match rar_refusal_reason r with
  | Some reason => custody_text "receiver refusal reason" reason
  | None => Ok tt
  end;;
  custody_text "receipt journal identity" (rar_journal_identity r);;
  ensure (negb ((rar_receipt_sequence r =? 0) || negb (rar_complete r)
                || negb (bool_decide (rar_mutation_authority r = MutationNone))
                || negb (custody_grants_nothing (rar_authority_grants r))))
    (mkCustodyTypeError "invalid_acceptance_receipt"
       "receipt is incomplete, unsequenced, or carries authority");;
  ensure (bool_decide (rar_receipt_digest r = acceptance_compute_digest r))
    (mkCustodyTypeError "receipt_identity_mismatch"
       "acceptance receipt digest does not identify its exact contents");;
  if decide (rar_finding r = EvidenceAdmitted) then
    ensure (admission_premises r)
      (mkCustodyTypeError "invalid_admission"
         "admitted receipt lacks every accepted admission premise")
  else
    ensure (bool_decide (rar_accepted_evidence_identity r = None))
      (mkCustodyTypeError "authority_laundering"
         "non-admitted receipt cannot name accepted evidence").

(** [SubjectScopeV1::validate] with the error wrapped. *)
Definition custody_scope (s : SubjectScopeV1) : result CustodyTypeError unit :=
  map_err (fun e => mkCustodyTypeError "invalid_identity" (identity_error_display e))
    (subject_scope_validate s).

(** [RemoteObservationCustodyReferenceV1::validate]. *)
Definition custody_validate (c : RemoteObservationCustodyReferenceV1)
  : result CustodyTypeError unit :=
  custody_schema (roc_schema_version c);;
  for_each (custody_identity "IncarnationId")
    [ roc_receiver_process_occurrence c; roc_receiver_monotonic_epoch c;
      roc_sender_process_occurrence c; roc_sender_monotonic_epoch c ];;
  for_each custody_digest
    [ roc_receiver_manifest_digest c;
      roc_receiver_qualification_certificate_digest c;
      roc_receiver_activation_receipt_digest c;
      roc_receiver_acceptance_policy_digest c;
      roc_receiver_key_identity_digest c;
      roc_sender_key_identity_digest c;
      roc_sender_manifest_digest c;
      roc_sender_qualification_certificate_digest c;
      roc_sender_activation_receipt_digest c;
      roc_sender_session_offer_digest c;
      roc_receiver_challenge_digest c;
      roc_session_binding_digest c;
      roc_receiver_session_acceptance_digest c;
      roc_envelope_digest c;
      roc_acceptance_receipt_digest c;
      roc_payload_digest c;
      roc_observation_identity c;
      roc_accepted_evidence_identity c ];;
  custody_text "receiver acceptance policy generation"
    (roc_receiver_acceptance_policy_generation c);;
  custody_identity "ObserverId" (roc_observer c);;
  custody_text "failure-domain claim" (roc_failure_domain_claim c);;
  custody_scope (roc_subject_scope c);;
  custody_text "supporting evidence identity" (roc_supporting_evidence_id c);;
  ensure (negb ((roc_observation_sequence c =? 0) || (roc_session_sequence c =? 0)
                || negb (custody_grants_nothing (roc_authority_grants c))))
    (mkCustodyTypeError "invalid_custody_reference"
       "custody reference sequence or authority posture is invalid").

(** [RemoteObservationCustodyReferenceV1::identity_digest]. *)
Definition custody_identity_digest (c : RemoteObservationCustodyReferenceV1) : DigestV1 :=
  digest_parts "transport.remote-observation-custody.v1" [custody_json c].

End operations.
