(* ===== verification/Escalation.v ===== *)
(** * Diagnostic escalation: [crates/pulse-types/src/escalation.rs]

    The bounded request, its validation and deduplication key, and the
    records a bridge answers with. *)

From S2P Require Import Prelude Ids Digest Pulse Judgment.

Definition ESCALATION_NONCLAIMS : list string :=
  [ "This request is not diagnostic evidence.";
    "This request grants no execution or mutation authority.";
    "Acceptance authorizes only the named bounded observation profile in the local bridge.";
    "Diagnostic completion does not establish subject health or indefinite reliance." ].

Record DiagnosticProfileIdV1 := mkDiagnosticProfile
  { dp_name : string; dp_version : Z; dp_semantic_digest : DigestV1 }.
#[global] Instance DiagnosticProfileIdV1_eq_dec : EqDecision DiagnosticProfileIdV1.
Proof. solve_decision. Defined.

Inductive EscalationTriggerClassV1 :=
| FreshnessLost | CoverageCollapse | ObserverDisagreement | ContradictionRetained
| SubjectBoundViolated | ProvenanceFailed | TransportBlind | SequenceDiscontinuity.
#[global] Instance EscalationTriggerClassV1_eq_dec : EqDecision EscalationTriggerClassV1.
Proof. solve_decision. Defined.

(** Every variant, in declaration order: the order of a [BTreeSet] of them. *)
Definition all_triggers : list EscalationTriggerClassV1 :=
  [FreshnessLost; CoverageCollapse; ObserverDisagreement; ContradictionRetained;
   SubjectBoundViolated; ProvenanceFailed; TransportBlind; SequenceDiscontinuity].

(** [EscalationTriggerClassV1::as_str]. *)
Definition trigger_as_str (t : EscalationTriggerClassV1) : string :=
  match t with
  | FreshnessLost => "freshness_lost"
  | CoverageCollapse => "coverage_collapse"
  | ObserverDisagreement => "observer_disagreement"
  | ContradictionRetained => "contradiction_retained"
  | SubjectBoundViolated => "subject_bound_violated"
  | ProvenanceFailed => "provenance_failed"
  | TransportBlind => "transport_blind"
  | SequenceDiscontinuity => "sequence_discontinuity"
  end.

Record DiagnosticBoundsV1 := mkBounds
  { db_maximum_runtime_ms : Z; db_maximum_output_bytes : Z; db_maximum_observations : Z }.
#[global] Instance DiagnosticBoundsV1_eq_dec : EqDecision DiagnosticBoundsV1.
Proof. solve_decision. Defined.

Definition bounds_is_nonzero (b : DiagnosticBoundsV1) : bool :=
  (0 <? db_maximum_runtime_ms b) && (0 <? db_maximum_output_bytes b)
  && (0 <? db_maximum_observations b).

Definition fits_within (b limit : DiagnosticBoundsV1) : bool :=
  (db_maximum_runtime_ms b <=? db_maximum_runtime_ms limit)
  && (db_maximum_output_bytes b <=? db_maximum_output_bytes limit)
  && (db_maximum_observations b <=? db_maximum_observations limit).

Definition narrowed_to (b limit : DiagnosticBoundsV1) : DiagnosticBoundsV1 :=
  {| db_maximum_runtime_ms :=
       if db_maximum_runtime_ms b <? db_maximum_runtime_ms limit
       then db_maximum_runtime_ms b else db_maximum_runtime_ms limit;
     db_maximum_output_bytes :=
       if db_maximum_output_bytes b <? db_maximum_output_bytes limit
       then db_maximum_output_bytes b else db_maximum_output_bytes limit;
     db_maximum_observations :=
       if db_maximum_observations b <? db_maximum_observations limit
       then db_maximum_observations b else db_maximum_observations limit |}.

Record DiagnosticEscalationRequestV1 := mkRequest {
  rq_schema_version : Z;
  rq_request_id : EscalationRequestId;
  rq_subject_scope : SubjectScopeV1;
  rq_consumer : ConsumerId;
  rq_trigger_class : EscalationTriggerClassV1;
  rq_evidence_window_digest : DigestV1;
  rq_policy_generation : PolicyGenerationId;
  rq_observation_policy_generation : ObservationPolicyGenerationId;
  rq_diagnostic_profile : DiagnosticProfileIdV1;
  rq_bounds : DiagnosticBoundsV1;
  rq_clock_id : ClockId;
  rq_created_at_monotonic_ms : Z;
  rq_expires_at_monotonic_ms : Z;
  rq_deduplication_key : DigestV1;
  rq_causal_transition_id : TransitionId;
  rq_nonclaims : list string;
}.

Record EscalationError := mkEscalationError { ee_code : string; ee_detail : string }.

(** [compute_deduplication_key]: the request's meaning without its occurrence. *)
Definition compute_deduplication_key `{Sha256} (r : DiagnosticEscalationRequestV1) : DigestV1 :=
  digest_parts "diagnostic.escalation.dedup.v1"
    [ ss_subject (rq_subject_scope r);
      ss_subject_incarnation (rq_subject_scope r);
      ss_scope (rq_subject_scope r);
      rq_consumer r;
      rq_policy_generation r;
      rq_observation_policy_generation r;
      trigger_as_str (rq_trigger_class r);
      dp_name (rq_diagnostic_profile r);
      be_bytes 2 (dp_version (rq_diagnostic_profile r));
      dp_semantic_digest (rq_diagnostic_profile r) ].

Definition escalation_identity (kind value detail : string) : result EscalationError unit :=
  map_err (fun _ => mkEscalationError "invalid_identity" detail) (validate_identity kind value).

(** [DiagnosticEscalationRequestV1::validate]. *)
Definition request_validate `{Sha256} (r : DiagnosticEscalationRequestV1)
  : result EscalationError unit :=
  ensure (rq_schema_version r =? SCHEMA_VERSION_V1)
    (mkEscalationError "unsupported_schema" "request schema is unsupported");;
  escalation_identity "EscalationRequestId" (rq_request_id r) "invalid request identity";;
  map_err (fun _ => mkEscalationError "invalid_scope" "invalid subject scope")
    (subject_scope_validate (rq_subject_scope r));;
  escalation_identity "ConsumerId" (rq_consumer r) "invalid consumer identity";;
  escalation_identity "PolicyGenerationId" (rq_policy_generation r) "invalid policy generation";;
  escalation_identity "ObservationPolicyGenerationId" (rq_observation_policy_generation r)
    "invalid observation-policy generation";;
  escalation_identity "ClockId" (rq_clock_id r) "invalid clock identity";;
  escalation_identity "TransitionId" (rq_causal_transition_id r) "invalid transition identity";;
  map_err (fun _ => mkEscalationError "invalid_digest" "invalid evidence window digest")
    (digest_validate (rq_evidence_window_digest r));;
  map_err (fun _ => mkEscalationError "invalid_digest" "invalid profile digest")
    (digest_validate (dp_semantic_digest (rq_diagnostic_profile r)));;
  ensure (negb ((slen (dp_name (rq_diagnostic_profile r)) =? 0)
                || (dp_version (rq_diagnostic_profile r) =? 0)))
    (mkEscalationError "invalid_profile" "profile identity is incomplete");;
  ensure (bounds_is_nonzero (rq_bounds r))
    (mkEscalationError "invalid_bounds" "every diagnostic bound must be nonzero");;
  ensure (negb (rq_expires_at_monotonic_ms r <=? rq_created_at_monotonic_ms r))
    (mkEscalationError "invalid_expiry" "expiry must be later than creation");;
  ensure (bool_decide (compute_deduplication_key r = rq_deduplication_key r))
    (mkEscalationError "deduplication_mismatch"
       "deduplication key does not match its semantic transcript");;
  ensure (bool_decide (rq_nonclaims r = ESCALATION_NONCLAIMS))
    (mkEscalationError "nonclaim_mismatch" "request nonclaims are not the fixed v1 set").

Inductive EscalationDispositionKindV1 :=
| Accept (admitted_bounds : DiagnosticBoundsV1)
| Refuse (code detail : string)
| Narrow (allowed_profile : DiagnosticProfileIdV1) (allowed_bounds : DiagnosticBoundsV1)
    (detail : string)
| Defer (code detail : string).

Record EscalationDispositionV1 := mkDisposition {
  ed_schema_version : Z;
  ed_request_id : EscalationRequestId;
  ed_bridge_id : BridgeId;
  ed_clock_id : ClockId;
  ed_decided_at_monotonic_ms : Z;
  ed_kind : EscalationDispositionKindV1;
  ed_mutation_authority : MutationAuthorityV1;
}.

Inductive DiagnosticReceiptStatusV1 := ReceiptCompleted | ReceiptFailed.

Record DiagnosticResultEntryV1 := mkResultEntry
  { dre_name : string; dre_value : string; dre_interpretation : string }.

Record MockDiagnosticReceiptV1 := mkReceipt {
  rc_schema_version : Z;
  rc_receipt_id : DiagnosticReceiptId;
  rc_run_id : DiagnosticRunId;
  rc_request_id : EscalationRequestId;
  rc_causal_transition_id : TransitionId;
  rc_deduplication_key : DigestV1;
  rc_evidence_window_digest : DigestV1;
  rc_subject_scope : SubjectScopeV1;
  rc_consumer : ConsumerId;
  rc_policy_generation : PolicyGenerationId;
  rc_observation_policy_generation : ObservationPolicyGenerationId;
  rc_diagnostic_profile : DiagnosticProfileIdV1;
  rc_bridge_id : BridgeId;
  rc_clock_id : ClockId;
  rc_started_at_monotonic_ms : Z;
  rc_completed_at_monotonic_ms : Z;
  rc_applicable_until_monotonic_ms : Z;
  rc_status : DiagnosticReceiptStatusV1;
  rc_results : list DiagnosticResultEntryV1;
  rc_observed_coverage : list string;
  rc_result_digest : DigestV1;
  rc_nonclaims : list string;
  rc_mutation_authority : MutationAuthorityV1;
}.
