(* ===== verification/Certificate.v ===== *)
(** * Support certificates, refusals and history:
    [crates/pulse-types/src/runtime.rs]

    A certificate explains one evaluation under one exact context.  A CURRENT
    certificate must bind a qualified generation, complete premises and a
    future expiry that is also the next scheduled reevaluation. *)

From S2P Require Import Prelude Ids Digest Judgment Context Qualification CustodyTypes Escalation.

Definition MAX_CERTIFICATE_EVIDENCE_REFS : Z := 64.
Definition MAX_CERTIFICATE_MISSING_PREMISES : Z := 64.
Definition MAX_CERTIFICATE_CONTRADICTIONS : Z := 64.

Record RelianceSupportCertificateV1 := mkCertificate {
  sc_schema_version : Z;
  sc_certificate_id : SupportCertificateId;
  sc_consumer : ConsumerId;
  sc_subject_scope : SubjectScopeV1;
  sc_context : RelianceContextV1;
  sc_qualified_generation : option QualifiedGenerationBindingV1;
  sc_evaluated_at_monotonic_ms : Z;
  sc_receiver_clock_id : string;
  sc_judgment : JudgmentCategoryV1;
  sc_evidence_window_id : EvidenceWindowId;
  sc_supporting_evidence_ids : list string;
  sc_remote_observation_custody : list RemoteObservationCustodyReferenceV1;
  sc_missing_premises : list string;
  sc_applicable_contradictions : list ContradictionId;
  sc_coverage : CoverageSummaryV1;
  sc_earliest_support_expiry_monotonic_ms : option Z;
  sc_next_scheduled_reevaluation_monotonic_ms : option Z;
  sc_escalation : EscalationStateV1;
  sc_mutation_authority : MutationAuthorityV1;
}.
#[global] Instance RelianceSupportCertificateV1_eq_dec : EqDecision RelianceSupportCertificateV1.
Proof. solve_decision. Defined.

(** [escalation_transcript]. *)
Definition escalation_transcript (s : EscalationStateV1) : string :=
  match s with
  | NotRequested => "not_requested"
  | Requested request_id => "requested:" +:+ request_id
  | Accepted request_id => "accepted:" +:+ request_id
  | Refused request_id reason => "refused:" +:+ request_id +:+ ":" +:+ reason
  | Narrowed request_id => "narrowed:" +:+ request_id
  | Deferred request_id => "deferred:" +:+ request_id
  | Completed request_id receipt_id => "completed:" +:+ request_id +:+ ":" +:+ receipt_id
  end.

(** [for x in xs { owned.push(label); owned.push(x) }]. *)
Definition labelled (label : string) (xs : list string) : list string :=
  flat_map (fun x => [label; x]) xs.

Definition count_parts (c : CoverageCountV1) : list string :=
  [ cc_tag c; be_bytes 4 (cc_active_observers c); be_bytes 4 (cc_expired_observers c);
    be_bytes 4 (cc_required_observers c) ].

Section certificates.
Context `{Sha256} `{CustodyJson}.

(** The transcript of [RelianceSupportCertificateV1::compute_id]. *)
Definition certificate_parts (c : RelianceSupportCertificateV1) : list string :=
  [ sc_consumer c;
    ss_subject (sc_subject_scope c);
    ss_subject_incarnation (sc_subject_scope c);
    ss_scope (sc_subject_scope c);
    context_identity_digest (sc_context c);
    match sc_qualified_generation c with
    | None => "qualified-generation:none"
    | Some binding => binding_identity_digest binding
    end;
    be_bytes 8 (sc_evaluated_at_monotonic_ms c);
    sc_receiver_clock_id c;
    category_as_str (sc_judgment c);
    sc_evidence_window_id c;
    be_bytes 8 (default u64_max (sc_earliest_support_expiry_monotonic_ms c));
    be_bytes 8 (default u64_max (sc_next_scheduled_reevaluation_monotonic_ms c));
    escalation_transcript (sc_escalation c);
    "mutation-authority:none" ]
  ++ labelled "evidence" (sc_supporting_evidence_ids c)
  ++ labelled "remote-custody" (custody_identity_digest <$> sc_remote_observation_custody c)
  ++ labelled "missing" (sc_missing_premises c)
  ++ labelled "contradiction" (sc_applicable_contradictions c)
  ++ labelled "coverage-required" (cs_required (sc_coverage c))
  ++ labelled "coverage-active" (cs_active (sc_coverage c))
  ++ labelled "coverage-missing" (cs_missing (sc_coverage c))
  ++ labelled "coverage-expired" (cs_expired (sc_coverage c))
  ++ [ be_bytes 4 (cs_active_observers (sc_coverage c));
       be_bytes 4 (cs_required_observers (sc_coverage c)) ]
  ++ flat_map count_parts (cs_per_tag (sc_coverage c)).

(** [RelianceSupportCertificateV1::compute_id]. *)
Definition certificate_compute_id (c : RelianceSupportCertificateV1) : SupportCertificateId :=
  "support:" +:+ trim_start_matches "sha256:"
                   (digest_parts "reliance.support-certificate.v1" (certificate_parts c)).

(** The qualified binding names this subject, consumer and context. *)
Definition certificate_binding_validate (c : RelianceSupportCertificateV1)
  : result RuntimeTypeError unit :=
  match sc_qualified_generation c with
  | None => Ok tt
  | Some binding =>
      map_err (fun e => mkRuntimeTypeError (qe_code e) "invalid qualified binding")
        (binding_validate binding);;
      ensure (bool_decide (gs_subject (qb_generation_set binding) = ss_subject (sc_subject_scope c))
              && bool_decide (gs_consumer (qb_generation_set binding) = sc_consumer c)
              && matches_context (qb_generation_set binding) (sc_context c))
        (mkRuntimeTypeError "qualified_binding_mismatch"
           "qualified generation binding does not match the certificate context")
  end.

Definition certificate_custody_validate (c : RelianceSupportCertificateV1)
    (custody : RemoteObservationCustodyReferenceV1) : result RuntimeTypeError unit :=
  map_err (fun e => mkRuntimeTypeError (cte_code e) "invalid remote observation custody")
    (custody_validate custody);;
  ensure (bool_decide (roc_subject_scope custody = sc_subject_scope c)
          && bool_decide (roc_supporting_evidence_id custody ∈ sc_supporting_evidence_ids c))
    (mkRuntimeTypeError "remote_custody_mismatch"
       "remote custody does not identify supporting evidence for this subject").

(** What only a CURRENT certificate must, and must not, carry. *)
Definition certificate_support_validate (c : RelianceSupportCertificateV1)
  : result RuntimeTypeError unit :=
  if decide (sc_judgment c = CatCurrent) then
    ensure (negb (bool_decide (sc_qualified_generation c = None))
            && negb (bool_decide (sc_earliest_support_expiry_monotonic_ms c = None))
            && bool_decide (sc_next_scheduled_reevaluation_monotonic_ms c
                            = sc_earliest_support_expiry_monotonic_ms c)
            && negb match sc_earliest_support_expiry_monotonic_ms c with
                    | Some deadline => deadline <=? sc_evaluated_at_monotonic_ms c
                    | None => false
                    end
            && bool_decide (sc_missing_premises c = [])
            && bool_decide (sc_applicable_contradictions c = [])
            && bool_decide (cs_missing (sc_coverage c) = []))
      (mkRuntimeTypeError "invalid_current_support"
         "CURRENT certificate must bind qualified generation, complete premises, and a future exact support expiry")
  else
    ensure (bool_decide (sc_earliest_support_expiry_monotonic_ms c = None)
            && bool_decide (sc_next_scheduled_reevaluation_monotonic_ms c = None))
      (mkRuntimeTypeError "invalid_deadline"
         "non-current certificate cannot carry a positive support deadline").

(** [RelianceSupportCertificateV1::validate]. *)
Definition certificate_validate (c : RelianceSupportCertificateV1) : result RuntimeTypeError unit :=
  ensure (sc_schema_version c =? SCHEMA_VERSION_V1)
    (mkRuntimeTypeError "unsupported_schema" "support certificate schema is unsupported");;
  context_identity "SupportCertificateId" (sc_certificate_id c) "certificate_id";;
  context_identity "ConsumerId" (sc_consumer c) "consumer";;
  map_err (fun _ => rte_identity "subject_scope") (subject_scope_validate (sc_subject_scope c));;
  context_validate (sc_context c);;
  certificate_binding_validate c;;
  ensure (negb ((MAX_CERTIFICATE_EVIDENCE_REFS <? Z.of_nat (length (sc_supporting_evidence_ids c)))
                || (MAX_CERTIFICATE_EVIDENCE_REFS
                      <? Z.of_nat (length (sc_remote_observation_custody c)))
                || (MAX_CERTIFICATE_MISSING_PREMISES <? Z.of_nat (length (sc_missing_premises c)))
                || (MAX_CERTIFICATE_CONTRADICTIONS
                      <? Z.of_nat (length (sc_applicable_contradictions c)))))
    (mkRuntimeTypeError "bound_exceeded" "support certificate collection exceeds its v1 bound");;
  ensure (strictly_sorted (sc_supporting_evidence_ids c)
          && strictly_sorted (custody_identity_digest <$> sc_remote_observation_custody c)
          && strictly_sorted (sc_missing_premises c)
          && strictly_sorted (sc_applicable_contradictions c))
    (mkRuntimeTypeError "noncanonical_collection"
       "support certificate collections must be sorted and unique");;
  for_each (certificate_custody_validate c) (sc_remote_observation_custody c);;
  certificate_support_validate c;;
  ensure (bool_decide (sc_certificate_id c = certificate_compute_id c))
    (mkRuntimeTypeError "identity_mismatch"
       "support certificate identity does not match its transcript").

End certificates.

(* ------------------------------------------------------------------ *)
(** ** Refusals, contradiction custody, metrics and history *)

Inductive RuntimeRefusalClassV1 :=
| SubjectCapacity
| ConsumerCapacity
| ObserverCapacity
| ReceiverStreamCapacity
| IncarnationHistoryCapacity
| PendingQueueCapacity
| ScheduledDeadlineCapacity
| ContextHistoryCapacity
| EscalationCapacity
| CertificateCapacity
| SparseHistoryCapacity
| ReceiptHistoryCapacity
| ClockRegression
| InvalidBinding
| ReusedActivation
| HistoricalStateInvalid
| RuntimeBlind.

Definition refusal_class_debug (c : RuntimeRefusalClassV1) : string :=
  match c with
  | SubjectCapacity => "SubjectCapacity"
  | ConsumerCapacity => "ConsumerCapacity"
  | ObserverCapacity => "ObserverCapacity"
  | ReceiverStreamCapacity => "ReceiverStreamCapacity"
  | IncarnationHistoryCapacity => "IncarnationHistoryCapacity"
  | PendingQueueCapacity => "PendingQueueCapacity"
  | ScheduledDeadlineCapacity => "ScheduledDeadlineCapacity"
  | ContextHistoryCapacity => "ContextHistoryCapacity"
  | EscalationCapacity => "EscalationCapacity"
  | CertificateCapacity => "CertificateCapacity"
  | SparseHistoryCapacity => "SparseHistoryCapacity"
  | ReceiptHistoryCapacity => "ReceiptHistoryCapacity"
  | ClockRegression => "ClockRegression"
  | InvalidBinding => "InvalidBinding"
  | ReusedActivation => "ReusedActivation"
  | HistoricalStateInvalid => "HistoricalStateInvalid"
  | RuntimeBlind => "RuntimeBlind"
  end.

Record RuntimeRefusalV1 := mkRefusal {
  rf_schema_version : Z;
  rf_refusal_id : RuntimeRefusalId;
  rf_class : RuntimeRefusalClassV1;
  rf_at_monotonic_ms : Z;
  rf_subject : option SubjectId;
  rf_consumer : option ConsumerId;
  rf_configured_bound : Z;
  rf_observed_count : Z;
  rf_detail : string;
  rf_current_preserved : bool;
  rf_mutation_authority : MutationAuthorityV1;
}.

Inductive ContradictionApplicabilityV1 :=
| Applicable (subject_incarnation : IncarnationId) (blocks_reliance : bool)
| ApplicabilityReplaced (prior_subject_incarnation replacement_subject_incarnation : IncarnationId)
    (at_monotonic_ms : Z) (rule : string).

Record ContradictionCustodyV1 := mkContradictionCustody {
  cu_schema_version : Z;
  cu_consumer : ConsumerId;
  cu_contradiction : ContradictionRecordV1;
  cu_applicability : ContradictionApplicabilityV1;
}.

Record RuntimeMetricsV1 := mkRuntimeMetrics {
  rm_schema_version : Z;
  rm_expected_support_expiry_monotonic_ms : option Z;
  rm_actual_reevaluation_monotonic_ms : option Z;
  rm_maximum_stale_positive_duration_ms : Z;
  rm_policy_transition_withdrawal_latency_ms : Z;
  rm_scheduler_lateness_ms : Z;
  rm_queue_refusal_count : Z;
  rm_subject_refusal_count : Z;
  rm_observer_refusal_count : Z;
  rm_receiver_stream_refusal_count : Z;
  rm_deadline_refusal_count : Z;
  rm_context_refusal_count : Z;
  rm_sparse_history_refusal_count : Z;
  rm_duplicate_escalation_count : Z;
  rm_recovered_sparse_record_count : Z;
  rm_recovered_receipt_count : Z;
}.

(** [RuntimeMetricsV1::empty]. *)
Definition runtime_metrics_empty : RuntimeMetricsV1 :=
  mkRuntimeMetrics SCHEMA_VERSION_V1 None None 0 0 0 0 0 0 0 0 0 0 0 0 0.

(** [history_nonclaims]. *)
Definition history_nonclaims : list string :=
  [ "Historical records do not reconstruct current reliance.";
    "Restart does not recover hot pulse evidence or scheduled standing.";
    "Diagnostic receipts do not resolve contradictions or grant mutation authority." ].
