(* ===== verification/Event.v ===== *)
(** * Sparse durable events: [crates/pulse-types/src/event.rs]

    The closed event vocabulary of the evaluator and of the runtime, and the
    history record of [runtime.rs] that restarts carry over. *)

From S2P Require Import Prelude Ids Digest Judgment Context Qualification CustodyTypes Escalation.
From S2P Require Import Certificate.

Inductive SparseDurableEventKindV1 :=
| EvJudgmentTransition (transition : JudgmentTransitionV1)
| EvContradictionCreated (contradiction : ContradictionRecordV1)
| EvContradictionLifecycleChanged (contradiction : ContradictionRecordV1)
| EvAdverseObservationSuperseded (observer : ObserverId)
    (prior_evidence_ref superseding_evidence_ref : string)
    (adverse_signals : list string) (rule : string)
| EvEscalationRequested (request : DiagnosticEscalationRequestV1)
| EvEscalationDeduplicated (deduplication_key : DigestV1)
    (active_request_id : EscalationRequestId)
| EvEscalationDisposition (disposition : EscalationDispositionV1)
| EvDiagnosticReceiptCorrelated (receipt : MockDiagnosticReceiptV1)
    (evidence_reference : DiagnosticEvidenceReferenceV1)
| EvMonitorCapabilityChanged (state detail : string)
| EvRelianceContextTransition (transition : RelianceContextTransitionV1)
| EvSupportCertificateIssued (certificate : RelianceSupportCertificateV1)
| EvRuntimeRefusal (refusal : RuntimeRefusalV1)
| EvSchedulerReevaluated (consumer : ConsumerId) (activation_id : ContextActivationId)
    (expected_deadline_monotonic_ms actual_reevaluation_monotonic_ms
     stale_positive_overshoot_ms : Z)
| EvRuntimeRestarted (receiver_incarnation : IncarnationId) (clock_id : ClockId)
    (recovered_sparse_records recovered_receipts : Z) (standing_recovered : bool)
| EvContradictionApplicabilityChanged (custody : ContradictionCustodyV1)
| EvQualifiedGenerationBindingChanged (receipt : ActivationReceiptV1)
| EvQualifiedGenerationLifecycleApplied (consumer : ConsumerId)
    (fact : GenerationLifecycleFactV1) (state : RuntimeBindingStateV1) (standing_preserved : bool)
| EvQualifiedGenerationBindingInvalidated (consumer : ConsumerId)
    (prior_activation_receipt_digest : DigestV1) (state : RuntimeBindingStateV1)
    (detail : string) (standing_preserved : bool)
| EvReceiverBoundaryAcceptanceRecorded (receipt : ReceiverAcceptanceReceiptV1)
| EvReceiverBoundaryCustodyChanged (state : TransportCustodyFindingV1)
    (session_binding_digest : option DigestV1) (detail : string)
| EvMetricsSnapshot (metrics : ExperimentalMetricsV1).

Record SparseDurableEventV1 := mkEvent {
  se_schema_version : Z;
  se_event_id : SparseEventId;
  se_at_monotonic_ms : Z;
  se_event : SparseDurableEventKindV1;
}.

(** [SparseDurableEventV1::is_v1]. *)
Definition event_is_v1 (e : SparseDurableEventV1) : bool :=
  se_schema_version e =? SCHEMA_VERSION_V1.

Record RuntimeHistoricalStateV1 := mkHistory {
  hs_schema_version : Z;
  hs_sparse_events : list SparseDurableEventV1;
  hs_contradictions : list ContradictionCustodyV1;
  hs_diagnostic_receipts : list MockDiagnosticReceiptV1;
  hs_nonclaims : list string;
}.

(** [RuntimeHistoricalStateV1::empty]. *)
Definition history_empty : RuntimeHistoricalStateV1 :=
  mkHistory SCHEMA_VERSION_V1 [] [] [] history_nonclaims.

(** [RuntimeHistoricalStateV1::validate]. *)
Definition history_validate (h : RuntimeHistoricalStateV1) : result RuntimeTypeError unit :=
  ensure (hs_schema_version h =? SCHEMA_VERSION_V1)
    (mkRuntimeTypeError "unsupported_schema" "historical state schema is unsupported");;
  ensure (bool_decide (hs_nonclaims h = history_nonclaims))
    (mkRuntimeTypeError "nonclaim_mismatch" "historical state nonclaims are not the fixed v1 set").
