(* ===== verification/Policy.v ===== *)
(** * Reliance policy: [crates/pulse-evaluator/src/policy.rs] *)

From S2P Require Import Prelude Ids Digest Pulse Judgment Escalation Event.

(** [triggers] is a [BTreeSet]: only membership and the declaration order of
    its elements are observable. *)
Record EscalationPolicyV1 := mkEscalationPolicy {
  ep_triggers : list EscalationTriggerClassV1;
  ep_diagnostic_profile : DiagnosticProfileIdV1;
  ep_bounds : DiagnosticBoundsV1;
  ep_request_ttl_ms : Z;
}.

Record ReliancePolicyV1 := mkPolicy {
  rl_schema_version : Z;
  rl_subject : SubjectId;
  rl_scope : string;
  rl_consumer : ConsumerId;
  rl_generation : PolicyGenerationId;
  rl_observation_policy_generation : ObservationPolicyGenerationId;
  rl_observation_profile : ObservationProfileIdV1;
  rl_required_coverage : list string;
  rl_minimum_observers : Z;
  rl_maximum_validity_ms : Z;
  rl_require_verified_authentication : bool;
  rl_coherence_tolerances : gmap string Z;
  rl_observer_failure_domains : gmap string string;
  rl_escalation : option EscalationPolicyV1;
}.

Definition policy_identity (kind value detail : string) : result string unit :=
  map_err (fun _ => detail) (validate_identity kind value).

(** [ReliancePolicyV1::validate]; the error is the message of [PolicyError]. *)
Definition policy_validate (p : ReliancePolicyV1) : result string unit :=
  ensure (rl_schema_version p =? SCHEMA_VERSION_V1) "unsupported policy schema";;
  policy_identity "SubjectId" (rl_subject p) "invalid subject identity";;
  policy_identity "ConsumerId" (rl_consumer p) "invalid consumer identity";;
  policy_identity "PolicyGenerationId" (rl_generation p) "invalid policy generation";;
  policy_identity "ObservationPolicyGenerationId" (rl_observation_policy_generation p)
    "invalid observation policy generation";;
  map_err (fun _ => "invalid observation profile") (profile_validate (rl_observation_profile p));;
  ensure (negb (slen (rl_scope p) =? 0)) "scope is empty";;
  ensure (negb (rl_minimum_observers p =? 0)) "minimum observers must be nonzero";;
  ensure (negb (rl_maximum_validity_ms p =? 0)) "maximum validity must be nonzero";;
  ensure (negb (bool_decide (rl_required_coverage p = []))) "required coverage is empty";;
  ensure (strictly_sorted (rl_required_coverage p)) "required coverage must be unique and sorted";;
  ensure (forallb (fun v => f64_is_finite v && negb (f64_is_negative_number v))
            (bt_values (rl_coherence_tolerances p)))
    "coherence tolerances must be finite and non-negative";;
  match rl_escalation p with
  | Some e =>
      ensure (negb (bool_decide (ep_triggers e = [])
                    || negb (bounds_is_nonzero (ep_bounds e))
                    || (ep_request_ttl_ms e =? 0)))
        "escalation policy is incomplete"
  | None => Ok tt
  end.

(** [escalation.triggers.contains(&trigger)]. *)
Definition triggers_contain (e : EscalationPolicyV1) (t : EscalationTriggerClassV1) : bool :=
  bool_decide (t ∈ ep_triggers e).

Definition escalation_parts (e : EscalationPolicyV1) : list string :=
  ["escalation"]
  ++ (trigger_as_str <$> filter (fun t => t ∈ ep_triggers e) all_triggers)
  ++ [ dp_name (ep_diagnostic_profile e);
       be_bytes 2 (dp_version (ep_diagnostic_profile e));
       dp_semantic_digest (ep_diagnostic_profile e);
       be_bytes 8 (db_maximum_runtime_ms (ep_bounds e));
       be_bytes 8 (db_maximum_output_bytes (ep_bounds e));
       be_bytes 4 (db_maximum_observations (ep_bounds e));
       be_bytes 8 (ep_request_ttl_ms e) ].

(** [ReliancePolicyV1::semantic_digest]: the policy body without its
    generation. *)
Definition policy_semantic_digest `{Sha256} (p : ReliancePolicyV1) : DigestV1 :=
  digest_parts "reliance.policy.body.v1"
    ([ be_bytes 2 (rl_schema_version p);
       rl_subject p;
       rl_scope p;
       rl_consumer p;
       rl_observation_policy_generation p;
       op_name (rl_observation_profile p);
       be_bytes 2 (op_version (rl_observation_profile p));
       op_semantic_digest (rl_observation_profile p);
       be_bytes 4 (rl_minimum_observers p);
       be_bytes 8 (rl_maximum_validity_ms p);
       be_bytes 1 (if rl_require_verified_authentication p then 1 else 0) ]
     ++ tag_parts "coverage" (rl_required_coverage p)
     ++ flat_map (fun '(signal, tolerance) => ["coherence"; signal; be_bytes 8 tolerance])
          (bt_entries (rl_coherence_tolerances p))
     ++ flat_map (fun '(observer, domain) => ["failure-domain"; observer; domain])
          (bt_entries (rl_observer_failure_domains p))
     ++ match rl_escalation p with Some e => escalation_parts e | None => [] end).

(* ------------------------------------------------------------------ *)
(** ** Facts of a valid policy *)

Lemma policy_validate_coverage p :
  policy_validate p = Ok tt → rl_required_coverage p ≠ [].
Proof.
  unfold policy_validate. intros H. inv_oks. split_and_bool.
  by match goal with E : bool_decide (_ = []) = false |- _ => apply bool_decide_eq_false in E end.
Qed.

Lemma policy_validate_minimum p : policy_validate p = Ok tt → rl_minimum_observers p ≠ 0.
Proof. unfold policy_validate. intros H. inv_oks. split_and_bool. lia. Qed.
