(* ===== verification/Receiver.v ===== *)
(** * The receiver-side annotator: [crates/pulse-evaluator/src/receiver.rs]

    [ReceiverTracker] classifies every arriving frame against the stream it
    belongs to and against the current incarnation of its subject. *)

From S2P Require Import Prelude Ids Digest Pulse Samples.

Record ReceiverStreamKey := mkStreamKey {
  sk_subject : SubjectId;
  sk_observer : ObserverId;
  sk_profile : ObservationProfileIdV1;
  sk_observation_policy_generation : ObservationPolicyGenerationId;
}.

#[global] Instance ReceiverStreamKey_eq_dec : EqDecision ReceiverStreamKey.
Proof. solve_decision. Defined.

#[global] Instance ObservationProfileIdV1_countable : Countable ObservationProfileIdV1.
Proof.
  refine (inj_countable' (fun p => (op_name p, op_version p, op_semantic_digest p))
            (fun '(n, v, d) => mkObservationProfile n v d) _).
  by intros [].
Defined.

#[global] Instance ReceiverStreamKey_countable : Countable ReceiverStreamKey.
Proof.
  refine (inj_countable'
            (fun k => (sk_subject k, sk_observer k, sk_profile k,
                       sk_observation_policy_generation k))
            (fun '(s, o, p, g) => mkStreamKey s o p g) _).
  by intros [].
Defined.

Record ReceiverStream := mkStream { st_incarnation : IncarnationId; st_sequence : Z }.

Record ReceiverTracker := mkTracker {
  rt_receiver : ReceiverId;
  rt_receiver_incarnation : IncarnationId;
  rt_clock_id : ClockId;
  rt_streams : gmap ReceiverStreamKey ReceiverStream;
  rt_retired : gset (ReceiverStreamKey * string);
  rt_subject_incarnations : gmap string string;
  rt_retired_subject_incarnations : gset (string * string);
}.

(** [ReceiverTracker::new]. *)
Definition tracker_new (receiver receiver_incarnation clock_id : string) : ReceiverTracker :=
  mkTracker receiver receiver_incarnation clock_id ∅ ∅ ∅ ∅.

Definition stream_key (f : PulseFrameV1) : ReceiverStreamKey :=
  mkStreamKey (pf_subject f) (pf_observer f) (pf_profile f) (pf_observation_policy_generation f).

(** The annotation [annotate] returns, for a disposition. *)
Definition tracker_annotation (t : ReceiverTracker) (arrival : Z) (path : string)
    (delay : option Z) (authentication : AuthenticationResultV1)
    (disposition : ArrivalDispositionV1) (gap : option SequenceGapV1) : ReceiverAnnotationV1 :=
  {| ra_schema_version := SCHEMA_VERSION_V1;
     ra_receiver := rt_receiver t;
     ra_receiver_incarnation := rt_receiver_incarnation t;
     ra_clock_id := rt_clock_id t;
     ra_arrival_monotonic_ms := arrival;
     ra_disposition := disposition;
     ra_sequence_gap := gap;
     ra_transport_path := path;
     ra_transport_observed_delay_ms := delay;
     ra_authentication := authentication |}.

(** [transport_observed_delay_ms.is_some_and(|delay| delay >= validity)]. *)
Definition delay_reaches (delay : option Z) (validity : Z) : bool :=
  match delay with Some d => validity <=? d | None => false end.

(** The subject-incarnation bookkeeping of [annotate]: a disagreeing frame
    retires the prior incarnation and installs its own. *)
Definition note_subject_incarnation (t : ReceiverTracker) (f : PulseFrameV1) : ReceiverTracker :=
  let with_subjects current retired :=
    mkTracker (rt_receiver t) (rt_receiver_incarnation t) (rt_clock_id t)
      (rt_streams t) (rt_retired t) current retired in
  match rt_subject_incarnations t !! pf_subject f with
  | Some prior =>
      if decide (prior = pf_subject_incarnation f) then t
      else with_subjects
             (<[pf_subject f := pf_subject_incarnation f]> (rt_subject_incarnations t))
             ({[(pf_subject f, prior)]} ∪ rt_retired_subject_incarnations t)
  | None =>
      with_subjects
        (<[pf_subject f := pf_subject_incarnation f]> (rt_subject_incarnations t))
        (rt_retired_subject_incarnations t)
  end.

Definition set_streams (t : ReceiverTracker) (streams : gmap ReceiverStreamKey ReceiverStream)
    (retired : gset (ReceiverStreamKey * string)) : ReceiverTracker :=
  mkTracker (rt_receiver t) (rt_receiver_incarnation t) (rt_clock_id t)
    streams retired (rt_subject_incarnations t) (rt_retired_subject_incarnations t).

(** The stream classification of [annotate], with its updates. *)
Definition classify_stream (t : ReceiverTracker) (f : PulseFrameV1)
  : ReceiverTracker * (ArrivalDispositionV1 * option SequenceGapV1) :=
  let key := stream_key f in
  let advance inc retired :=
    set_streams t (<[key := mkStream inc (pf_sequence f)]> (rt_streams t)) retired in
  match rt_streams t !! key with
  | Some stream =>
      if decide (st_incarnation stream = pf_observer_incarnation f) then
        if pf_sequence f =? st_sequence stream then (t, (Duplicate, None))
        else if pf_sequence f <? st_sequence stream then (t, (Replay, None))
        else if pf_sequence f =? sat_add (st_sequence stream) 1 then
          (advance (st_incarnation stream) (rt_retired t), (Continuous, None))
        else
          let expected_next := sat_add (st_sequence stream) 1 in
          (advance (st_incarnation stream) (rt_retired t),
           (Gap, Some (mkGap expected_next (pf_sequence f) (pf_sequence f - expected_next))))
      else if decide ((key, pf_observer_incarnation f) ∈ rt_retired t) then (t, (Replay, None))
      else
        (advance (pf_observer_incarnation f) ({[(key, st_incarnation stream)]} ∪ rt_retired t),
         (Restarted, None))
  | None => (advance (pf_observer_incarnation f) (rt_retired t), (First, None))
  end.

(** [ReceiverTracker::annotate]. *)
Definition annotate `{Sha256} (t : ReceiverTracker) (f : PulseFrameV1) (arrival : Z)
    (path : string) (delay : option Z) (authentication : AuthenticationResultV1)
  : ReceiverTracker * result PulseError ReceiverAnnotationV1 :=
  match frame_validate f with
  | Err e => (t, Err e)
  | Ok _ =>
      if delay_reaches delay (pf_validity_ms f) then
        (t, Ok (tracker_annotation t arrival path delay authentication Stale None))
      else if decide ((pf_subject f, pf_subject_incarnation f)
                        ∈ rt_retired_subject_incarnations t) then
        (t, Ok (tracker_annotation t arrival path delay authentication Replay None))
      else
        let '(t', (disposition, gap)) := classify_stream (note_subject_incarnation t f) f in
        (t', Ok (tracker_annotation t arrival path delay authentication disposition gap))
  end.

(** [ReceiverTracker::activate_subject_incarnation]: install a configured
    replacement and retire every stream lineage of the subject. *)
Definition activate_subject_incarnation (t : ReceiverTracker) (subject replacement : string)
  : ReceiverTracker * result PulseError unit :=
  match identity_field "subject" "SubjectId" subject;;
        identity_field "subject_incarnation" "IncarnationId" replacement with
  | Err e => (t, Err e)
  | Ok _ =>
      let retired_subjects :=
        match rt_subject_incarnations t !! subject with
        | Some prior => {[(subject, prior)]} ∪ rt_retired_subject_incarnations t
        | None => rt_retired_subject_incarnations t
        end in
      let retiring := filter (fun '(key, _) => sk_subject key = subject) (rt_streams t) in
      (mkTracker (rt_receiver t) (rt_receiver_incarnation t) (rt_clock_id t)
         (filter (fun '(key, _) => sk_subject key ≠ subject) (rt_streams t))
         (rt_retired t ∪ map_to_set (fun key stream => (key, st_incarnation stream)) retiring)
         (<[subject := replacement]> (rt_subject_incarnations t))
         retired_subjects,
       Ok tt)
  end.

