(* ===== verification/EvaluatorState.v ===== *)
(** * The evaluator's state: [crates/pulse-evaluator/src/evaluator.rs]

    The [Evaluator] struct, the records it stores, its error type and one
    assignment per field. *)

From S2P Require Import Prelude Ids Digest Pulse Judgment Escalation Event Policy.

Inductive MonitorCapabilityV1 :=
| Operational
| Degraded (detail : string)
| Blind (detail : string).

Inductive ReevaluationBarrierV1 :=
| GenerationTransition (detail : string)
| QualifiedGenerationBinding (detail : string)
| SubjectIncarnationTransition (detail : string)
| ReceiverRestart (detail : string)
| MonitorCapabilityRestored (detail : string).

#[global] Instance ReevaluationBarrierV1_eq_dec : EqDecision ReevaluationBarrierV1.
Proof. solve_decision. Defined.

Definition barrier_code (b : ReevaluationBarrierV1) : string :=
  match b with
  | GenerationTransition _ => "generation_transition_requires_reevaluation"
  | QualifiedGenerationBinding _ => "qualified_generation_binding_requires_reevaluation"
  | SubjectIncarnationTransition _ => "subject_incarnation_transition_requires_reevaluation"
  | ReceiverRestart _ => "receiver_restart_requires_reevaluation"
  | MonitorCapabilityRestored _ => "monitor_capability_restored_requires_reevaluation"
  end.

Definition barrier_detail (b : ReevaluationBarrierV1) : string :=
  match b with
  | GenerationTransition d | QualifiedGenerationBinding d | SubjectIncarnationTransition d
  | ReceiverRestart d | MonitorCapabilityRestored d => d
  end.

Record ObserverEvidence := mkEvidence {
  oe_received : ReceivedPulseV1;
  oe_expires_at_ms : Z;
  oe_continuity : SequenceContinuityDimensionV1;
}.

Record ObserverLineage := mkLineage { ol_incarnation : IncarnationId; ol_sequence : Z }.

Record ActiveEscalation := mkActiveEscalation
  { ae_request_id : EscalationRequestId; ae_expires_at_ms : Z }.

Record EvaluationOutput := mkOutput {
  eo_judgment : PresentStateJudgmentV1;
  eo_transition : option JudgmentTransitionV1;
  eo_escalation_request : option DiagnosticEscalationRequestV1;
  eo_sparse_events : list SparseDurableEventV1;
}.

Record ContradictionResolutionV1 := mkResolution
  { cres_resolver : string; cres_rule : string; cres_explanation : string }.

Record EvaluatorError := mkEvaluatorError { eve_code : string; eve_detail : string }.

(** [EvaluatorError::from_policy]. *)
Definition from_policy (error : string) : EvaluatorError := mkEvaluatorError "invalid_policy" error.

Record Evaluator := mkEvaluator {
  ev_policy : ReliancePolicyV1;
  ev_receiver : ReceiverId;
  ev_receiver_incarnation : IncarnationId;
  ev_clock_id : ClockId;
  ev_current_subject_incarnation : IncarnationId;
  ev_retired_subject_incarnations : gset string;
  ev_observer_lineages : gmap string ObserverLineage;
  ev_retired_observer_incarnations : gset (string * string);
  ev_observers : gmap string ObserverEvidence;
  ev_contradictions : gmap string ContradictionRecordV1;
  ev_diagnostic_evidence : list DiagnosticEvidenceReferenceV1;
  ev_issued_requests : gmap string DiagnosticEscalationRequestV1;
  ev_active_escalations : gmap string ActiveEscalation;
  ev_monitor_capability : MonitorCapabilityV1;
  ev_escalation_state : EscalationStateV1;
  ev_reevaluation_barrier : option ReevaluationBarrierV1;
  ev_last_judgment : option PresentStateJudgmentV1;
  ev_last_positive_support_deadline_ms : option Z;
  ev_last_receiver_arrival_ms : option Z;
  ev_last_evaluation_ms : option Z;
  ev_transition_counter : Z;
  ev_request_counter : Z;
  ev_event_counter : Z;
  ev_metrics : ExperimentalMetricsV1;
  ev_fault_started_at_ms : option Z;
  ev_normal_trace : bool;
  ev_event_log : list SparseDurableEventV1;
}.

(** Assignments [self.field = value]. *)
Definition set_ev_policy (e : Evaluator) (value : ReliancePolicyV1) : Evaluator :=
  mkEvaluator value (ev_receiver e) (ev_receiver_incarnation e) (ev_clock_id e)
    (ev_current_subject_incarnation e) (ev_retired_subject_incarnations e)
    (ev_observer_lineages e) (ev_retired_observer_incarnations e) (ev_observers e)
    (ev_contradictions e) (ev_diagnostic_evidence e) (ev_issued_requests e)
    (ev_active_escalations e) (ev_monitor_capability e) (ev_escalation_state e)
    (ev_reevaluation_barrier e) (ev_last_judgment e) (ev_last_positive_support_deadline_ms e)
    (ev_last_receiver_arrival_ms e) (ev_last_evaluation_ms e) (ev_transition_counter e)
    (ev_request_counter e) (ev_event_counter e) (ev_metrics e) (ev_fault_started_at_ms e)
    (ev_normal_trace e) (ev_event_log e).
Definition set_ev_current_subject_incarnation (e : Evaluator) (value : IncarnationId) : Evaluator :=
  mkEvaluator (ev_policy e) (ev_receiver e) (ev_receiver_incarnation e) (ev_clock_id e) value
    (ev_retired_subject_incarnations e) (ev_observer_lineages e)
    (ev_retired_observer_incarnations e) (ev_observers e) (ev_contradictions e)
    (ev_diagnostic_evidence e) (ev_issued_requests e) (ev_active_escalations e)
    (ev_monitor_capability e) (ev_escalation_state e) (ev_reevaluation_barrier e)
    (ev_last_judgment e) (ev_last_positive_support_deadline_ms e) (ev_last_receiver_arrival_ms
    e) (ev_last_evaluation_ms e) (ev_transition_counter e) (ev_request_counter e)
    (ev_event_counter e) (ev_metrics e) (ev_fault_started_at_ms e) (ev_normal_trace e)
    (ev_event_log e).
Definition set_ev_retired_subject_incarnations (e : Evaluator) (value : gset string) : Evaluator :=
  mkEvaluator (ev_policy e) (ev_receiver e) (ev_receiver_incarnation e) (ev_clock_id e)
    (ev_current_subject_incarnation e) value (ev_observer_lineages e)
    (ev_retired_observer_incarnations e) (ev_observers e) (ev_contradictions e)
    (ev_diagnostic_evidence e) (ev_issued_requests e) (ev_active_escalations e)
    (ev_monitor_capability e) (ev_escalation_state e) (ev_reevaluation_barrier e)
    (ev_last_judgment e) (ev_last_positive_support_deadline_ms e) (ev_last_receiver_arrival_ms
    e) (ev_last_evaluation_ms e) (ev_transition_counter e) (ev_request_counter e)
    (ev_event_counter e) (ev_metrics e) (ev_fault_started_at_ms e) (ev_normal_trace e)
    (ev_event_log e).
Definition set_ev_observer_lineages (e : Evaluator) (value : gmap string ObserverLineage) : Evaluator :=
  mkEvaluator (ev_policy e) (ev_receiver e) (ev_receiver_incarnation e) (ev_clock_id e)
    (ev_current_subject_incarnation e) (ev_retired_subject_incarnations e) value
    (ev_retired_observer_incarnations e) (ev_observers e) (ev_contradictions e)
    (ev_diagnostic_evidence e) (ev_issued_requests e) (ev_active_escalations e)
    (ev_monitor_capability e) (ev_escalation_state e) (ev_reevaluation_barrier e)
    (ev_last_judgment e) (ev_last_positive_support_deadline_ms e) (ev_last_receiver_arrival_ms
    e) (ev_last_evaluation_ms e) (ev_transition_counter e) (ev_request_counter e)
    (ev_event_counter e) (ev_metrics e) (ev_fault_started_at_ms e) (ev_normal_trace e)
    (ev_event_log e).
Definition set_ev_retired_observer_incarnations (e : Evaluator) (value : gset (string * string)) : Evaluator :=
  mkEvaluator (ev_policy e) (ev_receiver e) (ev_receiver_incarnation e) (ev_clock_id e)
    (ev_current_subject_incarnation e) (ev_retired_subject_incarnations e)
    (ev_observer_lineages e) value (ev_observers e) (ev_contradictions e)
    (ev_diagnostic_evidence e) (ev_issued_requests e) (ev_active_escalations e)
    (ev_monitor_capability e) (ev_escalation_state e) (ev_reevaluation_barrier e)
    (ev_last_judgment e) (ev_last_positive_support_deadline_ms e) (ev_last_receiver_arrival_ms
    e) (ev_last_evaluation_ms e) (ev_transition_counter e) (ev_request_counter e)
    (ev_event_counter e) (ev_metrics e) (ev_fault_started_at_ms e) (ev_normal_trace e)
    (ev_event_log e).
Definition set_ev_observers (e : Evaluator) (value : gmap string ObserverEvidence) : Evaluator :=
  mkEvaluator (ev_policy e) (ev_receiver e) (ev_receiver_incarnation e) (ev_clock_id e)
    (ev_current_subject_incarnation e) (ev_retired_subject_incarnations e)
    (ev_observer_lineages e) (ev_retired_observer_incarnations e) value (ev_contradictions e)
    (ev_diagnostic_evidence e) (ev_issued_requests e) (ev_active_escalations e)
    (ev_monitor_capability e) (ev_escalation_state e) (ev_reevaluation_barrier e)
    (ev_last_judgment e) (ev_last_positive_support_deadline_ms e) (ev_last_receiver_arrival_ms
    e) (ev_last_evaluation_ms e) (ev_transition_counter e) (ev_request_counter e)
    (ev_event_counter e) (ev_metrics e) (ev_fault_started_at_ms e) (ev_normal_trace e)
    (ev_event_log e).
Definition set_ev_contradictions (e : Evaluator) (value : gmap string ContradictionRecordV1) : Evaluator :=
  mkEvaluator (ev_policy e) (ev_receiver e) (ev_receiver_incarnation e) (ev_clock_id e)
    (ev_current_subject_incarnation e) (ev_retired_subject_incarnations e)
    (ev_observer_lineages e) (ev_retired_observer_incarnations e) (ev_observers e) value
    (ev_diagnostic_evidence e) (ev_issued_requests e) (ev_active_escalations e)
    (ev_monitor_capability e) (ev_escalation_state e) (ev_reevaluation_barrier e)
    (ev_last_judgment e) (ev_last_positive_support_deadline_ms e) (ev_last_receiver_arrival_ms
    e) (ev_last_evaluation_ms e) (ev_transition_counter e) (ev_request_counter e)
    (ev_event_counter e) (ev_metrics e) (ev_fault_started_at_ms e) (ev_normal_trace e)
    (ev_event_log e).
Definition set_ev_diagnostic_evidence (e : Evaluator) (value : list DiagnosticEvidenceReferenceV1) : Evaluator :=
  mkEvaluator (ev_policy e) (ev_receiver e) (ev_receiver_incarnation e) (ev_clock_id e)
    (ev_current_subject_incarnation e) (ev_retired_subject_incarnations e)
    (ev_observer_lineages e) (ev_retired_observer_incarnations e) (ev_observers e)
    (ev_contradictions e) value (ev_issued_requests e) (ev_active_escalations e)
    (ev_monitor_capability e) (ev_escalation_state e) (ev_reevaluation_barrier e)
    (ev_last_judgment e) (ev_last_positive_support_deadline_ms e) (ev_last_receiver_arrival_ms
    e) (ev_last_evaluation_ms e) (ev_transition_counter e) (ev_request_counter e)
    (ev_event_counter e) (ev_metrics e) (ev_fault_started_at_ms e) (ev_normal_trace e)
    (ev_event_log e).
Definition set_ev_issued_requests (e : Evaluator) (value : gmap string DiagnosticEscalationRequestV1) : Evaluator :=
  mkEvaluator (ev_policy e) (ev_receiver e) (ev_receiver_incarnation e) (ev_clock_id e)
    (ev_current_subject_incarnation e) (ev_retired_subject_incarnations e)
    (ev_observer_lineages e) (ev_retired_observer_incarnations e) (ev_observers e)
    (ev_contradictions e) (ev_diagnostic_evidence e) value (ev_active_escalations e)
    (ev_monitor_capability e) (ev_escalation_state e) (ev_reevaluation_barrier e)
    (ev_last_judgment e) (ev_last_positive_support_deadline_ms e) (ev_last_receiver_arrival_ms
    e) (ev_last_evaluation_ms e) (ev_transition_counter e) (ev_request_counter e)
    (ev_event_counter e) (ev_metrics e) (ev_fault_started_at_ms e) (ev_normal_trace e)
    (ev_event_log e).
Definition set_ev_active_escalations (e : Evaluator) (value : gmap string ActiveEscalation) : Evaluator :=
  mkEvaluator (ev_policy e) (ev_receiver e) (ev_receiver_incarnation e) (ev_clock_id e)
    (ev_current_subject_incarnation e) (ev_retired_subject_incarnations e)
    (ev_observer_lineages e) (ev_retired_observer_incarnations e) (ev_observers e)
    (ev_contradictions e) (ev_diagnostic_evidence e) (ev_issued_requests e) value
    (ev_monitor_capability e) (ev_escalation_state e) (ev_reevaluation_barrier e)
    (ev_last_judgment e) (ev_last_positive_support_deadline_ms e) (ev_last_receiver_arrival_ms
    e) (ev_last_evaluation_ms e) (ev_transition_counter e) (ev_request_counter e)
    (ev_event_counter e) (ev_metrics e) (ev_fault_started_at_ms e) (ev_normal_trace e)
    (ev_event_log e).
Definition set_ev_monitor_capability (e : Evaluator) (value : MonitorCapabilityV1) : Evaluator :=
  mkEvaluator (ev_policy e) (ev_receiver e) (ev_receiver_incarnation e) (ev_clock_id e)
    (ev_current_subject_incarnation e) (ev_retired_subject_incarnations e)
    (ev_observer_lineages e) (ev_retired_observer_incarnations e) (ev_observers e)
    (ev_contradictions e) (ev_diagnostic_evidence e) (ev_issued_requests e)
    (ev_active_escalations e) value (ev_escalation_state e) (ev_reevaluation_barrier e)
    (ev_last_judgment e) (ev_last_positive_support_deadline_ms e) (ev_last_receiver_arrival_ms
    e) (ev_last_evaluation_ms e) (ev_transition_counter e) (ev_request_counter e)
    (ev_event_counter e) (ev_metrics e) (ev_fault_started_at_ms e) (ev_normal_trace e)
    (ev_event_log e).
Definition set_ev_escalation_state (e : Evaluator) (value : EscalationStateV1) : Evaluator :=
  mkEvaluator (ev_policy e) (ev_receiver e) (ev_receiver_incarnation e) (ev_clock_id e)
    (ev_current_subject_incarnation e) (ev_retired_subject_incarnations e)
    (ev_observer_lineages e) (ev_retired_observer_incarnations e) (ev_observers e)
    (ev_contradictions e) (ev_diagnostic_evidence e) (ev_issued_requests e)
    (ev_active_escalations e) (ev_monitor_capability e) value (ev_reevaluation_barrier e)
    (ev_last_judgment e) (ev_last_positive_support_deadline_ms e) (ev_last_receiver_arrival_ms
    e) (ev_last_evaluation_ms e) (ev_transition_counter e) (ev_request_counter e)
    (ev_event_counter e) (ev_metrics e) (ev_fault_started_at_ms e) (ev_normal_trace e)
    (ev_event_log e).
Definition set_ev_reevaluation_barrier (e : Evaluator) (value : option ReevaluationBarrierV1) : Evaluator :=
  mkEvaluator (ev_policy e) (ev_receiver e) (ev_receiver_incarnation e) (ev_clock_id e)
    (ev_current_subject_incarnation e) (ev_retired_subject_incarnations e)
    (ev_observer_lineages e) (ev_retired_observer_incarnations e) (ev_observers e)
    (ev_contradictions e) (ev_diagnostic_evidence e) (ev_issued_requests e)
    (ev_active_escalations e) (ev_monitor_capability e) (ev_escalation_state e) value
    (ev_last_judgment e) (ev_last_positive_support_deadline_ms e) (ev_last_receiver_arrival_ms
    e) (ev_last_evaluation_ms e) (ev_transition_counter e) (ev_request_counter e)
    (ev_event_counter e) (ev_metrics e) (ev_fault_started_at_ms e) (ev_normal_trace e)
    (ev_event_log e).
Definition set_ev_last_judgment (e : Evaluator) (value : option PresentStateJudgmentV1) : Evaluator :=
  mkEvaluator (ev_policy e) (ev_receiver e) (ev_receiver_incarnation e) (ev_clock_id e)
    (ev_current_subject_incarnation e) (ev_retired_subject_incarnations e)
    (ev_observer_lineages e) (ev_retired_observer_incarnations e) (ev_observers e)
    (ev_contradictions e) (ev_diagnostic_evidence e) (ev_issued_requests e)
    (ev_active_escalations e) (ev_monitor_capability e) (ev_escalation_state e)
    (ev_reevaluation_barrier e) value (ev_last_positive_support_deadline_ms e)
    (ev_last_receiver_arrival_ms e) (ev_last_evaluation_ms e) (ev_transition_counter e)
    (ev_request_counter e) (ev_event_counter e) (ev_metrics e) (ev_fault_started_at_ms e)
    (ev_normal_trace e) (ev_event_log e).
Definition set_ev_last_positive_support_deadline_ms (e : Evaluator) (value : option Z) : Evaluator :=
  mkEvaluator (ev_policy e) (ev_receiver e) (ev_receiver_incarnation e) (ev_clock_id e)
    (ev_current_subject_incarnation e) (ev_retired_subject_incarnations e)
    (ev_observer_lineages e) (ev_retired_observer_incarnations e) (ev_observers e)
    (ev_contradictions e) (ev_diagnostic_evidence e) (ev_issued_requests e)
    (ev_active_escalations e) (ev_monitor_capability e) (ev_escalation_state e)
    (ev_reevaluation_barrier e) (ev_last_judgment e) value (ev_last_receiver_arrival_ms e)
    (ev_last_evaluation_ms e) (ev_transition_counter e) (ev_request_counter e)
    (ev_event_counter e) (ev_metrics e) (ev_fault_started_at_ms e) (ev_normal_trace e)
    (ev_event_log e).
Definition set_ev_last_receiver_arrival_ms (e : Evaluator) (value : option Z) : Evaluator :=
  mkEvaluator (ev_policy e) (ev_receiver e) (ev_receiver_incarnation e) (ev_clock_id e)
    (ev_current_subject_incarnation e) (ev_retired_subject_incarnations e)
    (ev_observer_lineages e) (ev_retired_observer_incarnations e) (ev_observers e)
    (ev_contradictions e) (ev_diagnostic_evidence e) (ev_issued_requests e)
    (ev_active_escalations e) (ev_monitor_capability e) (ev_escalation_state e)
    (ev_reevaluation_barrier e) (ev_last_judgment e) (ev_last_positive_support_deadline_ms e)
    value (ev_last_evaluation_ms e) (ev_transition_counter e) (ev_request_counter e)
    (ev_event_counter e) (ev_metrics e) (ev_fault_started_at_ms e) (ev_normal_trace e)
    (ev_event_log e).
Definition set_ev_last_evaluation_ms (e : Evaluator) (value : option Z) : Evaluator :=
  mkEvaluator (ev_policy e) (ev_receiver e) (ev_receiver_incarnation e) (ev_clock_id e)
    (ev_current_subject_incarnation e) (ev_retired_subject_incarnations e)
    (ev_observer_lineages e) (ev_retired_observer_incarnations e) (ev_observers e)
    (ev_contradictions e) (ev_diagnostic_evidence e) (ev_issued_requests e)
    (ev_active_escalations e) (ev_monitor_capability e) (ev_escalation_state e)
    (ev_reevaluation_barrier e) (ev_last_judgment e) (ev_last_positive_support_deadline_ms e)
    (ev_last_receiver_arrival_ms e) value (ev_transition_counter e) (ev_request_counter e)
    (ev_event_counter e) (ev_metrics e) (ev_fault_started_at_ms e) (ev_normal_trace e)
    (ev_event_log e).
Definition set_ev_transition_counter (e : Evaluator) (value : Z) : Evaluator :=
  mkEvaluator (ev_policy e) (ev_receiver e) (ev_receiver_incarnation e) (ev_clock_id e)
    (ev_current_subject_incarnation e) (ev_retired_subject_incarnations e)
    (ev_observer_lineages e) (ev_retired_observer_incarnations e) (ev_observers e)
    (ev_contradictions e) (ev_diagnostic_evidence e) (ev_issued_requests e)
    (ev_active_escalations e) (ev_monitor_capability e) (ev_escalation_state e)
    (ev_reevaluation_barrier e) (ev_last_judgment e) (ev_last_positive_support_deadline_ms e)
    (ev_last_receiver_arrival_ms e) (ev_last_evaluation_ms e) value (ev_request_counter e)
    (ev_event_counter e) (ev_metrics e) (ev_fault_started_at_ms e) (ev_normal_trace e)
    (ev_event_log e).
Definition set_ev_request_counter (e : Evaluator) (value : Z) : Evaluator :=
  mkEvaluator (ev_policy e) (ev_receiver e) (ev_receiver_incarnation e) (ev_clock_id e)
    (ev_current_subject_incarnation e) (ev_retired_subject_incarnations e)
    (ev_observer_lineages e) (ev_retired_observer_incarnations e) (ev_observers e)
    (ev_contradictions e) (ev_diagnostic_evidence e) (ev_issued_requests e)
    (ev_active_escalations e) (ev_monitor_capability e) (ev_escalation_state e)
    (ev_reevaluation_barrier e) (ev_last_judgment e) (ev_last_positive_support_deadline_ms e)
    (ev_last_receiver_arrival_ms e) (ev_last_evaluation_ms e) (ev_transition_counter e) value
    (ev_event_counter e) (ev_metrics e) (ev_fault_started_at_ms e) (ev_normal_trace e)
    (ev_event_log e).
Definition set_ev_event_counter (e : Evaluator) (value : Z) : Evaluator :=
  mkEvaluator (ev_policy e) (ev_receiver e) (ev_receiver_incarnation e) (ev_clock_id e)
    (ev_current_subject_incarnation e) (ev_retired_subject_incarnations e)
    (ev_observer_lineages e) (ev_retired_observer_incarnations e) (ev_observers e)
    (ev_contradictions e) (ev_diagnostic_evidence e) (ev_issued_requests e)
    (ev_active_escalations e) (ev_monitor_capability e) (ev_escalation_state e)
    (ev_reevaluation_barrier e) (ev_last_judgment e) (ev_last_positive_support_deadline_ms e)
    (ev_last_receiver_arrival_ms e) (ev_last_evaluation_ms e) (ev_transition_counter e)
    (ev_request_counter e) value (ev_metrics e) (ev_fault_started_at_ms e) (ev_normal_trace e)
    (ev_event_log e).
Definition set_ev_metrics (e : Evaluator) (value : ExperimentalMetricsV1) : Evaluator :=
  mkEvaluator (ev_policy e) (ev_receiver e) (ev_receiver_incarnation e) (ev_clock_id e)
    (ev_current_subject_incarnation e) (ev_retired_subject_incarnations e)
    (ev_observer_lineages e) (ev_retired_observer_incarnations e) (ev_observers e)
    (ev_contradictions e) (ev_diagnostic_evidence e) (ev_issued_requests e)
    (ev_active_escalations e) (ev_monitor_capability e) (ev_escalation_state e)
    (ev_reevaluation_barrier e) (ev_last_judgment e) (ev_last_positive_support_deadline_ms e)
    (ev_last_receiver_arrival_ms e) (ev_last_evaluation_ms e) (ev_transition_counter e)
    (ev_request_counter e) (ev_event_counter e) value (ev_fault_started_at_ms e)
    (ev_normal_trace e) (ev_event_log e).
Definition set_ev_fault_started_at_ms (e : Evaluator) (value : option Z) : Evaluator :=
  mkEvaluator (ev_policy e) (ev_receiver e) (ev_receiver_incarnation e) (ev_clock_id e)
    (ev_current_subject_incarnation e) (ev_retired_subject_incarnations e)
    (ev_observer_lineages e) (ev_retired_observer_incarnations e) (ev_observers e)
    (ev_contradictions e) (ev_diagnostic_evidence e) (ev_issued_requests e)
    (ev_active_escalations e) (ev_monitor_capability e) (ev_escalation_state e)
    (ev_reevaluation_barrier e) (ev_last_judgment e) (ev_last_positive_support_deadline_ms e)
    (ev_last_receiver_arrival_ms e) (ev_last_evaluation_ms e) (ev_transition_counter e)
    (ev_request_counter e) (ev_event_counter e) (ev_metrics e) value (ev_normal_trace e)
    (ev_event_log e).
Definition set_ev_normal_trace (e : Evaluator) (value : bool) : Evaluator :=
  mkEvaluator (ev_policy e) (ev_receiver e) (ev_receiver_incarnation e) (ev_clock_id e)
    (ev_current_subject_incarnation e) (ev_retired_subject_incarnations e)
    (ev_observer_lineages e) (ev_retired_observer_incarnations e) (ev_observers e)
    (ev_contradictions e) (ev_diagnostic_evidence e) (ev_issued_requests e)
    (ev_active_escalations e) (ev_monitor_capability e) (ev_escalation_state e)
    (ev_reevaluation_barrier e) (ev_last_judgment e) (ev_last_positive_support_deadline_ms e)
    (ev_last_receiver_arrival_ms e) (ev_last_evaluation_ms e) (ev_transition_counter e)
    (ev_request_counter e) (ev_event_counter e) (ev_metrics e) (ev_fault_started_at_ms e)
    value (ev_event_log e).
Definition set_ev_event_log (e : Evaluator) (value : list SparseDurableEventV1) : Evaluator :=
  mkEvaluator (ev_policy e) (ev_receiver e) (ev_receiver_incarnation e) (ev_clock_id e)
    (ev_current_subject_incarnation e) (ev_retired_subject_incarnations e)
    (ev_observer_lineages e) (ev_retired_observer_incarnations e) (ev_observers e)
    (ev_contradictions e) (ev_diagnostic_evidence e) (ev_issued_requests e)
    (ev_active_escalations e) (ev_monitor_capability e) (ev_escalation_state e)
    (ev_reevaluation_barrier e) (ev_last_judgment e) (ev_last_positive_support_deadline_ms e)
    (ev_last_receiver_arrival_ms e) (ev_last_evaluation_ms e) (ev_transition_counter e)
    (ev_request_counter e) (ev_event_counter e) (ev_metrics e) (ev_fault_started_at_ms e)
    (ev_normal_trace e) value.

(** Assignments to the metrics record. *)
Definition set_em_pulse_to_evaluation_latency_ms (e : ExperimentalMetricsV1) (value : Z) : ExperimentalMetricsV1 :=
  mkMetrics (em_schema_version e) value (em_maximum_stale_positive_duration_ms e)
    (em_failure_to_unknown_latency_ms e) (em_failure_to_contradicted_latency_ms e)
    (em_failure_to_escalation_latency_ms e) (em_false_escalation_count e) (em_active_coverage
    e) (em_expired_coverage e) (em_dropped_stale_pulse_count e) (em_duplicate_count e)
    (em_sequence_gap_count e) (em_escalation_deduplication_count e)
    (em_monitor_input_drop_count e).
Definition set_em_maximum_stale_positive_duration_ms (e : ExperimentalMetricsV1) (value : Z) : ExperimentalMetricsV1 :=
  mkMetrics (em_schema_version e) (em_pulse_to_evaluation_latency_ms e) value
    (em_failure_to_unknown_latency_ms e) (em_failure_to_contradicted_latency_ms e)
    (em_failure_to_escalation_latency_ms e) (em_false_escalation_count e) (em_active_coverage
    e) (em_expired_coverage e) (em_dropped_stale_pulse_count e) (em_duplicate_count e)
    (em_sequence_gap_count e) (em_escalation_deduplication_count e)
    (em_monitor_input_drop_count e).
Definition set_em_failure_to_unknown_latency_ms (e : ExperimentalMetricsV1) (value : option Z) : ExperimentalMetricsV1 :=
  mkMetrics (em_schema_version e) (em_pulse_to_evaluation_latency_ms e)
    (em_maximum_stale_positive_duration_ms e) value (em_failure_to_contradicted_latency_ms e)
    (em_failure_to_escalation_latency_ms e) (em_false_escalation_count e) (em_active_coverage
    e) (em_expired_coverage e) (em_dropped_stale_pulse_count e) (em_duplicate_count e)
    (em_sequence_gap_count e) (em_escalation_deduplication_count e)
    (em_monitor_input_drop_count e).
Definition set_em_failure_to_contradicted_latency_ms (e : ExperimentalMetricsV1) (value : option Z) : ExperimentalMetricsV1 :=
  mkMetrics (em_schema_version e) (em_pulse_to_evaluation_latency_ms e)
    (em_maximum_stale_positive_duration_ms e) (em_failure_to_unknown_latency_ms e) value
    (em_failure_to_escalation_latency_ms e) (em_false_escalation_count e) (em_active_coverage
    e) (em_expired_coverage e) (em_dropped_stale_pulse_count e) (em_duplicate_count e)
    (em_sequence_gap_count e) (em_escalation_deduplication_count e)
    (em_monitor_input_drop_count e).
Definition set_em_failure_to_escalation_latency_ms (e : ExperimentalMetricsV1) (value : option Z) : ExperimentalMetricsV1 :=
  mkMetrics (em_schema_version e) (em_pulse_to_evaluation_latency_ms e)
    (em_maximum_stale_positive_duration_ms e) (em_failure_to_unknown_latency_ms e)
    (em_failure_to_contradicted_latency_ms e) value (em_false_escalation_count e)
    (em_active_coverage e) (em_expired_coverage e) (em_dropped_stale_pulse_count e)
    (em_duplicate_count e) (em_sequence_gap_count e) (em_escalation_deduplication_count e)
    (em_monitor_input_drop_count e).
Definition set_em_false_escalation_count (e : ExperimentalMetricsV1) (value : Z) : ExperimentalMetricsV1 :=
  mkMetrics (em_schema_version e) (em_pulse_to_evaluation_latency_ms e)
    (em_maximum_stale_positive_duration_ms e) (em_failure_to_unknown_latency_ms e)
    (em_failure_to_contradicted_latency_ms e) (em_failure_to_escalation_latency_ms e) value
    (em_active_coverage e) (em_expired_coverage e) (em_dropped_stale_pulse_count e)
    (em_duplicate_count e) (em_sequence_gap_count e) (em_escalation_deduplication_count e)
    (em_monitor_input_drop_count e).
Definition set_em_active_coverage (e : ExperimentalMetricsV1) (value : Z) : ExperimentalMetricsV1 :=
  mkMetrics (em_schema_version e) (em_pulse_to_evaluation_latency_ms e)
    (em_maximum_stale_positive_duration_ms e) (em_failure_to_unknown_latency_ms e)
    (em_failure_to_contradicted_latency_ms e) (em_failure_to_escalation_latency_ms e)
    (em_false_escalation_count e) value (em_expired_coverage e) (em_dropped_stale_pulse_count
    e) (em_duplicate_count e) (em_sequence_gap_count e) (em_escalation_deduplication_count e)
    (em_monitor_input_drop_count e).
Definition set_em_expired_coverage (e : ExperimentalMetricsV1) (value : Z) : ExperimentalMetricsV1 :=
  mkMetrics (em_schema_version e) (em_pulse_to_evaluation_latency_ms e)
    (em_maximum_stale_positive_duration_ms e) (em_failure_to_unknown_latency_ms e)
    (em_failure_to_contradicted_latency_ms e) (em_failure_to_escalation_latency_ms e)
    (em_false_escalation_count e) (em_active_coverage e) value (em_dropped_stale_pulse_count
    e) (em_duplicate_count e) (em_sequence_gap_count e) (em_escalation_deduplication_count e)
    (em_monitor_input_drop_count e).
Definition set_em_dropped_stale_pulse_count (e : ExperimentalMetricsV1) (value : Z) : ExperimentalMetricsV1 :=
  mkMetrics (em_schema_version e) (em_pulse_to_evaluation_latency_ms e)
    (em_maximum_stale_positive_duration_ms e) (em_failure_to_unknown_latency_ms e)
    (em_failure_to_contradicted_latency_ms e) (em_failure_to_escalation_latency_ms e)
    (em_false_escalation_count e) (em_active_coverage e) (em_expired_coverage e) value
    (em_duplicate_count e) (em_sequence_gap_count e) (em_escalation_deduplication_count e)
    (em_monitor_input_drop_count e).
Definition set_em_duplicate_count (e : ExperimentalMetricsV1) (value : Z) : ExperimentalMetricsV1 :=
  mkMetrics (em_schema_version e) (em_pulse_to_evaluation_latency_ms e)
    (em_maximum_stale_positive_duration_ms e) (em_failure_to_unknown_latency_ms e)
    (em_failure_to_contradicted_latency_ms e) (em_failure_to_escalation_latency_ms e)
    (em_false_escalation_count e) (em_active_coverage e) (em_expired_coverage e)
    (em_dropped_stale_pulse_count e) value (em_sequence_gap_count e)
    (em_escalation_deduplication_count e) (em_monitor_input_drop_count e).
Definition set_em_sequence_gap_count (e : ExperimentalMetricsV1) (value : Z) : ExperimentalMetricsV1 :=
  mkMetrics (em_schema_version e) (em_pulse_to_evaluation_latency_ms e)
    (em_maximum_stale_positive_duration_ms e) (em_failure_to_unknown_latency_ms e)
    (em_failure_to_contradicted_latency_ms e) (em_failure_to_escalation_latency_ms e)
    (em_false_escalation_count e) (em_active_coverage e) (em_expired_coverage e)
    (em_dropped_stale_pulse_count e) (em_duplicate_count e) value
    (em_escalation_deduplication_count e) (em_monitor_input_drop_count e).
Definition set_em_escalation_deduplication_count (e : ExperimentalMetricsV1) (value : Z) : ExperimentalMetricsV1 :=
  mkMetrics (em_schema_version e) (em_pulse_to_evaluation_latency_ms e)
    (em_maximum_stale_positive_duration_ms e) (em_failure_to_unknown_latency_ms e)
    (em_failure_to_contradicted_latency_ms e) (em_failure_to_escalation_latency_ms e)
    (em_false_escalation_count e) (em_active_coverage e) (em_expired_coverage e)
    (em_dropped_stale_pulse_count e) (em_duplicate_count e) (em_sequence_gap_count e) value
    (em_monitor_input_drop_count e).
Definition set_em_monitor_input_drop_count (e : ExperimentalMetricsV1) (value : Z) : ExperimentalMetricsV1 :=
  mkMetrics (em_schema_version e) (em_pulse_to_evaluation_latency_ms e)
    (em_maximum_stale_positive_duration_ms e) (em_failure_to_unknown_latency_ms e)
    (em_failure_to_contradicted_latency_ms e) (em_failure_to_escalation_latency_ms e)
    (em_false_escalation_count e) (em_active_coverage e) (em_expired_coverage e)
    (em_dropped_stale_pulse_count e) (em_duplicate_count e) (em_sequence_gap_count e)
    (em_escalation_deduplication_count e) value.
