(* ===== verification/Derive.v ===== *)
(** * Deriving a judgment from the evidence window

    The read-only part of [crates/pulse-evaluator/src/evaluator.rs]: failure
    domains, coverage, the confidence dimensions, the category, the support
    deadline and the explanation. *)

From S2P Require Import Prelude Ids Digest Pulse Judgment Escalation Event Policy EvaluatorState.

(* ------------------------------------------------------------------ *)
(** ** Free functions of the module *)

Definition evidence_ref (f : PulseFrameV1) : string :=
  pf_observer f +:+ "/" +:+ pf_observer_incarnation f +:+ "/seq=" +:+ dec (pf_sequence f)
  +:+ "/" +:+ pf_observation_digest f.

Definition failure_domain (observer : ObserverId) (declared : gmap string string) : string :=
  match declared !! observer with
  | Some domain => domain
  | None => "observer:" +:+ observer
  end.

Definition evidence_domain (declared : gmap string string) (e : ObserverEvidence) : string :=
  failure_domain (pf_observer (rp_frame (oe_received e))) declared.

Definition unique_domains (evidence : list ObserverEvidence) (declared : gmap string string)
  : gset string :=
  list_to_set (evidence_domain declared <$> evidence).

(** [coverage.observed.binary_search(tag).is_ok()]. *)
Definition covers (tag : string) (e : ObserverEvidence) : bool :=
  binary_search (cd_observed (pf_coverage (rp_frame (oe_received e)))) tag.

Definition domain_count_for_tag (evidence : list ObserverEvidence) (tag : string)
    (declared : gmap string string) : Z :=
  len_u32 (size (unique_domains (filter (fun e => covers tag e = true) evidence) declared)).

Definition is_verified (e : ObserverEvidence) : bool :=
  match ra_authentication (rp_receiver (oe_received e)) with Verified _ _ => true | _ => false end.
Definition is_failed (e : ObserverEvidence) : bool :=
  match ra_authentication (rp_receiver (oe_received e)) with Failed _ => true | _ => false end.

Definition provenance_dimension (evidence : list ObserverEvidence) : ProvenanceDimensionV1 :=
  if bool_decide (evidence = []) then ProvUnknown
  else if existsb is_failed evidence then ProvFailed
  else if forallb is_verified evidence then ProvVerified
  else ProvDegraded.

Definition signals_are_incompatible (left right : BoundedSignalValueV1) (tolerance : option Z)
  : bool :=
  match sg_assessment left, sg_assessment right with
  | WithinDeclaredBound, OutsideDeclaredBound => true
  | OutsideDeclaredBound, WithinDeclaredBound => true
  | _, _ =>
      match tolerance with
      | Some maximum =>
          negb (bool_decide (sg_assessment left = Unavailable))
          && negb (bool_decide (sg_assessment right = Unavailable))
          && f64_abs_diff_gt (sg_value left) (sg_value right) maximum
      | None => false
      end
  end.

(** [{:?}] of an assessment. *)
Definition assessment_debug (a : SignalAssessmentV1) : string :=
  match a with
  | Observed => "Observed"
  | WithinDeclaredBound => "WithinDeclaredBound"
  | OutsideDeclaredBound => "OutsideDeclaredBound"
  | Unavailable => "Unavailable"
  end.

Definition signal_statement (observer : ObserverId) (s : BoundedSignalValueV1) : string :=
  "observer=" +:+ observer +:+ " signal=" +:+ sg_name s +:+ " value=" +:+ f64_display (sg_value s)
  +:+ " unit=" +:+ sg_unit s +:+ " assessment=" +:+ assessment_debug (sg_assessment s).

Definition monitor_state_name (m : MonitorCapabilityV1) : string :=
  match m with Operational => "operational" | Degraded _ => "degraded" | Blind _ => "blind" end.

(* ------------------------------------------------------------------ *)
(** ** Eligibility and coverage *)

Definition received_provenance_is_eligible (p : ReliancePolicyV1) (r : ReceivedPulseV1) : bool :=
  if negb (rl_require_verified_authentication p)
  then match ra_authentication (rp_receiver r) with Failed _ => false | _ => true end
  else match ra_authentication (rp_receiver r) with Verified _ _ => true | _ => false end.

Definition provenance_is_eligible (p : ReliancePolicyV1) (e : ObserverEvidence) : bool :=
  received_provenance_is_eligible p (oe_received e).

Definition coverage_count (p : ReliancePolicyV1) (fresh expired : list ObserverEvidence)
    (tag : string) : CoverageCountV1 :=
  {| cc_tag := tag;
     cc_active_observers := domain_count_for_tag fresh tag (rl_observer_failure_domains p);
     cc_expired_observers := domain_count_for_tag expired tag (rl_observer_failure_domains p);
     cc_required_observers := rl_minimum_observers p |}.

(** [active_count >= required_observers]. *)
Definition tag_is_active (p : ReliancePolicyV1) (fresh : list ObserverEvidence) (tag : string) : bool :=
  rl_minimum_observers p <=? domain_count_for_tag fresh tag (rl_observer_failure_domains p).

Definition coverage_summary (p : ReliancePolicyV1) (fresh expired : list ObserverEvidence)
  : CoverageSummaryV1 :=
  {| cs_required := rl_required_coverage p;
     cs_active := filter (fun tag => tag_is_active p fresh tag = true) (rl_required_coverage p);
     cs_missing := filter (fun tag => tag_is_active p fresh tag = false) (rl_required_coverage p);
     cs_expired :=
       filter (fun tag =>
                 0 < domain_count_for_tag expired tag (rl_observer_failure_domains p))
         (rl_required_coverage p);
     cs_active_observers := len_u32 (size (unique_domains fresh (rl_observer_failure_domains p)));
     cs_required_observers := rl_minimum_observers p;
     cs_per_tag := coverage_count p fresh expired <$> rl_required_coverage p |}.

(* ------------------------------------------------------------------ *)
(** ** Support deadline *)

Definition Z_desc (a b : Z) : Prop := b <= a.
#[global] Instance Z_desc_dec : RelDecision Z_desc.
Proof. intros a b. unfold Z_desc. apply _. Defined.

(** The latest expiry of each failure domain that covers [tag]. *)
Definition expiry_by_domain (p : ReliancePolicyV1) (fresh : list ObserverEvidence) (tag : string)
  : gmap string Z :=
  fold_left
    (fun by_domain e =>
       if covers tag e then
         let domain := evidence_domain (rl_observer_failure_domains p) e in
         <[domain := match by_domain !! domain with
                     | Some expiry => Z.max expiry (oe_expires_at_ms e)
                     | None => oe_expires_at_ms e
                     end]> by_domain
       else by_domain)
    fresh ∅.

(** The instant at which [tag] loses its required number of domains. *)
Definition tag_deadline (p : ReliancePolicyV1) (fresh : list ObserverEvidence) (tag : string)
  : option Z :=
  merge_sort Z_desc (bt_values (expiry_by_domain p fresh tag))
    !! Z.to_nat (rl_minimum_observers p - 1).

Fixpoint deadline_loop (p : ReliancePolicyV1) (fresh : list ObserverEvidence) (overall : Z)
    (tags : list string) : option Z :=
  match tags with
  | [] => Some overall
  | tag :: rest =>
      deadline ← tag_deadline p fresh tag;
      deadline_loop p fresh (Z.min overall deadline) rest
  end.

Definition support_deadline (p : ReliancePolicyV1) (fresh : list ObserverEvidence) : option Z :=
  overall ← deadline_loop p fresh u64_max (rl_required_coverage p);
  if overall =? u64_max then None else Some overall.

(* ------------------------------------------------------------------ *)
(** ** The evidence window *)

Definition relevant_evidence (e : Evaluator) : list ObserverEvidence :=
  filter (fun x => pf_subject_incarnation (rp_frame (oe_received x)) = ev_current_subject_incarnation e)
    (bt_values (ev_observers e)).

Definition fresh_evidence (e : Evaluator) (now : Z) : list ObserverEvidence :=
  filter (fun x => now < oe_expires_at_ms x) (relevant_evidence e).
Definition expired_evidence (e : Evaluator) (now : Z) : list ObserverEvidence :=
  filter (fun x => oe_expires_at_ms x <= now) (relevant_evidence e).
Definition eligible_fresh (e : Evaluator) (now : Z) : list ObserverEvidence :=
  filter (fun x => provenance_is_eligible (ev_policy e) x = true) (fresh_evidence e now).

(** [contradictions.values().filter(is_active)]. *)
Definition active_contradictions (e : Evaluator) : list ContradictionRecordV1 :=
  filter (fun r => contradiction_is_active r = true) (bt_values (ev_contradictions e)).

(** [active_contradiction_ids] of the public interface. *)
Definition active_contradiction_ids (e : Evaluator) : list ContradictionId :=
  cr_contradiction_id <$> active_contradictions e.

Definition supporting_evidence_refs (e : Evaluator) (now : Z) : list string :=
  (fun x => evidence_ref (rp_frame (oe_received x))) <$> eligible_fresh e now.

Definition violates (x : ObserverEvidence) : bool :=
  existsb (fun s => bool_decide (sg_assessment s = OutsideDeclaredBound))
    (pf_signals (rp_frame (oe_received x))).

Definition violation_refs (e : Evaluator) (now : Z) : list string :=
  (fun x => evidence_ref (rp_frame (oe_received x)))
    <$> filter (fun x => violates x = true) (eligible_fresh e now).

Definition has_continuity (c : SequenceContinuityDimensionV1) (xs : list ObserverEvidence) : bool :=
  existsb (fun x => bool_decide (oe_continuity x = c)) xs.

Definition freshness_dimension (relevant fresh expired : list ObserverEvidence)
  : FreshnessDimensionV1 :=
  if bool_decide (relevant = []) then FreshNoEvidence
  else if bool_decide (fresh = []) then FreshExpired
  else if bool_decide (expired = []) then FreshCurrent
  else FreshMixed.

Definition continuity_dimension (fresh : list ObserverEvidence) : SequenceContinuityDimensionV1 :=
  if bool_decide (fresh = []) then SeqUnknown
  else if has_continuity SeqGapped fresh then SeqGapped
  else if has_continuity SeqRestarted fresh then SeqRestarted
  else if has_continuity SeqFirstSeen fresh then SeqFirstSeen
  else SeqContinuous.

Definition availability_dimension (p : ReliancePolicyV1) (domains : gset string)
  : ObserverAvailabilityDimensionV1 :=
  if rl_minimum_observers p <=? Z.of_nat (size domains) then ObsAvailable
  else if bool_decide (domains = ∅) then ObsUnavailable
  else ObsPartial.

Definition transport_dimension (m : MonitorCapabilityV1) : TransportDimensionV1 :=
  match m with
  | Operational => TransNormal
  | Degraded _ => TransDegraded
  | Blind _ => TransBlind
  end.

Definition derive_dimensions (e : Evaluator) (now : Z) : ConfidenceDimensionsV1 :=
  let fresh := fresh_evidence e now in
  let eligible := eligible_fresh e now in
  let domains := unique_domains eligible (rl_observer_failure_domains (ev_policy e)) in
  let coverage := coverage_summary (ev_policy e) eligible (expired_evidence e now) in
  let contradicted := negb (bool_decide (active_contradictions e = [])) in
  let violated := negb (bool_decide (violation_refs e now = [])) in
  {| dim_freshness := freshness_dimension (relevant_evidence e) fresh (expired_evidence e now);
     dim_sequence_continuity := continuity_dimension fresh;
     dim_observer_availability := availability_dimension (ev_policy e) domains;
     dim_cross_observer_coherence :=
       if contradicted then Disagreement
       else if Nat.leb 2 (size domains) then Coherent
       else Insufficient;
     dim_coverage :=
       if bool_decide (cs_missing coverage = []) then CovComplete
       else if bool_decide (cs_active coverage = []) then CovAbsent
       else CovPartial;
     dim_provenance := provenance_dimension fresh;
     dim_transport := transport_dimension (ev_monitor_capability e);
     dim_subject_signal_consistency :=
       if contradicted then SigContradictory
       else if violated then SigViolation
       else if bool_decide (eligible = []) then SigUnknown
       else SigConsistent |}.

Record DerivedState := mkDerived {
  ds_category : JudgmentCategoryV1;
  ds_dimensions : ConfidenceDimensionsV1;
  ds_coverage : CoverageSummaryV1;
  ds_active_contradictions : list string;
  ds_violation_evidence_refs : list string;
  ds_support_deadline_ms : option Z;
}.

(** The [reliance_unknown] condition. *)
Definition reliance_unknown (p : ReliancePolicyV1) (coverage : CoverageSummaryV1)
    (d : ConfidenceDimensionsV1) : bool :=
  negb (bool_decide (cs_missing coverage = []))
  || negb (bool_decide (dim_observer_availability d = ObsAvailable))
  || (bool_decide (dim_freshness d = FreshExpired) || bool_decide (dim_freshness d = FreshNoEvidence))
  || (rl_require_verified_authentication p && negb (bool_decide (dim_provenance d = ProvVerified)))
  || bool_decide (dim_transport d = TransBlind).

Definition derive_category (p : ReliancePolicyV1) (contradicted violated : bool)
    (coverage : CoverageSummaryV1) (d : ConfidenceDimensionsV1) : JudgmentCategoryV1 :=
  if contradicted then CatContradicted
  else if violated then CatSuspect
  else if reliance_unknown p coverage d then CatUnknown
  else if (bool_decide (dim_sequence_continuity d = SeqGapped)
           || bool_decide (dim_sequence_continuity d = SeqRestarted)
           || bool_decide (dim_sequence_continuity d = SeqUnknown))
          || bool_decide (dim_transport d = TransDegraded) then CatDegraded
  else CatCurrent.

(** [Evaluator::derive]. *)
Definition derive (e : Evaluator) (now : Z) : DerivedState :=
  let coverage := coverage_summary (ev_policy e) (eligible_fresh e now) (expired_evidence e now) in
  let dimensions := derive_dimensions e now in
  let category :=
    derive_category (ev_policy e) (negb (bool_decide (active_contradictions e = [])))
      (negb (bool_decide (violation_refs e now = []))) coverage dimensions in
  {| ds_category := category;
     ds_dimensions := dimensions;
     ds_coverage := coverage;
     ds_active_contradictions := active_contradiction_ids e;
     ds_violation_evidence_refs := violation_refs e now;
     ds_support_deadline_ms :=
       if decide (category = CatCurrent) then support_deadline (ev_policy e) (eligible_fresh e now)
       else None |}.
