(* ===== verification/Explain.v ===== *)
(** * Explanations, semantic change and trigger selection

    The remaining free functions of [crates/pulse-evaluator/src/evaluator.rs]:
    [explanation_for], [judgment_semantically_changed], [select_trigger]. *)

From S2P Require Import Prelude Ids Digest Pulse Judgment Escalation Event Policy EvaluatorState.

Definition JUDGMENT_NONCLAIMS : list string :=
  [ "Pulse receipt does not establish subject health.";
    "The runtime does not establish that observations are truthful.";
    "The runtime does not establish complete distributed-world coverage.";
    "Observer identity does not establish observer independence.";
    "A present-state judgment is consumer-, policy-, coverage-, and time-indexed.";
    "Diagnostic completion does not establish indefinite reliance.";
    NO_MUTATION_NONCLAIM ].

(** One reason without evidence references. *)
Definition reason (code detail : string) : JudgmentReasonV1 := mkReason code detail [].

Definition barrier_reasons (barrier : option ReevaluationBarrierV1) : list JudgmentReasonV1 :=
  match barrier with
  | Some b => [reason (barrier_code b) (barrier_detail b)]
  | None => []
  end.

Definition contradiction_reasons (active : list string) : list JudgmentReasonV1 :=
  if bool_decide (active = []) then []
  else [mkReason "contradiction_retained"
          (dec (Z.of_nat (length active))
           +:+ " independently grounded contradiction record(s) remain unresolved") active].

Definition violation_reasons (refs : list string) : list JudgmentReasonV1 :=
  if bool_decide (refs = []) then []
  else [mkReason "subject_bound_violated"
          "current admitted evidence contains an outside-declared-bound observation" refs].

Definition freshness_reasons (d : FreshnessDimensionV1) : list JudgmentReasonV1 :=
  match d with
  | FreshExpired =>
      [reason "freshness_expired"
         "all applicable pulse evidence has reached receiver-owned expiry"]
  | FreshMixed =>
      [reason "freshness_mixed"
         "the evidence window contains both current and expired contributions"]
  | FreshNoEvidence => [reason "no_evidence" "no applicable pulse evidence has been admitted"]
  | FreshCurrent => []
  end.

Definition coverage_reasons (c : CoverageSummaryV1) : list JudgmentReasonV1 :=
  if bool_decide (cs_missing c = []) then []
  else [reason "coverage_incomplete"
          ("required coverage missing: " +:+ str_join "," (cs_missing c))].

Definition availability_reasons (d : ObserverAvailabilityDimensionV1) (c : CoverageSummaryV1)
  : list JudgmentReasonV1 :=
  if bool_decide (d = ObsAvailable) then []
  else [reason "observer_availability_insufficient"
          (dec (cs_active_observers c)
           +:+ " independent configured failure domain(s) are active; "
           +:+ dec (cs_required_observers c) +:+ " required")].

Definition provenance_reasons (d : ProvenanceDimensionV1) : list JudgmentReasonV1 :=
  match d with
  | ProvFailed =>
      [reason "provenance_failed" "at least one current receiver authentication result failed"]
  | ProvDegraded =>
      [reason "provenance_unverified"
         "current evidence includes an unauthenticated or unchecked observation"]
  | ProvVerified | ProvUnknown => []
  end.

Definition continuity_reasons (d : SequenceContinuityDimensionV1) : list JudgmentReasonV1 :=
  match d with
  | SeqGapped =>
      [reason "sequence_gap"
         "a current observer lineage contains a receiver-observed sequence gap"]
  | SeqRestarted =>
      [reason "observer_restarted"
         "a current observer began a new incarnation and did not inherit continuity"]
  | SeqFirstSeen | SeqContinuous | SeqUnknown => []
  end.

Definition monitor_reasons (m : MonitorCapabilityV1) : list JudgmentReasonV1 :=
  match m with
  | Degraded detail => [reason "monitor_degraded" detail]
  | Blind detail => [reason "monitor_blind" detail]
  | Operational => []
  end.

Definition receipt_reasons (receipt_count : Z) : list JudgmentReasonV1 :=
  if 0 <? receipt_count then
    [reason "diagnostic_receipt_correlated"
       (dec receipt_count
        +:+ " bounded diagnostic receipt(s) were correlated; they do not refresh pulse evidence")]
  else [].

Definition summary_for (category : JudgmentCategoryV1) (coverage : CoverageSummaryV1)
    (active violations : list string) (barrier : option ReevaluationBarrierV1) : string :=
  if bool_decide (barrier ≠ None) then
    "UNKNOWN: an explicit runtime transition requires reevaluation; prior standing was not inherited."
  else if bool_decide (category = CatUnknown) && negb (bool_decide (cs_missing coverage = []))
          && bool_decide (violations = []) && bool_decide (active = []) then
    INCOMPLETE_COVERAGE_EXPLANATION
  else
    match category with
    | CatCurrent =>
        "CURRENT: named reliance conditions are satisfied for this consumer at this evaluation time."
    | CatDegraded =>
        "DEGRADED: current evidence exists, but a named observation-quality condition is degraded."
    | CatSuspect => "SUSPECT: current admitted evidence contains a declared bound violation."
    | CatUnknown =>
        "UNKNOWN: available evidence does not support this consumer's present reliance conditions."
    | CatContradicted => "CONTRADICTED: incompatible grounded evidence remains unresolved."
    end.

Definition claims_for (category : JudgmentCategoryV1) : list string :=
  match category with
  | CatCurrent =>
      ["The named consumer reliance conditions are satisfied for this exact evidence window and evaluation time."]
  | CatDegraded =>
      ["Current observation evidence exists and at least one named quality condition is degraded."]
  | CatSuspect =>
      ["At least one current admitted observation is outside a declared profile bound."]
  | CatUnknown =>
      ["The available evidence is insufficient for this consumer's present reliance judgment."]
  | CatContradicted =>
      ["Incompatible admitted observation statements remain visible and unresolved."]
  end.

Definition explanation_for (category : JudgmentCategoryV1) (dimensions : ConfidenceDimensionsV1)
    (coverage : CoverageSummaryV1) (active violations : list string)
    (monitor : MonitorCapabilityV1) (receipt_count : Z)
    (barrier : option ReevaluationBarrierV1) : JudgmentExplanationV1 :=
  let reasons :=
    barrier_reasons barrier
    ++ contradiction_reasons active
    ++ violation_reasons violations
    ++ freshness_reasons (dim_freshness dimensions)
    ++ coverage_reasons coverage
    ++ availability_reasons (dim_observer_availability dimensions) coverage
    ++ provenance_reasons (dim_provenance dimensions)
    ++ continuity_reasons (dim_sequence_continuity dimensions)
    ++ monitor_reasons monitor
    ++ receipt_reasons receipt_count in
  {| je_summary := summary_for category coverage active violations barrier;
     je_reasons :=
       if bool_decide (reasons = []) then
         [reason "named_reliance_conditions_satisfied"
            "all conditions named by this consumer policy are satisfied at evaluation time"]
       else reasons;
     je_claims := claims_for category;
     je_nonclaims := JUDGMENT_NONCLAIMS |}.

Definition reason_codes (j : PresentStateJudgmentV1) : list string :=
  jr_code <$> je_reasons (pj_explanation j).

Definition judgment_semantically_changed (prior current : PresentStateJudgmentV1) : bool :=
  negb (bool_decide (pj_subject_scope prior = pj_subject_scope current))
  || negb (bool_decide (pj_consumer prior = pj_consumer current))
  || negb (bool_decide (pj_policy_generation prior = pj_policy_generation current))
  || negb (bool_decide (pj_category prior = pj_category current))
  || negb (bool_decide (pj_dimensions prior = pj_dimensions current))
  || negb (bool_decide (pj_coverage prior = pj_coverage current))
  || negb (bool_decide (reason_codes prior = reason_codes current)).

Definition select_trigger (j : PresentStateJudgmentV1) : EscalationTriggerClassV1 :=
  let d := pj_dimensions j in
  if decide (pj_category j = CatContradicted) then ContradictionRetained
  else if decide (pj_category j = CatSuspect) then SubjectBoundViolated
  else if decide (dim_transport d = TransBlind) then TransportBlind
  else if decide (dim_provenance d = ProvFailed) then ProvenanceFailed
  else if decide (cs_missing (pj_coverage j) ≠ []) then CoverageCollapse
  else if decide (dim_sequence_continuity d = SeqGapped ∨ dim_sequence_continuity d = SeqRestarted)
  then SequenceDiscontinuity
  else if decide (dim_freshness d = FreshExpired ∨ dim_freshness d = FreshNoEvidence)
  then FreshnessLost
  else ObserverDisagreement.
