(* ===== verification/Evaluator.v ===== *)
(** * The evaluator: [crates/pulse-evaluator/src/evaluator.rs]

    Every method of [Evaluator] that changes state, as a function from the
    state to the new state and the result.  [evaluate] never returns an error
    in the source, so here it returns the output itself. *)

From S2P Require Import Prelude Ids Digest Pulse Judgment Escalation Event Policy.
From S2P Require Import EvaluatorState Derive Explain.

(** What a fallible method leaves behind. *)
Definition outcome : Type := Evaluator * result EvaluatorError EvaluationOutput.

Definition fail (e : Evaluator) (code detail : string) : outcome :=
  (e, Err (mkEvaluatorError code detail)).

(* ------------------------------------------------------------------ *)
(** ** Events *)

Definition sparse_event (e : Evaluator) (at_ms : Z) (event : SparseDurableEventKindV1)
  : Evaluator * SparseDurableEventV1 :=
  let counter := sat_add (ev_event_counter e) 1 in
  let item := mkEvent SCHEMA_VERSION_V1 ("event:" +:+ hex16 counter) at_ms event in
  (set_ev_event_log (set_ev_event_counter e counter) (ev_event_log e ++ [item]), item).

(** [sparse_event] where the returned event is dropped. *)
Definition push_event (e : Evaluator) (at_ms : Z) (event : SparseDurableEventKindV1) : Evaluator :=
  (sparse_event e at_ms event).1.

Definition monitor_event (e : Evaluator) (at_ms : Z) (state detail : string)
  : Evaluator * SparseDurableEventV1 :=
  sparse_event e at_ms (EvMonitorCapabilityChanged state detail).

Definition subject_scope (e : Evaluator) : SubjectScopeV1 :=
  mkSubjectScope (rl_subject (ev_policy e)) (ev_current_subject_incarnation e)
    (rl_scope (ev_policy e)).

(** [output.sparse_events.insert(0, event)]. *)
Definition prepend_event (event : SparseDurableEventV1) (o : EvaluationOutput) : EvaluationOutput :=
  mkOutput (eo_judgment o) (eo_transition o) (eo_escalation_request o)
    (event :: eo_sparse_events o).

(* ------------------------------------------------------------------ *)
(** ** Evaluation *)

Section operations.
Context `{Sha256}.

Definition evidence_window_parts (e : Evaluator) (now : Z) : list string :=
  [ rl_subject (ev_policy e);
    ev_current_subject_incarnation e;
    rl_consumer (ev_policy e);
    rl_generation (ev_policy e);
    ev_clock_id e;
    be_bytes 8 now;
    monitor_state_name (ev_monitor_capability e) ]
  ++ flat_map
       (fun x =>
          [ pf_observer (rp_frame (oe_received x));
            pf_observer_incarnation (rp_frame (oe_received x));
            be_bytes 8 (pf_sequence (rp_frame (oe_received x)));
            pf_observation_digest (rp_frame (oe_received x));
            be_bytes 8 (oe_expires_at_ms x) ])
       (bt_values (ev_observers e))
  ++ active_contradiction_ids e
  ++ flat_map
       (fun d =>
          [ der_receipt_id d; der_result_digest d;
            be_bytes 8 (der_applicable_until_monotonic_ms d) ])
       (ev_diagnostic_evidence e).

Definition evidence_window_id (e : Evaluator) (now : Z) : EvidenceWindowId :=
  digest_parts "evidence.window.v1" (evidence_window_parts e now).

Definition build_transition (e : Evaluator) (judgment : PresentStateJudgmentV1) (now : Z)
  : Evaluator * JudgmentTransitionV1 :=
  let counter := sat_add (ev_transition_counter e) 1 in
  let digest :=
    digest_parts "judgment.transition.v1"
      [ rl_subject (ev_policy e);
        rl_consumer (ev_policy e);
        rl_generation (ev_policy e);
        be_bytes 8 counter;
        be_bytes 8 now;
        pj_evidence_window_id judgment ] in
  (set_ev_transition_counter e counter,
   {| jt_schema_version := SCHEMA_VERSION_V1;
      jt_transition_id := "transition:" +:+ trim_start_matches "sha256:" digest;
      jt_subject_scope := pj_subject_scope judgment;
      jt_consumer := pj_consumer judgment;
      jt_policy_generation := pj_policy_generation judgment;
      jt_at_monotonic_ms := now;
      jt_from := pj_category <$> ev_last_judgment e;
      jt_to := pj_category judgment;
      jt_prior_evidence_window := pj_evidence_window_id <$> ev_last_judgment e;
      jt_evidence_window := pj_evidence_window_id judgment;
      jt_reason_codes := reason_codes judgment |}).

(** The request of [maybe_escalate], with a given identity and key. *)
Definition escalation_request (e : Evaluator) (escalation : EscalationPolicyV1)
    (trigger : EscalationTriggerClassV1) (transition : JudgmentTransitionV1)
    (judgment : PresentStateJudgmentV1) (now : Z) (request_id key : string)
  : DiagnosticEscalationRequestV1 :=
  {| rq_schema_version := SCHEMA_VERSION_V1;
     rq_request_id := request_id;
     rq_subject_scope := pj_subject_scope judgment;
     rq_consumer := rl_consumer (ev_policy e);
     rq_trigger_class := trigger;
     rq_evidence_window_digest := pj_evidence_window_id judgment;
     rq_policy_generation := rl_generation (ev_policy e);
     rq_observation_policy_generation := rl_observation_policy_generation (ev_policy e);
     rq_diagnostic_profile := ep_diagnostic_profile escalation;
     rq_bounds := ep_bounds escalation;
     rq_clock_id := ev_clock_id e;
     rq_created_at_monotonic_ms := now;
     rq_expires_at_monotonic_ms := sat_add now (ep_request_ttl_ms escalation);
     rq_deduplication_key := key;
     rq_causal_transition_id := jt_transition_id transition;
     rq_nonclaims := ESCALATION_NONCLAIMS |}.

(** The equivalent request is already active: count it, name it, emit nothing. *)
Definition deduplicate_escalation (e : Evaluator) (active : ActiveEscalation) (key : string) (now : Z)
  : Evaluator :=
  let e := set_ev_metrics e
             (set_em_escalation_deduplication_count (ev_metrics e)
                (sat_add (em_escalation_deduplication_count (ev_metrics e)) 1)) in
  let e := set_ev_escalation_state e (Requested (ae_request_id active)) in
  push_event e now (EvEscalationDeduplicated key (ae_request_id active)).

(** Record a new request in the active set, the history and the metrics. *)
Definition issue_escalation (e : Evaluator) (request : DiagnosticEscalationRequestV1) (now : Z)
  : Evaluator :=
  let e := set_ev_active_escalations e
             (<[rq_deduplication_key request :=
                  mkActiveEscalation (rq_request_id request) (rq_expires_at_monotonic_ms request)]>
                (ev_active_escalations e)) in
  let e := set_ev_issued_requests e (<[rq_request_id request := request]> (ev_issued_requests e)) in
  let e := set_ev_escalation_state e (Requested (rq_request_id request)) in
  let e := if ev_normal_trace e then
             set_ev_metrics e
               (set_em_false_escalation_count (ev_metrics e)
                  (sat_add (em_false_escalation_count (ev_metrics e)) 1))
           else e in
  let e := match ev_fault_started_at_ms e, em_failure_to_escalation_latency_ms (ev_metrics e) with
           | Some start, None =>
               set_ev_metrics e
                 (set_em_failure_to_escalation_latency_ms (ev_metrics e)
                    (Some (sat_sub now start)))
           | _, _ => e
           end in
  push_event e now (EvEscalationRequested request).

(** [Evaluator::maybe_escalate]. *)
Definition maybe_escalate (e : Evaluator) (transition : JudgmentTransitionV1)
    (judgment : PresentStateJudgmentV1) (now : Z)
  : Evaluator * option DiagnosticEscalationRequestV1 :=
  if decide (jt_from transition ≠ Some CatCurrent ∨ jt_to transition = CatCurrent) then (e, None)
  else
    let trigger := select_trigger judgment in
    match rl_escalation (ev_policy e) with
    | None => (e, None)
    | Some escalation =>
        if negb (triggers_contain escalation trigger) then (e, None)
        else
          let pending := escalation_request e escalation trigger transition judgment now
                           "pending" (digest_parts "pending" []) in
          let key := compute_deduplication_key pending in
          match ev_active_escalations e !! key with
          | Some active => (deduplicate_escalation e active key now, None)
          | None =>
              let counter := sat_add (ev_request_counter e) 1 in
              let e := set_ev_request_counter e counter in
              let request := escalation_request e escalation trigger transition judgment now
                               ("escalation:" +:+ hex16 counter) key in
              match request_validate request with
              | Err _ => (e, None)
              | Ok _ => (issue_escalation e request now, Some request)
              end
          end
    end.

Definition update_failure_metrics (e : Evaluator) (category : JudgmentCategoryV1) (now : Z)
  : Evaluator :=
  match ev_fault_started_at_ms e with
  | None => e
  | Some start =>
      let latency := sat_sub now start in
      let e :=
        if decide (category = CatUnknown ∧ em_failure_to_unknown_latency_ms (ev_metrics e) = None)
        then set_ev_metrics e (set_em_failure_to_unknown_latency_ms (ev_metrics e) (Some latency))
        else e in
      if decide (category = CatContradicted
                 ∧ em_failure_to_contradicted_latency_ms (ev_metrics e) = None)
      then set_ev_metrics e (set_em_failure_to_contradicted_latency_ms (ev_metrics e) (Some latency))
      else e
  end.

Definition update_stale_positive_metric (e : Evaluator) (judgment : PresentStateJudgmentV1)
    (now : Z) (deadline : option Z) : Evaluator :=
  if decide (pj_category judgment = CatCurrent) then
    set_ev_last_positive_support_deadline_ms e deadline
  else if decide (pj_category <$> ev_last_judgment e = Some CatCurrent) then
    let e :=
      match ev_last_positive_support_deadline_ms e with
      | Some d =>
          set_ev_metrics e
            (set_em_maximum_stale_positive_duration_ms (ev_metrics e)
               (Z.max (em_maximum_stale_positive_duration_ms (ev_metrics e)) (sat_sub now d)))
      | None => e
      end in
    set_ev_last_positive_support_deadline_ms e None
  else e.

(** The opening of [evaluate]: clamp a regressed clock (going blind), then
    drop expired escalations and diagnostic evidence. *)
Definition begin_evaluation (e : Evaluator) (requested_now : Z) : Evaluator * Z :=
  let '(e, now) :=
    match ev_last_evaluation_ms e with
    | Some prior =>
        if requested_now <? prior then
          let detail := "evaluation monotonic time regressed from " +:+ dec prior +:+ "ms to "
                        +:+ dec requested_now +:+ "ms within one clock generation" in
          ((monitor_event (set_ev_monitor_capability e (Blind detail)) prior "blind" detail).1, prior)
        else (e, requested_now)
    | None => (e, requested_now)
    end in
  let e := set_ev_last_evaluation_ms e (Some now) in
  let e := set_ev_active_escalations e
             (filter (fun '(_, a) => now < ae_expires_at_ms a) (ev_active_escalations e)) in
  let e := set_ev_diagnostic_evidence e
             (filter (fun d => now < der_applicable_until_monotonic_ms d)
                (ev_diagnostic_evidence e)) in
  (e, now).

(** [derive] with the barrier's effect on category and deadline. *)
Definition derive_under_barrier (e : Evaluator) (now : Z) : DerivedState :=
  let d := derive e now in
  match ev_reevaluation_barrier e with
  | None => d
  | Some _ =>
      mkDerived CatUnknown (ds_dimensions d) (ds_coverage d) (ds_active_contradictions d)
        (ds_violation_evidence_refs d) None
  end.

Definition record_coverage_metrics (e : Evaluator) (c : CoverageSummaryV1) : Evaluator :=
  set_ev_metrics e
    (set_em_expired_coverage
       (set_em_active_coverage (ev_metrics e) (len_u32 (length (cs_active c))))
       (len_u32 (length (cs_expired c)))).

Definition build_judgment (e : Evaluator) (now : Z) (d : DerivedState) : PresentStateJudgmentV1 :=
  {| pj_schema_version := SCHEMA_VERSION_V1;
     pj_subject_scope := subject_scope e;
     pj_consumer := rl_consumer (ev_policy e);
     pj_policy_generation := rl_generation (ev_policy e);
     pj_coverage := ds_coverage d;
     pj_evaluated_at_monotonic_ms := now;
     pj_positive_support_expires_at_monotonic_ms := ds_support_deadline_ms d;
     pj_receiver_clock_id := ev_clock_id e;
     pj_evidence_window_id := evidence_window_id e now;
     pj_category := ds_category d;
     pj_dimensions := ds_dimensions d;
     pj_explanation :=
       explanation_for (ds_category d) (ds_dimensions d) (ds_coverage d)
         (ds_active_contradictions d) (ds_violation_evidence_refs d)
         (ev_monitor_capability e) (len_u64 (length (ev_diagnostic_evidence e)))
         (ev_reevaluation_barrier e);
     pj_escalation := ev_escalation_state e;
     pj_mutation_authority := MutationNone |}.

(** [judgment.escalation = self.escalation_state.clone()]. *)
Definition with_escalation (j : PresentStateJudgmentV1) (s : EscalationStateV1)
  : PresentStateJudgmentV1 :=
  {| pj_schema_version := pj_schema_version j;
     pj_subject_scope := pj_subject_scope j;
     pj_consumer := pj_consumer j;
     pj_policy_generation := pj_policy_generation j;
     pj_coverage := pj_coverage j;
     pj_evaluated_at_monotonic_ms := pj_evaluated_at_monotonic_ms j;
     pj_positive_support_expires_at_monotonic_ms := pj_positive_support_expires_at_monotonic_ms j;
     pj_receiver_clock_id := pj_receiver_clock_id j;
     pj_evidence_window_id := pj_evidence_window_id j;
     pj_category := pj_category j;
     pj_dimensions := pj_dimensions j;
     pj_explanation := pj_explanation j;
     pj_escalation := s;
     pj_mutation_authority := pj_mutation_authority j |}.

(** The transition of a semantically changed judgment, with its event. *)
Definition record_transition (e : Evaluator) (judgment : PresentStateJudgmentV1) (now : Z)
  : Evaluator * option JudgmentTransitionV1 :=
  let changed :=
    match ev_last_judgment e with
    | None => true
    | Some prior => judgment_semantically_changed prior judgment
    end in
  if changed then
    let '(e, transition) := build_transition e judgment now in
    (push_event e now (EvJudgmentTransition transition), Some transition)
  else (e, None).

(** [Evaluator::evaluate]. *)
Definition evaluate (e : Evaluator) (requested_now : Z) : Evaluator * EvaluationOutput :=
  let event_log_start := length (ev_event_log e) in
  let '(e, now) := begin_evaluation e requested_now in
  let barrier := ev_reevaluation_barrier e in
  let derived := derive_under_barrier e now in
  let e := record_coverage_metrics e (ds_coverage derived) in
  let judgment := build_judgment e now derived in
  let '(e, transition) := record_transition e judgment now in
  let e := update_failure_metrics e (pj_category judgment) now in
  let e := update_stale_positive_metric e judgment now (ds_support_deadline_ms derived) in
  let '(e, request) :=
    match barrier, transition with
    | None, Some t => maybe_escalate e t judgment now
    | _, _ => (e, None)
    end in
  let judgment := with_escalation judgment (ev_escalation_state e) in
  let e := set_ev_last_judgment e (Some judgment) in
  let e := set_ev_reevaluation_barrier e None in
  (e, mkOutput judgment transition request (drop event_log_start (ev_event_log e))).

Definition evaluate_since (e : Evaluator) (now : Z) (event_log_start : nat)
  : Evaluator * EvaluationOutput :=
  let '(e, output) := evaluate e now in
  (e, mkOutput (eo_judgment output) (eo_transition output) (eo_escalation_request output)
        (drop event_log_start (ev_event_log e))).

(** [let event = ..; let mut output = self.evaluate(now)?;
    output.sparse_events.insert(0, event)]. *)
Definition evaluate_recorded (recorded : Evaluator * SparseDurableEventV1) (now : Z) : outcome :=
  let '(e, event) := recorded in
  let '(e, output) := evaluate e now in (e, Ok (prepend_event event output)).

Definition ok_evaluate (e : Evaluator) (now : Z) : outcome :=
  let '(e, output) := evaluate e now in (e, Ok output).
Definition ok_evaluate_since (e : Evaluator) (now : Z) (event_log_start : nat) : outcome :=
  let '(e, output) := evaluate_since e now event_log_start in (e, Ok output).

(** [Evaluator::tick]. *)
Definition tick (e : Evaluator) (now : Z) : outcome := ok_evaluate e now.

(* ------------------------------------------------------------------ *)
(** ** Ingestion *)

(** [Evaluator::validate_binding]. *)
Definition validate_binding (e : Evaluator) (r : ReceivedPulseV1) : result EvaluatorError unit :=
  ensure (bool_decide (ra_receiver (rp_receiver r) = ev_receiver e)
          && bool_decide (ra_receiver_incarnation (rp_receiver r) = ev_receiver_incarnation e)
          && bool_decide (ra_clock_id (rp_receiver r) = ev_clock_id e))
    (mkEvaluatorError "receiver_binding_mismatch"
       "receiver identity, incarnation, or clock differs from evaluator");;
  ensure (bool_decide (pf_subject (rp_frame r) = rl_subject (ev_policy e)))
    (mkEvaluatorError "subject_mismatch" "pulse subject differs from policy subject");;
  ensure (bool_decide (pf_observation_policy_generation (rp_frame r)
                       = rl_observation_policy_generation (ev_policy e)))
    (mkEvaluatorError "observation_policy_generation_mismatch"
       "pulse observation-policy generation is not admitted by the reliance policy");;
  ensure (bool_decide (pf_profile (rp_frame r) = rl_observation_profile (ev_policy e)))
    (mkEvaluatorError "profile_mismatch" "pulse profile differs from evaluator policy").

(** [Evaluator::classify_arrival]. *)
Definition classify_arrival (e : Evaluator) (f : PulseFrameV1) (a : ReceiverAnnotationV1)
  : ArrivalDispositionV1 * option SequenceGapV1 :=
  if match ra_transport_observed_delay_ms a with
     | Some delay => pf_validity_ms f <=? delay
     | None => false
     end then (Stale, None)
  else if decide (pf_subject_incarnation f ∈ ev_retired_subject_incarnations e) then (Replay, None)
  else
    match ev_observer_lineages e !! pf_observer f with
    | Some lineage =>
        if decide (ol_incarnation lineage = pf_observer_incarnation f) then
          if pf_sequence f =? ol_sequence lineage then (Duplicate, None)
          else if pf_sequence f <? ol_sequence lineage then (Replay, None)
          else if pf_sequence f =? sat_add (ol_sequence lineage) 1 then (Continuous, None)
          else
            let expected_next := sat_add (ol_sequence lineage) 1 in
            (Gap, Some (mkGap expected_next (pf_sequence f) (pf_sequence f - expected_next)))
        else if decide ((pf_observer f, pf_observer_incarnation f)
                          ∈ ev_retired_observer_incarnations e) then (Replay, None)
        else (Restarted, None)
    | None => (First, None)
    end.

(** [Evaluator::update_lineage]. *)
Definition update_lineage (e : Evaluator) (f : PulseFrameV1) (d : ArrivalDispositionV1) : Evaluator :=
  let e :=
    match ev_observer_lineages e !! pf_observer f with
    | Some old =>
        if decide (d = Restarted) then
          set_ev_retired_observer_incarnations e
            ({[(pf_observer f, ol_incarnation old)]} ∪ ev_retired_observer_incarnations e)
        else e
    | None => e
    end in
  set_ev_observer_lineages e
    (<[pf_observer f := mkLineage (pf_observer_incarnation f) (pf_sequence f)]>
       (ev_observer_lineages e)).

Definition contradiction_key (e : Evaluator) (signal : string) (evidence_refs : list string)
  : ContradictionId :=
  "contradiction:" +:+ trim_start_matches "sha256:"
    (digest_parts "contradiction.record.v1"
       ([ rl_subject (ev_policy e);
          ev_current_subject_incarnation e;
          rl_generation (ev_policy e);
          signal ] ++ evidence_refs)).

(** [Evaluator::create_contradiction]. *)
Definition create_contradiction (e : Evaluator) (signal : string)
    (evidence_refs statements : list string) (at_ms : Z) : Evaluator :=
  let evidence_refs := dedup (sort_strings evidence_refs) in
  let statements := dedup (sort_strings statements) in
  let contradiction_id := contradiction_key e signal evidence_refs in
  match ev_contradictions e !! contradiction_id with
  | Some _ => e
  | None =>
      let record :=
        {| cr_schema_version := SCHEMA_VERSION_V1;
           cr_contradiction_id := contradiction_id;
           cr_subject_scope := subject_scope e;
           cr_policy_generation := rl_generation (ev_policy e);
           cr_signal := signal;
           cr_first_observed_at_monotonic_ms := at_ms;
           cr_evidence_refs := evidence_refs;
           cr_incompatible_statements := statements;
           cr_status := Active |} in
      push_event (set_ev_contradictions e (<[contradiction_id := record]> (ev_contradictions e)))
        at_ms (EvContradictionCreated record)
  end.

(** [Evaluator::record_subject_incarnation_change]. *)
Definition record_subject_incarnation_change (e : Evaluator) (r : ReceivedPulseV1) (at_ms : Z)
  : Evaluator :=
  let old := ev_current_subject_incarnation e in
  let new := pf_subject_incarnation (rp_frame r) in
  let references :=
    ((fun x => evidence_ref (rp_frame (oe_received x))) <$> relevant_evidence e)
    ++ [evidence_ref (rp_frame r)] in
  let statements :=
    ["subject incarnation observed as " +:+ old; "subject incarnation observed as " +:+ new] in
  let e := set_ev_retired_subject_incarnations e ({[old]} ∪ ev_retired_subject_incarnations e) in
  let e := set_ev_current_subject_incarnation e new in
  create_contradiction e "subject_incarnation" references statements at_ms.

(** The evidence [detect_signal_contradictions] compares with the pulse. *)
Definition comparable_evidence (e : Evaluator) (r : ReceivedPulseV1) (at_ms : Z)
  : list ObserverEvidence :=
  filter (fun x =>
            pf_observer (rp_frame (oe_received x)) ≠ pf_observer (rp_frame r)
            ∧ pf_subject_incarnation (rp_frame (oe_received x)) = pf_subject_incarnation (rp_frame r)
            ∧ at_ms < oe_expires_at_ms x
            ∧ provenance_is_eligible (ev_policy e) x = true)
    (bt_values (ev_observers e)).

(** [signals.iter().find(|signal| signal.name == name)]. *)
Definition find_signal (name : string) (signals : list BoundedSignalValueV1)
  : option BoundedSignalValueV1 :=
  List.find (fun s => String.eqb (sg_name s) name) signals.

(** The candidates one stored evidence item contributes. *)
Definition signal_candidates (p : ReliancePolicyV1) (incoming_frame : PulseFrameV1)
    (x : ObserverEvidence) : list (string * (list string * list string)) :=
  let existing_frame := rp_frame (oe_received x) in
  flat_map
    (fun incoming =>
       match find_signal (sg_name incoming) (pf_signals existing_frame) with
       | None => []
       | Some existing =>
           if signals_are_incompatible incoming existing
                (rl_coherence_tolerances p !! sg_name incoming)
           then [(sg_name incoming,
                  ([evidence_ref incoming_frame; evidence_ref existing_frame],
                   [signal_statement (pf_observer incoming_frame) incoming;
                    signal_statement (pf_observer existing_frame) existing]))]
           else []
       end)
    (pf_signals incoming_frame).

(** [Evaluator::detect_signal_contradictions]. *)
Definition detect_signal_contradictions (e : Evaluator) (r : ReceivedPulseV1) (at_ms : Z)
  : Evaluator :=
  if negb (received_provenance_is_eligible (ev_policy e) r) then e
  else
    fold_left
      (fun e '(signal, (references, statements)) =>
         create_contradiction e signal references statements at_ms)
      (flat_map (signal_candidates (ev_policy e) (rp_frame r)) (comparable_evidence e r at_ms))
      e.

(** [Evaluator::record_adverse_supersession]. *)
Definition record_adverse_supersession (e : Evaluator) (r : ReceivedPulseV1) (at_ms : Z)
  : Evaluator :=
  match ev_observers e !! pf_observer (rp_frame r) with
  | None => e
  | Some prior =>
      let prior_frame := rp_frame (oe_received prior) in
      let adverse :=
        sg_name <$> filter (fun s => sg_assessment s = OutsideDeclaredBound)
                      (pf_signals prior_frame) in
      if bool_decide (adverse = []) then e
      else
        let rule :=
          if decide (pf_observer_incarnation prior_frame = pf_observer_incarnation (rp_frame r))
          then "same_observer_newer_sequence/v1"
          else "observer_incarnation_replacement/v1" in
        push_event e at_ms
          (EvAdverseObservationSuperseded (pf_observer (rp_frame r)) (evidence_ref prior_frame)
             (evidence_ref (rp_frame r)) (sort_strings adverse) rule)
  end.

(** [{:?}] of a disposition. *)
Definition disposition_debug (d : ArrivalDispositionV1) : string :=
  match d with
  | First => "First" | Continuous => "Continuous" | Gap => "Gap" | Duplicate => "Duplicate"
  | Replay => "Replay" | Restarted => "Restarted" | Stale => "Stale"
  end.

Definition bump_dropped (e : Evaluator) : Evaluator :=
  set_ev_metrics e
    (set_em_dropped_stale_pulse_count (ev_metrics e)
       (sat_add (em_dropped_stale_pulse_count (ev_metrics e)) 1)).
Definition bump_duplicate (e : Evaluator) : Evaluator :=
  set_ev_metrics e
    (set_em_duplicate_count (ev_metrics e) (sat_add (em_duplicate_count (ev_metrics e)) 1)).
Definition bump_gap (e : Evaluator) : Evaluator :=
  set_ev_metrics e
    (set_em_sequence_gap_count (ev_metrics e) (sat_add (em_sequence_gap_count (ev_metrics e)) 1)).

(** Latch blindness with one monitor event. *)
Definition go_blind (e : Evaluator) (at_ms : Z) (detail : string) : Evaluator :=
  (monitor_event (set_ev_monitor_capability e (Blind detail)) at_ms "blind" detail).1.

(** The last case is [unreachable!] in the source: [ingest] returned before. *)
Definition continuity_of (d : ArrivalDispositionV1) : SequenceContinuityDimensionV1 :=
  match d with
  | Gap => SeqGapped
  | Restarted => SeqRestarted
  | First => SeqFirstSeen
  | Continuous => SeqContinuous
  | Duplicate | Replay | Stale => SeqUnknown
  end.

(** The tail of [ingest] that admits the pulse as evidence. *)
Definition admit_evidence (e : Evaluator) (r : ReceivedPulseV1) (now effective_validity delay : Z)
  : Evaluator :=
  let disposition := ra_disposition (rp_receiver r) in
  let e := update_lineage e (rp_frame r) disposition in
  let e := detect_signal_contradictions e r now in
  let e := record_adverse_supersession e r now in
  let remaining_validity := effective_validity - delay in
  let expires_at_ms := sat_add (ra_arrival_monotonic_ms (rp_receiver r)) remaining_validity in
  set_ev_observers e
    (<[pf_observer (rp_frame r) := mkEvidence r expires_at_ms (continuity_of disposition)]>
       (ev_observers e)).

(** [frame.validity_ms.min(policy.maximum_validity_ms)]. *)
Definition effective_validity (e : Evaluator) (f : PulseFrameV1) : Z :=
  Z.min (pf_validity_ms f) (rl_maximum_validity_ms (ev_policy e)).

(** [ingest] for a disposition that advances its lineage: a pulse too late
    for this policy only advances the lineage; a retired subject incarnation is
    dropped; a new one is recorded as a contradiction first. *)
Definition ingest_advancing (e : Evaluator) (r : ReceivedPulseV1) (now : Z) : Evaluator :=
  let f := rp_frame r in
  let validity := effective_validity e f in
  let delay := default 0 (ra_transport_observed_delay_ms (rp_receiver r)) in
  if validity <=? delay then bump_dropped (update_lineage e f (ra_disposition (rp_receiver r)))
  else if decide (pf_subject_incarnation f = ev_current_subject_incarnation e) then
    admit_evidence e r now validity delay
  else if decide (pf_subject_incarnation f ∈ ev_retired_subject_incarnations e) then
    bump_dropped e
  else
    admit_evidence (record_subject_incarnation_change e r now) r now validity delay.

(** [ingest] once the annotation has been found consistent. *)
Definition ingest_consistent (e : Evaluator) (r : ReceivedPulseV1) (now : Z) : Evaluator :=
  match ra_disposition (rp_receiver r) with
  | Duplicate => bump_duplicate e
  | Replay | Stale => bump_dropped e
  | Gap => ingest_advancing (bump_gap e) r now
  | First | Continuous | Restarted => ingest_advancing e r now
  end.

(** [ingest] after validation and binding, before the final evaluation. *)
Definition ingest_state (e : Evaluator) (r : ReceivedPulseV1) (now : Z) : Evaluator :=
  let arrival := ra_arrival_monotonic_ms (rp_receiver r) in
  let e := set_ev_metrics e
             (set_em_pulse_to_evaluation_latency_ms (ev_metrics e) (sat_sub now arrival)) in
  if match ev_last_receiver_arrival_ms e with Some prior => arrival <? prior | None => false end then
    go_blind e now "receiver monotonic arrival regressed within one clock generation"
  else
    let e := set_ev_last_receiver_arrival_ms e
               (Some (match ev_last_receiver_arrival_ms e with
                      | Some prior => Z.max prior arrival
                      | None => arrival
                      end)) in
    let '(disposition, gap) := classify_arrival e (rp_frame r) (rp_receiver r) in
    if decide (disposition = ra_disposition (rp_receiver r)
               ∧ gap = ra_sequence_gap (rp_receiver r)) then
      ingest_consistent e r now
    else
      go_blind e now
        ("receiver annotation mismatch: expected " +:+ disposition_debug disposition
         +:+ ", received " +:+ disposition_debug (ra_disposition (rp_receiver r))).

(** [Evaluator::ingest]. *)
Definition ingest (e : Evaluator) (r : ReceivedPulseV1) (now : Z) : outcome :=
  let event_log_start := length (ev_event_log e) in
  match received_validate r with
  | Err error => fail e "invalid_pulse" (pulse_error_display error)
  | Ok _ =>
      match validate_binding e r with
      | Err error => (e, Err error)
      | Ok _ =>
          if now <? ra_arrival_monotonic_ms (rp_receiver r) then
            fail e "evaluation_before_arrival"
              "evaluation time precedes receiver-observed arrival"
          else ok_evaluate_since (ingest_state e r now) now event_log_start
      end
  end.

(* ------------------------------------------------------------------ *)
(** ** Construction and the other commands *)

(** [x.validate().map_err(|_| EvaluatorError::new(code, detail))]. *)
Definition evaluator_identity (kind value code detail : string) : result EvaluatorError unit :=
  map_err (fun _ => mkEvaluatorError code detail) (validate_identity kind value).

(** [Evaluator::new]. *)
Definition evaluator_new (policy : ReliancePolicyV1)
    (receiver receiver_incarnation clock_id initial_subject_incarnation : string)
  : result EvaluatorError Evaluator :=
  map_err from_policy (policy_validate policy);;
  evaluator_identity "ReceiverId" receiver "invalid_receiver" "invalid receiver identity";;
  evaluator_identity "IncarnationId" receiver_incarnation "invalid_receiver"
    "invalid receiver incarnation";;
  evaluator_identity "ClockId" clock_id "invalid_clock" "invalid receiver clock identity";;
  evaluator_identity "IncarnationId" initial_subject_incarnation "invalid_subject"
    "invalid subject incarnation";;
  Ok {| ev_policy := policy;
        ev_receiver := receiver;
        ev_receiver_incarnation := receiver_incarnation;
        ev_clock_id := clock_id;
        ev_current_subject_incarnation := initial_subject_incarnation;
        ev_retired_subject_incarnations := ∅;
        ev_observer_lineages := ∅;
        ev_retired_observer_incarnations := ∅;
        ev_observers := ∅;
        ev_contradictions := ∅;
        ev_diagnostic_evidence := [];
        ev_issued_requests := ∅;
        ev_active_escalations := ∅;
        ev_monitor_capability := Operational;
        ev_escalation_state := NotRequested;
        ev_reevaluation_barrier := None;
        ev_last_judgment := None;
        ev_last_positive_support_deadline_ms := None;
        ev_last_receiver_arrival_ms := None;
        ev_last_evaluation_ms := None;
        ev_transition_counter := 0;
        ev_request_counter := 0;
        ev_event_counter := 0;
        ev_metrics := metrics_empty;
        ev_fault_started_at_ms := None;
        ev_normal_trace := false;
        ev_event_log := [] |}.

(** [observers.clear(); observer_lineages.clear(); retired_observer_incarnations.clear()]. *)
Definition clear_observers (e : Evaluator) : Evaluator :=
  set_ev_retired_observer_incarnations
    (set_ev_observer_lineages (set_ev_observers e ∅) ∅) ∅.

(** [escalation_state = NotRequested; reevaluation_barrier = Some(barrier)]. *)
Definition raise_barrier (e : Evaluator) (barrier : ReevaluationBarrierV1) : Evaluator :=
  set_ev_reevaluation_barrier (set_ev_escalation_state e NotRequested) (Some barrier).

(** [Evaluator::install_reevaluation_barrier]. *)
Definition install_reevaluation_barrier (e : Evaluator) (barrier : ReevaluationBarrierV1) (at_ms : Z)
  : outcome :=
  ok_evaluate (raise_barrier e barrier) at_ms.

(** [replace_policy] after its guards, before the evaluation: evidence of
    another profile or observation policy is cleared. *)
Definition replace_policy_state (e : Evaluator) (policy : ReliancePolicyV1)
    (barrier : ReevaluationBarrierV1) : Evaluator :=
  let e :=
    if decide (rl_observation_profile policy = rl_observation_profile (ev_policy e)
               ∧ rl_observation_policy_generation policy
                 = rl_observation_policy_generation (ev_policy e))
    then e else clear_observers e in
  raise_barrier (set_ev_policy e policy) barrier.

(** [Evaluator::replace_policy]. *)
Definition replace_policy (e : Evaluator) (policy : ReliancePolicyV1)
    (barrier : ReevaluationBarrierV1) (at_ms : Z) : outcome :=
  match policy_validate policy with
  | Err error => (e, Err (from_policy error))
  | Ok _ =>
      if decide (rl_subject policy = rl_subject (ev_policy e)
                 ∧ rl_scope policy = rl_scope (ev_policy e)
                 ∧ rl_consumer policy = rl_consumer (ev_policy e)) then
        ok_evaluate (replace_policy_state e policy barrier) at_ms
      else
        fail e "policy_binding_mismatch"
          "replacement policy changes evaluator subject, scope, or consumer"
  end.

(** Whether a configured replacement makes a record inapplicable. *)
Definition retired_by_replacement (prior : IncarnationId) (r : ContradictionRecordV1) : bool :=
  contradiction_is_active r
  && bool_decide (ss_subject_incarnation (cr_subject_scope r) = prior).

Definition retire_contradiction (prior replacement : IncarnationId) (at_ms : Z)
    (r : ContradictionRecordV1) : ContradictionRecordV1 :=
  set_contradiction_status
    (InapplicableBySubjectReplacement prior replacement at_ms "subject_incarnation_replacement/v1") r.

(** The contradiction part of a replacement: records of the prior incarnation
    become inapplicable, one event each. *)
Definition retire_contradictions (e : Evaluator) (replacement : IncarnationId) (at_ms : Z)
  : Evaluator :=
  let prior := ev_current_subject_incarnation e in
  let changed :=
    retire_contradiction prior replacement at_ms
      <$> filter (fun r => retired_by_replacement prior r = true)
            (bt_values (ev_contradictions e)) in
  let e := set_ev_contradictions e
             ((fun r => if retired_by_replacement prior r
                        then retire_contradiction prior replacement at_ms r else r)
                <$> ev_contradictions e) in
  fold_left (fun e r => push_event e at_ms (EvContradictionLifecycleChanged r)) changed e.

(** [replace_subject_incarnation] after its guards, before the evaluation. *)
Definition replace_subject_state (e : Evaluator) (replacement : IncarnationId) (at_ms : Z)
  : Evaluator :=
  let prior := ev_current_subject_incarnation e in
  let e := retire_contradictions e replacement at_ms in
  let e := set_ev_retired_subject_incarnations e
             ({[prior]} ∪ ev_retired_subject_incarnations e) in
  let e := set_ev_current_subject_incarnation e replacement in
  let e := clear_observers e in
  let e := set_ev_diagnostic_evidence e [] in
  raise_barrier e
    (SubjectIncarnationTransition
       ("configured subject incarnation changed from " +:+ prior +:+ " to "
        +:+ replacement
        +:+ "; old standing and hot evidence were not inherited")).

(** [Evaluator::replace_subject_incarnation]. *)
Definition replace_subject_incarnation (e : Evaluator) (replacement : IncarnationId) (at_ms : Z)
  : outcome :=
  match validate_identity "IncarnationId" replacement with
  | Err _ => fail e "invalid_subject" "invalid replacement incarnation"
  | Ok _ =>
      if decide (replacement = ev_current_subject_incarnation e) then
        fail e "duplicate_subject_incarnation" "replacement incarnation is already active"
      else ok_evaluate (replace_subject_state e replacement at_ms) at_ms
  end.

(** [Evaluator::import_contradictions]: records are inserted up to the first
    refused one. *)
Fixpoint import_contradictions (e : Evaluator) (records : list ContradictionRecordV1)
  : Evaluator * result EvaluatorError unit :=
  match records with
  | [] => (e, Ok tt)
  | record :: rest =>
      if negb ((cr_schema_version record =? SCHEMA_VERSION_V1)
               && bool_decide (ss_subject (cr_subject_scope record) = rl_subject (ev_policy e))) then
        (e, Err (mkEvaluatorError "invalid_contradiction_history"
                   "historical contradiction does not bind this evaluator subject"))
      else
        let continue :=
          import_contradictions
            (set_ev_contradictions e
               (<[cr_contradiction_id record := record]> (ev_contradictions e))) rest in
        match ev_contradictions e !! cr_contradiction_id record with
        | Some existing =>
            if decide (existing = record) then continue
            else (e, Err (mkEvaluatorError "contradiction_identity_rebound"
                            "one contradiction identity names different historical content"))
        | None => continue
        end
  end.

Definition set_normal_trace (e : Evaluator) (normal : bool) : Evaluator := set_ev_normal_trace e normal.
Definition mark_failure_start (e : Evaluator) (at_ms : Z) : Evaluator :=
  set_ev_fault_started_at_ms e (Some at_ms).

(** Store a capability and log it. *)
Definition record_capability (e : Evaluator) (state : MonitorCapabilityV1) (at_ms : Z)
  : Evaluator * SparseDurableEventV1 :=
  let '(label, detail) :=
    match state with
    | Operational => ("operational", "monitor observation capability restored")
    | Degraded detail => ("degraded", detail)
    | Blind detail => ("blind", detail)
    end in
  monitor_event (set_ev_monitor_capability e state) at_ms label detail.

(** [Evaluator::set_monitor_capability]. *)
Definition set_monitor_capability (e : Evaluator) (state : MonitorCapabilityV1) (at_ms : Z)
  : outcome :=
  evaluate_recorded (record_capability e state at_ms) at_ms.

Definition count_input_drop (e : Evaluator) (count : Z) : Evaluator :=
  set_ev_metrics e
    (set_em_monitor_input_drop_count (ev_metrics e)
       (sat_add (em_monitor_input_drop_count (ev_metrics e)) count)).

(** [Evaluator::record_monitor_input_drop]. *)
Definition record_monitor_input_drop (e : Evaluator) (count at_ms : Z) (detail : string) : outcome :=
  set_monitor_capability (count_input_drop e count) (Blind detail) at_ms.

(** [restore_monitor_capability] before its evaluation.  The barrier does not
    reset the escalation state. *)
Definition restore_state (e : Evaluator) (at_ms : Z) (detail : string)
  : Evaluator * SparseDurableEventV1 :=
  let '(e, event) :=
    monitor_event (set_ev_monitor_capability e Operational) at_ms "operational" detail in
  (set_ev_reevaluation_barrier e
     (Some (MonitorCapabilityRestored
              ("monitor capability was explicitly restored (" +:+ detail
               +:+ "); a separate evaluation is required"))), event).

(** [Evaluator::restore_monitor_capability]. *)
Definition restore_monitor_capability (e : Evaluator) (at_ms : Z) (detail : string) : outcome :=
  evaluate_recorded (restore_state e at_ms detail) at_ms.

(** [resolve_contradiction] on an active record, before its evaluation. *)
Definition resolve_state (e : Evaluator) (contradiction_id : ContradictionId)
    (resolution : ContradictionResolutionV1) (at_ms : Z) (record : ContradictionRecordV1)
  : Evaluator * SparseDurableEventV1 :=
  let changed :=
    set_contradiction_status
      (Resolved (cres_resolver resolution) at_ms (cres_rule resolution)
         (cres_explanation resolution)) record in
  sparse_event (set_ev_contradictions e (<[contradiction_id := changed]> (ev_contradictions e)))
    at_ms (EvContradictionLifecycleChanged changed).

(** [Evaluator::resolve_contradiction]. *)
Definition resolve_contradiction (e : Evaluator) (contradiction_id : ContradictionId)
    (resolution : ContradictionResolutionV1) (at_ms : Z) : outcome :=
  if (slen (cres_resolver resolution) =? 0) || (slen (cres_rule resolution) =? 0)
     || (slen (cres_explanation resolution) =? 0) then
    fail e "invalid_resolution" "resolution identity, rule, and explanation are required"
  else
    match ev_contradictions e !! contradiction_id with
    | None => fail e "unknown_contradiction" "contradiction does not exist"
    | Some record =>
        if negb (contradiction_is_active record) then
          fail e "contradiction_not_active" "only an active contradiction can be resolved"
        else evaluate_recorded (resolve_state e contradiction_id resolution at_ms record) at_ms
    end.

Definition disposition_state (d : EscalationDispositionV1) : EscalationStateV1 :=
  match ed_kind d with
  | Accept _ => Accepted (ed_request_id d)
  | Refuse _ detail => Refused (ed_request_id d) detail
  | Narrow _ _ _ => Narrowed (ed_request_id d)
  | Defer _ _ => Deferred (ed_request_id d)
  end.

(** [Evaluator::record_escalation_disposition]. *)
Definition record_escalation_disposition (e : Evaluator) (d : EscalationDispositionV1) (now : Z)
  : outcome :=
  if negb ((ed_schema_version d =? SCHEMA_VERSION_V1) && negb (slen (ed_bridge_id d) =? 0)
           && bool_decide (ed_clock_id d = ev_clock_id e)) then
    fail e "invalid_disposition" "disposition schema, bridge, or clock binding is invalid"
  else
    match ev_issued_requests e !! ed_request_id d with
    | None => fail e "unknown_request" "disposition references an unknown request"
    | Some _ =>
        if now <? ed_decided_at_monotonic_ms d then
          fail e "evaluation_before_disposition"
            "evaluation time precedes the bridge disposition occurrence"
        else
          evaluate_recorded
            (sparse_event (set_ev_escalation_state e (disposition_state d))
               (ed_decided_at_monotonic_ms d) (EvEscalationDisposition d)) now
    end.

(** The binding test of [record_diagnostic_receipt]. *)
Definition receipt_binds (e : Evaluator) (request : DiagnosticEscalationRequestV1)
    (receipt : MockDiagnosticReceiptV1) (at_ms : Z) : bool :=
  (rc_schema_version receipt =? SCHEMA_VERSION_V1)
  && bool_decide (rc_request_id receipt = rq_request_id request)
  && bool_decide (rc_causal_transition_id receipt = rq_causal_transition_id request)
  && bool_decide (rc_deduplication_key receipt = rq_deduplication_key request)
  && bool_decide (rc_evidence_window_digest receipt = rq_evidence_window_digest request)
  && bool_decide (rc_subject_scope receipt = rq_subject_scope request)
  && bool_decide (rc_consumer receipt = rq_consumer request)
  && bool_decide (rc_policy_generation receipt = rq_policy_generation request)
  && bool_decide (rc_observation_policy_generation receipt
                  = rq_observation_policy_generation request)
  && bool_decide (rc_diagnostic_profile receipt = rq_diagnostic_profile request)
  && bool_decide (rc_clock_id receipt = ev_clock_id e)
  && negb (rc_completed_at_monotonic_ms receipt <? rc_started_at_monotonic_ms receipt)
  && negb (at_ms <? rc_completed_at_monotonic_ms receipt).

(** [record_diagnostic_receipt] on a bound receipt, before its evaluation. *)
Definition receipt_state (e : Evaluator) (receipt : MockDiagnosticReceiptV1) (at_ms : Z)
  : Evaluator * SparseDurableEventV1 :=
  let reference :=
    {| der_receipt_id := rc_receipt_id receipt;
       der_result_digest := rc_result_digest receipt;
       der_recorded_at_monotonic_ms := at_ms;
       der_applicable_until_monotonic_ms := rc_applicable_until_monotonic_ms receipt;
       der_nonclaims := rc_nonclaims receipt |} in
  let e := set_ev_diagnostic_evidence e (ev_diagnostic_evidence e ++ [reference]) in
  let e := set_ev_escalation_state e
             (Completed (rc_request_id receipt) (rc_receipt_id receipt)) in
  sparse_event e at_ms (EvDiagnosticReceiptCorrelated receipt reference).

(** [Evaluator::record_diagnostic_receipt]. *)
Definition record_diagnostic_receipt (e : Evaluator) (receipt : MockDiagnosticReceiptV1) (at_ms : Z)
  : outcome :=
  match ev_issued_requests e !! rc_request_id receipt with
  | None => fail e "unknown_request" "receipt references an unknown request"
  | Some request =>
      if negb (receipt_binds e request receipt at_ms) then
        fail e "receipt_binding_mismatch" "diagnostic receipt does not exactly bind its request"
      else
        evaluate_recorded (receipt_state e receipt at_ms) at_ms
  end.

End operations.

#[global] Arguments hex16 : simpl never.
#[global] Arguments evaluate : simpl never.
