(* ===== verification/EvalSamples.v ===== *)
(** * Sample policies and evaluator runs *)

From S2P Require Import Prelude Ids Digest Pulse Samples Judgment Escalation Event Policy.
From S2P Require Import EvaluatorState Derive Explain Evaluator.

Definition sample_escalation : EscalationPolicyV1 :=
  {| ep_triggers := [FreshnessLost; CoverageCollapse; ContradictionRetained];
     ep_diagnostic_profile :=
       mkDiagnosticProfile "local.readonly.summary" 1
         (digest_parts "diagnostic.profile.v1" ["local.readonly.summary"; be_bytes 2 1]);
     ep_bounds := mkBounds 25 1024 4;
     ep_request_ttl_ms := 100 |}.

Definition sample_policy : ReliancePolicyV1 :=
  {| rl_schema_version := SCHEMA_VERSION_V1;
     rl_subject := "host:a";
     rl_scope := "host";
     rl_consumer := "consumer:display";
     rl_generation := "reliance:1";
     rl_observation_policy_generation := "policy:1";
     rl_observation_profile := sample_profile;
     rl_required_coverage := ["load"; "memory"];
     rl_minimum_observers := 1;
     rl_maximum_validity_ms := 500;
     rl_require_verified_authentication := false;
     rl_coherence_tolerances := ∅;
     rl_observer_failure_domains := ∅;
     rl_escalation := Some sample_escalation |}.

(** [sample_policy] with a shorter maximum validity, as a new generation. *)
Definition narrow_policy : ReliancePolicyV1 :=
  {| rl_schema_version := SCHEMA_VERSION_V1;
     rl_subject := "host:a";
     rl_scope := "host";
     rl_consumer := "consumer:display";
     rl_generation := "reliance:2";
     rl_observation_policy_generation := "policy:1";
     rl_observation_profile := sample_profile;
     rl_required_coverage := ["load"; "memory"];
     rl_minimum_observers := 1;
     rl_maximum_validity_ms := 100;
     rl_require_verified_authentication := false;
     rl_coherence_tolerances := ∅;
     rl_observer_failure_domains := ∅;
     rl_escalation := Some sample_escalation |}.

Definition unwrap_or {E A} (d : A) (r : result E A) : A := match r with Ok a => a | Err _ => d end.

Definition blank_evaluator : Evaluator :=
  mkEvaluator sample_policy "receiver:a" "receiver-process:1" "clock:1" "boot:1" ∅ ∅ ∅ ∅ ∅ []
    ∅ ∅ Operational NotRequested None None None None None 0 0 0 metrics_empty None false [].

Definition sample_evaluator : Evaluator :=
  unwrap_or blank_evaluator
    (evaluator_new sample_policy "receiver:a" "receiver-process:1" "clock:1" "boot:1").

Definition sample_received (arrival : Z) : ReceivedPulseV1 :=
  mkReceived sample_frame (sample_annotation arrival First).

(** The evaluator after one admitted pulse that arrived and was evaluated at 10. *)
Definition current_evaluator : Evaluator := (ingest sample_evaluator (sample_received 10) 10).1.

Definition output_of (o : outcome) : option EvaluationOutput :=
  match o.2 with Ok out => Some out | Err _ => None end.
Definition category_of (o : outcome) : option JudgmentCategoryV1 :=
  (fun out => pj_category (eo_judgment out)) <$> output_of o.
Definition deadline_of (o : outcome) : option (option Z) :=
  (fun out => pj_positive_support_expires_at_monotonic_ms (eo_judgment out)) <$> output_of o.
