(* ===== verification/Bridge.v ===== *)
(** * The diagnostic bridge stub: [crates/pulse-l3-bridge/src/lib.rs]

    The closed-profile bridge that decides escalation requests. *)

From S2P Require Import Prelude Ids Digest Pulse Judgment Escalation Event.

Definition STUB_PROFILE_NAME : string := "local.readonly.summary".
Definition STUB_PROFILE_VERSION : Z := 1.
Definition STUB_RECEIPT_VALIDITY_MS : Z := 250.

Record BridgeOutcome := mkBridgeOutcome {
  bo_disposition : EscalationDispositionV1;
  bo_receipt : option MockDiagnosticReceiptV1;
}.

Record StubL3Bridge := mkBridge {
  sb_bridge_id : BridgeId;
  sb_clock_id : ClockId;
  sb_profile : DiagnosticProfileIdV1;
  sb_bounds : DiagnosticBoundsV1;
  sb_available : bool;
  sb_outcomes : gmap string BridgeOutcome;
  sb_active_deduplication : gmap string (Z * EscalationRequestId);
}.

Section bridge.
Context `{Sha256}.

Definition stub_profile_identity : DiagnosticProfileIdV1 :=
  mkDiagnosticProfile STUB_PROFILE_NAME STUB_PROFILE_VERSION
    (digest_parts "diagnostic.profile.v1" [STUB_PROFILE_NAME; be_bytes 2 STUB_PROFILE_VERSION]).

(** [StubL3Bridge::new]. *)
Definition bridge_new (bridge_id clock_id : string) : StubL3Bridge :=
  mkBridge bridge_id clock_id stub_profile_identity (mkBounds 50 4096 8) true ∅ ∅.

Definition set_available (b : StubL3Bridge) (available : bool) : StubL3Bridge :=
  mkBridge (sb_bridge_id b) (sb_clock_id b) (sb_profile b) (sb_bounds b) available
    (sb_outcomes b) (sb_active_deduplication b).

Definition set_outcomes (b : StubL3Bridge) (outcomes : gmap string BridgeOutcome)
    (active : gmap string (Z * EscalationRequestId)) : StubL3Bridge :=
  mkBridge (sb_bridge_id b) (sb_clock_id b) (sb_profile b) (sb_bounds b) (sb_available b)
    outcomes active.

Definition disposition (b : StubL3Bridge) (request : DiagnosticEscalationRequestV1) (now : Z)
    (kind : EscalationDispositionKindV1) : EscalationDispositionV1 :=
  {| ed_schema_version := SCHEMA_VERSION_V1;
     ed_request_id := rq_request_id request;
     ed_bridge_id := sb_bridge_id b;
     ed_clock_id := sb_clock_id b;
     ed_decided_at_monotonic_ms := now;
     ed_kind := kind;
     ed_mutation_authority := MutationNone |}.

Definition refuse (b : StubL3Bridge) (request : DiagnosticEscalationRequestV1) (now : Z)
    (code detail : string) : BridgeOutcome :=
  mkBridgeOutcome (disposition b request now (Refuse code detail)) None.

Definition defer (b : StubL3Bridge) (request : DiagnosticEscalationRequestV1) (now : Z)
    (code detail : string) : BridgeOutcome :=
  mkBridgeOutcome (disposition b request now (Defer code detail)) None.

Definition narrow (b : StubL3Bridge) (request : DiagnosticEscalationRequestV1) (now : Z)
  : BridgeOutcome :=
  mkBridgeOutcome
    (disposition b request now
       (Narrow (sb_profile b) (narrowed_to (rq_bounds request) (sb_bounds b))
          "requested bounds exceed the compiled local profile limits; explicit resubmission required"))
    None.

Definition result_digest (request : DiagnosticEscalationRequestV1)
    (results : list DiagnosticResultEntryV1) (started completed : Z) : DigestV1 :=
  digest_parts "diagnostic.stub.result.v1"
    ([ rq_request_id request;
       ss_subject (rq_subject_scope request);
       ss_scope (rq_subject_scope request);
       be_bytes 8 started;
       be_bytes 8 completed ]
     ++ flat_map (fun r => [dre_name r; dre_value r; dre_interpretation r]) results).

(** The results the compiled stub reports. *)
Definition stub_results (request : DiagnosticEscalationRequestV1) : list DiagnosticResultEntryV1 :=
  [ mkResultEntry "stub_execution" "completed" "the compiled harmless local stub returned";
    mkResultEntry "subject_scope_binding"
      (ss_subject (rq_subject_scope request) +:+ "/" +:+ ss_scope (rq_subject_scope request))
      "request correlation only; no subject condition inferred" ].

(** The receipt of [accept]. *)
Definition stub_receipt (b : StubL3Bridge) (request : DiagnosticEscalationRequestV1) (now : Z)
  : MockDiagnosticReceiptV1 :=
  let completed := sat_add now 1 in
  let results := stub_results request in
  let rdigest := result_digest request results now completed in
  let run_digest :=
    digest_parts "diagnostic.stub.run.v1" [rq_request_id request; be_bytes 8 now; rdigest] in
  let run_id := "run:" +:+ trim_start_matches "sha256:" run_digest in
  let receipt_digest :=
    digest_parts "diagnostic.stub.receipt.v1" [run_id; rq_request_id request; rdigest] in
  {| rc_schema_version := SCHEMA_VERSION_V1;
     rc_receipt_id := "receipt:" +:+ trim_start_matches "sha256:" receipt_digest;
     rc_run_id := run_id;
     rc_request_id := rq_request_id request;
     rc_causal_transition_id := rq_causal_transition_id request;
     rc_deduplication_key := rq_deduplication_key request;
     rc_evidence_window_digest := rq_evidence_window_digest request;
     rc_subject_scope := rq_subject_scope request;
     rc_consumer := rq_consumer request;
     rc_policy_generation := rq_policy_generation request;
     rc_observation_policy_generation := rq_observation_policy_generation request;
     rc_diagnostic_profile := rq_diagnostic_profile request;
     rc_bridge_id := sb_bridge_id b;
     rc_clock_id := sb_clock_id b;
     rc_started_at_monotonic_ms := now;
     rc_completed_at_monotonic_ms := completed;
     rc_applicable_until_monotonic_ms :=
       Z.min (sat_add completed STUB_RECEIPT_VALIDITY_MS) (rq_expires_at_monotonic_ms request);
     rc_status := ReceiptCompleted;
     rc_results := results;
     rc_observed_coverage := ["stub.bridge"; "stub.profile"];
     rc_result_digest := rdigest;
     rc_nonclaims :=
       [ "This is a mock local diagnostic receipt, not an NQ artifact.";
         "Stub completion does not establish subject health or resolve contradiction.";
         "This receipt grants no execution, repair, or mutation authority." ];
     rc_mutation_authority := MutationNone |}.

Definition accept (b : StubL3Bridge) (request : DiagnosticEscalationRequestV1) (now : Z)
  : BridgeOutcome :=
  mkBridgeOutcome (disposition b request now (Accept (rq_bounds request)))
    (Some (stub_receipt b request now)).

(** The decision of [handle] for a request it has not seen, on a state whose
    expired deduplication entries are gone. *)
Definition decide_request (b : StubL3Bridge) (request : DiagnosticEscalationRequestV1) (now : Z)
  : BridgeOutcome :=
  match request_validate request with
  | Err error => refuse b request now (ee_code error) (ee_detail error)
  | Ok _ =>
      if negb (bool_decide (rq_clock_id request = sb_clock_id b)) then
        refuse b request now "clock_mismatch" "bridge and request monotonic clock generations differ"
      else if now <? rq_created_at_monotonic_ms request then
        refuse b request now "request_from_future" "bridge time precedes request creation"
      else if rq_expires_at_monotonic_ms request <=? now then
        refuse b request now "request_expired"
          "diagnostic request reached inclusive expiry before execution"
      else if negb (bool_decide (rq_diagnostic_profile request = sb_profile b)) then
        refuse b request now "profile_not_registered"
          "requested diagnostic profile is absent from the closed registry"
      else
        match sb_active_deduplication b !! rq_deduplication_key request with
        | Some (_, active_request) =>
            defer b request now "equivalent_request_active"
              ("equivalent request " +:+ active_request +:+ " is already active")
        | None =>
            if negb (sb_available b) then
              defer b request now "bridge_unavailable"
                "local diagnostic capacity is temporarily unavailable; expiry is unchanged"
            else if negb (fits_within (rq_bounds request) (sb_bounds b)) then narrow b request now
            else accept b request now
        end
  end.

Definition is_accept (o : BridgeOutcome) : bool :=
  match ed_kind (bo_disposition o) with Accept _ => true | _ => false end.

(** [StubL3Bridge::handle]. *)
Definition handle (b : StubL3Bridge) (request : DiagnosticEscalationRequestV1) (now : Z)
  : StubL3Bridge * BridgeOutcome :=
  match sb_outcomes b !! rq_request_id request with
  | Some existing => (b, existing)
  | None =>
      let active := filter (fun '(_, (expiry, _)) => now < expiry) (sb_active_deduplication b) in
      let b := set_outcomes b (sb_outcomes b) active in
      let outcome := decide_request b request now in
      let outcomes := <[rq_request_id request := outcome]> (sb_outcomes b) in
      let active :=
        if is_accept outcome then
          <[rq_deduplication_key request :=
              (rq_expires_at_monotonic_ms request, rq_request_id request)]> active
        else active in
      (set_outcomes b outcomes active, outcome)
  end.

End bridge.
