(* ===== verification/DeriveProps.v ===== *)
(** * Coverage counting, deadlines and what CURRENT means

    The support deadline computed from sorted per-domain expiries is proved
    equal to the instant at which counting failure domains stops giving the
    required number, and the category [CURRENT] is characterised. *)

From S2P Require Import Prelude Ids Digest Pulse Judgment Escalation Event Policy EvaluatorState Derive.

(* ------------------------------------------------------------------ *)
(** ** Lists and filters *)

Lemma filter_filter_swap {A} (P Q : A → Prop) `{∀ x, Decision (P x)} `{∀ x, Decision (Q x)} (l : list A) :
  filter P (filter Q l) = filter Q (filter P l).
Proof.
  induction l as [|x l IH]; [done|].
  rewrite !filter_cons. repeat case_decide; rewrite ?filter_cons; repeat case_decide;
    try done; by rewrite IH.
Qed.

Lemma filter_filter_absorb {A} (P Q : A → Prop) `{∀ x, Decision (P x)} `{∀ x, Decision (Q x)} (l : list A) :
  (∀ x, P x → Q x) → filter P (filter Q l) = filter P l.
Proof.
  intros HPQ. induction l as [|x l IH]; [done|].
  rewrite !filter_cons. repeat case_decide; rewrite ?filter_cons; repeat case_decide;
    try done; try (by rewrite IH); naive_solver.
Qed.

Lemma filter_nil_iff {A} (P : A → Prop) `{∀ x, Decision (P x)} (l : list A) :
  filter P l = [] ↔ ∀ x, x ∈ l → ¬ P x.
Proof.
  split.
  - intros Hnil x Hx HP. assert (x ∈ filter P l) as Hin by by apply list_elem_of_filter.
    rewrite Hnil in Hin. inversion Hin.
  - intros Hno. destruct (filter P l) as [|x xs] eqn:E; [done|].
    assert (x ∈ filter P l) as Hin by (rewrite E; left).
    apply list_elem_of_filter in Hin as [??]. by edestruct Hno.
Qed.

Lemma filter_id {A} (P : A → Prop) `{∀ x, Decision (P x)} (l : list A) :
  (∀ x, x ∈ l → P x) → filter P l = l.
Proof.
  induction l as [|x l IH]; intros Hall; [done|].
  rewrite filter_cons, decide_True by (apply Hall; left).
  f_equal. apply IH. intros y Hy. apply Hall. by right.
Qed.

#[global] Instance Z_desc_total : Total Z_desc.
Proof. intros a b. unfold Z_desc. lia. Qed.
#[global] Instance Z_desc_trans : Transitive Z_desc.
Proof. intros a b c. unfold Z_desc. lia. Qed.

(** In a decreasing list, the element at rank [k] exceeds [t] exactly when
    more than [k] elements do. *)
Lemma desc_rank (l : list Z) k t :
  StronglySorted Z_desc l →
  (∃ v, l !! k = Some v ∧ t < v) ↔ (k < length (filter (λ v, (t < v)%Z) l))%nat.
Proof.
  intros Hs. revert k. induction Hs as [|x l Hs IH Hall]; intros k.
  { cbn. split; [intros (? & ? & ?); done|lia]. }
  rewrite filter_cons. case_decide as Hx; cbn [length].
  - destruct k as [|k]; cbn.
    + split; [lia|]. eauto.
    + rewrite IH. lia.
  - assert (filter (λ v, (t < v)%Z) l = []) as ->.
    { apply filter_nil_iff. intros y Hy.
      rewrite Forall_forall in Hall. specialize (Hall y Hy). unfold Z_desc in Hall. lia. }
    cbn. split; [|lia]. intros (v & Hv & Hlt). exfalso.
    destruct k as [|k]; cbn in Hv; [simplify_eq; lia|].
    rewrite Forall_lookup in Hall. specialize (Hall _ _ Hv). unfold Z_desc in Hall. lia.
Qed.

(** Filtering the values of a map is filtering its entries. *)
Lemma bt_values_filter_length {V} (P : V → Prop) `{∀ v, Decision (P v)} (m : gmap string V) :
  length (filter P (bt_values m)) = size (filter (λ kv : string * V, P kv.2) m).
Proof.
  rewrite <-length_map_to_list. transitivity (length (filter (λ kv : string * V, P kv.2) (map_to_list m))).
  - unfold bt_values. rewrite bt_entries_Permutation.
    induction (map_to_list m) as [|[k v] l IH]; [done|].
    rewrite fmap_cons, !filter_cons. cbn. case_decide; cbn; by rewrite IH.
  - apply Permutation_length, NoDup_Permutation.
    + apply NoDup_filter, NoDup_map_to_list.
    + apply NoDup_map_to_list.
    + intros [k v]. rewrite list_elem_of_filter, !elem_of_map_to_list, map_lookup_filter_Some.
      naive_solver.
Qed.

(* ------------------------------------------------------------------ *)
(** ** Counting domains *)

Section counting.
Context (p : ReliancePolicyV1).
Let declared := rl_observer_failure_domains p.

Lemma elem_of_unique_domains xs d :
  d ∈ unique_domains xs declared ↔ ∃ x, x ∈ xs ∧ evidence_domain declared x = d.
Proof.
  unfold unique_domains. rewrite elem_of_list_to_set, list_elem_of_fmap. naive_solver.
Qed.

Lemma unique_domains_mono xs ys :
  (∀ x, x ∈ xs → x ∈ ys) → (size (unique_domains xs declared) <= size (unique_domains ys declared))%nat.
Proof.
  intros Hsub. apply subseteq_size. intros d. rewrite !elem_of_unique_domains. naive_solver.
Qed.

(** A domain's recorded expiry exceeds [t] exactly when one of its covering
    evidence items does. *)
Lemma expiry_by_domain_spec xs tag d t :
  (∃ v, expiry_by_domain p xs tag !! d = Some v ∧ t < v) ↔
  ∃ x, x ∈ xs ∧ covers tag x = true ∧ evidence_domain declared x = d ∧ t < oe_expires_at_ms x.
Proof.
  unfold expiry_by_domain.
  induction xs as [|x xs IH] using rev_ind; cbn.
  { setoid_rewrite lookup_empty. split; [naive_solver|]. intros (? & Hx & _). inversion Hx. }
  rewrite fold_left_app. cbn. revert IH. set (m := fold_left _ xs _). intros IH.
  setoid_rewrite elem_of_app. setoid_rewrite list_elem_of_singleton.
  destruct (covers tag x) eqn:Hc.
  2:{ rewrite IH. split.
      - intros (y & ? & ?). exists y. eauto.
      - intros (y & [Hy| ->] & Hcy & ?); [exists y; eauto|congruence]. }
  fold declared. destruct (decide (evidence_domain declared x = d)) as [Hd|Hd].
  - rewrite Hd, lookup_insert_eq. split.
    + intros (v & Hv & Hlt). injection Hv as <-.
      destruct (decide (t < oe_expires_at_ms x)); [exists x; eauto|].
      destruct (m !! d) as [w|] eqn:Hw; [|lia].
      destruct (proj1 IH) as (y & ? & ?); [exists w; split; [done|lia]|]. exists y. eauto.
    + intros (y & [Hy| ->] & Hcy & Hdy & Hlt).
      * destruct (proj2 IH) as (v & Hv & Hlt'); [exists y; eauto|].
        rewrite Hv. eexists. split; [done|]. lia.
      * eexists. split; [done|]. destruct (m !! d); lia.
  - rewrite lookup_insert_ne by done. rewrite IH. split.
    + intros (y & ? & ?). exists y. eauto.
    + intros (y & [Hy| ->] & ? & ? & ?); [exists y; eauto|done].
Qed.

Definition later_than (t : Z) (xs : list ObserverEvidence) : list ObserverEvidence :=
  filter (λ x, t < oe_expires_at_ms x) xs.

Definition covering (tag : string) (xs : list ObserverEvidence) : list ObserverEvidence :=
  filter (λ x, covers tag x = true) xs.

Lemma expiry_count xs tag t :
  length (filter (λ v, (t < v)%Z) (bt_values (expiry_by_domain p xs tag)))
  = size (unique_domains (covering tag (later_than t xs)) declared).
Proof.
  rewrite bt_values_filter_length, <-(size_dom (D := gset string)). f_equal.
  apply set_eq. intros d.
  rewrite elem_of_dom, elem_of_unique_domains. unfold covering, later_than.
  setoid_rewrite list_elem_of_filter. setoid_rewrite list_elem_of_filter. split.
  - intros [v Hv]. apply map_lookup_filter_Some in Hv as [Hv Hlt]. cbn in Hlt.
    destruct (proj1 (expiry_by_domain_spec xs tag d t)) as (x & ? & ? & ? & ?); eauto 10.
  - intros (x & (Hc & Hlt & Hx) & Hd).
    destruct (proj2 (expiry_by_domain_spec xs tag d t)) as (v & Hv & Hlt'); [eauto 10|].
    exists v. by apply map_lookup_filter_Some.
Qed.

(** The count the evaluator compares with the policy minimum.  The minimum
    is a [u32], so saturating the count never changes the comparison. *)
Lemma tag_is_active_iff xs tag :
  is_u32 (rl_minimum_observers p) = true →
  tag_is_active p xs tag = true ↔
  rl_minimum_observers p <= Z.of_nat (size (unique_domains (covering tag xs) declared)).
Proof.
  unfold tag_is_active, domain_count_for_tag, len_u32, is_u32. fold declared.
  fold (covering tag xs). intros Hu. split_and_bool. lia.
Qed.

(** The deadline of a tag is the instant its domain count drops below the
    minimum. *)
Lemma tag_deadline_iff xs tag t :
  is_u32 (rl_minimum_observers p) = true → rl_minimum_observers p ≠ 0 →
  (∃ v, tag_deadline p xs tag = Some v ∧ t < v) ↔ tag_is_active p (later_than t xs) tag = true.
Proof.
  intros Hu Hnz. rewrite tag_is_active_iff by done. unfold tag_deadline.
  rewrite desc_rank by apply (StronglySorted_merge_sort Z_desc).
  rewrite (Permutation_length (filter_Permutation (λ v, (t < v)%Z) _ _
             (merge_sort_Permutation Z_desc (bt_values (expiry_by_domain p xs tag))))).
  rewrite expiry_count. unfold is_u32 in Hu. split_and_bool. lia.
Qed.

Lemma deadline_loop_spec xs tags overall d :
  deadline_loop p xs overall tags = Some d →
  d <= overall ∧
  ∀ t, t < d ↔ t < overall ∧ Forall (λ tag, ∃ v, tag_deadline p xs tag = Some v ∧ t < v) tags.
Proof.
  revert overall. induction tags as [|tag tags IH]; intros overall; cbn.
  - intros [= ->]. split; [lia|]. intros t. rewrite Forall_nil. naive_solver.
  - destruct (tag_deadline p xs tag) as [v|] eqn:Hv; cbn; [|done].
    intros [Hle Hiff]%IH. split; [lia|]. intros t. rewrite Hiff, Forall_cons.
    split.
    + intros [Hlt ?]. split; [lia|]. split; [|done]. exists v. rewrite Hv. split; [done|lia].
    + intros (Hlt & (w & Hw & ?) & ?). rewrite Hv in Hw. injection Hw as <-. split; [lia|done].
Qed.

Lemma deadline_loop_None xs tags overall :
  deadline_loop p xs overall tags = None →
  ∃ tag, tag ∈ tags ∧ tag_deadline p xs tag = None.
Proof.
  revert overall. induction tags as [|tag tags IH]; intros overall; cbn; [done|].
  destruct (tag_deadline p xs tag) as [v|] eqn:Hv; cbn.
  - intros (tag' & ? & ?)%IH. exists tag'. split; [by right|done].
  - intros _. exists tag. split; [by left|done].
Qed.

Definition all_active (xs : list ObserverEvidence) : Prop :=
  Forall (λ tag, tag_is_active p xs tag = true) (rl_required_coverage p).

Lemma support_deadline_spec xs d t :
  is_u32 (rl_minimum_observers p) = true → rl_minimum_observers p ≠ 0 →
  support_deadline p xs = Some d →
  t < d ↔ all_active (later_than t xs).
Proof.
  intros Hu Hnz. unfold support_deadline.
  destruct (deadline_loop _ _ _ _) as [o|] eqn:Ho; cbn; [|done].
  destruct (Z.eqb_spec o u64_max) as [|Hne]; [done|]. intros [= ->].
  apply deadline_loop_spec in Ho as [Hle Hiff]. rewrite Hiff.
  unfold all_active. rewrite !Forall_forall. split.
  - intros [_ Hall] tag Htag. apply tag_deadline_iff; auto.
  - intros Hall.
    assert (Hv : ∀ tag, tag ∈ rl_required_coverage p →
              ∃ v, tag_deadline p xs tag = Some v ∧ t < v).
    { intros tag Htag. apply tag_deadline_iff; auto. }
    split; [|done]. destruct (decide (t < u64_max)) as [|Hge]; [done|]. exfalso.
    assert (d < d); [|lia]. apply Hiff. split; [lia|]. apply Forall_forall.
    intros tag Htag. destruct (Hv tag Htag) as (v & ? & ?). exists v. split; [done|lia].
Qed.

(** No deadline is published only for support that lasts until [u64::MAX]. *)
Lemma support_deadline_None xs lo t :
  is_u32 (rl_minimum_observers p) = true → rl_minimum_observers p ≠ 0 →
  all_active xs → (∀ x, x ∈ xs → lo < oe_expires_at_ms x) →
  support_deadline p xs = None → t < u64_max → all_active (later_than t xs).
Proof.
  intros Hu Hnz Hact Hpos. unfold support_deadline.
  destruct (deadline_loop _ _ _ _) as [o|] eqn:Ho; cbn.
  - destruct (Z.eqb_spec o u64_max) as [->|Hne]; [|done]. intros _ Ht.
    apply deadline_loop_spec in Ho as [_ Hiff]. destruct (proj1 (Hiff t) Ht) as [_ Hall].
    unfold all_active. eapply Forall_impl; [exact Hall|]. intros tag. by apply tag_deadline_iff.
  - apply deadline_loop_None in Ho as (tag & Htag & Hnone). intros _ _. exfalso.
    assert (Hact' : tag_is_active p (later_than lo xs) tag = true).
    { unfold all_active in Hact. rewrite Forall_forall in Hact.
      replace (later_than lo xs) with xs; [auto|]. symmetry.
      by apply filter_id. }
    apply tag_deadline_iff in Hact' as (v & Hv & _); [congruence|done|done].
Qed.

Lemma cs_missing_nil xs ys : cs_missing (coverage_summary p xs ys) = [] ↔ all_active xs.
Proof.
  unfold coverage_summary, all_active. cbn. rewrite filter_nil_iff, Forall_forall.
  split; intros Hall tag Htag; specialize (Hall tag Htag); by destruct (tag_is_active p xs tag).
Qed.

(** Active coverage brings the required number of domains with it. *)
Lemma all_active_domains xs :
  is_u32 (rl_minimum_observers p) = true → rl_required_coverage p ≠ [] → all_active xs →
  rl_minimum_observers p <= Z.of_nat (size (unique_domains xs declared)).
Proof.
  intros Hu Hne Hact. unfold all_active in Hact.
  destruct (rl_required_coverage p) as [|tag tags]; [done|].
  apply Forall_cons in Hact as [Htag _]. apply tag_is_active_iff in Htag; [|done].
  enough (size (unique_domains (covering tag xs) declared)
          <= size (unique_domains xs declared))%nat by lia.
  apply unique_domains_mono. intros x Hx. by apply list_elem_of_filter in Hx as [_ ?].
Qed.

End counting.

(* ------------------------------------------------------------------ *)
(** ** What CURRENT means *)

(** The type and validation facts about a policy that evaluation relies on. *)
Record policy_ok (p : ReliancePolicyV1) : Prop := mkPolicyOk {
  po_minimum_u32 : is_u32 (rl_minimum_observers p) = true;
  po_minimum_nonzero : rl_minimum_observers p ≠ 0;
  po_coverage_nonempty : rl_required_coverage p ≠ [];
}.

Lemma policy_validate_ok p :
  is_u32 (rl_minimum_observers p) = true → policy_validate p = Ok tt → policy_ok p.
Proof.
  intros Hu Hv. constructor; [done| |].
  - by apply policy_validate_minimum.
  - by apply policy_validate_coverage.
Qed.

(** The specification of CURRENT, stated on the evidence itself. *)
Record current_at (e : Evaluator) (t : Z) : Prop := mkCurrentAt {
  ca_no_contradiction : ∀ k r, ev_contradictions e !! k = Some r → contradiction_is_active r = false;
  ca_no_violation : ∀ x, x ∈ eligible_fresh e t → violates x = false;
  ca_covered : all_active (ev_policy e) (eligible_fresh e t);
  ca_verified : rl_require_verified_authentication (ev_policy e) = true →
                ∀ x, x ∈ fresh_evidence e t → is_verified x = true;
  ca_unbroken : ∀ x, x ∈ fresh_evidence e t →
                oe_continuity x ≠ SeqGapped ∧ oe_continuity x ≠ SeqRestarted;
  ca_operational : ev_monitor_capability e = Operational;
}.

Lemma existsb_false_iff {A} (f : A → bool) xs :
  existsb f xs = false ↔ ∀ x, x ∈ xs → f x = false.
Proof.
  rewrite <-not_true_iff_false, existsb_exists. setoid_rewrite <-list_elem_of_In. split.
  - intros Hno x Hx. apply not_true_iff_false. eauto.
  - intros Hall (x & Hx & Hf). by rewrite (Hall x Hx) in Hf.
Qed.

Lemma active_contradictions_nil e :
  active_contradictions e = [] ↔
  ∀ k r, ev_contradictions e !! k = Some r → contradiction_is_active r = false.
Proof.
  unfold active_contradictions. rewrite filter_nil_iff. split.
  - intros Hno k r Hk. apply not_true_iff_false. apply Hno, elem_of_bt_values. eauto.
  - intros Hno r (k & Hk)%elem_of_bt_values. by rewrite (Hno k r Hk).
Qed.

Lemma violation_refs_nil e t :
  violation_refs e t = [] ↔ ∀ x, x ∈ eligible_fresh e t → violates x = false.
Proof.
  unfold violation_refs. split.
  - intros Hnil%fmap_nil_inv x Hx. apply not_true_iff_false.
    by apply (proj1 (filter_nil_iff _ _) Hnil).
  - intros Hno. rewrite (proj2 (filter_nil_iff _ _)); [done|]. intros x Hx. by rewrite Hno.
Qed.

Lemma has_continuity_false c xs :
  has_continuity c xs = false ↔ ∀ x, x ∈ xs → oe_continuity x ≠ c.
Proof.
  unfold has_continuity. rewrite existsb_false_iff.
  by setoid_rewrite bool_decide_eq_false.
Qed.

Lemma continuity_dimension_unbroken xs :
  (continuity_dimension xs ≠ SeqGapped ∧ continuity_dimension xs ≠ SeqRestarted
   ∧ continuity_dimension xs ≠ SeqUnknown) ↔
  xs ≠ [] ∧ ∀ x, x ∈ xs → oe_continuity x ≠ SeqGapped ∧ oe_continuity x ≠ SeqRestarted.
Proof.
  unfold continuity_dimension. case_bool_decide as Hnil; [naive_solver|].
  destruct (has_continuity SeqGapped xs) eqn:Hg.
  { split; [naive_solver|]. intros [_ Hall]. exfalso.
    rewrite (proj2 (has_continuity_false _ _)) in Hg; [done|]. intros x Hx. by apply Hall. }
  destruct (has_continuity SeqRestarted xs) eqn:Hr.
  { split; [naive_solver|]. intros [_ Hall]. exfalso.
    rewrite (proj2 (has_continuity_false _ _)) in Hr; [done|]. intros x Hx. by apply Hall. }
  rewrite has_continuity_false in Hg, Hr. split.
  - intros _. split; [done|]. intros x Hx. split; auto.
  - intros _. by destruct (has_continuity SeqFirstSeen xs).
Qed.

Lemma provenance_verified_iff xs :
  xs ≠ [] → provenance_dimension xs = ProvVerified ↔ ∀ x, x ∈ xs → is_verified x = true.
Proof.
  intros Hne. unfold provenance_dimension. rewrite bool_decide_eq_false_2 by done.
  assert (Hdisj : ∀ x, is_verified x = true → is_failed x = false).
  { intros x. unfold is_verified, is_failed. by destruct (ra_authentication _). }
  destruct (existsb is_failed xs) eqn:Hf.
  - split; [done|]. intros Hall. exfalso.
    rewrite (proj2 (existsb_false_iff _ _)) in Hf; [done|]. intros x Hx. auto.
  - destruct (forallb is_verified xs) eqn:Hv.
    + split; [|done]. intros _ x Hx. apply forallb_Forall in Hv. rewrite Forall_forall in Hv. auto.
    + split; [done|]. intros Hall. exfalso.
      rewrite (proj2 (forallb_Forall _ _)) in Hv; [done|]. by apply Forall_forall.
Qed.

Lemma eligible_fresh_sub e t x : x ∈ eligible_fresh e t → x ∈ fresh_evidence e t.
Proof. unfold eligible_fresh. by intros [_ ?]%list_elem_of_filter. Qed.

Lemma fresh_evidence_relevant e t x : x ∈ fresh_evidence e t → x ∈ relevant_evidence e.
Proof. unfold fresh_evidence. by intros [_ ?]%list_elem_of_filter. Qed.

Lemma all_active_nonempty p xs : policy_ok p → all_active p xs → xs ≠ [].
Proof.
  intros [Hu Hnz Hne] Hact ->. pose proof (all_active_domains p [] Hu Hne Hact) as Hle.
  unfold unique_domains in Hle. rewrite fmap_nil, list_to_set_nil, size_empty in Hle.
  unfold is_u32 in Hu. split_and_bool. lia.
Qed.

Lemma freshness_present r f x :
  freshness_dimension r f x ≠ FreshExpired ∧ freshness_dimension r f x ≠ FreshNoEvidence ↔
  r ≠ [] ∧ f ≠ [].
Proof. unfold freshness_dimension. repeat case_bool_decide; naive_solver. Qed.

Lemma derive_category_current p contradicted violated c d :
  derive_category p contradicted violated c d = CatCurrent ↔
  contradicted = false ∧ violated = false ∧ reliance_unknown p c d = false ∧
  (dim_sequence_continuity d ≠ SeqGapped ∧ dim_sequence_continuity d ≠ SeqRestarted
   ∧ dim_sequence_continuity d ≠ SeqUnknown) ∧ dim_transport d ≠ TransDegraded.
Proof.
  unfold derive_category. destruct contradicted; [naive_solver|]. destruct violated; [naive_solver|].
  destruct (reliance_unknown p c d); [naive_solver|].
  repeat case_bool_decide; naive_solver.
Qed.

Lemma reliance_unknown_false p c d :
  reliance_unknown p c d = false ↔
  cs_missing c = [] ∧ dim_observer_availability d = ObsAvailable ∧
  (dim_freshness d ≠ FreshExpired ∧ dim_freshness d ≠ FreshNoEvidence) ∧
  (rl_require_verified_authentication p = true → dim_provenance d = ProvVerified) ∧
  dim_transport d ≠ TransBlind.
Proof.
  unfold reliance_unknown.
  rewrite !orb_false_iff, andb_false_iff, !negb_false_iff, !bool_decide_eq_true, !bool_decide_eq_false.
  destruct (rl_require_verified_authentication p); naive_solver.
Qed.

(** The coverage part of [reliance_unknown] follows from active tags. *)
Lemma covered_availability e t :
  policy_ok (ev_policy e) → all_active (ev_policy e) (eligible_fresh e t) →
  dim_observer_availability (derive_dimensions e t) = ObsAvailable ∧
  relevant_evidence e ≠ [] ∧ fresh_evidence e t ≠ [].
Proof.
  intros Hok Hact. pose proof (all_active_nonempty _ _ Hok Hact) as Hne.
  destruct (eligible_fresh e t) as [|x xs] eqn:E; [done|].
  assert (Hx : x ∈ eligible_fresh e t) by (rewrite E; left).
  pose proof (eligible_fresh_sub _ _ _ Hx) as Hf. pose proof (fresh_evidence_relevant _ _ _ Hf) as Hr.
  split; [|split; intros Hn; rewrite Hn in *; by apply not_elem_of_nil in Hr || by apply not_elem_of_nil in Hf].
  cbn. unfold availability_dimension. rewrite E.
  pose proof (all_active_domains _ _ (po_minimum_u32 _ Hok) (po_coverage_nonempty _ Hok) Hact).
  by rewrite (proj2 (Z.leb_le _ _)).
Qed.

Lemma negb_bool_decide_false {P : Prop} `{Decision P} : negb (bool_decide P) = false ↔ P.
Proof. by rewrite negb_false_iff, bool_decide_eq_true. Qed.

(** CURRENT is exactly [current_at]. *)
Lemma derive_current_iff e t :
  policy_ok (ev_policy e) → ds_category (derive e t) = CatCurrent ↔ current_at e t.
Proof.
  intros Hok. cbn [derive ds_category].
  rewrite derive_category_current, reliance_unknown_false, !negb_bool_decide_false,
    active_contradictions_nil, violation_refs_nil, cs_missing_nil.
  cbn [derive_dimensions dim_sequence_continuity dim_transport dim_freshness dim_provenance].
  rewrite continuity_dimension_unbroken, freshness_present. split.
  - intros (Hc & Hv & (Hact & _ & [_ Hf] & Hp & Hb) & [_ Hu] & Hd). constructor; try done.
    + intros Hreq. apply provenance_verified_iff; auto.
    + by destruct (ev_monitor_capability e).
  - intros [Hc Hv Hact Hp Hu Hop]. destruct (covered_availability e t Hok Hact) as (Ha & Hr & Hf).
    rewrite Hop. repeat split; try done; try (by apply Hu).
    intros Hreq. by apply provenance_verified_iff; auto.
Qed.

(* ------------------------------------------------------------------ *)
(** ** Evidence windows shrink with time *)

Lemma fresh_evidence_later e now t :
  now <= t → fresh_evidence e t = later_than t (fresh_evidence e now).
Proof.
  intros Hle. unfold fresh_evidence, later_than. symmetry. apply filter_filter_absorb. lia.
Qed.

Lemma eligible_fresh_later e now t :
  now <= t → eligible_fresh e t = later_than t (eligible_fresh e now).
Proof.
  intros Hle. unfold eligible_fresh. rewrite (fresh_evidence_later e now t Hle).
  unfold later_than. apply filter_filter_swap.
Qed.

Lemma later_than_sub t xs x : x ∈ later_than t xs → x ∈ xs.
Proof. unfold later_than. by intros [_ ?]%list_elem_of_filter. Qed.

(** Everything but coverage survives the passage of time. *)
Lemma current_at_later e now t :
  now <= t → current_at e now → all_active (ev_policy e) (eligible_fresh e t) → current_at e t.
Proof.
  intros Hle [Hc Hv _ Hp Hu Hop] Hact. constructor; auto.
  - intros x. rewrite (eligible_fresh_later e now t Hle). eauto using later_than_sub.
  - intros Hreq x. rewrite (fresh_evidence_later e now t Hle). eauto using later_than_sub.
  - intros x. rewrite (fresh_evidence_later e now t Hle). eauto using later_than_sub.
Qed.

(** A former CURRENT whose coverage is gone is UNKNOWN, not anything else. *)
Lemma uncovered_unknown e now t :
  now <= t → current_at e now → ¬ all_active (ev_policy e) (eligible_fresh e t) →
  ds_category (derive e t) = CatUnknown.
Proof.
  intros Hle [Hc Hv _ _ _ _] Hno. cbn [derive ds_category]. unfold derive_category.
  rewrite (proj2 negb_bool_decide_false) by (by apply active_contradictions_nil).
  rewrite (proj2 negb_bool_decide_false).
  2:{ apply violation_refs_nil. intros x. rewrite (eligible_fresh_later e now t Hle).
      eauto using later_than_sub. }
  destruct (reliance_unknown _ _ _) eqn:Hr; [done|].
  apply reliance_unknown_false in Hr as [Hm _]. by apply cs_missing_nil in Hm.
Qed.

(** Exact expiry of a derived judgment. *)
Lemma derive_expiry e now d t :
  policy_ok (ev_policy e) →
  ds_category (derive e now) = CatCurrent → ds_support_deadline_ms (derive e now) = Some d →
  now <= t →
  ds_category (derive e t) = (if t <? d then CatCurrent else CatUnknown).
Proof.
  intros Hok Hcat Hdl Hle. pose proof Hcat as Hcur. apply derive_current_iff in Hcur; [|done].
  assert (Hd : support_deadline (ev_policy e) (eligible_fresh e now) = Some d).
  { unfold derive in Hdl. cbn in Hdl. rewrite decide_True in Hdl; done. }
  pose proof (support_deadline_spec _ _ _ t (po_minimum_u32 _ Hok) (po_minimum_nonzero _ Hok) Hd) as Hiff.
  rewrite <-(eligible_fresh_later e now t Hle) in Hiff.
  destruct (Z.ltb_spec t d) as [Hlt|Hge].
  - apply derive_current_iff; [done|]. apply (current_at_later e now); tauto.
  - apply (uncovered_unknown e now); [done|done|]. rewrite <-Hiff. lia.
Qed.

(** Until it passes, every later derivation publishes the same deadline. *)
Lemma derive_deadline_stable e now d t :
  policy_ok (ev_policy e) →
  ds_category (derive e now) = CatCurrent → ds_support_deadline_ms (derive e now) = Some d →
  now <= t < d → ds_support_deadline_ms (derive e t) = Some d.
Proof.
  intros Hok Hcat Hdl Ht. pose proof (derive_expiry e now d t Hok Hcat Hdl ltac:(lia)) as Hcat'.
  rewrite (proj2 (Z.ltb_lt t d)) in Hcat' by lia.
  assert (Hd : support_deadline (ev_policy e) (eligible_fresh e now) = Some d).
  { unfold derive in Hdl. cbn in Hdl. rewrite decide_True in Hdl; done. }
  destruct Hok as [Hu Hnz Hne].
  pose proof (fun t' => support_deadline_spec _ _ _ t' Hu Hnz Hd) as Hiff.
  assert (Hact : all_active (ev_policy e) (eligible_fresh e t)).
  { rewrite (eligible_fresh_later e now t) by lia. apply Hiff. lia. }
  assert (Hwin : ∀ t', t <= t' → later_than t' (eligible_fresh e t) = later_than t' (eligible_fresh e now)).
  { intros t' Ht'. rewrite <-!eligible_fresh_later by lia. done. }
  unfold derive in Hcat' |- *. cbn in Hcat' |- *. rewrite decide_True by done.
  destruct (support_deadline (ev_policy e) (eligible_fresh e t)) as [d'|] eqn:Hd'.
  - pose proof (fun t' => support_deadline_spec _ _ _ t' Hu Hnz Hd') as Hiff'. f_equal.
    assert (t < d').
    { apply Hiff'. rewrite <-eligible_fresh_later by lia. done. }
    pose proof (Hiff' (d - 1)) as H1. pose proof (Hiff (d' - 1)) as H2.
    rewrite Hwin, <-Hiff in H1 by lia. rewrite <-Hwin, <-Hiff' in H2 by lia. lia.
  - exfalso.
    assert (d < u64_max).
    { unfold support_deadline in Hd. destruct (deadline_loop _ _ _ _) as [o|] eqn:Ho; cbn in Hd; [|done].
      apply deadline_loop_spec in Ho as [Hle _]. destruct (Z.eqb_spec o u64_max); [done|].
      simplify_eq. lia. }
    assert (d < d); [|lia]. apply Hiff. rewrite <-Hwin by lia.
    apply (support_deadline_None _ _ t); auto.
    intros x Hx. apply eligible_fresh_sub in Hx. unfold fresh_evidence in Hx.
    by apply list_elem_of_filter in Hx as [? _].
Qed.
