(* ===== verification/Frame.v ===== *)
(** * What an evaluation leaves alone

    [evaluate] derives from the evidence and then updates metrics, the event
    log, escalations and the last judgment.  Each stage keeps the evidence it
    derived from; [keeps] records that, and the derived state is a morphism
    for it. *)

From S2P Require Import Prelude Ids Digest Pulse Judgment Escalation Event Policy.
From S2P Require Import EvaluatorState Derive Explain Evaluator DeriveProps.

(** The binding and evidence part of the state. *)
Definition evidence_core (e : Evaluator) :=
  (ev_policy e, ev_receiver e, ev_receiver_incarnation e, ev_clock_id e,
   ev_current_subject_incarnation e, ev_retired_subject_incarnations e,
   ev_observer_lineages e, ev_retired_observer_incarnations e, ev_observers e,
   ev_contradictions e, ev_last_receiver_arrival_ms e).

Record keeps (e e' : Evaluator) : Prop := mkKeeps {
  k_core : evidence_core e' = evidence_core e;
  k_capability : ev_monitor_capability e' = ev_monitor_capability e;
  k_last_evaluation : ev_last_evaluation_ms e' = ev_last_evaluation_ms e;
  k_log : ev_event_log e `prefix_of` ev_event_log e';
}.

#[global] Instance keeps_refl : Reflexive keeps.
Proof. intros e. by constructor. Qed.

#[global] Instance keeps_trans : Transitive keeps.
Proof. intros a b c [] []. constructor; congruence || by etrans. Qed.

(** The escalation part of the state. *)
Definition escalation_core (e : Evaluator) :=
  (ev_issued_requests e, ev_active_escalations e, ev_request_counter e, ev_escalation_state e,
   ev_last_judgment e, ev_diagnostic_evidence e).

(** A stage that touches neither the evidence nor the escalations. *)
Record quiet (e e' : Evaluator) : Prop := mkQuiet {
  q_keeps : keeps e e';
  q_escalation : escalation_core e' = escalation_core e;
}.

#[global] Instance quiet_refl : Reflexive quiet.
Proof. intros e. by constructor. Qed.

#[global] Instance quiet_trans : Transitive quiet.
Proof. intros a b c [] []. constructor; [by etrans|congruence]. Qed.

(** Two states that derive the same judgment at every time. *)
Record same_support (e e' : Evaluator) : Prop := mkSameSupport {
  sup_policy : ev_policy e = ev_policy e';
  sup_subject : ev_current_subject_incarnation e = ev_current_subject_incarnation e';
  sup_observers : ev_observers e = ev_observers e';
  sup_contradictions : ev_contradictions e = ev_contradictions e';
  sup_capability : ev_monitor_capability e = ev_monitor_capability e';
}.

#[global] Instance same_support_equiv : Equivalence same_support.
Proof.
  split; [by intros e; constructor|intros a b []; by constructor|].
  intros a b c [] []. constructor; congruence.
Qed.

#[global] Instance derive_proper : Proper (same_support ==> eq ==> eq) derive.
Proof.
  intros e e' [Hp Hs Ho Hc Hm] t ? <-.
  destruct e, e'. cbn in *. subst. reflexivity.
Qed.

Lemma keeps_same_support e e' : keeps e e' → same_support e e'.
Proof. intros [Hcore Hcap _ _]. unfold evidence_core in Hcore. simplify_eq. by constructor. Qed.

Section stages.
Context `{Sha256}.


Lemma push_event_quiet e t k : quiet e (push_event e t k).
Proof. constructor; [|done]. constructor; [done|done|done|]. cbn. by apply prefix_app_r. Qed.

(** Solve [quiet]/[keeps] of a chain of assignments ending in a pushed event. *)
Ltac by_assignment := first [by repeat constructor | apply push_event_quiet
  | etrans; [|apply push_event_quiet]; by repeat constructor].

Lemma record_coverage_metrics_quiet e c : quiet e (record_coverage_metrics e c).
Proof. by_assignment. Qed.

Lemma record_transition_quiet e j t : quiet e (record_transition e j t).1.
Proof.
  unfold record_transition.
  destruct (match ev_last_judgment e with None => _ | Some _ => _ end); [|done].
  cbn [fst build_transition]. by_assignment.
Qed.

Lemma record_transition_from e j t tr :
  (record_transition e j t).2 = Some tr →
  jt_from tr = pj_category <$> ev_last_judgment e ∧ jt_to tr = pj_category j
  ∧ jt_at_monotonic_ms tr = t ∧
  ∃ parts, jt_transition_id tr
           = "transition:" +:+ trim_start_matches "sha256:" (digest_parts "judgment.transition.v1" parts).
Proof.
  unfold record_transition.
  destruct (match ev_last_judgment e with None => _ | Some _ => _ end); [|done].
  cbn. intros [= <-]. repeat split. by eexists.
Qed.

(** A change of category is always a transition. *)
Lemma record_transition_changed e j t :
  pj_category <$> ev_last_judgment e ≠ Some (pj_category j) → is_Some (record_transition e j t).2.
Proof.
  unfold record_transition. destruct (ev_last_judgment e) as [prior|]; cbn; [|by eexists].
  intros Hne. assert (judgment_semantically_changed prior j = true) as ->; [|by eexists].
  unfold judgment_semantically_changed. rewrite (bool_decide_eq_false_2 (pj_category prior = _)) by congruence.
  cbn. by rewrite !orb_true_r.
Qed.

Lemma update_failure_metrics_quiet e c t : quiet e (update_failure_metrics e c t).
Proof. unfold update_failure_metrics. repeat case_goal; by_assignment. Qed.

Lemma update_stale_positive_metric_quiet e j t d : quiet e (update_stale_positive_metric e j t d).
Proof. unfold update_stale_positive_metric. repeat case_goal; by_assignment. Qed.

Lemma issue_escalation_keeps e r t : keeps e (issue_escalation e r t).
Proof.
  unfold issue_escalation. etrans; [|apply q_keeps, push_event_quiet].
  repeat case_goal; by constructor.
Qed.

Lemma deduplicate_escalation_keeps e a k t : keeps e (deduplicate_escalation e a k t).
Proof.
  unfold deduplicate_escalation. etrans; [|apply q_keeps, push_event_quiet]. by constructor.
Qed.

Lemma maybe_escalate_keeps e tr j t : keeps e (maybe_escalate e tr j t).1.
Proof.
  unfold maybe_escalate. case_decide; [done|]. destruct (rl_escalation _); [|done].
  case_goal; [done|]. case_goal; [apply deduplicate_escalation_keeps|].
  case_goal; cbn [fst]; [etrans; [|apply issue_escalation_keeps]|]; by constructor.
Qed.

Lemma maybe_escalate_diagnostics e tr j t :
  ev_diagnostic_evidence (maybe_escalate e tr j t).1 = ev_diagnostic_evidence e.
Proof.
  unfold maybe_escalate. case_decide; [done|]. destruct (rl_escalation _); [|done].
  case_goal; [done|]. case_goal; [done|]. destruct (request_validate _); [|done].
  unfold issue_escalation. cbn. by repeat case_goal.
Qed.

(** The time an evaluation uses: never before the previous one. *)
Definition clamped (e : Evaluator) (t : Z) : Z :=
  match ev_last_evaluation_ms e with Some prior => Z.max prior t | None => t end.

Definition regressed (e : Evaluator) (t : Z) : bool :=
  match ev_last_evaluation_ms e with Some prior => t <? prior | None => false end.

Lemma begin_evaluation_time e t : (begin_evaluation e t).2 = clamped e t.
Proof.
  unfold begin_evaluation, clamped. destruct (ev_last_evaluation_ms e) as [prior|]; [|done].
  destruct (Z.ltb_spec t prior); cbn; lia.
Qed.

Lemma begin_evaluation_core e t : evidence_core (begin_evaluation e t).1 = evidence_core e.
Proof. unfold begin_evaluation. destruct (ev_last_evaluation_ms e); [|done]. by case_goal. Qed.

Lemma begin_evaluation_log e t : ev_event_log e `prefix_of` ev_event_log (begin_evaluation e t).1.
Proof.
  unfold begin_evaluation. destruct (ev_last_evaluation_ms e); [|done].
  case_goal; [by apply prefix_app_r|done].
Qed.

Lemma begin_evaluation_last e t :
  ev_last_evaluation_ms (begin_evaluation e t).1 = Some (clamped e t).
Proof.
  rewrite <-begin_evaluation_time. unfold begin_evaluation.
  destruct (ev_last_evaluation_ms e); [|done]. by case_goal.
Qed.

Lemma begin_evaluation_barrier e t :
  ev_reevaluation_barrier (begin_evaluation e t).1 = ev_reevaluation_barrier e.
Proof. unfold begin_evaluation. destruct (ev_last_evaluation_ms e); [|done]. by case_goal. Qed.

Lemma begin_evaluation_capability e t :
  regressed e t = false →
  ev_monitor_capability (begin_evaluation e t).1 = ev_monitor_capability e.
Proof.
  unfold begin_evaluation, regressed. destruct (ev_last_evaluation_ms e); [|done].
  by intros ->.
Qed.

(** The judgment of an opened evaluation, before its escalation state is
    filled in. *)
Definition pre_judgment (e1 : Evaluator) (now : Z) : PresentStateJudgmentV1 :=
  build_judgment
    (record_coverage_metrics e1 (ds_coverage (derive_under_barrier e1 now))) now
    (derive_under_barrier e1 now).

(** The escalation stage of [evaluate]. *)
Definition escalation_stage (barrier : option ReevaluationBarrierV1) (e : Evaluator)
    (transition : option JudgmentTransitionV1) (j : PresentStateJudgmentV1) (now : Z)
  : Evaluator * option DiagnosticEscalationRequestV1 :=
  match barrier, transition with
  | None, Some t => maybe_escalate e t j now
  | _, _ => (e, None)
  end.

Lemma escalation_stage_keeps b e tr j t : keeps e (escalation_stage b e tr j t).1.
Proof. unfold escalation_stage. destruct b, tr; try done. apply maybe_escalate_keeps. Qed.

(** [evaluate] as opening, quiet bookkeeping, escalation and publication. *)
Lemma evaluate_stages e t :
  let e1 := (begin_evaluation e t).1 in
  let now := clamped e t in
  ∃ ed tr,
    quiet e1 ed ∧
    (∀ tr', tr = Some tr' →
       jt_from tr' = pj_category <$> ev_last_judgment e ∧ jt_to tr' = pj_category (pre_judgment e1 now)
       ∧ jt_at_monotonic_ms tr' = now ∧
       ∃ parts, jt_transition_id tr'
         = "transition:" +:+ trim_start_matches "sha256:" (digest_parts "judgment.transition.v1" parts)) ∧
    (pj_category <$> ev_last_judgment e ≠ Some (pj_category (pre_judgment e1 now)) → is_Some tr) ∧
    let r := escalation_stage (ev_reevaluation_barrier e) ed tr (pre_judgment e1 now) now in
    let j' := with_escalation (pre_judgment e1 now) (ev_escalation_state r.1) in
    evaluate e t =
      (set_ev_reevaluation_barrier (set_ev_last_judgment r.1 (Some j')) None,
       mkOutput j' tr r.2 (drop (length (ev_event_log e)) (ev_event_log r.1))).
Proof.
  intros e1 now.
  assert (Hb : ev_reevaluation_barrier e1 = ev_reevaluation_barrier e) by apply begin_evaluation_barrier.
  assert (Hl : ev_last_judgment e1 = ev_last_judgment e).
  { unfold e1, begin_evaluation. destruct (ev_last_evaluation_ms e); [|done]. by case_goal. }
  unfold now, e1 in *. clear e1 now. rewrite <-begin_evaluation_time. unfold evaluate.
  destruct (begin_evaluation e t) as [e1 now]. cbn [fst snd] in *.
  set (ea := record_coverage_metrics e1 _). fold (pre_judgment e1 now).
  pose proof (record_transition_quiet ea (pre_judgment e1 now) now) as Hk1.
  pose proof (record_transition_from ea (pre_judgment e1 now) now) as Hfrom.
  pose proof (record_transition_changed ea (pre_judgment e1 now) now) as Hchg.
  replace (build_judgment ea now _) with (pre_judgment e1 now) by done.
  destruct (record_transition ea (pre_judgment e1 now) now) as [eb tr]. cbn [fst snd] in *.
  set (ec := update_failure_metrics eb _ _). set (ed := update_stale_positive_metric ec _ _ _).
  exists ed, tr. change (ev_last_judgment ea) with (ev_last_judgment e1) in *. rewrite Hl in *.
  split; [|split; [|split; [done|]]].
  - etrans; [apply record_coverage_metrics_quiet|]. etrans; [exact Hk1|].
    etrans; [apply update_failure_metrics_quiet|]. apply update_stale_positive_metric_quiet.
  - intros tr' ->. by destruct (Hfrom tr' eq_refl) as (-> & -> & -> & ?).
  - rewrite Hb. unfold escalation_stage.
    destruct (ev_reevaluation_barrier e), tr as [t'|]; try done.
    by destruct (maybe_escalate ed t' _ now).
Qed.

(* ------------------------------------------------------------------ *)
(** ** Consequences for one evaluation *)

Definition judged (e : Evaluator) (t : Z) : PresentStateJudgmentV1 := eo_judgment (evaluate e t).2.

Lemma evaluate_keeps e t : keeps (begin_evaluation e t).1 (evaluate e t).1.
Proof.
  destruct (evaluate_stages e t) as (ed & tr & Hq & _ & _ & ->). cbn [fst].
  etrans; [apply (q_keeps _ _ Hq)|]. etrans; [apply escalation_stage_keeps|]. by constructor.
Qed.

Lemma evaluate_core e t : evidence_core (evaluate e t).1 = evidence_core e.
Proof. rewrite (k_core _ _ (evaluate_keeps e t)). apply begin_evaluation_core. Qed.

Lemma evaluate_log e t : ev_event_log e `prefix_of` ev_event_log (evaluate e t).1.
Proof. etrans; [apply begin_evaluation_log|apply (k_log _ _ (evaluate_keeps e t))]. Qed.

Lemma evaluate_last e t : ev_last_evaluation_ms (evaluate e t).1 = Some (clamped e t).
Proof. rewrite (k_last_evaluation _ _ (evaluate_keeps e t)). apply begin_evaluation_last. Qed.

Lemma evaluate_barrier e t : ev_reevaluation_barrier (evaluate e t).1 = None.
Proof. by destruct (evaluate_stages e t) as (ed & tr & _ & _ & _ & ->). Qed.

Lemma evaluate_capability e t :
  regressed e t = false → ev_monitor_capability (evaluate e t).1 = ev_monitor_capability e.
Proof. intros Hr. rewrite (k_capability _ _ (evaluate_keeps e t)). by apply begin_evaluation_capability. Qed.

(** Evaluation drops diagnostic evidence that is no longer applicable, and
    nothing else. *)
Lemma evaluate_diagnostics e t :
  ev_diagnostic_evidence (evaluate e t).1
  = filter (λ d, clamped e t < der_applicable_until_monotonic_ms d) (ev_diagnostic_evidence e).
Proof.
  transitivity (ev_diagnostic_evidence (begin_evaluation e t).1).
  - destruct (evaluate_stages e t) as (ed & tr & Hq & _ & _ & ->). cbn [fst].
    pose proof (q_escalation _ _ Hq) as Hesc. unfold escalation_core in Hesc.
    match goal with |- ev_diagnostic_evidence (set_ev_reevaluation_barrier (set_ev_last_judgment ?x ?y) ?z) = _ =>
      transitivity (ev_diagnostic_evidence x); [reflexivity|] end.
    unfold escalation_stage.
    destruct (ev_reevaluation_barrier e), tr as [tr|]; cbn [fst]; try congruence.
    rewrite maybe_escalate_diagnostics. congruence.
  - rewrite <-begin_evaluation_time. unfold begin_evaluation.
    destruct (ev_last_evaluation_ms e); [|done]. by case_goal.
Qed.

Lemma evaluate_last_judgment e t :
  ev_last_judgment (evaluate e t).1 = Some (judged e t).
Proof. unfold judged. by destruct (evaluate_stages e t) as (ed & tr & _ & _ & _ & ->). Qed.

Lemma begin_same_support e t :
  regressed e t = false → same_support (begin_evaluation e t).1 e.
Proof.
  intros Hr. pose proof (begin_evaluation_core e t) as Hc. unfold evidence_core in Hc. simplify_eq.
  constructor; auto using begin_evaluation_capability.
Qed.

Lemma evaluate_same_support e t : regressed e t = false → same_support e (evaluate e t).1.
Proof.
  intros Hr. pose proof (evaluate_core e t) as Hc. unfold evidence_core in Hc. simplify_eq.
  constructor; try done. by rewrite evaluate_capability.
Qed.

Lemma judged_derives e t :
  pj_category (judged e t)
  = ds_category (derive_under_barrier (begin_evaluation e t).1 (clamped e t)) ∧
  pj_positive_support_expires_at_monotonic_ms (judged e t)
  = ds_support_deadline_ms (derive_under_barrier (begin_evaluation e t).1 (clamped e t)) ∧
  pj_evaluated_at_monotonic_ms (judged e t) = clamped e t.
Proof. unfold judged. by destruct (evaluate_stages e t) as (ed & tr & _ & _ & _ & ->). Qed.

(** With no barrier and no regression the judgment is what [derive] gives. *)
Lemma judged_plain e t :
  ev_reevaluation_barrier e = None → regressed e t = false →
  pj_category (judged e t) = ds_category (derive e (clamped e t)) ∧
  pj_positive_support_expires_at_monotonic_ms (judged e t)
  = ds_support_deadline_ms (derive e (clamped e t)).
Proof.
  intros Hb Hr. destruct (judged_derives e t) as (-> & -> & _).
  unfold derive_under_barrier. rewrite begin_evaluation_barrier, Hb.
  by rewrite (begin_same_support e t Hr).
Qed.

Lemma clamped_ge e t : regressed e t = false → clamped e t = t.
Proof. unfold regressed, clamped. destruct (ev_last_evaluation_ms e); [|done]. lia. Qed.

End stages.
