(* ===== verification/Expiry.v ===== *)
(** * When a published CURRENT ends, and what cannot produce one

    Theorems about the judgments that [evaluate] and [tick] publish. *)

From S2P Require Import Prelude Ids Digest Pulse Samples Judgment Escalation Event Policy.
From S2P Require Import EvaluatorState Derive Explain Evaluator EvalSamples DeriveProps Frame.

Section expiry.
Context `{Sha256}.

(** The state after a sequence of ticks. *)
Fixpoint run_ticks (e : Evaluator) (ts : list Z) : Evaluator :=
  match ts with
  | [] => e
  | t :: rest => run_ticks (tick e t).1 rest
  end.

Lemma tick_evaluate e t : tick e t = ((evaluate e t).1, Ok (evaluate e t).2).
Proof. unfold tick, ok_evaluate. by destruct (evaluate e t). Qed.

Lemma regressed_blind e t :
  regressed e t = true →
  ∃ detail, ev_monitor_capability (begin_evaluation e t).1 = Blind detail.
Proof.
  unfold regressed, begin_evaluation. destruct (ev_last_evaluation_ms e); [|done].
  intros ->. cbn. eauto.
Qed.

Lemma blind_not_current e t detail :
  ev_monitor_capability e = Blind detail → ds_category (derive e t) ≠ CatCurrent.
Proof.
  intros Hb. cbn [derive ds_category]. rewrite derive_category_current, reliance_unknown_false.
  cbn [derive_dimensions dim_transport]. rewrite Hb. naive_solver.
Qed.

(** CURRENT is published only without a barrier and without regression. *)
Lemma judged_current_plain e t :
  pj_category (judged e t) = CatCurrent →
  ev_reevaluation_barrier e = None ∧ regressed e t = false.
Proof.
  destruct (judged_derives e t) as (-> & _). unfold derive_under_barrier.
  rewrite begin_evaluation_barrier. destruct (ev_reevaluation_barrier e); [done|].
  intros Hc. split; [done|]. destruct (regressed e t) eqn:Hr; [|done]. exfalso.
  destruct (regressed_blind e t Hr) as [detail Hb]. by eapply blind_not_current.
Qed.

(** Invariant of a run of ticks after an evaluation at [now]. *)
Lemma run_ticks_frame e0 e now ts t :
  same_support e0 e → ev_reevaluation_barrier e = None → ev_last_evaluation_ms e = Some now →
  Sorted Z.le (now :: ts ++ [t]) →
  let e' := run_ticks e ts in
  same_support e0 e' ∧ ev_reevaluation_barrier e' = None ∧ regressed e' t = false ∧ now <= t.
Proof.
  revert e now. induction ts as [|u ts IH]; intros e now Hs Hb Hl Hsorted; cbn.
  - inversion Hsorted as [|?? _ Hd]; subst. inversion Hd; subst.
    unfold regressed. rewrite Hl. repeat split; try done; try apply Hs. lia.
  - cbn in Hsorted. inversion Hsorted as [|?? Hs' Hd]; subst. inversion Hd; subst.
    assert (Hr : regressed e u = false) by (unfold regressed; rewrite Hl; lia).
    rewrite tick_evaluate. cbn [fst].
    destruct (IH (evaluate e u).1 u) as (? & ? & ? & ?); try done.
    + etrans; [exact Hs|]. by apply evaluate_same_support.
    + apply evaluate_barrier.
    + rewrite evaluate_last. by rewrite clamped_ge.
    + repeat split; try done; try apply H0. lia.
Qed.

(** C4. A CURRENT judgment published with a deadline [d] stays CURRENT on
    every later tick before [d] and is UNKNOWN on every later tick at or after
    [d], whatever ticks happened in between: support expires by itself,
    exactly at the published instant, and with nothing else than time. *)
Theorem current_expires_exactly e now d ts t :
  policy_validate (ev_policy e) = Ok tt → is_u32 (rl_minimum_observers (ev_policy e)) = true →
  pj_category (judged e now) = CatCurrent →
  pj_positive_support_expires_at_monotonic_ms (judged e now) = Some d →
  Sorted Z.le (now :: ts ++ [t]) →
  now < d ∧
  ∃ e' out, tick (run_ticks (evaluate e now).1 ts) t = (e', Ok out) ∧
    pj_category (eo_judgment out) = (if t <? d then CatCurrent else CatUnknown) ∧
    pj_positive_support_expires_at_monotonic_ms (eo_judgment out)
    = (if t <? d then Some d else None).
Proof.
  intros Hv Hu Hcat Hdl Hsorted. pose proof (policy_validate_ok _ Hu Hv) as Hok.
  destruct (judged_current_plain e now Hcat) as [Hb Hr].
  destruct (judged_plain e now Hb Hr) as [Hc Hd]. rewrite clamped_ge in Hc, Hd by done.
  rewrite Hc in Hcat. rewrite Hd in Hdl. clear Hc Hd.
  assert (Hfuture : now < d).
  { pose proof (derive_expiry e now d now Hok Hcat Hdl ltac:(lia)) as He. rewrite Hcat in He.
    destruct (Z.ltb_spec now d); [done|discriminate]. }
  split; [done|].
  destruct (run_ticks_frame e (evaluate e now).1 now ts t) as (Hs & Hb' & Hr' & Hle); auto.
  { by apply evaluate_same_support. }
  { apply evaluate_barrier. }
  { rewrite evaluate_last. by rewrite clamped_ge. }
  set (e' := run_ticks _ ts) in *. rewrite tick_evaluate. do 2 eexists. split; [reflexivity|].
  fold (judged e' t). destruct (judged_plain e' t Hb' Hr') as [-> ->].
  rewrite (clamped_ge e' t Hr'), <-Hs, (derive_expiry e now d t Hok Hcat Hdl Hle).
  split; [done|]. destruct (Z.ltb_spec t d).
  - by apply (derive_deadline_stable e now).
  - pose proof (derive_expiry e now d t Hok Hcat Hdl Hle) as He.
    rewrite (proj2 (Z.ltb_ge t d)) in He by done.
    revert He. unfold derive. cbn. intros He. rewrite He. by rewrite decide_False.
Qed.

End expiry.

Lemma current_expires_exactly_witness :
  pj_category (judged current_evaluator 20) = CatCurrent ∧
  (∃ e' out, tick (run_ticks (evaluate current_evaluator 20).1 [100; 509]) 510 = (e', Ok out) ∧
     pj_category (eo_judgment out) = CatUnknown).
Proof.
  split; [vm_compute; reflexivity|].
  destruct (current_expires_exactly current_evaluator 20 510 [100; 509] 510) as (_ & e' & out & Ht & Hc & _).
  - vm_compute. reflexivity.
  - vm_compute. reflexivity.
  - vm_compute. reflexivity.
  - vm_compute. reflexivity.
  - repeat constructor; lia.
  - exists e', out. split; [exact Ht|exact Hc].
Defined.
