(* ===== verification/Commands.v ===== *)
(** * Runs of the evaluator

    The public methods of [Evaluator] as commands, the transition relation
    they generate and the states reachable from [Evaluator::new].  Arguments
    are restricted only by what their Rust types guarantee. *)

From S2P Require Import Prelude Ids Digest Pulse Judgment Escalation Event Policy.
From S2P Require Import EvaluatorState Derive Explain Evaluator DeriveProps Frame.

Inductive Command :=
| CmdIngest (r : ReceivedPulseV1) (now : Z)
| CmdTick (now : Z)
| CmdReplacePolicy (p : ReliancePolicyV1) (b : ReevaluationBarrierV1) (at_ms : Z)
| CmdInstallBarrier (b : ReevaluationBarrierV1) (at_ms : Z)
| CmdReplaceSubject (replacement : IncarnationId) (at_ms : Z)
| CmdImport (records : list ContradictionRecordV1)
| CmdSetNormalTrace (normal : bool)
| CmdMarkFailureStart (at_ms : Z)
| CmdSetCapability (m : MonitorCapabilityV1) (at_ms : Z)
| CmdInputDrop (count at_ms : Z) (detail : string)
| CmdRestore (at_ms : Z) (detail : string)
| CmdResolve (id : ContradictionId) (r : ContradictionResolutionV1) (at_ms : Z)
| CmdDisposition (d : EscalationDispositionV1) (now : Z)
| CmdReceipt (r : MockDiagnosticReceiptV1) (at_ms : Z).

(** What the types [u32] and [u64] guarantee of a policy. *)
Definition policy_wf (p : ReliancePolicyV1) : bool :=
  is_u32 (rl_minimum_observers p) && is_u64 (rl_maximum_validity_ms p).

(** The same for a received pulse. *)
Definition received_wf (r : ReceivedPulseV1) : bool :=
  frame_wf (rp_frame r) && is_u64 (ra_arrival_monotonic_ms (rp_receiver r))
  && is_u64 (default 0 (ra_transport_observed_delay_ms (rp_receiver r))).

Definition command_wf (c : Command) : bool :=
  match c with
  | CmdIngest r now => received_wf r && is_u64 now
  | CmdReplacePolicy p _ at_ms => policy_wf p && is_u64 at_ms
  | CmdTick t | CmdInstallBarrier _ t | CmdReplaceSubject _ t | CmdMarkFailureStart t
  | CmdSetCapability _ t | CmdInputDrop _ t _ | CmdRestore t _ | CmdResolve _ _ t
  | CmdDisposition _ t | CmdReceipt _ t => is_u64 t
  | CmdImport _ | CmdSetNormalTrace _ => true
  end.

Section commands.
Context `{Sha256}.

Definition output_only (o : outcome) : Evaluator * result EvaluatorError (option EvaluationOutput) :=
  (o.1, match o.2 with Ok out => Ok (Some out) | Err err => Err err end).

Definition run (e : Evaluator) (c : Command)
  : Evaluator * result EvaluatorError (option EvaluationOutput) :=
  match c with
  | CmdIngest r now => output_only (ingest e r now)
  | CmdTick now => output_only (tick e now)
  | CmdReplacePolicy p b t => output_only (replace_policy e p b t)
  | CmdInstallBarrier b t => output_only (install_reevaluation_barrier e b t)
  | CmdReplaceSubject i t => output_only (replace_subject_incarnation e i t)
  | CmdImport records =>
      let '(e, r) := import_contradictions e records in
      (e, match r with Ok _ => Ok None | Err err => Err err end)
  | CmdSetNormalTrace b => (set_normal_trace e b, Ok None)
  | CmdMarkFailureStart t => (mark_failure_start e t, Ok None)
  | CmdSetCapability m t => output_only (set_monitor_capability e m t)
  | CmdInputDrop n t d => output_only (record_monitor_input_drop e n t d)
  | CmdRestore t d => output_only (restore_monitor_capability e t d)
  | CmdResolve id r t => output_only (resolve_contradiction e id r t)
  | CmdDisposition d now => output_only (record_escalation_disposition e d now)
  | CmdReceipt r t => output_only (record_diagnostic_receipt e r t)
  end.

Definition exec (e : Evaluator) (cs : list Command) : Evaluator :=
  fold_left (fun e c => (run e c).1) cs e.

Inductive step : Evaluator → Evaluator → Prop :=
| step_run e c : command_wf c = true → step e (run e c).1.

Inductive reachable : Evaluator → Prop :=
| reach_new p rc rci ck inc e :
    policy_wf p = true → evaluator_new p rc rci ck inc = Ok e → reachable e
| reach_step e e' : reachable e → step e e' → reachable e'.

Lemma exec_reachable e cs :
  reachable e → Forall (λ c, command_wf c = true) cs → reachable (exec e cs).
Proof.
  intros Hr Hall. revert e Hr. induction Hall as [|c cs Hc Hall IH]; intros e Hr; [done|].
  cbn. apply IH. eapply reach_step; [done|]. by constructor.
Qed.

(* ------------------------------------------------------------------ *)
(** ** The shape of a command: prepare a state, then evaluate it *)

(** The state a command hands to [evaluate], and when; [None] where the
    command is refused or does not evaluate. *)
Definition prepare (e : Evaluator) (c : Command) : option (Evaluator * Z) :=
  match c with
  | CmdIngest r now =>
      if is_ok (received_validate r) && is_ok (validate_binding e r)
         && negb (now <? ra_arrival_monotonic_ms (rp_receiver r))
      then Some (ingest_state e r now, now) else None
  | CmdTick now => Some (e, now)
  | CmdReplacePolicy p b t =>
      if is_ok (policy_validate p)
         && bool_decide (rl_subject p = rl_subject (ev_policy e) ∧ rl_scope p = rl_scope (ev_policy e)
                         ∧ rl_consumer p = rl_consumer (ev_policy e))
      then Some (replace_policy_state e p b, t) else None
  | CmdInstallBarrier b t => Some (raise_barrier e b, t)
  | CmdReplaceSubject i t =>
      if is_ok (validate_identity "IncarnationId" i)
         && negb (bool_decide (i = ev_current_subject_incarnation e))
      then Some (replace_subject_state e i t, t) else None
  | CmdImport _ | CmdSetNormalTrace _ | CmdMarkFailureStart _ => None
  | CmdSetCapability m t => Some ((record_capability e m t).1, t)
  | CmdInputDrop n t d => Some ((record_capability (count_input_drop e n) (Blind d) t).1, t)
  | CmdRestore t d => Some ((restore_state e t d).1, t)
  | CmdResolve id r t =>
      if (slen (cres_resolver r) =? 0) || (slen (cres_rule r) =? 0)
         || (slen (cres_explanation r) =? 0) then None
      else match ev_contradictions e !! id with
           | Some record =>
               if contradiction_is_active record
               then Some ((resolve_state e id r t record).1, t) else None
           | None => None
           end
  | CmdDisposition d now =>
      if (ed_schema_version d =? SCHEMA_VERSION_V1) && negb (slen (ed_bridge_id d) =? 0)
         && bool_decide (ed_clock_id d = ev_clock_id e)
      then match ev_issued_requests e !! ed_request_id d with
           | Some _ =>
               if now <? ed_decided_at_monotonic_ms d then None
               else Some (push_event (set_ev_escalation_state e (disposition_state d))
                            (ed_decided_at_monotonic_ms d) (EvEscalationDisposition d), now)
           | None => None
           end
      else None
  | CmdReceipt r t =>
      match ev_issued_requests e !! rc_request_id r with
      | Some request =>
          if receipt_binds e request r t then Some ((receipt_state e r t).1, t) else None
      | None => None
      end
  end.

(** The commands that only store something. *)
Definition stores (e : Evaluator) (c : Command) : Evaluator :=
  match c with
  | CmdImport records => (import_contradictions e records).1
  | CmdSetNormalTrace b => set_normal_trace e b
  | CmdMarkFailureStart t => mark_failure_start e t
  | _ => e
  end.

(** An outcome that is an evaluation of [e1] at [t], events apart. *)
Definition evaluates (o : Evaluator * result EvaluatorError (option EvaluationOutput))
    (e1 : Evaluator) (t : Z) : Prop :=
  o.1 = (evaluate e1 t).1 ∧
  ∃ evs, o.2 = Ok (Some (mkOutput (judged e1 t) (eo_transition (evaluate e1 t).2)
                           (eo_escalation_request (evaluate e1 t).2) evs)).

Lemma ok_evaluate_evaluates e t : evaluates (output_only (ok_evaluate e t)) e t.
Proof.
  unfold evaluates, ok_evaluate, judged. destruct (evaluate e t) as [e' []].
  split; [done|]. by eexists.
Qed.

Lemma ok_evaluate_since_evaluates e t n : evaluates (output_only (ok_evaluate_since e t n)) e t.
Proof.
  unfold evaluates, ok_evaluate_since, evaluate_since, judged. destruct (evaluate e t) as [e' []].
  split; [done|]. by eexists.
Qed.

Lemma evaluate_recorded_evaluates s t : evaluates (output_only (evaluate_recorded s t)) s.1 t.
Proof.
  destruct s as [e ev]. unfold evaluates, evaluate_recorded, judged. cbn.
  destruct (evaluate e t) as [e' []]. split; [done|]. by eexists.
Qed.

Local Hint Resolve ok_evaluate_evaluates ok_evaluate_since_evaluates
  evaluate_recorded_evaluates : core.

(** A refused or storing command produces no judgment. *)
Definition silent (o : Evaluator * result EvaluatorError (option EvaluationOutput))
    (e1 : Evaluator) : Prop :=
  o.1 = e1 ∧ ∀ out, o.2 ≠ Ok (Some out).

Lemma run_prepare e c :
  match prepare e c with
  | Some (e1, t) => evaluates (run e c) e1 t
  | None => silent (run e c) (stores e c)
  end.
Proof.
  destruct c; cbn [prepare run stores];
    try apply ok_evaluate_evaluates; try apply evaluate_recorded_evaluates; try by split.
  - unfold ingest. destruct (received_validate r); cbn [is_ok andb negb]; [|by split].
    destruct (validate_binding e r); cbn [is_ok andb negb]; [|by split]. destruct (_ <? _); cbn [is_ok andb negb]; [by split|auto].
  - unfold replace_policy. destruct (policy_validate p); cbn [is_ok andb negb]; [|by split].
    case_bool_decide; [rewrite decide_True by done; auto|]. rewrite decide_False by done. by split.
  - unfold replace_subject_incarnation. destruct (validate_identity _ _); cbn [is_ok andb negb]; [|by split].
    case_bool_decide; cbn [negb]; [rewrite decide_True by done; by split|].
    rewrite decide_False by done. auto.
  - destruct (import_contradictions e records) as [e' []]; by split.
  - unfold resolve_contradiction. destruct (_ || _ || _); [by split|].
    destruct (_ !! _); [|by split]. destruct (contradiction_is_active _); cbn [is_ok andb negb]; [|by split].
    apply evaluate_recorded_evaluates.
  - unfold record_escalation_disposition. destruct (_ && _ && _); cbn [is_ok andb negb]; [|by split].
    destruct (_ !! _); [|by split]. destruct (_ <? _); [by split|].
    apply (evaluate_recorded_evaluates (sparse_event _ _ _)).
  - unfold record_diagnostic_receipt. destruct (_ !! _); [|by split].
    destruct (receipt_binds _ _ _ _); cbn [is_ok andb negb]; [|by split]. apply evaluate_recorded_evaluates.
Qed.

(** Case analysis on a command: it evaluates a prepared state, or stores. *)
Lemma run_cases e c :
  (∃ e1 t, prepare e c = Some (e1, t) ∧ evaluates (run e c) e1 t) ∨
  (prepare e c = None ∧ silent (run e c) (stores e c)).
Proof.
  pose proof (run_prepare e c) as Hp. destruct (prepare e c) as [[e1 t]|]; [left|right]; eauto.
Qed.

(** A command that published something evaluated its prepared state. *)
Lemma run_published e c e' out :
  run e c = (e', Ok (Some out)) →
  ∃ e1 t, prepare e c = Some (e1, t) ∧ e' = (evaluate e1 t).1 ∧ eo_judgment out = judged e1 t ∧
    eo_escalation_request out = eo_escalation_request (evaluate e1 t).2.
Proof.
  intros Hrun. destruct (run_cases e c) as [(e1 & t & Hp & [H1 (evs & H2)])|[_ [_ Hno]]];
    [|rewrite Hrun in Hno; by destruct (Hno out)].
  rewrite Hrun in H1, H2. exists e1, t. split; [exact Hp|]. split; [exact H1|].
  cbn [snd] in H2. injection H2 as ->. split; reflexivity.
Qed.

(** The evaluation a command published, if any. *)
Definition published (o : Evaluator * result EvaluatorError (option EvaluationOutput))
  : option EvaluationOutput :=
  match o.2 with Ok (Some out) => Some out | _ => None end.

Lemma published_run e c out :
  published (run e c) = Some out → run e c = ((run e c).1, Ok (Some out)).
Proof. unfold published. destruct (run e c) as [e' [[o|]|]]; cbn; congruence. Qed.

End commands.
