(* ===== verification/Ingestion.v ===== *)
(** * What the stages of [ingest] do to the state

    The stages between classification and evidence insertion only add
    contradiction records and events: [extends].  Lineage updates and
    insertion are treated separately. *)

From S2P Require Import Prelude Ids Digest Pulse Judgment Escalation Event Policy.
From S2P Require Import EvaluatorState Derive Explain Evaluator DeriveProps Frame.

(** Everything but contradictions, events, metrics and subject incarnations. *)
Definition fixed_core (e : Evaluator) :=
  (ev_policy e, ev_receiver e, ev_receiver_incarnation e, ev_clock_id e,
   ev_observer_lineages e, ev_retired_observer_incarnations e, ev_observers e,
   ev_last_receiver_arrival_ms e, ev_monitor_capability e, ev_reevaluation_barrier e,
   ev_last_evaluation_ms e, escalation_core e).

(** A record this evaluator creates, stored under its own identity. *)
Definition fresh_contradiction (e : Evaluator) (k : string) (r : ContradictionRecordV1) : Prop :=
  cr_contradiction_id r = k ∧ cr_schema_version r = SCHEMA_VERSION_V1
  ∧ ss_subject (cr_subject_scope r) = rl_subject (ev_policy e)
  ∧ contradiction_is_active r = true.

Record extends (e e' : Evaluator) : Prop := mkExtends {
  x_fixed : fixed_core e' = fixed_core e;
  x_kept : ev_contradictions e ⊆ ev_contradictions e';
  x_new : ∀ k r, ev_contradictions e' !! k = Some r →
          ev_contradictions e !! k = Some r ∨ fresh_contradiction e k r;
  x_log : ev_event_log e `prefix_of` ev_event_log e';
}.

#[global] Instance extends_refl : Reflexive extends.
Proof. intros e. constructor; auto. Qed.

Lemma x_policy e e' : extends e e' → ev_policy e' = ev_policy e.
Proof. intros [Hf _ _ _]. unfold fixed_core in Hf. by simplify_eq. Qed.

#[global] Instance extends_trans : Transitive extends.
Proof.
  intros a b c Hab Hbc. constructor.
  - by rewrite (x_fixed _ _ Hbc), (x_fixed _ _ Hab).
  - etrans; [apply (x_kept _ _ Hab)|apply (x_kept _ _ Hbc)].
  - intros k r Hk. destruct (x_new _ _ Hbc k r Hk) as [Hb|Hb].
    + apply (x_new _ _ Hab k r Hb).
    + right. unfold fresh_contradiction in *. by rewrite (x_policy _ _ Hab) in Hb.
  - etrans; [apply (x_log _ _ Hab)|apply (x_log _ _ Hbc)].
Qed.

Section stages.
Context `{Sha256}.

Lemma push_event_extends e t k : extends e (push_event e t k).
Proof. constructor; cbn; auto. by apply prefix_app_r. Qed.

Lemma metrics_extends e m : extends e (set_ev_metrics e m).
Proof. constructor; cbn; auto. Qed.

Lemma create_contradiction_extends e s refs st t : extends e (create_contradiction e s refs st t).
Proof.
  unfold create_contradiction.
  destruct (ev_contradictions e !! _) as [r|] eqn:Hk; [done|].
  etrans; [|apply push_event_extends]. constructor; cbn; auto.
  - by apply insert_subseteq.
  - intros k r. rewrite lookup_insert_Some. intros [[<- <-]|[_ ?]]; [|auto].
    right. repeat split.
Qed.

Lemma record_subject_incarnation_change_extends e r t :
  extends e (record_subject_incarnation_change e r t).
Proof.
  unfold record_subject_incarnation_change.
  etrans; [|apply create_contradiction_extends]. constructor; cbn; auto.
Qed.

Lemma detect_signal_contradictions_extends e r t :
  extends e (detect_signal_contradictions e r t).
Proof.
  unfold detect_signal_contradictions. destruct (negb _); [done|].
  generalize (flat_map (signal_candidates (ev_policy e) (rp_frame r)) (comparable_evidence e r t)).
  intros cs. revert e. induction cs as [|[s [refs st]] cs IH]; intros e; cbn; [done|].
  etrans; [apply create_contradiction_extends|apply IH].
Qed.

Lemma record_adverse_supersession_extends e r t :
  extends e (record_adverse_supersession e r t).
Proof.
  unfold record_adverse_supersession. destruct (_ !! _); [|done].
  destruct (bool_decide _); [done|apply push_event_extends].
Qed.

(** [detect_signal_contradictions] then [record_adverse_supersession]. *)
Definition examine (e : Evaluator) (r : ReceivedPulseV1) (t : Z) : Evaluator :=
  record_adverse_supersession (detect_signal_contradictions e r t) r t.

Lemma examine_extends e r t : extends e (examine e r t).
Proof.
  etrans; [apply detect_signal_contradictions_extends|apply record_adverse_supersession_extends].
Qed.

Lemma update_lineage_policy e f d : ev_policy (update_lineage e f d) = ev_policy e.
Proof. unfold update_lineage. destruct (_ !! _); [|done]. by case_decide. Qed.

Lemma update_lineage_observers e f d : ev_observers (update_lineage e f d) = ev_observers e.
Proof. unfold update_lineage. destruct (_ !! _); [|done]. by case_decide. Qed.

Lemma update_lineage_contradictions e f d :
  ev_contradictions (update_lineage e f d) = ev_contradictions e.
Proof. unfold update_lineage. destruct (_ !! _); [|done]. by case_decide. Qed.

Lemma update_lineage_log e f d : ev_event_log (update_lineage e f d) = ev_event_log e.
Proof. unfold update_lineage. destruct (_ !! _); [|done]. by case_decide. Qed.

Lemma update_lineage_lineages e f d :
  ev_observer_lineages (update_lineage e f d)
  = <[pf_observer f := mkLineage (pf_observer_incarnation f) (pf_sequence f)]> (ev_observer_lineages e).
Proof. unfold update_lineage. destruct (_ !! _); [|done]. by case_decide. Qed.

Lemma update_lineage_retired e f d :
  ev_retired_observer_incarnations (update_lineage e f d) =
  match ev_observer_lineages e !! pf_observer f with
  | Some old =>
      if decide (d = Restarted)
      then {[(pf_observer f, ol_incarnation old)]} ∪ ev_retired_observer_incarnations e
      else ev_retired_observer_incarnations e
  | None => ev_retired_observer_incarnations e
  end.
Proof. unfold update_lineage. destruct (_ !! _); [|done]. by case_decide. Qed.

(** The other fields of the binding part. *)
Lemma update_lineage_binding e f d :
  (ev_receiver (update_lineage e f d), ev_receiver_incarnation (update_lineage e f d),
   ev_clock_id (update_lineage e f d), ev_current_subject_incarnation (update_lineage e f d),
   ev_retired_subject_incarnations (update_lineage e f d),
   ev_monitor_capability (update_lineage e f d), ev_reevaluation_barrier (update_lineage e f d),
   ev_last_evaluation_ms (update_lineage e f d), ev_last_receiver_arrival_ms (update_lineage e f d),
   escalation_core (update_lineage e f d))
  = (ev_receiver e, ev_receiver_incarnation e, ev_clock_id e, ev_current_subject_incarnation e,
     ev_retired_subject_incarnations e, ev_monitor_capability e, ev_reevaluation_barrier e,
     ev_last_evaluation_ms e, ev_last_receiver_arrival_ms e, escalation_core e).
Proof. unfold update_lineage. destruct (_ !! _); [|done]. by case_decide. Qed.

(** The fields no stage of [ingest] touches. *)
Definition session_core (e : Evaluator) :=
  (ev_policy e, ev_receiver e, ev_receiver_incarnation e, ev_clock_id e,
   ev_reevaluation_barrier e, ev_last_evaluation_ms e, escalation_core e).

Lemma extends_session e e' : extends e e' → session_core e' = session_core e.
Proof. intros Hx. pose proof (x_fixed _ _ Hx) as Hf. unfold fixed_core, session_core in *. congruence. Qed.

Lemma update_lineage_session e f d : session_core (update_lineage e f d) = session_core e.
Proof.
  pose proof (update_lineage_binding e f d) as Hb. unfold session_core.
  rewrite update_lineage_policy. congruence.
Qed.

Lemma admit_evidence_session e r now v dl : session_core (admit_evidence e r now v dl) = session_core e.
Proof.
  transitivity (session_core (examine (update_lineage e (rp_frame r) (ra_disposition (rp_receiver r))) r now));
    [done|]. by rewrite (extends_session _ _ (examine_extends _ _ _)), update_lineage_session.
Qed.

Lemma ingest_advancing_session e r now : session_core (ingest_advancing e r now) = session_core e.
Proof.
  unfold ingest_advancing. cbv zeta. case_goal.
  - transitivity (session_core (update_lineage e (rp_frame r) (ra_disposition (rp_receiver r)))); [done|].
    apply update_lineage_session.
  - case_decide; [apply admit_evidence_session|]. case_decide; [done|].
    rewrite admit_evidence_session.
    apply extends_session, record_subject_incarnation_change_extends.
Qed.

Lemma ingest_consistent_session e r now : session_core (ingest_consistent e r now) = session_core e.
Proof.
  unfold ingest_consistent. destruct (ra_disposition (rp_receiver r)); try done;
    by rewrite ingest_advancing_session.
Qed.

Lemma ingest_state_session e r now : session_core (ingest_state e r now) = session_core e.
Proof.
  unfold ingest_state. cbv zeta.
  match goal with |- context [if ?b then go_blind _ _ _ else _] => destruct b end; [done|].
  destruct (classify_arrival _ _ _). case_decide; [|done]. by rewrite ingest_consistent_session.
Qed.

End stages.
