(* ===== verification/Invariant.v ===== *)
(** * The evaluator's invariant

    What every reachable state satisfies, by induction on the commands. *)

From S2P Require Import Prelude Ids Digest Pulse Samples Judgment Escalation Event Policy.
From S2P Require Import EvaluatorState Derive Explain Evaluator EvalSamples.
From S2P Require Import DeriveProps Frame Commands Ingestion.

Section invariant.
Context `{Sha256}.

Definition frame_of (x : ObserverEvidence) : PulseFrameV1 := rp_frame (oe_received x).

(** A stored evidence item: a validated pulse of the bound receiver, subject,
    profile and observation policy, under its observer's key, that expires no
    later than its own validity after its arrival, and that its observer's
    lineage has not fallen behind. *)
Record evidence_ok (e : Evaluator) (o : string) (x : ObserverEvidence) : Prop := mkEvidenceOk {
  eok_key : pf_observer (frame_of x) = o;
  eok_valid : received_validate (oe_received x) = Ok tt;
  eok_bound : validate_binding e (oe_received x) = Ok tt;
  eok_expiry : oe_expires_at_ms x
               <= ra_arrival_monotonic_ms (rp_receiver (oe_received x)) + pf_validity_ms (frame_of x);
  eok_arrival : ra_arrival_monotonic_ms (rp_receiver (oe_received x)) <= oe_expires_at_ms x <= u64_max;
  eok_continuity : oe_continuity x ≠ SeqUnknown;
  eok_lineage : ∃ l, ev_observer_lineages e !! o = Some l ∧
    ((pf_observer_incarnation (frame_of x) = ol_incarnation l ∧ pf_sequence (frame_of x) <= ol_sequence l)
     ∨ (o, pf_observer_incarnation (frame_of x)) ∈ ev_retired_observer_incarnations e);
}.

Definition contradiction_ok (e : Evaluator) (k : string) (r : ContradictionRecordV1) : Prop :=
  cr_contradiction_id r = k ∧ cr_schema_version r = SCHEMA_VERSION_V1
  ∧ ss_subject (cr_subject_scope r) = rl_subject (ev_policy e).

Record inv_evidence (e : Evaluator) : Prop := mkInvEvidence {
  ie_policy : policy_validate (ev_policy e) = Ok tt;
  ie_policy_wf : policy_wf (ev_policy e) = true;
  ie_observers : map_Forall (evidence_ok e) (ev_observers e);
  ie_contradictions : map_Forall (contradiction_ok e) (ev_contradictions e);
  ie_retired : ∀ o i, (o, i) ∈ ev_retired_observer_incarnations e →
               ∃ l, ev_observer_lineages e !! o = Some l ∧ ol_incarnation l ≠ i;
}.

(** Issued requests are valid and stored under their own identity; every
    active escalation names one of them. *)
Record inv_requests (e : Evaluator) : Prop := mkInvRequests {
  ir_issued : map_Forall (λ id rq, rq_request_id rq = id ∧ request_validate rq = Ok tt)
                (ev_issued_requests e);
  ir_active : map_Forall (λ _ a, is_Some (ev_issued_requests e !! ae_request_id a))
                (ev_active_escalations e);
}.

(** The last judgment is the one of the last evaluation, and no barrier
    outlives the operation that raised it. *)
Record inv_judgment (e : Evaluator) : Prop := mkInvJudgment {
  ij_time : pj_evaluated_at_monotonic_ms <$> ev_last_judgment e = ev_last_evaluation_ms e;
  ij_barrier : ev_reevaluation_barrier e = None;
  ij_authority : ∀ j, ev_last_judgment e = Some j → pj_mutation_authority j = MutationNone;
}.

(** The counters against what they number.  The event counter is the length of
    the log and the [i]-th event carries the identity of the number [i]; the
    transition counter counts the transitions in the log; both stay at
    [u64::MAX] once they reach it. *)
Definition is_transition (x : SparseDurableEventV1) : bool :=
  match se_event x with EvJudgmentTransition _ => true | _ => false end.

Record log_numbered (events transitions : Z) (log : list SparseDurableEventV1) : Prop := mkLogNumbered {
  ln_events : events = Z.min (Z.of_nat (length log)) u64_max;
  ln_identities : ∀ i x, log !! i = Some x →
    se_event_id x = "event:" +:+ hex16 (Z.min (Z.of_nat i + 1) u64_max);
  ln_transitions : transitions
    = Z.min (Z.of_nat (length (filter (λ x, is_transition x = true) log))) u64_max;
}.

Definition inv_log (e : Evaluator) : Prop :=
  log_numbered (ev_event_counter e) (ev_transition_counter e) (ev_event_log e).

(** The request counter has passed the number in every issued identity. *)
Record inv_issue (e : Evaluator) : Prop := mkInvIssue {
  ii_counter : 0 <= ev_request_counter e <= u64_max;
  ii_issued : map_Forall (λ id _, ∃ n, 0 < n <= ev_request_counter e ∧ id = "escalation:" +:+ hex16 n)
                (ev_issued_requests e);
}.

Record inv (e : Evaluator) : Prop := mkInv {
  inv_ev : inv_evidence e;
  inv_rq : inv_requests e;
  inv_jd : inv_judgment e;
  inv_lg : inv_log e;
  inv_is : inv_issue e;
}.

(** [inv_evidence] reads only these fields. *)
Definition bound_core (e : Evaluator) :=
  (ev_policy e, ev_receiver e, ev_receiver_incarnation e, ev_clock_id e,
   ev_observer_lineages e, ev_retired_observer_incarnations e, ev_observers e,
   ev_contradictions e).

Lemma inv_evidence_ext e e' : bound_core e' = bound_core e → inv_evidence e → inv_evidence e'.
Proof.
  unfold bound_core. destruct e, e'. cbn. intros ? [Hp Hw Ho Hc Hret]. simplify_eq. constructor; try done.
  intros o x Hx. destruct (Ho o x Hx). constructor; try assumption.
Qed.

Lemma bound_of_evidence_core e e' :
  evidence_core e' = evidence_core e → bound_core e' = bound_core e.
Proof. unfold evidence_core, bound_core. intros. simplify_eq. congruence. Qed.

Lemma inv_evidence_evaluate e t : inv_evidence e → inv_evidence (evaluate e t).1.
Proof. apply inv_evidence_ext, bound_of_evidence_core, evaluate_core. Qed.

Lemma inv_requests_ext e e' :
  ev_issued_requests e' = ev_issued_requests e → ev_active_escalations e' = ev_active_escalations e →
  inv_requests e → inv_requests e'.
Proof. intros Hi Ha [? ?]. constructor; [by rewrite Hi|]. by rewrite Ha, Hi. Qed.

Lemma inv_requests_begin e t : inv_requests e → inv_requests (begin_evaluation e t).1.
Proof.
  intros [Hi Ha].
  assert (ev_issued_requests (begin_evaluation e t).1 = ev_issued_requests e
          ∧ ev_active_escalations (begin_evaluation e t).1
            = filter (λ '(_, a), clamped e t < ae_expires_at_ms a) (ev_active_escalations e)) as [Hi' Ha'].
  { rewrite <-begin_evaluation_time. unfold begin_evaluation.
    destruct (ev_last_evaluation_ms e); [|done]. by case_goal. }
  constructor; [by rewrite Hi'|]. rewrite Ha', Hi'.
  intros k a Hk. apply map_lookup_filter_Some in Hk as [Hk _]. by apply (Ha k).
Qed.

Lemma inv_requests_issue e r t :
  inv_requests e → request_validate r = Ok tt → inv_requests (issue_escalation e r t).
Proof.
  intros [Hi Ha] Hv.
  assert (ev_issued_requests (issue_escalation e r t) = <[rq_request_id r := r]> (ev_issued_requests e)
          ∧ ev_active_escalations (issue_escalation e r t)
            = <[rq_deduplication_key r :=
                  mkActiveEscalation (rq_request_id r) (rq_expires_at_monotonic_ms r)]>
                (ev_active_escalations e)) as [Hi' Ha'].
  { unfold issue_escalation. cbn. repeat case_goal; done. }
  constructor; rewrite Hi'; [|rewrite Ha'].
  - by apply map_Forall_insert_2.
  - intros k a. rewrite lookup_insert_Some. intros [[<- <-]|[_ Hk]]; cbn.
    + rewrite lookup_insert_eq. eauto.
    + rewrite lookup_insert_is_Some'. right. by apply (Ha k).
Qed.

Lemma inv_requests_maybe_escalate e tr j t :
  inv_requests e → inv_requests (maybe_escalate e tr j t).1.
Proof.
  intros Hinv. unfold maybe_escalate. case_decide; [done|]. destruct (rl_escalation _); [|done].
  case_goal; [done|]. case_goal; [by apply (inv_requests_ext e)|].
  destruct (request_validate _) as [[]|] eqn:Hv; cbn [fst].
  - apply inv_requests_issue; [|done]. by apply (inv_requests_ext e).
  - by apply (inv_requests_ext e).
Qed.

Lemma inv_requests_evaluate e t : inv_requests e → inv_requests (evaluate e t).1.
Proof.
  intros Hinv. destruct (evaluate_stages e t) as (ed & tr & Hq & _ & _ & ->). cbn [fst].
  destruct Hq as [_ Hesc]. unfold escalation_core in Hesc. simplify_eq.
  eapply (inv_requests_ext (escalation_stage _ _ _ _ _).1); [done|done|]. unfold escalation_stage.
  assert (inv_requests ed) by (eapply inv_requests_ext; [| |by apply inv_requests_begin]; done).
  destruct (ev_reevaluation_barrier e), tr; try done. by apply inv_requests_maybe_escalate.
Qed.

Lemma inv_judgment_evaluate e t : inv_judgment (evaluate e t).1.
Proof.
  constructor.
  - rewrite evaluate_last_judgment, evaluate_last. cbn. f_equal.
    apply (proj2 (proj2 (judged_derives e t))).
  - apply evaluate_barrier.
  - rewrite evaluate_last_judgment. intros j [= <-]. unfold judged.
    by destruct (evaluate_stages e t) as (ed & tr & _ & _ & _ & ->).
Qed.

(* ------------------------------------------------------------------ *)
(** ** The counters *)

Lemma log_numbered_push c tc log at_ms k :
  log_numbered c tc log →
  log_numbered (sat_add c 1)
    (if is_transition (mkEvent SCHEMA_VERSION_V1 "" at_ms k) then sat_add tc 1 else tc)
    (log ++ [mkEvent SCHEMA_VERSION_V1 ("event:" +:+ hex16 (sat_add c 1)) at_ms k]).
Proof.
  intros [-> Hi ->]. constructor.
  - rewrite length_app. cbn. unfold sat_add. lia.
  - intros i x [Hx|[Hle Hx]]%lookup_app_Some; [by apply Hi|].
    apply list_lookup_singleton_Some in Hx as [Hz <-]. cbn [se_event_id].
    assert (Z.min (Z.of_nat i + 1) u64_max = sat_add (Z.min (Z.of_nat (length log)) u64_max) 1) as ->;
      [unfold sat_add; lia|done].
  - rewrite filter_app, length_app. unfold sat_add. destruct k; cbn;
      first [rewrite decide_False by done|rewrite decide_True by done]; cbn; lia.
Qed.

Definition not_transition (k : SparseDurableEventKindV1) : Prop :=
  match k with EvJudgmentTransition _ => False | _ => True end.

Lemma inv_log_push e t k : not_transition k → inv_log e → inv_log (push_event e t k).
Proof. intros Hk Hl. pose proof (log_numbered_push _ _ _ t k Hl) as Hp. destruct k; first [exact Hp|done]. Qed.

Lemma inv_log_record_transition e j t : inv_log e → inv_log (record_transition e j t).1.
Proof.
  intros Hl. unfold record_transition. cbv zeta.
  destruct (match ev_last_judgment e with None => _ | Some _ => _ end); [|done]. cbn [build_transition fst].
  match goal with |- inv_log (push_event _ _ (EvJudgmentTransition ?tr)) =>
    exact (log_numbered_push _ _ _ t (EvJudgmentTransition tr) Hl) end.
Qed.

Lemma inv_log_begin e t : inv_log e → inv_log (begin_evaluation e t).1.
Proof.
  intros Hl. unfold begin_evaluation. destruct (ev_last_evaluation_ms e) as [prior|]; [|exact Hl].
  destruct (_ <? _); [|exact Hl].
  exact (inv_log_push _ prior (EvMonitorCapabilityChanged _ _) I Hl).
Qed.

Lemma inv_log_failure_metrics e c t : inv_log e → inv_log (update_failure_metrics e c t).
Proof. intros Hl. unfold update_failure_metrics. repeat case_goal; exact Hl. Qed.

Lemma inv_log_stale_metric e j t d : inv_log e → inv_log (update_stale_positive_metric e j t d).
Proof. intros Hl. unfold update_stale_positive_metric. repeat case_goal; exact Hl. Qed.

Lemma inv_log_maybe_escalate e tr j t : inv_log e → inv_log (maybe_escalate e tr j t).1.
Proof.
  intros Hl. unfold maybe_escalate. case_decide; [done|]. destruct (rl_escalation _); [|done].
  case_goal; [done|]. case_goal; [by apply inv_log_push|]. case_goal; [|exact Hl].
  apply inv_log_push; [done|]. cbv zeta. repeat case_goal; exact Hl.
Qed.

Lemma inv_log_evaluate e t : inv_log e → inv_log (evaluate e t).1.
Proof.
  intros Hl%(inv_log_begin e t). unfold evaluate. destruct (begin_evaluation e t) as [e1 now]. cbv zeta.
  cbn [fst] in Hl. set (e2 := record_coverage_metrics _ _).
  assert (Hl2 : inv_log e2) by exact Hl. clearbody e2.
  pose proof (inv_log_record_transition e2 (build_judgment e2 now (derive_under_barrier e1 now)) now Hl2) as Hl3.
  destruct (record_transition e2 _ now) as [e3 tr]. cbn [fst] in Hl3.
  set (e4 := update_stale_positive_metric _ _ _ _).
  assert (Hl4 : inv_log e4) by by apply inv_log_stale_metric, inv_log_failure_metrics.
  clearbody e4. destruct (ev_reevaluation_barrier e1), tr as [tr|]; try exact Hl4.
  pose proof (inv_log_maybe_escalate e4 tr (build_judgment e2 now (derive_under_barrier e1 now)) now Hl4) as Hl5.
  by destruct (maybe_escalate _ _ _ _) as [e5 rq].
Qed.

Lemma inv_log_create_contradiction e s refs stmts t :
  inv_log e → inv_log (create_contradiction e s refs stmts t).
Proof. intros Hl. unfold create_contradiction. case_goal; [done|]. by apply inv_log_push. Qed.

Lemma inv_log_detect e r t : inv_log e → inv_log (detect_signal_contradictions e r t).
Proof.
  unfold detect_signal_contradictions. destruct (negb _); [done|].
  generalize (flat_map (signal_candidates (ev_policy e) (rp_frame r)) (comparable_evidence e r t)) as cs.
  intros cs. revert e. induction cs as [|[s [refs stmts]] cs IH]; intros e Hl; [done|].
  by apply IH, inv_log_create_contradiction.
Qed.

Lemma inv_log_admit e r now v dl : inv_log e → inv_log (admit_evidence e r now v dl).
Proof.
  intros Hl. unfold admit_evidence. cbv zeta.
  change (inv_log (record_adverse_supersession (detect_signal_contradictions
    (update_lineage e (rp_frame r) (ra_disposition (rp_receiver r))) r now) r now)).
  assert (Hl' : inv_log (detect_signal_contradictions
    (update_lineage e (rp_frame r) (ra_disposition (rp_receiver r))) r now)).
  { apply inv_log_detect. unfold update_lineage. repeat case_goal; exact Hl. }
  revert Hl'. generalize (detect_signal_contradictions
    (update_lineage e (rp_frame r) (ra_disposition (rp_receiver r))) r now) as e1.
  intros e1 Hl'. unfold record_adverse_supersession. cbv zeta. case_goal; [|done].
  case_goal; [done|]. by apply inv_log_push.
Qed.

Lemma inv_log_advancing e r now : inv_log e → inv_log (ingest_advancing e r now).
Proof.
  intros Hl. unfold ingest_advancing. cbv zeta. case_goal.
  { unfold bump_dropped, update_lineage. repeat case_goal; exact Hl. }
  case_decide; [by apply inv_log_admit|]. case_decide; [exact Hl|].
  by apply inv_log_admit, inv_log_create_contradiction.
Qed.

Lemma inv_log_ingest e r now : inv_log e → inv_log (ingest_state e r now).
Proof.
  intros Hl. unfold ingest_state. cbv zeta.
  match goal with |- context [if ?b then go_blind _ _ _ else _] => destruct b end;
    [by apply inv_log_push|].
  destruct (classify_arrival _ _ _). case_decide; [|by apply inv_log_push].
  unfold ingest_consistent. case_goal; try exact Hl; by apply inv_log_advancing.
Qed.

Lemma inv_log_retire e i t : inv_log e → inv_log (retire_contradictions e i t).
Proof.
  intros Hl. unfold retire_contradictions. cbv zeta.
  match goal with |- inv_log (fold_left _ ?rs ?e0) =>
    assert (Hl0 : inv_log e0) by exact Hl; revert Hl0; generalize e0; generalize rs end.
  induction l as [|r rs IH]; intros e1 Hl1; [done|]. cbn [fold_left]. by apply IH, inv_log_push.
Qed.

Lemma inv_log_import e rs : inv_log e → inv_log (import_contradictions e rs).1.
Proof.
  revert e. induction rs as [|r rs IH]; intros e Hl; [done|]. cbn [import_contradictions].
  case_goal; [done|]. cbv zeta. repeat case_goal; try done; by apply IH.
Qed.

Lemma inv_log_prepare e c e1 t : prepare e c = Some (e1, t) → inv_log e → inv_log e1.
Proof.
  intros Hp Hl. destruct c; cbn [prepare] in Hp; repeat case_in Hp; simplify_eq; try exact Hl.
  - by apply inv_log_ingest.
  - unfold replace_policy_state. cbv zeta. destruct (decide (rl_observation_profile p = _ ∧ _)); exact Hl.
  - match goal with |- inv_log (replace_subject_state _ ?i ?at_ms) =>
      exact (inv_log_retire e i at_ms Hl) end.
  - destruct m; exact (inv_log_push e t (EvMonitorCapabilityChanged _ _) I Hl).
  - exact (inv_log_push e t (EvMonitorCapabilityChanged _ _) I Hl).
  - exact (inv_log_push e t (EvMonitorCapabilityChanged _ _) I Hl).
  - exact (inv_log_push e t (EvContradictionLifecycleChanged _) I Hl).
  - by apply inv_log_push.
  - exact (inv_log_push e t (EvDiagnosticReceiptCorrelated _ _) I Hl).
Qed.

(** What numbers the escalations changes only when one is issued. *)
Lemma inv_issue_ext e e' :
  ev_issued_requests e' = ev_issued_requests e → ev_request_counter e' = ev_request_counter e →
  inv_issue e → inv_issue e'.
Proof. intros Hi Hc [? ?]. constructor; by rewrite ?Hi, Hc. Qed.

Lemma inv_issue_counted e n :
  ev_request_counter e <= n <= u64_max → inv_issue e → inv_issue (set_ev_request_counter e n).
Proof.
  intros Hn [Hc Hi]. constructor; cbn; [lia|]. intros id rq Hr. destruct (Hi id rq Hr) as (m & ? & ->).
  exists m. split; [lia|done].
Qed.

Lemma inv_issue_maybe_escalate e tr j t : inv_issue e → inv_issue (maybe_escalate e tr j t).1.
Proof.
  intros Hinv. unfold maybe_escalate. case_decide; [done|]. destruct (rl_escalation _) as [esc|]; [|done].
  case_goal; [done|]. cbv zeta. case_goal; [by apply (inv_issue_ext e)|].
  assert (Hn : inv_issue (set_ev_request_counter e (sat_add (ev_request_counter e) 1))).
  { pose proof (ii_counter _ Hinv). apply inv_issue_counted; [unfold sat_add; lia|done]. }
  case_goal; [|exact Hn]. cbn [fst]. pose proof (ii_counter _ Hinv) as Hc. destruct Hn as [Hn Hi].
  match goal with |- inv_issue (issue_escalation ?e0 ?r ?t0) =>
    assert (ev_issued_requests (issue_escalation e0 r t0)
              = <[rq_request_id r := r]> (ev_issued_requests e0)
            ∧ ev_request_counter (issue_escalation e0 r t0) = ev_request_counter e0) as [Hi' Hc'] end.
  { unfold issue_escalation. cbn. repeat case_goal; done. }
  constructor; rewrite ?Hi', ?Hc'; [exact Hn|]. apply map_Forall_insert_2; [|exact Hi].
  eexists. split; [|reflexivity]. cbn. unfold sat_add. split; [|lia]. unfold u64_max in *. lia.
Qed.

Lemma inv_issue_evaluate e t : inv_issue e → inv_issue (evaluate e t).1.
Proof.
  intros Hinv. destruct (evaluate_stages e t) as (ed & tr & Hq & _ & _ & ->). cbn [fst].
  destruct Hq as [_ Hesc]. unfold escalation_core in Hesc.
  assert (Hed : inv_issue ed).
  { apply (inv_issue_ext e); [| |done].
    - transitivity (ev_issued_requests (begin_evaluation e t).1); [congruence|].
      unfold begin_evaluation. repeat case_goal; simplify_eq; done.
    - transitivity (ev_request_counter (begin_evaluation e t).1); [congruence|].
      unfold begin_evaluation. repeat case_goal; simplify_eq; done. }
  eapply (inv_issue_ext (escalation_stage _ _ _ _ _).1); [done|done|]. unfold escalation_stage.
  destruct (ev_reevaluation_barrier e), tr; try done. by apply inv_issue_maybe_escalate.
Qed.

Lemma inv_evaluate e t :
  inv_evidence e → inv_requests e → inv_log e → inv_issue e → inv (evaluate e t).1.
Proof.
  intros. constructor;
    auto using inv_evidence_evaluate, inv_requests_evaluate, inv_judgment_evaluate, inv_log_evaluate,
      inv_issue_evaluate.
Qed.

(* ------------------------------------------------------------------ *)
(** ** Ingestion *)

Lemma received_binding_ext e e' r :
  ev_policy e' = ev_policy e → ev_receiver e' = ev_receiver e →
  ev_receiver_incarnation e' = ev_receiver_incarnation e → ev_clock_id e' = ev_clock_id e →
  validate_binding e' r = validate_binding e r.
Proof. unfold validate_binding. by intros -> -> -> ->. Qed.

Lemma inv_evidence_extends e e' : extends e e' → inv_evidence e → inv_evidence e'.
Proof.
  intros [Hf _ Hnew _] [Hp Hw Ho Hc Hret]. unfold fixed_core in Hf.
  destruct e, e'. cbn in *. simplify_eq. constructor; try done.
  - intros o x Hx. destruct (Ho o x Hx). constructor; assumption.
  - intros k r Hk. destruct (Hnew k r Hk) as [Hold|(? & ? & ? & _)]; [|done]. by apply (Hc k r).
Qed.

(** Dispositions that advance the lineage. *)
Definition advancing (d : ArrivalDispositionV1) : Prop :=
  d = First ∨ d = Continuous ∨ d = Gap ∨ d = Restarted.

(** What an advancing classification says about the lineage. *)
Definition lineage_fact (e : Evaluator) (f : PulseFrameV1) (d : ArrivalDispositionV1) : Prop :=
  match ev_observer_lineages e !! pf_observer f with
  | Some l => if decide (d = Restarted)
              then ol_incarnation l ≠ pf_observer_incarnation f
                   ∧ (pf_observer f, pf_observer_incarnation f)
                       ∉ ev_retired_observer_incarnations e
              else ol_incarnation l = pf_observer_incarnation f ∧ ol_sequence l < pf_sequence f
  | None => d = First
  end.

Lemma classify_advancing e f a d g :
  classify_arrival e f a = (d, g) → advancing d → lineage_fact e f d.
Proof.
  unfold lineage_fact, classify_arrival, advancing. intros Hc Hd.
  repeat case_in Hc; simplify_eq; try (by destruct Hd as [|[|[|]]]);
    rewrite ?decide_True, ?decide_False by done; try done.
  all: repeat case_decide; naive_solver lia.
Qed.

Lemma inv_update_lineage_retired e f d o i :
  lineage_fact e f d → inv_evidence e →
  (o, i) ∈ ev_retired_observer_incarnations (update_lineage e f d) →
  ∃ l, ev_observer_lineages (update_lineage e f d) !! o = Some l ∧ ol_incarnation l ≠ i.
Proof.
  intros Hl Hinv. pose proof (ie_retired _ Hinv) as Hret. unfold lineage_fact in Hl.
  rewrite update_lineage_lineages, update_lineage_retired.
  destruct (decide (pf_observer f = o)) as [Heq|Hne].
  - rewrite Heq, lookup_insert_eq in *. intros Hin. eexists. split; [done|]. cbn. intros <-.
    destruct (ev_observer_lineages e !! o) as [l|] eqn:Hlo.
    + case_decide.
      * destruct Hl as [Hne' Hnin]. rewrite elem_of_union, elem_of_singleton in Hin.
        destruct Hin as [[= Hi]|?]; [by apply Hne'|done].
      * destruct Hl as [Hi _]. destruct (Hret _ _ Hin) as (l' & Hl' & ?). congruence.
    + destruct (Hret _ _ Hin) as (l' & Hl' & ?). congruence.
  - rewrite lookup_insert_ne by done. intros Hin. apply Hret.
    destruct (ev_observer_lineages e !! pf_observer f); [case_decide|]; try done.
    rewrite elem_of_union, elem_of_singleton in Hin. destruct Hin as [[= ? ?]|?]; [|done]. by subst.
Qed.

Lemma inv_update_lineage e f d :
  lineage_fact e f d → inv_evidence e → inv_evidence (update_lineage e f d).
Proof.
  intros Hl Hinv. pose proof Hinv as [Hp Hw Ho Hk Hret]. pose proof Hl as Hl0. unfold lineage_fact in Hl.
  pose proof (update_lineage_binding e f d) as Hb. simplify_eq.
  constructor.
  - by rewrite update_lineage_policy.
  - by rewrite update_lineage_policy.
  - rewrite update_lineage_observers. intros o x Hx. destruct (Ho o x Hx) as [? ? ? ? ? ? (l & Hlo & Hor)].
    constructor; try done.
    + rewrite (received_binding_ext e) by (done || apply update_lineage_policy). done.
    + rewrite update_lineage_lineages, update_lineage_retired.
      destruct (decide (pf_observer f = o)) as [Heq|Hne].
      * rewrite Heq, lookup_insert_eq. rewrite Heq, Hlo in Hl. eexists. split; [done|]. cbn.
        rewrite Hlo. repeat case_decide.
        { right. rewrite elem_of_union, elem_of_singleton.
          destruct Hor as [[-> _]|?]; [by left|by right]. }
        destruct Hl. destruct Hor as [[? ?]|?]; [left; split; [congruence|lia]|by right].
      * rewrite lookup_insert_ne by done. exists l. split; [done|]. destruct Hor as [?|?]; [by left|right].
        repeat case_goal; rewrite ?elem_of_union; auto.
  - rewrite update_lineage_contradictions. intros k r Hr. unfold contradiction_ok.
    rewrite update_lineage_policy. by apply (Hk k r).
  - intros o i. by apply inv_update_lineage_retired.
Qed.

Lemma inv_insert_evidence e o x :
  inv_evidence e → evidence_ok e o x → inv_evidence (set_ev_observers e (<[o := x]> (ev_observers e))).
Proof.
  intros [Hp Hw Ho Hk Hret] Hx. constructor; try done. cbn.
  apply map_Forall_insert_2; [by destruct Hx; constructor|].
  intros o' x' Hx'. destruct (Ho o' x' Hx'). by constructor.
Qed.

Lemma admit_evidence_alt e r now v dl :
  admit_evidence e r now v dl =
  let e2 := examine (update_lineage e (rp_frame r) (ra_disposition (rp_receiver r))) r now in
  set_ev_observers e2
    (<[pf_observer (rp_frame r) :=
         mkEvidence r (sat_add (ra_arrival_monotonic_ms (rp_receiver r)) (v - dl))
           (continuity_of (ra_disposition (rp_receiver r)))]> (ev_observers e2)).
Proof. reflexivity. Qed.

Lemma inv_admit_evidence e r now v dl :
  inv_evidence e → received_validate r = Ok tt → validate_binding e r = Ok tt →
  is_u64 (ra_arrival_monotonic_ms (rp_receiver r)) = true → 0 <= dl < v → v <= pf_validity_ms (rp_frame r) →
  advancing (ra_disposition (rp_receiver r)) →
  lineage_fact e (rp_frame r) (ra_disposition (rp_receiver r)) →
  inv_evidence (admit_evidence e r now v dl).
Proof.
  intros Hinv Hv Hb Hu Hdl Hval Hadv Hl. rewrite admit_evidence_alt. cbv zeta.
  set (d := ra_disposition _) in *. set (e1 := update_lineage _ _ _).
  pose proof (examine_extends e1 r now) as Hx.
  assert (He1 : inv_evidence e1) by by apply inv_update_lineage.
  apply inv_insert_evidence; [by eapply inv_evidence_extends|].
  destruct Hx as [Hf _ _ _]. unfold fixed_core in Hf.
  pose proof (update_lineage_binding e (rp_frame r) d) as Hb'. fold e1 in Hb'.
  unfold is_u64 in Hu. split_and_bool.
  constructor; cbn [oe_received oe_expires_at_ms oe_continuity]; unfold frame_of, sat_add; cbn; try lia; try done.
  - rewrite (received_binding_ext e1), (received_binding_ext e); try done; try congruence.
    apply update_lineage_policy.
  - by destruct Hadv as [H' | [H' | [H' | H']]]; rewrite H'.
  - replace (ev_observer_lineages (examine e1 r now)) with (ev_observer_lineages e1) by congruence.
    unfold e1. rewrite update_lineage_lineages, lookup_insert_eq. eexists. split; [done|]. left. cbn.
    split; [done|lia].
Qed.

(** The binding of a pulse is unaffected by bookkeeping of subjects. *)
Lemma lineage_fact_ext e e' f d :
  ev_observer_lineages e' = ev_observer_lineages e →
  ev_retired_observer_incarnations e' = ev_retired_observer_incarnations e →
  lineage_fact e f d → lineage_fact e' f d.
Proof. unfold lineage_fact. by intros -> ->. Qed.

Lemma inv_ingest_advancing e r now :
  inv_evidence e → received_validate r = Ok tt → validate_binding e r = Ok tt → received_wf r = true →
  advancing (ra_disposition (rp_receiver r)) →
  lineage_fact e (rp_frame r) (ra_disposition (rp_receiver r)) →
  inv_evidence (ingest_advancing e r now).
Proof.
  intros Hinv Hv Hb Hwf Hadv Hl. unfold received_wf in Hwf. split_and_bool.
  assert (0 <= default 0 (ra_transport_observed_delay_ms (rp_receiver r)))
    by (unfold is_u64 in *; split_and_bool; lia).
  unfold ingest_advancing. cbv zeta.
  destruct (Z.leb_spec (effective_validity e (rp_frame r))
              (default 0 (ra_transport_observed_delay_ms (rp_receiver r)))) as [|Hlt].
  { eapply inv_evidence_ext; [|by apply inv_update_lineage]. done. }
  assert (effective_validity e (rp_frame r) <= pf_validity_ms (rp_frame r))
    by (unfold effective_validity; lia).
  case_decide; [by apply inv_admit_evidence|].
  case_decide; [by apply (inv_evidence_ext e)|].
  pose proof (record_subject_incarnation_change_extends e r now) as Hx.
  pose proof (x_fixed _ _ Hx) as Hf. unfold fixed_core in Hf.
  apply inv_admit_evidence; try done.
  - by eapply inv_evidence_extends.
  - rewrite (received_binding_ext e); congruence.
  - eapply lineage_fact_ext; [| |done]; congruence.
Qed.

Lemma inv_ingest_consistent e r now :
  inv_evidence e → received_validate r = Ok tt → validate_binding e r = Ok tt → received_wf r = true →
  classify_arrival e (rp_frame r) (rp_receiver r)
  = (ra_disposition (rp_receiver r), ra_sequence_gap (rp_receiver r)) →
  inv_evidence (ingest_consistent e r now).
Proof.
  intros Hinv Hv Hb Hwf Hc. unfold ingest_consistent.
  pose proof (classify_advancing _ _ _ _ _ Hc) as Hl.
  assert (Hgo : ∀ e', bound_core e' = bound_core e → advancing (ra_disposition (rp_receiver r)) →
                  inv_evidence (ingest_advancing e' r now)).
  { intros e' Heq Hadv. specialize (Hl Hadv). unfold bound_core in Heq.
    apply inv_ingest_advancing; try done.
    - by eapply inv_evidence_ext.
    - rewrite (received_binding_ext e); congruence.
    - eapply lineage_fact_ext; [| |done]; congruence. }
  unfold advancing in Hgo.
  destruct (ra_disposition (rp_receiver r)); try (by apply (inv_evidence_ext e)); apply Hgo; tauto.
Qed.

Lemma inv_ingest_state e r now :
  inv_evidence e → received_validate r = Ok tt → validate_binding e r = Ok tt → received_wf r = true →
  inv_evidence (ingest_state e r now).
Proof.
  intros Hinv Hv Hb Hwf. unfold ingest_state. cbv zeta.
  match goal with |- context [if ?b then go_blind _ _ _ else _] => destruct b end.
  { by apply (inv_evidence_ext e). }
  match goal with |- context [classify_arrival ?e2 _ _] => set (e2' := e2) end.
  assert (inv_evidence e2') by by apply (inv_evidence_ext e).
  destruct (classify_arrival e2' _ _) as [d g] eqn:Hc. case_decide as Heq.
  - destruct Heq as [-> ->]. by apply inv_ingest_consistent.
  - by apply (inv_evidence_ext e).
Qed.

(* ------------------------------------------------------------------ *)
(** ** The other commands *)

Lemma inv_clear_observers e : inv_evidence e → inv_evidence (clear_observers e).
Proof.
  intros [Hp Hw _ Hk _]. constructor; [done|done|apply map_Forall_empty|done|].
  intros o i. cbn. set_solver.
Qed.

Lemma inv_set_contradictions e m :
  inv_evidence e → map_Forall (contradiction_ok e) m → inv_evidence (set_ev_contradictions e m).
Proof.
  intros [Hp Hw Ho _ Hret] Hm. constructor; try done. intros o x Hx. destruct (Ho o x Hx). by constructor.
Qed.

Lemma inv_replace_policy_state e p b :
  policy_validate p = Ok tt → policy_wf p = true → rl_subject p = rl_subject (ev_policy e) →
  inv_evidence e → inv_evidence (replace_policy_state e p b).
Proof.
  intros Hv Hwf Hs [Hp Hw Ho Hk Hret]. unfold replace_policy_state. cbv zeta. case_decide as Hsame.
  - constructor; try done.
    + intros o x Hx. destruct (Ho o x Hx) as [? ? Hb ? ? ? ?]. constructor; try done.
      unfold validate_binding in *. cbn in *. destruct Hsame as [-> ->]. by rewrite Hs.
    + intros k r Hr. unfold contradiction_ok. cbn. rewrite Hs. by apply (Hk k r).
  - constructor; try done.
    + intros k r Hr. unfold contradiction_ok. cbn. rewrite Hs. by apply (Hk k r).
Qed.

Lemma fold_push_event_extends e t rs :
  extends e (fold_left (λ e r, push_event e t (EvContradictionLifecycleChanged r)) rs e).
Proof.
  revert e. induction rs as [|r rs IH]; intros e; [done|]. cbn [fold_left].
  etrans; [apply push_event_extends|apply IH].
Qed.

Lemma inv_retire_contradictions e i t : inv_evidence e → inv_evidence (retire_contradictions e i t).
Proof.
  intros Hinv. unfold retire_contradictions. cbv zeta.
  eapply inv_evidence_extends; [apply fold_push_event_extends|].
  apply inv_set_contradictions; [done|]. intros k r. rewrite lookup_fmap_Some.
  intros (r0 & <- & Hr). pose proof (ie_contradictions _ Hinv k r0 Hr) as Hok. by case_goal.
Qed.

Lemma inv_replace_subject_state e i t : inv_evidence e → inv_evidence (replace_subject_state e i t).
Proof.
  intros Hinv. unfold replace_subject_state. cbv zeta.
  eapply inv_evidence_ext; [|apply inv_clear_observers, (inv_retire_contradictions e i t Hinv)]. done.
Qed.

Lemma inv_resolve_state e id r t record :
  ev_contradictions e !! id = Some record → inv_evidence e → inv_evidence (resolve_state e id r t record).1.
Proof.
  intros Hid Hinv. pose proof (ie_contradictions _ Hinv id record Hid) as Hok.
  eapply inv_evidence_ext; [|apply inv_set_contradictions; [exact Hinv|]; apply map_Forall_insert_2];
    [reflexivity|exact Hok|apply ie_contradictions, Hinv].
Qed.

Lemma import_contradictions_frame e rs :
  inv_evidence e →
  inv_evidence (import_contradictions e rs).1 ∧
  ev_issued_requests (import_contradictions e rs).1 = ev_issued_requests e ∧
  ev_active_escalations (import_contradictions e rs).1 = ev_active_escalations e ∧
  ev_last_judgment (import_contradictions e rs).1 = ev_last_judgment e ∧
  ev_last_evaluation_ms (import_contradictions e rs).1 = ev_last_evaluation_ms e ∧
  ev_reevaluation_barrier (import_contradictions e rs).1 = ev_reevaluation_barrier e.
Proof.
  revert e. induction rs as [|r rs IH]; intros e Hinv; [done|]. cbn [import_contradictions].
  destruct (negb _) eqn:Hguard; [done|]. cbv zeta.
  set (e' := set_ev_contradictions e _).
  assert (inv_evidence e') as Hinv'.
  { apply inv_set_contradictions; [done|]. apply map_Forall_insert_2; [|apply ie_contradictions, Hinv].
    split_and_bool. split; [done|]. split; [lia|].
    by match goal with Hb : bool_decide _ = true |- _ => apply bool_decide_eq_true in Hb end. }
  destruct (IH e' Hinv') as (? & ? & ? & ? & ? & ?).
  clear Hguard. destruct (ev_contradictions e !! _); [destruct (decide _)|]; split_and!; done || assumption.
Qed.

Lemma inv_prepare e c e1 t :
  command_wf c = true → prepare e c = Some (e1, t) → inv_evidence e → inv_requests e →
  inv_evidence e1 ∧ inv_requests e1.
Proof.
  intros Hwf Hp He Hr.
  destruct c; cbn [prepare command_wf] in Hp, Hwf; split_and_bool; try discriminate Hp.
  - destruct (received_validate r) as [[]|] eqn:Hv; [|discriminate Hp].
    destruct (validate_binding e r) as [[]|] eqn:Hb; [|discriminate Hp].
    destruct (_ <? _); [discriminate Hp|]. cbn [is_ok andb negb] in Hp. injection Hp as <- <-.
    split; [by apply inv_ingest_state|]. pose proof (ingest_state_session e r now) as Hs.
    unfold session_core, escalation_core in Hs. apply (inv_requests_ext e); congruence.
  - by injection Hp as <- <-.
  - destruct (policy_validate p) as [[]|] eqn:Hv; [|discriminate Hp].
    case_bool_decide as Hsame; [|discriminate Hp]. injection Hp as <- <-. destruct Hsame as (? & _ & _).
    split; [by apply inv_replace_policy_state|]. apply (inv_requests_ext e); [| |done];
      unfold replace_policy_state; cbv zeta; by case_decide.
  - injection Hp as <- <-. split; [by apply (inv_evidence_ext e)|by apply (inv_requests_ext e)].
  - destruct (is_ok _ && _); [|discriminate Hp]. injection Hp as <- <-.
    split; [by apply inv_replace_subject_state|].
    pose proof (fold_push_event_extends) as Hx. apply (inv_requests_ext e); [| |done].
    all: unfold replace_subject_state, retire_contradictions; cbv zeta.
    all: match goal with |- context [fold_left ?f ?rs ?e0] =>
           pose proof (x_fixed _ _ (fold_push_event_extends e0 at_ms rs)) as Hf end.
    all: unfold fixed_core, escalation_core in Hf; cbn in Hf |- *; congruence.
  - injection Hp as <- <-. destruct m; (split; [by apply (inv_evidence_ext e)|by apply (inv_requests_ext e)]).
  - injection Hp as <- <-. split; [by apply (inv_evidence_ext e)|by apply (inv_requests_ext e)].
  - injection Hp as <- <-. split; [by apply (inv_evidence_ext e)|by apply (inv_requests_ext e)].
  - destruct (_ || _); [discriminate Hp|]. destruct (_ !! _) as [record|] eqn:Hid; [|discriminate Hp].
    destruct (contradiction_is_active record); [|discriminate Hp]. injection Hp as <- <-.
    split; [by apply inv_resolve_state|by apply (inv_requests_ext e)].
  - destruct (_ && _); [|discriminate Hp]. destruct (_ !! _); [|discriminate Hp].
    destruct (_ <? _); [discriminate Hp|]. injection Hp as <- <-.
    split; [by apply (inv_evidence_ext e)|by apply (inv_requests_ext e)].
  - destruct (_ !! _); [|discriminate Hp]. destruct (receipt_binds _ _ _ _); [|discriminate Hp].
    injection Hp as <- <-. split; [by apply (inv_evidence_ext e)|by apply (inv_requests_ext e)].
Qed.

(** Neither counter of the escalations is touched before the evaluation. *)
Lemma inv_issue_prepare e c e1 t : prepare e c = Some (e1, t) → inv_issue e → inv_issue e1.
Proof.
  intros Hp Hi. destruct c; cbn [prepare] in Hp; repeat case_in Hp; simplify_eq;
    try exact Hi; try (by apply (inv_issue_ext e)).
  - pose proof (ingest_state_session e r t) as Hs. unfold session_core, escalation_core in Hs.
    apply (inv_issue_ext e); congruence.
  - apply (inv_issue_ext e); [| |done]; unfold replace_policy_state; cbv zeta;
      by destruct (decide (rl_observation_profile p = _ ∧ _)).
  - apply (inv_issue_ext e); [| |done]; unfold replace_subject_state, retire_contradictions; cbv zeta.
    all: match goal with |- context [fold_left ?f ?rs ?e0] =>
           pose proof (x_fixed _ _ (fold_push_event_extends e0 t rs)) as Hf end.
    all: unfold fixed_core, escalation_core in Hf; cbn in Hf |- *; congruence.
  - apply (inv_issue_ext e); [| |done]; by destruct m.
Qed.

Lemma import_request_counter e rs :
  ev_request_counter (import_contradictions e rs).1 = ev_request_counter e.
Proof.
  revert e. induction rs as [|r rs IH]; intros e; [done|]. cbn [import_contradictions].
  destruct (negb _); [done|]. cbv zeta.
  destruct (ev_contradictions e !! _); [destruct (decide _)|]; rewrite ?IH; done.
Qed.

Lemma inv_stores e c : inv e → inv (stores e c).
Proof.
  intros Hinv. destruct c; try done; cbn [stores].
  - destruct (import_contradictions_frame e records (inv_ev _ Hinv)) as (? & Hi & Ha & Hj & Hl & Hb).
    destruct Hinv as [He Hr [Ht Hbar Hau] Hlog His]. constructor; [done|by apply (inv_requests_ext e)| | |].
    + constructor; rewrite ?Hj, ?Hl, ?Hb; done.
    + by apply inv_log_import.
    + apply (inv_issue_ext e); [done|apply import_request_counter|done].
  - destruct Hinv as [He Hr [? ? ?] ? ?]. constructor;
      [by apply (inv_evidence_ext e)|by apply (inv_requests_ext e)|by constructor|done|
       by apply (inv_issue_ext e)].
  - destruct Hinv as [He Hr [? ? ?] ? ?]. constructor;
      [by apply (inv_evidence_ext e)|by apply (inv_requests_ext e)|by constructor|done|
       by apply (inv_issue_ext e)].
Qed.

Lemma inv_step e e' : inv e → step e e' → inv e'.
Proof.
  intros Hinv Hstep. revert Hinv. destruct Hstep as [e0 c Hwf]. intros Hinv.
  destruct (run_cases e0 c) as [(e1 & t & Hp & [-> _])|[_ [-> _]]].
  - destruct (inv_prepare e0 c e1 t Hwf Hp (inv_ev _ Hinv) (inv_rq _ Hinv)). apply inv_evaluate; try done.
    + by apply (inv_log_prepare e0 c e1 t Hp), Hinv.
    + by apply (inv_issue_prepare e0 c e1 t Hp), Hinv.
  - by apply inv_stores.
Qed.

Lemma inv_new p rc rci ck inc e :
  policy_wf p = true → evaluator_new p rc rci ck inc = Ok e → inv e.
Proof.
  intros Hwf Hnew. unfold evaluator_new in Hnew. inv_oks. injection Hnew as <-.
  constructor; constructor; try done; try apply map_Forall_empty.
Qed.

Lemma reachable_inv e : reachable e → inv e.
Proof. induction 1; eauto using inv_new, inv_step. Qed.

End invariant.
