(* ===== verification/Support.v ===== *)
(** * What stands behind a published judgment

    Theorems over every reachable state: the invariant itself and the evidence
    behind CURRENT. *)

From S2P Require Import Prelude Ids Digest Pulse Samples Judgment Escalation Event Policy.
From S2P Require Import EvaluatorState Derive Explain Evaluator EvalSamples.
From S2P Require Import DeriveProps Frame Expiry Commands Ingestion Invariant.

Section support.
Context `{Sha256}.

(** C5. Every state reachable from [Evaluator::new] by any sequence of the
    public operations, refused ones included, satisfies the invariant: stored
    evidence is validated, bound to this receiver, subject, profile and
    observation policy, filed under its observer, not ahead of its lineage and
    expiring no later than its own validity allows; contradiction records are
    filed under their identity; issued requests are valid and every active
    escalation names one; no barrier outlives its operation; no judgment
    carries mutation authority.  The counters agree with what they number: the
    event counter is the length of the log and each event carries the identity
    of its place in it, the transition counter is the number of transitions in
    the log (all of them up to [u64::MAX], where they stay), and no issued
    request has a number the request counter has not reached. *)
Theorem evaluator_invariant e : reachable e → inv e.
Proof. apply reachable_inv. Qed.

(** The observed coverage of a validated frame is sorted, so the binary search
    finds exactly its members. *)
Lemma sorted_tags_loop_strict field prev xs :
  sorted_tags_loop field prev xs = Ok tt →
  strictly_sorted xs = true ∧
  match prev, xs with Some p, x :: _ => String.ltb p x = true | _, _ => True end.
Proof.
  revert prev. induction xs as [|x xs IH]; intros prev Hl; [by destruct prev|].
  cbn [sorted_tags_loop] in Hl. inv_oks. split_and_bool. destruct (IH _ Hl) as [Hs Hp]. split.
  - destruct xs as [|y xs]; [done|]. cbn [strictly_sorted]. by rewrite Hp.
  - destruct prev as [p|]; [|done].
    match goal with Hn : not_above _ _ = false |- _ => by apply str_leb_false_ltb in Hn end.
Qed.

Lemma frame_validate_observed f :
  frame_validate f = Ok tt → strictly_sorted (cd_observed (pf_coverage f)) = true.
Proof.
  unfold frame_validate. intros Hv. inv_oks.
  match goal with Hc : coverage_validate _ = Ok _ |- _ => unfold coverage_validate in Hc; inv_oks end.
  repeat match goal with Ht : validate_sorted_tags _ _ = Ok _ |- _ =>
    unfold validate_sorted_tags in Ht; inv_oks; apply sorted_tags_loop_strict in Ht as [Ht _] end.
  done.
Qed.

Lemma evidence_covers e o x tag :
  evidence_ok e o x → covers tag x = true ↔ tag ∈ cd_observed (pf_coverage (frame_of x)).
Proof.
  intros [_ Hv _ _ _ _ _]. apply binary_search_correct, frame_validate_observed.
  unfold received_validate in Hv. by inv_oks.
Qed.

(** A stored item that supports tag [tag] at time [t] for domain [d]. *)
Record supports (e : Evaluator) (t : Z) (tag d : string) (x : ObserverEvidence) : Prop := mkSupports {
  sp_stored : ev_observers e !! pf_observer (frame_of x) = Some x;
  sp_domain : failure_domain (pf_observer (frame_of x)) (rl_observer_failure_domains (ev_policy e)) = d;
  sp_unexpired : t < oe_expires_at_ms x;
  sp_in_validity : t < ra_arrival_monotonic_ms (rp_receiver (oe_received x)) + pf_validity_ms (frame_of x);
  sp_incarnation : pf_subject_incarnation (frame_of x) = ev_current_subject_incarnation e;
  sp_tag : tag ∈ cd_observed (pf_coverage (frame_of x));
  sp_valid : received_validate (oe_received x) = Ok tt;
  sp_within : ∀ s, s ∈ pf_signals (frame_of x) → sg_assessment s ≠ OutsideDeclaredBound;
  sp_provenance : received_provenance_is_eligible (ev_policy e) (oe_received x) = true;
}.

Lemma elem_of_eligible_fresh e t x :
  x ∈ eligible_fresh e t ↔
  provenance_is_eligible (ev_policy e) x = true ∧ t < oe_expires_at_ms x ∧
  pf_subject_incarnation (frame_of x) = ev_current_subject_incarnation e ∧
  ∃ o, ev_observers e !! o = Some x.
Proof.
  unfold eligible_fresh, fresh_evidence, relevant_evidence.
  rewrite !list_elem_of_filter, elem_of_bt_values. done.
Qed.

Lemma eligible_supports e t tag x :
  inv_evidence e → current_at e t → x ∈ covering tag (eligible_fresh e t) →
  supports e t tag (evidence_domain (rl_observer_failure_domains (ev_policy e)) x) x.
Proof.
  intros Hinv Hcur Hx. unfold covering in Hx. apply list_elem_of_filter in Hx as [Hc Hx].
  pose proof (ca_no_violation _ _ Hcur x Hx) as Hviol.
  apply elem_of_eligible_fresh in Hx as (Hp & Hlt & Hi & o & Ho).
  pose proof (ie_observers _ Hinv o x Ho) as Hok. destruct Hok as [Hkey Hv Hb He Ha Hco Hl] eqn:Heq.
  constructor; try done.
  - by rewrite Hkey.
  - lia.
  - by apply (evidence_covers e o x tag Hok).
  - unfold violates in Hviol. rewrite existsb_false_iff in Hviol.
    intros s Hs. specialize (Hviol s Hs). by apply bool_decide_eq_false in Hviol.
Qed.

(** What CURRENT rests on at time [t]: enough independent support for every
    required tag, and nothing against it. *)
Record backed_current (e : Evaluator) (t : Z) : Prop := mkBackedCurrent {
  bc_support : ∀ tag, tag ∈ rl_required_coverage (ev_policy e) →
    ∃ domains : gset string,
      rl_minimum_observers (ev_policy e) <= Z.of_nat (size domains) ∧
      ∀ d, d ∈ domains → ∃ x, supports e t tag d x;
  bc_contradictions : ∀ k r, ev_contradictions e !! k = Some r → contradiction_is_active r = false;
  bc_continuity : ∀ o x, ev_observers e !! o = Some x → t < oe_expires_at_ms x →
    pf_subject_incarnation (frame_of x) = ev_current_subject_incarnation e →
    oe_continuity x = SeqContinuous ∨ oe_continuity x = SeqFirstSeen;
  bc_operational : ev_monitor_capability e = Operational;
}.

#[global] Instance backed_current_proper : Proper (same_support ==> eq ==> iff) backed_current.
Proof.
  assert (∀ e e' t, same_support e e' → backed_current e t → backed_current e' t) as Himp.
  { intros e e' t [Hp Hs Ho Hc Hm] [Hsup Hcon Hcont Hop]. constructor.
    - rewrite <-Hp. intros tag Ht. destruct (Hsup tag Ht) as (ds & Hn & Hds). exists ds. split; [done|].
      intros d Hd. destruct (Hds d Hd) as (x & []). exists x. constructor; congruence || done.
    - by rewrite <-Hc.
    - rewrite <-Ho, <-Hs. exact Hcont.
    - congruence. }
  intros e e' Hs t ? <-. split; apply Himp; [done|by symmetry].
Qed.

Lemma derived_current_backed e t :
  inv_evidence e → ds_category (derive e t) = CatCurrent → backed_current e t.
Proof.
  intros Hinv Hcat.
  assert (Hu : is_u32 (rl_minimum_observers (ev_policy e)) = true).
  { pose proof (ie_policy_wf _ Hinv) as Hw. unfold policy_wf in Hw. by split_and_bool. }
  assert (Hcur : current_at e t) by (apply derive_current_iff; [by apply policy_validate_ok, Hinv|done]).
  constructor; [|apply (ca_no_contradiction _ _ Hcur)| |apply (ca_operational _ _ Hcur)].
  - intros tag Htag. pose proof (ca_covered _ _ Hcur) as Hact. unfold all_active in Hact.
    rewrite Forall_forall in Hact. specialize (Hact tag Htag). apply tag_is_active_iff in Hact; [|done].
    exists (unique_domains (covering tag (eligible_fresh e t)) (rl_observer_failure_domains (ev_policy e))).
    split; [done|]. intros d (x & Hx & <-)%elem_of_unique_domains. exists x. by apply eligible_supports.
  - intros o x Ho Hlt Hi.
    assert (Hf : x ∈ fresh_evidence e t).
    { unfold fresh_evidence, relevant_evidence. rewrite !list_elem_of_filter, elem_of_bt_values. eauto. }
    destruct (ca_unbroken _ _ Hcur x Hf). pose proof (eok_continuity _ _ _ (ie_observers _ Hinv o x Ho)).
    destruct (oe_continuity x); tauto.
Qed.

(** C6. A CURRENT judgment is never published on less than the policy asks.
    Whatever public operation publishes it in whatever reachable state, in the
    state it leaves and at the time of the judgment: for every required coverage
    tag there are at least [minimum_observers] distinct failure domains, each
    with a stored, validated, unexpired pulse of the current subject incarnation
    that covers the tag, reports no signal outside its bound and passes the
    provenance rule; no contradiction is active, nothing fresh arrived after a
    gap or a restart, and the monitor is operational.  The state the operation
    evaluated held no reevaluation barrier, and its clock had not gone back. *)
Theorem current_is_supported e c e' out :
  reachable e → command_wf c = true → run e c = (e', Ok (Some out)) →
  pj_category (eo_judgment out) = CatCurrent →
  backed_current e' (pj_evaluated_at_monotonic_ms (eo_judgment out)) ∧
  ∃ e1 t, prepare e c = Some (e1, t) ∧ ev_reevaluation_barrier e1 = None ∧ regressed e1 t = false ∧
    pj_evaluated_at_monotonic_ms (eo_judgment out) = t.
Proof.
  intros Hreach Hwf Hrun Hcat. destruct (reachable_inv e Hreach) as [Hev Hrq _ _ _].
  destruct (run_published e c e' out Hrun) as (e1 & t & Hp & -> & Hj & _). rewrite Hj in Hcat |- *.
  destruct (inv_prepare e c e1 t Hwf Hp Hev Hrq) as [Hinv _].
  destruct (judged_current_plain e1 t Hcat) as [Hb Hr]. destruct (judged_plain e1 t Hb Hr) as [Hc _].
  destruct (judged_derives e1 t) as (_ & _ & ->). rewrite clamped_ge in Hc |- * by done.
  split; [|by exists e1, t]. rewrite <-(evaluate_same_support e1 t Hr).
  apply derived_current_backed; [done|congruence].
Qed.

End support.

Lemma sample_evaluator_reachable : reachable sample_evaluator.
Proof.
  apply (reach_new sample_policy "receiver:a" "receiver-process:1" "clock:1" "boot:1");
    vm_compute; reflexivity.
Qed.

Lemma ingest_run `{Sha256} e r now : (ingest e r now).1 = (run e (CmdIngest r now)).1.
Proof. reflexivity. Qed.

Lemma current_evaluator_reachable : reachable current_evaluator.
Proof.
  unfold current_evaluator. rewrite ingest_run.
  apply (reach_step sample_evaluator); [apply sample_evaluator_reachable|].
  apply step_run. vm_compute. reflexivity.
Qed.

Lemma evaluator_invariant_witness : reachable current_evaluator ∧ inv current_evaluator.
Proof.
  split; [exact current_evaluator_reachable|].
  apply evaluator_invariant. exact current_evaluator_reachable.
Defined.

Lemma current_is_supported_witness :
  ∃ e' out, run sample_evaluator (CmdIngest (sample_received 10) 10) = (e', Ok (Some out)) ∧
    pj_category (eo_judgment out) = CatCurrent ∧ backed_current e' 10.
Proof.
  destruct (run sample_evaluator (CmdIngest (sample_received 10) 10)) as [e' [[out|]|]] eqn:Hrun;
    [|exfalso; revert Hrun; vm_compute; discriminate..].
  assert (Hc : pj_category (eo_judgment out) = CatCurrent ∧ pj_evaluated_at_monotonic_ms (eo_judgment out) = 10).
  { revert Hrun. vm_compute. intros [= _ <-]. done. }
  destruct Hc as [Hc Ht]. exists e', out. split; [reflexivity|]. split; [exact Hc|]. rewrite <- Ht.
  refine (proj1 (current_is_supported sample_evaluator (CmdIngest (sample_received 10) 10) e' out
                   sample_evaluator_reachable _ Hrun Hc)). vm_compute. reflexivity.
Defined.
