(* ===== verification/Standing.v ===== *)
(** * Standing is not inherited and blindness is not forgotten

    Barriers, clock regression, receiver inconsistency: the operations after
    which the evaluator must not rely on what it holds. *)

From S2P Require Import Prelude Ids Digest Pulse Samples Judgment Escalation Event Policy.
From S2P Require Import EvaluatorState Derive Explain Evaluator EvalSamples.
From S2P Require Import DeriveProps Frame Expiry Commands Ingestion Invariant.

Section standing.
Context `{Sha256}.

(* ------------------------------------------------------------------ *)
(** ** Barriers *)

(** The operations that install a barrier. *)
Definition raises_barrier (c : Command) : bool :=
  match c with
  | CmdReplacePolicy _ _ _ | CmdInstallBarrier _ _ | CmdReplaceSubject _ _ | CmdRestore _ _ => true
  | _ => false
  end.

Lemma judged_barrier e t b :
  ev_reevaluation_barrier e = Some b →
  pj_category (judged e t) = CatUnknown ∧
  pj_positive_support_expires_at_monotonic_ms (judged e t) = None ∧
  eo_escalation_request (evaluate e t).2 = None.
Proof.
  intros Hb. destruct (judged_derives e t) as (-> & -> & _). unfold derive_under_barrier.
  rewrite begin_evaluation_barrier, Hb. split; [done|]. split; [done|].
  destruct (evaluate_stages e t) as (ed & tr & _ & _ & _ & ->). by rewrite Hb.
Qed.

Lemma raises_barrier_prepare e c e1 t :
  raises_barrier c = true → prepare e c = Some (e1, t) → is_Some (ev_reevaluation_barrier e1).
Proof.
  destruct c; try done; cbn [prepare]; intros _ Hp; repeat case_in Hp; simplify_eq; eexists; reflexivity.
Qed.

(** C7. Replacing the policy, replacing the subject incarnation, restoring the
    monitor and installing a barrier never hand down a standing judgment:
    whenever such an operation succeeds it publishes UNKNOWN without a
    deadline, requests no escalation, and its barrier is gone afterwards, so a
    separate evaluation of the evidence decides next. *)
Theorem barrier_not_inherited e c e' out :
  raises_barrier c = true → run e c = (e', Ok (Some out)) →
  pj_category (eo_judgment out) = CatUnknown ∧
  pj_positive_support_expires_at_monotonic_ms (eo_judgment out) = None ∧
  eo_escalation_request out = None ∧
  ev_reevaluation_barrier e' = None ∧
  ev_last_judgment e' = Some (eo_judgment out).
Proof.
  intros Hc Hrun. destruct (run_cases e c) as [(e1 & t & Hp & [H1 (evs & H2)])|[_ [_ Hno]]].
  - rewrite Hrun in H1, H2. cbn in H1, H2. injection H2 as ->. cbn.
    destruct (raises_barrier_prepare _ _ _ _ Hc Hp) as [b Hb].
    destruct (judged_barrier e1 t b Hb) as (? & ? & ?).
    rewrite H1, evaluate_barrier, evaluate_last_judgment. done.
  - rewrite Hrun in Hno. by destruct (Hno out).
Qed.

(* ------------------------------------------------------------------ *)
(** ** Blindness *)

Definition is_blind (e : Evaluator) : Prop := ∃ detail, ev_monitor_capability e = Blind detail.

Lemma begin_blind e t : is_blind e → is_blind (begin_evaluation e t).1.
Proof.
  intros [d Hd]. destruct (regressed e t) eqn:Hr; [by apply regressed_blind|].
  exists d. by rewrite begin_evaluation_capability.
Qed.

Lemma evaluate_blind e t : is_blind e → is_blind (evaluate e t).1.
Proof.
  intros [d Hd]%(begin_blind e t). exists d. by rewrite (k_capability _ _ (evaluate_keeps e t)).
Qed.

Lemma judged_blind e t : is_blind e → pj_category (judged e t) ≠ CatCurrent.
Proof.
  intros [d Hd] Hc. destruct (judged_current_plain e t Hc) as [Hb Hr].
  destruct (judged_plain e t Hb Hr) as [Heq _]. rewrite Hc in Heq.
  by apply (blind_not_current e (clamped e t) d).
Qed.

Lemma fixed_capability e e' : extends e e' → ev_monitor_capability e' = ev_monitor_capability e.
Proof. intros Hx. pose proof (x_fixed _ _ Hx) as Hf. unfold fixed_core in Hf. congruence. Qed.

Lemma admit_evidence_capability e r now v dl :
  ev_monitor_capability (admit_evidence e r now v dl) = ev_monitor_capability e.
Proof.
  transitivity (ev_monitor_capability (examine (update_lineage e (rp_frame r)
                  (ra_disposition (rp_receiver r))) r now)); [done|].
  rewrite (fixed_capability _ _ (examine_extends _ _ _)).
  pose proof (update_lineage_binding e (rp_frame r) (ra_disposition (rp_receiver r))). congruence.
Qed.

Lemma ingest_consistent_capability e r now :
  ev_monitor_capability (ingest_consistent e r now) = ev_monitor_capability e.
Proof.
  assert (Ha : ∀ e, ev_monitor_capability (ingest_advancing e r now) = ev_monitor_capability e).
  { clear e. intros e. unfold ingest_advancing. cbv zeta. case_goal; [|case_decide; [|case_decide]].
    - pose proof (update_lineage_binding e (rp_frame r) (ra_disposition (rp_receiver r))).
      transitivity (ev_monitor_capability (update_lineage e (rp_frame r)
                      (ra_disposition (rp_receiver r)))); [done|congruence].
    - apply admit_evidence_capability.
    - done.
    - rewrite admit_evidence_capability.
      apply fixed_capability, record_subject_incarnation_change_extends. }
  unfold ingest_consistent. destruct (ra_disposition (rp_receiver r)); try done; by rewrite Ha.
Qed.

Lemma ingest_state_blind e r now : is_blind e → is_blind (ingest_state e r now).
Proof.
  intros [d Hd]. unfold ingest_state. cbv zeta.
  match goal with |- context [if ?b then go_blind _ _ _ else _] => destruct b end; [eexists; done|].
  destruct (classify_arrival _ _ _). case_decide; [|eexists; done].
  exists d. by rewrite ingest_consistent_capability.
Qed.

(** The operations that decide the monitor's capability. *)
Definition sets_capability (c : Command) : bool :=
  match c with CmdSetCapability _ _ | CmdRestore _ _ => true | _ => false end.

Lemma retire_contradictions_capability e i t :
  ev_monitor_capability (retire_contradictions e i t) = ev_monitor_capability e.
Proof. unfold retire_contradictions. cbv zeta. by rewrite (fixed_capability _ _ (fold_push_event_extends _ _ _)). Qed.

Lemma prepare_blind e c e1 t :
  sets_capability c = false → prepare e c = Some (e1, t) → is_blind e → is_blind e1.
Proof.
  intros Hc Hp Hb. destruct c; try done; cbn [prepare] in Hp.
  - repeat case_in Hp; simplify_eq. by apply ingest_state_blind.
  - by simplify_eq.
  - destruct Hb as [d Hb]. exists d. repeat case_in Hp; simplify_eq.
    unfold replace_policy_state. cbv zeta. by destruct (decide _).
  - by simplify_eq.
  - destruct Hb as [d Hb]. exists d. repeat case_in Hp; simplify_eq.
    unfold replace_subject_state. cbn. by rewrite retire_contradictions_capability.
  - simplify_eq. eexists. done.
  - by repeat case_in Hp; simplify_eq.
  - by repeat case_in Hp; simplify_eq.
  - by repeat case_in Hp; simplify_eq.
Qed.

Lemma stores_blind e c : is_blind e → is_blind (stores e c).
Proof.
  intros [d Hd]. exists d. destruct c; try done. cbn [stores].
  revert e Hd. induction records as [|r rs IH]; intros e Hd; [done|]. cbn [import_contradictions].
  destruct (negb _); [done|]. cbv zeta. destruct (_ !! _); [destruct (decide _)|]; auto.
Qed.

(** C8. Blindness is latched: once the monitor is blind, no operation other
    than setting or restoring the capability makes it see again, and nothing
    published in between is CURRENT, however much fresh evidence arrives. *)
Theorem blindness_latched e c :
  is_blind e → sets_capability c = false →
  is_blind (run e c).1 ∧
  ∀ out, (run e c).2 = Ok (Some out) → pj_category (eo_judgment out) ≠ CatCurrent.
Proof.
  intros Hb Hc. destruct (run_cases e c) as [(e1 & t & Hp & [-> (evs & ->)])|[_ [-> Hno]]].
  - pose proof (prepare_blind _ _ _ _ Hc Hp Hb). split; [by apply evaluate_blind|].
    intros out [= <-]. by apply judged_blind.
  - split; [by apply stores_blind|]. intros out Hout. by destruct (Hno out).
Qed.

(** Time does not run backwards: an evaluation asked for a time before the
    previous one is made at the previous time, blinds the monitor, records it
    in the event log and does not publish CURRENT. *)
Theorem clock_regression_blinds e prior t :
  ev_last_evaluation_ms e = Some prior → t < prior →
  ∃ e' out, tick e t = (e', Ok out) ∧
    pj_evaluated_at_monotonic_ms (eo_judgment out) = prior ∧
    pj_category (eo_judgment out) ≠ CatCurrent ∧
    is_blind e' ∧ ev_last_evaluation_ms e' = Some prior ∧
    ∃ ev rest, eo_sparse_events out = ev :: rest ∧ se_at_monotonic_ms ev = prior ∧
      ∃ detail, se_event ev = EvMonitorCapabilityChanged "blind" detail.
Proof.
  intros Hl Hlt. rewrite tick_evaluate. do 2 eexists. split; [reflexivity|].
  assert (Hr : regressed e t = true) by (unfold regressed; rewrite Hl; lia).
  assert (Hcl : clamped e t = prior) by (unfold clamped; rewrite Hl; lia).
  fold (judged e t). split; [rewrite <-Hcl; apply (judged_derives e t)|].
  split; [intros [_ Hr']%judged_current_plain; congruence|].
  split; [destruct (regressed_blind e t Hr) as [d Hd]; exists d;
          by rewrite (k_capability _ _ (evaluate_keeps e t))|].
  split; [by rewrite evaluate_last, Hcl|].
  assert (Hlog : ∃ detail, ev_event_log (begin_evaluation e t).1 =
            ev_event_log e ++ [mkEvent SCHEMA_VERSION_V1
              ("event:" +:+ hex16 (sat_add (ev_event_counter e) 1)) prior
              (EvMonitorCapabilityChanged "blind" detail)]).
  { unfold begin_evaluation. rewrite Hl, (proj2 (Z.ltb_lt t prior)) by done. eexists. reflexivity. }
  destruct Hlog as [detail Hlog].
  destruct (evaluate_stages e t) as (ed & tr & Hq & _ & _ & ->). cbn [snd eo_sparse_events].
  destruct (k_log _ _ (q_keeps _ _ Hq)) as [l1 Hl1].
  destruct (k_log _ _ (escalation_stage_keeps (ev_reevaluation_barrier e) ed tr
              (pre_judgment (begin_evaluation e t).1 (clamped e t)) (clamped e t))) as [l2 Hl2].
  rewrite Hl2, Hl1, Hlog, <-!app_assoc, drop_app_length. cbn. do 2 eexists. split; [reflexivity|].
  split; [reflexivity|]. by eexists.
Qed.

(** A receiver whose annotation disagrees with the evaluator's own
    reading of the stream is not believed: the pulse becomes no evidence, the
    monitor goes blind and the judgment published is not CURRENT. *)
Theorem inconsistent_annotation_blinds e r now :
  received_validate r = Ok tt → validate_binding e r = Ok tt →
  ra_arrival_monotonic_ms (rp_receiver r) <= now →
  classify_arrival e (rp_frame r) (rp_receiver r)
  ≠ (ra_disposition (rp_receiver r), ra_sequence_gap (rp_receiver r)) →
  ∃ e' out, ingest e r now = (e', Ok out) ∧ is_blind e' ∧
    pj_category (eo_judgment out) ≠ CatCurrent ∧
    ev_observers e' = ev_observers e ∧ ev_observer_lineages e' = ev_observer_lineages e ∧
    ev_contradictions e' = ev_contradictions e ∧
    ev_current_subject_incarnation e' = ev_current_subject_incarnation e.
Proof.
  intros Hv Hb Ha Hne. unfold ingest. rewrite Hv, Hb, (proj2 (Z.ltb_ge _ _)) by done.
  unfold ok_evaluate_since, evaluate_since.
  assert (∃ d, ev_monitor_capability (ingest_state e r now) = Blind d ∧
    ev_observers (ingest_state e r now) = ev_observers e ∧
    ev_observer_lineages (ingest_state e r now) = ev_observer_lineages e ∧
    ev_contradictions (ingest_state e r now) = ev_contradictions e ∧
    ev_current_subject_incarnation (ingest_state e r now) = ev_current_subject_incarnation e)
    as (d & Hbl & Ho & Hln & Hk & Hs).
  { unfold ingest_state. cbv zeta.
    match goal with |- context [if ?b then go_blind _ _ _ else _] => destruct b end; [by eexists|].
    change (classify_arrival (set_ev_last_receiver_arrival_ms _ _) (rp_frame r) (rp_receiver r))
      with (classify_arrival e (rp_frame r) (rp_receiver r)).
    destruct (classify_arrival e _ _) as [d g]. case_decide as Heq; [|by eexists].
    destruct Heq as [-> ->]. done. }
  set (e1 := ingest_state e r now) in *. assert (Hbl1 : is_blind e1) by by exists d.
  pose proof (evaluate_core e1 now) as Hc. unfold evidence_core in Hc.
  pose proof (evaluate_blind e1 now Hbl1). pose proof (judged_blind e1 now Hbl1) as Hj. unfold judged in Hj.
  destruct (evaluate e1 now) as [e' out]. cbn [fst snd] in *. do 2 eexists. split; [reflexivity|].
  cbn. repeat split; try done; congruence.
Qed.

End standing.

Definition sample_barrier : ReevaluationBarrierV1 := GenerationTransition "reliance:1 to reliance:2".

Lemma barrier_not_inherited_witness :
  ∃ out, published (run current_evaluator (CmdReplacePolicy narrow_policy sample_barrier 20)) = Some out ∧
    pj_category (eo_judgment out) = CatUnknown.
Proof.
  destruct (has_value_true
              (published (run current_evaluator (CmdReplacePolicy narrow_policy sample_barrier 20))))
    as [out E]; [vm_compute; reflexivity|].
  exists out. split; [exact E|].
  refine (proj1 (barrier_not_inherited _ _ _ _ _ (published_run _ _ _ E))). reflexivity.
Defined.

(** A monitor blinded while its evidence is fresh. *)
Definition blinded_evaluator : Evaluator :=
  (run current_evaluator (CmdInputDrop 1 20 "input queue overflow")).1.

Lemma blindness_latched_witness :
  is_blind blinded_evaluator ∧ is_blind (run blinded_evaluator (CmdTick 30)).1.
Proof.
  assert (Hb : is_blind blinded_evaluator) by (exists "input queue overflow"; vm_compute; reflexivity).
  split; [exact Hb|]. exact (proj1 (blindness_latched blinded_evaluator (CmdTick 30) Hb eq_refl)).
Defined.

Lemma clock_regression_blinds_witness :
  ev_last_evaluation_ms current_evaluator = Some 10 ∧
  ∃ e' out, tick current_evaluator 9 = (e', Ok out) ∧ is_blind e'.
Proof.
  assert (Hl : ev_last_evaluation_ms current_evaluator = Some 10) by (vm_compute; reflexivity).
  split; [exact Hl|].
  destruct (clock_regression_blinds current_evaluator 10 9 Hl ltac:(lia))
    as (e' & out & Ht & _ & _ & Hb & _).
  exists e', out. split; [exact Ht|exact Hb].
Defined.

(** The first pulse of the sample stream, annotated as a replay. *)
Definition mislabelled : ReceivedPulseV1 := mkReceived sample_frame (sample_annotation 20 Replay).

Lemma inconsistent_annotation_blinds_witness :
  ∃ e' out, ingest sample_evaluator mislabelled 20 = (e', Ok out) ∧ is_blind e' ∧
    pj_category (eo_judgment out) ≠ CatCurrent.
Proof.
  destruct (inconsistent_annotation_blinds sample_evaluator mislabelled 20)
    as (e' & out & Hi & Hb & Hc & _).
  - vm_compute. reflexivity.
  - vm_compute. reflexivity.
  - vm_compute. discriminate.
  - vm_compute. discriminate.
  - exists e', out. split; [exact Hi|]. split; [exact Hb|exact Hc].
Defined.
