(* ===== verification/Custody.v ===== *)
(** * Custody of evidence, contradictions and events

    What the operations may do to the three kinds of record the evaluator
    keeps. *)

From S2P Require Import Prelude Ids Digest Pulse Samples Judgment Escalation Event Policy.
From S2P Require Import EvaluatorState Derive Explain Evaluator EvalSamples.
From S2P Require Import DeriveProps Frame Expiry Commands Ingestion Invariant Support.

Section custody.
Context `{Sha256}.

(* ------------------------------------------------------------------ *)
(** ** Evidence *)

(** The evidence item [ingest] makes of a pulse at the policy's validity. *)
Definition evidence_for (e : Evaluator) (r : ReceivedPulseV1) : ObserverEvidence :=
  mkEvidence r
    (sat_add (ra_arrival_monotonic_ms (rp_receiver r))
       (effective_validity e (rp_frame r)
        - default 0 (ra_transport_observed_delay_ms (rp_receiver r))))
    (continuity_of (ra_disposition (rp_receiver r))).

(** Admission of [r] into a state with [e]'s evidence. *)
Definition admits (e : Evaluator) (r : ReceivedPulseV1) (e' : Evaluator) : Prop :=
  ev_observers e' = <[pf_observer (rp_frame r) := evidence_for e r]> (ev_observers e) ∧
  advancing (ra_disposition (rp_receiver r)) ∧
  lineage_fact e (rp_frame r) (ra_disposition (rp_receiver r)) ∧
  default 0 (ra_transport_observed_delay_ms (rp_receiver r)) < effective_validity e (rp_frame r) ∧
  (pf_subject_incarnation (rp_frame r) ∉ ev_retired_subject_incarnations e).

Lemma admit_evidence_observers e r now v dl :
  ev_observers (admit_evidence e r now v dl)
  = <[pf_observer (rp_frame r) :=
        mkEvidence r (sat_add (ra_arrival_monotonic_ms (rp_receiver r)) (v - dl))
          (continuity_of (ra_disposition (rp_receiver r)))]> (ev_observers e).
Proof.
  rewrite admit_evidence_alt. cbn.
  match goal with |- <[_ := _]> (ev_observers (examine ?e1 _ _)) = _ =>
    pose proof (x_fixed _ _ (examine_extends e1 r now)) as Hf end.
  unfold fixed_core in Hf. f_equal. pose proof (update_lineage_observers e (rp_frame r)
    (ra_disposition (rp_receiver r))). congruence.
Qed.

(** [classify_arrival] calls every pulse of a retired incarnation a replay or
    stale. *)
Lemma classify_not_retired e f a d g :
  classify_arrival e f a = (d, g) → advancing d →
  pf_subject_incarnation f ∉ ev_retired_subject_incarnations e.
Proof.
  unfold classify_arrival, advancing. intros Hc Hd.
  destruct (match ra_transport_observed_delay_ms a with Some _ => _ | None => _ end).
  { simplify_eq. by destruct Hd as [?|[?|[?|?]]]. }
  case_decide; [|done]. simplify_eq. by destruct Hd as [?|[?|[?|?]]].
Qed.

Lemma ingest_advancing_observers e r now :
  ev_observers (ingest_advancing e r now) = ev_observers e ∨
  (ev_observers (ingest_advancing e r now)
   = <[pf_observer (rp_frame r) := evidence_for e r]> (ev_observers e) ∧
   default 0 (ra_transport_observed_delay_ms (rp_receiver r)) < effective_validity e (rp_frame r)).
Proof.
  unfold ingest_advancing. cbv zeta. destruct (Z.leb_spec (effective_validity e (rp_frame r))
    (default 0 (ra_transport_observed_delay_ms (rp_receiver r)))).
  - left. apply (update_lineage_observers e).
  - case_decide; [right; split; [by rewrite admit_evidence_observers|done]|].
    case_decide; [by left|]. right. split; [|done]. rewrite admit_evidence_observers.
    pose proof (x_fixed _ _ (record_subject_incarnation_change_extends e r now)) as Hf.
    unfold fixed_core in Hf. unfold evidence_for. f_equal. congruence.
Qed.

Lemma ingest_consistent_cases e r now :
  ev_observers (ingest_consistent e r now) = ev_observers e ∨
  (advancing (ra_disposition (rp_receiver r)) ∧
   ∃ e', ingest_consistent e r now = ingest_advancing e' r now ∧
     ev_observers e' = ev_observers e ∧ ev_policy e' = ev_policy e).
Proof.
  unfold ingest_consistent, advancing.
  destruct (ra_disposition (rp_receiver r)); try (by left); right; split; try tauto;
    eexists; (split; [reflexivity|]); done.
Qed.

Lemma ingest_state_observers e r now :
  ev_observers (ingest_state e r now) = ev_observers e ∨ admits e r (ingest_state e r now).
Proof.
  unfold ingest_state. cbv zeta.
  match goal with |- context [if ?b then go_blind _ _ _ else _] => destruct b end; [by left|].
  match goal with |- context [classify_arrival ?e2 _ _] => set (e2' := e2) end.
  destruct (classify_arrival e2' _ _) as [d g] eqn:Hc. case_decide as Heq; [|by left].
  destruct Heq as [-> ->].
  pose proof (classify_advancing _ _ _ _ _ Hc) as Hl. pose proof (classify_not_retired _ _ _ _ _ Hc) as Hn.
  change (lineage_fact e2') with (lineage_fact e) in Hl. unfold admits.
  assert (Hgo : ∀ e', ev_observers e' = ev_observers e → ev_policy e' = ev_policy e →
    advancing (ra_disposition (rp_receiver r)) →
    ev_observers (ingest_advancing e' r now) = ev_observers e ∨ admits e r (ingest_advancing e' r now)).
  { intros e' Ho Hp Hadv. unfold admits.
    destruct (ingest_advancing_observers e' r now) as [->|[-> Hlt]].
    - by left.
    - right. unfold evidence_for, effective_validity in *. rewrite Ho, Hp in *.
      split_and!; [done|done|by apply Hl|done|by apply Hn]. }
  destruct (ingest_consistent_cases e2' r now) as [->|(Hadv & e3 & -> & Ho & Hp)]; [by left|].
  apply Hgo; [by rewrite Ho|by rewrite Hp|done].
Qed.

(** C9. Only a newer pulse changes the evidence.  A successful [ingest]
    either leaves every stored item as it was (always so for duplicates,
    replays and stale arrivals), or replaces the item of the pulse's observer
    by this pulse, with the expiry that remains of the shorter of its own and
    the policy's validity after the transport delay; the pulse then advances
    its lineage, is not of a retired subject incarnation, and a stored pulse
    of the same observer incarnation has a smaller sequence number.  Nothing
    received again can refresh support. *)
Theorem evidence_only_from_newer_pulse e r now e' out :
  reachable e → ingest e r now = (e', Ok out) →
  ev_observers e' = ev_observers e ∨
  (ev_observers e' = <[pf_observer (rp_frame r) := evidence_for e r]> (ev_observers e) ∧
   (ra_disposition (rp_receiver r) = First ∨ ra_disposition (rp_receiver r) = Continuous
    ∨ ra_disposition (rp_receiver r) = Gap ∨ ra_disposition (rp_receiver r) = Restarted) ∧
   default 0 (ra_transport_observed_delay_ms (rp_receiver r)) < effective_validity e (rp_frame r) ∧
   (pf_subject_incarnation (rp_frame r) ∉ ev_retired_subject_incarnations e) ∧
   ∀ old, ev_observers e !! pf_observer (rp_frame r) = Some old →
     pf_observer_incarnation (frame_of old) = pf_observer_incarnation (rp_frame r) →
     pf_sequence (frame_of old) < pf_sequence (rp_frame r)).
Proof.
  intros Hreach Hi. pose proof (inv_ev _ (reachable_inv e Hreach)) as Hinv. unfold ingest in Hi.
  destruct (received_validate r); [|discriminate Hi]. destruct (validate_binding e r); [|discriminate Hi].
  destruct (_ <? _); [discriminate Hi|]. unfold ok_evaluate_since, evaluate_since in Hi.
  pose proof (evaluate_core (ingest_state e r now) now) as Hc. unfold evidence_core in Hc.
  destruct (evaluate (ingest_state e r now) now) as [e1 o1]. cbn [fst] in Hc.
  assert (ev_observers e' = ev_observers (ingest_state e r now)) as -> by (simplify_eq; congruence).
  destruct (ingest_state_observers e r now) as [Heq|(Heq & Hadv & Hl & Hdl & Hn)]; [by left|right].
  split_and!; try done. intros old Hold Hinc.
  destruct (ie_observers _ Hinv _ _ Hold) as [_ _ _ _ _ _ (l & Hlo & Hor)].
  unfold lineage_fact in Hl. rewrite Hlo in Hl. rewrite Hinc in Hor.
  destruct Hor as [[Hli Hls]|Hret].
  - case_decide; [by destruct Hl as [[] _]|]. lia.
  - destruct (ie_retired _ Hinv _ _ Hret) as (l' & Hl' & Hne).
    case_decide; [by destruct Hl|]. destruct Hl. congruence.
Qed.

(* ------------------------------------------------------------------ *)
(** ** Contradictions *)

(** The operations that may end a contradiction's active life. *)
Definition may_retire (k : ContradictionId) (c : Command) : Prop :=
  match c with
  | CmdResolve id _ _ => id = k
  | CmdReplaceSubject _ _ => True
  | _ => False
  end.

(** [r'] is [r] with at most its status changed, and only away from active. *)
Record succeeds (r r' : ContradictionRecordV1) : Prop := mkSucceeds {
  su_content : r' = set_contradiction_status (cr_status r') r;
  su_final : contradiction_is_active r = false → r' = r;
}.

Lemma set_status_same r : r = set_contradiction_status (cr_status r) r.
Proof. by destruct r. Qed.

Lemma succeeds_refl r : succeeds r r.
Proof. constructor; [apply set_status_same|done]. Qed.

Lemma succeeds_trans a b c : succeeds a b → succeeds b c → succeeds a c.
Proof.
  intros [Hab Fab] [Hbc Fbc]. constructor.
  - rewrite Hbc at 1. by rewrite Hab.
  - intros Hin. specialize (Fab Hin). subst b. auto.
Qed.

(** One operation on the contradiction map. *)
Definition retains (k : ContradictionId) (c : Command) (m m' : gmap string ContradictionRecordV1) : Prop :=
  ∀ r, m !! k = Some r → ∃ r', m' !! k = Some r' ∧ succeeds r r' ∧ (r' = r ∨ may_retire k c).

Lemma retains_subseteq k c m m' : m ⊆ m' → retains k c m m'.
Proof. intros Hs r Hr. exists r. split; [by eapply lookup_weaken|]. split; [apply succeeds_refl|by left]. Qed.

Lemma ingest_state_contradictions e r now :
  ev_contradictions e ⊆ ev_contradictions (ingest_state e r now).
Proof.
  assert (Hadm : ∀ e v dl, ev_contradictions e ⊆ ev_contradictions (admit_evidence e r now v dl)).
  { intros e0 v dl. rewrite admit_evidence_alt. cbn. etrans; [|apply (x_kept _ _ (examine_extends _ _ _))].
    by rewrite update_lineage_contradictions. }
  assert (Ha : ∀ e, ev_contradictions e ⊆ ev_contradictions (ingest_advancing e r now)).
  { intros e0. unfold ingest_advancing. cbv zeta. case_goal; [|case_decide; [|case_decide]].
    - change (ev_contradictions e0 ⊆ ev_contradictions (update_lineage e0 (rp_frame r)
                (ra_disposition (rp_receiver r)))). by rewrite update_lineage_contradictions.
    - apply Hadm.
    - done.
    - etrans; [apply (x_kept _ _ (record_subject_incarnation_change_extends e0 r now))|apply Hadm]. }
  unfold ingest_state. cbv zeta.
  match goal with |- context [if ?b then go_blind _ _ _ else _] => destruct b end; [done|].
  destruct (classify_arrival _ _ _). case_decide; [|done].
  unfold ingest_consistent. destruct (ra_disposition (rp_receiver r)); try done;
    match goal with |- _ ⊆ ev_contradictions (ingest_advancing ?e1 _ _) => apply (Ha e1) end.
Qed.

Lemma import_contradictions_kept e rs :
  ev_contradictions e ⊆ ev_contradictions (import_contradictions e rs).1.
Proof.
  revert e. induction rs as [|r rs IH]; intros e; [done|]. cbn [import_contradictions].
  destruct (negb _); [done|]. cbv zeta.
  destruct (ev_contradictions e !! _) as [old|] eqn:Hold; [destruct (decide _) as [->|]|]; [|done|].
  - etrans; [|apply IH]. cbn. by rewrite insert_id.
  - etrans; [|apply IH]. cbn. by apply insert_subseteq.
Qed.

Lemma fold_push_event_contradictions e t rs :
  ev_contradictions (fold_left (λ e r, push_event e t (EvContradictionLifecycleChanged r)) rs e)
  = ev_contradictions e.
Proof. revert e. induction rs as [|r rs IH]; intros e; [done|]. cbn [fold_left]. by rewrite IH. Qed.

Lemma replace_subject_state_contradictions e i t :
  ev_contradictions (replace_subject_state e i t)
  = (λ r, if retired_by_replacement (ev_current_subject_incarnation e) r
          then retire_contradiction (ev_current_subject_incarnation e) i t r else r)
      <$> ev_contradictions e.
Proof.
  change (ev_contradictions (replace_subject_state e i t))
    with (ev_contradictions (retire_contradictions e i t)).
  unfold retire_contradictions. cbv zeta. by rewrite fold_push_event_contradictions.
Qed.

Lemma prepare_retains e c e1 t k :
  prepare e c = Some (e1, t) → retains k c (ev_contradictions e) (ev_contradictions e1).
Proof.
  intros Hp. destruct c; cbn [prepare] in Hp; try discriminate Hp.
  1: { repeat case_in Hp; simplify_eq. apply retains_subseteq, ingest_state_contradictions. }
  2: { repeat case_in Hp; simplify_eq. apply retains_subseteq.
       unfold replace_policy_state. cbv zeta. by destruct (decide _). }
  3: { repeat case_in Hp; simplify_eq. rewrite replace_subject_state_contradictions. intros r Hr.
       eexists. split; [by rewrite lookup_fmap, Hr|]. split; [|by right].
       destruct (retired_by_replacement _ r) eqn:Hret; [|apply succeeds_refl].
       constructor; [done|]. unfold retired_by_replacement in Hret. split_and_bool. congruence. }
  6: { repeat case_in Hp; simplify_eq. unfold resolve_state. cbn. intros r0 Hr0.
       destruct (decide (id = k)) as [->|Hne].
       - simplify_eq. rewrite lookup_insert_eq. eexists. split; [done|]. split; [|by right].
         constructor; [done|]. congruence.
       - rewrite lookup_insert_ne by done. exists r0. split; [done|].
         split; [apply succeeds_refl|by left]. }
  all: repeat case_in Hp; simplify_eq; apply retains_subseteq; try done.
  all: by destruct m.
Qed.

Lemma run_retains e c k : retains k c (ev_contradictions e) (ev_contradictions (run e c).1).
Proof.
  destruct (run_cases e c) as [(e1 & t & Hp & [-> _])|[_ [-> _]]].
  - pose proof (evaluate_core e1 t) as Hc. unfold evidence_core in Hc.
    replace (ev_contradictions (evaluate e1 t).1) with (ev_contradictions e1) by congruence.
    by eapply prepare_retains.
  - apply retains_subseteq. destruct c; try done. apply import_contradictions_kept.
Qed.

(** C10. Contradictions are never lost or rewritten.  After any sequence of
    operations a recorded contradiction is still filed under its identity with
    the same content; only its status can have changed, only from active, and
    only if the sequence resolved that very contradiction or replaced the
    subject incarnation.  Time, new evidence, duplicates, policy changes,
    imports and restarts of observers do not clear it. *)
Theorem contradiction_custody e cs k r :
  ev_contradictions e !! k = Some r →
  ∃ r', ev_contradictions (exec e cs) !! k = Some r' ∧
    r' = set_contradiction_status (cr_status r') r ∧
    (contradiction_is_active r = false → r' = r) ∧
    (r' ≠ r → Exists (may_retire k) cs).
Proof.
  revert e r. induction cs as [|c cs IH]; intros e r Hr; cbn [exec fold_left].
  { exists r. split; [done|]. split; [apply set_status_same|]. split; [done|]. done. }
  destruct (run_retains e c k r Hr) as (r1 & Hr1 & Hsu1 & Hor).
  destruct (IH _ r1 Hr1) as (r2 & Hr2 & Hc2 & Hf2 & He2).
  destruct (succeeds_trans r r1 r2 Hsu1) as [Hc Hf]; [by constructor|].
  exists r2. split_and!; try done. intros Hne. destruct Hor as [->|Hm]; [|by left].
  right. by apply He2.
Qed.

(* ------------------------------------------------------------------ *)
(** ** Events *)

Lemma evaluate_events e t :
  eo_sparse_events (evaluate e t).2 = drop (length (ev_event_log e)) (ev_event_log (evaluate e t).1).
Proof. by destruct (evaluate_stages e t) as (ed & tr & _ & _ & _ & ->). Qed.

Lemma ok_evaluate_events e t e' out :
  ok_evaluate e t = (e', Ok out) →
  eo_sparse_events out = drop (length (ev_event_log e)) (ev_event_log e').
Proof.
  unfold ok_evaluate. pose proof (evaluate_events e t) as He. destruct (evaluate e t). by intros [= <- <-].
Qed.

Lemma evaluate_recorded_events s l t e' out :
  ev_event_log s.1 = l ++ [s.2] → evaluate_recorded s t = (e', Ok out) →
  eo_sparse_events out = drop (length l) (ev_event_log e').
Proof.
  destruct s as [e ev]. cbn. intros Hl. unfold evaluate_recorded.
  pose proof (evaluate_events e t) as He. pose proof (evaluate_log e t) as [l' Hlog].
  destruct (evaluate e t) as [e1 o1]. cbn [fst snd] in *. intros [= <- <-]. cbn.
  rewrite He, Hlog, Hl, <-app_assoc, drop_app_length, app_assoc, drop_app_length. done.
Qed.

Lemma ok_evaluate_since_events e t n e' out :
  ok_evaluate_since e t n = (e', Ok out) → eo_sparse_events out = drop n (ev_event_log e').
Proof. unfold ok_evaluate_since, evaluate_since. destruct (evaluate e t). by intros [= <- <-]. Qed.

Lemma output_only_Ok o e' out : output_only o = (e', Ok (Some out)) → o = (e', Ok out).
Proof. destruct o as [e0 [o|err]]; unfold output_only; cbn; by intros [= -> ->]. Qed.

Lemma record_capability_log e m t :
  ev_event_log (record_capability e m t).1 = ev_event_log e ++ [(record_capability e m t).2].
Proof. by destruct m. Qed.

(** How many contradictions a replacement of the subject retires. *)
Definition retired_count (e : Evaluator) : nat :=
  length (filter (λ r, retired_by_replacement (ev_current_subject_incarnation e) r = true)
            (bt_values (ev_contradictions e))).

Lemma fold_push_event_log e t rs :
  length (ev_event_log (fold_left (λ e r, push_event e t (EvContradictionLifecycleChanged r)) rs e))
  = (length (ev_event_log e) + length rs)%nat.
Proof.
  revert e. induction rs as [|r rs IH]; intros e; cbn [fold_left length]; [lia|].
  rewrite IH. cbn. rewrite length_app. cbn. lia.
Qed.

Lemma replace_subject_state_log e i t :
  length (ev_event_log (replace_subject_state e i t)) = (length (ev_event_log e) + retired_count e)%nat.
Proof.
  change (ev_event_log (replace_subject_state e i t))
    with (ev_event_log (retire_contradictions e i t)).
  unfold retire_contradictions. cbv zeta. rewrite fold_push_event_log. by rewrite length_fmap.
Qed.

(** The events of one operation that its output does not carry. *)
Definition unpublished (e : Evaluator) (c : Command) : nat :=
  match c with CmdReplaceSubject _ _ => retired_count e | _ => 0 end.

(** C11. The events an operation publishes are exactly those it appended to
    the log, in order, for every operation but one: replacing the subject
    incarnation publishes only the events after the lifecycle changes of the
    contradictions it retires, so those changes are in the log but in no
    output. *)
Theorem published_events_are_the_log_suffix e c e' out :
  run e c = (e', Ok (Some out)) →
  eo_sparse_events out = drop (length (ev_event_log e) + unpublished e c) (ev_event_log e').
Proof.
  destruct c; cbn [run unpublished]; try (by destruct (import_contradictions e records) as [? []]);
    try discriminate; intros Ho%output_only_Ok; rewrite ?Nat.add_0_r.
  - unfold ingest in Ho. destruct (received_validate r); [|discriminate Ho].
    destruct (validate_binding e r); [|discriminate Ho]. destruct (_ <? _); [discriminate Ho|].
    by apply ok_evaluate_since_events in Ho.
  - by apply ok_evaluate_events in Ho.
  - unfold replace_policy in Ho. destruct (policy_validate p); [|discriminate Ho].
    destruct (decide _); [|discriminate Ho]. apply ok_evaluate_events in Ho.
    rewrite Ho. f_equal. f_equal. unfold replace_policy_state. cbv zeta. by destruct (decide _).
  - by apply ok_evaluate_events in Ho.
  - unfold replace_subject_incarnation in Ho. destruct (validate_identity _ _); [|discriminate Ho].
    destruct (decide _); [discriminate Ho|]. apply ok_evaluate_events in Ho.
    by rewrite Ho, replace_subject_state_log.
  - eapply evaluate_recorded_events; [apply record_capability_log|exact Ho].
  - eapply (evaluate_recorded_events _ (ev_event_log e)); [|exact Ho]. done.
  - eapply (evaluate_recorded_events _ (ev_event_log e)); [|exact Ho]. done.
  - unfold resolve_contradiction in Ho. destruct (_ || _); [discriminate Ho|].
    destruct (_ !! _); [|discriminate Ho]. destruct (negb _); [discriminate Ho|].
    eapply (evaluate_recorded_events _ (ev_event_log e)); [|exact Ho]. done.
  - unfold record_escalation_disposition in Ho. destruct (negb _); [discriminate Ho|].
    destruct (_ !! _); [|discriminate Ho]. destruct (_ <? _); [discriminate Ho|].
    eapply (evaluate_recorded_events _ (ev_event_log e)); [|exact Ho]. done.
  - unfold record_diagnostic_receipt in Ho. destruct (_ !! _); [|discriminate Ho].
    destruct (negb _); [discriminate Ho|].
    eapply (evaluate_recorded_events _ (ev_event_log e)); [|exact Ho]. done.
Qed.

End custody.

Lemma evidence_only_from_newer_pulse_witness :
  ∃ e' out, ingest sample_evaluator (sample_received 10) 10 = (e', Ok out) ∧
  (ev_observers e' = ev_observers sample_evaluator ∨
   ev_observers e' = <[pf_observer (rp_frame (sample_received 10)) :=
                         evidence_for sample_evaluator (sample_received 10)]>
                       (ev_observers sample_evaluator)).
Proof.
  destruct (has_value_true (published (run sample_evaluator (CmdIngest (sample_received 10) 10))))
    as [out E]; [vm_compute; reflexivity|].
  pose proof (output_only_Ok _ _ _ (published_run _ _ _ E)) as Hi.
  eexists. exists out. split; [exact Hi|].
  destruct (evidence_only_from_newer_pulse _ _ _ _ _ sample_evaluator_reachable Hi) as [Hs|[Hs _]];
    [left; exact Hs|right; exact Hs].
Defined.

(** A second observer reports the load outside its bound. *)
Definition opposing_pulse (arrival : Z) : ReceivedPulseV1 :=
  mkReceived (sample_frame_for "observer:b" 3 OutsideDeclaredBound) (sample_annotation arrival First).

Definition contradicted_evaluator : Evaluator :=
  (run current_evaluator (CmdIngest (opposing_pulse 20) 20)).1.

Lemma contradiction_custody_witness :
  ∃ k r r', ev_contradictions contradicted_evaluator !! k = Some r ∧
    ev_contradictions (exec contradicted_evaluator [CmdTick 100; CmdTick 9000]) !! k = Some r' ∧ r' = r.
Proof.
  destruct (has_value_true (head (bt_entries (ev_contradictions contradicted_evaluator))))
    as [[k r] E]; [vm_compute; reflexivity|].
  assert (Hk : ev_contradictions contradicted_evaluator !! k = Some r).
  { apply elem_of_bt_entries. by apply head_Some_elem_of. }
  destruct (contradiction_custody contradicted_evaluator [CmdTick 100; CmdTick 9000] k r Hk)
    as (r' & Hk' & _ & _ & Hno).
  exists k, r, r'. split; [exact Hk|]. split; [exact Hk'|].
  destruct (decide (r' = r)) as [Heq|Hne]; [exact Heq|]. exfalso.
  specialize (Hno Hne). rewrite !Exists_cons, Exists_nil in Hno. cbn in Hno. tauto.
Defined.

Lemma published_events_are_the_log_suffix_witness :
  unpublished contradicted_evaluator (CmdReplaceSubject "boot:2" 30) = 1%nat ∧
  ∃ out, published (run contradicted_evaluator (CmdReplaceSubject "boot:2" 30)) = Some out ∧
    eo_sparse_events out
    = drop (length (ev_event_log contradicted_evaluator) + 1)
        (ev_event_log (run contradicted_evaluator (CmdReplaceSubject "boot:2" 30)).1).
Proof.
  assert (Hn : unpublished contradicted_evaluator (CmdReplaceSubject "boot:2" 30) = 1%nat)
    by (vm_compute; reflexivity).
  split; [exact Hn|].
  destruct (has_value_true (published (run contradicted_evaluator (CmdReplaceSubject "boot:2" 30))))
    as [out E]; [vm_compute; reflexivity|].
  exists out. split; [exact E|]. rewrite <-Hn.
  exact (published_events_are_the_log_suffix _ _ _ _ (published_run _ _ _ E)).
Defined.
