(* ===== verification/EscalationProps.v ===== *)
(** * Diagnostic escalation

    When the evaluator asks for diagnosis, what it asks for, and when it does
    not. *)

From S2P Require Import Prelude Ids Digest Pulse Samples Judgment Escalation Event Policy.
From S2P Require Import EvaluatorState Derive Explain Evaluator EvalSamples.
From S2P Require Import DeriveProps Frame Expiry Commands Ingestion Invariant Support.

(* ------------------------------------------------------------------ *)
(** ** Printed identities are valid identities *)

Definition printable (c : ascii) : bool := (32 <=? byte_val c) && (byte_val c <? 127).

Lemma utf8_chars_ascii c s :
  byte_val c < 128 → utf8_chars (String c s) = cons (byte_val c) <$> utf8_chars s.
Proof. intros Hc. unfold utf8_chars at 1. fold utf8_chars. by rewrite (proj2 (Z.ltb_lt _ _)). Qed.

Lemma printable_chars s :
  str_all printable s = true →
  ∃ cs, utf8_chars s = Some cs ∧ existsb is_control cs = false.
Proof.
  induction s as [|c s IH]; cbn [str_all]; [by exists []|]. intros Hs. split_and_bool.
  destruct IH as (cs & Hcs & Hctl); [done|]. unfold printable in *. split_and_bool.
  exists (byte_val c :: cs). rewrite utf8_chars_ascii, Hcs by lia. split; [done|].
  cbn. rewrite Hctl, orb_false_r. unfold is_control. lia.
Qed.

Lemma printable_identity s :
  str_all printable s = true → 1 <= slen s <= MAX_IDENTITY_BYTES → valid_identity s = true.
Proof.
  intros (cs & Hcs & Hctl)%printable_chars Hlen. unfold valid_identity, has_control. rewrite Hcs, Hctl. lia.
Qed.

Lemma str_all_app f a b : str_all f (a +:+ b) = str_all f a && str_all f b.
Proof. induction a as [|c a IH]; [done|]. rewrite str_app_cons. cbn. by rewrite IH, andb_assoc. Qed.

Lemma canonical_hex_printable s : str_all canonical_hex s = true → str_all printable s = true.
Proof.
  induction s as [|c s IH]; [done|]. cbn [str_all]. intros Hs. split_and_bool. rewrite IH by done.
  unfold canonical_hex, printable in *. lia.
Qed.

Lemma hex_digits_canonical k z : str_all canonical_hex (hex_digits k z) = true.
Proof.
  induction k as [|k IH]; cbn [hex_digits str_all]; [done|].
  rewrite IH, canonical_hex_digit; [done|]. apply Z.mod_pos_bound. lia.
Qed.

Lemma hex_digits_length k z : String.length (hex_digits k z) = k.
Proof. induction k; cbn; congruence. Qed.

Lemma escalation_id_valid n : valid_identity ("escalation:" +:+ hex16 n) = true.
Proof.
  apply printable_identity.
  - rewrite str_all_app. unfold hex16. by rewrite (canonical_hex_printable _ (hex_digits_canonical 16 n)).
  - rewrite slen_app. unfold slen, hex16. rewrite hex_digits_length. by vm_compute.
Qed.

Section escalation.
Context `{Sha256}.

(** A printed digest without its prefix: sixty-four hexadecimal digits, so
    there is no second prefix to trim. *)
Lemma trim_digest d ps :
  trim_start_matches "sha256:" (digest_parts d ps) = hex_encode (sha256 (digest_transcript d ps)).
Proof.
  unfold digest_parts, trim_start_matches. set (h := hex_encode _).
  assert (Hlen : String.length h = 64%nat) by (unfold h; by rewrite hex_encode_length, sha256_length).
  assert (Hh : str_all canonical_hex h = true) by apply hex_encode_canonical.
  rewrite str_length_app, Hlen. change (String.length "sha256:" + 64)%nat with 71%nat.
  cbn [trim_start_fuel]. change (strip_prefix "sha256:" ("sha256:" +:+ h)) with (Some h). cbn iota.
  destruct h as [|c h]; [done|]. cbn [strip_prefix].
  cbn [str_all] in Hh. split_and_bool. destruct (Ascii.eqb_spec "s" c) as [<-|]; [done|done].
Qed.

(** A short printable prefix before the digits of a digest is an identity. *)
Lemma prefixed_digest_valid prefix d ps :
  str_all printable prefix = true → slen prefix <= 90 →
  valid_identity (prefix +:+ trim_start_matches "sha256:" (digest_parts d ps)) = true.
Proof.
  intros Hp Hlen. rewrite trim_digest. apply printable_identity.
  - rewrite str_all_app, Hp. by rewrite (canonical_hex_printable _ (hex_encode_canonical _)).
  - pose proof (slen_nonneg prefix). rewrite slen_app. unfold slen at 2 4.
    rewrite hex_encode_length, sha256_length. unfold MAX_IDENTITY_BYTES. lia.
Qed.
Lemma transition_id_valid d ps :
  valid_identity ("transition:" +:+ trim_start_matches "sha256:" (digest_parts d ps)) = true.
Proof. by apply prefixed_digest_valid. Qed.

(* ------------------------------------------------------------------ *)
(** ** What [maybe_escalate] returns *)

Lemma issue_escalation_maps e r t :
  ev_issued_requests (issue_escalation e r t) = <[rq_request_id r := r]> (ev_issued_requests e) ∧
  ev_active_escalations (issue_escalation e r t)
  = <[rq_deduplication_key r := mkActiveEscalation (rq_request_id r) (rq_expires_at_monotonic_ms r)]>
      (ev_active_escalations e) ∧
  ev_escalation_state (issue_escalation e r t) = Requested (rq_request_id r).
Proof. unfold issue_escalation. cbn. repeat case_goal; done. Qed.

Lemma maybe_escalate_Some e tr j t rq :
  (maybe_escalate e tr j t).2 = Some rq →
  jt_from tr = Some CatCurrent ∧ jt_to tr ≠ CatCurrent ∧
  request_validate rq = Ok tt ∧ rq_trigger_class rq = select_trigger j ∧
  rq_subject_scope rq = pj_subject_scope j ∧
  rq_created_at_monotonic_ms rq = t ∧
  (∃ esc, rl_escalation (ev_policy e) = Some esc ∧ triggers_contain esc (rq_trigger_class rq) = true
     ∧ rq_bounds rq = ep_bounds esc ∧ rq_diagnostic_profile rq = ep_diagnostic_profile esc) ∧
  ev_active_escalations e !! rq_deduplication_key rq = None ∧
  ∃ n, (maybe_escalate e tr j t).1 = issue_escalation (set_ev_request_counter e n) rq t.
Proof.
  unfold maybe_escalate. destruct (decide _) as [|Hd]; [done|]. apply Decidable.not_or in Hd as [Hfrom Hto].
  destruct (rl_escalation (ev_policy e)) as [esc|] eqn:Hesc; [|done].
  destruct (negb _) eqn:Htr; [done|]. cbv zeta.
  destruct (ev_active_escalations e !! _) eqn:Hact; [done|].
  destruct (request_validate _) as [[]|] eqn:Hv; [|done]. cbn [snd fst]. intros [= <-].
  apply negb_false_iff in Htr. split; [by apply dec_stable|]. split; [exact Hto|].
  split; [exact Hv|]. do 3 (split; [reflexivity|]). split; [by exists esc|].
  split; [exact Hact|]. by eexists.
Qed.

(** The requests of an evaluation come from a state with the evidence, the
    policy and the unexpired escalations of the evaluated one. *)
Lemma evaluate_request e t rq :
  eo_escalation_request (evaluate e t).2 = Some rq →
  ∃ ed tr n,
    quiet (begin_evaluation e t).1 ed ∧
    (maybe_escalate ed tr (pre_judgment (begin_evaluation e t).1 (clamped e t)) (clamped e t)).2 = Some rq ∧
    jt_from tr = pj_category <$> ev_last_judgment e ∧ jt_to tr = pj_category (judged e t) ∧
    ev_reevaluation_barrier e = None ∧
    pj_escalation (judged e t) = Requested (rq_request_id rq) ∧
    (evaluate e t).1 = set_ev_reevaluation_barrier
      (set_ev_last_judgment (issue_escalation (set_ev_request_counter ed n) rq (clamped e t))
         (Some (judged e t))) None.
Proof.
  pose proof (evaluate_stages e t) as (ed & tr & Hq & Htr & _ & Heq).
  unfold judged. rewrite Heq. cbn [fst snd eo_escalation_request eo_judgment].
  unfold escalation_stage. destruct (ev_reevaluation_barrier e) eqn:Hb; [done|].
  destruct tr as [tr|]; [|discriminate]. intros Hrq.
  destruct (Htr tr eq_refl) as (Hfrom & Hto & _).
  pose proof (maybe_escalate_Some _ _ _ _ _ Hrq) as (_ & _ & _ & _ & _ & _ & _ & _ & n & Hst).
  exists ed, tr, n. split; [exact Hq|]. split; [exact Hrq|]. split; [exact Hfrom|].
  split; [exact Hto|]. split; [reflexivity|].
  split; [|f_equal; f_equal; exact Hst].
  cbn [pj_escalation with_escalation]. rewrite Hst. apply issue_escalation_maps.
Qed.

Lemma begin_evaluation_active e t :
  ev_active_escalations (begin_evaluation e t).1
  = filter (λ '(_, a), clamped e t < ae_expires_at_ms a) (ev_active_escalations e).
Proof.
  rewrite <-begin_evaluation_time. unfold begin_evaluation.
  destruct (ev_last_evaluation_ms e); [|done]. by case_goal.
Qed.

Lemma prepare_judgment e c e1 t :
  prepare e c = Some (e1, t) →
  ev_last_judgment e1 = ev_last_judgment e ∧ ev_active_escalations e1 = ev_active_escalations e.
Proof.
  intros Hp. destruct c; cbn [prepare] in Hp; try discriminate Hp.
  1: { repeat case_in Hp; simplify_eq. pose proof (ingest_state_session e r t) as Hs.
       unfold session_core, escalation_core in Hs. split; congruence. }
  2: { repeat case_in Hp; simplify_eq. unfold replace_policy_state. cbv zeta. by destruct (decide _). }
  3: { repeat case_in Hp; simplify_eq.
       change (ev_last_judgment (retire_contradictions e replacement t) = ev_last_judgment e ∧
               ev_active_escalations (retire_contradictions e replacement t) = ev_active_escalations e).
       unfold retire_contradictions. cbv zeta.
       match goal with |- context [fold_left _ ?rs ?e0] =>
         pose proof (x_fixed _ _ (fold_push_event_extends e0 t rs)) as Hf end.
       unfold fixed_core, escalation_core in Hf. cbn [ev_last_judgment ev_active_escalations
         set_ev_contradictions] in Hf. split; congruence. }
  all: repeat case_in Hp; simplify_eq; try done. all: by destruct m.
Qed.

(** The policy in force after an evaluation is the one that was evaluated. *)
Lemma quiet_policy e t ed :
  quiet (begin_evaluation e t).1 ed → ev_policy ed = ev_policy (evaluate e t).1.
Proof.
  intros Hq. pose proof (k_core _ _ (q_keeps _ _ Hq)) as Hc1.
  pose proof (begin_evaluation_core e t) as Hc2. pose proof (evaluate_core e t) as Hc3.
  unfold evidence_core in *. congruence.
Qed.

Lemma publication_maps e j :
  ev_issued_requests (set_ev_reevaluation_barrier (set_ev_last_judgment e j) None) = ev_issued_requests e ∧
  ev_active_escalations (set_ev_reevaluation_barrier (set_ev_last_judgment e j) None)
  = ev_active_escalations e.
Proof. done. Qed.

Lemma evaluate_request_recorded e t rq :
  eo_escalation_request (evaluate e t).2 = Some rq →
  ev_issued_requests (evaluate e t).1 !! rq_request_id rq = Some rq ∧
  ev_active_escalations (evaluate e t).1 !! rq_deduplication_key rq
  = Some (mkActiveEscalation (rq_request_id rq) (rq_expires_at_monotonic_ms rq)) ∧
  pj_escalation (judged e t) = Requested (rq_request_id rq).
Proof.
  intros Hrq. destruct (evaluate_request e t rq Hrq) as (ed & tr & n & _ & _ & _ & _ & _ & Hes & Hst).
  destruct (issue_escalation_maps (set_ev_request_counter ed n) rq (clamped e t)) as (Hi & Ha & _).
  destruct (publication_maps (issue_escalation (set_ev_request_counter ed n) rq (clamped e t))
              (Some (judged e t))) as [Hpi Hpa].
  rewrite Hst, Hpi, Hpa, Hi, Ha, !lookup_insert_eq. split; [reflexivity|]. split; [reflexivity|exact Hes].
Qed.

Lemma run_request_issued e c e' out rq :
  run e c = (e', Ok (Some out)) → eo_escalation_request out = Some rq →
  ev_issued_requests e' !! rq_request_id rq = Some rq.
Proof.
  intros Hrun Hrq. destruct (run_published _ _ _ _ Hrun) as (e1 & t & Hp & -> & _ & Hreq).
  rewrite Hreq in Hrq. apply (evaluate_request_recorded e1 t rq Hrq).
Qed.

(** C12. A diagnostic escalation is requested only when reliance was lost:
    whatever operation publishes a request, the previous judgment was CURRENT
    and the new one is not.  The request passes its own validation, its trigger
    is one the policy lists, its bounds and profile are the policy's; it is
    recorded as issued and active under its deduplication key, and the judgment
    names it. *)
Theorem escalation_only_on_loss_of_current e c e' out rq :
  run e c = (e', Ok (Some out)) → eo_escalation_request out = Some rq →
  (∃ j, ev_last_judgment e = Some j ∧ pj_category j = CatCurrent) ∧
  pj_category (eo_judgment out) ≠ CatCurrent ∧
  request_validate rq = Ok tt ∧
  (∃ esc, rl_escalation (ev_policy e') = Some esc ∧ rq_trigger_class rq ∈ ep_triggers esc ∧
     rq_bounds rq = ep_bounds esc ∧ rq_diagnostic_profile rq = ep_diagnostic_profile esc) ∧
  ev_issued_requests e' !! rq_request_id rq = Some rq ∧
  ev_active_escalations e' !! rq_deduplication_key rq
  = Some (mkActiveEscalation (rq_request_id rq) (rq_expires_at_monotonic_ms rq)) ∧
  pj_escalation (eo_judgment out) = Requested (rq_request_id rq).
Proof.
  intros Hrun Hrq. destruct (run_published _ _ _ _ Hrun) as (e1 & t & Hp & -> & -> & Hreq).
  rewrite Hreq in Hrq. pose proof (evaluate_request_recorded e1 t rq Hrq) as Hrec.
  destruct (evaluate_request e1 t rq Hrq) as (ed & tr & n & Hq & Hm & Hfrom & Hto & _ & _ & _).
  pose proof (maybe_escalate_Some _ _ _ _ _ Hm)
    as (Hf & Hne & Hv & Htrig & Hscope & Hcr & (esc & Hesc & Hc & Hbd & Hpr) & _).
  destruct (prepare_judgment _ _ _ _ Hp) as [Hlj _]. rewrite Hfrom, Hlj in Hf.
  rewrite (quiet_policy e1 t ed Hq) in Hesc. rewrite Hto in Hne.
  split; [|split; [exact Hne|split; [exact Hv|split; [|exact Hrec]]]].
  - destruct (ev_last_judgment e) as [j|]; [|discriminate Hf]. exists j. split; [done|]. by injection Hf.
  - exists esc. split; [exact Hesc|]. split; [|split; [exact Hbd|exact Hpr]].
    unfold triggers_contain in Hc. by apply bool_decide_eq_true in Hc.
Qed.

(** At most one live request per question: when an operation publishes a
    request, an escalation already active under the same deduplication key had
    expired by the time of the evaluation; while it is unexpired the equivalent
    request is not repeated. *)
Theorem escalation_deduplicated e c e' out rq a :
  run e c = (e', Ok (Some out)) → eo_escalation_request out = Some rq →
  ev_active_escalations e !! rq_deduplication_key rq = Some a →
  ae_expires_at_ms a <= pj_evaluated_at_monotonic_ms (eo_judgment out).
Proof.
  intros Hrun Hrq Ha. destruct (run_published _ _ _ _ Hrun) as (e1 & t & Hp & -> & -> & Hreq).
  rewrite Hreq in Hrq. destruct (evaluate_request e1 t rq Hrq) as (ed & tr & n & Hq & Hm & _).
  pose proof (maybe_escalate_Some _ _ _ _ _ Hm) as (_ & _ & _ & _ & _ & _ & _ & Hfree & _).
  destruct (prepare_judgment _ _ _ _ Hp) as [_ Hact]. rewrite <-Hact in Ha.
  pose proof (q_escalation _ _ Hq) as Hesc. unfold escalation_core in Hesc.
  assert (Hf : ev_active_escalations (begin_evaluation e1 t).1 !! rq_deduplication_key rq = None)
    by congruence.
  rewrite begin_evaluation_active, map_lookup_filter_None in Hf.
  destruct (judged_derives e1 t) as (_ & _ & ->).
  destruct Hf as [Hf|Hf]; [congruence|]. specialize (Hf a Ha). cbn in Hf. lia.
Qed.

(* ------------------------------------------------------------------ *)
(** ** When a request is issued *)

Lemma escalation_identity_Ok k v d : escalation_identity k v d = Ok tt ↔ valid_identity v = true.
Proof. unfold escalation_identity. by rewrite map_err_Ok, validate_identity_Ok. Qed.

Lemma policy_validate_identities p :
  policy_validate p = Ok tt →
  valid_identity (rl_subject p) = true ∧ valid_identity (rl_consumer p) = true
  ∧ valid_identity (rl_generation p) = true
  ∧ valid_identity (rl_observation_policy_generation p) = true
  ∧ ∀ esc, rl_escalation p = Some esc →
      bounds_is_nonzero (ep_bounds esc) = true ∧ ep_request_ttl_ms esc ≠ 0.
Proof.
  unfold policy_validate. intros Hp. inv_oks. unfold policy_identity in *. inv_oks.
  repeat match goal with Hi : validate_identity _ _ = Ok _ |- _ => apply validate_identity_Ok in Hi end.
  split_and!; try assumption. intros esc He. rewrite He in Hp. inv_oks.
  split_and_bool. split; [assumption|]. lia.
Qed.

Lemma compute_key_ext e esc tg tr j t id key :
  compute_deduplication_key (escalation_request e esc tg tr j t id key)
  = compute_deduplication_key (escalation_request e esc tg tr j t "pending" (digest_parts "pending" [])).
Proof. reflexivity. Qed.

(** What makes the policy's diagnostic profile complete. *)
Definition profile_complete (d : DiagnosticProfileIdV1) : bool :=
  negb (slen (dp_name d) =? 0) && negb (dp_version d =? 0) && is_ok (digest_validate (dp_semantic_digest d)).

Lemma escalation_request_valid e esc tg tr j t n key :
  policy_validate (ev_policy e) = Ok tt → rl_escalation (ev_policy e) = Some esc →
  subject_scope_validate (pj_subject_scope j) = Ok tt → valid_identity (ev_clock_id e) = true →
  valid_identity (jt_transition_id tr) = true → digest_validate (pj_evidence_window_id j) = Ok tt →
  profile_complete (ep_diagnostic_profile esc) = true →
  0 <= ep_request_ttl_ms esc → t < u64_max →
  key = compute_deduplication_key (escalation_request e esc tg tr j t "pending" (digest_parts "pending" [])) →
  request_validate (escalation_request e esc tg tr j t ("escalation:" +:+ hex16 n) key) = Ok tt.
Proof.
  intros Hp He Hs Hc Htr Hw Hd Httl Ht Hkey.
  destruct (policy_validate_identities _ Hp) as (_ & Hcons & Hgen & Hopg & Hesc).
  destruct (Hesc esc He) as [Hbounds Hnz]. unfold profile_complete in Hd. split_and_bool.
  destruct (digest_validate (dp_semantic_digest _)) as [[]|] eqn:Hdig; [|discriminate].
  unfold request_validate. rewrite compute_key_ext.
  cbn [escalation_request rq_schema_version rq_request_id rq_subject_scope rq_consumer rq_policy_generation
       rq_observation_policy_generation rq_clock_id rq_causal_transition_id rq_evidence_window_digest
       rq_diagnostic_profile rq_bounds rq_expires_at_monotonic_ms rq_created_at_monotonic_ms
       rq_deduplication_key rq_nonclaims].
  rewrite !(proj2 (escalation_identity_Ok _ _ _)) by (assumption || apply escalation_id_valid).
  rewrite Hs, Hw, Hdig, Hbounds, <-Hkey.
  rewrite (bool_decide_eq_true_2 (key = key)), (bool_decide_eq_true_2 (ESCALATION_NONCLAIMS = _)) by done.
  assert (Hexp : (sat_add t (ep_request_ttl_ms esc) <=? t) = false) by (unfold sat_add; lia).
  rewrite Hexp. by repeat match goal with Hb : _ = false |- _ => rewrite Hb; clear Hb end.
Qed.

(** C13. Losing CURRENT does escalate, when the request can be made.  Take a
    valid policy whose escalation part lists the selected trigger and names a
    complete diagnostic profile (name, version and nonzero digest), an evaluator
    whose clock identity is valid, and a judgment whose scope is a valid identity
    and whose evidence-window digest is not zero; let no unexpired escalation be
    outstanding and the time be below [u64::MAX].  Then every evaluation without
    a barrier that moves from CURRENT to anything else publishes a request with
    that trigger at that time.  The conditions on the scope and the profile are
    those [DiagnosticEscalationRequestV1::validate] makes beyond
    [ReliancePolicyV1::validate]; [oversized_scope_never_escalates] is what
    happens without the first. *)
Theorem loss_of_current_escalates e t j esc :
  policy_validate (ev_policy e) = Ok tt → rl_escalation (ev_policy e) = Some esc →
  profile_complete (ep_diagnostic_profile esc) = true → 0 <= ep_request_ttl_ms esc →
  subject_scope_validate (pj_subject_scope (judged e t)) = Ok tt →
  valid_identity (ev_clock_id e) = true →
  digest_validate (pj_evidence_window_id (judged e t)) = Ok tt →
  ev_reevaluation_barrier e = None → ev_last_judgment e = Some j → pj_category j = CatCurrent →
  pj_category (judged e t) ≠ CatCurrent →
  triggers_contain esc (select_trigger (judged e t)) = true →
  (∀ k a, ev_active_escalations e !! k = Some a → ae_expires_at_ms a <= clamped e t) →
  clamped e t < u64_max →
  ∃ rq, eo_escalation_request (evaluate e t).2 = Some rq ∧
    rq_trigger_class rq = select_trigger (judged e t) ∧ rq_created_at_monotonic_ms rq = clamped e t.
Proof.
  intros Hpol Hesc Hprof Httl Hscope Hclock Hwin Hbar Hlast Hcur Hnot Htrig Hfree Htime.
  pose proof (evaluate_stages e t) as (ed & tr & Hq & Htr & Hchg & Heq).
  pose proof (quiet_policy e t ed Hq) as Hpe. pose proof (k_core _ _ (q_keeps _ _ Hq)) as Hc1.
  pose proof (begin_evaluation_core e t) as Hc2. pose proof (q_escalation _ _ Hq) as Hqe.
  unfold evidence_core in Hc1, Hc2. unfold escalation_core in Hqe.
  assert (Hpol' : ev_policy ed = ev_policy e) by congruence.
  assert (Hclk' : ev_clock_id ed = ev_clock_id e) by congruence.
  assert (Hnone : ∀ k, ev_active_escalations ed !! k = None).
  { intros k. replace (ev_active_escalations ed) with (ev_active_escalations (begin_evaluation e t).1) by congruence.
    rewrite begin_evaluation_active. apply map_lookup_filter_None. right. intros a Ha.
    specialize (Hfree k a Ha). cbn. lia. }
  clear Hc1 Hc2 Hqe Hpe. unfold judged in *. rewrite Heq in *. clear Heq.
  cbn [snd eo_judgment eo_escalation_request with_escalation pj_subject_scope pj_evidence_window_id
       pj_category] in *.
  set (pj := pre_judgment (begin_evaluation e t).1 (clamped e t)) in *.
  change (select_trigger (with_escalation pj ?s)) with (select_trigger pj) in *.
  rewrite Hlast in Htr, Hchg. cbn [fmap option_fmap option_map] in Htr, Hchg. rewrite Hcur in Htr, Hchg.
  destruct Hchg as [tr' ->]; [congruence|]. destruct (Htr tr' eq_refl) as (Hfrom & Hto & _ & parts & Hid).
  rewrite Hbar. unfold escalation_stage, maybe_escalate.
  rewrite decide_False by (rewrite Hfrom, Hto; intros [?|?]; done).
  rewrite Hpol', Hesc, Htrig. cbn [negb]. cbv zeta. rewrite Hnone.
  rewrite escalation_request_valid; try done; try (cbn; by rewrite ?Hpol', ?Hclk').
  - eexists. split; [reflexivity|]. split; reflexivity.
  - rewrite Hid. apply transition_id_valid.
Qed.

(* ------------------------------------------------------------------ *)
(** ** What is never requested *)

Lemma pre_judgment_fields e1 t :
  pj_dimensions (pre_judgment e1 t) = derive_dimensions e1 t ∧
  pj_coverage (pre_judgment e1 t)
  = coverage_summary (ev_policy e1) (eligible_fresh e1 t) (expired_evidence e1 t) ∧
  pj_subject_scope (pre_judgment e1 t) = subject_scope e1.
Proof.
  unfold pre_judgment, derive_under_barrier. by destruct (ev_reevaluation_barrier e1).
Qed.

(** Losing all fresh evidence loses required coverage first, and the trigger
    selection asks about coverage first. *)
Lemma select_trigger_not_freshness e1 t :
  policy_ok (ev_policy e1) → select_trigger (pre_judgment e1 t) ≠ FreshnessLost.
Proof.
  intros Hok. destruct (pre_judgment_fields e1 t) as (Hd & Hc & _). unfold select_trigger. cbv zeta.
  rewrite Hd, Hc. repeat case_decide; try discriminate.
  exfalso. match goal with Hm : cs_missing _ = [] |- _ => rename Hm into Hmiss end.
  apply cs_missing_nil in Hmiss. destruct (covered_availability e1 t Hok Hmiss) as (_ & Hr & Hf).
  destruct (proj2 (freshness_present (relevant_evidence e1) (fresh_evidence e1 t) (expired_evidence e1 t))
              (conj Hr Hf)) as [Hn1 Hn2].
  match goal with Hx : _ ∨ _ |- _ => by destruct Hx end.
Qed.

Lemma begin_policy e t : ev_policy (begin_evaluation e t).1 = ev_policy e.
Proof. pose proof (begin_evaluation_core e t) as Hc. unfold evidence_core in Hc. congruence. Qed.

(** The trigger class [FreshnessLost] is never requested: no reachable
    state and operation publish a request with it, because evidence that is
    no longer fresh has already taken required coverage with it and
    [CoverageCollapse] is selected first.  A policy that lists only
    [FreshnessLost] therefore never escalates. *)
Theorem freshness_lost_never_requested e c e' out rq :
  reachable e → command_wf c = true →
  run e c = (e', Ok (Some out)) → eo_escalation_request out = Some rq →
  rq_trigger_class rq ≠ FreshnessLost.
Proof.
  intros Hreach Hwf Hrun Hrq. destruct (run_published _ _ _ _ Hrun) as (e1 & t & Hp & -> & _ & Hreq).
  rewrite Hreq in Hrq. destruct (evaluate_request e1 t rq Hrq) as (ed & tr & n & Hq & Hm & _).
  pose proof (maybe_escalate_Some _ _ _ _ _ Hm) as (_ & _ & _ & Htrig & _).
  pose proof (reachable_inv e Hreach) as [He Hr _ _ _].
  destruct (inv_prepare e c e1 t Hwf Hp He Hr) as [Hinv _].
  rewrite Htrig. apply select_trigger_not_freshness. rewrite begin_policy.
  apply policy_validate_ok; [|apply Hinv].
  pose proof (ie_policy_wf _ Hinv) as Hw. unfold policy_wf in Hw. by split_and_bool.
Qed.

(** A policy whose scope exceeds the identity bound is accepted by policy
    validation, which only asks for a non-empty scope, but then no operation
    ever publishes an escalation request: request validation demands a scope
    that is a valid identity and its refusal is dropped. *)
Theorem oversized_scope_never_escalates e c e' out :
  run e c = (e', Ok (Some out)) → MAX_IDENTITY_BYTES < slen (rl_scope (ev_policy e')) →
  eo_escalation_request out = None.
Proof.
  intros Hrun Hlen. destruct (eo_escalation_request out) as [rq|] eqn:Hrq; [|done]. exfalso.
  destruct (run_published _ _ _ _ Hrun) as (e1 & t & Hp & -> & _ & Hreq). rewrite Hreq in Hrq.
  destruct (evaluate_request e1 t rq Hrq) as (ed & tr & n & Hq & Hm & _).
  pose proof (maybe_escalate_Some _ _ _ _ _ Hm) as (_ & _ & Hv & _ & Hs & _).
  rewrite (proj2 (proj2 (pre_judgment_fields _ _))) in Hs. unfold request_validate in Hv. inv_oks.
  match goal with Hsc : subject_scope_validate _ = Ok _ |- _ =>
    rewrite Hs in Hsc; unfold subject_scope_validate in Hsc; inv_oks;
    apply validate_identity_Ok, valid_identity_bound in Hsc; cbn [subject_scope ss_scope] in Hsc;
    rewrite begin_policy in Hsc end.
  pose proof (evaluate_core e1 t) as Hc. unfold evidence_core in Hc.
  replace (ev_policy (evaluate e1 t).1) with (ev_policy e1) in Hlen by congruence. lia.
Qed.

End escalation.

(** The tick at which the sample evaluator loses its support. *)
Definition expiry_run := run current_evaluator (CmdTick 510).

Definition expiry_request : option DiagnosticEscalationRequestV1 :=
  published expiry_run ≫= eo_escalation_request.

Lemma expiry_request_published rq :
  expiry_request = Some rq →
  ∃ out, run current_evaluator (CmdTick 510) = (expiry_run.1, Ok (Some out)) ∧
    eo_escalation_request out = Some rq.
Proof.
  unfold expiry_request. intros E. apply bind_Some in E as (out & Ho & Hr).
  exists out. split; [exact (published_run _ _ _ Ho)|exact Hr].
Qed.

Lemma escalation_only_on_loss_of_current_witness :
  ∃ rq, expiry_request = Some rq ∧ request_validate rq = Ok tt.
Proof.
  destruct (has_value_true expiry_request) as [rq E]; [vm_compute; reflexivity|].
  exists rq. split; [exact E|]. destruct (expiry_request_published rq E) as (out & Hrun & Hrq).
  destruct (escalation_only_on_loss_of_current _ _ _ _ _ Hrun Hrq) as (_ & _ & Hv & _). exact Hv.
Defined.

Lemma freshness_lost_never_requested_witness :
  ∃ rq, expiry_request = Some rq ∧ rq_trigger_class rq ≠ FreshnessLost.
Proof.
  destruct (has_value_true expiry_request) as [rq E]; [vm_compute; reflexivity|].
  exists rq. split; [exact E|]. destruct (expiry_request_published rq E) as (out & Hrun & Hrq).
  refine (freshness_lost_never_requested _ _ _ _ _ current_evaluator_reachable _ Hrun Hrq).
  vm_compute. reflexivity.
Defined.

(** The next pulse of the sample stream, arriving while the request of 510 is
    still live, and the loss of its support after the request expired. *)
Definition next_pulse (arrival : Z) : ReceivedPulseV1 :=
  mkReceived (sample_frame_for "observer:a" 8 WithinDeclaredBound) (sample_annotation arrival Continuous).

Definition renewed_evaluator : Evaluator := (run expiry_run.1 (CmdIngest (next_pulse 550) 550)).1.

(** The active escalation a published request repeats, if any. *)
Definition repeated (o : option EvaluationOutput) (active : gmap string ActiveEscalation)
  : option ActiveEscalation :=
  out ← o; rq ← eo_escalation_request out; active !! rq_deduplication_key rq.

Lemma repeated_Some o active a :
  repeated o active = Some a →
  ∃ out rq, o = Some out ∧ eo_escalation_request out = Some rq ∧
    active !! rq_deduplication_key rq = Some a.
Proof.
  unfold repeated. intros (out & Ho & Hr)%bind_Some. apply bind_Some in Hr as (rq & Hr & Ha). eauto.
Qed.

Lemma escalation_deduplicated_witness :
  ∃ out rq a, published (run renewed_evaluator (CmdTick 1050)) = Some out ∧
    eo_escalation_request out = Some rq ∧
    ev_active_escalations renewed_evaluator !! rq_deduplication_key rq = Some a ∧
    ae_expires_at_ms a <= pj_evaluated_at_monotonic_ms (eo_judgment out).
Proof.
  destruct (has_value_true (repeated (published (run renewed_evaluator (CmdTick 1050)))
                              (ev_active_escalations renewed_evaluator))) as [a E];
    [vm_compute; reflexivity|].
  destruct (repeated_Some _ _ _ E) as (out & rq & Ho & Hr & Ha).
  exists out, rq, a. split; [exact Ho|]. split; [exact Hr|]. split; [exact Ha|].
  exact (escalation_deduplicated _ _ _ _ _ _ (published_run _ _ _ Ho) Hr Ha).
Defined.

Lemma loss_of_current_escalates_witness :
  ∃ rq, eo_escalation_request (evaluate current_evaluator 510).2 = Some rq.
Proof.
  destruct (has_value_true (ev_last_judgment current_evaluator)) as [j Hj]; [vm_compute; reflexivity|].
  assert (Hc : (pj_category <$> ev_last_judgment current_evaluator) = Some CatCurrent)
    by (vm_compute; reflexivity).
  rewrite Hj in Hc.
  assert (Hempty : ev_active_escalations current_evaluator = ∅) by (vm_compute; reflexivity).
  destruct (loss_of_current_escalates current_evaluator 510 j sample_escalation) as (rq & Hrq & _).
  - vm_compute. reflexivity.
  - vm_compute. reflexivity.
  - vm_compute. reflexivity.
  - vm_compute. discriminate.
  - vm_compute. reflexivity.
  - vm_compute. reflexivity.
  - vm_compute. reflexivity.
  - vm_compute. reflexivity.
  - exact Hj.
  - injection Hc as Hc. exact Hc.
  - vm_compute. discriminate.
  - vm_compute. reflexivity.
  - intros k a. rewrite Hempty, lookup_empty. discriminate.
  - vm_compute. reflexivity.
  - exists rq. exact Hrq.
Defined.

(** [sample_policy] with a scope of 161 bytes. *)
Definition long_scope_policy : ReliancePolicyV1 :=
  {| rl_schema_version := SCHEMA_VERSION_V1;
     rl_subject := "host:a";
     rl_scope := str_concat (replicate 161 "h");
     rl_consumer := "consumer:display";
     rl_generation := "reliance:1";
     rl_observation_policy_generation := "policy:1";
     rl_observation_profile := sample_profile;
     rl_required_coverage := ["load"; "memory"];
     rl_minimum_observers := 1;
     rl_maximum_validity_ms := 500;
     rl_require_verified_authentication := false;
     rl_coherence_tolerances := ∅;
     rl_observer_failure_domains := ∅;
     rl_escalation := Some sample_escalation |}.

Definition long_scope_evaluator : Evaluator :=
  (run (unwrap_or blank_evaluator
          (evaluator_new long_scope_policy "receiver:a" "receiver-process:1" "clock:1" "boot:1"))
     (CmdIngest (sample_received 10) 10)).1.

Lemma oversized_scope_never_escalates_witness :
  policy_validate long_scope_policy = Ok tt ∧
  ∃ out, published (run long_scope_evaluator (CmdTick 510)) = Some out ∧
    eo_escalation_request out = None.
Proof.
  split; [vm_compute; reflexivity|].
  destruct (has_value_true (published (run long_scope_evaluator (CmdTick 510)))) as [out E];
    [vm_compute; reflexivity|].
  exists out. split; [exact E|].
  refine (oversized_scope_never_escalates _ _ _ _ (published_run _ _ _ E) _). vm_compute. reflexivity.
Defined.
