(* ===== verification/BridgeProps.v ===== *)
(** * The bridge's decisions and its interface to the evaluator

    The decision table of the stub, its single-flight and idempotence
    properties, the class [DiagnosticBridge] that states what the evaluator
    needs of any bridge, and the two halves of the seam: the evaluator admits
    what such a bridge returns, and the stub is such a bridge. *)

From S2P Require Import Prelude Ids Digest Pulse Samples Judgment Escalation Event Policy.
From S2P Require Import EvaluatorState Derive Explain Evaluator EvalSamples Bridge.
From S2P Require Import DeriveProps Frame Expiry Commands Invariant Support EscalationProps.

Section decisions.
Context `{Sha256}.

(** When the stub may run: everything the request must satisfy. *)
Record runnable (b : StubL3Bridge) (rq : DiagnosticEscalationRequestV1) (now : Z) : Prop := mkRunnable {
  rn_valid : request_validate rq = Ok tt;
  rn_clock : rq_clock_id rq = sb_clock_id b;
  rn_created : rq_created_at_monotonic_ms rq <= now;
  rn_unexpired : now < rq_expires_at_monotonic_ms rq;
  rn_profile : rq_diagnostic_profile rq = sb_profile b;
  rn_free : ∀ x id, sb_active_deduplication b !! rq_deduplication_key rq = Some (x, id) → x <= now;
  rn_available : sb_available b = true;
  rn_bounds : fits_within (rq_bounds rq) (sb_bounds b) = true;
}.

(** The active entries [handle] decides with. *)
Definition live (b : StubL3Bridge) (now : Z) : gmap string (Z * EscalationRequestId) :=
  filter (fun '(_, (expiry, _)) => now < expiry) (sb_active_deduplication b).

Lemma live_None b now k :
  live b now !! k = None ↔ ∀ x id, sb_active_deduplication b !! k = Some (x, id) → x <= now.
Proof.
  unfold live. rewrite map_lookup_filter_None. split.
  - intros [Hn|Hn] x id Hk; [congruence|]. specialize (Hn _ Hk). cbn in Hn. lia.
  - intros Hall. destruct (sb_active_deduplication b !! k) as [[x id]|] eqn:Hk; [right|by left].
    intros [x' id'] Hk'. specialize (Hall _ _ Hk'). cbn. lia.
Qed.

Lemma decide_request_accept b rq now :
  is_accept (decide_request (set_outcomes b (sb_outcomes b) (live b now)) rq now) = true ↔ runnable b rq now.
Proof.
  unfold decide_request. cbn [sb_clock_id sb_profile sb_active_deduplication sb_available sb_bounds set_outcomes].
  split.
  - destruct (request_validate rq) as [[]|] eqn:Hv; [|done].
    case_bool_decide as Hc; cbn [negb]; [|done].
    destruct (Z.ltb_spec now (rq_created_at_monotonic_ms rq)); [done|].
    destruct (Z.leb_spec (rq_expires_at_monotonic_ms rq) now); [done|].
    case_bool_decide as Hp; cbn [negb]; [|done].
    destruct (live b now !! _) as [[x id]|] eqn:Hl; [done|].
    destruct (sb_available b) eqn:Ha; cbn [negb]; [|done].
    destruct (fits_within _ _) eqn:Hf; [|done]. intros _. rewrite live_None in Hl. by constructor.
  - intros [Hv Hc Hcr Hun Hp Hfree Ha Hf]. apply live_None in Hfree.
    rewrite Hv, !bool_decide_eq_true_2 by done. cbn [negb].
    rewrite (proj2 (Z.ltb_ge _ _)), (proj2 (Z.leb_gt _ _)) by done. by rewrite Hfree, Ha, Hf.
Qed.

(** Every decision is one of the four, bound to its request and without
    authority; only acceptance carries a receipt. *)
Lemma decide_request_shape b rq now :
  let o := decide_request b rq now in
  (o = accept b rq now) ∨ (o = narrow b rq now) ∨ (∃ c d, o = refuse b rq now c d) ∨
  (∃ c d, o = defer b rq now c d).
Proof. unfold decide_request. repeat case_goal; eauto 10. Qed.

Lemma decide_request_time b rq now :
  ed_decided_at_monotonic_ms (bo_disposition (decide_request b rq now)) = now.
Proof.
  by destruct (decide_request_shape b rq now) as [->|[->|[(c & d & ->)|(c & d & ->)]]].
Qed.

Lemma handle_fresh b rq now :
  sb_outcomes b !! rq_request_id rq = None →
  (handle b rq now).2 = decide_request (set_outcomes b (sb_outcomes b) (live b now)) rq now.
Proof. intros Hf. unfold handle. by rewrite Hf. Qed.

Lemma narrowed_fits a l : fits_within (narrowed_to a l) l = true ∧ fits_within (narrowed_to a l) a = true.
Proof. unfold fits_within, narrowed_to. cbn. repeat case_goal; lia. Qed.

(** The bridge runs its one compiled profile exactly when it should.  For
    a request identity it has not decided, the stub accepts if and only if the
    request is valid, on the bridge's clock, created and not expired, for the
    registered profile, not equivalent to a live request, within the registry
    bounds, and the bridge is available.  A receipt exists exactly for
    accepted requests; an offered narrowing fits both the request and the
    registry; no disposition or receipt grants authority. *)
Theorem bridge_runs_exactly_runnable b rq now b' o :
  sb_outcomes b !! rq_request_id rq = None → handle b rq now = (b', o) →
  (is_accept o = true ↔ runnable b rq now) ∧
  (bo_receipt o = if is_accept o then Some (stub_receipt b rq now) else None) ∧
  (∀ p bd d, ed_kind (bo_disposition o) = Narrow p bd d →
     fits_within bd (sb_bounds b) = true ∧ fits_within bd (rq_bounds rq) = true) ∧
  ed_request_id (bo_disposition o) = rq_request_id rq ∧
  ed_mutation_authority (bo_disposition o) = MutationNone ∧
  sb_outcomes b' !! rq_request_id rq = Some o.
Proof.
  intros Hf Hh. pose proof (handle_fresh b rq now Hf) as Ho. rewrite Hh in Ho. cbn [snd] in Ho.
  split; [rewrite Ho; apply decide_request_accept|].
  assert (Hb' : sb_outcomes b' !! rq_request_id rq = Some o).
  { unfold handle in Hh. rewrite Hf in Hh. injection Hh as <- <-. apply lookup_insert_eq. }
  destruct (decide_request_shape (set_outcomes b (sb_outcomes b) (live b now)) rq now)
    as [Hs|[Hs|[(c & d & Hs)|(c & d & Hs)]]]; rewrite <-Ho in Hs; clear Ho Hh; subst o;
    (split; [reflexivity|]); (split; [|split; [reflexivity|split; [reflexivity|exact Hb']]]);
    intros p bd d' [=]; subst; apply narrowed_fits.
Qed.

(** The bridge is idempotent by request identity: once it decided a
    request, every later call with that identity, at any time, with any
    content and any availability, returns the same outcome and changes
    nothing; nothing runs twice. *)
Theorem bridge_idempotent b rq now rq' now' available :
  rq_request_id rq' = rq_request_id rq →
  handle (set_available (handle b rq now).1 available) rq' now'
  = (set_available (handle b rq now).1 available, (handle b rq now).2).
Proof.
  intros Hid. unfold handle at 1. cbn [set_available sb_outcomes]. rewrite Hid.
  assert (Hb : sb_outcomes (handle b rq now).1 !! rq_request_id rq = Some (handle b rq now).2).
  { unfold handle. destruct (sb_outcomes b !! _) eqn:Hf; [done|]. apply lookup_insert_eq. }
  by rewrite Hb.
Qed.

(** A sequence of requests with their times. *)
Definition handle_all (b : StubL3Bridge) (calls : list (DiagnosticEscalationRequestV1 * Z)) : StubL3Bridge :=
  fold_left (fun b '(rq, now) => (handle b rq now).1) calls b.

(** A live entry survives every call made before its expiry. *)
Lemma active_persists b rq now k x id :
  sb_active_deduplication b !! k = Some (x, id) → now < x →
  sb_active_deduplication (handle b rq now).1 !! k = Some (x, id).
Proof.
  intros Hk Hlt. unfold handle. destruct (sb_outcomes b !! _); [done|]. cbv zeta. fold (live b now).
  assert (Hl : live b now !! k = Some (x, id)) by (by apply map_lookup_filter_Some).
  destruct (is_accept _) eqn:Ha; [|done]. cbn.
  destruct (decide (rq_deduplication_key rq = k)) as [<-|Hne]; [|by rewrite lookup_insert_ne].
  apply decide_request_accept in Ha. pose proof (rn_free _ _ _ Ha x id Hk). lia.
Qed.

Lemma active_persists_all b calls k x id :
  sb_active_deduplication b !! k = Some (x, id) → Forall (λ c, c.2 < x) calls →
  sb_active_deduplication (handle_all b calls) !! k = Some (x, id).
Proof.
  intros Hk Hall. revert b Hk. induction Hall as [|[rq now] calls Hc Hall IH]; intros b Hk; [done|].
  cbn. apply IH. by apply active_persists.
Qed.

(** Equivalent questions run one at a time: after a request was accepted,
    no other request with the same deduplication key is accepted before the
    first one expires, whatever calls come in between. *)
Theorem bridge_single_flight b rq now calls rq2 now2 :
  sb_outcomes b !! rq_request_id rq = None → is_accept (handle b rq now).2 = true →
  Forall (λ c, c.2 < rq_expires_at_monotonic_ms rq) calls →
  let b2 := handle_all (handle b rq now).1 calls in
  sb_outcomes b2 !! rq_request_id rq2 = None →
  rq_deduplication_key rq2 = rq_deduplication_key rq →
  now2 < rq_expires_at_monotonic_ms rq →
  is_accept (handle b2 rq2 now2).2 = false.
Proof.
  intros Hf Hacc Hall b2 Hf2 Hkey Hlt. rewrite handle_fresh by exact Hf2.
  apply not_true_iff_false. rewrite decide_request_accept. intros Hr.
  assert (Hact : sb_active_deduplication (handle b rq now).1 !! rq_deduplication_key rq
                 = Some (rq_expires_at_monotonic_ms rq, rq_request_id rq)).
  { rewrite handle_fresh in Hacc by exact Hf. unfold handle. rewrite Hf. cbv zeta. fold (live b now).
    rewrite Hacc. apply lookup_insert_eq. }
  pose proof (active_persists_all _ calls _ _ _ Hact Hall) as Hk. fold b2 in Hk. rewrite <-Hkey in Hk.
  pose proof (rn_free _ _ _ Hr _ _ Hk). lia.
Qed.

End decisions.

(* ------------------------------------------------------------------ *)
(** ** The seam *)

(** An outcome that answers exactly this request on this clock. *)
Record answers (clock : ClockId) (rq : DiagnosticEscalationRequestV1) (o : BridgeOutcome) : Prop := mkAnswers {
  an_schema : ed_schema_version (bo_disposition o) = SCHEMA_VERSION_V1;
  an_request : ed_request_id (bo_disposition o) = rq_request_id rq;
  an_bridge : slen (ed_bridge_id (bo_disposition o)) ≠ 0;
  an_clock : ed_clock_id (bo_disposition o) = clock;
  an_receipt : ∀ rc, bo_receipt o = Some rc →
    rc_schema_version rc = SCHEMA_VERSION_V1 ∧ rc_request_id rc = rq_request_id rq ∧
    rc_causal_transition_id rc = rq_causal_transition_id rq ∧
    rc_deduplication_key rc = rq_deduplication_key rq ∧
    rc_evidence_window_digest rc = rq_evidence_window_digest rq ∧
    rc_subject_scope rc = rq_subject_scope rq ∧ rc_consumer rc = rq_consumer rq ∧
    rc_policy_generation rc = rq_policy_generation rq ∧
    rc_observation_policy_generation rc = rq_observation_policy_generation rq ∧
    rc_diagnostic_profile rc = rq_diagnostic_profile rq ∧ rc_clock_id rc = clock ∧
    rc_started_at_monotonic_ms rc <= rc_completed_at_monotonic_ms rc;
}.

(** What a bridge promises the evaluator.  The promise is relative to the
    requests issued so far: a bridge may remember outcomes by identity, so it
    answers the request that carries that identity. *)
Class DiagnosticBridge (B : Type) := {
  br_handle : B → DiagnosticEscalationRequestV1 → Z → B * BridgeOutcome;
  br_clock : B → ClockId;
  br_consistent : B → gmap string DiagnosticEscalationRequestV1 → Prop;
  br_answers : ∀ b issued rq now, br_consistent b issued → 0 <= now <= u64_max →
    issued !! rq_request_id rq = Some rq →
    answers (br_clock b) rq (br_handle b rq now).2 ∧
    br_consistent (br_handle b rq now).1 issued ∧
    br_clock (br_handle b rq now).1 = br_clock b;
}.

Section seam.
Context `{Sha256} `{DiagnosticBridge B}.

Lemma receipt_binds_answers e rq o rc t :
  answers (ev_clock_id e) rq o → bo_receipt o = Some rc → rc_completed_at_monotonic_ms rc <= t →
  receipt_binds e rq rc t = true.
Proof.
  intros Ha Hrc Ht. pose proof (an_receipt _ _ _ Ha rc Hrc)
    as (H1 & H2 & H3 & H4 & H5 & H6 & H7 & H8 & H9 & H10 & H11 & H12).
  unfold receipt_binds. rewrite H1, H2, H3, H4, H5, H6, H7, H8, H9, H10, H11.
  rewrite !bool_decide_eq_true_2 by done. lia.
Qed.

(** The two sides of the diagnostic seam agree: whatever bridge keeps the
    promise of the interface, its disposition for a request this evaluator
    issued is admitted, and its receipt, once completed, is admitted and kept
    as diagnostic evidence unless its applicability has already ended. *)
Theorem bridge_answers_are_admitted e b rq now t b' o :
  ev_issued_requests e !! rq_request_id rq = Some rq →
  br_consistent b (ev_issued_requests e) → br_clock b = ev_clock_id e → 0 <= now <= u64_max →
  br_handle b rq now = (b', o) → ed_decided_at_monotonic_ms (bo_disposition o) <= t →
  (∃ e' out, record_escalation_disposition e (bo_disposition o) t = (e', Ok out)) ∧
  ∀ rc, bo_receipt o = Some rc → rc_completed_at_monotonic_ms rc <= t → clamped e t = t →
    ∃ e' out, record_diagnostic_receipt e rc t = (e', Ok out) ∧
      (rc_receipt_id rc ∈ der_receipt_id <$> ev_diagnostic_evidence e' ∨
       rc_applicable_until_monotonic_ms rc <= t).
Proof.
  intros Hiss Hcon Hclk Hnow Hh Hdec. destruct (br_answers b _ rq now Hcon Hnow Hiss) as (Ha & _ & _).
  rewrite Hh, Hclk in Ha. cbn [snd] in Ha. split.
  - unfold record_escalation_disposition. rewrite (an_schema _ _ _ Ha), (an_clock _ _ _ Ha).
    rewrite bool_decide_eq_true_2, (proj2 (Z.eqb_neq _ 0) (an_bridge _ _ _ Ha)) by done.
    cbn [negb andb Z.eqb SCHEMA_VERSION_V1]. rewrite (an_request _ _ _ Ha), Hiss.
    rewrite (proj2 (Z.ltb_ge _ _)) by done. unfold evaluate_recorded.
    destruct (sparse_event _ _ _) as [e1 ev]. destruct (evaluate e1 t). by do 2 eexists.
  - intros rc Hrc Hdone Hcl. pose proof (receipt_binds_answers e rq o rc t Ha Hrc Hdone) as Hb.
    pose proof (an_receipt _ _ _ Ha rc Hrc) as (_ & Hid & _).
    unfold record_diagnostic_receipt. rewrite Hid, Hiss, Hb. cbn [negb].
    unfold evaluate_recorded. destruct (receipt_state e rc t) as [e1 ev] eqn:Hst.
    assert (He1 : der_receipt_id <$> ev_diagnostic_evidence (evaluate e1 t).1
      = der_receipt_id <$> filter (λ d, t < der_applicable_until_monotonic_ms d)
          (ev_diagnostic_evidence e1)).
    { pose proof (evaluate_diagnostics e1 t) as Hd. rewrite Hd. f_equal.
      replace (clamped e1 t) with t; [done|]. injection Hst as <- _. symmetry. exact Hcl. }
    destruct (evaluate e1 t) as [e' out]. cbn [fst] in He1. do 2 eexists. split; [reflexivity|].
    destruct (decide (t < rc_applicable_until_monotonic_ms rc)) as [Hlt|Hge]; [left|right; lia].
    rewrite He1. injection Hst as <- _. cbn. rewrite filter_app. rewrite fmap_app, elem_of_app. right.
    rewrite filter_cons_True by done. cbn. by left.
Qed.

End seam.

(* ------------------------------------------------------------------ *)
(** ** The stub keeps the promise *)

Section stub.
Context `{Sha256}.

Definition stub_consistent (b : StubL3Bridge) (issued : gmap string DiagnosticEscalationRequestV1) : Prop :=
  slen (sb_bridge_id b) ≠ 0 ∧
  ∀ id o, sb_outcomes b !! id = Some o → ∃ rq, issued !! id = Some rq ∧ answers (sb_clock_id b) rq o.

Lemma decide_request_answers b rq now :
  slen (sb_bridge_id b) ≠ 0 → 0 <= now <= u64_max →
  answers (sb_clock_id b) rq (decide_request b rq now).
Proof.
  intros Hb Hnow. destruct (decide_request_shape b rq now) as [->|[->|[(c & d & ->)|(c & d & ->)]]];
    constructor; try done; intros rc; cbn; try done.
  intros [= <-]. cbn. repeat split. unfold sat_add. lia.
Qed.

Lemma handle_fixed b rq now :
  sb_clock_id (handle b rq now).1 = sb_clock_id b ∧ sb_bridge_id (handle b rq now).1 = sb_bridge_id b.
Proof. unfold handle. by destruct (sb_outcomes b !! _). Qed.

Lemma stub_answers b issued rq now :
  stub_consistent b issued → 0 <= now <= u64_max → issued !! rq_request_id rq = Some rq →
  answers (sb_clock_id b) rq (handle b rq now).2 ∧
  stub_consistent (handle b rq now).1 issued ∧ sb_clock_id (handle b rq now).1 = sb_clock_id b.
Proof.
  intros [Hb Hc] Hnow Hiss. destruct (handle_fixed b rq now) as [Hclk Hid].
  destruct (sb_outcomes b !! rq_request_id rq) as [o|] eqn:Hf.
  - assert (handle b rq now = (b, o)) as -> by (unfold handle; by rewrite Hf).
    split; [|done]. destruct (Hc _ _ Hf) as (rq' & Hrq' & Ha). cbn. congruence.
  - assert (Ha : answers (sb_clock_id b) rq (handle b rq now).2).
    { rewrite handle_fresh by done. by apply (decide_request_answers (set_outcomes b _ _)). }
    split; [done|]. split; [|done]. split; [by rewrite Hid|]. rewrite Hclk. intros id o.
    assert (sb_outcomes (handle b rq now).1 = <[rq_request_id rq := (handle b rq now).2]> (sb_outcomes b)) as ->
      by (unfold handle; by rewrite Hf).
    rewrite lookup_insert_Some. intros [[<- <-]|[_ Ho]]; [by exists rq|by apply Hc].
Qed.

#[global] Instance stub_diagnostic_bridge : DiagnosticBridge StubL3Bridge :=
  {| br_handle := handle;
     br_clock := sb_clock_id;
     br_consistent := stub_consistent;
     br_answers := stub_answers |}.

Lemma bridge_new_consistent id clock issued :
  slen id ≠ 0 → stub_consistent (bridge_new id clock) issued.
Proof. intros Hid. split; [done|]. intros k o. cbn. by rewrite lookup_empty. Qed.

End stub.

(** The stub of the samples. *)
Definition sample_bridge : StubL3Bridge := bridge_new "bridge:1" "clock:1".

Lemma bridge_answers_are_admitted_witness :
  ∃ rq, expiry_request = Some rq ∧
    ∃ e' out, record_escalation_disposition expiry_run.1
                (bo_disposition (handle sample_bridge rq 511).2) 511 = (e', Ok out).
Proof.
  destruct (has_value_true expiry_request) as [rq E]; [vm_compute; reflexivity|].
  exists rq. split; [exact E|]. destruct (expiry_request_published rq E) as (out & Hrun & Hrq).
  assert (Hnow : 0 <= 511 <= u64_max) by (split; discriminate).
  refine (proj1 (bridge_answers_are_admitted (B := StubL3Bridge) expiry_run.1 sample_bridge rq 511 511
                   (handle sample_bridge rq 511).1 (handle sample_bridge rq 511).2 _ _ _ Hnow _ _)).
  - exact (run_request_issued _ _ _ _ _ Hrun Hrq).
  - apply bridge_new_consistent. discriminate.
  - vm_compute. reflexivity.
  - change (br_handle sample_bridge rq 511) with (handle sample_bridge rq 511).
    apply surjective_pairing.
  - rewrite handle_fresh by reflexivity. rewrite decide_request_time. discriminate.
Defined.

Lemma bridge_runs_exactly_runnable_witness :
  ∃ rq, expiry_request = Some rq ∧
    (is_accept (handle sample_bridge rq 511).2 = true ↔ runnable sample_bridge rq 511) ∧
    runnable sample_bridge rq 511.
Proof.
  destruct (has_value_true expiry_request) as [rq E]; [vm_compute; reflexivity|].
  exists rq. split; [exact E|].
  assert (Hacc : (match expiry_request with
                  | Some r => is_accept (handle sample_bridge r 511).2
                  | None => false
                  end) = true) by (vm_compute; reflexivity).
  rewrite E in Hacc.
  destruct (bridge_runs_exactly_runnable sample_bridge rq 511 (handle sample_bridge rq 511).1
              (handle sample_bridge rq 511).2) as [Hiff _].
  - apply lookup_empty.
  - apply surjective_pairing.
  - split; [exact Hiff|]. apply Hiff. exact Hacc.
Defined.

(** Any request, resubmitted later under the same identity. *)
Lemma bridge_idempotent_witness :
  ∃ rq, expiry_request = Some rq ∧
    handle (set_available (handle sample_bridge rq 511).1 false) rq 9000
    = (set_available (handle sample_bridge rq 511).1 false, (handle sample_bridge rq 511).2).
Proof.
  destruct (has_value_true expiry_request) as [rq E]; [vm_compute; reflexivity|].
  exists rq. split; [exact E|]. apply bridge_idempotent. reflexivity.
Defined.

(** The same question under another identity. *)
Definition rename_request (rq : DiagnosticEscalationRequestV1) (id : string) : DiagnosticEscalationRequestV1 :=
  {| rq_schema_version := rq_schema_version rq;
     rq_request_id := id;
     rq_subject_scope := rq_subject_scope rq;
     rq_consumer := rq_consumer rq;
     rq_trigger_class := rq_trigger_class rq;
     rq_evidence_window_digest := rq_evidence_window_digest rq;
     rq_policy_generation := rq_policy_generation rq;
     rq_observation_policy_generation := rq_observation_policy_generation rq;
     rq_diagnostic_profile := rq_diagnostic_profile rq;
     rq_bounds := rq_bounds rq;
     rq_clock_id := rq_clock_id rq;
     rq_created_at_monotonic_ms := rq_created_at_monotonic_ms rq;
     rq_expires_at_monotonic_ms := rq_expires_at_monotonic_ms rq;
     rq_deduplication_key := rq_deduplication_key rq;
     rq_causal_transition_id := rq_causal_transition_id rq;
     rq_nonclaims := rq_nonclaims rq |}.

Lemma rename_request_key rq id :
  rq_deduplication_key (rename_request rq id) = rq_deduplication_key rq.
Proof. reflexivity. Qed.

Definition or_blank (o : option DiagnosticEscalationRequestV1) : DiagnosticEscalationRequestV1 :=
  match o with
  | Some rq => rq
  | None => escalation_request blank_evaluator sample_escalation FreshnessLost
              (build_transition blank_evaluator (judged blank_evaluator 0) 0).2
              (judged blank_evaluator 0) 0 "none" ""
  end.

Lemma bridge_single_flight_witness :
  is_accept (handle sample_bridge (or_blank expiry_request) 511).2 = true ∧
  is_accept (handle (handle_all (handle sample_bridge (or_blank expiry_request) 511).1 [])
               (rename_request (or_blank expiry_request) "escalation:other") 600).2 = false.
Proof.
  assert (Hacc : is_accept (handle sample_bridge (or_blank expiry_request) 511).2 = true)
    by (vm_compute; reflexivity).
  split; [exact Hacc|].
  apply (bridge_single_flight sample_bridge (or_blank expiry_request) 511 []).
  - apply lookup_empty.
  - exact Hacc.
  - constructor.
  - vm_compute. reflexivity.
  - apply rename_request_key.
  - vm_compute. reflexivity.
Defined.
