(* ===== verification/Lockstep.v ===== *)
(** * The receiver's tracker and the evaluator in lock-step

    [ReceiverTracker::annotate] and [Evaluator::classify_arrival] read the same
    stream independently; the evaluator goes blind when they disagree.  This
    file proves a simulation between the two, under the conditions it needs,
    and gives the runs that leave those conditions. *)

From S2P Require Import Prelude Ids Digest Pulse Samples Judgment Escalation Event Policy Receiver.
From S2P Require Import EvaluatorState Derive Explain Evaluator EvalSamples.
From S2P Require Import DeriveProps Frame Expiry Commands Ingestion Invariant Support Standing.

Section receiver.
Context `{Sha256}.

(** The gap a stream reports is consistent with its own arithmetic. *)
Lemma classify_stream_gap t f t' d g :
  classify_stream t f = (t', (d, g)) → gap_detail_validate d g = Ok tt.
Proof.
  unfold classify_stream. intros Hc. repeat case_in Hc; simplify_eq; try done.
  unfold gap_detail_validate. cbn. unfold ensure, sat_add in *.
  match goal with |- (if ?b then _ else _) = _ => replace b with true; [done|] end. lia.
Qed.

Lemma note_subject_streams t f :
  rt_streams (note_subject_incarnation t f) = rt_streams t ∧
  rt_retired (note_subject_incarnation t f) = rt_retired t.
Proof. unfold note_subject_incarnation. destruct (_ !! _); [case_decide|]; done. Qed.

(** The receiver identities a tracker stamps on annotations. *)
Definition tracker_ok (t : ReceiverTracker) : Prop :=
  validate_identity "ReceiverId" (rt_receiver t) = Ok tt ∧
  validate_identity "IncarnationId" (rt_receiver_incarnation t) = Ok tt ∧
  validate_identity "ClockId" (rt_clock_id t) = Ok tt.

Lemma annotate_shape t f arrival path delay auth t' a :
  annotate t f arrival path delay auth = (t', Ok a) →
  frame_validate f = Ok tt ∧
  ∃ d g, a = tracker_annotation t arrival path delay auth d g ∧ gap_detail_validate d g = Ok tt.
Proof.
  intros Hann. unfold annotate in Hann. destruct (frame_validate f) as [[]|]; [|discriminate Hann].
  split; [done|]. destruct (delay_reaches _ _); [by simplify_eq; do 2 eexists|].
  destruct (decide _); [by simplify_eq; do 2 eexists|].
  destruct (classify_stream _ f) as [t1 [d g]] eqn:Hcs. simplify_eq.
  exists d, g. split; [done|]. by eapply classify_stream_gap.
Qed.

Lemma annotate_validates t f arrival path delay auth t' a :
  tracker_ok t → validate_field "transport_path" path = Ok tt →
  authentication_result_validate auth = Ok tt →
  annotate t f arrival path delay auth = (t', Ok a) → annotation_validate a = Ok tt.
Proof.
  intros (Hr & Hi & Hc) Hp Ha (Hf & d & g & -> & Hg)%annotate_shape.
  unfold annotation_validate, tracker_annotation, identity_field. cbn.
  by rewrite Hr, Hi, Hc, Hp, Ha, Hg.
Qed.

Lemma annotate_valid_parts t f arrival path delay auth t' a :
  annotate t f arrival path delay auth = (t', Ok a) → annotation_validate a = Ok tt →
  tracker_ok t ∧ validate_field "transport_path" path = Ok tt ∧ authentication_result_validate auth = Ok tt.
Proof.
  intros (_ & d & g & -> & _)%annotate_shape Hv.
  unfold annotation_validate, tracker_annotation, identity_field in Hv. cbn in Hv. inv_oks.
  unfold tracker_ok.
  repeat match goal with
  | Hm : map_err _ ?r = Ok ?u |- _ => destruct r as [[]|] eqn:?; [clear Hm|discriminate Hm] end.
  repeat match goal with u : unit |- _ => destruct u end. done.
Qed.


(** Activating a subject incarnation retires the one in force, and does
    so even when it is the same one: after [activate_subject_incarnation] is
    called with the incarnation already active, every frame of that
    incarnation that is not stale is annotated a replay. *)
Theorem reactivation_retires_itself t subject i t' f arrival path delay auth :
  rt_subject_incarnations t !! subject = Some i →
  activate_subject_incarnation t subject i = (t', Ok tt) →
  frame_validate f = Ok tt → pf_subject f = subject → pf_subject_incarnation f = i →
  delay_reaches delay (pf_validity_ms f) = false →
  annotate t' f arrival path delay auth
  = (t', Ok (tracker_annotation t' arrival path delay auth Replay None)).
Proof.
  intros Hs Hact Hv <- <- Hd. unfold activate_subject_incarnation in Hact.
  destruct (identity_field _ _ _ ≫= _); [|discriminate Hact]. rewrite Hs in Hact.
  unfold annotate. rewrite Hv, Hd, decide_True; [done|]. injection Hact as <-. cbn. set_solver.
Qed.

End receiver.

(* ------------------------------------------------------------------ *)
(** ** The simulation relation *)

Section lockstep.
Context `{Sha256}.

(** The tracker's key for an observer of the evaluator's policy. *)
Definition policy_key (e : Evaluator) (o : ObserverId) : ReceiverStreamKey :=
  mkStreamKey (rl_subject (ev_policy e)) o (rl_observation_profile (ev_policy e))
    (rl_observation_policy_generation (ev_policy e)).

Definition lineage_of (s : ReceiverStream) : ObserverLineage := mkLineage (st_incarnation s) (st_sequence s).

Record lockstep (t : ReceiverTracker) (e : Evaluator) : Prop := mkLockstep {
  ls_receiver : rt_receiver t = ev_receiver e;
  ls_receiver_incarnation : rt_receiver_incarnation t = ev_receiver_incarnation e;
  ls_clock : rt_clock_id t = ev_clock_id e;
  ls_streams : ∀ o, lineage_of <$> rt_streams t !! policy_key e o = ev_observer_lineages e !! o;
  ls_retired : ∀ o i, (policy_key e o, i) ∈ rt_retired t ↔ (o, i) ∈ ev_retired_observer_incarnations e;
  ls_subjects : ∀ i, (rl_subject (ev_policy e), i) ∈ rt_retired_subject_incarnations t
                     ↔ i ∈ ev_retired_subject_incarnations e;
  ls_current : rt_subject_incarnations t !! rl_subject (ev_policy e) = None ∨
               rt_subject_incarnations t !! rl_subject (ev_policy e) = Some (ev_current_subject_incarnation e);
}.

(** The fields the relation reads. *)
Definition stream_core (e : Evaluator) :=
  (ev_policy e, ev_receiver e, ev_receiver_incarnation e, ev_clock_id e,
   ev_current_subject_incarnation e, ev_retired_subject_incarnations e,
   ev_observer_lineages e, ev_retired_observer_incarnations e).

Lemma lockstep_ext t e e' : stream_core e' = stream_core e → lockstep t e → lockstep t e'.
Proof.
  unfold stream_core. destruct e, e'. cbn. intros ? []. simplify_eq. by constructor.
Qed.

Lemma evaluate_stream_core e t : stream_core (evaluate e t).1 = stream_core e.
Proof. pose proof (evaluate_core e t) as Hc. unfold evidence_core, stream_core in *. congruence. Qed.

(** A frame of the evaluator's subject, profile and observation policy. *)
Definition of_policy (e : Evaluator) (f : PulseFrameV1) : Prop :=
  pf_subject f = rl_subject (ev_policy e) ∧ pf_profile f = rl_observation_profile (ev_policy e) ∧
  pf_observation_policy_generation f = rl_observation_policy_generation (ev_policy e).

Lemma of_policy_key e f : of_policy e f → stream_key f = policy_key e (pf_observer f).
Proof. unfold stream_key, policy_key. by intros (-> & -> & ->). Qed.

(** Both sides classify a frame alike. *)
Lemma lockstep_classify t e f arrival path delay auth t' a :
  lockstep t e → of_policy e f →
  annotate t f arrival path delay auth = (t', Ok a) →
  classify_arrival e f a = (ra_disposition a, ra_sequence_gap a).
Proof.
  intros [_ _ _ Hst Hret Hsub _] Hf Hann. unfold annotate in Hann.
  destruct (frame_validate f); [|discriminate Hann]. unfold classify_arrival.
  assert (Hd : ra_transport_observed_delay_ms a = delay).
  { repeat case_in Hann; by simplify_eq. }
  rewrite Hd. clear Hd. change (match delay with Some d => pf_validity_ms f <=? d | None => false end)
    with (delay_reaches delay (pf_validity_ms f)).
  destruct (delay_reaches delay (pf_validity_ms f)); [by simplify_eq|].
  destruct Hf as (Hs & Hp & Hg) eqn:Hfe. rewrite Hs in Hann.
  destruct (decide (_ ∈ rt_retired_subject_incarnations t)) as [Hin|Hnin].
  { apply Hsub in Hin. rewrite decide_True by done. by simplify_eq. }
  rewrite decide_False by (by rewrite <-Hsub).
  destruct (classify_stream _ f) as [t1 [d g]] eqn:Hcs. simplify_eq. cbn.
  unfold classify_stream in Hcs. destruct (note_subject_streams t f) as [Hns Hnr].
  rewrite Hns, Hnr, (of_policy_key e f) in Hcs by done.
  specialize (Hst (pf_observer f)). rewrite <-Hst. specialize (Hret (pf_observer f)).
  destruct (rt_streams t !! _) as [s|]; cbn in *; [|by simplify_eq].
  destruct (decide (st_incarnation s = _)) as [Heq|Hne].
  - repeat case_goal; by simplify_eq.
  - destruct (decide (_ ∈ rt_retired t)) as [Hin'|Hnin'].
    + rewrite decide_True by (by apply Hret). by simplify_eq.
    + rewrite decide_False by (by rewrite <-Hret). by simplify_eq.
Qed.

(* ------------------------------------------------------------------ *)
(** ** How each side moves *)

Definition subject_core (e : Evaluator) :=
  (ev_current_subject_incarnation e, ev_retired_subject_incarnations e).

Lemma create_contradiction_subject e s refs st t :
  subject_core (create_contradiction e s refs st t) = subject_core e.
Proof. unfold create_contradiction. by destruct (_ !! _). Qed.

Lemma examine_subject e r t : subject_core (examine e r t) = subject_core e.
Proof.
  transitivity (subject_core (detect_signal_contradictions e r t)).
  - unfold examine, record_adverse_supersession. destruct (_ !! _); [|done]. by destruct (bool_decide _).
  - unfold detect_signal_contradictions. destruct (negb _); [done|].
    generalize (flat_map (signal_candidates (ev_policy e) (rp_frame r)) (comparable_evidence e r t)).
    intros cs. revert e. induction cs as [|[sg [refs st]] cs IH]; intros e; [done|]. cbn [fold_left].
    by rewrite IH, create_contradiction_subject.
Qed.

Lemma admit_stream_core e r now v dl :
  stream_core (admit_evidence e r now v dl)
  = stream_core (update_lineage e (rp_frame r) (ra_disposition (rp_receiver r))).
Proof.
  set (e1 := update_lineage _ _ _).
  transitivity (stream_core (examine e1 r now)); [done|].
  pose proof (x_fixed _ _ (examine_extends e1 r now)) as Hf.
  pose proof (examine_subject e1 r now) as Hs.
  unfold fixed_core, subject_core, stream_core in *. congruence.
Qed.

Lemma record_subject_stream_core e r now :
  stream_core (record_subject_incarnation_change e r now)
  = (ev_policy e, ev_receiver e, ev_receiver_incarnation e, ev_clock_id e,
     pf_subject_incarnation (rp_frame r),
     {[ev_current_subject_incarnation e]} ∪ ev_retired_subject_incarnations e,
     ev_observer_lineages e, ev_retired_observer_incarnations e).
Proof.
  pose proof (x_fixed _ _ (record_subject_incarnation_change_extends e r now)) as Hf.
  unfold fixed_core in Hf. unfold stream_core.
  match goal with |- context [ev_current_subject_incarnation (record_subject_incarnation_change ?a ?b ?c)] =>
    assert (Hs : subject_core (record_subject_incarnation_change a b c)
      = (pf_subject_incarnation (rp_frame r),
         {[ev_current_subject_incarnation e]} ∪ ev_retired_subject_incarnations e))
      by (unfold record_subject_incarnation_change; by rewrite create_contradiction_subject) end.
  unfold subject_core in Hs. congruence.
Qed.

Lemma update_lineage_stream_core e e' f d :
  stream_core e' = stream_core e →
  stream_core (update_lineage e' f d) = stream_core (update_lineage e f d).
Proof.
  intros He. pose proof (update_lineage_binding e f d) as H1. pose proof (update_lineage_binding e' f d) as H2.
  unfold stream_core in *.
  rewrite !update_lineage_policy, !update_lineage_lineages, !update_lineage_retired.
  assert (Hl : ev_observer_lineages e' = ev_observer_lineages e) by congruence.
  assert (Hr : ev_retired_observer_incarnations e' = ev_retired_observer_incarnations e) by congruence.
  rewrite Hl, Hr. clear Hl Hr.
  assert (ev_policy e' = ev_policy e) by congruence. congruence.
Qed.

(** The tracker's stream part after an advancing or a dropped frame. *)
Lemma classify_stream_moves t f t' d g :
  classify_stream t f = (t', (d, g)) →
  (advancing d ∧
   rt_streams t' = <[stream_key f := mkStream (pf_observer_incarnation f) (pf_sequence f)]> (rt_streams t) ∧
   rt_retired t' = match rt_streams t !! stream_key f with
                   | Some s => if decide (d = Restarted)
                               then {[(stream_key f, st_incarnation s)]} ∪ rt_retired t else rt_retired t
                   | None => rt_retired t
                   end ∧
   rt_subject_incarnations t' = rt_subject_incarnations t ∧
   rt_retired_subject_incarnations t' = rt_retired_subject_incarnations t ∧
   rt_receiver t' = rt_receiver t ∧ rt_receiver_incarnation t' = rt_receiver_incarnation t ∧
   rt_clock_id t' = rt_clock_id t) ∨
  (t' = t ∧ (d = Duplicate ∨ d = Replay)).
Proof.
  unfold classify_stream, advancing. intros Hc.
  destruct (rt_streams t !! stream_key f) as [s|]; [|left; simplify_eq; split; [tauto|done]].
  destruct (decide _) as [Heq|Hne].
  - repeat case_in Hc; simplify_eq; try (right; by auto); left; rewrite ?Heq; split; try tauto; done.
  - destruct (decide _); simplify_eq; [right; by auto|left]. split; [tauto|]. done.
Qed.

(** Advancing the same frame on both sides keeps the stream part related. *)
Lemma lockstep_advance t e f t' d :
  lockstep t e → of_policy e f → advancing d →
  rt_streams t' = <[stream_key f := mkStream (pf_observer_incarnation f) (pf_sequence f)]> (rt_streams t) →
  rt_retired t' = match rt_streams t !! stream_key f with
                  | Some s => if decide (d = Restarted)
                              then {[(stream_key f, st_incarnation s)]} ∪ rt_retired t else rt_retired t
                  | None => rt_retired t
                  end →
  (∀ o, lineage_of <$> rt_streams t' !! policy_key e o = ev_observer_lineages (update_lineage e f d) !! o) ∧
  (∀ o i, (policy_key e o, i) ∈ rt_retired t'
          ↔ (o, i) ∈ ev_retired_observer_incarnations (update_lineage e f d)).
Proof.
  intros [_ _ _ Hst Hret _ _] Hf Hadv Hs' Hr'. rewrite (of_policy_key e f Hf) in Hs', Hr'.
  assert (Hinj : ∀ o o', policy_key e o = policy_key e o' → o = o') by (unfold policy_key; by intros o o' [=]).
  split; intros o.
  - rewrite Hs', update_lineage_lineages. destruct (decide (pf_observer f = o)) as [<-|Hne].
    + by rewrite !lookup_insert_eq.
    + rewrite !lookup_insert_ne; [apply Hst|done|]. intros Heq. by apply Hne, Hinj.
  - intros i. rewrite Hr', update_lineage_retired.
    specialize (Hst (pf_observer f)). rewrite <-Hst.
    destruct (rt_streams t !! policy_key e (pf_observer f)) as [s|]; cbn; [|apply Hret].
    case_decide; [|apply Hret]. rewrite !elem_of_union, !elem_of_singleton, Hret.
    split; (intros [Heq|?]; [left|by right]).
    + assert (o = pf_observer f) as -> by (apply Hinj; congruence). congruence.
    + congruence.
Qed.

(* ------------------------------------------------------------------ *)
(** ** Deliveries *)

(** One frame reaching the receiver, and the time the evaluator looks at it. *)
Record Delivery := mkDelivery {
  dl_frame : PulseFrameV1;
  dl_arrival : Z;
  dl_path : string;
  dl_delay : option Z;
  dl_authentication : AuthenticationResultV1;
  dl_now : Z;
}.

Definition annotated (t : ReceiverTracker) (d : Delivery) : ReceiverTracker * result PulseError ReceiverAnnotationV1 :=
  annotate t (dl_frame d) (dl_arrival d) (dl_path d) (dl_delay d) (dl_authentication d).

(** The tracker annotates, the evaluator ingests. *)
Definition deliver (s : ReceiverTracker * Evaluator) (d : Delivery) : ReceiverTracker * Evaluator :=
  match annotated s.1 d with
  | (t', Ok a) => (t', (ingest s.2 (mkReceived (dl_frame d) a) (dl_now d)).1)
  | (t', Err _) => (t', s.2)
  end.

(** The frame's subject incarnation is the current one, or both sides drop it,
    or both sides admit it. *)
Definition incarnation_steady (t : ReceiverTracker) (e : Evaluator) (d : Delivery) : Prop :=
  pf_subject_incarnation (dl_frame d) = ev_current_subject_incarnation e ∨
  delay_reaches (dl_delay d) (pf_validity_ms (dl_frame d)) = true ∨
  pf_subject_incarnation (dl_frame d) ∈ ev_retired_subject_incarnations e ∨
  (is_Some (rt_subject_incarnations t !! rl_subject (ev_policy e)) ∧
   default 0 (dl_delay d) < effective_validity e (dl_frame d) ∧
   ∀ t' a, annotated t d = (t', Ok a) → advancing (ra_disposition a)).

Record steady (t : ReceiverTracker) (e : Evaluator) (d : Delivery) : Prop := mkSteady {
  sd_policy : of_policy e (dl_frame d);
  sd_path : validate_field "transport_path" (dl_path d) = Ok tt;
  sd_authentication : authentication_result_validate (dl_authentication d) = Ok tt;
  sd_arrival : dl_arrival d <= dl_now d;
  sd_monotone : ∀ prior, ev_last_receiver_arrival_ms e = Some prior → prior <= dl_arrival d;
  sd_evaluation : regressed e (dl_now d) = false;
  sd_incarnation : incarnation_steady t e d;
}.

Lemma annotate_moves t f arrival path delay auth t' a :
  annotate t f arrival path delay auth = (t', Ok a) →
  (t' = t ∧ (delay_reaches delay (pf_validity_ms f) = true ∧ ra_disposition a = Stale
             ∨ (pf_subject f, pf_subject_incarnation f) ∈ rt_retired_subject_incarnations t
               ∧ ra_disposition a = Replay)) ∨
  (delay_reaches delay (pf_validity_ms f) = false ∧
   ((pf_subject f, pf_subject_incarnation f) ∉ rt_retired_subject_incarnations t) ∧
   ∃ g, classify_stream (note_subject_incarnation t f) f = (t', (ra_disposition a, g))).
Proof.
  unfold annotate. destruct (frame_validate f); [|by intros [=]].
  destruct (delay_reaches _ _) eqn:Hd; [intros [= <- <-]; left; by auto|].
  destruct (decide _) as [Hin|Hnin]; [intros [= <- <-]; left; by auto|].
  destruct (classify_stream _ f) as [t1 [d g]] eqn:Hcs. intros [= <- <-]. right. eauto.
Qed.

(** The evaluator's stream part after a consistent arrival. *)
Lemma ingest_consistent_stream_core e r now :
  let d := ra_disposition (rp_receiver r) in
  let f := rp_frame r in
  (advancing d →
   (pf_subject_incarnation f ∉ ev_retired_subject_incarnations e) →
   pf_subject_incarnation f = ev_current_subject_incarnation e ∨
   default 0 (ra_transport_observed_delay_ms (rp_receiver r)) < effective_validity e f →
   stream_core (ingest_consistent e r now) = stream_core (update_lineage
     (if decide (pf_subject_incarnation f = ev_current_subject_incarnation e) then e
      else record_subject_incarnation_change e r now) f d)) ∧
  (¬ advancing d → stream_core (ingest_consistent e r now) = stream_core e).
Proof.
  cbv zeta. split.
  - intros Hadv Hnr Hor.
    assert (Hgo : ∀ e0, stream_core e0 = stream_core e →
      stream_core (record_subject_incarnation_change e0 r now)
      = stream_core (record_subject_incarnation_change e r now) →
      stream_core (ingest_advancing e0 r now) = stream_core (update_lineage
        (if decide (pf_subject_incarnation (rp_frame r) = ev_current_subject_incarnation e) then e
         else record_subject_incarnation_change e r now) (rp_frame r) (ra_disposition (rp_receiver r)))).
    { intros e0 He Hrec. unfold ingest_advancing. cbv zeta.
      assert (Hp : ev_policy e0 = ev_policy e ∧ ev_current_subject_incarnation e0 = ev_current_subject_incarnation e
        ∧ ev_retired_subject_incarnations e0 = ev_retired_subject_incarnations e)
        by (unfold stream_core in He; split_and!; congruence).
      destruct Hp as (Hp & Hcur & Hrs). unfold effective_validity in *. rewrite Hp, Hcur, Hrs.
      destruct (Z.leb_spec (Z.min (pf_validity_ms (rp_frame r)) (rl_maximum_validity_ms (ev_policy e)))
        (default 0 (ra_transport_observed_delay_ms (rp_receiver r)))).
      - destruct Hor as [Heq|?]; [|lia]. rewrite decide_True by done.
        transitivity (stream_core (update_lineage e0 (rp_frame r) (ra_disposition (rp_receiver r)))); [done|].
        by apply update_lineage_stream_core.
      - destruct (decide (_ = ev_current_subject_incarnation e)).
        + rewrite admit_stream_core. by apply update_lineage_stream_core.
        + rewrite decide_False by done. rewrite admit_stream_core. by apply update_lineage_stream_core. }
    unfold ingest_consistent. unfold advancing in Hadv.
    destruct (ra_disposition (rp_receiver r)); try (by destruct Hadv as [?|[?|[?|?]]]);
      apply Hgo; try done; rewrite !record_subject_stream_core; done.
  - unfold ingest_consistent, advancing. intros Hna.
    destruct (ra_disposition (rp_receiver r)); try done; exfalso; tauto.
Qed.

Lemma note_subject_facts t f :
  let t1 := note_subject_incarnation t f in
  rt_subject_incarnations t1 !! pf_subject f = Some (pf_subject_incarnation f) ∧
  rt_retired_subject_incarnations t1
  = match rt_subject_incarnations t !! pf_subject f with
    | Some prior => if decide (prior = pf_subject_incarnation f) then rt_retired_subject_incarnations t
                    else {[(pf_subject f, prior)]} ∪ rt_retired_subject_incarnations t
    | None => rt_retired_subject_incarnations t
    end ∧
  rt_receiver t1 = rt_receiver t ∧ rt_receiver_incarnation t1 = rt_receiver_incarnation t ∧
  rt_clock_id t1 = rt_clock_id t.
Proof.
  unfold note_subject_incarnation. destruct (rt_subject_incarnations t !! pf_subject f) as [p|] eqn:Hp.
  - destruct (decide _) as [->|]; cbn; [done|]. by rewrite lookup_insert_eq.
  - cbn. by rewrite lookup_insert_eq.
Qed.

(** Noting the incarnation both sides hold changes nothing visible. *)
Lemma lockstep_note t e f :
  lockstep t e → of_policy e f → pf_subject_incarnation f = ev_current_subject_incarnation e →
  lockstep (note_subject_incarnation t f) e.
Proof.
  intros [Hr Hi Hc Hst Hret Hsub Hcur] (Hs & _ & _) Hinc.
  destruct (note_subject_facts t f) as (Hn & Hnr & Hn1 & Hn2 & Hn3).
  destruct (note_subject_streams t f) as [Hns Hnret]. rewrite Hs in *.
  constructor; rewrite ?Hn1, ?Hn2, ?Hn3, ?Hns, ?Hnret; try done.
  - intros i. rewrite Hnr. destruct Hcur as [-> | ->]; [apply Hsub|].
    rewrite decide_True by done. apply Hsub.
  - right. congruence.
Qed.

(** The evaluator's bookkeeping before [ingest] looks at the disposition. *)
Definition stamped (e : Evaluator) (r : ReceivedPulseV1) (now : Z) : Evaluator :=
  let e1 := set_ev_metrics e
              (set_em_pulse_to_evaluation_latency_ms (ev_metrics e)
                 (sat_sub now (ra_arrival_monotonic_ms (rp_receiver r)))) in
  set_ev_last_receiver_arrival_ms e1
    (Some (match ev_last_receiver_arrival_ms e1 with
           | Some prior => Z.max prior (ra_arrival_monotonic_ms (rp_receiver r))
           | None => ra_arrival_monotonic_ms (rp_receiver r)
           end)).

Lemma ingest_state_consistent e r now :
  (∀ prior, ev_last_receiver_arrival_ms e = Some prior → prior <= ra_arrival_monotonic_ms (rp_receiver r)) →
  classify_arrival e (rp_frame r) (rp_receiver r)
  = (ra_disposition (rp_receiver r), ra_sequence_gap (rp_receiver r)) →
  ingest_state e r now = ingest_consistent (stamped e r now) r now.
Proof.
  intros Hmono Hc. unfold ingest_state. cbv zeta.
  match goal with |- context [if ?b then go_blind _ _ _ else _] => assert (b = false) as -> end.
  { cbn. destruct (ev_last_receiver_arrival_ms e) as [prior|]; [|done]. specialize (Hmono prior eq_refl). lia. }
  change (classify_arrival (set_ev_last_receiver_arrival_ms _ _) (rp_frame r) (rp_receiver r))
    with (classify_arrival e (rp_frame r) (rp_receiver r)).
  rewrite Hc, decide_True by done. reflexivity.
Qed.

Lemma lockstep_binding t e f a arrival path delay auth d g :
  lockstep t e → of_policy e f → a = tracker_annotation t arrival path delay auth d g →
  validate_binding e (mkReceived f a) = Ok tt.
Proof.
  intros [Hr Hi Hc _ _ _ _] (Hs & Hp & Hg) ->. unfold validate_binding. cbn.
  by rewrite Hr, Hi, Hc, Hs, Hp, Hg, !bool_decide_eq_true_2.
Qed.

(** Assemble the relation after an advance from its stream and subject parts. *)
Lemma lockstep_rebuild t' e eX f d :
  (ev_policy eX, ev_receiver eX, ev_receiver_incarnation eX, ev_clock_id eX,
   ev_observer_lineages eX, ev_retired_observer_incarnations eX)
  = (ev_policy e, ev_receiver e, ev_receiver_incarnation e, ev_clock_id e,
     ev_observer_lineages e, ev_retired_observer_incarnations e) →
  rt_receiver t' = ev_receiver e → rt_receiver_incarnation t' = ev_receiver_incarnation e →
  rt_clock_id t' = ev_clock_id e →
  (∀ o, lineage_of <$> rt_streams t' !! policy_key e o = ev_observer_lineages (update_lineage e f d) !! o) →
  (∀ o i, (policy_key e o, i) ∈ rt_retired t'
          ↔ (o, i) ∈ ev_retired_observer_incarnations (update_lineage e f d)) →
  (∀ i, (rl_subject (ev_policy e), i) ∈ rt_retired_subject_incarnations t'
        ↔ i ∈ ev_retired_subject_incarnations eX) →
  rt_subject_incarnations t' !! rl_subject (ev_policy e) = Some (ev_current_subject_incarnation eX) →
  lockstep t' (update_lineage eX f d).
Proof.
  intros Heq Hr Hi Hc Hst Hret Hsub Hcur.
  pose proof (update_lineage_binding eX f d) as Hb.
  assert (Hp : ev_policy (update_lineage eX f d) = ev_policy e) by (rewrite update_lineage_policy; congruence).
  assert (Hk : ∀ o, policy_key (update_lineage eX f d) o = policy_key e o)
    by (intros o; unfold policy_key; by rewrite Hp).
  rewrite update_lineage_lineages, update_lineage_retired in *.
  constructor; try congruence.
  - intros o. rewrite Hk, Hst, update_lineage_lineages. congruence.
  - intros o i. rewrite Hk, Hret, update_lineage_retired.
    replace (ev_observer_lineages eX) with (ev_observer_lineages e) by congruence.
    by replace (ev_retired_observer_incarnations eX) with (ev_retired_observer_incarnations e) by congruence.
  - intros i. rewrite Hp, Hsub.
    by replace (ev_retired_subject_incarnations (update_lineage eX f d))
      with (ev_retired_subject_incarnations eX) by congruence.
  - right. rewrite Hp, Hcur. congruence.
Qed.

(** The relation after both sides moved on one frame. *)
Lemma lockstep_move t e d t' a :
  lockstep t e → steady t e d → annotated t d = (t', Ok a) →
  lockstep t' (ingest_consistent (stamped e (mkReceived (dl_frame d) a) (dl_now d))
                 (mkReceived (dl_frame d) a) (dl_now d)).
Proof.
  intros Hls Hsd Hann. set (r := mkReceived (dl_frame d) a). set (e2 := stamped e r (dl_now d)).
  pose proof (sd_policy _ _ _ Hsd) as Hpol. pose proof (annotate_shape _ _ _ _ _ _ _ _ Hann) as (_ & d0 & g0 & Ha & _).
  assert (Hdelay : ra_transport_observed_delay_ms a = dl_delay d) by (by rewrite Ha).
  assert (Hls2 : lockstep t e2) by by apply (lockstep_ext t e).
  destruct (ingest_consistent_stream_core e2 r (dl_now d)) as [Hadv Hdrop].
  cbn [rp_frame rp_receiver r] in Hadv, Hdrop. rewrite Hdelay in Hadv.
  destruct (annotate_moves _ _ _ _ _ _ _ _ Hann) as [[-> Hor]|(Hnd & Hnr & g & Hcs)].
  { apply (lockstep_ext t e2); [|done]. apply Hdrop. unfold advancing.
    destruct Hor as [[_ ->]|[_ ->]]; naive_solver. }
  rewrite (proj1 Hpol) in Hnr. rewrite (ls_subjects _ _ Hls) in Hnr.
  destruct (note_subject_facts t (dl_frame d)) as (Hn & Hnret & Hn1 & Hn2 & Hn3).
  destruct (note_subject_streams t (dl_frame d)) as [Hns Hnrt]. rewrite (proj1 Hpol) in Hn, Hnret.
  destruct (classify_stream_moves _ _ _ _ _ Hcs) as [(Had & Hs & Hr & Hsub & Hrs & Hi1 & Hi2 & Hi3)|[-> Hdr]].
  2:{ assert (Hinc : pf_subject_incarnation (dl_frame d) = ev_current_subject_incarnation e).
      { destruct (sd_incarnation _ _ _ Hsd) as [?|[?|[?|(_ & _ & Hno)]]]; try done; [congruence|].
        specialize (Hno _ _ Hann). unfold advancing in Hno. destruct Hdr as [Hd|Hd]; rewrite Hd in Hno; naive_solver. }
      apply (lockstep_ext _ e2); [|by apply lockstep_note]. apply Hdrop. unfold advancing.
      destruct Hdr as [-> | ->]; naive_solver. }
  assert (Hst : stream_core (ingest_consistent e2 r (dl_now d)) = stream_core (update_lineage
     (if decide (pf_subject_incarnation (dl_frame d) = ev_current_subject_incarnation e) then e2
      else record_subject_incarnation_change e2 r (dl_now d)) (dl_frame d) (ra_disposition a))).
  { apply Hadv; [done|done|].
    destruct (sd_incarnation _ _ _ Hsd) as [?|[?|[?|(_ & Hv & _)]]]; [by left|congruence|done|by right]. }
  apply (lockstep_ext t' _ _ Hst). rewrite Hns in Hs. rewrite Hns, Hnrt in Hr.
  destruct (lockstep_advance t e2 (dl_frame d) t' (ra_disposition a) Hls2 Hpol Had Hs Hr) as [Hst' Hret'].
  pose proof (ls_receiver _ _ Hls) as Hl1. pose proof (ls_receiver_incarnation _ _ Hls) as Hl2.
  pose proof (ls_clock _ _ Hls) as Hl3. pose proof (ls_subjects _ _ Hls) as Hl4.
  pose proof (ls_current _ _ Hls) as Hl5.
  destruct (decide (pf_subject_incarnation (dl_frame d) = ev_current_subject_incarnation e)) as [Heq|Hne].
  - apply (lockstep_rebuild t' e2 e2); try assumption; try reflexivity;
      change (ev_receiver e2) with (ev_receiver e); change (ev_receiver_incarnation e2) with (ev_receiver_incarnation e);
      change (ev_clock_id e2) with (ev_clock_id e); change (ev_policy e2) with (ev_policy e); try congruence.
    + intros i. rewrite Hrs, Hnret. destruct Hl5 as [-> | ->]; [apply Hl4|].
      rewrite decide_True by done. apply Hl4.
    + rewrite Hsub, Hn. by rewrite Heq.
  - pose proof (record_subject_stream_core e2 r (dl_now d)) as Hrec. unfold stream_core in Hrec.
    change (ev_current_subject_incarnation e2) with (ev_current_subject_incarnation e) in Hrec.
    change (ev_retired_subject_incarnations e2) with (ev_retired_subject_incarnations e) in Hrec.
    set (eX := record_subject_incarnation_change e2 r (dl_now d)) in *.
    assert (Hknown : rt_subject_incarnations t !! rl_subject (ev_policy e) = Some (ev_current_subject_incarnation e)).
    { destruct (sd_incarnation _ _ _ Hsd) as [?|[?|[?|([i Hi] & _ & _)]]]; [done|congruence|done|].
      destruct Hl5; congruence. }
    apply (lockstep_rebuild t' e2 eX); try assumption;
      change (ev_receiver e2) with (ev_receiver e) in *; change (ev_receiver_incarnation e2) with (ev_receiver_incarnation e) in *;
      change (ev_clock_id e2) with (ev_clock_id e) in *; change (ev_policy e2) with (ev_policy e) in *; try congruence.
    + intros i. rewrite Hrs, Hnret, Hknown, decide_False by congruence.
      replace (ev_retired_subject_incarnations eX)
        with ({[ev_current_subject_incarnation e]} ∪ ev_retired_subject_incarnations e) by congruence.
      rewrite !elem_of_union, !elem_of_singleton, Hl4. split; intros [?|?]; auto; left; congruence.
    + rewrite Hsub, Hn. f_equal. unfold r in Hrec. cbn [rp_frame] in Hrec. congruence.
Qed.

Lemma annotate_identities t f arrival path delay auth :
  let t' := (annotate t f arrival path delay auth).1 in
  rt_receiver t' = rt_receiver t ∧ rt_receiver_incarnation t' = rt_receiver_incarnation t
  ∧ rt_clock_id t' = rt_clock_id t.
Proof.
  cbv zeta. unfold annotate. destruct (frame_validate f); [|done].
  destruct (delay_reaches _ _); [done|]. destruct (decide _); [done|].
  destruct (note_subject_facts t f) as (_ & _ & H1 & H2 & H3).
  destruct (classify_stream _ f) as [t1 [d g]] eqn:Hcs. cbn [fst].
  destruct (classify_stream_moves _ _ _ _ _ Hcs) as [(_ & _ & _ & _ & _ & -> & -> & ->)|[-> _]]; done.
Qed.

Lemma lockstep_step t e d :
  lockstep t e → tracker_ok t → steady t e d →
  lockstep (deliver (t, e) d).1 (deliver (t, e) d).2 ∧ tracker_ok (deliver (t, e) d).1 ∧
  ev_monitor_capability (deliver (t, e) d).2 = ev_monitor_capability e.
Proof.
  intros Hls Hok Hsd. unfold deliver. cbn [fst snd].
  pose proof (annotate_identities t (dl_frame d) (dl_arrival d) (dl_path d) (dl_delay d) (dl_authentication d))
    as (Hi1 & Hi2 & Hi3). fold (annotated t d) in Hi1, Hi2, Hi3.
  destruct (annotated t d) as [t' [a|err]] eqn:Hann; cbn [fst snd] in *.
  2:{ assert (t' = t) as ->; [|done]. revert Hann. unfold annotated, annotate.
      destruct (frame_validate _); [|by intros [=]]. destruct (delay_reaches _ _); [by intros [=]|].
      destruct (decide _); [by intros [=]|]. by destruct (classify_stream _ _) as [? []]. }
  assert (Hok' : tracker_ok t') by (unfold tracker_ok; by rewrite Hi1, Hi2, Hi3).
  set (r := mkReceived (dl_frame d) a).
  destruct (annotate_shape _ _ _ _ _ _ _ _ Hann) as (Hf & d0 & g0 & Ha & _).
  assert (Hv : received_validate r = Ok tt).
  { unfold received_validate. cbn [rp_frame rp_receiver r]. rewrite Hf.
    apply (annotate_validates _ _ _ _ _ _ _ _ Hok (sd_path _ _ _ Hsd) (sd_authentication _ _ _ Hsd) Hann). }
  pose proof (lockstep_binding _ _ _ _ _ _ _ _ _ _ Hls (sd_policy _ _ _ Hsd) Ha) as Hb. fold r in Hb.
  pose proof (lockstep_classify _ _ _ _ _ _ _ _ _ Hls (sd_policy _ _ _ Hsd) Hann) as Hc.
  pose proof (lockstep_move _ _ _ _ _ Hls Hsd Hann) as Hmove.
  assert (Harr : ra_arrival_monotonic_ms a = dl_arrival d) by (by rewrite Ha).
  unfold ingest. rewrite Hv, Hb. cbn [rp_receiver r]. rewrite Harr.
  rewrite (proj2 (Z.ltb_ge _ _) (sd_arrival _ _ _ Hsd)).
  assert (Hst : ingest_state e r (dl_now d) = ingest_consistent (stamped e r (dl_now d)) r (dl_now d)).
  { apply ingest_state_consistent; [|exact Hc]. cbn [rp_receiver r]. rewrite Harr. apply (sd_monotone _ _ _ Hsd). }
  pose proof (ingest_state_session e r (dl_now d)) as Hsess. rewrite Hst in *.
  set (e3 := ingest_consistent _ r (dl_now d)) in *. unfold ok_evaluate_since, evaluate_since.
  assert (Hreg : regressed e3 (dl_now d) = false).
  { rewrite <-(sd_evaluation _ _ _ Hsd). unfold regressed.
    unfold session_core in Hsess. by replace (ev_last_evaluation_ms e3) with (ev_last_evaluation_ms e) by congruence. }
  pose proof (evaluate_stream_core e3 (dl_now d)) as Hsc. pose proof (evaluate_capability e3 (dl_now d) Hreg) as Hcap.
  destruct (evaluate e3 (dl_now d)) as [e4 o4]. cbn [fst snd] in *.
  split; [by apply (lockstep_ext t' e3)|]. split; [done|].
  rewrite Hcap. unfold e3. rewrite ingest_consistent_capability. reflexivity.
Qed.

(** A run of deliveries, each steady in the state it meets. *)
Fixpoint steady_run (s : ReceiverTracker * Evaluator) (ds : list Delivery) : Prop :=
  match ds with
  | [] => True
  | d :: rest => steady s.1 s.2 d ∧ steady_run (deliver s d) rest
  end.

(** C15. The receiver and the evaluator stay in step: starting from states
    that agree on the streams of the evaluator's policy, after any number of
    deliveries that are steady when they happen, they still agree, so every
    annotation was the one the evaluator computed itself and the monitor is
    no blinder than before. *)
Theorem tracker_evaluator_lockstep t e ds :
  lockstep t e → tracker_ok t → steady_run (t, e) ds →
  let s := fold_left deliver ds (t, e) in
  lockstep s.1 s.2 ∧ ev_monitor_capability s.2 = ev_monitor_capability e.
Proof.
  revert t e. induction ds as [|d ds IH]; intros t e Hls Hok Hrun; [done|].
  destruct Hrun as [Hsd Hrun]. cbn [fst snd] in Hsd.
  destruct (lockstep_step t e d Hls Hok Hsd) as (Hls' & Hok' & Hcap). cbn [fold_left].
  destruct (deliver (t, e) d) as [t' e']. cbn [fst snd] in *.
  destruct (IH t' e' Hls' Hok' Hrun) as [H1 H2]. split; [exact H1|]. by rewrite H2.
Qed.

(** A new tracker and a new evaluator agree. *)
Lemma lockstep_new p rc rci ck inc e :
  evaluator_new p rc rci ck inc = Ok e → lockstep (tracker_new rc rci ck) e.
Proof.
  intros Hn. unfold evaluator_new in Hn. inv_oks. injection Hn as <-.
  constructor; cbn; try done; try (intros; set_solver); by left.
Qed.

End lockstep.

(* ------------------------------------------------------------------ *)
(** ** Runs that leave the conditions *)

(** A sample frame of a given subject incarnation and sequence number. *)
Definition frame_of_boot (boot observer : string) (sequence : Z) : PulseFrameV1 :=
  let f := sample_frame_for observer sequence WithinDeclaredBound in
  seal {|
    pf_schema_version := pf_schema_version f;
    pf_subject := pf_subject f;
    pf_subject_incarnation := boot;
    pf_observer := observer;
    pf_observer_incarnation := pf_observer_incarnation f;
    pf_sequence := sequence;
    pf_observer_monotonic_ns := pf_observer_monotonic_ns f;
    pf_validity_ms := pf_validity_ms f;
    pf_profile := pf_profile f;
    pf_observation_policy_generation := pf_observation_policy_generation f;
    pf_coverage := pf_coverage f;
    pf_signals := pf_signals f;
    pf_observation_digest := "";
    pf_authentication := pf_authentication f |}.

Definition delivery_at (f : PulseFrameV1) (delay : option Z) (at_ms : Z) : Delivery :=
  mkDelivery f at_ms "local" delay NotChecked at_ms.

Definition sample_tracker : ReceiverTracker := tracker_new "receiver:a" "receiver-process:1" "clock:1".

Definition deliver_all (ds : list Delivery) : ReceiverTracker * Evaluator :=
  fold_left deliver ds (sample_tracker, sample_evaluator).

Definition capability_name (s : ReceiverTracker * Evaluator) : string :=
  monitor_state_name (ev_monitor_capability s.2).

(** A pulse of a new subject incarnation, too late for the policy (600 of the
    500 ms it allows) but not for its own validity (1000 ms); then the old
    incarnation again. *)
Definition late_new_boot : list Delivery :=
  [ delivery_at (frame_of_boot "boot:1" "observer:a" 1) None 10;
    delivery_at (frame_of_boot "boot:2" "observer:b" 1) (Some 600) 20;
    delivery_at (frame_of_boot "boot:1" "observer:a" 2) None 30 ].

(** A repeated sequence number under a new subject incarnation. *)
Definition repeated_new_boot : list Delivery :=
  [ delivery_at (frame_of_boot "boot:1" "observer:a" 1) None 10;
    delivery_at (frame_of_boot "boot:2" "observer:a" 1) None 20;
    delivery_at (frame_of_boot "boot:1" "observer:a" 2) None 30 ].

(** The first pulse ever is of another incarnation than the configured one. *)
Definition unexpected_first_boot : list Delivery :=
  [ delivery_at (frame_of_boot "boot:2" "observer:a" 1) None 10;
    delivery_at (frame_of_boot "boot:1" "observer:b" 1) None 20 ].

(** Outside those conditions the two sides drift apart and the evaluator
    blames the receiver: an operational monitor is blinded by honest
    annotations when (1) a pulse of a new subject incarnation is too late for
    the consumer's policy, (2) a repeated sequence number carries a new subject
    incarnation, or (3) the first pulse received is of another incarnation than
    the configured one, as soon as the old incarnation is heard again. *)
Theorem lockstep_divergences :
  (capability_name (deliver_all (take 2 late_new_boot)) = "operational" ∧
   capability_name (deliver_all late_new_boot) = "blind") ∧
  (capability_name (deliver_all (take 2 repeated_new_boot)) = "operational" ∧
   capability_name (deliver_all repeated_new_boot) = "blind") ∧
  (capability_name (deliver_all (take 1 unexpected_first_boot)) = "operational" ∧
   capability_name (deliver_all unexpected_first_boot) = "blind").
Proof. vm_compute. repeat split. Qed.

Lemma sample_tracker_ok : tracker_ok sample_tracker.
Proof. repeat split; vm_compute; reflexivity. Qed.

(** The stream of the samples with two pulses lost. *)
Definition tracker_after_first : ReceiverTracker :=
  (annotate sample_tracker sample_frame 10 "local" None NotChecked).1.

Definition gap_frame : PulseFrameV1 := sample_frame_for "observer:a" 10 WithinDeclaredBound.

Definition annotation_of (o : ReceiverTracker * result PulseError ReceiverAnnotationV1)
  : option ReceiverAnnotationV1 :=
  match o.2 with Ok a => Some a | Err _ => None end.

Lemma annotation_of_Some o a : annotation_of o = Some a → o = (o.1, Ok a).
Proof. destruct o as [t [x|]]; cbn; congruence. Qed.


Lemma activate_succeeds t subject i :
  is_ok (identity_field "subject" "SubjectId" subject;;
         identity_field "subject_incarnation" "IncarnationId" i) = true →
  activate_subject_incarnation t subject i = ((activate_subject_incarnation t subject i).1, Ok tt).
Proof. unfold activate_subject_incarnation. by destruct (_ ≫= _). Qed.

Definition reactivated_tracker : ReceiverTracker :=
  (activate_subject_incarnation tracker_after_first "host:a" "boot:1").1.

Lemma reactivation_retires_itself_witness :
  annotate reactivated_tracker gap_frame 20 "local" None NotChecked
  = (reactivated_tracker,
     Ok (tracker_annotation reactivated_tracker 20 "local" None NotChecked Replay None)).
Proof.
  assert (Hs : rt_subject_incarnations tracker_after_first !! "host:a" = Some "boot:1")
    by (vm_compute; reflexivity).
  assert (Hact : activate_subject_incarnation tracker_after_first "host:a" "boot:1"
                 = (reactivated_tracker, Ok tt))
    by (apply activate_succeeds; vm_compute; reflexivity).
  assert (Hv : frame_validate gap_frame = Ok tt) by (vm_compute; reflexivity).
  assert (Hf : pf_subject gap_frame = "host:a") by (vm_compute; reflexivity).
  assert (Hi : pf_subject_incarnation gap_frame = "boot:1") by (vm_compute; reflexivity).
  assert (Hd : delay_reaches None (pf_validity_ms gap_frame) = false) by (vm_compute; reflexivity).
  exact (reactivation_retires_itself _ _ _ _ _ 20 "local" None NotChecked Hs Hact Hv Hf Hi Hd).
Defined.

(** Two consecutive pulses, the second at an admissible delay. *)
Definition plain_run : list Delivery :=
  [ delivery_at (frame_of_boot "boot:1" "observer:a" 1) None 10;
    delivery_at (frame_of_boot "boot:1" "observer:a" 2) (Some 5) 30 ].

Lemma sample_lockstep : lockstep sample_tracker sample_evaluator.
Proof.
  apply (lockstep_new sample_policy "receiver:a" "receiver-process:1" "clock:1" "boot:1").
  vm_compute. reflexivity.
Qed.

(** A delivery that meets the current incarnation and later times is steady. *)
Lemma steady_plain t e f delay at_ms last :
  of_policy e f → ev_last_receiver_arrival_ms e = last → ev_last_evaluation_ms e = last →
  match last with Some prior => prior <= at_ms | None => True end →
  pf_subject_incarnation f = ev_current_subject_incarnation e →
  steady t e (delivery_at f delay at_ms).
Proof.
  intros Hp Ha He Hle Hi. constructor; cbn [delivery_at dl_frame dl_arrival dl_path dl_now dl_authentication].
  - exact Hp.
  - vm_compute. reflexivity.
  - reflexivity.
  - lia.
  - intros prior Hprior. rewrite Ha in Hprior. by rewrite Hprior in Hle.
  - unfold regressed. rewrite He. destruct last; [lia|done].
  - by left.
Qed.

Lemma tracker_evaluator_lockstep_witness :
  let s := fold_left deliver plain_run (sample_tracker, sample_evaluator) in
  lockstep s.1 s.2 ∧ ev_monitor_capability s.2 = ev_monitor_capability sample_evaluator.
Proof.
  apply tracker_evaluator_lockstep; [exact sample_lockstep|exact sample_tracker_ok|].
  split; [|split; [|exact I]].
  - apply (steady_plain _ _ _ _ _ None); try (vm_compute; repeat split).
  - apply (steady_plain _ _ _ _ _ (Some 10)); vm_compute; repeat split; discriminate.
Defined.
