(* ===== verification/Boundary.v ===== *)
(** * Boundary behaviour

    Support at the end of the clock's range, and what a policy replacement
    does to evidence admitted under the previous policy. *)

From S2P Require Import Prelude Ids Digest Pulse Samples Judgment Escalation Event Policy.
From S2P Require Import EvaluatorState Derive Explain Evaluator EvalSamples.
From S2P Require Import DeriveProps Frame Expiry Commands Ingestion Invariant Support Standing.

Section boundary.
Context `{Sha256}.

(** A CURRENT judgment published without a deadline does not expire: it is
    published when the support lasts until [u64::MAX], the value an expiry
    saturates at, and then every later tick before [u64::MAX] is CURRENT. *)
Theorem current_without_deadline e now ts t :
  policy_validate (ev_policy e) = Ok tt → is_u32 (rl_minimum_observers (ev_policy e)) = true →
  pj_category (judged e now) = CatCurrent →
  pj_positive_support_expires_at_monotonic_ms (judged e now) = None →
  Sorted Z.le (now :: ts ++ [t]) → t < u64_max →
  ∃ e' out, tick (run_ticks (evaluate e now).1 ts) t = (e', Ok out) ∧
    pj_category (eo_judgment out) = CatCurrent.
Proof.
  intros Hv Hu Hcat Hdl Hsorted Hmax. pose proof (policy_validate_ok _ Hu Hv) as Hok.
  destruct (judged_current_plain e now Hcat) as [Hb Hr].
  destruct (judged_plain e now Hb Hr) as [Hc Hd]. rewrite clamped_ge in Hc, Hd by done.
  rewrite Hc in Hcat. rewrite Hd in Hdl. clear Hc Hd.
  destruct (run_ticks_frame e (evaluate e now).1 now ts t) as (Hs & Hb' & Hr' & Hle); auto.
  { by apply evaluate_same_support. }
  { apply evaluate_barrier. }
  { rewrite evaluate_last. by rewrite clamped_ge. }
  set (e' := run_ticks _ ts) in *. rewrite tick_evaluate. do 2 eexists. split; [reflexivity|].
  fold (judged e' t). destruct (judged_plain e' t Hb' Hr') as [-> _].
  rewrite (clamped_ge e' t Hr'), <-Hs. apply derive_current_iff; [done|].
  pose proof Hcat as Hcur. apply derive_current_iff in Hcur; [|done].
  apply (current_at_later e now); [done|done|]. rewrite (eligible_fresh_later e now t Hle).
  assert (Hn : support_deadline (ev_policy e) (eligible_fresh e now) = None).
  { unfold derive in Hdl. cbn in Hdl. rewrite decide_True in Hdl; done. }
  apply (support_deadline_None _ _ now); try done; try apply Hok.
  - apply (ca_covered _ _ Hcur).
  - intros x Hx. apply eligible_fresh_sub in Hx. unfold fresh_evidence in Hx.
    by apply list_elem_of_filter in Hx as [? _].
Qed.

Lemma replace_policy_state_observers e p b :
  let same := rl_observation_profile p = rl_observation_profile (ev_policy e) ∧
              rl_observation_policy_generation p = rl_observation_policy_generation (ev_policy e) in
  ev_observers (replace_policy_state e p b) = (if decide same then ev_observers e else ∅) ∧
  ev_observer_lineages (replace_policy_state e p b)
  = (if decide same then ev_observer_lineages e else ∅).
Proof. unfold replace_policy_state. cbv zeta. by destruct (decide _). Qed.

(** What a policy replacement does to the evidence: under the same
    observation profile and observation-policy generation every stored item is
    kept exactly as it was admitted, its expiry included; otherwise all of it
    is cleared, with the observer lineages.  The replaced policy is in force
    either way, and contradictions are kept. *)
Theorem policy_replacement_evidence e p b t e' out :
  run e (CmdReplacePolicy p b t) = (e', Ok (Some out)) →
  ev_policy e' = p ∧ ev_contradictions e' = ev_contradictions e ∧
  (rl_observation_profile p = rl_observation_profile (ev_policy e) ∧
   rl_observation_policy_generation p = rl_observation_policy_generation (ev_policy e) →
   ev_observers e' = ev_observers e ∧ ev_observer_lineages e' = ev_observer_lineages e) ∧
  (¬ (rl_observation_profile p = rl_observation_profile (ev_policy e) ∧
      rl_observation_policy_generation p = rl_observation_policy_generation (ev_policy e)) →
   ev_observers e' = ∅ ∧ ev_observer_lineages e' = ∅).
Proof.
  intros Hrun. destruct (run_published _ _ _ _ Hrun) as (e1 & t1 & Hp & -> & _ & _).
  cbn [prepare] in Hp. repeat case_in Hp; simplify_eq.
  pose proof (evaluate_core (replace_policy_state e p b) t1) as Hc. unfold evidence_core in Hc.
  assert (Hpre : ev_policy (replace_policy_state e p b) = p ∧
    ev_contradictions (replace_policy_state e p b) = ev_contradictions e)
    by (unfold replace_policy_state; cbv zeta; by destruct (decide _)).
  destruct Hpre as [Hp1 Hp2]. split; [congruence|]. split; [congruence|].
  destruct (replace_policy_state_observers e p b) as [Ho Hl].
  split; intros Hs; [rewrite decide_True in Ho by exact Hs; rewrite decide_True in Hl by exact Hs
                    |rewrite decide_False in Ho by exact Hs; rewrite decide_False in Hl by exact Hs];
    split; congruence.
Qed.

End boundary.

(** Admitted at 10 under a maximum validity of 500, judged at 450 under a
    maximum validity of 100. *)
Definition narrowed_evaluator : Evaluator :=
  (run current_evaluator (CmdReplacePolicy narrow_policy sample_barrier 400)).1.

(** Narrowing the maximum validity does not shorten support already
    admitted: there is a reachable state whose policy allows 100 ms, whose only
    evidence arrived 440 ms ago, and whose next evaluation is CURRENT. *)
Theorem narrowed_policy_still_current :
  reachable narrowed_evaluator ∧
  rl_maximum_validity_ms (ev_policy narrowed_evaluator) = 100 ∧
  Forall (λ x, ra_arrival_monotonic_ms (rp_receiver (oe_received x)) = 10)
    (bt_values (ev_observers narrowed_evaluator)) ∧
  pj_category (judged narrowed_evaluator 450) = CatCurrent.
Proof.
  split.
  { apply (reach_step current_evaluator); [exact current_evaluator_reachable|].
    apply step_run. vm_compute. reflexivity. }
  split; [vm_compute; reflexivity|]. split; [|vm_compute; reflexivity].
  assert (Hb : forallb (λ x, ra_arrival_monotonic_ms (rp_receiver (oe_received x)) =? 10)
                 (bt_values (ev_observers narrowed_evaluator)) = true) by (vm_compute; reflexivity).
  apply forallb_Forall in Hb. eapply Forall_impl; [exact Hb|]. intros x Hx. by apply Z.eqb_eq.
Qed.

(** The sample pulse arriving 100 ms before the end of the clock's range. *)
Definition last_arrival : Z := u64_max - 100.
Definition late_evaluator : Evaluator :=
  (run sample_evaluator (CmdIngest (sample_received last_arrival) last_arrival)).1.

Lemma current_without_deadline_witness :
  ∃ e' out, tick (run_ticks (evaluate late_evaluator last_arrival).1 []) (u64_max - 1) = (e', Ok out) ∧
    pj_category (eo_judgment out) = CatCurrent.
Proof.
  apply (current_without_deadline late_evaluator last_arrival [] (u64_max - 1)).
  - vm_compute. reflexivity.
  - vm_compute. reflexivity.
  - vm_compute. reflexivity.
  - vm_compute. reflexivity.
  - repeat constructor. unfold last_arrival. lia.
  - lia.
Defined.

Lemma policy_replacement_evidence_witness :
  ∃ out, published (run current_evaluator (CmdReplacePolicy narrow_policy sample_barrier 400)) = Some out ∧
    ev_policy narrowed_evaluator = narrow_policy.
Proof.
  destruct (has_value_true
              (published (run current_evaluator (CmdReplacePolicy narrow_policy sample_barrier 400))))
    as [out E]; [vm_compute; reflexivity|].
  exists out. split; [exact E|].
  exact (proj1 (policy_replacement_evidence _ _ _ _ _ _ (published_run _ _ _ E))).
Defined.
