(* ===== verification/RuntimeState.v ===== *)
(** * The runtime's state: [crates/pulse-runtime/src/lib.rs]

    Bounds, configuration, inputs and their processing order, the
    [ReceiverSchedulerRuntime] struct with one assignment per field, and the
    monad its fallible methods run in. *)

From S2P Require Import Prelude Ids Digest Pulse Judgment Context Qualification Package Activation.
From S2P Require Import CustodyTypes.
From S2P Require Import Escalation Certificate Event Policy Receiver EvaluatorState Evaluator.

(* ------------------------------------------------------------------ *)
(** ** Errors.  A method returns a [RuntimeError] or panics ([expect]). *)

Record RuntimeError := mkRuntimeError { re_code : string; re_detail : string }.

Inductive Failure :=
| Returned (error : RuntimeError)
| Panicked (message : string)
| OutOfFuel.

(** [RuntimeError::from_evaluator] and the conversions of [map_err]. *)
Definition from_evaluator (e : EvaluatorError) : RuntimeError :=
  mkRuntimeError (eve_code e) (eve_detail e).
Definition from_qualification (e : QualificationError) : RuntimeError :=
  mkRuntimeError (qe_code e) (qe_detail e).
Definition from_custody (e : CustodyTypeError) : RuntimeError :=
  mkRuntimeError (cte_code e) (cte_detail e).
Definition from_runtime_type (e : RuntimeTypeError) : RuntimeError :=
  mkRuntimeError (rte_code e) (rte_detail e).

(* ------------------------------------------------------------------ *)
(** ** Bounds and configuration *)

Record RuntimeBoundsV1 := mkRuntimeBounds {
  bd_maximum_subjects : Z;
  bd_maximum_consumers_per_subject : Z;
  bd_maximum_observers_per_subject : Z;
  bd_maximum_receiver_streams : Z;
  bd_maximum_incarnations_per_observer : Z;
  bd_maximum_subject_incarnations_per_subject : Z;
  bd_maximum_pending_inputs : Z;
  bd_maximum_scheduled_deadlines : Z;
  bd_maximum_context_activations_per_consumer : Z;
  bd_maximum_active_escalations : Z;
  bd_maximum_supporting_evidence_refs : Z;
  bd_maximum_sparse_events : Z;
  bd_maximum_diagnostic_receipts : Z;
}.

(** [RuntimeBoundsV1::qualification]. *)
Definition bounds_qualification : RuntimeBoundsV1 :=
  mkRuntimeBounds 4 4 8 32 8 8 32 16 32 16 16 2048 64.

Definition bounds_values (b : RuntimeBoundsV1) : list Z :=
  [ bd_maximum_subjects b; bd_maximum_consumers_per_subject b; bd_maximum_observers_per_subject b;
    bd_maximum_receiver_streams b; bd_maximum_incarnations_per_observer b;
    bd_maximum_subject_incarnations_per_subject b; bd_maximum_pending_inputs b;
    bd_maximum_scheduled_deadlines b; bd_maximum_context_activations_per_consumer b;
    bd_maximum_active_escalations b; bd_maximum_supporting_evidence_refs b;
    bd_maximum_sparse_events b; bd_maximum_diagnostic_receipts b ].

(** [RuntimeBoundsV1::validate]. *)
Definition runtime_bounds_validate (b : RuntimeBoundsV1) : result RuntimeError unit :=
  ensure (negb (existsb (fun v => v =? 0) (bounds_values b)))
    (mkRuntimeError "invalid_bounds" "every runtime bound must be nonzero");;
  ensure (negb ((bd_maximum_supporting_evidence_refs b <? bd_maximum_observers_per_subject b)
                || (MAX_CERTIFICATE_EVIDENCE_REFS <? bd_maximum_supporting_evidence_refs b)))
    (mkRuntimeError "invalid_bounds"
       "certificate evidence bound must cover observer capacity and fit v1").

Record RuntimeConfigV1 := mkRuntimeConfig {
  cf_schema_version : Z;
  cf_receiver : ReceiverId;
  cf_receiver_incarnation : IncarnationId;
  cf_clock_id : ClockId;
  cf_transport_custody_policy : option TransportCustodyPolicyBindingV1;
  cf_bounds : RuntimeBoundsV1;
}.

Definition runtime_identity (kind value detail : string) : result RuntimeError unit :=
  map_err (fun _ => mkRuntimeError "invalid_identity" detail) (validate_identity kind value).

(** [RuntimeConfigV1::validate]. *)
Definition config_validate (c : RuntimeConfigV1) : result RuntimeError unit :=
  ensure (cf_schema_version c =? SCHEMA_VERSION_V1)
    (mkRuntimeError "unsupported_schema" "runtime config schema is unsupported");;
  runtime_identity "ReceiverId" (cf_receiver c) "invalid receiver identity";;
  runtime_identity "IncarnationId" (cf_receiver_incarnation c) "invalid receiver incarnation";;
  runtime_identity "ClockId" (cf_clock_id c) "invalid clock identity";;
  match cf_transport_custody_policy c with
  | Some binding => map_err from_custody (policy_binding_validate binding)
  | None => Ok tt
  end;;
  runtime_bounds_validate (cf_bounds c).

(* ------------------------------------------------------------------ *)
(** ** Inputs and their order *)

Record ConsumerRegistrationV1 := mkRegistration {
  rg_policy : ReliancePolicyV1;
  rg_context : RelianceContextV1;
  rg_subject_incarnation : IncarnationId;
}.

Record ConsumerActivationV1 := mkActivation {
  ca_policy : ReliancePolicyV1;
  ca_context : RelianceContextV1;
  ca_cause : GenerationTransitionCauseV1;
}.

Record PulseIngressV1 := mkIngress {
  pi_frame : PulseFrameV1;
  pi_transport_path : string;
  pi_transport_observed_delay_ms : option Z;
  pi_authentication : AuthenticationResultV1;
}.

(** [VerifiedRemoteObservationV1] of [custody.rs]. *)
Record VerifiedRemoteObservationV1 := mkRemote {
  vr_frame : PulseFrameV1;
  vr_custody : RemoteObservationCustodyReferenceV1;
  vr_receipt : ReceiverAcceptanceReceiptV1;
}.

Inductive RuntimeInputV1 :=
| ActivateConsumer (activation : ConsumerActivationV1)
| ReplaceSubjectIncarnation (subject : SubjectId) (replacement : IncarnationId)
    (activations : list ConsumerActivationV1)
| PulseInput (pulse : PulseIngressV1)
| RemotePulse (verified : VerifiedRemoteObservationV1)
| DispositionInput (disposition : EscalationDispositionV1)
| ReceiptInput (receipt : MockDiagnosticReceiptV1)
| Reevaluate (subject : SubjectId) (consumer : ConsumerId)
| RevalidateTransportActivation (subject : SubjectId) (consumer : ConsumerId)
    (expected_policy : TransportCustodyPolicyBindingV1)
| ReceiverBoundaryCondition (subject : option SubjectId) (finding : TransportCustodyFindingV1)
    (session_binding_digest : option DigestV1) (detail : string) (withdraw : bool)
| RestoreMonitorCapability (subject : option SubjectId) (detail : string).

(** [RuntimeInputV1::priority]. *)
Definition priority (i : RuntimeInputV1) : Z :=
  match i with
  | ActivateConsumer _ | ReplaceSubjectIncarnation _ _ _ | ReceiverBoundaryCondition _ _ _ _ _ => 0
  | PulseInput _ | RemotePulse _ => 2
  | RevalidateTransportActivation _ _ _ => 1
  | DispositionInput _ | ReceiptInput _ => 3
  | RestoreMonitorCapability _ _ => 4
  | Reevaluate _ _ => 5
  end.

(** [RuntimeInputV1::ordering_subject]. *)
Definition ordering_subject (i : RuntimeInputV1) : string :=
  match i with
  | ActivateConsumer activation => rl_subject (ca_policy activation)
  | ReplaceSubjectIncarnation subject _ _ | Reevaluate subject _
  | RevalidateTransportActivation subject _ _ => subject
  | PulseInput pulse => pf_subject (pi_frame pulse)
  | RemotePulse pulse => pf_subject (vr_frame pulse)
  | RestoreMonitorCapability (Some subject) _
  | ReceiverBoundaryCondition (Some subject) _ _ _ _ => subject
  | DispositionInput _ | ReceiptInput _ | ReceiverBoundaryCondition None _ _ _ _
  | RestoreMonitorCapability None _ => ""
  end.

(** [{:0width}] of an unsigned integer. *)
Definition dec_padded (width : Z) (z : Z) : string := zeros (width - slen (dec z)) +:+ dec z.

Definition pulse_discriminator (label : string) (f : PulseFrameV1) : string :=
  label +:+ pf_subject_incarnation f +:+ ":" +:+ pf_observer f +:+ ":"
  +:+ pf_observer_incarnation f +:+ ":" +:+ op_name (pf_profile f) +:+ ":"
  +:+ dec_padded 5 (op_version (pf_profile f)) +:+ ":" +:+ pf_observation_policy_generation f
  +:+ ":" +:+ dec_padded 20 (pf_sequence f) +:+ ":" +:+ pf_observation_digest f.

(** [RuntimeInputV1::ordering_discriminator]. *)
Definition ordering_discriminator (i : RuntimeInputV1) : string :=
  match i with
  | ActivateConsumer activation =>
      "activation:" +:+ rl_consumer (ca_policy activation) +:+ ":"
      +:+ cx_activation_id (ca_context activation)
  | ReplaceSubjectIncarnation _ replacement _ => "subject-replacement:" +:+ replacement
  | PulseInput pulse => pulse_discriminator "pulse:" (pi_frame pulse)
  | RemotePulse pulse => pulse_discriminator "remote-pulse:" (vr_frame pulse)
  | DispositionInput disposition => "disposition:" +:+ ed_request_id disposition
  | ReceiptInput receipt =>
      "receipt:" +:+ rc_request_id receipt +:+ ":" +:+ rc_receipt_id receipt
  | Reevaluate _ consumer => "reevaluate:" +:+ consumer
  | RevalidateTransportActivation _ consumer policy =>
      "transport-activation-revalidation:" +:+ consumer +:+ ":" +:+ tp_policy_generation policy
      +:+ ":" +:+ tp_policy_digest policy
  | ReceiverBoundaryCondition _ finding _ detail _ =>
      "receiver-boundary:" +:+ finding_debug finding +:+ ":" +:+ detail
  | RestoreMonitorCapability _ detail => "restore:" +:+ detail
  end.

Record PendingKey := mkPendingKey {
  pk_at_monotonic_ms : Z;
  pk_priority : Z;
  pk_subject : string;
  pk_discriminator : string;
  pk_ingress_ordinal : Z;
}.

Definition pending_compare (a b : PendingKey) : comparison :=
  lex (pk_at_monotonic_ms a ?= pk_at_monotonic_ms b)
    (lex (pk_priority a ?= pk_priority b)
       (lex (String.compare (pk_subject a) (pk_subject b))
          (lex (String.compare (pk_discriminator a) (pk_discriminator b))
             (pk_ingress_ordinal a ?= pk_ingress_ordinal b)))).

Record ScheduleKey := mkSchedule {
  sk_deadline_monotonic_ms : Z;
  sch_subject : SubjectId;
  sch_consumer : ConsumerId;
  sch_activation_id : ContextActivationId;
}.
#[global] Instance ScheduleKey_eq_dec : EqDecision ScheduleKey.
Proof. solve_decision. Defined.

Definition schedule_compare (a b : ScheduleKey) : comparison :=
  lex (sk_deadline_monotonic_ms a ?= sk_deadline_monotonic_ms b)
    (lex (String.compare (sch_subject a) (sch_subject b))
       (lex (String.compare (sch_consumer a) (sch_consumer b))
          (String.compare (sch_activation_id a) (sch_activation_id b)))).

(** [BTreeMap::insert] and [BTreeSet::insert] on the entries in key order:
    an equal key has its value replaced, an equal element stays. *)
Fixpoint btree_insert {K V} (compare : K → K → comparison) (k : K) (v : V) (m : list (K * V))
  : list (K * V) :=
  match m with
  | [] => [(k, v)]
  | (k', v') :: rest =>
      match compare k k' with
      | Lt => (k, v) :: m
      | Eq => (k', v) :: rest
      | Gt => (k', v') :: btree_insert compare k v rest
      end
  end.

Fixpoint btree_add {K} (compare : K → K → comparison) (k : K) (m : list K) : list K :=
  match m with
  | [] => [k]
  | k' :: rest =>
      match compare k k' with
      | Lt => k :: m
      | Eq => m
      | Gt => k' :: btree_add compare k rest
      end
  end.

(** [slice::sort_by_key], which is stable, for a string key; [dedup_by_key]
    keeps the first of adjacent equals. *)
Fixpoint insert_by_key {A} (key : A → string) (x : A) (xs : list A) : list A :=
  match xs with
  | [] => [x]
  | y :: rest =>
      match String.compare (key x) (key y) with
      | Gt => y :: insert_by_key key x rest
      | _ => x :: xs
      end
  end.
Definition sort_by_key {A} (key : A → string) (xs : list A) : list A :=
  foldr (insert_by_key key) [] xs.

Fixpoint dedup_by_key {A} (key : A → string) (xs : list A) : list A :=
  match xs with
  | [] => []
  | x :: rest =>
      x :: match dedup_by_key key rest with
           | y :: ys => if decide (key x = key y) then ys else y :: ys
           | [] => []
           end
  end.

(* ------------------------------------------------------------------ *)
(** ** Stored records *)

Record RuntimeCycleOutputV1 := mkCycle {
  cy_certificates : list RelianceSupportCertificateV1;
  cy_escalation_requests : list DiagnosticEscalationRequestV1;
  cy_refusals : list RuntimeRefusalV1;
  cy_sparse_events : list SparseDurableEventV1;
  cy_trace_lines : list string;
}.

(** [RuntimeCycleOutputV1::default] and [append]. *)
Definition cycle_default : RuntimeCycleOutputV1 := mkCycle [] [] [] [] [].
Definition cycle_append (a b : RuntimeCycleOutputV1) : RuntimeCycleOutputV1 :=
  mkCycle (cy_certificates a ++ cy_certificates b)
    (cy_escalation_requests a ++ cy_escalation_requests b) (cy_refusals a ++ cy_refusals b)
    (cy_sparse_events a ++ cy_sparse_events b) (cy_trace_lines a ++ cy_trace_lines b).

Record ConsumerKey := mkKey { ck_subject : SubjectId; ck_consumer : ConsumerId }.
#[global] Instance ConsumerKey_eq_dec : EqDecision ConsumerKey.
Proof. solve_decision. Defined.
#[global] Instance ConsumerKey_countable : Countable ConsumerKey.
Proof.
  apply (inj_countable' (fun k => (ck_subject k, ck_consumer k)) (fun '(a, b) => mkKey a b)).
  by intros [].
Defined.

Record ConsumerState := mkConsumer {
  co_evaluator : Evaluator;
  co_context : RelianceContextV1;
  co_seen_activations : gset string;
  co_certificate : option RelianceSupportCertificateV1;
}.

Definition set_co_evaluator (s : ConsumerState) (e : Evaluator) : ConsumerState :=
  mkConsumer e (co_context s) (co_seen_activations s) (co_certificate s).
Definition set_co_certificate (s : ConsumerState) (c : option RelianceSupportCertificateV1)
  : ConsumerState :=
  mkConsumer (co_evaluator s) (co_context s) (co_seen_activations s) c.

Record QualifiedBindingSlot := mkSlot {
  sl_state : RuntimeBindingStateV1;
  sl_receipt : ActivationReceiptV1;
  sl_acceptance : LocalActivationAcceptanceV1;
  sl_accepted : option VerifiedActivationV1;
}.

Record SubjectState := mkSubjectState {
  su_consumers : gset string;
  su_observers : gset string;
  su_subject_incarnations : gset string;
}.

(** [SubjectState::default]. *)
Definition subject_default : SubjectState := mkSubjectState ∅ ∅ ∅.

Record ReceiverStreamIdentity := mkStreamIdentity {
  si_subject : SubjectId;
  si_subject_incarnation : IncarnationId;
  si_observer : ObserverId;
  si_profile : ObservationProfileIdV1;
  si_observation_policy_generation : ObservationPolicyGenerationId;
}.
#[global] Instance ReceiverStreamIdentity_eq_dec : EqDecision ReceiverStreamIdentity.
Proof. solve_decision. Defined.
#[global] Instance ReceiverStreamIdentity_countable : Countable ReceiverStreamIdentity.
Proof.
  apply (inj_countable'
    (fun k => (si_subject k, si_subject_incarnation k, si_observer k, si_profile k,
               si_observation_policy_generation k))
    (fun '(a, b, c, d, e) => mkStreamIdentity a b c d e)).
  by intros [].
Defined.

(** The state.  The last field is not the source's: it numbers the questions
    asked of the operating system, whose answers may differ from one to the
    next. *)
Record Runtime := mkRuntime {
  rs_config : RuntimeConfigV1;
  rs_receiver : ReceiverTracker;
  rs_subjects : gmap string SubjectState;
  rs_consumers : gmap ConsumerKey ConsumerState;
  rs_qualified_bindings : gmap ConsumerKey QualifiedBindingSlot;
  rs_receiver_streams : gset ReceiverStreamIdentity;
  rs_observer_incarnations : gmap (string * string) (gset string);
  rs_remote_observation_custody : gmap (string * string) RemoteObservationCustodyReferenceV1;
  rs_pending : list (PendingKey * RuntimeInputV1);
  rs_schedules : list ScheduleKey;
  rs_request_owners : gmap string (ConsumerKey * Z);
  rs_sparse_history : list SparseDurableEventV1;
  rs_historical_contradictions : list ContradictionCustodyV1;
  rs_diagnostic_receipts : list MockDiagnosticReceiptV1;
  rs_historical_activation_ids : gset string;
  rs_historical_policy_bodies : gmap (string * string * string) string;
  rs_metrics : RuntimeMetricsV1;
  rs_current_monotonic_ms : Z;
  rs_ingress_counter : Z;
  rs_event_counter : Z;
  rs_refusal_counter : Z;
  rs_history_exhausted : bool;
  rs_history_exhaustion_reported : bool;
  rs_history_blindness_latched : bool;
  rs_pending_output : RuntimeCycleOutputV1;
  rs_process : Process;
}.

(** Assignments [self.field = value]. *)
Definition set_rs_config (r : Runtime) (value : RuntimeConfigV1) : Runtime :=
  mkRuntime value (rs_receiver r) (rs_subjects r) (rs_consumers r) (rs_qualified_bindings r)
    (rs_receiver_streams r) (rs_observer_incarnations r) (rs_remote_observation_custody r)
    (rs_pending r) (rs_schedules r) (rs_request_owners r) (rs_sparse_history r)
    (rs_historical_contradictions r) (rs_diagnostic_receipts r)
    (rs_historical_activation_ids r) (rs_historical_policy_bodies r) (rs_metrics r)
    (rs_current_monotonic_ms r) (rs_ingress_counter r) (rs_event_counter r)
    (rs_refusal_counter r) (rs_history_exhausted r) (rs_history_exhaustion_reported r)
    (rs_history_blindness_latched r) (rs_pending_output r) (rs_process r).
Definition set_rs_receiver (r : Runtime) (value : ReceiverTracker) : Runtime :=
  mkRuntime (rs_config r) value (rs_subjects r) (rs_consumers r) (rs_qualified_bindings r)
    (rs_receiver_streams r) (rs_observer_incarnations r) (rs_remote_observation_custody r)
    (rs_pending r) (rs_schedules r) (rs_request_owners r) (rs_sparse_history r)
    (rs_historical_contradictions r) (rs_diagnostic_receipts r)
    (rs_historical_activation_ids r) (rs_historical_policy_bodies r) (rs_metrics r)
    (rs_current_monotonic_ms r) (rs_ingress_counter r) (rs_event_counter r)
    (rs_refusal_counter r) (rs_history_exhausted r) (rs_history_exhaustion_reported r)
    (rs_history_blindness_latched r) (rs_pending_output r) (rs_process r).
Definition set_rs_subjects (r : Runtime) (value : gmap string SubjectState) : Runtime :=
  mkRuntime (rs_config r) (rs_receiver r) value (rs_consumers r) (rs_qualified_bindings r)
    (rs_receiver_streams r) (rs_observer_incarnations r) (rs_remote_observation_custody r)
    (rs_pending r) (rs_schedules r) (rs_request_owners r) (rs_sparse_history r)
    (rs_historical_contradictions r) (rs_diagnostic_receipts r)
    (rs_historical_activation_ids r) (rs_historical_policy_bodies r) (rs_metrics r)
    (rs_current_monotonic_ms r) (rs_ingress_counter r) (rs_event_counter r)
    (rs_refusal_counter r) (rs_history_exhausted r) (rs_history_exhaustion_reported r)
    (rs_history_blindness_latched r) (rs_pending_output r) (rs_process r).
Definition set_rs_consumers (r : Runtime) (value : gmap ConsumerKey ConsumerState) : Runtime :=
  mkRuntime (rs_config r) (rs_receiver r) (rs_subjects r) value (rs_qualified_bindings r)
    (rs_receiver_streams r) (rs_observer_incarnations r) (rs_remote_observation_custody r)
    (rs_pending r) (rs_schedules r) (rs_request_owners r) (rs_sparse_history r)
    (rs_historical_contradictions r) (rs_diagnostic_receipts r)
    (rs_historical_activation_ids r) (rs_historical_policy_bodies r) (rs_metrics r)
    (rs_current_monotonic_ms r) (rs_ingress_counter r) (rs_event_counter r)
    (rs_refusal_counter r) (rs_history_exhausted r) (rs_history_exhaustion_reported r)
    (rs_history_blindness_latched r) (rs_pending_output r) (rs_process r).
Definition set_rs_qualified_bindings (r : Runtime) (value : gmap ConsumerKey QualifiedBindingSlot) : Runtime :=
  mkRuntime (rs_config r) (rs_receiver r) (rs_subjects r) (rs_consumers r) value
    (rs_receiver_streams r) (rs_observer_incarnations r) (rs_remote_observation_custody r)
    (rs_pending r) (rs_schedules r) (rs_request_owners r) (rs_sparse_history r)
    (rs_historical_contradictions r) (rs_diagnostic_receipts r)
    (rs_historical_activation_ids r) (rs_historical_policy_bodies r) (rs_metrics r)
    (rs_current_monotonic_ms r) (rs_ingress_counter r) (rs_event_counter r)
    (rs_refusal_counter r) (rs_history_exhausted r) (rs_history_exhaustion_reported r)
    (rs_history_blindness_latched r) (rs_pending_output r) (rs_process r).
Definition set_rs_receiver_streams (r : Runtime) (value : gset ReceiverStreamIdentity) : Runtime :=
  mkRuntime (rs_config r) (rs_receiver r) (rs_subjects r) (rs_consumers r)
    (rs_qualified_bindings r) value (rs_observer_incarnations r)
    (rs_remote_observation_custody r) (rs_pending r) (rs_schedules r) (rs_request_owners r)
    (rs_sparse_history r) (rs_historical_contradictions r) (rs_diagnostic_receipts r)
    (rs_historical_activation_ids r) (rs_historical_policy_bodies r) (rs_metrics r)
    (rs_current_monotonic_ms r) (rs_ingress_counter r) (rs_event_counter r)
    (rs_refusal_counter r) (rs_history_exhausted r) (rs_history_exhaustion_reported r)
    (rs_history_blindness_latched r) (rs_pending_output r) (rs_process r).
Definition set_rs_observer_incarnations (r : Runtime) (value : gmap (string * string) (gset string)) : Runtime :=
  mkRuntime (rs_config r) (rs_receiver r) (rs_subjects r) (rs_consumers r)
    (rs_qualified_bindings r) (rs_receiver_streams r) value (rs_remote_observation_custody
    r) (rs_pending r) (rs_schedules r) (rs_request_owners r) (rs_sparse_history r)
    (rs_historical_contradictions r) (rs_diagnostic_receipts r)
    (rs_historical_activation_ids r) (rs_historical_policy_bodies r) (rs_metrics r)
    (rs_current_monotonic_ms r) (rs_ingress_counter r) (rs_event_counter r)
    (rs_refusal_counter r) (rs_history_exhausted r) (rs_history_exhaustion_reported r)
    (rs_history_blindness_latched r) (rs_pending_output r) (rs_process r).
Definition set_rs_remote_observation_custody (r : Runtime) (value : gmap (string * string) RemoteObservationCustodyReferenceV1) : Runtime :=
  mkRuntime (rs_config r) (rs_receiver r) (rs_subjects r) (rs_consumers r)
    (rs_qualified_bindings r) (rs_receiver_streams r) (rs_observer_incarnations r) value
    (rs_pending r) (rs_schedules r) (rs_request_owners r) (rs_sparse_history r)
    (rs_historical_contradictions r) (rs_diagnostic_receipts r)
    (rs_historical_activation_ids r) (rs_historical_policy_bodies r) (rs_metrics r)
    (rs_current_monotonic_ms r) (rs_ingress_counter r) (rs_event_counter r)
    (rs_refusal_counter r) (rs_history_exhausted r) (rs_history_exhaustion_reported r)
    (rs_history_blindness_latched r) (rs_pending_output r) (rs_process r).
Definition set_rs_pending (r : Runtime) (value : list (PendingKey * RuntimeInputV1)) : Runtime :=
  mkRuntime (rs_config r) (rs_receiver r) (rs_subjects r) (rs_consumers r)
    (rs_qualified_bindings r) (rs_receiver_streams r) (rs_observer_incarnations r)
    (rs_remote_observation_custody r) value (rs_schedules r) (rs_request_owners r)
    (rs_sparse_history r) (rs_historical_contradictions r) (rs_diagnostic_receipts r)
    (rs_historical_activation_ids r) (rs_historical_policy_bodies r) (rs_metrics r)
    (rs_current_monotonic_ms r) (rs_ingress_counter r) (rs_event_counter r)
    (rs_refusal_counter r) (rs_history_exhausted r) (rs_history_exhaustion_reported r)
    (rs_history_blindness_latched r) (rs_pending_output r) (rs_process r).
Definition set_rs_schedules (r : Runtime) (value : list ScheduleKey) : Runtime :=
  mkRuntime (rs_config r) (rs_receiver r) (rs_subjects r) (rs_consumers r)
    (rs_qualified_bindings r) (rs_receiver_streams r) (rs_observer_incarnations r)
    (rs_remote_observation_custody r) (rs_pending r) value (rs_request_owners r)
    (rs_sparse_history r) (rs_historical_contradictions r) (rs_diagnostic_receipts r)
    (rs_historical_activation_ids r) (rs_historical_policy_bodies r) (rs_metrics r)
    (rs_current_monotonic_ms r) (rs_ingress_counter r) (rs_event_counter r)
    (rs_refusal_counter r) (rs_history_exhausted r) (rs_history_exhaustion_reported r)
    (rs_history_blindness_latched r) (rs_pending_output r) (rs_process r).
Definition set_rs_request_owners (r : Runtime) (value : gmap string (ConsumerKey * Z)) : Runtime :=
  mkRuntime (rs_config r) (rs_receiver r) (rs_subjects r) (rs_consumers r)
    (rs_qualified_bindings r) (rs_receiver_streams r) (rs_observer_incarnations r)
    (rs_remote_observation_custody r) (rs_pending r) (rs_schedules r) value
    (rs_sparse_history r) (rs_historical_contradictions r) (rs_diagnostic_receipts r)
    (rs_historical_activation_ids r) (rs_historical_policy_bodies r) (rs_metrics r)
    (rs_current_monotonic_ms r) (rs_ingress_counter r) (rs_event_counter r)
    (rs_refusal_counter r) (rs_history_exhausted r) (rs_history_exhaustion_reported r)
    (rs_history_blindness_latched r) (rs_pending_output r) (rs_process r).
Definition set_rs_sparse_history (r : Runtime) (value : list SparseDurableEventV1) : Runtime :=
  mkRuntime (rs_config r) (rs_receiver r) (rs_subjects r) (rs_consumers r)
    (rs_qualified_bindings r) (rs_receiver_streams r) (rs_observer_incarnations r)
    (rs_remote_observation_custody r) (rs_pending r) (rs_schedules r) (rs_request_owners r)
    value (rs_historical_contradictions r) (rs_diagnostic_receipts r)
    (rs_historical_activation_ids r) (rs_historical_policy_bodies r) (rs_metrics r)
    (rs_current_monotonic_ms r) (rs_ingress_counter r) (rs_event_counter r)
    (rs_refusal_counter r) (rs_history_exhausted r) (rs_history_exhaustion_reported r)
    (rs_history_blindness_latched r) (rs_pending_output r) (rs_process r).
Definition set_rs_historical_contradictions (r : Runtime) (value : list ContradictionCustodyV1) : Runtime :=
  mkRuntime (rs_config r) (rs_receiver r) (rs_subjects r) (rs_consumers r)
    (rs_qualified_bindings r) (rs_receiver_streams r) (rs_observer_incarnations r)
    (rs_remote_observation_custody r) (rs_pending r) (rs_schedules r) (rs_request_owners r)
    (rs_sparse_history r) value (rs_diagnostic_receipts r) (rs_historical_activation_ids r)
    (rs_historical_policy_bodies r) (rs_metrics r) (rs_current_monotonic_ms r)
    (rs_ingress_counter r) (rs_event_counter r) (rs_refusal_counter r) (rs_history_exhausted
    r) (rs_history_exhaustion_reported r) (rs_history_blindness_latched r)
    (rs_pending_output r) (rs_process r).
Definition set_rs_diagnostic_receipts (r : Runtime) (value : list MockDiagnosticReceiptV1) : Runtime :=
  mkRuntime (rs_config r) (rs_receiver r) (rs_subjects r) (rs_consumers r)
    (rs_qualified_bindings r) (rs_receiver_streams r) (rs_observer_incarnations r)
    (rs_remote_observation_custody r) (rs_pending r) (rs_schedules r) (rs_request_owners r)
    (rs_sparse_history r) (rs_historical_contradictions r) value
    (rs_historical_activation_ids r) (rs_historical_policy_bodies r) (rs_metrics r)
    (rs_current_monotonic_ms r) (rs_ingress_counter r) (rs_event_counter r)
    (rs_refusal_counter r) (rs_history_exhausted r) (rs_history_exhaustion_reported r)
    (rs_history_blindness_latched r) (rs_pending_output r) (rs_process r).
Definition set_rs_historical_activation_ids (r : Runtime) (value : gset string) : Runtime :=
  mkRuntime (rs_config r) (rs_receiver r) (rs_subjects r) (rs_consumers r)
    (rs_qualified_bindings r) (rs_receiver_streams r) (rs_observer_incarnations r)
    (rs_remote_observation_custody r) (rs_pending r) (rs_schedules r) (rs_request_owners r)
    (rs_sparse_history r) (rs_historical_contradictions r) (rs_diagnostic_receipts r) value
    (rs_historical_policy_bodies r) (rs_metrics r) (rs_current_monotonic_ms r)
    (rs_ingress_counter r) (rs_event_counter r) (rs_refusal_counter r) (rs_history_exhausted
    r) (rs_history_exhaustion_reported r) (rs_history_blindness_latched r)
    (rs_pending_output r) (rs_process r).
Definition set_rs_historical_policy_bodies (r : Runtime) (value : gmap (string * string * string) string) : Runtime :=
  mkRuntime (rs_config r) (rs_receiver r) (rs_subjects r) (rs_consumers r)
    (rs_qualified_bindings r) (rs_receiver_streams r) (rs_observer_incarnations r)
    (rs_remote_observation_custody r) (rs_pending r) (rs_schedules r) (rs_request_owners r)
    (rs_sparse_history r) (rs_historical_contradictions r) (rs_diagnostic_receipts r)
    (rs_historical_activation_ids r) value (rs_metrics r) (rs_current_monotonic_ms r)
    (rs_ingress_counter r) (rs_event_counter r) (rs_refusal_counter r) (rs_history_exhausted
    r) (rs_history_exhaustion_reported r) (rs_history_blindness_latched r)
    (rs_pending_output r) (rs_process r).
Definition set_rs_metrics (r : Runtime) (value : RuntimeMetricsV1) : Runtime :=
  mkRuntime (rs_config r) (rs_receiver r) (rs_subjects r) (rs_consumers r)
    (rs_qualified_bindings r) (rs_receiver_streams r) (rs_observer_incarnations r)
    (rs_remote_observation_custody r) (rs_pending r) (rs_schedules r) (rs_request_owners r)
    (rs_sparse_history r) (rs_historical_contradictions r) (rs_diagnostic_receipts r)
    (rs_historical_activation_ids r) (rs_historical_policy_bodies r) value
    (rs_current_monotonic_ms r) (rs_ingress_counter r) (rs_event_counter r)
    (rs_refusal_counter r) (rs_history_exhausted r) (rs_history_exhaustion_reported r)
    (rs_history_blindness_latched r) (rs_pending_output r) (rs_process r).
Definition set_rs_current_monotonic_ms (r : Runtime) (value : Z) : Runtime :=
  mkRuntime (rs_config r) (rs_receiver r) (rs_subjects r) (rs_consumers r)
    (rs_qualified_bindings r) (rs_receiver_streams r) (rs_observer_incarnations r)
    (rs_remote_observation_custody r) (rs_pending r) (rs_schedules r) (rs_request_owners r)
    (rs_sparse_history r) (rs_historical_contradictions r) (rs_diagnostic_receipts r)
    (rs_historical_activation_ids r) (rs_historical_policy_bodies r) (rs_metrics r) value
    (rs_ingress_counter r) (rs_event_counter r) (rs_refusal_counter r) (rs_history_exhausted
    r) (rs_history_exhaustion_reported r) (rs_history_blindness_latched r)
    (rs_pending_output r) (rs_process r).
Definition set_rs_ingress_counter (r : Runtime) (value : Z) : Runtime :=
  mkRuntime (rs_config r) (rs_receiver r) (rs_subjects r) (rs_consumers r)
    (rs_qualified_bindings r) (rs_receiver_streams r) (rs_observer_incarnations r)
    (rs_remote_observation_custody r) (rs_pending r) (rs_schedules r) (rs_request_owners r)
    (rs_sparse_history r) (rs_historical_contradictions r) (rs_diagnostic_receipts r)
    (rs_historical_activation_ids r) (rs_historical_policy_bodies r) (rs_metrics r)
    (rs_current_monotonic_ms r) value (rs_event_counter r) (rs_refusal_counter r)
    (rs_history_exhausted r) (rs_history_exhaustion_reported r)
    (rs_history_blindness_latched r) (rs_pending_output r) (rs_process r).
Definition set_rs_event_counter (r : Runtime) (value : Z) : Runtime :=
  mkRuntime (rs_config r) (rs_receiver r) (rs_subjects r) (rs_consumers r)
    (rs_qualified_bindings r) (rs_receiver_streams r) (rs_observer_incarnations r)
    (rs_remote_observation_custody r) (rs_pending r) (rs_schedules r) (rs_request_owners r)
    (rs_sparse_history r) (rs_historical_contradictions r) (rs_diagnostic_receipts r)
    (rs_historical_activation_ids r) (rs_historical_policy_bodies r) (rs_metrics r)
    (rs_current_monotonic_ms r) (rs_ingress_counter r) value (rs_refusal_counter r)
    (rs_history_exhausted r) (rs_history_exhaustion_reported r)
    (rs_history_blindness_latched r) (rs_pending_output r) (rs_process r).
Definition set_rs_refusal_counter (r : Runtime) (value : Z) : Runtime :=
  mkRuntime (rs_config r) (rs_receiver r) (rs_subjects r) (rs_consumers r)
    (rs_qualified_bindings r) (rs_receiver_streams r) (rs_observer_incarnations r)
    (rs_remote_observation_custody r) (rs_pending r) (rs_schedules r) (rs_request_owners r)
    (rs_sparse_history r) (rs_historical_contradictions r) (rs_diagnostic_receipts r)
    (rs_historical_activation_ids r) (rs_historical_policy_bodies r) (rs_metrics r)
    (rs_current_monotonic_ms r) (rs_ingress_counter r) (rs_event_counter r) value
    (rs_history_exhausted r) (rs_history_exhaustion_reported r)
    (rs_history_blindness_latched r) (rs_pending_output r) (rs_process r).
Definition set_rs_history_exhausted (r : Runtime) (value : bool) : Runtime :=
  mkRuntime (rs_config r) (rs_receiver r) (rs_subjects r) (rs_consumers r)
    (rs_qualified_bindings r) (rs_receiver_streams r) (rs_observer_incarnations r)
    (rs_remote_observation_custody r) (rs_pending r) (rs_schedules r) (rs_request_owners r)
    (rs_sparse_history r) (rs_historical_contradictions r) (rs_diagnostic_receipts r)
    (rs_historical_activation_ids r) (rs_historical_policy_bodies r) (rs_metrics r)
    (rs_current_monotonic_ms r) (rs_ingress_counter r) (rs_event_counter r)
    (rs_refusal_counter r) value (rs_history_exhaustion_reported r)
    (rs_history_blindness_latched r) (rs_pending_output r) (rs_process r).
Definition set_rs_history_exhaustion_reported (r : Runtime) (value : bool) : Runtime :=
  mkRuntime (rs_config r) (rs_receiver r) (rs_subjects r) (rs_consumers r)
    (rs_qualified_bindings r) (rs_receiver_streams r) (rs_observer_incarnations r)
    (rs_remote_observation_custody r) (rs_pending r) (rs_schedules r) (rs_request_owners r)
    (rs_sparse_history r) (rs_historical_contradictions r) (rs_diagnostic_receipts r)
    (rs_historical_activation_ids r) (rs_historical_policy_bodies r) (rs_metrics r)
    (rs_current_monotonic_ms r) (rs_ingress_counter r) (rs_event_counter r)
    (rs_refusal_counter r) (rs_history_exhausted r) value (rs_history_blindness_latched r)
    (rs_pending_output r) (rs_process r).
Definition set_rs_history_blindness_latched (r : Runtime) (value : bool) : Runtime :=
  mkRuntime (rs_config r) (rs_receiver r) (rs_subjects r) (rs_consumers r)
    (rs_qualified_bindings r) (rs_receiver_streams r) (rs_observer_incarnations r)
    (rs_remote_observation_custody r) (rs_pending r) (rs_schedules r) (rs_request_owners r)
    (rs_sparse_history r) (rs_historical_contradictions r) (rs_diagnostic_receipts r)
    (rs_historical_activation_ids r) (rs_historical_policy_bodies r) (rs_metrics r)
    (rs_current_monotonic_ms r) (rs_ingress_counter r) (rs_event_counter r)
    (rs_refusal_counter r) (rs_history_exhausted r) (rs_history_exhaustion_reported r) value
    (rs_pending_output r) (rs_process r).
Definition set_rs_pending_output (r : Runtime) (value : RuntimeCycleOutputV1) : Runtime :=
  mkRuntime (rs_config r) (rs_receiver r) (rs_subjects r) (rs_consumers r)
    (rs_qualified_bindings r) (rs_receiver_streams r) (rs_observer_incarnations r)
    (rs_remote_observation_custody r) (rs_pending r) (rs_schedules r) (rs_request_owners r)
    (rs_sparse_history r) (rs_historical_contradictions r) (rs_diagnostic_receipts r)
    (rs_historical_activation_ids r) (rs_historical_policy_bodies r) (rs_metrics r)
    (rs_current_monotonic_ms r) (rs_ingress_counter r) (rs_event_counter r)
    (rs_refusal_counter r) (rs_history_exhausted r) (rs_history_exhaustion_reported r)
    (rs_history_blindness_latched r) value (rs_process r).
Definition set_rs_process (r : Runtime) (value : Process) : Runtime :=
  mkRuntime (rs_config r) (rs_receiver r) (rs_subjects r) (rs_consumers r)
    (rs_qualified_bindings r) (rs_receiver_streams r) (rs_observer_incarnations r)
    (rs_remote_observation_custody r) (rs_pending r) (rs_schedules r) (rs_request_owners r)
    (rs_sparse_history r) (rs_historical_contradictions r) (rs_diagnostic_receipts r)
    (rs_historical_activation_ids r) (rs_historical_policy_bodies r) (rs_metrics r)
    (rs_current_monotonic_ms r) (rs_ingress_counter r) (rs_event_counter r)
    (rs_refusal_counter r) (rs_history_exhausted r) (rs_history_exhaustion_reported r)
    (rs_history_blindness_latched r) (rs_pending_output r) value.

(** Assignments [self.metrics.field = value]. *)
Definition set_rm_expected_support_expiry_monotonic_ms (m : RuntimeMetricsV1) (value : option Z) : RuntimeMetricsV1 :=
  mkRuntimeMetrics (rm_schema_version m) value (rm_actual_reevaluation_monotonic_ms m)
    (rm_maximum_stale_positive_duration_ms m) (rm_policy_transition_withdrawal_latency_ms m)
    (rm_scheduler_lateness_ms m) (rm_queue_refusal_count m) (rm_subject_refusal_count m)
    (rm_observer_refusal_count m) (rm_receiver_stream_refusal_count m)
    (rm_deadline_refusal_count m) (rm_context_refusal_count m)
    (rm_sparse_history_refusal_count m) (rm_duplicate_escalation_count m)
    (rm_recovered_sparse_record_count m) (rm_recovered_receipt_count m).
Definition set_rm_actual_reevaluation_monotonic_ms (m : RuntimeMetricsV1) (value : option Z) : RuntimeMetricsV1 :=
  mkRuntimeMetrics (rm_schema_version m) (rm_expected_support_expiry_monotonic_ms m) value
    (rm_maximum_stale_positive_duration_ms m) (rm_policy_transition_withdrawal_latency_ms m)
    (rm_scheduler_lateness_ms m) (rm_queue_refusal_count m) (rm_subject_refusal_count m)
    (rm_observer_refusal_count m) (rm_receiver_stream_refusal_count m)
    (rm_deadline_refusal_count m) (rm_context_refusal_count m)
    (rm_sparse_history_refusal_count m) (rm_duplicate_escalation_count m)
    (rm_recovered_sparse_record_count m) (rm_recovered_receipt_count m).
Definition set_rm_maximum_stale_positive_duration_ms (m : RuntimeMetricsV1) (value : Z) : RuntimeMetricsV1 :=
  mkRuntimeMetrics (rm_schema_version m) (rm_expected_support_expiry_monotonic_ms m)
    (rm_actual_reevaluation_monotonic_ms m) value
    (rm_policy_transition_withdrawal_latency_ms m) (rm_scheduler_lateness_ms m)
    (rm_queue_refusal_count m) (rm_subject_refusal_count m) (rm_observer_refusal_count m)
    (rm_receiver_stream_refusal_count m) (rm_deadline_refusal_count m)
    (rm_context_refusal_count m) (rm_sparse_history_refusal_count m)
    (rm_duplicate_escalation_count m) (rm_recovered_sparse_record_count m)
    (rm_recovered_receipt_count m).
Definition set_rm_policy_transition_withdrawal_latency_ms (m : RuntimeMetricsV1) (value : Z) : RuntimeMetricsV1 :=
  mkRuntimeMetrics (rm_schema_version m) (rm_expected_support_expiry_monotonic_ms m)
    (rm_actual_reevaluation_monotonic_ms m) (rm_maximum_stale_positive_duration_ms m) value
    (rm_scheduler_lateness_ms m) (rm_queue_refusal_count m) (rm_subject_refusal_count m)
    (rm_observer_refusal_count m) (rm_receiver_stream_refusal_count m)
    (rm_deadline_refusal_count m) (rm_context_refusal_count m)
    (rm_sparse_history_refusal_count m) (rm_duplicate_escalation_count m)
    (rm_recovered_sparse_record_count m) (rm_recovered_receipt_count m).
Definition set_rm_scheduler_lateness_ms (m : RuntimeMetricsV1) (value : Z) : RuntimeMetricsV1 :=
  mkRuntimeMetrics (rm_schema_version m) (rm_expected_support_expiry_monotonic_ms m)
    (rm_actual_reevaluation_monotonic_ms m) (rm_maximum_stale_positive_duration_ms m)
    (rm_policy_transition_withdrawal_latency_ms m) value (rm_queue_refusal_count m)
    (rm_subject_refusal_count m) (rm_observer_refusal_count m)
    (rm_receiver_stream_refusal_count m) (rm_deadline_refusal_count m)
    (rm_context_refusal_count m) (rm_sparse_history_refusal_count m)
    (rm_duplicate_escalation_count m) (rm_recovered_sparse_record_count m)
    (rm_recovered_receipt_count m).
Definition set_rm_queue_refusal_count (m : RuntimeMetricsV1) (value : Z) : RuntimeMetricsV1 :=
  mkRuntimeMetrics (rm_schema_version m) (rm_expected_support_expiry_monotonic_ms m)
    (rm_actual_reevaluation_monotonic_ms m) (rm_maximum_stale_positive_duration_ms m)
    (rm_policy_transition_withdrawal_latency_ms m) (rm_scheduler_lateness_ms m) value
    (rm_subject_refusal_count m) (rm_observer_refusal_count m)
    (rm_receiver_stream_refusal_count m) (rm_deadline_refusal_count m)
    (rm_context_refusal_count m) (rm_sparse_history_refusal_count m)
    (rm_duplicate_escalation_count m) (rm_recovered_sparse_record_count m)
    (rm_recovered_receipt_count m).
Definition set_rm_subject_refusal_count (m : RuntimeMetricsV1) (value : Z) : RuntimeMetricsV1 :=
  mkRuntimeMetrics (rm_schema_version m) (rm_expected_support_expiry_monotonic_ms m)
    (rm_actual_reevaluation_monotonic_ms m) (rm_maximum_stale_positive_duration_ms m)
    (rm_policy_transition_withdrawal_latency_ms m) (rm_scheduler_lateness_ms m)
    (rm_queue_refusal_count m) value (rm_observer_refusal_count m)
    (rm_receiver_stream_refusal_count m) (rm_deadline_refusal_count m)
    (rm_context_refusal_count m) (rm_sparse_history_refusal_count m)
    (rm_duplicate_escalation_count m) (rm_recovered_sparse_record_count m)
    (rm_recovered_receipt_count m).
Definition set_rm_observer_refusal_count (m : RuntimeMetricsV1) (value : Z) : RuntimeMetricsV1 :=
  mkRuntimeMetrics (rm_schema_version m) (rm_expected_support_expiry_monotonic_ms m)
    (rm_actual_reevaluation_monotonic_ms m) (rm_maximum_stale_positive_duration_ms m)
    (rm_policy_transition_withdrawal_latency_ms m) (rm_scheduler_lateness_ms m)
    (rm_queue_refusal_count m) (rm_subject_refusal_count m) value
    (rm_receiver_stream_refusal_count m) (rm_deadline_refusal_count m)
    (rm_context_refusal_count m) (rm_sparse_history_refusal_count m)
    (rm_duplicate_escalation_count m) (rm_recovered_sparse_record_count m)
    (rm_recovered_receipt_count m).
Definition set_rm_receiver_stream_refusal_count (m : RuntimeMetricsV1) (value : Z) : RuntimeMetricsV1 :=
  mkRuntimeMetrics (rm_schema_version m) (rm_expected_support_expiry_monotonic_ms m)
    (rm_actual_reevaluation_monotonic_ms m) (rm_maximum_stale_positive_duration_ms m)
    (rm_policy_transition_withdrawal_latency_ms m) (rm_scheduler_lateness_ms m)
    (rm_queue_refusal_count m) (rm_subject_refusal_count m) (rm_observer_refusal_count m)
    value (rm_deadline_refusal_count m) (rm_context_refusal_count m)
    (rm_sparse_history_refusal_count m) (rm_duplicate_escalation_count m)
    (rm_recovered_sparse_record_count m) (rm_recovered_receipt_count m).
Definition set_rm_deadline_refusal_count (m : RuntimeMetricsV1) (value : Z) : RuntimeMetricsV1 :=
  mkRuntimeMetrics (rm_schema_version m) (rm_expected_support_expiry_monotonic_ms m)
    (rm_actual_reevaluation_monotonic_ms m) (rm_maximum_stale_positive_duration_ms m)
    (rm_policy_transition_withdrawal_latency_ms m) (rm_scheduler_lateness_ms m)
    (rm_queue_refusal_count m) (rm_subject_refusal_count m) (rm_observer_refusal_count m)
    (rm_receiver_stream_refusal_count m) value (rm_context_refusal_count m)
    (rm_sparse_history_refusal_count m) (rm_duplicate_escalation_count m)
    (rm_recovered_sparse_record_count m) (rm_recovered_receipt_count m).
Definition set_rm_context_refusal_count (m : RuntimeMetricsV1) (value : Z) : RuntimeMetricsV1 :=
  mkRuntimeMetrics (rm_schema_version m) (rm_expected_support_expiry_monotonic_ms m)
    (rm_actual_reevaluation_monotonic_ms m) (rm_maximum_stale_positive_duration_ms m)
    (rm_policy_transition_withdrawal_latency_ms m) (rm_scheduler_lateness_ms m)
    (rm_queue_refusal_count m) (rm_subject_refusal_count m) (rm_observer_refusal_count m)
    (rm_receiver_stream_refusal_count m) (rm_deadline_refusal_count m) value
    (rm_sparse_history_refusal_count m) (rm_duplicate_escalation_count m)
    (rm_recovered_sparse_record_count m) (rm_recovered_receipt_count m).
Definition set_rm_sparse_history_refusal_count (m : RuntimeMetricsV1) (value : Z) : RuntimeMetricsV1 :=
  mkRuntimeMetrics (rm_schema_version m) (rm_expected_support_expiry_monotonic_ms m)
    (rm_actual_reevaluation_monotonic_ms m) (rm_maximum_stale_positive_duration_ms m)
    (rm_policy_transition_withdrawal_latency_ms m) (rm_scheduler_lateness_ms m)
    (rm_queue_refusal_count m) (rm_subject_refusal_count m) (rm_observer_refusal_count m)
    (rm_receiver_stream_refusal_count m) (rm_deadline_refusal_count m)
    (rm_context_refusal_count m) value (rm_duplicate_escalation_count m)
    (rm_recovered_sparse_record_count m) (rm_recovered_receipt_count m).
Definition set_rm_duplicate_escalation_count (m : RuntimeMetricsV1) (value : Z) : RuntimeMetricsV1 :=
  mkRuntimeMetrics (rm_schema_version m) (rm_expected_support_expiry_monotonic_ms m)
    (rm_actual_reevaluation_monotonic_ms m) (rm_maximum_stale_positive_duration_ms m)
    (rm_policy_transition_withdrawal_latency_ms m) (rm_scheduler_lateness_ms m)
    (rm_queue_refusal_count m) (rm_subject_refusal_count m) (rm_observer_refusal_count m)
    (rm_receiver_stream_refusal_count m) (rm_deadline_refusal_count m)
    (rm_context_refusal_count m) (rm_sparse_history_refusal_count m) value
    (rm_recovered_sparse_record_count m) (rm_recovered_receipt_count m).
Definition set_rm_recovered_sparse_record_count (m : RuntimeMetricsV1) (value : Z) : RuntimeMetricsV1 :=
  mkRuntimeMetrics (rm_schema_version m) (rm_expected_support_expiry_monotonic_ms m)
    (rm_actual_reevaluation_monotonic_ms m) (rm_maximum_stale_positive_duration_ms m)
    (rm_policy_transition_withdrawal_latency_ms m) (rm_scheduler_lateness_ms m)
    (rm_queue_refusal_count m) (rm_subject_refusal_count m) (rm_observer_refusal_count m)
    (rm_receiver_stream_refusal_count m) (rm_deadline_refusal_count m)
    (rm_context_refusal_count m) (rm_sparse_history_refusal_count m)
    (rm_duplicate_escalation_count m) value (rm_recovered_receipt_count m).
Definition set_rm_recovered_receipt_count (m : RuntimeMetricsV1) (value : Z) : RuntimeMetricsV1 :=
  mkRuntimeMetrics (rm_schema_version m) (rm_expected_support_expiry_monotonic_ms m)
    (rm_actual_reevaluation_monotonic_ms m) (rm_maximum_stale_positive_duration_ms m)
    (rm_policy_transition_withdrawal_latency_ms m) (rm_scheduler_lateness_ms m)
    (rm_queue_refusal_count m) (rm_subject_refusal_count m) (rm_observer_refusal_count m)
    (rm_receiver_stream_refusal_count m) (rm_deadline_refusal_count m)
    (rm_context_refusal_count m) (rm_sparse_history_refusal_count m)
    (rm_duplicate_escalation_count m) (rm_recovered_sparse_record_count m) value.

(* ------------------------------------------------------------------ *)
(** ** The monad of [&mut self], [&mut output] and [?]: the state a failing
    call leaves behind is kept. *)

Definition cycle : Type := Runtime * RuntimeCycleOutputV1.
Definition rt (A : Type) : Type := cycle → cycle * result Failure A.

#[global] Instance rt_ret : MRet rt := fun A a s => (s, Ok a).
#[global] Instance rt_bind : MBind rt :=
  fun A B k m s => match m s with (s', Ok a) => k a s' | (s', Err e) => (s', Err e) end.

Definition get_rt : rt Runtime := fun s => (s, Ok s.1).
Definition upd (f : Runtime → Runtime) : rt unit := fun s => ((f s.1, s.2), Ok tt).
Definition emit (f : RuntimeCycleOutputV1 → RuntimeCycleOutputV1) : rt unit :=
  fun s => ((s.1, f s.2), Ok tt).
Definition throw {A} (e : Failure) : rt A := fun s => (s, Err e).
Definition throw_error {A} (code detail : string) : rt A :=
  throw (Returned (mkRuntimeError code detail)).
Definition lift {A} (r : result RuntimeError A) : rt A :=
  match r with Ok a => mret a | Err e => throw (Returned e) end.

(** A call that asks the operating system: its error is mapped, its panic goes
    through. *)
Definition from_activation (f : ActivationFailure) : Failure :=
  match f with
  | Refused error => Returned (from_qualification error)
  | ExpectFailed message => Panicked message
  end.
Definition lift_sys {A} (m : sys A) : rt A :=
  fun s => let '(p, res) := m (rs_process s.1) in
           ((set_rs_process s.1 p, s.2), map_err from_activation res).

Fixpoint for_rt {A} (f : A → rt unit) (xs : list A) : rt unit :=
  match xs with
  | [] => mret tt
  | x :: rest => f x;; for_rt f rest
  end.

(** A call with its own output: the new state, the output and the result. *)
Definition with_output {A} (m : rt A) (r : Runtime)
  : Runtime * RuntimeCycleOutputV1 * result Failure A :=
  let '(r', o, res) := m (r, cycle_default) in (r', o, res).
