(* ===== verification/RuntimeArtifacts.v ===== *)
(** * The runtime's own artifacts: [crates/pulse-runtime/src/binding.rs]

    The values a running runtime owns (policy, profile, observer set,
    configuration, contracts) as canonical artifacts, their measurements, and
    the assembly of a local qualification package from them. *)

From S2P Require Import Prelude Ids Digest Pulse Judgment Context Qualification Package Activation.
From S2P Require Import CustodyTypes Escalation Certificate Event Policy EvaluatorState RuntimeState.

(** Text of several lines, each ended by a line feed. *)
Definition text_lines (lines : list string) : string :=
  str_concat ((fun line => line +:+ String "010" "") <$> lines).

Definition EVALUATOR_IMPLEMENTATION_MARKER : string :=
  text_lines
    [ "monitor-skunkworks/pulse-evaluator/consumer-indexed-evaluator/v1";
      "category-precedence=contradicted,suspect,unknown,degraded,current";
      "receiver-owned-freshness=true";
      "scalar-confidence=false" ].
Definition RUNTIME_BINDING_CONTRACT : string :=
  text_lines
    [ "monitor-skunkworks/qualified-generation-binding/v1";
      "declared!=qualified!=activated";
      "current-requires-qualified-and-matched=true" ].
Definition SUPPORT_CERTIFICATE_CONTRACT : string :=
  text_lines
    [ "monitor-skunkworks/reliance-support-certificate/v2";
      "qualified-generation-binding-required-for-current=true";
      "mutation-authority=none" ].
Definition REMOTE_SUPPORT_CERTIFICATE_CONTRACT : string :=
  text_lines
    [ "monitor-skunkworks/reliance-support-certificate/v3";
      "qualified-generation-binding-required-for-current=true";
      "remote-custody-is-exact-and-receiver-anchored=true";
      "mutation-authority=none" ].
Definition RECEIVER_BOUNDARY_CONTRACT : string :=
  text_lines
    [ "monitor-skunkworks/receiver-boundary-custody/v1";
      "authenticated-transport!=sender-activation!=receiver-admission!=reliance";
      "receiver-owned-arrival-freshness=true" ].

(* ------------------------------------------------------------------ *)
(** ** Canonical artifacts *)

Record CanonicalToleranceV1 := mkTolerance { ct_signal : string; ct_value_bits : Z }.
Record CanonicalFailureDomainV1 :=
  mkFailureDomain { cfd_observer : string; cfd_failure_domain : string }.

Record CanonicalEscalationPolicyV1 := mkCanonicalEscalation {
  ce_triggers : list string;
  ce_diagnostic_profile_name : string;
  ce_diagnostic_profile_version : Z;
  ce_diagnostic_profile_digest : DigestV1;
  ce_maximum_runtime_ms : Z;
  ce_maximum_output_bytes : Z;
  ce_maximum_observations : Z;
  ce_request_ttl_ms : Z;
}.

Record CanonicalReliancePolicyArtifactV1 := mkPolicyArtifact {
  cpa_schema_version : Z;
  cpa_subject : SubjectId;
  cpa_scope : string;
  cpa_consumer : ConsumerId;
  cpa_generation : PolicyGenerationId;
  cpa_observation_policy_generation : ObservationPolicyGenerationId;
  cpa_observation_profile : ObservationProfileIdV1;
  cpa_required_coverage : list string;
  cpa_minimum_observers : Z;
  cpa_maximum_validity_ms : Z;
  cpa_require_verified_authentication : bool;
  cpa_coherence_tolerances : list CanonicalToleranceV1;
  cpa_observer_failure_domains : list CanonicalFailureDomainV1;
  cpa_escalation : option CanonicalEscalationPolicyV1;
}.

(** [canonical_escalation]; the triggers in the order of their set. *)
Definition canonical_escalation (e : EscalationPolicyV1) : CanonicalEscalationPolicyV1 :=
  {| ce_triggers := trigger_as_str <$> filter (fun t => t ∈ ep_triggers e) all_triggers;
     ce_diagnostic_profile_name := dp_name (ep_diagnostic_profile e);
     ce_diagnostic_profile_version := dp_version (ep_diagnostic_profile e);
     ce_diagnostic_profile_digest := dp_semantic_digest (ep_diagnostic_profile e);
     ce_maximum_runtime_ms := db_maximum_runtime_ms (ep_bounds e);
     ce_maximum_output_bytes := db_maximum_output_bytes (ep_bounds e);
     ce_maximum_observations := db_maximum_observations (ep_bounds e);
     ce_request_ttl_ms := ep_request_ttl_ms e |}.

Definition canonical_failure_domains (p : ReliancePolicyV1) : list CanonicalFailureDomainV1 :=
  (fun entry => mkFailureDomain entry.1 entry.2) <$> bt_entries (rl_observer_failure_domains p).

(** [CanonicalReliancePolicyArtifactV1::from]. *)
Definition canonical_policy (p : ReliancePolicyV1) : CanonicalReliancePolicyArtifactV1 :=
  {| cpa_schema_version := rl_schema_version p;
     cpa_subject := rl_subject p;
     cpa_scope := rl_scope p;
     cpa_consumer := rl_consumer p;
     cpa_generation := rl_generation p;
     cpa_observation_policy_generation := rl_observation_policy_generation p;
     cpa_observation_profile := rl_observation_profile p;
     cpa_required_coverage := rl_required_coverage p;
     cpa_minimum_observers := rl_minimum_observers p;
     cpa_maximum_validity_ms := rl_maximum_validity_ms p;
     cpa_require_verified_authentication := rl_require_verified_authentication p;
     cpa_coherence_tolerances :=
       (fun entry => mkTolerance entry.1 entry.2) <$> bt_entries (rl_coherence_tolerances p);
     cpa_observer_failure_domains := canonical_failure_domains p;
     cpa_escalation := canonical_escalation <$> rl_escalation p |}.

Record EvaluatorImplementationArtifactV1 := mkEvaluatorArtifact {
  eia_schema_version : Z;
  eia_evaluator_generation : EvaluatorSemanticGenerationId;
  eia_embedded_implementation_marker_digest : DigestV1;
  eia_executable_contains_implementation : bool;
  eia_source_to_binary_correspondence_claimed : bool;
}.

Record ConsumerProfileArtifactV1 := mkProfileArtifact {
  cpf_schema_version : Z;
  cpf_generation : ConsumerProfileGenerationId;
  cpf_consumer : ConsumerId;
  cpf_subject : SubjectId;
  cpf_scope : string;
  cpf_reliance_contract : string;
}.

Record ObserverSetArtifactV1 := mkObserverSetArtifact {
  osa_schema_version : Z;
  osa_generation : ObserverSetGenerationId;
  osa_minimum_observers : Z;
  osa_failure_domains : list CanonicalFailureDomainV1;
}.

Record ObservationPolicyArtifactV1 := mkObservationPolicyArtifact {
  opa_schema_version : Z;
  opa_generation : ObservationPolicyGenerationId;
  opa_profile : ObservationProfileIdV1;
  opa_admitted_coverage : list string;
}.

Record RuntimeConfigurationArtifactV1 := mkConfigurationArtifact {
  rca_schema_version : Z;
  rca_receiver : ReceiverId;
  rca_bounds : RuntimeBoundsV1;
  rca_transport_custody_policy : option TransportCustodyPolicyBindingV1;
  rca_receiver_incarnation_is_process_occurrence : bool;
  rca_receiver_clock_is_process_occurrence : bool;
  rca_deadline_custody_contract : string;
  rca_history_restarts_unknown : bool;
}.

Record SemanticContractsArtifactV1 := mkContractsArtifact {
  sca_schema_version : Z;
  sca_contracts : list SemanticContractIdentityV1;
}.

Record RuntimeArtifactPayloadV1 := mkPayload {
  pl_role : ArtifactRoleV1;
  pl_logical_name : string;
  pl_logical_path : string;
  pl_media_type : string;
  pl_bytes : string;
  pl_provenance : MeasurementProvenanceV1;
}.

Record QualificationCorpusArtifactV1 := mkCorpus {
  qca_schema_version : Z;
  qca_corpus_id : string;
  qca_hostile_scenarios : list string;
  qca_property_families : list string;
}.

Record QualificationResultsArtifactV1 := mkResults {
  qra_schema_version : Z;
  qra_command_results : list QualificationCommandResultV1;
  qra_total_tests_passed : Z;
  qra_all_required_commands_passed : bool;
}.

(** What [serde_json] writes for, and reads as, these artifacts. *)
Class ArtifactJson := {
  policy_json : CanonicalReliancePolicyArtifactV1 → string;
  evaluator_json : EvaluatorImplementationArtifactV1 → string;
  profile_json : ConsumerProfileArtifactV1 → string;
  observer_set_json : ObserverSetArtifactV1 → string;
  observation_policy_json : ObservationPolicyArtifactV1 → string;
  configuration_json : RuntimeConfigurationArtifactV1 → string;
  contracts_json : SemanticContractsArtifactV1 → string;
  corpus_json : QualificationCorpusArtifactV1 → string;
  parse_corpus : string → result string QualificationCorpusArtifactV1;
  results_json : QualificationResultsArtifactV1 → string;
  parse_results : string → result string QualificationResultsArtifactV1;
}.

(** Everything outside the repository that a runtime depends on: the operating
    system, [serde_json], the package version and the target platform of the
    build. *)
Class RuntimeEnvironment := {
  environment_system :: OperatingSystem;
  environment_package :: PackageJson;
  environment_artifacts :: ArtifactJson;
  runtime_version : string;
  target_platform : string;
}.

(* ------------------------------------------------------------------ *)
(** ** Corpus and results *)

(** [validate_local_text] and [validate_local_sorted_texts]. *)
Definition validate_local_text (field value : string) : result QualificationError unit :=
  ensure (negb ((slen value =? 0) || (MAX_QUALIFICATION_STRING_BYTES <? slen value)
                || has_control value))
    (mkQualificationError "invalid_text"
       (field +:+ " is empty, contains control text, or exceeds its bound")).
Definition validate_local_sorted_texts (field : string) (values : list string)
  : result QualificationError unit :=
  ensure (negb (bool_decide (values = []) || (MAX_QUALIFICATION_CLAIMS <? Z.of_nat (length values))))
    (mkQualificationError "bound_exceeded" (field +:+ " is empty or exceeds its bound"));;
  for_each (validate_local_text field) values;;
  ensure (strictly_sorted values)
    (mkQualificationError "noncanonical_order" (field +:+ " must be strictly sorted and unique")).

(** [QualificationCorpusArtifactV1::validate]. *)
Definition corpus_validate (c : QualificationCorpusArtifactV1) : result QualificationError unit :=
  ensure (qca_schema_version c =? SCHEMA_VERSION_V1)
    (mkQualificationError "unsupported_version"
       "qualification corpus schema version is unsupported");;
  validate_local_text "corpus_id" (qca_corpus_id c);;
  validate_local_sorted_texts "hostile_scenarios" (qca_hostile_scenarios c);;
  validate_local_sorted_texts "property_families" (qca_property_families c).

(** [QualificationResultsArtifactV1::validate]. *)
Definition results_validate (r : QualificationResultsArtifactV1)
  : result QualificationError unit :=
  ensure (qra_schema_version r =? SCHEMA_VERSION_V1)
    (mkQualificationError "unsupported_version"
       "qualification results schema version is unsupported");;
  ensure (negb (bool_decide (qra_command_results r = [])
                || (MAX_QUALIFICATION_COMMANDS <? Z.of_nat (length (qra_command_results r)))))
    (mkQualificationError "qualification_evidence_missing"
       "qualification results command inventory is absent or exceeds its bound");;
  passed_commands_validate "qualification results contain a failed or discontinuous command" 0
    (qra_command_results r);;
  ensure (qra_all_required_commands_passed r
          && (summed_tests (qra_command_results r) =? qra_total_tests_passed r))
    (mkQualificationError "qualification_result_mismatch"
       "qualification results do not support their declared command or test outcome").

(** [decode_exact_artifact]. *)
Definition decode_exact_artifact {A} (json : A → string) (parse : string → result string A)
    (bytes name : string) : result QualificationError A :=
  ensure (negb ((slen bytes =? 0) || (MAX_QUALIFICATION_PACKAGE_BYTES <? slen bytes)))
    (mkQualificationError "bound_exceeded" (name +:+ " bytes are empty or exceed their bound"));;
  value ← map_err (fun error => mkQualificationError "malformed_canonical_encoding"
                       (name +:+ ": " +:+ error)) (parse bytes);
  encoded ← canonical_encode json value;
  ensure (bool_decide (encoded = bytes))
    (mkQualificationError "noncanonical_encoding"
       (name +:+ " bytes are not their unique canonical encoding"));;
  Ok value.

Section artifacts.
Context `{Sha256} `{FactJson} `{RuntimeEnvironment}.

Definition corpus_canonical_bytes (c : QualificationCorpusArtifactV1)
  : result QualificationError string :=
  corpus_validate c;; canonical_encode corpus_json c.
Definition corpus_decode_canonical (bytes : string)
  : result QualificationError QualificationCorpusArtifactV1 :=
  value ← decode_exact_artifact corpus_json parse_corpus bytes "qualification corpus";
  corpus_validate value;;
  Ok value.
Definition results_canonical_bytes (r : QualificationResultsArtifactV1)
  : result QualificationError string :=
  results_validate r;; canonical_encode results_json r.
Definition results_decode_canonical (bytes : string)
  : result QualificationError QualificationResultsArtifactV1 :=
  value ← decode_exact_artifact results_json parse_results bytes "qualification results";
  results_validate value;;
  Ok value.

(* ------------------------------------------------------------------ *)
(** ** The active artifacts and their measurements *)

(** [RuntimeArtifactPayloadV1::identity] and [measurement]. *)
Definition payload_identity (p : RuntimeArtifactPayloadV1) : ArtifactIdentityV1 :=
  {| ai_role := pl_role p;
     ai_logical_name := pl_logical_name p;
     ai_logical_path := pl_logical_path p;
     ai_media_type := pl_media_type p;
     ai_byte_length := slen (pl_bytes p);
     ai_content_digest := artifact_content_digest (pl_bytes p);
     ai_activation_required := role_activation_required (pl_role p) |}.
Definition payload_measurement (p : RuntimeArtifactPayloadV1) : ArtifactMeasurementV1 :=
  {| am_role := pl_role p;
     am_content_digest := artifact_content_digest (pl_bytes p);
     am_byte_length := slen (pl_bytes p);
     am_provenance := pl_provenance p;
     am_caller_supplied := false |}.

(** [runtime_semantic_contracts] and [runtime_semantic_contracts_for_config]. *)
Definition runtime_semantic_contracts : list SemanticContractIdentityV1 :=
  [ mkContract "monitor.qualified_generation_binding" 1
      (artifact_content_digest RUNTIME_BINDING_CONTRACT);
    mkContract "monitor.reliance_support_certificate" 2
      (artifact_content_digest SUPPORT_CERTIFICATE_CONTRACT);
    mkContract "monitor.runtime_evaluator" 1
      (artifact_content_digest EVALUATOR_IMPLEMENTATION_MARKER) ].
Definition runtime_semantic_contracts_for_config (config : RuntimeConfigV1)
  : list SemanticContractIdentityV1 :=
  match cf_transport_custody_policy config with
  | None => runtime_semantic_contracts
  | Some _ =>
      sort_by_key sci_name
        [ mkContract "monitor.qualified_generation_binding" 1
            (artifact_content_digest RUNTIME_BINDING_CONTRACT);
          mkContract "monitor.receiver_boundary_custody" 1
            (artifact_content_digest RECEIVER_BOUNDARY_CONTRACT);
          mkContract "monitor.reliance_support_certificate" 3
            (artifact_content_digest REMOTE_SUPPORT_CERTIFICATE_CONTRACT);
          mkContract "monitor.runtime_evaluator" 1
            (artifact_content_digest EVALUATOR_IMPLEMENTATION_MARKER) ]
  end.

(** [typed_payload]. *)
Definition typed_payload {A} (role : ArtifactRoleV1) (logical_name logical_path : string)
    (json : A → string) (value : A) (type_name : string)
  : result QualificationError RuntimeArtifactPayloadV1 :=
  bytes ← canonical_encode json value;
  Ok (mkPayload role logical_name logical_path "application/json" bytes
        (OwnedCanonicalValue type_name)).

(** The typed values of a runtime and one registration. *)
Definition evaluator_artifact (r : ConsumerRegistrationV1) : EvaluatorImplementationArtifactV1 :=
  {| eia_schema_version := SCHEMA_VERSION_V1;
     eia_evaluator_generation := cx_evaluator_semantic_generation (rg_context r);
     eia_embedded_implementation_marker_digest :=
       artifact_content_digest EVALUATOR_IMPLEMENTATION_MARKER;
     eia_executable_contains_implementation := true;
     eia_source_to_binary_correspondence_claimed := false |}.
Definition profile_artifact (r : ConsumerRegistrationV1) : ConsumerProfileArtifactV1 :=
  {| cpf_schema_version := SCHEMA_VERSION_V1;
     cpf_generation := cx_consumer_profile_generation (rg_context r);
     cpf_consumer := rl_consumer (rg_policy r);
     cpf_subject := rl_subject (rg_policy r);
     cpf_scope := rl_scope (rg_policy r);
     cpf_reliance_contract := "consumer-indexed-present-reliance/v1" |}.
Definition observer_set_artifact (r : ConsumerRegistrationV1) : ObserverSetArtifactV1 :=
  {| osa_schema_version := SCHEMA_VERSION_V1;
     osa_generation := cx_observer_set_generation (rg_context r);
     osa_minimum_observers := rl_minimum_observers (rg_policy r);
     osa_failure_domains := canonical_failure_domains (rg_policy r) |}.
Definition observation_policy_artifact (r : ConsumerRegistrationV1)
  : ObservationPolicyArtifactV1 :=
  {| opa_schema_version := SCHEMA_VERSION_V1;
     opa_generation := cx_observation_policy_generation (rg_context r);
     opa_profile := rl_observation_profile (rg_policy r);
     opa_admitted_coverage := rl_required_coverage (rg_policy r) |}.
Definition configuration_artifact (config : RuntimeConfigV1) : RuntimeConfigurationArtifactV1 :=
  {| rca_schema_version := SCHEMA_VERSION_V1;
     rca_receiver := cf_receiver config;
     rca_bounds := cf_bounds config;
     rca_transport_custody_policy := cf_transport_custody_policy config;
     rca_receiver_incarnation_is_process_occurrence := true;
     rca_receiver_clock_is_process_occurrence := true;
     rca_deadline_custody_contract := "receiver-owned-inclusive-support-expiry/v1";
     rca_history_restarts_unknown := true |}.

(** [active_runtime_artifact_payloads] and [active_runtime_measurements]. *)
Definition active_runtime_artifact_payloads (config : RuntimeConfigV1)
    (registration : ConsumerRegistrationV1)
  : result QualificationError (list RuntimeArtifactPayloadV1) :=
  evaluator ← typed_payload EvaluatorImplementation "evaluator-implementation"
                "typed/evaluator-implementation.json" evaluator_json
                (evaluator_artifact registration) "EvaluatorImplementationArtifactV1";
  policy ← typed_payload RoleReliancePolicy "reliance-policy" "typed/reliance-policy.json"
             policy_json (canonical_policy (rg_policy registration))
             "CanonicalReliancePolicyArtifactV1";
  profile ← typed_payload RoleConsumerProfile "consumer-profile" "typed/consumer-profile.json"
              profile_json (profile_artifact registration) "ConsumerProfileArtifactV1";
  observers ← typed_payload RoleObserverSet "observer-set" "typed/observer-set.json"
                observer_set_json (observer_set_artifact registration) "ObserverSetArtifactV1";
  observation ← typed_payload RoleObservationPolicy "observation-policy"
                  "typed/observation-policy.json" observation_policy_json
                  (observation_policy_artifact registration) "ObservationPolicyArtifactV1";
  configuration ← typed_payload RuntimeConfiguration "runtime-configuration"
                    "typed/runtime-configuration.json" configuration_json
                    (configuration_artifact config) "RuntimeConfigurationArtifactV1";
  contracts ← canonical_encode contracts_json
                (mkContractsArtifact SCHEMA_VERSION_V1
                   (runtime_semantic_contracts_for_config config));
  Ok (sort_by_role pl_role
        [ evaluator; policy; profile; observers; observation; configuration;
          mkPayload SemanticContracts "semantic-contracts" "embedded/semantic-contracts.json"
            "application/json" contracts
            (EmbeddedArtifact "pulse-runtime semantic contract inventory") ]).
Definition active_runtime_measurements (config : RuntimeConfigV1)
    (registration : ConsumerRegistrationV1)
  : result QualificationError (list ArtifactMeasurementV1) :=
  payloads ← active_runtime_artifact_payloads config registration;
  Ok (List.map payload_measurement payloads).

(* ------------------------------------------------------------------ *)
(** ** Assembling a local package *)

Record LocalQualificationInputsV1 := mkInputs {
  qi_source : SourceIdentityV1;
  qi_build : BuildIdentityV1;
  qi_platform_assumptions : list string;
  qi_declared_claims : list string;
  qi_nonclaims : list string;
  qi_supersedes_manifest_digests : list DigestV1;
  qi_lifecycle_authority_id : string;
  qi_corpus_bytes : string;
  qi_results_bytes : string;
  qi_command_results : list QualificationCommandResultV1;
  qi_hostile_scenarios : list string;
  qi_total_tests_passed : Z;
  qi_issuance_id : string;
  qi_issuer_id : string;
}.

Record LocalQualificationPackageV1 := mkPackage {
  qp_manifest : QualifiedArtifactManifestV1;
  qp_report : QualificationEvidenceReportV1;
  qp_certificate : QualificationCertificateV1;
  qp_acceptance : LocalActivationAcceptanceV1;
}.

(** [external_payload_identity]. *)
Definition external_payload_identity (role : ArtifactRoleV1) (logical_name logical_path bytes : string)
  : result QualificationError ArtifactIdentityV1 :=
  ensure (negb (slen bytes =? 0))
    (mkQualificationError "qualification_evidence_missing"
       "qualification corpus and results artifacts must be nonempty");;
  Ok {| ai_role := role;
        ai_logical_name := logical_name;
        ai_logical_path := logical_path;
        ai_media_type := "application/json";
        ai_byte_length := slen bytes;
        ai_content_digest := artifact_content_digest bytes;
        ai_activation_required := false |}.

(** The artifacts of the package. *)
Definition package_artifacts (executable : ArtifactMeasurementV1)
    (payloads : list RuntimeArtifactPayloadV1) (corpus results : ArtifactIdentityV1)
  : list ArtifactIdentityV1 :=
  sort_by_role ai_role
    ([ {| ai_role := RunningExecutable;
          ai_logical_name := "running-executable";
          ai_logical_path := "runtime/running-executable";
          ai_media_type := "application/x-executable";
          ai_byte_length := am_byte_length executable;
          ai_content_digest := am_content_digest executable;
          ai_activation_required := true |} ]
     ++ List.map payload_identity payloads ++ [corpus; results]).

(** The documents of the package, given its artifacts. *)
Definition package_manifest (config : RuntimeConfigV1) (registration : ConsumerRegistrationV1)
    (inputs : LocalQualificationInputsV1) (artifacts : list ArtifactIdentityV1)
  : result QualificationError QualifiedArtifactManifestV1 :=
  manifest_new
    {| mb_schema_version := SCHEMA_VERSION_V1;
       mb_generation_set :=
         generation_set_from_context (rl_subject (rg_policy registration))
           (rl_consumer (rg_policy registration)) (rg_context registration);
       mb_artifacts := artifacts;
       mb_source := qi_source inputs;
       mb_build := qi_build inputs;
       mb_semantic_contracts := runtime_semantic_contracts_for_config config;
       mb_platform_assumptions := qi_platform_assumptions inputs;
       mb_qualification_corpus_identities := [artifact_content_digest (qi_corpus_bytes inputs)];
       mb_declared_claims := qi_declared_claims inputs;
       mb_nonclaims := qi_nonclaims inputs;
       mb_supersedes_manifest_digests := qi_supersedes_manifest_digests inputs;
       mb_lifecycle_authority_id := qi_lifecycle_authority_id inputs;
       mb_authority_grants := grants_none |}.
Definition package_report (m : QualifiedArtifactManifestV1) (inputs : LocalQualificationInputsV1)
  : result QualificationError QualificationEvidenceReportV1 :=
  report_new
    {| eb_schema_version := SCHEMA_VERSION_V1;
       eb_manifest_digest := mf_manifest_digest m;
       eb_artifact_digests := artifact_digests (mf_body m);
       eb_source := mb_source (mf_body m);
       eb_build := mb_build (mf_body m);
       eb_semantic_contracts := mb_semantic_contracts (mf_body m);
       eb_command_results := qi_command_results inputs;
       eb_qualification_corpus_identities := mb_qualification_corpus_identities (mf_body m);
       eb_hostile_scenarios := qi_hostile_scenarios inputs;
       eb_earned_claims := qi_declared_claims inputs;
       eb_nonclaims := qi_nonclaims inputs;
       eb_total_tests_passed := qi_total_tests_passed inputs;
       eb_all_required_commands_passed := true;
       eb_authority_grants := grants_none |}.
Definition package_acceptance (c : QualificationCertificateV1) (inputs : LocalQualificationInputsV1)
  : LocalActivationAcceptanceV1 :=
  mkAcceptance SCHEMA_VERSION_V1 (qc_certificate_digest c) (qi_lifecycle_authority_id inputs)
    (StatusAccepted 0) false grants_none.

(** [build_local_qualification_package]. *)
Definition build_local_qualification_package (config : RuntimeConfigV1)
    (registration : ConsumerRegistrationV1) (inputs : LocalQualificationInputsV1)
  : sys LocalQualificationPackageV1 :=
  corpus ← sys_lift (corpus_decode_canonical (qi_corpus_bytes inputs));
  results ← sys_lift (results_decode_canonical (qi_results_bytes inputs));
  sys_lift (ensure
    (bool_decide (qca_hostile_scenarios corpus = qi_hostile_scenarios inputs)
     && bool_decide (qra_command_results results = qi_command_results inputs)
     && (qra_total_tests_passed results =? qi_total_tests_passed inputs)
     && qra_all_required_commands_passed results)
    (mkQualificationError "qualification_artifact_mismatch"
       "checked corpus/results bytes do not exactly match the report inputs"));;
  executable ← observe_running_executable;
  payloads ← sys_lift (active_runtime_artifact_payloads config registration);
  corpus_identity ← sys_lift (external_payload_identity QualificationCorpus "qualification-corpus"
                      "qualification/hostile-corpus.json" (qi_corpus_bytes inputs));
  results_identity ← sys_lift (external_payload_identity QualificationResults
                       "qualification-results" "qualification/results.json"
                       (qi_results_bytes inputs));
  manifest ← sys_lift (package_manifest config registration inputs
                         (package_artifacts executable payloads corpus_identity results_identity));
  report ← sys_lift (package_report manifest inputs);
  certificate ← sys_lift (qualification_certificate_issue manifest report
                  (mkProvenance (qi_issuance_id inputs) (qi_issuer_id inputs)
                     LocalUnsignedExactBytes));
  let acceptance := package_acceptance certificate inputs in
  sys_lift (acceptance_policy_validate acceptance);;
  mret (mkPackage manifest report certificate acceptance).
End artifacts.
