(* ===== verification/Runtime.v ===== *)
(** * The runtime: [crates/pulse-runtime/src/lib.rs]

    The methods of [ReceiverSchedulerRuntime].  Those that take [&mut output]
    run in the monad [rt]; the public entry points return the new state and
    their result. *)

From S2P Require Import Prelude Ids Digest Pulse Judgment Context Qualification Package.
From S2P Require Import Activation CustodyTypes.
From S2P Require Import Escalation Certificate Event Policy Receiver EvaluatorState Derive Explain.
From S2P Require Import Evaluator RuntimeState RuntimeArtifacts.

Section runtime.
Context `{Sha256} `{FactJson} `{CustodyJson} `{RuntimeEnvironment}.

(** [ReceiverSchedulerRuntime::new]. *)
Definition runtime_new (config : RuntimeConfigV1) : result RuntimeError Runtime :=
  config_validate config;;
  Ok {| rs_config := config;
        rs_receiver :=
          tracker_new (cf_receiver config) (cf_receiver_incarnation config) (cf_clock_id config);
        rs_subjects := ∅;
        rs_consumers := ∅;
        rs_qualified_bindings := ∅;
        rs_receiver_streams := ∅;
        rs_observer_incarnations := ∅;
        rs_remote_observation_custody := ∅;
        rs_pending := [];
        rs_schedules := [];
        rs_request_owners := ∅;
        rs_sparse_history := [];
        rs_historical_contradictions := [];
        rs_diagnostic_receipts := [];
        rs_historical_activation_ids := ∅;
        rs_historical_policy_bodies := ∅;
        rs_metrics := runtime_metrics_empty;
        rs_current_monotonic_ms := 0;
        rs_ingress_counter := 0;
        rs_event_counter := 0;
        rs_refusal_counter := 0;
        rs_history_exhausted := false;
        rs_history_exhaustion_reported := false;
        rs_history_blindness_latched := false;
        rs_pending_output := cycle_default;
        rs_process := process_start |}.

(** Accessors. *)
Definition current_certificate (r : Runtime) (subject : SubjectId) (consumer : ConsumerId)
  : option RelianceSupportCertificateV1 :=
  state ← rs_consumers r !! mkKey subject consumer; co_certificate state.
Definition next_scheduled_deadline_monotonic_ms (r : Runtime) : option Z :=
  sk_deadline_monotonic_ms <$> head (rs_schedules r).
Definition binding_state (r : Runtime) (subject : SubjectId) (consumer : ConsumerId)
  : RuntimeBindingStateV1 :=
  match rs_qualified_bindings r !! mkKey subject consumer with
  | Some slot => sl_state slot
  | None => Unbound
  end.

Definition bounds (r : Runtime) : RuntimeBoundsV1 := cf_bounds (rs_config r).

(** [vec.len()] against a [usize] bound. *)
Definition at_least (n : nat) (bound : Z) : bool := bound <=? Z.of_nat n.
(** [u64::try_from(len.saturating_add(1)).unwrap_or(u64::MAX)]. *)
Definition len_plus_one (n : nat) : Z := Z.min (Z.of_nat n + 1) u64_max.

(* ------------------------------------------------------------------ *)
(** ** Output *)

Definition push_trace (line : string) : rt unit :=
  emit (fun o => mkCycle (cy_certificates o) (cy_escalation_requests o) (cy_refusals o)
                   (cy_sparse_events o) (cy_trace_lines o ++ [line])).
Definition push_output_refusal (refusal : RuntimeRefusalV1) : rt unit :=
  emit (fun o => mkCycle (cy_certificates o) (cy_escalation_requests o)
                   (cy_refusals o ++ [refusal]) (cy_sparse_events o) (cy_trace_lines o)).
Definition push_output_event (event : SparseDurableEventV1) : rt unit :=
  emit (fun o => mkCycle (cy_certificates o) (cy_escalation_requests o) (cy_refusals o)
                   (cy_sparse_events o ++ [event]) (cy_trace_lines o)).
Definition push_output_certificate (certificate : RelianceSupportCertificateV1) : rt unit :=
  emit (fun o => mkCycle (cy_certificates o ++ [certificate]) (cy_escalation_requests o)
                   (cy_refusals o) (cy_sparse_events o) (cy_trace_lines o)).
Definition push_output_request (request : DiagnosticEscalationRequestV1) : rt unit :=
  emit (fun o => mkCycle (cy_certificates o) (cy_escalation_requests o ++ [request])
                   (cy_refusals o) (cy_sparse_events o) (cy_trace_lines o)).

(** ["[{at:06}ms] "]. *)
Definition stamp (at_ms : Z) : string := "[" +:+ dec_padded 6 at_ms +:+ "ms] ".

(** [output.append(std::mem::take(&mut self.pending_output))]. *)
Definition drain_pending : rt unit :=
  r ← get_rt;
  upd (fun r => set_rs_pending_output r cycle_default);;
  emit (fun o => cycle_append o (rs_pending_output r)).

(** [ReceiverSchedulerRuntime::refusal]. *)
Definition refusal (r : Runtime) (class : RuntimeRefusalClassV1) (at_ms : Z)
    (subject : option SubjectId) (consumer : option ConsumerId)
    (configured_bound observed_count : Z) (detail : string) : Runtime * RuntimeRefusalV1 :=
  let counter := sat_add (rs_refusal_counter r) 1 in
  (set_rs_refusal_counter r counter,
   {| rf_schema_version := SCHEMA_VERSION_V1;
      rf_refusal_id := "runtime-refusal:" +:+ hex16 counter;
      rf_class := class;
      rf_at_monotonic_ms := at_ms;
      rf_subject := subject;
      rf_consumer := consumer;
      rf_configured_bound := configured_bound;
      rf_observed_count := observed_count;
      rf_detail := detail;
      rf_current_preserved := false;
      rf_mutation_authority := MutationNone |}).

Definition refusal_trace (refusal : RuntimeRefusalV1) (at_ms : Z) : string :=
  stamp at_ms +:+ "REFUSAL class=" +:+ refusal_class_debug (rf_class refusal) +:+ " detail="
  +:+ rf_detail refusal.

(** The refusal [record_sparse] makes, once, when history is full. *)
Definition report_exhaustion (at_ms : Z) : rt unit :=
  r ← get_rt;
  if rs_history_exhaustion_reported r then mret tt
  else
    let r := set_rs_history_exhaustion_reported r true in
    let '(r, made) :=
      refusal r SparseHistoryCapacity at_ms None None
        (bd_maximum_sparse_events (bounds r)) (len_plus_one (length (rs_sparse_history r)))
        "sparse historical custody capacity is exhausted; the event was refused and monitor blindness latched" in
    upd (fun _ => r);;
    push_trace (refusal_trace made at_ms);;
    push_output_refusal made.

(** [ReceiverSchedulerRuntime::record_sparse]. *)
Definition record_sparse (at_ms : Z) (event : SparseDurableEventKindV1) : rt unit :=
  r ← get_rt;
  if at_least (length (rs_sparse_history r)) (bd_maximum_sparse_events (bounds r)) then
    upd (fun r => set_rs_history_exhausted r true);;
    upd (fun r => set_rs_metrics r
           (set_rm_sparse_history_refusal_count (rs_metrics r)
              (sat_add (rm_sparse_history_refusal_count (rs_metrics r)) 1)));;
    report_exhaustion at_ms
  else
    let counter := sat_add (rs_event_counter r) 1 in
    let lineage := digest_parts "runtime.event-lineage.v1"
                     [cf_receiver_incarnation (rs_config r); cf_clock_id (rs_config r)] in
    let record := {| se_schema_version := SCHEMA_VERSION_V1;
                     se_event_id := "runtime-event:" +:+ trim_start_matches "sha256:" lineage
                                    +:+ ":" +:+ hex16 counter;
                     se_at_monotonic_ms := at_ms;
                     se_event := event |} in
    upd (fun r => set_rs_event_counter r counter);;
    upd (fun r => set_rs_sparse_history r (rs_sparse_history r ++ [record]));;
    push_output_event record.

(** [ReceiverSchedulerRuntime::push_refusal]. *)
Definition push_refusal (class : RuntimeRefusalClassV1) (at_ms : Z) (subject : option SubjectId)
    (consumer : option ConsumerId) (configured_bound observed_count : Z) (detail : string)
  : rt unit :=
  r ← get_rt;
  let '(r, made) := refusal r class at_ms subject consumer configured_bound observed_count detail in
  upd (fun _ => r);;
  record_sparse at_ms (EvRuntimeRefusal made);;
  push_trace (refusal_trace made at_ms);;
  push_output_refusal made.

(** [self.pending_output.append(output)]. *)
Definition append_pending (r : Runtime) (o : RuntimeCycleOutputV1) : Runtime :=
  set_rs_pending_output r (cycle_append (rs_pending_output r) o).

(** [ReceiverSchedulerRuntime::stage_refusal]. *)
Definition stage_refusal (r : Runtime) (made : RuntimeRefusalV1) : Runtime :=
  let at_ms := rf_at_monotonic_ms made in
  let '(r, o, _) :=
    with_output (record_sparse at_ms (EvRuntimeRefusal made);;
                 push_trace (refusal_trace made at_ms);;
                 push_output_refusal made) r in
  append_pending r o.

(* ------------------------------------------------------------------ *)
(** ** Schedules and keys *)

(** [schedule.subject == key.subject && schedule.consumer == key.consumer]. *)
Definition schedule_for (key : ConsumerKey) (s : ScheduleKey) : Prop :=
  sch_subject s = ck_subject key ∧ sch_consumer s = ck_consumer key.
#[global] Instance schedule_for_dec key s : Decision (schedule_for key s).
Proof. unfold schedule_for. apply _. Defined.

(** [ReceiverSchedulerRuntime::cancel_schedule]. *)
Definition cancel_schedule (key : ConsumerKey) (r : Runtime) : Runtime :=
  set_rs_schedules r (filter (fun s => ¬ schedule_for key s) (rs_schedules r)).

(** [ReceiverSchedulerRuntime::consumer_keys]: in key order. *)
Definition key_compare (a b : ConsumerKey) : comparison :=
  lex (String.compare (ck_subject a) (ck_subject b))
    (String.compare (ck_consumer a) (ck_consumer b)).
Definition sorted_keys (r : Runtime) : list ConsumerKey :=
  foldr (btree_add key_compare) [] (map_to_list (rs_consumers r)).*1.
Definition selects (subject : option SubjectId) (k : ConsumerKey) : bool :=
  match subject with Some s => bool_decide (ck_subject k = s) | None => true end.
Definition consumer_keys (r : Runtime) (subject : option SubjectId) : list ConsumerKey :=
  filter (selects subject) (sorted_keys r).

(** The metrics of a reevaluation at or after a deadline. *)
Definition note_overshoot (r : Runtime) (deadline evaluated_at : Z) : Runtime :=
  let overshoot := sat_sub evaluated_at deadline in
  let m := rs_metrics r in
  let m := set_rm_expected_support_expiry_monotonic_ms m (Some deadline) in
  let m := set_rm_actual_reevaluation_monotonic_ms m (Some evaluated_at) in
  let m := set_rm_scheduler_lateness_ms m (Z.max (rm_scheduler_lateness_ms m) overshoot) in
  let m := set_rm_maximum_stale_positive_duration_ms m
             (Z.max (rm_maximum_stale_positive_duration_ms m) overshoot) in
  set_rs_metrics r m.

Fixpoint minimum (xs : list Z) : option Z :=
  match xs with
  | [] => None
  | x :: rest => Some (match minimum rest with Some y => Z.min x y | None => x end)
  end.

(** [account_due_schedule_before_cancellation]. *)
Definition account_due_schedule (key : ConsumerKey) (evaluated_at : Z) (r : Runtime) : Runtime :=
  match minimum (sk_deadline_monotonic_ms <$>
                   filter (fun s => schedule_for key s ∧ sk_deadline_monotonic_ms s <= evaluated_at)
                     (rs_schedules r)) with
  | Some deadline => note_overshoot r deadline evaluated_at
  | None => r
  end.

(* ------------------------------------------------------------------ *)
(** ** Qualified bindings *)

Definition set_slot_state (slot : QualifiedBindingSlot) (state : RuntimeBindingStateV1)
  : QualifiedBindingSlot :=
  mkSlot state (sl_receipt slot) (sl_acceptance slot) None.

(** The binding names this key and the consumer's context. *)
Definition binding_matches (binding : QualifiedGenerationBindingV1) (key : ConsumerKey)
    (context : RelianceContextV1) : bool :=
  bool_decide (gs_subject (qb_generation_set binding) = ck_subject key)
  && bool_decide (gs_consumer (qb_generation_set binding) = ck_consumer key)
  && matches_context (qb_generation_set binding) context.

(** [descriptive_qualified_binding]. *)
Definition descriptive_qualified_binding (r : Runtime) (key : ConsumerKey) (state : ConsumerState)
  : option QualifiedGenerationBindingV1 :=
  slot ← rs_qualified_bindings r !! key;
  if decide (sl_state slot = QualifiedAndMatched) then
    accepted ← sl_accepted slot;
    if binding_matches (va_binding accepted) key (co_context state)
    then Some (va_binding accepted) else None
  else None.

(** [invalidate_binding_for_context_change]. *)
Definition invalidate_binding_for_context_change (key : ConsumerKey) (context : RelianceContextV1)
    (evaluated_at : Z) : rt unit :=
  r ← get_rt;
  match rs_qualified_bindings r !! key with
  | Some slot =>
      match sl_accepted slot with
      | Some accepted =>
          if matches_context (qb_generation_set (va_binding accepted)) context then mret tt
          else
            let detail := "reliance context changed without a matching fresh qualified activation" in
            upd (fun r => set_rs_qualified_bindings r
                   (<[key := set_slot_state slot Unbound]> (rs_qualified_bindings r)));;
            record_sparse evaluated_at
              (EvQualifiedGenerationBindingInvalidated (ck_consumer key)
                 (arc_receipt_digest (va_receipt accepted)) Unbound detail false);;
            push_trace (stamp evaluated_at +:+ "BINDING_INVALIDATED consumer=" +:+ ck_consumer key
                        +:+ " state=Unbound detail=" +:+ detail)
      | None => mret tt
      end
  | None => mret tt
  end.

(** The first owned measurement the activation did not qualify exactly. *)
Definition measurement_differs (qualified : list ArtifactMeasurementV1)
    (observed : ArtifactMeasurementV1) : bool :=
  match find (fun q => bool_decide (am_role q = am_role observed)) qualified with
  | None => true
  | Some q => negb (bool_decide (am_content_digest q = am_content_digest observed))
              || negb (am_byte_length q =? am_byte_length observed) || am_caller_supplied q
  end.

(** The verdict of [revalidated_qualified_binding] on one slot: the activation
    with its refreshed metadata, or the state and detail of its
    invalidation. *)
Definition revalidate_slot (accepted : VerifiedActivationV1) (key : ConsumerKey)
    (context : RelianceContextV1) (observed : list ArtifactMeasurementV1)
  : sys (VerifiedActivationV1 + RuntimeBindingStateV1 * string) :=
  if negb (binding_matches (va_binding accepted) key context) then
    mret (inr (Ambiguous, "active qualified generation does not match the evaluator context"))
  else
    checked ← sys_try (revalidate_executable accepted);
    match checked with
    | Err error => mret (inr (MutableAfterActivation, qualification_error_display error))
    | Ok accepted =>
        match find (measurement_differs (va_measurements accepted)) observed with
        | Some mismatch =>
            mret (inr (mismatch_state (am_role mismatch),
                       "owned active artifact " +:+ role_debug (am_role mismatch)
                       +:+ " changed after qualification activation"))
        | None => mret (inl accepted)
        end
    end.

Definition set_slot_accepted (slot : QualifiedBindingSlot) (accepted : VerifiedActivationV1)
  : QualifiedBindingSlot :=
  mkSlot (sl_state slot) (sl_receipt slot) (sl_acceptance slot) (Some accepted).

(** [revalidated_qualified_binding]. *)
Definition revalidated_qualified_binding (key : ConsumerKey) (state : ConsumerState)
    (evaluated_at : Z) : rt (option QualifiedGenerationBindingV1) :=
  r ← get_rt;
  let registration :=
    mkRegistration (ev_policy (co_evaluator state)) (co_context state)
      (ev_current_subject_incarnation (co_evaluator state)) in
  observed ← lift (map_err from_qualification
                     (active_runtime_measurements (rs_config r) registration));
  match rs_qualified_bindings r !! key with
  | None => mret None
  | Some slot =>
      if decide (sl_state slot = QualifiedAndMatched) then
        match sl_accepted slot with
        | None => mret None
        | Some accepted =>
            verdict ← lift_sys (revalidate_slot accepted key (co_context state) observed);
            match verdict with
            | inl accepted =>
                upd (fun r => set_rs_qualified_bindings r
                       (<[key := set_slot_accepted slot accepted]> (rs_qualified_bindings r)));;
                mret (Some (va_binding accepted))
            | inr (binding_state, detail) =>
                upd (fun r => set_rs_qualified_bindings r
                       (<[key := set_slot_state slot binding_state]> (rs_qualified_bindings r)));;
                upd (cancel_schedule key);;
                record_sparse evaluated_at
                  (EvQualifiedGenerationBindingInvalidated (ck_consumer key)
                     (arc_receipt_digest (va_receipt accepted)) binding_state detail false);;
                push_trace (stamp evaluated_at +:+ "BINDING_INVALIDATED consumer="
                            +:+ ck_consumer key +:+ " state=" +:+ binding_state_debug binding_state
                            +:+ " detail=" +:+ detail);;
                mret None
            end
        end
      else mret None
  end.

(* ------------------------------------------------------------------ *)
(** ** Certificates *)

(** The escalation part of [apply_evaluation]. *)
Definition dispatch_escalation (key : ConsumerKey) (prior_runtime_current : bool)
    (request : option DiagnosticEscalationRequestV1) (evaluated_at : Z) : rt unit :=
  match request with
  | None => mret tt
  | Some request =>
      r ← get_rt;
      if negb prior_runtime_current then
        push_trace (stamp evaluated_at +:+ "ESCALATION_SUPPRESSED consumer=" +:+ ck_consumer key
                    +:+ " reason=no_prior_runtime_supported_current")
      else if at_least (size (rs_request_owners r)) (bd_maximum_active_escalations (bounds r)) then
        push_refusal EscalationCapacity evaluated_at (Some (ck_subject key)) (Some (ck_consumer key))
          (bd_maximum_active_escalations (bounds r)) (len_plus_one (size (rs_request_owners r)))
          "active escalation request bound is full; request was not dispatched"
      else
        upd (fun r => set_rs_request_owners r
               (<[rq_request_id request := (key, rq_expires_at_monotonic_ms request)]>
                  (rs_request_owners r)));;
        push_output_request request
  end.

Definition certificate_is_current (c : option RelianceSupportCertificateV1) : bool :=
  match c with Some c => bool_decide (sc_judgment c = CatCurrent) | None => false end.

(** The custody references of the supporting evidence, sorted and unique. *)
Definition supporting_custody (r : Runtime) (scope : SubjectScopeV1) (evidence : list string)
  : list RemoteObservationCustodyReferenceV1 :=
  let entries :=
    foldr (fun '((subject, observer), custody) =>
             btree_insert key_compare (mkKey subject observer) custody)
      [] (map_to_list (rs_remote_observation_custody r)) in
  dedup_by_key custody_identity_digest
    (sort_by_key custody_identity_digest
       (filter (fun c => roc_subject_scope c = scope ∧ roc_supporting_evidence_id c ∈ evidence)
          entries.*2)).

(** The missing premises of [apply_evaluation]. *)
Definition missing_premises (j : PresentStateJudgmentV1) (judgment : JudgmentCategoryV1)
    (unbound : option RuntimeBindingStateV1) : list string :=
  dedup (sort_strings
    ((if decide (judgment = CatCurrent) then []
      else filter (fun code => code ≠ "named_reliance_conditions_satisfied") (reason_codes j))
     ++ match unbound with
        | Some state => ["qualified_generation_binding:" +:+ binding_state_debug state]
        | None => []
        end
     ++ ((fun tag => "coverage:" +:+ tag) <$> cs_missing (pj_coverage j)))).

Definition set_certificate_id (c : RelianceSupportCertificateV1) (id : SupportCertificateId)
  : RelianceSupportCertificateV1 :=
  mkCertificate (sc_schema_version c) id (sc_consumer c) (sc_subject_scope c) (sc_context c)
    (sc_qualified_generation c) (sc_evaluated_at_monotonic_ms c) (sc_receiver_clock_id c)
    (sc_judgment c) (sc_evidence_window_id c) (sc_supporting_evidence_ids c)
    (sc_remote_observation_custody c) (sc_missing_premises c) (sc_applicable_contradictions c)
    (sc_coverage c) (sc_earliest_support_expiry_monotonic_ms c)
    (sc_next_scheduled_reevaluation_monotonic_ms c) (sc_escalation c) (sc_mutation_authority c).

(** The certificate [apply_evaluation] builds, with its identity. *)
Definition build_certificate (r : Runtime) (key : ConsumerKey) (state : ConsumerState)
    (j : PresentStateJudgmentV1) (binding : option QualifiedGenerationBindingV1)
    (evaluated_at : Z) (evidence contradictions : list string)
    (custody : list RemoteObservationCustodyReferenceV1) : RelianceSupportCertificateV1 :=
  let unqualified := bool_decide (pj_category j = CatCurrent) && bool_decide (binding = None) in
  let judgment := if unqualified then CatUnknown else pj_category j in
  let missing :=
    missing_premises j judgment
      (if unqualified then Some (binding_state r (ck_subject key) (ck_consumer key)) else None) in
  let deadline :=
    if decide (judgment = CatCurrent) then pj_positive_support_expires_at_monotonic_ms j
    else None in
  let pending :=
    {| sc_schema_version := SCHEMA_VERSION_V1;
       sc_certificate_id := "pending";
       sc_consumer := ck_consumer key;
       sc_subject_scope := pj_subject_scope j;
       sc_context := co_context state;
       sc_qualified_generation := binding;
       sc_evaluated_at_monotonic_ms := evaluated_at;
       sc_receiver_clock_id := cf_clock_id (rs_config r);
       sc_judgment := judgment;
       sc_evidence_window_id := pj_evidence_window_id j;
       sc_supporting_evidence_ids := evidence;
       sc_remote_observation_custody := custody;
       sc_missing_premises := missing;
       sc_applicable_contradictions := contradictions;
       sc_coverage := pj_coverage j;
       sc_earliest_support_expiry_monotonic_ms := deadline;
       sc_next_scheduled_reevaluation_monotonic_ms := deadline;
       sc_escalation := pj_escalation j;
       sc_mutation_authority := MutationNone |} in
  set_certificate_id pending (certificate_compute_id pending).

Definition certificate_trace (c : RelianceSupportCertificateV1) (key : ConsumerKey)
    (evaluated_at : Z) : string :=
  stamp evaluated_at +:+ "CERTIFICATE consumer=" +:+ ck_consumer key +:+ " activation="
  +:+ cx_activation_id (sc_context c) +:+ " judgment=" +:+ category_as_str (sc_judgment c)
  +:+ " support_expires="
  +:+ match sc_earliest_support_expiry_monotonic_ms c with
      | Some value => dec value +:+ "ms"
      | None => "none"
      end
  +:+ " standing_inherited=false".

(** The schedule entry of a certificate with a deadline. *)
Definition schedule_certificate (key : ConsumerKey) (state : ConsumerState)
    (c : RelianceSupportCertificateV1) (r : Runtime) : Runtime :=
  match sc_earliest_support_expiry_monotonic_ms c with
  | None => r
  | Some deadline =>
      let schedule := mkSchedule deadline (ck_subject key) (ck_consumer key)
                        (cx_activation_id (co_context state)) in
      set_rs_metrics
        (set_rs_schedules r (btree_add schedule_compare schedule (rs_schedules r)))
        (set_rm_expected_support_expiry_monotonic_ms (rs_metrics r) (Some deadline))
  end.

(** The sum of the evaluators' deduplication counts (a [u64]). *)
Definition note_duplicate_escalations (r : Runtime) : Runtime :=
  set_rs_metrics r
    (set_rm_duplicate_escalation_count (rs_metrics r)
       (foldr (fun state total =>
                 em_escalation_deduplication_count (ev_metrics (co_evaluator state)) + total)
          0 (map_to_list (rs_consumers r)).*2 mod 2 ^ 64)).

Definition put_consumer (key : ConsumerKey) (state : ConsumerState) (r : Runtime) : Runtime :=
  set_rs_consumers r (<[key := state]> (rs_consumers r)).
Definition drop_consumer (key : ConsumerKey) (r : Runtime) : Runtime :=
  set_rs_consumers r (delete key (rs_consumers r)).

(** [apply_evaluation] from the point where the consumer has been taken out
    of the map: build, validate, schedule, store and record the certificate. *)
Definition issue_certificate (key : ConsumerKey) (state : ConsumerState)
    (j : PresentStateJudgmentV1) (binding : option QualifiedGenerationBindingV1)
    (evaluated_at : Z) (evidence contradictions : list string)
    (custody : list RemoteObservationCustodyReferenceV1) : rt unit :=
  r ← get_rt;
  let certificate :=
    build_certificate r key state j binding evaluated_at evidence contradictions custody in
  lift (map_err from_runtime_type (certificate_validate certificate));;
  upd (schedule_certificate key state certificate);;
  upd (put_consumer key (set_co_certificate state (Some certificate)));;
  push_output_certificate certificate;;
  (if decide (co_certificate state = Some certificate) then mret tt
   else record_sparse evaluated_at (EvSupportCertificateIssued certificate));;
  push_trace (certificate_trace certificate key evaluated_at);;
  upd note_duplicate_escalations.

(** [ReceiverSchedulerRuntime::apply_evaluation]. *)
Definition apply_evaluation (key : ConsumerKey) (evaluation : EvaluationOutput)
    (evaluated_at : Z) : rt unit :=
  r ← get_rt;
  let prior_runtime_current :=
    certificate_is_current (state ← rs_consumers r !! key; co_certificate state) in
  for_rt (fun event => record_sparse (se_at_monotonic_ms event) (se_event event))
    (eo_sparse_events evaluation);;
  dispatch_escalation key prior_runtime_current (eo_escalation_request evaluation) evaluated_at;;
  upd (account_due_schedule key evaluated_at);;
  upd (cancel_schedule key);;
  r ← get_rt;
  match rs_consumers r !! key with
  | None => throw_error "unknown_consumer" "evaluation consumer disappeared"
  | Some state =>
      upd (drop_consumer key);;
      let j := eo_judgment evaluation in
      let evidence :=
        dedup (sort_strings (supporting_evidence_refs (co_evaluator state) evaluated_at)) in
      let contradictions := dedup (sort_strings (active_contradiction_ids (co_evaluator state))) in
      let custody := supporting_custody r (pj_subject_scope j) evidence in
      if (bd_maximum_supporting_evidence_refs (bounds r) <? Z.of_nat (length evidence))
         || (MAX_CERTIFICATE_CONTRADICTIONS <? Z.of_nat (length contradictions)) then
        upd (put_consumer key (set_co_certificate state None));;
        push_refusal CertificateCapacity evaluated_at (Some (ck_subject key))
          (Some (ck_consumer key)) (bd_maximum_supporting_evidence_refs (bounds r))
          (len_u64 (Nat.max (length evidence) (length contradictions)))
          "support certificate references exceed their exact bound; no positive certificate was issued"
      else
        binding ←
          (if decide (pj_category j = CatCurrent)
           then revalidated_qualified_binding key state evaluated_at
           else mret (descriptive_qualified_binding r key state));
        issue_certificate key state j binding evaluated_at evidence contradictions custody
  end.

(** Take the consumer out, run an evaluator operation, put it back and apply
    the evaluation.  An evaluator error leaves the consumer out. *)
Definition evaluate_consumer (key : ConsumerKey) (missing : Failure)
    (operation : Evaluator → outcome) (before_apply : rt unit) (evaluated_at : Z) : rt unit :=
  r ← get_rt;
  match rs_consumers r !! key with
  | None => throw missing
  | Some state =>
      upd (drop_consumer key);;
      match operation (co_evaluator state) with
      | (evaluator, Ok evaluation) =>
          upd (put_consumer key (set_co_evaluator state evaluator));;
          before_apply;;
          apply_evaluation key evaluation evaluated_at
      | (_, Err error) => throw (Returned (from_evaluator error))
      end
  end.

(* ------------------------------------------------------------------ *)
(** ** Blindness *)

(** [latch_blind_consumer]: a failing certificate is dropped with its output. *)
Definition latch_blind_consumer (at_ms : Z) (detail : string) (r : Runtime) (key : ConsumerKey)
  : Runtime :=
  match rs_consumers r !! key with
  | None => r
  | Some state =>
      match record_monitor_input_drop (co_evaluator state) 1 at_ms detail with
      | (evaluator, Err _) => put_consumer key (set_co_evaluator state evaluator) r
      | (evaluator, Ok evaluation) =>
          let r := put_consumer key (set_co_evaluator state evaluator) r in
          match with_output
                  (apply_evaluation key evaluation (Z.max at_ms (rs_current_monotonic_ms r))) r with
          | (r, o, Ok _) => append_pending r o
          | (r, _, Err _) => r
          end
      end
  end.

Definition latch_blind_all (at_ms : Z) (detail : string) (r : Runtime) : Runtime :=
  fold_left (latch_blind_consumer at_ms detail) (consumer_keys r None) r.
Definition latch_blind_subject (subject : SubjectId) (at_ms : Z) (detail : string) (r : Runtime)
  : Runtime :=
  fold_left (latch_blind_consumer at_ms detail) (consumer_keys r (Some subject)) r.

(** [latch_history_blindness]. *)
Definition latch_history_blindness (at_ms : Z) (r : Runtime) : Runtime :=
  if rs_history_blindness_latched r then r
  else latch_blind_all at_ms "sparse historical custody capacity is exhausted"
         (set_rs_history_blindness_latched r true).

End runtime.
