(* ===== verification/RuntimeOps.v ===== *)
(** * The runtime's operations: [crates/pulse-runtime/src/lib.rs]

    Registration, the bounded input queue, input and deadline processing, the
    cycle [run_until], qualified bindings, history export and recovery. *)

From S2P Require Import Prelude Ids Digest Pulse Judgment Context Qualification Package.
From S2P Require Import Activation CustodyTypes.
From S2P Require Import Escalation Certificate Event Policy Receiver EvaluatorState Derive Explain.
From S2P Require Import Evaluator RuntimeState RuntimeArtifacts Runtime.

Section operations.
Context `{Sha256} `{FactJson} `{CustodyJson} `{RuntimeEnvironment}.

(* ------------------------------------------------------------------ *)
(** ** Guards *)

(** [validate_policy_context]. *)
Definition validate_policy_context (policy : ReliancePolicyV1) (context : RelianceContextV1)
  : result RuntimeError unit :=
  map_err from_runtime_type (context_validate context);;
  ensure (bool_decide (cx_reliance_policy_generation context = rl_generation policy)
          && bool_decide (cx_reliance_policy_semantic_digest context
                          = policy_semantic_digest policy)
          && bool_decide (cx_observation_policy_generation context
                          = rl_observation_policy_generation policy))
    (mkRuntimeError "context_binding_mismatch"
       "reliance context does not exactly bind the policy generation, body, and admitted observation generation").

Definition runtime_policy_validate (policy : ReliancePolicyV1) : result RuntimeError unit :=
  map_err (fun error => mkRuntimeError "invalid_policy" error) (policy_validate policy).

(** [validate_registration] and [validate_activation]. *)
Definition validate_registration (registration : ConsumerRegistrationV1)
  : result RuntimeError unit :=
  runtime_policy_validate (rg_policy registration);;
  runtime_identity "IncarnationId" (rg_subject_incarnation registration)
    "invalid subject incarnation";;
  validate_policy_context (rg_policy registration) (rg_context registration).
Definition validate_activation (activation : ConsumerActivationV1) : result RuntimeError unit :=
  runtime_policy_validate (ca_policy activation);;
  validate_policy_context (ca_policy activation) (ca_context activation).

(** [ensure_time_not_regressed]. *)
Definition ensure_time_not_regressed (at_ms : Z) : rt unit :=
  r ← get_rt;
  if at_ms <? rs_current_monotonic_ms r then
    upd (latch_blind_all (rs_current_monotonic_ms r)
           "runtime management time regressed within one clock generation");;
    throw_error "clock_regression" "runtime operation time regressed"
  else upd (fun r => set_rs_current_monotonic_ms r at_ms).

Definition ensure_history (detail : string) : rt unit :=
  r ← get_rt;
  if rs_history_exhausted r then throw_error "sparse_history_capacity" detail else mret tt.

(** [record_context_transition]. *)
Definition record_context_transition (key : ConsumerKey) (prior : option RelianceContextV1)
    (new : RelianceContextV1) (cause : GenerationTransitionCauseV1)
    (subject_incarnation : IncarnationId) (at_ms : Z) : rt unit :=
  r ← get_rt;
  let scope :=
    match rs_consumers r !! key with
    | Some state => rl_scope (ev_policy (co_evaluator state))
    | None => "unknown"
    end in
  record_sparse at_ms
    (EvRelianceContextTransition
       (mkContextTransition SCHEMA_VERSION_V1
          (mkSubjectScope (ck_subject key) subject_incarnation scope) (ck_consumer key)
          prior new cause at_ms false)).

(** [expect] on an operation the surrounding code guarantees. *)
Definition expect (message : string) : Failure := Panicked message.
Definition unknown_consumer (detail : string) : Failure :=
  Returned (mkRuntimeError "unknown_consumer" detail).

(* ------------------------------------------------------------------ *)
(** ** Registration *)

Definition registration_key (registration : ConsumerRegistrationV1) : ConsumerKey :=
  mkKey (rl_subject (rg_policy registration)) (rl_consumer (rg_policy registration)).
Definition policy_key (key : ConsumerKey) (policy : ReliancePolicyV1)
  : string * string * string :=
  (ck_subject key, ck_consumer key, rl_generation policy).

Definition subject_state (r : Runtime) (subject : SubjectId) : SubjectState :=
  default subject_default (rs_subjects r !! subject).

(** The capacity and identity guards of [register_consumer]; two of them
    count the refusal. *)
Definition registration_admissible (registration : ConsumerRegistrationV1) : rt unit :=
  r ← get_rt;
  let key := registration_key registration in
  let subject := ck_subject key in
  if decide (is_Some (rs_consumers r !! key)) then
    throw_error "consumer_exists" "consumer is already registered for the subject"
  else if negb (bool_decide (is_Some (rs_subjects r !! subject)))
          && at_least (size (rs_subjects r)) (bd_maximum_subjects (bounds r)) then
    upd (fun r => set_rs_metrics r (set_rm_subject_refusal_count (rs_metrics r)
                                      (sat_add (rm_subject_refusal_count (rs_metrics r)) 1)));;
    throw_error "subject_capacity" "subject cardinality bound is full"
  else if at_least (size (su_consumers (subject_state r subject)))
            (bd_maximum_consumers_per_subject (bounds r)) then
    throw_error "consumer_capacity" "consumer cardinality bound is full for the subject"
  else if at_least (size (rs_consumers r)) (bd_maximum_scheduled_deadlines (bounds r)) then
    upd (fun r => set_rs_metrics r (set_rm_deadline_refusal_count (rs_metrics r)
                                      (sat_add (rm_deadline_refusal_count (rs_metrics r)) 1)));;
    throw_error "scheduled_deadline_capacity" "no deadline slot can be reserved for another consumer"
  else if decide (cx_activation_id (rg_context registration) ∈ rs_historical_activation_ids r) then
    throw_error "reused_activation" "historical context activation identity cannot be reactivated"
  else
    match rs_historical_policy_bodies r !! policy_key key (rg_policy registration) with
    | Some digest =>
        if decide (digest = policy_semantic_digest (rg_policy registration)) then mret tt
        else throw_error "policy_generation_rebound"
               "historical reliance-policy generation identity names different semantic content"
    | None => mret tt
    end.

(** The bookkeeping of an admitted registration. *)
Definition store_registration (registration : ConsumerRegistrationV1) (evaluator : Evaluator)
    (r : Runtime) : Runtime :=
  let key := registration_key registration in
  let context := rg_context registration in
  let s := subject_state r (ck_subject key) in
  let r := put_consumer key (mkConsumer evaluator context {[cx_activation_id context]} None) r in
  let r := set_rs_subjects r
             (<[ck_subject key :=
                  mkSubjectState ({[ck_consumer key]} ∪ su_consumers s) (su_observers s)
                    ({[rg_subject_incarnation registration]} ∪ su_subject_incarnations s)]>
                (rs_subjects r)) in
  let r := set_rs_historical_activation_ids r
             ({[cx_activation_id context]} ∪ rs_historical_activation_ids r) in
  set_rs_historical_policy_bodies r
    (<[policy_key key (rg_policy registration) :=
         policy_semantic_digest (rg_policy registration)]> (rs_historical_policy_bodies r)).

(** [register_consumer], with its own output. *)
Definition register_consumer_rt (registration : ConsumerRegistrationV1) (at_ms : Z) : rt unit :=
  ensure_history "sparse historical custody is exhausted; registration is fail-stopped";;
  ensure_time_not_regressed at_ms;;
  lift (validate_registration registration);;
  registration_admissible registration;;
  r ← get_rt;
  evaluator ← lift (map_err from_evaluator
                      (evaluator_new (rg_policy registration) (cf_receiver (rs_config r))
                         (cf_receiver_incarnation (rs_config r)) (cf_clock_id (rs_config r))
                         (rg_subject_incarnation registration)));
  match install_reevaluation_barrier evaluator
          (GenerationTransition
             "initial exact reliance context activated; no prior standing exists") at_ms with
  | (_, Err error) => throw (Returned (from_evaluator error))
  | (evaluator, Ok evaluation) =>
      let key := registration_key registration in
      upd (store_registration registration evaluator);;
      record_context_transition key None (rg_context registration) InitialActivation
        (rg_subject_incarnation registration) at_ms;;
      apply_evaluation key evaluation at_ms
  end.

Definition finish (m : rt unit) (r : Runtime) : Runtime * result Failure RuntimeCycleOutputV1 :=
  match with_output m r with
  | (r, o, Ok _) => (r, Ok o)
  | (r, _, Err e) => (r, Err e)
  end.

Definition register_consumer (r : Runtime) (registration : ConsumerRegistrationV1) (at_ms : Z)
  : Runtime * result Failure RuntimeCycleOutputV1 :=
  finish (register_consumer_rt registration at_ms) r.

(* ------------------------------------------------------------------ *)
(** ** The input queue *)

(** A refusal staged for the next cycle. *)
Definition stage (r : Runtime) (class : RuntimeRefusalClassV1) (at_ms configured observed : Z)
    (detail : string) : Runtime * RuntimeRefusalV1 :=
  let '(r, made) := refusal r class at_ms None None configured observed detail in
  (stage_refusal r made, made).

(** [enqueue]: returns the ingress ordinal, or the refusal. *)
Definition enqueue (r : Runtime) (at_ms : Z) (input : RuntimeInputV1)
  : Runtime * result RuntimeRefusalV1 Z :=
  let now := rs_current_monotonic_ms r in
  if rs_history_exhausted r then
    let '(r, made) :=
      stage r RuntimeBlind now (bd_maximum_sparse_events (bounds r))
        (len_plus_one (length (rs_sparse_history r)))
        "sparse historical custody is exhausted; new runtime input is fail-stopped" in
    (latch_history_blindness now r, Err made)
  else if at_ms <? now then
    let '(r, made) :=
      stage r ClockRegression now now at_ms
        "input time regressed within one receiver clock generation" in
    (latch_blind_all now "input time regressed within one receiver clock generation" r, Err made)
  else if at_least (length (rs_pending r)) (bd_maximum_pending_inputs (bounds r)) then
    let r := set_rs_metrics r (set_rm_queue_refusal_count (rs_metrics r)
                                 (sat_add (rm_queue_refusal_count (rs_metrics r)) 1)) in
    let '(r, made) :=
      stage r PendingQueueCapacity at_ms (bd_maximum_pending_inputs (bounds r))
        (len_plus_one (length (rs_pending r)))
        "pending input queue is full; the new input was refused and monitor blindness latched" in
    (latch_blind_all at_ms
       "pending input queue saturated; at least one receiver input was not admitted" r, Err made)
  else if rs_ingress_counter r =? u64_max then
    let '(r, made) :=
      stage r RuntimeBlind at_ms u64_max u64_max
        "receiver ingress ordinal space is exhausted; input was refused" in
    (latch_blind_all at_ms "receiver ingress ordinal space is exhausted" r, Err made)
  else
    let ordinal := rs_ingress_counter r + 1 in
    let key := mkPendingKey at_ms (priority input) (ordering_subject input)
                 (ordering_discriminator input) ordinal in
    (set_rs_pending (set_rs_ingress_counter r ordinal)
       (btree_insert pending_compare key input (rs_pending r)), Ok ordinal).

(* ------------------------------------------------------------------ *)
(** ** Pulses *)

Definition stream_identity (f : PulseFrameV1) : ReceiverStreamIdentity :=
  mkStreamIdentity (pf_subject f) (pf_subject_incarnation f) (pf_observer f) (pf_profile f)
    (pf_observation_policy_generation f).
Definition lineage_key (f : PulseFrameV1) : string * string := (pf_subject f, pf_observer f).
Definition observer_incarnation_set (r : Runtime) (f : PulseFrameV1) : gset string :=
  default ∅ (rs_observer_incarnations r !! lineage_key f).

(** A capacity refusal of [process_pulse]: refuse and blind the subject. *)
Definition refuse_pulse (class : RuntimeRefusalClassV1) (subject : SubjectId) (evaluated_at : Z)
    (configured observed : Z) (detail blind_detail : string) : rt unit :=
  push_refusal class evaluated_at (Some subject) None configured observed detail;;
  upd (latch_blind_subject subject evaluated_at blind_detail).

(** The identities an admitted pulse adds to the receiver's history. *)
Definition note_pulse_identities (f : PulseFrameV1) (r : Runtime) : Runtime :=
  let s := subject_state r (pf_subject f) in
  let r := set_rs_subjects r
             (<[pf_subject f :=
                  mkSubjectState (su_consumers s) ({[pf_observer f]} ∪ su_observers s)
                    (su_subject_incarnations s)]> (rs_subjects r)) in
  let r := set_rs_receiver_streams r ({[stream_identity f]} ∪ rs_receiver_streams r) in
  set_rs_observer_incarnations r
    (<[lineage_key f := {[pf_observer_incarnation f]} ∪ observer_incarnation_set r f]>
       (rs_observer_incarnations r)).

(** The custody part of [process_pulse]. *)
Definition record_remote_custody (f : PulseFrameV1)
    (remote : option (RemoteObservationCustodyReferenceV1 * ReceiverAcceptanceReceiptV1))
    (evaluated_at : Z) : rt unit :=
  match remote with
  | None =>
      upd (fun r => set_rs_remote_observation_custody r
             (delete (lineage_key f) (rs_remote_observation_custody r)))
  | Some (custody, receipt) =>
      lift (map_err from_custody (custody_validate custody));;
      lift (map_err from_custody (acceptance_validate receipt));;
      if bool_decide (ss_subject (roc_subject_scope custody) = pf_subject f)
         && bool_decide (ss_subject_incarnation (roc_subject_scope custody)
                         = pf_subject_incarnation f)
         && bool_decide (roc_observer custody = pf_observer f)
         && (roc_observation_sequence custody =? pf_sequence f)
         && bool_decide (roc_observation_identity custody = pf_observation_digest f)
         && bool_decide (rar_accepted_evidence_identity receipt
                         = Some (roc_accepted_evidence_identity custody))
         && bool_decide (rar_envelope_digest receipt = Some (roc_envelope_digest custody)) then
        record_sparse evaluated_at (EvReceiverBoundaryAcceptanceRecorded receipt);;
        upd (fun r => set_rs_remote_observation_custody r
               (<[lineage_key f := custody]> (rs_remote_observation_custody r)))
      else throw_error "remote_custody_mismatch"
             "verified remote custody no longer matches the admitted pulse"
  end.

(** Ingest a received pulse for one consumer, when its policy observes the
    pulse's profile and generation. *)
Definition ingest_for (received : ReceivedPulseV1) (ingress_ordinal evaluated_at : Z)
    (key : ConsumerKey) : rt unit :=
  r ← get_rt;
  let f := rp_frame received in
  let compatible :=
    match rs_consumers r !! key with
    | Some state =>
        bool_decide (rl_observation_profile (ev_policy (co_evaluator state)) = pf_profile f)
        && bool_decide (rl_observation_policy_generation (ev_policy (co_evaluator state))
                        = pf_observation_policy_generation f)
    | None => false
    end in
  if compatible then
    evaluate_consumer key (expect "consumer exists") (fun e => ingest e received evaluated_at)
      (push_trace (stamp evaluated_at +:+ "PULSE ordinal=" +:+ dec ingress_ordinal +:+ " observer="
                   +:+ pf_observer f +:+ " sequence=" +:+ dec (pf_sequence f) +:+ " arrival="
                   +:+ dec (ra_arrival_monotonic_ms (rp_receiver received)) +:+ "ms"))
      evaluated_at
  else mret tt.

(** [process_pulse] once the identities fit their bounds. *)
Definition deliver_pulse (arrival_at ingress_ordinal : Z) (pulse : PulseIngressV1)
    (remote : option (RemoteObservationCustodyReferenceV1 * ReceiverAcceptanceReceiptV1))
    (evaluated_at : Z) : rt unit :=
  let f := pi_frame pulse in
  upd (note_pulse_identities f);;
  record_remote_custody f remote evaluated_at;;
  r ← get_rt;
  let '(tracker, annotated) :=
    annotate (rs_receiver r) f arrival_at (pi_transport_path pulse)
      (pi_transport_observed_delay_ms pulse) (pi_authentication pulse) in
  upd (fun r => set_rs_receiver r tracker);;
  annotation ← lift (map_err (fun e => mkRuntimeError "receiver_refusal" (pulse_error_display e))
                       annotated);
  for_rt (ingest_for (mkReceived f annotation) ingress_ordinal evaluated_at)
    (consumer_keys r (Some (pf_subject f))).

(** [ReceiverSchedulerRuntime::process_pulse]. *)
Definition process_pulse (arrival_at ingress_ordinal : Z) (pulse : PulseIngressV1)
    (remote : option (RemoteObservationCustodyReferenceV1 * ReceiverAcceptanceReceiptV1))
    (evaluated_at : Z) : rt unit :=
  r ← get_rt;
  let f := pi_frame pulse in
  let subject := pf_subject f in
  match rs_subjects r !! subject with
  | None =>
      push_refusal InvalidBinding evaluated_at (Some subject) None
        (bd_maximum_subjects (bounds r)) (len_plus_one (size (rs_subjects r)))
        "pulse subject has no registered consumer"
  | Some s =>
      if negb (bool_decide (pf_observer f ∈ su_observers s))
         && at_least (size (su_observers s)) (bd_maximum_observers_per_subject (bounds r)) then
        upd (fun r => set_rs_metrics r (set_rm_observer_refusal_count (rs_metrics r)
               (sat_add (rm_observer_refusal_count (rs_metrics r)) 1)));;
        refuse_pulse ObserverCapacity subject evaluated_at
          (bd_maximum_observers_per_subject (bounds r)) (len_plus_one (size (su_observers s)))
          "new observer identity refused at subject cardinality bound"
          "observer identity capacity was exceeded"
      else if negb (bool_decide (stream_identity f ∈ rs_receiver_streams r))
              && at_least (size (rs_receiver_streams r)) (bd_maximum_receiver_streams (bounds r)) then
        upd (fun r => set_rs_metrics r (set_rm_receiver_stream_refusal_count (rs_metrics r)
               (sat_add (rm_receiver_stream_refusal_count (rs_metrics r)) 1)));;
        refuse_pulse ReceiverStreamCapacity subject evaluated_at
          (bd_maximum_receiver_streams (bounds r)) (len_plus_one (size (rs_receiver_streams r)))
          "new receiver stream identity refused at capacity"
          "receiver stream identity capacity was exceeded"
      else if negb (bool_decide (pf_observer_incarnation f ∈ observer_incarnation_set r f))
              && at_least (size (observer_incarnation_set r f))
                   (bd_maximum_incarnations_per_observer (bounds r)) then
        refuse_pulse IncarnationHistoryCapacity subject evaluated_at
          (bd_maximum_incarnations_per_observer (bounds r))
          (len_plus_one (size (observer_incarnation_set r f)))
          "observer incarnation churn exceeded the receiver history bound"
          "observer incarnation history capacity was exceeded"
      else deliver_pulse arrival_at ingress_ordinal pulse remote evaluated_at
  end.

(** The ingress a verified remote observation is turned into. *)
Definition remote_ingress (verified : VerifiedRemoteObservationV1) : PulseIngressV1 :=
  mkIngress (vr_frame verified) "udp-authenticated-custody/v1" None
    (Verified "ed25519-pinned-custody/v1" (roc_sender_key_identity_digest (vr_custody verified))).

(* ------------------------------------------------------------------ *)
(** ** Context activation and subject replacement *)

(** A refused activation: count it, record it and blind the consumer. *)
Definition refuse_activation (counted : bool) (class : RuntimeRefusalClassV1) (key : ConsumerKey)
    (evaluated_at configured observed : Z) (detail blind_detail : string) : rt unit :=
  (if counted then
     upd (fun r => set_rs_metrics r (set_rm_context_refusal_count (rs_metrics r)
            (sat_add (rm_context_refusal_count (rs_metrics r)) 1)))
   else mret tt);;
  push_refusal class evaluated_at (Some (ck_subject key)) (Some (ck_consumer key))
    configured observed detail;;
  upd (fun r => latch_blind_consumer evaluated_at blind_detail r key).

(** The withdrawal latency of a context change that ended CURRENT. *)
Definition note_withdrawal (latency : Z) (r : Runtime) : Runtime :=
  let m := rs_metrics r in
  let m := set_rm_policy_transition_withdrawal_latency_ms m
             (Z.max (rm_policy_transition_withdrawal_latency_ms m) latency) in
  set_rs_metrics r (set_rm_maximum_stale_positive_duration_ms m
                      (Z.max (rm_maximum_stale_positive_duration_ms m) latency)).

(** [activate_consumer] past its refusals: the state has been taken out. *)
Definition install_context (logical_at : Z) (activation : ConsumerActivationV1) (key : ConsumerKey)
    (state : ConsumerState) (evaluated_at : Z) : rt unit :=
  let context := ca_context activation in
  let policy := ca_policy activation in
  upd (drop_consumer key);;
  invalidate_binding_for_context_change key context evaluated_at;;
  let prior_context := co_context state in
  let prior_was_current := certificate_is_current (co_certificate state) in
  match replace_policy (co_evaluator state) policy
          (GenerationTransition
             ("exact reliance context changed from " +:+ cx_activation_id prior_context +:+ " to "
              +:+ cx_activation_id context +:+ "; prior CURRENT was not inherited"))
          evaluated_at with
  | (_, Err error) => throw (Returned (from_evaluator error))
  | (evaluator, Ok evaluation) =>
      upd (put_consumer key
             (mkConsumer evaluator context
                ({[cx_activation_id context]} ∪ co_seen_activations state)
                (co_certificate state)));;
      upd (fun r => set_rs_historical_activation_ids r
             ({[cx_activation_id context]} ∪ rs_historical_activation_ids r));;
      upd (fun r => set_rs_historical_policy_bodies r
             (<[policy_key key policy := policy_semantic_digest policy]>
                (rs_historical_policy_bodies r)));;
      upd (cancel_schedule key);;
      (if prior_was_current then upd (note_withdrawal (sat_sub evaluated_at logical_at))
       else mret tt);;
      record_context_transition key (Some prior_context) context (ca_cause activation)
        (ev_current_subject_incarnation evaluator) evaluated_at;;
      push_trace (stamp evaluated_at +:+ "CONTEXT consumer=" +:+ ck_consumer key +:+ " cause="
                  +:+ cause_debug (ca_cause activation) +:+ " standing_inherited=false");;
      apply_evaluation key evaluation evaluated_at
  end.

(** [ReceiverSchedulerRuntime::activate_consumer]. *)
Definition activate_consumer (logical_at : Z) (activation : ConsumerActivationV1)
    (evaluated_at : Z) : rt unit :=
  lift (validate_activation activation);;
  r ← get_rt;
  let policy := ca_policy activation in
  let key := mkKey (rl_subject policy) (rl_consumer policy) in
  let activation_id := cx_activation_id (ca_context activation) in
  let maximum := bd_maximum_context_activations_per_consumer (bounds r) in
  match rs_consumers r !! key with
  | None => throw (unknown_consumer "activation consumer is not registered")
  | Some state =>
      if decide (activation_id ∈ co_seen_activations state
                 ∨ activation_id ∈ rs_historical_activation_ids r) then
        refuse_activation true ReusedActivation key evaluated_at maximum
          (len_u64 (size (co_seen_activations state)))
          "context activation identity was already used; standing was withdrawn"
          "reused context activation identity was refused"
      else if at_least (size (co_seen_activations state)) maximum then
        refuse_activation true ContextHistoryCapacity key evaluated_at maximum (maximum + 1)
          "consumer context activation history is full"
          "consumer context history capacity was exceeded"
      else
        match rs_historical_policy_bodies r !! policy_key key policy with
        | Some existing =>
            if decide (existing = policy_semantic_digest policy) then
              install_context logical_at activation key state evaluated_at
            else
              refuse_activation false InvalidBinding key evaluated_at 1 2
                "one reliance-policy generation identity was rebound to different semantic content"
                "reliance-policy generation identity was rebound"
        | None => install_context logical_at activation key state evaluated_at
        end
  end.

(** One consumer's part of a subject replacement. *)
Definition replace_for_consumer (logical_at : Z) (subject : SubjectId)
    (replacement : IncarnationId) (evaluated_at : Z) (activation : ConsumerActivationV1)
  : rt unit :=
  let key := mkKey subject (rl_consumer (ca_policy activation)) in
  r ← get_rt;
  let prior_activation :=
    match rs_consumers r !! key with
    | Some state => cx_activation_id (co_context state)
    | None => ""
    end in
  evaluate_consumer key (expect "consumer exists")
    (fun e => replace_subject_incarnation e replacement evaluated_at)
    (upd (cancel_schedule key)) evaluated_at;;
  activate_consumer logical_at activation evaluated_at;;
  push_trace (stamp evaluated_at +:+ "SUBJECT consumer=" +:+ ck_consumer key
              +:+ " prior_activation=" +:+ prior_activation +:+ " replacement=" +:+ replacement
              +:+ " standing_inherited=false").

(** [windows(2).any(|pair| pair[0] == pair[1])]. *)
Fixpoint adjacent_equal (xs : list string) : bool :=
  match xs with
  | x :: ((y :: _) as rest) => bool_decide (x = y) || adjacent_equal rest
  | _ => false
  end.

Definition activation_for_subject (subject : SubjectId) (activation : ConsumerActivationV1)
  : rt unit :=
  lift (validate_activation activation);;
  if decide (rl_subject (ca_policy activation) = subject) then mret tt
  else throw_error "subject_mismatch" "subject replacement activation names another subject".

(** [ReceiverSchedulerRuntime::replace_subject_incarnation]. *)
Definition runtime_replace_subject (logical_at : Z) (subject : SubjectId)
    (replacement : IncarnationId) (activations : list ConsumerActivationV1) (evaluated_at : Z)
  : rt unit :=
  lift (runtime_identity "IncarnationId" replacement "invalid subject incarnation");;
  r ← get_rt;
  match rs_subjects r !! subject with
  | None => throw_error "unknown_subject" "subject replacement target is unknown"
  | Some s =>
      if negb (bool_decide (replacement ∈ su_subject_incarnations s))
         && at_least (size (su_subject_incarnations s))
              (bd_maximum_subject_incarnations_per_subject (bounds r)) then
        push_refusal IncarnationHistoryCapacity evaluated_at (Some subject) None
          (bd_maximum_subject_incarnations_per_subject (bounds r))
          (len_plus_one (size (su_subject_incarnations s)))
          "subject incarnation history bound is full";;
        upd (latch_blind_subject subject evaluated_at
               "subject incarnation history capacity was exceeded")
      else
        let consumer_of := fun a => rl_consumer (ca_policy a) in
        let activations := sort_by_key consumer_of activations in
        let supplied := consumer_of <$> activations in
        if negb (bool_decide (sort_strings (elements (su_consumers s)) = supplied))
           || adjacent_equal supplied then
          throw_error "incomplete_subject_transition"
            "subject replacement must activate every registered consumer exactly once"
        else
          for_rt (activation_for_subject subject) activations;;
          let '(tracker, activated) :=
            activate_subject_incarnation (rs_receiver r) subject replacement in
          upd (fun r => set_rs_receiver r tracker);;
          lift (map_err (fun e => mkRuntimeError "receiver_refusal" (pulse_error_display e))
                  activated);;
          for_rt (replace_for_consumer logical_at subject replacement evaluated_at) activations;;
          upd (fun r =>
                 let s := subject_state r subject in
                 set_rs_subjects r
                   (<[subject := mkSubjectState (su_consumers s) (su_observers s)
                                   ({[replacement]} ∪ su_subject_incarnations s)]>
                      (rs_subjects r)))
  end.

(* ------------------------------------------------------------------ *)
(** ** Inputs and deadlines *)

Definition owner_of (r : Runtime) (request_id : EscalationRequestId) : option ConsumerKey :=
  fst <$> rs_request_owners r !! request_id.

Definition no_active_request (evaluated_at : Z) (subject : option SubjectId)
    (consumer : option ConsumerId) (detail : string) : rt unit :=
  push_refusal InvalidBinding evaluated_at subject consumer 0 1 detail.

(** [RuntimeInputV1::EscalationDisposition]. *)
Definition process_disposition (disposition : EscalationDispositionV1) (evaluated_at : Z)
  : rt unit :=
  r ← get_rt;
  match owner_of r (ed_request_id disposition) with
  | None => no_active_request evaluated_at None None
              "escalation disposition references no active runtime request"
  | Some owner =>
      evaluate_consumer owner (expect "request owner consumer exists")
        (fun e => record_escalation_disposition e disposition evaluated_at) (mret tt) evaluated_at
  end.

(** [RuntimeInputV1::DiagnosticReceipt]. *)
Definition process_receipt (receipt : MockDiagnosticReceiptV1) (evaluated_at : Z) : rt unit :=
  r ← get_rt;
  let subject := ss_subject (rc_subject_scope receipt) in
  if at_least (length (rs_diagnostic_receipts r)) (bd_maximum_diagnostic_receipts (bounds r)) then
    push_refusal ReceiptHistoryCapacity evaluated_at (Some subject) (Some (rc_consumer receipt))
      (bd_maximum_diagnostic_receipts (bounds r)) (len_plus_one (length (rs_diagnostic_receipts r)))
      "diagnostic receipt custody bound is full";;
    upd (latch_blind_subject subject evaluated_at
           "diagnostic receipt custody was refused at capacity")
  else
    match owner_of r (rc_request_id receipt) with
    | None => no_active_request evaluated_at (Some subject) (Some (rc_consumer receipt))
                "diagnostic receipt references no active runtime request"
    | Some owner =>
        evaluate_consumer owner (expect "request owner consumer exists")
          (fun e => record_diagnostic_receipt e receipt evaluated_at)
          (upd (fun r => set_rs_diagnostic_receipts r (rs_diagnostic_receipts r ++ [receipt])))
          evaluated_at
    end.

(** [RuntimeInputV1::RevalidateTransportActivation]. *)
Definition process_revalidation (key : ConsumerKey) (policy : TransportCustodyPolicyBindingV1)
    (evaluated_at : Z) : rt unit :=
  r ← get_rt;
  if decide (cf_transport_custody_policy (rs_config r) = Some policy) then
    match rs_consumers r !! key with
    | None => throw (unknown_consumer "transport activation consumer is unknown")
    | Some state =>
        upd (drop_consumer key);;
        revalidated_qualified_binding key state evaluated_at;;
        match tick (co_evaluator state) evaluated_at with
        | (_, Err error) => throw (Returned (from_evaluator error))
        | (evaluator, Ok evaluation) =>
            upd (put_consumer key (set_co_evaluator state evaluator));;
            apply_evaluation key evaluation evaluated_at
        end
    end
  else throw_error "transport_policy_mismatch"
         "transport revalidation policy differs from the activated runtime configuration".

(** [RuntimeInputV1::ReceiverBoundaryCondition]. *)
Definition process_boundary (subject : option SubjectId) (finding : TransportCustodyFindingV1)
    (session : option DigestV1) (detail : string) (withdraw : bool) (evaluated_at : Z) : rt unit :=
  if (slen detail =? 0) || (256 <? slen detail) || has_control detail then
    throw_error "invalid_receiver_boundary_condition"
      "receiver-boundary condition detail is empty, over-bound, or contains control characters"
  else
    record_sparse evaluated_at (EvReceiverBoundaryCustodyChanged finding session detail);;
    push_trace (stamp evaluated_at +:+ "RECEIVER_BOUNDARY state=" +:+ finding_debug finding
                +:+ " detail=" +:+ detail);;
    if withdraw then
      upd match subject with
          | Some subject => latch_blind_subject subject evaluated_at detail
          | None => latch_blind_all evaluated_at detail
          end;;
      drain_pending
    else mret tt.

(** [RuntimeInputV1::RestoreMonitorCapability]. *)
Definition process_restore (subject : option SubjectId) (detail : string) (evaluated_at : Z)
  : rt unit :=
  r ← get_rt;
  for_rt (fun key =>
            evaluate_consumer key (expect "consumer exists")
              (fun e => restore_monitor_capability e evaluated_at detail) (mret tt) evaluated_at)
    (consumer_keys r subject);;
  push_trace (stamp evaluated_at +:+ "MONITOR operational detail=" +:+ detail
              +:+ "; explicit reevaluation still governs standing").

(** [ReceiverSchedulerRuntime::process_input]. *)
Definition process_input (logical_at ingress_ordinal : Z) (input : RuntimeInputV1)
    (evaluated_at : Z) : rt unit :=
  match input with
  | ActivateConsumer activation => activate_consumer logical_at activation evaluated_at
  | ReplaceSubjectIncarnation subject replacement activations =>
      runtime_replace_subject logical_at subject replacement activations evaluated_at
  | PulseInput pulse => process_pulse logical_at ingress_ordinal pulse None evaluated_at
  | RemotePulse verified =>
      process_pulse (roc_receiver_arrival_monotonic_ms (vr_custody verified)) ingress_ordinal
        (remote_ingress verified) (Some (vr_custody verified, vr_receipt verified)) evaluated_at
  | DispositionInput disposition => process_disposition disposition evaluated_at
  | ReceiptInput receipt => process_receipt receipt evaluated_at
  | Reevaluate subject consumer =>
      evaluate_consumer (mkKey subject consumer)
        (unknown_consumer "reevaluation consumer is unknown")
        (fun e => tick e evaluated_at) (mret tt) evaluated_at
  | RevalidateTransportActivation subject consumer policy =>
      process_revalidation (mkKey subject consumer) policy evaluated_at
  | ReceiverBoundaryCondition subject finding session detail withdraw =>
      process_boundary subject finding session detail withdraw evaluated_at
  | RestoreMonitorCapability subject detail => process_restore subject detail evaluated_at
  end.

(** The records of a deadline reevaluation, between tick and certificate. *)
Definition note_deadline (key : ConsumerKey) (s : ScheduleKey) (evaluated_at : Z) : rt unit :=
  let deadline := sk_deadline_monotonic_ms s in
  let overshoot := sat_sub evaluated_at deadline in
  upd (fun r => note_overshoot r deadline evaluated_at);;
  record_sparse evaluated_at
    (EvSchedulerReevaluated (ck_consumer key) (sch_activation_id s) deadline evaluated_at overshoot);;
  push_trace (stamp evaluated_at +:+ "DEADLINE consumer=" +:+ ck_consumer key +:+ " expected="
              +:+ dec deadline +:+ "ms actual=" +:+ dec evaluated_at +:+ "ms overshoot="
              +:+ dec overshoot +:+ "ms").

(** [ReceiverSchedulerRuntime::process_deadline]. *)
Definition process_deadline (s : ScheduleKey) (evaluated_at : Z) : rt unit :=
  r ← get_rt;
  let key := mkKey (sch_subject s) (sch_consumer s) in
  match rs_consumers r !! key with
  | None => mret tt
  | Some state =>
      if decide (cx_activation_id (co_context state) = sch_activation_id s) then
        evaluate_consumer key (expect "consumer exists") (fun e => tick e evaluated_at)
          (note_deadline key s evaluated_at) evaluated_at
      else mret tt
  end.

(* ------------------------------------------------------------------ *)
(** ** The cycle *)

(** Whether the next pending input goes before the next due deadline. *)
Definition pending_first (p : PendingKey) (s : ScheduleKey) : bool :=
  match lex (pk_at_monotonic_ms p ?= sk_deadline_monotonic_ms s)
          (lex (pk_priority p ?= 1)
             (lex (String.compare (pk_subject p) (sch_subject s))
                (String.compare (pk_discriminator p) (sch_consumer s)))) with
  | Gt => false
  | _ => true
  end.

(** The item the loop takes next: a due input, a due deadline, or nothing. *)
Definition next_item (r : Runtime) (now : Z) : option (PendingKey * RuntimeInputV1 + ScheduleKey) :=
  let next_pending :=
    match rs_pending r with
    | (key, input) :: _ => if pk_at_monotonic_ms key <=? now then Some (key, input) else None
    | [] => None
    end in
  let next_schedule :=
    match rs_schedules r with
    | s :: _ => if sk_deadline_monotonic_ms s <=? now then Some s else None
    | [] => None
    end in
  match next_pending, next_schedule with
  | None, None => None
  | Some p, None => Some (inl p)
  | None, Some s => Some (inr s)
  | Some (key, input), Some s =>
      if pending_first key s then Some (inl (key, input)) else Some (inr s)
  end.

(** One iteration: take the item out and process it. *)
Definition cycle_step (now : Z) (item : PendingKey * RuntimeInputV1 + ScheduleKey) : rt unit :=
  match item with
  | inl (key, input) =>
      upd (fun r => set_rs_pending r (tail (rs_pending r)));;
      process_input (pk_at_monotonic_ms key) (pk_ingress_ordinal key) input now
  | inr s =>
      upd (fun r => set_rs_schedules r (tail (rs_schedules r)));;
      process_deadline s now
  end.

Fixpoint run_loop (fuel : nat) (now : Z) : rt unit :=
  r ← get_rt;
  match next_item r now with
  | None => mret tt
  | Some item =>
      match fuel with
      | O => throw OutOfFuel
      | S fuel' => cycle_step now item;; run_loop fuel' now
      end
  end.

(** Each iteration takes one item and adds none that is due, so the items
    present bound the iterations. *)
Definition loop_fuel (r : Runtime) : nat := length (rs_pending r) + length (rs_schedules r).

(** [run_until] for a time that does not regress. *)
Definition run_cycle (now : Z) : rt unit :=
  upd (fun r => set_rs_current_monotonic_ms r now);;
  upd (fun r => set_rs_request_owners r
         (filter (fun '(_, (_, expiry)) => now < expiry) (rs_request_owners r)));;
  drain_pending;;
  r ← get_rt;
  run_loop (loop_fuel r) now;;
  r ← get_rt;
  if rs_history_exhausted r then upd (latch_history_blindness now);; drain_pending else mret tt.

(** [ReceiverSchedulerRuntime::run_until]. *)
Definition run_until (r : Runtime) (now : Z) : Runtime * result Failure RuntimeCycleOutputV1 :=
  let at_ms := rs_current_monotonic_ms r in
  if now <? at_ms then
    let '(r, _) :=
      stage r ClockRegression at_ms at_ms now
        "scheduler time regressed within one receiver clock generation" in
    let r := latch_blind_all at_ms "scheduler monotonic clock regressed" r in
    (set_rs_pending_output r cycle_default, Ok (rs_pending_output r))
  else finish (run_cycle now) r.

(* ------------------------------------------------------------------ *)
(** ** Qualified bindings and external blindness *)

(** Evaluate an already registered consumer behind a barrier. *)
Definition barrier_if_registered (key : ConsumerKey) (barrier : ReevaluationBarrierV1) (at_ms : Z)
  : rt unit :=
  r ← get_rt;
  match rs_consumers r !! key with
  | None => mret tt
  | Some _ =>
      evaluate_consumer key (expect "consumer exists")
        (fun e => install_reevaluation_barrier e barrier at_ms) (mret tt) at_ms
  end.

(** Room for the key's slot: [checked_mul] and the slot bound. *)
Definition binding_slot_admissible (key : ConsumerKey) : rt unit :=
  r ← get_rt;
  let maximum := bd_maximum_subjects (bounds r) * bd_maximum_consumers_per_subject (bounds r) in
  if u64_max <? maximum then throw_error "invalid_bounds" "binding slot bound overflow"
  else if negb (bool_decide (is_Some (rs_qualified_bindings r !! key)))
          && at_least (size (rs_qualified_bindings r)) maximum then
    throw_error "qualified_binding_capacity"
      "qualified binding slot bound is full; no entry was evicted"
  else mret tt.

(** [activate_qualified_binding]. *)
Definition activate_binding_rt (registration : ConsumerRegistrationV1)
    (manifest certificate report : option string) (acceptance : LocalActivationAcceptanceV1)
    (at_ms : Z) : rt ActivationReceiptV1 :=
  ensure_history "sparse historical custody is exhausted; binding is fail-stopped";;
  ensure_time_not_regressed at_ms;;
  lift (validate_registration registration);;
  let key := registration_key registration in
  binding_slot_admissible key;;
  r ← get_rt;
  measurements ← lift (map_err from_qualification
                         (active_runtime_measurements (rs_config r) registration));
  attempt ← lift_sys (verify_local_activation manifest certificate report acceptance
       {| lc_expected_generation_set :=
            generation_set_from_context (ck_subject key) (ck_consumer key) (rg_context registration);
          lc_receiver_incarnation := cf_receiver_incarnation (rs_config r);
          lc_receiver_clock_id := cf_clock_id (rs_config r);
          lc_activated_at_monotonic_ms := at_ms;
          lc_runtime_version := runtime_version;
          lc_target_platform := target_platform;
          lc_semantic_measurements := measurements |});
  let receipt := lat_receipt attempt in
  let state := rb_state (arc_body receipt) in
  upd (fun r => set_rs_qualified_bindings r
         (<[key := mkSlot state receipt acceptance (lat_accepted attempt)]>
            (rs_qualified_bindings r)));;
  drain_pending;;
  record_sparse at_ms (EvQualifiedGenerationBindingChanged receipt);;
  upd (cancel_schedule key);;
  barrier_if_registered key
    (QualifiedGenerationBinding
       ("qualified-generation activation result is " +:+ binding_state_debug state
        +:+ "; prior standing is not inherited")) at_ms;;
  push_trace (stamp at_ms +:+ "BINDING consumer=" +:+ ck_consumer key +:+ " state="
              +:+ binding_state_debug state +:+ " receipt=" +:+ arc_receipt_digest receipt
              +:+ " standing_inherited=false");;
  drain_pending;;
  mret receipt.

Definition activate_qualified_binding (r : Runtime) (registration : ConsumerRegistrationV1)
    (manifest certificate report : option string) (acceptance : LocalActivationAcceptanceV1)
    (at_ms : Z) : Runtime * result Failure (ActivationReceiptV1 * RuntimeCycleOutputV1) :=
  match with_output
          (activate_binding_rt registration manifest certificate report acceptance at_ms) r with
  | (r, o, Ok receipt) => (r, Ok (receipt, o))
  | (r, _, Err e) => (r, Err e)
  end.

(** [qualify_and_activate_local_binding]: assemble a package and put it through
    the same gate. *)
Definition qualify_and_activate_local_binding (r : Runtime)
    (registration : ConsumerRegistrationV1) (inputs : LocalQualificationInputsV1) (at_ms : Z)
  : Runtime * result Failure
      (LocalQualificationPackageV1 * (ActivationReceiptV1 * RuntimeCycleOutputV1)) :=
  let '(p, built) := build_local_qualification_package (rs_config r) registration inputs
                       (rs_process r) in
  let r := set_rs_process r p in
  match built with
  | Err error => (r, Err (from_activation error))
  | Ok package =>
      match (manifest ← manifest_canonical_bytes (qp_manifest package);
             certificate ← qualification_certificate_canonical_bytes (qp_certificate package);
             report ← report_canonical_bytes (qp_report package);
             Ok (manifest, certificate, report)) with
      | Err error => (r, Err (Returned (from_qualification error)))
      | Ok (manifest, certificate, report) =>
          match activate_qualified_binding r registration (Some manifest) (Some certificate)
                  (Some report) (qp_acceptance package) at_ms with
          | (r, Ok activation) => (r, Ok (package, activation))
          | (r, Err error) => (r, Err error)
          end
      end
  end.

Definition lifecycle_state (kind : GenerationLifecycleKindV1) : RuntimeBindingStateV1 :=
  match kind with KindSuperseded => StateSuperseded | KindRevoked => StateRevoked end.
Definition lifecycle_status (fact : GenerationLifecycleFactV1) : LocalCertificateStatusV1 :=
  match fb_kind (lf_body fact) with
  | KindSuperseded => StatusSuperseded fact
  | KindRevoked => StatusRevoked fact
  end.

(** The slot after an accepted lifecycle fact. *)
Definition terminated_slot (slot : QualifiedBindingSlot) (fact : GenerationLifecycleFactV1)
  : QualifiedBindingSlot :=
  let a := sl_acceptance slot in
  mkSlot (lifecycle_state (fb_kind (lf_body fact))) (sl_receipt slot)
    (mkAcceptance (la_schema_version a) (la_accepted_certificate_digest a)
       (la_lifecycle_authority_id a) (lifecycle_status fact)
       (la_pinned_superseded_activation_allowed a) (la_authority_grants a))
    None.

(** [apply_generation_lifecycle_fact]. *)
Definition apply_lifecycle_rt (key : ConsumerKey) (fact : GenerationLifecycleFactV1) (at_ms : Z)
  : rt unit :=
  ensure_history "sparse historical custody is exhausted; lifecycle change is fail-stopped";;
  ensure_time_not_regressed at_ms;;
  lift (map_err from_qualification (fact_validate fact));;
  r ← get_rt;
  match rs_qualified_bindings r !! key with
  | None => throw_error "unbound_generation"
              "no active local binding exists for this lifecycle fact"
  | Some slot =>
      let acceptance := sl_acceptance slot in
      let body := lf_body fact in
      match la_certificate_status acceptance with
      | StatusAccepted observed_through =>
          if negb (bool_decide (fb_authority_id body = la_lifecycle_authority_id acceptance))
             || negb (bool_decide (fb_certificate_digest body
                                   = la_accepted_certificate_digest acceptance))
             || (fb_fact_sequence body <=? observed_through) then
            throw_error "lifecycle_authority_mismatch"
              "fact authority, certificate, or sequence is not accepted by local policy"
          else
            let state := lifecycle_state (fb_kind body) in
            upd (fun r => set_rs_qualified_bindings r
                   (<[key := terminated_slot slot fact]> (rs_qualified_bindings r)));;
            upd (cancel_schedule key);;
            drain_pending;;
            record_sparse at_ms
              (EvQualifiedGenerationLifecycleApplied (ck_consumer key) fact state false);;
            barrier_if_registered key
              (QualifiedGenerationBinding
                 ("accepted local lifecycle fact changed binding to "
                  +:+ binding_state_debug state)) at_ms;;
            push_trace (stamp at_ms +:+ "LIFECYCLE consumer=" +:+ ck_consumer key +:+ " state="
                        +:+ binding_state_debug state +:+ " standing_preserved=false");;
            drain_pending
      | _ => throw_error "lifecycle_already_terminal"
               "binding lifecycle is already superseded, revoked, or unknown"
      end
  end.

Definition apply_generation_lifecycle_fact (r : Runtime) (subject : SubjectId)
    (consumer : ConsumerId) (fact : GenerationLifecycleFactV1) (at_ms : Z)
  : Runtime * result Failure RuntimeCycleOutputV1 :=
  finish (apply_lifecycle_rt (mkKey subject consumer) fact at_ms) r.

(** [declare_external_monitor_blindness]. *)
Definition declare_external_monitor_blindness (r : Runtime) (at_ms : Z) (state detail : string)
  : Runtime * result Failure RuntimeCycleOutputV1 :=
  finish
    (ensure_time_not_regressed at_ms;;
     drain_pending;;
     record_sparse at_ms (EvMonitorCapabilityChanged state detail);;
     upd (latch_blind_all at_ms detail);;
     drain_pending) r.

End operations.
