(* ===== verification/RuntimeHistory.v ===== *)
(** * History and restart: [export_history] and [recover] of
    [crates/pulse-runtime/src/lib.rs]

    What a restart carries over is history: events, contradiction custody and
    receipts.  Pulses, lineages, certificates and schedules are not in it. *)

From S2P Require Import Prelude Ids Digest Pulse Judgment Context Qualification Package.
From S2P Require Import Activation CustodyTypes.
From S2P Require Import Escalation Certificate Event Policy Receiver EvaluatorState Derive Explain.
From S2P Require Import Evaluator RuntimeState RuntimeArtifacts Runtime RuntimeOps.

Section history.
Context `{Sha256} `{FactJson} `{CustodyJson} `{RuntimeEnvironment}.

(** The key of the export's [BTreeMap]. *)
Definition custody_key (c : ContradictionCustodyV1) : string * string * string :=
  (ss_subject (cr_subject_scope (cu_contradiction c)), cu_consumer c,
   cr_contradiction_id (cu_contradiction c)).
Definition triple_compare (a b : string * string * string) : comparison :=
  lex (String.compare a.1.1 b.1.1)
    (lex (String.compare a.1.2 b.1.2) (String.compare a.2 b.2)).
Definition insert_custody (entries : list (string * string * string * ContradictionCustodyV1))
    (c : ContradictionCustodyV1) : list (string * string * string * ContradictionCustodyV1) :=
  btree_insert triple_compare (custody_key c) c entries.

(** The applicability of an evaluator's record. *)
Definition record_applicability (e : Evaluator) (record : ContradictionRecordV1)
  : ContradictionApplicabilityV1 :=
  match cr_status record with
  | InapplicableBySubjectReplacement prior replacement at_ms rule =>
      ApplicabilityReplaced prior replacement at_ms rule
  | _ =>
      Applicable (ss_subject_incarnation (cr_subject_scope record))
        (contradiction_is_active record
         && bool_decide (ss_subject_incarnation (cr_subject_scope record)
                         = ev_current_subject_incarnation e))
  end.

Definition consumer_custody (key : ConsumerKey) (state : ConsumerState)
  : list ContradictionCustodyV1 :=
  (fun record =>
     mkContradictionCustody SCHEMA_VERSION_V1 (ck_consumer key) record
       (record_applicability (co_evaluator state) record))
    <$> bt_values (ev_contradictions (co_evaluator state)).

(** [ReceiverSchedulerRuntime::export_history]. *)
Definition export_history (r : Runtime) : RuntimeHistoricalStateV1 :=
  let exported :=
    flat_map (fun key => match rs_consumers r !! key with
                         | Some state => consumer_custody key state
                         | None => []
                         end) (sorted_keys r) in
  let contradictions :=
    fold_left insert_custody (rs_historical_contradictions r ++ exported) [] in
  {| hs_schema_version := SCHEMA_VERSION_V1;
     hs_sparse_events := rs_sparse_history r;
     hs_contradictions := contradictions.*2;
     hs_diagnostic_receipts := rs_diagnostic_receipts r;
     hs_nonclaims := history_nonclaims |}.

(** The activation identities and policy bodies that past events name. *)
Definition recall_event (event : SparseDurableEventV1) : rt unit :=
  match se_event event with
  | EvRelianceContextTransition transition =>
      let context := ct_new_context transition in
      let digest := cx_reliance_policy_semantic_digest context in
      let body_key := (ss_subject (ct_subject_scope transition), ct_consumer transition,
                       cx_reliance_policy_generation context) in
      upd (fun r => set_rs_historical_activation_ids r
             ({[cx_activation_id context]} ∪ rs_historical_activation_ids r));;
      r ← get_rt;
      let insert := upd (fun r => set_rs_historical_policy_bodies r
                           (<[body_key := digest]> (rs_historical_policy_bodies r))) in
      match rs_historical_policy_bodies r !! body_key with
      | Some existing =>
          if decide (existing = digest) then insert
          else throw_error "historical_generation_rebound"
                 "historical context transitions bind one policy generation to different bodies"
      | None => insert
      end
  | _ => mret tt
  end.

(** The runtime [recover] starts from. *)
Definition seed_history (history : RuntimeHistoricalStateV1) (r : Runtime) : Runtime :=
  let events := len_u64 (length (hs_sparse_events history)) in
  let receipts := len_u64 (length (hs_diagnostic_receipts history)) in
  let r := set_rs_sparse_history r (hs_sparse_events history) in
  let r := set_rs_historical_contradictions r (hs_contradictions history) in
  let r := set_rs_diagnostic_receipts r (hs_diagnostic_receipts history) in
  let r := set_rs_event_counter r events in
  set_rs_metrics r
    (set_rm_recovered_receipt_count
       (set_rm_recovered_sparse_record_count (rs_metrics r) events) receipts).

Definition recover_registration (prior : gset string) (at_ms : Z)
    (registration : ConsumerRegistrationV1) : rt unit :=
  if decide (cx_activation_id (rg_context registration) ∈ prior) then
    throw_error "reused_activation" "restart requires a new context activation identity"
  else register_consumer_rt registration at_ms.

(** The active contradictions that still block a consumer, in key order. *)
Definition blocks_reliance (c : ContradictionCustodyV1) : bool :=
  match cu_applicability c with
  | Applicable _ true => contradiction_is_active (cu_contradiction c)
  | _ => false
  end.
Definition blocked_key (c : ContradictionCustodyV1) : ConsumerKey :=
  mkKey (ss_subject (cr_subject_scope (cu_contradiction c))) (cu_consumer c).
Definition group_blocking (custody : list ContradictionCustodyV1)
  : list (ConsumerKey * list ContradictionRecordV1) :=
  let blocking := filter (fun c => blocks_reliance c = true) custody in
  let keys := foldr (btree_add key_compare) [] (blocked_key <$> blocking) in
  (fun key => (key, cu_contradiction <$> filter (fun c => blocked_key c = key) blocking)) <$> keys.

Definition import_group (group : ConsumerKey * list ContradictionRecordV1) : rt unit :=
  let '(key, records) := group in
  r ← get_rt;
  match rs_consumers r !! key with
  | None => throw_error "historical_binding" "contradiction history has no registered consumer"
  | Some state =>
      upd (drop_consumer key);;
      match import_contradictions (co_evaluator state) records with
      | (_, Err error) => throw (Returned (from_evaluator error))
      | (evaluator, Ok _) => upd (put_consumer key (set_co_evaluator state evaluator))
      end
  end.

(** [recover] on the new runtime. *)
Definition recover_rt (registrations : list ConsumerRegistrationV1)
    (history : RuntimeHistoricalStateV1) (at_ms : Z) : rt unit :=
  upd (seed_history history);;
  for_rt recall_event (hs_sparse_events history);;
  r ← get_rt;
  for_rt (recover_registration (rs_historical_activation_ids r) at_ms) registrations;;
  for_rt import_group (group_blocking (hs_contradictions history));;
  r ← get_rt;
  for_rt (fun key =>
            evaluate_consumer key (expect "registered recovery consumer exists")
              (fun e => install_reevaluation_barrier e
                          (ReceiverRestart
                             "historical custody was recovered without hot evidence or current standing")
                          at_ms)
              (mret tt) at_ms)
    (consumer_keys r None);;
  r ← get_rt;
  let events := rm_recovered_sparse_record_count (rs_metrics r) in
  let receipts := rm_recovered_receipt_count (rs_metrics r) in
  record_sparse at_ms
    (EvRuntimeRestarted (cf_receiver_incarnation (rs_config r)) (cf_clock_id (rs_config r))
       events receipts false);;
  push_trace (stamp at_ms +:+ "RESTART historical_records=" +:+ dec events +:+ " receipts="
              +:+ dec receipts +:+ " current_standing=UNKNOWN").

(** [ReceiverSchedulerRuntime::recover]. *)
Definition recover (config : RuntimeConfigV1) (registrations : list ConsumerRegistrationV1)
    (history : RuntimeHistoricalStateV1) (at_ms : Z)
  : result Failure (Runtime * RuntimeCycleOutputV1) :=
  let over n bound := negb (Z.of_nat n <=? bound) in
  let b := cf_bounds config in
  map_err Returned (map_err from_runtime_type (history_validate history));;
  map_err Returned (config_validate config);;
  ensure (negb (over (length (hs_sparse_events history)) (bd_maximum_sparse_events b)
                || over (length (hs_contradictions history)) (bd_maximum_sparse_events b)
                || over (length (hs_diagnostic_receipts history))
                     (bd_maximum_diagnostic_receipts b)))
    (Returned (mkRuntimeError "historical_capacity"
                 "historical state exceeds configured runtime bounds"));;
  r ← map_err Returned (runtime_new config);
  match with_output (recover_rt registrations history at_ms) r with
  | (r, o, Ok _) => Ok (r, o)
  | (_, _, Err e) => Err e
  end.

End history.
