(* ===== verification/Journal.v ===== *)
(** * The history journal: [crates/pulse-runtime/src/journal.rs]

    An append-only file of framed records.  A record is a data frame (header,
    JSON payload, trailer) followed by a commit marker; every header names the
    digest of the preceding frame.  [scan_bytes] reads a file back and says how
    much of it is history.  The JSON text of a record is a parameter. *)

From S2P Require Import Prelude Ids Digest Judgment Context Qualification CustodyTypes Escalation.
From S2P Require Import Certificate Event Policy Receiver EvaluatorState RuntimeState.
From S2P Require Import RuntimeHistory.

(* ------------------------------------------------------------------ *)
(** ** Format constants *)

Definition JOURNAL_FORMAT_VERSION_V1 : Z := 1.
Definition DATA_MAGIC : string := "PCJDATA1".
Definition TRAILER_MAGIC : string := "PCJEND01".
Definition COMMIT_MAGIC : string := "PCJCOM01".
Definition DIGEST_BYTES : nat := 71.
Definition HEADER_BYTES : nat := 8 + 2 + 1 + 1 + 8 + 4 + DIGEST_BYTES.
Definition TRAILER_BYTES : nat := 8 + DIGEST_BYTES.
Definition COMMIT_BYTES : nat := 8 + 8 + DIGEST_BYTES + DIGEST_BYTES.

(* ------------------------------------------------------------------ *)
(** ** Errors, configuration, epochs *)

Inductive JournalErrorClassV1 :=
| InvalidConfig | InvalidRecord | ClassUnsupportedVersion | ClassBoundExceeded | DamagedJournal
| ClassIoFailure.
#[global] Instance JournalErrorClassV1_eq_dec : EqDecision JournalErrorClassV1.
Proof. solve_decision. Defined.

Record JournalError := mkJournalError { je_class : JournalErrorClassV1; je_detail : string }.
Definition invalid_record (detail : string) : JournalError := mkJournalError InvalidRecord detail.
Definition io_error (stage error : string) : JournalError :=
  mkJournalError ClassIoFailure ("journal I/O failed at " +:+ stage +:+ ": " +:+ error).

Record JournalBoundsV1 := mkJournalBounds {
  jb_maximum_records : Z;
  jb_maximum_record_payload_bytes : Z;
  jb_maximum_file_bytes : Z;
}.

(** [JournalBoundsV1::validate]. *)
Definition journal_bounds_validate (b : JournalBoundsV1) : result JournalError unit :=
  ensure (negb (jb_maximum_records b =? 0) && negb (jb_maximum_record_payload_bytes b =? 0)
          && negb (jb_maximum_file_bytes b =? 0))
    (mkJournalError InvalidConfig "every journal bound must be nonzero");;
  ensure (negb (u32_max <? jb_maximum_record_payload_bytes b))
    (mkJournalError InvalidConfig "record payload bound does not fit the v1 length field");;
  ensure (negb (jb_maximum_file_bytes b
                <? Z.of_nat (HEADER_BYTES + TRAILER_BYTES + COMMIT_BYTES)))
    (mkJournalError InvalidConfig "file bound cannot contain one v1 record frame").

Record JournalConfigV1 := mkJournalConfig {
  jc_schema_version : Z;
  jc_journal_id : string;
  jc_bounds : JournalBoundsV1;
}.

(** [JournalConfigV1::validate]. *)
Definition journal_config_validate (c : JournalConfigV1) : result JournalError unit :=
  ensure (jc_schema_version c =? SCHEMA_VERSION_V1)
    (mkJournalError ClassUnsupportedVersion "journal config schema is unsupported");;
  ensure (negb (slen (jc_journal_id c) =? 0) && negb (MAX_IDENTITY_BYTES <? slen (jc_journal_id c))
          && negb (has_control (jc_journal_id c)))
    (mkJournalError InvalidConfig
       "journal identity is empty, over its bound, or contains control characters");;
  journal_bounds_validate (jc_bounds c).

Record MonotonicEpochV1 := mkEpoch {
  me_schema_version : Z;
  me_epoch_id : IncarnationId;
  me_receiver : ReceiverId;
  me_receiver_incarnation : IncarnationId;
  me_clock_id : ClockId;
  me_origin_runtime_monotonic_ms : Z;
  me_clock_source : string;
}.

(** [value.validate().map_err(|error| JournalError::invalid_record(error.to_string()))]. *)
Definition journal_identity (kind value : string) : result JournalError unit :=
  map_err (fun e => invalid_record (identity_error_display e)) (validate_identity kind value).
Definition journal_digest (d : DigestV1) : result JournalError unit :=
  map_err invalid_record (digest_validate d).

(** [MonotonicEpochV1::validate]. *)
Definition epoch_validate (e : MonotonicEpochV1) : result JournalError unit :=
  ensure (me_schema_version e =? SCHEMA_VERSION_V1)
    (mkJournalError ClassUnsupportedVersion "monotonic epoch schema is unsupported");;
  journal_identity "IncarnationId" (me_epoch_id e);;
  journal_identity "ReceiverId" (me_receiver e);;
  journal_identity "IncarnationId" (me_receiver_incarnation e);;
  journal_identity "ClockId" (me_clock_id e);;
  ensure (bool_decide (me_clock_source e = "std::time::Instant/process-local"))
    (invalid_record "v1 monotonic epoch must name the process-local Instant source").

(** [MonotonicEpochV1::identity_digest]. *)
Definition epoch_identity_digest `{Sha256} (e : MonotonicEpochV1) : DigestV1 :=
  digest_parts "runtime.monotonic-epoch.v1"
    [me_epoch_id e; me_receiver e; me_receiver_incarnation e; me_clock_id e;
     be_bytes 8 (me_origin_runtime_monotonic_ms e); me_clock_source e].

(* ------------------------------------------------------------------ *)
(** ** Records *)

Inductive JournalRecordKindV1 := KindSparseEvent | KindContradictionCustody | KindDiagnosticReceipt.
#[global] Instance JournalRecordKindV1_eq_dec : EqDecision JournalRecordKindV1.
Proof. solve_decision. Defined.

Definition kind_tag (k : JournalRecordKindV1) : Z :=
  match k with KindSparseEvent => 1 | KindContradictionCustody => 2 | KindDiagnosticReceipt => 3 end.
Definition kind_from_tag (tag : Z) : option JournalRecordKindV1 :=
  match tag with
  | 1 => Some KindSparseEvent
  | 2 => Some KindContradictionCustody
  | 3 => Some KindDiagnosticReceipt
  | _ => None
  end.

Inductive JournalRecordBodyV1 :=
| BodySparseEvent (event : SparseDurableEventV1)
| BodyContradictionCustody (custody : ContradictionCustodyV1)
| BodyDiagnosticReceipt (receipt : MockDiagnosticReceiptV1).

Definition body_kind (b : JournalRecordBodyV1) : JournalRecordKindV1 :=
  match b with
  | BodySparseEvent _ => KindSparseEvent
  | BodyContradictionCustody _ => KindContradictionCustody
  | BodyDiagnosticReceipt _ => KindDiagnosticReceipt
  end.
Definition immutable_identity (b : JournalRecordBodyV1) : option string :=
  match b with
  | BodySparseEvent event => Some ("event:" +:+ se_event_id event)
  | BodyDiagnosticReceipt receipt => Some ("receipt:" +:+ rc_receipt_id receipt)
  | BodyContradictionCustody _ => None
  end.

Inductive JournalDurabilityModeV1 := Written | DataSynced | FileSynced.
#[global] Instance JournalDurabilityModeV1_eq_dec : EqDecision JournalDurabilityModeV1.
Proof. solve_decision. Defined.

Record HistoricalJournalRecordV1 := mkRecord {
  jr_schema_version : Z;
  jr_journal_id : string;
  jr_record_sequence : Z;
  jr_record_kind : JournalRecordKindV1;
  jr_monotonic_epoch : MonotonicEpochV1;
  jr_journaled_at_epoch_monotonic_ms : Z;
  jr_declared_durability : JournalDurabilityModeV1;
  jr_reliance_context_digest : option DigestV1;
  jr_body : JournalRecordBodyV1;
  jr_mutation_authority : MutationAuthorityV1;
}.

(** [HistoricalJournalRecordV1::validate]; [MutationAuthorityV1] has the one
    value [None]. *)
Definition record_validate (config : JournalConfigV1) (r : HistoricalJournalRecordV1)
  : result JournalError unit :=
  ensure (jr_schema_version r =? SCHEMA_VERSION_V1)
    (mkJournalError ClassUnsupportedVersion "journal payload schema is unsupported");;
  ensure (bool_decide (jr_journal_id r = jc_journal_id config))
    (invalid_record "journal payload names another journal identity");;
  ensure (negb (jr_record_sequence r =? 0)
          && bool_decide (jr_record_kind r = body_kind (jr_body r)))
    (invalid_record "journal payload sequence or record-kind binding is invalid");;
  epoch_validate (jr_monotonic_epoch r);;
  match jr_reliance_context_digest r with None => Ok tt | Some d => journal_digest d end.

(** The JSON [serde_json] writes for a record, and its parser with the text of
    the error. *)
Class JournalJson := {
  record_json : HistoricalJournalRecordV1 → string;
  record_parse : string → result string HistoricalJournalRecordV1;
}.

(* ------------------------------------------------------------------ *)
(** ** Reports *)

Inductive JournalRecoveryOutcomeV1 := Clean | RecoveredThroughValidPrefix | OutcomeRefused.
#[global] Instance JournalRecoveryOutcomeV1_eq_dec : EqDecision JournalRecoveryOutcomeV1.
Proof. solve_decision. Defined.

Inductive JournalDamageClassV1 :=
| TruncatedHeader | TruncatedPayload | TruncatedTrailer | UncommittedSuffix
| TruncatedCommitMarker | UnexpectedTrailingBytes | InteriorCorruption | UnsupportedVersion
| UnsupportedRecordKind | SequenceDiscontinuity | DuplicateRecord | PriorLinkMismatch
| OversizedDeclaredLength | BoundExceeded | PayloadInvalid | IoFailure.
#[global] Instance JournalDamageClassV1_eq_dec : EqDecision JournalDamageClassV1.
Proof. solve_decision. Defined.

Record JournalRecoveryReportV1 := mkRecoveryReport {
  rr_schema_version : Z;
  rr_outcome : JournalRecoveryOutcomeV1;
  rr_damage : option JournalDamageClassV1;
  rr_records_recovered : Z;
  rr_first_damaged_offset : option Z;
  rr_valid_prefix_bytes : Z;
  rr_observed_file_bytes : Z;
  rr_history_complete : bool;
  rr_operator_action_required : bool;
  rr_detail : string;
  rr_journal_id : option string;
  rr_last_committed_frame_digest : option DigestV1;
  rr_records : list HistoricalJournalRecordV1;
}.

Definition clean_report (records : list HistoricalJournalRecordV1) (bytes : Z)
    (journal_id : option string) (last_digest : option DigestV1) : JournalRecoveryReportV1 :=
  {| rr_schema_version := SCHEMA_VERSION_V1;
     rr_outcome := Clean;
     rr_damage := None;
     rr_records_recovered := Z.of_nat (length records);
     rr_first_damaged_offset := None;
     rr_valid_prefix_bytes := bytes;
     rr_observed_file_bytes := bytes;
     rr_history_complete := true;
     rr_operator_action_required := false;
     rr_detail := "clean EOF follows the last committed record";
     rr_journal_id := journal_id;
     rr_last_committed_frame_digest := last_digest;
     rr_records := records |}.

(** The damage after which the valid prefix is still history. *)
Definition recoverable (d : JournalDamageClassV1) : bool :=
  match d with
  | TruncatedHeader | TruncatedPayload | TruncatedTrailer | UncommittedSuffix
  | TruncatedCommitMarker | UnexpectedTrailingBytes => true
  | _ => false
  end.

Definition damaged_report (damage : JournalDamageClassV1) (records : list HistoricalJournalRecordV1)
    (first_damage valid_prefix_bytes observed_file_bytes : Z) (detail : string)
    (journal_id : option string) (last_digest : option DigestV1) : JournalRecoveryReportV1 :=
  {| rr_schema_version := SCHEMA_VERSION_V1;
     rr_outcome := if recoverable damage && negb (bool_decide (records = []))
                   then RecoveredThroughValidPrefix else OutcomeRefused;
     rr_damage := Some damage;
     rr_records_recovered := Z.of_nat (length records);
     rr_first_damaged_offset := Some first_damage;
     rr_valid_prefix_bytes := valid_prefix_bytes;
     rr_observed_file_bytes := observed_file_bytes;
     rr_history_complete := false;
     rr_operator_action_required := true;
     rr_detail := detail;
     rr_journal_id := journal_id;
     rr_last_committed_frame_digest := last_digest;
     rr_records := records |}.

Definition io_failure_report (observed_file_bytes : Z) (detail : string)
    (journal_id : option string) : JournalRecoveryReportV1 :=
  damaged_report IoFailure [] 0 0 observed_file_bytes detail journal_id None.

(* ------------------------------------------------------------------ *)
(** ** Frames *)

Section format.
Context `{Sha256} `{JournalJson}.

Definition genesis_digest : DigestV1 := digest_parts "runtime.history-journal.genesis.v1" [].

Definition encode_header (kind : JournalRecordKindV1) (sequence payload_length : Z)
    (prior_digest : DigestV1) : string :=
  DATA_MAGIC +:+ be_bytes 2 JOURNAL_FORMAT_VERSION_V1 +:+ be_bytes 1 (kind_tag kind)
  +:+ be_bytes 1 0 +:+ be_bytes 8 sequence +:+ be_bytes 4 payload_length +:+ prior_digest.
Definition frame_digest (header payload : string) : DigestV1 :=
  digest_parts "runtime.history-journal.frame.v1" [header; payload].
Definition encode_trailer (digest : DigestV1) : string := TRAILER_MAGIC +:+ digest.
Definition commit_checksum (sequence : Z) (digest : DigestV1) : DigestV1 :=
  digest_parts "runtime.history-journal.commit.v1" [COMMIT_MAGIC; be_bytes 8 sequence; digest].
Definition encode_commit (sequence : Z) (digest : DigestV1) : string :=
  COMMIT_MAGIC +:+ be_bytes 8 sequence +:+ digest +:+ commit_checksum sequence digest.

Definition read_digest (bytes : string) : option DigestV1 :=
  if is_utf8 bytes && is_ok (digest_validate bytes) then Some bytes else None.

(** [valid_prefix_bytes] of [damaged_at]: the size of the records' frames. *)
Definition encoded_size (r : HistoricalJournalRecordV1) : Z :=
  Z.of_nat HEADER_BYTES + slen (record_json r) + Z.of_nat (TRAILER_BYTES + COMMIT_BYTES).
Definition encoded_sizes (records : list HistoricalJournalRecordV1) : Z :=
  fold_left (fun sum r => sat_add sum (encoded_size r)) records 0.
Definition damaged_at (damage : JournalDamageClassV1) (records : list HistoricalJournalRecordV1)
    (first_damage observed_bytes : Z) (detail : string) (config : JournalConfigV1)
    (last_digest : option DigestV1) : JournalRecoveryReportV1 :=
  damaged_report damage records first_damage (encoded_sizes records) observed_bytes detail
    (Some (jc_journal_id config)) last_digest.

(* ------------------------------------------------------------------ *)
(** ** Scanning *)

(** Where one iteration of the loop of [scan_bytes] stops: the damage, its
    offset and the detail of the report. *)
Record Damage := mkDamage { dg_class : JournalDamageClassV1; dg_offset : Z; dg_detail : string }.

(** [str_take n], refused with the damage at hand. *)
Definition take_bytes (n : nat) (bytes : string) (d : Damage) : result Damage (string * string) :=
  match str_take n bytes with Some parts => Ok parts | None => Err d end.

(** The checks before the header is complete. *)
Definition scan_magic (start : Z) (remaining : string) : result Damage unit :=
  ensure (negb (slen remaining <? slen DATA_MAGIC))
    (mkDamage (if has_value (strip_prefix remaining DATA_MAGIC) then TruncatedHeader
               else UnexpectedTrailingBytes) start
       "EOF or trailing bytes occurred before a complete data-frame magic");;
  ensure (has_value (strip_prefix DATA_MAGIC remaining))
    (mkDamage (if slen remaining <? Z.of_nat HEADER_BYTES then UnexpectedTrailingBytes
               else InteriorCorruption) start
       "next record does not begin with the exact data-frame magic").

(** The header: its kind and payload length. *)
Definition scan_header (config : JournalConfigV1) (expected_sequence : Z) (expected_prior : DigestV1)
    (start : Z) (header : string) : result Damage (JournalRecordKindV1 * Z) :=
  ensure (be_value (String.substring 8 2 header) =? JOURNAL_FORMAT_VERSION_V1)
    (mkDamage UnsupportedVersion start "journal frame version is unsupported");;
  kind ← match kind_from_tag (be_value (String.substring 10 1 header)) with
         | Some kind => Ok kind
         | None => Err (mkDamage UnsupportedRecordKind start
                          "journal frame record-kind tag is unsupported")
         end;
  ensure (be_value (String.substring 11 1 header) =? 0)
    (mkDamage InteriorCorruption start "journal frame reserved byte is nonzero");;
  let sequence := be_value (String.substring 12 8 header) in
  ensure (sequence =? expected_sequence)
    (mkDamage (if sequence <? expected_sequence then DuplicateRecord else SequenceDiscontinuity)
       start "journal sequence is duplicated, reordered, stale, or skipped");;
  let payload_length := be_value (String.substring 20 4 header) in
  ensure (negb (jb_maximum_record_payload_bytes (jc_bounds config) <? payload_length))
    (mkDamage OversizedDeclaredLength start
       "journal frame declares a payload over the configured bound");;
  prior ← match read_digest (String.substring 24 DIGEST_BYTES header) with
          | Some digest => Ok digest
          | None => Err (mkDamage InteriorCorruption start "prior-frame digest is malformed")
          end;
  ensure (bool_decide (prior = expected_prior))
    (mkDamage PriorLinkMismatch start
       "prior-frame digest does not bind the preceding committed record");;
  ensure (start + Z.of_nat HEADER_BYTES + payload_length <=? u64_max)
    (mkDamage OversizedDeclaredLength start "payload extent overflowed");;
  Ok (kind, payload_length).

Definition scan_trailer (payload_start payload_end : Z) (header payload trailer : string)
  : result Damage DigestV1 :=
  ensure (bool_decide (String.substring 0 8 trailer = TRAILER_MAGIC))
    (mkDamage InteriorCorruption payload_end "journal trailer magic is corrupted");;
  recorded ← match read_digest (String.substring 8 DIGEST_BYTES trailer) with
             | Some digest => Ok digest
             | None => Err (mkDamage InteriorCorruption payload_end
                              "journal frame checksum is malformed")
             end;
  ensure (bool_decide (recorded = frame_digest header payload))
    (mkDamage InteriorCorruption payload_start
       "journal frame checksum does not match exact header and payload bytes");;
  Ok recorded.

Definition scan_commit (trailer_end sequence : Z) (computed : DigestV1) (commit : string)
  : result Damage unit :=
  ensure (bool_decide (String.substring 0 8 commit = COMMIT_MAGIC))
    (mkDamage InteriorCorruption trailer_end "journal commit marker magic is corrupted");;
  let commit_sequence := be_value (String.substring 8 8 commit) in
  digest ← match read_digest (String.substring 16 DIGEST_BYTES commit) with
           | Some digest => Ok digest
           | None => Err (mkDamage InteriorCorruption trailer_end
                            "journal commit marker digest is malformed")
           end;
  checksum ← match read_digest (String.substring (16 + DIGEST_BYTES) DIGEST_BYTES commit) with
             | Some digest => Ok digest
             | None => Err (mkDamage InteriorCorruption trailer_end
                              "journal commit marker checksum is malformed")
             end;
  ensure ((commit_sequence =? sequence) && bool_decide (digest = computed)
          && bool_decide (checksum = commit_checksum commit_sequence digest))
    (mkDamage InteriorCorruption trailer_end
       "journal commit marker does not bind the exact data frame").

(** The payload of a committed frame. *)
Definition scan_payload (config : JournalConfigV1) (sequence : Z) (kind : JournalRecordKindV1)
    (payload_start : Z) (payload : string) : result Damage HistoricalJournalRecordV1 :=
  record ← map_err (fun error => mkDamage PayloadInvalid payload_start
                                   ("journal JSON payload is invalid: " +:+ error))
             (record_parse payload);
  ensure (jr_schema_version record =? SCHEMA_VERSION_V1)
    (mkDamage UnsupportedVersion payload_start "journal payload schema is unsupported");;
  ensure ((jr_record_sequence record =? sequence) && bool_decide (jr_record_kind record = kind))
    (mkDamage PayloadInvalid payload_start "journal payload does not bind frame sequence and kind");;
  map_err (fun error =>
             mkDamage (if decide (je_class error = ClassUnsupportedVersion) then UnsupportedVersion
                       else PayloadInvalid) payload_start (je_detail error))
    (record_validate config record);;
  Ok record.

(** The cursor of the loop. *)
Record Cursor := mkCursor {
  cs_offset : Z;
  cs_records : list HistoricalJournalRecordV1;
  cs_expected_sequence : Z;
  cs_expected_prior : DigestV1;
  cs_last_digest : option DigestV1;
  cs_immutable_identities : gset string;
}.

(** One iteration: the next cursor and the bytes after the record. *)
Definition scan_record (config : JournalConfigV1) (c : Cursor) (remaining : string)
  : result Damage (Cursor * string) :=
  let start := cs_offset c in
  ensure (Z.of_nat (length (cs_records c)) <? jb_maximum_records (jc_bounds config))
    (mkDamage BoundExceeded start "journal contains more records than the configured bound");;
  scan_magic start remaining;;
  '(header, rest) ← take_bytes HEADER_BYTES remaining
                      (mkDamage TruncatedHeader start "data-frame header is incomplete");
  '(kind, payload_length) ← scan_header config (cs_expected_sequence c) (cs_expected_prior c)
                              start header;
  let payload_start := start + Z.of_nat HEADER_BYTES in
  let payload_end := payload_start + payload_length in
  '(payload, rest) ← take_bytes (Z.to_nat payload_length) rest
                       (mkDamage TruncatedPayload payload_start "journal payload is incomplete");
  '(trailer, rest) ← take_bytes TRAILER_BYTES rest
                       (mkDamage TruncatedTrailer payload_end
                          "journal frame trailer or checksum is incomplete");
  let trailer_end := payload_end + Z.of_nat TRAILER_BYTES in
  computed ← scan_trailer payload_start payload_end header payload trailer;
  ensure (negb (slen rest =? 0))
    (mkDamage UncommittedSuffix start "complete data frame has no committed marker");;
  '(commit, rest) ← take_bytes COMMIT_BYTES rest
                      (mkDamage TruncatedCommitMarker trailer_end
                         "journal commit marker is incomplete");
  scan_commit trailer_end (cs_expected_sequence c) computed commit;;
  record ← scan_payload config (cs_expected_sequence c) kind payload_start payload;
  identities ← match immutable_identity (jr_body record) with
               | None => Ok (cs_immutable_identities c)
               | Some identity =>
                   if decide (identity ∈ cs_immutable_identities c) then
                     Err (mkDamage DuplicateRecord start
                            "immutable payload identity appears more than once")
                   else Ok ({[identity]} ∪ cs_immutable_identities c)
               end;
  ensure (cs_expected_sequence c + 1 <=? u64_max)
    (mkDamage BoundExceeded start "journal sequence space is exhausted");;
  Ok ({| cs_offset := trailer_end + Z.of_nat COMMIT_BYTES;
         cs_records := cs_records c ++ [record];
         cs_expected_sequence := cs_expected_sequence c + 1;
         cs_expected_prior := computed;
         cs_last_digest := Some computed;
         cs_immutable_identities := identities |}, rest).

(** The loop; an iteration that goes on consumes a whole frame, so one unit of
    fuel per byte is enough ([scan_loop_total]). *)
Fixpoint scan_loop (fuel : nat) (config : JournalConfigV1) (total : Z) (c : Cursor)
    (remaining : string) : option JournalRecoveryReportV1 :=
  match remaining with
  | "" => Some (clean_report (cs_records c) total (Some (jc_journal_id config)) (cs_last_digest c))
  | _ =>
      match fuel with
      | O => None
      | S fuel =>
          match scan_record config c remaining with
          | Err d => Some (damaged_at (dg_class d) (cs_records c) (dg_offset d) total (dg_detail d)
                             config (cs_last_digest c))
          | Ok (c, rest) => scan_loop fuel config total c rest
          end
      end
  end.

Definition scan_start : Cursor := mkCursor 0 [] 1 genesis_digest None ∅.

(** [scan_bytes]; the default is not reached. *)
Definition scan_bytes (bytes : string) (config : JournalConfigV1) : JournalRecoveryReportV1 :=
  default (clean_report [] 0 (Some (jc_journal_id config)) None)
    (scan_loop (String.length bytes) config (slen bytes) scan_start bytes).

(* ------------------------------------------------------------------ *)
(** ** Projecting recovered history *)

Definition outcome_debug (o : JournalRecoveryOutcomeV1) : string :=
  match o with
  | Clean => "Clean"
  | RecoveredThroughValidPrefix => "RecoveredThroughValidPrefix"
  | OutcomeRefused => "Refused"
  end.
Definition damage_debug (d : JournalDamageClassV1) : string :=
  match d with
  | TruncatedHeader => "TruncatedHeader"
  | TruncatedPayload => "TruncatedPayload"
  | TruncatedTrailer => "TruncatedTrailer"
  | UncommittedSuffix => "UncommittedSuffix"
  | TruncatedCommitMarker => "TruncatedCommitMarker"
  | UnexpectedTrailingBytes => "UnexpectedTrailingBytes"
  | InteriorCorruption => "InteriorCorruption"
  | UnsupportedVersion => "UnsupportedVersion"
  | UnsupportedRecordKind => "UnsupportedRecordKind"
  | SequenceDiscontinuity => "SequenceDiscontinuity"
  | DuplicateRecord => "DuplicateRecord"
  | PriorLinkMismatch => "PriorLinkMismatch"
  | OversizedDeclaredLength => "OversizedDeclaredLength"
  | BoundExceeded => "BoundExceeded"
  | PayloadInvalid => "PayloadInvalid"
  | IoFailure => "IoFailure"
  end.
Definition option_debug {A} (f : A → string) (o : option A) : string :=
  match o with None => "None" | Some a => "Some(" +:+ f a +:+ ")" end.

(** [JournalRecoveryReportV1::historical_current_record_count]. *)
Definition is_historical_current (r : HistoricalJournalRecordV1) : bool :=
  match jr_body r with
  | BodySparseEvent event =>
      match se_event event with
      | EvSupportCertificateIssued certificate =>
          bool_decide (sc_judgment certificate = CatCurrent)
      | _ => false
      end
  | _ => false
  end.
Definition historical_current_record_count (r : JournalRecoveryReportV1) : Z :=
  Z.of_nat (length (filter (fun x => is_historical_current x = true) (rr_records r))).

(** The collections [project_history] fills. *)
Record Projection := mkProjection {
  pr_sparse_events : list SparseDurableEventV1;
  pr_event_ids : gset string;
  pr_contradictions : list (string * string * string * ContradictionCustodyV1);
  pr_receipts : gmap string MockDiagnosticReceiptV1;
  pr_deduplication_keys : gset string;
}.

(** The escalation key an event carries. *)
Definition event_deduplication_keys (event : SparseDurableEventV1) : gset string :=
  match se_event event with
  | EvEscalationRequested request => {[rq_deduplication_key request]}
  | EvEscalationDeduplicated key _ => {[key]}
  | _ => ∅
  end.

Definition project_record (p : Projection) (r : HistoricalJournalRecordV1)
  : result JournalError Projection :=
  match jr_body r with
  | BodySparseEvent event =>
      if decide (se_event_id event ∈ pr_event_ids p) then
        Err (invalid_record "duplicate sparse event identity in recovered prefix")
      else
        Ok {| pr_sparse_events := pr_sparse_events p ++ [event];
              pr_event_ids := {[se_event_id event]} ∪ pr_event_ids p;
              pr_contradictions := pr_contradictions p;
              pr_receipts := pr_receipts p;
              pr_deduplication_keys :=
                event_deduplication_keys event ∪ pr_deduplication_keys p |}
  | BodyContradictionCustody custody =>
      Ok {| pr_sparse_events := pr_sparse_events p;
            pr_event_ids := pr_event_ids p;
            pr_contradictions := insert_custody (pr_contradictions p) custody;
            pr_receipts := pr_receipts p;
            pr_deduplication_keys := pr_deduplication_keys p |}
  | BodyDiagnosticReceipt receipt =>
      match pr_receipts p !! rc_receipt_id receipt with
      | Some _ =>
          Err (invalid_record "duplicate diagnostic receipt identity in recovered prefix")
      | None =>
          Ok {| pr_sparse_events := pr_sparse_events p;
                pr_event_ids := pr_event_ids p;
                pr_contradictions := pr_contradictions p;
                pr_receipts := <[rc_receipt_id receipt := receipt]> (pr_receipts p);
                pr_deduplication_keys := pr_deduplication_keys p |}
      end
  end.
Fixpoint project_records (p : Projection) (records : list HistoricalJournalRecordV1)
  : result JournalError Projection :=
  match records with
  | [] => Ok p
  | r :: rest => p ← project_record p r; project_records p rest
  end.

Record JournalHistoryProjectionV1 := mkHistoryProjection {
  hp_schema_version : Z;
  hp_recovery_outcome : JournalRecoveryOutcomeV1;
  hp_recovery_damage : option JournalDamageClassV1;
  hp_history_complete : bool;
  hp_operator_action_required : bool;
  hp_history : RuntimeHistoricalStateV1;
  hp_historical_escalation_deduplication_keys : list DigestV1;
  hp_active_escalation_suppression_restored : bool;
  hp_current_standing_reconstructed : bool;
}.

(** [JournalRecoveryReportV1::project_history]. *)
Definition project_history (report : JournalRecoveryReportV1)
  : result JournalError JournalHistoryProjectionV1 :=
  ensure (bool_decide (rr_outcome report ≠ OutcomeRefused))
    (mkJournalError DamagedJournal
       ("journal recovery was refused; damaged history cannot be projected: damage="
        +:+ option_debug damage_debug (rr_damage report) +:+ " offset="
        +:+ option_debug dec (rr_first_damaged_offset report)));;
  p ← project_records (mkProjection [] ∅ [] ∅ ∅) (rr_records report);
  let history :=
    {| hs_schema_version := SCHEMA_VERSION_V1;
       hs_sparse_events := pr_sparse_events p;
       hs_contradictions := (pr_contradictions p).*2;
       hs_diagnostic_receipts := bt_values (pr_receipts p);
       hs_nonclaims := history_nonclaims |} in
  map_err (fun e => invalid_record (rte_code e +:+ ": " +:+ rte_detail e)) (history_validate history);;
  Ok {| hp_schema_version := SCHEMA_VERSION_V1;
        hp_recovery_outcome := rr_outcome report;
        hp_recovery_damage := rr_damage report;
        hp_history_complete := rr_history_complete report;
        hp_operator_action_required := rr_operator_action_required report;
        hp_history := history;
        hp_historical_escalation_deduplication_keys :=
          sort_strings (elements (pr_deduplication_keys p));
        hp_active_escalation_suppression_restored := false;
        hp_current_standing_reconstructed := false |}.
End format.

(* ------------------------------------------------------------------ *)
(** ** Files *)

(** The outcome of the n-th file operation: the text of its error if it
    fails, how many bytes a failing [write_all] still wrote, and the time a
    clock reading reports as elapsed. *)
Class FileSystem := {
  fs_error : nat → option string;
  fs_written : nat → nat;
  fs_elapsed_us : nat → Z;
}.

(** The number of operations made and the contents by path.  The journal's
    handle is open for appending, and no other process touches the file. *)
Record World := mkWorld { wd_calls : nat; wd_files : gmap string string }.

Definition io (A : Type) : Type := World → World * result string A.
#[global] Instance io_ret : MRet io := fun A a w => (w, Ok a).
#[global] Instance io_bind : MBind io :=
  fun A B k c w => match c w with (w', Ok a) => k a w' | (w', Err e) => (w', Err e) end.

(** The first [n] bytes. *)
Definition str_prefix (n : nat) (s : string) : string := String.substring 0 n s.

Inductive JournalWriteStageV1 :=
| HeaderPartiallyWritten | PayloadPartiallyWritten | TrailerPartiallyWritten
| FrameWrittenBeforeSync | DataFrameSynced | CommitMarkerPartiallyWritten
| CommitMarkerSyncedBeforeAcknowledgement.

Section files.
Context `{FileSystem}.

Definition tick_call (w : World) : World := mkWorld (S (wd_calls w)) (wd_files w).
(** An operation that changes no file: open, flush, metadata and sync. *)
Definition file_call : io unit :=
  fun w => (tick_call w, match fs_error (wd_calls w) with None => Ok tt | Some e => Err e end).
Definition elapsed_us : io Z := fun w => (tick_call w, Ok (fs_elapsed_us (wd_calls w))).
Definition contents (path : string) (w : World) : string := default "" (wd_files w !! path).
Definition append_bytes (path bytes : string) (w : World) : World :=
  mkWorld (wd_calls w) (<[path := contents path w +:+ bytes]> (wd_files w)).
(** [Write::write_all]. *)
Definition write_all_bytes (path bytes : string) : io unit :=
  fun w => match fs_error (wd_calls w) with
           | None => (tick_call (append_bytes path bytes w), Ok tt)
           | Some e =>
               (tick_call (append_bytes path (str_prefix (fs_written (wd_calls w)) bytes) w), Err e)
           end.

Definition sync_file (durability : JournalDurabilityModeV1) : io unit :=
  match durability with Written => mret tt | DataSynced | FileSynced => file_call end.

(** The qualification hook, an [FnMut]: its n-th call may depend on [n]. *)
Definition Hook : Type := nat → JournalWriteStageV1 → result string unit.
Definition no_hook : Hook := fun _ _ => Ok tt.
Definition run_hook (hook : Hook) (stage : JournalWriteStageV1) : io unit :=
  fun w => (tick_call w, hook (wd_calls w) stage).

Definition div_ceil_2 (n : nat) : nat := Nat.div2 (S n).
Definition write_split (path bytes : string) (stage : JournalWriteStageV1) (hook : Hook) : io unit :=
  let split := div_ceil_2 (String.length bytes) in
  write_all_bytes path (str_prefix split bytes);;
  file_call;;
  run_hook hook stage;;
  write_all_bytes path (String.substring split (String.length bytes - split) bytes).
End files.

(* ------------------------------------------------------------------ *)
(** ** The journal *)

Record JournalCreationAckV1 := mkCreationAck {
  ca_schema_version : Z;
  ca_journal_id : string;
  ca_empty_file_synced : bool;
  ca_parent_directory_synced : bool;
  ca_physical_media_durability_claimed : bool;
}.

Record JournalAppendAckV1 := mkAppendAck {
  aa_schema_version : Z;
  aa_journal_id : string;
  aa_record_sequence : Z;
  aa_frame_digest : DigestV1;
  aa_durability : JournalDurabilityModeV1;
  aa_data_frame_written : bool;
  aa_data_sync_completed : bool;
  aa_commit_marker_written : bool;
  aa_commit_sync_completed : bool;
  aa_acknowledgement_returned : bool;
  aa_file_bytes_after_append : Z;
  aa_append_latency_us : Z;
  aa_sync_latency_us : Z;
  aa_physical_media_durability_claimed : bool;
}.

Record HistoricalJournal := mkJournal {
  jn_path : string;
  jn_config : JournalConfigV1;
  jn_creation_ack : option JournalCreationAckV1;
  jn_next_sequence : Z;
  jn_prior_frame_digest : DigestV1;
  jn_file_bytes : Z;
  jn_committed_records : list HistoricalJournalRecordV1;
  jn_immutable_identities : gset string;
  jn_failed : bool;
}.

Definition set_jn_failed (j : HistoricalJournal) : HistoricalJournal :=
  mkJournal (jn_path j) (jn_config j) (jn_creation_ack j) (jn_next_sequence j)
    (jn_prior_frame_digest j) (jn_file_bytes j) (jn_committed_records j)
    (jn_immutable_identities j) true.
Definition set_jn_file_bytes (j : HistoricalJournal) (bytes : Z) : HistoricalJournal :=
  mkJournal (jn_path j) (jn_config j) (jn_creation_ack j) (jn_next_sequence j)
    (jn_prior_frame_digest j) bytes (jn_committed_records j) (jn_immutable_identities j)
    (jn_failed j).

Section journal.
Context `{Sha256} `{JournalJson} `{FileSystem}.

(** [map_err(|error| JournalError::io(stage, &error))]. *)
Definition at_stage {A} (stage : string) (c : io A) (w : World) : World * result JournalError A :=
  let '(w, r) := c w in (w, map_err (io_error stage) r).

(** [HistoricalJournal::create_new]: [OpenOptions::create_new] refuses a path
    that exists. *)
Definition create_new (path : string) (config : JournalConfigV1) (w : World)
  : World * result JournalError HistoricalJournal :=
  match journal_config_validate config with
  | Err e => (w, Err e)
  | Ok _ =>
      let create : io unit := fun w =>
        match file_call w with
        | (w, Err e) => (w, Err e)
        | (w, Ok _) =>
            match wd_files w !! path with
            | Some _ => (w, Err "File exists (os error 17)")
            | None => (mkWorld (wd_calls w) (<[path := ""]> (wd_files w)), Ok tt)
            end
        end in
      match at_stage "create_new" create w with
      | (w, Err e) => (w, Err e)
      | (w, Ok _) =>
          match at_stage "empty_file_sync_all" file_call w with
          | (w, Err e) => (w, Err e)
          | (w, Ok _) =>
              match at_stage "open_parent_directory" file_call w with
              | (w, Err e) => (w, Err e)
              | (w, Ok _) =>
                  match at_stage "parent_directory_sync_all" file_call w with
                  | (w, Err e) => (w, Err e)
                  | (w, Ok _) =>
                      (w, Ok (mkJournal path config
                                (Some (mkCreationAck SCHEMA_VERSION_V1 (jc_journal_id config)
                                         true true false))
                                1 genesis_digest 0 [] ∅ false))
                  end
              end
          end
      end
  end.

(** [HistoricalJournal::scan]. *)
Definition scan (path : string) (config : JournalConfigV1) (w : World)
  : World * result JournalError JournalRecoveryReportV1 :=
  match journal_config_validate config with
  | Err e => (w, Err e)
  | Ok _ =>
      let id := Some (jc_journal_id config) in
      match file_call w with
      | (w, Err e) => (w, Ok (io_failure_report 0 ("journal open failed: " +:+ e) id))
      | (w, Ok _) =>
          match wd_files w !! path with
          | None => (w, Ok (io_failure_report 0
                              "journal open failed: No such file or directory (os error 2)" id))
          | Some bytes =>
              match file_call w with
              | (w, Err e) => (w, Ok (io_failure_report 0 ("journal metadata failed: " +:+ e) id))
              | (w, Ok _) =>
                  if jb_maximum_file_bytes (jc_bounds config) <? slen bytes then
                    (w, Ok (damaged_report BoundExceeded [] 0 0 (slen bytes)
                              "journal exceeds the configured file-size bound" id None))
                  else
                    match file_call w with
                    | (w, Err e) =>
                        (w, Ok (io_failure_report (slen bytes) ("journal read failed: " +:+ e) id))
                    | (w, Ok _) => (w, Ok (scan_bytes bytes config))
                    end
              end
          end
      end
  end.

(** The identities of records that may appear once. *)
Definition identities_of (records : list HistoricalJournalRecordV1) : gset string :=
  list_to_set (omap (fun r => immutable_identity (jr_body r)) records).

(** [HistoricalJournal::open_clean]. *)
Definition open_clean (path : string) (config : JournalConfigV1) (w : World)
  : World * result JournalError (HistoricalJournal * JournalRecoveryReportV1) :=
  match scan path config w with
  | (w, Err e) => (w, Err e)
  | (w, Ok report) =>
      if decide (rr_outcome report ≠ Clean) then
        (w, Err (mkJournalError DamagedJournal
                   ("journal is not appendable: outcome=" +:+ outcome_debug (rr_outcome report)
                    +:+ " damage=" +:+ option_debug damage_debug (rr_damage report))))
      else
        match at_stage "open_clean" file_call w with
        | (w, Err e) => (w, Err e)
        | (w, Ok _) =>
            (w, Ok (mkJournal path config None
                      (sat_add (len_u64 (length (rr_records report))) 1)
                      (default genesis_digest (rr_last_committed_frame_digest report))
                      (rr_observed_file_bytes report) (rr_records report)
                      (identities_of (rr_records report)) false, report))
        end
  end.

(** What [append] writes. *)
Record Frame := mkFrame {
  fr_record : HistoricalJournalRecordV1;
  fr_header : string;
  fr_payload : string;
  fr_digest : DigestV1;
}.
Definition fr_trailer (f : Frame) : string := encode_trailer (fr_digest f).
Definition fr_commit (f : Frame) : string := encode_commit (jr_record_sequence (fr_record f)) (fr_digest f).
Definition fr_encoded_bytes (f : Frame) : Z :=
  Z.of_nat HEADER_BYTES + slen (fr_payload f) + Z.of_nat (TRAILER_BYTES + COMMIT_BYTES).

(** The checks of [append_with_qualification_hook] and the frame it then
    writes. *)
Definition prepare_frame (j : HistoricalJournal) (epoch : MonotonicEpochV1) (at_ms : Z)
    (context_digest : option DigestV1) (body : JournalRecordBodyV1)
    (durability : JournalDurabilityModeV1) : result JournalError Frame :=
  ensure (negb (jn_failed j))
    (mkJournalError DamagedJournal
       "journal append was previously interrupted; reopen and scan before reuse");;
  epoch_validate epoch;;
  match context_digest with None => Ok tt | Some d => journal_digest d end;;
  ensure (Z.of_nat (length (jn_committed_records j)) <? jb_maximum_records (jc_bounds (jn_config j)))
    (mkJournalError ClassBoundExceeded "journal record-count bound is exhausted");;
  match immutable_identity body with
  | None => Ok tt
  | Some identity =>
      ensure (bool_decide (identity ∉ jn_immutable_identities j))
        (invalid_record ("immutable journal payload identity is duplicated: " +:+ identity))
  end;;
  let record := mkRecord SCHEMA_VERSION_V1 (jc_journal_id (jn_config j)) (jn_next_sequence j)
                  (body_kind body) epoch at_ms durability context_digest body MutationNone in
  record_validate (jn_config j) record;;
  let payload := record_json record in
  ensure (negb (jb_maximum_record_payload_bytes (jc_bounds (jn_config j)) <? slen payload))
    (mkJournalError ClassBoundExceeded "encoded journal payload exceeds the record-size bound");;
  ensure (slen payload <=? u32_max)
    (mkJournalError ClassBoundExceeded "encoded journal payload does not fit the v1 length field");;
  let header := encode_header (jr_record_kind record) (jn_next_sequence j) (slen payload)
                  (jn_prior_frame_digest j) in
  let frame := mkFrame record header payload (frame_digest header payload) in
  ensure (fr_encoded_bytes frame <=? u64_max)
    (mkJournalError ClassBoundExceeded "encoded journal frame size overflowed");;
  ensure (negb (jb_maximum_file_bytes (jc_bounds (jn_config j))
                <? sat_add (jn_file_bytes j) (fr_encoded_bytes frame)))
    (mkJournalError ClassBoundExceeded "journal file-size bound is exhausted");;
  Ok frame.

(** The writes, in order; the value is the time spent in syncs. *)
Definition write_frame (path : string) (f : Frame) (durability : JournalDurabilityModeV1)
    (hook : Hook) : io Z :=
  write_split path (fr_header f) HeaderPartiallyWritten hook;;
  write_split path (fr_payload f) PayloadPartiallyWritten hook;;
  write_split path (fr_trailer f) TrailerPartiallyWritten hook;;
  file_call;;
  run_hook hook FrameWrittenBeforeSync;;
  sync_file durability;;
  first ← elapsed_us;
  run_hook hook DataFrameSynced;;
  write_split path (fr_commit f) CommitMarkerPartiallyWritten hook;;
  file_call;;
  sync_file durability;;
  second ← elapsed_us;
  run_hook hook CommitMarkerSyncedBeforeAcknowledgement;;
  mret (first + second).

(** The journal after a frame that was written whole. *)
Definition commit_frame (j : HistoricalJournal) (f : Frame) : HistoricalJournal :=
  mkJournal (jn_path j) (jn_config j) (jn_creation_ack j) (jn_next_sequence j + 1) (fr_digest f)
    (sat_add (jn_file_bytes j) (fr_encoded_bytes f)) (jn_committed_records j ++ [fr_record f])
    (match immutable_identity (jr_body (fr_record f)) with
     | None => jn_immutable_identities j
     | Some identity => {[identity]} ∪ jn_immutable_identities j
     end) (jn_failed j).

(** [HistoricalJournal::append_with_qualification_hook]. *)
Definition append_with_qualification_hook (j : HistoricalJournal) (epoch : MonotonicEpochV1)
    (at_ms : Z) (context_digest : option DigestV1) (body : JournalRecordBodyV1)
    (durability : JournalDurabilityModeV1) (hook : Hook) (w : World)
  : World * HistoricalJournal * result JournalError JournalAppendAckV1 :=
  match prepare_frame j epoch at_ms context_digest body durability with
  | Err e => (w, j, Err e)
  | Ok f =>
      match write_frame (jn_path j) f durability hook w with
      | (w, Err e) => (w, set_jn_failed j, Err (io_error "append" e))
      | (w, Ok sync_latency_us) =>
          if u64_max <? jn_next_sequence j + 1 then
            (w, set_jn_failed (set_jn_file_bytes j (sat_add (jn_file_bytes j) (fr_encoded_bytes f))),
             Err (mkJournalError ClassBoundExceeded "journal sequence space is exhausted"))
          else
            let j' := commit_frame j f in
            let '(w, latency) := (tick_call w, fs_elapsed_us (wd_calls w)) in
            (w, j',
             Ok {| aa_schema_version := SCHEMA_VERSION_V1;
                   aa_journal_id := jc_journal_id (jn_config j);
                   aa_record_sequence := jn_next_sequence j;
                   aa_frame_digest := fr_digest f;
                   aa_durability := durability;
                   aa_data_frame_written := true;
                   aa_data_sync_completed := bool_decide (durability ≠ Written);
                   aa_commit_marker_written := true;
                   aa_commit_sync_completed := bool_decide (durability ≠ Written);
                   aa_acknowledgement_returned := true;
                   aa_file_bytes_after_append := jn_file_bytes j';
                   aa_append_latency_us := latency;
                   aa_sync_latency_us := sync_latency_us;
                   aa_physical_media_durability_claimed := false |})
      end
  end.

(** [HistoricalJournal::append]. *)
Definition append (j : HistoricalJournal) (epoch : MonotonicEpochV1) (at_ms : Z)
    (context_digest : option DigestV1) (body : JournalRecordBodyV1)
    (durability : JournalDurabilityModeV1) (w : World)
  : World * HistoricalJournal * result JournalError JournalAppendAckV1 :=
  append_with_qualification_hook j epoch at_ms context_digest body durability no_hook w.
End journal.
