(* ===== verification/RuntimeLogic.v ===== *)
(** * A program logic for the runtime's monad

    Weakest preconditions for computations in [rt], with one postcondition
    for the state a call returns in and one for the state a failing call
    leaves behind; the rules that step through a method; and the rule of
    framing, for methods that touch only part of the state. *)

From S2P Require Import Prelude Ids Digest Pulse Judgment Context Qualification Package.
From S2P Require Import Activation CustodyTypes.
From S2P Require Import Escalation Certificate Event Policy Receiver EvaluatorState Derive Explain.
From S2P Require Import Evaluator RuntimeState RuntimeArtifacts Runtime RuntimeOps.

Definition wp {A} (m : rt A) (Q : A → Runtime → Prop) (E : Failure → Runtime → Prop)
    (s : cycle) : Prop :=
  match m s with
  | (s', Ok a) => Q a s'.1
  | (s', Err f) => E f s'.1
  end.
#[global] Arguments wp : simpl never.

Section rules.
Context {A B : Type}.
Implicit Types (Q : A → Runtime → Prop) (E : Failure → Runtime → Prop) (m : rt A).

Lemma wp_mono m Q Q' E E' s :
  wp m Q E s → (∀ a r, Q a r → Q' a r) → (∀ f r, E f r → E' f r) → wp m Q' E' s.
Proof. unfold wp. destruct (m s) as [s' [a|f]]; auto. Qed.

Lemma wp_and m Q Q' E E' s :
  wp m Q E s → wp m Q' E' s →
  wp m (λ a r, Q a r ∧ Q' a r) (λ f r, E f r ∧ E' f r) s.
Proof. unfold wp. by destruct (m s) as [s' [a|f]]. Qed.

Lemma wp_bind m (k : A → rt B) (Q : B → Runtime → Prop) E s :
  wp m (λ a r, ∀ o, wp (k a) Q E (r, o)) E s → wp (m ≫= k) Q E s.
Proof.
  unfold wp, mbind, rt_bind. destruct (m s) as [[r o] [a|f]]; cbn; [|done].
  intros Hk. apply Hk.
Qed.

Lemma wp_ret (a : A) Q E s : Q a s.1 → wp (mret a) Q E s.
Proof. done. Qed.
Lemma wp_throw f Q E s : E f s.1 → wp (throw f) Q E s.
Proof. done. Qed.
Lemma wp_lift (res : result RuntimeError A) Q E s :
  (∀ a, res = Ok a → Q a s.1) → (∀ e, res = Err e → E (Returned e) s.1) → wp (lift res) Q E s.
Proof. unfold lift. destruct res as [a|e]; unfold wp; cbn; eauto. Qed.
Lemma wp_lift_sys (c : sys A) Q E r o :
  (∀ p a, c (rs_process r) = (p, Ok a) → Q a (set_rs_process r p)) →
  (∀ p f, c (rs_process r) = (p, Err f) → E (from_activation f) (set_rs_process r p)) →
  wp (lift_sys c) Q E (r, o).
Proof. unfold wp, lift_sys. cbn. destruct (c (rs_process r)) as [p [a|f]]; cbn; eauto. Qed.
End rules.

Lemma wp_get {B} (k : Runtime → rt B) Q E r o :
  wp (k r) Q E (r, o) → wp (get_rt ≫= k) Q E (r, o).
Proof. done. Qed.
Lemma wp_upd_bind {B} f (k : unit → rt B) Q E r o :
  wp (k tt) Q E (f r, o) → wp (upd f ≫= k) Q E (r, o).
Proof. done. Qed.
Lemma wp_upd f Q E r o : Q tt (f r) → wp (upd f) Q E (r, o).
Proof. done. Qed.
Lemma wp_emit f Q E r o : Q tt r → wp (emit f) Q E (r, o).
Proof. done. Qed.

(** The same on a call with its own output. *)
Lemma with_output_wp {A} (m : rt A) r Q E :
  wp m Q E (r, cycle_default) →
  match with_output m r with
  | (r', _, Ok a) => Q a r'
  | (r', _, Err f) => E f r'
  end.
Proof. unfold wp, with_output. by destruct (m (r, cycle_default)) as [[r' o] [a|f]]. Qed.

(** A loop keeps what its body keeps. *)
Lemma wp_for {A} (f : A → rt unit) (P : Runtime → Prop) E xs :
  (∀ x r o, x ∈ xs → P r → wp (f x) (λ _, P) E (r, o)) →
  ∀ r o, P r → wp (for_rt f xs) (λ _, P) E (r, o).
Proof.
  induction xs as [|x rest IH]; cbn; intros Hf r o HP; [by apply wp_ret|].
  apply wp_bind. eapply wp_mono; [apply Hf; [set_solver|done]| |auto].
  cbn. intros [] r' HP' o'. apply IH; [|done]. intros. apply Hf; [set_solver|done].
Qed.

(* ------------------------------------------------------------------ *)
(** ** Framing: what output, counters and history leave alone *)

Definition frame (r r' : Runtime) : Prop :=
  rs_config r' = rs_config r ∧ rs_consumers r' = rs_consumers r
  ∧ rs_schedules r' = rs_schedules r ∧ rs_qualified_bindings r' = rs_qualified_bindings r
  ∧ rs_pending r' = rs_pending r ∧ rs_current_monotonic_ms r' = rs_current_monotonic_ms r.

#[global] Instance frame_preorder : PreOrder frame.
Proof.
  split; [by intros r; split_and!|].
  intros a b c (?&?&?&?&?&?) (?&?&?&?&?&?). split_and!; congruence.
Qed.

Definition framed {A} (m : rt A) : Prop :=
  ∀ r o, wp m (λ _ r', frame r r') (λ _ _, False) (r, o).

Create HintDb framed.

Lemma framed_ret {A} (a : A) : framed (mret a).
Proof. intros r o. apply wp_ret. cbn. reflexivity. Qed.
Lemma framed_emit f : framed (emit f).
Proof. intros r o. apply wp_emit. reflexivity. Qed.
Lemma framed_upd f : (∀ r, frame r (f r)) → framed (upd f).
Proof. intros Hf r o. apply wp_upd. apply Hf. Qed.
Lemma framed_bind {A B} (m : rt A) (k : A → rt B) :
  framed m → (∀ a, framed (k a)) → framed (m ≫= k).
Proof.
  intros Hm Hk r o. apply wp_bind. eapply wp_mono; [apply Hm| |done].
  cbn. intros a r' Hr o'. eapply wp_mono; [apply Hk| |done].
  cbn. intros b r'' Hr''. by transitivity r'.
Qed.
(** Reading the state is harmless; what follows may assume it was just read. *)
Lemma framed_get {B} (k : Runtime → rt B) :
  (∀ r o, wp (k r) (λ _ r', frame r r') (λ _ _, False) (r, o)) → framed (get_rt ≫= k).
Proof. intros Hk r o. apply wp_get, Hk. Qed.
Lemma framed_at {A} (m : rt A) r o :
  framed m → wp m (λ _ r', frame r r') (λ _ _, False) (r, o).
Proof. intros Hm. apply Hm. Qed.
Lemma wp_frame_bind {A B} (m : rt A) (k : A → rt B) Q E r o :
  framed m → (∀ a r' o', frame r r' → wp (k a) Q E (r', o')) → wp (m ≫= k) Q E (r, o).
Proof.
  intros Hm Hk. apply wp_bind. eapply wp_mono; [apply Hm| |done]. cbn. intros. by apply Hk.
Qed.
Lemma framed_for {A} (f : A → rt unit) xs : (∀ x, framed (f x)) → framed (for_rt f xs).
Proof.
  intros Hf r o. apply wp_for; [|reflexivity]. intros x r' o' _ Hr.
  eapply wp_mono; [apply Hf| |done]. cbn. intros _ r'' Hr''. by transitivity r'.
Qed.
#[export] Hint Resolve framed_ret framed_emit framed_for : framed.

Section framed.
Context `{Sha256}.

Lemma framed_push_trace line : framed (push_trace line).
Proof. apply framed_emit. Qed.
Lemma framed_push_output_refusal x : framed (push_output_refusal x).
Proof. apply framed_emit. Qed.
Lemma framed_push_output_event x : framed (push_output_event x).
Proof. apply framed_emit. Qed.
Lemma framed_push_output_certificate x : framed (push_output_certificate x).
Proof. apply framed_emit. Qed.
Lemma framed_push_output_request x : framed (push_output_request x).
Proof. apply framed_emit. Qed.
#[local] Hint Resolve framed_push_trace framed_push_output_refusal framed_push_output_event
  framed_push_output_certificate framed_push_output_request : framed.

Lemma framed_drain_pending : framed drain_pending.
Proof.
  apply framed_get. intros r o. apply framed_at, framed_bind; [|auto with framed].
  by apply framed_upd; intros; split_and!.
Qed.

(** A step to a state that differs from the one read in framed fields. *)
Lemma wp_put_bind {B} (r1 : Runtime) (k : unit → rt B) r o :
  frame r r1 → framed (k tt) →
  wp (upd (λ _, r1) ≫= k) (λ _ r', frame r r') (λ _ _, False) (r, o).
Proof.
  intros Hr Hk. apply wp_upd_bind. eapply wp_mono; [apply Hk| |done].
  cbn. intros _ r' Hr'. by transitivity r1.
Qed.

Lemma framed_report_exhaustion at_ms : framed (report_exhaustion at_ms).
Proof.
  apply framed_get. intros r o. destruct (rs_history_exhaustion_reported r).
  - by apply framed_at, framed_ret.
  - apply wp_put_bind; [by split_and!|]. apply framed_bind; auto with framed.
Qed.

Lemma framed_record_sparse at_ms event : framed (record_sparse at_ms event).
Proof.
  apply framed_get. intros r o. destruct (at_least _ _); apply framed_at.
  - apply framed_bind; [by apply framed_upd; intros; split_and!|intros _].
    apply framed_bind; [by apply framed_upd; intros; split_and!|intros _].
    apply framed_report_exhaustion.
  - apply framed_bind; [by apply framed_upd; intros; split_and!|intros _].
    apply framed_bind; [by apply framed_upd; intros; split_and!|auto with framed].
Qed.
#[local] Hint Resolve framed_record_sparse : framed.

Lemma framed_push_refusal class at_ms subject consumer configured observed detail :
  framed (push_refusal class at_ms subject consumer configured observed detail).
Proof.
  apply framed_get. intros r o. cbn [refusal]. apply wp_put_bind; [by split_and!|].
  apply framed_bind; [auto with framed|intros _]. apply framed_bind; auto with framed.
Qed.
#[local] Hint Resolve framed_push_refusal : framed.

Lemma framed_record_context_transition key prior new cause incarnation at_ms :
  framed (record_context_transition key prior new cause incarnation at_ms).
Proof. apply framed_get. intros r o. apply framed_at. auto with framed. Qed.

Lemma framed_dispatch_escalation key prior request at_ms :
  framed (dispatch_escalation key prior request at_ms).
Proof.
  destruct request as [request|]; [|apply framed_ret].
  apply framed_get. intros r o. destruct (negb prior); [apply framed_at; auto with framed|].
  destruct (at_least _ _); apply framed_at; [auto with framed|].
  apply framed_bind; [by apply framed_upd; intros; split_and!|auto with framed].
Qed.

Lemma frame_stage_refusal r made : frame r (stage_refusal r made).
Proof.
  unfold stage_refusal.
  match goal with |- context [with_output ?m r] =>
    assert (Hf : framed m) by
      (apply framed_bind; [auto with framed|intros _; apply framed_bind; auto with framed]);
    generalize (with_output_wp m r _ _ (Hf r cycle_default));
    destruct (with_output m r) as [[r' o] []]; [|done]
  end.
  intros (?&?&?&?&?&?). by split_and!.
Qed.
End framed.

#[export] Hint Resolve framed_push_trace framed_push_output_refusal framed_push_output_event
  framed_push_output_certificate framed_push_output_request framed_drain_pending
  framed_record_sparse framed_push_refusal framed_record_context_transition
  framed_dispatch_escalation : framed.
