(* ===== verification/RuntimeInvariant.v ===== *)
(** * Invariants of the runtime and the methods that keep them

    [RuntimeInvariant T I] says that [I] survives the assignments of
    [lib.rs], evaluations being made at times in [T].  [I (Some key)] is the
    invariant while the consumer [key] is being worked on; [I None] is the
    invariant at rest.  Every method of the runtime then keeps [I None],
    whether it returns or fails. *)

From S2P Require Import Prelude Ids Digest Pulse Judgment Context Qualification Package.
From S2P Require Import Activation CustodyTypes.
From S2P Require Import Escalation Certificate Event Policy Receiver EvaluatorState Derive Explain.
From S2P Require Import Evaluator RuntimeState RuntimeArtifacts Runtime RuntimeOps RuntimeHistory RuntimeLogic.

(** The key's slot holds a live activation whose binding names the key and
    the context. *)
Definition live_binding (r : Runtime) (key : ConsumerKey) (context : RelianceContextV1)
    (binding : QualifiedGenerationBindingV1) : Prop :=
  ∃ slot accepted,
    rs_qualified_bindings r !! key = Some slot ∧ sl_state slot = QualifiedAndMatched
    ∧ sl_accepted slot = Some accepted ∧ va_binding accepted = binding
    ∧ binding_matches binding key context = true.

(** What [apply_evaluation] knows of a certificate it stores. *)
Record issuable `{Sha256} `{CustodyJson} (r : Runtime) (key : ConsumerKey) (state : ConsumerState)
    (c : RelianceSupportCertificateV1) (at_ms : Z) : Prop := {
  is_valid : certificate_validate c = Ok tt;
  is_time : sc_evaluated_at_monotonic_ms c = at_ms;
  is_context : sc_context c = co_context state;
  is_consumer : sc_consumer c = ck_consumer key;
  is_backed : ∀ binding, sc_qualified_generation c = Some binding →
                live_binding r key (co_context state) binding;
}.

Definition deadline_key (s : ScheduleKey) : ConsumerKey := mkKey (sch_subject s) (sch_consumer s).

Class RuntimeInvariant `{Sha256} `{CustodyJson} (T : Z → Prop)
    (I : option ConsumerKey → Runtime → Prop) := {
  inv_later t t' : T t → t <= t' → T t';
  inv_now x r : I x r → T (rs_current_monotonic_ms r);
  inv_frame x r r' : frame r r' → I x r → I x r';
  inv_open key r : I None r → I (Some key) r;
  inv_absent key r : rs_consumers r !! key = None → I (Some key) r → I None r;
  inv_put key state r : I (Some key) r → I (Some key) (put_consumer key state r);
  inv_drop key r : I (Some key) r → I (Some key) (drop_consumer key r);
  inv_keep key state evaluator r :
    rs_consumers r !! key = Some state → I None r →
    I None (put_consumer key (set_co_evaluator state evaluator) r);
  inv_cancel key r : I (Some key) r → I (Some key) (cancel_schedule key r);
  inv_slot key slot binding_state r :
    rs_qualified_bindings r !! key = Some slot → is_Some (sl_accepted slot) → I (Some key) r →
    I (Some key)
      (set_rs_qualified_bindings r
         (<[key := set_slot_state slot binding_state]> (rs_qualified_bindings r)));
  inv_refresh key slot accepted accepted' r :
    rs_qualified_bindings r !! key = Some slot → sl_accepted slot = Some accepted →
    va_binding accepted' = va_binding accepted → I (Some key) r →
    I (Some key)
      (set_rs_qualified_bindings r
         (<[key := set_slot_accepted slot accepted']> (rs_qualified_bindings r)));
  inv_unissued key state r :
    I (Some key) r → I None (put_consumer key (set_co_certificate state None) r);
  inv_issue key state c at_ms r :
    T at_ms → I (Some key) r → rs_consumers r !! key = None → issuable r key state c at_ms →
    I None (put_consumer key (set_co_certificate state (Some c))
              (schedule_certificate key state c r));
}.

Section invariant.
Context `{Sha256} `{FactJson} `{CustodyJson} `{RuntimeEnvironment}.
Context {T : Z → Prop} {I : option ConsumerKey → Runtime → Prop}.
Context `{!RuntimeInvariant T I}.

(** A failing call leaves the invariant, and the loop's fuel is not involved. *)
Definition fails (f : Failure) (r : Runtime) : Prop := f ≠ OutOfFuel ∧ I None r.
Definition keeps {A} (m : rt A) : Prop :=
  ∀ r o, I None r → wp m (λ _, I None) fails (r, o).

Lemma wp_framed {A B} (m : rt A) (k : A → rt B) x Q E r o :
  framed m → I x r → (∀ a r' o', frame r r' → I x r' → wp (k a) Q E (r', o')) →
  wp (m ≫= k) Q E (r, o).
Proof.
  intros Hm HI Hk. apply wp_bind. eapply wp_mono; [apply Hm| |done].
  cbn. intros a r' Hr o'. apply Hk; [done|]. by eapply inv_frame.
Qed.
Lemma wp_framed_end (m : rt unit) x E r o :
  framed m → I x r → wp m (λ _, I x) E (r, o).
Proof.
  intros Hm HI. eapply wp_mono; [apply Hm| |done]. cbn. intros a r' Hr. by eapply inv_frame.
Qed.
Lemma wp_upd_framed {B} f (k : unit → rt B) x Q E r o :
  frame r (f r) → I x r → (I x (f r) → wp (k tt) Q E (f r, o)) → wp (upd f ≫= k) Q E (r, o).
Proof. intros Hf HI Hk. apply wp_upd_bind, Hk. by eapply inv_frame. Qed.

Lemma keeps_framed {A} (m : rt A) : framed m → keeps m.
Proof.
  intros Hm r o HI. eapply wp_mono; [apply Hm| |done]. cbn. intros a r' Hr. by eapply inv_frame.
Qed.
Lemma keeps_ret {A} (a : A) : keeps (mret a).
Proof. apply keeps_framed, framed_ret. Qed.
Lemma keeps_bind {A B} (m : rt A) (k : A → rt B) :
  keeps m → (∀ a, keeps (k a)) → keeps (m ≫= k).
Proof.
  intros Hm Hk r o HI. apply wp_bind. eapply wp_mono; [by apply Hm| |done].
  cbn. intros a r' HI' o'. by apply Hk.
Qed.
Lemma keeps_get {B} (k : Runtime → rt B) : (∀ r o, I None r → wp (k r) (λ _, I None) fails (r, o)) →
  keeps (get_rt ≫= k).
Proof. intros Hk r o HI. by apply wp_get, Hk. Qed.
Lemma keeps_upd f : (∀ r, I None r → I None (f r)) → keeps (upd f).
Proof. intros Hf r o HI. by apply wp_upd, Hf. Qed.
Lemma keeps_throw {A} f : f ≠ OutOfFuel → keeps (throw f : rt A).
Proof. intros Hf r o HI. by apply wp_throw. Qed.
Lemma keeps_error {A} code detail : keeps (throw_error code detail : rt A).
Proof. by apply keeps_throw. Qed.
Lemma keeps_lift {A} (res : result RuntimeError A) : keeps (lift res).
Proof. intros r o HI. by apply wp_lift. Qed.
Lemma keeps_lift_sys {A} (c : sys A) : keeps (lift_sys c).
Proof.
  intros r o HI. apply wp_lift_sys; [intros p a _|intros p f _; split; [by destruct f|]];
    by eapply (inv_frame _ r).
Qed.
Lemma keeps_for {A} (f : A → rt unit) xs : (∀ x, keeps (f x)) → keeps (for_rt f xs).
Proof. intros Hf r o. apply wp_for. intros. by apply Hf. Qed.

(* ------------------------------------------------------------------ *)
(** ** Certificates *)

Lemma frame_account key at_ms r : frame r (account_due_schedule key at_ms r).
Proof. unfold account_due_schedule. destruct (minimum _); by split_and!. Qed.

Lemma descriptive_live r key state binding :
  descriptive_qualified_binding r key state = Some binding →
  live_binding r key (co_context state) binding.
Proof.
  unfold descriptive_qualified_binding, live_binding.
  destruct (rs_qualified_bindings r !! key) as [slot|]; cbn; [|done].
  destruct (decide _); [|done]. destruct (sl_accepted slot) as [accepted|] eqn:Ha; cbn; [|done].
  destruct (binding_matches _ _ _) eqn:Hm; [|done]. intros [= <-]. eauto 8.
Qed.

(** Revalidation leaves everything but the retained metadata as it was. *)
Lemma revalidate_executable_same accepted p p' accepted' :
  revalidate_executable accepted p = (p', Ok accepted') →
  va_binding accepted' = va_binding accepted
  ∧ va_measurements accepted' = va_measurements accepted
  ∧ va_receipt accepted' = va_receipt accepted.
Proof.
  unfold revalidate_executable, mbind, sys_bind.
  destruct (observe_metadata _ _) as [p1 [metadata|]]; [|done].
  destruct (decide _); [by intros [= _ <-]|].
  destruct (measure_open_executable _ _) as [p2 [observed|]]; [|done].
  unfold sys_lift. destruct (andb _ _); cbn; [by intros [= _ <-]|done].
Qed.

Lemma revalidate_slot_live accepted key context observed p p' accepted' :
  revalidate_slot accepted key context observed p = (p', Ok (inl accepted')) →
  va_binding accepted' = va_binding accepted
  ∧ binding_matches (va_binding accepted') key context = true.
Proof.
  unfold revalidate_slot. destruct (binding_matches _ _ _) eqn:Hm; cbn; [|done].
  unfold mbind, sys_bind, sys_try.
  destruct (revalidate_executable _ _) as [p1 [checked|[]]] eqn:Hr; [|done..].
  apply revalidate_executable_same in Hr as (Hb&_). destruct (find _ _); [done|].
  intros [= _ <-]. by rewrite Hb.
Qed.

(** While the consumer is out of the map. *)
Definition taken (key : ConsumerKey) (r : Runtime) : Prop :=
  I (Some key) r ∧ rs_consumers r !! key = None.

Lemma taken_rest key r : taken key r → I None r.
Proof. intros [??]. by eapply inv_absent. Qed.
Lemma taken_drop key r : I (Some key) r → taken key (drop_consumer key r).
Proof. intros HI. split; [by apply inv_drop|]. cbn. apply lookup_delete_eq. Qed.
Lemma taken_frame key r r' : frame r r' → taken key r → taken key r'.
Proof. intros Hr [HI Hc]. split; [by eapply inv_frame|]. by destruct Hr as (_&->&_). Qed.

Lemma wp_revalidated key state at_ms r o :
  taken key r →
  wp (revalidated_qualified_binding key state at_ms)
    (λ b r', taken key r' ∧ ∀ binding, b = Some binding →
               live_binding r' key (co_context state) binding) fails (r, o).
Proof.
  intros Ht. apply wp_get. apply wp_bind, wp_lift; cbn.
  2: { intros e _. split; [done|]. by eapply taken_rest. }
  intros observed _ o'. destruct (rs_qualified_bindings r !! key) as [slot|] eqn:Hs;
    [|by apply wp_ret].
  destruct (decide _) as [Hq|]; [|by apply wp_ret].
  destruct (sl_accepted slot) as [accepted|] eqn:Ha; [|by apply wp_ret].
  destruct Ht as [HI Hc]. apply wp_bind, wp_lift_sys.
  2: { intros p f _. split; [by destruct f|]. eapply (inv_frame _ r), inv_absent; [done..|].
       exact HI. }
  cbn. intros p verdict Hv o1. destruct verdict as [accepted'|[bs detail]].
  - apply revalidate_slot_live in Hv as [Hb Hm]. apply wp_upd_bind, wp_ret.
    split; [split; [|done]|].
    + apply (inv_refresh key slot accepted accepted' (set_rs_process r p)); [done..|].
      by eapply (inv_frame _ r).
    + intros ? [= <-]. unfold live_binding. cbn. rewrite lookup_insert_eq. eauto 8.
  - apply wp_upd_bind, wp_upd_bind.
    assert (Hx : taken key (cancel_schedule key
      (set_rs_qualified_bindings (set_rs_process r p)
         (<[key := set_slot_state slot bs]> (rs_qualified_bindings r))))).
    { split; [|done]. apply inv_cancel.
      apply (inv_slot key slot bs (set_rs_process r p)); [done|by eauto|].
      by eapply (inv_frame _ r). }
    apply wp_bind. eapply wp_mono; [apply framed_record_sparse| |done].
    cbn. intros _ r1 Hr1 o1'. apply wp_bind. eapply wp_mono; [apply framed_push_trace| |done].
    cbn. intros _ r2 Hr2 o2. apply wp_ret. split; [|done]. eapply taken_frame; [|done].
    by transitivity r1.
Qed.

Lemma wp_issue_certificate key state j binding at_ms evidence contradictions custody r o :
  T at_ms → taken key r →
  (∀ b, binding = Some b → live_binding r key (co_context state) b) →
  wp (issue_certificate key state j binding at_ms evidence contradictions custody)
    (λ _, I None) fails (r, o).
Proof.
  intros HT Ht Hb. apply wp_get.
  set (c := build_certificate _ _ _ _ _ _ _ _ _). apply wp_bind, wp_lift.
  2: { intros e _. split; [done|]. by eapply taken_rest. }
  intros [] Hv o1. apply map_err_Ok in Hv. apply wp_upd_bind, wp_upd_bind.
  eapply (wp_framed _ _ None); [auto with framed| |].
  { destruct Ht as [HI Hc]. eapply inv_issue; [done..|]. constructor; [done|reflexivity..|].
    intros b Hq. by apply Hb. }
  intros _ r1 o2 _ HI1. eapply (wp_framed _ _ None); [|exact HI1|].
  { destruct (decide _); auto with framed. }
  intros _ r2 o3 _ HI2. eapply (wp_framed _ _ None); [auto with framed|exact HI2|].
  intros _ r3 o4 _ HI3. apply wp_upd. by eapply (inv_frame _ r3).
Qed.

(** Whatever was stored for the consumer, [apply_evaluation] replaces its
    certificate by one just issued, by none, or leaves the consumer out. *)
Lemma wp_apply_evaluation key evaluation at_ms r o :
  T at_ms → I (Some key) r →
  wp (apply_evaluation key evaluation at_ms) (λ _, I None) fails (r, o).
Proof.
  intros HT HI. apply wp_get.
  eapply (wp_framed _ _ (Some key)); [auto with framed|done|]. intros _ r1 o1 _ HI1.
  eapply (wp_framed _ _ (Some key)); [auto with framed|done|]. intros _ r2 o2 _ HI2.
  apply wp_upd_bind. apply (inv_frame _ _ _ (frame_account key at_ms r2)) in HI2.
  apply wp_upd_bind. apply inv_cancel in HI2.
  set (r3 := cancel_schedule key (account_due_schedule key at_ms r2)) in *. clearbody r3.
  apply wp_get. destruct (rs_consumers r3 !! key) as [state|] eqn:Hc.
  2: { apply wp_throw. split; [done|]. by eapply inv_absent. }
  apply wp_upd_bind. cbv beta zeta. destruct (orb _ _).
  - apply wp_upd_bind. apply wp_framed_end; [auto with framed|].
    apply inv_unissued. by apply inv_drop.
  - apply taken_drop in HI2. apply wp_bind. destruct (decide (pj_category _ = _)).
    + eapply wp_mono; [by apply wp_revalidated| |done].
      cbn. intros b r4 [Ht Hb] o4. by apply wp_issue_certificate.
    + apply wp_ret. intros o4. apply wp_issue_certificate; [done..|].
      intros b Hd. by apply descriptive_live in Hd.
Qed.

Lemma wp_evaluate_consumer key missing operation before at_ms r o :
  T at_ms → missing ≠ OutOfFuel → I (Some key) r →
  (∀ r o, I (Some key) r → wp before (λ _, I (Some key)) (λ _ _, False) (r, o)) →
  wp (evaluate_consumer key missing operation before at_ms) (λ _, I None) fails (r, o).
Proof.
  intros HT Hm HI Hb. apply wp_get. destruct (rs_consumers r !! key) as [state|] eqn:Hc.
  2: { apply wp_throw. split; [done|]. by eapply inv_absent. }
  apply wp_upd_bind. apply taken_drop in HI.
  destruct (operation _) as [evaluator [evaluation|error]].
  2: { apply wp_throw. split; [done|]. by eapply taken_rest. }
  apply wp_upd_bind, wp_bind. eapply wp_mono; [apply Hb, inv_put, HI| |done].
  cbn. intros _ r1 HI1 o1. by apply wp_apply_evaluation.
Qed.

Lemma keeps_evaluate_consumer key missing operation before at_ms :
  T at_ms → missing ≠ OutOfFuel →
  (∀ r o, I (Some key) r → wp before (λ _, I (Some key)) (λ _ _, False) (r, o)) →
  keeps (evaluate_consumer key missing operation before at_ms).
Proof. intros ??? r o HI. apply wp_evaluate_consumer; [done..|by apply inv_open|done]. Qed.

(* ------------------------------------------------------------------ *)
(** ** Blindness *)

Lemma keeps_latch_blind_consumer at_ms detail r key :
  I None r → I None (latch_blind_consumer at_ms detail r key).
Proof.
  intros HI. unfold latch_blind_consumer. destruct (rs_consumers r !! key) as [state|] eqn:Hc; [|done].
  destruct (record_monitor_input_drop _ _ _ _) as [evaluator [evaluation|error]];
    [|by apply inv_keep].
  assert (HI' : I (Some key) (put_consumer key (set_co_evaluator state evaluator) r))
    by (by apply inv_put, inv_open).
  set (r1 := put_consumer _ _ r) in *. clearbody r1.
  assert (HT : T (Z.max at_ms (rs_current_monotonic_ms r1)))
    by (eapply inv_later; [by eapply inv_now|lia]).
  generalize (with_output_wp _ r1 _ _
                (wp_apply_evaluation key evaluation _ r1 cycle_default HT HI')).
  destruct (with_output _ r1) as [[r2 o2] [[]|f]]; [|by intros [_ ?]].
  intros HI2. by eapply (inv_frame _ r2).
Qed.

Lemma keeps_latch_keys at_ms detail keys r :
  I None r → I None (fold_left (latch_blind_consumer at_ms detail) keys r).
Proof.
  revert r. induction keys as [|key rest IH]; cbn; [done|]. intros r HI.
  by apply IH, keeps_latch_blind_consumer.
Qed.
Lemma keeps_latch_blind_all at_ms detail r : I None r → I None (latch_blind_all at_ms detail r).
Proof. apply keeps_latch_keys. Qed.
Lemma keeps_latch_blind_subject subject at_ms detail r :
  I None r → I None (latch_blind_subject subject at_ms detail r).
Proof. apply keeps_latch_keys. Qed.
Lemma keeps_latch_history_blindness at_ms r :
  I None r → I None (latch_history_blindness at_ms r).
Proof.
  intros HI. unfold latch_history_blindness. destruct (rs_history_blindness_latched r); [done|].
  apply keeps_latch_blind_all. by eapply (inv_frame _ r).
Qed.
Lemma keeps_stage_refusal r made : I None r → I None (stage_refusal r made).
Proof. apply inv_frame, frame_stage_refusal. Qed.

End invariant.
