(* ===== verification/RuntimeMethods.v ===== *)
(** * Every method of the runtime keeps a runtime invariant

    Input processing, deadlines, registration, bindings and recovery, for any
    invariant of [RuntimeInvariant]. *)

From S2P Require Import Prelude Ids Digest Pulse Judgment Context Qualification Package.
From S2P Require Import Activation CustodyTypes.
From S2P Require Import Escalation Certificate Event Policy Receiver EvaluatorState Derive Explain.
From S2P Require Import Evaluator RuntimeState RuntimeArtifacts Runtime RuntimeOps RuntimeHistory RuntimeLogic.
From S2P Require Import RuntimeInvariant.

Section methods.
Context `{Sha256} `{FactJson} `{CustodyJson} `{RuntimeEnvironment}.
Context {T : Z → Prop} {I : option ConsumerKey → Runtime → Prop}.
Context `{!RuntimeInvariant T I}.

#[local] Abbreviation keeps := (keeps (I := I)).
#[local] Abbreviation fails := (fails (I := I)).


(** An assignment outside the frame's fields. *)
Lemma keeps_assign f : (∀ r, frame r (f r)) → keeps (upd f).
Proof. intros Hf. apply keeps_framed. by apply framed_upd. Qed.
Lemma before_framed key (m : rt unit) :
  framed m → ∀ r o, I (Some key) r → wp m (λ _, I (Some key)) (λ _ _, False) (r, o).
Proof. intros. by apply wp_framed_end. Qed.

Lemma keeps_at {A} (m : rt A) r o : I None r → keeps m → wp m (λ _, I None) fails (r, o).
Proof. intros HI Hm. by apply Hm. Qed.

#[local] Ltac keep_framed := apply keeps_framed; auto with framed.
#[local] Ltac keep_assign := by apply keeps_assign; intros; split_and!.
(** Drop what was read of the state. *)
#[local] Ltac at_rest := apply keeps_at; [assumption|].

(* ------------------------------------------------------------------ *)
(** ** Pulses *)

Lemma keeps_refuse_pulse class subject at_ms configured observed detail blind_detail :
  keeps (refuse_pulse class subject at_ms configured observed detail blind_detail).
Proof.
  apply keeps_bind; [keep_framed|intros _]. apply keeps_upd. intros r.
  apply keeps_latch_blind_subject.
Qed.

Lemma keeps_record_remote_custody f remote at_ms : keeps (record_remote_custody f remote at_ms).
Proof.
  destruct remote as [[custody receipt]|]; cbn [record_remote_custody].
  - apply keeps_bind; [apply keeps_lift|intros _]. apply keeps_bind; [apply keeps_lift|intros _].
    case_match; [|apply keeps_error]. apply keeps_bind; [keep_framed|intros _].
    keep_assign.
  - keep_assign.
Qed.

Lemma keeps_ingest_for received ordinal at_ms key :
  T at_ms → keeps (ingest_for received ordinal at_ms key).
Proof.
  intros HT. apply keeps_get. intros r o HI. cbv zeta. destruct (rs_consumers r !! key).
  2: by apply keeps_ret.
  case_match; [|by apply keeps_ret]. apply keeps_evaluate_consumer; [done..| |done].
  apply before_framed; auto with framed.
Qed.

Lemma keeps_deliver_pulse arrival ordinal pulse remote at_ms :
  T at_ms → keeps (deliver_pulse arrival ordinal pulse remote at_ms).
Proof.
  intros HT. apply keeps_bind; [keep_assign|intros _].
  apply keeps_bind; [apply keeps_record_remote_custody|intros _].
  apply keeps_get. intros r o HI. destruct (annotate _ _ _ _ _ _) as [tracker annotated]. at_rest.
  apply keeps_bind; [keep_assign|intros _]. apply keeps_bind; [apply keeps_lift|intros annotation].
  apply keeps_for. intros key. by apply keeps_ingest_for.
Qed.

Lemma keeps_process_pulse arrival ordinal pulse remote at_ms :
  T at_ms → keeps (process_pulse arrival ordinal pulse remote at_ms).
Proof.
  intros HT. apply keeps_get. intros r o HI. cbv zeta. destruct (rs_subjects r !! _); at_rest.
  2: keep_framed.
  case_match; [apply keeps_bind; [keep_assign|intros _]; apply keeps_refuse_pulse|].
  case_match; [apply keeps_bind; [keep_assign|intros _]; apply keeps_refuse_pulse|].
  case_match; [apply keeps_refuse_pulse|]. by apply keeps_deliver_pulse.
Qed.

(* ------------------------------------------------------------------ *)
(** ** Context activation and subject replacement *)

Lemma keeps_refuse_activation counted class key at_ms configured observed detail blind_detail :
  keeps (refuse_activation counted class key at_ms configured observed detail blind_detail).
Proof.
  apply keeps_bind; [destruct counted; [keep_assign|keep_framed]|intros _].
  apply keeps_bind; [keep_framed|intros _].
  apply keeps_upd. intros r. apply keeps_latch_blind_consumer.
Qed.

Lemma wp_invalidate_binding key context at_ms r o :
  taken (I := I) key r →
  wp (invalidate_binding_for_context_change key context at_ms) (λ _, taken (I := I) key)
    (λ _ _, False) (r, o).
Proof.
  intros Ht. apply wp_get. destruct (rs_qualified_bindings r !! key) as [slot|] eqn:Hs;
    [|by apply wp_ret].
  destruct (sl_accepted slot) as [accepted|] eqn:Ha; [|by apply wp_ret].
  destruct (matches_context _ _); [by apply wp_ret|]. cbv zeta. apply wp_upd_bind.
  assert (Hx : taken (I := I) key
    (set_rs_qualified_bindings r (<[key := set_slot_state slot Unbound]> (rs_qualified_bindings r)))).
  { destruct Ht as [HI Hc]. split; [|done]. apply inv_slot; [done|by eauto|done]. }
  apply wp_bind. eapply wp_mono; [apply framed_record_sparse| |done]. cbn. intros _ r1 Hr1 o1.
  eapply wp_mono; [apply framed_push_trace| |done]. cbn. intros _ r2 Hr2.
  eapply taken_frame; [|done]. by transitivity r1.
Qed.

Lemma keeps_install_context logical_at activation key state at_ms :
  T at_ms → keeps (install_context logical_at activation key state at_ms).
Proof.
  intros HT r o HI. apply (inv_open key) in HI. apply wp_upd_bind. apply taken_drop in HI.
  apply wp_bind. eapply wp_mono; [by apply wp_invalidate_binding| |done].
  cbn. intros _ r1 Ht o1. destruct (replace_policy _ _ _ _) as [evaluator [evaluation|error]].
  2: { apply wp_throw. split; [done|]. by eapply taken_rest. }
  destruct Ht as [HI1 _]. apply wp_upd_bind. eapply inv_put in HI1.
  eapply wp_upd_framed; [|exact HI1|clear HI1; intros HI1]; [by split_and!|].
  eapply wp_upd_framed; [|exact HI1|clear HI1; intros HI1]; [by split_and!|].
  apply wp_upd_bind. apply inv_cancel in HI1.
  eapply wp_framed; [|exact HI1|clear HI1; intros _ r2 o2 _ HI1].
  { case_match; [by apply framed_upd; intros; split_and!|auto with framed]. }
  eapply wp_framed; [|exact HI1|clear HI1; intros _ r3 o3 _ HI1]; [auto with framed|].
  eapply wp_framed; [|exact HI1|clear HI1; intros _ r4 o4 _ HI1]; [auto with framed|].
  by apply wp_apply_evaluation.
Qed.

Lemma keeps_activate_consumer logical_at activation at_ms :
  T at_ms → keeps (activate_consumer logical_at activation at_ms).
Proof.
  intros HT. apply keeps_bind; [apply keeps_lift|intros _].
  apply keeps_get. intros r o HI. cbv zeta. destruct (rs_consumers r !! _) as [state|]; at_rest.
  2: by apply keeps_throw.
  destruct (decide _); [apply keeps_refuse_activation|].
  destruct (at_least _ _); [apply keeps_refuse_activation|].
  destruct (rs_historical_policy_bodies r !! _); [|by apply keeps_install_context].
  destruct (decide _); [by apply keeps_install_context|apply keeps_refuse_activation].
Qed.

Lemma keeps_replace_for_consumer logical_at subject replacement at_ms activation :
  T at_ms → keeps (replace_for_consumer logical_at subject replacement at_ms activation).
Proof.
  intros HT. apply keeps_get. intros r o HI. cbv zeta. at_rest.
  apply keeps_bind; [|intros _; apply keeps_bind; [by apply keeps_activate_consumer|intros _];
                      keep_framed].
  apply keeps_evaluate_consumer; [done..|]. intros r' o' HI'. apply wp_upd. by apply inv_cancel.
Qed.

Lemma keeps_replace_subject logical_at subject replacement activations at_ms :
  T at_ms → keeps (runtime_replace_subject logical_at subject replacement activations at_ms).
Proof.
  intros HT. apply keeps_bind; [apply keeps_lift|intros _].
  apply keeps_get. intros r o HI. destruct (rs_subjects r !! subject) as [s|]; at_rest.
  2: apply keeps_error.
  case_match.
  { apply keeps_bind; [keep_framed|intros _]. apply keeps_upd. intros r'.
    apply keeps_latch_blind_subject. }
  cbv zeta. destruct (orb _ _); [apply keeps_error|].
  apply keeps_bind; [apply keeps_for|intros _].
  { intros a. apply keeps_bind; [apply keeps_lift|intros _].
    destruct (decide _); [keep_framed|apply keeps_error]. }
  destruct (activate_subject_incarnation _ _ _) as [tracker activated].
  apply keeps_bind; [keep_assign|intros _]. apply keeps_bind; [apply keeps_lift|intros _].
  apply keeps_bind; [apply keeps_for; intros; by apply keeps_replace_for_consumer|intros _].
  keep_assign.
Qed.

(* ------------------------------------------------------------------ *)
(** ** Inputs *)

Lemma framed_no_active_request at_ms subject consumer detail :
  framed (no_active_request at_ms subject consumer detail).
Proof. unfold no_active_request. apply framed_push_refusal. Qed.
#[local] Hint Resolve framed_no_active_request : framed.

Lemma keeps_process_disposition disposition at_ms :
  T at_ms → keeps (process_disposition disposition at_ms).
Proof.
  intros HT. apply keeps_get. intros r o HI. destruct (owner_of _ _); at_rest; [|keep_framed].
  apply keeps_evaluate_consumer; [done..|]. apply before_framed. auto with framed.
Qed.

Lemma keeps_process_receipt receipt at_ms : T at_ms → keeps (process_receipt receipt at_ms).
Proof.
  intros HT. apply keeps_get. intros r o HI. cbv zeta. destruct (at_least _ _); at_rest.
  { apply keeps_bind; [keep_framed|intros _]. apply keeps_upd. intros r'.
    apply keeps_latch_blind_subject. }
  destruct (owner_of _ _); [|keep_framed]. apply keeps_evaluate_consumer; [done..|].
  apply before_framed. by apply framed_upd; intros; split_and!.
Qed.

Lemma keeps_process_revalidation key policy at_ms :
  T at_ms → keeps (process_revalidation key policy at_ms).
Proof.
  intros HT. apply keeps_get. intros r o HI. destruct (decide _); [|by at_rest; apply keeps_error].
  destruct (rs_consumers r !! key) as [state|]; [|by at_rest; apply keeps_throw].
  apply (inv_open key), taken_drop in HI. apply wp_upd_bind.
  apply wp_bind. eapply wp_mono; [by apply wp_revalidated| |done]. cbn. intros b r1 [Ht _] o1.
  destruct (tick _ _) as [evaluator [evaluation|error]].
  2: { apply wp_throw. split; [done|]. by eapply taken_rest. }
  apply wp_upd_bind. apply wp_apply_evaluation; [done|]. by apply inv_put, Ht.
Qed.

Lemma keeps_process_boundary subject finding session detail withdraw at_ms :
  keeps (process_boundary subject finding session detail withdraw at_ms).
Proof.
  unfold process_boundary. destruct (orb _ _); [apply keeps_error|].
  apply keeps_bind; [keep_framed|intros _]. apply keeps_bind; [keep_framed|intros _].
  destruct withdraw; [|keep_framed]. apply keeps_bind; [|intros _; keep_framed].
  apply keeps_upd. intros r. destruct subject;
    [apply keeps_latch_blind_subject|apply keeps_latch_blind_all].
Qed.

Lemma keeps_process_restore subject detail at_ms :
  T at_ms → keeps (process_restore subject detail at_ms).
Proof.
  intros HT. apply keeps_get. intros r o HI. at_rest.
  apply keeps_bind; [|intros _; keep_framed]. apply keeps_for. intros key.
  apply keeps_evaluate_consumer; [done..|]. apply before_framed. auto with framed.
Qed.

Theorem keeps_process_input logical_at ordinal input at_ms :
  T at_ms → keeps (process_input logical_at ordinal input at_ms).
Proof.
  intros HT. destruct input; cbn [process_input].
  - by apply keeps_activate_consumer.
  - by apply keeps_replace_subject.
  - by apply keeps_process_pulse.
  - by apply keeps_process_pulse.
  - by apply keeps_process_disposition.
  - by apply keeps_process_receipt.
  - apply keeps_evaluate_consumer; [done..|]. apply before_framed. auto with framed.
  - by apply keeps_process_revalidation.
  - apply keeps_process_boundary.
  - by apply keeps_process_restore.
Qed.

(** A deadline that has been taken out of the schedule. *)
Theorem wp_process_deadline s at_ms r o :
  T at_ms → I (Some (deadline_key s)) r →
  ((∀ state, rs_consumers r !! deadline_key s = Some state →
     cx_activation_id (co_context state) ≠ sch_activation_id s) → I None r) →
  wp (process_deadline s at_ms) (λ _, I None) fails (r, o).
Proof.
  intros HT HI Hstale. apply wp_get. cbv beta zeta.
  change (mkKey (sch_subject s) (sch_consumer s)) with (deadline_key s).
  destruct (rs_consumers r !! deadline_key s) as [state|] eqn:Hc.
  2: { apply wp_ret. by eapply inv_absent. }
  destruct (decide _) as [|Hne].
  2: { apply wp_ret, Hstale. by intros ? [= <-]. }
  apply wp_evaluate_consumer; [done..|]. intros r' o' HI'. apply before_framed; [|done].
  unfold note_deadline. apply framed_bind; [by apply framed_upd; intros; split_and!|intros _].
  apply framed_bind; auto with framed.
Qed.

(* ------------------------------------------------------------------ *)
(** ** Entry points that do not touch the queue or the schedule's head *)

Lemma keeps_ensure_history detail : keeps (ensure_history detail).
Proof.
  apply keeps_get. intros r o HI. destruct (rs_history_exhausted r); at_rest;
    [apply keeps_error|keep_framed].
Qed.

Lemma keeps_registration_admissible registration : keeps (registration_admissible registration).
Proof.
  apply keeps_get. intros r o HI. cbv zeta. at_rest.
  destruct (decide _); [apply keeps_error|].
  case_match; [apply keeps_bind; [keep_assign|intros _; apply keeps_error]|].
  case_match; [apply keeps_error|].
  case_match; [apply keeps_bind; [keep_assign|intros _; apply keeps_error]|].
  destruct (decide _); [apply keeps_error|].
  destruct (rs_historical_policy_bodies r !! _); [destruct (decide _)|];
    [keep_framed|apply keeps_error|keep_framed].
Qed.

Section clocked.
(** The invariant does not depend on the clock. *)
Hypothesis any_time : ∀ t, T t.
Hypothesis inv_clock : ∀ r t, I None r → I None (set_rs_current_monotonic_ms r t).

Lemma keeps_ensure_time at_ms : keeps (ensure_time_not_regressed at_ms).
Proof.
  apply keeps_get. intros r o HI. case_match; at_rest.
  - apply keeps_bind; [|intros _; apply keeps_error]. apply keeps_upd. intros r'.
    apply keeps_latch_blind_all.
  - apply keeps_upd. intros r'. apply inv_clock.
Qed.

Theorem keeps_register_consumer registration at_ms :
  keeps (register_consumer_rt registration at_ms).
Proof.
  apply keeps_bind; [apply keeps_ensure_history|intros _].
  apply keeps_bind; [apply keeps_ensure_time|intros _].
  apply keeps_bind; [apply keeps_lift|intros _].
  apply keeps_bind; [apply keeps_registration_admissible|intros _].
  apply keeps_get. intros r o HI. at_rest. apply keeps_bind; [apply keeps_lift|intros evaluator].
  destruct (install_reevaluation_barrier _ _ _) as [e [evaluation|error]]; [|by apply keeps_throw].
  clear r o HI. intros r o HI. cbv zeta. set (key := registration_key registration).
  apply wp_upd_bind. eapply wp_framed.
  - auto with framed.
  - apply (inv_open key) in HI. eapply (inv_frame _ (put_consumer key _ r)), inv_put, HI.
    by split_and!.
  - cbn. intros _ r1 o1 _ HI1. by apply wp_apply_evaluation.
Qed.

(** A key whose slot changed is evaluated behind a barrier before it rests. *)
Lemma wp_barrier_if_registered key barrier at_ms r o :
  I (Some key) r → wp (barrier_if_registered key barrier at_ms) (λ _, I None) fails (r, o).
Proof.
  intros HI. apply wp_get. destruct (rs_consumers r !! key) eqn:Hc.
  - apply wp_evaluate_consumer; [done..|]. apply before_framed. auto with framed.
  - apply wp_ret. by eapply inv_absent.
Qed.

Theorem keeps_declare_blindness at_ms state detail :
  keeps (ensure_time_not_regressed at_ms;;
         drain_pending;;
         record_sparse at_ms (EvMonitorCapabilityChanged state detail);;
         upd (latch_blind_all at_ms detail);;
         drain_pending).
Proof.
  apply keeps_bind; [apply keeps_ensure_time|intros _].
  apply keeps_bind; [keep_framed|intros _]. apply keeps_bind; [keep_framed|intros _].
  apply keeps_bind; [|intros _; keep_framed]. apply keeps_upd. intros r.
  apply keeps_latch_blind_all.
Qed.

(** Whether the key's slot may be replaced by any other. *)
Definition may_rebind (key : ConsumerKey) : Prop :=
  ∀ slot r, I (Some key) r →
  I (Some key) (set_rs_qualified_bindings r (<[key := slot]> (rs_qualified_bindings r))).

Theorem keeps_activate_binding registration manifest certificate report acceptance at_ms :
  may_rebind (registration_key registration) →
  keeps (activate_binding_rt registration manifest certificate report acceptance at_ms).
Proof.
  intros Hslot.
  apply keeps_bind; [apply keeps_ensure_history|intros _].
  apply keeps_bind; [apply keeps_ensure_time|intros _].
  apply keeps_bind; [apply keeps_lift|intros _]. apply keeps_bind; [|intros _].
  { apply keeps_get. intros r o HI. cbv zeta. at_rest.
    case_match; [apply keeps_error|]. case_match; [apply keeps_error|keep_framed]. }
  apply keeps_get. intros r o HI. at_rest.
  apply keeps_bind; [apply keeps_lift|intros measurements].
  apply keeps_bind; [apply keeps_lift_sys|intros attempt].
  clear r o HI. intros r o HI. cbv zeta. set (key := registration_key registration).
  apply wp_upd_bind. apply (inv_open key) in HI. eapply Hslot in HI.
  eapply wp_framed; [auto with framed|exact HI|]. clear HI. intros _ r1 o1 _ HI.
  eapply wp_framed; [auto with framed|exact HI|]. clear HI. intros _ r2 o2 _ HI.
  apply wp_upd_bind. apply inv_cancel in HI.
  apply wp_bind. eapply wp_mono; [by apply wp_barrier_if_registered| |done].
  cbn. intros _ r3 HI3 o3. at_rest.
  apply keeps_bind; [keep_framed|intros _]. apply keeps_bind; [keep_framed|intros _]. keep_framed.
Qed.

(** Whether a slot under an accepted certificate may be terminated. *)
Definition may_terminate : Prop :=
  ∀ key slot fact observed r,
  rs_qualified_bindings r !! key = Some slot →
  la_certificate_status (sl_acceptance slot) = StatusAccepted observed → I (Some key) r →
  I (Some key)
    (set_rs_qualified_bindings r (<[key := terminated_slot slot fact]> (rs_qualified_bindings r))).

Theorem keeps_apply_lifecycle key fact at_ms :
  may_terminate → keeps (apply_lifecycle_rt key fact at_ms).
Proof.
  intros Hslot.
  apply keeps_bind; [apply keeps_ensure_history|intros _].
  apply keeps_bind; [apply keeps_ensure_time|intros _].
  apply keeps_bind; [apply keeps_lift|intros _].
  apply keeps_get. intros r o HI. destruct (rs_qualified_bindings r !! key) as [slot|] eqn:Hs;
    [|by at_rest; apply keeps_error].
  cbv zeta. destruct (la_certificate_status _) eqn:Ha; try by at_rest; apply keeps_error.
  destruct (orb _ _); [by at_rest; apply keeps_error|].
  apply wp_upd_bind. apply (inv_open key), (Hslot key slot fact _ _ Hs Ha) in HI.
  apply wp_upd_bind. apply inv_cancel in HI.
  eapply wp_framed; [auto with framed|exact HI|]. clear HI. intros _ r1 o1 _ HI.
  eapply wp_framed; [auto with framed|exact HI|]. clear HI. intros _ r2 o2 _ HI.
  apply wp_bind. eapply wp_mono; [by apply wp_barrier_if_registered| |done].
  cbn. intros _ r3 HI3 o3. at_rest.
  apply keeps_bind; [keep_framed|intros _]. keep_framed.
Qed.
(* ------------------------------------------------------------------ *)
(** ** Recovery *)

Lemma keeps_recall_event event : keeps (recall_event event).
Proof.
  unfold recall_event. destruct (se_event event); try solve [keep_framed]. cbv zeta.
  apply keeps_bind; [keep_assign|intros _]. apply keeps_get. intros r o HI. at_rest.
  destruct (rs_historical_policy_bodies r !! _); [destruct (decide _)|];
    [keep_assign|apply keeps_error|keep_assign].
Qed.

Lemma keeps_import_group group : keeps (import_group group).
Proof.
  destruct group as [key records]. apply keeps_get. intros r o HI.
  destruct (rs_consumers r !! key) as [state|] eqn:Hc; [|by at_rest; apply keeps_error].
  apply wp_upd_bind. destruct (import_contradictions _ _) as [evaluator [[]|error]].
  - apply wp_upd. eapply (inv_frame _ (put_consumer key (set_co_evaluator state evaluator) r)).
    + split_and!; try done. cbn. by rewrite insert_delete_eq.
    + by apply inv_keep.
  - apply wp_throw. split; [done|]. by eapply taken_rest, taken_drop, inv_open.
Qed.

Theorem keeps_recover registrations history at_ms :
  keeps (recover_rt registrations history at_ms).
Proof.
  apply keeps_bind; [keep_assign|intros _].
  apply keeps_bind; [apply keeps_for, keeps_recall_event|intros _].
  apply keeps_get. intros r o HI. at_rest. apply keeps_bind; [apply keeps_for|intros _].
  { intros registration. unfold recover_registration.
    destruct (decide _); [apply keeps_error|apply keeps_register_consumer]. }
  apply keeps_bind; [apply keeps_for, keeps_import_group|intros _].
  apply keeps_get. intros r' o' HI'. at_rest. apply keeps_bind; [apply keeps_for|intros _].
  { intros key. apply keeps_evaluate_consumer; [done..|]. apply before_framed. auto with framed. }
  apply keeps_get. intros r'' o'' HI''. at_rest. apply keeps_bind; [keep_framed|intros _].
  keep_framed.
Qed.
End clocked.

End methods.
