(* ===== verification/RuntimeSafety.v ===== *)
(** * What a stored CURRENT certificate guarantees

    The states the runtime's entry points reach, and the invariant that every
    stored CURRENT certificate is valid, rests on a live qualified binding of
    its consumer and has its expiry on the schedule.  From it: once
    [run_until] returns, no CURRENT certificate is past its deadline; and
    before a binding has been activated, or once it is revoked, there is no
    CURRENT certificate at all. *)

From S2P Require Import Prelude Ids Digest Pulse Judgment Context Qualification Package.
From S2P Require Import Activation CustodyTypes.
From S2P Require Import Escalation Certificate Event Policy Receiver EvaluatorState Derive Explain.
From S2P Require Import Evaluator RuntimeState RuntimeArtifacts Runtime RuntimeOps RuntimeHistory RuntimeLogic.
From S2P Require Import RuntimeInvariant RuntimeMethods.

(** Turn evaluated tests into propositions. *)
Ltac read_tests :=
  repeat match goal with
  | H : bool_decide _ = true |- _ => apply bool_decide_eq_true in H
  | H : bool_decide _ = false |- _ => apply bool_decide_eq_false in H
  end.

(* ------------------------------------------------------------------ *)
(** ** The schedule in deadline order *)

Definition by_deadline : list ScheduleKey → Prop :=
  StronglySorted (λ a b, sk_deadline_monotonic_ms a <= sk_deadline_monotonic_ms b).

Lemma lex_Eq c d : lex c d = Eq → c = Eq ∧ d = Eq.
Proof. by destruct c. Qed.

Lemma schedule_compare_eq a b : schedule_compare a b = Eq → a = b.
Proof.
  destruct a, b. unfold schedule_compare. cbn. intros Hc.
  apply lex_Eq in Hc as [H1 Hc]. apply lex_Eq in Hc as [H2 Hc]. apply lex_Eq in Hc as [H3 H4].
  apply Z.compare_eq_iff in H1. apply String.compare_eq_iff in H2, H3, H4. by subst.
Qed.
Lemma schedule_compare_lt a b :
  schedule_compare a b = Lt → sk_deadline_monotonic_ms a <= sk_deadline_monotonic_ms b.
Proof. unfold schedule_compare. destruct (Z.compare_spec (sk_deadline_monotonic_ms a) (sk_deadline_monotonic_ms b)); cbn; lia || done. Qed.
Lemma schedule_compare_gt a b :
  schedule_compare a b = Gt → sk_deadline_monotonic_ms b <= sk_deadline_monotonic_ms a.
Proof. unfold schedule_compare. destruct (Z.compare_spec (sk_deadline_monotonic_ms a) (sk_deadline_monotonic_ms b)); cbn; lia || done. Qed.

Lemma elem_of_schedule_add s x l :
  x ∈ btree_add schedule_compare s l ↔ x = s ∨ x ∈ l.
Proof.
  induction l as [|y rest IH]; cbn; [set_solver|].
  destruct (schedule_compare s y) eqn:Hc; [apply schedule_compare_eq in Hc as ->|..];
    set_solver.
Qed.

Lemma by_deadline_add s l : by_deadline l → by_deadline (btree_add schedule_compare s l).
Proof.
  unfold by_deadline. induction 1 as [|y rest Hs IH Hy]; cbn; [by repeat constructor|].
  destruct (schedule_compare s y) eqn:Hc; constructor; try done.
  - by constructor.
  - apply schedule_compare_lt in Hc. constructor; [done|]. eapply Forall_impl; [done|]. cbn. lia.
  - apply schedule_compare_gt in Hc. apply Forall_forall. intros x Hx.
    apply elem_of_schedule_add in Hx as [->|Hx]; [done|]. by eapply (proj1 (Forall_forall _ _) Hy).
Qed.

Lemma by_deadline_filter (P : ScheduleKey → Prop) `{∀ s, Decision (P s)} l :
  by_deadline l → by_deadline (filter P l).
Proof.
  unfold by_deadline. induction 1 as [|y rest Hs IH Hy]; [constructor|].
  rewrite filter_cons. destruct (decide _); [|done]. constructor; [done|].
  apply Forall_forall. intros x Hx. apply list_elem_of_filter in Hx as [_ Hx].
  by eapply (proj1 (Forall_forall _ _) Hy).
Qed.

(* ------------------------------------------------------------------ *)
(** ** Reachable states *)

Inductive RuntimeOperation :=
| OpRegister (registration : ConsumerRegistrationV1) (at_ms : Z)
| OpEnqueue (at_ms : Z) (input : RuntimeInputV1)
| OpRunUntil (now : Z)
| OpActivateBinding (registration : ConsumerRegistrationV1)
    (manifest certificate report : option string) (acceptance : LocalActivationAcceptanceV1)
    (at_ms : Z)
| OpQualifyBinding (registration : ConsumerRegistrationV1) (inputs : LocalQualificationInputsV1)
    (at_ms : Z)
| OpLifecycle (subject : SubjectId) (consumer : ConsumerId) (fact : GenerationLifecycleFactV1)
    (at_ms : Z)
| OpBlindness (at_ms : Z) (state detail : string).

Section safety.
Context `{Sha256} `{FactJson} `{CustodyJson} `{RuntimeEnvironment}.

(** The state an operation leaves, whatever it returned. *)
Definition perform (r : Runtime) (op : RuntimeOperation) : Runtime :=
  match op with
  | OpRegister registration at_ms => (register_consumer r registration at_ms).1
  | OpEnqueue at_ms input => (enqueue r at_ms input).1
  | OpRunUntil now => (run_until r now).1
  | OpActivateBinding registration manifest certificate report acceptance at_ms =>
      (activate_qualified_binding r registration manifest certificate report acceptance at_ms).1
  | OpQualifyBinding registration inputs at_ms =>
      (qualify_and_activate_local_binding r registration inputs at_ms).1
  | OpLifecycle subject consumer fact at_ms =>
      (apply_generation_lifecycle_fact r subject consumer fact at_ms).1
  | OpBlindness at_ms state detail => (declare_external_monitor_blindness r at_ms state detail).1
  end.

Inductive runtime_reachable : Runtime → Prop :=
| reachable_new config r : runtime_new config = Ok r → runtime_reachable r
| reachable_recovered config registrations history at_ms r o :
    recover config registrations history at_ms = Ok (r, o) → runtime_reachable r
| reachable_performed r op : runtime_reachable r → runtime_reachable (perform r op).

(* ------------------------------------------------------------------ *)
(** ** The invariant *)

(** The schedule entry of a consumer's deadline. *)
Definition deadline_of_consumer (key : ConsumerKey) (state : ConsumerState) (deadline : Z)
  : ScheduleKey :=
  mkSchedule deadline (ck_subject key) (ck_consumer key) (cx_activation_id (co_context state)).

Record supported (r : Runtime) (key : ConsumerKey) (state : ConsumerState)
    (c : RelianceSupportCertificateV1) : Prop := {
  su_valid : certificate_validate c = Ok tt;
  su_context : sc_context c = co_context state;
  su_consumer : sc_consumer c = ck_consumer key;
  su_bound : ∃ binding, sc_qualified_generation c = Some binding
                        ∧ live_binding r key (co_context state) binding;
  su_scheduled : ∃ deadline, sc_earliest_support_expiry_monotonic_ms c = Some deadline
                   ∧ sc_evaluated_at_monotonic_ms c < deadline
                   ∧ deadline_of_consumer key state deadline ∈ rs_schedules r;
}.

Record covered (x : option ConsumerKey) (r : Runtime) : Prop := {
  cov_sorted : by_deadline (rs_schedules r);
  cov_current : ∀ key state c,
    x ≠ Some key → rs_consumers r !! key = Some state → co_certificate state = Some c →
    sc_judgment c = CatCurrent → supported r key state c;
}.

(** A validated CURRENT certificate carries a binding and a future expiry. *)
Lemma current_certificate_inv c :
  certificate_validate c = Ok tt → sc_judgment c = CatCurrent →
  (∃ binding, sc_qualified_generation c = Some binding)
  ∧ ∃ deadline, sc_earliest_support_expiry_monotonic_ms c = Some deadline
                ∧ sc_evaluated_at_monotonic_ms c < deadline.
Proof.
  unfold certificate_validate. intros Hv Hj. inv_ok Hv.
  match goal with Hs : certificate_support_validate c = Ok _ |- _ =>
    unfold certificate_support_validate in Hs; rewrite decide_True in Hs by done; inv_ok Hs
  end.
  split_and_bool. read_tests. destruct (sc_qualified_generation c) as [binding|]; [|done].
  destruct (sc_earliest_support_expiry_monotonic_ms c) as [deadline|]; [|done].
  split; [by eauto|]. exists deadline. split; [done|]. lia.
Qed.

(** Only CURRENT certificates are scheduled. *)
Lemma other_certificate_inv c :
  certificate_validate c = Ok tt → sc_judgment c ≠ CatCurrent →
  sc_earliest_support_expiry_monotonic_ms c = None.
Proof.
  unfold certificate_validate. intros Hv Hj. inv_ok Hv.
  match goal with Hs : certificate_support_validate c = Ok _ |- _ =>
    unfold certificate_support_validate in Hs; rewrite decide_False in Hs by done; inv_ok Hs
  end.
  split_and_bool. by read_tests.
Qed.

Lemma supported_mono r r' key state c :
  rs_qualified_bindings r' !! key = rs_qualified_bindings r !! key →
  (∀ s, deadline_key s = key → sch_activation_id s = cx_activation_id (co_context state) →
     s ∈ rs_schedules r → s ∈ rs_schedules r') →
  supported r key state c → supported r' key state c.
Proof.
  intros Hb Hs [??? (binding&?&(slot&accepted&Hl&?)) (deadline&?&?&?)]. constructor; try done.
  - exists binding. split; [done|]. exists slot, accepted. by rewrite Hb.
  - exists deadline. split_and!; try done. by apply Hs; [destruct key|..].
Qed.

(** A change confined to one consumer keeps the rest covered. *)
Lemma covered_elsewhere key r r' x :
  by_deadline (rs_schedules r') →
  (∀ k, k ≠ key → rs_consumers r' !! k = rs_consumers r !! k) →
  (∀ k, k ≠ key → rs_qualified_bindings r' !! k = rs_qualified_bindings r !! k) →
  (∀ s, deadline_key s ≠ key → s ∈ rs_schedules r → s ∈ rs_schedules r') →
  (∀ state c, x ≠ Some key → rs_consumers r' !! key = Some state → co_certificate state = Some c →
     sc_judgment c = CatCurrent → supported r' key state c) →
  (x = Some key ∨ x = None) →
  covered (Some key) r → covered x r'.
Proof.
  intros Hsort Hc Hb Hs Hkey Hx [_ Hcur]. split; [done|]. intros k state c Hk Hl Hcert Hj.
  destruct (decide (k = key)) as [->|Hne]; [by apply Hkey|].
  rewrite Hc in Hl by done. eapply (supported_mono r); [by apply Hb| |].
  - intros s <- _. by apply Hs.
  - eapply Hcur; try done. congruence.
Qed.

Lemma by_deadline_schedule key state c r :
  by_deadline (rs_schedules r) → by_deadline (rs_schedules (schedule_certificate key state c r)).
Proof.
  unfold schedule_certificate. destruct (sc_earliest_support_expiry_monotonic_ms c); [|done].
  apply by_deadline_add.
Qed.
Lemma elem_of_schedule_certificate key state c r s :
  s ∈ rs_schedules (schedule_certificate key state c r) ↔
  s ∈ rs_schedules r ∨ ∃ deadline, sc_earliest_support_expiry_monotonic_ms c = Some deadline
                                   ∧ s = deadline_of_consumer key state deadline.
Proof.
  unfold schedule_certificate. destruct (sc_earliest_support_expiry_monotonic_ms c); cbn.
  - rewrite elem_of_schedule_add. naive_solver.
  - naive_solver.
Qed.
(** Issuing touches consumers and schedule only. *)
Lemma schedule_certificate_fields key state c r :
  rs_consumers (schedule_certificate key state c r) = rs_consumers r
  ∧ rs_qualified_bindings (schedule_certificate key state c r) = rs_qualified_bindings r
  ∧ rs_pending (schedule_certificate key state c r) = rs_pending r
  ∧ rs_current_monotonic_ms (schedule_certificate key state c r) = rs_current_monotonic_ms r.
Proof. unfold schedule_certificate. by destruct (sc_earliest_support_expiry_monotonic_ms c). Qed.

Lemma covered_issue key state c at_ms r :
  covered (Some key) r → issuable r key state c at_ms →
  covered None (put_consumer key (set_co_certificate state (Some c))
                  (schedule_certificate key state c r)).
Proof.
  intros Hcov [Hv Ht Hx Hk Hb].
  destruct (schedule_certificate_fields key state c r) as (Ec&Eb&_&_).
  eapply covered_elsewhere; [..|by right|exact Hcov]; cbn.
  - by apply by_deadline_schedule, Hcov.
  - intros k Hne. by rewrite lookup_insert_ne, Ec.
  - intros k _. by rewrite Eb.
  - intros s _ Hs. apply elem_of_schedule_certificate. by left.
  - intros st c' _ Hl Hc' Hj. rewrite lookup_insert_eq in Hl. simplify_eq. cbn in Hc'. simplify_eq.
    destruct (current_certificate_inv c' Hv Hj) as [(binding&Hq) (deadline&Hd&?)].
    constructor; try done.
    + exists binding. split; [done|]. destruct (Hb binding Hq) as (slot&accepted&?&?).
      exists slot, accepted. cbn. by rewrite Eb.
    + exists deadline. split_and!; try done. apply elem_of_schedule_certificate. right. by eauto.
Qed.

#[export] Instance covered_invariant : RuntimeInvariant (λ _, True) covered.
Proof.
  constructor.
  - done.
  - done.
  - intros x r r' (_&Ec&Es&Eb&_&_) [Hs Hc]. split; [by rewrite Es|]. rewrite Ec.
    intros key state c ????. eapply (supported_mono r); [by rewrite Eb| |by eapply Hc].
    intros s _ _. by rewrite Es.
  - intros key r [??]. split; [done|]. eauto.
  - intros key r Hnone [Hs Hc]. split; [done|]. intros k state c _ Hl. eapply Hc; [|done].
    by intros [= ->]; rewrite Hnone in Hl.
  - intros key state r Hcov. eapply covered_elsewhere; [..|by left|exact Hcov]; try done;
      [apply Hcov|]. intros k Hne. cbn. by rewrite lookup_insert_ne.
  - intros key r Hcov. eapply covered_elsewhere; [..|by left|exact Hcov]; try done;
      [apply Hcov|]. intros k Hne. cbn. by rewrite lookup_delete_ne.
  - intros key state evaluator r Hl [Hs Hc]. split; [done|]. intros k st c _ Hk Hcert Hj.
    cbn in Hk. destruct (decide (k = key)) as [->|Hne].
    + rewrite lookup_insert_eq in Hk. simplify_eq. cbn in Hcert.
      destruct (Hc key state c ltac:(done) Hl Hcert Hj). by constructor.
    + rewrite lookup_insert_ne in Hk by done. by destruct (Hc k st c ltac:(done) Hk Hcert Hj).
  - intros key r Hcov. eapply covered_elsewhere; [..|by left|exact Hcov]; try done; cbn.
    + by apply by_deadline_filter, Hcov.
    + intros s Hs Hin. apply list_elem_of_filter. split; [|done]. intros [E1 E2]. apply Hs.
      destruct key. cbn in *. by subst.
  - intros key slot bs r _ _ Hcov. eapply covered_elsewhere; [..|by left|exact Hcov]; try done;
      [apply Hcov|]. intros k Hne. cbn. by rewrite lookup_insert_ne.
  - intros key slot a a' r _ _ _ Hcov. eapply covered_elsewhere; [..|by left|exact Hcov]; try done;
      [apply Hcov|]. intros k Hne. cbn. by rewrite lookup_insert_ne.
  - intros key state r Hcov. eapply covered_elsewhere; [..|by right|exact Hcov]; try done;
      [apply Hcov| |].
    + intros k Hne. cbn. by rewrite lookup_insert_ne.
    + intros st c _ Hl Hc. cbn in Hl. rewrite lookup_insert_eq in Hl. by simplify_eq.
  - intros key state c at_ms r _ Hcov _ Hi. by eapply covered_issue.
Qed.

(* ------------------------------------------------------------------ *)
(** ** The cycle's loop: it ends, and ends with nothing due *)

Definition due (now : Z) (r : Runtime) : nat :=
  length (filter (λ s, sk_deadline_monotonic_ms s <= now) (rs_schedules r)).

(** From here on the queue and the clock stand still and no more than [n]
    deadlines are due. *)
Definition settling (now : Z) (pending : list (PendingKey * RuntimeInputV1)) (n : nat)
    (x : option ConsumerKey) (r : Runtime) : Prop :=
  rs_pending r = pending ∧ rs_current_monotonic_ms r = now ∧ (due now r ≤ n)%nat.

Lemma due_add_future now s l :
  now < sk_deadline_monotonic_ms s →
  filter (λ s, sk_deadline_monotonic_ms s <= now) (btree_add schedule_compare s l)
  = filter (λ s, sk_deadline_monotonic_ms s <= now) l.
Proof.
  intros Hs. induction l as [|y rest IH]; cbn [btree_add].
  - rewrite filter_cons_False; [done|lia].
  - destruct (schedule_compare s y); [done| |].
    + rewrite filter_cons_False; [done|lia].
    + rewrite !filter_cons. by rewrite IH.
Qed.

Lemma due_schedule now key state c at_ms r :
  now <= at_ms → certificate_validate c = Ok tt → sc_evaluated_at_monotonic_ms c = at_ms →
  due now (schedule_certificate key state c r) = due now r.
Proof.
  intros Hat Hv Ht. unfold due, schedule_certificate.
  destruct (decide (sc_judgment c = CatCurrent)) as [Hj|Hj].
  - destruct (current_certificate_inv c Hv Hj) as [_ (deadline&->&?)]. cbn.
    rewrite due_add_future; [done|]. cbn. lia.
  - by rewrite (other_certificate_inv c Hv Hj).
Qed.

Lemma due_cancel now key r : (due now (cancel_schedule key r) ≤ due now r)%nat.
Proof.
  unfold due. cbn [cancel_schedule rs_schedules set_rs_schedules]. induction (rs_schedules r) as [|s rest IH]; [done|].
  rewrite filter_cons. destruct (decide _); rewrite !filter_cons; repeat case_decide; cbn; lia.
Qed.

#[export] Instance settling_invariant now pending n :
  RuntimeInvariant (λ t, now <= t) (settling now pending n).
Proof.
  constructor; try done.
  - lia.
  - intros x r (_&->&_). lia.
  - intros x r r' (_&_&Es&_&Ep&Et) (?&?&?). unfold settling, due. by rewrite Ep, Et, Es.
  - intros key r (?&?&?). split_and!; try done. by etrans; [apply due_cancel|].
  - intros key state c at_ms r Hat (?&?&?) _ [Hv Ht _ _ _].
    destruct (schedule_certificate_fields key state c r) as (_&_&Ep&Et).
    split_and!; cbn; [by rewrite Ep|by rewrite Et|].
    change (due now (schedule_certificate key state c r) ≤ n)%nat. by rewrite (due_schedule now _ _ _ at_ms).
Qed.

(** What the loop takes out. *)
Lemma next_item_input r now key input :
  next_item r now = Some (inl (key, input)) → ∃ rest, rs_pending r = (key, input) :: rest.
Proof.
  unfold next_item. destruct (rs_pending r) as [|[k i] rest];
    destruct (rs_schedules r) as [|s ?]; repeat case_match; intros; simplify_eq; eauto.
Qed.
Lemma next_item_deadline r now s :
  next_item r now = Some (inr s) →
  ∃ rest, rs_schedules r = s :: rest ∧ sk_deadline_monotonic_ms s <= now.
Proof.
  unfold next_item. destruct (rs_pending r) as [|[k i] rest];
    destruct (rs_schedules r) as [|s' ?]; repeat case_match; intros; simplify_eq;
    (eexists; split; [done|lia]).
Qed.
Lemma next_item_none r now :
  next_item r now = None → by_deadline (rs_schedules r) → due now r = O.
Proof.
  unfold next_item, due. intros Hn Hs. destruct Hs as [|s rest Hs Hall]; [done|].
  destruct (sk_deadline_monotonic_ms s <=? now) eqn:Hd.
  { destruct (rs_pending r) as [|[??]?]; repeat case_match; done. }
  rewrite filter_cons_False by lia. apply length_zero_iff_nil.
  induction Hall as [|y l Hy _ IH]; [done|]. rewrite filter_cons_False by lia. apply IH.
  by inversion Hs.
Qed.

(** The popped deadline's consumer is the only one left uncovered. *)
Lemma covered_pop s rest r :
  rs_schedules r = s :: rest → covered None r →
  covered (Some (deadline_key s)) (set_rs_schedules r rest)
  ∧ ((∀ state, rs_consumers r !! deadline_key s = Some state →
        cx_activation_id (co_context state) ≠ sch_activation_id s) →
     covered None (set_rs_schedules r rest)).
Proof.
  intros Es [Hs Hc]. rewrite Es in Hs.
  assert (Hrest : by_deadline rest) by (by inversion Hs).
  split; [split; [done|]|intros Hstale; split; [done|]];
    intros key state c Hx Hl Hcert Hj; (eapply (supported_mono r); [done| |by eapply Hc]).
  - intros s' <- _ Hin. cbn. rewrite Es in Hin. set_solver.
  - intros s' <- Ha Hin. cbn. rewrite Es in Hin. apply elem_of_cons in Hin as [->|]; [|done].
    exfalso. by eapply Hstale.
Qed.

Lemma covered_pending x r pending : covered x r → covered x (set_rs_pending r pending).
Proof. intros [??]. split; [done|]. intros. eapply (supported_mono r); eauto. Qed.
Lemma covered_clock r t : covered None r → covered None (set_rs_current_monotonic_ms r t).
Proof. intros [??]. split; [done|]. intros. eapply (supported_mono r); eauto. Qed.
Lemma covered_slot key slot r :
  covered (Some key) r →
  covered (Some key) (set_rs_qualified_bindings r (<[key := slot]> (rs_qualified_bindings r))).
Proof.
  intros Hcov. eapply covered_elsewhere; [..|by left|exact Hcov]; try done; [apply Hcov|].
  intros k Hne. cbn. by rewrite lookup_insert_ne.
Qed.

Section loop.
Context {T : Z → Prop} {I : option ConsumerKey → Runtime → Prop} `{!RuntimeInvariant T I}.
Hypothesis any_time : ∀ t, T t.
Hypothesis inv_clock : ∀ r t, I None r → I None (set_rs_current_monotonic_ms r t).
Hypothesis inv_pending : ∀ r pending, I None r → I None (set_rs_pending r pending).
Hypothesis inv_pop : ∀ s rest r,
  rs_schedules r = s :: rest → I None r →
  I (Some (deadline_key s)) (set_rs_schedules r rest)
  ∧ ((∀ state, rs_consumers r !! deadline_key s = Some state →
        cx_activation_id (co_context state) ≠ sch_activation_id s) →
     I None (set_rs_schedules r rest)).

Lemma keeps_cycle_step now item r o :
  next_item r now = Some item → I None r →
  wp (cycle_step now item) (λ _, I None) (λ _, I None) (r, o).
Proof.
  intros Hn HI. destruct item as [[key input]|s]; apply wp_upd_bind.
  - eapply wp_mono; [by apply (keeps_process_input (I := I)), inv_pending|done|by intros ?? [_ ?]].
  - apply next_item_deadline in Hn as (rest&Es&_).
    destruct (inv_pop s rest r Es HI) as [Hone Hstale].
    eapply wp_mono; [apply (wp_process_deadline (I := I)); [done|..]|done|by intros ?? [_ ?]];
      cbn; by rewrite Es.
Qed.

Lemma keeps_run_loop fuel now r o :
  I None r →
  wp (run_loop fuel now) (λ _ r', I None r' ∧ next_item r' now = None) (λ _, I None) (r, o).
Proof.
  revert r o. induction fuel as [|fuel IH]; intros r o HI; cbn [run_loop]; apply wp_get;
    destruct (next_item r now) as [item|] eqn:Hn; try by apply wp_ret.
  - by apply wp_throw.
  - apply wp_bind. eapply wp_mono; [by eapply keeps_cycle_step| |done].
    cbn. intros _ r' HI' o'. by apply IH.
Qed.

(** Up to the loop's end nothing is lost and nothing due is left. *)
Lemma keeps_run_cycle now r o :
  I None r → wp (run_cycle now) (λ _, I None) (λ _, I None) (r, o).
Proof.
  intros HI. apply wp_upd_bind. apply (inv_clock r now) in HI.
  eapply wp_upd_framed; [|exact HI|clear HI; intros HI]; [by split_and!|].
  eapply wp_framed; [auto with framed|exact HI|]. clear HI. intros _ r1 o1 _ HI.
  apply wp_get, wp_bind. eapply wp_mono; [by apply keeps_run_loop| |done].
  cbn. intros _ r2 [HI2 _] o2. apply wp_get.
  destruct (rs_history_exhausted r2); [|by apply wp_ret].
  apply wp_upd_bind. apply wp_framed_end; [auto with framed|].
  by apply keeps_latch_history_blindness.
Qed.
End loop.

(** One iteration takes an item that was due and adds none. *)
Lemma cycle_step_decreases now item r o :
  rs_current_monotonic_ms r = now → next_item r now = Some item →
  wp (cycle_step now item)
    (λ _ r', rs_current_monotonic_ms r' = now
             ∧ (length (rs_pending r') + due now r' < length (rs_pending r) + due now r)%nat)
    (λ f _, f ≠ OutOfFuel) (r, o).
Proof.
  intros Ht Hn. destruct item as [[key input]|s]; apply wp_upd_bind.
  - apply next_item_input in Hn as [rest Ep].
    eapply wp_mono;
      [apply (keeps_process_input (T := λ t, now <= t) (I := settling now rest (due now r)))|..].
    + lia.
    + split_and!; cbn; [by rewrite Ep|done|done].
    + cbn. intros _ r' (->&->&?). rewrite Ep. cbn [length]. split; [done|lia].
    + by intros f r' [? _].
  - apply next_item_deadline in Hn as (rest&Es&Hd).
    assert (Hdue : due now r = S (due now (set_rs_schedules r rest))).
    { unfold due. rewrite Es. cbn. by rewrite decide_True. }
    assert (Hset : ∀ x, settling now (rs_pending r) (due now (set_rs_schedules r rest)) x
                          (set_rs_schedules r (tail (rs_schedules r)))) by (by rewrite Es).
    eapply wp_mono; [eapply (wp_process_deadline (I := settling _ _ _)); [|apply Hset|]|..].
    + cbn. lia.
    + intros _. apply Hset.
    + cbv beta. intros _ r' (->&->&?). split; [done|lia].
    + by intros f r' [? _].
Qed.

Lemma not_due now r s : due now r = O → s ∈ rs_schedules r → now < sk_deadline_monotonic_ms s.
Proof.
  unfold due. intros Hd Hin. apply length_zero_iff_nil in Hd.
  destruct (decide (sk_deadline_monotonic_ms s <= now)) as [Hle|]; [|lia].
  assert (s ∈ filter (λ s, sk_deadline_monotonic_ms s <= now) (rs_schedules r)) as Hs
    by (by apply list_elem_of_filter). rewrite Hd in Hs. by apply elem_of_nil in Hs.
Qed.
Lemma due_length now r : (due now r ≤ length (rs_schedules r))%nat.
Proof. apply length_filter. Qed.

Lemma run_loop_settles fuel now r o :
  rs_current_monotonic_ms r = now → (length (rs_pending r) + due now r ≤ fuel)%nat →
  wp (run_loop fuel now) (λ _ r', rs_current_monotonic_ms r' = now) (λ f _, f ≠ OutOfFuel) (r, o).
Proof.
  revert r o. induction fuel as [|fuel IH]; intros r o Ht Hle; cbn [run_loop]; apply wp_get;
    destruct (next_item r now) as [item|] eqn:Hn; try by apply wp_ret.
  - exfalso. pose proof (cycle_step_decreases now item r o Ht Hn) as Hs.
    destruct item as [[key input]|s].
    + apply next_item_input in Hn as [rest Ep]. rewrite Ep in Hle. cbn in Hle. lia.
    + apply next_item_deadline in Hn as (rest&Es&Hd). unfold due in Hle. rewrite Es in Hle.
      cbn in Hle. rewrite decide_True in Hle by done. cbn in Hle. lia.
  - apply wp_bind. eapply wp_mono; [by apply cycle_step_decreases| |done].
    cbn. intros _ r' [? Hlt] o'. apply IH; [done|lia].
Qed.

(* ------------------------------------------------------------------ *)
(** ** Entry points *)

Lemma run_cycle_settles now r o :
  wp (run_cycle now) (λ _ r', rs_current_monotonic_ms r' = now) (λ f _, f ≠ OutOfFuel) (r, o).
Proof.
  apply wp_upd_bind, wp_upd_bind. apply wp_bind.
  eapply wp_mono; [apply framed_drain_pending| |done].
  cbn. intros _ r1 (_&_&_&_&_&Ht) o1. cbn in Ht. apply wp_get, wp_bind.
  eapply wp_mono; [apply run_loop_settles; [done|]| |done].
  { unfold loop_fuel. pose proof (due_length now r1). lia. }
  cbn. intros _ r2 Ht2 o2. apply wp_get. destruct (rs_history_exhausted r2); [|by apply wp_ret].
  apply wp_upd_bind. eapply wp_mono; [apply framed_drain_pending| |done].
  cbn. intros _ r3 (_&_&_&_&_&->).
  assert (Hset : settling now (rs_pending r2) (due now r2) None r2) by (by split_and!).
  by apply (keeps_latch_history_blindness now r2 Hset).
Qed.

Lemma covered_run_cycle now r o :
  covered None r →
  wp (run_cycle now) (λ _ r', covered None r' ∧ due now r' = O) (λ _, covered None) (r, o).
Proof.
  intros Hcov. apply wp_upd_bind. apply (covered_clock r now) in Hcov.
  eapply (wp_upd_framed (I := covered)); [|exact Hcov|clear Hcov; intros Hcov]; [by split_and!|].
  apply wp_bind. eapply wp_mono; [apply framed_drain_pending| |done].
  cbn. intros _ r1 Hr1 o1. apply wp_get, wp_bind.
  assert (Ht : rs_current_monotonic_ms r1 = now) by (by destruct Hr1 as (_&_&_&_&_&->)).
  apply (inv_frame None _ _ Hr1) in Hcov. eapply wp_mono.
  - apply wp_and; [|apply run_loop_settles; [done|]].
    { eapply (keeps_run_loop (T := λ _, True)); auto using covered_pending, covered_pop. }
    unfold loop_fuel. pose proof (due_length now r1). lia.
  - cbn. intros _ r2 [[Hcov2 Hn2] Ht2] o2. apply wp_get.
    assert (Hdue2 : due now r2 = O) by (by apply next_item_none, Hcov2).
    destruct (rs_history_exhausted r2); [|by apply wp_ret].
    apply wp_upd_bind. eapply wp_mono; [apply framed_drain_pending| |done].
    cbn. intros _ r3 Hr3. split.
    + eapply (inv_frame None), keeps_latch_history_blindness; [exact Hr3|exact Hcov2].
    + assert (Hs : settling now (rs_pending r2) 0 None r3); [|destruct Hs as (_&_&?); lia].
      eapply (inv_frame None), keeps_latch_history_blindness; [exact Hr3|]. split_and!; [done..|lia].
  - cbn. tauto.
Qed.

Lemma finish_wp (m : rt unit) r (Q : Runtime → Prop) (E : Failure → Runtime → Prop) :
  wp m (λ _, Q) E (r, cycle_default) →
  match finish m r with
  | (r', Ok _) => Q r'
  | (r', Err f) => E f r'
  end.
Proof.
  intros Hm. apply with_output_wp in Hm. unfold finish.
  by destruct (with_output m r) as [[r' o] [a|f]].
Qed.
Lemma keeps_finish {T} {I : option ConsumerKey → Runtime → Prop} `{!RuntimeInvariant T I} m r :
  keeps (I := I) m → I None r → I None (finish m r).1.
Proof.
  intros Hm HI. pose proof (finish_wp m r _ _ (Hm r cycle_default HI)) as Hf.
  destruct (finish m r) as [r' [o|f]]; cbn; [done|]. by destruct Hf.
Qed.

Section entry.
Context {T : Z → Prop} {I : option ConsumerKey → Runtime → Prop} `{!RuntimeInvariant T I}.
Hypothesis any_time : ∀ t, T t.
Hypothesis inv_clock : ∀ r t, I None r → I None (set_rs_current_monotonic_ms r t).
Hypothesis inv_pending : ∀ r pending, I None r → I None (set_rs_pending r pending).
Hypothesis inv_pop : ∀ s rest r,
  rs_schedules r = s :: rest → I None r →
  I (Some (deadline_key s)) (set_rs_schedules r rest)
  ∧ ((∀ state, rs_consumers r !! deadline_key s = Some state →
        cx_activation_id (co_context state) ≠ sch_activation_id s) →
     I None (set_rs_schedules r rest)).

Lemma keeps_stage r class at_ms configured observed detail r' made :
  stage r class at_ms configured observed detail = (r', made) → I None r → I None r'.
Proof.
  unfold stage. cbn [refusal]. intros [= <- _] HI. apply keeps_stage_refusal.
  by eapply (inv_frame None r).
Qed.

Lemma keeps_enqueue r at_ms input : I None r → I None (enqueue r at_ms input).1.
Proof.
  intros HI. unfold enqueue. cbv zeta. destruct (rs_history_exhausted r); [|destruct (_ <? _)].
  3: destruct (at_least _ _); [|destruct (_ =? _)].
  1-4: destruct (stage _ _ _ _ _ _) as [r' made] eqn:Es; apply keeps_stage in Es; cbn [fst].
  - by apply keeps_latch_history_blindness.
  - done.
  - by apply keeps_latch_blind_all.
  - done.
  - by apply keeps_latch_blind_all.
  - by eapply (inv_frame None r).
  - by apply keeps_latch_blind_all.
  - done.
  - cbn [fst]. apply inv_pending. by eapply (inv_frame None r).
Qed.

Lemma keeps_run_until r now : I None r → I None (run_until r now).1.
Proof.
  intros HI. unfold run_until. cbv zeta. destruct (_ <? _).
  - destruct (stage _ _ _ _ _ _) as [r' made] eqn:Es. apply keeps_stage in Es; [|done]. cbn [fst].
    eapply (inv_frame None); [|by apply keeps_latch_blind_all]. by split_and!.
  - pose proof (finish_wp _ r _ _
      (keeps_run_cycle any_time inv_clock inv_pending inv_pop now r cycle_default HI)) as Hf.
    by destruct (finish _ r) as [r' [o|f]].
Qed.

(** Assembling a package only asks the operating system. *)
Lemma qualify_activates r registration inputs at_ms :
  ∃ p, (qualify_and_activate_local_binding r registration inputs at_ms).1 = set_rs_process r p
    ∨ ∃ manifest certificate report acceptance,
        (qualify_and_activate_local_binding r registration inputs at_ms).1
        = (activate_qualified_binding (set_rs_process r p) registration manifest certificate report
             acceptance at_ms).1.
Proof.
  unfold qualify_and_activate_local_binding.
  destruct (build_local_qualification_package _ _ _ _) as [p [package|e]]; [|by eauto].
  exists p. destruct (manifest ← _; _) as [[[m c] rep]|e]; [|by eauto]. right.
  exists (Some m), (Some c), (Some rep), (qp_acceptance package).
  by destruct (activate_qualified_binding _ _ _ _ _ _ _) as [r' [a|e]].
Qed.

(** The key whose slot an operation may replace. *)
Definition rebinds (op : RuntimeOperation) : option ConsumerKey :=
  match op with
  | OpActivateBinding registration _ _ _ _ _ | OpQualifyBinding registration _ _ =>
      Some (registration_key registration)
  | _ => None
  end.

Lemma keeps_activated r registration manifest certificate report acceptance at_ms :
  may_rebind (I := I) (registration_key registration) → I None r →
  I None (activate_qualified_binding r registration manifest certificate report acceptance at_ms).1.
Proof.
  intros Hbind HI. unfold activate_qualified_binding.
  pose proof (with_output_wp _ r _ _
    (keeps_activate_binding any_time inv_clock registration manifest certificate
       report acceptance at_ms Hbind r cycle_default HI)) as Hf.
  destruct (with_output _ r) as [[r' o] [a|f]]; cbn; [done|]. by destruct Hf.
Qed.

Lemma keeps_perform r op :
  may_terminate (I := I) → (∀ key, rebinds op = Some key → may_rebind (I := I) key) →
  I None r → I None (perform r op).
Proof.
  intros Hterm Hbind HI.
  destruct op as [| | | |registration inputs at_ms| |]; cbn [perform].
  - apply keeps_finish; [by apply keeps_register_consumer|done].
  - by apply keeps_enqueue.
  - by apply keeps_run_until.
  - apply keeps_activated; [by apply Hbind|done].
  - destruct (qualify_activates r registration inputs at_ms) as (p&[->|(m&c&rep&acc&->)]);
      [|apply keeps_activated; [by apply Hbind|]]; by eapply (inv_frame None r).
  - apply keeps_finish; [by apply keeps_apply_lifecycle|done].
  - apply keeps_finish; [by apply keeps_declare_blindness|done].
Qed.

(** A recovered runtime satisfies what the runtime it starts from does. *)
Lemma keeps_recovered config registrations history at_ms r o :
  (∀ r, runtime_new config = Ok r → I None r) →
  recover config registrations history at_ms = Ok (r, o) → I None r.
Proof.
  intros Hnew Hr. unfold recover in Hr. cbv zeta in Hr. inv_ok Hr.
  match goal with Hn : map_err _ (runtime_new config) = Ok ?r0 |- _ =>
    apply map_err_Ok in Hn; apply Hnew in Hn;
    pose proof (with_output_wp _ r0 _ _
      (keeps_recover any_time inv_clock registrations history at_ms r0 cycle_default Hn)) as Hf;
    destruct (with_output _ r0) as [[r' o'] [u|f]]; [|done]
  end. by simplify_eq.
Qed.
End entry.

Lemma runtime_new_inv config r :
  runtime_new config = Ok r →
  rs_consumers r = ∅ ∧ rs_schedules r = [] ∧ rs_qualified_bindings r = ∅.
Proof. unfold runtime_new. intros Hn. inv_ok Hn. by simplify_eq. Qed.

Lemma covered_new config r : runtime_new config = Ok r → covered None r.
Proof.
  intros Hn. apply runtime_new_inv in Hn as (Ec&Es&_). split; [rewrite Es; constructor|].
  intros key state c _ Hl. by rewrite Ec in Hl.
Qed.

Lemma reachable_covered r : runtime_reachable r → covered None r.
Proof.
  induction 1 as [config r Hn|config registrations history at_ms r o Hr|r op _ IH].
  - by eapply covered_new.
  - eapply (keeps_recovered (T := λ _, True)); [done|apply covered_clock|by apply covered_new|done].
  - eapply (keeps_perform (T := λ _, True)); try done;
      auto using covered_clock, covered_pending, covered_pop.
    + intros key slot fact n r' _ _. apply covered_slot.
    + intros key _ slot r'. apply covered_slot.
Qed.

End safety.
