(* ===== verification/RuntimeStanding.v ===== *)
(** * Withdrawal of standing

    Two more invariants of the runtime: without any binding slot nothing is
    ever CURRENT, and a terminated slot stays terminated until its key is
    activated again; and what blindness does: a consumer that is latched blind
    is not left with a CURRENT certificate. *)

From S2P Require Import Prelude Ids Digest Pulse Judgment Context Qualification Package.
From S2P Require Import Activation CustodyTypes.
From S2P Require Import Escalation Certificate Event Policy Receiver EvaluatorState Derive Explain.
From S2P Require Import Evaluator RuntimeState RuntimeArtifacts Runtime RuntimeOps RuntimeHistory RuntimeLogic.
From S2P Require Import DeriveProps Frame Standing RuntimeInvariant RuntimeMethods RuntimeSafety.

Section standing.
Context `{Sha256} `{FactJson} `{CustodyJson} `{RuntimeEnvironment}.

(** The consumer holds no CURRENT certificate. *)
Definition dark (key : ConsumerKey) (r : Runtime) : Prop :=
  ∀ state c, rs_consumers r !! key = Some state → co_certificate state = Some c →
    sc_judgment c ≠ CatCurrent.

Lemma dark_certificate key r subject consumer c :
  key = mkKey subject consumer → dark key r →
  current_certificate r subject consumer = Some c → sc_judgment c ≠ CatCurrent.
Proof.
  intros -> Hd. unfold current_certificate.
  destruct (rs_consumers r !! _) as [state|] eqn:Hl; cbn; [|done]. intros Hc. by eapply Hd.
Qed.

(* ------------------------------------------------------------------ *)
(** ** No slots *)

Record unbound (x : option ConsumerKey) (r : Runtime) : Prop := {
  ub_slots : rs_qualified_bindings r = ∅;
  ub_schedules : rs_schedules r = [];
  ub_dark : ∀ key, x ≠ Some key → dark key r;
}.

Lemma unbound_elsewhere key r r' x :
  rs_qualified_bindings r' = ∅ → rs_schedules r' = [] →
  (∀ k, k ≠ key → rs_consumers r' !! k = rs_consumers r !! k) →
  (x ≠ Some key → dark key r') → (x = Some key ∨ x = None) →
  unbound (Some key) r → unbound x r'.
Proof.
  intros Hb Hs Hc Hkey Hx [_ _ Hd]. constructor; [done..|]. intros k Hk.
  destruct (decide (k = key)) as [->|Hne]; [by apply Hkey|].
  intros state c Hl. rewrite Hc in Hl by done. eapply (Hd k); [congruence|done].
Qed.

#[export] Instance unbound_invariant : RuntimeInvariant (λ _, True) unbound.
Proof.
  constructor; try done.
  - intros x r r' (_&Ec&Es&Eb&_&_) [???]. constructor; [congruence..|].
    intros key Hk. unfold dark. rewrite Ec. by apply ub_dark0.
  - intros key r [???]. constructor; auto.
  - intros key r Hn [?? Hd]. constructor; [done..|]. intros k _.
    destruct (decide (k = key)) as [->|]; [|apply Hd; congruence].
    intros state c Hl. by rewrite Hn in Hl.
  - intros key state r Hu. eapply unbound_elsewhere; [apply Hu..| |done|by left|exact Hu].
    intros k Hne. cbn. by rewrite lookup_insert_ne.
  - intros key r Hu. eapply unbound_elsewhere; [apply Hu..| |done|by left|exact Hu].
    intros k Hne. cbn. by rewrite lookup_delete_ne.
  - intros key state evaluator r Hl [?? Hd]. constructor; [done..|]. intros k _ st c Hk Hc.
    cbn in Hk. destruct (decide (k = key)) as [->|Hne].
    + rewrite lookup_insert_eq in Hk. simplify_eq. by eapply (Hd key).
    + rewrite lookup_insert_ne in Hk by done. by eapply (Hd k).
  - intros key r Hu. eapply unbound_elsewhere; [apply Hu|..|done|by left|exact Hu]; [|done].
    cbn. by rewrite (ub_schedules _ _ Hu).
  - intros key slot bs r Hs _ Hu. by rewrite (ub_slots _ _ Hu) in Hs.
  - intros key slot a a' r Hs _ _ Hu. by rewrite (ub_slots _ _ Hu) in Hs.
  - intros key state r Hu. eapply unbound_elsewhere; [apply Hu..| | |by right|exact Hu].
    + intros k Hne. cbn. by rewrite lookup_insert_ne.
    + intros _ st c Hl Hc. cbn in Hl. rewrite lookup_insert_eq in Hl. by simplify_eq.
  - intros key state c at_ms r _ Hu _ [Hv _ _ _ Hb].
    assert (Hj : sc_judgment c ≠ CatCurrent).
    { intros Hj. destruct (current_certificate_inv c Hv Hj) as [(binding&Hq) _].
      destruct (Hb binding Hq) as (slot&_&Hl&_). by rewrite (ub_slots _ _ Hu) in Hl. }
    unfold schedule_certificate. rewrite (other_certificate_inv c Hv Hj).
    eapply unbound_elsewhere; [apply Hu..| | |by right|exact Hu].
    + intros k Hne. cbn. by rewrite lookup_insert_ne.
    + intros _ st c' Hl Hc. cbn in Hl. rewrite lookup_insert_eq in Hl. simplify_eq. cbn in Hc.
      by simplify_eq.
Qed.

Lemma unbound_clock r t : unbound None r → unbound None (set_rs_current_monotonic_ms r t).
Proof. by intros [???]; constructor. Qed.
Lemma unbound_pending r p : unbound None r → unbound None (set_rs_pending r p).
Proof. by intros [???]; constructor. Qed.
Lemma unbound_pop s rest r :
  rs_schedules r = s :: rest → unbound None r →
  unbound (Some (deadline_key s)) (set_rs_schedules r rest)
  ∧ ((∀ state, rs_consumers r !! deadline_key s = Some state →
        cx_activation_id (co_context state) ≠ sch_activation_id s) →
     unbound None (set_rs_schedules r rest)).
Proof. intros Es Hu. by rewrite (ub_schedules _ _ Hu) in Es. Qed.
Lemma unbound_new config r : runtime_new config = Ok r → unbound None r.
Proof.
  intros Hn. apply runtime_new_inv in Hn as (Ec&Es&Eb). constructor; [done..|].
  intros key _ state c Hl. by rewrite Ec in Hl.
Qed.

(** Operations that activate no binding keep it so. *)
Lemma unbound_perform r op : rebinds op = None → unbound None r → unbound None (perform r op).
Proof.
  intros Hop. eapply (keeps_perform (T := λ _, True)); try done;
    auto using unbound_clock, unbound_pending, unbound_pop.
  - intros key slot fact n r' Hs _ Hu. by rewrite (ub_slots _ _ Hu) in Hs.
  - intros key. by rewrite Hop.
Qed.

Lemma unbound_recovered config registrations history at_ms r o :
  recover config registrations history at_ms = Ok (r, o) → unbound None r.
Proof.
  eapply (keeps_recovered (T := λ _, True)); [done|apply unbound_clock|by apply unbound_new].
Qed.

(* ------------------------------------------------------------------ *)
(** ** Terminated slots *)

(** The key's slot is this one. *)
Definition held (key : ConsumerKey) (slot : QualifiedBindingSlot) (x : option ConsumerKey)
    (r : Runtime) : Prop :=
  rs_qualified_bindings r !! key = Some slot.

Section held.
Context (key : ConsumerKey) (slot : QualifiedBindingSlot).
Hypothesis not_live : sl_accepted slot = None.

#[local] Instance held_invariant : RuntimeInvariant (λ _, True) (held key slot).
Proof.
  constructor; try done.
  - intros x r r' (_&_&_&Eb&_&_). unfold held. by rewrite Eb.
  - intros k sl bs r Hl [a Ha] Hh. unfold held in *. cbn.
    destruct (decide (k = key)) as [->|Hne]; [|by rewrite lookup_insert_ne].
    rewrite Hl in Hh. by simplify_eq.
  - intros k sl a a' r Hl Ha _ Hh. unfold held in *. cbn.
    destruct (decide (k = key)) as [->|Hne]; [|by rewrite lookup_insert_ne].
    rewrite Hl in Hh. by simplify_eq.
  - intros k state c at_ms r _ Hh _ _. unfold held in *. cbn.
    by destruct (schedule_certificate_fields k state c r) as (_&->&_).
Qed.

Lemma held_keeps {A} (m : rt A) x r o :
  framed m → held key slot x r → wp m (λ _, held key slot x) (λ _ _, False) (r, o).
Proof. intros Hm Hh. eapply wp_mono; [apply Hm| |done]. cbn. intros _ r' Hr. by eapply inv_frame. Qed.

Lemma held_barrier barrier at_ms r o :
  held key slot None r →
  wp (barrier_if_registered key barrier at_ms) (λ _, held key slot None) (λ _ _, True) (r, o).
Proof.
  intros Hh. eapply wp_mono; [eapply (wp_barrier_if_registered (I := held key slot)); done|done|done].
Qed.

(** Only an activation of the same key, or a lifecycle fact under a
    certificate still accepted, replaces it. *)
Lemma held_perform r op :
  (∀ observed, la_certificate_status (sl_acceptance slot) ≠ StatusAccepted observed) →
  rebinds op ≠ Some key → held key slot None r → held key slot None (perform r op).
Proof.
  intros Hstatus Hop. eapply (keeps_perform (T := λ _, True) (I := held key slot)); try done.
  - intros k sl fact n r' Hl Ha Hh. unfold held in *. cbn.
    destruct (decide (k = key)) as [->|Hne]; [|by rewrite lookup_insert_ne].
    rewrite Hl in Hh. simplify_eq. by destruct (Hstatus n).
  - intros k Hk sl r' Hh. unfold held in *. cbn. rewrite lookup_insert_ne; [done|congruence].
Qed.
End held.

(** A covered consumer whose slot is not live is dark. *)
Lemma covered_not_live key slot r :
  sl_accepted slot = None → rs_qualified_bindings r !! key = Some slot → covered None r →
  dark key r.
Proof.
  intros Hn Hl Hcov state c Hs Hc Hj.
  destruct (cov_current _ _ Hcov key state c) as [_ _ _ (binding&_&(sl&accepted&Hl'&_&Ha&_)) _];
    try done. rewrite Hl in Hl'. by simplify_eq.
Qed.

(** A lifecycle fact that is applied terminates the slot. *)
Lemma wp_lifecycle_terminates key fact at_ms r o :
  wp (apply_lifecycle_rt key fact at_ms)
    (λ _ r', ∃ slot, rs_qualified_bindings r' !! key = Some (terminated_slot slot fact))
    (λ _ _, True) (r, o).
Proof.
  assert (Hany : ∀ {A B} (m : rt A) (k : A → rt B) Q s,
    (∀ a r o, wp (k a) Q (λ _ _, True) (r, o)) → wp (m ≫= k) Q (λ _ _, True) s).
  { intros A B m k Q s Hk. apply wp_bind. unfold wp. destruct (m s) as [[r' o'] [a|f]]; [|done].
    intros o''. apply Hk. }
  do 3 (apply Hany; clear r o; intros _ r o).
  apply wp_get. destruct (rs_qualified_bindings r !! key) as [slot|]; [|by apply wp_throw].
  cbv zeta. destruct (la_certificate_status _); try by apply wp_throw.
  destruct (orb _ _); [by apply wp_throw|]. apply wp_upd_bind, wp_upd_bind.
  set (ended := terminated_slot slot fact).
  eapply wp_mono with (Q := λ _, held key ended None) (E := λ _ _, True); [|by eauto|done].
  assert (Hn : sl_accepted ended = None) by done. apply wp_bind.
  eapply wp_mono; [eapply (held_keeps key ended Hn _ None); [auto with framed|]| |done].
  { unfold held. cbn. apply lookup_insert_eq. }
  cbn. intros _ r1 Hh1 o1. apply wp_bind.
  eapply wp_mono; [eapply (held_keeps key ended Hn _ None); [auto with framed|done]| |done].
  cbn. intros _ r2 Hh2 o2. apply wp_bind.
  eapply wp_mono; [by apply held_barrier| |done]. cbn. intros _ r3 Hh3 o3. apply wp_bind.
  eapply wp_mono; [eapply (held_keeps key ended Hn _ None); [auto with framed|done]| |done].
  cbn. intros _ r4 Hh4 o4.
  by eapply wp_mono; [eapply (held_keeps key ended Hn _ None); [auto with framed|done]|..].
Qed.

(* ------------------------------------------------------------------ *)
(** ** Blindness *)

(** Nothing but this consumer has changed; it is dark, and if it is still
    there it is in the context it was in. *)
Record dims (key : ConsumerKey) (r r' : Runtime) : Prop := {
  di_dark : dark key r';
  di_others : ∀ k, k ≠ key → rs_consumers r' !! k = rs_consumers r !! k;
  di_context : ∀ state', rs_consumers r' !! key = Some state' →
    ∃ state, rs_consumers r !! key = Some state ∧ co_context state' = co_context state;
}.

Lemma dims_frame key r r1 r2 : frame r1 r2 → dims key r r1 → dims key r r2.
Proof. intros (_&Ec&_) [Hd Ho Hx]. constructor; [unfold dark|..]; by rewrite Ec. Qed.
Lemma dims_absent key r r' :
  rs_consumers r' = delete key (rs_consumers r) → dims key r r'.
Proof.
  intros Ec. constructor; [intros state c|intros k Hne|intros state']; rewrite Ec;
    [by rewrite lookup_delete_eq|by rewrite lookup_delete_ne|by rewrite lookup_delete_eq].
Qed.
Lemma dims_put key state state0 r r' :
  (∀ c, co_certificate state = Some c → sc_judgment c ≠ CatCurrent) →
  rs_consumers r !! key = Some state0 → co_context state = co_context state0 →
  rs_consumers r' = <[key := state]> (delete key (rs_consumers r)) → dims key r r'.
Proof.
  intros Hs Hl Hx Ec. constructor; [intros st c|intros k Hne|intros state']; rewrite Ec.
  - rewrite lookup_insert_eq. intros [= <-]. apply Hs.
  - by rewrite lookup_insert_ne, lookup_delete_ne.
  - rewrite lookup_insert_eq. intros [= <-]. by exists state0.
Qed.

Lemma build_not_current r key state j binding at_ms evidence contradictions custody :
  pj_category j ≠ CatCurrent →
  sc_judgment (build_certificate r key state j binding at_ms evidence contradictions custody)
  ≠ CatCurrent.
Proof.
  intros Hj. unfold build_certificate. cbv zeta. cbn [set_certificate_id sc_judgment].
  by rewrite (bool_decide_eq_false_2 _ Hj).
Qed.

(** An evaluation that is not CURRENT leaves the consumer dark. *)
Lemma wp_apply_dims key evaluation at_ms r o :
  pj_category (eo_judgment evaluation) ≠ CatCurrent →
  wp (apply_evaluation key evaluation at_ms) (λ _, dims key r) (λ _, dims key r) (r, o).
Proof.
  intros Hj. apply wp_get. cbv zeta.
  apply wp_frame_bind; [auto with framed|]. intros _ r1 o1 Hr1.
  apply wp_frame_bind; [auto with framed|]. intros _ r2 o2 Hr2. apply wp_upd_bind, wp_upd_bind.
  assert (Ec : rs_consumers (cancel_schedule key (account_due_schedule key at_ms r2))
               = rs_consumers r).
  { destruct Hr1 as (_&<-&_), Hr2 as (_&<-&_).
    by destruct (frame_account key at_ms r2) as (_&<-&_). }
  set (r3 := cancel_schedule key (account_due_schedule key at_ms r2)) in *. clearbody r3.
  apply wp_get. destruct (rs_consumers r3 !! key) as [state|] eqn:Hl.
  2: { apply wp_throw, dims_absent. rewrite <- Ec. by rewrite delete_id. }
  apply wp_upd_bind. cbv beta zeta. destruct (orb _ _).
  { apply wp_upd_bind. eapply wp_mono; [apply framed_push_refusal| |done]. cbn. intros _ r4 Hr4.
    eapply dims_frame; [done|]. eapply dims_put; [..|cbn; by rewrite Ec]; [done|rewrite <- Ec; exact Hl|done]. }
  rewrite decide_False by done. apply wp_bind, wp_ret. intros o4. apply wp_get. cbv zeta.
  apply wp_bind, wp_lift.
  2: { intros e _. apply dims_absent. cbn. by rewrite Ec. }
  intros [] _ o5. apply wp_upd_bind, wp_upd_bind.
  apply wp_frame_bind; [auto with framed|]. intros _ r6 o6 Hr6.
  apply wp_frame_bind; [destruct (decide _); auto with framed|]. intros _ r7 o7 Hr7.
  apply wp_frame_bind; [auto with framed|]. intros _ r8 o8 Hr8. apply wp_upd.
  eapply (dims_frame _ _ r8); [by split_and!|]. eapply dims_frame; [exact Hr8|].
  eapply dims_frame; [exact Hr7|]. eapply dims_frame; [exact Hr6|]. eapply dims_put.
  4: { cbn. destruct (schedule_certificate_fields key state
         (build_certificate (drop_consumer key r3) key state (eo_judgment evaluation)
            (descriptive_qualified_binding r3 key state) at_ms
            (dedup (sort_strings (supporting_evidence_refs (co_evaluator state) at_ms)))
            (dedup (sort_strings (active_contradiction_ids (co_evaluator state))))
            (supporting_custody r3 (pj_subject_scope (eo_judgment evaluation))
               (dedup (sort_strings (supporting_evidence_refs (co_evaluator state) at_ms)))))
         (drop_consumer key r3)) as (->&_). cbn. by rewrite Ec. }
  - intros c [= <-]. by apply build_not_current.
  - rewrite <- Ec. exact Hl.
  - done.
Qed.

Lemma input_drop_blinds e at_ms detail :
  ∃ e' out, record_monitor_input_drop e 1 at_ms detail = (e', Ok out)
            ∧ pj_category (eo_judgment out) ≠ CatCurrent.
Proof.
  unfold record_monitor_input_drop, set_monitor_capability, evaluate_recorded.
  destruct (record_capability (count_input_drop e 1) (Blind detail) at_ms) as [e1 event] eqn:He.
  assert (Hb : is_blind e1).
  { exists detail. change e1 with (e1, event).1. by rewrite <- He. }
  pose proof (judged_blind e1 at_ms Hb) as Hj. unfold judged in Hj.
  destruct (evaluate e1 at_ms) as [e2 out]. by exists e2, (prepend_event event out).
Qed.

Lemma latch_blind_dims at_ms detail r key : dims key r (latch_blind_consumer at_ms detail r key).
Proof.
  unfold latch_blind_consumer. destruct (rs_consumers r !! key) as [state|] eqn:Hl.
  2: { apply dims_absent. by rewrite delete_id. }
  destruct (input_drop_blinds (co_evaluator state) at_ms detail) as (e'&out&->&Hj).
  set (r1 := put_consumer key (set_co_evaluator state e') r).
  assert (Hd : ∀ r2, dims key r1 r2 → dims key r r2).
  { intros r2 [Hd Ho Hx]. constructor; [done|..].
    - intros k Hne. rewrite Ho by done. cbn. by rewrite lookup_insert_ne.
    - intros state' Hl'. apply Hx in Hl' as (st&Hst&->). cbn in Hst.
      rewrite lookup_insert_eq in Hst. simplify_eq. by exists state. }
  generalize (with_output_wp _ r1 _ _ (wp_apply_dims key out
    (Z.max at_ms (rs_current_monotonic_ms r1)) r1 cycle_default Hj)).
  destruct (with_output _ r1) as [[r2 o2] [[]|f]]; intros H'; apply Hd; [|done].
  by eapply (dims_frame _ _ r2).
Qed.

(** Blinding every consumer of a list darkens all of them. *)
Lemma latch_keys_dark at_ms detail keys r key :
  key ∈ keys ∨ dark key r → dark key (fold_left (latch_blind_consumer at_ms detail) keys r).
Proof.
  revert r. induction keys as [|k rest IH]; cbn; intros r Hk; [by destruct Hk as [?%elem_of_nil|]|].
  apply IH. destruct (latch_blind_dims at_ms detail r k) as [Hd Ho _].
  destruct (decide (key = k)) as [->|Hne]; [by right|].
  destruct Hk as [[?|Hin]%elem_of_cons|Hdark]; [done|by left|right].
  intros state c Hl. rewrite Ho in Hl by done. by eapply Hdark.
Qed.

Lemma elem_of_key_add k x l : x ∈ btree_add key_compare k l ↔ x = k ∨ x ∈ l.
Proof.
  induction l as [|y rest IH]; cbn; [set_solver|].
  destruct (key_compare k y) eqn:Hc; [|set_solver..].
  apply lex_Eq in Hc as [E1 E2]. apply String.compare_eq_iff in E1, E2.
  assert (k = y) as -> by (destruct k, y; cbn in *; congruence). set_solver.
Qed.
Lemma elem_of_sorted_keys r key : key ∈ sorted_keys r ↔ is_Some (rs_consumers r !! key).
Proof.
  unfold sorted_keys. transitivity (key ∈ (map_to_list (rs_consumers r)).*1).
  - induction ((map_to_list (rs_consumers r)).*1) as [|k rest IH]; cbn; [done|].
    rewrite elem_of_key_add, IH. set_solver.
  - rewrite list_elem_of_fmap. split.
    + intros ([k state]&->&Hin). apply elem_of_map_to_list in Hin. by eexists.
    + intros [state Hl]. exists (key, state). split; [done|]. by apply elem_of_map_to_list.
Qed.

Lemma latch_all_dark at_ms detail r key : dark key (latch_blind_all at_ms detail r).
Proof.
  apply latch_keys_dark. destruct (rs_consumers r !! key) as [state|] eqn:Hl.
  - left. unfold consumer_keys. apply list_elem_of_filter. split; [done|].
    apply elem_of_sorted_keys. by eexists.
  - right. intros st c Hs. by rewrite Hl in Hs.
Qed.

(** The clock after [run_until] is not behind the time it was given. *)
Lemma run_until_clock r now r' out : run_until r now = (r', Ok out) → now <= rs_current_monotonic_ms r'.
Proof.
  unfold run_until. cbv zeta. destruct (Z.ltb_spec now (rs_current_monotonic_ms r)) as [Hlt|Hge].
  - destruct (stage _ _ _ _ _ _) as [r1 made] eqn:Hs. intros [= <- _]. cbn.
    assert (Hset : settling (rs_current_monotonic_ms r) (rs_pending r)
      (length (rs_schedules r)) None r1).
    { eapply keeps_stage; [done|]. split_and!; [done..|]. apply due_length. }
    destruct (keeps_latch_blind_all (rs_current_monotonic_ms r)
                "scheduler monotonic clock regressed" r1 Hset) as (_&->&_). lia.
  - intros Hrun. pose proof (finish_wp _ r _ _ (run_cycle_settles now r cycle_default)) as Hf.
    rewrite Hrun in Hf. cbn in Hf. lia.
Qed.

(** When [run_until] returns from a reachable runtime, every CURRENT
    certificate it leaves is valid and expires later: a time that regressed
    leaves none. *)
Lemma run_until_fresh r now r' out key state c :
  runtime_reachable r → run_until r now = (r', Ok out) →
  rs_consumers r' !! key = Some state → co_certificate state = Some c → sc_judgment c = CatCurrent →
  certificate_validate c = Ok tt
  ∧ ∃ deadline, sc_earliest_support_expiry_monotonic_ms c = Some deadline ∧ now < deadline.
Proof.
  intros Hr Hrun Hl Hc Hj. unfold run_until in Hrun. cbv zeta in Hrun.
  destruct (now <? rs_current_monotonic_ms r).
  - destruct (stage _ _ _ _ _ _) as [r1 made]. injection Hrun as <- _.
    by destruct (latch_all_dark (rs_current_monotonic_ms r) "scheduler monotonic clock regressed" r1
                   key state c).
  - pose proof (finish_wp _ r _ _ (covered_run_cycle now r cycle_default (reachable_covered r Hr))) as Hf.
    rewrite Hrun in Hf. destruct Hf as [Hcov Hdue].
    destruct (cov_current _ _ Hcov key state c ltac:(done) Hl Hc Hj) as [Hv _ _ _ (deadline&?&_&Hin)].
    split; [done|]. exists deadline. split; [done|]. by apply (not_due now r' _ Hdue) in Hin.
Qed.

End standing.
