(* ===== verification/RuntimeBounds.v ===== *)
(** * Every collection stays within its configured bound

    [RuntimeBoundsV1] configures a maximum for each collection the runtime
    keeps.  The collections of [within] stay within theirs after every
    operation, refused and failing ones included.  Two maxima have no such
    collection: [maximum_subject_incarnations_per_subject], which the incarnation
    a subject is registered with escapes, and [maximum_scheduled_deadlines],
    which the code compares with the number of consumers. *)

From S2P Require Import Prelude Ids Digest Pulse Judgment Context Qualification Package.
From S2P Require Import Activation CustodyTypes.
From S2P Require Import Escalation Certificate Event Policy Receiver EvaluatorState Derive Explain.
From S2P Require Import Evaluator RuntimeState RuntimeArtifacts Runtime RuntimeOps RuntimeHistory RuntimeLogic.
From S2P Require Import RuntimeInvariant RuntimeMethods RuntimeSafety.

Definition fits (n : nat) (bound : Z) : Prop := Z.of_nat n <= bound.

Lemma at_least_false n bound : at_least n bound = false → fits (S n) bound.
Proof. unfold at_least, fits. lia. Qed.

Record subject_fits (b : RuntimeBoundsV1) (s : SubjectState) : Prop := {
  sf_consumers : fits (size (su_consumers s)) (bd_maximum_consumers_per_subject b);
  sf_observers : fits (size (su_observers s)) (bd_maximum_observers_per_subject b);
}.

Record consumer_fits (b : RuntimeBoundsV1) (state : ConsumerState) : Prop := {
  ct_seen : fits (size (co_seen_activations state)) (bd_maximum_context_activations_per_consumer b);
  ct_evidence : ∀ c, co_certificate state = Some c →
    fits (length (sc_supporting_evidence_ids c)) (bd_maximum_supporting_evidence_refs b);
}.

Record within (r : Runtime) : Prop := {
  wi_pending : fits (length (rs_pending r)) (bd_maximum_pending_inputs (bounds r));
  wi_history : fits (length (rs_sparse_history r)) (bd_maximum_sparse_events (bounds r));
  wi_receipts : fits (length (rs_diagnostic_receipts r)) (bd_maximum_diagnostic_receipts (bounds r));
  wi_owners : fits (size (rs_request_owners r)) (bd_maximum_active_escalations (bounds r));
  wi_streams : fits (size (rs_receiver_streams r)) (bd_maximum_receiver_streams (bounds r));
  wi_incarnations : ∀ lineage known, rs_observer_incarnations r !! lineage = Some known →
    fits (size known) (bd_maximum_incarnations_per_observer (bounds r));
  wi_subjects : fits (size (rs_subjects r)) (bd_maximum_subjects (bounds r));
  wi_subject : ∀ subject s, rs_subjects r !! subject = Some s → subject_fits (bounds r) s;
  wi_slots : fits (size (rs_qualified_bindings r))
               (bd_maximum_subjects (bounds r) * bd_maximum_consumers_per_subject (bounds r));
  wi_seen : ∀ key state, rs_consumers r !! key = Some state → consumer_fits (bounds r) state;
  wi_positive : Forall (λ bound, 0 < bound) (bounds_values (bounds r));
}.

(** Bounds are positive, so an empty or singleton collection fits. *)
Lemma within_positive r bound : within r → bound ∈ bounds_values (bounds r) → 0 < bound.
Proof. intros Hw. by apply Forall_forall, (wi_positive r Hw). Qed.
Lemma fits_zero r bound : bound ∈ bounds_values (bounds r) → within r → fits 0 bound.
Proof. intros Hin Hw. pose proof (within_positive r bound Hw Hin). unfold fits. lia. Qed.

(** A set that grows by one known element or within its bound. *)
Lemma fits_add `{Countable A} (x : A) (X : gset A) bound :
  negb (bool_decide (x ∈ X)) && at_least (size X) bound = false → fits (size X) bound →
  fits (size ({[x]} ∪ X)) bound.
Proof.
  intros Hg HX. destruct (decide (x ∈ X)) as [Hin|Hout].
  - by rewrite (subseteq_union_1_L {[x]} X) by set_solver.
  - rewrite bool_decide_eq_false_2 in Hg by done. cbn in Hg. apply at_least_false in Hg.
    rewrite size_union by set_solver. by rewrite size_singleton.
Qed.

Lemma fits_insert_present `{Countable K} {A} (k : K) (v : A) (m : gmap K A) bound :
  is_Some (m !! k) → fits (size m) bound → fits (size (<[k := v]> m)) bound.
Proof. intros Hk Hm. by rewrite map_size_insert_Some. Qed.
Lemma fits_insert `{Countable K} {A} (k : K) (v : A) (m : gmap K A) bound :
  is_Some (m !! k) ∨ fits (S (size m)) bound → fits (size m) bound → fits (size (<[k := v]> m)) bound.
Proof.
  intros Hk Hm. destruct (m !! k) as [w|] eqn:Hl; [by rewrite map_size_insert_Some by eauto|].
  destruct Hk as [[? ?]|Hk]; [done|]. by rewrite map_size_insert_None.
Qed.

Section bounds.
Context `{Sha256} `{FactJson} `{CustodyJson} `{RuntimeEnvironment}.
Context (config : RuntimeConfigV1) (known : gset string).

(** The invariant, with the configuration it is measured against and subjects
    that are known to be registered. *)
Definition bounded (x : option ConsumerKey) (r : Runtime) : Prop :=
  rs_config r = config ∧ within r ∧ known ⊆ dom (rs_subjects r).
Definition seen_fits (state : ConsumerState) : Prop :=
  consumer_fits (cf_bounds config) state.

#[local] Abbreviation keeps := (keeps (I := bounded)).
#[local] Abbreviation fails := (fails (I := bounded)).

(** An assignment to anything the bounds do not measure. *)
Definition measured (r r' : Runtime) : Prop :=
  rs_config r' = rs_config r ∧ rs_pending r' = rs_pending r
  ∧ rs_sparse_history r' = rs_sparse_history r
  ∧ rs_diagnostic_receipts r' = rs_diagnostic_receipts r
  ∧ rs_request_owners r' = rs_request_owners r ∧ rs_receiver_streams r' = rs_receiver_streams r
  ∧ rs_observer_incarnations r' = rs_observer_incarnations r ∧ rs_subjects r' = rs_subjects r
  ∧ rs_qualified_bindings r' = rs_qualified_bindings r ∧ rs_consumers r' = rs_consumers r.

Lemma bounded_measured x y r r' : measured r r' → bounded x r → bounded y r'.
Proof.
  intros (E1&E2&E3&E4&E5&E6&E7&E8&E9&E10) (Hc&Hw&Hk). split_and!; [congruence| |by rewrite E8].
  destruct Hw. constructor; unfold bounds in *; rewrite ?E1, ?E2, ?E3, ?E4, ?E5, ?E6, ?E7, ?E8, ?E9, ?E10; done.
Qed.

Lemma keeps_measured f : (∀ r, measured r (f r)) → keeps (upd f).
Proof. intros Hf. apply keeps_upd. intros r. by apply bounded_measured. Qed.
Lemma keeps_output f : keeps (emit f).
Proof. intros r o HI. by apply wp_emit. Qed.

#[local] Ltac keep_measured := by apply keeps_measured; intros; split_and!.
#[local] Ltac by_measure r := eapply (bounded_measured None None r); [by split_and!|done].
#[local] Ltac keep_returned := intros ? ? ?; by apply wp_ret.

Lemma bounded_drop x y key r : bounded x r → bounded y (drop_consumer key r).
Proof.
  intros (Hc&Hw&Hk). split_and!; [done| |done]. destruct Hw. constructor; try done.
  intros k state. cbn. rewrite lookup_delete_Some. intros [_ Hl]. by eapply wi_seen0.
Qed.
Lemma bounded_put x y key state r :
  seen_fits state → bounded x r → bounded y (put_consumer key state r).
Proof.
  intros Hs (Hc&Hw&Hk). split_and!; [done| |done]. destruct Hw. constructor; try done.
  intros k st. cbn. rewrite lookup_insert_Some.
  intros [[<- <-]|[_ Hl]]; [unfold bounds; cbn; by rewrite Hc|]. by eapply wi_seen0.
Qed.
Lemma bounded_slot x y key slot slot' r :
  rs_qualified_bindings r !! key = Some slot' → bounded x r →
  bounded y (set_rs_qualified_bindings r (<[key := slot]> (rs_qualified_bindings r))).
Proof.
  intros Hl (Hc&Hw&Hk). split_and!; [done| |done]. destruct Hw. constructor; try done.
  apply fits_insert_present; [by eauto|done].
Qed.
Lemma bounded_schedule x y key state c r :
  bounded x r → bounded y (schedule_certificate key state c r).
Proof.
  apply bounded_measured. unfold schedule_certificate.
  destruct (sc_earliest_support_expiry_monotonic_ms c); by split_and!.
Qed.

(* ------------------------------------------------------------------ *)
(** ** Records and refusals *)

Lemma keeps_drain : keeps drain_pending.
Proof.
  apply keeps_get. intros r o HI.
  apply wp_bind. apply wp_upd. intros o'. apply wp_emit. by_measure r.
Qed.
Lemma keeps_report at_ms : keeps (report_exhaustion at_ms).
Proof.
  apply keeps_get. intros r o HI. destruct (rs_history_exhaustion_reported r); [by apply wp_ret|].
  cbn [refusal]. apply wp_upd_bind. apply keeps_bind; [apply keeps_output|intros _; apply keeps_output|].
  by_measure r.
Qed.
Lemma keeps_record at_ms event : keeps (record_sparse at_ms event).
Proof.
  apply keeps_get. intros r o HI. destruct (at_least _ _) eqn:Hg.
  - apply keeps_bind; [keep_measured|intros _; apply keeps_bind; [keep_measured|intros _]|done].
    apply keeps_report.
  - cbv zeta. apply wp_upd_bind, wp_upd_bind, wp_emit. destruct HI as (Hc&Hw&Hk). split_and!; [done| |done].
    destruct Hw. constructor; try done. cbn. rewrite length_app. cbn.
    apply at_least_false in Hg. by rewrite Nat.add_1_r.
Qed.
Lemma keeps_refuse class at_ms subject consumer configured observed detail :
  keeps (push_refusal class at_ms subject consumer configured observed detail).
Proof.
  apply keeps_get. intros r o HI. cbn [refusal]. apply wp_upd_bind.
  apply keeps_bind; [apply keeps_record|intros _|by_measure r].
  apply keeps_bind; [apply keeps_output|intros _; apply keeps_output].
Qed.
Lemma keeps_transition key prior new cause incarnation at_ms :
  keeps (record_context_transition key prior new cause incarnation at_ms).
Proof. apply keeps_get. intros r o HI. by apply keeps_record. Qed.
Lemma keeps_dispatch key prior request at_ms : keeps (dispatch_escalation key prior request at_ms).
Proof.
  destruct request as [request|]; [|keep_returned].
  apply keeps_get. intros r o HI. destruct (negb prior); [by apply keeps_output|].
  destruct (at_least _ _) eqn:Hg; [by apply keeps_refuse|].
  apply wp_upd_bind, wp_emit. destruct HI as (Hc&Hw&Hk). split_and!; [done| |done].
  destruct Hw. constructor; try done. cbn. apply fits_insert; [right|done]. by apply at_least_false.
Qed.

(* ------------------------------------------------------------------ *)
(** ** Certificates *)

Lemma keeps_revalidated key state at_ms : keeps (revalidated_qualified_binding key state at_ms).
Proof.
  apply keeps_get. intros r o HI. apply wp_bind, wp_lift; [|by intros]. intros observed _ o1.
  destruct (rs_qualified_bindings r !! key) as [slot|] eqn:Hl; [|by apply wp_ret].
  destruct (decide _); [|by apply wp_ret]. destruct (sl_accepted slot) as [accepted|]; [|by apply wp_ret].
  apply wp_bind, wp_lift_sys.
  2: { intros p f _. split; [by destruct f|]. by_measure r. }
  intros p verdict _ o2. cbv beta. destruct verdict as [accepted'|[bs detail]].
  { apply wp_upd_bind, wp_ret. eapply (bounded_slot None None); [done|].
    by_measure r. }
  apply wp_upd_bind, wp_upd_bind.
  apply keeps_bind; [apply keeps_record|intros _|].
  { apply keeps_bind; [apply keeps_output|intros _]. keep_returned. }
  eapply (bounded_measured None None); [|eapply (bounded_slot None None _ _ slot r); done].
  by split_and!.
Qed.

Lemma bounded_seen x r key state :
  bounded x r → rs_consumers r !! key = Some state → seen_fits state.
Proof. intros (Hc&Hw&_) Hl. unfold seen_fits. rewrite <- Hc. by apply (wi_seen r Hw key). Qed.

Lemma seen_without state : seen_fits state → seen_fits (set_co_certificate state None).
Proof. intros [Hseen _]. by constructor. Qed.
Lemma seen_evaluator state evaluator : seen_fits state → seen_fits (set_co_evaluator state evaluator).
Proof. intros [Hseen Hev]. by constructor. Qed.

Lemma keeps_issue key state j binding at_ms evidence contradictions custody :
  seen_fits state →
  fits (length evidence) (bd_maximum_supporting_evidence_refs (cf_bounds config)) →
  keeps (issue_certificate key state j binding at_ms evidence contradictions custody).
Proof.
  intros [Hseen _] Hev. apply keeps_get. intros r o HI. cbv zeta.
  set (c := build_certificate _ _ _ _ _ _ _ _ _).
  assert (Hs : seen_fits (set_co_certificate state (Some c))).
  { constructor; [done|]. by intros ? [= <-]. }
  clearbody c.
  apply wp_bind, wp_lift; [|by intros]. intros [] _ o1. apply wp_upd_bind, wp_upd_bind.
  apply keeps_bind; [apply keeps_output|intros _|].
  - apply keeps_bind; [destruct (decide _); [keep_returned|apply keeps_record]|intros _].
    apply keeps_bind; [apply keeps_output|intros _]. keep_measured.
  - by apply (bounded_put None), (bounded_schedule None).
Qed.

Lemma keeps_account key at_ms : keeps (upd (account_due_schedule key at_ms)).
Proof.
  apply keeps_measured. intros r. unfold account_due_schedule. destruct (minimum _); by split_and!.
Qed.

Lemma keeps_apply key evaluation at_ms : keeps (apply_evaluation key evaluation at_ms).
Proof.
  apply keeps_get. intros r o HI. apply keeps_at; [done|].
  apply keeps_bind; [apply keeps_for; intros; apply keeps_record|intros _].
  apply keeps_bind; [apply keeps_dispatch|intros _].
  apply keeps_bind; [apply keeps_account|intros _]. apply keeps_bind; [keep_measured|intros _].
  apply keeps_get. clear r o HI. intros r o HI.
  destruct (rs_consumers r !! key) as [state|] eqn:Hl; [|by apply wp_throw].
  pose proof (bounded_seen _ _ _ _ HI Hl) as Hs. apply wp_upd_bind. cbv beta zeta.
  assert (Hc : bounds r = cf_bounds config) by (destruct HI as (Hc&_); unfold bounds; by rewrite Hc).
  apply (bounded_drop None None key) in HI. destruct (orb _ _) eqn:Hg.
  - apply wp_upd_bind. apply keeps_refuse. apply (bounded_put None); [by apply seen_without|done].
  - apply orb_false_iff in Hg as [Hg _]. apply Z.ltb_ge in Hg. rewrite Hc in Hg.
    apply keeps_bind; [|intros binding; by apply keeps_issue|done].
    destruct (decide _); [apply keeps_revalidated|keep_returned].
Qed.

(** The state is the one read, with the consumer taken out and put back. *)
Lemma wp_bounded_evaluate key missing operation before at_ms r o :
  missing ≠ OutOfFuel → bounded None r →
  (∀ state o', let r' := put_consumer key state (drop_consumer key r) in
     bounded None r' → wp before (λ _, bounded None) fails (r', o')) →
  wp (evaluate_consumer key missing operation before at_ms) (λ _, bounded None) fails (r, o).
Proof.
  intros Hm HI Hb. apply wp_get. destruct (rs_consumers r !! key) as [state|] eqn:Hl; [|by apply wp_throw].
  apply wp_upd_bind. pose proof (bounded_drop None None key r HI) as HI'.
  destruct (operation _) as [evaluator [evaluation|error]]; [|by apply wp_throw].
  apply wp_upd_bind, wp_bind. eapply wp_mono; [apply Hb| |done].
  - apply (bounded_put None); [|done]. by apply seen_evaluator, (bounded_seen _ _ _ _ HI Hl).
  - cbn. intros _ r1 HI1 o1. by apply keeps_apply.
Qed.
Lemma keeps_evaluate key missing operation before at_ms :
  missing ≠ OutOfFuel → keeps before →
  keeps (evaluate_consumer key missing operation before at_ms).
Proof. intros Hm Hb r o HI. apply wp_bounded_evaluate; [done..|]. intros state o' r' HI'. by apply Hb. Qed.

(* ------------------------------------------------------------------ *)
(** ** Blindness *)

Lemma bounded_latch at_ms detail r key :
  bounded None r → bounded None (latch_blind_consumer at_ms detail r key).
Proof.
  intros HI. unfold latch_blind_consumer. destruct (rs_consumers r !! key) as [state|] eqn:Hl; [|done].
  pose proof (bounded_seen _ _ _ _ HI Hl) as Hs.
  destruct (record_monitor_input_drop _ _ _ _) as [evaluator [evaluation|error]];
    [|apply (bounded_put None); [by apply seen_evaluator|done]].
  assert (HI' : bounded None (put_consumer key (set_co_evaluator state evaluator) r))
    by (apply (bounded_put None); [by apply seen_evaluator|done]).
  set (r1 := put_consumer _ _ r) in *. clearbody r1.
  generalize (with_output_wp _ r1 _ _ (keeps_apply key evaluation
    (Z.max at_ms (rs_current_monotonic_ms r1)) r1 cycle_default HI')).
  destruct (with_output _ r1) as [[r2 o2] [[]|f]]; [|by intros [_ ?]].
  intros HI2. by_measure r2.
Qed.
Lemma bounded_latch_keys at_ms detail keys r :
  bounded None r → bounded None (fold_left (latch_blind_consumer at_ms detail) keys r).
Proof. revert r. induction keys as [|key rest IH]; cbn; [done|]. intros r HI. by apply IH, bounded_latch. Qed.
Lemma bounded_latch_history at_ms r : bounded None r → bounded None (latch_history_blindness at_ms r).
Proof.
  intros HI. unfold latch_history_blindness. destruct (rs_history_blindness_latched r); [done|].
  apply bounded_latch_keys. by_measure r.
Qed.
Lemma bounded_stage r class at_ms configured observed detail r' made :
  stage r class at_ms configured observed detail = (r', made) → bounded None r → bounded None r'.
Proof.
  unfold stage. cbn [refusal]. intros [= <- _] HI. unfold stage_refusal.
  match goal with |- context [with_output ?m ?r0] =>
    assert (Hm : keeps m);
    [apply keeps_bind; [apply keeps_record|intros _; apply keeps_bind; [apply keeps_output|intros _; apply keeps_output]]|];
    assert (HI0 : bounded None r0) by by_measure r;
    pose proof (with_output_wp m r0 _ _ (Hm r0 cycle_default HI0)) as Hf;
    destruct (with_output m r0) as [[r1 o1] [u|f]]
  end; [by_measure r1|]. destruct Hf as [_ Hf]. by_measure r1.
Qed.

(* ------------------------------------------------------------------ *)
(** ** Inputs *)

Lemma keeps_latch_subject subject at_ms detail : keeps (upd (latch_blind_subject subject at_ms detail)).
Proof. apply keeps_upd. intros r. apply bounded_latch_keys. Qed.

Lemma keeps_refused_pulse class subject at_ms configured observed detail blind_detail :
  keeps (refuse_pulse class subject at_ms configured observed detail blind_detail).
Proof. apply keeps_bind; [apply keeps_refuse|intros _; apply keeps_latch_subject]. Qed.

Lemma keeps_remote_custody f remote at_ms : keeps (record_remote_custody f remote at_ms).
Proof.
  destruct remote as [[custody receipt]|]; cbn [record_remote_custody]; [|keep_measured].
  apply keeps_bind; [apply keeps_lift|intros _]. apply keeps_bind; [apply keeps_lift|intros _].
  case_match; [|apply keeps_error]. apply keeps_bind; [apply keeps_record|intros _]. keep_measured.
Qed.

Lemma keeps_ingest received ordinal at_ms key : keeps (ingest_for received ordinal at_ms key).
Proof.
  apply keeps_get. intros r o HI. cbv zeta. destruct (rs_consumers r !! key); [|by apply wp_ret].
  case_match; [|by apply wp_ret]. apply keeps_evaluate; [done|apply keeps_output|done].
Qed.

Lemma bounded_subject r subject s :
  subject_fits (cf_bounds config) s → is_Some (rs_subjects r !! subject) → bounded None r →
  bounded None (set_rs_subjects r (<[subject := s]> (rs_subjects r))).
Proof.
  intros Hs Hl (Hc&Hw&Hk). split_and!; [done| |cbn; rewrite dom_insert; set_solver].
  destruct Hw. constructor; try done; cbn; [by apply fits_insert_present|].
  intros subject' s'. rewrite lookup_insert_Some. intros [[<- <-]|[_ Hl']]; [|by eapply wi_subject0].
  unfold bounds. cbn. by rewrite Hc.
Qed.

Lemma bounded_pulse_identities r f s :
  rs_subjects r !! pf_subject f = Some s →
  negb (bool_decide (pf_observer f ∈ su_observers s))
    && at_least (size (su_observers s)) (bd_maximum_observers_per_subject (bounds r)) = false →
  negb (bool_decide (stream_identity f ∈ rs_receiver_streams r))
    && at_least (size (rs_receiver_streams r)) (bd_maximum_receiver_streams (bounds r)) = false →
  negb (bool_decide (pf_observer_incarnation f ∈ observer_incarnation_set r f))
    && at_least (size (observer_incarnation_set r f))
         (bd_maximum_incarnations_per_observer (bounds r)) = false →
  bounded None r → bounded None (note_pulse_identities f r).
Proof.
  intros Hl G1 G2 G3 HI. unfold note_pulse_identities, subject_state. rewrite Hl. cbv zeta. cbn [default].
  assert (HI1 : bounded None (set_rs_subjects r (<[pf_subject f := mkSubjectState (su_consumers s)
    ({[pf_observer f]} ∪ su_observers s) (su_subject_incarnations s)]> (rs_subjects r)))).
  { destruct HI as (Hc&Hw&Hk). destruct (wi_subject _ Hw _ _ Hl) as [Hs1 Hs2].
    apply bounded_subject; [|by eauto|done]. unfold bounds in *. rewrite Hc in *.
    constructor; [done|]. by apply fits_add. }
  destruct HI as (_&Hw0&_). destruct HI1 as (Hc&Hw&Hk). split_and!; [done| |done].
  destruct Hw. constructor; try done; cbn.
  - by apply fits_add; [|apply Hw0].
  - intros lineage known'. rewrite lookup_insert_Some. intros [[<- <-]|[_ Hl']]; [|by eapply wi_incarnations0].
    apply fits_add; [done|]. unfold observer_incarnation_set. cbn.
    destruct (rs_observer_incarnations r !! lineage_key f) eqn:Hk'; cbn; [by eapply (wi_incarnations _ Hw0)|].
    rewrite size_empty. eapply fits_zero, Hw0. cbn. set_solver.
Qed.

Lemma keeps_pulse arrival ordinal pulse remote at_ms :
  keeps (process_pulse arrival ordinal pulse remote at_ms).
Proof.
  apply keeps_get. intros r o HI. cbv zeta.
  destruct (rs_subjects r !! _) as [s|] eqn:Hl; [|by apply keeps_refuse].
  destruct (negb _ && _) eqn:G1;
    [apply keeps_bind; [keep_measured|intros _; apply keeps_refused_pulse|done]|].
  destruct (negb (bool_decide (stream_identity _ ∈ _)) && _) eqn:G2;
    [apply keeps_bind; [keep_measured|intros _; apply keeps_refused_pulse|done]|].
  destruct (negb (bool_decide (_ ∈ observer_incarnation_set _ _)) && _) eqn:G3;
    [by apply keeps_refused_pulse|].
  apply wp_upd_bind. apply keeps_bind; [apply keeps_remote_custody|intros _|by eapply bounded_pulse_identities].
  apply keeps_get. clear. intros r o HI. destruct (annotate _ _ _ _ _ _) as [tracker annotated].
  apply keeps_bind; [keep_measured|intros _|done]. apply keeps_bind; [apply keeps_lift|intros annotation].
  apply keeps_for. intros key. apply keeps_ingest.
Qed.

Lemma keeps_refused_activation counted class key at_ms configured observed detail blind_detail :
  keeps (refuse_activation counted class key at_ms configured observed detail blind_detail).
Proof.
  apply keeps_bind; [destruct counted; [keep_measured|keep_returned]|intros _].
  apply keeps_bind; [apply keeps_refuse|intros _]. apply keeps_upd. intros r. apply bounded_latch.
Qed.

Lemma keeps_invalidate key context at_ms : keeps (invalidate_binding_for_context_change key context at_ms).
Proof.
  apply keeps_get. intros r o HI. destruct (rs_qualified_bindings r !! key) as [slot|] eqn:Hl; [|by apply wp_ret].
  destruct (sl_accepted slot); [|by apply wp_ret]. destruct (matches_context _ _); [by apply wp_ret|].
  cbv zeta. apply wp_upd_bind. apply keeps_bind; [apply keeps_record|intros _; apply keeps_output|].
  by eapply (bounded_slot None None).
Qed.

Lemma keeps_install logical_at activation key state at_ms :
  seen_fits (mkConsumer (co_evaluator state) (co_context state)
    ({[cx_activation_id (ca_context activation)]} ∪ co_seen_activations state) (co_certificate state)) →
  keeps (install_context logical_at activation key state at_ms).
Proof.
  intros Hs r o HI. apply wp_upd_bind. cbv beta zeta.
  apply keeps_bind; [apply keeps_invalidate|intros _|by apply (bounded_drop None)].
  destruct (replace_policy _ _ _ _) as [evaluator [evaluation|error]]; [|by apply keeps_throw].
  apply keeps_bind; [apply keeps_upd; intros r'; apply (bounded_put None); by destruct Hs|intros _].
  apply keeps_bind; [keep_measured|intros _]. apply keeps_bind; [keep_measured|intros _].
  apply keeps_bind; [keep_measured|intros _].
  apply keeps_bind; [destruct (certificate_is_current _); [keep_measured|keep_returned]|intros _].
  apply keeps_bind; [apply keeps_transition|intros _].
  apply keeps_bind; [apply keeps_output|intros _]. apply keeps_apply.
Qed.

Lemma keeps_activation logical_at activation at_ms : keeps (activate_consumer logical_at activation at_ms).
Proof.
  apply keeps_bind; [apply keeps_lift|intros _]. apply keeps_get. intros r o HI. cbv zeta.
  destruct (rs_consumers r !! _) as [state|] eqn:Hl; [|by apply wp_throw].
  destruct (decide _) as [|Hfresh]; [by apply keeps_refused_activation|].
  destruct (at_least _ _) eqn:Hg; [by apply keeps_refused_activation|].
  assert (Hs : seen_fits (mkConsumer (co_evaluator state) (co_context state)
    ({[cx_activation_id (ca_context activation)]} ∪ co_seen_activations state) (co_certificate state))).
  { destruct (bounded_seen _ _ _ _ HI Hl). constructor; [|done]. cbn. apply fits_add; [|done].
    destruct HI as (Hc&_). unfold bounds in Hg. rewrite Hc in Hg. rewrite Hg. apply andb_false_r. }
  destruct (rs_historical_policy_bodies r !! _); [|by apply keeps_install].
  destruct (decide _); [by apply keeps_install|by apply keeps_refused_activation].
Qed.

Lemma keeps_replaced_consumer logical_at subject replacement at_ms activation :
  keeps (replace_for_consumer logical_at subject replacement at_ms activation).
Proof.
  apply keeps_get. intros r o HI. cbv zeta.
  apply keeps_bind; [apply keeps_evaluate; [done|keep_measured]|intros _|done].
  apply keeps_bind; [apply keeps_activation|intros _; apply keeps_output].
Qed.

Lemma keeps_known_replacement logical_at subject replacement activations at_ms :
  subject ∈ known →
  keeps (runtime_replace_subject logical_at subject replacement activations at_ms).
Proof.
  intros Hin. apply keeps_bind; [apply keeps_lift|intros _]. apply keeps_get. intros r o HI.
  destruct (rs_subjects r !! subject) as [s|]; [|by apply keeps_error].
  destruct (andb _ _).
  { apply keeps_bind; [apply keeps_refuse|intros _; apply keeps_latch_subject|done]. }
  cbv zeta. destruct (orb _ _); [by apply keeps_error|].
  apply keeps_bind; [apply keeps_for|intros _|done].
  { intros a. apply keeps_bind; [apply keeps_lift|intros _].
    destruct (decide _); [keep_returned|apply keeps_error]. }
  destruct (activate_subject_incarnation _ _ _) as [tracker activated].
  apply keeps_bind; [keep_measured|intros _]. apply keeps_bind; [apply keeps_lift|intros _].
  apply keeps_bind; [apply keeps_for; intros; apply keeps_replaced_consumer|intros _].
  apply keeps_upd. clear r o HI. intros r HI. cbv zeta.
  assert (Hs : is_Some (rs_subjects r !! subject)).
  { destruct HI as (_&_&Hk). by apply elem_of_dom, Hk. }
  apply bounded_subject; [|done..]. destruct Hs as [s' Hl]. unfold subject_state. rewrite Hl. cbn.
  destruct HI as (Hc&Hw&_). destruct (wi_subject _ Hw _ _ Hl). unfold bounds in *. rewrite Hc in *.
  by constructor.
Qed.

Lemma keeps_disposition disposition at_ms : keeps (process_disposition disposition at_ms).
Proof.
  apply keeps_get. intros r o HI. destruct (owner_of _ _); [|by unfold no_active_request; apply keeps_refuse].
  apply keeps_evaluate; [done|keep_returned|done].
Qed.

Lemma keeps_receipt receipt at_ms : keeps (process_receipt receipt at_ms).
Proof.
  apply keeps_get. intros r o HI. cbv zeta. destruct (at_least _ _) eqn:Hg.
  { apply keeps_bind; [apply keeps_refuse|intros _; apply keeps_latch_subject|done]. }
  destruct (owner_of _ _); [|by unfold no_active_request; apply keeps_refuse]. apply wp_bounded_evaluate; [done..|].
  intros state o' r' (Hc&Hw&Hk). apply wp_upd. split_and!; [done| |done]. destruct Hw.
  constructor; try done. cbn. rewrite length_app. cbn. rewrite Nat.add_1_r. by apply at_least_false.
Qed.

Lemma keeps_revalidation key policy at_ms : keeps (process_revalidation key policy at_ms).
Proof.
  apply keeps_get. intros r o HI. destruct (decide _); [|by apply keeps_error].
  destruct (rs_consumers r !! key) as [state|] eqn:Hl; [|by apply wp_throw].
  pose proof (bounded_seen _ _ _ _ HI Hl) as Hs. apply wp_upd_bind.
  apply keeps_bind; [apply keeps_revalidated|intros _|by apply (bounded_drop None)].
  destruct (tick _ _) as [evaluator [evaluation|error]]; [|by apply keeps_throw].
  apply keeps_bind; [apply keeps_upd; intros r'|intros _; apply keeps_apply].
  apply (bounded_put None). by apply seen_evaluator.
Qed.

Lemma keeps_boundary subject finding session detail withdraw at_ms :
  keeps (process_boundary subject finding session detail withdraw at_ms).
Proof.
  unfold process_boundary. destruct (orb _ _); [apply keeps_error|].
  apply keeps_bind; [apply keeps_record|intros _]. apply keeps_bind; [apply keeps_output|intros _].
  destruct withdraw; [|keep_returned]. apply keeps_bind; [|intros _; apply keeps_drain].
  apply keeps_upd. intros r. destruct subject; apply bounded_latch_keys.
Qed.

Lemma keeps_restore subject detail at_ms : keeps (process_restore subject detail at_ms).
Proof.
  apply keeps_get. intros r o HI. apply keeps_bind; [|intros _; apply keeps_output|done].
  apply keeps_for. intros key. apply keeps_evaluate; [done|keep_returned].
Qed.

Lemma keeps_deadline s at_ms : keeps (process_deadline s at_ms).
Proof.
  apply keeps_get. intros r o HI. cbv zeta. destruct (rs_consumers r !! _); [|by apply wp_ret].
  destruct (decide _); [|by apply wp_ret]. apply keeps_evaluate; [done| |done].
  apply keeps_bind; [keep_measured|intros _].
  apply keeps_bind; [apply keeps_record|intros _; apply keeps_output].
Qed.

End bounds.

Section entry.
Context `{Sha256} `{FactJson} `{CustodyJson} `{RuntimeEnvironment}.
Context (config : RuntimeConfigV1).

#[local] Abbreviation bounded := (bounded config ∅).
#[local] Abbreviation keeps := (keeps (I := bounded)).
#[local] Abbreviation fails := (fails (I := bounded)).
#[local] Ltac keep_measured := by apply keeps_measured; intros; split_and!.
#[local] Ltac by_measure r := eapply (bounded_measured config ∅ None None r); [by split_and!|done].
#[local] Ltac keep_returned := intros ? ? ?; by apply wp_ret.

Lemma bounded_weaken known x r : RuntimeBounds.bounded config known x r → bounded x r.
Proof. intros (?&?&_). split_and!; [done..|set_solver]. Qed.

Lemma keeps_subject_replacement logical_at subject replacement activations at_ms :
  keeps (runtime_replace_subject logical_at subject replacement activations at_ms).
Proof.
  intros r o HI. destruct (rs_subjects r !! subject) as [s|] eqn:Hl.
  - eapply wp_mono; [apply (keeps_known_replacement config {[subject]}); [set_solver|]|..].
    + destruct HI as (?&?&_). split_and!; [done..|]. apply elem_of_dom_2 in Hl. set_solver.
    + cbv beta. intros _ r'. apply bounded_weaken.
    + intros f r' [? ?]. split; [done|]. by eapply bounded_weaken.
  - apply wp_bind, wp_lift; [|by intros]. intros _ _ o'. apply wp_get. cbn [fst]. rewrite Hl.
    by apply wp_throw.
Qed.

Lemma keeps_input logical_at ordinal input at_ms : keeps (process_input logical_at ordinal input at_ms).
Proof.
  destruct input; cbn [process_input].
  - apply keeps_activation.
  - apply keeps_subject_replacement.
  - apply keeps_pulse.
  - apply keeps_pulse.
  - apply keeps_disposition.
  - apply keeps_receipt.
  - apply keeps_evaluate; [done|keep_returned].
  - apply keeps_revalidation.
  - apply keeps_boundary.
  - apply keeps_restore.
Qed.

(** Taking from the queue; dropping expired requests. *)
Lemma bounded_dequeue r pending :
  (length pending ≤ length (rs_pending r))%nat → bounded None r → bounded None (set_rs_pending r pending).
Proof.
  intros Hle (Hc&Hw&Hk). split_and!; [done| |done]. destruct Hw. constructor; try done.
  unfold fits, bounds in *. cbn. lia.
Qed.
Lemma bounded_expire r now :
  bounded None r →
  bounded None (set_rs_request_owners r
    (filter (λ '(_, (_, expiry)), now < expiry) (rs_request_owners r))).
Proof.
  intros (Hc&Hw&Hk). split_and!; [done| |done]. destruct Hw. constructor; try done.
  unfold fits, bounds in *. cbn. pose proof (map_size_filter (λ '(_, (_, expiry)), now < expiry) (rs_request_owners r)).
  lia.
Qed.

Lemma keeps_cycle now : ∀ r o, bounded None r → wp (run_cycle now) (λ _, bounded None) (λ _, bounded None) (r, o).
Proof.
  assert (Hloop : ∀ fuel r o, bounded None r →
    wp (run_loop fuel now) (λ _, bounded None) (λ _, bounded None) (r, o)).
  { induction fuel as [|fuel IH]; intros r o HI; cbn [run_loop]; apply wp_get;
      destruct (next_item r now) as [item|]; try by apply wp_ret.
    { by apply wp_throw. }
    apply wp_bind. apply (wp_mono _ (λ _, bounded None) _ fails);
      [|intros _ r' HI' o'; by apply IH|by intros f r' [_ ?]].
    destruct item as [[key input]|s]; apply wp_upd_bind.
    - apply keeps_input. apply bounded_dequeue; [|done]. destruct (rs_pending r); cbn; lia.
    - apply keeps_deadline. by_measure r. }
  intros r o HI. apply wp_upd_bind, wp_upd_bind, wp_bind.
  eapply wp_mono; [apply keeps_drain|..|by intros f r' [_ ?]].
  { apply bounded_expire. by_measure r. }
  cbv beta. intros _ r1 HI1 o1. apply wp_get, wp_bind. eapply wp_mono; [by apply Hloop| |done].
  cbv beta. intros _ r2 HI2 o2. apply wp_get. destruct (rs_history_exhausted r2); [|by apply wp_ret].
  apply wp_upd_bind. apply (wp_mono _ (λ _, bounded None) _ fails); [|done|by intros f r' [_ ?]].
  by apply keeps_drain, bounded_latch_history.
Qed.

Lemma bounded_run_until r now : bounded None r → bounded None (run_until r now).1.
Proof.
  intros HI. unfold run_until. cbv zeta. destruct (_ <? _).
  - destruct (stage _ _ _ _ _ _) as [r' made] eqn:Es. apply (bounded_stage config ∅) in Es; [|done].
    cbn [fst]. eapply (bounded_measured config ∅ None None); [|by apply bounded_latch_keys].
    by split_and!.
  - pose proof (finish_wp _ r _ _ (keeps_cycle now r cycle_default HI)) as Hf.
    by destruct (finish _ r) as [r' [o|f]].
Qed.

Lemma length_btree_insert {K V} compare (k : K) (v : V) m :
  (length (btree_insert compare k v m) ≤ S (length m))%nat.
Proof. induction m as [|[k' v'] rest IH]; cbn; [lia|]. destruct (compare k k'); cbn; lia. Qed.

Lemma bounded_enqueue r at_ms input : bounded None r → bounded None (enqueue r at_ms input).1.
Proof.
  intros HI. unfold enqueue. cbv zeta. destruct (rs_history_exhausted r); [|destruct (_ <? _)].
  3: destruct (at_least _ _) eqn:Hg; [|destruct (_ =? _)].
  1-4: destruct (stage _ _ _ _ _ _) as [r' made] eqn:Es; apply (bounded_stage config ∅) in Es; cbn [fst];
    [by apply bounded_latch_history || by apply bounded_latch_keys|try done; by_measure r].
  cbn [fst]. destruct HI as (Hc&Hw&Hk). split_and!; [done| |done]. destruct Hw. constructor; try done.
  apply at_least_false in Hg. unfold fits, bounds in *. cbn.
  pose proof (length_btree_insert pending_compare
    (mkPendingKey at_ms (priority input) (ordering_subject input) (ordering_discriminator input)
       (rs_ingress_counter r + 1)) input (rs_pending r)). lia.
Qed.

(* ------------------------------------------------------------------ *)
(** ** Registration and bindings *)

Lemma keeps_clock at_ms : keeps (ensure_time_not_regressed at_ms).
Proof.
  apply keeps_get. intros r o HI. case_match.
  - apply keeps_bind; [|intros _; apply keeps_error|done]. apply keeps_upd. intros r'.
    apply bounded_latch_keys.
  - by apply wp_upd; by_measure r.
Qed.
Lemma keeps_history_check detail : keeps (ensure_history detail).
Proof.
  apply keeps_get. intros r o HI.
  destruct (rs_history_exhausted r); [by apply keeps_error|by apply wp_ret].
Qed.

(** What the guards of [register_consumer] leave to be stored. *)
Definition has_room (registration : ConsumerRegistrationV1) (r : Runtime) : Prop :=
  let subject := ck_subject (registration_key registration) in
  (is_Some (rs_subjects r !! subject) ∨ fits (S (size (rs_subjects r))) (bd_maximum_subjects (bounds r)))
  ∧ fits (S (size (su_consumers (subject_state r subject)))) (bd_maximum_consumers_per_subject (bounds r)).

Lemma wp_admissible registration r o :
  bounded None r →
  wp (registration_admissible registration)
    (λ _ r', bounded None r' ∧ has_room registration r') fails (r, o).
Proof.
  intros HI. apply wp_get. cbv zeta. destruct (decide _); [by apply wp_throw|].
  destruct (negb _ && _) eqn:G1.
  { apply wp_upd_bind, wp_throw. split; [done|]. by_measure r. }
  destruct (at_least (size (su_consumers _)) _) eqn:G2; [by apply wp_throw|].
  destruct (at_least (size (rs_consumers r)) _).
  { apply wp_upd_bind, wp_throw. split; [done|]. by_measure r. }
  assert (Hroom : has_room registration r).
  { split; [|by apply at_least_false]. destruct (rs_subjects r !! _) eqn:Hl; [left; by eauto|right].
    apply at_least_false. by rewrite bool_decide_eq_false_2 in G1 by (by intros [? ?]). }
  destruct (decide _); [by apply wp_throw|].
  destruct (rs_historical_policy_bodies r !! _); [|by apply wp_ret].
  destruct (decide _); [by apply wp_ret|by apply wp_throw].
Qed.

Lemma size_add_le (x : string) (X : gset string) : (size ({[x]} ∪ X) ≤ S (size X))%nat.
Proof. rewrite size_union_alt, size_singleton. pose proof (subseteq_size (X ∖ {[x]}) X). set_solver by lia. Qed.

Lemma bounded_store registration evaluator r :
  bounded None r → has_room registration r → bounded None (store_registration registration evaluator r).
Proof.
  intros (Hc&Hw&Hk) [Hroom Hsub]. unfold store_registration. cbv zeta.
  set (key := registration_key registration) in *.
  set (s := subject_state r (ck_subject key)) in *.
  assert (Hs : fits (size (su_observers s)) (bd_maximum_observers_per_subject (bounds r))).
  { unfold s, subject_state. destruct (rs_subjects r !! ck_subject key) as [s'|] eqn:Hl; cbn.
    - by destruct (wi_subject _ Hw _ _ Hl).
    - rewrite size_empty. eapply fits_zero, Hw. cbn. set_solver. }
  clearbody s. clearbody key.
  split_and!; [done| |set_solver]. pose proof Hw as Hw'. destruct Hw. constructor; try done; cbn.
  - by apply fits_insert.
  - intros subject s'. rewrite lookup_insert_Some. intros [[<- <-]|[_ Hl]]; [|by eapply wi_subject0].
    constructor; [|done]. cbn. pose proof (size_add_le (ck_consumer key) (su_consumers s)).
    unfold fits, bounds in *. cbn. lia.
  - intros k state. rewrite lookup_insert_Some. intros [[<- <-]|[_ Hl]]; [|by eapply wi_seen0].
    constructor; [|done]. cbn. rewrite size_singleton.
    assert (0 < bd_maximum_context_activations_per_consumer (bounds r))
      by (apply (within_positive r); [done|cbn; set_solver]).
    unfold fits, bounds in *. cbn. lia.
Qed.

Lemma keeps_registration registration at_ms : keeps (register_consumer_rt registration at_ms).
Proof.
  apply keeps_bind; [apply keeps_history_check|intros _]. apply keeps_bind; [apply keeps_clock|intros _].
  apply keeps_bind; [apply keeps_lift|intros _]. intros r o HI. apply wp_bind.
  eapply wp_mono; [by apply wp_admissible| |done]. cbv beta. intros _ r1 [HI1 Hroom] o1.
  apply wp_get, wp_bind, wp_lift; [|by intros]. intros evaluator _ o2.
  destruct (install_reevaluation_barrier _ _ _) as [e [evaluation|error]]; [|by apply wp_throw].
  cbv zeta. apply wp_upd_bind.
  apply keeps_bind; [apply keeps_transition|intros _; apply keeps_apply|by apply bounded_store].
Qed.

Lemma keeps_barrier key barrier at_ms : keeps (barrier_if_registered key barrier at_ms).
Proof.
  apply keeps_get. intros r o HI. destruct (rs_consumers r !! key); [|by apply wp_ret].
  apply keeps_evaluate; [done|keep_returned|done].
Qed.

Lemma wp_slot_room key r o :
  bounded None r →
  wp (binding_slot_admissible key)
    (λ _ r', bounded None r' ∧ (is_Some (rs_qualified_bindings r' !! key)
       ∨ fits (S (size (rs_qualified_bindings r')))
           (bd_maximum_subjects (bounds r') * bd_maximum_consumers_per_subject (bounds r'))))
    fails (r, o).
Proof.
  intros HI. apply wp_get. cbv zeta. destruct (u64_max <? _); [by apply wp_throw|].
  destruct (negb _ && _) eqn:Hg; [by apply wp_throw|]. apply wp_ret. split; [done|]. cbn [fst].
  destruct (rs_qualified_bindings r !! key) eqn:Hl; [left; by eauto|right].
  apply at_least_false. by rewrite bool_decide_eq_false_2 in Hg by (by intros [? ?]).
Qed.

Lemma keeps_binding registration manifest certificate report acceptance at_ms :
  keeps (activate_binding_rt registration manifest certificate report acceptance at_ms).
Proof.
  apply keeps_bind; [apply keeps_history_check|intros _]. apply keeps_bind; [apply keeps_clock|intros _].
  apply keeps_bind; [apply keeps_lift|intros _]. intros r o HI. cbv zeta. apply wp_bind.
  eapply wp_mono; [by apply wp_slot_room| |done]. cbv beta. intros _ r1 [(Hc&Hw&Hk) Hroom] o1.
  apply wp_get, wp_bind, wp_lift; [|by intros]. intros measurements _ o2.
  apply wp_bind, wp_lift_sys.
  2: { intros p f _. split; [by destruct f|]. apply (bounded_measured config ∅ None None r1); by split_and!. }
  intros p attempt _ o3. apply wp_upd_bind.
  match goal with |- wp _ _ _ (?r2, _) => assert (HI2 : bounded None r2) end.
  { split_and!; [done| |done]. destruct Hw. constructor; try done. cbn. by apply fits_insert. }
  apply keeps_bind; [apply keeps_drain|intros _|done]. apply keeps_bind; [apply keeps_record|intros _].
  apply keeps_bind; [keep_measured|intros _]. apply keeps_bind; [apply keeps_barrier|intros _].
  apply keeps_bind; [apply keeps_output|intros _]. apply keeps_bind; [apply keeps_drain|intros _].
  keep_returned.
Qed.

Lemma keeps_lifecycle key fact at_ms : keeps (apply_lifecycle_rt key fact at_ms).
Proof.
  apply keeps_bind; [apply keeps_history_check|intros _]. apply keeps_bind; [apply keeps_clock|intros _].
  apply keeps_bind; [apply keeps_lift|intros _]. apply keeps_get. intros r o HI.
  destruct (rs_qualified_bindings r !! key) as [slot|] eqn:Hl; [|by apply keeps_error].
  cbv zeta. destruct (la_certificate_status _); try by apply keeps_error.
  destruct (orb _ _); [by apply keeps_error|]. apply wp_upd_bind.
  apply keeps_bind; [keep_measured|intros _|by eapply (bounded_slot config ∅ None None)].
  apply keeps_bind; [apply keeps_drain|intros _]. apply keeps_bind; [apply keeps_record|intros _].
  apply keeps_bind; [apply keeps_barrier|intros _]. apply keeps_bind; [apply keeps_output|intros _].
  apply keeps_drain.
Qed.

Lemma keeps_blindness at_ms state detail :
  keeps (ensure_time_not_regressed at_ms;; drain_pending;;
         record_sparse at_ms (EvMonitorCapabilityChanged state detail);;
         upd (latch_blind_all at_ms detail);; drain_pending).
Proof.
  apply keeps_bind; [apply keeps_clock|intros _]. apply keeps_bind; [apply keeps_drain|intros _].
  apply keeps_bind; [apply keeps_record|intros _]. apply keeps_bind; [|intros _; apply keeps_drain].
  apply keeps_upd. intros r. apply bounded_latch_keys.
Qed.

Lemma bounded_finish m r : keeps m → bounded None r → bounded None (finish m r).1.
Proof.
  intros Hm HI. pose proof (finish_wp m r _ _ (Hm r cycle_default HI)) as Hf.
  destruct (finish m r) as [r' [o|f]]; cbn; [done|]. by destruct Hf.
Qed.

Lemma bounded_activated r registration manifest certificate report acceptance at_ms :
  bounded None r →
  bounded None
    (activate_qualified_binding r registration manifest certificate report acceptance at_ms).1.
Proof.
  intros HI. unfold activate_qualified_binding.
  pose proof (with_output_wp _ r _ _ (keeps_binding registration manifest certificate report
    acceptance at_ms r cycle_default HI)) as Hf.
  destruct (with_output _ r) as [[r' o] [a|f]]; cbn; [done|]. by destruct Hf.
Qed.

Lemma bounded_perform r op : bounded None r → bounded None (perform r op).
Proof.
  intros HI. destruct op as [| | | |registration inputs at_ms| |]; cbn [perform].
  - apply bounded_finish; [apply keeps_registration|done].
  - by apply bounded_enqueue.
  - by apply bounded_run_until.
  - by apply bounded_activated.
  - destruct (qualify_activates r registration inputs at_ms) as (p&[->|(m&c&rep&acc&->)]);
      [|apply bounded_activated]; by_measure r.
  - apply bounded_finish; [apply keeps_lifecycle|done].
  - apply bounded_finish; [apply keeps_blindness|done].
Qed.

(* ------------------------------------------------------------------ *)
(** ** The two ways a runtime starts *)

Lemma bounded_new r :
  Forall is_u64 (bounds_values (cf_bounds config)) → runtime_new config = Ok r → bounded None r.
Proof.
  intros Hu Hn. unfold runtime_new in Hn. inv_ok Hn. simplify_eq.
  assert (Hpos : Forall (λ bound, 0 < bound) (bounds_values (cf_bounds config))).
  { match goal with Hv : config_validate config = Ok _ |- _ =>
      unfold config_validate in Hv; inv_ok Hv; unfold runtime_bounds_validate in Hv; inv_oks end.
    match goal with Hz : negb (existsb _ _) = true |- _ => apply negb_true_iff in Hz; rename Hz into Hzero end.
    apply Forall_forall. intros bound Hin. apply Forall_forall with (x := bound) in Hu; [|done].
    assert (bound ≠ 0).
    { intros ->. eapply not_true_iff_false; [exact Hzero|]. apply existsb_exists. exists 0.
      by split; [apply list_elem_of_In|]. }
    unfold is_u64 in Hu. apply Is_true_true in Hu. split_and_bool. lia. }
  split_and!; [done| |set_solver].
  assert (Hz : ∀ bound, bound ∈ bounds_values (cf_bounds config) → fits 0 bound).
  { intros bound Hin. apply Forall_forall with (x := bound) in Hpos; [|done]. unfold fits. lia. }
  constructor; unfold bounds; cbn; try (apply Hz; cbn; set_solver); try done.
  assert (fits 0 (bd_maximum_subjects (cf_bounds config))) by (apply Hz; cbn; set_solver).
  assert (fits 0 (bd_maximum_consumers_per_subject (cf_bounds config))) by (apply Hz; cbn; set_solver).
  unfold fits in *. rewrite map_size_empty. nia.
Qed.

Lemma keeps_recalled event : keeps (recall_event event).
Proof.
  unfold recall_event. destruct (se_event event); try keep_returned. cbv zeta.
  apply keeps_bind; [keep_measured|intros _]. apply keeps_get. intros r o HI.
  destruct (rs_historical_policy_bodies r !! _); [destruct (decide _)|];
    [by apply wp_upd; by_measure r|by apply keeps_error|by apply wp_upd; by_measure r].
Qed.

Lemma keeps_imported group : keeps (import_group group).
Proof.
  destruct group as [key records]. apply keeps_get. intros r o HI.
  destruct (rs_consumers r !! key) as [state|] eqn:Hl; [|by apply keeps_error].
  pose proof (bounded_seen _ _ _ _ _ _ HI Hl) as Hs. apply wp_upd_bind.
  apply (bounded_drop config ∅ None None key) in HI.
  destruct (import_contradictions _ _) as [evaluator [[]|error]]; [|by apply wp_throw].
  apply wp_upd. apply (bounded_put config ∅ None); [by apply seen_evaluator|done].
Qed.

Lemma wp_bounded_recover registrations history at_ms start o :
  bounded None start →
  fits (length (hs_sparse_events history)) (bd_maximum_sparse_events (cf_bounds config)) →
  fits (length (hs_diagnostic_receipts history)) (bd_maximum_diagnostic_receipts (cf_bounds config)) →
  wp (recover_rt registrations history at_ms) (λ _, bounded None) fails (start, o).
Proof.
  intros (Hc&Hw&Hk) Hevents Hreceipts. apply wp_upd_bind.
  apply keeps_bind; [apply keeps_for, keeps_recalled|intros _|].
  - apply keeps_get. intros r1 o1 HI1. apply keeps_bind; [apply keeps_for|intros _|done].
    { intros registration. unfold recover_registration.
      destruct (decide _); [apply keeps_error|apply keeps_registration]. }
    apply keeps_bind; [apply keeps_for, keeps_imported|intros _].
    apply keeps_get. intros r2 o2 HI2. apply keeps_bind; [apply keeps_for|intros _|done].
    { intros key. apply keeps_evaluate; [done|keep_returned]. }
    apply keeps_get. intros r3 o3 HI3.
    apply keeps_bind; [apply keeps_record|intros _; apply keeps_output|done].
  - split_and!; [done| |done]. destruct Hw. constructor; try done;
      unfold bounds; change (rs_config (seed_history history start)) with (rs_config start);
      by rewrite Hc.
Qed.

Lemma bounded_recovered registrations history at_ms r o :
  Forall is_u64 (bounds_values (cf_bounds config)) →
  recover config registrations history at_ms = Ok (r, o) → bounded None r.
Proof.
  intros Hu Hr. unfold recover in Hr. cbv beta zeta in Hr. inv_ok Hr. inv_oks. split_and_bool.
  match goal with Hn : runtime_new config = Ok ?start |- _ =>
    apply (bounded_new start Hu) in Hn; rename Hn into Hstart;
    assert (Hm : wp (recover_rt registrations history at_ms) (λ _, bounded None) fails
                   (start, cycle_default))
      by (apply wp_bounded_recover; [done|unfold fits; lia..]);
    apply with_output_wp in Hm; destruct (with_output _ start) as [[r' o'] [u|f]]
  end; [by simplify_eq|done].
Qed.

End entry.
