(* ===== verification/PackageSamples.v ===== *)
(** * A sample environment and qualification package

    A machine on which nothing changes, JSON encoders that write a few fields
    of each record, and decoders that know exactly the package built on that
    machine for the sample registration. *)

From S2P Require Import Prelude Ids Digest Pulse Samples Judgment Context Qualification Package.
From S2P Require Import Activation CustodyTypes Escalation Certificate Event Policy EvaluatorState.
From S2P Require Import EvalSamples RuntimeState RuntimeArtifacts.

#[global] Instance sample_fact_json : FactJson := {| fact_json b := fb_reason b |}.
#[global] Instance sample_custody_json : CustodyJson :=
  {| acceptance_json r := rar_journal_identity r; custody_json c := roc_observation_identity c |}.

Definition sample_snapshot : ExecutableMetadataSnapshot := mkSnapshot 1 2 10 3 4 5 6.
#[global] Instance sample_system : OperatingSystem :=
  {| os_open_executable _ := Ok 3;
     os_metadata _ _ := Ok (mkFileMetadata true sample_snapshot);
     os_seek_start _ _ := Ok tt;
     os_read_to_end _ _ _ := Ok "executable";
     os_executable_link _ := Some "/usr/bin/pulse-runtime";
     os_boot_id _ := Ok "5d8f7a52";
     os_process_stat _ :=
       Ok "42 (pulse (x)) S 1 2 3 4 5 6 7 8 9 10 11 12 13 14 15 16 17 18 8675309 0";
     os_process_id := 42 |}.

(** The encoders; a decoder is added once there is a package to decode. *)
Definition body_text (b : ArtifactManifestBodyV1) : string :=
  str_join "," (ai_content_digest <$> mb_artifacts b).
Definition evidence_text (b : QualificationEvidenceBodyV1) : string :=
  eb_manifest_digest b +:+ str_join "," (eb_earned_claims b).
Definition certificate_text (b : QualificationCertificateBodyV1) : string :=
  cb_manifest_digest b +:+ "," +:+ cb_qualification_report_digest b.
Definition read_exactly {A} (json : A → string) (value : option A) (bytes : string)
  : result string A :=
  match value with
  | Some value => if decide (bytes = json value) then Ok value else Err "not the sample document"
  | None => Err "no sample document"
  end.
Definition sample_package_json (package : option LocalQualificationPackageV1) : PackageJson :=
  {| manifest_body_json := body_text;
     manifest_json := mf_manifest_digest;
     parse_manifest := read_exactly mf_manifest_digest (qp_manifest <$> package);
     evidence_body_json := evidence_text;
     report_json := er_report_digest;
     parse_report := read_exactly er_report_digest (qp_report <$> package);
     certificate_body_json := certificate_text;
     certificate_json := qc_certificate_digest;
     parse_certificate := read_exactly qc_certificate_digest (qp_certificate <$> package);
     receipt_body_json b := rb_activation_occurrence_id b;
     receipt_json := arc_receipt_digest;
     parse_receipt _ := Err "no sample receipt" |}.

Definition sample_command : QualificationCommandResultV1 :=
  mkCommandResult 1 ["cargo"; "test"] 0 (digest_parts "sample" ["stdout"])
    (digest_parts "sample" ["stderr"]) (Some 12).
Definition sample_corpus : QualificationCorpusArtifactV1 :=
  mkCorpus SCHEMA_VERSION_V1 "corpus:1" ["receipt_replay"] ["package_pairing"].
Definition sample_results : QualificationResultsArtifactV1 :=
  mkResults SCHEMA_VERSION_V1 [sample_command] 12 true.

#[global] Instance sample_artifact_json : ArtifactJson :=
  {| policy_json p := cpa_generation p;
     evaluator_json e := eia_evaluator_generation e;
     profile_json p := cpf_generation p;
     observer_set_json o := osa_generation o;
     observation_policy_json o := opa_generation o;
     configuration_json c := rca_receiver c;
     contracts_json c := str_join "," (sci_digest <$> sca_contracts c);
     corpus_json := qca_corpus_id;
     parse_corpus := read_exactly qca_corpus_id (Some sample_corpus);
     results_json r := "results of " +:+ dec (qra_total_tests_passed r);
     parse_results :=
       read_exactly (fun r => "results of " +:+ dec (qra_total_tests_passed r))
         (Some sample_results) |}.

Definition sample_environment_for (package : option LocalQualificationPackageV1)
  : RuntimeEnvironment :=
  {| environment_system := sample_system;
     environment_package := sample_package_json package;
     environment_artifacts := sample_artifact_json;
     runtime_version := "0.1.0";
     target_platform := "x86_64-unknown-linux" |}.

Definition sample_inputs : LocalQualificationInputsV1 :=
  {| qi_source := mkSource "monitor" "0123456789abcdef0123456789abcdef01234567"
                    (digest_parts "sample" ["tree"]) false;
     qi_build := mkBuild "rustc" "x86_64-unknown-linux" "release" ["default"]
                   [mkDependency "cargo-lock" "v4" (digest_parts "sample" ["lock"])];
     qi_platform_assumptions := ["linux-proc"];
     qi_declared_claims := ["exact_binding/v1"; "restart_unknown/v1"];
     qi_nonclaims := ["not_attestation"];
     qi_supersedes_manifest_digests := [];
     qi_lifecycle_authority_id := "authority:1";
     qi_corpus_bytes := "corpus:1";
     qi_results_bytes := "results of 12";
     qi_command_results := [sample_command];
     qi_hostile_scenarios := ["receipt_replay"];
     qi_total_tests_passed := 12;
     qi_issuance_id := "issuance:1";
     qi_issuer_id := "issuer:1" |}.

Definition sample_config : RuntimeConfigV1 :=
  mkRuntimeConfig SCHEMA_VERSION_V1 "receiver:a" "receiver-process:1" "clock:1" None
    bounds_qualification.

Definition context_for (policy : ReliancePolicyV1) (activation_id : string) : RelianceContextV1 :=
  {| cx_schema_version := SCHEMA_VERSION_V1;
     cx_activation_id := activation_id;
     cx_reliance_policy_generation := rl_generation policy;
     cx_reliance_policy_semantic_digest := policy_semantic_digest policy;
     cx_consumer_profile_generation := "consumer-profile:1";
     cx_evaluator_semantic_generation := "evaluator:1";
     cx_observer_set_generation := "observers:1";
     cx_observation_policy_generation := rl_observation_policy_generation policy |}.

Definition sample_registration : ConsumerRegistrationV1 :=
  mkRegistration sample_policy (context_for sample_policy "activation:1") "boot:1".

(** The package a fresh process builds; it reads no document, so the decoders
    are those of no package. *)
Definition sample_build : result ActivationFailure LocalQualificationPackageV1 :=
  (build_local_qualification_package (H1 := sample_environment_for None) sample_config
     sample_registration sample_inputs process_start).2.
Definition sample_package : option LocalQualificationPackageV1 :=
  match sample_build with Ok package => Some package | Err _ => None end.

#[global] Instance sample_environment : RuntimeEnvironment :=
  sample_environment_for sample_package.

Lemma sample_package_built : has_value sample_package = true.
Proof. vm_compute. reflexivity. Qed.

(** The sample package's documents, and an activation of them in a fresh
    process. *)
Definition document {A} (bytes : LocalQualificationPackageV1 → result QualificationError A)
  : option A :=
  package ← sample_package;
  match bytes package with Ok b => Some b | Err _ => None end.
Definition sample_manifest_bytes : option string :=
  document (fun p => manifest_canonical_bytes (qp_manifest p)).
Definition sample_certificate_bytes : option string :=
  document (fun p => qualification_certificate_canonical_bytes (qp_certificate p)).
Definition sample_report_bytes : option string :=
  document (fun p => report_canonical_bytes (qp_report p)).
Definition sample_acceptance : LocalActivationAcceptanceV1 :=
  default (mkAcceptance SCHEMA_VERSION_V1 "" "" StatusUnknown false grants_none)
    (qp_acceptance <$> sample_package).
Definition sample_activation_context : LocalActivationContextV1 :=
  {| lc_expected_generation_set :=
       generation_set_from_context (rl_subject sample_policy) (rl_consumer sample_policy)
         (rg_context sample_registration);
     lc_receiver_incarnation := cf_receiver_incarnation sample_config;
     lc_receiver_clock_id := cf_clock_id sample_config;
     lc_activated_at_monotonic_ms := 2;
     lc_runtime_version := runtime_version;
     lc_target_platform := target_platform;
     lc_semantic_measurements :=
       match active_runtime_measurements sample_config sample_registration with
       | Ok measurements => measurements
       | Err _ => []
       end |}.
Definition sample_activation : sys LocalActivationAttemptV1 :=
  verify_local_activation sample_manifest_bytes sample_certificate_bytes sample_report_bytes
    sample_acceptance sample_activation_context.
