(* ===== verification/PackageProps.v ===== *)
(** * What a qualification package binds

    Documents are accepted in one encoding only, what the issuing functions
    produce is what the verifying functions accept, and a verified package
    speaks with one voice: the certificate repeats the manifest. *)

From S2P Require Import Prelude Ids Digest Pulse Samples Judgment Context Qualification Package.
From S2P Require Import Activation CustodyTypes Escalation Certificate Event Policy EvaluatorState.
From S2P Require Import EvalSamples RuntimeState RuntimeArtifacts PackageSamples.

(* ------------------------------------------------------------------ *)
(** ** Canonical encodings *)

Lemma canonical_encode_Ok {A} (json : A → string) value bytes :
  canonical_encode json value = Ok bytes ↔
  bytes = json value ∧ slen (json value) <= MAX_QUALIFICATION_PACKAGE_BYTES.
Proof. unfold canonical_encode. destruct (_ <? _) eqn:E; split; naive_solver lia. Qed.

Lemma canonical_decode_Ok {A} (json : A → string) parse bytes label value :
  canonical_decode json parse bytes label = Ok value →
  bytes = json value ∧ parse bytes = Ok value ∧ canonical_encode json value = Ok bytes.
Proof.
  unfold canonical_decode. intros Hd. inv_oks. simplify_eq.
  match goal with H : bool_decide _ = true |- _ => apply bool_decide_eq_true in H as -> end.
  match goal with H : canonical_encode _ _ = _ |- _ => pose proof H as [-> _]%canonical_encode_Ok end.
  done.
Qed.

(** The decoder reads back what the encoder wrote, given that the JSON reader
    does. *)
Lemma canonical_decode_encode {A} (json : A → string) parse label value bytes :
  canonical_encode json value = Ok bytes → bytes ≠ "" → parse bytes = Ok value →
  canonical_decode json parse bytes label = Ok value.
Proof.
  intros He Hn Hp. pose proof He as [-> Hle]%canonical_encode_Ok. unfold canonical_decode.
  replace (slen (json value) =? 0) with false.
  2: { symmetry. apply Z.eqb_neq. by intros ?%slen_nil. }
  rewrite (proj2 (Z.ltb_ge _ _) Hle). cbn. rewrite Hp. cbn. rewrite He. cbn.
  by rewrite bool_decide_eq_true_2.
Qed.

Lemma body_digest_Ok `{Sha256} {A} (json : A → string) domain value digest :
  body_digest json domain value = Ok digest → digest = digest_parts domain [json value].
Proof. unfold body_digest. intros Hd. inv_ok Hd. by apply canonical_encode_Ok in Hok as [-> _]; simplify_eq. Qed.

Section documents.
Context `{Sha256} `{PackageJson}.

(** A manifest, certificate or report is accepted in exactly the bytes
    that [canonical_bytes] writes for it, and only if it validates: no second
    encoding of a document is ever decoded. *)
Theorem documents_canonical bytes :
  (∀ m, manifest_decode_canonical bytes = Ok m →
        manifest_validate m = Ok tt ∧ manifest_canonical_bytes m = Ok bytes)
  ∧ (∀ r, report_decode_canonical bytes = Ok r →
          report_validate r = Ok tt ∧ report_canonical_bytes r = Ok bytes)
  ∧ (∀ c, qualification_certificate_decode_canonical bytes = Ok c →
          qualification_certificate_validate c = Ok tt
          ∧ qualification_certificate_canonical_bytes c = Ok bytes).
Proof.
  unfold manifest_decode_canonical, report_decode_canonical,
    qualification_certificate_decode_canonical, manifest_canonical_bytes, report_canonical_bytes,
    qualification_certificate_canonical_bytes.
  split_and!; intros value Hd; inv_ok Hd; simplify_eq;
    match goal with H : canonical_decode _ _ _ _ = Ok _ |- _ =>
      apply canonical_decode_Ok in H as (_&_&He) end;
    match goal with H : _ = Ok tt |- _ => by rewrite H end.
Qed.

(** What is issued validates. *)
Lemma manifest_new_validates body m :
  manifest_new body = Ok m → manifest_validate m = Ok tt ∧ mf_body m = body.
Proof.
  unfold manifest_new. intros Hn. inv_ok Hn. simplify_eq. split; [|done].
  unfold manifest_validate. cbn. rewrite Hok. cbn. rewrite Hok0. cbn.
  by rewrite bool_decide_eq_true_2.
Qed.
Lemma report_new_validates body r :
  report_new body = Ok r → report_validate r = Ok tt ∧ er_body r = body.
Proof.
  unfold report_new. intros Hn. inv_ok Hn. simplify_eq. split; [|done].
  unfold report_validate. cbn. rewrite Hok. cbn. rewrite Hok0. cbn.
  by rewrite bool_decide_eq_true_2.
Qed.
Lemma certificate_issue_verifies m r provenance c :
  qualification_certificate_issue m r provenance = Ok c →
  verify_qualification_package m r c = Ok tt.
Proof.
  unfold qualification_certificate_issue. cbv zeta. intros Hn. inv_ok Hn. simplify_eq.
  unfold verify_qualification_package, qualification_certificate_validate.
  cbn [qc_schema_version qc_body qc_certificate_digest]. rewrite Hok, Hok0, Hok1. cbn.
  by rewrite !bool_decide_eq_true_2.
Qed.

(* ------------------------------------------------------------------ *)
(** ** Verified packages *)

Lemma inventory_roles artifacts roles :
  length artifacts = length roles → inventory_validate artifacts roles = Ok tt →
  ai_role <$> artifacts = roles ∧ Forall (λ a, artifact_validate a = Ok tt) artifacts.
Proof.
  revert roles. induction artifacts as [|a rest IH]; intros [|role roles]; try done.
  cbn [inventory_validate length]. intros Hl Hv. inv_ok Hv. injection Hl as Hl.
  apply IH in Hv as [Hr Hf]; [|done]. apply ensure_Ok, bool_decide_eq_true in Hok.
  rewrite fmap_cons, Hr, Hok. by auto.
Qed.

Lemma manifest_inventory m :
  manifest_validate m = Ok tt →
  ai_role <$> mb_artifacts (mf_body m) = all_roles
  ∧ Forall (λ a, artifact_validate a = Ok tt) (mb_artifacts (mf_body m)).
Proof.
  unfold manifest_validate, manifest_body_validate. intros Hv. inv_oks. split_and_bool.
  apply inventory_roles; [|done]. by apply Nat.eqb_eq.
Qed.

(** The [expect] of the manifest's validation: a complete inventory has its
    corpus. *)
Lemma complete_inventory_corpus artifacts :
  ai_role <$> artifacts = all_roles → is_Some (corpus_identity artifacts).
Proof.
  intros Hr. unfold corpus_identity. rewrite fmap_is_Some.
  destruct (find _ artifacts) eqn:Hf; [by eauto|]. exfalso.
  assert (Hin : QualificationCorpus ∈ ai_role <$> artifacts) by (rewrite Hr; set_solver).
  apply list_elem_of_fmap in Hin as (a&Ha&Hin). apply list_elem_of_In in Hin.
  apply (find_none _ _ Hf) in Hin. by rewrite <- Ha, bool_decide_eq_true_2 in Hin.
Qed.

Lemma passed_commands detail index commands :
  passed_commands_validate detail index commands = Ok tt →
  Forall (λ c, cmd_exit_code c = 0) commands.
Proof.
  revert index. induction commands as [|c rest IH]; intros index; [by constructor|].
  cbn. intros Hv. inv_ok Hv. apply ensure_Ok in Hok0. split_and_bool. constructor; [by apply Z.eqb_eq|by eapply IH].
Qed.

Lemma sorted_by_strictly_sorted xs : sorted_by String.compare xs = true → strictly_sorted xs = true.
Proof.
  induction xs as [|x [|y rest] IH]; [done..|]. cbn [sorted_by strictly_sorted].
  unfold String.ltb. destruct (String.compare x y); [done| |done]. exact IH.
Qed.

Lemma is_subset_spec xs ys :
  sorted_by String.compare ys = true → is_subset xs ys = true → ∀ x, x ∈ xs → x ∈ ys.
Proof.
  intros Hs Hsub x Hx. apply sorted_by_strictly_sorted in Hs.
  unfold is_subset in Hsub. rewrite forallb_Forall, Forall_forall in Hsub.
  by apply binary_search_correct, Hsub.
Qed.

Lemma validate_sorted_texts_sorted field values maximum :
  validate_sorted_texts field values maximum = Ok tt → sorted_by String.compare values = true.
Proof. unfold validate_sorted_texts, validate_sorted. intros Hv. inv_oks. by split_and_bool. Qed.

(** C16. In a verified package the certificate lists the digests of exactly
    the manifest's artifacts, one per role in canonical order; every command
    it rests on passed and their tests add up to the report's total; every
    claim it earns was declared by the manifest; and each document's digest is
    that of its own body. *)
Theorem verified_package_binds m r c :
  verify_qualification_package m r c = Ok tt →
  cb_artifact_digests (qc_body c) = artifact_digests (mf_body m)
  ∧ db_role <$> cb_artifact_digests (qc_body c) = all_roles
  ∧ Forall (λ command, cmd_exit_code command = 0) (cb_qualification_commands (qc_body c))
  ∧ summed_tests (cb_qualification_commands (qc_body c)) = eb_total_tests_passed (er_body r)
  ∧ (∀ claim, claim ∈ cb_earned_claims (qc_body c) → claim ∈ mb_declared_claims (mf_body m))
  ∧ mf_manifest_digest m
    = digest_parts "qualified.artifact-manifest.body.v1" [manifest_body_json (mf_body m)]
  ∧ er_report_digest r
    = digest_parts "qualified.evidence-report.body.v1" [evidence_body_json (er_body r)]
  ∧ qc_certificate_digest c
    = digest_parts "qualified.certificate.body.v1" [certificate_body_json (qc_body c)].
Proof.
  unfold verify_qualification_package, verify_manifest_report. intros Hv. inv_oks. split_and_bool.
  repeat match goal with H : bool_decide _ = true |- _ => apply bool_decide_eq_true in H end.
  match goal with H : manifest_validate m = _ |- _ =>
    pose proof (manifest_inventory m H) as [Hroles _] end.
  unfold manifest_validate, report_validate, qualification_certificate_validate,
    manifest_body_validate, evidence_body_validate, certificate_body_validate in *.
  inv_oks. split_and_bool.
  repeat match goal with
  | H : bool_decide _ = true |- _ => apply bool_decide_eq_true in H
  | H : body_digest _ _ _ = Ok _ |- _ => apply body_digest_Ok in H
  end.
  assert (Hd : cb_artifact_digests (qc_body c) = artifact_digests (mf_body m)) by congruence.
  split_and!; [done| | | | |congruence..].
  - rewrite Hd. unfold artifact_digests. by rewrite <- list_fmap_compose.
  - by eapply passed_commands.
  - match goal with H : (summed_tests _ =? _) = true |- _ => apply Z.eqb_eq in H end. congruence.
  - intros claim Hin. eapply is_subset_spec; [|done|].
    + by eapply validate_sorted_texts_sorted.
    + congruence.
Qed.
End documents.

(* ------------------------------------------------------------------ *)
(** ** On the sample package *)

(** A test of the sample package, evaluated. *)
Definition sample_holds (test : LocalQualificationPackageV1 → bool) : bool :=
  match sample_package with Some p => test p | None => false end.
Lemma sample_holds_at test : sample_holds test = true → ∃ p, sample_package = Some p ∧ test p = true.
Proof. unfold sample_holds. destruct sample_package; [eauto|done]. Qed.
Lemma is_ok_value {E A} (r : result E A) : is_ok r = true → ∃ a, r = Ok a.
Proof. destruct r; [eauto|done]. Qed.

Lemma documents_canonical_witness :
  ∃ p m, sample_package = Some p
    ∧ manifest_decode_canonical (mf_manifest_digest (qp_manifest p)) = Ok m
    ∧ manifest_canonical_bytes m = Ok (mf_manifest_digest (qp_manifest p)).
Proof.
  destruct (sample_holds_at (fun p => is_ok (manifest_decode_canonical
    (mf_manifest_digest (qp_manifest p))))) as (p&Hp&Hv); [vm_compute; reflexivity|].
  apply is_ok_value in Hv as [m Hm]. exists p, m. split; [done|]. split; [done|].
  exact (proj2 (proj1 (documents_canonical (mf_manifest_digest (qp_manifest p))) m Hm)).
Defined.

Lemma verified_package_binds_witness :
  ∃ p, sample_package = Some p
    ∧ db_role <$> cb_artifact_digests (qc_body (qp_certificate p)) = all_roles.
Proof.
  destruct (sample_holds_at (fun p => is_ok (verify_qualification_package (qp_manifest p)
    (qp_report p) (qp_certificate p)))) as (p&Hp&Hv); [vm_compute; reflexivity|].
  exists p. split; [done|].
  exact (proj1 (proj2 (verified_package_binds (qp_manifest p) (qp_report p) (qp_certificate p)
                         (is_ok_unit _ Hv)))).
Defined.
