(* ===== verification/ActivationProps.v ===== *)
(** * What a local activation establishes

    An activation is accepted exactly when the package, the acceptance policy,
    the process and every required artifact agree; otherwise the receipt says
    why not. *)

From S2P Require Import Prelude Ids Digest Pulse Samples Judgment Context Qualification Package.
From S2P Require Import Activation CustodyTypes Escalation Certificate Event Policy EvaluatorState.
From S2P Require Import EvalSamples EscalationProps RuntimeState RuntimeArtifacts PackageSamples PackageProps.

(* ------------------------------------------------------------------ *)
(** ** Computations that ask the operating system *)

(** An assertion on the process that the system calls and the occurrence
    counter do not affect: only the content cache may matter. *)
Class Stable (I : Process → Prop) : Prop :=
  stable p p' : ps_executable_content_cache p = ps_executable_content_cache p' → I p → I p'.
#[global] Instance stable_True : Stable (λ _, True).
Proof. done. Qed.

(** Whatever the operating system answers, the computation does not panic and
    keeps [I], and what it returns satisfies [Q]. *)
Definition ensures {A} (I : Process → Prop) (m : sys A) (Q : A → Prop) : Prop :=
  ∀ p, I p → match m p with
             | (p', Ok a) => I p' ∧ Q a
             | (p', Err (Refused _)) => I p'
             | (_, Err (ExpectFailed _)) => False
             end.
#[global] Arguments ensures : simpl never.
Definition quiet {A} (I : Process → Prop) (m : sys A) : Prop := ensures I m (λ _, True).

Section logic.
Context {I : Process → Prop} `{!Stable I}.

Lemma ensures_bind {A B} (m : sys A) (k : A → sys B) P Q :
  ensures I m P → (∀ a, P a → ensures I (k a) Q) → ensures I (m ≫= k) Q.
Proof.
  intros Hm Hk p Hp. unfold mbind, sys_bind. specialize (Hm p Hp).
  destruct (m p) as [p1 [a|f]]; [|done]. destruct Hm. by apply Hk.
Qed.
Lemma ensures_ret {A} (a : A) (Q : A → Prop) : Q a → ensures I (mret a) Q.
Proof. by intros Ha p. Qed.
Lemma ensures_lift {A} (r : result QualificationError A) (Q : A → Prop) :
  (∀ a, r = Ok a → Q a) → ensures I (sys_lift r) Q.
Proof. intros Hr p. unfold sys_lift. destruct r; cbn; auto. Qed.
Lemma ensures_try {A} (m : sys A) Q :
  ensures I m Q → ensures I (sys_try m) (λ r, match r with Ok a => Q a | Err _ => True end).
Proof. intros Hm p Hp. specialize (Hm p Hp). unfold sys_try. by destruct (m p) as [p1 [a|[]]]. Qed.
Lemma ensures_expect {A B} message (a : A) (k : A → sys B) Q :
  ensures I (k a) Q → ensures I (sys_expect message (Some a) ≫= k) Q.
Proof. intros Hk p. apply Hk. Qed.
Lemma ensures_Ok {A} (m : sys A) Q p p' a : ensures I m Q → I p → m p = (p', Ok a) → Q a.
Proof. intros Hm Hp E. specialize (Hm p Hp). rewrite E in Hm. apply Hm. Qed.
Lemma ensures_keeps {A} (m : sys A) Q p : ensures I m Q → I p → I (m p).1.
Proof. intros Hm Hp. specialize (Hm p Hp). by destruct (m p) as [p' [a|[]]]; try apply Hm. Qed.
(** The answer to a system call is what it answers at some moment. *)
Lemma ensures_ask {A} (f : nat → A) : ensures I (ask f) (λ a, ∃ n, a = f n).
Proof. intros p Hp. split; [by apply (stable p)|by eauto]. Qed.
Lemma ensures_call {A} what (f : nat → result string A) :
  ensures I (call what f) (λ a, ∃ n, f n = Ok a).
Proof.
  unfold call. eapply ensures_bind; [apply ensures_ask|]. intros answer [n ->].
  apply ensures_lift. intros a. destruct (f n) eqn:E; [|done]. intros [= ->]. by eauto.
Qed.

Lemma ensures_mono {A} (m : sys A) (P Q : A → Prop) :
  ensures I m P → (∀ a, P a → Q a) → ensures I m Q.
Proof.
  intros Hm HPQ p Hp. specialize (Hm p Hp). destruct (m p) as [p1 [a|[]]]; [|done..].
  destruct Hm. by eauto.
Qed.
Lemma ensures_quiet {A} (m : sys A) Q : ensures I m Q → quiet I m.
Proof. intros Hm. by eapply ensures_mono. Qed.

Lemma quiet_ret {A} (a : A) : quiet I (mret a).
Proof. by apply ensures_ret. Qed.
Lemma quiet_lift {A} (r : result QualificationError A) : quiet I (sys_lift r).
Proof. by apply ensures_lift. Qed.
Lemma quiet_ask {A} (f : nat → A) : quiet I (ask f).
Proof. eapply ensures_quiet, ensures_ask. Qed.
Lemma quiet_bind {A B} (m : sys A) (k : A → sys B) :
  quiet I m → (∀ a, quiet I (k a)) → quiet I (m ≫= k).
Proof. intros Hm Hk. eapply ensures_bind; [exact Hm|]. intros a _. apply Hk. Qed.
Lemma quiet_call {A} what (f : nat → result string A) : quiet I (call what f).
Proof. eapply ensures_quiet, ensures_call. Qed.
(** Step over a call whose answer does not matter. *)
Lemma ensures_over {A B} (m : sys A) (k : A → sys B) Q :
  quiet I m → (∀ a, ensures I (k a) Q) → ensures I (m ≫= k) Q.
Proof. intros Hm Hk. eapply ensures_bind; [exact Hm|auto]. Qed.
End logic.

Create HintDb quiet.
#[export] Hint Resolve quiet_ret quiet_lift quiet_ask quiet_bind quiet_call : quiet.
#[export] Hint Extern 0 (Stable _) => typeclasses eauto : quiet.
Ltac step_over := apply ensures_over; [by auto with quiet|intros ?].

(** What the executable that is measured contains: an opened handle, its
    content as it was read to the end within the measurement bound, and the
    metadata it shows. *)
Section content.
Context `{Sha256} `{OperatingSystem}.

Definition opened (file : Z) : Prop := ∃ n, os_open_executable n = Ok file.
Definition content_read (file : Z) (digest : DigestV1) : Prop :=
  ∃ n bytes, os_read_to_end n file (MAX_EXECUTABLE_MEASUREMENT_BYTES + 1) = Ok bytes
             ∧ digest = artifact_content_digest bytes.
Definition shows (file : Z) (snapshot : ExecutableMetadataSnapshot) : Prop :=
  ∃ n metadata, os_metadata n file = Ok metadata ∧ md_snapshot metadata = snapshot.

(** The digest of what an opened executable holds: read from this handle, or
    earlier from another handle of the executable that showed the very same
    device, inode, length and times. *)
Definition executable_bytes (file : Z) (digest : DigestV1) : Prop :=
  opened file
  ∧ ∃ source, opened source ∧ content_read source digest
      ∧ (source = file ∨ ∃ snapshot, shows source snapshot ∧ shows file snapshot).

(** The content cache holds the digest of what was read from the executable,
    with the metadata the handle showed. *)
Definition cache_honest (p : Process) : Prop :=
  ∀ entry, ps_executable_content_cache p = Some entry →
    ∃ source, opened source ∧ content_read source (ecc_content_digest entry)
              ∧ shows source (ecc_metadata entry).
#[global] Instance stable_cache_honest : Stable cache_honest.
Proof. intros p p' E Hp entry. rewrite <- E. apply Hp. Qed.
End content.

Section observations.
Context `{Sha256} `{OperatingSystem} {I : Process → Prop} `{!Stable I}.

Lemma observe_shows file : ensures I (observe_metadata file) (shows file).
Proof.
  unfold observe_metadata. eapply ensures_bind; [apply ensures_call|].
  intros metadata [n Hn]. apply ensures_ret. by exists n, metadata.
Qed.
Lemma quiet_observe file : quiet I (observe_metadata file).
Proof. eapply ensures_quiet, observe_shows. Qed.
#[local] Hint Resolve quiet_observe : quiet.

(** The label that is read is text. *)
Lemma link_label_text :
  ensures I link_label (λ label, qualification_text "measurement.link_label" label = Ok tt).
Proof.
  unfold link_label. step_over. cbv zeta.
  eapply ensures_bind; [by apply ensures_lift, (λ a H, H)|]. intros [] Ht. by apply ensures_ret.
Qed.

(** What is measured is the running executable. *)
Definition executable_like (x : ArtifactMeasurementV1) : Prop :=
  am_role x = RunningExecutable ∧ am_caller_supplied x = false
  ∧ ∃ label device inode, am_provenance x = ProcSelfExeOpenedHandle label device inode
      ∧ qualification_text "measurement.link_label" label = Ok tt.
Lemma executable_measurement_like digest length device inode label :
  qualification_text "measurement.link_label" label = Ok tt →
  executable_like (executable_measurement digest length label device inode).
Proof. intros Ht. split_and!; [done..|]. by eauto. Qed.

Lemma measure_like file :
  ensures I (measure_open_executable file) (λ x,
    executable_like x ∧ content_read file (am_content_digest x)).
Proof.
  unfold measure_open_executable. cbv zeta. do 4 step_over.
  eapply ensures_bind; [apply ensures_call|]. intros bytes [n Hread]. do 4 step_over.
  eapply ensures_bind; [apply link_label_text|]. intros label Ht.
  apply ensures_ret. split; [by apply executable_measurement_like|by exists n, bytes].
Qed.

(** Opening and measuring, where the cache keeps [I] when an honest entry is
    put into it and [I] knows whether entries are honest. *)
Lemma open_measures :
  (∀ p entry, I p → cache_honest (mkProcessState (ps_calls p) (ps_next_activation_occurrence p)
                                    (Some entry)) →
     I (mkProcessState (ps_calls p) (ps_next_activation_occurrence p) (Some entry))) →
  ensures I open_and_measure_executable (λ '(file, x),
    executable_like x
    ∧ ((∀ p, I p → cache_honest p) → executable_bytes file (am_content_digest x))).
Proof.
  intros Hset. unfold open_and_measure_executable.
  eapply ensures_bind; [apply ensures_call|]. intros file [n0 Hopen].
  eapply ensures_bind; [apply observe_shows|]. intros before Hbefore.
  assert (Ho : opened file) by by exists n0.
  assert (Hmiss : ensures I (measurement ← measure_open_executable file;
     after ← observe_metadata file;
     set_cache (mkContentCache after (am_content_digest measurement));;
     mret (file, measurement)) (λ '(file, x), executable_like x
       ∧ ((∀ p, I p → cache_honest p) → executable_bytes file (am_content_digest x)))).
  { eapply ensures_bind; [apply measure_like|]. intros x [Hx Hr].
    eapply ensures_bind; [apply observe_shows|]. intros after Hafter.
    intros p Hp. cbn. split; [|split; [done|]].
    - apply Hset; [done|]. intros entry [= <-]. by exists file.
    - intros _. split; [done|]. exists file. by auto. }
  eapply (ensures_bind _ _ (λ cache, ∀ entry, cache = Some entry → (∀ p, I p → cache_honest p) →
    ∃ source, opened source ∧ content_read source (ecc_content_digest entry)
              ∧ shows source (ecc_metadata entry))).
  { intros p Hp. split; [done|]. intros entry E Hh. by apply (Hh p). }
  intros [entry|] Hentry; [|done]. destruct (decide _) as [Hsame|]; [|done]. do 2 step_over.
  eapply ensures_bind; [apply link_label_text|]. intros label Ht.
  apply ensures_ret. split; [by apply executable_measurement_like|]. intros Hh. cbn. split; [done|].
  destruct (Hentry entry eq_refl Hh) as (source&Hs&Hr&Hm). exists source. split_and!; [done..|].
  right. exists before. by rewrite <- Hsame at 1.
Qed.
Lemma quiet_identity : quiet I observe_local_process_identity.
Proof. unfold observe_local_process_identity. cbv zeta. do 5 step_over. apply quiet_ret. Qed.
Lemma quiet_next : quiet I next_activation_occurrence.
Proof. intros p Hp. split; [by apply (stable p)|done]. Qed.
End observations.

Lemma open_like `{Sha256} `{OperatingSystem} :
  ensures (λ _, True) open_and_measure_executable (λ opened, executable_like opened.2).
Proof. eapply ensures_mono; [by apply open_measures|]. by intros [file x] []. Qed.
Lemma open_bytes `{Sha256} `{OperatingSystem} :
  ensures cache_honest open_and_measure_executable (λ '(file, x),
    executable_like x ∧ executable_bytes file (am_content_digest x)).
Proof. eapply ensures_mono; [by apply open_measures|]. intros [file x] []. by auto. Qed.

(* ------------------------------------------------------------------ *)
(** ** Verdicts: only an untouched verdict can be matched *)

(** States that decide against an activation. *)
Definition adverse (s : RuntimeBindingStateV1) : bool :=
  match s with BindingPending | QualifiedAndMatched => false | _ => true end.
Definition undecided (v : Verdict) : Prop := v = mkVerdict BindingPending [].
(** Either nothing was said, or the state is adverse. *)
Definition fair (v : Verdict) : Prop := undecided v ∨ adverse (vd_state v) = true.

Lemma decide_as_adverse s m v : adverse s = true → adverse (vd_state (decide_as s m v)) = true.
Proof. done. Qed.
Lemma decide_first_adverse s m v :
  adverse s = true → fair v → adverse (vd_state (decide_first s m v)) = true.
Proof. intros Hs [->|Hv]; [done|]. unfold decide_first. cbn. by destruct (decide _). Qed.
Lemma adverse_not_undecided v : adverse (vd_state v) = true → ¬ undecided v.
Proof. by intros Ha ->. Qed.
#[local] Hint Resolve decide_as_adverse decide_first_adverse : core.

(** One verdict_stage: it speaks against the activation, or it passes and its check
    holds. *)
Definition verdict_stage (ok : Prop) (v v' : Verdict) : Prop :=
  adverse (vd_state v') = true ∨ (v' = v ∧ ok).
Lemma stage_fair ok v v' : fair v → verdict_stage ok v v' → fair v'.
Proof. intros Hv [?|[-> _]]; [by right|done]. Qed.
Lemma stage_undecided ok v v' : verdict_stage ok v v' → undecided v' → undecided v ∧ ok.
Proof. intros [Ha|[-> Hok]] Hu; [by destruct (adverse_not_undecided v')|done]. Qed.
Lemma stage_adverse ok v v' : verdict_stage ok v v' → adverse (vd_state v) = true → adverse (vd_state v') = true.
Proof. by intros [?|[-> _]]. Qed.
Lemma stage_comp ok1 ok2 v v1 v2 :
  verdict_stage ok1 v v1 → verdict_stage ok2 v1 v2 → verdict_stage (ok1 ∧ ok2) v v2.
Proof.
  intros [H1|[-> H1]] H2; [left; by eapply stage_adverse|].
  destruct H2 as [?|[-> ?]]; [by left|by right].
Qed.
Lemma stage_mono (ok ok' : Prop) v v' : (ok → ok') → verdict_stage ok v v' → verdict_stage ok' v v'.
Proof. unfold verdict_stage. tauto. Qed.

Lemma decode_document_stage {A} (decode : string → result QualificationError A) on_invalid on_missing
    c1 c2 detail bytes v :
  (∀ m, adverse (vd_state (on_invalid m v)) = true) →
  (∀ m, adverse (vd_state (on_missing m v)) = true) →
  let d := decode_document decode on_invalid on_missing c1 c2 detail bytes v in
  verdict_stage (∃ b value, bytes = Some b ∧ decode b = Ok value ∧ d.1 = Some value) v d.2.
Proof.
  intros Hi Hm. unfold decode_document. destruct bytes as [b|]; cbn; [|by left].
  destruct (decode b) as [value|e] eqn:Hd; cbn; [right; by eauto 6|by left].
Qed.

Lemma role_mismatch_adverse role : adverse (mismatch_state role) = true.
Proof. by destruct role. Qed.

Lemma check_artifact_stage measurements v a :
  fair v →
  verdict_stage (∃ x, find (λ m, bool_decide (am_role m = ai_role a)) measurements = Some x
              ∧ measures a x = true) v (check_artifact measurements v a).
Proof.
  intros Hv. unfold check_artifact. destruct (find _ _) as [x|]; [|left; by apply decide_first_adverse].
  destruct (measures a x) eqn:Hm; [right; by eauto|].
  left. apply decide_first_adverse; [apply role_mismatch_adverse|done].
Qed.

Lemma check_artifacts_stage measurements artifacts v :
  fair v →
  verdict_stage (Forall (λ a, ∃ x, find (λ m, bool_decide (am_role m = ai_role a)) measurements = Some x
                           ∧ measures a x = true) artifacts)
    v (fold_left (check_artifact measurements) artifacts v).
Proof.
  revert v. induction artifacts as [|a rest IH]; intros v Hv; cbn [fold_left]; [by right|].
  pose proof (check_artifact_stage measurements v a Hv) as Ha.
  eapply stage_mono, stage_comp; [|exact Ha|by apply IH; eapply stage_fair].
  intros [??]. by constructor.
Qed.

Section gate.
Context `{Sha256} `{FactJson} `{PackageJson} `{OperatingSystem}.

Lemma check_package_stage m r c acceptance expected v :
  verdict_stage (verify_qualification_package m r c = Ok tt
         ∧ qc_certificate_digest c = la_accepted_certificate_digest acceptance
         ∧ cb_lifecycle_authority_id (qc_body c) = la_lifecycle_authority_id acceptance
         ∧ (∃ n, la_certificate_status acceptance = StatusAccepted n)
         ∧ mb_generation_set (mf_body m) = expected) v
    (check_package m r c acceptance expected v).
Proof.
  unfold check_package. cbv zeta.
  destruct (decide (mb_generation_set (mf_body m) = expected)) as [Hg|]; [|by left].
  destruct (la_certificate_status acceptance) as [n| | |]; try by left.
  destruct (bool_decide (qc_certificate_digest c = _)) eqn:Hd; cbn; [|by left].
  destruct (bool_decide (cb_lifecycle_authority_id _ = _)) eqn:Ha; cbn; [|by left].
  apply bool_decide_eq_true in Hd, Ha.
  destruct (verify_qualification_package m r c) as [[]|e]; [|by left]. right. by eauto 8.
Qed.

(** What the package says by itself. *)
Record package_agrees (manifest certificate report : option string)
    (acceptance : LocalActivationAcceptanceV1) (context : LocalActivationContextV1)
    (m : QualifiedArtifactManifestV1) (c : QualificationCertificateV1)
    (r : QualificationEvidenceReportV1) : Prop := {
  pa_manifest : ∃ bytes, manifest = Some bytes ∧ manifest_decode_canonical bytes = Ok m;
  pa_certificate : ∃ bytes, certificate = Some bytes
                     ∧ qualification_certificate_decode_canonical bytes = Ok c;
  pa_report : ∃ bytes, report = Some bytes ∧ report_decode_canonical bytes = Ok r;
  pa_verified : verify_qualification_package m r c = Ok tt;
  pa_accepted : qc_certificate_digest c = la_accepted_certificate_digest acceptance;
  pa_authority : cb_lifecycle_authority_id (qc_body c) = la_lifecycle_authority_id acceptance;
  pa_status : ∃ n, la_certificate_status acceptance = StatusAccepted n;
  pa_generations : mb_generation_set (mf_body m) = lc_expected_generation_set context;
}.

Lemma package_verdict_stage manifest certificate report acceptance context :
  let '(om, oc, orp, v) := package_verdict manifest certificate report acceptance context in
  verdict_stage (∃ m c r, om = Some m ∧ oc = Some c ∧ orp = Some r
           ∧ package_agrees manifest certificate report acceptance context m c r)
    (mkVerdict BindingPending []) v.
Proof.
  unfold package_verdict, decode_manifest, decode_certificate, decode_report.
  pose proof (decode_document_stage manifest_decode_canonical (decide_as ManifestMismatch)
    (decide_as ManifestMismatch) "manifest_invalid" "manifest_missing"
    "qualified artifact manifest is missing" manifest (mkVerdict BindingPending [])
    ltac:(done) ltac:(done)) as Hm. cbv zeta in Hm.
  destruct (decode_document _ _ _ _ _ _ manifest _) as [om v1]. cbn [fst snd] in Hm.
  assert (Hf1 : fair v1) by (eapply stage_fair; [by left|exact Hm]).
  pose proof (decode_document_stage qualification_certificate_decode_canonical
    (decide_first UnsupportedCertificate) (decide_first MissingCertificate) "certificate_invalid"
    "certificate_missing" "qualification certificate is missing" certificate v1
    ltac:(auto) ltac:(auto)) as Hc. cbv zeta in Hc.
  destruct (decode_document _ _ _ _ _ _ certificate _) as [oc v2]. cbn [fst snd] in Hc.
  assert (Hf2 : fair v2) by (eapply stage_fair; [exact Hf1|exact Hc]).
  pose proof (decode_document_stage report_decode_canonical
    (decide_first QualificationEvidenceMissing) (decide_first QualificationEvidenceMissing)
    "qualification_report_invalid" "qualification_report_missing"
    "checked qualification report is missing" report v2 ltac:(auto) ltac:(auto)) as Hr.
  cbv zeta in Hr. destruct (decode_document _ _ _ _ _ _ report _) as [orp v3]. cbn [fst snd] in Hr.
  pose proof (stage_comp _ _ _ _ _ (stage_comp _ _ _ _ _ Hm Hc) Hr) as Hdocs.
  destruct Hdocs as [Ha|[-> [[(mb&m&->&Hm1&->) (cb&c&->&Hc1&->)] (rb&r&->&Hr1&->)]]].
  - left. destruct om, orp, oc; try done. eapply stage_adverse; [apply check_package_stage|done].
  - eapply stage_mono; [|apply check_package_stage].
    intros (?&?&?&?&?). exists m, c, r. split_and!; try done. constructor; by eauto.
Qed.

(** The executable's part, where [E] is what is known of a measurement. *)
Definition opens (I : Process → Prop) (E : Z → ArtifactMeasurementV1 → Prop) : Prop :=
  ensures I open_and_measure_executable (λ '(file, x), executable_like x ∧ E file x).

Lemma measure_executable_stage I E semantic v `{!Stable I} :
  opens I E → fair v →
  ensures I (measure_executable semantic v) (λ '(guard, measurements, v'),
    verdict_stage (∃ x, measurements = sort_by_role am_role (semantic ++ [x]) ∧ executable_like x
                ∧ ∃ file metadata, guard = Some (mkGuard file x metadata) ∧ E file x) v v').
Proof.
  intros Ho Hv. unfold measure_executable.
  eapply ensures_bind; [apply ensures_try, Ho|]. intros [[file x]|e] Hx.
  - eapply ensures_bind; [apply quiet_observe|]. intros metadata _. apply ensures_ret.
    right. split; [done|]. destruct Hx. by eauto 9.
  - apply ensures_ret. left. by apply decide_first_adverse.
Qed.

Lemma final_state_matched process all_measured caller_supplied v :
  fair v → final_state process all_measured caller_supplied v = QualifiedAndMatched →
  undecided v ∧ is_Some process ∧ all_measured = true ∧ caller_supplied = false.
Proof.
  unfold final_state. intros Hv. destruct (decide _) as [Hp|Hp].
  - destruct Hv as [Hu|Ha]; [|by rewrite Hp in Ha]. destruct process; cbn; [|done].
    destruct all_measured, caller_supplied; cbn; by try (rewrite Hu).
  - intros Hm. destruct Hv as [->|Ha]; [done|]. by rewrite Hm in Ha.
Qed.

(* ------------------------------------------------------------------ *)
(** ** The outcome of an activation *)

Lemma elem_of_insert_by_role {A} (role : A → ArtifactRoleV1) x y xs :
  y ∈ insert_by_role role x xs ↔ y = x ∨ y ∈ xs.
Proof.
  induction xs as [|z rest IH]; cbn; [set_solver|].
  destruct (role_compare _ _); rewrite ?elem_of_cons, ?IH; set_solver.
Qed.
Lemma elem_of_sort_by_role {A} (role : A → ArtifactRoleV1) y xs : y ∈ sort_by_role role xs ↔ y ∈ xs.
Proof.
  induction xs as [|x rest IH]; cbn; [done|]. rewrite elem_of_insert_by_role, IH. set_solver.
Qed.

Lemma receipt_new_validates body receipt :
  receipt_new body = Ok receipt → activation_receipt_validate receipt = Ok tt ∧ arc_body receipt = body.
Proof.
  unfold receipt_new. intros Hn. inv_ok Hn. simplify_eq. split; [|done].
  unfold activation_receipt_validate. cbn [arc_schema_version arc_body arc_receipt_digest].
  rewrite Hok, Hok0. cbn. by rewrite bool_decide_eq_true_2.
Qed.

(** The executable sorts before everything the runtime owns. *)
Lemma role_compare_Lt a b : role_compare a b = Lt ↔ role_index a < role_index b.
Proof. apply Z.compare_lt_iff. Qed.
Lemma role_index_range r : 0 <= role_index r <= 9.
Proof. destruct r; cbn; lia. Qed.
Definition role_sorted : list ArtifactMeasurementV1 → bool :=
  sorted_by (fun a b => role_compare (am_role a) (am_role b)).
Lemma sort_with_executable semantic x :
  validate_measurements semantic true = Ok tt → am_role x = RunningExecutable →
  sort_by_role am_role (semantic ++ [x]) = x :: semantic ∧ role_sorted (x :: semantic) = true.
Proof.
  unfold validate_measurements. intros Hv Hx. inv_oks. split_and_bool.
  match goal with Hs : sorted_by _ semantic = true |- _ => rename Hs into Hsorted end.
  match goal with He : true && existsb _ semantic = false |- _ => cbn in He; rename He into Hno end.
  assert (Hge : ∀ s, s ∈ semantic → role_compare (am_role x) (am_role s) = Lt).
  { intros s Hs. rewrite Hx.
    assert (bool_decide (am_role s = RunningExecutable) = false).
    { rewrite <- not_true_iff_false. intros Hb. rewrite <- not_true_iff_false in Hno.
      apply Hno. apply existsb_exists. exists s. split; [by apply list_elem_of_In|done]. }
    by destruct (am_role s). }
  clear -Hx Hsorted Hge. revert Hsorted Hge. induction semantic as [|s rest IH]; intros Hs Hge; [done|].
  assert (Hrest : role_sorted rest = true).
  { unfold role_sorted. destruct rest; [done|]. cbn in Hs. by destruct (role_compare _ _). }
  destruct IH as [Hsort _]; [done|intros; apply Hge; set_solver|]. split.
  - change (insert_by_role am_role s (sort_by_role am_role (rest ++ [x])) = x :: s :: rest).
    rewrite Hsort. cbn. pose proof (Hge s ltac:(set_solver)) as Hlt. apply role_compare_Lt in Hlt.
    unfold role_compare. rewrite (proj2 (Z.compare_gt_iff _ _) Hlt). f_equal.
    destruct rest as [|t rest]; [done|]. cbn in Hs |- *. unfold role_compare in *.
    by destruct (role_index (am_role s) ?= role_index (am_role t)).
  - change (match role_compare (am_role x) (am_role s) with Lt => role_sorted (s :: rest)
            | _ => false end = true). rewrite Hge by set_solver. exact Hs.
Qed.

(** What stands behind an accepted activation. *)
Record activation_qualified (manifest certificate report : option string)
    (acceptance : LocalActivationAcceptanceV1) (context : LocalActivationContextV1)
    (receipt : ActivationReceiptV1) (v : VerifiedActivationV1) : Prop := {
  aq_package : ∃ m c r,
    package_agrees manifest certificate report acceptance context m c r
    ∧ qb_manifest_digest (va_binding v) = mf_manifest_digest m
    ∧ ∀ a, a ∈ mb_artifacts (mf_body m) → role_activation_required (ai_role a) = true →
        ∃ x, x ∈ va_measurements v ∧ am_role x = ai_role a ∧ measures a x = true;
  aq_certificate : qb_qualification_certificate_digest (va_binding v)
                   = la_accepted_certificate_digest acceptance;
  aq_generations : qb_generation_set (va_binding v) = lc_expected_generation_set context;
  aq_receipt : va_receipt v = receipt
               ∧ qb_activation_receipt_digest (va_binding v) = arc_receipt_digest receipt;
  aq_binding : binding_validate (va_binding v) = Ok tt;
  aq_measured : va_measurements v
                = eg_expected (va_executable v) :: lc_semantic_measurements context;
  aq_executable : executable_like (eg_expected (va_executable v));
  aq_process : ∃ process, rb_process (arc_body receipt) = Some process
                 ∧ qb_process_epoch_id (va_binding v) = lp_process_epoch_id process;
}.

Lemma required_artifact m a :
  manifest_validate m = Ok tt → a ∈ mb_artifacts (mf_body m) →
  role_activation_required (ai_role a) = true → a ∈ required_artifacts m.
Proof.
  intros Hm Ha Hr. apply manifest_inventory in Hm as [_ Hall].
  unfold required_artifacts. apply list_elem_of_In, List.filter_In. split; [by apply list_elem_of_In|].
  apply (proj1 (Forall_forall _ _) Hall) in Ha. unfold artifact_validate in Ha. inv_oks.
  match goal with E : Bool.eqb _ _ = true |- _ => apply eqb_prop in E; by rewrite E end.
Qed.

Lemma check_artifacts_fair om measurements v : fair v → fair (check_artifacts om measurements v).
Proof.
  intros Hv. unfold check_artifacts. destruct om; [|done].
  eapply stage_fair; [exact Hv|by apply check_artifacts_stage].
Qed.

(** The live activation of a matched verdict. *)
Lemma accept_ensures I manifest certificate report acceptance context m c r process guard receipt
    measurements :
  package_agrees manifest certificate report acceptance context m c r →
  activation_receipt_validate receipt = Ok tt →
  rb_process (arc_body receipt) = Some process →
  Forall (λ a, ∃ x, find (λ m, bool_decide (am_role m = ai_role a)) measurements = Some x
                    ∧ measures a x = true) (required_artifacts m) →
  executable_like (eg_expected guard) →
  measurements = eg_expected guard :: lc_semantic_measurements context →
  ensures I (accept_activation (Some m) (Some c) (Some process) (Some guard) receipt measurements)
    (λ v, activation_qualified manifest certificate report acceptance context receipt v
          ∧ va_executable v = guard).
Proof.
  intros Ha Hv Hproc Hreq Hx Hms. unfold accept_activation.
  do 4 apply ensures_expect. cbv zeta.
  eapply ensures_bind; [apply ensures_lift, (λ a E, E)|]. cbv beta. intros [] Hb.
  apply ensures_ret. split; [|done]. constructor; cbn; try done.
  - exists m, c, r. split_and!; [done..|]. intros a Hin Hrole.
    assert (Hm : manifest_validate m = Ok tt).
    { pose proof (pa_verified _ _ _ _ _ _ _ _ Ha) as Hpv.
      unfold verify_qualification_package, verify_manifest_report in Hpv. by inv_oks. }
    pose proof (required_artifact m a Hm Hin Hrole) as Hreq'.
    apply (proj1 (Forall_forall _ _) Hreq) in Hreq' as (x&Hf&Hmx). apply find_some in Hf as [Hf Hr].
    exists x. split_and!; [by apply list_elem_of_In|by apply bool_decide_eq_true in Hr|done].
  - apply Ha.
  - apply Ha.
  - by eauto.
Qed.

Lemma verify_ensures I E manifest certificate report acceptance context `{!Stable I} :
  opens I E →
  ensures I (verify_local_activation manifest certificate report acceptance context) (λ attempt,
    activation_receipt_validate (lat_receipt attempt) = Ok tt
    ∧ match lat_accepted attempt with
      | Some v => rb_state (arc_body (lat_receipt attempt)) = QualifiedAndMatched
                  ∧ activation_qualified manifest certificate report acceptance context
                      (lat_receipt attempt) v
                  ∧ E (eg_file (va_executable v)) (eg_expected (va_executable v))
      | None => rb_state (arc_body (lat_receipt attempt)) ≠ QualifiedAndMatched
      end).
Proof.
  intros Hopens. unfold verify_local_activation.
  eapply ensures_bind; [apply ensures_lift, (λ a H, H)|]. cbv beta. intros [] Hargs.
  apply ensures_over; [apply quiet_next|intros sequence].
  eapply ensures_bind; [apply ensures_try, quiet_identity|intros observed _]. cbv zeta.
  set (process := match observed with Ok p => Some p | Err _ => None end). clearbody process.
  pose proof (package_verdict_stage manifest certificate report acceptance context) as Hp.
  destruct (package_verdict _ _ _ _ _) as [[[om oc] orp] v0].
  assert (Hf0 : fair v0) by (eapply stage_fair; [by left|exact Hp]).
  eapply ensures_bind; [by apply (measure_executable_stage I E)|].
  intros [[guard measurements] v1] Hx. set (v2 := check_artifacts om measurements v1).
  set (state := final_state _ _ _ _).
  eapply ensures_bind; [apply ensures_lift, (λ a H, H)|]. cbv beta. intros receipt Hr.
  apply receipt_new_validates in Hr as [Hv Hb].
  assert (Hs : rb_state (arc_body receipt) = state) by by rewrite Hb.
  destruct (decide _) as [Hm|Hm]; [|apply ensures_ret; cbn; by rewrite Hs].
  assert (Hf1 : fair v1) by (eapply stage_fair; [exact Hf0|exact Hx]). rewrite Hm in Hs.
  apply final_state_matched in Hm as (Hu&[proc Hproc]&_&_); [|by apply check_artifacts_fair].
  destruct om as [m|]; cbn in v2.
  2: { eapply stage_undecided in Hx as [Hu0 _]; [|exact Hu].
       eapply stage_undecided in Hp as [_ (?&?&?&?&_)]; done. }
  eapply stage_undecided in Hu as [Hu Hreq]; [|by apply check_artifacts_stage].
  eapply stage_undecided in Hx as [Hu0 (x&Hms&Hlike&file&metadata&->&HE)]; [|exact Hu].
  eapply stage_undecided in Hp as [_ (m'&c&r&[= <-]&->&->&Hagree)]; [|exact Hu0].
  subst process. eapply ensures_bind.
  { eapply (accept_ensures I _ _ _ _ _ m c r proc (mkGuard file x metadata));
      [exact Hagree|exact Hv|by rewrite Hb|exact Hreq|exact Hlike|].
    rewrite Hms. unfold activation_arguments_validate in Hargs. inv_oks.
    apply sort_with_executable; [done|apply Hlike]. }
  cbv beta. intros v [Hq Hg]. apply ensures_ret. cbn. by rewrite Hg.
Qed.
Lemma verify_honest manifest certificate report acceptance context :
  ensures cache_honest (verify_local_activation manifest certificate report acceptance context)
    (λ attempt, ∀ v, lat_accepted attempt = Some v →
       activation_qualified manifest certificate report acceptance context (lat_receipt attempt) v
       ∧ executable_bytes (eg_file (va_executable v))
           (am_content_digest (eg_expected (va_executable v)))).
Proof.
  eapply ensures_mono.
  { exact (verify_ensures cache_honest (λ file x, executable_bytes file (am_content_digest x))
             manifest certificate report acceptance context open_bytes). }
  cbv beta. intros attempt Ha v Hv. destruct Ha as [_ Ha]. rewrite Hv in Ha. by destruct Ha as (_&?&?).
Qed.

(** The states of the process: every public operation that asks the
    operating system, from the start. *)
Inductive process_run : Process → Prop :=
| run_start : process_run process_start
| run_activation p manifest certificate report acceptance context :
    process_run p →
    process_run (verify_local_activation manifest certificate report acceptance context p).1
| run_observation p : process_run p → process_run (observe_running_executable p).1
| run_identity p : process_run p → process_run (observe_local_process_identity p).1
| run_revalidation p v : process_run p → process_run (revalidate_executable v p).1.

Lemma quiet_revalidate I v `{!Stable I} : quiet I (revalidate_executable v).
Proof.
  unfold revalidate_executable. cbv zeta. apply ensures_over; [apply quiet_observe|intros metadata].
  destruct (decide _); [apply quiet_ret|].
  apply ensures_over; [eapply ensures_quiet, measure_like|intros observed].
  step_over. apply quiet_ret.
Qed.
Lemma run_honest p : process_run p → cache_honest p.
Proof.
  induction 1 as [|p ????? _ IH|p _ IH|p _ IH|p v _ IH]; [done|..].
  - by apply (ensures_keeps _ _ p (verify_honest _ _ _ _ _)).
  - refine (ensures_keeps _ _ p (_ : quiet cache_honest observe_running_executable) IH).
    unfold observe_running_executable.
    apply ensures_over; [eapply ensures_quiet, open_bytes|intros opened; apply quiet_ret].
  - by apply (ensures_keeps _ _ p quiet_identity).
  - by apply (ensures_keeps _ _ p (quiet_revalidate cache_honest v)).
Qed.

(** C17. An accepted activation, in a process that got where it is by the
    module's own operations, is a qualified one: the three documents decode
    canonically and verify as a package, the local acceptance names the
    certificate and its authority and knows of no supersession or revocation,
    the manifest is for the expected generations, and the binding that is
    issued is valid and names this package and this receipt.  The running
    executable was measured by the gate: its digest is the hash of what was
    read to the end from an opened [/proc/self/exe], either this handle or one
    that showed the same metadata.  For every artifact an activation requires
    there is a measurement with exactly the manifest's digest and length that
    is not flagged as caller-supplied; those of the other roles are the
    entries of the activation context that was passed in. *)
Theorem matched_activation_sound manifest certificate report acceptance context p p' receipt v :
  process_run p →
  verify_local_activation manifest certificate report acceptance context p
  = (p', Ok (mkAttempt receipt (Some v))) →
  activation_qualified manifest certificate report acceptance context receipt v
  ∧ executable_bytes (eg_file (va_executable v)) (am_content_digest (eg_expected (va_executable v))).
Proof.
  intros Hp Hv. apply run_honest in Hp.
  exact (ensures_Ok _ _ _ _ _ (verify_honest _ _ _ _ _) Hp Hv v eq_refl).
Qed.

(** Whatever the package, the policy and the operating system, an
    activation does not panic: it refuses its arguments, or returns a receipt
    that validates and whose state is matched exactly if there is a live
    activation. *)
Theorem activation_outcome manifest certificate report acceptance context p :
  match (verify_local_activation manifest certificate report acceptance context p).2 with
  | Ok attempt =>
      activation_receipt_validate (lat_receipt attempt) = Ok tt
      ∧ (is_Some (lat_accepted attempt)
         ↔ rb_state (arc_body (lat_receipt attempt)) = QualifiedAndMatched)
  | Err (Refused _) => True
  | Err (ExpectFailed _) => False
  end.
Proof.
  pose proof (verify_ensures (λ _, True) (λ _ _, True) manifest certificate report acceptance context
    ltac:(eapply ensures_mono; [apply open_like|by intros []]) p I) as Hv.
  destruct (verify_local_activation _ _ _ _ _ p) as [p' [attempt|[]]]; [|done..].
  destruct Hv as (_&Hr&Ha). split; [done|]. destruct (lat_accepted attempt); [|by split; [intros []|]].
  by destruct Ha as [-> _].
Qed.

(* ------------------------------------------------------------------ *)
(** ** Completeness of the gate *)

Lemma package_verdict_agrees manifest certificate report acceptance context m c r :
  package_agrees manifest certificate report acceptance context m c r →
  package_verdict manifest certificate report acceptance context
  = (Some m, Some c, Some r, mkVerdict BindingPending []).
Proof.
  intros [(mb&->&Hm) (cb&->&Hc) (rb&->&Hr) Hv Ha Hl [n Hs] Hg].
  unfold package_verdict, decode_manifest, decode_certificate, decode_report, decode_document.
  rewrite Hm, Hc, Hr. unfold check_package. rewrite Hv, Hs, Ha, Hl. cbv zeta.
  rewrite !bool_decide_eq_true_2 by done. cbn. by rewrite decide_True.
Qed.

(** With one measurement per role, what measures an artifact is what is found
    for its role. *)
Lemma role_sorted_cons x xs :
  role_sorted (x :: xs) = true →
  role_sorted xs = true ∧ ∀ y, y ∈ xs → role_index (am_role x) < role_index (am_role y).
Proof.
  revert x. induction xs as [|z rest IH]; intros x Hs; [split; [done|set_solver]|].
  change (match role_compare (am_role x) (am_role z) with
          | Lt => role_sorted (z :: rest) | _ => false end = true) in Hs.
  destruct (role_compare (am_role x) (am_role z)) eqn:E; try done. apply (proj1 (role_compare_Lt _ _)) in E.
  split; [done|]. destruct (IH z Hs) as [_ Hz]. intros y [->|Hy]%elem_of_cons; [done|].
  apply Hz in Hy. lia.
Qed.
Lemma find_by_role measurements a x :
  role_sorted measurements = true → x ∈ measurements → am_role x = ai_role a →
  find (λ m, bool_decide (am_role m = ai_role a)) measurements = Some x.
Proof.
  induction measurements as [|y rest IH]; intros Hs Hx Hr; [set_solver|].
  apply role_sorted_cons in Hs as [Hs Hlt]. cbn. apply elem_of_cons in Hx as [->|Hx].
  - by rewrite bool_decide_eq_true_2.
  - rewrite bool_decide_eq_false_2; [by apply IH|]. intros Hy. apply Hlt in Hx.
    rewrite Hy, Hr in Hx. lia.
Qed.

(** Ten roles leave no room for more than ten measurements. *)
Lemma role_sorted_length xs n :
  role_sorted xs = true → (∀ y, y ∈ xs → n <= role_index (am_role y)) → n <= 10 →
  Z.of_nat (length xs) <= 10 - n.
Proof.
  revert n. induction xs as [|x rest IH]; intros n Hs Hn Hle; cbn [length]; [lia|].
  apply role_sorted_cons in Hs as [Hs Hlt].
  pose proof (Hn x ltac:(set_solver)). pose proof (role_index_range (am_role x)).
  assert (Z.of_nat (length rest) <= 10 - (role_index (am_role x) + 1)).
  { apply IH; [done| |lia]. intros y Hy. apply Hlt in Hy. lia. }
  lia.
Qed.

(** What measures a valid artifact is a valid measurement of an executable. *)
Lemma executable_valid a x :
  artifact_validate a = Ok tt → measures a x = true → executable_like x →
  measurement_validate x = Ok tt.
Proof.
  unfold artifact_validate, measures. intros Ha Hm (Hr&_&label&device&inode&Hp&Ht). inv_oks.
  split_and_bool.
  match goal with E : bool_decide (_ = _) = true |- _ => apply bool_decide_eq_true in E; rename E into Ed end.
  match goal with E : (am_byte_length x =? _) = true |- _ => apply Z.eqb_eq in E; rename E into El end.
  unfold measurement_validate. rewrite Hp, Ed, El.
  match goal with E : qualified_digest _ = Ok tt |- _ => rewrite E end. cbn.
  match goal with E : (ai_byte_length a =? 0) = false |- _ => rewrite E end. cbn.
  rewrite Ht. cbn. by rewrite bool_decide_eq_true_2.
Qed.
Lemma identity_valid :
  ensures (λ _, True) observe_local_process_identity (λ process, process_validate process = Ok tt).
Proof.
  unfold observe_local_process_identity. cbv zeta. do 4 step_over.
  eapply ensures_bind; [apply ensures_lift, (λ a E, E)|]. cbv beta. intros [] Hv.
  by apply ensures_ret.
Qed.

(** The receipt of a matched activation. *)
Definition matched_receipt (m : QualifiedArtifactManifestV1) (c : QualificationCertificateV1)
    (r : QualificationEvidenceReportV1) (process : LocalProcessIdentityV1) (sequence : Z)
    (context : LocalActivationContextV1) (x : ArtifactMeasurementV1) : ActivationReceiptBodyV1 :=
  receipt_body (Some m) (Some c) (Some r) (Some process) sequence context
    (x :: lc_semantic_measurements context) true false QualifiedAndMatched [].

(** Every artifact an activation requires is among these measurements. *)
Definition all_measured_by (m : QualifiedArtifactManifestV1) (xs : list ArtifactMeasurementV1)
  : Prop :=
  ∀ a, a ∈ mb_artifacts (mf_body m) → role_activation_required (ai_role a) = true →
    ∃ x, x ∈ xs ∧ am_role x = ai_role a ∧ measures a x = true.

Lemma required_measured m xs :
  manifest_validate m = Ok tt → all_measured_by m xs → role_sorted xs = true →
  Forall (λ a, ∃ x, x ∈ xs ∧ find (λ m, bool_decide (am_role m = ai_role a)) xs = Some x
                    ∧ am_role x = ai_role a ∧ measures a x = true) (required_artifacts m).
Proof.
  intros Hm Hall Hs. apply Forall_forall. intros a Ha. apply list_elem_of_In, List.filter_In in Ha as [Ha Hr].
  apply list_elem_of_In in Ha. apply manifest_inventory in Hm as [_ Hv].
  destruct (Hall a Ha) as (x&Hx&Hrole&Hmx); [|by eauto 7 using find_by_role].
  apply (proj1 (Forall_forall _ _) Hv) in Ha. unfold artifact_validate in Ha. inv_oks.
  match goal with E : Bool.eqb _ _ = true |- _ => apply eqb_prop in E; by rewrite <- E end.
Qed.

Lemma check_artifacts_pass m xs v :
  manifest_validate m = Ok tt → all_measured_by m xs → role_sorted xs = true →
  check_artifacts (Some m) xs v = v ∧ all_required_measured (Some m) xs = true.
Proof.
  intros Hm Hall Hs. pose proof (required_measured m xs Hm Hall Hs) as Hf. cbn.
  induction Hf as [|a rest (x&Hx&Hfind&Hr&Hmx) _ [IH1 IH2]]; [done|]. cbn. rewrite IH2.
  unfold check_artifact at 2. rewrite Hfind, Hmx, IH1. split; [done|].
  rewrite andb_true_r. apply existsb_exists. exists x.
  rewrite bool_decide_eq_true_2 by done. by rewrite list_elem_of_In in Hx.
Qed.

(** A sequence of checks succeeds if each of them does. *)
Ltac each_ok tac :=
  lazymatch goal with
  | |- (_ ≫= _) = Ok _ => apply bind_Ok; exists tt; split; [tac|each_ok tac]
  | |- _ => tac
  end.

(** A package that agrees carries valid digests. *)
Lemma package_digests manifest certificate report acceptance context m c r :
  package_agrees manifest certificate report acceptance context m c r →
  acceptance_policy_validate acceptance = Ok tt →
  manifest_validate m = Ok tt ∧ generation_set_validate (mb_generation_set (mf_body m)) = Ok tt
  ∧ qualified_digest (mf_manifest_digest m) = Ok tt
  ∧ qualified_digest (qc_certificate_digest c) = Ok tt
  ∧ qualified_digest (er_report_digest r) = Ok tt.
Proof.
  intros [_ _ _ Hv -> _ _ _] Ha. unfold verify_qualification_package, verify_manifest_report in Hv.
  unfold acceptance_policy_validate in Ha. inv_oks. split_and_bool.
  repeat match goal with E : bool_decide _ = true |- _ => apply bool_decide_eq_true in E end.
  match goal with E : manifest_validate m = Ok tt |- _ => pose proof E as Hm end.
  split; [done|].
  unfold manifest_validate, report_validate, qualification_certificate_validate,
    manifest_body_validate, evidence_body_validate, certificate_body_validate in *.
  inv_oks. split_and!; [done| |done|].
  - match goal with E : eb_manifest_digest (er_body r) = mf_manifest_digest m |- _ => by rewrite <- E end.
  - match goal with E : cb_qualification_report_digest (qc_body c) = er_report_digest r |- _ =>
      by rewrite <- E end.
Qed.

Lemma matched_receipt_valid manifest certificate report acceptance context m c r process sequence x :
  activation_arguments_validate acceptance context = Ok tt →
  package_agrees manifest certificate report acceptance context m c r →
  process_validate process = Ok tt → sequence ≠ 0 → executable_like x →
  all_measured_by m (x :: lc_semantic_measurements context) →
  receipt_body_validate (matched_receipt m c r process sequence context x) = Ok tt.
Proof.
  intros Hargs Hp Hproc Hseq Hx Hall. unfold activation_arguments_validate in Hargs. inv_oks.
  destruct (package_digests _ _ _ _ _ _ _ _ Hp ltac:(done)) as (Hm&Hg&Hd1&Hd2&Hd3).
  match goal with E : validate_measurements _ true = Ok tt |- _ => rename E into Hsem end.
  destruct (sort_with_executable _ x Hsem ltac:(apply Hx)) as [_ Hsorted].
  assert (Hvx : measurement_validate x = Ok tt).
  { pose proof (manifest_inventory m Hm) as [Hroles Hval].
    assert (Hin : RunningExecutable ∈ ai_role <$> mb_artifacts (mf_body m)) by (rewrite Hroles; set_solver).
    apply list_elem_of_fmap in Hin as (a&Hra&Ha).
    destruct (Hall a Ha) as (y&Hy&Hry&Hmy); [by rewrite <- Hra|].
    assert (y = x) as ->.
    { apply role_sorted_cons in Hsorted as [_ Hlt]. apply elem_of_cons in Hy as [->|Hy]; [done|].
      apply Hlt in Hy. rewrite Hry, <- Hra, (proj1 Hx) in Hy. lia. }
    apply (executable_valid a); [by apply (proj1 (Forall_forall _ _) Hval)|done..]. }
  assert (Hms : validate_measurements (x :: lc_semantic_measurements context) false = Ok tt).
  { unfold validate_measurements in *. inv_oks. fold (role_sorted (x :: lc_semantic_measurements context)).
    rewrite Hsorted.
    assert (Hlen : (MAX_QUALIFICATION_ARTIFACTS <? Z.of_nat (length (x :: lc_semantic_measurements context))) = false).
    { apply Z.ltb_ge. pose proof (role_sorted_length _ 0 Hsorted
        (λ y _, proj1 (role_index_range (am_role y))) ltac:(lia)).
      unfold MAX_QUALIFICATION_ARTIFACTS. lia. }
    rewrite Hlen. cbn. by rewrite Hvx. }
  assert (Hid : qualified_identity "IncarnationId" (activation_occurrence_id (Some process) sequence) = Ok tt).
  { unfold qualified_identity, activation_occurrence_id. cbv zeta.
    rewrite (proj2 (validate_identity_Ok _ _)); [done|]. by apply prefixed_digest_valid. }
  unfold receipt_body_validate. each_ok ltac:(try done). by apply ensure_Ok, negb_true_iff, Z.eqb_neq.
Qed.

(** Running a computation whose first step is known. *)
Lemma sys_step {A B} (c : sys A) (k : A → sys B) p p' a : c p = (p', Ok a) → (c ≫= k) p = k a p'.
Proof. unfold mbind, sys_bind. by intros ->. Qed.
Lemma lift_step {A} (res : result QualificationError A) a p : res = Ok a → sys_lift res p = (p, Ok a).
Proof. by intros ->. Qed.
Lemma try_step {A} (c : sys A) p p' a : c p = (p', Ok a) → sys_try c p = (p', Ok (Ok a)).
Proof. unfold sys_try. by intros ->. Qed.

Lemma measure_executable_runs semantic v p p' p'' file x metadata :
  open_and_measure_executable p = (p', Ok (file, x)) → observe_metadata file p' = (p'', Ok metadata) →
  measure_executable semantic v p
  = (p'', Ok (Some (mkGuard file x metadata), sort_by_role am_role (semantic ++ [x]), v)).
Proof.
  intros Ho Hm. unfold measure_executable, mbind, sys_bind, sys_try. by rewrite Ho, Hm.
Qed.

(** The binding of a matched activation validates exactly if the receipt's
    digest does. *)
Lemma matched_binding_checks m c process occurrence digest :
  generation_set_validate (mb_generation_set (mf_body m)) = Ok tt →
  qualified_digest (mf_manifest_digest m) = Ok tt → qualified_digest (qc_certificate_digest c) = Ok tt →
  qualified_identity "IncarnationId" occurrence = Ok tt → process_validate process = Ok tt →
  binding_validate
    (mkBinding SCHEMA_VERSION_V1 (mf_manifest_digest m) (qc_certificate_digest c) digest occurrence
       (lp_process_epoch_id process) (mb_generation_set (mf_body m)) grants_none)
  = qualified_digest digest.
Proof.
  intros Hg H3 H4 H6 Hp. unfold process_validate in Hp. inv_oks.
  unfold binding_validate. cbn [for_each qb_manifest_digest qb_qualification_certificate_digest
    qb_activation_receipt_digest qb_activation_occurrence_id qb_process_epoch_id qb_generation_set].
  rewrite H3, H4. destruct (qualified_digest digest) as [[]|error]; [|done]. each_ok ltac:(try done).
Qed.

(** C18. The gate opens.  Suppose the arguments of the activation validate, the
    package agrees with the policy and the expected generations, the
    occurrence counter has not wrapped to zero, the process can identify
    itself, its executable can be opened, measured and inspected, every
    required artifact is measured as the manifest lists it, and no semantic
    measurement of the context is flagged as caller-supplied.  Then the
    activation is accepted with the matched receipt, unless that receipt's
    body exceeds the package bound or its hash is refused as a digest (it is
    all zero), and each of these is the error returned. *)
Theorem qualified_package_activates manifest certificate report acceptance context m c r
    p p1 p2 p3 process file x metadata :
  activation_arguments_validate acceptance context = Ok tt →
  package_agrees manifest certificate report acceptance context m c r →
  let sequence := ps_next_activation_occurrence p in
  sequence ≠ 0 →
  observe_local_process_identity (next_activation_occurrence p).1 = (p1, Ok process) →
  open_and_measure_executable p1 = (p2, Ok (file, x)) →
  observe_metadata file p2 = (p3, Ok metadata) →
  all_measured_by m (x :: lc_semantic_measurements context) →
  Forall (λ y, am_caller_supplied y = false) (lc_semantic_measurements context) →
  let body := matched_receipt m c r process sequence context x in
  let digest := digest_parts "qualified.activation-receipt.body.v1" [receipt_body_json body] in
  let outcome := verify_local_activation manifest certificate report acceptance context p in
  if MAX_QUALIFICATION_PACKAGE_BYTES <? slen (receipt_body_json body) then
    outcome = (p3, Err (Refused (mkQualificationError "bound_exceeded"
                                   "canonical object exceeds the package byte bound")))
  else match qualified_digest digest with
       | Err error => outcome = (p3, Err (Refused error))
       | Ok _ =>
           ∃ v, outcome
                = (p3, Ok (mkAttempt (mkActivationReceipt SCHEMA_VERSION_V1 digest body) (Some v)))
       end.
Proof.
  intros Hargs Hp sequence Hseq Hid Hopen Hmeta Hall Hown body digest outcome.
  pose proof (ensures_Ok _ _ _ _ _ open_like I Hopen) as Hlike. cbn in Hlike.
  pose proof (ensures_Ok _ _ _ _ _ identity_valid I Hid) as Hproc. cbn in Hproc.
  pose proof (matched_receipt_valid _ _ _ _ _ _ _ _ _ _ _ Hargs Hp Hproc Hseq Hlike Hall) as Hrv.
  pose proof Hargs as Hargs'. unfold activation_arguments_validate in Hargs'. inv_oks.
  match goal with E : validate_measurements _ true = Ok tt |- _ => rename E into Hsem end.
  destruct (package_digests _ _ _ _ _ _ _ _ Hp ltac:(done)) as (Hm&Hg&Hd1&Hd2&_).
  destruct (sort_with_executable _ x Hsem ltac:(apply Hlike)) as [Hsort Hsorted].
  destruct (check_artifacts_pass m _ (mkVerdict BindingPending []) Hm Hall Hsorted) as [Hca Hall'].
  assert (Hcs : existsb am_caller_supplied (x :: lc_semantic_measurements context) = false).
  { apply not_true_iff_false. rewrite existsb_exists. intros (y&Hy&Hcall). apply list_elem_of_In in Hy.
    apply elem_of_cons in Hy as [->|Hy]; [by rewrite (proj1 (proj2 Hlike)) in Hcall|].
    by rewrite (proj1 (Forall_forall _ _) Hown y Hy) in Hcall. }
  assert (Hrun : outcome = ((receipt ← sys_lift (receipt_new body);
     accepted ← accept_activation (Some m) (Some c) (Some process) (Some (mkGuard file x metadata))
       receipt (x :: lc_semantic_measurements context);
     mret (mkAttempt receipt (Some accepted))) : sys _) p3).
  { unfold outcome, verify_local_activation.
    rewrite (sys_step _ _ _ _ _ (lift_step _ _ _ Hargs)).
    rewrite (sys_step next_activation_occurrence _ p (next_activation_occurrence p).1 sequence eq_refl).
    rewrite (sys_step _ _ _ _ _ (try_step _ _ _ _ Hid)). cbv zeta.
    rewrite (package_verdict_agrees _ _ _ _ _ _ _ _ Hp).
    rewrite (sys_step _ _ _ _ _ (measure_executable_runs _ _ _ _ _ _ _ _ Hopen Hmeta)).
    rewrite Hsort, Hca, Hall', Hcs. change (final_state _ _ _ _) with QualifiedAndMatched.
    reflexivity. }
  rewrite Hrun. clear Hrun outcome. fold body in Hrv.
  unfold receipt_new, body_digest, canonical_encode. rewrite Hrv. cbn [mbind result_bind].
  destruct (_ <? _); [done|]. fold digest.
  unfold accept_activation, sys_expect, mbind, sys_bind, sys_lift. cbn [map_err result_bind].
  match goal with |- context [binding_validate ?b] =>
    assert (Hb : binding_validate b = qualified_digest digest) end.
  { apply matched_binding_checks; try done. unfold receipt_body_validate in Hrv. by inv_oks. }
  rewrite Hb. destruct (qualified_digest digest) as [[]|error]; [by eexists|done].
Qed.
End gate.

(* ------------------------------------------------------------------ *)
(** ** On the sample package *)

Definition is_accepted (r : result ActivationFailure LocalActivationAttemptV1) : bool :=
  match r with Ok attempt => has_value (lat_accepted attempt) | Err _ => false end.
Lemma accepted_at (c : sys LocalActivationAttemptV1) p :
  is_accepted (c p).2 = true → ∃ p' receipt v, c p = (p', Ok (mkAttempt receipt (Some v))).
Proof. destruct (c p) as [p' [[receipt [v|]]|f]]; cbn; [eauto|done..]. Qed.
Lemma returned_at {A} (c : sys A) p : is_ok (c p).2 = true → ∃ p' a, c p = (p', Ok a).
Proof. destruct (c p) as [p' [a|f]]; cbn; [eauto|done]. Qed.

Lemma matched_activation_sound_witness :
  ∃ p' receipt v, sample_activation process_start = (p', Ok (mkAttempt receipt (Some v)))
    ∧ activation_qualified sample_manifest_bytes sample_certificate_bytes sample_report_bytes
        sample_acceptance sample_activation_context receipt v
    ∧ executable_bytes (eg_file (va_executable v))
        (am_content_digest (eg_expected (va_executable v))).
Proof.
  destruct (accepted_at sample_activation process_start) as (p'&receipt&v&Hv).
  { vm_compute. reflexivity. }
  exists p', receipt, v. split; [exact Hv|]. unfold sample_activation in Hv.
  exact (matched_activation_sound sample_manifest_bytes sample_certificate_bytes sample_report_bytes
           sample_acceptance sample_activation_context process_start p' receipt v
           run_start Hv).
Defined.

Lemma all_measured_by_bool m xs :
  forallb (fun a => negb (role_activation_required (ai_role a))
             || existsb (fun x => bool_decide (am_role x = ai_role a) && measures a x) xs)
    (mb_artifacts (mf_body m)) = true → all_measured_by m xs.
Proof.
  intros Hb a Ha Hr. rewrite forallb_Forall, Forall_forall in Hb. apply Hb in Ha.
  rewrite Hr in Ha. cbn in Ha. apply existsb_exists in Ha as (x&Hx&Hm). split_and_bool.
  exists x. split_and!; [by apply list_elem_of_In|by eapply bool_decide_eq_true|done].
Qed.

(** The premises of an activation, as a computation. *)
Section premises.
Context `{Sha256} `{FactJson} `{PackageJson} `{OperatingSystem}.

Definition gate_observed (p : Process)
  : option (Process * LocalProcessIdentityV1 * Process * Z * ArtifactMeasurementV1 * Process
            * ExecutableMetadataSnapshot) :=
  match observe_local_process_identity (next_activation_occurrence p).1 with
  | (p1, Ok process) =>
      match open_and_measure_executable p1 with
      | (p2, Ok (file, x)) =>
          match observe_metadata file p2 with
          | (p3, Ok metadata) => Some (p1, process, p2, file, x, p3, metadata)
          | _ => None
          end
      | _ => None
      end
  | _ => None
  end.
Lemma gate_observed_Some p p1 process p2 file x p3 metadata :
  gate_observed p = Some (p1, process, p2, file, x, p3, metadata) →
  observe_local_process_identity (next_activation_occurrence p).1 = (p1, Ok process)
  ∧ open_and_measure_executable p1 = (p2, Ok (file, x))
  ∧ observe_metadata file p2 = (p3, Ok metadata).
Proof.
  unfold gate_observed. destruct (observe_local_process_identity _) as [? [?|]]; [|done].
  destruct (open_and_measure_executable _) as [? [[? ?]|]] eqn:?; [|done].
  destruct (observe_metadata _ _) as [? [?|]] eqn:?; [|done]. intros. by simplify_eq.
Qed.

Definition documents (manifest certificate report : option string)
  : option (QualifiedArtifactManifestV1 * QualificationCertificateV1
            * QualificationEvidenceReportV1) :=
  mb ← manifest; cb ← certificate; rb ← report;
  match manifest_decode_canonical mb, qualification_certificate_decode_canonical cb,
        report_decode_canonical rb with
  | Ok m, Ok c, Ok r => Some (m, c, r)
  | _, _, _ => None
  end.
Lemma documents_Some manifest certificate report m c r :
  documents manifest certificate report = Some (m, c, r) →
  (∃ bytes, manifest = Some bytes ∧ manifest_decode_canonical bytes = Ok m)
  ∧ (∃ bytes, certificate = Some bytes ∧ qualification_certificate_decode_canonical bytes = Ok c)
  ∧ (∃ bytes, report = Some bytes ∧ report_decode_canonical bytes = Ok r).
Proof.
  unfold documents. destruct manifest, certificate, report; cbn; try done.
  destruct (manifest_decode_canonical _) eqn:?; [|done].
  destruct (qualification_certificate_decode_canonical _) eqn:?; [|done].
  destruct (report_decode_canonical _) eqn:?; [|done]. intros [= -> -> ->]. split_and!; eauto.
Qed.

Definition package_agrees_b (acceptance : LocalActivationAcceptanceV1)
    (context : LocalActivationContextV1) (m : QualifiedArtifactManifestV1)
    (c : QualificationCertificateV1) (r : QualificationEvidenceReportV1) : bool :=
  is_ok (verify_qualification_package m r c)
  && bool_decide (qc_certificate_digest c = la_accepted_certificate_digest acceptance)
  && bool_decide (cb_lifecycle_authority_id (qc_body c) = la_lifecycle_authority_id acceptance)
  && match la_certificate_status acceptance with StatusAccepted _ => true | _ => false end
  && bool_decide (mb_generation_set (mf_body m) = lc_expected_generation_set context).
Lemma package_agrees_true manifest certificate report acceptance context m c r :
  documents manifest certificate report = Some (m, c, r) →
  package_agrees_b acceptance context m c r = true →
  package_agrees manifest certificate report acceptance context m c r.
Proof.
  intros (?&?&?)%documents_Some Hb. unfold package_agrees_b in Hb. split_and_bool.
  constructor; try done; try (by eapply bool_decide_eq_true).
  - by apply is_ok_unit.
  - destruct (la_certificate_status acceptance); [eauto|done..].
Qed.

Definition measured_b (m : QualifiedArtifactManifestV1) (xs : list ArtifactMeasurementV1) : bool :=
  forallb (fun a => negb (role_activation_required (ai_role a))
             || existsb (fun y => bool_decide (am_role y = ai_role a) && measures a y) xs)
    (mb_artifacts (mf_body m)).

Definition gate_premises (manifest certificate report : option string)
    (acceptance : LocalActivationAcceptanceV1) (context : LocalActivationContextV1) (p : Process)
  : option (QualifiedArtifactManifestV1 * QualificationCertificateV1
            * QualificationEvidenceReportV1 * Process * LocalProcessIdentityV1 * Process * Z
            * ArtifactMeasurementV1 * Process * ExecutableMetadataSnapshot) :=
  match documents manifest certificate report, gate_observed p with
  | Some (m, c, r), Some (p1, process, p2, file, x, p3, metadata) =>
      let body := matched_receipt m c r process (ps_next_activation_occurrence p) context x in
      if negb (MAX_QUALIFICATION_PACKAGE_BYTES <? slen (receipt_body_json body))
         && is_ok (qualified_digest
                     (digest_parts "qualified.activation-receipt.body.v1" [receipt_body_json body]))
         && package_agrees_b acceptance context m c r
         && is_ok (activation_arguments_validate acceptance context)
         && measured_b m (x :: lc_semantic_measurements context)
         && forallb (fun y => negb (am_caller_supplied y)) (lc_semantic_measurements context)
         && negb (ps_next_activation_occurrence p =? 0)
      then Some (m, c, r, p1, process, p2, file, x, p3, metadata) else None
  | _, _ => None
  end.
Lemma gate_premises_hold manifest certificate report acceptance context p :
  has_value (gate_premises manifest certificate report acceptance context p) = true →
  ∃ m c r p1 process p2 file x p3 metadata,
    activation_arguments_validate acceptance context = Ok tt
    ∧ package_agrees manifest certificate report acceptance context m c r
    ∧ ps_next_activation_occurrence p ≠ 0
    ∧ observe_local_process_identity (next_activation_occurrence p).1 = (p1, Ok process)
    ∧ open_and_measure_executable p1 = (p2, Ok (file, x))
    ∧ observe_metadata file p2 = (p3, Ok metadata)
    ∧ all_measured_by m (x :: lc_semantic_measurements context)
    ∧ Forall (λ y, am_caller_supplied y = false) (lc_semantic_measurements context)
    ∧ let body := matched_receipt m c r process (ps_next_activation_occurrence p) context x in
      (MAX_QUALIFICATION_PACKAGE_BYTES <? slen (receipt_body_json body)) = false
      ∧ qualified_digest
          (digest_parts "qualified.activation-receipt.body.v1" [receipt_body_json body]) = Ok tt.
Proof.
  unfold gate_premises. destruct (documents _ _ _) as [[[m c] r]|] eqn:Hd; [|done].
  destruct (gate_observed p) as [[[[[[[p1 process] p2] file] x] p3] metadata]|] eqn:Hg; [|done].
  apply gate_observed_Some in Hg as (?&?&?).
  cbv zeta. destruct (_ && negb _) eqn:Hb; [|done]. intros _. split_and_bool.
  exists m, c, r, p1, process, p2, file, x, p3, metadata. split_and!; try done.
  - by apply is_ok_unit.
  - by apply package_agrees_true.
  - by apply Z.eqb_neq.
  - by apply all_measured_by_bool.
  - apply Forall_forall. intros y Hy.
    match goal with E : forallb (λ y, negb _) _ = true |- _ =>
      rewrite forallb_Forall, Forall_forall in E; apply E in Hy end. by apply negb_true_iff.
  - by apply is_ok_unit.
Qed.
End premises.

Lemma qualified_package_activates_witness :
  ∃ p digest body v, sample_activation process_start
    = (p, Ok (mkAttempt (mkActivationReceipt SCHEMA_VERSION_V1 digest body) (Some v))).
Proof.
  destruct (gate_premises_hold sample_manifest_bytes sample_certificate_bytes sample_report_bytes
              sample_acceptance sample_activation_context process_start)
    as (m&c&r&p1&process&p2&file&x&p3&metadata&Hargs&Hp&Hseq&Hid&Hopen&Hmeta&Hall&Hown&Hlen&Hd).
  { vm_compute. reflexivity. }
  pose proof (qualified_package_activates sample_manifest_bytes sample_certificate_bytes
    sample_report_bytes sample_acceptance sample_activation_context m c r process_start p1 p2 p3
    process file x metadata Hargs Hp Hseq Hid Hopen Hmeta Hall Hown) as Ha.
  cbv zeta in Ha. rewrite Hlen, Hd in Ha. destruct Ha as [v Hv]. eexists _, _, _, v. exact Hv.
Defined.
