(* ===== verification/RuntimeSamples.v ===== *)
(** * A sample runtime

    Runs of the runtime in the sample environment that reach a CURRENT
    certificate and lose it again. *)

From S2P Require Import Prelude Ids Digest Pulse Samples Judgment Context Qualification Package.
From S2P Require Import Activation CustodyTypes.
From S2P Require Import Escalation Certificate Event Policy Receiver EvaluatorState Derive Explain.
From S2P Require Import Evaluator EvalSamples RuntimeState RuntimeArtifacts Runtime RuntimeOps RuntimeHistory.
From S2P Require Import RuntimeLogic RuntimeInvariant RuntimeMethods RuntimeSafety PackageSamples.

Definition sample_pulse (sequence : Z) : RuntimeInputV1 :=
  PulseInput (mkIngress (sample_frame_for "observer:a" sequence WithinDeclaredBound) "local" None
                NotChecked).

Definition blank_runtime : Runtime :=
  mkRuntime sample_config (tracker_new "receiver:a" "receiver-process:1" "clock:1") ∅ ∅ ∅ ∅ ∅ ∅ [] []
    ∅ [] [] [] ∅ ∅ runtime_metrics_empty 0 0 0 0 false false false cycle_default process_start.
Definition new_runtime : Runtime := unwrap_or blank_runtime (runtime_new sample_config).

(** Register, qualify and activate a binding, and admit one pulse at 10: CURRENT. *)
Definition opening : list RuntimeOperation :=
  [ OpRegister sample_registration 1;
    OpQualifyBinding sample_registration sample_inputs 2;
    OpEnqueue 10 (sample_pulse 7);
    OpRunUntil 10 ].
Definition current_runtime : Runtime := fold_left perform opening new_runtime.

Definition category_at (r : Runtime) : option JudgmentCategoryV1 :=
  sc_judgment <$> current_certificate r "host:a" "consumer:display".

Lemma current_runtime_is_current : category_at current_runtime = Some CatCurrent.
Proof. vm_compute. reflexivity. Qed.

(** A history of six events, and a restoration queued before it is full. *)
Definition small_history : RuntimeConfigV1 :=
  mkRuntimeConfig SCHEMA_VERSION_V1 "receiver:a" "receiver-process:1" "clock:1" None
    (mkRuntimeBounds 4 4 8 32 8 8 32 16 32 16 16 6 64).
Definition exhausting : list RuntimeOperation :=
  [ OpRegister sample_registration 1;
    OpQualifyBinding sample_registration sample_inputs 2;
    OpEnqueue 10 (sample_pulse 7);
    OpEnqueue 20 (RestoreMonitorCapability None "operator");
    OpEnqueue 21 (sample_pulse 8);
    OpRunUntil 10; OpRunUntil 20; OpRunUntil 21 ].

(** A revocation of the sample package, by its authority. *)
Definition sample_fact_body : GenerationLifecycleFactBodyV1 :=
  {| fb_schema_version := SCHEMA_VERSION_V1;
     fb_authority_id := "authority:1";
     fb_fact_sequence := 1;
     fb_certificate_digest :=
       default "" (la_accepted_certificate_digest ∘ qp_acceptance <$> sample_package);
     fb_kind := KindRevoked;
     fb_successor_manifest_digest := None;
     fb_successor_certificate_digest := None;
     fb_reason := "withdrawn";
     fb_authority_grants := grants_none |}.
Definition sample_fact : GenerationLifecycleFactV1 :=
  mkFact SCHEMA_VERSION_V1 (unwrap_or "" (fact_body_digest sample_fact_body)) sample_fact_body.
