(* ===== verification/RuntimeProps.v ===== *)
(** * What the runtime promises

    The runtime's theorems, over the states its entry points reach from a new
    or recovered runtime, with the runs of [RuntimeSamples] as witnesses. *)

From S2P Require Import Prelude Ids Digest Pulse Samples Judgment Context Qualification Package.
From S2P Require Import Activation CustodyTypes.
From S2P Require Import Escalation Certificate Event Policy Receiver EvaluatorState Derive Explain.
From S2P Require Import Evaluator EvalSamples RuntimeState RuntimeArtifacts Runtime RuntimeOps RuntimeHistory.
From S2P Require Import RuntimeLogic RuntimeInvariant RuntimeMethods RuntimeSafety RuntimeStanding.
From S2P Require Import RuntimeBounds PackageSamples RuntimeSamples.

Section properties.
Context `{Sha256} `{FactJson} `{CustodyJson} `{RuntimeEnvironment}.

(** C22. A CURRENT certificate held by any consumer of a reachable runtime is
    valid, was issued for the consumer's present context, names a qualified
    generation whose binding slot is live and matches that context, and has
    its support expiry, which lies after its evaluation, on the schedule. *)
Theorem current_is_backed r key state c :
  runtime_reachable r → rs_consumers r !! key = Some state → co_certificate state = Some c →
  sc_judgment c = CatCurrent →
  certificate_validate c = Ok tt ∧ sc_context c = co_context state
  ∧ (∃ slot accepted, rs_qualified_bindings r !! key = Some slot
       ∧ sl_state slot = QualifiedAndMatched ∧ sl_accepted slot = Some accepted
       ∧ sc_qualified_generation c = Some (va_binding accepted)
       ∧ binding_matches (va_binding accepted) key (co_context state) = true)
  ∧ ∃ deadline, sc_earliest_support_expiry_monotonic_ms c = Some deadline
      ∧ sc_evaluated_at_monotonic_ms c < deadline
      ∧ mkSchedule deadline (ck_subject key) (ck_consumer key) (cx_activation_id (co_context state))
          ∈ rs_schedules r.
Proof.
  intros Hr Hl Hc Hj.
  destruct (cov_current _ _ (reachable_covered r Hr) key state c ltac:(done) Hl Hc Hj)
    as [Hv Hx _ (binding&Hq&slot&accepted&?&?&?&<-&?) (deadline&?&?&?)].
  split_and!; [done..|by eauto 8|]. by exists deadline.
Qed.

(** C23. When [run_until] returns from a reachable runtime, whether or not
    the clock regressed, no consumer holds a CURRENT certificate whose support
    expiry has been reached. *)
Theorem no_stale_current r now r' out subject consumer c :
  runtime_reachable r → run_until r now = (r', Ok out) →
  current_certificate r' subject consumer = Some c → sc_judgment c = CatCurrent →
  ∃ deadline, sc_earliest_support_expiry_monotonic_ms c = Some deadline ∧ now < deadline.
Proof.
  intros Hr Hrun Hc Hj. unfold current_certificate in Hc.
  destruct (rs_consumers r' !! mkKey subject consumer) as [state|] eqn:Hl; [|done]. cbn in Hc.
  by destruct (run_until_fresh r now r' out _ state c Hr Hrun Hl Hc Hj).
Qed.

(** C38. [run_until] returns: its loop never runs out of the fuel that the
    queue and the schedule give it, for any state and any time. *)
Theorem run_until_terminates r now : (run_until r now).2 ≠ Err OutOfFuel.
Proof.
  unfold run_until. cbv zeta. destruct (_ <? _); [by destruct (stage _ _ _ _ _ _)|].
  pose proof (finish_wp _ r _ _ (run_cycle_settles now r cycle_default)) as Hf.
  destruct (finish _ r) as [r' [o|f]]; cbn; [done|]. congruence.
Qed.

(** C39. Restart does not recover standing: whatever history is recovered and
    whatever is registered, queued and run afterwards, until a binding is
    activated no consumer holds a CURRENT certificate and no deadline is
    scheduled. *)
Theorem standing_not_recovered config registrations history at_ms r o ops subject consumer c :
  recover config registrations history at_ms = Ok (r, o) →
  Forall (λ op, rebinds op = None) ops →
  let r' := fold_left perform ops r in
  rs_schedules r' = []
  ∧ (current_certificate r' subject consumer = Some c → sc_judgment c ≠ CatCurrent).
Proof.
  intros Hr Hops. apply unbound_recovered in Hr. cbv zeta.
  assert (Hu : unbound None (fold_left perform ops r)).
  { clear c. revert r Hr. induction Hops as [|op rest Hop _ IH]; cbn; intros r Hu; [done|].
    by apply IH, unbound_perform. }
  split; [by apply Hu|]. by eapply dark_certificate, (ub_dark _ _ Hu).
Qed.

(** A lifecycle fact that the runtime applies ends the standing of its
    consumer at once, and neither time, pulses nor further facts bring it
    back: only a new activation of the same key can. *)
Theorem terminated_generation_withdrawn r subject consumer fact at_ms r1 out ops c :
  runtime_reachable r →
  apply_generation_lifecycle_fact r subject consumer fact at_ms = (r1, Ok out) →
  Forall (λ op, rebinds op ≠ Some (mkKey subject consumer)) ops →
  let r' := fold_left perform ops r1 in
  binding_state r' subject consumer = lifecycle_state (fb_kind (lf_body fact))
  ∧ (current_certificate r' subject consumer = Some c → sc_judgment c ≠ CatCurrent).
Proof.
  intros Hr Hfact Hops. cbv zeta.
  assert (Hr1 : runtime_reachable r1).
  { replace r1 with (perform r (OpLifecycle subject consumer fact at_ms)); [by constructor|].
    cbn [perform]. by rewrite Hfact. }
  pose proof (finish_wp _ r _ _
    (wp_lifecycle_terminates (mkKey subject consumer) fact at_ms r cycle_default)) as Hf.
  unfold apply_generation_lifecycle_fact in Hfact. rewrite Hfact in Hf. destruct Hf as [slot Hslot].
  assert (Hend : runtime_reachable (fold_left perform ops r1)
                 ∧ held (mkKey subject consumer) (terminated_slot slot fact) None
                     (fold_left perform ops r1)).
  { clear Hfact c. revert r1 Hr1 Hslot. induction Hops as [|op rest Hop _ IH]; cbn; [done|].
    intros r1 Hr1 Hslot. apply IH; [by constructor|]. apply held_perform; try done.
    intros n. cbn. unfold lifecycle_status. by destruct (fb_kind _). }
  destruct Hend as [Hre Hh]. split.
  - unfold binding_state. by rewrite Hh.
  - eapply dark_certificate; [done|]. by eapply covered_not_live; [|apply Hh|apply reachable_covered].
Qed.

(** An input that is refused because the clock regressed, the queue is
    full or the ordinals are exhausted leaves no consumer CURRENT, as its
    refusal says. *)
Theorem refused_input_withdraws r at_ms input r' made subject consumer c :
  rs_history_exhausted r = false → enqueue r at_ms input = (r', Err made) →
  rf_current_preserved made = false
  ∧ (current_certificate r' subject consumer = Some c → sc_judgment c ≠ CatCurrent).
Proof.
  intros Hh. unfold enqueue. cbv zeta. rewrite Hh. intros He.
  assert (∃ at' detail r0, r' = latch_blind_all at' detail r0 ∧ rf_current_preserved made = false)
    as (at'&detail&r0&->&Hp).
  { destruct (_ <? _); [|destruct (at_least _ _); [|destruct (_ =? _); [|done]]];
      unfold stage in He; cbn [refusal] in He; injection He as <- <-; by eauto. }
  split; [done|]. by eapply dark_certificate, latch_all_dark.
Qed.

(** A scheduler call whose time regressed returns without failing and
    leaves no consumer CURRENT. *)
Theorem regressed_scheduler_withdraws r now subject consumer c :
  now < rs_current_monotonic_ms r →
  ∃ r' out, run_until r now = (r', Ok out)
    ∧ rs_current_monotonic_ms r' = rs_current_monotonic_ms r
    ∧ (current_certificate r' subject consumer = Some c → sc_judgment c ≠ CatCurrent).
Proof.
  intros Ht. unfold run_until. cbv zeta. rewrite (proj2 (Z.ltb_lt _ _)) by done.
  destruct (stage _ _ _ _ _ _) as [r1 made] eqn:Hs. eexists _, _. split; [done|]. split.
  - cbn. assert (Hset : settling (rs_current_monotonic_ms r) (rs_pending r)
      (length (rs_schedules r)) None r1).
    { eapply keeps_stage; [done|]. split_and!; [done..|]. apply due_length. }
    by apply (keeps_latch_blind_all (rs_current_monotonic_ms r)
      "scheduler monotonic clock regressed" r1 Hset).
  - eapply dark_certificate; [done|]. intros state c'. cbn. apply latch_all_dark.
Qed.

(** C40. In a runtime made by [runtime_new] or [recover] with [u64] bounds,
    after any operations, failing ones included: the pending inputs, the sparse
    history, the diagnostic receipts, the escalation owners, the receiver
    streams, the incarnations known of each observer, the subjects, the
    consumers and observers of each subject, the qualified-binding slots, the
    activations each consumer has seen and the evidence references of each
    certificate held are within the bounds configured for them.  The
    incarnations of a subject and the scheduled deadlines are not among the
    collections of [within]: registration adds to the first without testing
    its bound, and the code compares the second bound with the number of
    consumers. *)
Theorem collections_bounded config r ops :
  Forall is_u64 (bounds_values (cf_bounds config)) →
  (runtime_new config = Ok r
   ∨ ∃ registrations history at_ms o, recover config registrations history at_ms = Ok (r, o)) →
  within (fold_left perform ops r).
Proof.
  intros Hu Hstart. assert (HI : bounded config ∅ None r).
  { destruct Hstart as [Hn|(?&?&?&?&Hr)]; [by apply bounded_new|by eapply bounded_recovered]. }
  clear Hstart. revert r HI. induction ops as [|op rest IH]; cbn; intros r HI; [apply HI|].
  by apply IH, bounded_perform.
Qed.

(** An activation identity that was ever used, by this or any other
    consumer or before a restart, is refused: the call returns normally, the
    consumer keeps the context it had and is not left CURRENT. *)
Theorem reused_activation_refused logical_at activation at_ms r o state :
  let key := mkKey (rl_subject (ca_policy activation)) (rl_consumer (ca_policy activation)) in
  validate_activation activation = Ok tt → rs_consumers r !! key = Some state →
  cx_activation_id (ca_context activation) ∈ rs_historical_activation_ids r →
  ∃ r' o', activate_consumer logical_at activation at_ms (r, o) = ((r', o'), Ok tt)
    ∧ dark key r'
    ∧ ∀ state', rs_consumers r' !! key = Some state' → co_context state' = co_context state.
Proof.
  intros key Hv Hl Hused.
  assert (Hw : wp (activate_consumer logical_at activation at_ms)
    (λ _ r', dark key r' ∧ ∀ state', rs_consumers r' !! key = Some state' →
               co_context state' = co_context state) (λ _ _, False) (r, o)).
  { apply wp_bind, wp_lift; rewrite Hv; [|done]. intros [] _ o1. apply wp_get. cbv beta zeta. cbn [fst].
    change (mkKey (rl_subject (ca_policy activation)) (rl_consumer (ca_policy activation))) with key.
    rewrite Hl. rewrite decide_True by (by right). unfold refuse_activation.
    apply wp_frame_bind; [by apply framed_upd; intros; split_and!|]. intros _ r1 o2 Hr1.
    apply wp_frame_bind; [auto with framed|]. intros _ r2 o3 Hr2. apply wp_upd.
    destruct (latch_blind_dims at_ms "reused context activation identity was refused" r2 key)
      as [Hd _ Hx]. split; [done|]. intros state' Hl'. apply Hx in Hl' as (st&Hst&->).
    destruct Hr1 as (_&E1&_), Hr2 as (_&E2&_). rewrite E2, E1, Hl in Hst. by simplify_eq. }
  unfold wp in Hw. destruct (activate_consumer logical_at activation at_ms (r, o))
    as [[r' o'] [[]|f]]; [|done]. by exists r', o'.
Qed.

(** A subject replacement that names the incarnation a consumer is
    already in fails after the consumer was taken out of the runtime: the
    consumer is gone, while its subject still counts it. *)
Theorem replacement_by_itself_loses_consumer logical_at activation at_ms r o subject state :
  let key := mkKey subject (rl_consumer (ca_policy activation)) in
  let incarnation := ev_current_subject_incarnation (co_evaluator state) in
  validate_identity "IncarnationId" incarnation = Ok tt → rs_consumers r !! key = Some state →
  ∃ r' detail,
    replace_for_consumer logical_at subject incarnation at_ms activation (r, o)
    = ((r', o), Err (Returned (mkRuntimeError "duplicate_subject_incarnation" detail)))
    ∧ rs_consumers r' !! key = None ∧ rs_subjects r' = rs_subjects r.
Proof.
  intros key incarnation Hv Hl.
  unfold replace_for_consumer, evaluate_consumer, mbind, rt_bind, get_rt, upd. cbn. fold key.
  rewrite Hl. unfold replace_subject_incarnation. fold incarnation. rewrite Hv, decide_True by done.
  cbn. eexists _, _. split; [done|]. cbn. by rewrite lookup_delete_eq.
Qed.

End properties.

(* ------------------------------------------------------------------ *)
(** ** Runs *)

(** Blindness for exhausted history is latched once: with room for six
    events, a restoration that was queued before the history filled up is
    processed afterwards, and the runtime issues a CURRENT certificate while
    its history is exhausted and nothing of it is recorded. *)
Theorem exhausted_history_still_current :
  let r := fold_left perform exhausting (unwrap_or blank_runtime (runtime_new small_history)) in
  rs_history_exhausted r = true ∧ rs_history_blindness_latched r = true
  ∧ category_at r = Some CatCurrent ∧ length (rs_sparse_history r) = 6%nat.
Proof. vm_compute. split_and!; reflexivity. Qed.

Lemma new_runtime_new : runtime_new sample_config = Ok new_runtime.
Proof.
  unfold new_runtime. destruct (runtime_new sample_config) as [r|e] eqn:Hn; [done|].
  assert (is_ok (runtime_new sample_config) = true) as Hok by (vm_compute; reflexivity).
  by rewrite Hn in Hok.
Qed.
Lemma opening_reachable n : runtime_reachable (fold_left perform (take n opening) new_runtime).
Proof.
  assert (Hops : ∀ ops r, runtime_reachable r → runtime_reachable (fold_left perform ops r)).
  { induction ops as [|op rest IH]; cbn; intros r Hr; [done|]. apply IH. by constructor. }
  apply Hops. eapply reachable_new, new_runtime_new.
Qed.

(** The consumer of [current_runtime] and its certificate. *)
Lemma current_runtime_holds :
  ∃ state c, rs_consumers current_runtime !! mkKey "host:a" "consumer:display" = Some state
             ∧ co_certificate state = Some c ∧ sc_judgment c = CatCurrent.
Proof.
  pose proof current_runtime_is_current as Hc. unfold category_at, current_certificate in Hc.
  destruct (rs_consumers current_runtime !! mkKey "host:a" "consumer:display") as [state|];
    cbn in Hc; [|done].
  destruct (co_certificate state) as [c|] eqn:Hs; cbn in Hc; [|done]. exists state, c. by simplify_eq.
Qed.

Lemma current_is_backed_witness :
  ∃ state c, rs_consumers current_runtime !! mkKey "host:a" "consumer:display" = Some state
             ∧ co_certificate state = Some c ∧ certificate_validate c = Ok tt.
Proof.
  destruct current_runtime_holds as (state&c&Hl&Hc&Hj). exists state, c.
  split; [exact Hl|]. split; [exact Hc|].
  exact (proj1 (current_is_backed current_runtime (mkKey "host:a" "consumer:display") state c
                  (opening_reachable 4) Hl Hc Hj)).
Defined.

(** What an evaluated test says of a call. *)
Lemma returned_ok {S E A} (p : S * result E A) : is_ok p.2 = true → ∃ s a, p = (s, Ok a).
Proof. destruct p as [s [a|e]]; [by exists s, a|done]. Qed.
Lemma returned_err {S E A} (p : S * result E A) : is_ok p.2 = false → ∃ s e, p = (s, Err e).
Proof. destruct p as [s [a|e]]; [done|by exists s, e]. Qed.

(** [opening] up to its last operation. *)
Definition queued_runtime : Runtime := fold_left perform (take 3 opening) new_runtime.

Lemma no_stale_current_witness :
  ∃ r' out c deadline, run_until queued_runtime 10 = (r', Ok out)
    ∧ current_certificate r' "host:a" "consumer:display" = Some c
    ∧ sc_earliest_support_expiry_monotonic_ms c = Some deadline ∧ 10 < deadline.
Proof.
  destruct current_runtime_holds as (state&c&Hl&Hc&Hj).
  assert (He : current_runtime = (run_until queued_runtime 10).1) by reflexivity.
  assert (Hok : is_ok (run_until queued_runtime 10).2 = true) by (vm_compute; reflexivity).
  destruct (returned_ok _ Hok) as (r'&out&Hrun). rewrite Hrun in He. cbn [fst] in He.
  rewrite He in Hl.
  assert (Hcert : current_certificate r' "host:a" "consumer:display" = Some c)
    by (unfold current_certificate; rewrite Hl; exact Hc).
  destruct (no_stale_current queued_runtime 10 r' out "host:a" "consumer:display" c
              (opening_reachable 3) Hrun Hcert Hj) as (deadline&Hd&Hlt).
  exists r', out, c, deadline. split_and!; assumption.
Defined.

Lemma standing_not_recovered_witness :
  ∃ r o, recover sample_config [sample_registration] history_empty 1 = Ok (r, o)
    ∧ rs_schedules (fold_left perform [OpEnqueue 10 (sample_pulse 7); OpRunUntil 10] r) = [].
Proof.
  assert (Hok : is_ok (recover sample_config [sample_registration] history_empty 1) = true)
    by (vm_compute; reflexivity).
  destruct (recover sample_config [sample_registration] history_empty 1) as [[r o]|f] eqn:Hr;
    [|discriminate].
  exists r, o. split; [reflexivity|].
  destruct current_runtime_holds as (_&c&_).
  refine (proj1 (standing_not_recovered sample_config [sample_registration] history_empty 1 r o
                   [OpEnqueue 10 (sample_pulse 7); OpRunUntil 10] "host:a" "consumer:display" c Hr _)).
  repeat constructor.
Defined.

Lemma terminated_generation_withdrawn_witness :
  ∃ r1 out, apply_generation_lifecycle_fact current_runtime "host:a" "consumer:display" sample_fact 20
            = (r1, Ok out)
    ∧ binding_state (fold_left perform [OpRunUntil 30] r1) "host:a" "consumer:display"
      = lifecycle_state (fb_kind (lf_body sample_fact)).
Proof.
  assert (Hok : is_ok (apply_generation_lifecycle_fact current_runtime "host:a" "consumer:display"
                         sample_fact 20).2 = true) by (vm_compute; reflexivity).
  destruct (returned_ok _ Hok) as (r1&out&Hf). exists r1, out. split; [exact Hf|]. destruct current_runtime_holds as (_&c&_).
  refine (proj1 (terminated_generation_withdrawn current_runtime "host:a" "consumer:display"
    sample_fact 20 r1 out [OpRunUntil 30] c (opening_reachable 4) Hf _)).
  repeat constructor; discriminate.
Defined.

Lemma refused_input_withdraws_witness :
  ∃ r' made, enqueue current_runtime 5 (sample_pulse 8) = (r', Err made)
             ∧ rf_current_preserved made = false.
Proof.
  assert (Hok : is_ok (enqueue current_runtime 5 (sample_pulse 8)).2 = false)
    by (vm_compute; reflexivity).
  assert (Hh : rs_history_exhausted current_runtime = false) by (vm_compute; reflexivity).
  destruct (returned_err _ Hok) as (r'&made&He). exists r', made. split; [exact He|]. destruct current_runtime_holds as (_&c&_).
  exact (proj1 (refused_input_withdraws current_runtime 5 (sample_pulse 8) r' made
                  "host:a" "consumer:display" c Hh He)).
Defined.

Lemma regressed_scheduler_withdraws_witness :
  ∃ r' out, run_until current_runtime 5 = (r', Ok out)
            ∧ rs_current_monotonic_ms r' = rs_current_monotonic_ms current_runtime.
Proof.
  assert (Ht : 5 < rs_current_monotonic_ms current_runtime) by (vm_compute; reflexivity).
  destruct current_runtime_holds as (_&c&_).
  destruct (regressed_scheduler_withdraws current_runtime 5 "host:a" "consumer:display" c Ht)
    as (r'&out&Hr&Hc&_).
  exists r', out. split; [exact Hr|exact Hc].
Defined.

Lemma collections_bounded_witness : within current_runtime.
Proof.
  refine (collections_bounded sample_config new_runtime opening _ (or_introl new_runtime_new)).
  repeat constructor.
Defined.

Lemma reused_activation_refused_witness :
  ∃ r' o', activate_consumer 20
             (mkActivation sample_policy (context_for sample_policy "activation:1")
                EquivalentBodyNewGeneration) 20 (current_runtime, cycle_default) = ((r', o'), Ok tt)
           ∧ dark (mkKey "host:a" "consumer:display") r'.
Proof.
  destruct current_runtime_holds as (state&c&Hl&_).
  destruct (reused_activation_refused 20
    (mkActivation sample_policy (context_for sample_policy "activation:1")
       EquivalentBodyNewGeneration) 20 current_runtime cycle_default state) as (r'&o'&Hr&Hd&_).
  - vm_compute. reflexivity.
  - exact Hl.
  - apply (bool_decide_eq_true_1 (_ ∈ _)). vm_compute. reflexivity.
  - exists r', o'. split; [exact Hr|exact Hd].
Defined.

Lemma replacement_by_itself_loses_consumer_witness :
  ∃ state r' detail,
    rs_consumers current_runtime !! mkKey "host:a" "consumer:display" = Some state
    ∧ (replace_for_consumer 20 "host:a" (ev_current_subject_incarnation (co_evaluator state)) 20
         (mkActivation sample_policy (context_for sample_policy "activation:2")
            SubjectIncarnationChanged) (current_runtime, cycle_default)).2
      = Err (Returned (mkRuntimeError "duplicate_subject_incarnation" detail))
    ∧ rs_consumers r' !! mkKey "host:a" "consumer:display" = None.
Proof.
  destruct current_runtime_holds as (state&c&Hl&_).
  assert (Hi : ev_current_subject_incarnation (co_evaluator state) = "boot:1").
  { assert (ev_current_subject_incarnation ∘ co_evaluator
              <$> rs_consumers current_runtime !! mkKey "host:a" "consumer:display" = Some "boot:1")
      as Hb by (vm_compute; reflexivity).
    rewrite Hl in Hb. injection Hb as Hb. exact Hb. }
  destruct (replacement_by_itself_loses_consumer 20
    (mkActivation sample_policy (context_for sample_policy "activation:2") SubjectIncarnationChanged)
    20 current_runtime cycle_default "host:a" state) as (r'&detail&Hr&Hn&_).
  - rewrite Hi. reflexivity.
  - exact Hl.
  - exists state, r', detail. split_and!; [exact Hl|rewrite Hr; reflexivity|exact Hn].
Defined.
