(* ===== verification/JournalProps.v ===== *)
(** * What the journal keeps

    [written] is the abstract journal: the byte strings that are a chain of
    committed frames.  Scanning finds a clean history in exactly these
    ([scan_refines_written]), never invents a record when a file is cut short
    ([truncation_keeps_prefix]), and an append that is interrupted anywhere
    loses nothing that was acknowledged ([acknowledged_history_survives]). *)

From S2P Require Import Prelude Ids Digest Judgment Context Qualification CustodyTypes Escalation.
From S2P Require Import Certificate Event Policy Receiver EvaluatorState RuntimeState.
From S2P Require Import RuntimeHistory Journal Wire EscalationProps.

Create HintDb journal.

(** Peel the binds of a scan that succeeds, taking only pairs apart. *)
Ltac inv_scan :=
  repeat match goal with
  | E : (_ ≫= _) = Ok _ |- _ =>
      let a := fresh "v" in let Ha := fresh "Hscan" in
      apply bind_Ok in E; destruct E as (a & Ha & E);
      try match type of a with (_ * _)%type => destruct a | unit => destruct a end
  | E : ensure _ _ = Ok _ |- _ => apply ensure_Ok in E
  | E : map_err _ _ = Ok _ |- _ => apply map_err_Ok in E
  end.

Section scanning.
Context `{Sha256} `{JournalJson}.

(** Any number of iterations of the loop. *)
Inductive scans (config : JournalConfigV1) : Cursor → string → Cursor → string → Prop :=
| scans_refl c bytes : scans config c bytes c bytes
| scans_step c bytes c1 rest c2 last :
    scan_record config c bytes = Ok (c1, rest) → scans config c1 rest c2 last →
    scans config c bytes c2 last.
Hint Constructors scans : journal.

Lemma scans_snoc config c bytes c1 rest c2 last :
  scans config c bytes c1 rest → scan_record config c1 rest = Ok (c2, last) →
  scans config c bytes c2 last.
Proof. induction 1; eauto using scans_refl, scans_step. Qed.

Lemma take_bytes_Ok n bytes d a b :
  take_bytes n bytes d = Ok (a, b) ↔ bytes = a +:+ b ∧ String.length a = n.
Proof.
  unfold take_bytes. rewrite <- str_take_Some. destruct (str_take n bytes); split; congruence.
Qed.
Lemma take_bytes_extend n bytes d a b more :
  take_bytes n bytes d = Ok (a, b) → take_bytes n (bytes +:+ more) d = Ok (a, b +:+ more).
Proof. rewrite !take_bytes_Ok. intros [-> ?]. by rewrite str_app_assoc. Qed.
Lemma take_bytes_app a b d : take_bytes (String.length a) (a +:+ b) d = Ok (a, b).
Proof. by apply take_bytes_Ok. Qed.

Lemma scan_magic_Ok start bytes :
  scan_magic start bytes = Ok tt ↔ ∃ rest, bytes = DATA_MAGIC +:+ rest.
Proof.
  unfold scan_magic. split.
  - intros Hs. inv_oks. match goal with E : has_value _ = true |- _ =>
      apply has_value_true in E as [rest Hr] end.
    exists rest. by apply strip_prefix_Some in Hr.
  - intros [rest ->]. rewrite slen_app. pose proof (slen_nonneg rest).
    change (slen DATA_MAGIC) with 8. rewrite (proj2 (Z.ltb_ge (8 + slen rest) 8)) by lia. cbn [negb ensure mbind result_bind].
    rewrite (proj2 (strip_prefix_Some _ _ rest) eq_refl). done.
Qed.

(** What one iteration accepts, as parts of the bytes. *)
Record accepted_frame (config : JournalConfigV1) (c c' : Cursor) (header payload trailer commit : string)
    : Prop := {
  af_room : Z.of_nat (length (cs_records c)) < jb_maximum_records (jc_bounds config);
  af_magic : ∃ tail, header = DATA_MAGIC +:+ tail;
  af_lengths : String.length header = HEADER_BYTES ∧ String.length trailer = TRAILER_BYTES
               ∧ String.length commit = COMMIT_BYTES;
  af_next : ∃ kind record,
    let start := cs_offset c in
    let payload_start := start + Z.of_nat HEADER_BYTES in
    let payload_end := payload_start + slen payload in
    let trailer_end := payload_end + Z.of_nat TRAILER_BYTES in
    let computed := frame_digest header payload in
    scan_header config (cs_expected_sequence c) (cs_expected_prior c) start header
      = Ok (kind, slen payload)
    ∧ scan_trailer payload_start payload_end header payload trailer = Ok computed
    ∧ scan_commit trailer_end (cs_expected_sequence c) computed commit = Ok tt
    ∧ scan_payload config (cs_expected_sequence c) kind payload_start payload = Ok record
    ∧ (∀ identity, immutable_identity (jr_body record) = Some identity →
         identity ∉ cs_immutable_identities c)
    ∧ cs_expected_sequence c + 1 <= u64_max
    ∧ c' = {| cs_offset := trailer_end + Z.of_nat COMMIT_BYTES;
              cs_records := cs_records c ++ [record];
              cs_expected_sequence := cs_expected_sequence c + 1;
              cs_expected_prior := computed;
              cs_last_digest := Some computed;
              cs_immutable_identities :=
                identities_of [record] ∪ cs_immutable_identities c |};
}.

Lemma scan_header_length config sequence prior start header kind n :
  scan_header config sequence prior start header = Ok (kind, n) → 0 <= n.
Proof.
  unfold scan_header. intros Hs. inv_ok Hs. simplify_eq.
  pose proof (be_value_range (String.substring 20 4 header)). lia.
Qed.
Lemma scan_trailer_Ok payload_start payload_end header payload trailer d :
  scan_trailer payload_start payload_end header payload trailer = Ok d → d = frame_digest header payload.
Proof.
  unfold scan_trailer. intros Hs. inv_oks. simplify_eq.
  match goal with E : bool_decide (_ = frame_digest _ _) = true |- _ => by apply bool_decide_eq_true in E end.
Qed.

Lemma scan_record_Ok config c bytes c' rest :
  scan_record config c bytes = Ok (c', rest) ↔
  ∃ header payload trailer commit,
    bytes = header +:+ payload +:+ trailer +:+ commit +:+ rest
    ∧ accepted_frame config c c' header payload trailer commit.
Proof.
  unfold scan_record. split.
  - intros Hs. inv_scan. simplify_eq.
    repeat match goal with
    | E : take_bytes _ _ _ = Ok _ |- _ => apply take_bytes_Ok in E as [? ?]
    end. subst.
    match goal with E : scan_header _ _ _ _ _ = Ok _ |- _ =>
      pose proof (scan_header_length _ _ _ _ _ _ _ E) end.
    match goal with E : scan_trailer _ _ _ _ _ = Ok _ |- _ =>
      pose proof (scan_trailer_Ok _ _ _ _ _ _ E); subst end.
    match goal with E : String.length ?payload = Z.to_nat ?z |- _ =>
      assert (z = slen payload) as -> by (unfold slen; lia) end.
    eexists _, _, _, _. split; [done|]. constructor; [lia| |done|].
    + match goal with E : scan_magic _ _ = Ok _ |- _ =>
        apply scan_magic_Ok in E as [tail Htail] end.
      eapply str_app_prefix; [done|]. match goal with E : String.length ?h = HEADER_BYTES |- (_ <= String.length ?h)%nat =>
        rewrite E end. cbn. lia.
    + eexists _, _. split_and!; try done; [|lia|].
      * intros identity Hid.
        match goal with E : match immutable_identity _ with _ => _ end = Ok _ |- _ =>
          rewrite Hid in E; by destruct (decide (identity ∈ _)) end.
      * f_equal. unfold identities_of. cbn.
        destruct (immutable_identity _) as [identity|]; [|simplify_eq; set_solver].
        destruct (decide (identity ∈ _)); [done|]. simplify_eq. set_solver.
  - intros (header&payload&trailer&commit&->&[Hroom [tail ->] (Hh&Ht&Hcm) (kind&record&Hrest)]).
    cbv zeta in Hrest. destruct Hrest as (Hsh&Hst&Hsc&Hsp&Hid&Hseq&->).
    rewrite (proj2 (Z.ltb_lt _ _)) by done. cbn [ensure mbind result_bind].
    rewrite (proj2 (scan_magic_Ok _ _)) by (eexists; by rewrite str_app_assoc).
    cbn [mbind result_bind]. rewrite <- Hh at 1. rewrite take_bytes_app. cbn [mbind result_bind].
    rewrite Hsh. cbn [mbind result_bind].
    assert (Z.to_nat (slen payload) = String.length payload) as -> by (unfold slen; lia).
    rewrite take_bytes_app. cbn [mbind result_bind]. rewrite <- Ht at 1. rewrite take_bytes_app.
    cbn [mbind result_bind]. rewrite Hst. cbn [mbind result_bind].
    assert (Hne : (slen (commit +:+ rest) =? 0) = false).
    { rewrite slen_app. pose proof (slen_nonneg rest). apply Z.eqb_neq. unfold slen at 1. rewrite Hcm.
      change (Z.of_nat COMMIT_BYTES) with 158. lia. }
    rewrite Hne. cbn [negb ensure mbind result_bind]. rewrite <- Hcm at 1. rewrite take_bytes_app.
    cbn [mbind result_bind]. rewrite Hsc. cbn [mbind result_bind]. rewrite Hsp.
    cbn [mbind result_bind].
    destruct (immutable_identity (jr_body record)) as [identity|] eqn:Hi.
    + rewrite decide_False by (by apply Hid). cbn [mbind result_bind].
      rewrite (proj2 (Z.leb_le _ _)) by done. cbn [ensure mbind result_bind]. do 3 f_equal.
      unfold identities_of. cbn. rewrite Hi. set_solver.
    + cbn [mbind result_bind]. rewrite (proj2 (Z.leb_le _ _)) by done.
      cbn [ensure mbind result_bind]. do 3 f_equal. unfold identities_of. cbn. rewrite Hi. set_solver.
Qed.

Lemma scan_record_extend config c bytes c' rest more :
  scan_record config c bytes = Ok (c', rest) →
  scan_record config c (bytes +:+ more) = Ok (c', rest +:+ more).
Proof.
  rewrite !scan_record_Ok. intros (header&payload&trailer&commit&->&Hf).
  exists header, payload, trailer, commit. split; [|done]. by rewrite !str_app_assoc.
Qed.
Lemma scan_record_shorter config c bytes c' rest :
  scan_record config c bytes = Ok (c', rest) → (String.length rest < String.length bytes)%nat.
Proof.
  rewrite scan_record_Ok. intros (header&payload&trailer&commit&->&[_ _ (Hh&_) _]).
  rewrite !str_length_app, Hh. change HEADER_BYTES with 95%nat. lia.
Qed.
Lemma scan_record_grows config c bytes c' rest :
  scan_record config c bytes = Ok (c', rest) → ∃ r, cs_records c' = cs_records c ++ [r].
Proof.
  rewrite scan_record_Ok. intros (?&?&?&?&_&[_ _ _ (kind&record&Hrest)]).
  exists record. by destruct Hrest as (_&_&_&_&_&_&->).
Qed.
Lemma scans_extend config c bytes c' rest more :
  scans config c bytes c' rest → scans config c (bytes +:+ more) c' (rest +:+ more).
Proof. induction 1; eauto using scans_refl, scans_step, scan_record_extend. Qed.
Lemma scans_trans config c1 b1 c2 b2 c3 b3 :
  scans config c1 b1 c2 b2 → scans config c2 b2 c3 b3 → scans config c1 b1 c3 b3.
Proof. induction 1; eauto using scans_step. Qed.
Lemma scans_grow config c bytes c' rest :
  scans config c bytes c' rest → cs_records c `prefix_of` cs_records c'.
Proof.
  induction 1 as [|c bytes c1 rest c2 last Hr _ IH]; [done|].
  destruct (scan_record_grows _ _ _ _ _ Hr) as [r Hg]. etrans; [|done]. rewrite Hg. by exists [r].
Qed.

Lemma damaged_not_clean damage records offset total detail config last :
  rr_outcome (damaged_at damage records offset total detail config last) ≠ Clean.
Proof. unfold damaged_at, damaged_report. cbn [rr_outcome]. by destruct (_ && _). Qed.

(** The report of a scan that stops at a cursor. *)
Definition stops (config : JournalConfigV1) (total : Z) (c : Cursor) (rest : string)
    (report : JournalRecoveryReportV1) : Prop :=
  (rest = "" ∧ report = clean_report (cs_records c) total (Some (jc_journal_id config))
                          (cs_last_digest c))
  ∨ (rest ≠ "" ∧ ∃ d, scan_record config c rest = Err d
       ∧ report = damaged_at (dg_class d) (cs_records c) (dg_offset d) total (dg_detail d) config
                    (cs_last_digest c)).

Lemma scan_loop_total fuel config total c bytes :
  (String.length bytes <= fuel)%nat →
  ∃ c' rest report, scans config c bytes c' rest ∧ stops config total c' rest report
    ∧ scan_loop fuel config total c bytes = Some report.
Proof.
  revert c bytes. induction fuel as [|fuel IH]; intros c bytes Hle.
  - destruct bytes; cbn in Hle; [|lia]. eexists _, _, _. split_and!; [apply scans_refl|by left|done].
  - destruct bytes as [|x bytes]; [eexists _, _, _; split_and!; [apply scans_refl|by left|done]|].
    cbn [scan_loop]. destruct (scan_record config c (String x bytes)) as [[c' rest]|d] eqn:Hr.
    + apply scan_record_shorter in Hr as Hlt.
      destruct (IH c' rest) as (c2&last&report&Hs&Hst&->); [lia|].
      exists c2, last, report. split_and!; [by eapply scans_step|done|done].
    + eexists _, _, _. split_and!; [apply scans_refl| |done]. right. split; [done|]. eauto.
Qed.

(** [scan_bytes] runs to a cursor at which the file ends or is damaged. *)
Lemma scan_bytes_stops config bytes :
  ∃ c rest, scans config scan_start bytes c rest
    ∧ stops config (slen bytes) c rest (scan_bytes bytes config).
Proof.
  destruct (scan_loop_total (String.length bytes) config (slen bytes) scan_start bytes)
    as (c&rest&report&Hs&Hst&Hl); [done|].
  exists c, rest. split; [done|]. unfold scan_bytes. by rewrite Hl.
Qed.
Lemma stops_records config total c rest report :
  stops config total c rest report → rr_records report = cs_records c.
Proof. by intros [[_ ->]|(_&d&_&->)]. Qed.
Lemma scans_stop config c bytes c1 rest1 c2 rest2 total report :
  scans config c bytes c1 rest1 → scans config c bytes c2 rest2 →
  stops config total c2 rest2 report → scans config c1 rest1 c2 rest2.
Proof.
  induction 1 as [|c bytes c' rest' c1 rest1 Hr Hs1 IH]; [done|]. intros Hs2 Hst.
  destruct Hs2 as [c bytes|c bytes c'' rest'' c2 last Hr2 Hs2].
  - destruct Hst as [[-> _]|(_&d&Hd&_)]; [|congruence].
    apply scan_record_shorter in Hr. cbn in Hr. lia.
  - rewrite Hr in Hr2. simplify_eq. by apply IH.
Qed.

(** A file cut short at any byte, or any prefix of a damaged one: the records
    recovered from it are the first records of the whole. *)
Theorem truncation_keeps_prefix config bytes cut :
  rr_records (scan_bytes bytes config) `prefix_of` rr_records (scan_bytes (bytes +:+ cut) config).
Proof.
  destruct (scan_bytes_stops config bytes) as (c&rest&Hs&Hst).
  destruct (scan_bytes_stops config (bytes +:+ cut)) as (c2&rest2&Hs2&Hst2).
  rewrite (stops_records _ _ _ _ _ Hst), (stops_records _ _ _ _ _ Hst2).
  eapply scans_grow, scans_stop; [by apply scans_extend|done|done].
Qed.
End scanning.

(* ------------------------------------------------------------------ *)
(** ** The abstract journal *)

Section abstract.
Context `{Sha256} `{JournalJson}.

Definition frame_bytes (kind : JournalRecordKindV1) (sequence : Z) (prior : DigestV1) (payload : string)
  : string :=
  let header := encode_header kind sequence (slen payload) prior in
  let digest := frame_digest header payload in
  header +:+ payload +:+ encode_trailer digest +:+ encode_commit sequence digest.

(** A payload that may be the next record of a journal with these records: it
    parses to a valid record of this journal with the next sequence number, no
    event or receipt is journaled twice and the bounds are kept. *)
Record next_record (config : JournalConfigV1) (records : list HistoricalJournalRecordV1)
    (payload : string) (record : HistoricalJournalRecordV1) : Prop := {
  nx_room : Z.of_nat (length records) < jb_maximum_records (jc_bounds config);
  nx_bound : slen payload <= jb_maximum_record_payload_bytes (jc_bounds config);
  nx_length : slen payload <= u32_max;
  nx_parse : record_parse payload = Ok record;
  nx_valid : record_validate config record = Ok tt;
  nx_sequence : jr_record_sequence record = Z.of_nat (length records) + 1;
  nx_fresh : ∀ identity, immutable_identity (jr_body record) = Some identity →
               identity ∉ identities_of records;
}.

(** The digests a frame carries, of its predecessor, of itself and of its
    commit marker, are ones a scan reads back: [DigestV1::validate] refuses the
    all-zero value. *)
Record frame_digests (kind : JournalRecordKindV1) (sequence : Z) (prior : DigestV1) (payload : string)
    : Prop := mkFrameDigests {
  fd_prior : digest_validate prior = Ok tt;
  fd_frame : digest_validate (frame_digest (encode_header kind sequence (slen payload) prior) payload)
             = Ok tt;
  fd_commit : digest_validate (commit_checksum sequence
                (frame_digest (encode_header kind sequence (slen payload) prior) payload)) = Ok tt;
}.

(** The files that hold exactly these committed records, and the digest of
    the last frame: each frame carries the next sequence number and the digest
    of its predecessor. *)
Inductive written (config : JournalConfigV1)
    : string → list HistoricalJournalRecordV1 → DigestV1 → Prop :=
| written_empty : written config "" [] genesis_digest
| written_frame bytes records prior payload record :
    written config bytes records prior →
    next_record config records payload record →
    frame_digests (jr_record_kind record) (Z.of_nat (length records) + 1) prior payload →
    written config (bytes +:+ frame_bytes (jr_record_kind record)
                                (Z.of_nat (length records) + 1) prior payload)
      (records ++ [record])
      (frame_digest (encode_header (jr_record_kind record) (Z.of_nat (length records) + 1)
                       (slen payload) prior) payload).

Lemma digest_utf8 d : digest_validate d = Ok tt → is_utf8 d = true.
Proof.
  unfold digest_validate. destruct (strip_prefix "sha256:" d) as [hex|] eqn:E; [|done].
  intros Hd. inv_oks. apply strip_prefix_Some in E as ->.
  destruct (printable_chars ("sha256:" +:+ hex)) as (cs&Hcs&_).
  { rewrite str_all_app. by rewrite (canonical_hex_printable hex). }
  unfold is_utf8. by rewrite Hcs.
Qed.
Lemma read_digest_Some bytes d :
  read_digest bytes = Some d ↔ bytes = d ∧ digest_validate d = Ok tt.
Proof.
  unfold read_digest. destruct (is_utf8 bytes && is_ok (digest_validate bytes)) eqn:E.
  - apply andb_true_iff in E as [_ E%is_ok_unit]. split; [by intros [= ->]|by intros [-> _]].
  - split; [done|]. intros [-> Hd]. by rewrite digest_utf8, Hd in E.
Qed.

Lemma read_digest_Ok {E} bytes (e : E) d :
  match read_digest bytes with Some digest => Ok digest | None => Err e end = Ok d ↔
  bytes = d ∧ digest_validate d = Ok tt.
Proof. rewrite <- read_digest_Some. destruct (read_digest bytes); split; congruence. Qed.

Lemma be_value_eq s k z :
  String.length s = k → be_value s = z → s = be_bytes k z ∧ 0 <= z < 256 ^ Z.of_nat k.
Proof. intros <- <-. split; [by rewrite be_bytes_be_value|apply be_value_range]. Qed.

Lemma header_parts header :
  String.length header = HEADER_BYTES →
  header = String.substring 0 8 header +:+ String.substring 8 2 header
           +:+ String.substring 10 1 header +:+ String.substring 11 1 header
           +:+ String.substring 12 8 header +:+ String.substring 20 4 header
           +:+ String.substring 24 DIGEST_BYTES header.
Proof.
  intros Hl. rewrite <- (substring_all header) at 1. rewrite Hl.
  change HEADER_BYTES with (8 + (2 + (1 + (1 + (8 + (4 + DIGEST_BYTES))))))%nat.
  rewrite !substring_split. done.
Qed.
Lemma kind_tag_inv tag kind : kind_from_tag tag = Some kind → tag = kind_tag kind.
Proof.
  unfold kind_from_tag. destruct tag as [|[[]|[]|]|]; try done; by intros [= <-].
Qed.
Lemma encode_header_length kind sequence n prior :
  slen prior = 71 → String.length (encode_header kind sequence n prior) = HEADER_BYTES.
Proof.
  unfold encode_header, slen. intros Hp. rewrite !str_length_app, !be_bytes_length.
  change (String.length DATA_MAGIC) with 8%nat. change HEADER_BYTES with 95%nat. lia.
Qed.

(** A header is accepted exactly when it is the one [append] would write. *)
Lemma scan_header_Ok config sequence prior start header kind n :
  String.length header = HEADER_BYTES → String.substring 0 8 header = DATA_MAGIC →
  scan_header config sequence prior start header = Ok (kind, n) →
  header = encode_header kind sequence n prior ∧ digest_validate prior = Ok tt
  ∧ n <= jb_maximum_record_payload_bytes (jc_bounds config) ∧ 0 <= n <= u32_max
  ∧ start + Z.of_nat HEADER_BYTES + n <= u64_max.
Proof.
  intros Hl Hm Hs. unfold scan_header in Hs. inv_scan. simplify_eq.
  assert (Hsub : ∀ i k, (i + k <= 95)%nat → String.length (String.substring i k header) = k).
  { intros. apply substring_length. rewrite Hl. change HEADER_BYTES with 95%nat. lia. }
  repeat match goal with
  | E : bool_decide _ = true |- _ => apply bool_decide_eq_true in E
  | E : (_ =? _) = true |- _ => apply Z.eqb_eq in E
  | E : match kind_from_tag _ with _ => _ end = Ok _ |- _ =>
      destruct (kind_from_tag _) as [k'|] eqn:Hk; [|done]; apply kind_tag_inv in Hk
  | E : match read_digest _ with _ => _ end = Ok _ |- _ =>
      destruct (read_digest _) as [d|] eqn:Hd; [|done]; apply read_digest_Some in Hd as [Hd ?]
  end. simplify_eq.
  pose proof (be_value_range (String.substring 20 4 header)) as Hn. rewrite Hsub in Hn by lia.
  split_and!; [|done|lia|lia|unfold u32_max; lia|lia].
  rewrite (header_parts header Hl) at 1. unfold encode_header. rewrite Hm.
  assert (Hfield : ∀ i k z, (i + k <= 95)%nat → be_value (String.substring i k header) = z →
            String.substring i k header = be_bytes k z).
  { intros i k z Hik Hz. by apply be_value_eq; [apply Hsub|]. }
  by rewrite <- (Hfield 8%nat 2%nat _ ltac:(lia) Hscan), <- (Hfield 10%nat 1%nat _ ltac:(lia) Hk),
    <- (Hfield 11%nat 1%nat _ ltac:(lia) Hscan1), <- (Hfield 12%nat 8%nat _ ltac:(lia) eq_refl),
    <- (Hfield 20%nat 4%nat _ ltac:(lia) eq_refl).
Qed.
(** The fields of a header are the parts it was put together from. *)
Lemma header_fields m v t z s l p :
  String.length m = 8%nat → String.length v = 2%nat → String.length t = 1%nat →
  String.length z = 1%nat → String.length s = 8%nat → String.length l = 4%nat →
  String.length p = DIGEST_BYTES →
  let header := m +:+ v +:+ t +:+ z +:+ s +:+ l +:+ p in
  String.substring 8 2 header = v ∧ String.substring 10 1 header = t
  ∧ String.substring 11 1 header = z ∧ String.substring 12 8 header = s
  ∧ String.substring 20 4 header = l ∧ String.substring 24 DIGEST_BYTES header = p.
Proof.
  intros Hm Hv Ht Hz Hs Hl Hp header.
  assert (Hh : String.length header = HEADER_BYTES).
  { unfold header. rewrite !str_length_app, Hm, Hv, Ht, Hz, Hs, Hl, Hp. done. }
  assert (Hsub : ∀ i k, (i + k <= 95)%nat → String.length (String.substring i k header) = k).
  { intros. apply substring_length. rewrite Hh. change HEADER_BYTES with 95%nat. lia. }
  pose proof (header_parts header Hh) as E. unfold header in E at 1.
  repeat (apply str_app_inj_len in E as [? E]; [|rewrite Hsub by lia; done]). split_and!; congruence.
Qed.
Lemma scan_header_encoded config kind sequence prior start n :
  0 <= sequence <= u64_max → 0 <= n <= u32_max → digest_validate prior = Ok tt →
  n <= jb_maximum_record_payload_bytes (jc_bounds config) →
  start + Z.of_nat HEADER_BYTES + n <= u64_max →
  scan_header config sequence prior start (encode_header kind sequence n prior) = Ok (kind, n).
Proof.
  intros Hs Hn Hp Hmax Hext. pose proof (digest_validate_slen _ Hp) as Hpl. unfold slen in Hpl.
  destruct (header_fields DATA_MAGIC (be_bytes 2 JOURNAL_FORMAT_VERSION_V1)
    (be_bytes 1 (kind_tag kind)) (be_bytes 1 0) (be_bytes 8 sequence) (be_bytes 4 n) prior)
    as (Hv&Ht&Hz&Hq&Hl&Hd); [by rewrite ?be_bytes_length..|unfold DIGEST_BYTES; lia|].
  unfold scan_header, encode_header. rewrite Hv, Ht, Hz, Hq, Hl, Hd.
  rewrite (proj2 (read_digest_Some prior prior)) by done.
  rewrite (be_roundtrip 2), (be_roundtrip 1 0) by done.
  rewrite (be_roundtrip 1) by (by destruct kind).
  rewrite (be_roundtrip 8) by (unfold u64_max in *; lia).
  rewrite (be_roundtrip 4) by (unfold u32_max in *; lia).
  replace (kind_from_tag (kind_tag kind)) with (Some kind) by (by destruct kind).
  cbn [ensure mbind result_bind Z.eqb Pos.eqb JOURNAL_FORMAT_VERSION_V1].
  rewrite Z.eqb_refl. cbn [ensure mbind result_bind].
  rewrite (proj2 (Z.ltb_ge _ n)) by done. cbn [negb ensure mbind result_bind].
  rewrite bool_decide_eq_true_2 by done. cbn [ensure mbind result_bind].
  by rewrite (proj2 (Z.leb_le _ u64_max)).
Qed.

(** So are the trailer and the commit marker. *)
Lemma scan_trailer_encoded payload_start payload_end header payload trailer :
  String.length trailer = TRAILER_BYTES →
  digest_validate (frame_digest header payload) = Ok tt →
  scan_trailer payload_start payload_end header payload trailer = Ok (frame_digest header payload)
  ↔ trailer = encode_trailer (frame_digest header payload).
Proof.
  intros Hl Hd. unfold scan_trailer, encode_trailer.
  assert (Hparts : trailer = String.substring 0 8 trailer +:+ String.substring 8 DIGEST_BYTES trailer).
  { rewrite <- (substring_all trailer) at 1. rewrite Hl. apply (substring_split trailer 0 8). }
  split.
  - intros Hs. inv_scan. rewrite Hparts. repeat match goal with
    | E : bool_decide _ = true |- _ => apply bool_decide_eq_true in E
    | E : match read_digest _ with _ => _ end = Ok _ |- _ =>
        destruct (read_digest _) as [d|] eqn:Hr; [|done]; apply read_digest_Some in Hr as [Hr ?]
    end. congruence.
  - intros E. rewrite E in Hparts. apply str_app_inj_len in Hparts as [Hp1 Hp2].
    2:{ rewrite substring_length; [done|]. rewrite <- E, Hl. change TRAILER_BYTES with 79%nat. lia. }
    rewrite E, <- Hp1, <- Hp2.
    rewrite (proj2 (read_digest_Some _ (frame_digest header payload))) by done.
    rewrite bool_decide_eq_true_2 by done. cbn [ensure mbind result_bind].
    by rewrite bool_decide_eq_true_2.
Qed.
Lemma scan_trailer_valid payload_start payload_end header payload trailer d :
  scan_trailer payload_start payload_end header payload trailer = Ok d → digest_validate d = Ok tt.
Proof.
  unfold scan_trailer. intros Hs. inv_scan. simplify_eq.
  match goal with E : match read_digest _ with _ => _ end = Ok _ |- _ => by apply read_digest_Ok in E as [_ ?] end.
Qed.
Lemma scan_commit_valid trailer_end sequence d commit :
  scan_commit trailer_end sequence d commit = Ok tt → digest_validate (commit_checksum sequence d) = Ok tt.
Proof.
  unfold scan_commit. intros Hs. inv_scan. split_and_bool.
  repeat match goal with
  | E : bool_decide _ = true |- _ => apply bool_decide_eq_true in E
  | E : (_ =? _) = true |- _ => apply Z.eqb_eq in E
  | E : match read_digest _ with _ => _ end = Ok _ |- _ => apply read_digest_Ok in E as [_ ?]
  end. congruence.
Qed.
Lemma commit_parts commit :
  String.length commit = COMMIT_BYTES →
  commit = String.substring 0 8 commit +:+ String.substring 8 8 commit
           +:+ String.substring 16 DIGEST_BYTES commit
           +:+ String.substring (16 + DIGEST_BYTES) DIGEST_BYTES commit.
Proof.
  intros Hl. rewrite <- (substring_all commit) at 1. rewrite Hl.
  change COMMIT_BYTES with (8 + (8 + (DIGEST_BYTES + DIGEST_BYTES)))%nat.
  rewrite !substring_split. done.
Qed.
Lemma scan_commit_encoded trailer_end sequence d commit :
  String.length commit = COMMIT_BYTES → 0 <= sequence <= u64_max → digest_validate d = Ok tt →
  digest_validate (commit_checksum sequence d) = Ok tt →
  scan_commit trailer_end sequence d commit = Ok tt ↔ commit = encode_commit sequence d.
Proof.
  intros Hl Hs Hd Hc. pose proof (commit_parts commit Hl) as Hparts.
  assert (Hsub : ∀ i k, (i + k <= 158)%nat → String.length (String.substring i k commit) = k).
  { intros. apply substring_length. rewrite Hl. change COMMIT_BYTES with 158%nat. lia. }
  unfold scan_commit, encode_commit. split.
  - intros Hscan. inv_scan. split_and_bool. rewrite Hparts. repeat match goal with
    | E : bool_decide _ = true |- _ => apply bool_decide_eq_true in E
    | E : (_ =? _) = true |- _ => apply Z.eqb_eq in E
    | E : match read_digest _ with _ => _ end = Ok _ |- _ => apply read_digest_Ok in E as [? ?]
    end.
    match goal with E : be_value (String.substring 8 8 commit) = _ |- _ =>
      destruct (be_value_eq _ 8 _ (Hsub 8%nat 8%nat ltac:(lia)) E) as [Hb _] end.
    rewrite Hb. congruence.
  - intros E. rewrite E in Hparts at 1.
    pose proof (digest_validate_slen _ Hd) as Hdl. unfold slen in Hdl.
    apply str_app_inj_len in Hparts as [Hp0 Hparts]; [|by rewrite Hsub by lia].
    apply str_app_inj_len in Hparts as [Hp1 Hparts]; [|by rewrite be_bytes_length, Hsub by lia].
    apply str_app_inj_len in Hparts as [Hp2 Hp3];
      [|rewrite Hsub; unfold DIGEST_BYTES; lia].
    rewrite <- Hp0, <- Hp1, <- Hp2, <- Hp3, be_roundtrip by (unfold u64_max in *; lia).
    rewrite (proj2 (read_digest_Some d d)) by done.
    rewrite (proj2 (read_digest_Some (commit_checksum sequence d) (commit_checksum sequence d)))
      by done.
    rewrite bool_decide_eq_true_2 by done. cbn [ensure mbind result_bind].
    by rewrite Z.eqb_refl, !bool_decide_eq_true_2.
Qed.

(** The cursor of a scan that has read a file so far. *)
Definition cursor_at (bytes : string) (records : list HistoricalJournalRecordV1) (prior : DigestV1)
  : Cursor :=
  {| cs_offset := slen bytes;
     cs_records := records;
     cs_expected_sequence := Z.of_nat (length records) + 1;
     cs_expected_prior := prior;
     cs_last_digest := match records with [] => None | _ => Some prior end;
     cs_immutable_identities := identities_of records |}.

Lemma identities_of_app xs ys : identities_of (xs ++ ys) = identities_of xs ∪ identities_of ys.
Proof. unfold identities_of. by rewrite omap_app, list_to_set_app_L. Qed.

Lemma written_prior_slen config bytes records prior :
  written config bytes records prior → slen prior = 71.
Proof. destruct 1; apply digest_parts_slen. Qed.

Lemma encode_trailer_length d : slen d = 71 → String.length (encode_trailer d) = TRAILER_BYTES.
Proof.
  intros Hd. unfold encode_trailer. rewrite str_length_app. unfold slen in Hd.
  change (String.length TRAILER_MAGIC) with 8%nat. change TRAILER_BYTES with 79%nat. lia.
Qed.
Lemma encode_commit_length sequence d :
  slen d = 71 → String.length (encode_commit sequence d) = COMMIT_BYTES.
Proof.
  intros Hd. unfold encode_commit. rewrite !str_length_app, be_bytes_length. unfold slen in Hd.
  pose proof (digest_parts_slen "runtime.history-journal.commit.v1"
                [COMMIT_MAGIC; be_bytes 8 sequence; d]) as Hc.
  fold (commit_checksum sequence d) in Hc. unfold slen in Hc.
  change (String.length COMMIT_MAGIC) with 8%nat. change COMMIT_BYTES with 158%nat. lia.
Qed.
Lemma frame_digest_slen header payload : slen (frame_digest header payload) = 71.
Proof. apply digest_parts_slen. Qed.

Lemma frame_bytes_slen kind sequence prior payload :
  slen prior = 71 →
  slen (frame_bytes kind sequence prior payload)
  = Z.of_nat HEADER_BYTES + slen payload + Z.of_nat (TRAILER_BYTES + COMMIT_BYTES).
Proof.
  intros Hp. unfold frame_bytes, encode_trailer, encode_commit. rewrite !slen_app.
  unfold frame_digest, commit_checksum. rewrite !digest_parts_slen.
  rewrite (slen_be 8). unfold slen at 1. rewrite encode_header_length by done.
  change (slen TRAILER_MAGIC) with 8. change (slen COMMIT_MAGIC) with 8.
  change (Z.of_nat (TRAILER_BYTES + COMMIT_BYTES)) with 237. lia.
Qed.
Lemma written_size config bytes records prior :
  written config bytes records prior → 332 * Z.of_nat (length records) <= slen bytes.
Proof.
  induction 1 as [|bytes records prior payload record Hw IH]; [done|].
  rewrite slen_app, frame_bytes_slen, length_app by (by eapply written_prior_slen).
  change (Z.of_nat HEADER_BYTES) with 95. change (Z.of_nat (TRAILER_BYTES + COMMIT_BYTES)) with 237.
  pose proof (slen_nonneg payload). cbn [length]. lia.
Qed.

(** One iteration over the next frame of the abstract journal. *)
Lemma scan_frame config bytes records prior payload record rest :
  slen bytes + Z.of_nat HEADER_BYTES + slen payload <= u64_max →
  Z.of_nat (length records) + 2 <= u64_max →
  next_record config records payload record →
  frame_digests (jr_record_kind record) (Z.of_nat (length records) + 1) prior payload →
  let kind := jr_record_kind record in
  let sequence := Z.of_nat (length records) + 1 in
  let frame := frame_bytes kind sequence prior payload in
  scan_record config (cursor_at bytes records prior) (frame +:+ rest)
  = Ok (cursor_at (bytes +:+ frame) (records ++ [record])
          (frame_digest (encode_header kind sequence (slen payload) prior) payload), rest).
Proof.
  intros Hext Hseq [Hroom Hmax Hu32 Hparse Hvalid Hrs Hfresh] [Hp Hfd Hcd] kind sequence frame.
  pose proof (slen_nonneg payload) as Hn.
  pose proof (digest_validate_slen _ Hp) as Hpl.
  pose proof (encode_header_length kind sequence (slen payload) prior Hpl) as Hhl.
  set (header := encode_header kind sequence (slen payload) prior) in *.
  apply scan_record_Ok. exists header, payload, (encode_trailer (frame_digest header payload)),
    (encode_commit sequence (frame_digest header payload)).
  split; [unfold frame, frame_bytes; cbv zeta; fold header; by rewrite !str_app_assoc|].
  pose proof (encode_trailer_length _ (frame_digest_slen header payload)) as Htl.
  pose proof (encode_commit_length sequence _ (frame_digest_slen header payload)) as Hcl.
  constructor; [done|by eexists|done|]. exists kind, record. cbv zeta.
  change (cs_offset (cursor_at bytes records prior)) with (slen bytes).
  change (cs_expected_sequence (cursor_at bytes records prior)) with sequence.
  split_and!.
  - apply scan_header_encoded; unfold sequence; try done; lia.
  - apply scan_trailer_encoded; [done|exact Hfd|done].
  - apply scan_commit_encoded; [done|unfold sequence; lia|exact Hfd|exact Hcd|done].
  - unfold scan_payload. rewrite Hparse. cbn [map_err mbind result_bind].
    assert (Hschema : (jr_schema_version record =? SCHEMA_VERSION_V1) = true).
    { unfold record_validate in Hvalid. by inv_oks. }
    rewrite Hschema, Hrs, Z.eqb_refl, bool_decide_eq_true_2 by done.
    cbn [andb ensure mbind result_bind]. by rewrite Hvalid.
  - done.
  - unfold sequence. lia.
  - unfold cursor_at. f_equal.
    + unfold frame. rewrite slen_app, frame_bytes_slen by done.
      rewrite Nat2Z.inj_add. lia.
    + rewrite length_app. cbn. unfold sequence. lia.
    + by destruct records.
    + rewrite identities_of_app. cbn [cs_immutable_identities]. set_solver.
Qed.

Lemma written_scans config bytes records prior rest :
  written config bytes records prior → slen bytes <= i64_max →
  scans config scan_start (bytes +:+ rest) (cursor_at bytes records prior) rest.
Proof.
  intros Hw. revert rest. induction Hw as [|bytes records prior payload record Hw IH Hn Hd]; intros rest Hle.
  - apply scans_refl.
  - pose proof (written_prior_slen _ _ _ _ Hw) as Hpl.
    pose proof (written_size _ _ _ _ Hw) as Hsize.
    rewrite slen_app, frame_bytes_slen in Hle by done. unfold i64_max in *.
    pose proof (slen_nonneg payload).
    rewrite str_app_assoc. eapply scans_snoc; [apply IH; lia|].
    apply scan_frame; try done; unfold u64_max; lia.
Qed.

(** What a scan has read is an abstract journal. *)
Lemma accepted_frame_written config bytes records prior c' header payload trailer commit :
  written config bytes records prior → slen bytes <= i64_max →
  accepted_frame config (cursor_at bytes records prior) c' header payload trailer commit →
  ∃ records' prior',
    written config (bytes +:+ header +:+ payload +:+ trailer +:+ commit) records' prior'
    ∧ c' = cursor_at (bytes +:+ header +:+ payload +:+ trailer +:+ commit) records' prior'.
Proof.
  intros Hw Hle [Hroom [tail Hmagic] (Hh&Ht&Hc) (kind&record&Hrest)]. cbv zeta in Hrest.
  destruct Hrest as (Hsh&Hst&Hsc&Hsp&Hfresh&Hseq&->).
  cbn [cs_offset cs_expected_sequence cs_expected_prior cs_records cs_immutable_identities cursor_at] in *.
  apply scan_header_Ok in Hsh as (Heh&Hpd&Hmax&Hu32&_); [|done|].
  2:{ rewrite Hmagic. apply (substring_take DATA_MAGIC). }
  pose proof (scan_trailer_valid _ _ _ _ _ _ Hst) as Hfd.
  pose proof (scan_commit_valid _ _ _ _ Hsc) as Hcd.
  apply scan_trailer_encoded in Hst; [|done..].
  apply scan_commit_encoded in Hsc; [|done|lia|done..].
  unfold scan_payload in Hsp. inv_scan. split_and_bool. simplify_eq.
  repeat match goal with
  | E : bool_decide _ = true |- _ => apply bool_decide_eq_true in E
  | E : (_ =? _) = true |- _ => apply Z.eqb_eq in E
  end. subst kind.
  set (header := DATA_MAGIC +:+ tail) in *.
  assert (Hframe : header +:+ payload +:+ encode_trailer (frame_digest header payload)
            +:+ encode_commit (Z.of_nat (length records) + 1) (frame_digest header payload)
          = frame_bytes (jr_record_kind record) (Z.of_nat (length records) + 1) prior payload).
  { unfold frame_bytes. by rewrite <- Heh. }
  exists (records ++ [record]), (frame_digest header payload). rewrite Hframe. split.
  - rewrite Heh. rewrite Heh in Hfd, Hcd. apply written_frame; [done| |by constructor].
    constructor; try done. lia.
  - unfold cursor_at. pose proof (written_prior_slen _ _ _ _ Hw) as Hpl. f_equal.
    + rewrite slen_app, frame_bytes_slen, Nat2Z.inj_add by done. lia.
    + rewrite length_app. cbn. lia.
    + by destruct records.
    + rewrite identities_of_app. set_solver.
Qed.

Lemma scans_written config bytes records prior rest c' rest' :
  written config bytes records prior → slen bytes + slen rest <= i64_max →
  scans config (cursor_at bytes records prior) rest c' rest' →
  ∃ bytes' records' prior', written config bytes' records' prior'
    ∧ bytes +:+ rest = bytes' +:+ rest' ∧ c' = cursor_at bytes' records' prior'.
Proof.
  intros Hw Hle Hs. remember (cursor_at bytes records prior) as c eqn:Hc.
  revert bytes records prior Hw Hle Hc.
  induction Hs as [c rest|c rest c1 rest1 c2 rest2 Hr Hs IH]; intros bytes records prior Hw Hle Hc.
  - eauto 8.
  - rewrite Hc in Hr. apply scan_record_Ok in Hr as (header&payload&trailer&commit&->&Hf).
    rewrite !slen_app in Hle. pose proof (slen_nonneg header). pose proof (slen_nonneg payload).
    pose proof (slen_nonneg trailer). pose proof (slen_nonneg commit). pose proof (slen_nonneg rest1).
    apply accepted_frame_written in Hf as (records'&prior'&Hw'&Hc1); [|done|lia].
    destruct (IH _ _ _ Hw') as (bytes2&records2&prior2&Hw2&E&->); [rewrite !slen_app; lia|done|].
    exists bytes2, records2, prior2. split_and!; [done| |done]. rewrite <- E. by rewrite !str_app_assoc.
Qed.

(** The report of a scan that has read as far as a cursor and stops there. *)
Lemma scan_report config bytes c rest report :
  scans config scan_start bytes c rest → stops config (slen bytes) c rest report →
  scan_bytes bytes config = report.
Proof.
  intros Hs Hst. destruct (scan_bytes_stops config bytes) as (c2&rest2&Hs2&Hst2).
  pose proof (scans_stop _ _ _ _ _ _ _ _ _ Hs Hs2 Hst2) as Hs3.
  inversion Hs3 as [|? ? ? ? ? ? Hbad]; subst.
  - destruct Hst as [[-> ->]|(Hne&d&Hd&->)], Hst2 as [[E ->]|(Hne2&d2&Hd2&->)]; [done..|].
    rewrite Hd in Hd2. by simplify_eq.
  - destruct Hst as [[-> _]|(_&d&Hd&_)]; [|congruence].
    apply scan_record_shorter in Hbad. cbn in Hbad. lia.
Qed.
Lemma scan_clean config bytes records prior :
  written config bytes records prior → slen bytes <= i64_max →
  scan_bytes bytes config
  = clean_report records (slen bytes) (Some (jc_journal_id config))
      (match records with [] => None | _ => Some prior end).
Proof.
  intros Hw Hle. pose proof (written_scans _ _ _ _ "" Hw Hle) as Hs. rewrite str_app_nil_r in Hs.
  eapply scan_report; [done|]. by left.
Qed.

(** C19. Scanning is the abstract journal: a file no longer than [isize::MAX]
    is a clean history of these records exactly when it is a chain of their
    committed frames, whose digests are the recomputed ones and none of them the
    all-zero value that is no digest. *)
Theorem scan_refines_written config bytes records :
  slen bytes <= i64_max →
  rr_outcome (scan_bytes bytes config) = Clean ∧ rr_records (scan_bytes bytes config) = records
  ↔ ∃ prior, written config bytes records prior.
Proof.
  intros Hle. split; [|by intros [prior Hw]; rewrite (scan_clean _ _ _ _ Hw Hle)].
  destruct (scan_bytes_stops config bytes) as (c&rest&Hs&Hst).
  intros [Hclean <-]. rewrite (stops_records _ _ _ _ _ Hst).
  destruct Hst as [[-> _]|(_&d&_&Hd)].
  2:{ rewrite Hd in Hclean. by apply damaged_not_clean in Hclean. }
  change scan_start with (cursor_at "" [] genesis_digest) in Hs.
  apply scans_written in Hs as (bytes'&records'&prior'&Hw&E&->);
    [|apply written_empty|change (slen "") with 0; lia].
  exists prior'. rewrite str_app_nil_l, str_app_nil_r in E. by subst bytes'.
Qed.
End abstract.
