(* ===== verification/JournalCrash.v ===== *)
(** * Appends that are interrupted

    Whatever fails during an append (a write that stops after any number of
    bytes, a sync, the qualification hook), the file on disk is the abstract
    journal of the acknowledged records followed by a prefix of one frame.
    What a scan makes of that prefix is [torn_class]. *)

From S2P Require Import Prelude Ids Digest Judgment Context Qualification CustodyTypes Escalation.
From S2P Require Import Certificate Event Policy Receiver EvaluatorState RuntimeState.
From S2P Require Import RuntimeHistory Journal Wire EscalationProps JournalProps.

(** The damage a scan reports for a frame with a payload of [payload] bytes of
    which the first [n] were written. *)
Definition torn_class (payload n : Z) : JournalDamageClassV1 :=
  let header := Z.of_nat HEADER_BYTES in
  let data := header + payload + Z.of_nat TRAILER_BYTES in
  if n <? header then TruncatedHeader
  else if n <? header + payload then TruncatedPayload
  else if n <? data then TruncatedTrailer
  else if n =? data then UncommittedSuffix
  else TruncatedCommitMarker.

Lemma torn_class_recoverable payload n : recoverable (torn_class payload n) = true.
Proof. unfold torn_class. by repeat case_match. Qed.

(** A prefix of [a +:+ b] is a proper prefix of [a], or [a] and a prefix of [b]. *)
Lemma str_app_cases head tail a b :
  head +:+ tail = a +:+ b →
  ((String.length head < String.length a)%nat ∧ ∃ x, a = head +:+ x)
  ∨ ∃ head', head = a +:+ head' ∧ head' +:+ tail = b.
Proof.
  revert head. induction a as [|c a IH]; intros head E; [right; by exists head|].
  destruct head as [|d head]; [left; split; [cbn; lia|by eexists]|].
  rewrite !str_app_cons in E. injection E as -> E. destruct (IH _ E) as [(Hl&x&->)|(head'&->&?)].
  - left. split; [cbn; lia|]. by exists x.
  - right. by exists head'.
Qed.

(** The class of a cut whose place is known. *)
Ltac torn :=
  unfold torn_class; rewrite ?slen_app;
  repeat match goal with
  | |- context [?a <? ?b] => destruct (Z.ltb_spec a b)
  | |- context [?a =? ?b] => destruct (Z.eqb_spec a b)
  end; try done; unfold slen in *; lia.

Section crash.
Context `{Sha256} `{JournalJson}.

Lemma take_bytes_short n bytes d :
  (String.length bytes < n)%nat → take_bytes n bytes d = Err d.
Proof. intros Hl. unfold take_bytes. by rewrite (proj2 (str_take_None _ _)). Qed.

Lemma take_bytes_exact n a b d : String.length a = n → take_bytes n (a +:+ b) d = Ok (a, b).
Proof. intros <-. apply take_bytes_app. Qed.

(** One iteration over a header that was not written to its end. *)
Lemma scan_torn_header config c kind sequence n prior head x :
  Z.of_nat (length (cs_records c)) < jb_maximum_records (jc_bounds config) →
  encode_header kind sequence n prior = head +:+ x → (String.length head < HEADER_BYTES)%nat →
  ∃ d, scan_record config c head = Err d ∧ dg_class d = TruncatedHeader.
Proof.
  intros Hroom Hx Hl. unfold scan_record. rewrite (proj2 (Z.ltb_lt _ _) Hroom).
  cbn [ensure mbind result_bind]. unfold encode_header in Hx.
  rewrite (take_bytes_short HEADER_BYTES head) by done.
  destruct (Z.ltb_spec (slen head) (slen DATA_MAGIC)) as [Hlt|Hge].
  - unfold scan_magic. rewrite (proj2 (Z.ltb_lt _ _) Hlt). cbn [negb ensure mbind result_bind].
    apply str_app_prefix in Hx as [a Ha]; [|unfold slen in Hlt; lia].
    rewrite (proj2 (strip_prefix_Some _ _ a) Ha). by eexists.
  - rewrite (proj2 (scan_magic_Ok _ _)); [by eexists|]. symmetry in Hx.
    apply (str_app_prefix head x DATA_MAGIC) in Hx; [done|unfold slen in Hge; lia].
Qed.

(** One iteration over a frame that was not written to its end. *)
Lemma scan_torn config bytes records prior payload record head tail :
  slen bytes + Z.of_nat HEADER_BYTES + slen payload <= u64_max →
  Z.of_nat (length records) + 2 <= u64_max →
  next_record config records payload record →
  frame_digests (jr_record_kind record) (Z.of_nat (length records) + 1) prior payload →
  frame_bytes (jr_record_kind record) (Z.of_nat (length records) + 1) prior payload = head +:+ tail →
  head ≠ "" → tail ≠ "" →
  ∃ d, scan_record config (cursor_at bytes records prior) head = Err d
    ∧ dg_class d = torn_class (slen payload) (slen head).
Proof.
  intros Hext Hseq [Hroom Hmax Hu32 _ _ _ _] [Hp Hfd _] Hframe Hhead Htail.
  pose proof (slen_nonneg payload) as Hn. pose proof (digest_validate_slen _ Hp) as Hpl.
  set (sequence := Z.of_nat (length records) + 1) in *.
  set (kind := jr_record_kind record) in *.
  pose proof (encode_header_length kind sequence (slen payload) prior Hpl) as Hhl.
  unfold frame_bytes in Hframe. cbv zeta in Hframe.
  set (header := encode_header kind sequence (slen payload) prior) in *.
  set (digest := frame_digest header payload) in *.
  pose proof (encode_trailer_length _ (frame_digest_slen header payload)) as Htl. fold digest in Htl.
  pose proof (encode_commit_length sequence _ (frame_digest_slen header payload)) as Hcl.
  fold digest in Hcl.
  assert (Hsh : scan_header config sequence prior (slen bytes) header = Ok (kind, slen payload)).
  { apply scan_header_encoded; unfold sequence; try done; lia. }
  symmetry in Hframe. apply str_app_cases in Hframe as [(Hl&x&Hx)|(head2&->&Hframe)].
  { rewrite Hhl in Hl. destruct (scan_torn_header config (cursor_at bytes records prior) kind sequence
      (slen payload) prior head x) as (d&Hd&Hc); [done..|]. exists d. rewrite Hc. split; [done|torn]. }
  unfold scan_record. cbn [cs_offset cs_records cs_expected_sequence cs_expected_prior cursor_at].
  rewrite (proj2 (Z.ltb_lt _ _) Hroom). cbn [ensure mbind result_bind]. fold sequence.
  rewrite (proj2 (scan_magic_Ok _ _)) by (unfold header, encode_header; eexists; by rewrite str_app_assoc).
  cbn [mbind result_bind]. rewrite (take_bytes_exact HEADER_BYTES header) by done. cbn [mbind result_bind].
  rewrite Hsh. cbn [mbind result_bind].
  assert (Z.to_nat (slen payload) = String.length payload) as -> by (unfold slen; lia).
  apply str_app_cases in Hframe as [(Hl&x&Hx)|(head3&->&Hframe)].
  { rewrite take_bytes_short by done. cbn [mbind result_bind]. eexists. split; [done|]. cbn [dg_class]. torn. }
  rewrite take_bytes_app. cbn [mbind result_bind].
  apply str_app_cases in Hframe as [(Hl&x&Hx)|(head4&->&Hframe)].
  { rewrite take_bytes_short by lia. cbn [mbind result_bind]. eexists. split; [done|]. cbn [dg_class]. torn. }
  rewrite (take_bytes_exact TRAILER_BYTES) by done. cbn [mbind result_bind].
  rewrite (proj2 (scan_trailer_encoded _ _ header payload _ Htl Hfd)) by done.
  cbn [mbind result_bind].
  destruct (Z.eqb_spec (slen head4) 0) as [Hz|Hz]; cbn [negb ensure mbind result_bind].
  { eexists. split; [done|]. cbn [dg_class]. torn. }
  rewrite take_bytes_short.
  { cbn [mbind result_bind]. eexists. split; [done|]. cbn [dg_class]. torn. }
  rewrite <- Hcl, <- Hframe, str_length_app. destruct tail; [done|]. cbn [String.length]. lia.
Qed.
End crash.

(* ------------------------------------------------------------------ *)
(** ** What reaches the file *)

Section writing.
Context `{FileSystem}.

(** A computation that appends to one file some prefix of [s], all of it when
    it succeeds. *)
Definition writes {A} (path s : string) (c : io A) : Prop :=
  ∀ w bytes, wd_files w !! path = Some bytes →
    ∃ head tail, s = head +:+ tail ∧ wd_files (c w).1 !! path = Some (bytes +:+ head)
      ∧ (is_ok (c w).2 = true → tail = "").

Lemma writes_bind {A B} path s1 s2 (c : io A) (k : A → io B) :
  writes path s1 c → (∀ a, writes path s2 (k a)) → writes path (s1 +:+ s2) (c ≫= k).
Proof.
  intros Hc Hk w bytes Hb. destruct (Hc w bytes Hb) as (head&tail&->&Hw&Hok).
  unfold mbind, io_bind. destruct (c w) as [w' [a|e]]; cbn in Hw, Hok.
  - rewrite Hok, str_app_nil_r by done. destruct (Hk a w' _ Hw) as (head2&tail2&->&Hw2&Hok2).
    exists (head +:+ head2), tail2. rewrite Hw2, !str_app_assoc. by split_and!.
  - exists head, (tail +:+ s2). rewrite str_app_assoc. done.
Qed.
Lemma writes_then {A B} path s (c : io A) (k : A → io B) :
  writes path "" c → (∀ a, writes path s (k a)) → writes path s (c ≫= k).
Proof. apply (writes_bind path ""). Qed.
Lemma writes_last {A B} path s (c : io A) (k : A → io B) :
  writes path s c → (∀ a, writes path "" (k a)) → writes path s (c ≫= k).
Proof. intros Hc Hk. rewrite <- (str_app_nil_r s). by apply writes_bind. Qed.
Lemma writes_quiet {A} path (c : io A) : (∀ w, wd_files (c w).1 = wd_files w) → writes path "" c.
Proof. intros Hq w bytes Hb. exists "", "". by rewrite Hq, !str_app_nil_r. Qed.
Lemma writes_all path s : writes path s (write_all_bytes path s).
Proof.
  intros w bytes Hb. unfold write_all_bytes, append_bytes, contents, tick_call. rewrite Hb. cbn.
  destruct (fs_error (wd_calls w)) as [e|]; cbn.
  - destruct (substring_prefix s (fs_written (wd_calls w))) as (tail&Hs&_). unfold str_prefix.
    eexists _, tail. split; [exact Hs|]. by rewrite lookup_insert_eq.
  - exists s, "". by rewrite str_app_nil_r, lookup_insert_eq.
Qed.

Lemma split_half s :
  str_prefix (div_ceil_2 (String.length s)) s
  +:+ String.substring (div_ceil_2 (String.length s))
        (String.length s - div_ceil_2 (String.length s)) s = s.
Proof.
  unfold str_prefix, div_ceil_2. set (n := Nat.div2 (S (String.length s))).
  assert (n <= String.length s)%nat.
  { unfold n. destruct (String.length s) as [|k]; [done|].
    rewrite Nat.div2_div. apply Nat.Div0.div_le_upper_bound. lia. }
  rewrite <- (substring_split s 0). replace (n + _)%nat with (String.length s) by lia.
  apply substring_all.
Qed.
Lemma file_call_quiet w : wd_files (file_call w).1 = wd_files w.
Proof. done. Qed.
Lemma run_hook_quiet hook stage w : wd_files (run_hook hook stage w).1 = wd_files w.
Proof. done. Qed.
Lemma sync_file_quiet durability w : wd_files (sync_file durability w).1 = wd_files w.
Proof. by destruct durability. Qed.

Lemma writes_split path s stage hook : writes path s (write_split path s stage hook).
Proof.
  unfold write_split. rewrite <- (split_half s) at 1. apply writes_bind; [apply writes_all|intros _].
  apply writes_then; [by apply writes_quiet|intros _].
  apply writes_then; [by apply writes_quiet|intros _]. apply writes_all.
Qed.

Lemma writes_frame path `{Sha256} f durability hook :
  writes path (fr_header f +:+ fr_payload f +:+ fr_trailer f +:+ fr_commit f)
    (write_frame path f durability hook).
Proof.
  unfold write_frame. apply writes_bind; [apply writes_split|intros _].
  apply writes_bind; [apply writes_split|intros _].
  apply writes_bind; [apply writes_split|intros _].
  apply writes_then; [by apply writes_quiet|intros _].
  apply writes_then; [by apply writes_quiet|intros _].
  apply writes_then; [apply writes_quiet, sync_file_quiet|intros _].
  apply writes_then; [by apply writes_quiet|intros first].
  apply writes_then; [by apply writes_quiet|intros _].
  apply writes_last; [apply writes_split|intros _].
  apply writes_then; [by apply writes_quiet|intros _].
  apply writes_then; [apply writes_quiet, sync_file_quiet|intros _].
  apply writes_then; [by apply writes_quiet|intros second].
  apply writes_then; [by apply writes_quiet|intros _]. by apply writes_quiet.
Qed.
End writing.

(* ------------------------------------------------------------------ *)
(** ** The journal and its file *)

Section runs.
Context `{Sha256} `{JournalJson} `{FileSystem}.

(** The JSON of the record parses back to it. *)
Definition json_roundtrips (r : HistoricalJournalRecordV1) : Prop :=
  record_parse (record_json r) = Ok r.

(** A frame that can be read back: the JSON of its record parses to the record,
    and none of its digests is the all-zero value. *)
Record readable_frame (prior : DigestV1) (f : Frame) : Prop := mkReadableFrame {
  rf_json : json_roundtrips (fr_record f);
  rf_digests : frame_digests (jr_record_kind (fr_record f)) (jr_record_sequence (fr_record f)) prior
                 (fr_payload f);
}.

(** One operation on a journal at a path: an append of a frame that can be read
    back with any failures of the file system and of the hook, or a restart that
    reopens the file. *)
Inductive journal_step (path : string) (config : JournalConfigV1)
    : World * HistoricalJournal → World * HistoricalJournal → Prop :=
| step_append w j epoch at_ms context body durability hook w' j' res :
    (∀ f, prepare_frame j epoch at_ms context body durability = Ok f →
       readable_frame (jn_prior_frame_digest j) f) →
    append_with_qualification_hook j epoch at_ms context body durability hook w = (w', j', res) →
    journal_step path config (w, j) (w', j')
| step_open w j w' j' report :
    open_clean path config w = (w', Ok (j', report)) → journal_step path config (w, j) (w', j').
Definition journal_reachable (path : string) (config : JournalConfigV1) (s : World * HistoricalJournal)
  : Prop :=
  ∃ w0 w j, create_new path config w0 = (w, Ok j) ∧ rtc (journal_step path config) (w, j) s.

(** The file is the abstract journal of the committed records. *)
Record in_step (config : JournalConfigV1) (bytes : string) (prior : DigestV1) (w : World)
    (j : HistoricalJournal) : Prop := {
  is_file : wd_files w !! jn_path j = Some bytes;
  is_sequence : jn_next_sequence j = Z.of_nat (length (jn_committed_records j)) + 1;
  is_prior : jn_prior_frame_digest j = prior;
  is_bytes : jn_file_bytes j = slen bytes;
  is_identities : jn_immutable_identities j = identities_of (jn_committed_records j);
}.

(** It is followed by a prefix of one more frame. *)
Record interrupted (config : JournalConfigV1) (bytes : string) (prior : DigestV1) (w : World)
    (j : HistoricalJournal) (record : HistoricalJournalRecordV1) (head tail : string) : Prop := {
  in_next : next_record config (jn_committed_records j) (record_json record) record;
  in_digests : frame_digests (jr_record_kind record) (Z.of_nat (length (jn_committed_records j)) + 1)
                 prior (record_json record);
  in_frame : frame_bytes (jr_record_kind record) (Z.of_nat (length (jn_committed_records j)) + 1)
               prior (record_json record) = head +:+ tail;
  in_file : wd_files w !! jn_path j = Some (bytes +:+ head);
  in_size : slen bytes + slen head + slen tail <= jb_maximum_file_bytes (jc_bounds config);
}.

Record journal_ok (path : string) (config : JournalConfigV1) (w : World) (j : HistoricalJournal)
    : Prop := {
  jo_path : jn_path j = path;
  jo_config : jn_config j = config;
  jo_file : ∃ bytes prior,
    written config bytes (jn_committed_records j) prior
    ∧ encoded_sizes (jn_committed_records j) = slen bytes
    ∧ slen bytes <= jb_maximum_file_bytes (jc_bounds config)
    ∧ if jn_failed j then ∃ record head tail, interrupted config bytes prior w j record head tail
      else in_step config bytes prior w j;
}.

Context (path : string) (config : JournalConfigV1).
(** A file offset is an [i64]. *)
Hypothesis file_bound : jb_maximum_file_bytes (jc_bounds config) <= i64_max.

Lemma prepared_frame bytes prior w j epoch at_ms context body durability f :
  in_step config bytes prior w j → jn_config j = config → slen bytes <= i64_max →
  prepare_frame j epoch at_ms context body durability = Ok f → json_roundtrips (fr_record f) →
  next_record config (jn_committed_records j) (fr_payload f) (fr_record f)
  ∧ fr_payload f = record_json (fr_record f)
  ∧ fr_header f = encode_header (jr_record_kind (fr_record f))
                    (Z.of_nat (length (jn_committed_records j)) + 1) (slen (fr_payload f)) prior
  ∧ fr_digest f = frame_digest (fr_header f) (fr_payload f)
  ∧ slen bytes + fr_encoded_bytes f <= jb_maximum_file_bytes (jc_bounds config).
Proof.
  intros [Hfile Hseq Hprior Hbytes Hids] Hc Hle Hf Hjson. unfold prepare_frame in Hf. rewrite Hc in Hf.
  inv_scan. simplify_eq. cbn [fr_record fr_payload fr_header fr_digest] in *. rewrite Hseq in *.
  split_and_bool.
  split_and!; [|done..|].
  - constructor; cbn [jr_record_sequence jr_body]; try done; try lia.
    intros identity Hid. rewrite Hid in *. inv_oks.
    match goal with E : bool_decide _ = true |- _ => apply bool_decide_eq_true in E; by rewrite <- Hids end.
  - match goal with E : (_ <? sat_add _ _) = false |- _ =>
      apply Z.ltb_ge in E; unfold sat_add in E; rewrite Hbytes in E end.
    unfold fr_encoded_bytes in *. cbn [fr_payload] in *. unfold i64_max, u64_max in *. lia.
Qed.

Lemma frame_bytes_of bytes prior w j epoch at_ms context body durability f :
  in_step config bytes prior w j → jn_config j = config → slen bytes <= i64_max →
  prepare_frame j epoch at_ms context body durability = Ok f → json_roundtrips (fr_record f) →
  fr_header f +:+ fr_payload f +:+ fr_trailer f +:+ fr_commit f
  = frame_bytes (jr_record_kind (fr_record f)) (Z.of_nat (length (jn_committed_records j)) + 1) prior
      (record_json (fr_record f)).
Proof.
  intros Hin Hc Hle Hf Hjson.
  destruct (prepared_frame _ _ _ _ _ _ _ _ _ _ Hin Hc Hle Hf Hjson) as (Hn&Hp&Hh&Hd&_).
  unfold frame_bytes, fr_trailer, fr_commit. by rewrite (nx_sequence _ _ _ _ Hn), Hd, <- Hp, Hh.
Qed.
Lemma fr_encoded_slen bytes records prior f n :
  written config bytes records prior → fr_payload f = record_json (fr_record f) →
  slen (frame_bytes (jr_record_kind (fr_record f)) n prior (record_json (fr_record f)))
  = fr_encoded_bytes f.
Proof.
  intros Hw Hp. rewrite frame_bytes_slen by (by eapply written_prior_slen).
  unfold fr_encoded_bytes. by rewrite Hp.
Qed.

Lemma encoded_sizes_snoc records record bytes :
  encoded_sizes records = slen bytes → slen bytes + encoded_size record <= i64_max →
  encoded_sizes (records ++ [record]) = slen bytes + encoded_size record.
Proof.
  intros Hr Hle. unfold encoded_sizes. rewrite fold_left_app. cbn. fold (encoded_sizes records).
  rewrite Hr. unfold sat_add, u64_max, i64_max in *. lia.
Qed.

(** The journal after a frame that reached the file whole. *)
Lemma commit_ok bytes prior w w' j f :
  jn_path j = path → jn_config j = config → jn_failed j = false →
  written config bytes (jn_committed_records j) prior →
  encoded_sizes (jn_committed_records j) = slen bytes →
  in_step config bytes prior w j →
  next_record config (jn_committed_records j) (fr_payload f) (fr_record f) →
  fr_payload f = record_json (fr_record f) →
  frame_digests (jr_record_kind (fr_record f)) (Z.of_nat (length (jn_committed_records j)) + 1) prior
    (record_json (fr_record f)) →
  fr_header f = encode_header (jr_record_kind (fr_record f))
                  (Z.of_nat (length (jn_committed_records j)) + 1) (slen (fr_payload f)) prior →
  fr_digest f = frame_digest (fr_header f) (fr_payload f) →
  slen bytes + fr_encoded_bytes f <= jb_maximum_file_bytes (jc_bounds config) →
  wd_files w' !! jn_path j
  = Some (bytes +:+ frame_bytes (jr_record_kind (fr_record f))
                      (Z.of_nat (length (jn_committed_records j)) + 1) prior (fr_payload f)) →
  journal_ok path config w' (commit_frame j f).
Proof.
  intros Hpath Hconfig Hnf Hw Hsizes [Hfile Hseq Hprior Hbytes Hids] Hn Hp Hdig Hh Hd Hroom Hfile'.
  set (n := Z.of_nat (length (jn_committed_records j)) + 1) in *.
  assert (Hsl : slen (frame_bytes (jr_record_kind (fr_record f)) n prior (fr_payload f))
                = fr_encoded_bytes f) by (rewrite Hp; by eapply fr_encoded_slen).
  constructor; [done..|].
  exists (bytes +:+ frame_bytes (jr_record_kind (fr_record f)) n prior (fr_payload f)), (fr_digest f).
  cbn [jn_committed_records jn_failed commit_frame]. rewrite Hnf, slen_app, Hsl. split_and!.
  - rewrite Hd, Hh. apply written_frame; [done|done|]. by rewrite Hp.
  - unfold fr_encoded_bytes in *. rewrite Hp in *. by apply encoded_sizes_snoc; [done|unfold encoded_size; lia].
  - done.
  - constructor; cbn [jn_path jn_next_sequence jn_committed_records jn_prior_frame_digest jn_file_bytes
      jn_immutable_identities commit_frame]; [done| |done| |].
    + rewrite Hseq, length_app. cbn. lia.
    + rewrite Hbytes, slen_app, Hsl. unfold sat_add, u64_max, i64_max in *. lia.
    + rewrite Hids, identities_of_app. unfold identities_of at 3. cbn.
      destruct (immutable_identity _); set_solver.
Qed.

(** An append keeps the journal and its file together. *)
Lemma append_ok w j epoch at_ms context body durability hook w' j' res :
  journal_ok path config w j →
  (∀ f, prepare_frame j epoch at_ms context body durability = Ok f →
     readable_frame (jn_prior_frame_digest j) f) →
  append_with_qualification_hook j epoch at_ms context body durability hook w = (w', j', res) →
  journal_ok path config w' j'.
Proof.
  intros [Hpath Hconfig (bytes&prior&Hw&Hsizes&Hle&Hstate)] Hjson. unfold append_with_qualification_hook.
  destruct (prepare_frame _ _ _ _ _ _) as [f|e] eqn:Hf; [|intros [= <- <- <-]; constructor; eauto 8].
  destruct (Hjson f eq_refl) as [Hjson' Hdig]. clear Hjson. rename Hjson' into Hjson.
  assert (Hnf : jn_failed j = false) by (unfold prepare_frame in Hf; inv_scan; by split_and_bool).
  rewrite Hnf in Hstate. assert (Hle' : slen bytes <= i64_max) by lia.
  destruct (prepared_frame _ _ _ _ _ _ _ _ _ _ Hstate Hconfig Hle' Hf Hjson) as (Hn&Hp&Hh&Hd&Hroom).
  rewrite (is_prior _ _ _ _ _ Hstate), (nx_sequence _ _ _ _ Hn), Hp in Hdig.
  pose proof (frame_bytes_of _ _ _ _ _ _ _ _ _ _ Hstate Hconfig Hle' Hf Hjson) as Hframe.
  pose proof (fr_encoded_slen _ _ _ _ (Z.of_nat (length (jn_committed_records j)) + 1) Hw Hp) as Hsl.
  destruct (writes_frame (jn_path j) f durability hook w bytes (is_file _ _ _ _ _ Hstate))
    as (head&tail&Hsplit&Hfile&Hall). rewrite Hframe in Hsplit.
  destruct (write_frame _ f durability hook w) as [w2 [latency|e]]; cbn [fst snd is_ok] in Hfile, Hall.
  - rewrite Hall, str_app_nil_r in Hsplit by done. rewrite (is_sequence _ _ _ _ _ Hstate).
    pose proof (written_size _ _ _ _ Hw) as Hsize.
    rewrite (proj2 (Z.ltb_ge _ _)) by (unfold u64_max, i64_max in *; lia).
    intros [= <- <- <-]. eapply commit_ok; try done. cbn [tick_call wd_files].
    by rewrite Hfile, <- Hsplit, Hp.
  - intros [= <- <- <-]. constructor; [done..|]. exists bytes, prior.
    cbn [jn_committed_records jn_failed set_jn_failed]. split_and!; [done..|].
    exists (fr_record f), head, tail. constructor; [by rewrite <- Hp|done|done|done|].
    rewrite Hsplit, slen_app in Hsl. lia.
Qed.

(** What a scan makes of an interrupted journal. *)
Lemma interrupted_report bytes prior w j record head tail :
  written config bytes (jn_committed_records j) prior →
  interrupted config bytes prior w j record head tail →
  (head = "" ∧ scan_bytes (bytes +:+ head) config
     = clean_report (jn_committed_records j) (slen bytes) (Some (jc_journal_id config))
         (match jn_committed_records j with [] => None | _ => Some prior end))
  ∨ (tail = "" ∧ ∃ prior',
       written config (bytes +:+ head) (jn_committed_records j ++ [record]) prior')
  ∨ (head ≠ "" ∧ tail ≠ "" ∧ ∃ offset detail, scan_bytes (bytes +:+ head) config
     = damaged_at (torn_class (slen (record_json record)) (slen head)) (jn_committed_records j)
         offset (slen (bytes +:+ head)) detail config
         (match jn_committed_records j with [] => None | _ => Some prior end)).
Proof.
  intros Hw [Hn Hdig Hframe _ Hsize].
  pose proof (slen_nonneg head). pose proof (slen_nonneg tail).
  destruct (decide (head = "")) as [->|Hhead].
  { left. split; [done|]. rewrite str_app_nil_r. apply scan_clean; [done|lia]. }
  destruct (decide (tail = "")) as [->|Htail].
  { right; left. split; [done|]. rewrite str_app_nil_r in Hframe. eexists. rewrite <- Hframe.
    by apply written_frame. }
  right; right. split; [done|]. split; [done|].
  pose proof (written_size _ _ _ _ Hw) as Hlen.
  pose proof (written_prior_slen _ _ _ _ Hw) as Hp.
  assert (Hsl := f_equal slen Hframe). rewrite slen_app, frame_bytes_slen in Hsl
    by done.
  destruct (scan_torn config bytes (jn_committed_records j) prior (record_json record)
              record head tail) as (d&Hd&Hc); [unfold u64_max, i64_max in *; lia..|done|done|done|done|done|].
  exists (dg_offset d), (dg_detail d). rewrite <- Hc.
  eapply scan_report; [apply written_scans; [done|lia]|].
  right. split; [done|]. by exists d.
Qed.

Lemma scan_is_clean w w' report :
  scan path config w = (w', Ok report) → rr_outcome report = Clean →
  ∃ bytes, wd_files w !! path = Some bytes ∧ wd_files w' = wd_files w
    ∧ slen bytes <= jb_maximum_file_bytes (jc_bounds config) ∧ report = scan_bytes bytes config.
Proof.
  unfold scan, file_call, tick_call. cbn.
  destruct (journal_config_validate config); [|done].
  destruct (fs_error (wd_calls w)); [by intros [= <- <-]|]. cbn.
  destruct (wd_files w !! path) as [bytes|]; [|by intros [= <- <-]]. cbn.
  destruct (fs_error (S (wd_calls w))); [by intros [= <- <-]|].
  destruct (_ <? slen bytes) eqn:Hb; [by intros [= <- <-]|]. cbn.
  destruct (fs_error (S (S (wd_calls w)))); [by intros [= <- <-]|].
  intros [= <- <-] _. exists bytes. split_and!; [done..|lia|done].
Qed.

(** A reachable file that scans clean is an abstract journal, of the committed
    records or of one more. *)
Lemma clean_file w j found :
  journal_ok path config w j → wd_files w !! path = Some found →
  rr_outcome (scan_bytes found config) = Clean →
  ∃ records prior, written config found records prior ∧ encoded_sizes records = slen found
    ∧ (records = jn_committed_records j
       ∨ jn_failed j = true ∧ ∃ record, records = jn_committed_records j ++ [record]).
Proof.
  intros [Hpath Hconfig (bytes&prior&Hw&Hsizes&Hle&Hstate)] Hfound Hclean.
  destruct (jn_failed j).
  2:{ destruct Hstate as [Hfile _ _ _ _]. rewrite Hpath, Hfound in Hfile. injection Hfile as ->. eauto 8. }
  destruct Hstate as (record&head&tail&Hi). pose proof Hi as [Hn Hdig Hframe Hfile Hsize].
  rewrite Hpath, Hfound in Hfile. injection Hfile as ->.
  destruct (interrupted_report _ _ _ _ _ _ _ Hw Hi) as [[-> _]|[(->&prior'&Hw')|(_&_&offset&detail&Hr)]].
  - exists (jn_committed_records j), prior. rewrite str_app_nil_r. auto.
  - exists (jn_committed_records j ++ [record]), prior'. rewrite slen_app. split_and!; [done| |eauto].
    rewrite str_app_nil_r in Hframe. rewrite <- Hframe in *.
    pose proof (written_prior_slen _ _ _ _ Hw) as Hp.
    rewrite frame_bytes_slen in * by done. change (slen "") with 0 in Hsize.
    apply encoded_sizes_snoc; [done|]. unfold encoded_size. lia.
  - rewrite Hr in Hclean. by apply damaged_not_clean in Hclean.
Qed.

Lemma written_prior bytes records prior :
  written config bytes records prior →
  default genesis_digest (match records with [] => None | _ => Some prior end) = prior.
Proof. destruct 1 as [|bytes records]; [done|]. by destruct records. Qed.

Lemma open_ok w j w' j' report :
  journal_ok path config w j → open_clean path config w = (w', Ok (j', report)) →
  journal_ok path config w' j'.
Proof.
  intros Hok. unfold open_clean. destruct (scan path config w) as [w1 [rep|e]] eqn:Hs; [|done].
  destruct (decide (rr_outcome rep ≠ Clean)) as [|Hclean]; [done|]. apply dec_stable in Hclean.
  apply scan_is_clean in Hs as (found&Hfound&Hw1&Hmax&->); [|done].
  destruct (clean_file _ _ _ Hok Hfound Hclean) as (records&prior&Hw&Hsizes&_).
  pose proof (written_size _ _ _ _ Hw) as Hlen.
  rewrite (scan_clean _ _ _ _ Hw) by lia.
  unfold at_stage, file_call. destruct (fs_error (wd_calls w1)); [done|]. intros [= <- <- <-].
  constructor; [done..|]. exists found, prior. cbn [jn_committed_records jn_failed rr_records clean_report].
  split_and!; [done..|]. constructor; cbn [jn_path jn_next_sequence jn_committed_records
    jn_prior_frame_digest jn_file_bytes jn_immutable_identities rr_records rr_observed_file_bytes
    rr_last_committed_frame_digest clean_report]; try done.
  - by rewrite <- Hw1 in Hfound.
  - unfold sat_add, len_u64, u64_max, i64_max in *. lia.
  - by eapply written_prior.
Qed.

Lemma create_ok w w' j : create_new path config w = (w', Ok j) → journal_ok path config w' j.
Proof.
  unfold create_new, at_stage, file_call, tick_call. cbn.
  destruct (journal_config_validate config) as [[]|] eqn:Hv; [|done].
  repeat case_match; try done; intros; simplify_eq; cbn in *; simplify_eq.
  constructor; [done..|]. exists "", genesis_digest. cbn [jn_committed_records jn_failed].
  split_and!; [apply written_empty|done| |].
  - unfold journal_config_validate, journal_bounds_validate in Hv. inv_scan. split_and_bool.
    change (slen "") with 0. apply Z.ltb_ge in Hv.
    change (Z.of_nat (HEADER_BYTES + TRAILER_BYTES + COMMIT_BYTES)) with 332 in Hv. lia.
  - constructor; cbn; try done. by rewrite lookup_insert_eq.
Qed.

Lemma step_ok s s' :
  journal_step path config s s' → journal_ok path config s.1 s.2 →
  journal_ok path config s'.1 s'.2 ∧ jn_committed_records s.2 `prefix_of` jn_committed_records s'.2.
Proof.
  intros [w j epoch at_ms context body durability hook w' j' res Hjson Ha|w j w' j' report Ho] Hok;
    cbn [fst snd] in *.
  - split; [by eapply append_ok|]. unfold append_with_qualification_hook in Ha.
    destruct (prepare_frame _ _ _ _ _ _) as [f|]; [|by simplify_eq].
    destruct (write_frame _ f durability hook w) as [? []]; [|by simplify_eq].
    destruct (_ <? _); simplify_eq; [done|]. by exists [fr_record f].
  - split; [by eapply open_ok|]. unfold open_clean in Ho.
    destruct (scan path config w) as [w1 [rep|e]] eqn:Hs; [|done].
    destruct (decide (rr_outcome rep ≠ Clean)) as [|Hclean]; [done|]. apply dec_stable in Hclean.
    apply scan_is_clean in Hs as (found&Hfound&Hw1&Hmax&->); [|done].
    destruct (clean_file _ _ _ Hok Hfound Hclean) as (records&prior&Hw&_&Hrec).
    rewrite (scan_clean _ _ _ _ Hw) in Ho by lia.
    destruct (at_stage _ _ w1) as [? []]; [|done]. injection Ho as <- <- <-.
    cbn [jn_committed_records rr_records clean_report].
    destruct Hrec as [->|(_&record&->)]; [done|by exists [record]].
Qed.
Lemma steps_ok s s' :
  rtc (journal_step path config) s s' → journal_ok path config s.1 s.2 →
  journal_ok path config s'.1 s'.2 ∧ jn_committed_records s.2 `prefix_of` jn_committed_records s'.2.
Proof.
  induction 1 as [|s s1 s2 Hs _ IH]; [done|]. intros Hok.
  destruct (step_ok _ _ Hs Hok) as [Hok1 Hp]. destruct (IH Hok1) as [? ?]. split; [done|]. by etrans.
Qed.
Lemma reachable_ok s : journal_reachable path config s → journal_ok path config s.1 s.2.
Proof. intros (w0&w&j&Hc&Hs). by apply (steps_ok _ _ Hs), (create_ok w0). Qed.

(** What is on disk, and what a scan makes of it. *)
Lemma file_report w j :
  journal_ok path config w j →
  ∃ bytes, wd_files w !! path = Some bytes
    ∧ slen bytes <= jb_maximum_file_bytes (jc_bounds config)
    ∧ let report := scan_bytes bytes config in
      (rr_outcome report = Clean ∧ rr_records report = jn_committed_records j)
      ∨ (jn_failed j = true ∧ rr_outcome report = Clean
         ∧ ∃ record, rr_records report = jn_committed_records j ++ [record])
      ∨ (jn_failed j = true ∧ rr_records report = jn_committed_records j
         ∧ ∃ payload n, rr_damage report = Some (torn_class payload n)
             ∧ slen bytes = rr_valid_prefix_bytes report + n).
Proof.
  intros Hok. pose proof Hok as [Hpath _ (bytes&prior&Hw&Hsizes&Hle&Hstate)].
  destruct (jn_failed j) eqn:Hf.
  - destruct Hstate as (record&head&tail&Hi). pose proof Hi as [Hn Hdig Hframe Hfile Hsize].
    pose proof (slen_nonneg tail). rewrite Hpath in Hfile.
    exists (bytes +:+ head). rewrite slen_app. split_and!; [done|lia|].
    destruct (interrupted_report _ _ _ _ _ _ _ Hw Hi) as [[_ ->]|[(->&prior'&Hw')|(_&_&offset&detail&->)]].
    + by left.
    + right; left. rewrite (scan_clean _ _ _ _ Hw'); [by eauto|].
      rewrite slen_app. change (slen "") with 0 in Hsize. lia.
    + right; right. split_and!; [done..|]. eexists _, _. split; [done|].
      cbn [rr_valid_prefix_bytes damaged_at damaged_report]. by rewrite Hsizes.
  - destruct Hstate as [Hfile _ _ _ _]. rewrite Hpath in Hfile. exists bytes. split_and!; [done..|].
    left. by rewrite (scan_clean _ _ _ _ Hw) by lia.
Qed.

End runs.
