(* ===== verification/JournalHistory.v ===== *)
(** * Recovered history can always be projected

    [project_history] refuses events and receipts that occur twice.  A scan has
    refused them already, so whatever the file holds, a report that is not
    refused projects to a history with its events in file order. *)

From S2P Require Import Prelude Ids Digest Judgment Context Qualification CustodyTypes Escalation.
From S2P Require Import Certificate Event Policy Receiver EvaluatorState RuntimeState.
From S2P Require Import RuntimeHistory Journal JournalProps.

Section projection.
Context `{Sha256} `{JournalJson}.

Definition record_identities (records : list HistoricalJournalRecordV1) : list string :=
  omap (fun r => immutable_identity (jr_body r)) records.

(** The loop's set holds the identities seen, each once. *)
Definition distinct (c : Cursor) : Prop :=
  cs_immutable_identities c = list_to_set (record_identities (cs_records c))
  ∧ NoDup (record_identities (cs_records c)).

Lemma scan_record_distinct config c bytes c' rest :
  scan_record config c bytes = Ok (c', rest) → distinct c → distinct c'.
Proof.
  rewrite scan_record_Ok. intros (?&?&?&?&_&[_ _ _ (kind&record&Hrest)]) [Hset Hnd]. cbv zeta in Hrest.
  destruct Hrest as (_&_&_&_&Hfresh&_&->). unfold distinct, record_identities, identities_of in *.
  cbn [cs_immutable_identities cs_records]. rewrite omap_app. cbn.
  destruct (immutable_identity (jr_body record)) as [identity|].
  - rewrite list_to_set_app_L, Hset. split; [set_solver|]. apply NoDup_app.
    split_and!; [done| |apply NoDup_singleton]. specialize (Hfresh identity eq_refl).
    rewrite Hset in Hfresh. set_solver.
  - rewrite app_nil_r. split; [|done]. rewrite Hset. set_solver.
Qed.
Lemma scans_distinct config c bytes c' rest : scans config c bytes c' rest → distinct c → distinct c'.
Proof. induction 1; eauto using scan_record_distinct. Qed.
Lemma scanned_distinct config bytes : NoDup (record_identities (rr_records (scan_bytes bytes config))).
Proof.
  destruct (scan_bytes_stops config bytes) as (c&rest&Hs&Hst). rewrite (stops_records _ _ _ _ _ Hst).
  apply (scans_distinct _ _ _ _ _ Hs). split; [done|apply NoDup_nil_2].
Qed.

(** What the projection has collected stands for the records seen. *)
Record collected (p : Projection) (seen : list HistoricalJournalRecordV1) : Prop := {
  co_events : ∀ id, id ∈ pr_event_ids p → "event:" +:+ id ∈ record_identities seen;
  co_receipts : ∀ id, is_Some (pr_receipts p !! id) → "receipt:" +:+ id ∈ record_identities seen;
}.

Definition sparse_event_of (r : HistoricalJournalRecordV1) : option SparseDurableEventV1 :=
  match jr_body r with BodySparseEvent event => Some event | _ => None end.

Lemma project_record_total p seen r :
  collected p seen →
  (∀ identity, immutable_identity (jr_body r) = Some identity → identity ∉ record_identities seen) →
  ∃ p', project_record p r = Ok p' ∧ collected p' (seen ++ [r])
    ∧ pr_sparse_events p' = pr_sparse_events p ++ omap sparse_event_of [r].
Proof.
  intros [He Hc] Hfresh. unfold project_record, sparse_event_of, record_identities in *. cbn.
  assert (Hgrow : ∀ x, x ∈ omap (λ r, immutable_identity (jr_body r)) seen →
            x ∈ omap (λ r, immutable_identity (jr_body r)) (seen ++ [r])).
  { intros x Hx. rewrite omap_app, elem_of_app. by left. }
  assert (Hnew : ∀ x, immutable_identity (jr_body r) = Some x →
            x ∈ omap (λ r, immutable_identity (jr_body r)) (seen ++ [r])).
  { intros x Hx. rewrite omap_app, elem_of_app. right. cbn. rewrite Hx. set_solver. }
  destruct (jr_body r) as [event|custody|receipt]; cbn in *.
  - rewrite decide_False by (intros Hin; by apply (Hfresh _ eq_refl), He).
    eexists. split_and!; [done| |done]. constructor; cbn; [|by eauto].
    intros id Hid. apply elem_of_union in Hid as [->%elem_of_singleton|Hid]; eauto.
  - eexists. split_and!; [done| |by rewrite app_nil_r]. constructor; cbn; eauto.
  - destruct (pr_receipts p !! rc_receipt_id receipt) eqn:Hl.
    { exfalso. by apply (Hfresh _ eq_refl), Hc. }
    eexists. split_and!; [done| |by rewrite app_nil_r]. constructor; cbn; [by eauto|].
    intros id. destruct (decide (rc_receipt_id receipt = id)) as [<-|Hne]; [by eauto|].
    rewrite lookup_insert_ne by done. by eauto.
Qed.

Lemma project_records_total p seen rest :
  collected p seen → NoDup (record_identities (seen ++ rest)) →
  ∃ p', project_records p rest = Ok p'
    ∧ pr_sparse_events p' = pr_sparse_events p ++ omap sparse_event_of rest.
Proof.
  revert p seen. induction rest as [|r rest IH]; intros p seen Hc Hnd; cbn [project_records].
  - exists p. by rewrite app_nil_r.
  - destruct (project_record_total p seen r) as (p1&->&Hc1&He1); [done| |].
    + intros identity Hid Hin. unfold record_identities in *. rewrite omap_app, NoDup_app in Hnd.
      destruct Hnd as (_&Hd&_). apply (Hd _ Hin). cbn. rewrite Hid. set_solver.
    + cbn [mbind result_bind]. destruct (IH p1 (seen ++ [r])) as (p2&->&He2); [done|by rewrite <- app_assoc|].
      exists p2. split; [done|]. rewrite He2, He1, <- app_assoc. f_equal.
      change (r :: rest) with ([r] ++ rest). by rewrite omap_app.
Qed.

(** C21. Whatever bytes are scanned, a report that is not refused projects: to a
    valid history that holds the recovered events in the order of the file and
    reconstructs no standing. *)
Theorem recovered_history_projects config bytes :
  let report := scan_bytes bytes config in
  rr_outcome report ≠ OutcomeRefused →
  ∃ p, project_history report = Ok p
    ∧ history_validate (hp_history p) = Ok tt
    ∧ hs_sparse_events (hp_history p) = omap sparse_event_of (rr_records report)
    ∧ hp_history_complete p = rr_history_complete report
    ∧ hp_current_standing_reconstructed p = false.
Proof.
  intros report Hout. unfold project_history. rewrite bool_decide_eq_true_2 by done.
  cbn [ensure mbind result_bind].
  destruct (project_records_total (mkProjection [] ∅ [] ∅ ∅) [] (rr_records report)) as (p&->&Hev).
  - constructor; cbn; [set_solver|]. intros id. rewrite lookup_empty. by intros [].
  - apply scanned_distinct.
  - cbn [mbind result_bind]. unfold history_validate. cbn. rewrite bool_decide_eq_true_2 by done.
    eexists. split; [done|]. cbn. by rewrite bool_decide_eq_true_2.
Qed.
End projection.
