(* ===== verification/JournalSamples.v ===== *)
(** * A journal that is interrupted

    Three appends to a new journal: the first is acknowledged, the second
    stops in the middle of its payload, the third is refused.  The theorems on
    the journal are applied to this run. *)

From S2P Require Import Prelude Ids Digest Judgment Context Qualification CustodyTypes Escalation.
From S2P Require Import Certificate Event Policy Receiver EvaluatorState RuntimeState Samples.
From S2P Require Import RuntimeHistory Journal JournalProps JournalCrash JournalHistory.

(** A hash whose first byte is never zero. *)
Lemma marked_length s : String.length (String "001" (be_bytes 31 (toy_hash 7919 s))) = 32%nat.
Proof. cbn [String.length]. by rewrite be_bytes_length. Qed.
#[local] Instance marked_sha256 : Sha256 :=
  {| sha256 s := String "001" (be_bytes 31 (toy_hash 7919 s)); sha256_length := marked_length |}.

Definition sample_epoch : MonotonicEpochV1 :=
  mkEpoch SCHEMA_VERSION_V1 "epoch:1" "receiver:a" "receiver-process:1" "clock:1" 0
    "std::time::Instant/process-local".
Definition sample_body (n : Z) : JournalRecordBodyV1 :=
  BodySparseEvent (mkEvent SCHEMA_VERSION_V1 ("event-" +:+ dec n) n
                     (EvMonitorCapabilityChanged "operational" "restored")).
Definition sample_record (n : Z) : HistoricalJournalRecordV1 :=
  mkRecord SCHEMA_VERSION_V1 "journal:a" n KindSparseEvent sample_epoch (10 * n) DataSynced None
    (sample_body n) MutationNone.

(** A JSON codec that knows the sample records. *)
Definition text_of (n : Z) : string := "{record " +:+ dec n +:+ "}".
#[local] Instance sample_journal_json : JournalJson :=
  {| record_json r := text_of (jr_record_sequence r);
     record_parse s :=
       if decide (s = text_of 1) then Ok (sample_record 1)
       else if decide (s = text_of 2) then Ok (sample_record 2)
       else Err "expected value at line 1 column 1" |}.

(** The first write of the second payload stops after three bytes: it is
    operation 34 of the run. *)
#[local] Instance sample_file_system : FileSystem :=
  {| fs_error n := if Nat.eqb n 34 then Some "No space left on device (os error 28)" else None;
     fs_written _ := 3%nat;
     fs_elapsed_us _ := 5 |}.

Definition sample_path : string := "/var/lib/monitor/history.pcj".
Definition sample_journal_config : JournalConfigV1 :=
  mkJournalConfig SCHEMA_VERSION_V1 "journal:a" (mkJournalBounds 8 4096 65536).

Definition blank_journal : HistoricalJournal :=
  mkJournal sample_path sample_journal_config None 1 genesis_digest 0 [] ∅ true.
Definition created : World * HistoricalJournal :=
  match create_new sample_path sample_journal_config (mkWorld 0 ∅) with
  | (w, Ok j) => (w, j)
  | (w, Err _) => (w, blank_journal)
  end.
Definition append_sample (n : Z) (s : World * HistoricalJournal)
  : World * HistoricalJournal * result JournalError JournalAppendAckV1 :=
  append s.2 sample_epoch (10 * n) None (sample_body n) DataSynced s.1.
Definition acknowledged : World * HistoricalJournal := (append_sample 1 created).1.
Definition interrupted_append : World * HistoricalJournal := (append_sample 2 acknowledged).1.
Definition sample_file : string := contents sample_path interrupted_append.1.

Example interrupted_run :
  is_ok (append_sample 1 created).2 = true
  ∧ wd_calls acknowledged.1 = 30%nat
  ∧ jn_failed interrupted_append.2 = true
  ∧ is_ok (append_sample 3 interrupted_append).2 = false
  ∧ rr_damage (scan_bytes sample_file sample_journal_config) = Some TruncatedPayload
  ∧ length (rr_records (scan_bytes sample_file sample_journal_config)) = 1%nat.
Proof. vm_compute. auto 10. Qed.

Lemma created_by : create_new sample_path sample_journal_config (mkWorld 0 ∅) = (created.1, Ok created.2).
Proof. vm_compute. reflexivity. Qed.

(** [frame_digests], decided. *)
Definition frame_digests_ok (kind : JournalRecordKindV1) (sequence : Z) (prior : DigestV1)
    (payload : string) : bool :=
  let d := frame_digest (encode_header kind sequence (slen payload) prior) payload in
  is_ok (digest_validate prior) && is_ok (digest_validate d)
  && is_ok (digest_validate (commit_checksum sequence d)).
Lemma frame_digests_decided kind sequence prior payload :
  frame_digests_ok kind sequence prior payload = true → frame_digests kind sequence prior payload.
Proof.
  unfold frame_digests_ok. cbv zeta. intros Hd. split_and_bool.
  constructor; by apply is_ok_unit.
Qed.

(** A step of the sample run: the frame it would write can be read back. *)
Lemma append_sample_step n s :
  match prepare_frame s.2 sample_epoch (10 * n) None (sample_body n) DataSynced with
  | Ok f => json_roundtrips (fr_record f)
      ∧ frame_digests_ok (jr_record_kind (fr_record f)) (jr_record_sequence (fr_record f))
          (jn_prior_frame_digest s.2) (fr_payload f) = true
  | Err _ => True
  end →
  journal_step sample_path sample_journal_config s (append_sample n s).1.
Proof.
  intros Hjson. destruct s as [w j]. unfold append_sample, append. cbn [fst snd] in *.
  destruct (append_with_qualification_hook j sample_epoch (10 * n) None (sample_body n) DataSynced
              no_hook w) as [[w' j'] res] eqn:Ha. cbn [fst].
  eapply step_append; [|exact Ha]. intros f Hf. rewrite Hf in Hjson. destruct Hjson as [Hjson Hd].
  constructor; [exact Hjson|by apply frame_digests_decided].
Qed.
Lemma first_step : journal_step sample_path sample_journal_config created acknowledged.
Proof. apply append_sample_step. vm_compute. split; reflexivity. Qed.
Lemma second_step : journal_step sample_path sample_journal_config acknowledged interrupted_append.
Proof. apply append_sample_step. vm_compute. split; reflexivity. Qed.
Lemma acknowledged_reachable : journal_reachable sample_path sample_journal_config acknowledged.
Proof.
  exists (mkWorld 0 ∅), created.1, created.2. split; [exact created_by|].
  rewrite <- surjective_pairing. eapply rtc_once, first_step.
Qed.
Lemma pair_reachable :
  journal_reachable sample_path sample_journal_config (acknowledged.1, acknowledged.2)
  ∧ rtc (journal_step sample_path sample_journal_config) (acknowledged.1, acknowledged.2)
      (interrupted_append.1, interrupted_append.2).
Proof.
  rewrite <- !surjective_pairing. split; [exact acknowledged_reachable|]. apply rtc_once, second_step.
Qed.


Lemma acknowledged_file :
  slen (contents sample_path acknowledged.1) <= i64_max
  ∧ rr_outcome (scan_bytes (contents sample_path acknowledged.1) sample_journal_config) = Clean
  ∧ rr_records (scan_bytes (contents sample_path acknowledged.1) sample_journal_config)
    = [sample_record 1].
Proof. split; [vm_compute; discriminate|]. split; vm_compute; reflexivity. Qed.
Lemma scan_refines_written_witness :
  ∃ prior, written sample_journal_config (contents sample_path acknowledged.1) [sample_record 1] prior.
Proof.
  exact (proj1 (scan_refines_written sample_journal_config
                  (contents sample_path acknowledged.1) [sample_record 1] (proj1 acknowledged_file))
           (proj2 acknowledged_file)).
Defined.

Lemma sample_not_refused :
  rr_outcome (scan_bytes sample_file sample_journal_config) ≠ OutcomeRefused.
Proof. vm_compute. discriminate. Qed.
Lemma recovered_history_projects_witness :
  ∃ p, project_history (scan_bytes sample_file sample_journal_config) = Ok p
    ∧ hs_sparse_events (hp_history p)
      = omap sparse_event_of (rr_records (scan_bytes sample_file sample_journal_config)).
Proof.
  destruct (recovered_history_projects sample_journal_config sample_file
              sample_not_refused) as (p&Hp&_&He&_).
  exists p. split; [exact Hp|exact He].
Defined.
