(* ===== verification/LiveSupport.v ===== *)
(** * Live present support: [crates/pulse-types/src/live_support.rs]

    The request a consumer sends to ask whether one exact certificate is still
    current, and the receiver's answer with the lifetime that is left.  The
    JSON text of both is a parameter. *)

From S2P Require Import Prelude Ids Digest Context Judgment.

Abbreviation LivePresentSupportNonce := string (only parsing).

Definition LIVE_PRESENT_SUPPORT_REQUEST_SCHEMA_V1 : string :=
  "pulse.live_present_support_request.v1".
Definition LIVE_PRESENT_SUPPORT_RESPONSE_SCHEMA_V1 : string :=
  "pulse.live_present_support_response.v1".
Definition LIVE_PRESENT_SUPPORT_NONAUTHORITY_V1 : string :=
  "This response reports one bounded present-reliance measurement. It grants no authority and does not refresh, extend, or persist support.".
Definition MAX_LIVE_PRESENT_SUPPORT_REQUEST_BYTES : Z := 16 * 1024.
Definition MAX_LIVE_PRESENT_SUPPORT_RESPONSE_BYTES : Z := 32 * 1024.

(* ------------------------------------------------------------------ *)
(** ** Requests *)

Record LivePresentSupportRequestV1 := mkLiveRequest {
  lq_schema : string;
  lq_request_nonce : LivePresentSupportNonce;
  lq_consumer : ConsumerId;
  lq_subject_scope : SubjectScopeV1;
  lq_reliance_context : RelianceContextV1;
  lq_reliance_context_digest : DigestV1;
  lq_support_certificate_id : SupportCertificateId;
  lq_evidence_window_id : EvidenceWindowId;
  lq_qualified_generation_digest : DigestV1;
  lq_receiver : ReceiverId;
  lq_receiver_incarnation : IncarnationId;
  lq_receiver_epoch_id : IncarnationId;
  lq_receiver_clock_id : ClockId;
}.
#[global] Instance LivePresentSupportRequestV1_eq_dec : EqDecision LivePresentSupportRequestV1.
Proof. solve_decision. Defined.

(** [field.validate().map_err(|_| RuntimeTypeError::new(code, detail))]. *)
Definition live_identity (kind value detail : string) : result RuntimeTypeError unit :=
  map_err (fun _ => mkRuntimeTypeError "invalid_identity" detail) (validate_identity kind value).
Definition live_digest (digest : DigestV1) (detail : string) : result RuntimeTypeError unit :=
  map_err (fun _ => mkRuntimeTypeError "invalid_digest" detail) (digest_validate digest).

(** The text [RuntimeTypeError] displays. *)
Definition runtime_type_error_display (e : RuntimeTypeError) : string :=
  rte_code e +:+ ": " +:+ rte_detail e.

Inductive LivePresentSupportDispositionV1 := SupportedCurrent | Expired | Unsupported | Indeterminate.
#[global] Instance LivePresentSupportDispositionV1_eq_dec : EqDecision LivePresentSupportDispositionV1.
Proof. solve_decision. Defined.
Definition live_disposition_as_str (d : LivePresentSupportDispositionV1) : string :=
  match d with
  | SupportedCurrent => "supported_current"
  | Expired => "expired"
  | Unsupported => "unsupported"
  | Indeterminate => "indeterminate"
  end.

Inductive LivePresentSupportMeasurementV1 := ActorSerializedAfterRunUntil.
Definition measurement_as_str (m : LivePresentSupportMeasurementV1) : string :=
  match m with ActorSerializedAfterRunUntil => "actor_serialized_after_run_until" end.

Record LivePresentSupportResponseV1 := mkLiveResponse {
  lr_schema : string;
  lr_response_digest : DigestV1;
  lr_request_digest : DigestV1;
  lr_request : LivePresentSupportRequestV1;
  lr_receiver : ReceiverId;
  lr_receiver_incarnation : IncarnationId;
  lr_receiver_epoch_id : IncarnationId;
  lr_receiver_clock_id : ClockId;
  lr_receiver_clock_source : string;
  lr_measured_at_receiver_monotonic_ms : Z;
  lr_measurement : LivePresentSupportMeasurementV1;
  lr_disposition : LivePresentSupportDispositionV1;
  lr_remaining_lifetime_ms_at_response : option Z;
  lr_source_rounding_margin_ms : Z;
  lr_mutation_authority : MutationAuthorityV1;
  lr_non_authorization : string;
}.

(** [serde_jcs] and [serde_json] on the two documents, with the text of the
    error. *)
Class LiveSupportJson := {
  request_jcs : LivePresentSupportRequestV1 → result string string;
  request_parse : string → result string LivePresentSupportRequestV1;
  response_jcs : LivePresentSupportResponseV1 → result string string;
  response_parse : string → result string LivePresentSupportResponseV1;
}.

Section live_support.
Context `{Sha256}.

(** [LivePresentSupportRequestV1::validate]. *)
Definition live_request_validate (q : LivePresentSupportRequestV1) : result RuntimeTypeError unit :=
  ensure (bool_decide (lq_schema q = LIVE_PRESENT_SUPPORT_REQUEST_SCHEMA_V1))
    (mkRuntimeTypeError "unsupported_schema" "live present-support request schema is unsupported");;
  live_identity "LivePresentSupportNonce" (lq_request_nonce q) "invalid request nonce";;
  live_identity "ConsumerId" (lq_consumer q) "invalid consumer";;
  map_err (fun _ => mkRuntimeTypeError "invalid_identity" "invalid subject scope")
    (subject_scope_validate (lq_subject_scope q));;
  context_validate (lq_reliance_context q);;
  live_digest (lq_reliance_context_digest q) "invalid reliance context digest";;
  ensure (bool_decide (lq_reliance_context_digest q = context_identity_digest (lq_reliance_context q)))
    (mkRuntimeTypeError "identity_mismatch"
       "reliance context digest does not identify the exact context");;
  live_identity "SupportCertificateId" (lq_support_certificate_id q)
    "invalid support certificate identity";;
  live_identity "EvidenceWindowId" (lq_evidence_window_id q) "invalid evidence window identity";;
  live_digest (lq_qualified_generation_digest q) "invalid qualified generation digest";;
  live_identity "ReceiverId" (lq_receiver q) "invalid receiver";;
  live_identity "IncarnationId" (lq_receiver_incarnation q) "invalid receiver incarnation";;
  live_identity "IncarnationId" (lq_receiver_epoch_id q) "invalid receiver epoch identity";;
  live_identity "ClockId" (lq_receiver_clock_id q) "invalid receiver clock identity".

(** The transcript of [LivePresentSupportRequestV1::identity_digest]. *)
Definition live_request_parts (q : LivePresentSupportRequestV1) : list string :=
  [ lq_schema q;
    lq_request_nonce q;
    lq_consumer q;
    ss_subject (lq_subject_scope q);
    ss_subject_incarnation (lq_subject_scope q);
    ss_scope (lq_subject_scope q);
    context_identity_digest (lq_reliance_context q);
    lq_support_certificate_id q;
    lq_evidence_window_id q;
    lq_qualified_generation_digest q;
    lq_receiver q;
    lq_receiver_incarnation q;
    lq_receiver_epoch_id q;
    lq_receiver_clock_id q ].
Definition live_request_identity_digest (q : LivePresentSupportRequestV1) : DigestV1 :=
  digest_parts "pulse.live-present-support.request.v1" (live_request_parts q).

(* ------------------------------------------------------------------ *)
(** ** Responses *)

(** The transcript of [LivePresentSupportResponseV1::compute_digest]. *)
Definition live_response_parts (a : LivePresentSupportResponseV1) : list string :=
  [ lr_schema a;
    lr_request_digest a;
    lr_receiver a;
    lr_receiver_incarnation a;
    lr_receiver_epoch_id a;
    lr_receiver_clock_id a;
    lr_receiver_clock_source a;
    be_bytes 8 (lr_measured_at_receiver_monotonic_ms a);
    measurement_as_str (lr_measurement a);
    live_disposition_as_str (lr_disposition a);
    match lr_remaining_lifetime_ms_at_response a with
    | None => "none"
    | Some value => be_bytes 8 value
    end;
    be_bytes 8 (lr_source_rounding_margin_ms a);
    "mutation_authority:none";
    lr_non_authorization a ].
Definition live_response_compute_digest (a : LivePresentSupportResponseV1) : DigestV1 :=
  digest_parts "pulse.live-present-support.response.v1" (live_response_parts a).

(** The digest of a response is not part of its transcript, so the pending
    digest that [new] starts from does not show in the result. *)
Definition set_lr_response_digest (a : LivePresentSupportResponseV1) (digest : DigestV1)
  : LivePresentSupportResponseV1 :=
  {| lr_schema := lr_schema a;
     lr_response_digest := digest;
     lr_request_digest := lr_request_digest a;
     lr_request := lr_request a;
     lr_receiver := lr_receiver a;
     lr_receiver_incarnation := lr_receiver_incarnation a;
     lr_receiver_epoch_id := lr_receiver_epoch_id a;
     lr_receiver_clock_id := lr_receiver_clock_id a;
     lr_receiver_clock_source := lr_receiver_clock_source a;
     lr_measured_at_receiver_monotonic_ms := lr_measured_at_receiver_monotonic_ms a;
     lr_measurement := lr_measurement a;
     lr_disposition := lr_disposition a;
     lr_remaining_lifetime_ms_at_response := lr_remaining_lifetime_ms_at_response a;
     lr_source_rounding_margin_ms := lr_source_rounding_margin_ms a;
     lr_mutation_authority := lr_mutation_authority a;
     lr_non_authorization := lr_non_authorization a |}.

(** [LivePresentSupportResponseV1::new]. *)
Definition live_response_new (request : LivePresentSupportRequestV1) (receiver : ReceiverId)
    (receiver_incarnation receiver_epoch_id : IncarnationId) (receiver_clock_id : ClockId)
    (receiver_clock_source : string) (measured_at : Z)
    (disposition : LivePresentSupportDispositionV1) (remaining : option Z)
  : LivePresentSupportResponseV1 :=
  let response :=
    {| lr_schema := LIVE_PRESENT_SUPPORT_RESPONSE_SCHEMA_V1;
       lr_response_digest := digest_parts "pulse.live-present-support.pending.v1" ["pending"];
       lr_request_digest := live_request_identity_digest request;
       lr_request := request;
       lr_receiver := receiver;
       lr_receiver_incarnation := receiver_incarnation;
       lr_receiver_epoch_id := receiver_epoch_id;
       lr_receiver_clock_id := receiver_clock_id;
       lr_receiver_clock_source := receiver_clock_source;
       lr_measured_at_receiver_monotonic_ms := measured_at;
       lr_measurement := ActorSerializedAfterRunUntil;
       lr_disposition := disposition;
       lr_remaining_lifetime_ms_at_response := remaining;
       lr_source_rounding_margin_ms := 1;
       lr_mutation_authority := MutationNone;
       lr_non_authorization := LIVE_PRESENT_SUPPORT_NONAUTHORITY_V1 |} in
  set_lr_response_digest response (live_response_compute_digest response).

(** Only a supported answer carries a lifetime, and then a positive one. *)
Definition lifetime_is_valid (a : LivePresentSupportResponseV1) : bool :=
  match lr_disposition a with
  | SupportedCurrent =>
      match lr_remaining_lifetime_ms_at_response a with Some value => 0 <? value | None => false end
  | _ => negb (has_value (lr_remaining_lifetime_ms_at_response a))
  end.

(** [LivePresentSupportResponseV1::validate]; [MutationAuthorityV1] has the
    one value [None]. *)
Definition live_response_validate (a : LivePresentSupportResponseV1) : result RuntimeTypeError unit :=
  ensure (bool_decide (lr_schema a = LIVE_PRESENT_SUPPORT_RESPONSE_SCHEMA_V1))
    (mkRuntimeTypeError "unsupported_schema" "live present-support response schema is unsupported");;
  live_request_validate (lr_request a);;
  ensure (bool_decide (lr_request_digest a = live_request_identity_digest (lr_request a)))
    (mkRuntimeTypeError "request_identity_mismatch"
       "response request digest does not identify its echoed request");;
  for_each (fun identity =>
              ensure (negb ((slen identity =? 0) || (MAX_IDENTITY_BYTES <? slen identity)))
                (mkRuntimeTypeError "invalid_identity"
                   "response receiver lineage identity is invalid"))
    [lr_receiver a; lr_receiver_incarnation a; lr_receiver_epoch_id a; lr_receiver_clock_id a];;
  ensure (negb ((slen (lr_receiver_clock_source a) =? 0)
                || (MAX_IDENTITY_BYTES <? slen (lr_receiver_clock_source a))
                || has_control (lr_receiver_clock_source a)))
    (mkRuntimeTypeError "invalid_clock_source" "response receiver clock source is invalid");;
  ensure (lifetime_is_valid a)
    (mkRuntimeTypeError "invalid_remaining_lifetime"
       "only supported-current may carry a nonzero remaining lifetime");;
  ensure ((lr_source_rounding_margin_ms a =? 1)
          && bool_decide (lr_non_authorization a = LIVE_PRESENT_SUPPORT_NONAUTHORITY_V1))
    (mkRuntimeTypeError "invalid_nonclaim"
       "response does not preserve the fixed v1 time margin and authority boundary");;
  ensure (bool_decide (lr_response_digest a = live_response_compute_digest a))
    (mkRuntimeTypeError "response_identity_mismatch"
       "response digest does not identify the exact response").

(** [LivePresentSupportResponseV1::validate_against]. *)
Definition live_response_validate_against (a : LivePresentSupportResponseV1)
    (request : LivePresentSupportRequestV1) : result RuntimeTypeError unit :=
  live_response_validate a;;
  live_request_validate request;;
  ensure (bool_decide (lr_request a = request)
          && bool_decide (lr_request_digest a = live_request_identity_digest request))
    (mkRuntimeTypeError "request_substitution"
       "response does not bind the exact outstanding request");;
  ensure (bool_decide (lr_receiver a = lq_receiver request)
          && bool_decide (lr_receiver_incarnation a = lq_receiver_incarnation request)
          && bool_decide (lr_receiver_epoch_id a = lq_receiver_epoch_id request)
          && bool_decide (lr_receiver_clock_id a = lq_receiver_clock_id request))
    (mkRuntimeTypeError "source_lineage_mismatch"
       "response source lineage does not match the requested live receiver").

(** [LivePresentSupportResponseV1::conservative_remaining_lifetime_ms]. *)
Definition conservative_remaining_lifetime_ms (a : LivePresentSupportResponseV1)
    (elapsed_since_send_ms : Z) : option Z :=
  if decide (lr_disposition a ≠ SupportedCurrent) then None
  else
    match lr_remaining_lifetime_ms_at_response a with
    | None => None
    | Some remaining =>
        if remaining <? elapsed_since_send_ms then None
        else if 0 <? remaining - elapsed_since_send_ms then Some (remaining - elapsed_since_send_ms)
        else None
    end.

(* ------------------------------------------------------------------ *)
(** ** Canonical bytes *)

Context `{LiveSupportJson}.

(** [canonical_bytes] and [decode_canonical] of the request. *)
Definition live_request_canonical_bytes (q : LivePresentSupportRequestV1) : result string string :=
  map_err runtime_type_error_display (live_request_validate q);;
  request_jcs q.
Definition live_request_decode_canonical (bytes : string)
  : result string LivePresentSupportRequestV1 :=
  value ← request_parse bytes;
  map_err runtime_type_error_display (live_request_validate value);;
  canonical ← live_request_canonical_bytes value;
  ensure (bool_decide (canonical = bytes)) "live present-support request is not canonical JSON";;
  Ok value.

(** The same of the response. *)
Definition live_response_canonical_bytes (a : LivePresentSupportResponseV1) : result string string :=
  map_err runtime_type_error_display (live_response_validate a);;
  response_jcs a.
Definition live_response_decode_canonical (bytes : string)
  : result string LivePresentSupportResponseV1 :=
  value ← response_parse bytes;
  map_err runtime_type_error_display (live_response_validate value);;
  canonical ← live_response_canonical_bytes value;
  ensure (bool_decide (canonical = bytes)) "live present-support response is not canonical JSON";;
  Ok value.
End live_support.
