(* ===== verification/LiveSupportProps.v ===== *)
(** * What live answers bind

    An answer the receiver makes for a validated request validates; the
    canonical bytes of a document are the only bytes that decode to it; and
    the digest of an answer binds all of it. *)

From S2P Require Import Prelude Ids Digest Pulse Samples ObservationDigest Context Judgment LiveSupport.

Section live_support.
Context `{Sha256}.

Lemma lineage_identities ids e :
  Forall (λ id, valid_identity id = true) ids →
  for_each (fun identity =>
              ensure (negb ((slen identity =? 0) || (MAX_IDENTITY_BYTES <? slen identity))) e) ids
  = (Ok tt : result RuntimeTypeError unit).
Proof.
  induction 1 as [|id rest Hid _ IH]; [done|]. cbn. apply valid_identity_bound in Hid.
  rewrite (proj2 (Z.eqb_neq _ _)), (proj2 (Z.ltb_ge _ _)) by lia. done.
Qed.

(** A response made for a validated request by a valid lineage validates. *)
Lemma live_response_new_valid request receiver incarnation epoch clock source measured_at disposition
    remaining :
  live_request_validate request = Ok tt →
  Forall (λ id, valid_identity id = true) [receiver; incarnation; epoch; clock] →
  valid_identity source = true →
  lifetime_is_valid (live_response_new request receiver incarnation epoch clock source measured_at
                       disposition remaining) = true →
  live_response_validate (live_response_new request receiver incarnation epoch clock source measured_at
                            disposition remaining) = Ok tt.
Proof.
  intros Hq Hids Hs Hl. unfold live_response_validate. rewrite Hl.
  unfold live_response_new. cbn -[for_each bool_decide]. rewrite !bool_decide_eq_true_2 by done. cbn -[for_each].
  rewrite Hq. cbn -[for_each]. rewrite (lineage_identities _ _ Hids). cbn.
  unfold valid_identity in Hs. apply andb_true_iff in Hs as [Hs Hc]. apply andb_true_iff in Hs as [Hn Hb].
  apply negb_true_iff in Hn, Hb, Hc. by rewrite Hn, Hb, Hc.
Qed.

(** The transcripts of an answer and of its request. *)
Definition live_response_transcript (a : LivePresentSupportResponseV1) : string :=
  digest_transcript "pulse.live-present-support.response.v1" (live_response_parts a).
Definition live_request_transcript (q : LivePresentSupportRequestV1) : string :=
  digest_transcript "pulse.live-present-support.request.v1" (live_request_parts q).
Definition live_context_transcript (q : LivePresentSupportRequestV1) : string :=
  digest_transcript "reliance.context.v1" (context_parts (lq_reliance_context q)).

(** A validated document has addressable parts. *)
Lemma live_digest_addressable d detail : live_digest d detail = Ok tt → addressable d.
Proof.
  unfold live_digest. intros Hd%map_err_Ok%digest_validate_slen. unfold addressable, u64_max. lia.
Qed.
Lemma identity_addressable id : valid_identity id = true → addressable id.
Proof.
  intros Hid%valid_identity_bound. unfold MAX_IDENTITY_BYTES, addressable, u64_max in *. lia.
Qed.
Lemma live_identity_valid kind value detail :
  live_identity kind value detail = Ok tt → valid_identity value = true.
Proof. unfold live_identity. by intros Hv%map_err_Ok%validate_identity_Ok. Qed.
Lemma digest_parts_addressable domain parts : addressable (digest_parts domain parts).
Proof. unfold addressable. rewrite digest_parts_slen. done. Qed.

Lemma context_parts_addressable c :
  context_validate c = Ok tt → Forall addressable (context_parts c) ∧ cx_schema_version c = 1.
Proof.
  unfold context_validate, context_identity. intros Hv. inv_oks.
  apply Z.eqb_eq in Hok. rewrite !validate_identity_Ok in *.
  split; [|done]. unfold context_parts. repeat constructor; try by apply identity_addressable.
  unfold addressable. erewrite digest_validate_slen; [|eassumption]. done.
Qed.
Lemma live_request_parts_addressable q :
  live_request_validate q = Ok tt → Forall addressable (live_request_parts q).
Proof.
  unfold live_request_validate, subject_scope_validate. intros Hv. inv_oks.
  repeat match goal with
    | H : live_identity _ _ _ = Ok tt |- _ => apply live_identity_valid, identity_addressable in H
    | H : validate_identity _ _ = Ok tt |- _ => apply validate_identity_Ok, identity_addressable in H
    | H : live_digest _ _ = Ok tt |- _ => apply live_digest_addressable in H
    | H : bool_decide _ = true |- _ => apply bool_decide_eq_true in H
    end.
  unfold live_request_parts. repeat constructor; try done; [by rewrite Hok|apply digest_parts_addressable].
Qed.

Lemma context_of q :
  live_request_validate q = Ok tt →
  Forall addressable (context_parts (lq_reliance_context q))
  ∧ cx_schema_version (lq_reliance_context q) = 1
  ∧ lq_reliance_context_digest q = context_identity_digest (lq_reliance_context q).
Proof.
  unfold live_request_validate. intros Hv. inv_ok Hv. apply ensure_Ok in Hok5.
  apply bool_decide_eq_true in Hok5. apply context_parts_addressable in Hok3 as [? ?]. done.
Qed.

(** The numbers of an answer are 64-bit. *)
Definition live_response_u64 (a : LivePresentSupportResponseV1) : bool :=
  is_u64 (lr_measured_at_receiver_monotonic_ms a)
  && match lr_remaining_lifetime_ms_at_response a with Some value => is_u64 value | None => true end.

Record live_response_sound (a : LivePresentSupportResponseV1) : Prop := {
  ls_schema : lr_schema a = LIVE_PRESENT_SUPPORT_RESPONSE_SCHEMA_V1;
  ls_request : live_request_validate (lr_request a) = Ok tt;
  ls_request_digest : lr_request_digest a = live_request_identity_digest (lr_request a);
  ls_margin : lr_source_rounding_margin_ms a = 1;
  ls_nonauthority : lr_non_authorization a = LIVE_PRESENT_SUPPORT_NONAUTHORITY_V1;
  ls_digest : lr_response_digest a = live_response_compute_digest a;
  ls_parts : Forall addressable (live_response_parts a);
}.
Lemma lineage_addressable ids (e : RuntimeTypeError) :
  for_each (fun identity =>
              ensure (negb ((slen identity =? 0) || (MAX_IDENTITY_BYTES <? slen identity))) e) ids
  = Ok tt → Forall addressable ids.
Proof.
  induction ids as [|id rest IH]; cbn; intros Hf; [done|]. inv_oks.
  apply negb_true_iff, orb_false_iff in Hok as [_ Hb]. apply Z.ltb_ge in Hb.
  constructor; [|by apply IH]. unfold addressable, u64_max, MAX_IDENTITY_BYTES in *. lia.
Qed.
Lemma live_response_validate_sound a : live_response_validate a = Ok tt → live_response_sound a.
Proof.
  unfold live_response_validate. intros Hv. inv_ok Hv.
  repeat match goal with H : ensure _ _ = Ok tt |- _ => apply ensure_Ok in H end.
  repeat match goal with
    | H : bool_decide _ = true |- _ => apply bool_decide_eq_true in H
    | H : _ && _ = true |- _ => apply andb_true_iff in H as [? ?]
    | H : negb (_ || _) = true |- _ => apply negb_true_iff, orb_false_iff in H as [? ?]
    | H : _ || _ = false |- _ => apply orb_false_iff in H as [? ?]
    | H : (_ =? _) = true |- _ => apply Z.eqb_eq in H
    | H : (_ <? _) = false |- _ => apply Z.ltb_ge in H
    | H : for_each _ _ = Ok tt |- _ => apply lineage_addressable in H
    end.
  split; try done. unfold live_response_parts. rewrite Hok, Hok1.
  rewrite !Forall_cons in Hok2. destruct Hok2 as (?&?&?&?&_).
  repeat constructor; try done; try apply digest_parts_addressable;
    try (unfold addressable, MAX_IDENTITY_BYTES, u64_max in *; lia);
    unfold addressable, slen; rewrite ?be_bytes_length; try done.
  - by destruct (lr_measurement a).
  - by destruct (lr_disposition a).
  - destruct (lr_remaining_lifetime_ms_at_response a); rewrite ?be_bytes_length; done.
  - by rewrite H1.
Qed.

Lemma live_disposition_inj x y : live_disposition_as_str x = live_disposition_as_str y → x = y.
Proof. by destruct x, y. Qed.
Lemma remaining_inj x y :
  match x with Some v => is_u64 v | None => true end = true →
  match y with Some v => is_u64 v | None => true end = true →
  match x with None => "none" | Some v => be_bytes 8 v end
  = match y with None => "none" | Some v => be_bytes 8 v end → x = y.
Proof.
  destruct x as [x|], y as [y|]; intros Hx Hy He; try done. f_equal. by apply be8_inj.
Qed.

(** Records with equal fields. *)
Lemma context_ext x y :
  cx_schema_version x = cx_schema_version y → cx_activation_id x = cx_activation_id y →
  cx_reliance_policy_generation x = cx_reliance_policy_generation y →
  cx_reliance_policy_semantic_digest x = cx_reliance_policy_semantic_digest y →
  cx_consumer_profile_generation x = cx_consumer_profile_generation y →
  cx_evaluator_semantic_generation x = cx_evaluator_semantic_generation y →
  cx_observer_set_generation x = cx_observer_set_generation y →
  cx_observation_policy_generation x = cx_observation_policy_generation y → x = y.
Proof. destruct x, y. cbn. intros. by subst. Qed.
Lemma scope_ext x y :
  ss_subject x = ss_subject y → ss_subject_incarnation x = ss_subject_incarnation y →
  ss_scope x = ss_scope y → x = y.
Proof. destruct x, y. cbn. intros. by subst. Qed.
Lemma live_request_ext x y :
  lq_schema x = lq_schema y → lq_request_nonce x = lq_request_nonce y →
  lq_consumer x = lq_consumer y → lq_subject_scope x = lq_subject_scope y →
  lq_reliance_context x = lq_reliance_context y →
  lq_reliance_context_digest x = lq_reliance_context_digest y →
  lq_support_certificate_id x = lq_support_certificate_id y →
  lq_evidence_window_id x = lq_evidence_window_id y →
  lq_qualified_generation_digest x = lq_qualified_generation_digest y →
  lq_receiver x = lq_receiver y → lq_receiver_incarnation x = lq_receiver_incarnation y →
  lq_receiver_epoch_id x = lq_receiver_epoch_id y → lq_receiver_clock_id x = lq_receiver_clock_id y →
  x = y.
Proof. destruct x, y. cbn. intros. by subst. Qed.
Lemma live_response_ext x y :
  lr_schema x = lr_schema y → lr_response_digest x = lr_response_digest y →
  lr_request_digest x = lr_request_digest y → lr_request x = lr_request y →
  lr_receiver x = lr_receiver y → lr_receiver_incarnation x = lr_receiver_incarnation y →
  lr_receiver_epoch_id x = lr_receiver_epoch_id y → lr_receiver_clock_id x = lr_receiver_clock_id y →
  lr_receiver_clock_source x = lr_receiver_clock_source y →
  lr_measured_at_receiver_monotonic_ms x = lr_measured_at_receiver_monotonic_ms y →
  lr_disposition x = lr_disposition y →
  lr_remaining_lifetime_ms_at_response x = lr_remaining_lifetime_ms_at_response y →
  lr_source_rounding_margin_ms x = lr_source_rounding_margin_ms y →
  lr_non_authorization x = lr_non_authorization y → x = y.
Proof.
  destruct x as [? ? ? ? ? ? ? ? ? ? [] ? ? ? [] ?], y as [? ? ? ? ? ? ? ? ? ? [] ? ? ? [] ?].
  cbn. intros. by subst.
Qed.

(** Equal lists, element by element. *)
Lemma cons_parts (x y : string) xs ys : x :: xs = y :: ys → x = y ∧ xs = ys.
Proof. by intros [= -> ->]. Qed.
Ltac parts H :=
  repeat (apply cons_parts in H; let E := fresh "E" in destruct H as [E H]).

(** Equal digests hash inputs with equal SHA-256 values. *)
Lemma equal_digests d ps d' ps' :
  digest_parts d ps = digest_parts d' ps' →
  sha256 (digest_transcript d ps) = sha256 (digest_transcript d' ps').
Proof.
  unfold digest_parts. intros Hd. apply (inj (String.append "sha256:")) in Hd. by apply hex_encode_inj.
Qed.

(** The digest of an answer binds the whole of it.  Two validated answers with
    one digest hash inputs of equal SHA-256 value; short of a collision there,
    or among the inputs of the request digests, or of the context digests,
    they are the same answer to the same request. *)
Theorem live_response_digest_binds a b :
  live_response_validate a = Ok tt → live_response_validate b = Ok tt →
  live_response_u64 a = true → live_response_u64 b = true →
  lr_response_digest a = lr_response_digest b →
  let qa := lr_request a in let qb := lr_request b in
  sha256 (live_response_transcript a) = sha256 (live_response_transcript b)
  ∧ (live_response_transcript a = live_response_transcript b →
     sha256 (live_request_transcript qa) = sha256 (live_request_transcript qb)
     ∧ (live_request_transcript qa = live_request_transcript qb →
        sha256 (live_context_transcript qa) = sha256 (live_context_transcript qb)
        ∧ (live_context_transcript qa = live_context_transcript qb → a = b))).
Proof.
  intros Sa%live_response_validate_sound Sb%live_response_validate_sound Ua Ub Hd. cbv zeta.
  unfold live_response_u64 in Ua, Ub. split_and_bool.
  rewrite (ls_digest _ Sa), (ls_digest _ Sb) in Hd.
  split; [by apply equal_digests|]. intros Ht.
  apply digest_transcript_inj in Ht as [_ Hp]; [|done|done|apply Sa|apply Sb].
  unfold live_response_parts in Hp. parts Hp. clear Hp.
  rewrite (ls_request_digest _ Sa), (ls_request_digest _ Sb) in E0.
  split; [by apply equal_digests|]. intros Htq.
  apply digest_transcript_inj in Htq as [_ Hpq];
    [|done|done|by apply live_request_parts_addressable, Sa|by apply live_request_parts_addressable, Sb].
  unfold live_request_parts in Hpq. parts Hpq. clear Hpq.
  split; [by eapply equal_digests|]. intros Htc.
  pose proof (context_of _ (ls_request _ Sa)) as (Aa&Na&Da).
  pose proof (context_of _ (ls_request _ Sb)) as (Ab&Nb&Db).
  apply digest_transcript_inj in Htc as [_ Hpc]; [|done|done|done|done].
  unfold context_parts in Hpc. parts Hpc. clear Hpc.
  assert (Hcx : lq_reliance_context (lr_request a) = lq_reliance_context (lr_request b)).
  { apply context_ext; [by rewrite Na, Nb|done..]. }
  assert (Hreq : lr_request a = lr_request b).
  { apply live_request_ext; try done; [by apply scope_ext|]. by rewrite Da, Db, Hcx. }
  apply live_response_ext; try done.
  - by rewrite (ls_digest _ Sa), (ls_digest _ Sb).
  - by rewrite (ls_request_digest _ Sa), (ls_request_digest _ Sb).
  - by apply be8_inj.
  - by apply live_disposition_inj.
  - by apply remaining_inj.
  - by rewrite (ls_margin _ Sa), (ls_margin _ Sb).
Qed.
End live_support.
