(* ===== verification/Reactor.v ===== *)
(** * The reactor: [crates/pulse-runtime/src/reactor.rs]

    One thread owns the runtime and its journal.  Clients talk to it through
    a mutex: they leave commands and queries, raise flags and read the last
    snapshot.  This file has the records, the journal sink, what a client does
    under the mutex and one iteration of the actor; [ReactorMachine] composes
    them into an interleaving system. *)

From S2P Require Import Prelude Ids Digest Judgment Context Qualification CustodyTypes Escalation.
From S2P Require Import Certificate Event Policy Receiver EvaluatorState RuntimeState RuntimeArtifacts.
From S2P Require Import Runtime RuntimeOps RuntimeHistory Journal LiveSupport.

(* ------------------------------------------------------------------ *)
(** ** Errors and configuration *)

Inductive ReactorCommandErrorClassV1 :=
| RcInvalidConfig | RcInvalidRequest | RcQueueSaturated | RcNotOperational | RcResponseTimeout
| RcActorTerminated | RcRuntimeFailure | RcJournalFailure | RcThreadSpawnFailure
| RcTransportFailure.
#[global] Instance ReactorCommandErrorClassV1_eq_dec : EqDecision ReactorCommandErrorClassV1.
Proof. solve_decision. Defined.
Definition reactor_class_debug (c : ReactorCommandErrorClassV1) : string :=
  match c with
  | RcInvalidConfig => "InvalidConfig"
  | RcInvalidRequest => "InvalidRequest"
  | RcQueueSaturated => "QueueSaturated"
  | RcNotOperational => "NotOperational"
  | RcResponseTimeout => "ResponseTimeout"
  | RcActorTerminated => "ActorTerminated"
  | RcRuntimeFailure => "RuntimeFailure"
  | RcJournalFailure => "JournalFailure"
  | RcThreadSpawnFailure => "ThreadSpawnFailure"
  | RcTransportFailure => "TransportFailure"
  end.

Record ReactorCommandError := mkReactorError {
  rce_class : ReactorCommandErrorClassV1;
  rce_detail : string;
}.
Definition reactor_error_display (e : ReactorCommandError) : string :=
  reactor_class_debug (rce_class e) +:+ ": " +:+ rce_detail e.

Definition journal_class_debug (c : JournalErrorClassV1) : string :=
  match c with
  | InvalidConfig => "InvalidConfig"
  | InvalidRecord => "InvalidRecord"
  | ClassUnsupportedVersion => "UnsupportedVersion"
  | ClassBoundExceeded => "BoundExceeded"
  | DamagedJournal => "DamagedJournal"
  | ClassIoFailure => "IoFailure"
  end.
Definition journal_error_display (e : JournalError) : string :=
  journal_class_debug (je_class e) +:+ ": " +:+ je_detail e.
(** [ReactorCommandError::from_journal]. *)
Definition from_journal (e : JournalError) : ReactorCommandError :=
  mkReactorError RcJournalFailure (journal_error_display e).
Definition runtime_error_display (e : RuntimeError) : string := re_code e +:+ ": " +:+ re_detail e.

Record ReactorConfigV1 := mkReactorConfig {
  rc_schema_version : Z;
  rc_maximum_pending_commands : Z;
  rc_command_response_timeout_ms : Z;
  rc_deliberate_deadline_delay_ms : Z;
  rc_journal_durability : JournalDurabilityModeV1;
}.
(** [ReactorConfigV1::qualification]. *)
Definition reactor_qualification : ReactorConfigV1 :=
  mkReactorConfig SCHEMA_VERSION_V1 32 5000 0 FileSynced.
(** [ReactorConfigV1::validate]. *)
Definition reactor_config_validate (c : ReactorConfigV1) : result ReactorCommandError unit :=
  ensure (rc_schema_version c =? SCHEMA_VERSION_V1)
    (mkReactorError RcInvalidConfig "reactor config schema is unsupported");;
  ensure (negb ((rc_maximum_pending_commands c =? 0) || (rc_command_response_timeout_ms c =? 0)))
    (mkReactorError RcInvalidConfig "reactor command and response bounds must be nonzero");;
  ensure (negb (60000 <? rc_deliberate_deadline_delay_ms c))
    (mkReactorError RcInvalidConfig "qualification delay exceeds its one-minute safety bound").

Inductive ReactorConditionV1 :=
| Starting | Operational | MailboxOverloaded | ExplicitBlindness | WakeupFailure | ActorTerminated
| JournalFailure | CommandChannelClosed | ShuttingDown | Terminated.
#[global] Instance ReactorConditionV1_eq_dec : EqDecision ReactorConditionV1.
Proof. solve_decision. Defined.
(** [ReactorConditionV1::exposes_live_standing]. *)
Definition exposes_live_standing (c : ReactorConditionV1) : bool :=
  match c with Operational => true | _ => false end.

(* ------------------------------------------------------------------ *)
(** ** Metrics and snapshots *)

Record ReactorMetricsV1 := mkReactorMetrics {
  rx_schema_version : Z;
  rx_wakeup_count : Z;
  rx_command_wakeup_count : Z;
  rx_deadline_wakeup_count : Z;
  rx_early_wakeup_count : Z;
  rx_deadline_withdrawal_count : Z;
  rx_mailbox_refusal_count : Z;
  rx_wakeup_failure_count : Z;
  rx_journal_failure_count : Z;
  rx_last_wakeup_lateness_ms : Z;
  rx_maximum_wakeup_lateness_ms : Z;
  rx_last_journal_append_latency_us : Z;
  rx_maximum_journal_append_latency_us : Z;
  rx_last_journal_sync_latency_us : Z;
  rx_maximum_journal_sync_latency_us : Z;
  rx_committed_journal_record_count : Z;
}.
Definition reactor_metrics_empty : ReactorMetricsV1 :=
  mkReactorMetrics SCHEMA_VERSION_V1 0 0 0 0 0 0 0 0 0 0 0 0 0 0 0.

(** [ReactorMetricsV1::observe_append]. *)
Definition observe_append (m : ReactorMetricsV1) (ack : JournalAppendAckV1) : ReactorMetricsV1 :=
  let 'mkReactorMetrics v w c d e wd mr wf jf ll ml _ ma _ ms n := m in
  mkReactorMetrics v w c d e wd mr wf jf ll ml
    (aa_append_latency_us ack) (Z.max ma (aa_append_latency_us ack))
    (aa_sync_latency_us ack) (Z.max ms (aa_sync_latency_us ack)) (sat_add n 1).

(** The counters of a wakeup: by a deadline, for work, or for neither. *)
Definition count_wakeup (m : ReactorMetricsV1) (timed_out has_work : bool) : ReactorMetricsV1 :=
  let 'mkReactorMetrics v w c d e wd mr wf jf ll ml la ma ls ms n := m in
  mkReactorMetrics v (sat_add w 1)
    (if negb timed_out && has_work then sat_add c 1 else c)
    (if timed_out then sat_add d 1 else d)
    (if negb timed_out && negb has_work then sat_add e 1 else e)
    wd mr wf jf ll ml la ma ls ms n.
Definition count_mailbox_refusal (m : ReactorMetricsV1) : ReactorMetricsV1 :=
  let 'mkReactorMetrics v w c d e wd mr wf jf ll ml la ma ls ms n := m in
  mkReactorMetrics v w c d e wd (sat_add mr 1) wf jf ll ml la ma ls ms n.
Definition count_journal_failure (m : ReactorMetricsV1) : ReactorMetricsV1 :=
  let 'mkReactorMetrics v w c d e wd mr wf jf ll ml la ma ls ms n := m in
  mkReactorMetrics v w c d e wd mr wf (sat_add jf 1) ll ml la ma ls ms n.
Definition count_withdrawal (m : ReactorMetricsV1) (lateness : Z) : ReactorMetricsV1 :=
  let 'mkReactorMetrics v w c d e wd mr wf jf _ ml la ma ls ms n := m in
  mkReactorMetrics v w c d e (sat_add wd 1) mr wf jf lateness (Z.max ml lateness) la ma ls ms n.

(** [observe_deadline_output]. *)
Definition observe_deadline_event (m : ReactorMetricsV1) (event : SparseDurableEventV1)
  : ReactorMetricsV1 :=
  match se_event event with
  | EvSchedulerReevaluated _ _ expected actual overshoot =>
      count_withdrawal m (Z.max (sat_sub actual expected) overshoot)
  | _ => m
  end.
Definition observe_deadline_output (output : RuntimeCycleOutputV1) (m : ReactorMetricsV1)
  : ReactorMetricsV1 :=
  fold_left observe_deadline_event (cy_sparse_events output) m.

Record ReactorSnapshotV1 := mkSnapshot {
  sn_schema_version : Z;
  sn_monotonic_epoch : MonotonicEpochV1;
  sn_observed_at_epoch_monotonic_ms : Z;
  sn_condition : ReactorConditionV1;
  sn_condition_detail : string;
  sn_live_standing_available : bool;
  sn_certificates : list RelianceSupportCertificateV1;
  sn_active_deadline_count : Z;
  sn_earliest_deadline_monotonic_ms : option Z;
  sn_supporting_evidence_count : Z;
  sn_runtime_metrics : RuntimeMetricsV1;
  sn_reactor_metrics : ReactorMetricsV1;
  sn_clean_shutdown : bool;
  sn_mutation_authority : MutationAuthorityV1;
}.

(** [ReactorSnapshotV1::unavailable]; [terminate_shared] then sets
    [clean_shutdown]. *)
Definition snapshot_unavailable (epoch : MonotonicEpochV1) (observed_at : Z)
    (condition : ReactorConditionV1) (detail : string) (runtime_metrics : RuntimeMetricsV1)
    (reactor_metrics : ReactorMetricsV1) (clean_shutdown : bool) : ReactorSnapshotV1 :=
  {| sn_schema_version := SCHEMA_VERSION_V1;
     sn_monotonic_epoch := epoch;
     sn_observed_at_epoch_monotonic_ms := observed_at;
     sn_condition := condition;
     sn_condition_detail := detail;
     sn_live_standing_available := false;
     sn_certificates := [];
     sn_active_deadline_count := 0;
     sn_earliest_deadline_monotonic_ms := None;
     sn_supporting_evidence_count := 0;
     sn_runtime_metrics := runtime_metrics;
     sn_reactor_metrics := reactor_metrics;
     sn_clean_shutdown := clean_shutdown;
     sn_mutation_authority := MutationNone |}.

(** The fields a client clears when it withdraws the snapshot. *)
Definition withdraw_snapshot (s : ReactorSnapshotV1) (condition : ReactorConditionV1)
    (detail : string) : ReactorSnapshotV1 :=
  {| sn_schema_version := sn_schema_version s;
     sn_monotonic_epoch := sn_monotonic_epoch s;
     sn_observed_at_epoch_monotonic_ms := sn_observed_at_epoch_monotonic_ms s;
     sn_condition := condition;
     sn_condition_detail := detail;
     sn_live_standing_available := false;
     sn_certificates := [];
     sn_active_deadline_count := 0;
     sn_earliest_deadline_monotonic_ms := None;
     sn_supporting_evidence_count := 0;
     sn_runtime_metrics := sn_runtime_metrics s;
     sn_reactor_metrics := sn_reactor_metrics s;
     sn_clean_shutdown := sn_clean_shutdown s;
     sn_mutation_authority := sn_mutation_authority s |}.
Definition set_sn_reactor_metrics (s : ReactorSnapshotV1) (m : ReactorMetricsV1)
  : ReactorSnapshotV1 :=
  let 'mkSnapshot a b c d e f g h i j k _ l n := s in mkSnapshot a b c d e f g h i j k m l n.

(** [slice::sort_by], which is stable. *)
Fixpoint insert_by {A} (cmp : A → A → comparison) (x : A) (xs : list A) : list A :=
  match xs with
  | [] => [x]
  | y :: rest => match cmp x y with Gt => y :: insert_by cmp x rest | _ => x :: xs end
  end.
Definition sort_by {A} (cmp : A → A → comparison) (xs : list A) : list A :=
  fold_right (insert_by cmp) [] xs.

Definition certificate_order (c : RelianceSupportCertificateV1) : string * string * string :=
  (ss_subject (sc_subject_scope c), sc_consumer c, cx_activation_id (sc_context c)).

(** [ReceiverSchedulerRuntime::current_certificates]. *)
Definition current_certificates (r : Runtime) : list RelianceSupportCertificateV1 :=
  omap (fun key => rs_consumers r !! key ≫= co_certificate) (sorted_keys r).

(** [snapshot_from_runtime]. *)
Definition snapshot_from_runtime (r : Runtime) (epoch : MonotonicEpochV1) (observed_at : Z)
    (condition : ReactorConditionV1) (detail : string) (metrics : ReactorMetricsV1)
  : ReactorSnapshotV1 :=
  if negb (exposes_live_standing condition) then
    snapshot_unavailable epoch observed_at condition detail (rs_metrics r) metrics false
  else
    let certificates :=
      sort_by (fun a b => triple_compare (certificate_order a) (certificate_order b))
        (current_certificates r) in
    {| sn_schema_version := SCHEMA_VERSION_V1;
       sn_monotonic_epoch := epoch;
       sn_observed_at_epoch_monotonic_ms := observed_at;
       sn_condition := condition;
       sn_condition_detail := detail;
       sn_live_standing_available := true;
       sn_certificates := certificates;
       sn_active_deadline_count := Z.of_nat (length (rs_schedules r));
       sn_earliest_deadline_monotonic_ms := next_scheduled_deadline_monotonic_ms r;
       sn_supporting_evidence_count :=
         fold_left (fun n c => n + Z.of_nat (length (sc_supporting_evidence_ids c))) certificates 0;
       sn_runtime_metrics := rs_metrics r;
       sn_reactor_metrics := metrics;
       sn_clean_shutdown := false;
       sn_mutation_authority := MutationNone |}.

(** [ReactorClock]: milliseconds since an [Instant], as [Instant::elapsed]
    measures them in nanoseconds. *)
Record ReactorClock := mkClock { ck_origin_runtime_monotonic_ms : Z }.
Definition now_ms (clock : ReactorClock) (elapsed_ns : Z) : Z :=
  sat_add (ck_origin_runtime_monotonic_ms clock) (Z.min (elapsed_ns / 1000000) u64_max).

(* ------------------------------------------------------------------ *)
(** ** The journal sink *)

Record JournalSink := mkSink {
  sk_journal : HistoricalJournal;
  sk_epoch : MonotonicEpochV1;
  sk_durability : JournalDurabilityModeV1;
  sk_seen_sparse_events : gset string;
  sk_seen_receipts : gset string;
  sk_contradiction_versions : gmap (string * string * string) DigestV1;
}.
Definition set_sk_journal (s : JournalSink) (j : HistoricalJournal) : JournalSink :=
  let 'mkSink _ e d a b c := s in mkSink j e d a b c.
Definition note_sparse_event (s : JournalSink) (id : SparseEventId) : JournalSink :=
  let 'mkSink j e d a b c := s in mkSink j e d ({[id]} ∪ a) b c.
Definition note_receipt (s : JournalSink) (id : DiagnosticReceiptId) : JournalSink :=
  let 'mkSink j e d a b c := s in mkSink j e d a ({[id]} ∪ b) c.
Definition note_contradiction (s : JournalSink) (key : string * string * string) (digest : DigestV1)
  : JournalSink :=
  let 'mkSink j e d a b c := s in mkSink j e d a b (<[key := digest]> c).

(** The JSON [serde_json] writes for a contradiction's custody, or the text
    of its error. *)
Class ContradictionJson := { contradiction_json : ContradictionCustodyV1 → result string string }.

(** What the actor writes to: the files, the sink and the metrics. *)
Record SinkState := mkSinkState {
  st_world : World;
  st_sink : JournalSink;
  st_metrics : ReactorMetricsV1;
}.
Definition set_st_sink (s : SinkState) (k : JournalSink) : SinkState :=
  mkSinkState (st_world s) k (st_metrics s).
Definition set_st_metrics (s : SinkState) (m : ReactorMetricsV1) : SinkState :=
  mkSinkState (st_world s) (st_sink s) m.

(** A failing capture keeps what it has already done. *)
Definition sk (A : Type) : Type := SinkState → SinkState * result ReactorCommandError A.
#[global] Instance sk_ret : MRet sk := fun A a s => (s, Ok a).
#[global] Instance sk_bind : MBind sk :=
  fun A B k c s => match c s with (s', Ok a) => k a s' | (s', Err e) => (s', Err e) end.
Definition sk_lift {A} (r : result ReactorCommandError A) : sk A := fun s => (s, r).
Definition sk_get : sk JournalSink := fun s => (s, Ok (st_sink s)).
Definition sk_note (f : JournalSink → JournalSink) : sk unit :=
  fun s => (set_st_sink s (f (st_sink s)), Ok tt).
Fixpoint sk_for {A} (f : A → sk unit) (xs : list A) : sk unit :=
  match xs with [] => mret tt | x :: rest => f x;; sk_for f rest end.

Section sink.
Context `{Sha256} `{JournalJson} `{FileSystem} `{ContradictionJson}.

(** [custody_digest] of [reactor.rs]. *)
Definition contradiction_digest (custody : ContradictionCustodyV1)
  : result ReactorCommandError DigestV1 :=
  bytes ← map_err (fun error => mkReactorError RcJournalFailure
                                  ("contradiction custody encoding failed: " +:+ error))
            (contradiction_json custody);
  Ok (digest_parts "runtime.contradiction-custody.v1" [bytes]).
Definition contradiction_version_key (custody : ContradictionCustodyV1) : string * string * string :=
  (ss_subject (cr_subject_scope (cu_contradiction custody)), cu_consumer custody,
   cr_contradiction_id (cu_contradiction custody)).

(** [sparse_context_digest]. *)
Definition sparse_context_digest (event : SparseDurableEventV1) : option DigestV1 :=
  match se_event event with
  | EvRelianceContextTransition transition =>
      Some (context_identity_digest (ct_new_context transition))
  | EvSupportCertificateIssued certificate => Some (context_identity_digest (sc_context certificate))
  | _ => None
  end.

(** [JournalSink::new]. *)
Definition sink_note_record (s : JournalSink) (record : HistoricalJournalRecordV1)
  : result ReactorCommandError JournalSink :=
  match jr_body record with
  | BodySparseEvent event => Ok (note_sparse_event s (se_event_id event))
  | BodyDiagnosticReceipt receipt => Ok (note_receipt s (rc_receipt_id receipt))
  | BodyContradictionCustody custody =>
      digest ← contradiction_digest custody;
      Ok (note_contradiction s (contradiction_version_key custody) digest)
  end.
Fixpoint sink_note_records (s : JournalSink) (records : list HistoricalJournalRecordV1)
  : result ReactorCommandError JournalSink :=
  match records with
  | [] => Ok s
  | record :: rest => s ← sink_note_record s record; sink_note_records s rest
  end.
Definition sink_new (journal : HistoricalJournal) (epoch : MonotonicEpochV1)
    (durability : JournalDurabilityModeV1) : result ReactorCommandError JournalSink :=
  sink_note_records (mkSink journal epoch durability ∅ ∅ ∅) (jn_committed_records journal).

(** One append and its metrics. *)
Definition sink_append (now : Z) (context : option DigestV1) (body : JournalRecordBodyV1) : sk unit :=
  fun s =>
    let k := st_sink s in
    match append (sk_journal k) (sk_epoch k) now context body (sk_durability k) (st_world s) with
    | (w, j, Ok ack) =>
        (mkSinkState w (set_sk_journal k j) (observe_append (st_metrics s) ack), Ok tt)
    | (w, j, Err e) => (mkSinkState w (set_sk_journal k j) (st_metrics s), Err (from_journal e))
    end.

(** [JournalSink::append_sparse]. *)
Definition append_sparse (now : Z) (event : SparseDurableEventV1) : sk unit :=
  s ← sk_get;
  if decide (se_event_id event ∈ sk_seen_sparse_events s) then mret tt
  else
    sink_append now (sparse_context_digest event) (BodySparseEvent event);;
    sk_note (fun s => note_sparse_event s (se_event_id event)).

Definition append_contradiction (now : Z) (custody : ContradictionCustodyV1) : sk unit :=
  digest ← sk_lift (contradiction_digest custody);
  s ← sk_get;
  if decide (sk_contradiction_versions s !! contradiction_version_key custody = Some digest) then mret tt
  else
    sink_append now None (BodyContradictionCustody custody);;
    sk_note (fun s => note_contradiction s (contradiction_version_key custody) digest).

Definition append_receipt (now : Z) (receipt : MockDiagnosticReceiptV1) : sk unit :=
  s ← sk_get;
  if decide (rc_receipt_id receipt ∈ sk_seen_receipts s) then mret tt
  else
    sink_append now None (BodyDiagnosticReceipt receipt);;
    sk_note (fun s => note_receipt s (rc_receipt_id receipt)).

(** [JournalSink::capture]. *)
Definition capture (r : Runtime) (output : RuntimeCycleOutputV1) (now : Z) : sk unit :=
  sk_for (append_sparse now) (cy_sparse_events output);;
  let history := export_history r in
  sk_for (append_sparse now) (hs_sparse_events history);;
  sk_for (append_contradiction now) (hs_contradictions history);;
  sk_for (append_receipt now) (hs_diagnostic_receipts history).
End sink.

(* ------------------------------------------------------------------ *)
(** ** What the mutex protects *)

(** The sending half of a command's one-message channel. *)
Abbreviation Channel := nat (only parsing).

Inductive ActorCommand :=
| CommandInput (admitted_at_monotonic_ms : Z) (input : RuntimeInputV1) (response : Channel)
| CommandBlindness (admitted_at_monotonic_ms : Z) (detail : string) (response : Channel).
Definition command_channel (c : ActorCommand) : Channel :=
  match c with CommandInput _ _ response | CommandBlindness _ _ response => response end.

Record LiveSupportQueryCommand := mkQuery {
  qc_request : LivePresentSupportRequestV1;
  qc_response : Channel;
}.

Record SharedState := mkShared {
  sh_queue : list ActorCommand;
  sh_live_support_queries : list LiveSupportQueryCommand;
  sh_accepting_commands : bool;
  sh_overload_latched : bool;
  sh_response_timeout_latched : bool;
  sh_abandoned : bool;
  sh_shutdown_requested : bool;
  sh_snapshot : ReactorSnapshotV1;
}.
Definition set_sh_snapshot (s : SharedState) (n : ReactorSnapshotV1) : SharedState :=
  let 'mkShared a b c d e f g _ := s in mkShared a b c d e f g n.

(* ------------------------------------------------------------------ *)
(** ** Clients *)

(** [LocalCrashReactor::submit_command]. *)
Definition submit_command (config : ReactorConfigV1) (command : ActorCommand) (s : SharedState)
  : SharedState * result ReactorCommandError unit :=
  if negb (sh_accepting_commands s) then
    (s, Err (mkReactorError RcNotOperational "reactor command boundary is closed"))
  else if rc_maximum_pending_commands config <=? Z.of_nat (length (sh_queue s)) then
    let snapshot := withdraw_snapshot (sh_snapshot s) MailboxOverloaded
                      "bounded reactor command mailbox saturated" in
    (mkShared (sh_queue s) (sh_live_support_queries s) (sh_accepting_commands s) true
       (sh_response_timeout_latched s) (sh_abandoned s) (sh_shutdown_requested s)
       (set_sn_reactor_metrics snapshot (count_mailbox_refusal (sn_reactor_metrics snapshot))),
     Err (mkReactorError RcQueueSaturated
            "bounded reactor command mailbox is full; temporal custody is blind"))
  else
    (mkShared (sh_queue s ++ [command]) (sh_live_support_queries s) (sh_accepting_commands s)
       (sh_overload_latched s) (sh_response_timeout_latched s) (sh_abandoned s)
       (sh_shutdown_requested s) (sh_snapshot s), Ok tt).

(** [LocalCrashReactor::submit_live_support_query]. *)
Definition submit_live_support_query (config : ReactorConfigV1) (query : LiveSupportQueryCommand)
    (s : SharedState) : SharedState * result ReactorCommandError unit :=
  if negb (sh_accepting_commands s) then
    (s, Err (mkReactorError RcNotOperational "reactor live-query boundary is closed"))
  else if rc_maximum_pending_commands config <=? Z.of_nat (length (sh_live_support_queries s)) then
    (s, Err (mkReactorError RcQueueSaturated
               "bounded live-query lane is full; reactor custody was not changed"))
  else
    (mkShared (sh_queue s) (sh_live_support_queries s ++ [query]) (sh_accepting_commands s)
       (sh_overload_latched s) (sh_response_timeout_latched s) (sh_abandoned s)
       (sh_shutdown_requested s) (sh_snapshot s), Ok tt).

(** [LocalCrashReactor::latch_response_timeout]. *)
Definition latch_response_timeout (s : SharedState) : SharedState :=
  mkShared (sh_queue s) (sh_live_support_queries s) (sh_accepting_commands s)
    (sh_overload_latched s) true (sh_abandoned s) (sh_shutdown_requested s)
    (withdraw_snapshot (sh_snapshot s) WakeupFailure
       "command response timeout made timer custody unavailable").

(** The request of [LocalCrashReactor::shutdown], before the thread is joined. *)
Definition request_shutdown (s : SharedState) : SharedState :=
  mkShared (sh_queue s) (sh_live_support_queries s) false (sh_overload_latched s)
    (sh_response_timeout_latched s) (sh_abandoned s) true
    (withdraw_snapshot (sh_snapshot s) ShuttingDown "clean shutdown requested").

(** [Drop] of the reactor's owner, before the thread is joined. *)
Definition abandon (s : SharedState) : SharedState :=
  mkShared (sh_queue s) (sh_live_support_queries s) false (sh_overload_latched s)
    (sh_response_timeout_latched s) true (sh_shutdown_requested s)
    (withdraw_snapshot (sh_snapshot s) CommandChannelClosed
       "reactor owner dropped without clean shutdown").

(** What [recv_timeout] on a command's channel returns. *)
Inductive Received (A : Type) := Message (a : A) | WaitedOut | Disconnected.
#[global] Arguments Message {A} a.
#[global] Arguments WaitedOut {A}.
#[global] Arguments Disconnected {A}.

(** The end of [submit_input] and [declare_blindness], which differ in the
    texts: a wait that ran out is latched. *)
Definition receive_command (timeout_detail disconnected_detail : string)
    (received : Received (result ReactorCommandError RuntimeCycleOutputV1)) (s : SharedState)
  : SharedState * result ReactorCommandError RuntimeCycleOutputV1 :=
  match received with
  | Message result => (s, result)
  | WaitedOut => (latch_response_timeout s, Err (mkReactorError RcResponseTimeout timeout_detail))
  | Disconnected => (s, Err (mkReactorError RcActorTerminated disconnected_detail))
  end.
Definition receive_input :=
  receive_command "reactor command response exceeded its configured wait bound"
    "reactor terminated before returning the command result".
Definition receive_blindness :=
  receive_command "reactor blindness response exceeded its configured wait bound"
    "reactor terminated before confirming blindness".

Section queries.
Context `{Sha256}.

(** [query_live_present_support] around its exchange with the actor: the
    check of the request and of the answer. *)
Definition check_live_request (request : LivePresentSupportRequestV1)
  : result ReactorCommandError unit :=
  map_err (fun error => mkReactorError RcInvalidRequest (runtime_type_error_display error))
    (live_request_validate request).
Definition receive_query (expected : LivePresentSupportRequestV1)
    (received : Received (result ReactorCommandError LivePresentSupportResponseV1))
  : result ReactorCommandError LivePresentSupportResponseV1 :=
  match received with
  | Message answer =>
      response ← answer;
      map_err (fun error => mkReactorError RcRuntimeFailure (runtime_type_error_display error))
        (live_response_validate_against response expected);;
      Ok response
  | WaitedOut =>
      Err (mkReactorError RcResponseTimeout
             "live present-support response exceeded its wait bound; reactor custody was not changed")
  | Disconnected =>
      Err (mkReactorError RcActorTerminated
             "reactor terminated before returning the live present-support response")
  end.

(** [query_live_present_support_canonical]; [query] is the exchange. *)
Definition query_live_present_support_canonical `{LiveSupportJson}
    (query : LivePresentSupportRequestV1 → result ReactorCommandError LivePresentSupportResponseV1)
    (request_bytes : string) : result ReactorCommandError string :=
  ensure (negb (MAX_LIVE_PRESENT_SUPPORT_REQUEST_BYTES <? slen request_bytes))
    (mkReactorError RcInvalidRequest "live present-support request exceeds its byte bound");;
  request ← map_err (mkReactorError RcInvalidRequest) (live_request_decode_canonical request_bytes);
  response ← query request;
  bytes ← map_err (mkReactorError RcRuntimeFailure) (live_response_canonical_bytes response);
  ensure (negb (MAX_LIVE_PRESENT_SUPPORT_RESPONSE_BYTES <? slen bytes))
    (mkReactorError RcRuntimeFailure "live present-support response exceeds its byte bound");;
  Ok bytes.
End queries.

(* ------------------------------------------------------------------ *)
(** ** Clients of the custody transport *)

(** [revalidate_transport_activation] around its two looks at the snapshot:
    what it submits, and what it makes of the output. *)
Definition activation_input (activated : option TransportCustodyPolicyBindingV1)
    (snapshot : ReactorSnapshotV1) (subject : SubjectId) (consumer : ConsumerId)
    (expected_policy : TransportCustodyPolicyBindingV1) : result ReactorCommandError RuntimeInputV1 :=
  map_err (fun error => mkReactorError RcInvalidConfig
                          ("invalid transport custody policy binding: " +:+ custody_error_display error))
    (policy_binding_validate expected_policy);;
  ensure (bool_decide (activated = Some expected_policy))
    (mkReactorError RcInvalidConfig
       "transport custody policy does not exactly match the activated runtime configuration");;
  ensure (exposes_live_standing (sn_condition snapshot))
    (mkReactorError RcNotOperational
       "reactor cannot attest a live local activation while temporal custody is unavailable");;
  Ok (RevalidateTransportActivation subject consumer expected_policy).
Definition established_activation (snapshot : ReactorSnapshotV1) (output : RuntimeCycleOutputV1)
    (subject : SubjectId) (consumer : ConsumerId)
  : result ReactorCommandError QualifiedGenerationBindingV1 :=
  ensure (exposes_live_standing (sn_condition snapshot))
    (mkReactorError RcNotOperational "reactor lost temporal custody during activation revalidation");;
  match
    certificate ← head (filter (fun c => ss_subject (sc_subject_scope c) = subject
                                         ∧ sc_consumer c = consumer)
                          (rev (cy_certificates output)));
    sc_qualified_generation certificate
  with
  | Some binding => Ok binding
  | None =>
      Err (mkReactorError RcNotOperational
             "live actor did not establish an exact QualifiedAndMatched activation")
  end.

(** [receiver_monotonic_now]. *)
Definition receiver_monotonic_now (clock : ReactorClock) (snapshot : ReactorSnapshotV1) (elapsed_ns : Z)
  : result ReactorCommandError Z :=
  ensure (exposes_live_standing (sn_condition snapshot))
    (mkReactorError RcNotOperational "reactor monotonic custody is unavailable");;
  Ok (now_ms clock elapsed_ns).

(** [report_receiver_boundary_condition]; [submit] and [declare] are
    [submit_input] and [declare_blindness]. *)
Definition report_receiver_boundary_condition
    (submit : RuntimeInputV1 → result ReactorCommandError RuntimeCycleOutputV1)
    (declare : string → result ReactorCommandError RuntimeCycleOutputV1)
    (subject : option SubjectId) (finding : TransportCustodyFindingV1)
    (session_binding_digest : option DigestV1) (detail : string) (withdraw : bool)
  : result ReactorCommandError RuntimeCycleOutputV1 :=
  output ← submit (ReceiverBoundaryCondition subject finding session_binding_digest detail withdraw);
  if withdraw then
    blindness ← declare ("receiver-boundary " +:+ finding_debug finding +:+ ": " +:+ detail);
    Ok (cycle_append output blindness)
  else Ok output.
