(* ===== verification/ReactorActor.v ===== *)
(** * The reactor's thread: the actor of [crates/pulse-runtime/src/reactor.rs]

    One iteration takes the waiting work under the mutex, feeds it to the
    runtime, journals what came of it, and publishes a snapshot before it
    answers; or it terminates.  The qualification hooks, which only tests
    install, are left out. *)

From S2P Require Import Prelude Ids Digest Judgment Context Qualification CustodyTypes Escalation.
From S2P Require Import Certificate Event Policy Receiver EvaluatorState RuntimeState RuntimeArtifacts.
From S2P Require Import Runtime RuntimeOps RuntimeHistory Journal LiveSupport Reactor.

(* ------------------------------------------------------------------ *)
(** ** Debug texts *)

(** The text the derived [Debug] prints for a string. *)
Class DebugText := { str_debug : string → string }.

Section debug.
Context `{DebugText}.
Definition bool_debug (b : bool) : string := if b then "true" else "false".
Definition newtype_debug (name value : string) : string :=
  name +:+ "(" +:+ str_debug value +:+ ")".
(** The derived [Debug] of [RuntimeRefusalV1]. *)
Definition refusal_debug (r : RuntimeRefusalV1) : string :=
  "RuntimeRefusalV1 { schema_version: " +:+ dec (rf_schema_version r)
  +:+ ", refusal_id: " +:+ newtype_debug "RuntimeRefusalId" (rf_refusal_id r)
  +:+ ", class: " +:+ refusal_class_debug (rf_class r)
  +:+ ", at_monotonic_ms: " +:+ dec (rf_at_monotonic_ms r)
  +:+ ", subject: " +:+ option_debug (newtype_debug "SubjectId") (rf_subject r)
  +:+ ", consumer: " +:+ option_debug (newtype_debug "ConsumerId") (rf_consumer r)
  +:+ ", configured_bound: " +:+ dec (rf_configured_bound r)
  +:+ ", observed_count: " +:+ dec (rf_observed_count r)
  +:+ ", detail: " +:+ str_debug (rf_detail r)
  +:+ ", current_preserved: " +:+ bool_debug (rf_current_preserved r)
  +:+ ", mutation_authority: None }".
End debug.

(* ------------------------------------------------------------------ *)
(** ** Answering a live query *)

(** [live_support_remaining]. *)
Definition live_support_remaining (judgment : JudgmentCategoryV1) (expiry : option Z) (measured_at : Z)
  : LivePresentSupportDispositionV1 * option Z :=
  match judgment, expiry with
  | CatCurrent, Some expiry =>
      let raw_remaining := sat_sub expiry measured_at in
      if raw_remaining <=? 1 then (Expired, None)
      else (SupportedCurrent, Some (raw_remaining - 1))
  | _, _ => (Unsupported, None)
  end.

Section answer.
Context `{Sha256}.

(** The certificate is exactly the one the request names. *)
Definition exact_support (request : LivePresentSupportRequestV1) (c : RelianceSupportCertificateV1)
  : bool :=
  bool_decide (sc_consumer c = lq_consumer request)
  && bool_decide (sc_subject_scope c = lq_subject_scope request)
  && bool_decide (sc_context c = lq_reliance_context request)
  && bool_decide (context_identity_digest (sc_context c) = lq_reliance_context_digest request)
  && bool_decide (sc_certificate_id c = lq_support_certificate_id request)
  && bool_decide (sc_evidence_window_id c = lq_evidence_window_id request)
  && match sc_qualified_generation c with
     | Some binding =>
         bool_decide (binding_identity_digest binding = lq_qualified_generation_digest request)
     | None => false
     end.
Definition lineage_matches (request : LivePresentSupportRequestV1) (epoch : MonotonicEpochV1) : bool :=
  bool_decide (lq_receiver request = me_receiver epoch)
  && bool_decide (lq_receiver_incarnation request = me_receiver_incarnation epoch)
  && bool_decide (lq_receiver_epoch_id request = me_epoch_id epoch)
  && bool_decide (lq_receiver_clock_id request = me_clock_id epoch).

(** [live_present_support_response]. *)
Definition live_present_support_response (r : Runtime) (epoch : MonotonicEpochV1)
    (condition : ReactorConditionV1) (request : LivePresentSupportRequestV1) (measured_at : Z)
  : LivePresentSupportResponseV1 :=
  let certificate := current_certificate r (ss_subject (lq_subject_scope request))
                       (lq_consumer request) in
  let '(disposition, remaining) :=
    if decide (condition ≠ Operational) then (Indeterminate, None)
    else
      match certificate with
      | Some c =>
          if negb (lineage_matches request epoch) || negb (exact_support request c) then
            (Unsupported, None)
          else
            live_support_remaining (sc_judgment c) (sc_earliest_support_expiry_monotonic_ms c)
              measured_at
      | None => (Unsupported, None)
      end in
  live_response_new request (me_receiver epoch) (me_receiver_incarnation epoch) (me_epoch_id epoch)
    (me_clock_id epoch) (me_clock_source epoch) measured_at disposition remaining.
End answer.

(* ------------------------------------------------------------------ *)
(** ** Taking work *)

Record ActorWake := mkWake {
  wk_commands : list ActorCommand;
  wk_live_support_queries : list LiveSupportQueryCommand;
  wk_overload : bool;
  wk_response_timeout : bool;
  wk_abandoned : bool;
  wk_shutdown : bool;
  wk_timed_out : bool;
}.

Definition deadline_due (deadline : option Z) (now : Z) : bool :=
  match deadline with Some deadline => deadline <=? now | None => false end.

(** The test at the head of the loop of [wait_for_actor_work]. *)
Definition work_waiting (deadline : option Z) (now : Z) (s : SharedState) : bool :=
  negb (bool_decide (length (sh_queue s) = 0%nat))
  || negb (bool_decide (length (sh_live_support_queries s) = 0%nat))
  || sh_overload_latched s || sh_response_timeout_latched s || sh_abandoned s
  || sh_shutdown_requested s || deadline_due deadline now.

(** What it takes; the flags of the owner stay. *)
Definition take_work (timed_out : bool) (s : SharedState) : SharedState * ActorWake :=
  (mkShared [] [] (sh_accepting_commands s) false false (sh_abandoned s) (sh_shutdown_requested s)
     (sh_snapshot s),
   mkWake (sh_queue s) (sh_live_support_queries s) (sh_overload_latched s)
     (sh_response_timeout_latched s) (sh_abandoned s) (sh_shutdown_requested s) timed_out).

(** [wait_for_actor_work] when it returns: work was waiting at [now], or the
    timed wait ran out ([waited_out]). *)
Definition wait_for_actor_work (deadline : option Z) (now : Z) (waited_out : bool) (s : SharedState)
  : option (SharedState * ActorWake) :=
  if work_waiting deadline now s then Some (take_work (deadline_due deadline now) s)
  else match deadline with
       | Some _ => if waited_out then Some (take_work true s) else None
       | None => None
       end.

(* ------------------------------------------------------------------ *)
(** ** One iteration *)

Record Actor := mkActor {
  ac_runtime : Runtime;
  ac_sink : SinkState;
  ac_custody_failure : option (ReactorConditionV1 * string);
}.
Definition set_ac_runtime (a : Actor) (r : Runtime) : Actor :=
  mkActor r (ac_sink a) (ac_custody_failure a).
Definition set_ac_sink (a : Actor) (s : SinkState) : Actor :=
  mkActor (ac_runtime a) s (ac_custody_failure a).
Definition set_ac_custody_failure (a : Actor) (c : ReactorConditionV1) (detail : string) : Actor :=
  mkActor (ac_runtime a) (ac_sink a) (Some (c, detail)).
Definition map_ac_metrics (f : ReactorMetricsV1 → ReactorMetricsV1) (a : Actor) : Actor :=
  set_ac_sink a (set_st_metrics (ac_sink a) (f (st_metrics (ac_sink a)))).

(** How the thread stops: [terminate_shared] with these arguments, or an
    unwind. *)
Inductive Halt :=
| HaltTerminate (condition : ReactorConditionV1) (detail : string) (clean : bool)
| HaltUnwind.

(** The variables of an iteration. *)
Record Iteration := mkIteration {
  it_actor : Actor;
  it_combined : RuntimeCycleOutputV1;
  it_responses : list (Channel * option ReactorCommandError);
  it_explicit_blindness : option string;
  it_replies : list (Channel * result ReactorCommandError RuntimeCycleOutputV1);
  it_answers : list (Channel * result ReactorCommandError LivePresentSupportResponseV1);
}.
Definition map_it_actor (f : Actor → Actor) (i : Iteration) : Iteration :=
  let 'mkIteration a b c d e g := i in mkIteration (f a) b c d e g.
Definition combine (output : RuntimeCycleOutputV1) (i : Iteration) : Iteration :=
  let 'mkIteration a b c d e g := i in mkIteration a (cycle_append b output) c d e g.
Definition respond (response : Channel) (error : option ReactorCommandError) (i : Iteration)
  : Iteration :=
  let 'mkIteration a b c d e g := i in mkIteration a b (c ++ [(response, error)]) d e g.
Definition note_blindness (detail : string) (i : Iteration) : Iteration :=
  let 'mkIteration a b c _ e g := i in mkIteration a b c (Some detail) e g.
(** [for (response, _) in responses { response.send(Err(error)) }]. *)
Definition reply_error (error : ReactorCommandError) (i : Iteration) : Iteration :=
  let 'mkIteration a b c d e g := i in
  mkIteration a b [] d (e ++ ((fun '(ch, _) => (ch, Err error)) <$> c)) g.
Definition answer_errors (error : ReactorCommandError) (queries : list LiveSupportQueryCommand)
    (i : Iteration) : Iteration :=
  let 'mkIteration a b c d e g := i in
  mkIteration a b c d e (g ++ ((fun q => (qc_response q, Err error)) <$> queries)).

Definition act (A : Type) : Type := Iteration → Iteration * result Halt A.
#[global] Instance act_ret : MRet act := fun A a i => (i, Ok a).
#[global] Instance act_bind : MBind act :=
  fun A B k c i => match c i with (i', Ok a) => k a i' | (i', Err h) => (i', Err h) end.
Definition halt {A} (h : Halt) : act A := fun i => (i, Err h).
Definition act_upd (f : Iteration → Iteration) : act unit := fun i => (f i, Ok tt).
Fixpoint act_for {A} (f : A → act unit) (xs : list A) : act unit :=
  match xs with [] => mret tt | x :: rest => f x;; act_for f rest end.

Section actor.
Context `{Sha256} `{FactJson} `{CustodyJson} `{RuntimeEnvironment}.
Context `{JournalJson} `{FileSystem} `{ContradictionJson} `{DebugText}.

(** A call on the runtime that returns an output: its error is a value, a
    panic unwinds the thread. *)
Definition runtime_call (call : Runtime → Runtime * result Failure RuntimeCycleOutputV1)
  : act (result RuntimeError RuntimeCycleOutputV1) :=
  fun i =>
    let '(r, res) := call (ac_runtime (it_actor i)) in
    (map_it_actor (fun a => set_ac_runtime a r) i,
     match res with
     | Ok output => Ok (Ok output)
     | Err (Returned e) => Ok (Err e)
     | Err _ => Err HaltUnwind
     end).
Definition declare_blind (at_ms : Z) (state detail : string)
  : act (result RuntimeError RuntimeCycleOutputV1) :=
  runtime_call (fun r => declare_external_monitor_blindness r at_ms state detail).
(** [sink.capture(&runtime, ..)]. *)
Definition capture_output (output : RuntimeCycleOutputV1) (now : Z)
  : act (result ReactorCommandError unit) :=
  fun i =>
    let '(s, res) := capture (ac_runtime (it_actor i)) output now (ac_sink (it_actor i)) in
    (map_it_actor (fun a => set_ac_sink a s) i, Ok res).

(** The branch [overload || response_timeout]. *)
Definition latch_boundary_failure (now : Z) (wake : ActorWake) : act unit :=
  if wk_overload wake || wk_response_timeout wake then
    let detail := if wk_overload wake
                  then "reactor command mailbox saturated; at least one command was refused"
                  else "reactor command response timed out; temporal custody cannot be relied upon" in
    declared ← declare_blind now
                 (if wk_overload wake then "reactor_mailbox_overloaded"
                  else "reactor_response_timeout") detail;
    match declared with
    | Err error => halt (HaltTerminate WakeupFailure (runtime_error_display error) false)
    | Ok output =>
        act_upd (combine output);;
        act_upd (map_it_actor (fun a =>
                   set_ac_custody_failure a
                     (if wk_overload wake then MailboxOverloaded else WakeupFailure) detail))
    end
  else mret tt.

(** The body of the command loop. *)
Definition process_command (now : Z) (command : ActorCommand) : act unit :=
  match command with
  | CommandInput admitted_at input response =>
      fun i =>
        let '(r, res) := enqueue (ac_runtime (it_actor i)) admitted_at input in
        let i := map_it_actor (fun a => set_ac_runtime a r) i in
        (respond response
           match res with
           | Ok _ => None
           | Err refusal =>
               Some (mkReactorError RcRuntimeFailure
                       ("runtime input refused: " +:+ refusal_debug refusal))
           end i, Ok tt)
  | CommandBlindness admitted_at detail response =>
      act_upd (note_blindness detail);;
      declared ← declare_blind (Z.max admitted_at now) "reactor_explicit_blindness" detail;
      match declared with
      | Ok output => act_upd (combine output);; act_upd (respond response None)
      | Err error =>
          act_upd (respond response
                     (Some (mkReactorError RcRuntimeFailure (runtime_error_display error))))
      end
  end.

(** [runtime.run_until(now)] and its failure. *)
Definition run_runtime (now : Z) : act unit :=
  ran ← runtime_call (fun r => run_until r now);
  match ran with
  | Ok output => act_upd (combine output)
  | Err e =>
      let error := mkReactorError RcRuntimeFailure (runtime_error_display e) in
      act_upd (reply_error error);;
      halt (HaltTerminate WakeupFailure (reactor_error_display error) false)
  end.

(** The journal capture of the combined output and its failure. *)
Definition journal_output (now : Z) : act unit :=
  i ← (fun i => (i, Ok i) : Iteration * result Halt Iteration);
  captured ← capture_output (it_combined i) now;
  match captured with
  | Ok _ => mret tt
  | Err error =>
      act_upd (map_it_actor (map_ac_metrics count_journal_failure));;
      declared ← declare_blind now "required_journal_failure" (reactor_error_display error);
      let blindness := match declared with Ok output => output | Err _ => cycle_default end in
      _ ← capture_output blindness now;
      act_upd (reply_error error);;
      halt (HaltTerminate JournalFailure (reactor_error_display error) false)
  end.

(** The branch [abandoned || shutdown]. *)
Definition wind_down (now : Z) (wake : ActorWake) : act unit :=
  if wk_abandoned wake || wk_shutdown wake then
    let condition := if wk_shutdown wake then ShuttingDown else CommandChannelClosed in
    let detail := if wk_shutdown wake then "clean shutdown withdrew temporal custody"
                  else "reactor command channel closed without a clean shutdown" in
    declared ← declare_blind now "reactor_terminated" detail;
    let final_output := match declared with Ok output => output | Err _ => cycle_default end in
    act_upd (answer_errors
               (mkReactorError RcNotOperational
                  "reactor withdrew temporal custody before answering the live query")
               (wk_live_support_queries wake));;
    captured ← capture_output final_output now;
    match captured with
    | Err error =>
        act_upd (map_it_actor (map_ac_metrics count_journal_failure));;
        halt (HaltTerminate JournalFailure (reactor_error_display error) false)
    | Ok _ =>
        if wk_shutdown wake then
          halt (HaltTerminate Terminated
                  "clean shutdown completed after withdrawing temporal custody" true)
        else halt (HaltTerminate condition detail false)
    end
  else mret tt.

(** The custody failure of an explicit declaration. *)
Definition note_explicit_blindness : act unit :=
  act_upd (fun i => match it_explicit_blindness i with
                    | Some detail =>
                        map_it_actor (fun a => set_ac_custody_failure a ExplicitBlindness detail) i
                    | None => i
                    end).

(** The loop body of [actor_main] from the wakeup to the publication, at the
    time [now] it reads. *)
Definition actor_iteration (now : Z) (wake : ActorWake) : act unit :=
  act_upd (map_it_actor (map_ac_metrics (fun m =>
             count_wakeup m (wk_timed_out wake)
               (negb (bool_decide (length (wk_commands wake) = 0%nat))
                || negb (bool_decide (length (wk_live_support_queries wake) = 0%nat))))));;
  latch_boundary_failure now wake;;
  act_for (process_command now) (wk_commands wake);;
  run_runtime now;;
  act_upd (fun i => map_it_actor (map_ac_metrics (observe_deadline_output (it_combined i))) i);;
  journal_output now;;
  wind_down now wake;;
  note_explicit_blindness.

Definition begin_iteration (a : Actor) : Iteration := mkIteration a cycle_default [] None [] [].

(** The condition an iteration publishes. *)
Definition actor_condition (a : Actor) : ReactorConditionV1 * string :=
  default (Operational, "reactor owns the earliest active deadline") (ac_custody_failure a).

(** The results sent after the publication. *)
Definition command_results (i : Iteration)
  : list (Channel * result ReactorCommandError RuntimeCycleOutputV1) :=
  (fun '(ch, error) => (ch, match error with Some e => Err e | None => Ok (it_combined i) end))
    <$> it_responses i.
End actor.
