(* ===== verification/ReactorMachine.v ===== *)
(** * The reactor as an interleaving system

    The thread of [ReactorActor] and the clients of [Reactor] take turns at
    the mutex.  An [Action] is what one of them does while it holds the mutex,
    or a part of an iteration that holds it nowhere; time passes in between.
    No code that runs under the mutex panics, so it is never poisoned and the
    branches for a poisoned mutex are left out. *)

From S2P Require Import Prelude Ids Digest Judgment Context Qualification CustodyTypes Escalation.
From S2P Require Import Certificate Event Policy Receiver EvaluatorState RuntimeState RuntimeArtifacts.
From S2P Require Import Runtime RuntimeOps RuntimeHistory Journal LiveSupport Reactor ReactorActor.

Abbreviation Reply := (nat * result ReactorCommandError RuntimeCycleOutputV1)%type (only parsing).
Abbreviation Answer := (nat * result ReactorCommandError LivePresentSupportResponseV1)%type
  (only parsing).

(** Where the thread is. *)
Inductive Phase :=
| PhaseBegin
| PhaseWait
| PhaseProcess (wake : ActorWake)
| PhasePublish (snapshot : ReactorSnapshotV1) (results : list Reply)
    (queries : list LiveSupportQueryCommand) (condition : ReactorConditionV1)
| PhaseAnswer (queries : list LiveSupportQueryCommand) (condition : ReactorConditionV1)
| PhaseTerminate (now : Z) (condition : ReactorConditionV1) (detail : string) (clean : bool)
| PhaseUnwound
| PhaseStopped.

Record Machine := mkMachine {
  mc_config : ReactorConfigV1;
  mc_epoch : MonotonicEpochV1;
  mc_clock : ReactorClock;
  mc_elapsed_ns : Z;
  mc_owned : bool;
  mc_next_channel : nat;
  mc_shared : SharedState;
  mc_actor : Actor;
  mc_phase : Phase;
  mc_replies : list Reply;
  mc_answers : list Answer;
}.
Definition machine_now (m : Machine) : Z := now_ms (mc_clock m) (mc_elapsed_ns m).
Definition set_mc_elapsed_ns (m : Machine) (ns : Z) : Machine :=
  let 'mkMachine c e k _ o n s a p r q := m in mkMachine c e k ns o n s a p r q.
Definition set_mc_owned (m : Machine) (owned : bool) : Machine :=
  let 'mkMachine c e k t _ n s a p r q := m in mkMachine c e k t owned n s a p r q.
Definition set_mc_next_channel (m : Machine) (n : nat) : Machine :=
  let 'mkMachine c e k t o _ s a p r q := m in mkMachine c e k t o n s a p r q.
Definition set_mc_shared (m : Machine) (s : SharedState) : Machine :=
  let 'mkMachine c e k t o n _ a p r q := m in mkMachine c e k t o n s a p r q.
Definition set_mc_actor (m : Machine) (a : Actor) : Machine :=
  let 'mkMachine c e k t o n s _ p r q := m in mkMachine c e k t o n s a p r q.
Definition set_mc_phase (m : Machine) (p : Phase) : Machine :=
  let 'mkMachine c e k t o n s a _ r q := m in mkMachine c e k t o n s a p r q.
Definition send_replies (m : Machine) (replies : list Reply) : Machine :=
  let 'mkMachine c e k t o n s a p r q := m in mkMachine c e k t o n s a p (r ++ replies) q.
Definition send_answers (m : Machine) (answers : list Answer) : Machine :=
  let 'mkMachine c e k t o n s a p r q := m in mkMachine c e k t o n s a p r (q ++ answers).

(** What [terminate_shared] and [terminate_shared_without_runtime] leave
    behind the mutex: nothing waits, nothing is accepted. *)
Definition close_shared (s : SharedState) (snapshot : ReactorSnapshotV1) : SharedState :=
  mkShared [] [] false (sh_overload_latched s) (sh_response_timeout_latched s) (sh_abandoned s)
    (sh_shutdown_requested s) snapshot.
Definition drain_queue (s : SharedState) (detail : string) : list Reply :=
  (fun c => (command_channel c, Err (mkReactorError RcActorTerminated detail))) <$> sh_queue s.
Definition drain_queries (s : SharedState) (detail : string) : list Answer :=
  (fun q => (qc_response q, Err (mkReactorError RcActorTerminated detail)))
    <$> sh_live_support_queries s.

(** [terminate_shared]. *)
Definition terminate_shared (m : Machine) (now : Z) (condition : ReactorConditionV1)
    (detail : string) (clean_shutdown : bool) : Machine :=
  let s := mc_shared m in
  let a := mc_actor m in
  let snapshot := snapshot_unavailable (mc_epoch m) now condition detail (rs_metrics (ac_runtime a))
                    (st_metrics (ac_sink a)) clean_shutdown in
  let m := send_replies m (drain_queue s "reactor terminated before command processing") in
  let m := send_answers m (drain_queries s "reactor terminated before live-query processing") in
  set_mc_phase (set_mc_shared m (close_shared s snapshot)) PhaseStopped.

(** [terminate_shared_without_runtime], as [guard_actor_unwind] calls it. *)
Definition terminate_unwound (m : Machine) : Machine :=
  let s := mc_shared m in
  let old := withdraw_snapshot (sh_snapshot s) ActorTerminated
               "reactor actor thread terminated by an unwind; temporal custody was withdrawn" in
  let snapshot :=
    {| sn_schema_version := sn_schema_version old;
       sn_monotonic_epoch := mc_epoch m;
       sn_observed_at_epoch_monotonic_ms := machine_now m;
       sn_condition := sn_condition old;
       sn_condition_detail := sn_condition_detail old;
       sn_live_standing_available := sn_live_standing_available old;
       sn_certificates := sn_certificates old;
       sn_active_deadline_count := sn_active_deadline_count old;
       sn_earliest_deadline_monotonic_ms := sn_earliest_deadline_monotonic_ms old;
       sn_supporting_evidence_count := sn_supporting_evidence_count old;
       sn_runtime_metrics := sn_runtime_metrics old;
       sn_reactor_metrics := sn_reactor_metrics old;
       sn_clean_shutdown := false;
       sn_mutation_authority := MutationNone |} in
  let m := send_replies m
             (drain_queue s "reactor actor thread terminated before command processing") in
  let m := send_answers m
             (drain_queries s "reactor actor thread terminated before live-query processing") in
  set_mc_phase (set_mc_shared m (close_shared s snapshot)) PhaseStopped.

Section machine.
Context `{Sha256} `{FactJson} `{CustodyJson} `{RuntimeEnvironment}.
Context `{JournalJson} `{FileSystem} `{ContradictionJson} `{DebugText}.

(** [LocalCrashReactor::start_inner]; [spawn_error] is the error of
    [thread::Builder::spawn], [elapsed_ns] the time until the snapshot is
    made.  The sink the actor starts with has noted no record yet. *)
Definition reactor_start (r : Runtime) (journal : HistoricalJournal) (epoch : MonotonicEpochV1)
    (config : ReactorConfigV1) (spawn_error : option string) (elapsed_ns : Z) (w : World)
  : result ReactorCommandError Machine :=
  reactor_config_validate config;;
  map_err from_journal (epoch_validate epoch);;
  ensure (bool_decide (me_receiver epoch = cf_receiver (rs_config r))
          && bool_decide (me_receiver_incarnation epoch = cf_receiver_incarnation (rs_config r))
          && bool_decide (me_clock_id epoch = cf_clock_id (rs_config r))
          && (me_origin_runtime_monotonic_ms epoch =? rs_current_monotonic_ms r))
    (mkReactorError RcInvalidConfig
       "reactor epoch does not exactly bind runtime receiver lineage and origin");;
  match spawn_error with
  | Some error => Err (mkReactorError RcThreadSpawnFailure
                         ("reactor thread spawn failed: " +:+ error))
  | None =>
      let clock := mkClock (me_origin_runtime_monotonic_ms epoch) in
      let snapshot := snapshot_from_runtime r epoch (now_ms clock elapsed_ns) Starting
                        "reactor thread has not entered its wake loop" reactor_metrics_empty in
      Ok {| mc_config := config;
            mc_epoch := epoch;
            mc_clock := clock;
            mc_elapsed_ns := elapsed_ns;
            mc_owned := true;
            mc_next_channel := 0;
            mc_shared := mkShared [] [] true false false false false snapshot;
            mc_actor :=
              mkActor r
                (mkSinkState w (mkSink journal epoch (rc_journal_durability config) ∅ ∅ ∅)
                   reactor_metrics_empty) None;
            mc_phase := PhaseBegin;
            mc_replies := [];
            mc_answers := [] |}
  end.

(** [actor_main] up to its loop. *)
Definition actor_begin (m : Machine) : Machine :=
  let a := mc_actor m in
  let now := machine_now m in
  match sink_new (sk_journal (st_sink (ac_sink a))) (mc_epoch m)
          (rc_journal_durability (mc_config m)) with
  | Err error => set_mc_phase m (PhaseTerminate now JournalFailure (reactor_error_display error) false)
  | Ok sink =>
      match capture (ac_runtime a) cycle_default now (set_st_sink (ac_sink a) sink) with
      | (s, Err error) =>
          let a := map_ac_metrics count_journal_failure (set_ac_sink a s) in
          set_mc_phase (set_mc_actor m a)
            (PhaseTerminate now JournalFailure (reactor_error_display error) false)
      | (s, Ok _) =>
          set_mc_phase (set_mc_actor m (set_ac_sink a s))
            (PhasePublish
               (snapshot_from_runtime (ac_runtime a) (mc_epoch m) now Operational
                  "reactor owns the earliest active deadline" (st_metrics s)) [] [] Operational)
      end
  end.

(** An iteration between the two times it holds the mutex. *)
Definition actor_process (m : Machine) (wake : ActorWake) : Machine :=
  let now := machine_now m in
  let '(i, res) := actor_iteration now wake (begin_iteration (mc_actor m)) in
  let a := it_actor i in
  let m := send_answers (send_replies (set_mc_actor m a) (it_replies i)) (it_answers i) in
  set_mc_phase m
    match res with
    | Ok _ =>
        let '(condition, detail) := actor_condition a in
        PhasePublish
          (snapshot_from_runtime (ac_runtime a) (mc_epoch m) now condition detail
             (st_metrics (ac_sink a)))
          (command_results i) (wk_live_support_queries wake) condition
    | Err (HaltTerminate condition detail clean) => PhaseTerminate now condition detail clean
    | Err HaltUnwind => PhaseUnwound
    end.

(** What a client or the thread may do next. *)
Inductive Action :=
| Advance (ns : Z)
| SubmitInput (admitted_at : Z) (input : RuntimeInputV1)
| SubmitBlindness (admitted_at : Z) (detail : string)
| SubmitQuery (request : LivePresentSupportRequestV1)
| ResponseTimeout
| Shutdown
| DropOwner
| ActorBegin
| ActorWakes (waited_out : bool)
| ActorProcess
| ActorPublish
| ActorAnswer
| ActorTerminate.

(** A client needs the reactor to exist; a command was stamped before the
    client got the mutex. *)
Definition client_submit (m : Machine) (admitted_at : Z) (command : Channel → ActorCommand)
  : option Machine :=
  if mc_owned m && (admitted_at <=? machine_now m) then
    let '(s, _) := submit_command (mc_config m) (command (mc_next_channel m)) (mc_shared m) in
    Some (set_mc_next_channel (set_mc_shared m s) (S (mc_next_channel m)))
  else None.

Definition step (m : Machine) (action : Action) : option Machine :=
  match action, mc_phase m with
  | Advance ns, _ => if 0 <=? ns then Some (set_mc_elapsed_ns m (mc_elapsed_ns m + ns)) else None
  | SubmitInput admitted_at input, _ =>
      client_submit m admitted_at (CommandInput admitted_at input)
  | SubmitBlindness admitted_at detail, _ =>
      client_submit m admitted_at (CommandBlindness admitted_at detail)
  | SubmitQuery request, _ =>
      if mc_owned m && is_ok (check_live_request request) then
        let '(s, _) := submit_live_support_query (mc_config m) (mkQuery request (mc_next_channel m))
                         (mc_shared m) in
        Some (set_mc_next_channel (set_mc_shared m s) (S (mc_next_channel m)))
      else None
  | ResponseTimeout, _ =>
      if mc_owned m then Some (set_mc_shared m (latch_response_timeout (mc_shared m))) else None
  | Shutdown, _ =>
      if mc_owned m then Some (set_mc_owned (set_mc_shared m (request_shutdown (mc_shared m))) false)
      else None
  | DropOwner, _ =>
      if mc_owned m then Some (set_mc_owned (set_mc_shared m (abandon (mc_shared m))) false)
      else None
  | ActorBegin, PhaseBegin => Some (actor_begin m)
  | ActorWakes waited_out, PhaseWait =>
      '(s, wake) ← wait_for_actor_work
                     (next_scheduled_deadline_monotonic_ms (ac_runtime (mc_actor m)))
                     (machine_now m) waited_out (mc_shared m);
      Some (set_mc_phase (set_mc_shared m s) (PhaseProcess wake))
  | ActorProcess, PhaseProcess wake => Some (actor_process m wake)
  | ActorPublish, PhasePublish snapshot results queries condition =>
      Some (set_mc_phase
              (send_replies (set_mc_shared m (set_sh_snapshot (mc_shared m) snapshot)) results)
              (PhaseAnswer queries condition))
  | ActorAnswer, PhaseAnswer (query :: queries) condition =>
      let response := live_present_support_response (ac_runtime (mc_actor m)) (mc_epoch m) condition
                        (qc_request query) (machine_now m) in
      Some (set_mc_phase (send_answers m [(qc_response query, Ok response)])
              (PhaseAnswer queries condition))
  | ActorAnswer, PhaseAnswer [] _ => Some (set_mc_phase m PhaseWait)
  | ActorTerminate, PhaseTerminate now condition detail clean =>
      Some (terminate_shared m now condition detail clean)
  | ActorTerminate, PhaseUnwound => Some (terminate_unwound m)
  | _, _ => None
  end.

Fixpoint run_actions (m : Machine) (actions : list Action) : option Machine :=
  match actions with
  | [] => Some m
  | action :: rest => m ← step m action; run_actions m rest
  end.
End machine.
