(* ===== verification/ReactorLogic.v ===== *)
(** * What the reactor's thread keeps

    Rules for the sink's and the actor's monads, and what an iteration keeps:
    the runtime stays one its entry points reach, and the sink knows exactly
    the identities its journal has committed. *)

From S2P Require Import Prelude Ids Digest Judgment Context Qualification CustodyTypes Escalation.
From S2P Require Import Certificate Event Policy Receiver EvaluatorState RuntimeState RuntimeArtifacts.
From S2P Require Import Runtime RuntimeOps RuntimeHistory RuntimeSafety Journal LiveSupport Reactor.
From S2P Require Import ReactorActor.

(* ------------------------------------------------------------------ *)
(** ** Rules *)

(** Every run of [c] from a state of [P] ends in a state of [Q], or of [E] if
    it halts. *)
Definition awp {A} (c : act A) (Q : A → Iteration → Prop) (E : Halt → Iteration → Prop)
    (i : Iteration) : Prop :=
  match c i with (i', Ok a) => Q a i' | (i', Err h) => E h i' end.
#[global] Arguments awp : simpl never.

Lemma awp_mono {A} (c : act A) Q Q' E E' i :
  awp c Q E i → (∀ a j, Q a j → Q' a j) → (∀ h j, E h j → E' h j) → awp c Q' E' i.
Proof. unfold awp. destruct (c i) as [j [a|h]]; auto. Qed.
Lemma awp_bind {A B} (c : act A) (k : A → act B) Q E i :
  awp c (λ a, awp (k a) Q E) E i → awp (c ≫= k) Q E i.
Proof. unfold awp, mbind, act_bind. by destruct (c i) as [j [a|h]]. Qed.
Lemma awp_ret {A} (a : A) Q E i : Q a i → awp (mret a) Q E i.
Proof. done. Qed.
Lemma awp_upd f Q E i : Q tt (f i) → awp (act_upd f) Q E i.
Proof. done. Qed.
Lemma awp_halt {A} h Q E i : E h i → awp (halt (A:=A) h) Q E i.
Proof. done. Qed.
Lemma awp_for {A} (f : A → act unit) (P : Iteration → Prop) E xs :
  (∀ x i, x ∈ xs → P i → awp (f x) (λ _, P) E i) →
  ∀ i, P i → awp (act_for f xs) (λ _, P) E i.
Proof.
  induction xs as [|x rest IH]; cbn; intros Hf i HP; [by apply awp_ret|].
  apply awp_bind. eapply awp_mono; [by apply Hf; [left|]| |done].
  intros [] j HP'. apply IH; [|done]. intros. apply Hf; [by right|done].
Qed.

(** [P] is kept whether [c] returns or halts, and it never halts as
    operational. *)
Definition halts_withheld (h : Halt) : Prop :=
  match h with HaltTerminate condition _ _ => condition ≠ Operational | HaltUnwind => True end.
Definition maintains {A} (P : Iteration → Prop) (c : act A) : Prop :=
  ∀ i, P i → awp c (λ _, P) (λ h i, P i ∧ halts_withheld h) i.

Section maintains.
Context (P : Iteration → Prop).

Lemma maintains_ret {A} (a : A) : maintains P (mret a).
Proof. by intros i Hi. Qed.
Lemma maintains_halt {A} h : halts_withheld h → maintains P (halt (A:=A) h).
Proof. by intros Hh i Hi. Qed.
Lemma maintains_bind {A B} (c : act A) (k : A → act B) :
  maintains P c → (∀ a, maintains P (k a)) → maintains P (c ≫= k).
Proof. intros Hc Hk i Hi. apply awp_bind. eapply awp_mono; [by apply Hc| |done]. cbn. intros a j. apply Hk. Qed.
Lemma maintains_upd f : (∀ i, P i → P (f i)) → maintains P (act_upd f).
Proof. intros Hf i Hi. by apply awp_upd, Hf. Qed.
Lemma maintains_for {A} (f : A → act unit) xs :
  (∀ x, maintains P (f x)) → maintains P (act_for f xs).
Proof. intros Hf i. apply awp_for. intros x j _. apply Hf. Qed.
Lemma maintains_end {A} (c : act A) i : maintains P c → P i → P (c i).1.
Proof.
  intros Hc Hi. specialize (Hc i Hi). unfold awp in Hc. destruct (c i) as [j [a|h]]; [done|apply Hc].
Qed.
Lemma maintains_halted {A} (c : act A) i j h :
  maintains P c → P i → c i = (j, Err h) → halts_withheld h.
Proof. intros Hc Hi E. specialize (Hc i Hi). unfold awp in Hc. rewrite E in Hc. apply Hc. Qed.
End maintains.

(* ------------------------------------------------------------------ *)
(** ** Parts of an iteration's state *)

Lemma it_actor_map f i : it_actor (map_it_actor f i) = f (it_actor i).
Proof. by destruct i. Qed.
Lemma it_actor_combine o i : it_actor (combine o i) = it_actor i.
Proof. by destruct i. Qed.
Lemma it_actor_respond ch e i : it_actor (respond ch e i) = it_actor i.
Proof. by destruct i. Qed.
Lemma it_actor_note d i : it_actor (note_blindness d i) = it_actor i.
Proof. by destruct i. Qed.
Lemma it_actor_reply e i : it_actor (reply_error e i) = it_actor i.
Proof. by destruct i. Qed.
Lemma it_actor_answer e qs i : it_actor (answer_errors e qs i) = it_actor i.
Proof. by destruct i. Qed.

Section actor.
Context `{Sha256} `{FactJson} `{CustodyJson} `{RuntimeEnvironment}.
Context `{JournalJson} `{FileSystem} `{ContradictionJson} `{DebugText}.

(** What the runtime's operations, the captures and the notes of an iteration
    keep, a whole iteration keeps. *)
Record stable (P : Actor → Prop) : Prop := {
  stable_enqueue : ∀ a at_ms input,
    P a → P (set_ac_runtime a (enqueue (ac_runtime a) at_ms input).1);
  stable_run : ∀ a now, P a → P (set_ac_runtime a (run_until (ac_runtime a) now).1);
  stable_blind : ∀ a at_ms state detail, P a →
    P (set_ac_runtime a (declare_external_monitor_blindness (ac_runtime a) at_ms state detail).1);
  stable_capture : ∀ a output now,
    P a → P (set_ac_sink a (capture (ac_runtime a) output now (ac_sink a)).1);
  stable_metrics : ∀ a f, P a → P (map_ac_metrics f a);
  stable_failure : ∀ a c detail, c ≠ Operational → P a → P (set_ac_custody_failure a c detail);
}.

Section stable.
Context (P : Actor → Prop) (HP : stable P).
Let Hrun := stable_run P HP.
Let Hblind := stable_blind P HP.
Let Hmetrics := stable_metrics P HP.

Definition of_actor (i : Iteration) : Prop := P (it_actor i).

Lemma of_actor_upd f : (∀ i, it_actor (f i) = it_actor i) → maintains of_actor (act_upd f).
Proof. intros Hf. apply maintains_upd. intros i. unfold of_actor. by rewrite Hf. Qed.
Lemma of_actor_map f : (∀ a, P a → P (f a)) → maintains of_actor (act_upd (map_it_actor f)).
Proof. intros Hf. apply maintains_upd. intros i. unfold of_actor. rewrite it_actor_map. apply Hf. Qed.
Lemma of_actor_call call :
  (∀ a, P a → P (set_ac_runtime a (call (ac_runtime a)).1)) → maintains of_actor (runtime_call call).
Proof.
  intros Hc i Hi. unfold awp, runtime_call. specialize (Hc (it_actor i) Hi).
  destruct (call (ac_runtime (it_actor i))) as [r res]. cbn in Hc. unfold of_actor.
  destruct res as [o|[e|m|]]; rewrite ?it_actor_map; by try split; rewrite ?it_actor_map.
Qed.
Lemma of_actor_capture o now : maintains of_actor (capture_output o now).
Proof.
  intros i Hi. unfold awp, capture_output. pose proof (stable_capture _ HP (it_actor i) o now Hi) as Hcapture.
  destruct (capture _ o now _) as [s res]. cbn in Hcapture. unfold of_actor. by rewrite it_actor_map.
Qed.
Lemma of_actor_blind at_ms state detail : maintains of_actor (declare_blind at_ms state detail).
Proof. apply of_actor_call. auto. Qed.

(** Step through the binds and branches of a computation. *)
Ltac keep :=
  repeat match goal with
    | |- maintains _ (mret _) => apply maintains_ret
    | |- maintains _ (halt _) => apply maintains_halt; done
    | |- maintains _ (act_for _ _) => apply maintains_for; intros ?
    | |- maintains _ (declare_blind _ _ _) => apply of_actor_blind
    | |- maintains _ (capture_output _ _) => apply of_actor_capture
    | |- maintains _ (act_upd (map_it_actor _)) => apply of_actor_map; solve [auto]
    | |- maintains _ (act_upd (combine _)) => apply of_actor_upd, it_actor_combine
    | |- maintains _ (act_upd (respond _ _)) => apply of_actor_upd, it_actor_respond
    | |- maintains _ (act_upd (note_blindness _)) => apply of_actor_upd, it_actor_note
    | |- maintains _ (act_upd (reply_error _)) => apply of_actor_upd, it_actor_reply
    | |- maintains _ (act_upd (answer_errors _ _)) => apply of_actor_upd, it_actor_answer
    | |- maintains _ (mbind _ _) => apply maintains_bind; [|intros ?]
    | |- maintains _ (if ?b then _ else _) => destruct b
    | |- maintains _ (match ?b with _ => _ end) => destruct b
    end.

Lemma latch_stable now wake : maintains of_actor (latch_boundary_failure now wake).
Proof.
  unfold latch_boundary_failure. cbv zeta. destruct (_ || _); [|keep].
  apply maintains_bind; [keep|intros [output|error]]; [|keep].
  apply maintains_bind; [keep|intros _]. apply of_actor_map. intros a. apply (stable_failure _ HP).
  by destruct (wk_overload wake).
Qed.
Lemma command_stable now command : maintains of_actor (process_command now command).
Proof.
  destruct command as [at_ms input response|at_ms detail response]; [|unfold process_command; keep].
  intros i Hi. unfold awp, process_command. pose proof (stable_enqueue _ HP (it_actor i) at_ms input Hi) as Henqueue.
  destruct (enqueue _ at_ms input) as [r res]. unfold of_actor.
  by rewrite it_actor_respond, it_actor_map.
Qed.
Lemma run_stable now : maintains of_actor (run_runtime now).
Proof. unfold run_runtime. apply maintains_bind; [by apply of_actor_call; auto|intros ran]. keep. Qed.
Lemma observe_stable :
  maintains of_actor
    (act_upd (fun i => map_it_actor (map_ac_metrics (observe_deadline_output (it_combined i))) i)).
Proof. apply maintains_upd. intros i Hi. unfold of_actor. rewrite it_actor_map. by apply (stable_metrics _ HP). Qed.
Lemma journal_stable now : maintains of_actor (journal_output now).
Proof. unfold journal_output. apply maintains_bind; [by intros i Hi|intros i]. keep. Qed.
Lemma wind_down_stable now wake : maintains of_actor (wind_down now wake).
Proof. unfold wind_down. cbv zeta. destruct (wk_abandoned wake), (wk_shutdown wake); keep. Qed.
Lemma note_stable : maintains of_actor note_explicit_blindness.
Proof.
  unfold note_explicit_blindness. apply maintains_upd. intros i Hi.
  destruct (it_explicit_blindness i); [|done]. unfold of_actor. rewrite it_actor_map. by apply (stable_failure _ HP).
Qed.

Lemma iteration_stable now wake : maintains of_actor (actor_iteration now wake).
Proof.
  unfold actor_iteration. apply maintains_bind; [by apply of_actor_map; auto|intros _].
  apply maintains_bind; [apply latch_stable|intros _].
  apply maintains_bind; [apply maintains_for; intros; apply command_stable|intros _].
  apply maintains_bind; [apply run_stable|intros _].
  apply maintains_bind; [apply observe_stable|intros _].
  apply maintains_bind; [apply journal_stable|intros _].
  apply maintains_bind; [apply wind_down_stable|intros _]. apply note_stable.
Qed.
End stable.

(** The shape of a computation that returns. *)
Lemma act_bind_Ok {A B} (c : act A) (k : A → act B) i j b :
  (c ≫= k) i = (j, Ok b) → ∃ i1 a, c i = (i1, Ok a) ∧ k a i1 = (j, Ok b).
Proof. unfold mbind, act_bind. destruct (c i) as [i1 [a|h]]; [|done]. by eauto. Qed.
Lemma maintains_Ok {A} (P : Iteration → Prop) (c : act A) i j a :
  maintains P c → P i → c i = (j, Ok a) → P j.
Proof. intros Hc Hi E. specialize (Hc i Hi). unfold awp in Hc. by rewrite E in Hc. Qed.
End actor.
