(* ===== verification/ReactorSink.v ===== *)
(** * What the journal sink keeps

    The sink appends and never forgets: whatever a capture does, and whether
    or not it fails, its journal moves on by appends only and the sink knows
    exactly the event and receipt identities that are committed; a capture
    that succeeds leaves every event it was given committed. *)

From S2P Require Import Prelude Ids Digest Judgment Context Qualification CustodyTypes Escalation.
From S2P Require Import Certificate Event Policy Receiver EvaluatorState RuntimeState RuntimeArtifacts.
From S2P Require Import Runtime RuntimeOps RuntimeHistory Journal JournalProps JournalCrash LiveSupport.
From S2P Require Import Reactor.

Definition record_event_id (r : HistoricalJournalRecordV1) : option string :=
  match jr_body r with BodySparseEvent event => Some (se_event_id event) | _ => None end.
Definition record_receipt_id (r : HistoricalJournalRecordV1) : option string :=
  match jr_body r with BodyDiagnosticReceipt receipt => Some (rc_receipt_id receipt) | _ => None end.
Definition event_ids (records : list HistoricalJournalRecordV1) : gset string :=
  list_to_set (omap record_event_id records).
Definition receipt_ids (records : list HistoricalJournalRecordV1) : gset string :=
  list_to_set (omap record_receipt_id records).

(** The sink knows what is committed. *)
Definition sink_exact (k : JournalSink) : Prop :=
  sk_seen_sparse_events k = event_ids (jn_committed_records (sk_journal k))
  ∧ sk_seen_receipts k = receipt_ids (jn_committed_records (sk_journal k)).

Lemma event_ids_snoc records r :
  event_ids (records ++ [r]) = match record_event_id r with
                               | Some id => {[id]} ∪ event_ids records
                               | None => event_ids records
                               end.
Proof. unfold event_ids. rewrite omap_app. cbn. destruct (record_event_id r); set_solver. Qed.
Lemma receipt_ids_snoc records r :
  receipt_ids (records ++ [r]) = match record_receipt_id r with
                                 | Some id => {[id]} ∪ receipt_ids records
                                 | None => receipt_ids records
                                 end.
Proof. unfold receipt_ids. rewrite omap_app. cbn. destruct (record_receipt_id r); set_solver. Qed.
Lemma event_ids_prefix records records' :
  records `prefix_of` records' → event_ids records ⊆ event_ids records'.
Proof. intros [more ->]. unfold event_ids. rewrite omap_app, list_to_set_app. set_solver. Qed.

Section sink.
Context `{Sha256} `{JournalJson} `{FileSystem} `{ContradictionJson}.

(** One append, whatever comes of it. *)
Definition append_step (s s' : World * HistoricalJournal) : Prop :=
  ∃ epoch now context body durability res,
    append s.2 epoch now context body durability s.1 = (s', res).

(** What the journal makes of an append. *)
Lemma append_result j epoch now context body durability w w' j' res :
  append j epoch now context body durability w = (w', j', res) →
  match res with
  | Ok _ => ∃ record, jr_body record = body
      ∧ jn_committed_records j' = jn_committed_records j ++ [record]
  | Err _ => jn_committed_records j' = jn_committed_records j
  end ∧ (jn_failed j = true → jn_failed j' = true).
Proof.
  unfold append, append_with_qualification_hook.
  destruct (prepare_frame j epoch now context body durability) as [f|e] eqn:Hp; [|by intros [= <- <- <-]].
  assert (Hf : jn_failed j = false ∧ jr_body (fr_record f) = body).
  { unfold prepare_frame in Hp. cbv zeta in Hp. inv_ok Hp. apply ensure_Ok in Hok.
    split; [by destruct (jn_failed j)|]. by injection Hp as <-. }
  destruct Hf as [Hf Hb]. rewrite Hf.
  destruct (write_frame (jn_path j) f durability no_hook w) as [w1 [t|e]]; [|by intros [= <- <- <-]].
  destruct (u64_max <? _); intros [= <- <- <-]; [done|]. split; [|done].
  exists (fr_record f). by split.
Qed.

Lemma append_steps_grow s s' :
  rtc append_step s s' →
  jn_committed_records s.2 `prefix_of` jn_committed_records s'.2
  ∧ (jn_failed s.2 = true → jn_failed s'.2 = true).
Proof.
  induction 1 as [s|s [w1 j1] s' (epoch&now&context&body&durability&res&Ha) _ [IHp IHf]]; [done|].
  destruct s as [w j]. cbn in *. apply append_result in Ha as [Hr Hf]. split; [|auto].
  etrans; [|exact IHp]. destruct res; [|by rewrite Hr].
  destruct Hr as (record&_&->). by apply prefix_app_r.
Qed.

(** The frames of these records, appended to a journal whose last frame has the
    digest [prior], can be read back. *)
Fixpoint records_readable (prior : DigestV1) (records : list HistoricalJournalRecordV1) : Prop :=
  match records with
  | [] => True
  | r :: rest =>
      json_roundtrips r
      ∧ frame_digests (jr_record_kind r) (jr_record_sequence r) prior (record_json r)
      ∧ records_readable
          (frame_digest (encode_header (jr_record_kind r) (jr_record_sequence r)
                           (slen (record_json r)) prior) (record_json r)) rest
  end.
(** All that was appended to [j0] until it became [j]. *)
Definition appended_readable (j0 j : HistoricalJournal) : Prop :=
  records_readable (jn_prior_frame_digest j0)
    (drop (length (jn_committed_records j0)) (jn_committed_records j)).

Lemma prepared_parts j epoch now context body durability f :
  prepare_frame j epoch now context body durability = Ok f →
  fr_payload f = record_json (fr_record f)
  ∧ fr_digest f = frame_digest (encode_header (jr_record_kind (fr_record f))
                    (jr_record_sequence (fr_record f)) (slen (record_json (fr_record f)))
                    (jn_prior_frame_digest j)) (record_json (fr_record f)).
Proof. unfold prepare_frame. cbv zeta. intros Hp. inv_ok Hp. by injection Hp as <-. Qed.

(** Appends to a journal that has not failed, of frames that can be read
    back, are the steps of [JournalCrash]. *)
Lemma append_steps_journal path config s s' :
  rtc append_step s s' → jn_failed s'.2 = false → appended_readable s.2 s'.2 →
  rtc (journal_step path config) s s'.
Proof.
  intros Hs Hf. induction Hs as [s|[w j] [w1 j1] s' Ha Hs IH]; [done|]. intros Hr.
  destruct Ha as (epoch&now&context&body&durability&res&Ha). cbn [fst snd] in Ha, Hr, IH.
  apply append_steps_grow in Hs as [[more Hpre] Hfail]. cbn [fst snd] in Hpre, Hfail.
  pose proof Ha as Hstep. unfold append, append_with_qualification_hook in Ha.
  destruct (prepare_frame j epoch now context body durability) as [f|e] eqn:Hp.
  - destruct (write_frame (jn_path j) f durability no_hook w) as [w2 [t|e]];
      [|injection Ha as <- <- <-; rewrite Hfail in Hf; done].
    destruct (u64_max <? _); injection Ha as <- <- <-; [by rewrite Hfail in Hf|].
    destruct (prepared_parts _ _ _ _ _ _ _ Hp) as [Hpay Hdig].
    cbn [jn_committed_records commit_frame] in Hpre. unfold appended_readable in Hr.
    rewrite Hpre, <-(assoc_L (++)), drop_app_length in Hr. destruct Hr as (Hjson&Hfd&Hrest).
    eapply rtc_l; [|apply IH; [done|]].
    + eapply step_append; [|exact Hstep]. rewrite Hp. intros f' [= <-]. constructor; [done|by rewrite Hpay].
    + unfold appended_readable. rewrite Hpre. cbn [jn_committed_records jn_prior_frame_digest commit_frame].
      rewrite drop_app_length, Hdig. exact Hrest.
  - injection Ha as <- <- <-. eapply rtc_l; [|by apply IH].
    eapply step_append; [|exact Hstep]. by rewrite Hp.
Qed.

(* ------------------------------------------------------------------ *)
(** ** Captures *)

Definition journal_of (s : SinkState) : World * HistoricalJournal := (st_world s, sk_journal (st_sink s)).

(** How the sink may move. *)
Definition moves (s s' : SinkState) : Prop :=
  rtc append_step (journal_of s) (journal_of s') ∧ (sink_exact (st_sink s) → sink_exact (st_sink s')).
#[global] Instance moves_preorder : PreOrder moves.
Proof.
  split; [by intros s; split|]. intros a b c [? ?] [? ?]. split; [by etrans|auto].
Qed.

(** Every run of [c] moves the sink, and if it returns [Q] holds. *)
Definition sink_does (c : sk unit) (Q : SinkState → Prop) : Prop :=
  ∀ s, moves s (c s).1 ∧ (sink_exact (st_sink s) → (c s).2 = Ok tt → Q (c s).1).

(** [Q] survives further appends. *)
Definition durable (Q : SinkState → Prop) : Prop :=
  ∀ s s', Q s → sink_exact (st_sink s) → moves s s' → Q s'.

Lemma sink_does_bind (c k : sk unit) Q R :
  durable Q → sink_does c Q → sink_does k R → sink_does (c;; k) (λ s, Q s ∧ R s).
Proof.
  intros HQ Hc Hk s. unfold mbind, sk_bind. destruct (Hc s) as [Hm Hq].
  destruct (c s) as [s1 [[]|e]]; cbn in *; [|by split].
  destruct (Hk s1) as [Hm1 Hr]. split; [by etrans|]. intros Hs He.
  assert (sink_exact (st_sink s1)) by (by apply Hm). split; [|by apply Hr].
  eapply HQ; [by apply Hq|done|done].
Qed.
Lemma sink_does_mono c (Q R : SinkState → Prop) :
  sink_does c Q → (∀ s, Q s → R s) → sink_does c R.
Proof. intros Hc HQR s. destruct (Hc s). split; auto. Qed.

(** Committed under its identity. *)
Definition has_event (id : string) (s : SinkState) : Prop :=
  id ∈ event_ids (jn_committed_records (sk_journal (st_sink s))).
Lemma durable_has_event id : durable (has_event id).
Proof.
  intros s s' Hs _ [Hm _]. apply append_steps_grow in Hm as [Hp _]. cbn in Hp.
  by apply (event_ids_prefix _ _ Hp).
Qed.
Lemma durable_forall {A} (Q : A → SinkState → Prop) (xs : list A) :
  (∀ x, durable (Q x)) → durable (λ s, Forall (λ x, Q x s) xs).
Proof.
  intros HQ s s' Hs Hx Hm. eapply Forall_impl; [exact Hs|]. cbn. intros x Hq. by eapply HQ.
Qed.

Lemma sink_does_for {A} (f : A → sk unit) (Q : A → SinkState → Prop) xs :
  (∀ x, durable (Q x)) → (∀ x, sink_does (f x) (Q x)) →
  sink_does (sk_for f xs) (λ s, Forall (λ x, Q x s) xs).
Proof.
  intros HQ Hf. induction xs as [|x rest IH]; cbn [sk_for].
  - intros s. by split.
  - eapply sink_does_mono; [by apply sink_does_bind|]. cbn. intros s [? ?]. by constructor.
Qed.

Lemma sink_get_bind {A} (k : JournalSink → sk A) s : (sk_get ≫= k) s = k (st_sink s) s.
Proof. done. Qed.
Lemma sink_lift_bind {A B} r (k : A → sk B) s :
  (sk_lift r ≫= k) s = match r with Ok a => k a s | Err e => (s, Err e) end.
Proof. by destruct r. Qed.
Lemma set_journal_of k j : sk_journal (set_sk_journal k j) = j.
Proof. by destruct k. Qed.

(** An append of [body], and the note of it that keeps the sink exact. *)
Lemma sink_does_append now context body note Q :
  (∀ k, sk_journal (note k) = sk_journal k) →
  (∀ k j record, jr_body record = body →
     jn_committed_records j = jn_committed_records (sk_journal k) ++ [record] →
     sink_exact k → sink_exact (note (set_sk_journal k j))) →
  (∀ s record, jr_body record = body →
     record ∈ jn_committed_records (sk_journal (st_sink s)) → Q s) →
  sink_does (sink_append now context body;; sk_note note) Q.
Proof.
  intros Hj Hexact HQ s. unfold mbind, sk_bind, sink_append.
  destruct (append _ _ _ _ _ _ _) as [[w j] res] eqn:Ha.
  assert (Hstep : append_step (journal_of s) (w, j)) by (by do 6 eexists).
  apply append_result in Ha as [Hr _].
  destruct res as [ack|e]; cbn.
  - destruct Hr as (record&Hb&Hc). unfold moves, journal_of, set_st_sink. cbn.
    rewrite Hj, set_journal_of. split; [split|].
    + by apply rtc_once.
    + by apply (Hexact _ _ record).
    + intros _ _. apply (HQ _ record Hb). cbn. rewrite Hj, set_journal_of, Hc. set_solver.
  - unfold moves, journal_of. cbn. rewrite set_journal_of. split; [split|done].
    + by apply rtc_once.
    + destruct (st_sink s) as [j0 ep d a b c]. unfold sink_exact. cbn in *. by rewrite Hr.
Qed.

Lemma append_sparse_does now event : sink_does (append_sparse now event) (has_event (se_event_id event)).
Proof.
  intros s. unfold append_sparse. rewrite sink_get_bind.
  destruct (decide (se_event_id event ∈ sk_seen_sparse_events (st_sink s))) as [Hseen|_].
  - split; [done|]. intros [He _] _. unfold has_event. cbn. by rewrite <- He.
  - apply sink_does_append.
    + by intros [].
    + intros [j0 e d a b c] j record Hb Hc [Ha Hr]. unfold sink_exact in *. cbn in *.
      rewrite Hc, event_ids_snoc, receipt_ids_snoc. unfold record_event_id, record_receipt_id.
      rewrite Hb. by subst.
    + intros s' record Hb Hin. unfold has_event, event_ids. apply elem_of_list_to_set, list_elem_of_omap.
      exists record. split; [done|]. unfold record_event_id. by rewrite Hb.
Qed.
Lemma append_contradiction_does now custody : sink_does (append_contradiction now custody) (λ _, True).
Proof.
  intros s. unfold append_contradiction. rewrite sink_lift_bind.
  destruct (contradiction_digest custody) as [digest|e]; [|by split].
  rewrite sink_get_bind. destruct (decide _); [by split|].
  apply (sink_does_append _ _ _ _ (λ _, True)); [by intros []| |done].
  intros [j0 e d a b c] j record Hb Hc [Ha Hr]. unfold sink_exact in *. cbn in *.
  rewrite Hc, event_ids_snoc, receipt_ids_snoc. unfold record_event_id, record_receipt_id. by rewrite Hb.
Qed.
Lemma append_receipt_does now receipt : sink_does (append_receipt now receipt) (λ _, True).
Proof.
  intros s. unfold append_receipt. rewrite sink_get_bind. destruct (decide _); [by split|].
  apply (sink_does_append _ _ _ _ (λ _, True)); [by intros []| |done].
  intros [j0 e d a b c] j record Hb Hc [Ha Hr]. unfold sink_exact in *. cbn in *.
  rewrite Hc, event_ids_snoc, receipt_ids_snoc. unfold record_event_id, record_receipt_id.
  rewrite Hb. by subst.
Qed.

(** A capture that succeeds leaves the events of the output and of the
    runtime's history committed. *)
Lemma capture_does r output now :
  sink_does (capture r output now)
    (λ s, Forall (λ event, has_event (se_event_id event) s)
            (cy_sparse_events output ++ rs_sparse_history r)).
Proof.
  unfold capture. cbv zeta. cbn [hs_sparse_events export_history].
  assert (Hd : ∀ xs, durable (λ s, Forall (λ event, has_event (se_event_id event) s) xs)).
  { intros xs. apply durable_forall. intros event. apply durable_has_event. }
  eapply sink_does_mono.
  { apply sink_does_bind; [apply Hd| |].
    { apply sink_does_for; [intros; apply durable_has_event|intros; apply append_sparse_does]. }
    apply sink_does_bind; [apply Hd| |].
    { apply sink_does_for; [intros; apply durable_has_event|intros; apply append_sparse_does]. }
    apply (sink_does_bind _ _ (λ _, True) (λ _, True)); [by intros ? ?| |].
    - eapply sink_does_mono; [apply sink_does_for; [|intros; apply append_contradiction_does]|done].
      by intros ? ? ?.
    - eapply sink_does_mono; [apply sink_does_for; [|intros; apply append_receipt_does]|done].
      by intros ? ? ?. }
  cbn. intros s (?&?&_). by apply Forall_app.
Qed.

(** A new sink notes what its journal has committed. *)
Lemma sink_note_records_exact k records k' :
  sink_note_records k records = Ok k' →
  sk_journal k' = sk_journal k
  ∧ sk_seen_sparse_events k' = sk_seen_sparse_events k ∪ event_ids records
  ∧ sk_seen_receipts k' = sk_seen_receipts k ∪ receipt_ids records.
Proof.
  revert k. induction records as [|r rest IH]; cbn [sink_note_records]; intros k Hk.
  { injection Hk as <-. unfold event_ids, receipt_ids. cbn. split; [done|]. split; set_solver. }
  apply bind_Ok in Hk as (k1&Hn&Hk). apply IH in Hk as (Hj&He&Hr).
  assert (Hids : sk_journal k1 = sk_journal k
    ∧ sk_seen_sparse_events k1 = sk_seen_sparse_events k ∪ event_ids [r]
    ∧ sk_seen_receipts k1 = sk_seen_receipts k ∪ receipt_ids [r]).
  { unfold sink_note_record, event_ids, receipt_ids, record_event_id, record_receipt_id in *.
    cbn. destruct k as [j e d a b c], (jr_body r) as [event|custody|receipt]; cbn in *.
    - injection Hn as <-. cbn. split; [done|]. split; set_solver.
    - apply bind_Ok in Hn as (digest&_&Hn). injection Hn as <-. cbn. split; [done|]. split; set_solver.
    - injection Hn as <-. cbn. split; [done|]. split; set_solver. }
  destruct Hids as (Hj1&He1&Hr1). change (r :: rest) with ([r] ++ rest).
  unfold event_ids, receipt_ids in *. rewrite !omap_app, !list_to_set_app_L.
  rewrite Hj, He, Hr, Hj1, He1, Hr1. split; [done|]. split; by rewrite (assoc_L (∪)).
Qed.
Lemma sink_new_exact j epoch durability k :
  sink_new j epoch durability = Ok k → sk_journal k = j ∧ sink_exact k.
Proof.
  intros Hk. apply sink_note_records_exact in Hk as (Hj&He&Hr). cbn in Hj, He, Hr.
  split; [done|]. split; [rewrite He|rewrite Hr]; rewrite Hj; set_solver.
Qed.
End sink.
