(* ===== verification/ReactorInvariant.v ===== *)
(** * The invariant of the reactor

    What every interleaving of the clients and the thread keeps: the runtime
    is reachable, a snapshot exposes certificates only while it is
    operational, the queues are bounded, every queued query was validated,
    and what a caller was told succeeded is in the journal. *)

From S2P Require Import Prelude Ids Digest Judgment Context Qualification CustodyTypes Escalation.
From S2P Require Import Certificate Event Policy Receiver EvaluatorState RuntimeState RuntimeArtifacts.
From S2P Require Import Runtime RuntimeOps RuntimeHistory RuntimeSafety RuntimeStanding Journal JournalProps.
From S2P Require Import JournalCrash LiveSupport Reactor ReactorActor ReactorMachine ReactorLogic.
From S2P Require Import ReactorSink.

Section reactor.
Context `{Sha256} `{FactJson} `{CustodyJson} `{RuntimeEnvironment}.
Context `{JournalJson} `{FileSystem} `{ContradictionJson} `{DebugText}.

(** The states the reactor reaches with a runtime its entry points reach and
    the journal [s0]. *)
Inductive reactor_reachable (s0 : World * HistoricalJournal) : Machine → Prop :=
| reactor_started r epoch config elapsed_ns m :
    runtime_reachable r → 0 <= elapsed_ns → 0 <= rc_maximum_pending_commands config →
    reactor_start r s0.2 epoch config None elapsed_ns s0.1 = Ok m → reactor_reachable s0 m
| reactor_stepped m action m' :
    reactor_reachable s0 m → step m action = Some m' → reactor_reachable s0 m'.

(* ------------------------------------------------------------------ *)
(** ** What an iteration keeps and returns *)

(** A condition other than operational. *)
Definition withheld (c : option (ReactorConditionV1 * string)) : Prop :=
  match c with Some (condition, _) => condition ≠ Operational | None => True end.

(** How an actor may come out of an iteration. *)
Record succeeds (a a' : Actor) : Prop := {
  sc_reachable : runtime_reachable (ac_runtime a');
  sc_moves : moves (ac_sink a) (ac_sink a');
  sc_withheld : withheld (ac_custody_failure a');
  sc_latched : ac_custody_failure a ≠ None → ac_custody_failure a' ≠ None;
}.
Lemma moves_metrics s m : moves s (set_st_metrics s m).
Proof. by split. Qed.
Lemma succeeds_stable a : stable (succeeds a).
Proof.
  split.
  - intros a' at_ms input [Hr Hm Hw Hl]. split; cbn; [|done..].
    apply (reachable_performed _ (OpEnqueue at_ms input) Hr).
  - intros a' now [Hr Hm Hw Hl]. split; cbn; [|done..]. apply (reachable_performed _ (OpRunUntil now) Hr).
  - intros a' at_ms state detail [Hr Hm Hw Hl]. split; cbn; [|done..].
    apply (reachable_performed _ (OpBlindness at_ms state detail) Hr).
  - intros a' output now [Hr Hm Hw Hl]. split; cbn; [done| |done..].
    etrans; [exact Hm|]. apply (capture_does (ac_runtime a') output now (ac_sink a')).
  - intros a' f [Hr Hm Hw Hl]. split; cbn; [done| |done..]. etrans; [exact Hm|]. apply moves_metrics.
  - intros a' c detail Hc [Hr Hm Hw Hl]. by split.
Qed.

Lemma iteration_succeeds now wake a :
  runtime_reachable (ac_runtime a) → withheld (ac_custody_failure a) →
  succeeds a (it_actor (actor_iteration now wake (begin_iteration a)).1).
Proof.
  intros Hr Hw.
  apply (maintains_end _ _ (begin_iteration a) (iteration_stable _ (succeeds_stable a) now wake)).
  by split.
Qed.

(** Only errors are sent before the publication. *)
Definition errors_only (i : Iteration) : Prop :=
  Forall (λ p, ∃ e, p.2 = Err e) (it_replies i) ∧ Forall (λ p, ∃ e, p.2 = Err e) (it_answers i).
Lemma errors_upd f :
  (∀ i, it_replies (f i) = it_replies i ∧ it_answers (f i) = it_answers i) →
  maintains errors_only (act_upd f).
Proof. intros Hf. apply maintains_upd. intros i [? ?]. destruct (Hf i) as [E1 E2]. by split; rewrite ?E1, ?E2. Qed.
Lemma errors_call call : maintains errors_only (runtime_call call).
Proof.
  intros i Hi. unfold awp, runtime_call. destruct (call _) as [r [o|[e|t|]]]; by destruct i.
Qed.
Lemma errors_capture o now : maintains errors_only (capture_output o now).
Proof. intros i Hi. unfold awp, capture_output. destruct (capture _ _ _ _). by destruct i. Qed.
Lemma errors_reply e : maintains errors_only (act_upd (reply_error e)).
Proof.
  apply maintains_upd. intros [a c rs b rp an] [Hr Ha]. split; [|done]. cbn in *.
  apply Forall_app. split; [done|]. apply Forall_fmap, Forall_true. intros [ch x]. by exists e.
Qed.
Lemma errors_answer e qs : maintains errors_only (act_upd (answer_errors e qs)).
Proof.
  apply maintains_upd. intros [a c rs b rp an] [Hr Ha]. split; [done|]. cbn in *.
  apply Forall_app. split; [done|]. apply Forall_fmap, Forall_true. intros q. by exists e.
Qed.
Ltac keep_errors :=
  repeat match goal with
    | |- maintains _ (mret _) => apply maintains_ret
    | |- maintains _ (halt _) => apply maintains_halt; done
    | |- maintains _ (act_for _ _) => apply maintains_for; intros ?
    | |- maintains _ (declare_blind _ _ _) => apply errors_call
    | |- maintains _ (runtime_call _) => apply errors_call
    | |- maintains _ (capture_output _ _) => apply errors_capture
    | |- maintains _ (act_upd (reply_error _)) => apply errors_reply
    | |- maintains _ (act_upd (answer_errors _ _)) => apply errors_answer
    | |- maintains _ (act_upd _) => apply errors_upd; by intros []
    | |- maintains _ (mbind _ _) => apply maintains_bind; [|intros ?]
    | |- maintains _ (if ?b then _ else _) => destruct b
    | |- maintains _ (match ?b with _ => _ end) => destruct b
    end.
Lemma errors_command now command : maintains errors_only (process_command now command).
Proof.
  destruct command; unfold process_command; [|keep_errors].
  intros i Hi. unfold awp. destruct (enqueue _ _ _). by destruct i.
Qed.
Lemma errors_journal now : maintains errors_only (journal_output now).
Proof. unfold journal_output. apply maintains_bind; [by intros i Hi|intros i]. keep_errors. Qed.
Lemma errors_wind_down now wake : maintains errors_only (wind_down now wake).
Proof. unfold wind_down. cbv zeta. destruct (wk_abandoned wake), (wk_shutdown wake); keep_errors. Qed.
Lemma iteration_errors now wake : maintains errors_only (actor_iteration now wake).
Proof.
  unfold actor_iteration, latch_boundary_failure, run_runtime. cbv zeta. keep_errors.
  - apply errors_command.
  - apply errors_journal.
  - apply errors_wind_down.
  - unfold note_explicit_blindness. apply errors_upd. intros [? ? ? [?|] ? ?]; by split.
Qed.

(* ------------------------------------------------------------------ *)
(** ** An iteration that publishes *)

(** The boundary failed, or a client asked for blindness. *)
Definition declares (command : ActorCommand) : bool :=
  match command with CommandBlindness _ _ _ => true | CommandInput _ _ _ => false end.
Definition flagged (wake : ActorWake) : bool :=
  wk_overload wake || wk_response_timeout wake || existsb declares (wk_commands wake).

Lemma latch_flags now wake i j :
  latch_boundary_failure now wake i = (j, Ok tt) →
  wk_overload wake || wk_response_timeout wake = true → ac_custody_failure (it_actor j) ≠ None.
Proof.
  unfold latch_boundary_failure. intros Hl Hf. rewrite Hf in Hl. cbv zeta in Hl.
  apply act_bind_Ok in Hl as (i1&[output|error]&_&Hl); [|done].
  apply act_bind_Ok in Hl as (i2&[]&_&Hl). injection Hl as <-. by rewrite it_actor_map.
Qed.

Definition noted (i : Iteration) : Prop := it_explicit_blindness i ≠ None.
Lemma noted_map f i : it_explicit_blindness (map_it_actor f i) = it_explicit_blindness i.
Proof. by destruct i. Qed.
Lemma command_notes now command i j :
  process_command now command i = (j, Ok tt) → declares command = true ∨ noted i → noted j.
Proof.
  destruct command as [at_ms input response|at_ms detail response]; unfold process_command.
  - destruct (enqueue _ _ _) as [r res]. intros [= <-] [|Hn]; [done|]. by destruct i.
  - intros Hc _. apply act_bind_Ok in Hc as (i1&[]&Hn&Hc). injection Hn as <-.
    apply act_bind_Ok in Hc as (i2&res&Hd&Hc).
    assert (Hn2 : noted i2).
    { unfold declare_blind, runtime_call in Hd.
      destruct (declare_external_monitor_blindness _ _ _ _) as [r [o|[e|t|]]]; try done;
        injection Hd as <- _; by destruct i. }
    destruct res as [output|error].
    + apply act_bind_Ok in Hc as (i3&[]&Hu&Hc). injection Hu as <-. injection Hc as <-. by destruct i2.
    + injection Hc as <-. by destruct i2.
Qed.
Lemma commands_note now commands i j :
  act_for (process_command now) commands i = (j, Ok tt) →
  existsb declares commands = true ∨ noted i → noted j.
Proof.
  revert i. induction commands as [|c rest IH]; cbn; intros i Hc Hd.
  { injection Hc as <-. by destruct Hd. }
  apply act_bind_Ok in Hc as (i1&[]&Hc&Hrest). eapply IH; [exact Hrest|].
  destruct (existsb declares rest); [by left|right]. eapply command_notes; [exact Hc|].
  destruct (declares c); [by left|right]. by destruct Hd.
Qed.

(** The runtime is the result of a run to [now], what it put out is in the
    journal, and a flag of the wakeup has been noted. *)
Record returns (now : Z) (wake : ActorWake) (i : Iteration) : Prop := {
  rt_ran : ∃ r out, runtime_reachable r ∧ run_until r now = (ac_runtime (it_actor i), Ok out);
  rt_journaled : Forall (λ event, has_event (se_event_id event) (ac_sink (it_actor i)))
                   (cy_sparse_events (it_combined i));
  rt_flagged : flagged wake = true → ac_custody_failure (it_actor i) ≠ None;
}.

Lemma run_returns now i j :
  runtime_reachable (ac_runtime (it_actor i)) → run_runtime now i = (j, Ok tt) →
  (∃ r out, runtime_reachable r ∧ run_until r now = (ac_runtime (it_actor j), Ok out))
  ∧ it_explicit_blindness j = it_explicit_blindness i.
Proof.
  intros Hr Hrun. unfold run_runtime in Hrun. apply act_bind_Ok in Hrun as (i1&ran&Hc&Hrun).
  unfold runtime_call in Hc. destruct (run_until _ now) as [r res] eqn:E.
  destruct res as [o|[e|t|]]; try done; injection Hc as <- <-; [|done]. injection Hrun as <-.
  rewrite it_actor_combine, it_actor_map. split; [by eauto|]. by destruct i.
Qed.
Lemma journal_returns now i j :
  sink_exact (st_sink (ac_sink (it_actor i))) → journal_output now i = (j, Ok tt) →
  it_combined j = it_combined i ∧ it_explicit_blindness j = it_explicit_blindness i
  ∧ ac_runtime (it_actor j) = ac_runtime (it_actor i)
  ∧ Forall (λ event, has_event (se_event_id event) (ac_sink (it_actor j)))
      (cy_sparse_events (it_combined j)).
Proof.
  intros Hs Hj. unfold journal_output in Hj. apply act_bind_Ok in Hj as (i0&?&Hg&Hj).
  injection Hg as <- <-. apply act_bind_Ok in Hj as (i1&captured&Hc&Hj). unfold capture_output in Hc.
  destruct (capture_does (ac_runtime (it_actor i)) (it_combined i) now (ac_sink (it_actor i)))
    as [_ Hdone]. destruct (capture _ _ _ _) as [s res]. injection Hc as <- <-. cbn in Hdone.
  destruct res as [[]|error].
  - injection Hj as <-. specialize (Hdone Hs eq_refl). apply Forall_app in Hdone as [Hdone _].
    by destruct i.
  - apply act_bind_Ok in Hj as (?&?&_&Hj). apply act_bind_Ok in Hj as (?&?&_&Hj).
    apply act_bind_Ok in Hj as (?&?&_&Hj). by apply act_bind_Ok in Hj as (?&?&_&Hj).
Qed.
Lemma wind_down_returns now wake i j : wind_down now wake i = (j, Ok tt) → j = i.
Proof.
  unfold wind_down. cbv zeta. destruct (_ || _); [|by intros [= <-]]. intros Hw.
  apply act_bind_Ok in Hw as (?&?&_&Hw). apply act_bind_Ok in Hw as (?&?&_&Hw).
  apply act_bind_Ok in Hw as (?&captured&_&Hw). destruct captured; [|by apply act_bind_Ok in Hw as (?&?&_&Hw)].
  by destruct (wk_shutdown wake).
Qed.

Lemma latched_stable : stable (λ a, ac_custody_failure a ≠ None).
Proof. by split. Qed.

Lemma iteration_returns now wake a i :
  runtime_reachable (ac_runtime a) → withheld (ac_custody_failure a) → sink_exact (st_sink (ac_sink a)) →
  actor_iteration now wake (begin_iteration a) = (i, Ok tt) → returns now wake i.
Proof.
  intros Hr Hw Hs Hi. pose proof (succeeds_stable a) as St.
  pose proof latched_stable as Sl. set (L := of_actor (λ a, ac_custody_failure a ≠ None)).
  set (P := of_actor (succeeds a)). assert (P0 : P (begin_iteration a)) by (by split).
  unfold actor_iteration in Hi. apply act_bind_Ok in Hi as (i1&[]&E1&Hi).
  assert (P1 : P i1) by (injection E1 as <-; by apply (stable_metrics _ St)).
  apply act_bind_Ok in Hi as (i2&[]&E2&Hi).
  assert (P2 : P i2) by (by eapply maintains_Ok; [apply (latch_stable _ St)| |exact E2]).
  apply act_bind_Ok in Hi as (i3&[]&E3&Hi).
  assert (P3 : P i3) by (eapply maintains_Ok; [apply maintains_for; intros; apply (command_stable _ St)| |exact E3]; done).
  apply act_bind_Ok in Hi as (i4&[]&E4&Hi).
  destruct (run_returns now i3 i4 (sc_reachable _ _ P3) E4) as [Hran Hn4].
  assert (P4 : P i4) by (by eapply maintains_Ok; [apply (run_stable _ St)| |exact E4]).
  apply act_bind_Ok in Hi as (i5&[]&E5&Hi).
  assert (P5 : P i5) by (by eapply maintains_Ok; [apply (observe_stable _ St)| |exact E5]).
  pose proof E5 as E5'. injection E5' as E5'. apply act_bind_Ok in Hi as (i6&[]&E6&Hi).
  assert (Hs5 : sink_exact (st_sink (ac_sink (it_actor i5)))) by (by apply (sc_moves _ _ P5)).
  destruct (journal_returns now i5 i6 Hs5 E6) as (Hc6&Hn6&Hr6&Hj6).
  assert (P6 : P i6) by (by eapply maintains_Ok; [apply (journal_stable _ St)| |exact E6]).
  apply act_bind_Ok in Hi as (i7&[]&E7%wind_down_returns&Hi). subst i7.
  assert (Hrun : ac_runtime (it_actor i6) = ac_runtime (it_actor i4)).
  { rewrite Hr6, <- E5'. by rewrite it_actor_map. }
  assert (Hnote : it_explicit_blindness i6 = it_explicit_blindness i3).
  { rewrite Hn6, <- E5', noted_map. done. }
  rewrite <- Hrun in Hran. injection Hi as <-. split.
  - destruct (it_explicit_blindness i6); [|done]. by rewrite it_actor_map.
  - destruct (it_explicit_blindness i6); [|done]. by destruct i6.
  - intros Hf. destruct (it_explicit_blindness i6) eqn:Hx; [by rewrite it_actor_map|].
    unfold flagged in Hf. apply orb_true_iff in Hf as [Hf|Hf].
    + apply (latch_flags now wake i1 i2 E2) in Hf.
      assert (L3 : L i3) by (eapply maintains_Ok; [apply maintains_for; intros; apply (command_stable _ Sl)| |exact E3]; done).
      assert (L4 : L i4) by (by eapply maintains_Ok; [apply (run_stable _ Sl)| |exact E4]).
      assert (L5 : L i5) by (by eapply maintains_Ok; [apply (observe_stable _ Sl)| |exact E5]).
      assert (L6 : L i6) by (by eapply maintains_Ok; [apply (journal_stable _ Sl)| |exact E6]).
      exact L6.
    + destruct (commands_note now (wk_commands wake) i2 i3 E3 (or_introl Hf)). congruence.
Qed.
(* ------------------------------------------------------------------ *)
(** ** The invariant *)

(** A snapshot exposes standing exactly while it is operational. *)
Definition honest (s : ReactorSnapshotV1) : Prop :=
  sn_live_standing_available s = exposes_live_standing (sn_condition s)
  ∧ (exposes_live_standing (sn_condition s) = false →
     sn_certificates s = [] ∧ sn_active_deadline_count s = 0
     ∧ sn_earliest_deadline_monotonic_ms s = None ∧ sn_supporting_evidence_count s = 0).
Lemma honest_unavailable epoch at_ms c detail rm m clean :
  c ≠ Operational → honest (snapshot_unavailable epoch at_ms c detail rm m clean).
Proof. by destruct c. Qed.
Lemma honest_withdrawn s c detail : c ≠ Operational → honest (withdraw_snapshot s c detail).
Proof. by destruct c. Qed.
Lemma honest_from_runtime r epoch at_ms c detail m :
  honest (snapshot_from_runtime r epoch at_ms c detail m)
  ∧ sn_condition (snapshot_from_runtime r epoch at_ms c detail m) = c.
Proof. unfold snapshot_from_runtime. by destruct c. Qed.

(** A success that was reported is in the journal. *)
Definition reply_journaled (s : SinkState) (reply : Reply) : Prop :=
  match reply.2 with
  | Ok output => Forall (λ event, has_event (se_event_id event) s) (cy_sparse_events output)
  | Err _ => True
  end.
Definition query_valid (q : LiveSupportQueryCommand) : Prop :=
  live_request_validate (qc_request q) = Ok tt.

Definition phase_ok (m : Machine) : Prop :=
  let a := mc_actor m in
  match mc_phase m with
  | PhaseBegin => ac_custody_failure a = None ∧ mc_replies m = []
  | PhaseWait => sink_exact (st_sink (ac_sink a))
  | PhaseProcess wake =>
      sink_exact (st_sink (ac_sink a)) ∧ Forall query_valid (wk_live_support_queries wake)
  | PhasePublish snapshot results queries condition =>
      sink_exact (st_sink (ac_sink a)) ∧ Forall query_valid queries ∧ honest snapshot
      ∧ sn_condition snapshot = condition ∧ condition = (actor_condition a).1
      ∧ Forall (reply_journaled (ac_sink a)) results
  | PhaseAnswer queries condition =>
      sink_exact (st_sink (ac_sink a)) ∧ Forall query_valid queries
      ∧ condition = (actor_condition a).1
  | PhaseTerminate _ condition _ _ => condition ≠ Operational
  | PhaseUnwound => True
  | PhaseStopped =>
      sh_accepting_commands (mc_shared m) = false
      ∧ exposes_live_standing (sn_condition (sh_snapshot (mc_shared m))) = false
      ∧ sh_queue (mc_shared m) = [] ∧ sh_live_support_queries (mc_shared m) = []
  end.

Record machine_ok (s0 : World * HistoricalJournal) (m : Machine) : Prop := {
  mo_runtime : runtime_reachable (ac_runtime (mc_actor m));
  mo_withheld : withheld (ac_custody_failure (mc_actor m));
  mo_journal : rtc append_step s0 (journal_of (ac_sink (mc_actor m)));
  mo_replies : Forall (reply_journaled (ac_sink (mc_actor m))) (mc_replies m);
  mo_epoch : epoch_validate (mc_epoch m) = Ok tt;
  mo_snapshot : honest (sh_snapshot (mc_shared m));
  mo_queue : Z.of_nat (length (sh_queue (mc_shared m))) <= rc_maximum_pending_commands (mc_config m);
  mo_queries : Z.of_nat (length (sh_live_support_queries (mc_shared m)))
               <= rc_maximum_pending_commands (mc_config m);
  mo_valid : Forall query_valid (sh_live_support_queries (mc_shared m));
  mo_phase : phase_ok m;
}.

Lemma reply_journaled_moves s s' replies :
  moves s s' → Forall (reply_journaled s) replies → Forall (reply_journaled s') replies.
Proof.
  intros [Hm _] Hr. apply append_steps_grow in Hm as [Hp _].
  eapply Forall_impl; [exact Hr|]. intros [ch [output|e]]; unfold reply_journaled; cbn; [|done].
  intros Ho. eapply Forall_impl; [exact Ho|]. cbn. intros event. unfold has_event.
  apply (event_ids_prefix _ _ Hp).
Qed.

(** A step of a client changes only what the mutex protects. *)
Lemma client_ok s0 m s :
  machine_ok s0 m → honest (sh_snapshot s) →
  Z.of_nat (length (sh_queue s)) <= rc_maximum_pending_commands (mc_config m) →
  Z.of_nat (length (sh_live_support_queries s)) <= rc_maximum_pending_commands (mc_config m) →
  Forall query_valid (sh_live_support_queries s) →
  (sh_accepting_commands (mc_shared m) = false →
     sh_accepting_commands s = false ∧ sh_queue s = sh_queue (mc_shared m)
     ∧ sh_live_support_queries s = sh_live_support_queries (mc_shared m)) →
  (exposes_live_standing (sn_condition (sh_snapshot (mc_shared m))) = false →
     exposes_live_standing (sn_condition (sh_snapshot s)) = false) →
  machine_ok s0 (set_mc_shared m s).
Proof.
  intros [Hr Hw Hj Hp He Hs Hq Hl Hv Hph] Hhon Hqu Hqs Hqv Hacc Hexp.
  destruct m as [config epoch clock ns owned next shared actor phase replies answers]. split; try done.
  unfold phase_ok in *. cbn in *. destruct phase; try done.
  destruct Hph as (Ha&Hx&Hq0&Hl0). destruct (Hacc Ha) as (->&->&->). auto.
Qed.

Lemma next_channel_ok s0 m n : machine_ok s0 m → machine_ok s0 (set_mc_next_channel m n).
Proof. by destruct m; intros []; split. Qed.

Lemma start_ok s0 r epoch config elapsed_ns m :
  runtime_reachable r → 0 <= rc_maximum_pending_commands config →
  reactor_start r s0.2 epoch config None elapsed_ns s0.1 = Ok m → machine_ok s0 m.
Proof.
  intros Hr Hu Hm. unfold reactor_start in Hm. inv_ok Hm. apply map_err_Ok in Hok0.
  injection Hm as <-. destruct s0 as [w j].
  by split.
Qed.

Ltac client Hm :=
  apply client_ok; cbn; try solve [apply Hm | by split | by intros _ | congruence
                                  | intros; split_and!; congruence | rewrite length_app; cbn; lia].

Lemma submit_ok s0 m admitted_at command m' :
  machine_ok s0 m → client_submit m admitted_at command = Some m' → machine_ok s0 m'.
Proof.
  unfold client_submit. intros Hm. destruct (mc_owned m && _); [|done]. unfold submit_command.
  destruct (sh_accepting_commands (mc_shared m)) eqn:Ha; cbn [negb];
    [destruct (Z.leb_spec (rc_maximum_pending_commands (mc_config m))
                 (Z.of_nat (length (sh_queue (mc_shared m)))))|]; intros [= <-];
    apply (next_channel_ok s0 (set_mc_shared m _)); client Hm.
Qed.
Lemma query_ok s0 m request n s res :
  machine_ok s0 m → live_request_validate request = Ok tt →
  submit_live_support_query (mc_config m) (mkQuery request n) (mc_shared m) = (s, res) →
  machine_ok s0 (set_mc_shared m s).
Proof.
  intros Hm Hv. unfold submit_live_support_query.
  destruct (sh_accepting_commands (mc_shared m)) eqn:Ha; cbn [negb];
    [destruct (Z.leb_spec (rc_maximum_pending_commands (mc_config m))
                 (Z.of_nat (length (sh_live_support_queries (mc_shared m)))))|]; intros [= <- _];
    client Hm.
  apply Forall_app. split; [apply Hm|]. by constructor.
Qed.

Lemma wake_ok s0 m waited_out s wake :
  machine_ok s0 m → mc_phase m = PhaseWait →
  wait_for_actor_work (next_scheduled_deadline_monotonic_ms (ac_runtime (mc_actor m)))
    (machine_now m) waited_out (mc_shared m) = Some (s, wake) →
  machine_ok s0 (set_mc_phase (set_mc_shared m s) (PhaseProcess wake)).
Proof.
  intros [Hr Hw Hj Hp He Hs Hq Hl Hv Hph] Hphase Hwait. unfold phase_ok in Hph. rewrite Hphase in Hph.
  assert (Htake : ∃ timed_out, take_work timed_out (mc_shared m) = (s, wake)).
  { unfold wait_for_actor_work in Hwait. repeat case_match; simplify_eq; by eexists. }
  destruct Htake as [timed_out [= <- <-]]. destruct m. split; cbn in *; try done; lia.
Qed.

Lemma begin_ok s0 m : machine_ok s0 m → mc_phase m = PhaseBegin → machine_ok s0 (actor_begin m).
Proof.
  intros [Hr Hw Hj Hp He Hs Hq Hl Hv Hph] Hphase. unfold phase_ok in Hph. rewrite Hphase in Hph.
  destruct Hph as [Hc Hrep]. unfold actor_begin. cbv zeta.
  destruct (sink_new _ _ _) as [k|e] eqn:Hk; [|by destruct m; split].
  apply sink_new_exact in Hk as [Hkj Hk].
  destruct (capture_does (ac_runtime (mc_actor m)) cycle_default (machine_now m)
              (set_st_sink (ac_sink (mc_actor m)) k)) as [[Hmv Hex] _].
  destruct (capture _ _ _ _) as [st res]. cbn [fst] in Hmv, Hex. unfold journal_of in Hmv at 1. cbn in Hmv.
  rewrite Hkj in Hmv. assert (Hj' : rtc append_step s0 (journal_of st)) by (by etrans).
  destruct m as [config epoch clock ns owned next shared actor phase replies answers]. cbn in *. subst.
  destruct res as [[]|e]; [|by split].
  split; try done. unfold phase_ok. cbn -[snapshot_from_runtime].
  destruct (honest_from_runtime (ac_runtime actor) epoch
              (machine_now (mkMachine config epoch clock ns owned next shared actor PhaseBegin []
                              answers)) Operational
              "reactor owns the earliest active deadline" (st_metrics st)) as [? ?].
  unfold actor_condition. cbn [ac_custody_failure set_ac_sink]. rewrite Hc.
  split_and!; try done. by apply Hex.
Qed.

Lemma errors_journaled s (replies : list Reply) :
  Forall (λ p, ∃ e, p.2 = Err e) replies → Forall (reply_journaled s) replies.
Proof. intros Hr. eapply Forall_impl; [exact Hr|]. intros [ch res] [e He]. unfold reply_journaled. by rewrite He. Qed.

(** The successes an iteration reports. *)
Lemma results_journaled i :
  Forall (λ event, has_event (se_event_id event) (ac_sink (it_actor i)))
    (cy_sparse_events (it_combined i)) →
  Forall (reply_journaled (ac_sink (it_actor i))) (command_results i).
Proof.
  intros Hj. unfold command_results. apply Forall_fmap, Forall_true. by intros [ch [e|]].
Qed.

Lemma process_ok s0 m wake :
  machine_ok s0 m → mc_phase m = PhaseProcess wake → machine_ok s0 (actor_process m wake).
Proof.
  intros [Hr Hw Hj Hp He Hs Hq Hl Hv Hph] Hphase. unfold phase_ok in Hph. rewrite Hphase in Hph.
  destruct Hph as [Hex Hqv]. unfold actor_process. cbv zeta.
  pose proof (iteration_succeeds (machine_now m) wake (mc_actor m) Hr Hw) as [Sr Sm Sw _].
  assert (E0 : errors_only (begin_iteration (mc_actor m))) by (split; constructor).
  pose proof (maintains_end _ _ _ (iteration_errors (machine_now m) wake) E0) as [Er _].
  pose proof (λ j h, maintains_halted _ _ _ j h (iteration_errors (machine_now m) wake) E0) as Hh.
  pose proof (iteration_returns (machine_now m) wake (mc_actor m)) as Hret.
  destruct (actor_iteration (machine_now m) wake (begin_iteration (mc_actor m))) as [i res].
  cbn [fst] in *.
  assert (Hj' : rtc append_step s0 (journal_of (ac_sink (it_actor i)))) by (etrans; [exact Hj|apply Sm]).
  apply (reply_journaled_moves _ _ _ Sm) in Hp.
  apply (errors_journaled (ac_sink (it_actor i))) in Er.
  assert (Hp' : Forall (reply_journaled (ac_sink (it_actor i))) (mc_replies m ++ it_replies i))
    by (by apply Forall_app).
  destruct m as [config epoch clock ns owned next shared actor phase replies answers]. cbn in *.
  destruct res as [[]|[c d clean|]]; [|by split; try done; apply (Hh i _ eq_refl)|by split].
  destruct (Hret i Hr Hw Hex eq_refl) as [_ Hjr _].
  destruct (actor_condition (it_actor i)) as [c detail] eqn:Hc. split; try done.
  unfold phase_ok. cbn -[snapshot_from_runtime]. rewrite Hc.
  destruct (honest_from_runtime (ac_runtime (it_actor i)) epoch
              (now_ms clock ns) c detail (st_metrics (ac_sink (it_actor i)))) as [? ?].
  split_and!; try done; [by apply Sm|by apply results_journaled].
Qed.

Lemma terminate_ok s0 m s snapshot replies answers :
  machine_ok s0 m → honest snapshot → exposes_live_standing (sn_condition snapshot) = false →
  Forall (λ p, ∃ e, p.2 = Err e) replies →
  machine_ok s0
    (set_mc_phase (set_mc_shared (send_answers (send_replies m replies) answers) (close_shared s snapshot))
       PhaseStopped).
Proof.
  intros [Hr Hw Hj Hp He Hs Hq Hl Hv Hph] Hh Hx Hrep. apply (errors_journaled (ac_sink (mc_actor m))) in Hrep.
  destruct m. split; cbn in *; try done; try lia. by apply Forall_app.
Qed.
Lemma drained_errors s detail : Forall (λ p, ∃ e, p.2 = Err e) (drain_queue s detail).
Proof. unfold drain_queue. apply Forall_fmap, Forall_true. intros c. by eexists. Qed.

Lemma step_machine_ok s0 m action m' : machine_ok s0 m → step m action = Some m' → machine_ok s0 m'.
Proof.
  intros Hm. unfold step.
  destruct action as [ns|at_ms input|at_ms detail|request| | | | |waited_out| | | |].
  - destruct (0 <=? ns); intros [= <-]. by destruct m, Hm; split.
  - by apply submit_ok.
  - by apply submit_ok.
  - destruct (mc_owned m && is_ok (check_live_request request)) eqn:Hc; [|done].
    destruct (submit_live_support_query _ _ _) as [s res] eqn:Hsub. intros [= <-].
    apply (next_channel_ok s0 (set_mc_shared m s)). eapply query_ok; [done| |exact Hsub].
    apply andb_true_iff in Hc as [_ Hc]. unfold check_live_request in Hc.
    by destruct (live_request_validate request) as [[]|].
  - destruct (mc_owned m); intros [= <-]. by client Hm.
  - destruct (mc_owned m); intros [= <-].
    assert (Hx : machine_ok s0 (set_mc_shared m (request_shutdown (mc_shared m)))) by (by client Hm).
    by destruct m, Hx; split.
  - destruct (mc_owned m); intros [= <-].
    assert (Hx : machine_ok s0 (set_mc_shared m (abandon (mc_shared m)))) by (by client Hm).
    by destruct m, Hx; split.
  - destruct (mc_phase m) eqn:Hphase; try done. intros [= <-]. by apply begin_ok.
  - destruct (mc_phase m) eqn:Hphase; try done.
    destruct (wait_for_actor_work _ _ _ _) as [[s wake]|] eqn:Hwait; [|done]. intros [= <-].
    by eapply wake_ok.
  - destruct (mc_phase m) as [| |wake| | | | |] eqn:Hphase; try done. intros [= <-]. by apply process_ok.
  - destruct (mc_phase m) as [| | |snapshot results queries condition| | | |] eqn:Hphase; try done.
    intros [= <-]. destruct Hm as [Hr Hw Hj Hp He Hs Hq Hl Hv Hph]. unfold phase_ok in Hph.
    rewrite Hphase in Hph. destruct Hph as (?&?&?&?&?&?), m as [? ? ? ? ? ? [] ? ? ? ?].
    split; cbn in *; try done. by apply Forall_app.
  - destruct (mc_phase m) as [| | | |[|query queries] condition| | |] eqn:Hphase; try done;
      intros [= <-]; destruct Hm as [Hr Hw Hj Hp He Hs Hq Hl Hv Hph]; unfold phase_ok in Hph;
      rewrite Hphase in Hph; destruct Hph as (?&Hqs&?), m; split; try done.
    unfold phase_ok. cbn. split_and!; try done. by inversion Hqs.
  - destruct (mc_phase m) as [| | | | |now condition detail clean| |] eqn:Hphase; try done; intros [= <-].
    + assert (Hc : condition ≠ Operational).
      { pose proof (mo_phase _ _ Hm) as Hph. unfold phase_ok in Hph. by rewrite Hphase in Hph. }
      apply terminate_ok; [done|by apply honest_unavailable|by destruct condition|].
      apply drained_errors.
    + apply terminate_ok; [done|by split|done|]. apply drained_errors.
Qed.

Lemma reachable_machine_ok s0 m : reactor_reachable s0 m → machine_ok s0 m.
Proof. induction 1; [by eapply start_ok|by eapply step_machine_ok]. Qed.
End reactor.
