(* ===== verification/ReactorProps.v ===== *)
(** * What the reactor promises

    Theorems over the states of [ReactorInvariant]: what its snapshots expose
    and how fresh they are, what a failure latches, and what is left of a
    reactor that has stopped. *)

From S2P Require Import Prelude Ids Digest Judgment Context Qualification CustodyTypes Escalation.
From S2P Require Import Certificate Event Policy Receiver EvaluatorState RuntimeState RuntimeArtifacts.
From S2P Require Import Runtime RuntimeOps RuntimeHistory RuntimeSafety RuntimeStanding Journal JournalProps.
From S2P Require Import JournalCrash LiveSupport LiveSupportProps Reactor ReactorActor ReactorMachine.
From S2P Require Import ReactorLogic ReactorSink ReactorInvariant.

Section snapshots.
Context `{Sha256} `{FactJson} `{CustodyJson} `{RuntimeEnvironment}.
Context `{JournalJson} `{FileSystem} `{ContradictionJson} `{DebugText}.

(** C29. Whatever the clients and the thread do, and in whatever order, a snapshot
    exposes certificates, deadlines and evidence only while the reactor is
    operational, and neither queue outgrows its bound. *)
Theorem reactor_invariant s0 m :
  reactor_reachable s0 m →
  let s := mc_shared m in
  honest (sh_snapshot s)
  ∧ Z.of_nat (length (sh_queue s)) <= rc_maximum_pending_commands (mc_config m)
  ∧ Z.of_nat (length (sh_live_support_queries s)) <= rc_maximum_pending_commands (mc_config m).
Proof. intros Hm%reachable_machine_ok. split_and!; apply Hm. Qed.

(** The certificates of a snapshot are those the consumers hold. *)
Lemma elem_of_insert_by {A} (cmp : A → A → comparison) x y xs :
  y ∈ insert_by cmp x xs ↔ y = x ∨ y ∈ xs.
Proof. induction xs as [|z rest IH]; cbn; [set_solver|]. destruct (cmp x z); set_solver. Qed.
Lemma elem_of_sort_by {A} (cmp : A → A → comparison) y xs : y ∈ sort_by cmp xs ↔ y ∈ xs.
Proof. induction xs as [|x rest IH]; cbn; [done|]. rewrite elem_of_insert_by, IH. set_solver. Qed.
Lemma snapshot_certificates r epoch at_ms c detail m cert :
  cert ∈ sn_certificates (snapshot_from_runtime r epoch at_ms c detail m) →
  ∃ key state, rs_consumers r !! key = Some state ∧ co_certificate state = Some cert.
Proof.
  unfold snapshot_from_runtime. destruct (negb _); cbn; [by intros ?%elem_of_nil|].
  rewrite elem_of_sort_by. unfold current_certificates. intros (key&_&Hc)%list_elem_of_omap.
  destruct (rs_consumers r !! key) as [state|] eqn:Hl; [|done]. by eauto.
Qed.

(** C24. Each iteration of the thread that publishes shows only fresh standing: a
    CURRENT certificate in the snapshot it is about to publish is valid and
    expires after the time the snapshot was observed at. *)
Theorem published_standing_is_fresh s0 m m' snapshot results queries condition c :
  reactor_reachable s0 m → step m ActorProcess = Some m' →
  mc_phase m' = PhasePublish snapshot results queries condition →
  c ∈ sn_certificates snapshot → sc_judgment c = CatCurrent →
  certificate_validate c = Ok tt
  ∧ sn_observed_at_epoch_monotonic_ms snapshot = machine_now m
  ∧ ∃ deadline, sc_earliest_support_expiry_monotonic_ms c = Some deadline
      ∧ machine_now m < deadline.
Proof.
  intros Hm%reachable_machine_ok. unfold step.
  destruct (mc_phase m) as [| |wake| | | | |] eqn:Hphase; try done. intros [= <-]. unfold actor_process.
  pose proof (mo_phase _ _ Hm) as Hph. unfold phase_ok in Hph. rewrite Hphase in Hph.
  destruct (actor_iteration _ _ _) as [i res] eqn:Hi. destruct res as [[]|[]]; [|by destruct m..].
  destruct (iteration_returns _ _ _ _ (mo_runtime _ _ Hm) (mo_withheld _ _ Hm) (proj1 Hph) Hi)
    as [(r&out&Hr&Hrun) _ _].
  destruct (actor_condition (it_actor i)) as [c' detail]. destruct m. cbn -[snapshot_from_runtime].
  intros [= <- _ _ _] Hc Hj. pose proof Hc as (key&state&Hl&Hs)%snapshot_certificates.
  destruct (run_until_fresh _ _ _ _ _ _ _ Hr Hrun Hl Hs Hj) as [? ?]. split_and!; try done.
  unfold snapshot_from_runtime. by destruct (negb _).
Qed.

(* ------------------------------------------------------------------ *)
(** ** Latches *)

(** A custody failure that has been published. *)
Record withdrawn (m : Machine) : Prop := {
  wd_failure : ac_custody_failure (mc_actor m) ≠ None;
  wd_snapshot : exposes_live_standing (sn_condition (sh_snapshot (mc_shared m))) = false;
}.
Lemma condition_withheld a :
  withheld (ac_custody_failure a) → ac_custody_failure a ≠ None →
  exposes_live_standing (actor_condition a).1 = false.
Proof.
  unfold withheld, actor_condition. destruct (ac_custody_failure a) as [[c detail]|]; [|done].
  cbn. by destruct c.
Qed.

(** A client's step, or the passing of time, leaves the thread alone and
    exposes nothing. *)
Definition of_client (a : Action) : bool :=
  match a with
  | Advance _ | SubmitInput _ _ | SubmitBlindness _ _ | SubmitQuery _ | ResponseTimeout | Shutdown
  | DropOwner => true
  | _ => false
  end.
Record undisturbed (m m' : Machine) : Prop := {
  ud_actor : mc_actor m' = mc_actor m;
  ud_phase : mc_phase m' = mc_phase m;
  ud_replies : mc_replies m' = mc_replies m;
  ud_answers : mc_answers m' = mc_answers m;
  ud_snapshot : exposes_live_standing (sn_condition (sh_snapshot (mc_shared m))) = false →
    exposes_live_standing (sn_condition (sh_snapshot (mc_shared m'))) = false;
}.
Lemma submit_undisturbed m at_ms command m' :
  client_submit m at_ms command = Some m' → undisturbed m m'.
Proof.
  unfold client_submit, submit_command. destruct (mc_owned m && _); [|done].
  destruct (negb _); [|destruct (_ <=? _)]; intros [= <-]; by destruct m.
Qed.
Lemma client_step m action m' : of_client action = true → step m action = Some m' → undisturbed m m'.
Proof.
  unfold step. destruct action; try done; intros _.
  - destruct (0 <=? ns); intros [= <-]. by destruct m.
  - apply submit_undisturbed.
  - apply submit_undisturbed.
  - destruct (_ && _); [|done]. unfold submit_live_support_query.
    destruct (negb _); [|destruct (_ <=? _)]; intros [= <-]; by destruct m.
  - destruct (mc_owned m); intros [= <-]. by destruct m.
  - destruct (mc_owned m); intros [= <-]. by destruct m.
  - destruct (mc_owned m); intros [= <-]. by destruct m.
Qed.

Lemma step_withdrawn s0 m action m' :
  machine_ok s0 m → step m action = Some m' → withdrawn m → withdrawn m'.
Proof.
  intros Hm Hstep [Hf Hs]. destruct (of_client action) eqn:Hc.
  { destruct (client_step _ _ _ Hc Hstep) as [Ha _ _ _ Hx]. split; [by rewrite Ha|auto]. }
  pose proof (mo_phase _ _ Hm) as Hph. unfold phase_ok in Hph.
  revert Hstep. unfold step. destruct action as [| | | | | | | |waited_out| | | |]; try done;
    destruct (mc_phase m) as [| |wake|snapshot results queries condition|[|query queries] condition
                             |now condition detail clean| |]; try done.
  - by destruct Hph.
  - unfold wait_for_actor_work, take_work.
    destruct (work_waiting _ _ _); [|destruct (next_scheduled_deadline_monotonic_ms _), waited_out];
      intros [= <-]; by destruct m.
  - intros [= <-].
    pose proof (iteration_succeeds (machine_now m) wake (mc_actor m) (mo_runtime _ _ Hm)
                  (mo_withheld _ _ Hm)) as [_ _ _ Hl]. unfold actor_process.
    destruct (actor_iteration _ _ _) as [i res]. destruct m. cbn in *. split; cbn; auto.
  - destruct Hph as (_&_&_&Hcond&Ha&_).
    pose proof (condition_withheld _ (mo_withheld _ _ Hm) Hf) as Hw. rewrite <- Ha, <- Hcond in Hw.
    intros [= <-]. by destruct m as [? ? ? ? ? ? [] ? ? ? ?].
  - intros [= <-]. by destruct m.
  - intros [= <-]. by destruct m.
  - intros [= <-]. destruct m. split; [done|]. cbn. by destruct condition.
  - intros [= <-]. by destruct m.
Qed.
Lemma run_actions_app m xs ys m' :
  run_actions m (xs ++ ys) = Some m' → ∃ m1, run_actions m xs = Some m1 ∧ run_actions m1 ys = Some m'.
Proof.
  revert m. induction xs as [|x rest IH]; cbn; intros m Hr; [by eauto|].
  destruct (step m x) as [m1|]; [|done]. cbn in *. by apply IH.
Qed.
Lemma run_withdrawn s0 m actions m' :
  machine_ok s0 m → withdrawn m → run_actions m actions = Some m' → withdrawn m' ∧ machine_ok s0 m'.
Proof.
  revert m. induction actions as [|a rest IH]; cbn; intros m Hm Hw Hr; [by injection Hr as <-|].
  destruct (step m a) as [m1|] eqn:Hs; [|done]. cbn in Hr.
  eapply IH; [by eapply step_machine_ok|by eapply step_withdrawn|exact Hr].
Qed.

(** Until it is published a failure is kept by whatever the clients do. *)
Lemma run_publication s0 m actions m' snapshot results queries condition :
  machine_ok s0 m → mc_phase m = PhasePublish snapshot results queries condition →
  ac_custody_failure (mc_actor m) ≠ None → run_actions m (actions ++ [ActorPublish]) = Some m' →
  Forall (λ a, a ≠ ActorPublish) actions → withdrawn m' ∧ machine_ok s0 m'.
Proof.
  intros Hm Hphase Hf Hr Hall. revert m Hm Hphase Hf Hr.
  induction Hall as [|a rest Ha _ IH]; cbn [app run_actions]; intros m Hm Hphase Hf Hr.
  - destruct (step m ActorPublish) as [m1|] eqn:Hs; [|done]. injection Hr as <-.
    assert (Hm1 : machine_ok s0 m1) by (by eapply step_machine_ok). split; [|done].
    pose proof (mo_phase _ _ Hm) as Hph. unfold phase_ok in Hph. rewrite Hphase in Hph.
    destruct Hph as (_&_&_&Hc&Hcond&_).
    pose proof (condition_withheld _ (mo_withheld _ _ Hm) Hf) as Hw. rewrite <- Hcond, <- Hc in Hw.
    unfold step in Hs. rewrite Hphase in Hs. injection Hs as <-.
    by destruct m as [? ? ? ? ? ? [] ? ? ? ?].
  - destruct (step m a) as [m1|] eqn:Hs; [|done]. cbn in Hr.
    assert (Hm1 : machine_ok s0 m1) by (by eapply step_machine_ok).
    destruct (of_client a) eqn:Hcl;
      [|by revert Hs; unfold step; rewrite Hphase; destruct a].
    destruct (client_step _ _ _ Hcl Hs) as [Hk Hp _ _ _].
    apply (IH m1); [done|by rewrite Hp|by rewrite Hk|done].
Qed.

(** The thread has left its loop. *)
Definition ending (m : Machine) : Prop :=
  match mc_phase m with PhaseTerminate _ _ _ _ | PhaseUnwound | PhaseStopped => True | _ => False end.
Lemma step_ending m action m' : step m action = Some m' → ending m → ending m' ∧ action ≠ ActorPublish.
Proof.
  intros Hs He. destruct (of_client action) eqn:Hc.
  { unfold ending in *. rewrite (ud_phase _ _ (client_step _ _ _ Hc Hs)). by destruct action. }
  unfold step, ending in *. destruct action; try done; destruct (mc_phase m); try done;
    injection Hs as <-; by destruct m.
Qed.
Lemma run_ending m actions m' : run_actions m actions = Some m' → ending m → ActorPublish ∉ actions.
Proof.
  revert m. induction actions as [|a rest IH]; cbn; intros m Hr He; [set_solver|].
  destruct (step m a) as [m1|] eqn:Hs; [|done]. destruct (step_ending _ _ _ Hs He) as [He1 Ha].
  specialize (IH _ Hr He1). set_solver.
Qed.

(** An iteration that picked up a flag notes it before it publishes. *)
Lemma process_flagged s0 m wake m' :
  machine_ok s0 m → mc_phase m = PhaseProcess wake → step m ActorProcess = Some m' →
  ending m'
  ∨ (∃ snapshot results queries condition,
       mc_phase m' = PhasePublish snapshot results queries condition)
    ∧ (flagged wake = true → ac_custody_failure (mc_actor m') ≠ None).
Proof.
  intros Hm Hphase. unfold step. rewrite Hphase. intros [= <-]. unfold actor_process, ending.
  pose proof (mo_phase _ _ Hm) as Hph. unfold phase_ok in Hph. rewrite Hphase in Hph.
  destruct (actor_iteration _ _ _) as [i res] eqn:Hi.
  destruct res as [[]|[]]; [right|left; by destruct m..].
  destruct (iteration_returns _ _ _ _ (mo_runtime _ _ Hm) (mo_withheld _ _ Hm) (proj1 Hph) Hi)
    as [_ _ Hf].
  destruct (actor_condition (it_actor i)). destruct m. cbn. split; [by do 4 eexists|done].
Qed.

Lemma step_stopped m action m' :
  mc_phase m = PhaseStopped → step m action = Some m' → undisturbed m m'.
Proof.
  intros Hphase Hs. apply (client_step _ action); [|done].
  unfold step in Hs. rewrite Hphase in Hs. by destruct action.
Qed.

(** C28. An overload, a response timeout or an explicit declaration of blindness
    that an iteration picks up is never undone: once the iteration has
    published, whatever happens afterwards, no snapshot is operational again
    and none exposes a certificate. *)
Theorem custody_failure_latched s0 m wake between after m' :
  reactor_reachable s0 m → mc_phase m = PhaseProcess wake → flagged wake = true →
  Forall (λ a, a ≠ ActorPublish) between →
  run_actions m (ActorProcess :: between ++ ActorPublish :: after) = Some m' →
  sn_condition (sh_snapshot (mc_shared m')) ≠ Operational
  ∧ sn_certificates (sh_snapshot (mc_shared m')) = [].
Proof.
  intros Hm%reachable_machine_ok Hphase Hflag Hbetween Hr. cbn [run_actions] in Hr.
  destruct (step m ActorProcess) as [m1|] eqn:Hs; [|done]. cbn [mbind option_bind] in Hr.
  assert (Hm1 : machine_ok s0 m1) by (by eapply step_machine_ok).
  rewrite (app_assoc between [ActorPublish] after : between ++ ActorPublish :: after = _) in Hr.
  apply run_actions_app in Hr as (m2&Hr1&Hr2).
  destruct (process_flagged _ _ _ _ Hm Hphase Hs) as [He|[(snapshot&results&queries&condition&Hp) Hf]].
  { apply (run_ending _ _ _ Hr1) in He. set_solver. }
  destruct (run_publication _ _ _ _ _ _ _ _ Hm1 Hp (Hf Hflag) Hr1 Hbetween) as [Hw Hm2].
  destruct (run_withdrawn _ _ _ _ Hm2 Hw Hr2) as [[_ Hx] Hm'].
  split; [intros Hc; by rewrite Hc in Hx|]. by apply (mo_snapshot _ _ Hm').
Qed.

(** A reactor whose thread has stopped stays silent: whatever its clients
    still do, it accepts no command and no query, holds none back, sends
    nothing and exposes no standing. *)
Theorem stopped_reactor_is_final s0 m actions m' :
  reactor_reachable s0 m → mc_phase m = PhaseStopped → run_actions m actions = Some m' →
  mc_phase m' = PhaseStopped
  ∧ mc_replies m' = mc_replies m ∧ mc_answers m' = mc_answers m
  ∧ sn_certificates (sh_snapshot (mc_shared m')) = []
  ∧ sh_queue (mc_shared m') = [] ∧ sh_live_support_queries (mc_shared m') = []
  ∧ (∀ command, (submit_command (mc_config m') command (mc_shared m')).2
                = Err (mkReactorError RcNotOperational "reactor command boundary is closed"))
  ∧ (∀ query, (submit_live_support_query (mc_config m') query (mc_shared m')).2
              = Err (mkReactorError RcNotOperational "reactor live-query boundary is closed")).
Proof.
  intros Hm%reachable_machine_ok Hphase Hr.
  assert (Hfix : mc_phase m' = PhaseStopped ∧ mc_replies m' = mc_replies m
                 ∧ mc_answers m' = mc_answers m ∧ machine_ok s0 m').
  { revert m Hm Hphase Hr. induction actions as [|a rest IH]; cbn; intros m Hm Hphase Hr.
    { by injection Hr as <-. }
    destruct (step m a) as [m1|] eqn:Hs; [|done]. cbn in Hr.
    pose proof (step_machine_ok _ _ _ _ Hm Hs) as Hm1.
    destruct (step_stopped _ _ _ Hphase Hs) as [_ Hp Hrep Hans _].
    destruct (IH m1 Hm1 ltac:(by rewrite Hp) Hr) as (?&->&->&?). by rewrite Hrep, Hans. }
  destruct Hfix as (Hp&->&->&Hm'). pose proof (mo_phase _ _ Hm') as Hph. unfold phase_ok in Hph.
  rewrite Hp in Hph. destruct Hph as (Ha&Hx&Hq&Hqs).
  split_and!; try done; [by apply (mo_snapshot _ _ Hm')|..];
    intros x; unfold submit_command, submit_live_support_query; by rewrite Ha.
Qed.
End snapshots.
