(* ===== verification/ReactorLive.v ===== *)
(** * What the reactor's answers and acknowledgements mean

    A live answer reports exactly what the runtime holds, and a caller that
    subtracts its own waiting time never relies on it past the expiry; a
    reported success is on disk; and two races at the mutex. *)

From S2P Require Import Prelude Ids Digest Judgment Context Qualification CustodyTypes Escalation.
From S2P Require Import Certificate Event Policy Receiver EvaluatorState RuntimeState RuntimeArtifacts.
From S2P Require Import Runtime RuntimeOps RuntimeHistory RuntimeLogic RuntimeInvariant RuntimeMethods.
From S2P Require Import RuntimeSafety RuntimeStanding Journal JournalProps.
From S2P Require Import JournalCrash LiveSupport LiveSupportProps Reactor ReactorActor ReactorMachine.
From S2P Require Import ReactorLogic ReactorSink ReactorInvariant ReactorProps.

Section answers.
Context `{Sha256} `{FactJson} `{CustodyJson} `{RuntimeEnvironment}.

(** A supported answer rests on the exact certificate the request names. *)
Lemma supported_answer r epoch condition request measured_at :
  let response := live_present_support_response r epoch condition request measured_at in
  lr_disposition response = SupportedCurrent →
  condition = Operational ∧ lineage_matches request epoch = true
  ∧ ∃ c expiry,
      current_certificate r (ss_subject (lq_subject_scope request)) (lq_consumer request) = Some c
      ∧ exact_support request c = true ∧ sc_judgment c = CatCurrent
      ∧ sc_earliest_support_expiry_monotonic_ms c = Some expiry
      ∧ measured_at + 1 < expiry
      ∧ lr_remaining_lifetime_ms_at_response response = Some (expiry - measured_at - 1).
Proof.
  cbv zeta. unfold live_present_support_response.
  destruct (decide (condition ≠ Operational)) as [|Hc]; [done|]. apply dec_stable in Hc.
  destruct (current_certificate _ _ _) as [c|] eqn:Hcert; [|done].
  destruct (lineage_matches request epoch) eqn:Hl, (exact_support request c) eqn:Hx; try done.
  cbn. unfold live_support_remaining. destruct (sc_judgment c) eqn:Hj; try done.
  destruct (sc_earliest_support_expiry_monotonic_ms c) as [expiry|] eqn:He; [|done].
  destruct (Z.leb_spec (sat_sub expiry measured_at) 1); [done|]. cbn. intros _. unfold sat_sub in *.
  split_and!; try done. exists c, expiry. split_and!; try done; [lia|]. f_equal. lia.
Qed.

(** Every answer carries a lifetime exactly when it supports. *)
Lemma answer_lifetime r epoch condition request measured_at :
  lifetime_is_valid (live_present_support_response r epoch condition request measured_at) = true.
Proof.
  unfold live_present_support_response, live_support_remaining.
  repeat case_match; simplify_eq; try done. unfold lifetime_is_valid. cbn.
  apply Z.ltb_lt. match goal with E : (_ <=? _) = false |- _ => apply Z.leb_gt in E end. lia.
Qed.

Lemma epoch_identities e :
  epoch_validate e = Ok tt →
  Forall (λ id, valid_identity id = true)
    [me_receiver e; me_receiver_incarnation e; me_epoch_id e; me_clock_id e]
  ∧ valid_identity (me_clock_source e) = true.
Proof.
  unfold epoch_validate, journal_identity. intros Hv. inv_oks. rewrite !validate_identity_Ok in *.
  split; [by repeat constructor|]. apply bool_decide_eq_true in Hv. by rewrite Hv.
Qed.

(** An answer to a validated request validates. *)
Lemma answer_validates r epoch condition request measured_at :
  epoch_validate epoch = Ok tt → live_request_validate request = Ok tt →
  live_response_validate (live_present_support_response r epoch condition request measured_at) = Ok tt.
Proof.
  intros [Hids Hs]%epoch_identities Hq.
  pose proof (answer_lifetime r epoch condition request measured_at) as Hl.
  unfold live_present_support_response in *.
  match goal with |- context [let '(_, _) := ?p in _] => destruct p as [disposition remaining] end.
  by apply live_response_new_valid.
Qed.

(** [query_live_present_support_stream]: the elapsed time, rounded upward. *)
Definition elapsed_since_send_ms (elapsed_ns : Z) : Z :=
  Z.min ((elapsed_ns + 999999) / 1000000) u64_max.

Lemma lifetime_arithmetic origin measured_ns sent_ns used_ns expiry lifetime later_ns :
  let clock := mkClock origin in
  0 <= origin → 0 <= measured_ns → sent_ns <= measured_ns <= used_ns → now_ms clock measured_ns + 1 < expiry → expiry <= u64_max →
  (if expiry - now_ms clock measured_ns - 1 <? elapsed_since_send_ms (used_ns - sent_ns) then None
   else if 0 <? expiry - now_ms clock measured_ns - 1 - elapsed_since_send_ms (used_ns - sent_ns)
        then Some (expiry - now_ms clock measured_ns - 1 - elapsed_since_send_ms (used_ns - sent_ns))
        else None) = Some lifetime →
  later_ns <= used_ns + lifetime * 1000000 → now_ms clock later_ns < expiry.
Proof.
  cbv zeta. intros Ho Hm Hs Hlt Hu Hc Hl.
  assert (Hlife : lifetime = expiry - now_ms (mkClock origin) measured_ns - 1
                             - elapsed_since_send_ms (used_ns - sent_ns) ∧ 0 < lifetime).
  { destruct (_ <? elapsed_since_send_ms _); [done|]. destruct (Z.ltb_spec 0
      (expiry - now_ms (mkClock origin) measured_ns - 1 - elapsed_since_send_ms (used_ns - sent_ns)));
      [|done]. injection Hc as <-. done. }
  clear Hc. destruct Hlife as [-> Hpos]. unfold now_ms, elapsed_since_send_ms, sat_add in *. cbn in *.
  pose proof (Z.div_mod measured_ns 1000000 ltac:(lia)).
  pose proof (Z.mod_pos_bound measured_ns 1000000 ltac:(lia)).
  pose proof (Z.div_mod later_ns 1000000 ltac:(lia)).
  pose proof (Z.mod_pos_bound later_ns 1000000 ltac:(lia)).
  pose proof (Z.div_mod (used_ns - sent_ns + 999999) 1000000 ltac:(lia)).
  pose proof (Z.mod_pos_bound (used_ns - sent_ns + 999999) 1000000 ltac:(lia)).
  assert (0 <= u64_max) by done. generalize dependent u64_max. intros u. lia.
Qed.

(** C26. A caller never relies on an answer for too long.  If it sent its request
    at [sent_ns], the receiver measured at [measured_ns] and the caller asks at
    [used_ns] what is left after the time it has seen pass, then for all of
    the lifetime it is given the receiver's clock is short of the expiry of
    the certificate. *)
Theorem supported_lifetime_conservative clock r epoch condition request sent_ns measured_ns used_ns
    lifetime later_ns :
  let response := live_present_support_response r epoch condition request (now_ms clock measured_ns) in
  0 <= ck_origin_runtime_monotonic_ms clock → 0 <= measured_ns → sent_ns <= measured_ns <= used_ns →
  conservative_remaining_lifetime_ms response (elapsed_since_send_ms (used_ns - sent_ns)) = Some lifetime →
  later_ns <= used_ns + lifetime * 1000000 →
  ∃ c expiry,
    current_certificate r (ss_subject (lq_subject_scope request)) (lq_consumer request) = Some c
    ∧ sc_judgment c = CatCurrent ∧ sc_earliest_support_expiry_monotonic_ms c = Some expiry
    ∧ (expiry <= u64_max → now_ms clock later_ns < expiry).
Proof.
  cbv zeta. intros Ho Hm Hsent Hc Hlater. unfold conservative_remaining_lifetime_ms in Hc.
  destruct (decide _) as [|Hd]; [done|]. apply dec_stable in Hd.
  destruct (supported_answer _ _ _ _ _ Hd) as (_&_&c&expiry&Hcert&_&Hj&He&Hlt&Hrem).
  rewrite Hrem in Hc. exists c, expiry. split_and!; try done. intros Hu.
  eapply (lifetime_arithmetic (ck_origin_runtime_monotonic_ms clock) measured_ns sent_ns used_ns);
    [done..|exact Hc|done].
Qed.
End answers.

Section machine.
Context `{Sha256} `{FactJson} `{CustodyJson} `{RuntimeEnvironment}.
Context `{JournalJson} `{FileSystem} `{ContradictionJson} `{DebugText}.

(** The certificate is the one the request names, in everything the request
    names: consumer, subject, incarnation and scope, context and its digest,
    certificate, evidence window and qualified generation. *)
Record names_certificate (request : LivePresentSupportRequestV1) (c : RelianceSupportCertificateV1)
    : Prop := mkNamesCertificate {
  nc_consumer : lq_consumer request = sc_consumer c;
  nc_scope : lq_subject_scope request = sc_subject_scope c;
  nc_context : lq_reliance_context request = sc_context c;
  nc_context_digest : lq_reliance_context_digest request = context_identity_digest (sc_context c);
  nc_certificate : lq_support_certificate_id request = sc_certificate_id c;
  nc_window : lq_evidence_window_id request = sc_evidence_window_id c;
  nc_generation : ∃ binding, sc_qualified_generation c = Some binding
    ∧ lq_qualified_generation_digest request = binding_identity_digest binding;
}.
(** The request was made of this receiver in this epoch. *)
Record names_receiver (request : LivePresentSupportRequestV1) (epoch : MonotonicEpochV1)
    : Prop := mkNamesReceiver {
  nr_receiver : lq_receiver request = me_receiver epoch;
  nr_incarnation : lq_receiver_incarnation request = me_receiver_incarnation epoch;
  nr_epoch : lq_receiver_epoch_id request = me_epoch_id epoch;
  nr_clock : lq_receiver_clock_id request = me_clock_id epoch;
}.

Lemma exact_support_names request c : exact_support request c = true → names_certificate request c.
Proof.
  unfold exact_support. intros Hx. split_and_bool.
  destruct (sc_qualified_generation c) as [binding|] eqn:Hg; [|done].
  repeat match goal with E : bool_decide (_ = _) = true |- _ => apply bool_decide_eq_true in E end.
  constructor; try congruence. by eauto.
Qed.
Lemma lineage_names request epoch : lineage_matches request epoch = true → names_receiver request epoch.
Proof.
  unfold lineage_matches. intros Hl. split_and_bool.
  repeat match goal with E : bool_decide (_ = _) = true |- _ => apply bool_decide_eq_true in E end.
  by constructor.
Qed.

(** C25. A live answer is sound.  The thread answers the next query with a response
    that validates; if it says supported, the reactor is operational, the
    response validates against the request, the request names this receiver and
    epoch, and the runtime holds a valid CURRENT certificate that is the one the
    request names in every respect (consumer, subject, incarnation, scope,
    context and its digest, certificate, evidence window, qualified generation);
    the reported lifetime is what is left until its expiry less one
    millisecond. *)
Theorem live_answer_sound s0 m query queries condition :
  reactor_reachable s0 m → mc_phase m = PhaseAnswer (query :: queries) condition →
  let request := qc_request query in
  ∃ m' response,
    step m ActorAnswer = Some m' ∧ mc_answers m' = mc_answers m ++ [(qc_response query, Ok response)]
    ∧ live_response_validate response = Ok tt
    ∧ (lr_disposition response = SupportedCurrent →
       condition = Operational ∧ names_receiver request (mc_epoch m)
       ∧ live_response_validate_against response request = Ok tt
       ∧ ∃ c expiry,
           current_certificate (ac_runtime (mc_actor m)) (ss_subject (lq_subject_scope request))
             (lq_consumer request) = Some c
           ∧ certificate_validate c = Ok tt ∧ sc_judgment c = CatCurrent
           ∧ names_certificate request c
           ∧ sc_earliest_support_expiry_monotonic_ms c = Some expiry
           ∧ machine_now m + 1 < expiry
           ∧ lr_remaining_lifetime_ms_at_response response = Some (expiry - machine_now m - 1)).
Proof.
  intros Hm%reachable_machine_ok Hphase. cbv zeta. unfold step. rewrite Hphase.
  pose proof (mo_phase _ _ Hm) as Hph. unfold phase_ok in Hph. rewrite Hphase in Hph.
  destruct Hph as (_&Hqs&_). apply Forall_cons in Hqs as [Hq _].
  set (response := live_present_support_response _ _ _ _ _).
  assert (Hv : live_response_validate response = Ok tt) by (apply answer_validates; [apply Hm|done]).
  eexists _, response. split; [done|]. split; [by destruct m|]. split; [done|]. intros Hd.
  destruct (supported_answer _ _ _ _ _ Hd) as (Hop&Hl&c&expiry&Hc&Hx&Hj&He&Hlt&Hrem).
  split; [done|]. split; [by apply lineage_names|]. split.
  - unfold live_response_validate_against. rewrite Hv, Hq. cbn.
    unfold lineage_matches in Hl. split_and_bool.
    unfold response, live_present_support_response.
    match goal with |- context [let '(_, _) := ?p in _] => destruct p end. cbn.
    repeat match goal with E : bool_decide (_ = _) = true |- _ => apply bool_decide_eq_true in E end.
    by rewrite !bool_decide_eq_true_2.
  - exists c, expiry. unfold current_certificate in Hc |- *.
    destruct (rs_consumers _ !! _) as [state|] eqn:Hstate; [|done]. cbn in Hc.
    destruct (cov_current _ _ (reachable_covered _ (mo_runtime _ _ Hm)) _ state c ltac:(done) Hstate Hc Hj)
      as [Hvalid _ _ _ _].
    split_and!; try done. by apply exact_support_names.
Qed.


(* ------------------------------------------------------------------ *)
(** ** Races at the mutex *)

(** A withdrawal can be overwritten.  A response timeout that a client latches
    after an iteration has made its snapshot and before it publishes is
    replaced by that snapshot: the caller who has just withdrawn standing then
    reads the operational snapshot, certificates included, while its latch is
    still waiting. *)
Theorem withdrawal_overwritten m snapshot results queries :
  mc_owned m = true → mc_phase m = PhasePublish snapshot results queries Operational →
  ∃ m1 m2,
    run_actions m [ResponseTimeout] = Some m1
    ∧ sn_condition (sh_snapshot (mc_shared m1)) = WakeupFailure
    ∧ sn_certificates (sh_snapshot (mc_shared m1)) = []
    ∧ run_actions m1 [ActorPublish] = Some m2
    ∧ sh_snapshot (mc_shared m2) = snapshot ∧ sh_response_timeout_latched (mc_shared m2) = true.
Proof.
  destruct m as [config epoch clock ns owned next shared actor phase replies answers]. cbn.
  intros -> ->. cbn. eexists _, _. by split_and!.
Qed.

Lemma raced_submission m input ns m1 :
  mc_owned m = true → sh_accepting_commands (mc_shared m) = true →
  Z.of_nat (length (sh_queue (mc_shared m))) < rc_maximum_pending_commands (mc_config m) →
  run_actions m [SubmitInput (machine_now m) input; Advance ns] = Some m1 →
  CommandInput (machine_now m) input (mc_next_channel m) ∈ sh_queue (mc_shared m1)
  ∧ mc_phase m1 = mc_phase m ∧ ∀ s0, machine_ok s0 m → machine_ok s0 m1.
Proof.
  intros Ho Ha Hq Hrun. split_and!.
  - cbn [run_actions step] in Hrun. unfold client_submit, submit_command in Hrun.
    rewrite Ho, (proj2 (Z.leb_le _ _) (Z.le_refl _)), Ha, (proj2 (Z.leb_gt _ _) Hq) in Hrun.
    cbn [negb andb mbind option_bind] in Hrun. destruct (0 <=? ns); [|done]. injection Hrun as <-.
    destruct m. cbn. set_solver.
  - cbn [run_actions] in Hrun. destruct (step m _) as [m0|] eqn:E0; [|done]. cbn [mbind option_bind] in Hrun.
    destruct (step m0 _) as [m0'|] eqn:E1; [|done]. injection Hrun as <-.
    apply client_step in E0, E1; [|done..]. by rewrite (ud_phase _ _ E1), (ud_phase _ _ E0).
  - intros s0 Hm. cbn [run_actions] in Hrun.
    destruct (step m _) as [m0|] eqn:E0; [|done]. cbn [mbind option_bind] in Hrun.
    destruct (step m0 _) as [m0'|] eqn:E1; [|done]. injection Hrun as <-.
    by eapply step_machine_ok, E1; eapply step_machine_ok, E0.
Qed.
(** After an iteration that publishes, the runtime's clock is not behind the
    time it read, and what was queued meanwhile waits. *)
Lemma processed_clock s0 m wake m' :
  machine_ok s0 m → mc_phase m = PhaseProcess wake → step m ActorProcess = Some m' →
  ending m'
  ∨ machine_now m <= rs_current_monotonic_ms (ac_runtime (mc_actor m'))
    ∧ sh_queue (mc_shared m') = sh_queue (mc_shared m).
Proof.
  intros Hm Hphase. unfold step. rewrite Hphase. intros [= <-]. unfold actor_process, ending.
  pose proof (mo_phase _ _ Hm) as Hph. unfold phase_ok in Hph. rewrite Hphase in Hph.
  destruct (actor_iteration _ _ _) as [i res] eqn:Hi.
  destruct res as [[]|[]]; [right|left; by destruct m..].
  destruct (iteration_returns _ _ _ _ (mo_runtime _ _ Hm) (mo_withheld _ _ Hm) (proj1 Hph) Hi)
    as [(r&out&_&Hrun) _ _]. apply run_until_clock in Hrun.
  destruct (actor_condition (it_actor i)). by destruct m.
Qed.

(** The thread's clock never goes back under the calls an iteration makes before
    it runs the runtime. *)
Definition past (t0 : Z) (x : option ConsumerKey) (r : Runtime) : Prop := t0 <= rs_current_monotonic_ms r.
#[local] Instance past_invariant t0 : RuntimeInvariant (λ t, t0 <= t) (past t0).
Proof.
  constructor; unfold past; try done.
  - lia.
  - intros x r r' (_&_&_&_&_&Et). by rewrite Et.
  - intros key state c at_ms r _ Hr _ _. cbn.
    destruct (schedule_certificate_fields key state c r) as (_&_&_&Et). by rewrite Et.
Qed.
Lemma past_enqueue t0 r at_ms input : past t0 None r → past t0 None (enqueue r at_ms input).1.
Proof. by apply (keeps_enqueue (I := past t0)). Qed.
Lemma past_declare t0 r at_ms state detail :
  past t0 None r → past t0 None (declare_external_monitor_blindness r at_ms state detail).1.
Proof.
  unfold declare_external_monitor_blindness. apply (keeps_finish (I := past t0)).
  apply keeps_bind.
  { apply keeps_get. intros r0 o HI. destruct (Z.ltb_spec at_ms (rs_current_monotonic_ms r0)).
    - apply keeps_at; [done|]. apply keeps_bind; [|intros _; apply keeps_error].
      apply keeps_upd. intros r'. apply keeps_latch_blind_all.
    - apply keeps_at; [done|]. apply keeps_upd. intros r' _. unfold past in *. cbn. lia. }
  intros _. apply keeps_bind; [apply keeps_framed; auto with framed|intros _].
  apply keeps_bind; [apply keeps_framed; auto with framed|intros _].
  apply keeps_bind; [|intros _; apply keeps_framed; auto with framed].
  apply keeps_upd. intros r'. apply keeps_latch_blind_all.
Qed.

(** An input stamped before the runtime's clock is refused; while history is
    not exhausted, as a clock regression that leaves no consumer CURRENT. *)
Lemma late_input_refused r at_ms input :
  at_ms < rs_current_monotonic_ms r →
  ∃ r' made, enqueue r at_ms input = (r', Err made)
    ∧ (rs_history_exhausted r = false → rf_class made = ClockRegression
       ∧ ∀ subject consumer c,
           current_certificate r' subject consumer = Some c → sc_judgment c ≠ CatCurrent).
Proof.
  intros Hlt. unfold enqueue. cbv zeta. destruct (rs_history_exhausted r).
  { unfold stage. cbn [refusal]. by eexists _, _. }
  rewrite (proj2 (Z.ltb_lt _ _) Hlt). unfold stage. cbn [refusal].
  eexists _, _. split; [done|]. intros _. split; [done|]. intros subject consumer c.
  by eapply dark_certificate, latch_all_dark.
Qed.

(** What an iteration answers to an input the runtime refused. *)
Definition refusal_error (made : RuntimeRefusalV1) : ReactorCommandError :=
  mkReactorError RcRuntimeFailure ("runtime input refused: " +:+ refusal_debug made).
Definition answered_late (at_ms : Z) (input : RuntimeInputV1) (channel : Channel) (i : Iteration) : Prop :=
  ∃ r r' made, at_ms < rs_current_monotonic_ms r ∧ enqueue r at_ms input = (r', Err made)
    ∧ (channel, Some (refusal_error made)) ∈ it_responses i.
Lemma answered_late_mono at_ms input channel i j :
  it_responses i `prefix_of` it_responses j → answered_late at_ms input channel i →
  answered_late at_ms input channel j.
Proof.
  intros Hp (r&r'&made&Hlt&He&Hin). exists r, r', made. split_and!; [done..|].
  by eapply elem_of_prefix.
Qed.

(** Stepping through an iteration: the clock and the responses. *)
Definition advances (i j : Iteration) : Prop :=
  (∀ t0, past t0 None (ac_runtime (it_actor i)) → past t0 None (ac_runtime (it_actor j)))
  ∧ it_responses i `prefix_of` it_responses j.
Lemma declare_advances at_ms state detail i j res :
  declare_blind at_ms state detail i = (j, Ok res) → advances i j.
Proof.
  unfold declare_blind, runtime_call.
  pose proof (λ t0, past_declare t0 (ac_runtime (it_actor i)) at_ms state detail) as Hd.
  destruct (declare_external_monitor_blindness _ _ _ _) as [r [o|[e|t|]]]; intros [= <- <-];
    destruct i; by split.
Qed.
Lemma upd_advances f i j :
  it_actor (f i) = it_actor i → it_responses i `prefix_of` it_responses (f i) →
  act_upd f i = (j, Ok tt) → advances i j.
Proof. intros Ha Hp [= <-]. split; [by rewrite Ha|done]. Qed.
#[local] Instance advances_preorder : PreOrder advances.
Proof. split; [by intros i; split|]. intros a b c [? ?] [? ?]. split; [auto|by etrans]. Qed.

Lemma respond_prefix ch e i : it_responses i `prefix_of` it_responses (respond ch e i).
Proof. destruct i. cbn. by apply prefix_app_r. Qed.
Lemma command_advances now command i j : process_command now command i = (j, Ok tt) → advances i j.
Proof.
  destruct command as [at_ms input response|at_ms detail response]; unfold process_command.
  - pose proof (λ t0, past_enqueue t0 (ac_runtime (it_actor i)) at_ms input) as He.
    destruct (enqueue _ _ _) as [r res]. intros [= <-]. destruct i. cbn in *.
    split; [done|]. cbn. by apply prefix_app_r.
  - intros (i1&[]&[= <-]&Hc)%act_bind_Ok. apply act_bind_Ok in Hc as (i2&res&Hd&Hc).
    transitivity (note_blindness detail i); [by destruct i|].
    apply declare_advances in Hd. etrans; [exact Hd|]. destruct res as [output|error].
    + apply act_bind_Ok in Hc as (i3&[]&[= <-]&Hc). transitivity (combine output i2); [by destruct i2|].
      apply upd_advances in Hc; [done|apply it_actor_respond|apply respond_prefix].
    + apply upd_advances in Hc; [done|apply it_actor_respond|apply respond_prefix].
Qed.

Lemma late_command now at_ms input channel commands i j :
  at_ms < rs_current_monotonic_ms (ac_runtime (it_actor i)) →
  CommandInput at_ms input channel ∈ commands →
  act_for (process_command now) commands i = (j, Ok tt) → answered_late at_ms input channel j.
Proof.
  assert (Hrest : ∀ cs i1, act_for (process_command now) cs i1 = (j, Ok tt) → advances i1 j).
  { induction cs as [|c cs IH]; cbn [act_for]; intros i1; [by intros [= ->]|].
    intros (i2&[]&Hc&Hr)%act_bind_Ok. etrans; [by eapply command_advances|by apply IH]. }
  revert i. induction commands as [|c rest IH]; intros i Hlt Hin; [by apply elem_of_nil in Hin|].
  cbn [act_for]. intros (i1&[]&Hc&Hr)%act_bind_Ok. apply elem_of_cons in Hin as [<-|Hin].
  - eapply answered_late_mono; [by apply (Hrest rest)|].
    unfold process_command in Hc. destruct (late_input_refused _ at_ms input Hlt) as (r'&made&He&_).
    rewrite He in Hc. injection Hc as <-. exists (ac_runtime (it_actor i)), r', made.
    split_and!; [done..|]. destruct i. cbn. set_solver.
  - apply (IH i1); [|done|done]. apply command_advances in Hc as [Hp _].
    specialize (Hp (at_ms + 1)). unfold past in Hp. lia.
Qed.

Lemma late_iteration now wake at_ms input channel i j :
  at_ms < rs_current_monotonic_ms (ac_runtime (it_actor i)) →
  CommandInput at_ms input channel ∈ wk_commands wake →
  actor_iteration now wake i = (j, Ok tt) → answered_late at_ms input channel j.
Proof.
  intros Hlt Hin. unfold actor_iteration.
  intros (i1&[]&[= <-]&Hi)%act_bind_Ok. apply act_bind_Ok in Hi as (i2&[]&Hl&Hi).
  assert (Ha : advances i i2).
  { transitivity (map_it_actor (map_ac_metrics (λ m, count_wakeup m (wk_timed_out wake)
      (negb (bool_decide (length (wk_commands wake) = 0%nat))
       || negb (bool_decide (length (wk_live_support_queries wake) = 0%nat))))) i); [by destruct i|].
    unfold latch_boundary_failure in Hl. destruct (_ || _) in Hl; [|by injection Hl as <-].
    apply act_bind_Ok in Hl as (i3&res&Hd&Hl). etrans; [by eapply declare_advances|].
    destruct res as [output|]; [|done]. apply act_bind_Ok in Hl as (i4&[]&[= <-]&[= <-]).
    by destruct i3. }
  apply act_bind_Ok in Hi as (i3&[]&Hc&Hi).
  assert (Hdone : answered_late at_ms input channel i3).
  { eapply late_command; [|done|exact Hc]. destruct Ha as [Hp _]. specialize (Hp (at_ms + 1)).
    unfold past in Hp. lia. }
  apply act_bind_Ok in Hi as (i4&[]&Hrun&Hi). apply act_bind_Ok in Hi as (i5&[]&[= <-]&Hi).
  apply act_bind_Ok in Hi as (i6&[]&Hj&Hi). apply act_bind_Ok in Hi as (i7&[]&Hw&[= <-]).
  eapply answered_late_mono; [|exact Hdone].
  assert (Hr4 : it_responses i4 = it_responses i3).
  { unfold run_runtime in Hrun. apply act_bind_Ok in Hrun as (k&res&Hk&Hrun).
    unfold runtime_call in Hk. destruct (run_until _ _) as [r ro]. destruct res as [o|e].
    - injection Hrun as <-. destruct ro as [?|[]]; simplify_eq; by destruct i3.
    - by apply act_bind_Ok in Hrun as (?&[]&_&?). }
  assert (Hr6 : it_responses i6 = it_responses i4).
  { unfold journal_output in Hj. apply act_bind_Ok in Hj as (k&k'&[= <- <-]&Hj).
    apply act_bind_Ok in Hj as (k1&res&Hk&Hj). unfold capture_output in Hk.
    destruct (capture _ _ _ _) as [sk ro]. destruct res as [[]|e].
    - injection Hj as <-. injection Hk as <- _. by destruct i4.
    - exfalso. repeat (apply act_bind_Ok in Hj as (?&?&_&Hj)). done. }
  assert (Hr7 : it_responses i7 = it_responses i6).
  { unfold wind_down in Hw. destruct (_ || _) in Hw; [|by injection Hw as <-]. cbv zeta in Hw. exfalso.
    apply act_bind_Ok in Hw as (?&?&_&Hw). apply act_bind_Ok in Hw as (?&?&_&Hw).
    apply act_bind_Ok in Hw as (?&[|]&_&Hw); [by destruct (wk_shutdown wake)|].
    by apply act_bind_Ok in Hw as (?&?&_&Hw). }
  rewrite <- Hr4, <- Hr6, <- Hr7. destruct (it_explicit_blindness i7); [by destruct i7|done].
Qed.

(** From a publication to the next wakeup, when no client acts in between. *)
Definition next_iteration (queries : list LiveSupportQueryCommand) (waited_out : bool) : list Action :=
  ActorPublish :: repeat ActorAnswer (S (length queries)) ++ [ActorWakes waited_out; ActorProcess].

Lemma answers_run m queries condition rest :
  mc_phase m = PhaseAnswer queries condition →
  ∃ m', run_actions m (repeat ActorAnswer (S (length queries)) ++ rest) = run_actions m' rest
    ∧ mc_phase m' = PhaseWait ∧ mc_shared m' = mc_shared m ∧ mc_actor m' = mc_actor m.
Proof.
  revert m. induction queries as [|query queries IH]; intros m Hp.
  - exists (set_mc_phase m PhaseWait). split; [|by destruct m]. cbn. by rewrite Hp.
  - set (m1 := set_mc_phase (send_answers m [(qc_response query, Ok (live_present_support_response
      (ac_runtime (mc_actor m)) (mc_epoch m) condition (qc_request query) (machine_now m)))])
      (PhaseAnswer queries condition)).
    assert (Hs1 : step m ActorAnswer = Some m1) by (unfold step; by rewrite Hp).
    destruct (IH m1) as (m'&Hr&Hw&Hs&Ha); [by destruct m|]. exists m'. split; [|split_and!; [done| |]].
    + change (run_actions m (ActorAnswer :: (repeat ActorAnswer (S (length queries)) ++ rest))
              = run_actions m' rest). cbn [run_actions]. rewrite Hs1. exact Hr.
    + rewrite Hs. by destruct m.
    + rewrite Ha. by destruct m.
Qed.
Lemma next_wakeup m snapshot results queries condition waited_out m' :
  mc_phase m = PhasePublish snapshot results queries condition →
  run_actions m (next_iteration queries waited_out) = Some m' →
  ∃ m3 wake, step m3 ActorProcess = Some m' ∧ mc_phase m3 = PhaseProcess wake
    ∧ wk_commands wake = sh_queue (mc_shared m) ∧ mc_actor m3 = mc_actor m.
Proof.
  intros Hp. unfold next_iteration.
  assert (Hs1 : step m ActorPublish = Some (set_mc_phase
    (send_replies (set_mc_shared m (set_sh_snapshot (mc_shared m) snapshot)) results)
    (PhaseAnswer queries condition))) by (unfold step; by rewrite Hp).
  cbn [run_actions]. rewrite Hs1. cbn [mbind option_bind].
  match goal with |- run_actions ?m1 _ = _ → _ => destruct (answers_run m1 queries condition
    [ActorWakes waited_out; ActorProcess]) as (m2&->&Hw&Hs&Ha); [by destruct m|] end.
  assert (Hq : sh_queue (mc_shared m2) = sh_queue (mc_shared m)) by (rewrite Hs; by destruct m as [? ? ? ? ? ? []]).
  assert (Ha' : mc_actor m2 = mc_actor m) by (rewrite Ha; by destruct m).
  clear Hs Ha. cbn [run_actions]. destruct (step m2 (ActorWakes waited_out)) as [m3|] eqn:E3; [|done].
  cbn [mbind option_bind]. destruct (step m3 ActorProcess) as [m4|] eqn:E4; [|done]. intros [= <-].
  unfold step in E3. rewrite Hw in E3. unfold wait_for_actor_work in E3.
  assert (∃ timed, m3 = set_mc_phase (set_mc_shared m2 (take_work timed (mc_shared m2)).1)
                          (PhaseProcess (take_work timed (mc_shared m2)).2)) as (timed&->).
  { repeat case_match; try done; cbn in E3; simplify_eq; by eexists. }
  eexists _, _. split; [exact E4|]. split; [by destruct m2|]. split; [done|]. by destruct m2.
Qed.

End machine.
