(* ===== verification/LiveTransport.v ===== *)
(** * The local stream of live queries

    The length-prefixed frames of [crates/pulse-runtime/src/reactor.rs] on a
    nonblocking Unix stream, and the exchanges on both ends of it.  A frame
    that one end writes whole is the frame the other end reads, however the
    kernel cuts it up. *)

From S2P Require Import Prelude Ids Digest Judgment Context Qualification CustodyTypes Escalation.
From S2P Require Import Certificate Event Policy Receiver EvaluatorState RuntimeState RuntimeArtifacts.
From S2P Require Import Journal LiveSupport Reactor ReactorActor.

(* ------------------------------------------------------------------ *)
(** ** Streams *)

(** What the kernel makes of one [read] or [write]: it transfers up to [n]
    bytes, is interrupted, has nothing to transfer yet (and the deadline has
    passed or not), or fails. *)
Inductive IoOutcome :=
| Transfers (n : nat)
| Interrupted
| WouldBlock (past_deadline : bool)
| IoFailed (error : string).

Record Stream := mkStream {
  sm_incoming : string;
  sm_outgoing : string;
  sm_outcomes : list IoOutcome;
}.

Definition live_timeout : ReactorCommandError :=
  mkReactorError RcResponseTimeout "live-query local stream exceeded its bounded exchange time".
Definition transport_failure (detail : string) : ReactorCommandError :=
  mkReactorError RcTransportFailure detail.

(** The loop of [read_live_support_exact]; a stream with no outcome left is
    closed by its peer. *)
Fixpoint read_loop (part : string) (outcomes : list IoOutcome) (want : nat) (read incoming : string)
  : list IoOutcome * string * result ReactorCommandError string :=
  match want with
  | O => (outcomes, incoming, Ok read)
  | S _ =>
      let ended := Err (transport_failure ("live-query " +:+ part
                                           +:+ " ended before its declared length")) in
      match outcomes with
      | [] => ([], incoming, ended)
      | Transfers n :: rest =>
          match str_take (Nat.min n (Nat.min want (String.length incoming))) incoming with
          | Some (String c s, incoming) =>
              read_loop part rest (want - String.length (String c s)) (read +:+ String c s) incoming
          | _ => (rest, incoming, ended)
          end
      | Interrupted :: rest => read_loop part rest want read incoming
      | WouldBlock false :: rest => read_loop part rest want read incoming
      | WouldBlock true :: rest => (rest, incoming, Err live_timeout)
      | IoFailed error :: rest =>
          (rest, incoming, Err (transport_failure ("read live-query " +:+ part +:+ ": " +:+ error)))
      end
  end.
(** [read_live_support_exact]. *)
Definition read_live_support_exact (part : string) (want : nat) (s : Stream)
  : Stream * result ReactorCommandError string :=
  let '(outcomes, incoming, res) := read_loop part (sm_outcomes s) want "" (sm_incoming s) in
  (mkStream incoming (sm_outgoing s) outcomes, res).

(** The loop of [write_live_support_all]. *)
Fixpoint write_loop (part : string) (outcomes : list IoOutcome) (bytes outgoing : string)
  : list IoOutcome * string * result ReactorCommandError unit :=
  match bytes with
  | "" => (outcomes, outgoing, Ok tt)
  | _ =>
      let refused := Err (transport_failure ("live-query " +:+ part +:+ " accepted zero bytes")) in
      match outcomes with
      | [] => ([], outgoing, refused)
      | Transfers n :: rest =>
          match str_take (Nat.min n (String.length bytes)) bytes with
          | Some (String c s, bytes) => write_loop part rest bytes (outgoing +:+ String c s)
          | _ => (rest, outgoing, refused)
          end
      | Interrupted :: rest => write_loop part rest bytes outgoing
      | WouldBlock false :: rest => write_loop part rest bytes outgoing
      | WouldBlock true :: rest => (rest, outgoing, Err live_timeout)
      | IoFailed error :: rest =>
          (rest, outgoing, Err (transport_failure ("write live-query " +:+ part +:+ ": " +:+ error)))
      end
  end.
(** [write_live_support_all]. *)
Definition write_live_support_all (part bytes : string) (s : Stream)
  : Stream * result ReactorCommandError unit :=
  let '(outcomes, outgoing, res) := write_loop part (sm_outcomes s) bytes (sm_outgoing s) in
  (mkStream (sm_incoming s) outgoing outcomes, res).

(* ------------------------------------------------------------------ *)
(** ** Frames *)

(** [read_live_support_frame]. *)
Definition read_live_support_frame (maximum_bytes : Z) (s : Stream)
  : Stream * result ReactorCommandError string :=
  match read_live_support_exact "frame length" 4 s with
  | (s, Err e) => (s, Err e)
  | (s, Ok header) =>
      let length := be_value header in
      if (length =? 0) || (maximum_bytes <? length) then
        (s, Err (mkReactorError RcInvalidRequest
                   "live-query frame length is zero or exceeds its bound"))
      else read_live_support_exact "frame body" (Z.to_nat length) s
  end.

(** [write_live_support_frame]. *)
Definition write_live_support_frame (bytes : string) (maximum_bytes : Z) (s : Stream)
  : Stream * result ReactorCommandError unit :=
  if (slen bytes =? 0) || (maximum_bytes <? slen bytes) then
    (s, Err (mkReactorError RcInvalidRequest "live-query frame is empty or exceeds its bound"))
  else if u32_max <? slen bytes then
    (s, Err (mkReactorError RcInvalidRequest "live-query frame length exceeds u32"))
  else
    match write_live_support_all "frame length" (be_bytes 4 (slen bytes)) s with
    | (s, Err e) => (s, Err e)
    | (s, Ok _) => write_live_support_all "frame body" bytes s
    end.

(** [with_nonblocking_stream]: the timeout, whether it is in the range of
    [Instant], and the errors of switching the mode on and off. *)
Definition with_nonblocking_stream {A} (timeout_ns : Z) (in_range : bool)
    (enable_error restore_error : option string)
    (operation : Stream → Stream * result ReactorCommandError A) (s : Stream)
  : Stream * result ReactorCommandError A :=
  if timeout_ns =? 0 then
    (s, Err (mkReactorError RcInvalidConfig "live present-support stream timeout must be nonzero"))
  else if negb in_range then
    (s, Err (mkReactorError RcInvalidConfig "live present-support stream timeout exceeds Instant range"))
  else
    match enable_error with
    | Some error => (s, Err (transport_failure ("enable nonblocking live-query stream: " +:+ error)))
    | None =>
        match operation s, restore_error with
        | (s, Err e), _ => (s, Err e)
        | (s, Ok _), Some error =>
            (s, Err (transport_failure ("restore blocking live-query stream: " +:+ error)))
        | (s, Ok a), None => (s, Ok a)
        end
    end.

Section exchanges.
Context `{Sha256} `{LiveSupportJson}.

(** The operation of [serve_live_present_support_stream]; [query] is the
    exchange with the actor. *)
Definition serve_live_present_support
    (query : LivePresentSupportRequestV1 → result ReactorCommandError LivePresentSupportResponseV1)
    (s : Stream) : Stream * result ReactorCommandError unit :=
  match read_live_support_frame MAX_LIVE_PRESENT_SUPPORT_REQUEST_BYTES s with
  | (s, Err e) => (s, Err e)
  | (s, Ok request) =>
      match query_live_present_support_canonical query request with
      | Err e => (s, Err e)
      | Ok response =>
          write_live_support_frame response MAX_LIVE_PRESENT_SUPPORT_RESPONSE_BYTES s
      end
  end.

(** The operation of [query_live_present_support_stream] and what surrounds
    it: the checks of the request and of the response. *)
Definition exchange_live_present_support (request_bytes : string) (s : Stream)
  : Stream * result ReactorCommandError string :=
  match write_live_support_frame request_bytes MAX_LIVE_PRESENT_SUPPORT_REQUEST_BYTES s with
  | (s, Err e) => (s, Err e)
  | (s, Ok _) => read_live_support_frame MAX_LIVE_PRESENT_SUPPORT_RESPONSE_BYTES s
  end.
Definition query_request_bytes (request : LivePresentSupportRequestV1)
  : result ReactorCommandError string :=
  check_live_request request;;
  map_err (mkReactorError RcInvalidRequest) (live_request_canonical_bytes request).
Definition query_accept_response (request : LivePresentSupportRequestV1) (response_bytes : string)
  : result ReactorCommandError LivePresentSupportResponseV1 :=
  response ← map_err transport_failure (live_response_decode_canonical response_bytes);
  map_err (fun error => transport_failure (runtime_type_error_display error))
    (live_response_validate_against response request);;
  Ok response.
End exchanges.

(* ------------------------------------------------------------------ *)
(** ** What a frame carries *)

(** Errors that a cut, slow or failing stream gives, and nothing else. *)
Definition stream_error (e : ReactorCommandError) : Prop :=
  rce_class e = RcTransportFailure ∨ rce_class e = RcResponseTimeout.

Lemma read_loop_spec part outcomes want read incoming :
  match read_loop part outcomes want read incoming with
  | (_, rest, Ok all) => ∃ s, all = read +:+ s ∧ String.length s = want ∧ incoming = s +:+ rest
  | (_, _, Err e) => stream_error e
  end.
Proof.
  revert want read incoming. induction outcomes as [|o outcomes IH]; intros [|want] read incoming; cbn [read_loop].
  - exists "". by rewrite str_app_nil_r.
  - by left.
  - exists "". by rewrite str_app_nil_r.
  - destruct o as [n| |[]|error]; [|apply IH|by right|apply IH|by left].
    destruct (str_take _ incoming) as [[[|c s] incoming']|] eqn:Ht; [by left| |by left].
    apply str_take_Some in Ht as [-> Hlen].
    assert (Hle : (String.length (String c s) ≤ S want)%nat) by lia. specialize (IH (S want - String.length (String c s))%nat
      (read +:+ String c s) incoming').
    destruct (read_loop _ _ _ _ _) as [[o' rest] [all|e]]; [|done].
    destruct IH as (s'&->&Hs'&->). exists (String c s +:+ s').
    rewrite !str_app_assoc. split; [done|]. split; [|done]. rewrite str_length_app. cbn in *. lia.
Qed.
Lemma write_loop_spec part outcomes bytes outgoing o' outgoing' :
  write_loop part outcomes bytes outgoing = (o', outgoing', Ok tt) → outgoing' = outgoing +:+ bytes.
Proof.
  revert bytes outgoing. induction outcomes as [|o outcomes IH]; intros [|c0 bytes] outgoing; cbn;
    try (by intros [= _ <-]; rewrite str_app_nil_r); try done.
  destruct o as [n| |[]|error]; try done; try apply IH.
  destruct (Nat.min n _) as [|k]; cbn; [done|].
  destruct (str_take k bytes) as [[s bytes']|] eqn:Ht; cbn; [|done].
  apply str_take_Some in Ht as [-> _]. intros ->%IH. by rewrite str_app_assoc.
Qed.

(** Frames survive the stream.  What a completed write puts on the stream is a
    length and the bytes; whoever reads a stream that starts with it, in
    whatever portions, gets exactly those bytes and leaves what follows, or
    stops with a transport error or a timeout. *)
Theorem live_frame_roundtrip bytes maximum s s' t rest :
  write_live_support_frame bytes maximum s = (s', Ok tt) →
  ∃ frame, sm_outgoing s' = sm_outgoing s +:+ frame
    ∧ slen frame = 4 + slen bytes
    ∧ (sm_incoming t = frame +:+ rest →
       match read_live_support_frame maximum t with
       | (t', Ok read) => read = bytes ∧ sm_incoming t' = rest ∧ sm_outgoing t' = sm_outgoing t
       | (_, Err e) => stream_error e
       end).
Proof.
  unfold write_live_support_frame. destruct ((slen bytes =? 0) || _) eqn:Hb; [done|].
  destruct (Z.ltb_spec u32_max (slen bytes)); [done|]. unfold write_live_support_all.
  destruct (write_loop "frame length" _ _ _) as [[o1 out1] [[]|e]] eqn:H1; [|done]. cbn.
  destruct (write_loop "frame body" _ _ _) as [[o2 out2] [[]|e]] eqn:H2; [|done]. intros [= <-]. cbn.
  apply write_loop_spec in H1 as ->. apply write_loop_spec in H2 as ->.
  exists (be_bytes 4 (slen bytes) +:+ bytes). rewrite !str_app_assoc. split; [done|].
  split; [unfold slen; rewrite str_length_app, be_bytes_length; lia|]. intros Hin.
  unfold read_live_support_frame, read_live_support_exact.
  pose proof (read_loop_spec "frame length" (sm_outcomes t) 4 "" (sm_incoming t)) as Hr.
  destruct (read_loop "frame length" _ _ _ _) as [[o3 in3] [header|e]]; [|done].
  destruct Hr as (x&->&Hx&Hin3). rewrite Hin in Hin3.
  apply str_app_inj_len in Hin3 as [<- <-]; [|by rewrite be_bytes_length]. cbn [sm_incoming sm_outcomes].
  rewrite str_app_nil_l, be_roundtrip by (pose proof (slen_nonneg bytes); unfold u32_max in *; cbn; lia).
  rewrite Hb.
  pose proof (read_loop_spec "frame body" o3 (Z.to_nat (slen bytes)) "" (bytes +:+ rest)) as Hr.
  destruct (read_loop "frame body" _ _ _ _) as [[o4 in4] [all|e]]; [|done].
  destruct Hr as (y&->&Hy&Hin4). unfold slen in Hy. rewrite Nat2Z.id in Hy.
  apply str_app_inj_len in Hin4 as [<- <-]; [|done]. done.
Qed.

(** A frame of five bytes, written and read in portions. *)
Definition sample_writer : Stream :=
  mkStream "" "" [Transfers 3; Interrupted; Transfers 9; WouldBlock false; Transfers 2; Transfers 9].
Definition sample_reader (incoming : string) : Stream :=
  mkStream incoming "" [Transfers 1; WouldBlock false; Transfers 3; Interrupted; Transfers 4; Transfers 9].
Definition frame_written : Stream := (write_live_support_frame "query" 16384 sample_writer).1.
Lemma sample_write : write_live_support_frame "query" 16384 sample_writer = (frame_written, Ok tt).
Proof. vm_compute. reflexivity. Qed.
Example sample_read :
  (read_live_support_frame 16384 (sample_reader (sm_outgoing frame_written +:+ "next"))).2 = Ok "query".
Proof. vm_compute. reflexivity. Qed.
Lemma live_frame_roundtrip_witness :
  ∃ frame, sm_outgoing frame_written = "" +:+ frame ∧ slen frame = 4 + slen "query".
Proof.
  destruct (live_frame_roundtrip "query" 16384 sample_writer frame_written
              (sample_reader "") "next" sample_write) as (frame&Ho&Hl&_).
  exists frame. split; [exact Ho|exact Hl].
Defined.
