(* ===== verification/ReactorSamples.v ===== *)
(** * Runs of a reactor

    A reactor over the sample runtime that is started, woken, raced and
    stopped.  The theorems on the reactor are applied to these runs. *)

From S2P Require Import Prelude Ids Digest Pulse Samples Judgment Context Qualification Package.
From S2P Require Import Activation CustodyTypes Escalation Certificate Event Policy Receiver.
From S2P Require Import EvaluatorState EvalSamples RuntimeState RuntimeArtifacts Runtime RuntimeOps.
From S2P Require Import RuntimeHistory RuntimeSafety RuntimeStanding PackageSamples RuntimeSamples RuntimeProps.
From S2P Require Import Journal JournalProps JournalCrash LiveSupport LiveSupportProps Reactor ReactorActor.
From S2P Require Import ReactorMachine ReactorLogic ReactorSink ReactorInvariant ReactorProps ReactorLive.

(** A file system on which nothing fails, and short texts. *)
#[local] Instance calm_file_system : FileSystem :=
  {| fs_error _ := None; fs_written _ := 0%nat; fs_elapsed_us _ := 5 |}.
#[local] Instance terse_contradiction_json : ContradictionJson :=
  {| contradiction_json c := Ok (cr_contradiction_id (cu_contradiction c)) |}.
#[local] Instance plain_debug : DebugText := {| str_debug s := s |}.

Lemma unwrapped {E A} (d : A) (r : result E A) : is_ok r = true → r = Ok (unwrap_or d r).
Proof. by destruct r. Qed.
Lemma defaulted {A} (d : A) (o : option A) : has_value o = true → o = Some (default d o).
Proof. by destruct o. Qed.

(** A reactor for any hash and record codec. *)
Section runs.
Context `{Sha256} `{JournalJson}.

Definition reactor_epoch (origin : Z) : MonotonicEpochV1 :=
  mkEpoch SCHEMA_VERSION_V1 "epoch:1" "receiver:a" "receiver-process:1" "clock:1" origin
    "std::time::Instant/process-local".
Definition reactor_path : string := "/var/lib/monitor/history.pcj".
Definition reactor_journal_config : JournalConfigV1 :=
  mkJournalConfig SCHEMA_VERSION_V1 "journal:a" (mkJournalBounds 64 4096 65536).
Definition spare_journal : HistoricalJournal :=
  mkJournal reactor_path reactor_journal_config None 1 genesis_digest 0 [] ∅ true.
Definition fresh_journal : World * HistoricalJournal :=
  match create_new reactor_path reactor_journal_config (mkWorld 0 ∅) with
  | (w, Ok j) => (w, j)
  | (w, Err _) => (w, spare_journal)
  end.
Definition spare_machine : Machine :=
  mkMachine reactor_qualification (reactor_epoch 0) (mkClock 0) 0 false 0
    (mkShared [] [] false false false false false
       (snapshot_unavailable (reactor_epoch 0) 0 Starting "" runtime_metrics_empty
          reactor_metrics_empty false))
    (mkActor blank_runtime
       (mkSinkState fresh_journal.1 (mkSink fresh_journal.2 (reactor_epoch 0) Written ∅ ∅ ∅)
          reactor_metrics_empty) None) PhaseStopped [] [].
Definition started (r : Runtime) : result ReactorCommandError Machine :=
  reactor_start r fresh_journal.2 (reactor_epoch (rs_current_monotonic_ms r)) reactor_qualification
    None 0 fresh_journal.1.
Definition start_machine (r : Runtime) : Machine := unwrap_or spare_machine (started r).
Definition machine_after (r : Runtime) (actions : list Action) : Machine :=
  default spare_machine (run_actions (start_machine r) actions).

Lemma run_reachable s0 m actions m' :
  reactor_reachable s0 m → run_actions m actions = Some m' → reactor_reachable s0 m'.
Proof.
  revert m. induction actions as [|a rest IH]; cbn; intros m Hm Hr; [by injection Hr as <-|].
  destruct (step m a) as [m1|] eqn:Hs; [|done]. by eapply IH; [eapply reactor_stepped|].
Qed.
Lemma after_reachable r actions :
  runtime_reachable r → is_ok (started r) = true →
  has_value (run_actions (start_machine r) actions) = true →
  reactor_reachable fresh_journal (machine_after r actions).
Proof.
  intros Hr Hs Ha. eapply run_reachable; [|by apply defaulted].
  eapply (reactor_started _ r _ reactor_qualification 0); [exact Hr|lia|by cbn; lia|by apply unwrapped].
Qed.
End runs.

(** A codec that writes only sequence numbers. *)
#[local] Instance terse_journal_json : JournalJson :=
  {| record_json r := "#" +:+ dec (jr_record_sequence r); record_parse _ := Err "unreadable" |}.

Definition opening_actions : list Action := [ActorBegin; ActorPublish; ActorAnswer].
(** A declaration of blindness is taken but not yet processed. *)
Definition woken_actions : list Action :=
  opening_actions ++ [Advance 2500000; SubmitBlindness 0 "operator"; ActorWakes false].
Definition woken_machine : Machine := machine_after new_runtime woken_actions.
Definition wake_of (m : Machine) : ActorWake :=
  match mc_phase m with
  | PhaseProcess wake => wake
  | _ => mkWake [] [] false false false false false
  end.
Definition woken : ActorWake := wake_of woken_machine.

Lemma new_runtime_reachable : runtime_reachable new_runtime.
Proof. exact (opening_reachable 0). Qed.
Lemma new_runtime_starts : is_ok (started new_runtime) = true.
Proof. vm_compute. reflexivity. Qed.
Lemma woken_reachable : reactor_reachable fresh_journal woken_machine.
Proof. apply (after_reachable _ _ new_runtime_reachable new_runtime_starts). vm_compute. reflexivity. Qed.
Lemma woken_phase : mc_phase woken_machine = PhaseProcess woken ∧ flagged woken = true.
Proof. vm_compute. split; reflexivity. Qed.

Lemma reactor_invariant_witness :
  honest (sh_snapshot (mc_shared woken_machine))
  ∧ sn_condition (sh_snapshot (mc_shared woken_machine)) = Operational.
Proof.
  split; [exact (proj1 (reactor_invariant fresh_journal woken_machine woken_reachable))|].
  vm_compute. reflexivity.
Defined.

(** The declaration is processed and published. *)
Definition latched_run : list Action := ActorProcess :: [Advance 1] ++ ActorPublish :: [ActorAnswer].
Definition latched_machine : Machine := default spare_machine (run_actions woken_machine latched_run).
Lemma latched_runs : run_actions woken_machine latched_run = Some latched_machine.
Proof. apply defaulted. vm_compute. reflexivity. Qed.
Lemma between_publications : Forall (λ a, a ≠ ActorPublish) [Advance 1].
Proof. by repeat constructor. Qed.
Lemma custody_failure_latched_witness :
  sn_certificates (sh_snapshot (mc_shared latched_machine)) = [].
Proof.
  exact (proj2 (custody_failure_latched fresh_journal woken_machine woken [Advance 1] [ActorAnswer]
                  latched_machine woken_reachable (proj1 woken_phase) (proj2 woken_phase)
                  between_publications latched_runs)).
Defined.

Definition stopping_actions : list Action :=
  opening_actions ++ [Shutdown; ActorWakes false; ActorProcess; ActorTerminate].
Definition stopped_machine : Machine := machine_after new_runtime stopping_actions.
Lemma stopped_reachable : reactor_reachable fresh_journal stopped_machine.
Proof. apply (after_reachable _ _ new_runtime_reachable new_runtime_starts). vm_compute. reflexivity. Qed.
Lemma stopped_phase :
  mc_phase stopped_machine = PhaseStopped
  ∧ sn_clean_shutdown (sh_snapshot (mc_shared stopped_machine)) = true.
Proof. vm_compute. split; reflexivity. Qed.
Definition later_machine : Machine := set_mc_elapsed_ns stopped_machine (mc_elapsed_ns stopped_machine + 1).
Lemma stopped_reactor_is_final_witness : mc_phase later_machine = PhaseStopped.
Proof.
  exact (proj1 (stopped_reactor_is_final fresh_journal stopped_machine [Advance 1] later_machine
                  stopped_reachable (proj1 stopped_phase) eq_refl)).
Defined.

(** A snapshot is made but not yet published. *)
Definition ready_machine : Machine := machine_after new_runtime [ActorBegin].
Definition ready_snapshot : ReactorSnapshotV1 :=
  snapshot_from_runtime new_runtime (reactor_epoch 0) 0 Operational
    "reactor owns the earliest active deadline" reactor_metrics_empty.
Lemma ready_phase :
  mc_owned ready_machine = true ∧ mc_phase ready_machine = PhasePublish ready_snapshot [] [] Operational.
Proof. vm_compute. split; reflexivity. Qed.
Lemma withdrawal_overwritten_witness :
  ∃ m1 m2, run_actions ready_machine [ResponseTimeout] = Some m1
    ∧ run_actions m1 [ActorPublish] = Some m2
    ∧ sn_condition (sh_snapshot (mc_shared m1)) = WakeupFailure
    ∧ sn_condition (sh_snapshot (mc_shared m2)) = Operational.
Proof.
  destruct (withdrawal_overwritten ready_machine ready_snapshot [] [] (proj1 ready_phase)
              (proj2 ready_phase)) as (m1&m2&H1&Hc&_&H2&Hs&_).
  exists m1, m2. split; [exact H1|]. split; [exact H2|]. split; [exact Hc|]. rewrite Hs. reflexivity.
Defined.

Definition publication (m : Machine)
  : ReactorSnapshotV1 * list Reply * list LiveSupportQueryCommand * ReactorConditionV1 :=
  match mc_phase m with
  | PhasePublish snapshot results queries condition => (snapshot, results, queries, condition)
  | _ => (ready_snapshot, [], [], Starting)
  end.
Definition publishes (m : Machine) : bool :=
  match mc_phase m with PhasePublish _ _ _ _ => true | _ => false end.
Lemma publication_phase m :
  publishes m = true →
  mc_phase m = PhasePublish (publication m).1.1.1 (publication m).1.1.2 (publication m).1.2
                 (publication m).2.
Proof. unfold publishes, publication. by destruct (mc_phase m). Qed.

Definition raced_input : RuntimeInputV1 := Reevaluate "host:a" "consumer:display".

(* ------------------------------------------------------------------ *)
(** ** Queries *)

Definition sample_request (c : RelianceSupportCertificateV1) (generation : DigestV1)
  : LivePresentSupportRequestV1 :=
  {| lq_schema := LIVE_PRESENT_SUPPORT_REQUEST_SCHEMA_V1;
     lq_request_nonce := "nonce:1";
     lq_consumer := sc_consumer c;
     lq_subject_scope := sc_subject_scope c;
     lq_reliance_context := sc_context c;
     lq_reliance_context_digest := context_identity_digest (sc_context c);
     lq_support_certificate_id := sc_certificate_id c;
     lq_evidence_window_id := sc_evidence_window_id c;
     lq_qualified_generation_digest := generation;
     lq_receiver := "receiver:a";
     lq_receiver_incarnation := "receiver-process:1";
     lq_receiver_epoch_id := "epoch:1";
     lq_receiver_clock_id := "clock:1" |}.
Definition idle_request : LivePresentSupportRequestV1 :=
  {| lq_schema := LIVE_PRESENT_SUPPORT_REQUEST_SCHEMA_V1;
     lq_request_nonce := "nonce:1";
     lq_consumer := "consumer:display";
     lq_subject_scope := mkSubjectScope "host:a" "boot:1" "host";
     lq_reliance_context := rg_context sample_registration;
     lq_reliance_context_digest := context_identity_digest (rg_context sample_registration);
     lq_support_certificate_id := "support:1";
     lq_evidence_window_id := "window:1";
     lq_qualified_generation_digest := digest_parts "sample" ["generation"];
     lq_receiver := "receiver:a";
     lq_receiver_incarnation := "receiver-process:1";
     lq_receiver_epoch_id := "epoch:1";
     lq_receiver_clock_id := "clock:1" |}.

(** Two answers of the same reactor. *)
Definition idle_answer : LivePresentSupportResponseV1 :=
  live_present_support_response new_runtime (reactor_epoch 0) Operational idle_request 7.
Lemma idle_answer_valid :
  live_response_validate idle_answer = Ok tt ∧ live_response_u64 idle_answer = true.
Proof. vm_compute. split; reflexivity. Qed.
Lemma live_response_digest_binds_witness :
  sha256 (live_response_transcript idle_answer) = sha256 (live_response_transcript idle_answer).
Proof.
  exact (proj1 (live_response_digest_binds idle_answer idle_answer (proj1 idle_answer_valid)
                  (proj1 idle_answer_valid) (proj2 idle_answer_valid) (proj2 idle_answer_valid)
                  eq_refl)).
Defined.

(** A consumer with a CURRENT certificate that expires at 510. *)
Definition held_binding : QualifiedGenerationBindingV1 :=
  mkBinding SCHEMA_VERSION_V1 "manifest" "certificate" "receipt" "occurrence" "epoch:1"
    (generation_set_from_context "host:a" "consumer:display" (rg_context sample_registration)) grants_none.
Definition held_certificate : RelianceSupportCertificateV1 :=
  {| sc_schema_version := SCHEMA_VERSION_V1;
     sc_certificate_id := "support:1";
     sc_consumer := "consumer:display";
     sc_subject_scope := mkSubjectScope "host:a" "boot:1" "host";
     sc_context := rg_context sample_registration;
     sc_qualified_generation := Some held_binding;
     sc_evaluated_at_monotonic_ms := 10;
     sc_receiver_clock_id := "clock:1";
     sc_judgment := CatCurrent;
     sc_evidence_window_id := "window:1";
     sc_supporting_evidence_ids := ["evidence:1"];
     sc_remote_observation_custody := [];
     sc_missing_premises := [];
     sc_applicable_contradictions := [];
     sc_coverage := mkCoverageSummary ["load"] ["load"] [] [] 1 1 [];
     sc_earliest_support_expiry_monotonic_ms := Some 510;
     sc_next_scheduled_reevaluation_monotonic_ms := Some 510;
     sc_escalation := NotRequested;
     sc_mutation_authority := MutationNone |}.
Definition held_runtime : Runtime :=
  set_rs_consumers blank_runtime
    {[mkKey "host:a" "consumer:display" :=
        mkConsumer blank_evaluator (rg_context sample_registration) ∅ (Some held_certificate)]}.
Definition held_request : LivePresentSupportRequestV1 :=
  sample_request held_certificate (binding_identity_digest held_binding).

(** Sent at 98 ms, measured at 100.9 ms, used at 110.5 ms: 396 ms are left. *)
Lemma held_lifetime :
  conservative_remaining_lifetime_ms
    (live_present_support_response held_runtime (reactor_epoch 0) Operational held_request
       (now_ms (mkClock 0) 100900000)) (elapsed_since_send_ms (110500000 - 98000000)) = Some 396.
Proof. vm_compute. reflexivity. Qed.
Lemma supported_lifetime_conservative_witness :
  ∃ c expiry, current_certificate held_runtime "host:a" "consumer:display" = Some c
    ∧ sc_earliest_support_expiry_monotonic_ms c = Some expiry
    ∧ (expiry <= u64_max → now_ms (mkClock 0) (110500000 + 396 * 1000000) < expiry).
Proof.
  destruct (supported_lifetime_conservative (mkClock 0) held_runtime (reactor_epoch 0) Operational
              held_request 98000000 100900000 110500000 396 (110500000 + 396 * 1000000)
              ltac:(cbn; lia) ltac:(lia) ltac:(lia) held_lifetime ltac:(lia))
    as (c&expiry&Hc&_&He&Hn).
  exists c, expiry. split; [exact Hc|]. split; [exact He|exact Hn].
Defined.

(* ------------------------------------------------------------------ *)
(** ** A reactor with standing *)

(** The runtime of [RuntimeSamples] that is CURRENT, after one more wakeup. *)
Definition standing_machine : Machine :=
  machine_after current_runtime
    (opening_actions ++ [Advance 3000000; SubmitInput 13 raced_input; ActorWakes false]).
Definition standing_processed : Machine := default spare_machine (step standing_machine ActorProcess).
Lemma standing_facts :
  is_ok (started current_runtime) = true
  ∧ has_value (run_actions (start_machine current_runtime)
      (opening_actions ++ [Advance 3000000; SubmitInput 13 raced_input; ActorWakes false])) = true
  ∧ has_value (step standing_machine ActorProcess) = true
  ∧ publishes standing_processed = true
  ∧ (sc_judgment <$> sn_certificates (publication standing_processed).1.1.1) = [CatCurrent].
Proof. vm_compute. split_and!; reflexivity. Qed.
Lemma standing_reachable : reactor_reachable fresh_journal standing_machine.
Proof.
  exact (after_reachable current_runtime _ (opening_reachable 4) (proj1 standing_facts)
           (proj1 (proj2 standing_facts))).
Qed.
Lemma only_certificate (certificates : list RelianceSupportCertificateV1) category :
  sc_judgment <$> certificates = [category] →
  ∃ c, c ∈ certificates ∧ sc_judgment c = category.
Proof. destruct certificates as [|c [|]]; try done. intros [= <-]. exists c. by split; [left|]. Qed.
Lemma published_standing_is_fresh_witness :
  ∃ c deadline, c ∈ sn_certificates (publication standing_processed).1.1.1
    ∧ sc_earliest_support_expiry_monotonic_ms c = Some deadline
    ∧ machine_now standing_machine < deadline.
Proof.
  destruct standing_facts as (_&_&Hs&Hp&Hj).
  destruct (only_certificate _ _ Hj) as (c&Hin&Hc).
  destruct (published_standing_is_fresh fresh_journal standing_machine standing_processed
              (publication standing_processed).1.1.1 (publication standing_processed).1.1.2
              (publication standing_processed).1.2 (publication standing_processed).2 c
              standing_reachable (defaulted spare_machine _ Hs)
              (publication_phase standing_processed Hp) Hin Hc) as (_&_&deadline&Hd&Hlt).
  exists c, deadline. split; [exact Hin|]. split; [exact Hd|exact Hlt].
Defined.

(** The certificate the reactor holds is asked about by its exact names. *)
Definition standing_certificate : RelianceSupportCertificateV1 :=
  default held_certificate (current_certificate current_runtime "host:a" "consumer:display").
Definition standing_request : LivePresentSupportRequestV1 :=
  sample_request standing_certificate
    (from_option binding_identity_digest "" (sc_qualified_generation standing_certificate)).
Definition asking_actions : list Action :=
  opening_actions
  ++ [Advance 3000000; SubmitQuery standing_request; ActorWakes false; ActorProcess; ActorPublish].
Definition asked_machine : Machine := machine_after current_runtime asking_actions.
Definition answers_supported (m : Machine) : bool :=
  match step m ActorAnswer with
  | Some m' => match mc_answers m' with
               | [(_, Ok response)] => bool_decide (lr_disposition response = SupportedCurrent)
               | _ => false
               end
  | None => false
  end.
Lemma asked_facts :
  has_value (run_actions (start_machine current_runtime) asking_actions) = true
  ∧ mc_answers asked_machine = [] ∧ answers_supported asked_machine = true.
Proof. vm_compute. split_and!; reflexivity. Qed.
Lemma asked_reachable : reactor_reachable fresh_journal asked_machine.
Proof.
  exact (after_reachable current_runtime _ (opening_reachable 4) (proj1 standing_facts) (proj1 asked_facts)).
Qed.
Lemma asked_phase : mc_phase asked_machine = PhaseAnswer [mkQuery standing_request 0] Operational.
Proof. vm_compute. reflexivity. Qed.
Lemma live_answer_sound_witness :
  ∃ response c expiry,
    lr_disposition response = SupportedCurrent
    ∧ live_response_validate_against response standing_request = Ok tt
    ∧ names_certificate standing_request c ∧ sc_judgment c = CatCurrent
    ∧ lr_remaining_lifetime_ms_at_response response = Some (expiry - machine_now asked_machine - 1).
Proof.
  destruct (live_answer_sound fresh_journal asked_machine (mkQuery standing_request 0) [] Operational
              asked_reachable asked_phase) as (m'&response&Hs&Ha&_&Hsup).
  destruct asked_facts as (_&Hnone&Hyes). unfold answers_supported in Hyes. rewrite Hs, Ha, Hnone in Hyes.
  apply bool_decide_eq_true in Hyes.
  destruct (Hsup Hyes) as (_&_&Hv&c&expiry&_&_&Hj&Hn&_&_&Hr).
  exists response, c, expiry. split; [exact Hyes|]. split; [exact Hv|]. split; [exact Hn|].
  split; [exact Hj|exact Hr].
Defined.

(** A command that arrives while another is about to be processed. *)
Definition raced_actions : list Action :=
  [SubmitInput (machine_now standing_machine) raced_input; Advance 1000000].
Definition raced_machine : Machine := default spare_machine (run_actions standing_machine raced_actions).
Definition raced_processed : Machine := default spare_machine (step raced_machine ActorProcess).
Definition raced_queries : list LiveSupportQueryCommand := (publication raced_processed).1.2.
Definition raced_after : Machine :=
  default spare_machine (run_actions raced_processed (next_iteration raced_queries false)).
Definition standing_wake : ActorWake := wake_of standing_machine.
Lemma raced_facts :
  mc_phase standing_machine = PhaseProcess standing_wake
  ∧ mc_owned standing_machine = true ∧ sh_accepting_commands (mc_shared standing_machine) = true
  ∧ (Z.of_nat (length (sh_queue (mc_shared standing_machine)))
     <? rc_maximum_pending_commands (mc_config standing_machine)) = true
  ∧ has_value (run_actions standing_machine raced_actions) = true
  ∧ (machine_now standing_machine <? machine_now raced_machine) = true
  ∧ has_value (step raced_machine ActorProcess) = true
  ∧ publishes raced_processed = true
  ∧ has_value (run_actions raced_processed (next_iteration raced_queries false)) = true
  ∧ publishes raced_after = true.
Proof. vm_compute. split_and!; reflexivity. Qed.
