(* ===== verification/ReactorJournalSamples.v ===== *)
(** * A reactor that reports a success

    A declaration of blindness is submitted, processed, journaled and
    acknowledged.  The records it commits are read back by the codec. *)

From S2P Require Import Prelude Ids Digest Pulse Samples Judgment Context Qualification Package.
From S2P Require Import Activation CustodyTypes Escalation Certificate Event Policy Receiver.
From S2P Require Import EvaluatorState EvalSamples RuntimeState RuntimeArtifacts Runtime RuntimeOps.
From S2P Require Import RuntimeHistory RuntimeSafety RuntimeStanding PackageSamples RuntimeSamples RuntimeProps.
From S2P Require Import Journal JournalProps JournalCrash JournalSamples LiveSupport Reactor ReactorActor.
From S2P Require Import ReactorMachine ReactorLogic ReactorSink ReactorInvariant ReactorLive ReactorSamples.

#[local] Existing Instance marked_sha256.
#[local] Existing Instance calm_file_system.
#[local] Existing Instance terse_contradiction_json.
#[local] Existing Instance plain_debug.

Definition marked_runtime : Runtime := unwrap_or blank_runtime (runtime_new sample_config).
Definition reporting_actions : list Action :=
  woken_actions ++ [ActorProcess; ActorPublish].

Definition committed (m : Machine) : list HistoricalJournalRecordV1 :=
  jn_committed_records (sk_journal (st_sink (ac_sink (mc_actor m)))).
(** The records that a run commits, and a codec that reads them back. *)
Definition reported_records : list HistoricalJournalRecordV1 :=
  committed (@machine_after marked_sha256 terse_journal_json marked_runtime reporting_actions).
Definition record_text (r : HistoricalJournalRecordV1) : string := "#" +:+ dec (jr_record_sequence r).
Definition reading_journal_json : JournalJson :=
  {| record_json := record_text;
     record_parse s :=
       match filter (fun r => record_text r = s) reported_records with
       | r :: _ => Ok r
       | [] => Err "unreadable"
       end |}.
#[local] Existing Instance reading_journal_json.

Definition reporting_machine : Machine := machine_after marked_runtime reporting_actions.
Definition reported (m : Machine) : option (nat * RuntimeCycleOutputV1 * SparseDurableEventV1) :=
  match mc_replies m with
  | (channel, Ok output) :: _ =>
      match cy_sparse_events output with event :: _ => Some (channel, output, event) | [] => None end
  | _ => None
  end.
Lemma reported_reply m channel output event :
  reported m = Some (channel, output, event) →
  (channel, Ok output) ∈ mc_replies m ∧ event ∈ cy_sparse_events output.
Proof.
  unfold reported. destruct (mc_replies m) as [|[k [out|e]] rest]; try done.
  destruct (cy_sparse_events out) eqn:He; [done|]. intros [= <- <- <-]. rewrite He. by split; left.
Qed.

Lemma marked_reachable : runtime_reachable marked_runtime.
Proof.
  apply (reachable_new sample_config). vm_compute. reflexivity.
Qed.
Lemma reporting_facts :
  is_ok (started marked_runtime) = true
  ∧ has_value (run_actions (start_machine marked_runtime) reporting_actions) = true
  ∧ has_value (reported reporting_machine) = true
  ∧ jn_failed (sk_journal (st_sink (ac_sink (mc_actor reporting_machine)))) = false.
Proof. vm_compute. split_and!; reflexivity. Qed.
(** The digests of [records_readable], decided. *)
Fixpoint records_digests_ok (prior : DigestV1) (records : list HistoricalJournalRecordV1) : bool :=
  match records with
  | [] => true
  | r :: rest =>
      frame_digests_ok (jr_record_kind r) (jr_record_sequence r) prior (record_json r)
      && records_digests_ok
           (frame_digest (encode_header (jr_record_kind r) (jr_record_sequence r)
                            (slen (record_json r)) prior) (record_json r)) rest
  end.
Lemma records_readable_decided prior records :
  Forall json_roundtrips records → records_digests_ok prior records = true → records_readable prior records.
Proof.
  intros Hj. revert prior. induction Hj as [|r rest Hr _ IH]; intros prior Hd; [done|].
  cbn in Hd. split_and_bool. split_and!; [done|by apply frame_digests_decided|by apply IH].
Qed.
Lemma reporting_records :
  appended_readable fresh_journal.2 (sk_journal (st_sink (ac_sink (mc_actor reporting_machine)))).
Proof.
  apply records_readable_decided; [vm_compute; repeat constructor|vm_compute; reflexivity].
Qed.
Lemma reporting_created :
  create_new reactor_path reactor_journal_config (mkWorld 0 ∅) = (fresh_journal.1, Ok fresh_journal.2).
Proof. vm_compute. reflexivity. Qed.
Lemma reporting_journal : journal_reachable reactor_path reactor_journal_config fresh_journal.
Proof.
  exists (mkWorld 0 ∅), fresh_journal.1, fresh_journal.2. split; [exact reporting_created|].
  rewrite <- surjective_pairing. reflexivity.
Qed.
