(* ===== verification/CustodyRecords.v ===== *)
(** * Custody protocol records: the rest of [crates/pulse-types/src/custody.rs]

    Peer keys, the policies of both ends, and the five messages of the custody
    protocol with their validation.  The JSON text of the keys and policies
    ([serde_json]) is the operation of the class [CustodyPolicyJson]. *)

From S2P Require Import Prelude Ids Digest Judgment Qualification CustodyTypes.

Definition CUSTODY_PROTOCOL_VERSION_V1 : Z := 1.
Definition MAX_CANARY_DATAGRAM_BYTES : Z := 1232.
Definition MAX_CUSTODY_PAYLOAD_BYTES : Z := 640.
Definition MAX_CUSTODY_SCOPES : Z := 8.
Definition MAX_CUSTODY_QUEUE_DEPTH : Z := 64.
Definition MAX_CUSTODY_REPLAY_WINDOW : Z := 64.
Definition MAX_CUSTODY_RECEIPTS : Z := 256.

Inductive CustodyKeyAlgorithmV1 := Ed25519.
#[global] Instance CustodyKeyAlgorithmV1_eq_dec : EqDecision CustodyKeyAlgorithmV1.
Proof. solve_decision. Defined.

Inductive CustodySignatureDomainV1 :=
| DomainSenderSessionOffer
| DomainReceiverSessionChallenge
| DomainSenderSessionBinding
| DomainReceiverSessionAcceptance
| DomainObservationCustodyEnvelope.
#[global] Instance CustodySignatureDomainV1_eq_dec : EqDecision CustodySignatureDomainV1.
Proof. solve_decision. Defined.

(** [CustodySignatureDomainV1::as_str]. *)
Definition domain_as_str (d : CustodySignatureDomainV1) : string :=
  match d with
  | DomainSenderSessionOffer => "monitor.sender-session-offer.v1"
  | DomainReceiverSessionChallenge => "monitor.receiver-session-challenge.v1"
  | DomainSenderSessionBinding => "monitor.sender-session-binding.v1"
  | DomainReceiverSessionAcceptance => "monitor.receiver-session-acceptance.v1"
  | DomainObservationCustodyEnvelope => "monitor.observation-custody-envelope.v1"
  end.

Inductive ObservationCustodyKindV1 := KindPulseV1.
#[global] Instance ObservationCustodyKindV1_eq_dec : EqDecision ObservationCustodyKindV1.
Proof. solve_decision. Defined.

Inductive CustodyCertificateStatusV1 :=
| CertificateAccepted | CertificateIsSuperseded | CertificateIsRevoked | CertificateUnknown.
#[global] Instance CustodyCertificateStatusV1_eq_dec : EqDecision CustodyCertificateStatusV1.
Proof. solve_decision. Defined.

Inductive SessionBindingResultV1 := QualifiedAndMatchedAssertion.
#[global] Instance SessionBindingResultV1_eq_dec : EqDecision SessionBindingResultV1.
Proof. solve_decision. Defined.

(** [CustodyAuthorityGrantsV1::none]. *)
Definition custody_grants_none : CustodyAuthorityGrantsV1 :=
  mkCustodyGrants GrantNone GrantNone GrantNone GrantNone GrantNone GrantNone GrantNone.

(* ------------------------------------------------------------------ *)
(** ** Field checks *)

Definition hex_nibble (c : ascii) : option Z :=
  let b := byte_val c in
  if (48 <=? b) && (b <=? 57) then Some (b - 48)
  else if (97 <=? b) && (b <=? 102) then Some (b - 97 + 10)
  else None.
(** The loop of [decode_hex_bounded] over pairs of digits. *)
Fixpoint hex_pairs (text : string) : option string :=
  match text with
  | String a (String b rest) =>
      high ← hex_nibble a; low ← hex_nibble b; out ← hex_pairs rest;
      Some (String (byte_of (Z.lor (Z.shiftl high 4) low)) out)
  | _ => Some ""
  end.
Definition decode_hex_bounded (text : string) (maximum_bytes : Z) (field : string)
  : result CustodyTypeError string :=
  ensure (negb (negb (slen text mod 2 =? 0) || (maximum_bytes <? slen text / 2)))
    (mkCustodyTypeError "invalid_hex_length" (field +:+ " has an invalid bounded hex length"));;
  match hex_pairs text with
  | Some bytes => Ok bytes
  | None => Err (mkCustodyTypeError "invalid_hex" (field +:+ " is not lowercase hex"))
  end.
Definition decode_hex_exact (text : string) (expected_bytes : Z) (field : string)
  : result CustodyTypeError string :=
  bytes ← decode_hex_bounded text expected_bytes field;
  ensure (slen bytes =? expected_bytes)
    (mkCustodyTypeError "invalid_hex_length"
       (field +:+ " must contain exactly " +:+ dec expected_bytes +:+ " bytes"));;
  Ok bytes.

(** [validate_protocol]. *)
Definition custody_protocol (version : Z) : result CustodyTypeError unit :=
  ensure (version =? CUSTODY_PROTOCOL_VERSION_V1)
    (mkCustodyTypeError "unsupported_protocol" "custody protocol version is unsupported").

(** [validate_sorted_texts]. *)
Definition custody_sorted_texts (field : string) (values : list string) (maximum : Z)
  : result CustodyTypeError unit :=
  let count := Z.of_nat (length values) in
  ensure (negb ((count =? 0) || (maximum <? count)))
    (mkCustodyTypeError "bound_exceeded" (field +:+ " count is outside its bound"));;
  for_each (custody_text field) values;;
  ensure (strictly_sorted values)
    (mkCustodyTypeError "noncanonical_collection" (field +:+ " must be sorted and unique")).

(** [scope_key] and the comparison of two scopes by it. *)
Definition scope_compare (a b : SubjectScopeV1) : comparison :=
  lex (String.compare (ss_subject a) (ss_subject b))
    (lex (String.compare (ss_subject_incarnation a) (ss_subject_incarnation b))
       (String.compare (ss_scope a) (ss_scope b))).

(** [validate_scopes]. *)
Definition custody_scopes (scopes : list SubjectScopeV1) : result CustodyTypeError unit :=
  let count := Z.of_nat (length scopes) in
  ensure (negb ((count =? 0) || (MAX_CUSTODY_SCOPES <? count)))
    (mkCustodyTypeError "bound_exceeded" "subject scope count is outside its bound");;
  for_each custody_scope scopes;;
  ensure (sorted_by scope_compare scopes)
    (mkCustodyTypeError "noncanonical_collection" "subject scopes must be sorted and unique").

(** [validate_transport_bounds]. *)
Definition custody_transport_bounds (maximum_datagram_bytes maximum_session_duration_ms
    maximum_messages_per_session maximum_messages_per_second queue_bound replay_window_size : Z)
  : result CustodyTypeError unit :=
  ensure (negb ((maximum_datagram_bytes =? 0)
                || (MAX_CANARY_DATAGRAM_BYTES <? maximum_datagram_bytes)
                || (maximum_session_duration_ms =? 0)
                || (maximum_messages_per_session =? 0)
                || (maximum_messages_per_second =? 0)
                || (queue_bound =? 0)
                || (MAX_CUSTODY_QUEUE_DEPTH <? queue_bound)
                || (replay_window_size =? 0)
                || (MAX_CUSTODY_REPLAY_WINDOW <? replay_window_size)))
    (mkCustodyTypeError "invalid_bound"
       "transport policy contains an unsupported zero or oversized bound").

(* ------------------------------------------------------------------ *)
(** ** Keys and policies *)

Record PeerKeyIdentityV1 := mkPeerKey {
  pk_schema_version : Z;
  pk_protocol_version : Z;
  pk_algorithm : CustodyKeyAlgorithmV1;
  pk_role : CustodyPeerRoleV1;
  pk_intended_peer_role : CustodyPeerRoleV1;
  pk_public_key_hex : string;
  pk_public_key_digest : DigestV1;
  pk_accepted_scopes : list string;
  pk_local_acceptance_policy_id : string;
}.
#[global] Instance PeerKeyIdentityV1_eq_dec : EqDecision PeerKeyIdentityV1.
Proof. solve_decision. Defined.

Record ReceiverAcceptancePolicyV1 := mkReceiverPolicy {
  rap_schema_version : Z;
  rap_policy_generation : string;
  rap_receiver_key : PeerKeyIdentityV1;
  rap_accepted_sender_key : PeerKeyIdentityV1;
  rap_accepted_sender_manifest_digest : DigestV1;
  rap_accepted_sender_certificate_digest : DigestV1;
  rap_accepted_protocol_version : Z;
  rap_accepted_pulse_schema_version : Z;
  rap_accepted_observer : ObserverId;
  rap_accepted_failure_domain_claim : string;
  rap_permitted_subject_scopes : list SubjectScopeV1;
  rap_permitted_observation_kinds : list ObservationCustodyKindV1;
  rap_maximum_datagram_bytes : Z;
  rap_maximum_session_duration_ms : Z;
  rap_maximum_messages_per_session : Z;
  rap_maximum_messages_per_second : Z;
  rap_receiver_queue_bound : Z;
  rap_replay_window_size : Z;
  rap_maximum_sequence_gap : Z;
  rap_certificate_status : CustodyCertificateStatusV1;
  rap_lifecycle_authority_id : string;
  rap_freshness_mode : RemoteFreshnessModeV1;
  rap_arrival_anchored_evidence_may_support_reliance : bool;
  rap_observation_time_freshness_required : bool;
  rap_journal_id : string;
  rap_authority_grants : CustodyAuthorityGrantsV1;
}.
(** The same without the sender's package. *)
Record ReceiverAcceptancePolicyAnchorV1 := mkPolicyAnchor {
  rpa_schema_version : Z;
  rpa_policy_generation : string;
  rpa_receiver_key : PeerKeyIdentityV1;
  rpa_accepted_sender_key : PeerKeyIdentityV1;
  rpa_accepted_protocol_version : Z;
  rpa_accepted_pulse_schema_version : Z;
  rpa_accepted_observer : ObserverId;
  rpa_accepted_failure_domain_claim : string;
  rpa_permitted_subject_scopes : list SubjectScopeV1;
  rpa_permitted_observation_kinds : list ObservationCustodyKindV1;
  rpa_maximum_datagram_bytes : Z;
  rpa_maximum_session_duration_ms : Z;
  rpa_maximum_messages_per_session : Z;
  rpa_maximum_messages_per_second : Z;
  rpa_receiver_queue_bound : Z;
  rpa_replay_window_size : Z;
  rpa_maximum_sequence_gap : Z;
  rpa_certificate_status : CustodyCertificateStatusV1;
  rpa_lifecycle_authority_id : string;
  rpa_freshness_mode : RemoteFreshnessModeV1;
  rpa_arrival_anchored_evidence_may_support_reliance : bool;
  rpa_observation_time_freshness_required : bool;
  rpa_journal_id : string;
  rpa_authority_grants : CustodyAuthorityGrantsV1;
}.

Record SenderEmissionPolicyV1 := mkSenderPolicy {
  sep_schema_version : Z;
  sep_policy_generation : string;
  sep_sender_key : PeerKeyIdentityV1;
  sep_accepted_receiver_key : PeerKeyIdentityV1;
  sep_accepted_receiver_policy_generation : string;
  sep_accepted_receiver_policy_anchor_digest : DigestV1;
  sep_observer : ObserverId;
  sep_failure_domain_claim : string;
  sep_permitted_subject_scopes : list SubjectScopeV1;
  sep_permitted_observation_kinds : list ObservationCustodyKindV1;
  sep_maximum_datagram_bytes : Z;
  sep_sender_queue_bound : Z;
  sep_authority_grants : CustodyAuthorityGrantsV1;
}.

Class CustodyPolicyJson := {
  peer_key_json : PeerKeyIdentityV1 → string;
  receiver_anchor_json : ReceiverAcceptancePolicyAnchorV1 → string;
  receiver_policy_json : ReceiverAcceptancePolicyV1 → string;
  sender_policy_json : SenderEmissionPolicyV1 → string;
  peer_key_parse : string → result string PeerKeyIdentityV1;
  receiver_policy_parse : string → result string ReceiverAcceptancePolicyV1;
  sender_policy_parse : string → result string SenderEmissionPolicyV1;
}.

(** [canonical_decode] for a type with its parser, check and text. *)
Definition custody_canonical_decode {A} (parse : string → result string A)
    (check : A → result CustodyTypeError unit) (text : A → string) (bytes label : string)
  : result CustodyTypeError A :=
  ensure (negb (MAX_CANARY_DATAGRAM_BYTES * 8 <? slen bytes))
    (mkCustodyTypeError "bound_exceeded" (label +:+ " exceeds its canonical artifact byte bound"));;
  value ← map_err (fun error => mkCustodyTypeError "canonical_decoding_failed"
                                  ("cannot decode " +:+ label +:+ ": " +:+ error)) (parse bytes);
  check value;;
  ensure (bool_decide (text value = bytes))
    (mkCustodyTypeError "noncanonical_encoding"
       (label +:+ " bytes are valid JSON but not the exact canonical encoding"));;
  Ok value.

Section policies.
Context `{Sha256} `{CustodyPolicyJson}.

(** [PeerKeyIdentityV1::validate]. *)
Definition peer_key_validate (k : PeerKeyIdentityV1) : result CustodyTypeError unit :=
  custody_schema (pk_schema_version k);;
  ensure (pk_protocol_version k =? CUSTODY_PROTOCOL_VERSION_V1)
    (mkCustodyTypeError "unsupported_protocol" "peer key protocol version is unsupported");;
  ensure (negb (bool_decide (pk_role k = pk_intended_peer_role k)))
    (mkCustodyTypeError "invalid_peer_role" "peer key role and intended peer role must differ");;
  public_key ← decode_hex_exact (pk_public_key_hex k) 32 "public key";
  ensure (bool_decide (pk_public_key_digest k
                       = digest_parts "transport.ed25519.public-key.v1" [public_key]))
    (mkCustodyTypeError "key_identity_mismatch"
       "public key digest does not identify the exact public key bytes");;
  custody_sorted_texts "accepted scopes" (pk_accepted_scopes k) MAX_CUSTODY_SCOPES;;
  custody_text "local acceptance policy identity" (pk_local_acceptance_policy_id k).
Definition peer_key_identity_digest (k : PeerKeyIdentityV1) : DigestV1 :=
  digest_parts "transport.peer-key-identity.v1" [peer_key_json k].
Definition peer_key_canonical_bytes (k : PeerKeyIdentityV1) : result CustodyTypeError string :=
  peer_key_validate k;; Ok (peer_key_json k).
Definition peer_key_decode_canonical (bytes : string) : result CustodyTypeError PeerKeyIdentityV1 :=
  custody_canonical_decode peer_key_parse peer_key_validate peer_key_json bytes "peer key identity".

(** [ReceiverAcceptancePolicyV1::validate]. *)
Definition receiver_policy_validate (p : ReceiverAcceptancePolicyV1) : result CustodyTypeError unit :=
  custody_schema (rap_schema_version p);;
  custody_text "receiver policy generation" (rap_policy_generation p);;
  peer_key_validate (rap_receiver_key p);;
  peer_key_validate (rap_accepted_sender_key p);;
  ensure (bool_decide (pk_role (rap_receiver_key p) = PeerReceiver)
          && bool_decide (pk_role (rap_accepted_sender_key p) = PeerSender))
    (mkCustodyTypeError "invalid_peer_role" "receiver policy key roles are invalid");;
  custody_digest (rap_accepted_sender_manifest_digest p);;
  custody_digest (rap_accepted_sender_certificate_digest p);;
  ensure ((rap_accepted_protocol_version p =? CUSTODY_PROTOCOL_VERSION_V1)
          && (rap_accepted_pulse_schema_version p =? SCHEMA_VERSION_V1))
    (mkCustodyTypeError "unsupported_protocol"
       "receiver policy protocol or pulse schema is unsupported");;
  custody_identity "ObserverId" (rap_accepted_observer p);;
  custody_text "accepted failure-domain claim" (rap_accepted_failure_domain_claim p);;
  custody_scopes (rap_permitted_subject_scopes p);;
  ensure (bool_decide (rap_permitted_observation_kinds p = [KindPulseV1]))
    (mkCustodyTypeError "unsupported_observation_kind" "v1 receiver policy must admit only pulse_v1");;
  custody_transport_bounds (rap_maximum_datagram_bytes p) (rap_maximum_session_duration_ms p)
    (rap_maximum_messages_per_session p) (rap_maximum_messages_per_second p)
    (rap_receiver_queue_bound p) (rap_replay_window_size p);;
  ensure (negb (rap_maximum_sequence_gap p =? 0))
    (mkCustodyTypeError "invalid_bound" "maximum sequence gap must be nonzero");;
  custody_text "lifecycle authority" (rap_lifecycle_authority_id p);;
  custody_text "custody journal identity" (rap_journal_id p);;
  ensure (custody_grants_nothing (rap_authority_grants p))
    (mkCustodyTypeError "authority_laundering" "receiver policy cannot grant operational authority").

Definition receiver_policy_anchor (p : ReceiverAcceptancePolicyV1) : ReceiverAcceptancePolicyAnchorV1 :=
  {| rpa_schema_version := rap_schema_version p;
     rpa_policy_generation := rap_policy_generation p;
     rpa_receiver_key := rap_receiver_key p;
     rpa_accepted_sender_key := rap_accepted_sender_key p;
     rpa_accepted_protocol_version := rap_accepted_protocol_version p;
     rpa_accepted_pulse_schema_version := rap_accepted_pulse_schema_version p;
     rpa_accepted_observer := rap_accepted_observer p;
     rpa_accepted_failure_domain_claim := rap_accepted_failure_domain_claim p;
     rpa_permitted_subject_scopes := rap_permitted_subject_scopes p;
     rpa_permitted_observation_kinds := rap_permitted_observation_kinds p;
     rpa_maximum_datagram_bytes := rap_maximum_datagram_bytes p;
     rpa_maximum_session_duration_ms := rap_maximum_session_duration_ms p;
     rpa_maximum_messages_per_session := rap_maximum_messages_per_session p;
     rpa_maximum_messages_per_second := rap_maximum_messages_per_second p;
     rpa_receiver_queue_bound := rap_receiver_queue_bound p;
     rpa_replay_window_size := rap_replay_window_size p;
     rpa_maximum_sequence_gap := rap_maximum_sequence_gap p;
     rpa_certificate_status := rap_certificate_status p;
     rpa_lifecycle_authority_id := rap_lifecycle_authority_id p;
     rpa_freshness_mode := rap_freshness_mode p;
     rpa_arrival_anchored_evidence_may_support_reliance :=
       rap_arrival_anchored_evidence_may_support_reliance p;
     rpa_observation_time_freshness_required := rap_observation_time_freshness_required p;
     rpa_journal_id := rap_journal_id p;
     rpa_authority_grants := rap_authority_grants p |}.
Definition receiver_policy_anchor_digest (p : ReceiverAcceptancePolicyV1) : DigestV1 :=
  digest_parts "transport.receiver-acceptance-policy-anchor.v1"
    [receiver_anchor_json (receiver_policy_anchor p)].
Definition identity_digest_from_parts (anchor sender_manifest sender_certificate : DigestV1) : DigestV1 :=
  digest_parts "transport.receiver-acceptance-policy.v1" [anchor; sender_manifest; sender_certificate].
Definition receiver_policy_identity_digest (p : ReceiverAcceptancePolicyV1) : DigestV1 :=
  identity_digest_from_parts (receiver_policy_anchor_digest p)
    (rap_accepted_sender_manifest_digest p) (rap_accepted_sender_certificate_digest p).
Definition receiver_policy_binding (p : ReceiverAcceptancePolicyV1) : TransportCustodyPolicyBindingV1 :=
  mkPolicyBinding SCHEMA_VERSION_V1 PeerReceiver (rap_policy_generation p)
    (receiver_policy_identity_digest p).
Definition receiver_policy_canonical_bytes (p : ReceiverAcceptancePolicyV1)
  : result CustodyTypeError string :=
  receiver_policy_validate p;; Ok (receiver_policy_json p).
Definition receiver_policy_decode_canonical (bytes : string)
  : result CustodyTypeError ReceiverAcceptancePolicyV1 :=
  custody_canonical_decode receiver_policy_parse receiver_policy_validate receiver_policy_json bytes
    "receiver acceptance policy".

(** [SenderEmissionPolicyV1::validate]. *)
Definition sender_policy_validate (p : SenderEmissionPolicyV1) : result CustodyTypeError unit :=
  custody_schema (sep_schema_version p);;
  custody_text "sender policy generation" (sep_policy_generation p);;
  peer_key_validate (sep_sender_key p);;
  peer_key_validate (sep_accepted_receiver_key p);;
  ensure (bool_decide (pk_role (sep_sender_key p) = PeerSender)
          && bool_decide (pk_role (sep_accepted_receiver_key p) = PeerReceiver))
    (mkCustodyTypeError "invalid_peer_role" "sender policy key roles are invalid");;
  custody_text "accepted receiver policy generation" (sep_accepted_receiver_policy_generation p);;
  custody_digest (sep_accepted_receiver_policy_anchor_digest p);;
  custody_identity "ObserverId" (sep_observer p);;
  custody_text "failure-domain claim" (sep_failure_domain_claim p);;
  custody_scopes (sep_permitted_subject_scopes p);;
  ensure (bool_decide (sep_permitted_observation_kinds p = [KindPulseV1])
          && negb (sep_maximum_datagram_bytes p =? 0)
          && negb (MAX_CANARY_DATAGRAM_BYTES <? sep_maximum_datagram_bytes p)
          && negb (sep_sender_queue_bound p =? 0)
          && negb (MAX_CUSTODY_QUEUE_DEPTH <? sep_sender_queue_bound p))
    (mkCustodyTypeError "invalid_bound" "sender policy kind or bound is unsupported");;
  ensure (custody_grants_nothing (sep_authority_grants p))
    (mkCustodyTypeError "authority_laundering" "sender policy cannot grant operational authority").
Definition sender_policy_identity_digest (p : SenderEmissionPolicyV1) : DigestV1 :=
  digest_parts "transport.sender-emission-policy.v1" [sender_policy_json p].
Definition sender_policy_binding (p : SenderEmissionPolicyV1) : TransportCustodyPolicyBindingV1 :=
  mkPolicyBinding SCHEMA_VERSION_V1 PeerSender (sep_policy_generation p)
    (sender_policy_identity_digest p).
Definition sender_policy_canonical_bytes (p : SenderEmissionPolicyV1) : result CustodyTypeError string :=
  sender_policy_validate p;; Ok (sender_policy_json p).
Definition sender_policy_decode_canonical (bytes : string)
  : result CustodyTypeError SenderEmissionPolicyV1 :=
  custody_canonical_decode sender_policy_parse sender_policy_validate sender_policy_json bytes
    "sender emission policy".
End policies.

(* ------------------------------------------------------------------ *)
(** ** Messages

    A session offer, the receiver's challenge, the sender's binding, the
    receiver's acceptance, and the envelope of an observation. *)

Record SenderSessionOfferBodyV1 := mkOfferBody {
  sob_schema_version : Z;
  sob_protocol_version : Z;
  sob_receiver_key_identity_digest : DigestV1;
  sob_sender_key_identity_digest : DigestV1;
  sob_sender_process_occurrence : IncarnationId;
  sob_sender_monotonic_epoch : IncarnationId;
  sob_sender_nonce_hex : string;
  sob_sender_manifest_digest : DigestV1;
  sob_sender_qualification_certificate_digest : DigestV1;
  sob_sender_activation_receipt_digest : DigestV1;
  sob_sender_runtime_generation_set_digest : DigestV1;
  sob_observer : ObserverId;
  sob_failure_domain_claim : string;
  sob_permitted_subject_scopes : list SubjectScopeV1;
}.

Record ReceiverSessionChallengeBodyV1 := mkChallengeBody {
  rcb_schema_version : Z;
  rcb_protocol_version : Z;
  rcb_receiver_key_identity_digest : DigestV1;
  rcb_sender_session_offer_digest : DigestV1;
  rcb_receiver_process_occurrence : IncarnationId;
  rcb_receiver_monotonic_epoch : IncarnationId;
  rcb_session_nonce_hex : string;
  rcb_receiver_acceptance_policy_generation : string;
  rcb_receiver_acceptance_policy_anchor_digest : DigestV1;
  rcb_receiver_acceptance_policy_digest : DigestV1;
  rcb_intended_sender_key_identity_digest : DigestV1;
  rcb_intended_sender_process_occurrence : IncarnationId;
  rcb_accepted_sender_manifest_digest : DigestV1;
  rcb_accepted_sender_certificate_digest : DigestV1;
  rcb_issued_at_receiver_monotonic_ms : Z;
  rcb_expires_at_receiver_monotonic_ms : Z;
  rcb_maximum_envelope_bytes : Z;
  rcb_maximum_messages : Z;
}.

Record SenderSessionBindingBodyV1 := mkBindingBody {
  sbb_schema_version : Z;
  sbb_protocol_version : Z;
  sbb_receiver_challenge_digest : DigestV1;
  sbb_receiver_key_identity_digest : DigestV1;
  sbb_sender_key_identity_digest : DigestV1;
  sbb_sender_process_occurrence : IncarnationId;
  sbb_sender_monotonic_epoch : IncarnationId;
  sbb_sender_manifest_digest : DigestV1;
  sbb_sender_qualification_certificate_digest : DigestV1;
  sbb_sender_activation_receipt_digest : DigestV1;
  sbb_sender_runtime_generation_set_digest : DigestV1;
  sbb_observer : ObserverId;
  sbb_failure_domain_claim : string;
  sbb_permitted_subject_scopes : list SubjectScopeV1;
  sbb_observation_protocol_version : Z;
  sbb_session_sequence_origin : Z;
  sbb_binding_result : SessionBindingResultV1;
}.

Record ReceiverSessionAcceptanceBodyV1 := mkAcceptanceBody {
  rsb_schema_version : Z;
  rsb_protocol_version : Z;
  rsb_receiver_challenge_digest : DigestV1;
  rsb_sender_session_binding_digest : DigestV1;
  rsb_receiver_key_identity_digest : DigestV1;
  rsb_sender_key_identity_digest : DigestV1;
  rsb_receiver_process_occurrence : IncarnationId;
  rsb_receiver_monotonic_epoch : IncarnationId;
  rsb_sender_process_occurrence : IncarnationId;
  rsb_receiver_acceptance_policy_digest : DigestV1;
  rsb_accepted_at_receiver_monotonic_ms : Z;
  rsb_expires_at_receiver_monotonic_ms : Z;
  rsb_maximum_messages : Z;
}.

Record ObservationCustodyEnvelopeBodyV1 := mkEnvelopeBody {
  oeb_schema_version : Z;
  oeb_protocol_version : Z;
  oeb_receiver_challenge_digest : DigestV1;
  oeb_session_binding_digest : DigestV1;
  oeb_receiver_key_identity_digest : DigestV1;
  oeb_sender_key_identity_digest : DigestV1;
  oeb_sender_process_occurrence : IncarnationId;
  oeb_sender_monotonic_epoch : IncarnationId;
  oeb_sender_manifest_digest : DigestV1;
  oeb_sender_qualification_certificate_digest : DigestV1;
  oeb_sender_activation_receipt_digest : DigestV1;
  oeb_observer : ObserverId;
  oeb_failure_domain_claim : string;
  oeb_subject_scope : SubjectScopeV1;
  oeb_observation_identity : DigestV1;
  oeb_observation_sequence : Z;
  oeb_session_sequence : Z;
  oeb_observation_kind : ObservationCustodyKindV1;
  oeb_payload_hex : string;
  oeb_payload_digest : DigestV1;
  oeb_sender_observation_monotonic_ns : Z;
  oeb_sender_emission_monotonic_ns : Z;
}.

(** The five signed objects have one shape; [sd_digest] is [offer_digest],
    [challenge_digest], [binding_digest], [acceptance_digest] or
    [envelope_digest]. *)
Record Signed (B : Type) := mkSigned {
  sd_schema_version : Z;
  sd_digest : DigestV1;
  sd_body : B;
  sd_signature_domain : CustodySignatureDomainV1;
  sd_signer_key_identity_digest : DigestV1;
  sd_signature_hex : string;
  sd_authority_grants : CustodyAuthorityGrantsV1;
}.
#[global] Arguments mkSigned {B}.
#[global] Arguments sd_schema_version {B}.
#[global] Arguments sd_digest {B}.
#[global] Arguments sd_body {B}.
#[global] Arguments sd_signature_domain {B}.
#[global] Arguments sd_signer_key_identity_digest {B}.
#[global] Arguments sd_signature_hex {B}.
#[global] Arguments sd_authority_grants {B}.
Definition SenderSessionOfferV1 : Type := Signed SenderSessionOfferBodyV1.
Definition ReceiverSessionChallengeV1 : Type := Signed ReceiverSessionChallengeBodyV1.
Definition SenderSessionBindingV1 : Type := Signed SenderSessionBindingBodyV1.
Definition ReceiverSessionAcceptanceV1 : Type := Signed ReceiverSessionAcceptanceBodyV1.
Definition ObservationCustodyEnvelopeV1 : Type := Signed ObservationCustodyEnvelopeBodyV1.

(** [validate_structure] of a signed object: the check of its body, the label
    of its signature, its domain, the key its body names and its error. *)
Definition validate_structure {B} (check : B → result CustodyTypeError unit) (label : string)
    (domain : CustodySignatureDomainV1) (signer : B → DigestV1) (error : CustodyTypeError)
    (v : Signed B) : result CustodyTypeError unit :=
  custody_schema (sd_schema_version v);;
  check (sd_body v);;
  custody_digest (sd_digest v);;
  custody_digest (sd_signer_key_identity_digest v);;
  decode_hex_exact (sd_signature_hex v) 64 label;;
  ensure (bool_decide (sd_signature_domain v = domain)
          && bool_decide (sd_signer_key_identity_digest v = signer (sd_body v))
          && custody_grants_nothing (sd_authority_grants v)) error.

(** [SenderSessionOfferBodyV1::validate]. *)
Definition offer_body_validate (b : SenderSessionOfferBodyV1) : result CustodyTypeError unit :=
  custody_schema (sob_schema_version b);;
  custody_protocol (sob_protocol_version b);;
  for_each custody_digest
    [ sob_receiver_key_identity_digest b; sob_sender_key_identity_digest b;
      sob_sender_manifest_digest b; sob_sender_qualification_certificate_digest b;
      sob_sender_activation_receipt_digest b; sob_sender_runtime_generation_set_digest b ];;
  custody_identity "IncarnationId" (sob_sender_process_occurrence b);;
  custody_identity "IncarnationId" (sob_sender_monotonic_epoch b);;
  decode_hex_exact (sob_sender_nonce_hex b) 32 "sender offer nonce";;
  custody_identity "ObserverId" (sob_observer b);;
  custody_text "failure-domain claim" (sob_failure_domain_claim b);;
  custody_scopes (sob_permitted_subject_scopes b).
Definition offer_validate_structure : SenderSessionOfferV1 → result CustodyTypeError unit :=
  validate_structure offer_body_validate "sender-offer signature" DomainSenderSessionOffer
    sob_sender_key_identity_digest
    (mkCustodyTypeError "invalid_sender_offer"
       "sender offer domain, signer, or authority posture is invalid").

(** [ReceiverSessionChallengeBodyV1::validate]. *)
Definition challenge_body_validate (b : ReceiverSessionChallengeBodyV1) : result CustodyTypeError unit :=
  custody_schema (rcb_schema_version b);;
  custody_protocol (rcb_protocol_version b);;
  for_each custody_digest
    [ rcb_receiver_key_identity_digest b; rcb_sender_session_offer_digest b;
      rcb_receiver_acceptance_policy_anchor_digest b; rcb_receiver_acceptance_policy_digest b;
      rcb_intended_sender_key_identity_digest b; rcb_accepted_sender_manifest_digest b;
      rcb_accepted_sender_certificate_digest b ];;
  custody_identity "IncarnationId" (rcb_receiver_process_occurrence b);;
  custody_identity "IncarnationId" (rcb_receiver_monotonic_epoch b);;
  custody_identity "IncarnationId" (rcb_intended_sender_process_occurrence b);;
  decode_hex_exact (rcb_session_nonce_hex b) 32 "session nonce";;
  custody_text "receiver acceptance policy generation" (rcb_receiver_acceptance_policy_generation b);;
  ensure (negb ((rcb_expires_at_receiver_monotonic_ms b <=? rcb_issued_at_receiver_monotonic_ms b)
                || (rcb_maximum_envelope_bytes b =? 0)
                || (MAX_CANARY_DATAGRAM_BYTES <? rcb_maximum_envelope_bytes b)
                || (rcb_maximum_messages b =? 0)))
    (mkCustodyTypeError "invalid_challenge_bound"
       "receiver challenge expiry or message bound is invalid").
Definition challenge_validate_structure : ReceiverSessionChallengeV1 → result CustodyTypeError unit :=
  validate_structure challenge_body_validate "challenge signature" DomainReceiverSessionChallenge
    rcb_receiver_key_identity_digest
    (mkCustodyTypeError "invalid_challenge"
       "challenge domain, signer, or authority posture is invalid").

(** [SenderSessionBindingBodyV1::validate]. *)
Definition binding_body_validate (b : SenderSessionBindingBodyV1) : result CustodyTypeError unit :=
  custody_schema (sbb_schema_version b);;
  custody_protocol (sbb_protocol_version b);;
  for_each custody_digest
    [ sbb_receiver_challenge_digest b; sbb_receiver_key_identity_digest b;
      sbb_sender_key_identity_digest b; sbb_sender_manifest_digest b;
      sbb_sender_qualification_certificate_digest b; sbb_sender_activation_receipt_digest b;
      sbb_sender_runtime_generation_set_digest b ];;
  custody_identity "IncarnationId" (sbb_sender_process_occurrence b);;
  custody_identity "IncarnationId" (sbb_sender_monotonic_epoch b);;
  custody_identity "ObserverId" (sbb_observer b);;
  custody_text "failure-domain claim" (sbb_failure_domain_claim b);;
  custody_scopes (sbb_permitted_subject_scopes b);;
  custody_protocol (sbb_observation_protocol_version b);;
  ensure (negb (sbb_session_sequence_origin b =? 0))
    (mkCustodyTypeError "invalid_sequence" "session sequence origin must be nonzero").
Definition binding_validate_structure : SenderSessionBindingV1 → result CustodyTypeError unit :=
  validate_structure binding_body_validate "session-binding signature" DomainSenderSessionBinding
    sbb_sender_key_identity_digest
    (mkCustodyTypeError "invalid_session_binding"
       "session binding domain, signer, or authority posture is invalid").

(** [ReceiverSessionAcceptanceBodyV1::validate]. *)
Definition acceptance_body_validate (b : ReceiverSessionAcceptanceBodyV1)
  : result CustodyTypeError unit :=
  custody_schema (rsb_schema_version b);;
  custody_protocol (rsb_protocol_version b);;
  for_each custody_digest
    [ rsb_receiver_challenge_digest b; rsb_sender_session_binding_digest b;
      rsb_receiver_key_identity_digest b; rsb_sender_key_identity_digest b;
      rsb_receiver_acceptance_policy_digest b ];;
  for_each (custody_identity "IncarnationId")
    [ rsb_receiver_process_occurrence b; rsb_receiver_monotonic_epoch b;
      rsb_sender_process_occurrence b ];;
  ensure (negb ((rsb_expires_at_receiver_monotonic_ms b <=? rsb_accepted_at_receiver_monotonic_ms b)
                || (rsb_maximum_messages b =? 0)))
    (mkCustodyTypeError "invalid_session_acceptance"
       "receiver session acceptance is expired or has an empty message bound").
Definition acceptance_validate_structure : ReceiverSessionAcceptanceV1 → result CustodyTypeError unit :=
  validate_structure acceptance_body_validate "session-acceptance signature"
    DomainReceiverSessionAcceptance rsb_receiver_key_identity_digest
    (mkCustodyTypeError "invalid_session_acceptance"
       "session acceptance domain, signer, or authority posture is invalid").

Section envelope.
Context `{Sha256}.

(** [ObservationCustodyEnvelopeBodyV1::payload_bytes]. *)
Definition payload_bytes (b : ObservationCustodyEnvelopeBodyV1) : result CustodyTypeError string :=
  decode_hex_bounded (oeb_payload_hex b) MAX_CUSTODY_PAYLOAD_BYTES "observation payload".

(** [ObservationCustodyEnvelopeBodyV1::validate]. *)
Definition envelope_body_validate (b : ObservationCustodyEnvelopeBodyV1) : result CustodyTypeError unit :=
  custody_schema (oeb_schema_version b);;
  custody_protocol (oeb_protocol_version b);;
  for_each custody_digest
    [ oeb_receiver_challenge_digest b; oeb_session_binding_digest b;
      oeb_receiver_key_identity_digest b; oeb_sender_key_identity_digest b;
      oeb_sender_manifest_digest b; oeb_sender_qualification_certificate_digest b;
      oeb_sender_activation_receipt_digest b; oeb_observation_identity b; oeb_payload_digest b ];;
  custody_identity "IncarnationId" (oeb_sender_process_occurrence b);;
  custody_identity "IncarnationId" (oeb_sender_monotonic_epoch b);;
  custody_identity "ObserverId" (oeb_observer b);;
  custody_text "failure-domain claim" (oeb_failure_domain_claim b);;
  custody_scope (oeb_subject_scope b);;
  ensure (negb ((oeb_observation_sequence b =? 0) || (oeb_session_sequence b =? 0)))
    (mkCustodyTypeError "invalid_sequence" "observation and session sequences must be nonzero");;
  payload ← payload_bytes b;
  ensure (bool_decide (oeb_payload_digest b
                       = digest_parts "transport.observation-payload.v1" [payload]))
    (mkCustodyTypeError "payload_digest_mismatch"
       "payload digest does not identify the exact payload bytes").
Definition envelope_validate_structure : ObservationCustodyEnvelopeV1 → result CustodyTypeError unit :=
  validate_structure envelope_body_validate "observation-envelope signature"
    DomainObservationCustodyEnvelope oeb_sender_key_identity_digest
    (mkCustodyTypeError "invalid_observation_envelope"
       "envelope domain, signer, or authority posture is invalid").
End envelope.
