(* ===== verification/CustodyWire.v ===== *)
(** * The custody wire format: [crates/pulse-runtime/src/custody.rs]

    The writer and the reader of message bodies, signed datagrams, and how each
    message is signed and checked.  Ed25519 itself is the [ed25519-dalek] crate:
    the operations of the class [SignatureScheme], whose laws are the documented
    sizes and that a signature of a key verifies under its public key. *)

From S2P Require Import Prelude Ids Digest Judgment Qualification CustodyTypes CustodyRecords.

(* ------------------------------------------------------------------ *)
(** ** Errors *)

Record CustodyError := mkCustodyError {
  cer_finding : TransportCustodyFindingV1;
  cer_detail : string;
  cer_replay_window_result : option ReplayWindowResultV1;
}.
(** [CustodyError::new], [with_replay_window_result], [from_type] and
    [from_qualification]. *)
Definition custody_error (finding : TransportCustodyFindingV1) (detail : string) : CustodyError :=
  mkCustodyError finding detail None.
Definition with_replay_window_result (e : CustodyError) (r : ReplayWindowResultV1) : CustodyError :=
  mkCustodyError (cer_finding e) (cer_detail e) (Some r).
Definition from_type (e : CustodyTypeError) : CustodyError :=
  custody_error TransportMalformed (custody_error_display e).
Definition custody_from_qualification (e : QualificationError) : CustodyError :=
  custody_error QualifiedIdentityMismatch (qualification_error_display e).
Definition malformed (detail : string) : CustodyError := custody_error TransportMalformed detail.

(* ------------------------------------------------------------------ *)
(** ** [WireWriter] *)

Definition cw_u8 (v : Z) : result CustodyError string := Ok (be_bytes 1 v).
Definition cw_u16 (v : Z) : result CustodyError string := Ok (be_bytes 2 v).
Definition cw_u32 (v : Z) : result CustodyError string := Ok (be_bytes 4 v).
Definition cw_u64 (v : Z) : result CustodyError string := Ok (be_bytes 8 v).
Definition cw_text (value : string) : result CustodyError string :=
  ensure (slen value <=? u16_max) (malformed "wire text length exceeds u16");;
  ensure (negb ((slen value =? 0) || (MAX_CUSTODY_TEXT_BYTES <? slen value) || has_control value))
    (malformed "wire text is empty, oversized, or contains control characters");;
  Ok (be_bytes 2 (slen value) +:+ value).
Definition cw_digest (value : DigestV1) : result CustodyError string :=
  map_err malformed (digest_validate value);;
  map_err from_type (decode_hex_exact (trim_start_matches "sha256:" value) 32 "digest").
Definition cw_fixed_hex (value : string) (exact : Z) (field : string) : result CustodyError string :=
  map_err from_type (decode_hex_exact value exact field).
Definition cw_bytes (value : string) : result CustodyError string :=
  ensure (slen value <=? u16_max) (malformed "wire byte string length exceeds u16");;
  Ok (be_bytes 2 (slen value) +:+ value).

(** Writes one after the other, up to the first that fails. *)
Fixpoint cw_all (writes : list (result CustodyError string)) : result CustodyError string :=
  match writes with
  | [] => Ok ""
  | w :: rest => a ← w; b ← cw_all rest; Ok (a +:+ b)
  end.
Definition cw_scope (s : SubjectScopeV1) : result CustodyError string :=
  cw_all [cw_text (ss_subject s); cw_text (ss_subject_incarnation s); cw_text (ss_scope s)].
Definition cw_scopes (scopes : list SubjectScopeV1) : result CustodyError string :=
  ensure (Z.of_nat (length scopes) <=? 255) (malformed "wire subject-scope count exceeds u8");;
  cw_all (cw_u8 (Z.of_nat (length scopes)) :: (cw_scope <$> scopes)).

(* ------------------------------------------------------------------ *)
(** ** [WireReader] *)

Definition cread (A : Type) : Type := string → result CustodyError (A * string).
#[global] Instance cread_ret : MRet cread := fun A a bytes => Ok (a, bytes).
#[global] Instance cread_bind : MBind cread :=
  fun A B k m bytes => match m bytes with Ok (a, rest) => k a rest | Err e => Err e end.
Definition cr_lift {A} (r : result CustodyError A) : cread A :=
  fun bytes => match r with Ok a => Ok (a, bytes) | Err e => Err e end.
Definition cr_fixed (count : nat) : cread string :=
  fun bytes => match str_take count bytes with
               | Some (value, rest) => Ok (value, rest)
               | None => Err (malformed "canonical datagram body is truncated")
               end.
Definition cr_u8 : cread Z := b ← cr_fixed 1; mret (be_value b).
Definition cr_u16 : cread Z := b ← cr_fixed 2; mret (be_value b).
Definition cr_u32 : cread Z := b ← cr_fixed 4; mret (be_value b).
Definition cr_u64 : cread Z := b ← cr_fixed 8; mret (be_value b).
Definition cr_text : cread string :=
  length ← cr_u16;
  cr_lift (ensure (negb ((length =? 0) || (MAX_CUSTODY_TEXT_BYTES <? length)))
             (malformed "canonical wire text length is outside its bound"));;
  text ← cr_fixed (Z.to_nat length);
  cr_lift (ensure (is_utf8 text) (malformed "canonical wire text is not valid UTF-8"));;
  cr_lift (ensure (negb (has_control text))
             (malformed "canonical wire text contains a control character"));;
  mret text.
Definition cr_digest : cread DigestV1 :=
  raw ← cr_fixed 32;
  let digest := "sha256:" +:+ hex_encode raw in
  cr_lift (map_err malformed (digest_validate digest));;
  mret digest.
Definition cr_fixed_hex (count : nat) : cread string := raw ← cr_fixed count; mret (hex_encode raw).
Definition cr_bytes (maximum : Z) : cread string :=
  length ← cr_u16;
  cr_lift (ensure (negb (maximum <? length))
             (malformed "canonical wire byte string exceeds its bound"));;
  cr_fixed (Z.to_nat length).
Definition cr_scope : cread SubjectScopeV1 :=
  subject ← cr_text; incarnation ← cr_text; scope ← cr_text;
  mret (mkSubjectScope subject incarnation scope).
Fixpoint cr_repeat {A} (count : nat) (read : cread A) : cread (list A) :=
  match count with
  | O => mret []
  | S count => x ← read; xs ← cr_repeat count read; mret (x :: xs)
  end.
Definition cr_scopes : cread (list SubjectScopeV1) :=
  count ← cr_u8;
  cr_lift (ensure (negb ((count =? 0) || (MAX_CUSTODY_SCOPES <? count)))
             (malformed "canonical scope count is outside its bound"));;
  cr_repeat (Z.to_nat count) cr_scope.

(** A body is read, [finish]ed and validated. *)
Definition cr_body {A} (read : cread A) (check : A → result CustodyTypeError unit) (bytes : string)
  : result CustodyError A :=
  '(body, rest) ← read bytes;
  ensure (bool_decide (rest = ""))
    (malformed "canonical datagram body contains trailing bytes");;
  map_err from_type (check body);;
  Ok body.

(* ------------------------------------------------------------------ *)
(** ** Message bodies *)

Definition encode_sender_offer_body (b : SenderSessionOfferBodyV1) : result CustodyError string :=
  cw_all
    [ cw_u16 (sob_schema_version b);
      cw_u16 (sob_protocol_version b);
      cw_digest (sob_receiver_key_identity_digest b);
      cw_digest (sob_sender_key_identity_digest b);
      cw_text (sob_sender_process_occurrence b);
      cw_text (sob_sender_monotonic_epoch b);
      cw_fixed_hex (sob_sender_nonce_hex b) 32 "sender offer nonce";
      cw_digest (sob_sender_manifest_digest b);
      cw_digest (sob_sender_qualification_certificate_digest b);
      cw_digest (sob_sender_activation_receipt_digest b);
      cw_digest (sob_sender_runtime_generation_set_digest b);
      cw_text (sob_observer b);
      cw_text (sob_failure_domain_claim b);
      cw_scopes (sob_permitted_subject_scopes b) ].
Definition read_sender_offer_body : cread SenderSessionOfferBodyV1 :=
  schema ← cr_u16; protocol ← cr_u16; receiver_key ← cr_digest; sender_key ← cr_digest;
  occurrence ← cr_text; epoch ← cr_text; nonce ← cr_fixed_hex 32; manifest ← cr_digest;
  certificate ← cr_digest; receipt ← cr_digest; generations ← cr_digest; observer ← cr_text;
  claim ← cr_text; scopes ← cr_scopes;
  mret (mkOfferBody schema protocol receiver_key sender_key occurrence epoch nonce manifest
          certificate receipt generations observer claim scopes).
Definition decode_sender_offer_body : string → result CustodyError SenderSessionOfferBodyV1 :=
  cr_body read_sender_offer_body offer_body_validate.

Definition encode_challenge_body (b : ReceiverSessionChallengeBodyV1) : result CustodyError string :=
  cw_all
    [ cw_u16 (rcb_schema_version b);
      cw_u16 (rcb_protocol_version b);
      cw_digest (rcb_receiver_key_identity_digest b);
      cw_digest (rcb_sender_session_offer_digest b);
      cw_text (rcb_receiver_process_occurrence b);
      cw_text (rcb_receiver_monotonic_epoch b);
      cw_fixed_hex (rcb_session_nonce_hex b) 32 "session nonce";
      cw_text (rcb_receiver_acceptance_policy_generation b);
      cw_digest (rcb_receiver_acceptance_policy_anchor_digest b);
      cw_digest (rcb_receiver_acceptance_policy_digest b);
      cw_digest (rcb_intended_sender_key_identity_digest b);
      cw_text (rcb_intended_sender_process_occurrence b);
      cw_digest (rcb_accepted_sender_manifest_digest b);
      cw_digest (rcb_accepted_sender_certificate_digest b);
      cw_u64 (rcb_issued_at_receiver_monotonic_ms b);
      cw_u64 (rcb_expires_at_receiver_monotonic_ms b);
      cw_u16 (rcb_maximum_envelope_bytes b);
      cw_u32 (rcb_maximum_messages b) ].
Definition read_challenge_body : cread ReceiverSessionChallengeBodyV1 :=
  schema ← cr_u16; protocol ← cr_u16; receiver_key ← cr_digest; offer ← cr_digest;
  occurrence ← cr_text; epoch ← cr_text; nonce ← cr_fixed_hex 32; generation ← cr_text;
  anchor ← cr_digest; policy ← cr_digest; sender_key ← cr_digest; sender_occurrence ← cr_text;
  manifest ← cr_digest; certificate ← cr_digest; issued ← cr_u64; expires ← cr_u64;
  maximum_envelope_bytes ← cr_u16; maximum_messages ← cr_u32;
  mret (mkChallengeBody schema protocol receiver_key offer occurrence epoch nonce generation anchor
          policy sender_key sender_occurrence manifest certificate issued expires
          maximum_envelope_bytes maximum_messages).
Definition decode_challenge_body : string → result CustodyError ReceiverSessionChallengeBodyV1 :=
  cr_body read_challenge_body challenge_body_validate.

Definition encode_binding_body (b : SenderSessionBindingBodyV1) : result CustodyError string :=
  cw_all
    [ cw_u16 (sbb_schema_version b);
      cw_u16 (sbb_protocol_version b);
      cw_digest (sbb_receiver_challenge_digest b);
      cw_digest (sbb_receiver_key_identity_digest b);
      cw_digest (sbb_sender_key_identity_digest b);
      cw_text (sbb_sender_process_occurrence b);
      cw_text (sbb_sender_monotonic_epoch b);
      cw_digest (sbb_sender_manifest_digest b);
      cw_digest (sbb_sender_qualification_certificate_digest b);
      cw_digest (sbb_sender_activation_receipt_digest b);
      cw_digest (sbb_sender_runtime_generation_set_digest b);
      cw_text (sbb_observer b);
      cw_text (sbb_failure_domain_claim b);
      cw_scopes (sbb_permitted_subject_scopes b);
      cw_u16 (sbb_observation_protocol_version b);
      cw_u64 (sbb_session_sequence_origin b);
      cw_u8 1 ].
Definition cr_tag {A} (value : A) (detail : string) : cread A :=
  tag ← cr_u8; cr_lift (ensure (tag =? 1) (malformed detail));; mret value.
Definition read_binding_body : cread SenderSessionBindingBodyV1 :=
  schema ← cr_u16; protocol ← cr_u16; challenge ← cr_digest; receiver_key ← cr_digest;
  sender_key ← cr_digest; occurrence ← cr_text; epoch ← cr_text; manifest ← cr_digest;
  certificate ← cr_digest; receipt ← cr_digest; generations ← cr_digest; observer ← cr_text;
  claim ← cr_text; scopes ← cr_scopes; observation_protocol ← cr_u16; origin ← cr_u64;
  binding_result ← cr_tag QualifiedAndMatchedAssertion "unknown sender binding-result tag";
  mret (mkBindingBody schema protocol challenge receiver_key sender_key occurrence epoch manifest
          certificate receipt generations observer claim scopes observation_protocol origin
          binding_result).
Definition decode_binding_body : string → result CustodyError SenderSessionBindingBodyV1 :=
  cr_body read_binding_body binding_body_validate.

Definition encode_receiver_session_acceptance_body (b : ReceiverSessionAcceptanceBodyV1)
  : result CustodyError string :=
  cw_all
    [ cw_u16 (rsb_schema_version b);
      cw_u16 (rsb_protocol_version b);
      cw_digest (rsb_receiver_challenge_digest b);
      cw_digest (rsb_sender_session_binding_digest b);
      cw_digest (rsb_receiver_key_identity_digest b);
      cw_digest (rsb_sender_key_identity_digest b);
      cw_text (rsb_receiver_process_occurrence b);
      cw_text (rsb_receiver_monotonic_epoch b);
      cw_text (rsb_sender_process_occurrence b);
      cw_digest (rsb_receiver_acceptance_policy_digest b);
      cw_u64 (rsb_accepted_at_receiver_monotonic_ms b);
      cw_u64 (rsb_expires_at_receiver_monotonic_ms b);
      cw_u32 (rsb_maximum_messages b) ].
Definition read_receiver_session_acceptance_body : cread ReceiverSessionAcceptanceBodyV1 :=
  schema ← cr_u16; protocol ← cr_u16; challenge ← cr_digest; binding ← cr_digest;
  receiver_key ← cr_digest; sender_key ← cr_digest; occurrence ← cr_text; epoch ← cr_text;
  sender_occurrence ← cr_text; policy ← cr_digest; accepted ← cr_u64; expires ← cr_u64;
  maximum_messages ← cr_u32;
  mret (mkAcceptanceBody schema protocol challenge binding receiver_key sender_key occurrence epoch
          sender_occurrence policy accepted expires maximum_messages).
Definition decode_receiver_session_acceptance_body
  : string → result CustodyError ReceiverSessionAcceptanceBodyV1 :=
  cr_body read_receiver_session_acceptance_body acceptance_body_validate.

Definition encode_envelope_body (b : ObservationCustodyEnvelopeBodyV1) : result CustodyError string :=
  cw_all
    [ cw_u16 (oeb_schema_version b);
      cw_u16 (oeb_protocol_version b);
      cw_digest (oeb_receiver_challenge_digest b);
      cw_digest (oeb_session_binding_digest b);
      cw_digest (oeb_receiver_key_identity_digest b);
      cw_digest (oeb_sender_key_identity_digest b);
      cw_text (oeb_sender_process_occurrence b);
      cw_text (oeb_sender_monotonic_epoch b);
      cw_digest (oeb_sender_manifest_digest b);
      cw_digest (oeb_sender_qualification_certificate_digest b);
      cw_digest (oeb_sender_activation_receipt_digest b);
      cw_text (oeb_observer b);
      cw_text (oeb_failure_domain_claim b);
      cw_scope (oeb_subject_scope b);
      cw_digest (oeb_observation_identity b);
      cw_u64 (oeb_observation_sequence b);
      cw_u64 (oeb_session_sequence b);
      cw_u8 1;
      (payload ← map_err from_type (payload_bytes b); cw_bytes payload);
      cw_digest (oeb_payload_digest b);
      cw_u64 (oeb_sender_observation_monotonic_ns b);
      cw_u64 (oeb_sender_emission_monotonic_ns b) ].
Definition read_envelope_body : cread ObservationCustodyEnvelopeBodyV1 :=
  schema ← cr_u16; protocol ← cr_u16; challenge ← cr_digest; binding ← cr_digest;
  receiver_key ← cr_digest; sender_key ← cr_digest; occurrence ← cr_text; epoch ← cr_text;
  manifest ← cr_digest; certificate ← cr_digest; receipt ← cr_digest; observer ← cr_text;
  claim ← cr_text; scope ← cr_scope; identity ← cr_digest; observation_sequence ← cr_u64;
  session_sequence ← cr_u64; kind ← cr_tag KindPulseV1 "unknown observation-kind tag";
  payload ← cr_bytes MAX_CUSTODY_PAYLOAD_BYTES; payload_digest ← cr_digest; observed ← cr_u64;
  emitted ← cr_u64;
  mret (mkEnvelopeBody schema protocol challenge binding receiver_key sender_key occurrence epoch
          manifest certificate receipt observer claim scope identity observation_sequence
          session_sequence kind (hex_encode payload) payload_digest observed emitted).
Definition decode_envelope_body `{Sha256} : string → result CustodyError ObservationCustodyEnvelopeBodyV1 :=
  cr_body read_envelope_body envelope_body_validate.

(* ------------------------------------------------------------------ *)
(** ** Signed datagrams *)

Definition DATAGRAM_MAGIC : string := "PCN1".
Definition DATAGRAM_HEADER_BYTES : Z := 9.
Definition SIGNATURE_BYTES : Z := 64.
Definition SENDER_SESSION_OFFER_KIND : Z := 1.
Definition CHALLENGE_KIND : Z := 2.
Definition SESSION_BINDING_KIND : Z := 3.
Definition RECEIVER_SESSION_ACCEPTANCE_KIND : Z := 4.
Definition OBSERVATION_ENVELOPE_KIND : Z := 5.

Definition encode_signed_datagram (kind : Z) (body signature : string) : result CustodyError string :=
  ensure (slen body <=? u16_max) (malformed "canonical signed body length exceeds u16");;
  let output := DATAGRAM_MAGIC +:+ be_bytes 2 CUSTODY_PROTOCOL_VERSION_V1 +:+ be_bytes 1 kind
                +:+ be_bytes 2 (slen body) +:+ body +:+ signature in
  ensure (negb (MAX_CANARY_DATAGRAM_BYTES <? slen output))
    (malformed "canonical signed datagram exceeds 1,232 bytes");;
  Ok output.

(** The fields of a header and what follows it. *)
Definition datagram_header (datagram : string) : option (string * Z * Z * Z * string) :=
  '(magic, rest) ← str_take 4 datagram;
  '(version, rest) ← str_take 2 rest;
  '(kind, rest) ← str_take 1 rest;
  '(body_length, rest) ← str_take 2 rest;
  Some (magic, be_value version, be_value kind, be_value body_length, rest).
Definition decode_signed_datagram (datagram : string) (expected_kind : Z)
  : result CustodyError (string * string) :=
  ensure (negb ((slen datagram =? 0) || (MAX_CANARY_DATAGRAM_BYTES <? slen datagram)))
    (malformed "datagram is empty or exceeds the fixed bound");;
  let invalid := malformed "datagram header, version, or message kind is invalid" in
  ensure (negb (slen datagram <? DATAGRAM_HEADER_BYTES + SIGNATURE_BYTES)) invalid;;
  match datagram_header datagram with
  | None => Err invalid
  | Some (magic, version, kind, body_length, rest) =>
      ensure (bool_decide (magic = DATAGRAM_MAGIC) && (version =? CUSTODY_PROTOCOL_VERSION_V1)
              && (kind =? expected_kind)) invalid;;
      let disagrees := malformed "datagram body length disagrees or trailing bytes are present" in
      ensure (slen datagram =? DATAGRAM_HEADER_BYTES + body_length + SIGNATURE_BYTES) disagrees;;
      match str_take (Z.to_nat body_length) rest with
      | Some (body, signature) => Ok (body, signature)
      | None => Err disagrees
      end
  end.

(** [signature_transcript]. *)
Definition signature_transcript (domain : CustodySignatureDomainV1) (body : string) : string :=
  be_bytes 2 (slen (domain_as_str domain)) +:+ domain_as_str domain +:+ be_bytes 8 (slen body) +:+ body.

Class SignatureScheme := {
  (** [SigningKey::verifying_key], [SigningKey::sign] and, for a public key
      and a message, [VerifyingKey::from_bytes] and [verify_strict]. *)
  public_key_of : string → string;
  raw_sign : string → string → string;
  key_error : string → option string;
  verify_strict : string → string → string → bool;
  public_key_length : ∀ k, String.length (public_key_of k) = 32%nat;
  signature_length : ∀ k m, String.length (raw_sign k m) = 64%nat;
  public_key_usable : ∀ k, key_error (public_key_of k) = None;
  signature_verifies : ∀ k m, verify_strict (public_key_of k) m (raw_sign k m) = true;
}.

Record CanarySigningIdentityV1 := mkSigningIdentity {
  si_signing_key : string;
  si_key_identity : PeerKeyIdentityV1;
}.

Section signing.
Context `{Sha256} `{CustodyPolicyJson} `{SignatureScheme}.

(** [CanarySigningIdentityV1::from_signing_key]. *)
Definition from_signing_key (signing_key : string) (role : CustodyPeerRoleV1)
    (accepted_scopes : list string) (local_acceptance_policy_id : string)
  : result CustodyError CanarySigningIdentityV1 :=
  let public := public_key_of signing_key in
  let key_identity :=
    {| pk_schema_version := SCHEMA_VERSION_V1;
       pk_protocol_version := CUSTODY_PROTOCOL_VERSION_V1;
       pk_algorithm := Ed25519;
       pk_role := role;
       pk_intended_peer_role :=
         match role with PeerSender => PeerReceiver | PeerReceiver => PeerSender end;
       pk_public_key_hex := hex_encode public;
       pk_public_key_digest := digest_parts "transport.ed25519.public-key.v1" [public];
       pk_accepted_scopes := accepted_scopes;
       pk_local_acceptance_policy_id := local_acceptance_policy_id |} in
  map_err from_type (peer_key_validate key_identity);;
  Ok (mkSigningIdentity signing_key key_identity).

(** [CanarySigningIdentityV1::sign]. *)
Definition custody_sign (s : CanarySigningIdentityV1) (domain : CustodySignatureDomainV1)
    (body : string) : string := raw_sign (si_signing_key s) (signature_transcript domain body).

Definition verify_signature (key : PeerKeyIdentityV1) (domain : CustodySignatureDomainV1)
    (body signature : string) : result CustodyError unit :=
  map_err from_type (peer_key_validate key);;
  public ← map_err from_type (decode_hex_exact (pk_public_key_hex key) 32 "public key");
  match key_error public with
  | Some error => Err (custody_error AuthenticationFailed ("invalid Ed25519 public key: " +:+ error))
  | None =>
      ensure (verify_strict public (signature_transcript domain body) signature)
        (custody_error SignatureInvalid "strict Ed25519 signature verification failed")
  end.
Definition verify_signature_in_domain (key : PeerKeyIdentityV1) (domain : CustodySignatureDomainV1)
    (body signature_hex : string) : result CustodyError unit :=
  signature ← map_err from_type (decode_hex_exact signature_hex 64 "signature");
  verify_signature key domain body signature.

Definition signed_object_digest (domain : CustodySignatureDomainV1) (body signature : string) : DigestV1 :=
  digest_parts "transport.signed-object.v1" [domain_as_str domain; body; signature].

(** The signed object of a body, its bytes and a signature by [signer]. *)
Definition signed_object {B} (domain : CustodySignatureDomainV1) (body : B)
    (body_bytes signature : string) (signer : PeerKeyIdentityV1) : Signed B :=
  mkSigned SCHEMA_VERSION_V1 (signed_object_digest domain body_bytes signature) body domain
    (peer_key_identity_digest signer) (hex_encode signature) custody_grants_none.

(** The functions [sign_...]: check the body, sign its bytes, check the object. *)
Definition sign_object {B} (check : B → result CustodyTypeError unit)
    (encode : B → result CustodyError string) (domain : CustodySignatureDomainV1) (kind : Z)
    (check_object : Signed B → result CustodyTypeError unit) (signing : CanarySigningIdentityV1)
    (body : B) : result CustodyError (Signed B * string) :=
  map_err from_type (check body);;
  body_bytes ← encode body;
  let signature := custody_sign signing domain body_bytes in
  let value := signed_object domain body body_bytes signature (si_key_identity signing) in
  map_err from_type (check_object value);;
  datagram ← encode_signed_datagram kind body_bytes signature;
  Ok (value, datagram).
Definition sign_sender_session_offer :=
  sign_object offer_body_validate encode_sender_offer_body DomainSenderSessionOffer
    SENDER_SESSION_OFFER_KIND offer_validate_structure.
Definition sign_receiver_challenge :=
  sign_object challenge_body_validate encode_challenge_body DomainReceiverSessionChallenge
    CHALLENGE_KIND challenge_validate_structure.
Definition sign_sender_session_binding :=
  sign_object binding_body_validate encode_binding_body DomainSenderSessionBinding
    SESSION_BINDING_KIND binding_validate_structure.
Definition sign_receiver_session_acceptance :=
  sign_object acceptance_body_validate encode_receiver_session_acceptance_body
    DomainReceiverSessionAcceptance RECEIVER_SESSION_ACCEPTANCE_KIND acceptance_validate_structure.
Definition sign_observation_envelope :=
  sign_object envelope_body_validate encode_envelope_body DomainObservationCustodyEnvelope
    OBSERVATION_ENVELOPE_KIND envelope_validate_structure.

(** The functions [decode_..._datagram]: split, decode, verify, check; [body_policy]
    is what the receiver checks of an envelope's body before its signature. *)
Definition decode_object {B} (decode : string → result CustodyError B)
    (domain : CustodySignatureDomainV1) (kind : Z)
    (check_object : Signed B → result CustodyTypeError unit) (body_policy : B → result CustodyError unit)
    (datagram : string) (expected_key : PeerKeyIdentityV1) : result CustodyError (Signed B) :=
  '(body_bytes, signature) ← decode_signed_datagram datagram kind;
  body ← decode body_bytes;
  body_policy body;;
  verify_signature expected_key domain body_bytes signature;;
  let value := signed_object domain body body_bytes signature expected_key in
  map_err from_type (check_object value);;
  Ok value.
Definition admit_any {B} (b : B) : result CustodyError unit := Ok tt.
Definition decode_sender_session_offer_datagram :=
  decode_object decode_sender_offer_body DomainSenderSessionOffer SENDER_SESSION_OFFER_KIND
    offer_validate_structure admit_any.
Definition decode_receiver_challenge_datagram :=
  decode_object decode_challenge_body DomainReceiverSessionChallenge CHALLENGE_KIND
    challenge_validate_structure admit_any.
Definition decode_sender_session_binding_datagram :=
  decode_object decode_binding_body DomainSenderSessionBinding SESSION_BINDING_KIND
    binding_validate_structure admit_any.
Definition decode_receiver_session_acceptance_datagram :=
  decode_object decode_receiver_session_acceptance_body DomainReceiverSessionAcceptance
    RECEIVER_SESSION_ACCEPTANCE_KIND acceptance_validate_structure admit_any.
Definition decode_observation_envelope_datagram :=
  decode_object decode_envelope_body DomainObservationCustodyEnvelope OBSERVATION_ENVELOPE_KIND
    envelope_validate_structure admit_any.
Definition decode_envelope_digest_without_auth (bytes : string) : option DigestV1 :=
  match decode_signed_datagram bytes OBSERVATION_ENVELOPE_KIND with
  | Ok (body, signature) =>
      Some (signed_object_digest DomainObservationCustodyEnvelope body signature)
  | Err _ => None
  end.
End signing.
