(* ===== verification/CustodyWireProps.v ===== *)
(** * The custody wire format is exact

    Every message body that validates has one encoding and reads back from it;
    nothing else is accepted.  A signature is about one domain and one body. *)

From S2P Require Import Prelude Ids Digest Judgment Qualification CustodyTypes CustodyRecords.
From S2P Require Import CustodyWire.

(* ------------------------------------------------------------------ *)
(** ** Hexadecimal text *)

Lemma hex_nibble_digit z : 0 <= z < 16 → hex_nibble (hex_digit z) = Some z.
Proof.
  intros Hz. unfold hex_nibble. rewrite hex_digit_val by done.
  destruct (z <? 10) eqn:E; repeat case_match; try lia; f_equal; lia.
Qed.
Lemma hex_nibble_Some c z : hex_nibble c = Some z → 0 <= z < 16 ∧ c = hex_digit z.
Proof.
  unfold hex_nibble, hex_digit. intros H.
  assert (Hc : c = byte_of (byte_val c)) by (by rewrite byte_of_val).
  repeat case_match; simplify_eq; split; try lia; rewrite Hc at 1; f_equal; lia.
Qed.
Lemma nibble_lor h l : 0 <= h < 16 → 0 <= l < 16 → Z.lor (Z.shiftl h 4) l = 16 * h + l.
Proof.
  intros Hh Hl. rewrite Z.shiftl_mul_pow2 by lia.
  assert (Hdisjoint : Z.land (h * 2 ^ 4) l = 0).
  { apply Z.bits_inj'. intros n Hn. rewrite Z.land_spec, Z.bits_0.
    destruct (Z.lt_ge_cases n 4); [by rewrite Z.mul_pow2_bits_low|].
    rewrite (Z.bits_above_log2 l n), andb_false_r; [done|lia|].
    destruct (decide (l = 0)) as [->|]; [cbn; lia|].
    apply (Z.lt_le_trans _ 4); [apply Z.log2_lt_pow2; lia|lia]. }
  rewrite <- Z.lxor_lor, <- Z.add_nocarry_lxor by done. lia.
Qed.
Lemma hex_pairs_encode s : hex_pairs (hex_encode s) = Some s.
Proof.
  induction s as [|c s IH]; [done|]. cbn [hex_encode hex_pairs].
  destruct (nibbles c) as [Hh Hl]. rewrite !hex_nibble_digit by done. cbn [mbind option_bind].
  rewrite IH. cbn [mbind option_bind]. rewrite nibble_lor by done.
  rewrite <- Z.div_mod by lia. by rewrite byte_of_val.
Qed.
Lemma hex_pairs_Some text bytes :
  Nat.Even (String.length text) → hex_pairs text = Some bytes → text = hex_encode bytes.
Proof.
  revert bytes. induction text as [text IH] using (induction_ltof1 _ String.length).
  destruct text as [|a [|b rest]]; cbn [hex_pairs]; intros bytes Heven Hp.
  - by injection Hp as <-.
  - destruct Heven as [n Hn]. cbn in Hn. lia.
  - destruct (hex_nibble a) as [h|] eqn:Ha; [|done]. destruct (hex_nibble b) as [l|] eqn:Hb; [|done].
    cbn [mbind option_bind] in Hp. destruct (hex_pairs rest) as [out|] eqn:Hr; [|done].
    injection Hp as <-. apply hex_nibble_Some in Ha as [Hh ->], Hb as [Hl ->].
    cbn [hex_encode]. rewrite nibble_lor, byte_val_of by lia.
    rewrite (IH rest) with (bytes := out); [|unfold ltof; cbn; lia| |done].
    + rewrite <- (Z.div_unique (16 * h + l) 16 h l), <- (Z.mod_unique (16 * h + l) 16 h l) by lia.
      done.
    + destruct Heven as [n Hn]. exists (n - 1)%nat. cbn in Hn. lia.
Qed.
Lemma decode_hex_bounded_Ok text maximum field bytes :
  decode_hex_bounded text maximum field = Ok bytes ↔ text = hex_encode bytes ∧ slen bytes <= maximum.
Proof.
  unfold decode_hex_bounded. split.
  - intros Hd. inv_ok Hd. apply ensure_Ok in Hok. split_and_bool.
    destruct (hex_pairs text) as [out|] eqn:Hp; [|done]. injection Hd as <-.
    assert (Heven : Nat.Even (String.length text)).
    { exists (String.length text / 2)%nat. unfold slen in *.
      pose proof (Z.div_mod (Z.of_nat (String.length text)) 2). rewrite <- (Nat2Z.id (_ / 2)).
      rewrite Nat2Z.inj_div. lia. }
    apply hex_pairs_Some in Hp as ->; [|done]. split; [done|].
    unfold slen in *. rewrite hex_encode_length in *. rewrite Nat2Z.inj_mul in *.
    rewrite Z.mul_comm, Z.div_mul in * by lia. lia.
  - intros [-> Hlen]. rewrite hex_pairs_encode. unfold slen in *. rewrite hex_encode_length.
    rewrite Nat2Z.inj_mul, Z.mul_comm, Z.mod_mul, Z.div_mul by lia.
    cbn. by rewrite (proj2 (Z.ltb_ge _ _)).
Qed.
Lemma decode_hex_exact_Ok text expected field bytes :
  decode_hex_exact text expected field = Ok bytes ↔ text = hex_encode bytes ∧ slen bytes = expected.
Proof.
  unfold decode_hex_exact. split.
  - intros Hd. inv_ok Hd. injection Hd as <-. apply ensure_Ok in Hok0.
    apply decode_hex_bounded_Ok in Hok as [-> ?]. split; [done|]. lia.
  - intros [-> Hlen]. rewrite (proj2 (decode_hex_bounded_Ok _ _ _ bytes)) by (split; [done|lia]).
    cbn. by rewrite (proj2 (Z.eqb_eq _ _) Hlen).
Qed.

(** A digest that validates is the text of 32 bytes. *)
Lemma canonical_hex_nibble c : canonical_hex c = true → ∃ z, hex_nibble c = Some z.
Proof.
  unfold canonical_hex, hex_nibble. intros Hc.
  destruct ((48 <=? byte_val c) && (byte_val c <=? 57)); [by eauto|].
  cbn in Hc. rewrite Hc. by eauto.
Qed.
Lemma hex_pairs_total text :
  str_all canonical_hex text = true → Nat.Even (String.length text) → ∃ raw, text = hex_encode raw.
Proof.
  intros Hall Heven. assert (Hp : ∃ raw, hex_pairs text = Some raw).
  { clear Heven. induction text as [text IH] using (induction_ltof1 _ String.length).
    destruct text as [|a [|b rest]]; cbn [hex_pairs]; [by eauto..|].
    cbn [str_all] in Hall. split_and_bool.
    destruct (canonical_hex_nibble a) as [x Hx], (canonical_hex_nibble b) as [y Hy]; [done..|].
    destruct (IH rest) as [raw Hr]; [unfold ltof; cbn; lia|done|].
    rewrite Hx. cbn. rewrite Hy. cbn. rewrite Hr. by eauto. }
  destruct Hp as [raw Hp]. exists raw. by apply hex_pairs_Some.
Qed.
Lemma digest_validate_raw d :
  digest_validate d = Ok tt → ∃ raw, d = "sha256:" +:+ hex_encode raw ∧ String.length raw = 32%nat.
Proof.
  unfold digest_validate. destruct (strip_prefix "sha256:" d) as [hex|] eqn:E; [|done].
  apply strip_prefix_Some in E as ->. intros Hd. inv_oks.
  apply Z.eqb_eq in Hok. unfold slen in Hok.
  destruct (hex_pairs_total hex) as [raw ->]; [done|exists 32%nat; lia|].
  exists raw. split; [done|]. rewrite hex_encode_length in Hok. lia.
Qed.
Lemma trim_hex_digest raw :
  trim_start_matches "sha256:" ("sha256:" +:+ hex_encode raw) = hex_encode raw.
Proof.
  assert (Hno : strip_prefix "sha256:" (hex_encode raw) = None).
  { destruct raw as [|c raw]; [done|]. destruct (nibbles c) as [Hh _].
    cbn [hex_encode strip_prefix].
    destruct (Ascii.eqb_spec "s" (hex_digit (byte_val c / 16))) as [E|]; [|done].
    apply (f_equal byte_val) in E. rewrite hex_digit_val in E by done.
    change (byte_val "s") with 115 in E. destruct (_ <? 10) eqn:?; lia. }
  unfold trim_start_matches. rewrite str_length_app. cbn [String.length Nat.add].
  cbn [trim_start_fuel].
  replace (strip_prefix "sha256:" ("sha256:" +:+ hex_encode raw)) with (Some (hex_encode raw))
    by (symmetry; by apply strip_prefix_Some).
  cbn [trim_start_fuel]. by rewrite Hno.
Qed.

(* ------------------------------------------------------------------ *)
(** ** Codecs *)

(** A reader and a writer that invert each other on the values satisfying [ok]. *)
Class Codec {A} (read : cread A) (write : A → result CustodyError string) (ok : A → Prop) : Prop := {
  cc_fwd a x rest : ok a → write a = Ok x → read (x +:+ rest) = Ok (a, rest);
  cc_bwd bytes a rest :
    read bytes = Ok (a, rest) → ok a ∧ ∃ x, write a = Ok x ∧ bytes = x +:+ rest;
}.

Lemma cr_bind_inv {A B} (m : cread A) (k : A → cread B) bytes b rest' :
  (m ≫= k) bytes = Ok (b, rest') → ∃ a rest, m bytes = Ok (a, rest) ∧ k a rest = Ok (b, rest').
Proof. unfold mbind, cread_bind. destruct (m bytes) as [[a rest]|]; [eauto|done]. Qed.
Lemma cr_bind_step {A B} (m : cread A) (k : A → cread B) bytes a rest :
  m bytes = Ok (a, rest) → (m ≫= k) bytes = k a rest.
Proof. unfold mbind, cread_bind. by intros ->. Qed.
Lemma cr_lift_inv {A} (r : result CustodyError A) bytes a rest :
  cr_lift r bytes = Ok (a, rest) → r = Ok a ∧ rest = bytes.
Proof. unfold cr_lift. destruct r; [by intros [= -> ->]|done]. Qed.
Lemma cr_fixed_inv n bytes a rest :
  cr_fixed n bytes = Ok (a, rest) ↔ bytes = a +:+ rest ∧ String.length a = n.
Proof.
  rewrite <-str_take_Some. unfold cr_fixed.
  destruct (str_take n bytes) as [[]|]; split; try done; by intros [= <- <-].
Qed.
Ltac cr_inv H :=
  let a := fresh "v" in let r := fresh "rest" in let Hr := fresh "Hrd" in
  apply cr_bind_inv in H; destruct H as (a & r & Hr & H).

Lemma codec_number k :
  Codec (b ← cr_fixed k; mret (be_value b)) (fun z => Ok (be_bytes k z))
    (fun z => 0 <= z < 256 ^ Z.of_nat k).
Proof.
  split.
  - intros z x rest Hz [= <-]. rewrite (cr_bind_step _ _ _ (be_bytes k z) rest).
    { cbn. by rewrite be_roundtrip. }
    apply cr_fixed_inv. by rewrite be_bytes_length.
  - intros bytes z rest Hr. cr_inv Hr. apply cr_fixed_inv in Hrd as [-> <-]. injection Hr as <- <-.
    split; [apply be_value_range|]. eexists. split; [done|]. by rewrite be_bytes_be_value.
Qed.
Lemma codec_weaken {A} (r : cread A) w (P Q : A → Prop) :
  Codec r w P → (∀ a, P a ↔ Q a) → Codec r w Q.
Proof.
  intros [F B] Heq. split; [intros; apply F; [by apply Heq|done]|].
  intros bytes a rest Hr. apply B in Hr as [? ?]. split; [by apply Heq|done].
Qed.
#[global] Instance codec_cu8 : Codec cr_u8 cw_u8 (fun z => 0 <= z < 256).
Proof. apply (codec_number 1). Qed.
#[global] Instance codec_cu16 : Codec cr_u16 cw_u16 (fun z => is_u16 z = true).
Proof.
  eapply codec_weaken; [apply (codec_number 2)|]. intros z. unfold is_u16, u16_max.
  rewrite andb_true_iff. cbn. lia.
Qed.
#[global] Instance codec_cu32 : Codec cr_u32 cw_u32 (fun z => is_u32 z = true).
Proof.
  eapply codec_weaken; [apply (codec_number 4)|]. intros z. unfold is_u32, u32_max.
  rewrite andb_true_iff. cbn. lia.
Qed.
#[global] Instance codec_cu64 : Codec cr_u64 cw_u64 (fun z => is_u64 z = true).
Proof.
  eapply codec_weaken; [apply (codec_number 8)|]. intros z. unfold is_u64, u64_max.
  rewrite andb_true_iff. cbn. lia.
Qed.

Lemma cw_text_Ok value x :
  cw_text value = Ok x ↔
  (1 <= slen value <= MAX_CUSTODY_TEXT_BYTES ∧ has_control value = false)
  ∧ x = be_bytes 2 (slen value) +:+ value.
Proof.
  unfold cw_text. pose proof (slen_nonneg value). unfold MAX_CUSTODY_TEXT_BYTES, u16_max in *. split.
  - intros Hw. inv_ok Hw. injection Hw as <-. apply ensure_Ok in Hok0. split_and_bool.
    split; [|done]. split; [lia|done].
  - intros [[Hlen Hc] ->]. rewrite (proj2 (Z.leb_le _ _)), (proj2 (Z.eqb_neq _ _)), (proj2 (Z.ltb_ge _ _)), Hc by lia.
    done.
Qed.
Lemma fixed_slen n bytes a rest : 0 <= n → cr_fixed (Z.to_nat n) bytes = Ok (a, rest) → bytes = a +:+ rest ∧ slen a = n.
Proof. intros Hn [-> Hl]%cr_fixed_inv. split; [done|]. unfold slen. lia. Qed.
Lemma fixed_self s rest : cr_fixed (Z.to_nat (slen s)) (s +:+ rest) = Ok (s, rest).
Proof. apply cr_fixed_inv. unfold slen. by rewrite Nat2Z.id. Qed.
#[global] Instance codec_text : Codec cr_text cw_text (fun s => is_utf8 s = true).
Proof.
  split.
  - intros s x rest Hs [[Hlen Hc] ->]%cw_text_Ok. unfold cr_text. rewrite str_app_assoc.
    unfold MAX_CUSTODY_TEXT_BYTES in *.
    rewrite (cr_bind_step _ _ _ (slen s) (s +:+ rest)).
    2: { apply (cc_fwd (write := cw_u16)); [|done]. unfold is_u16, u16_max. lia. }
    rewrite (proj2 (Z.eqb_neq _ _)), (proj2 (Z.ltb_ge _ _)) by lia.
    rewrite (cr_bind_step _ _ _ tt (s +:+ rest)) by done.
    rewrite (cr_bind_step _ _ _ s rest) by apply fixed_self. by rewrite Hs, Hc.
  - intros bytes s rest Hr. unfold cr_text in Hr.
    cr_inv Hr. apply (cc_bwd (write := cw_u16)) in Hrd as [Hu (x & [= <-] & ->)].
    unfold is_u16 in Hu. cr_inv Hr. apply cr_lift_inv in Hrd as [Hlen ->]. apply ensure_Ok in Hlen.
    cr_inv Hr. apply fixed_slen in Hrd as [-> <-]; [|lia].
    cr_inv Hr. apply cr_lift_inv in Hrd as [Hutf ->]. apply ensure_Ok in Hutf.
    cr_inv Hr. apply cr_lift_inv in Hrd as [Hc ->]. apply ensure_Ok in Hc. injection Hr as <- <-.
    split; [done|]. eexists. rewrite cw_text_Ok. split; [split; [|done]|by rewrite str_app_assoc].
    split_and_bool. split; [lia|done].
Qed.
#[global] Instance codec_digest : Codec cr_digest cw_digest (fun _ => True).
Proof.
  split.
  - intros d x rest _ Hw. unfold cw_digest in Hw. inv_ok Hw. apply map_err_Ok in Hok. destruct (digest_validate_raw _ Hok) as (raw&->&Hl).
    rewrite trim_hex_digest in Hw. apply decode_hex_exact_Ok in Hw as [E _].
    apply (f_equal hex_pairs) in E. rewrite !hex_pairs_encode in E. injection E as <-.
    unfold cr_digest. rewrite (cr_bind_step _ _ _ raw rest) by (by apply cr_fixed_inv).
    unfold mbind at 1, cread_bind. by rewrite Hok.
  - intros bytes d rest Hr. unfold cr_digest in Hr. cr_inv Hr. apply cr_fixed_inv in Hrd as [-> Hl].
    cr_inv Hr. apply cr_lift_inv in Hrd as [Hv ->]. injection Hr as <- <-. split; [done|].
    exists v. split; [|done]. unfold cw_digest. destruct v0. rewrite Hv. cbn. rewrite trim_hex_digest.
    rewrite (proj2 (decode_hex_exact_Ok _ _ _ v)); [done|]. split; [done|]. unfold slen. by rewrite Hl.
Qed.
(** The field's name is in the errors only. *)
Lemma cw_fixed_hex_field v n field field' x :
  cw_fixed_hex v n field = Ok x → cw_fixed_hex v n field' = Ok x.
Proof. unfold cw_fixed_hex. intros Hw. inv_ok Hw. apply decode_hex_exact_Ok in Hw. by rewrite (proj2 (decode_hex_exact_Ok _ _ _ x)). Qed.
#[global] Instance codec_fixed_hex :
  Codec (cr_fixed_hex 32) (fun v => cw_fixed_hex v 32 "") (fun _ => True).
Proof.
  split.
  - intros v x rest _ Hw. unfold cw_fixed_hex in Hw. inv_ok Hw.
    apply decode_hex_exact_Ok in Hw as [-> Hl]. unfold cr_fixed_hex.
    rewrite (cr_bind_step _ _ _ x rest); [done|]. apply cr_fixed_inv. split; [done|]. unfold slen in Hl. lia.
  - intros bytes v rest Hr. unfold cr_fixed_hex in Hr. cr_inv Hr.
    apply cr_fixed_inv in Hrd as [-> Hl]. injection Hr as <- <-. split; [done|]. exists v0. split; [|done].
    unfold cw_fixed_hex. rewrite (proj2 (decode_hex_exact_Ok _ _ _ v0)); [done|].
    split; [done|]. unfold slen. by rewrite Hl.
Qed.
#[global] Instance codec_bytes maximum :
  TCEq (maximum <=? u16_max) true → Codec (cr_bytes maximum) cw_bytes (fun s => slen s <= maximum).
Proof.
  intros Hm%TCEq_eq. apply Z.leb_le in Hm. split.
  - intros s x rest Hs Hw. unfold cw_bytes in Hw. inv_ok Hw. injection Hw as <-.
    unfold cr_bytes. rewrite str_app_assoc. pose proof (slen_nonneg s).
    rewrite (cr_bind_step _ _ _ (slen s) (s +:+ rest)).
    2: { apply (cc_fwd (write := cw_u16)); [|done]. unfold is_u16. lia. }
    rewrite (proj2 (Z.ltb_ge _ _)) by lia. apply fixed_self.
  - intros bytes s rest Hr. unfold cr_bytes in Hr.
    cr_inv Hr. apply (cc_bwd (write := cw_u16)) in Hrd as [Hu (x & [= <-] & ->)]. unfold is_u16 in Hu.
    cr_inv Hr. apply cr_lift_inv in Hrd as [Hlen ->]. apply ensure_Ok in Hlen.
    apply fixed_slen in Hr as [-> <-]; [|lia]. split_and_bool. split; [lia|].
    eexists. unfold cw_bytes. rewrite (proj2 (Z.leb_le _ _)) by lia. split; [done|by rewrite str_app_assoc].
Qed.
#[global] Instance codec_tag {A} (value : A) detail :
  Codec (cr_tag value detail) (fun _ => cw_u8 1) (fun a => a = value).
Proof.
  split.
  - intros a x rest -> [= <-]. unfold cr_tag.
    by rewrite (cr_bind_step _ _ _ 1 rest) by (by apply (cc_fwd (write := cw_u8))).
  - intros bytes a rest Hr. unfold cr_tag in Hr. cr_inv Hr.
    apply (cc_bwd (write := cw_u8)) in Hrd as [_ (x & Hx & ->)]. cr_inv Hr.
    apply cr_lift_inv in Hrd as [Ht ->]. apply ensure_Ok in Ht. injection Hr as <- <-. split; [done|].
    exists x. split; [|done]. rewrite <- Hx. f_equal. lia.
Qed.

(** Sequences of writes. *)
Definition writes (ws : list (result CustodyError string)) (bytes rest : string) : Prop :=
  ∃ x, cw_all ws = Ok x ∧ bytes = x +:+ rest.
Lemma writes_nil rest : writes [] rest rest.
Proof. by exists "". Qed.
Lemma writes_cons w ws x bytes rest :
  w = Ok x → writes ws bytes rest → writes (w :: ws) (x +:+ bytes) rest.
Proof. intros -> (y&Hy&->). exists (x +:+ y). cbn. rewrite Hy. by rewrite str_app_assoc. Qed.
Lemma writes_inv w ws bytes rest :
  writes (w :: ws) bytes rest → ∃ x tail, w = Ok x ∧ writes ws tail rest ∧ bytes = x +:+ tail.
Proof.
  intros (y&Hy&->). cbn in Hy. inv_ok Hy. injection Hy as <-. exists a, (a0 +:+ rest).
  split; [done|]. split; [by exists a0|]. by rewrite str_app_assoc.
Qed.
Lemma read_next {A B} (r : cread A) (w : A → result CustodyError string) (P : A → Prop)
    `{!Codec r w P} (k : A → cread B) a x tail :
  w a = Ok x → P a → (r ≫= k) (x +:+ tail) = k a tail.
Proof. intros Hw HP. apply cr_bind_step. by apply cc_fwd. Qed.
Lemma read_back {A B} (r : cread A) (w : A → result CustodyError string) (P : A → Prop)
    `{!Codec r w P} (k : A → cread B) bytes b rest :
  (r ≫= k) bytes = Ok (b, rest) →
  ∃ a x tail, P a ∧ w a = Ok x ∧ bytes = x +:+ tail ∧ k a tail = Ok (b, rest).
Proof. intros (a&tail&Hr&Hk)%cr_bind_inv. apply cc_bwd in Hr as (?&x&?&->). by eauto 10. Qed.

(** One field of a body, forward and back. *)
Ltac write_step H :=
  let x := fresh "x" in let tail := fresh "tail" in let Hx := fresh "Hx" in
  apply writes_inv in H; destruct H as (x & tail & Hx & H & ->);
  etransitivity;
    [eapply read_next;
     [typeclasses eauto|first [exact Hx|exact (cw_fixed_hex_field _ _ _ _ _ Hx)]|try done]|].
Ltac read_step H :=
  let a := fresh "a" in let x := fresh "x" in let tail := fresh "tail" in
  let Ha := fresh "Ha" in let Hx := fresh "Hx" in
  eapply read_back in H; [|typeclasses eauto]; destruct H as (a & x & tail & Ha & Hx & -> & H);
  cbv beta in Ha, Hx.
Ltac write_done H := destruct H as (? & [= <-] & ->); done.
Ltac read_done H :=
  injection H as <- <-;
  repeat (eapply writes_cons;
          [first [eassumption|eapply cw_fixed_hex_field; eassumption]|]);
  apply writes_nil.

Definition scope_utf8 (s : SubjectScopeV1) : bool :=
  is_utf8 (ss_subject s) && is_utf8 (ss_subject_incarnation s) && is_utf8 (ss_scope s).
#[global] Instance codec_scope : Codec cr_scope cw_scope (fun s => scope_utf8 s = true).
Proof.
  split.
  - intros [a b c] x rest Hs Hw. unfold scope_utf8 in Hs. split_and_bool. cbn in *.
    assert (H3 : writes [cw_text a; cw_text b; cw_text c] (x +:+ rest) rest) by (by exists x).
    revert H3. generalize (x +:+ rest). intros bytes H3. do 3 write_step H3. write_done H3.
  - intros bytes s rest Hr. unfold cr_scope in Hr. do 3 read_step Hr. injection Hr as <- <-.
    split; [unfold scope_utf8; cbn; by rewrite Ha, Ha0, Ha1|].
    unfold cw_scope. cbn [ss_subject ss_subject_incarnation ss_scope].
    repeat (eapply writes_cons; [eassumption|]); apply writes_nil.
Qed.
Lemma codec_each {A} (r : cread A) w P n :
  Codec r w P →
  Codec (cr_repeat n r) (fun xs => cw_all (w <$> xs)) (fun xs => length xs = n ∧ Forall P xs).
Proof.
  intros HC. split.
  - intros xs. revert n. induction xs as [|x xs IH]; intros n b rest [<- HP] Hb.
    { by injection Hb as <-. }
    apply Forall_cons in HP as [Hx HP]. cbn in Hb. inv_ok Hb. injection Hb as <-.
    rewrite str_app_assoc. cbn [cr_repeat length].
    rewrite (read_next r w P _ x a (a0 +:+ rest)) by done.
    rewrite (cr_bind_step _ _ _ xs rest); [done|]. by apply IH.
  - induction n as [|n IH]; intros bytes xs rest Hr; cbn [cr_repeat] in Hr.
    { injection Hr as <- <-. split; [by split|]. by exists "". }
    apply (read_back r w P) in Hr as (a&x&tail&Ha&Hx&->&Hr). cr_inv Hr.
    apply IH in Hrd as [[Hlen HP] (y&Hy&->)]. injection Hr as <- <-.
    split; [split; [cbn; by rewrite Hlen|by constructor]|].
    exists (x +:+ y). cbn. rewrite Hx. cbn. rewrite Hy. by rewrite str_app_assoc.
Qed.
Definition scopes_ok (scopes : list SubjectScopeV1) : Prop :=
  1 <= Z.of_nat (length scopes) <= MAX_CUSTODY_SCOPES ∧ Forall (λ s, scope_utf8 s = true) scopes.
#[global] Instance codec_scopes : Codec cr_scopes cw_scopes scopes_ok.
Proof.
  split.
  - intros scopes x rest [Hlen Hall] Hw. unfold cw_scopes in Hw. inv_ok Hw. cbn in Hw. inv_ok Hw.
    injection Hw as <-. unfold MAX_CUSTODY_SCOPES in *. unfold cr_scopes. rewrite str_app_assoc.
    rewrite (read_next cr_u8 cw_u8 _ _ (Z.of_nat (length scopes)) (be_bytes 1 _)) by (done || lia).
    unfold MAX_CUSTODY_SCOPES. rewrite (proj2 (Z.eqb_neq _ _)), (proj2 (Z.ltb_ge _ _)) by lia.
    rewrite Nat2Z.id. by apply (codec_each cr_scope cw_scope _ (length scopes) codec_scope).
  - intros bytes scopes rest Hr. unfold cr_scopes in Hr.
    apply (read_back cr_u8 cw_u8 (λ z, 0 <= z < 256)) in Hr as (n&x&tail&Hn&[= <-]&->&Hr).
    cbv beta in Hn. cr_inv Hr.
    apply cr_lift_inv in Hrd as [Hc ->]. apply ensure_Ok in Hc. split_and_bool.
    apply (codec_each cr_scope cw_scope _ _ codec_scope) in Hr as ([Hl Hall]&y&Hy&->).
    assert (n = Z.of_nat (length scopes)) as -> by lia. unfold MAX_CUSTODY_SCOPES in *.
    split; [split; [unfold MAX_CUSTODY_SCOPES; lia|done]|]. exists (be_bytes 1 (Z.of_nat (length scopes)) +:+ y).
    unfold cw_scopes. rewrite (proj2 (Z.leb_le _ _)) by lia. cbn. rewrite Hy. by rewrite str_app_assoc.
Qed.

(* ------------------------------------------------------------------ *)
(** ** Bodies *)

(** What the types of a body's fields guarantee: integers in range, texts that
    are UTF-8. *)
Definition offer_wf (b : SenderSessionOfferBodyV1) : bool :=
  is_u16 (sob_schema_version b) && is_u16 (sob_protocol_version b)
  && forallb is_utf8 [ sob_sender_process_occurrence b; sob_sender_monotonic_epoch b; sob_observer b;
                       sob_failure_domain_claim b ]
  && forallb scope_utf8 (sob_permitted_subject_scopes b).
Definition challenge_wf (b : ReceiverSessionChallengeBodyV1) : bool :=
  is_u16 (rcb_schema_version b) && is_u16 (rcb_protocol_version b)
  && forallb is_utf8 [ rcb_receiver_process_occurrence b; rcb_receiver_monotonic_epoch b;
                       rcb_receiver_acceptance_policy_generation b;
                       rcb_intended_sender_process_occurrence b ]
  && is_u64 (rcb_issued_at_receiver_monotonic_ms b) && is_u64 (rcb_expires_at_receiver_monotonic_ms b)
  && is_u16 (rcb_maximum_envelope_bytes b) && is_u32 (rcb_maximum_messages b).
Definition binding_wf (b : SenderSessionBindingBodyV1) : bool :=
  is_u16 (sbb_schema_version b) && is_u16 (sbb_protocol_version b)
  && forallb is_utf8 [ sbb_sender_process_occurrence b; sbb_sender_monotonic_epoch b; sbb_observer b;
                       sbb_failure_domain_claim b ]
  && forallb scope_utf8 (sbb_permitted_subject_scopes b)
  && is_u16 (sbb_observation_protocol_version b) && is_u64 (sbb_session_sequence_origin b).
Definition acceptance_wf (b : ReceiverSessionAcceptanceBodyV1) : bool :=
  is_u16 (rsb_schema_version b) && is_u16 (rsb_protocol_version b)
  && forallb is_utf8 [ rsb_receiver_process_occurrence b; rsb_receiver_monotonic_epoch b;
                       rsb_sender_process_occurrence b ]
  && is_u64 (rsb_accepted_at_receiver_monotonic_ms b)
  && is_u64 (rsb_expires_at_receiver_monotonic_ms b) && is_u32 (rsb_maximum_messages b).
Definition envelope_wf (b : ObservationCustodyEnvelopeBodyV1) : bool :=
  is_u16 (oeb_schema_version b) && is_u16 (oeb_protocol_version b)
  && forallb is_utf8 [ oeb_sender_process_occurrence b; oeb_sender_monotonic_epoch b; oeb_observer b;
                       oeb_failure_domain_claim b ]
  && scope_utf8 (oeb_subject_scope b)
  && is_u64 (oeb_observation_sequence b) && is_u64 (oeb_session_sequence b)
  && is_u64 (oeb_sender_observation_monotonic_ns b) && is_u64 (oeb_sender_emission_monotonic_ns b).

Lemma custody_scopes_ok scopes :
  custody_scopes scopes = Ok tt → forallb scope_utf8 scopes = true → scopes_ok scopes.
Proof.
  unfold custody_scopes. intros Hv Hutf. inv_ok Hv. apply ensure_Ok in Hok. split_and_bool.
  split; [lia|]. by apply forallb_Forall.
Qed.

(** A reader of bodies inverts the writer, both ways. *)
Record body_codec {B} (check : B → result CustodyTypeError unit) (encode : B → result CustodyError string)
    (read : cread B) (wf : B → bool) : Prop := {
  bc_fwd b bytes :
    check b = Ok tt → wf b = true → encode b = Ok bytes → read bytes = Ok (b, "");
  bc_bwd bytes b : read bytes = Ok (b, "") → encode b = Ok bytes ∧ wf b = true;
}.
Lemma encoded_writes ws bytes : cw_all ws = Ok bytes → writes ws bytes "".
Proof. intros Hw. exists bytes. by rewrite str_app_nil_r. Qed.
Lemma writes_encoded ws bytes : writes ws bytes "" → cw_all ws = Ok bytes.
Proof. intros (x&Hx&->). by rewrite str_app_nil_r. Qed.
Ltac wf_done H wf :=
  injection H as <- _; unfold wf; cbn; rewrite ?andb_true_r, ?andb_true_iff; split_and?; try done;
  try (apply forallb_Forall; by match goal with Hs : scopes_ok _ |- _ => destruct Hs end).
Ltac wf_parts H :=
  cbn [forallb] in H; rewrite ?andb_true_r in H; split_and_bool.

Lemma offer_codec :
  body_codec offer_body_validate encode_sender_offer_body read_sender_offer_body offer_wf.
Proof.
  split.
  - intros b bytes Hv Hwf Hw%encoded_writes. unfold offer_wf in Hwf. wf_parts Hwf.
    assert (Hs : custody_scopes (sob_permitted_subject_scopes b) = Ok tt).
    { unfold offer_body_validate in Hv. inv_ok Hv. done. }
    unfold read_sender_offer_body. do 13 write_step Hw.
    write_step Hw; [by apply custody_scopes_ok|]. destruct b. write_done Hw.
  - intros bytes b Hr. unfold read_sender_offer_body in Hr. do 14 read_step Hr. split.
    + apply writes_encoded. unfold encode_sender_offer_body. read_done Hr.
    + wf_done Hr offer_wf.
Qed.
Lemma challenge_codec :
  body_codec challenge_body_validate encode_challenge_body read_challenge_body challenge_wf.
Proof.
  split.
  - intros b bytes _ Hwf Hw%encoded_writes. unfold challenge_wf in Hwf. wf_parts Hwf.
    unfold read_challenge_body. do 18 write_step Hw. destruct b. write_done Hw.
  - intros bytes b Hr. unfold read_challenge_body in Hr. do 18 read_step Hr. split.
    + apply writes_encoded. unfold encode_challenge_body. read_done Hr.
    + wf_done Hr challenge_wf.
Qed.
Lemma binding_codec :
  body_codec binding_body_validate encode_binding_body read_binding_body binding_wf.
Proof.
  split.
  - intros b bytes Hv Hwf Hw%encoded_writes. unfold binding_wf in Hwf. wf_parts Hwf.
    assert (Hs : custody_scopes (sbb_permitted_subject_scopes b) = Ok tt).
    { unfold binding_body_validate in Hv. by inv_oks. }
    unfold read_binding_body. do 13 write_step Hw.
    write_step Hw; [by apply custody_scopes_ok|]. do 3 write_step Hw. destruct b as [? ? ? ? ? ? ? ? ? ? ? ? ? ? ? ? []].
    write_done Hw.
  - intros bytes b Hr. unfold read_binding_body in Hr. do 17 read_step Hr. split.
    + apply writes_encoded. unfold encode_binding_body. read_done Hr.
    + wf_done Hr binding_wf.
Qed.
Lemma session_acceptance_codec :
  body_codec acceptance_body_validate encode_receiver_session_acceptance_body
    read_receiver_session_acceptance_body acceptance_wf.
Proof.
  split.
  - intros b bytes _ Hwf Hw%encoded_writes. unfold acceptance_wf in Hwf. wf_parts Hwf.
    unfold read_receiver_session_acceptance_body. do 13 write_step Hw. destruct b. write_done Hw.
  - intros bytes b Hr. unfold read_receiver_session_acceptance_body in Hr. do 13 read_step Hr. split.
    + apply writes_encoded. unfold encode_receiver_session_acceptance_body. read_done Hr.
    + wf_done Hr acceptance_wf.
Qed.

Section signed.
Context `{Sha256}.

Lemma write_payload b x :
  (payload ← map_err from_type (payload_bytes b); cw_bytes payload) = Ok x ↔
  ∃ payload, oeb_payload_hex b = hex_encode payload ∧ slen payload <= MAX_CUSTODY_PAYLOAD_BYTES
             ∧ cw_bytes payload = Ok x.
Proof.
  unfold payload_bytes. split.
  - intros Hw. inv_ok Hw. apply map_err_Ok, decode_hex_bounded_Ok in Hok as [? ?]. by eauto.
  - intros (payload&Hp&Hl&Hw). by rewrite (proj2 (decode_hex_bounded_Ok _ _ _ payload)).
Qed.
Lemma envelope_codec :
  body_codec envelope_body_validate encode_envelope_body read_envelope_body envelope_wf.
Proof.
  split.
  - intros b bytes _ Hwf Hw%encoded_writes. unfold envelope_wf in Hwf. wf_parts Hwf.
    unfold read_envelope_body. do 17 write_step Hw.
    write_step Hw.
    apply writes_inv in Hw as (px&ptail&(payload&Hp&Hl&Hpx)%write_payload&Hw&->).
    etransitivity; [eapply read_next; [typeclasses eauto|exact Hpx|done]|].
    do 3 write_step Hw. destruct b as [? ? ? ? ? ? ? ? ? ? ? ? ? ? ? ? ? [] ? ? ? ?].
    cbn in Hp. rewrite <- Hp. write_done Hw.
  - intros bytes b Hr. unfold read_envelope_body in Hr. do 22 read_step Hr.
    split; [|wf_done Hr envelope_wf]. apply writes_encoded. unfold encode_envelope_body.
    injection Hr as <- <-. do 18 (eapply writes_cons; [eassumption|]).
    eapply writes_cons; [apply write_payload; by eauto|].
    repeat (eapply writes_cons; [eassumption|]). apply writes_nil.
Qed.
End signed.

(** [cr_body] of a codec. *)
Lemma decode_body_Ok {B} check encode (read : cread B) wf bytes b :
  body_codec check encode read wf → cr_body read check bytes = Ok b →
  encode b = Ok bytes ∧ check b = Ok tt ∧ wf b = true.
Proof.
  intros HC Hd. unfold cr_body in Hd.
  destruct (read bytes) as [[body rest]|] eqn:Hr; [|done]. cbn in Hd. inv_ok Hd. injection Hd as <-.
  apply ensure_Ok, bool_decide_eq_true in Hok as ->. apply map_err_Ok in Hok0.
  destruct (bc_bwd _ _ _ _ HC _ _ Hr). done.
Qed.
Lemma decode_body_encoded {B} check encode (read : cread B) wf bytes b :
  body_codec check encode read wf → check b = Ok tt → wf b = true → encode b = Ok bytes →
  cr_body read check bytes = Ok b.
Proof.
  intros HC Hv Hwf He. unfold cr_body. rewrite (bc_fwd _ _ _ _ HC b bytes Hv Hwf He). cbn.
  by rewrite Hv.
Qed.

(* ------------------------------------------------------------------ *)
(** ** Datagrams and signatures *)

Lemma take_exact n a b : String.length a = n → str_take n (a +:+ b) = Some (a, b).
Proof. intros <-. apply str_take_app. Qed.
Lemma datagram_header_of magic v k l rest :
  String.length magic = 4%nat → 0 <= v < 65536 → 0 <= k < 256 → 0 <= l < 65536 →
  datagram_header (magic +:+ be_bytes 2 v +:+ be_bytes 1 k +:+ be_bytes 2 l +:+ rest)
  = Some (magic, v, k, l, rest).
Proof.
  intros Hm Hv Hk Hl. unfold datagram_header. rewrite take_exact by done. cbn [mbind option_bind].
  rewrite take_exact by apply be_bytes_length. cbn [mbind option_bind].
  rewrite take_exact by apply be_bytes_length. cbn [mbind option_bind].
  rewrite take_exact by apply be_bytes_length. cbn [mbind option_bind].
  by rewrite !be_roundtrip.
Qed.
Lemma datagram_header_Some d magic v k l rest :
  datagram_header d = Some (magic, v, k, l, rest) →
  d = magic +:+ be_bytes 2 v +:+ be_bytes 1 k +:+ be_bytes 2 l +:+ rest
  ∧ String.length magic = 4%nat ∧ 0 <= l < 65536.
Proof.
  unfold datagram_header. intros Hd.
  destruct (str_take 4 d) as [[a d1]|] eqn:H1; [|done]. cbn [mbind option_bind] in Hd.
  destruct (str_take 2 d1) as [[b d2]|] eqn:H2; [|done]. cbn [mbind option_bind] in Hd.
  destruct (str_take 1 d2) as [[c d3]|] eqn:H3; [|done]. cbn [mbind option_bind] in Hd.
  destruct (str_take 2 d3) as [[e d4]|] eqn:H4; [|done]. injection Hd as <- <- <- <- <-.
  apply str_take_Some in H1 as [-> ?], H2 as [-> Hb], H3 as [-> Hc], H4 as [-> He].
  pose proof (be_bytes_be_value b) as Eb. rewrite Hb in Eb.
  pose proof (be_bytes_be_value c) as Ec. rewrite Hc in Ec.
  pose proof (be_bytes_be_value e) as Ee. rewrite He in Ee. rewrite Eb, Ec, Ee.
  pose proof (be_value_range e) as Hr. rewrite He in Hr. by rewrite ?str_app_assoc.
Qed.
Lemma signed_datagram_Ok kind d body signature :
  0 <= kind < 256 →
  decode_signed_datagram d kind = Ok (body, signature) ↔
  encode_signed_datagram kind body signature = Ok d ∧ slen signature = 64.
Proof.
  intros Hk. unfold decode_signed_datagram, encode_signed_datagram.
  unfold MAX_CANARY_DATAGRAM_BYTES, DATAGRAM_HEADER_BYTES, SIGNATURE_BYTES, u16_max. split.
  - intros Hd. inv_ok Hd. apply ensure_Ok in Hok, Hok0.
    destruct (datagram_header d) as [[[[[magic v] k] l] rest]|] eqn:Hh; [|done].
    apply datagram_header_Some in Hh as (->&Hm&Hl). inv_ok Hd. apply ensure_Ok in Hok1, Hok2.
    destruct (str_take _ rest) as [[x y]|] eqn:Ht; [|done]. injection Hd as <- <-.
    apply str_take_Some in Ht as [-> Hx].
    apply andb_true_iff in Hok1 as [[Hmagic Hv]%andb_true_iff Hkind].
    apply bool_decide_eq_true in Hmagic as ->. apply Z.eqb_eq in Hv as ->, Hkind as ->, Hok2.
    assert (l = slen x) as -> by (unfold slen; lia). apply negb_true_iff, orb_false_iff in Hok as [_ Hmax].
    rewrite !slen_app in Hok2. unfold slen at 1 2 3 4 in Hok2. rewrite !be_bytes_length in Hok2. cbn in Hok2.
    rewrite (proj2 (Z.leb_le _ _)) by lia. cbn [ensure mbind result_bind]. rewrite Hmax. split; [done|lia].
  - intros [He Hs]. inv_ok He. apply ensure_Ok in Hok, Hok0. injection He as <-. split_and_bool.
    pose proof (slen_nonneg body).
    set (d := DATAGRAM_MAGIC +:+ _) in *.
    assert (Hd : slen d = 9 + slen body + 64).
    { unfold d. rewrite !slen_app, Hs. unfold slen at 1 2 3 4. rewrite !be_bytes_length.
      change (String.length DATAGRAM_MAGIC) with 4%nat. lia. }
    rewrite (proj2 (Z.eqb_neq _ 0)), (proj2 (Z.ltb_ge 1232 _)), (proj2 (Z.ltb_ge _ (9 + 64))) by lia.
    cbn [negb orb ensure mbind result_bind].
    unfold d at 1. rewrite datagram_header_of by (done || lia).
    rewrite !Z.eqb_refl, Hd, Z.eqb_refl. cbn.
    rewrite take_exact; [done|]. unfold slen. lia.
Qed.

(** A transcript is about one domain and one body. *)
Lemma signature_transcript_inj d1 d2 b1 b2 :
  slen b1 <= u64_max → slen b2 <= u64_max →
  signature_transcript d1 b1 = signature_transcript d2 b2 → d1 = d2 ∧ b1 = b2.
Proof.
  intros H1 H2 Ht. unfold signature_transcript in Ht.
  apply str_app_inj_len in Ht as [Hl Ht]; [|by rewrite !be_bytes_length].
  assert (Hd : slen (domain_as_str d1) = slen (domain_as_str d2)).
  { apply (f_equal be_value) in Hl. rewrite !be_roundtrip in Hl; [done|by destruct d2|by destruct d1]. }
  apply str_app_inj_len in Ht as [Hdom Ht]; [|unfold slen in Hd; lia].
  apply str_app_inj_len in Ht as [_ ->]; [|by rewrite !be_bytes_length].
  split; [|done]. by destruct d1, d2.
Qed.

Section objects.
Context `{Sha256} `{CustodyPolicyJson} `{SignatureScheme}.

(** The object a decoder returns: the datagram is the one encoding of its body
    with a signature that verifies under the expected key. *)
Record authentic {B} (encode : B → result CustodyError string) (domain : CustodySignatureDomainV1)
    (kind : Z) (datagram : string) (key : PeerKeyIdentityV1) (v : Signed B) (bytes signature : string)
    : Prop := {
  au_datagram : encode_signed_datagram kind bytes signature = Ok datagram;
  au_encoded : encode (sd_body v) = Ok bytes;
  au_length : slen signature = 64;
  au_verified : verify_signature key domain bytes signature = Ok tt;
  au_object : v = signed_object domain (sd_body v) bytes signature key;
}.
Lemma decode_object_Ok {B} check encode (read : cread B) wf domain kind check_object body_policy datagram key v :
  body_codec check encode read wf → 0 <= kind < 256 →
  decode_object (cr_body read check) domain kind check_object body_policy datagram key = Ok v →
  ∃ bytes signature,
    authentic encode domain kind datagram key v bytes signature
    ∧ check (sd_body v) = Ok tt ∧ wf (sd_body v) = true ∧ body_policy (sd_body v) = Ok tt
    ∧ check_object v = Ok tt.
Proof.
  intros HC Hk Hd. unfold decode_object in Hd.
  destruct (decode_signed_datagram datagram kind) as [[bytes signature]|] eqn:Hs; [|done].
  cbn [mbind result_bind] in Hd. inv_ok Hd. injection Hd as <-.
  apply signed_datagram_Ok in Hs as [Hs Hl]; [|done].
  destruct (decode_body_Ok _ _ _ _ _ _ HC Hok) as (He&Hv&Hwf). apply map_err_Ok in Hok2.
  exists bytes, signature. split; [|done]. by split.
Qed.

(** What a signing identity signs, its key's holder decodes. *)
Definition signs_as (s : CanarySigningIdentityV1) : Prop :=
  peer_key_validate (si_key_identity s) = Ok tt
  ∧ pk_public_key_hex (si_key_identity s) = hex_encode (public_key_of (si_signing_key s)).
Lemma from_signing_key_signs key role scopes policy s :
  from_signing_key key role scopes policy = Ok s → signs_as s.
Proof.
  unfold from_signing_key. intros Hf. inv_ok Hf. injection Hf as <-. by apply map_err_Ok in Hok.
Qed.
Lemma verify_signed s domain bytes :
  signs_as s →
  verify_signature (si_key_identity s) domain bytes (custody_sign s domain bytes) = Ok tt.
Proof.
  intros [Hk Hp]. unfold verify_signature. rewrite Hk. cbn. rewrite Hp.
  rewrite (proj2 (decode_hex_exact_Ok _ _ _ (public_key_of (si_signing_key s)))).
  2: { split; [done|]. unfold slen. by rewrite public_key_length. }
  cbn. rewrite public_key_usable. unfold custody_sign. by rewrite signature_verifies.
Qed.
Lemma sign_object_decodes {B} check encode (read : cread B) wf domain kind check_object body_policy s body v datagram :
  body_codec check encode read wf → 0 <= kind < 256 → signs_as s → wf body = true →
  body_policy body = Ok tt →
  sign_object check encode domain kind check_object s body = Ok (v, datagram) →
  decode_object (cr_body read check) domain kind check_object body_policy datagram (si_key_identity s)
  = Ok v ∧ slen datagram <= MAX_CANARY_DATAGRAM_BYTES ∧ sd_body v = body.
Proof.
  intros HC Hk Hs Hwf Hadm Hsign. unfold sign_object in Hsign. inv_ok Hsign. injection Hsign as <- <-.
  apply map_err_Ok in Hok. rename Hok0 into He, Hok1 into Hobj, Hok2 into Hdg.
  assert (Hd : decode_signed_datagram a0 kind = Ok (a, custody_sign s domain a)).
  { apply signed_datagram_Ok; [done|]. split; [done|].
    unfold custody_sign, slen. by rewrite signature_length. }
  split; [|split; [|done]].
  - unfold decode_object. rewrite Hd. cbn [mbind result_bind].
    rewrite (decode_body_encoded _ _ _ _ _ _ HC Hok Hwf He). cbn. rewrite Hadm. cbn. rewrite verify_signed by done. cbn.
    by rewrite Hobj.
  - unfold encode_signed_datagram in Hdg. inv_ok Hdg. injection Hdg as <-.
    apply ensure_Ok in Hok1. lia.
Qed.

(** C35. Signed messages survive the wire.  Whatever a signing identity signs, of
    each of the five kinds of message, fits a datagram, and the decoder of that
    kind, given the identity's key, returns exactly the object that was
    signed. *)
Theorem signed_messages_roundtrip s :
  signs_as s →
  (∀ b v d, sign_sender_session_offer s b = Ok (v, d) → offer_wf b = true →
     decode_sender_session_offer_datagram d (si_key_identity s) = Ok v
     ∧ slen d <= MAX_CANARY_DATAGRAM_BYTES ∧ sd_body v = b)
  ∧ (∀ b v d, sign_receiver_challenge s b = Ok (v, d) → challenge_wf b = true →
       decode_receiver_challenge_datagram d (si_key_identity s) = Ok v
       ∧ slen d <= MAX_CANARY_DATAGRAM_BYTES ∧ sd_body v = b)
  ∧ (∀ b v d, sign_sender_session_binding s b = Ok (v, d) → binding_wf b = true →
       decode_sender_session_binding_datagram d (si_key_identity s) = Ok v
       ∧ slen d <= MAX_CANARY_DATAGRAM_BYTES ∧ sd_body v = b)
  ∧ (∀ b v d, sign_receiver_session_acceptance s b = Ok (v, d) → acceptance_wf b = true →
       decode_receiver_session_acceptance_datagram d (si_key_identity s) = Ok v
       ∧ slen d <= MAX_CANARY_DATAGRAM_BYTES ∧ sd_body v = b)
  ∧ (∀ b v d, sign_observation_envelope s b = Ok (v, d) → envelope_wf b = true →
       decode_observation_envelope_datagram d (si_key_identity s) = Ok v
       ∧ slen d <= MAX_CANARY_DATAGRAM_BYTES ∧ sd_body v = b).
Proof.
  intros Hs. split_and!; intros b v d Hsign Hwf;
    [eapply (sign_object_decodes _ _ _ _ _ _ _ _ _ _ _ _ offer_codec)
    |eapply (sign_object_decodes _ _ _ _ _ _ _ _ _ _ _ _ challenge_codec)
    |eapply (sign_object_decodes _ _ _ _ _ _ _ _ _ _ _ _ binding_codec)
    |eapply (sign_object_decodes _ _ _ _ _ _ _ _ _ _ _ _ session_acceptance_codec)
    |eapply (sign_object_decodes _ _ _ _ _ _ _ _ _ _ _ _ envelope_codec)]; done.
Qed.
End objects.
