(* ===== verification/CustodyReceiver.v ===== *)
(** * The receiving end of the custody protocol

    [ReceiverCustodyV1] of [crates/pulse-runtime/src/custody.rs]: sessions,
    the replay window, the bounded queue, admission of envelopes and their
    receipts.  A condition reported to the reactor is a notice.

    A method of either end of the protocol changes its object, notifies the
    reactor and may fail; a failing method keeps what it has already done.
    [mwp] is the weakest precondition of such a method. *)

From S2P Require Import Prelude Ids Digest Pulse Wire Judgment Context Qualification Package.
From S2P Require Import CustodyTypes CustodyRecords CustodyWire Escalation Certificate.
From S2P Require Import Event Policy Receiver EvaluatorState RuntimeState RuntimeArtifacts Journal.
From S2P Require Import LiveSupport Reactor.

(** What the reactor answers at the time of a call:
    [revalidate_transport_activation] for the policy's binding,
    [receiver_monotonic_now] and [snapshot]. *)
Record ReactorView := mkReactorView {
  rv_activation : result ReactorCommandError QualifiedGenerationBindingV1;
  rv_now : result ReactorCommandError Z;
  rv_snapshot : ReactorSnapshotV1;
}.
(** [From<ReactorCommandError>]. *)
Definition from_reactor (e : ReactorCommandError) : CustodyError :=
  custody_error TransportUnavailable (reactor_error_display e).


(** The object and what it has told the reactor. *)
Record Endpoint (C N : Type) := mkEndpoint {
  en_custody : C;
  en_notices : list N;
}.
Arguments mkEndpoint {C N} _ _.
Arguments en_custody {C N} _.
Arguments en_notices {C N} _.

Definition at_endpoint (C N A : Type) : Type := Endpoint C N → Endpoint C N * result CustodyError A.
#[global] Instance at_endpoint_ret {C N} : MRet (at_endpoint C N) := fun A a s => (s, Ok a).
#[global] Instance at_endpoint_bind {C N} : MBind (at_endpoint C N) :=
  fun A B k c s => match c s with (s', Ok a) => k a s' | (s', Err e) => (s', Err e) end.

Section methods.
Context {C N : Type}.
Abbreviation m := (at_endpoint C N).
Abbreviation endpoint := (Endpoint C N).
Definition b_get : m C := fun s => (s, Ok (en_custody s)).
Definition b_upd (f : C → C) : m unit := fun s => (mkEndpoint (f (en_custody s)) (en_notices s), Ok tt).
Definition b_lift {A} (r : result CustodyError A) : m A := fun s => (s, r).
Definition b_fail {A} (e : CustodyError) : m A := fun s => (s, Err e).
Definition b_notice (n : N) : m unit := fun s => (mkEndpoint (en_custody s) (en_notices s ++ [n]), Ok tt).
(** Runs to its end whatever the outcome, which is returned. *)
Definition b_try {A} (c : m A) : m (result CustodyError A) :=
  fun s => let '(s', r) := c s in (s', Ok r).

(** ** Weakest preconditions *)

Definition mwp {A} (c : m A) (s : endpoint) (Q : endpoint → result CustodyError A → Prop)
  : Prop := Q (c s).1 (c s).2.
(** The rest of a computation after a part of it. *)
Definition after {A B} (k : A → m B) (Q : endpoint → result CustodyError B → Prop)
    (s : endpoint) (r : result CustodyError A) : Prop :=
  match r with Ok a => mwp (k a) s Q | Err e => Q s (Err e) end.

Lemma mwp_bind {A B} (c : m A) (k : A → m B) s Q : mwp c s (after k Q) → mwp (c ≫= k) s Q.
Proof. unfold mwp, after, mbind, at_endpoint_bind. by destruct (c s) as [s1 [a|e]]. Qed.
Lemma mwp_mono {A} (c : m A) s (P Q : endpoint → result CustodyError A → Prop) :
  mwp c s P → (∀ s' r, P s' r → Q s' r) → mwp c s Q.
Proof. unfold mwp. auto. Qed.
Lemma mwp_lift {A} (r : result CustodyError A) (s : endpoint) Q : Q s r → mwp (b_lift r) s Q.
Proof. done. Qed.
Lemma mwp_ret {A} (a : A) (s : endpoint) Q : Q s (Ok a) → mwp (mret a) s Q.
Proof. done. Qed.
Lemma mwp_fail {A} e s (Q : endpoint → result CustodyError A → Prop) : Q s (Err e) → mwp (b_fail e) s Q.
Proof. done. Qed.
Lemma mwp_lift_bind {A B} (r : result CustodyError A) (k : A → m B) s Q :
  (∀ a, r = Ok a → mwp (k a) s Q) → (∀ e, r = Err e → Q s (Err e)) → mwp (b_lift r ≫= k) s Q.
Proof. intros H1 H2. apply mwp_bind, mwp_lift. destruct r; cbn; auto. Qed.
Lemma mwp_get_bind {B} (k : C → m B) s Q : mwp (k (en_custody s)) s Q → mwp (b_get ≫= k) s Q.
Proof. done. Qed.
Lemma mwp_upd_bind {B} f (k : unit → m B) s Q :
  mwp (k tt) (mkEndpoint (f (en_custody s)) (en_notices s)) Q → mwp (b_upd f ≫= k) s Q.
Proof. done. Qed.
Lemma mwp_notice_bind {B} x (k : unit → m B) s Q :
  mwp (k tt) (mkEndpoint (en_custody s) (en_notices s ++ [x])) Q → mwp (b_notice x ≫= k) s Q.
Proof. done. Qed.
Lemma mwp_ret_bind {A B} (a : A) (k : A → m B) s Q : mwp (k a) s Q → mwp (mret a ≫= k) s Q.
Proof. done. Qed.
Lemma mwp_assoc {A B D} (c : m D) (f : D → m A) (k : A → m B) s Q :
  mwp (c ≫= λ x, f x ≫= k) s Q → mwp ((c ≫= f) ≫= k) s Q.
Proof. unfold mwp, mbind, at_endpoint_bind. by destruct (c s) as [s1 [a|e]]. Qed.
Lemma mwp_if_bind {A B} (b : bool) (c1 c2 : m A) (k : A → m B) s Q :
  (b = true → mwp (c1 ≫= k) s Q) → (b = false → mwp (c2 ≫= k) s Q) →
  mwp ((if b then c1 else c2) ≫= k) s Q.
Proof. destruct b; auto. Qed.
Lemma mwp_if {A} (b : bool) (c1 c2 : m A) s Q :
  (b = true → mwp c1 s Q) → (b = false → mwp c2 s Q) → mwp (if b then c1 else c2) s Q.
Proof. destruct b; auto. Qed.

End methods.

(** One step of a computation; a guard's hypothesis is named by the caller. *)
Ltac mwp_step :=
  first
    [ apply mwp_get_bind | apply mwp_upd_bind | apply mwp_notice_bind | apply mwp_ret_bind
    | apply mwp_assoc | apply mwp_ret | apply mwp_fail
    | apply mwp_lift_bind; [intros ? ?|intros ? ?]
    | apply mwp_if_bind; [intros ?|intros ?] | apply mwp_if; [intros ?|intros ?] ].

(* ------------------------------------------------------------------ *)
(** ** Reports to the reactor *)

(** [report_receiver_boundary_condition(subject, finding, session, detail, true)]. *)
Record BoundaryReport := mkReport {
  br_subject : option SubjectId;
  br_finding : TransportCustodyFindingV1;
  br_session_binding_digest : option DigestV1;
  br_detail : string;
}.
(* ------------------------------------------------------------------ *)
(** ** The replay window *)

Record SequenceClassification := mkClassification {
  sq_result : ReplayWindowResultV1;
  sq_gap : option CustodySequenceGapV1;
  sq_new_high : Z;
  sq_new_bitmap : Z;
}.
(** [classify_sequence]; a window has at most 64 places, so no shift is by 64
    or more. *)
Definition classify_sequence (high : option Z) (bitmap received window_size maximum_gap : Z)
  : result CustodyError SequenceClassification :=
  ensure (negb (received =? 0)) (custody_error ReplayDetected "session sequence zero is invalid");;
  match high with
  | None => Ok (mkClassification WindowFirst None received 1)
  | Some high =>
      if high <? received then
        let delta := received - high in
        if sat_add maximum_gap 1 <? delta then
          Ok (mkClassification WindowBoundExceeded None high bitmap)
        else
          let new_bitmap :=
            if window_size <=? delta then 1
            else Z.lor (Z.land (Z.shiftl bitmap delta) u64_max) 1 in
          let gap := if 1 <? delta
                     then Some (mkCustodyGap (sat_add high 1) received (delta - 1)) else None in
          Ok (mkClassification (match gap with Some _ => WindowGap | None => WindowContinuous end)
                gap received new_bitmap)
      else
        let distance := high - received in
        if window_size <=? distance then Ok (mkClassification WindowReplay None high bitmap)
        else
          let mask := Z.shiftl 1 distance in
          Ok (mkClassification
                (if negb (Z.land bitmap mask =? 0) then WindowDuplicate else WindowReordered)
                None high bitmap)
  end.
Definition window_refuses (r : ReplayWindowResultV1) : bool :=
  match r with
  | WindowDuplicate | WindowReplay | WindowReordered | WindowBoundExceeded => true
  | _ => false
  end.

(* ------------------------------------------------------------------ *)
(** ** State *)

Record AcceptedSenderQualificationPackageV1 := mkAcceptedPackage {
  asp_manifest : QualifiedArtifactManifestV1;
  asp_certificate : QualificationCertificateV1;
}.
Record QueuedEnvelope := mkQueued {
  qe_bytes : string;
  qe_remote_endpoint : string;
  qe_arrival_monotonic_ms : Z;
}.
Record ReceiverLiveSession := mkReceiverSession {
  rls_challenge : ReceiverSessionChallengeV1;
  rls_binding : SenderSessionBindingV1;
  rls_receiver_session_acceptance_digest : DigestV1;
  rls_receiver_activation : QualifiedGenerationBindingV1;
  rls_high_session_sequence : option Z;
  rls_replay_bitmap : Z;
  rls_high_observation_sequence : option Z;
  rls_accepted_messages : Z;
  rls_rate_window_started_ms : Z;
  rls_rate_window_messages : Z;
}.
Record ReceiverCustodyV1 := mkReceiverCustody {
  rcu_signing : CanarySigningIdentityV1;
  rcu_policy : ReceiverAcceptancePolicyV1;
  rcu_accepted_sender_package : AcceptedSenderQualificationPackageV1;
  rcu_pending_challenge :
    option (ReceiverSessionChallengeV1 * QualifiedGenerationBindingV1 * SenderSessionOfferV1);
  rcu_session : option ReceiverLiveSession;
  rcu_inbound : list QueuedEnvelope;
  rcu_receipts : list ReceiverAcceptanceReceiptV1;
  rcu_receipt_sequence : Z;
  rcu_duplicate_refusals : Z;
  rcu_replay_refusals : Z;
  rcu_sequence_gaps : Z;
  rcu_queue_refusals : Z;
  rcu_competing_occurrences : Z;
  rcu_lifecycle_status : CustodyCertificateStatusV1;
}.
Definition set_rcu_pending_challenge (s : ReceiverCustodyV1)
    (v : option (ReceiverSessionChallengeV1 * QualifiedGenerationBindingV1 * SenderSessionOfferV1))
  : ReceiverCustodyV1 :=
  let 'mkReceiverCustody a b c _ e f g h i j k l m n := s in mkReceiverCustody a b c v e f g h i j k l m n.
Definition set_rcu_session (s : ReceiverCustodyV1) (v : option ReceiverLiveSession) : ReceiverCustodyV1 :=
  let 'mkReceiverCustody a b c d _ f g h i j k l m n := s in mkReceiverCustody a b c d v f g h i j k l m n.
Definition set_rcu_inbound (s : ReceiverCustodyV1) (v : list QueuedEnvelope) : ReceiverCustodyV1 :=
  let 'mkReceiverCustody a b c d e _ g h i j k l m n := s in mkReceiverCustody a b c d e v g h i j k l m n.
Definition set_rcu_receipts (s : ReceiverCustodyV1) (v : list ReceiverAcceptanceReceiptV1)
  : ReceiverCustodyV1 :=
  let 'mkReceiverCustody a b c d e f _ h i j k l m n := s in mkReceiverCustody a b c d e f v h i j k l m n.
Definition set_rcu_receipt_sequence (s : ReceiverCustodyV1) (v : Z) : ReceiverCustodyV1 :=
  let 'mkReceiverCustody a b c d e f g _ i j k l m n := s in mkReceiverCustody a b c d e f g v i j k l m n.
Definition count_duplicate_refusal (s : ReceiverCustodyV1) : ReceiverCustodyV1 :=
  let 'mkReceiverCustody a b c d e f g h i j k l m n := s in
  mkReceiverCustody a b c d e f g h (sat_add i 1) j k l m n.
Definition count_replay_refusal (s : ReceiverCustodyV1) : ReceiverCustodyV1 :=
  let 'mkReceiverCustody a b c d e f g h i j k l m n := s in
  mkReceiverCustody a b c d e f g h i (sat_add j 1) k l m n.
Definition count_sequence_gap (s : ReceiverCustodyV1) : ReceiverCustodyV1 :=
  let 'mkReceiverCustody a b c d e f g h i j k l m n := s in
  mkReceiverCustody a b c d e f g h i j (sat_add k 1) l m n.
Definition count_queue_refusal (s : ReceiverCustodyV1) : ReceiverCustodyV1 :=
  let 'mkReceiverCustody a b c d e f g h i j k l m n := s in
  mkReceiverCustody a b c d e f g h i j k (sat_add l 1) m n.
Definition count_competing_occurrence (s : ReceiverCustodyV1) : ReceiverCustodyV1 :=
  let 'mkReceiverCustody a b c d e f g h i j k l m n := s in
  mkReceiverCustody a b c d e f g h i j k l (sat_add m 1) n.
Definition set_rcu_lifecycle_status (s : ReceiverCustodyV1) (v : CustodyCertificateStatusV1)
  : ReceiverCustodyV1 :=
  let 'mkReceiverCustody a b c d e f g h i j k l m _ := s in mkReceiverCustody a b c d e f g h i j k l m v.

(** The custody and what it has reported to the reactor. *)
Abbreviation ReceiverState := (Endpoint ReceiverCustodyV1 BoundaryReport).
Abbreviation rx := (at_endpoint ReceiverCustodyV1 BoundaryReport).
Definition drop_session : rx unit := b_upd (fun s => set_rcu_session s None).
Definition drop_challenge : rx unit := b_upd (fun s => set_rcu_pending_challenge s None).

Section receiver.
Context `{Sha256} `{PackageJson} `{FactJson} `{CustodyJson} `{CustodyPolicyJson} `{SignatureScheme}.

(** [AcceptedSenderQualificationPackageV1::verify]. *)
Definition accepted_package_verify (manifest_bytes report_bytes certificate_bytes : string)
    (policy : ReceiverAcceptancePolicyV1) : result CustodyError AcceptedSenderQualificationPackageV1 :=
  manifest ← map_err custody_from_qualification (manifest_decode_canonical manifest_bytes);
  report ← map_err custody_from_qualification (report_decode_canonical report_bytes);
  certificate ← map_err custody_from_qualification (qualification_certificate_decode_canonical certificate_bytes);
  map_err custody_from_qualification (verify_qualification_package manifest report certificate);;
  ensure (bool_decide (mf_manifest_digest manifest = rap_accepted_sender_manifest_digest policy)
          && bool_decide (qc_certificate_digest certificate
                          = rap_accepted_sender_certificate_digest policy))
    (custody_error QualifiedIdentityMismatch
       "checked sender qualification package does not match receiver policy");;
  Ok (mkAcceptedPackage manifest certificate).

(** [ReceiverCustodyV1::new]. *)
Definition receiver_custody_new (signing : CanarySigningIdentityV1) (policy : ReceiverAcceptancePolicyV1)
    (manifest_bytes report_bytes certificate_bytes : string) : result CustodyError ReceiverCustodyV1 :=
  map_err from_type (receiver_policy_validate policy);;
  ensure (bool_decide (si_key_identity signing = rap_receiver_key policy))
    (custody_error QualifiedIdentityMismatch
       "receiver signing key does not match its exact acceptance policy");;
  package ← accepted_package_verify manifest_bytes report_bytes certificate_bytes policy;
  Ok (mkReceiverCustody signing policy package None None [] [] 0 0 0 0 0 0
        (rap_certificate_status policy)).

(* ------------------------------------------------------------------ *)
(** ** Sessions *)

(** A session whose sender is another occurrence than the one that asks. *)
Definition competes (active : ReceiverLiveSession) (observer : ObserverId) (sender_key : DigestV1)
    (occurrence : IncarnationId) : bool :=
  let b := sd_body (rls_binding active) in
  bool_decide (sbb_observer b = observer)
  && bool_decide (sbb_sender_key_identity_digest b = sender_key)
  && negb (bool_decide (sbb_sender_process_occurrence b = occurrence)).
Definition refuse_competing {A} (active : ReceiverLiveSession) (subject : SubjectId) : rx A :=
  b_upd count_competing_occurrence;;
  drop_session;;
  drop_challenge;;
  b_notice (mkReport (Some subject) SenderOccurrenceConflict (Some (sd_digest (rls_binding active)))
               "competing sender process occurrences claimed one observer/key/scope");;
  b_fail (custody_error SenderOccurrenceConflict
             "competing sender occurrence refused; last arrival did not win").

Definition check_lifecycle (status : CustodyCertificateStatusV1) : result CustodyError unit :=
  match status with
  | CertificateAccepted => Ok tt
  | CertificateIsSuperseded =>
      Err (custody_error CertificateSuperseded "receiver policy marks the sender certificate superseded")
  | CertificateIsRevoked =>
      Err (custody_error CertificateRevoked "receiver policy marks the sender certificate revoked")
  | CertificateUnknown =>
      Err (custody_error QualifiedIdentityMismatch
             "receiver policy cannot establish sender certificate lifecycle")
  end.
Definition offer_matches (p : ReceiverAcceptancePolicyV1) (o : SenderSessionOfferBodyV1) : bool :=
  bool_decide (sob_receiver_key_identity_digest o = peer_key_identity_digest (rap_receiver_key p))
  && bool_decide (sob_sender_key_identity_digest o
                  = peer_key_identity_digest (rap_accepted_sender_key p))
  && bool_decide (sob_sender_manifest_digest o = rap_accepted_sender_manifest_digest p)
  && bool_decide (sob_sender_qualification_certificate_digest o
                  = rap_accepted_sender_certificate_digest p)
  && bool_decide (sob_observer o = rap_accepted_observer p)
  && bool_decide (sob_failure_domain_claim o = rap_accepted_failure_domain_claim p)
  && bool_decide (sob_permitted_subject_scopes o = rap_permitted_subject_scopes p).
Definition challenge_body_for (s : ReceiverCustodyV1) (activation : QualifiedGenerationBindingV1)
    (offer : SenderSessionOfferV1) (snapshot : ReactorSnapshotV1) (nonce : string)
  : ReceiverSessionChallengeBodyV1 :=
  let p := rcu_policy s in
  let now := sn_observed_at_epoch_monotonic_ms snapshot in
  {| rcb_schema_version := SCHEMA_VERSION_V1;
     rcb_protocol_version := CUSTODY_PROTOCOL_VERSION_V1;
     rcb_receiver_key_identity_digest := peer_key_identity_digest (rap_receiver_key p);
     rcb_sender_session_offer_digest := sd_digest offer;
     rcb_receiver_process_occurrence := qb_process_epoch_id activation;
     rcb_receiver_monotonic_epoch := me_epoch_id (sn_monotonic_epoch snapshot);
     rcb_session_nonce_hex := hex_encode nonce;
     rcb_receiver_acceptance_policy_generation := rap_policy_generation p;
     rcb_receiver_acceptance_policy_anchor_digest := receiver_policy_anchor_digest p;
     rcb_receiver_acceptance_policy_digest := receiver_policy_identity_digest p;
     rcb_intended_sender_key_identity_digest := peer_key_identity_digest (rap_accepted_sender_key p);
     rcb_intended_sender_process_occurrence := sob_sender_process_occurrence (sd_body offer);
     rcb_accepted_sender_manifest_digest := mf_manifest_digest (asp_manifest (rcu_accepted_sender_package s));
     rcb_accepted_sender_certificate_digest :=
       qc_certificate_digest (asp_certificate (rcu_accepted_sender_package s));
     rcb_issued_at_receiver_monotonic_ms := now;
     rcb_expires_at_receiver_monotonic_ms := sat_add now (rap_maximum_session_duration_ms p);
     rcb_maximum_envelope_bytes := rap_maximum_datagram_bytes p;
     rcb_maximum_messages := rap_maximum_messages_per_session p |}.

(** [accept_session_offer_and_issue_challenge]; [nonce] is what [OsRng] gave. *)
Definition accept_session_offer_and_issue_challenge (view : ReactorView) (subject : SubjectId)
    (nonce offer_datagram : string) : rx string :=
  s ← b_get;
  let p := rcu_policy s in
  b_lift (check_lifecycle (rcu_lifecycle_status s));;
  activation ← b_lift (map_err from_reactor (rv_activation view));
  offer ← b_lift (decode_sender_session_offer_datagram offer_datagram (rap_accepted_sender_key p));
  let o := sd_body offer in
  b_lift (ensure (offer_matches p o)
             (custody_error QualifiedIdentityMismatch
                "sender offer does not match the receiver's exact package/scope policy"));;
  match rcu_session s with
  | Some active =>
      if competes active (sob_observer o) (sob_sender_key_identity_digest o)
           (sob_sender_process_occurrence o) then refuse_competing active subject
      else b_fail (custody_error SessionConflict
                      "receiver already has a live session for this sender occurrence")
  | None =>
      b_lift (ensure (bool_decide (rcu_pending_challenge s = None))
                 (custody_error SessionConflict "receiver already has one bounded pending challenge"));;
      b_lift (ensure (exposes_live_standing (sn_condition (rv_snapshot view)))
                 (custody_error ReceiverBlind "receiver reactor does not expose live temporal custody"));;
      '(challenge, datagram) ← b_lift (sign_receiver_challenge (rcu_signing s)
                                          (challenge_body_for s activation offer (rv_snapshot view) nonce));
      b_upd (fun s => set_rcu_pending_challenge s (Some (challenge, activation, offer)));;
      mret datagram
  end.

(** [verify_session_binding]. *)
Definition verify_session_binding (p : ReceiverAcceptancePolicyV1)
    (challenge : ReceiverSessionChallengeV1) (offer : SenderSessionOfferV1)
    (binding : SenderSessionBindingV1) : result CustodyError unit :=
  let b := sd_body binding in let c := sd_body challenge in let o := sd_body offer in
  ensure
    (bool_decide (sbb_receiver_challenge_digest b = sd_digest challenge)
     && bool_decide (rcb_sender_session_offer_digest c = sd_digest offer)
     && bool_decide (sbb_receiver_key_identity_digest b = peer_key_identity_digest (rap_receiver_key p))
     && bool_decide (sbb_sender_key_identity_digest b
                     = peer_key_identity_digest (rap_accepted_sender_key p))
     && bool_decide (sbb_sender_process_occurrence b = rcb_intended_sender_process_occurrence c)
     && bool_decide (sbb_sender_process_occurrence b = sob_sender_process_occurrence o)
     && bool_decide (sbb_sender_monotonic_epoch b = sob_sender_monotonic_epoch o)
     && bool_decide (sbb_sender_manifest_digest b = rap_accepted_sender_manifest_digest p)
     && bool_decide (sbb_sender_qualification_certificate_digest b
                     = rap_accepted_sender_certificate_digest p)
     && bool_decide (sbb_sender_activation_receipt_digest b = sob_sender_activation_receipt_digest o)
     && bool_decide (sbb_sender_runtime_generation_set_digest b
                     = sob_sender_runtime_generation_set_digest o)
     && bool_decide (sbb_observer b = rap_accepted_observer p)
     && bool_decide (sbb_failure_domain_claim b = rap_accepted_failure_domain_claim p)
     && bool_decide (sbb_permitted_subject_scopes b = rap_permitted_subject_scopes p)
     && (sbb_session_sequence_origin b =? 1))
    (custody_error QualifiedIdentityMismatch
       "sender binding does not match the receiver's exact accepted package/scope").

Definition acceptance_body_for (p : ReceiverAcceptancePolicyV1) (challenge : ReceiverSessionChallengeV1)
    (binding : SenderSessionBindingV1) (now : Z) : ReceiverSessionAcceptanceBodyV1 :=
  let c := sd_body challenge in
  {| rsb_schema_version := SCHEMA_VERSION_V1;
     rsb_protocol_version := CUSTODY_PROTOCOL_VERSION_V1;
     rsb_receiver_challenge_digest := sd_digest challenge;
     rsb_sender_session_binding_digest := sd_digest binding;
     rsb_receiver_key_identity_digest := peer_key_identity_digest (rap_receiver_key p);
     rsb_sender_key_identity_digest := peer_key_identity_digest (rap_accepted_sender_key p);
     rsb_receiver_process_occurrence := rcb_receiver_process_occurrence c;
     rsb_receiver_monotonic_epoch := rcb_receiver_monotonic_epoch c;
     rsb_sender_process_occurrence := sbb_sender_process_occurrence (sd_body binding);
     rsb_receiver_acceptance_policy_digest := receiver_policy_identity_digest p;
     rsb_accepted_at_receiver_monotonic_ms := now;
     rsb_expires_at_receiver_monotonic_ms := rcb_expires_at_receiver_monotonic_ms c;
     rsb_maximum_messages := rcb_maximum_messages c |}.
Definition session_for (challenge : ReceiverSessionChallengeV1) (binding : SenderSessionBindingV1)
    (acceptance : ReceiverSessionAcceptanceV1) (activation : QualifiedGenerationBindingV1) (now : Z)
  : ReceiverLiveSession :=
  {| rls_challenge := challenge;
     rls_binding := binding;
     rls_receiver_session_acceptance_digest := sd_digest acceptance;
     rls_receiver_activation := activation;
     rls_high_session_sequence := Some (sbb_session_sequence_origin (sd_body binding) - 1);
     rls_replay_bitmap := 0;
     rls_high_observation_sequence := None;
     rls_accepted_messages := 0;
     rls_rate_window_started_ms := now;
     rls_rate_window_messages := 0 |}.

(** [accept_session_binding]. *)
Definition accept_session_binding (view : ReactorView) (subject : SubjectId) (datagram : string)
  : rx string :=
  s ← b_get;
  let p := rcu_policy s in
  activation ← b_lift (map_err from_reactor (rv_activation view));
  now ← b_lift (map_err from_reactor (rv_now view));
  match rcu_pending_challenge s with
  | None => b_fail (custody_error SessionUnknown "receiver has no live pending challenge")
  | Some (challenge, challenge_activation, offer) =>
      if rcb_expires_at_receiver_monotonic_ms (sd_body challenge) <=? now then
        drop_challenge;;
        b_fail (custody_error SessionExpired "receiver challenge expired inclusively")
      else if negb (bool_decide (activation = challenge_activation)) then
        drop_challenge;;
        b_fail (custody_error QualifiedIdentityMismatch
                   "receiver activation changed after challenge issuance")
      else
        binding ← b_lift (decode_sender_session_binding_datagram datagram (rap_accepted_sender_key p));
        b_lift (verify_session_binding p challenge offer binding);;
        let b := sd_body binding in
        let established :=
          '(acceptance, acceptance_datagram) ←
             b_lift (sign_receiver_session_acceptance (rcu_signing s)
                        (acceptance_body_for p challenge binding now));
          b_upd (fun s => set_rcu_session s
                             (Some (session_for challenge binding acceptance activation now)));;
          drop_challenge;;
          mret acceptance_datagram in
        match rcu_session s with
        | Some active =>
            if competes active (sbb_observer b) (sbb_sender_key_identity_digest b)
                 (sbb_sender_process_occurrence b) then refuse_competing active subject
            else established
        | None => established
        end
  end.

(* ------------------------------------------------------------------ *)
(** ** Envelopes *)

(** [enqueue_envelope]. *)
Definition enqueue_envelope (view : ReactorView) (bytes remote_endpoint : string) : rx unit :=
  s ← b_get;
  arrival ← b_lift (map_err from_reactor (rv_now view));
  b_lift (ensure (negb ((slen bytes =? 0) || (rap_maximum_datagram_bytes (rcu_policy s) <? slen bytes)))
             (malformed "inbound envelope is empty or exceeds the qualified datagram bound"));;
  if rap_receiver_queue_bound (rcu_policy s) <=? Z.of_nat (length (rcu_inbound s)) then
    b_upd count_queue_refusal;;
    drop_session;;
    b_notice (mkReport None TransportOverloaded
                 ((fun session => sd_digest (rls_binding session)) <$> rcu_session s)
                 "receiver-boundary queue saturated; remote evidence custody is blind");;
    b_fail (custody_error TransportOverloaded
               "receiver bounded envelope queue is full; session invalidated")
  else
    b_upd (fun s => set_rcu_inbound s (rcu_inbound s ++ [mkQueued bytes remote_endpoint arrival])).

(** [decode_observation_envelope_for_admission]. *)
Definition admissible_body (p : ReceiverAcceptancePolicyV1) (session : ReceiverLiveSession)
    (b : ObservationCustodyEnvelopeBodyV1) : result CustodyError unit :=
  ensure (bool_decide (oeb_receiver_challenge_digest b = sd_digest (rls_challenge session))
          && bool_decide (oeb_session_binding_digest b = sd_digest (rls_binding session)))
    (custody_error SessionUnknown "envelope does not identify the live receiver challenge/session");;
  ensure (bool_decide (oeb_receiver_key_identity_digest b
                       = peer_key_identity_digest (rap_receiver_key p)))
    (custody_error ReceiverChallengeInvalid "envelope names a different intended receiver key");;
  ensure (bool_decide (oeb_sender_key_identity_digest b
                       = peer_key_identity_digest (rap_accepted_sender_key p)))
    (custody_error SenderKeyMismatch "envelope names a sender key outside the pinned acceptance policy").
Definition decode_observation_envelope_for_admission (datagram : string) (p : ReceiverAcceptancePolicyV1)
    (session : ReceiverLiveSession) : result CustodyError ObservationCustodyEnvelopeV1 :=
  decode_object decode_envelope_body DomainObservationCustodyEnvelope OBSERVATION_ENVELOPE_KIND
    envelope_validate_structure (admissible_body p session) datagram (rap_accepted_sender_key p).

(** [verify_envelope_session_identity]. *)
Definition verify_envelope_session_identity (p : ReceiverAcceptancePolicyV1)
    (session : ReceiverLiveSession) (envelope : ObservationCustodyEnvelopeV1)
  : result CustodyError unit :=
  let e := sd_body envelope in let b := sd_body (rls_binding session) in
  ensure
    (bool_decide (oeb_receiver_challenge_digest e = sd_digest (rls_challenge session))
     && bool_decide (oeb_session_binding_digest e = sd_digest (rls_binding session))
     && bool_decide (oeb_receiver_key_identity_digest e = peer_key_identity_digest (rap_receiver_key p))
     && bool_decide (oeb_sender_key_identity_digest e
                     = peer_key_identity_digest (rap_accepted_sender_key p))
     && bool_decide (oeb_sender_process_occurrence e = sbb_sender_process_occurrence b)
     && bool_decide (oeb_sender_monotonic_epoch e = sbb_sender_monotonic_epoch b)
     && bool_decide (oeb_sender_manifest_digest e = rap_accepted_sender_manifest_digest p)
     && bool_decide (oeb_sender_qualification_certificate_digest e
                     = rap_accepted_sender_certificate_digest p)
     && bool_decide (oeb_sender_activation_receipt_digest e = sbb_sender_activation_receipt_digest b)
     && bool_decide (oeb_failure_domain_claim e = rap_accepted_failure_domain_claim p))
    (custody_error QualifiedIdentityMismatch
       "signed envelope does not match its exact live session/package/observer identities");;
  ensure (bool_decide (oeb_observer e = rap_accepted_observer p))
    (custody_error ObserverRoleMismatch
       "signed envelope observer differs from the exact accepted observer role").

(** [verify_frame_identity]. *)
Definition verify_frame_identity (p : ReceiverAcceptancePolicyV1)
    (envelope : ObservationCustodyEnvelopeV1) (frame : PulseFrameV1) : result CustodyError unit :=
  let e := sd_body envelope in
  ensure (bool_decide (pf_observer frame = oeb_observer e))
    (custody_error ObserverRoleMismatch "pulse payload observer differs from its signed envelope");;
  ensure (bool_decide (pf_subject frame = ss_subject (oeb_subject_scope e))
          && bool_decide (pf_subject_incarnation frame = ss_subject_incarnation (oeb_subject_scope e))
          && (pf_sequence frame =? oeb_observation_sequence e)
          && bool_decide (pf_observation_digest frame = oeb_observation_identity e)
          && bool_decide (oeb_subject_scope e ∈ rap_permitted_subject_scopes p))
    (custody_error SubjectScopeMismatch
       "pulse payload identity differs from its signed envelope or accepted scope").

(** [evidence_ref]. *)
Definition custody_evidence_ref (f : PulseFrameV1) : string :=
  pf_observer f +:+ "/" +:+ pf_observer_incarnation f +:+ "/seq=" +:+ dec (pf_sequence f) +:+ "/"
  +:+ pf_observation_digest f.

Definition replay_for_finding (f : TransportCustodyFindingV1) : ReplayWindowResultV1 :=
  match f with
  | DuplicateDetected => WindowDuplicate
  | ReplayDetected => WindowReplay
  | _ => WindowNotChecked
  end.

(** [next_receipt_sequence]. *)
Definition next_receipt_sequence : rx Z :=
  s ← b_get;
  if u64_max <? rcu_receipt_sequence s + 1 then
    b_fail (custody_error TransportOverloaded "receiver acceptance receipt sequence exhausted")
  else
    b_upd (fun s => set_rcu_receipt_sequence s (rcu_receipt_sequence s + 1));;
    mret (rcu_receipt_sequence s + 1).

(** [retain_receipt]. *)
Definition retain_receipt (receipt : ReceiverAcceptanceReceiptV1) : rx unit :=
  s ← b_get;
  if MAX_CUSTODY_RECEIPTS <=? Z.of_nat (length (rcu_receipts s)) then
    drop_session;;
    b_fail (custody_error TransportOverloaded
               "bounded receiver acceptance-receipt custody is exhausted")
  else b_upd (fun s => set_rcu_receipts s (rcu_receipts s ++ [receipt])).

(** [ReceiverAcceptanceReceiptV1::seal]. *)
Definition acceptance_seal (r : ReceiverAcceptanceReceiptV1) : ReceiverAcceptanceReceiptV1 :=
  set_rar_receipt_digest r (acceptance_compute_digest r).
Definition pending_receipt_digest : DigestV1 := digest_parts "transport.receipt.pending.v1" ["pending"].

(** The receipt of an admitted envelope, unsealed. *)
Definition acceptance_receipt_for (p : ReceiverAcceptancePolicyV1) (session : ReceiverLiveSession)
    (queued : QueuedEnvelope) (envelope : ObservationCustodyEnvelopeV1)
    (gap : option CustodySequenceGapV1) (replay : ReplayWindowResultV1) (evidence : DigestV1)
    (sequence : Z) : ReceiverAcceptanceReceiptV1 :=
  {| rar_schema_version := SCHEMA_VERSION_V1;
     rar_receipt_digest := pending_receipt_digest;
     rar_receiver_process_occurrence := qb_process_epoch_id (rls_receiver_activation session);
     rar_receiver_monotonic_epoch := rcb_receiver_monotonic_epoch (sd_body (rls_challenge session));
     rar_receiver_acceptance_policy_generation := rap_policy_generation p;
     rar_receiver_acceptance_policy_digest := receiver_policy_identity_digest p;
     rar_session_binding_digest := Some (sd_digest (rls_binding session));
     rar_envelope_digest := Some (sd_digest envelope);
     rar_receiver_arrival_monotonic_ms := qe_arrival_monotonic_ms queued;
     rar_remote_network_endpoint := qe_remote_endpoint queued;
     rar_sender_key_verification := CheckAccepted;
     rar_receiver_challenge_verification := CheckAccepted;
     rar_session_binding_verification := CheckAccepted;
     rar_sender_qualification_package_acceptance := CheckAccepted;
     rar_exact_identity_match := CheckAccepted;
     rar_replay_window_result := replay;
     rar_sequence_gap := gap;
     rar_queue_and_capacity_result := CheckAccepted;
     rar_subject_scope_result := CheckAccepted;
     rar_observer_role_result := CheckAccepted;
     rar_payload_decoding_result := CheckAccepted;
     rar_finding := EvidenceAdmitted;
     rar_accepted_evidence_identity := Some evidence;
     rar_refusal_reason := None;
     rar_complete := true;
     rar_receipt_sequence := sequence;
     rar_journal_identity := rap_journal_id p;
     rar_mutation_authority := MutationNone;
     rar_authority_grants := custody_grants_none |}.
Definition sealed_receipt (r : ReceiverAcceptanceReceiptV1) : rx ReceiverAcceptanceReceiptV1 :=
  let receipt := acceptance_seal r in
  b_lift (map_err from_type (acceptance_validate receipt));;
  mret receipt.
(** [acceptance_receipt]. *)
Definition acceptance_receipt (session : ReceiverLiveSession) (queued : QueuedEnvelope)
    (envelope : ObservationCustodyEnvelopeV1) (gap : option CustodySequenceGapV1)
    (replay : ReplayWindowResultV1) (evidence : DigestV1) : rx ReceiverAcceptanceReceiptV1 :=
  s ← b_get;
  sequence ← next_receipt_sequence;
  sealed_receipt (acceptance_receipt_for (rcu_policy s) session queued envelope gap replay evidence sequence).

(** The receipt of a refusal, unsealed. *)
Definition refusal_receipt_for (p : ReceiverAcceptancePolicyV1) (session : option ReceiverLiveSession)
    (queued : QueuedEnvelope) (error : CustodyError) (sequence : Z) : ReceiverAcceptanceReceiptV1 :=
  let finding := cer_finding error in
  {| rar_schema_version := SCHEMA_VERSION_V1;
     rar_receipt_digest := pending_receipt_digest;
     rar_receiver_process_occurrence :=
       match session with
       | None => "receiver-process:unavailable"
       | Some session => qb_process_epoch_id (rls_receiver_activation session)
       end;
     rar_receiver_monotonic_epoch :=
       match session with
       | None => "receiver-epoch:unavailable"
       | Some session => rcb_receiver_monotonic_epoch (sd_body (rls_challenge session))
       end;
     rar_receiver_acceptance_policy_generation := rap_policy_generation p;
     rar_receiver_acceptance_policy_digest := receiver_policy_identity_digest p;
     rar_session_binding_digest := (fun session => sd_digest (rls_binding session)) <$> session;
     rar_envelope_digest := decode_envelope_digest_without_auth (qe_bytes queued);
     rar_receiver_arrival_monotonic_ms := qe_arrival_monotonic_ms queued;
     rar_remote_network_endpoint := qe_remote_endpoint queued;
     rar_sender_key_verification :=
       match finding with
       | AuthenticationFailed | SenderKeyMismatch | SignatureInvalid => CheckRejected
       | _ => CheckNotChecked
       end;
     rar_receiver_challenge_verification := CheckNotChecked;
     rar_session_binding_verification := CheckNotChecked;
     rar_sender_qualification_package_acceptance := CheckNotChecked;
     rar_exact_identity_match := CheckNotChecked;
     rar_replay_window_result :=
       match cer_replay_window_result error with Some r => r | None => replay_for_finding finding end;
     rar_sequence_gap := None;
     rar_queue_and_capacity_result :=
       match finding with TransportOverloaded => CheckRejected | _ => CheckNotChecked end;
     rar_subject_scope_result := CheckNotChecked;
     rar_observer_role_result := CheckNotChecked;
     rar_payload_decoding_result := CheckNotChecked;
     rar_finding := finding;
     rar_accepted_evidence_identity := None;
     rar_refusal_reason := Some (cer_detail error);
     rar_complete := true;
     rar_receipt_sequence := sequence;
     rar_journal_identity := rap_journal_id p;
     rar_mutation_authority := MutationNone;
     rar_authority_grants := custody_grants_none |}.
(** [refusal_receipt]. *)
Definition refusal_receipt (queued : QueuedEnvelope) (error : CustodyError)
  : rx ReceiverAcceptanceReceiptV1 :=
  sequence ← next_receipt_sequence;
  s ← b_get;
  sealed_receipt (refusal_receipt_for (rcu_policy s) (rcu_session s) queued error sequence).

(** The counters and the window of a session that has accepted a message. *)
Definition session_advanced (session : ReceiverLiveSession) (replay : SequenceClassification)
    (observation_sequence : Z) : ReceiverLiveSession :=
  let 'mkReceiverSession a b c d _ _ _ n w m := session in
  mkReceiverSession a b c d (Some (sq_new_high replay)) (sq_new_bitmap replay)
    (Some observation_sequence) (Z.min (n + 1) u32_max) w (Z.min (m + 1) u32_max).
Definition session_rate_window (session : ReceiverLiveSession) (arrival : Z) : ReceiverLiveSession :=
  let 'mkReceiverSession a b c d e f g n w m := session in
  if sat_add w 1000 <=? arrival then mkReceiverSession a b c d e f g n arrival 0 else session.

Definition admitted_evidence_identity (envelope : ObservationCustodyEnvelopeV1)
    (session : ReceiverLiveSession) (arrival : Z) (activation : QualifiedGenerationBindingV1) : DigestV1 :=
  digest_parts "transport.admitted-evidence.v1"
    [ sd_digest envelope; sd_digest (rls_binding session); be_bytes 8 arrival;
      qb_activation_receipt_digest activation ].
Definition custody_reference (p : ReceiverAcceptancePolicyV1) (session : ReceiverLiveSession)
    (activation : QualifiedGenerationBindingV1) (queued : QueuedEnvelope)
    (envelope : ObservationCustodyEnvelopeV1) (frame : PulseFrameV1)
    (receipt : ReceiverAcceptanceReceiptV1) (evidence : DigestV1)
  : RemoteObservationCustodyReferenceV1 :=
  let e := sd_body envelope in
  {| roc_schema_version := SCHEMA_VERSION_V1;
     roc_receiver_process_occurrence := qb_process_epoch_id activation;
     roc_receiver_monotonic_epoch := rcb_receiver_monotonic_epoch (sd_body (rls_challenge session));
     roc_receiver_manifest_digest := qb_manifest_digest activation;
     roc_receiver_qualification_certificate_digest := qb_qualification_certificate_digest activation;
     roc_receiver_activation_receipt_digest := qb_activation_receipt_digest activation;
     roc_receiver_acceptance_policy_generation := rap_policy_generation p;
     roc_receiver_acceptance_policy_digest := receiver_policy_identity_digest p;
     roc_receiver_key_identity_digest := peer_key_identity_digest (rap_receiver_key p);
     roc_sender_key_identity_digest := peer_key_identity_digest (rap_accepted_sender_key p);
     roc_sender_process_occurrence := oeb_sender_process_occurrence e;
     roc_sender_monotonic_epoch := oeb_sender_monotonic_epoch e;
     roc_sender_manifest_digest := oeb_sender_manifest_digest e;
     roc_sender_qualification_certificate_digest := oeb_sender_qualification_certificate_digest e;
     roc_sender_activation_receipt_digest := oeb_sender_activation_receipt_digest e;
     roc_sender_session_offer_digest :=
       rcb_sender_session_offer_digest (sd_body (rls_challenge session));
     roc_receiver_challenge_digest := sd_digest (rls_challenge session);
     roc_session_binding_digest := sd_digest (rls_binding session);
     roc_receiver_session_acceptance_digest := rls_receiver_session_acceptance_digest session;
     roc_envelope_digest := sd_digest envelope;
     roc_acceptance_receipt_digest := rar_receipt_digest receipt;
     roc_observer := pf_observer frame;
     roc_failure_domain_claim := oeb_failure_domain_claim e;
     roc_subject_scope := oeb_subject_scope e;
     roc_observation_sequence := oeb_observation_sequence e;
     roc_session_sequence := oeb_session_sequence e;
     roc_payload_digest := oeb_payload_digest e;
     roc_observation_identity := oeb_observation_identity e;
     roc_supporting_evidence_id := custody_evidence_ref frame;
     roc_receiver_arrival_monotonic_ms := qe_arrival_monotonic_ms queued;
     roc_accepted_evidence_identity := evidence;
     roc_freshness_mode := ArrivalAnchored;
     roc_authority_grants := custody_grants_none |}.

(** [admit_envelope_inner] up to the envelope: session, lifecycle, rate and
    session bounds.  It returns the session with its rate window moved on. *)
Definition admission_capacity (subject : SubjectId) (queued : QueuedEnvelope) : rx ReceiverLiveSession :=
  s ← b_get;
  let p := rcu_policy s in
  let arrival := qe_arrival_monotonic_ms queued in
  match rcu_session s with
  | None => b_fail (custody_error SessionUnknown "receiver has no live sender session")
  | Some session =>
      if rcb_expires_at_receiver_monotonic_ms (sd_body (rls_challenge session)) <=? arrival then
        drop_session;;
        b_fail (custody_error SessionExpired
                   "receiver session expired inclusively before envelope arrival")
      else if negb (bool_decide (rcu_lifecycle_status s = CertificateAccepted)) then
        drop_session;;
        b_fail (custody_error
                   match rcu_lifecycle_status s with
                   | CertificateIsSuperseded => CertificateSuperseded
                   | CertificateIsRevoked => CertificateRevoked
                   | CertificateAccepted | CertificateUnknown => QualifiedIdentityMismatch
                   end "sender certificate lifecycle no longer permits admission")
      else
        let session := session_rate_window session arrival in
        b_upd (fun s => set_rcu_session s (Some session));;
        if (rap_maximum_messages_per_second p <=? rls_rate_window_messages session)
           || (rap_maximum_messages_per_session p <=? rls_accepted_messages session) then
          drop_session;;
          b_notice (mkReport (Some subject) TransportOverloaded
                       (Some (sd_digest (rls_binding session)))
                       "receiver-boundary rate or session-message capacity was exceeded");;
          b_fail (custody_error TransportOverloaded
                     "receiver rate or session-message bound is exhausted")
        else mret session
  end.

(** The replay window and the observation sequence of a session. *)
Definition admission_replay (session : ReceiverLiveSession) (envelope : ObservationCustodyEnvelopeV1)
  : rx SequenceClassification :=
  s ← b_get;
  let p := rcu_policy s in
  let e := sd_body envelope in
  replay ← b_lift (classify_sequence (rls_high_session_sequence session) (rls_replay_bitmap session)
                      (oeb_session_sequence e) (rap_replay_window_size p) (rap_maximum_sequence_gap p));
  if window_refuses (sq_result replay) then
    let duplicate := match sq_result replay with WindowDuplicate => true | _ => false end in
    b_upd (if duplicate then count_duplicate_refusal else count_replay_refusal);;
    b_fail (with_replay_window_result
               (custody_error (if duplicate then DuplicateDetected else ReplayDetected)
                  "duplicate, replayed, reordered, or over-window session sequence refused")
               (sq_result replay))
  else
    match rls_high_observation_sequence session with
    | Some prior =>
        if oeb_observation_sequence e <=? prior then
          b_upd count_replay_refusal;;
          b_fail (with_replay_window_result
                     (custody_error ReplayDetected
                        "observation sequence reset/replay is not admitted within a session")
                     WindowReplay)
        else mret replay
    | None => mret replay
    end.

(** The payload, the policy on freshness and the receiver's own activation. *)
Definition admission_payload (view : ReactorView) (session : ReceiverLiveSession)
    (envelope : ObservationCustodyEnvelopeV1) : rx (PulseFrameV1 * QualifiedGenerationBindingV1) :=
  s ← b_get;
  let p := rcu_policy s in
  payload ← b_lift (map_err from_type (payload_bytes (sd_body envelope)));
  frame ← b_lift (map_err (fun e => custody_error PayloadMalformed (pulse_error_display e))
                     (decode_wire payload));
  b_lift (verify_frame_identity p envelope frame);;
  b_lift (ensure (negb (rap_observation_time_freshness_required p
                         || negb (rap_arrival_anchored_evidence_may_support_reliance p)))
             (custody_error ObservationRejected
                "policy requires unproved observation-time freshness; ArrivalAnchored evidence withheld"));;
  activation ← b_lift (map_err from_reactor (rv_activation view));
  if negb (bool_decide (activation = rls_receiver_activation session)) then
    drop_session;;
    b_fail (custody_error QualifiedIdentityMismatch
               "receiver qualified activation changed during the session")
  else mret (frame, activation).

(** [admit_envelope_inner]. *)
Definition admit_envelope_inner (view : ReactorView) (subject : SubjectId) (queued : QueuedEnvelope)
  : rx (ReceiverAcceptanceReceiptV1 * VerifiedRemoteObservationV1) :=
  s ← b_get;
  let p := rcu_policy s in
  session ← admission_capacity subject queued;
  envelope ← b_lift (decode_observation_envelope_for_admission (qe_bytes queued) p session);
  b_lift (verify_envelope_session_identity p session envelope);;
  replay ← admission_replay session envelope;
  '(frame, activation) ← admission_payload view session envelope;
  let session := session_advanced session replay (oeb_observation_sequence (sd_body envelope)) in
  b_upd (fun s => set_rcu_session s (Some session));;
  b_upd (match sq_gap replay with Some _ => count_sequence_gap | None => fun s => s end);;
  let evidence := admitted_evidence_identity envelope session (qe_arrival_monotonic_ms queued) activation in
  receipt ← acceptance_receipt session queued envelope (sq_gap replay) (sq_result replay) evidence;
  let custody := custody_reference p session activation queued envelope frame receipt evidence in
  b_lift (map_err from_type (custody_validate custody));;
  mret (receipt, mkRemote frame custody receipt).

Record ReceiverEnvelopeAdmissionV1 := mkAdmission {
  ad_receipt : ReceiverAcceptanceReceiptV1;
  ad_verified : option VerifiedRemoteObservationV1;
}.
(** [admit_next]. *)
Definition admit_next (view : ReactorView) (subject : SubjectId) : rx ReceiverEnvelopeAdmissionV1 :=
  s ← b_get;
  match rcu_inbound s with
  | [] => b_fail (custody_error TransportUnavailable "receiver envelope queue is empty")
  | queued :: rest =>
      b_upd (fun s => set_rcu_inbound s rest);;
      result ← b_try (admit_envelope_inner view subject queued);
      match result with
      | Ok (receipt, verified) =>
          retain_receipt receipt;;
          mret (mkAdmission receipt (Some verified))
      | Err error =>
          receipt ← refusal_receipt queued error;
          retain_receipt receipt;;
          mret (mkAdmission receipt None)
      end
  end.
(** [ReceiverEnvelopeAdmissionV1::into_runtime_input]. *)
Definition into_runtime_input (a : ReceiverEnvelopeAdmissionV1) : result CustodyError RuntimeInputV1 :=
  match ad_verified a with
  | Some verified => Ok (RemotePulse verified)
  | None => Err (custody_error (rar_finding (ad_receipt a))
                   "receiver refusal has no verified remote evidence token")
  end.

(* ------------------------------------------------------------------ *)
(** ** Invalidation *)

Definition invalidate_custody : rx (option DigestV1) :=
  s ← b_get;
  drop_session;;
  drop_challenge;;
  b_upd (fun s => set_rcu_inbound s []);;
  mret ((fun session => sd_digest (rls_binding session)) <$> rcu_session s).

(** [apply_sender_lifecycle_fact]. *)
Definition apply_sender_lifecycle_fact (fact : GenerationLifecycleFactV1) : rx unit :=
  s ← b_get;
  b_lift (map_err custody_from_qualification (fact_validate fact));;
  b_lift (ensure (bool_decide (fb_authority_id (lf_body fact) = rap_lifecycle_authority_id (rcu_policy s))
                   && bool_decide (fb_certificate_digest (lf_body fact)
                                   = rap_accepted_sender_certificate_digest (rcu_policy s)))
             (custody_error QualifiedIdentityMismatch
                "sender lifecycle fact is not accepted by the exact local authority policy"));;
  b_upd (fun s => set_rcu_lifecycle_status s
                     match fb_kind (lf_body fact) with
                     | KindSuperseded => CertificateIsSuperseded
                     | KindRevoked => CertificateIsRevoked
                     end);;
  session ← invalidate_custody;
  b_notice (mkReport None
               match fb_kind (lf_body fact) with
               | KindSuperseded => CertificateSuperseded
               | KindRevoked => CertificateRevoked
               end session "accepted sender certificate lifecycle fact invalidated remote custody").

(** [invalidate_for_policy_change] and [report_transport_unavailable], which
    returns the reactor's [answer]. *)
Definition invalidate_for_policy_change : rx unit :=
  session ← invalidate_custody;
  b_notice (mkReport None QualifiedIdentityMismatch session
               "receiver acceptance policy changed; new qualified activation/session required").
Definition report_transport_unavailable (detail : string)
    (answer : result ReactorCommandError RuntimeCycleOutputV1) : rx RuntimeCycleOutputV1 :=
  session ← invalidate_custody;
  b_notice (mkReport None TransportUnavailable session detail);;
  b_lift (map_err from_reactor answer).
End receiver.
