(* ===== verification/CustodyAdmission.v ===== *)
(** * The replay window, and what an admitted envelope is

    [classify_sequence] keeps the sequences it has accepted as a bitmap below
    the highest one.  A reference keeps the list of all of them, and computes the
    highest itself; over every series of received sequences the two, each with
    its own state, give the same answers.  Then what every operation
    leaves of a session ([stays]), and what an admission establishes
    ([admitted]). *)

From S2P Require Import Prelude Ids Digest Pulse Wire Judgment Qualification Package CustodyTypes.
From S2P Require Import CustodyRecords CustodyWire CustodyWireProps RuntimeState.
From S2P Require Import LiveSupport Reactor CustodyReceiver.

(** ** The replay window against its reference *)

(** The window of a session: its high mark and its bitmap.  A session starts
    above sequence 0 with no bit set. *)
Definition session_window : Type := option Z * Z.
Definition window_opened : session_window := (Some 0, 0).
Definition classified (r : result CustodyError SequenceClassification) : option ReplayWindowResultV1 :=
  match r with Ok c => Some (sq_result c) | Err _ => None end.
(** What [admit_envelope_inner] does with a received sequence: the answer, and
    the window after it. *)
Definition window_receives (size gap : Z) (w : session_window) (received : Z)
  : session_window * option ReplayWindowResultV1 :=
  match classify_sequence w.1 w.2 received size gap with
  | Ok c => (if window_refuses (sq_result c) then w else (Some (sq_new_high c), sq_new_bitmap c),
             Some (sq_result c))
  | Err _ => (w, None)
  end.
Fixpoint window_answers (size gap : Z) (w : session_window) (received : list Z)
  : list (option ReplayWindowResultV1) :=
  match received with
  | [] => []
  | r :: rest => let '(w, answer) := window_receives size gap w r in
                 answer :: window_answers size gap w rest
  end.

(** The reference: it remembers every sequence it accepted, and nothing else. *)
Definition highest (accepted : list Z) : Z := foldr Z.max 0 accepted.
Definition window_reference (size gap : Z) (accepted : list Z) (received : Z)
  : option ReplayWindowResultV1 :=
  let high := highest accepted in
  if received =? 0 then None
  else if high <? received then
    Some (if gap + 1 <? received - high then WindowBoundExceeded
          else if received =? high + 1 then WindowContinuous else WindowGap)
  else if received <=? high - size then Some WindowReplay
  else if bool_decide (received ∈ accepted) then Some WindowDuplicate
  else Some WindowReordered.
Definition reference_accepts (answer : option ReplayWindowResultV1) : bool :=
  match answer with Some WindowContinuous | Some WindowGap => true | _ => false end.
Fixpoint reference_answers (size gap : Z) (accepted received : list Z)
  : list (option ReplayWindowResultV1) :=
  match received with
  | [] => []
  | r :: rest => let answer := window_reference size gap accepted r in
                 answer :: reference_answers size gap
                             (if reference_accepts answer then accepted ++ [r] else accepted) rest
  end.

(** A session's window next to the sequences the reference remembers. *)
Record Window := mkWindow {
  wi_high : Z;
  wi_bitmap : Z;
  wi_accepted : list Z;
}.
Definition window_start : Window := mkWindow 0 0 [].

(** A window that answers for its accepted sequences. *)
Record window_ok (size : Z) (w : Window) : Prop := {
  wo_high : 0 <= wi_high w <= u64_max;
  wo_highest : highest (wi_accepted w) = wi_high w;
  wo_below : Forall (λ x, 0 < x <= wi_high w) (wi_accepted w);
  wo_bits : ∀ d, 0 <= d < size →
    Z.testbit (wi_bitmap w) d = bool_decide (wi_high w - d ∈ wi_accepted w);
}.

Lemma window_start_ok size : window_ok size window_start.
Proof.
  split; [done|done|constructor|]. intros d _. cbn [wi_bitmap wi_high wi_accepted window_start].
  rewrite Z.bits_0. symmetry. apply bool_decide_eq_false. by intros ?%elem_of_nil.
Qed.

Lemma mask_bit bitmap d : 0 <= d → (Z.land bitmap (Z.shiftl 1 d) =? 0) = negb (Z.testbit bitmap d).
Proof.
  intros Hd. rewrite Z.shiftl_1_l. destruct (Z.testbit bitmap d) eqn:Hb; cbn.
  - apply Z.eqb_neq. intros Hz. apply (f_equal (λ z, Z.testbit z d)) in Hz.
    rewrite Z.land_spec, Hb, Z.pow2_bits_true, Z.bits_0 in Hz by done. done.
  - apply Z.eqb_eq, Z.bits_inj'. intros n Hn. rewrite Z.land_spec, Z.bits_0.
    destruct (decide (n = d)) as [->|]; [by rewrite Hb|].
    by rewrite Z.pow2_bits_false, andb_false_r.
Qed.

(** The bits of the window that moves on by [delta]. *)
Definition moved (size bitmap delta : Z) : Z :=
  if size <=? delta then 1 else Z.lor (Z.land (Z.shiftl bitmap delta) u64_max) 1.
Lemma moved_bit size bitmap delta d :
  size <= 64 → 0 < delta → 0 <= d < size →
  Z.testbit (moved size bitmap delta) d
  = if d =? 0 then true else (delta <=? d) && Z.testbit bitmap (d - delta).
Proof.
  intros Hs Hdelta Hd. unfold moved.
  assert (H1 : ∀ e, 0 <= e → Z.testbit 1 e = (e =? 0)).
  { intros e He. change 1 with (2 ^ 0). rewrite Z.pow2_bits_eqb by done. apply Z.eqb_sym. }
  destruct (Z.leb_spec size delta).
  - rewrite H1 by lia. destruct (Z.eqb_spec d 0); [done|].
    by rewrite (proj2 (Z.leb_gt _ _)) by lia.
  - rewrite Z.lor_spec, Z.land_spec, Z.shiftl_spec, H1 by lia.
    change u64_max with (Z.ones 64). rewrite Z.ones_spec_low by lia. rewrite andb_true_r.
    destruct (Z.eqb_spec d 0); [by rewrite orb_true_r|]. rewrite orb_false_r.
    destruct (Z.leb_spec delta d); [done|]. apply Z.testbit_neg_r. lia.
Qed.

Lemma highest_snoc accepted r : 0 <= r → highest (accepted ++ [r]) = Z.max (highest accepted) r.
Proof. unfold highest. intros Hr. induction accepted as [|x rest IH]; cbn; lia. Qed.

Lemma window_moves size w received :
  1 <= size <= 64 → window_ok size w → wi_high w < received <= u64_max →
  window_ok size (mkWindow received (moved size (wi_bitmap w) (received - wi_high w))
                    (wi_accepted w ++ [received])).
Proof.
  intros Hs [Hh Hm Hb Hbits] Hr. split; cbn.
  - lia.
  - rewrite highest_snoc by lia. lia.
  - apply Forall_app. split; [|by repeat constructor; lia].
    eapply Forall_impl; [exact Hb|]. cbn. lia.
  - intros d Hd. rewrite moved_bit by lia.
    destruct (Z.eqb_spec d 0) as [->|].
    { symmetry. apply bool_decide_eq_true. rewrite Z.sub_0_r. set_solver. }
    assert (Hin : received - d ∈ wi_accepted w ++ [received] ↔ received - d ∈ wi_accepted w).
    { rewrite elem_of_app, list_elem_of_singleton. split; [|by left]. intros [?|]; [done|lia]. }
    rewrite (bool_decide_ext _ _ Hin).
    destruct (Z.leb_spec (received - wi_high w) d); cbn.
    + rewrite Hbits by lia. apply bool_decide_ext. by replace (wi_high w - _) with (received - d) by lia.
    + symmetry. apply bool_decide_eq_false. intros Hin'. rewrite Forall_forall in Hb.
      apply Hb in Hin'. lia.
Qed.

Lemma classify_above size gap high bitmap received :
  0 <= gap <= u64_max → 0 <= high < received → received <= u64_max →
  classify_sequence (Some high) bitmap received size gap
  = Ok (if gap + 1 <? received - high then mkClassification WindowBoundExceeded None high bitmap
        else if received =? high + 1
        then mkClassification WindowContinuous None received (moved size bitmap (received - high))
        else mkClassification WindowGap (Some (mkCustodyGap (high + 1) received (received - high - 1)))
               received (moved size bitmap (received - high))).
Proof.
  intros Hg Hh Hr. unfold classify_sequence. rewrite (proj2 (Z.eqb_neq received 0)) by lia.
  cbn [negb ensure mbind result_bind]. rewrite (proj2 (Z.ltb_lt _ _)) by lia.
  unfold sat_add. rewrite (Z.min_l (high + 1)) by lia.
  assert (Hm : (Z.min (gap + 1) u64_max <? received - high) = (gap + 1 <? received - high))
    by (destruct (Z.ltb_spec (gap + 1) (received - high)); [apply Z.ltb_lt|apply Z.ltb_ge]; lia).
  rewrite Hm. destruct (gap + 1 <? received - high); [done|].
  destruct (Z.eqb_spec received (high + 1)) as [->|].
  - by rewrite (proj2 (Z.ltb_ge 1 _)) by lia.
  - by rewrite (proj2 (Z.ltb_lt 1 _)) by lia.
Qed.

Lemma classify_exact size gap w received :
  0 <= gap <= u64_max → window_ok size w → 0 <= received <= u64_max →
  classified (classify_sequence (Some (wi_high w)) (wi_bitmap w) received size gap)
  = window_reference size gap (wi_accepted w) received.
Proof.
  intros Hg [Hh Hm _ Hbits] Hr. unfold window_reference. rewrite Hm.
  destruct (Z.eqb_spec received 0) as [->|]; [done|].
  destruct (Z.ltb_spec (wi_high w) received).
  { rewrite classify_above by lia. by repeat case_match. }
  unfold classify_sequence. rewrite (proj2 (Z.eqb_neq received 0)), (proj2 (Z.ltb_ge _ _)) by lia.
  cbn [negb ensure mbind result_bind].
  destruct (Z.leb_spec size (wi_high w - received)).
  { by rewrite (proj2 (Z.leb_le _ _)) by lia. }
  rewrite (proj2 (Z.leb_gt _ _)) by lia. rewrite mask_bit, negb_involutive by lia.
  rewrite Hbits by lia. replace (wi_high w - (wi_high w - received)) with received by lia.
  cbn. by case_bool_decide.
Qed.

(** One received sequence: the answers agree, and so do the states after it. *)
Lemma window_receives_exact size gap w received :
  1 <= size <= 64 → 0 <= gap <= u64_max → window_ok size w → 0 <= received <= u64_max →
  let answer := window_reference size gap (wi_accepted w) received in
  ∃ w', window_receives size gap (Some (wi_high w), wi_bitmap w) received
        = ((Some (wi_high w'), wi_bitmap w'), answer)
    ∧ wi_accepted w' = (if reference_accepts answer then wi_accepted w ++ [received] else wi_accepted w)
    ∧ window_ok size w'.
Proof.
  intros Hs Hg Hw Hr. cbv zeta. pose proof (wo_high _ _ Hw). pose proof (wo_highest _ _ Hw) as Hm.
  pose proof (classify_exact size gap w received Hg Hw Hr) as Hc.
  unfold window_receives. cbn [fst snd]. unfold window_reference in *. rewrite Hm in *.
  destruct (Z.eqb_spec received 0) as [->|]; [by exists w|].
  destruct (Z.ltb_spec (wi_high w) received).
  - rewrite classify_above by lia.
    destruct (Z.ltb_spec (gap + 1) (received - wi_high w)); [by exists w|].
    exists (mkWindow received (moved size (wi_bitmap w) (received - wi_high w))
              (wi_accepted w ++ [received])).
    assert (Hok := window_moves size w received Hs Hw ltac:(lia)).
    by destruct (received =? wi_high w + 1).
  - destruct (classify_sequence _ _ _ _ _) as [c|]; [|by repeat case_match].
    cbn [classified] in Hc. exists w. rewrite <- Hc.
    repeat case_match; injection Hc as Hc; rewrite Hc in *; done.
Qed.

Lemma window_answers_exact size gap received w :
  1 <= size <= 64 → 0 <= gap <= u64_max → Forall (λ r, 0 <= r <= u64_max) received → window_ok size w →
  window_answers size gap (Some (wi_high w), wi_bitmap w) received
  = reference_answers size gap (wi_accepted w) received.
Proof.
  intros Hs Hg Hr. revert w. induction Hr as [|r rest Hr _ IH]; intros w Hw; [done|].
  destruct (window_receives_exact size gap w r Hs Hg Hw Hr) as (w'&E&Ha&Hw').
  cbn [window_answers reference_answers]. rewrite E, <- Ha. f_equal. by apply IH.
Qed.

(** C34. The replay window is exact.  For every window size and gap a policy may
    have, and for every series of received session sequences, the answers of the
    high mark and the bitmap of a new session, moved on by [classify_sequence],
    are those of a reference that keeps only the list of the sequences it
    accepted: a duplicate is an accepted sequence inside the window below the
    highest accepted one, a replay lies below the window, a reordered one is
    inside it and was not accepted, and a new one is accepted exactly within the
    bound on gaps. *)
Theorem replay_window_exact size gap received :
  1 <= size <= MAX_CUSTODY_REPLAY_WINDOW → 0 <= gap <= u64_max →
  Forall (λ r, 0 <= r <= u64_max) received →
  window_answers size gap window_opened received = reference_answers size gap [] received.
Proof.
  intros Hs Hg Hr. unfold MAX_CUSTODY_REPLAY_WINDOW in Hs.
  exact (window_answers_exact size gap received window_start Hs Hg Hr (window_start_ok size)).
Qed.

Lemma replay_window_exact_witness :
  window_answers 4 8 window_opened [1; 2; 4; 3; 4; 100; 13; 0; 9; 14]
  = [Some WindowContinuous; Some WindowContinuous; Some WindowGap; Some WindowReordered;
     Some WindowDuplicate; Some WindowBoundExceeded; Some WindowGap; None; Some WindowReplay;
     Some WindowContinuous].
Proof.
  rewrite (replay_window_exact 4 8 [1; 2; 4; 3; 4; 100; 13; 0; 9; 14]).
  - vm_compute. reflexivity.
  - vm_compute. split; discriminate.
  - vm_compute. split; discriminate.
  - repeat constructor; vm_compute; discriminate.
Defined.

(* ------------------------------------------------------------------ *)
(** ** What an operation leaves of a session *)

Definition opt_le (a b : option Z) : Prop :=
  match a, b with
  | None, _ => True
  | Some x, Some y => x <= y
  | Some _, None => False
  end.
#[global] Instance opt_le_preorder : PreOrder opt_le.
Proof.
  split; [intros [x|]; cbn; [lia|done]|].
  intros [x|] [y|] [z|]; cbn; try done. lia.
Qed.

(** The same session, its sequences never lower. *)
Record session_le (a b : ReceiverLiveSession) : Prop := {
  sl_challenge : rls_challenge b = rls_challenge a;
  sl_binding : rls_binding b = rls_binding a;
  sl_acceptance : rls_receiver_session_acceptance_digest b = rls_receiver_session_acceptance_digest a;
  sl_activation : rls_receiver_activation b = rls_receiver_activation a;
  sl_high : opt_le (rls_high_session_sequence a) (rls_high_session_sequence b);
  sl_observation : opt_le (rls_high_observation_sequence a) (rls_high_observation_sequence b);
}.
#[global] Instance session_le_preorder : PreOrder session_le.
Proof.
  split; [by intros a; split|]. intros a b c [] []. split; try congruence; by etrans.
Qed.
(** What every operation but the two that open a session leaves. *)
Record stays (s s' : ReceiverCustodyV1) : Prop := {
  st_signing : rcu_signing s' = rcu_signing s;
  st_policy : rcu_policy s' = rcu_policy s;
  st_package : rcu_accepted_sender_package s' = rcu_accepted_sender_package s;
  st_pending : rcu_pending_challenge s' = rcu_pending_challenge s ∨ rcu_pending_challenge s' = None;
  st_session : ∀ b, rcu_session s' = Some b → ∃ a, rcu_session s = Some a ∧ session_le a b;
  st_receipts : rcu_receipts s `prefix_of` rcu_receipts s';
  st_lifecycle : rcu_lifecycle_status s' = CertificateAccepted →
    rcu_lifecycle_status s = CertificateAccepted;
}.
#[global] Instance stays_preorder : PreOrder stays.
Proof.
  split.
  - intros s. split; auto. intros b Hb. by exists b.
  - intros a b c Hab Hbc. split.
    1-3: destruct Hab, Hbc; congruence.
    + destruct (st_pending _ _ Hbc) as [->|]; [apply Hab|by right].
    + intros z (y&Hy&Hyz)%(st_session _ _ Hbc). apply (st_session _ _ Hab) in Hy as (x&Hx&Hxy).
      exists x. split; [done|]. by etrans.
    + etrans; [apply Hab|apply Hbc].
    + intros Hz. by apply Hab, Hbc.
Qed.
Create HintDb custody.
#[export] Hint Extern 0 (stays ?s ?s) => reflexivity : custody.

Lemma stays_drop_session s : stays s (set_rcu_session s None).
Proof. destruct s. split; cbn; auto. done. Qed.
Lemma stays_drop_challenge s : stays s (set_rcu_pending_challenge s None).
Proof. destruct s. split; cbn; auto. intros b Hb. by exists b. Qed.
Lemma stays_inbound s q : stays s (set_rcu_inbound s q).
Proof. destruct s. split; cbn; auto. intros b Hb. by exists b. Qed.
Lemma stays_receipt_sequence s n : stays s (set_rcu_receipt_sequence s n).
Proof. destruct s. split; cbn; auto. intros b Hb. by exists b. Qed.
Lemma stays_receipt s r : stays s (set_rcu_receipts s (rcu_receipts s ++ [r])).
Proof. destruct s. split; cbn; auto. { intros b Hb. by exists b. } by apply prefix_app_r. Qed.
Lemma stays_counters s :
  stays s (count_duplicate_refusal s) ∧ stays s (count_replay_refusal s)
  ∧ stays s (count_sequence_gap s) ∧ stays s (count_queue_refusal s)
  ∧ stays s (count_competing_occurrence s).
Proof. destruct s. split_and!; (split; cbn; auto; intros b Hb; by exists b). Qed.
Lemma stays_lifecycle s v : v ≠ CertificateAccepted → stays s (set_rcu_lifecycle_status s v).
Proof. destruct s. split; cbn; auto. { intros b Hb. by exists b. } done. Qed.
Lemma stays_session s a b :
  rcu_session s = Some a → session_le a b → stays s (set_rcu_session s (Some b)).
Proof. destruct s. cbn. intros -> Hle. split; cbn; auto. intros ? [= <-]. by exists a. Qed.

(** A computation that leaves a session as [stays] says, whatever its outcome. *)
Definition leaves {A} (c : rx A) : Prop := ∀ s, mwp c s (λ s' _, stays (en_custody s) (en_custody s')).
Lemma leaves_bind {A B} (c : rx A) (k : A → rx B) : leaves c → (∀ a, leaves (k a)) → leaves (c ≫= k).
Proof.
  intros Hc Hk s. apply mwp_bind. eapply mwp_mono; [apply Hc|]. intros s1 [a|e] H1; [|done].
  eapply mwp_mono; [apply Hk|]. intros s2 r H2. cbn. by etrans.
Qed.
Lemma leaves_lift {A} (r : result CustodyError A) : leaves (b_lift r).
Proof. intros s. unfold mwp. cbn. reflexivity. Qed.
Lemma leaves_ret {A} (a : A) : leaves (mret a).
Proof. intros s. unfold mwp. cbn. reflexivity. Qed.
Lemma leaves_fail {A} e : leaves (b_fail (A:=A) e).
Proof. intros s. unfold mwp. cbn. reflexivity. Qed.
Lemma leaves_get : leaves b_get.
Proof. intros s. unfold mwp. cbn. reflexivity. Qed.
Lemma leaves_report x : leaves (b_notice x).
Proof. intros s. unfold mwp. cbn. reflexivity. Qed.
Lemma leaves_upd f : (∀ s, stays s (f s)) → leaves (b_upd f).
Proof. intros Hf s. apply Hf. Qed.
Lemma leaves_try {A} (c : rx A) : leaves c → leaves (b_try c).
Proof. intros Hc s. specialize (Hc s). unfold mwp, b_try in *. by destruct (c s). Qed.
Lemma leaves_if {A} (b : bool) (c1 c2 : rx A) : leaves c1 → leaves c2 → leaves (if b then c1 else c2).
Proof. by destruct b. Qed.
Lemma leaves_drop_session : leaves drop_session.
Proof. apply leaves_upd, stays_drop_session. Qed.
Lemma leaves_drop_challenge : leaves drop_challenge.
Proof. apply leaves_upd, stays_drop_challenge. Qed.
#[export] Hint Resolve leaves_lift leaves_ret leaves_fail leaves_get leaves_report leaves_drop_session
  leaves_drop_challenge leaves_if stays_inbound stays_receipt_sequence : custody.
#[export] Hint Extern 2 (leaves (_ ≫= _)) => apply leaves_bind : custody.
#[export] Hint Extern 2 (leaves (b_upd _)) => apply leaves_upd : custody.
#[export] Hint Extern 2 (stays _ (count_duplicate_refusal _)) => apply stays_counters : custody.
#[export] Hint Extern 2 (stays _ (count_replay_refusal _)) => apply stays_counters : custody.
#[export] Hint Extern 2 (stays _ (count_sequence_gap _)) => apply stays_counters : custody.
#[export] Hint Extern 2 (stays _ (count_queue_refusal _)) => apply stays_counters : custody.
#[export] Hint Extern 2 (stays _ (count_competing_occurrence _)) => apply stays_counters : custody.
Ltac leaves := repeat first [ progress (intros; cbn beta) | solve [auto with custody]
                           | apply leaves_bind | apply leaves_if | apply leaves_upd | case_goal ].

(* ------------------------------------------------------------------ *)
(** ** The operations *)

Lemma session_rate_window_le session arrival : session_le session (session_rate_window session arrival).
Proof. destruct session. cbn. by case_match. Qed.

Section operations.
Context `{Sha256} `{PackageJson} `{FactJson} `{CustodyJson} `{CustodyPolicyJson} `{SignatureScheme}.

Lemma leaves_refuse_competing {A} active subject : leaves (@refuse_competing A active subject).
Proof. unfold refuse_competing. leaves. Qed.
Lemma leaves_enqueue view bytes endpoint : leaves (enqueue_envelope view bytes endpoint).
Proof. unfold enqueue_envelope. leaves. Qed.
Lemma leaves_next_receipt_sequence : leaves next_receipt_sequence.
Proof. unfold next_receipt_sequence. leaves. Qed.
Lemma leaves_retain receipt : leaves (retain_receipt receipt).
Proof. unfold retain_receipt. leaves. apply stays_receipt. Qed.
Lemma leaves_sealed r : leaves (sealed_receipt r).
Proof. unfold sealed_receipt. leaves. Qed.
Lemma leaves_acceptance_receipt session queued envelope gap replay evidence :
  leaves (acceptance_receipt session queued envelope gap replay evidence).
Proof. unfold acceptance_receipt. leaves. Qed.
Lemma leaves_refusal_receipt queued error : leaves (refusal_receipt queued error).
Proof. unfold refusal_receipt. leaves. Qed.
Lemma leaves_admission_replay session envelope : leaves (admission_replay session envelope).
Proof. unfold admission_replay. leaves. Qed.
Lemma leaves_admission_payload view session envelope : leaves (admission_payload view session envelope).
Proof. unfold admission_payload. leaves. Qed.
Lemma leaves_invalidate : leaves invalidate_custody.
Proof. unfold invalidate_custody. leaves. Qed.
Lemma leaves_lifecycle_fact fact : leaves (apply_sender_lifecycle_fact fact).
Proof.
  unfold apply_sender_lifecycle_fact. leaves; by apply stays_lifecycle.
Qed.

(** *** The parts of an admission *)

Record has_capacity (s : ReceiverCustodyV1) (queued : QueuedEnvelope)
    (before session : ReceiverLiveSession) : Prop := {
  hc_window : session = session_rate_window before (qe_arrival_monotonic_ms queued);
  hc_live : qe_arrival_monotonic_ms queued
            < rcb_expires_at_receiver_monotonic_ms (sd_body (rls_challenge session));
  hc_lifecycle : rcu_lifecycle_status s = CertificateAccepted;
  hc_rate : rls_rate_window_messages session < rap_maximum_messages_per_second (rcu_policy s);
  hc_messages : rls_accepted_messages session < rap_maximum_messages_per_session (rcu_policy s);
}.
Lemma admission_capacity_wp subject queued s :
  mwp (admission_capacity subject queued) s (λ s' r,
    match r with
    | Ok session => ∃ before,
        rcu_session (en_custody s) = Some before
        ∧ has_capacity (en_custody s) queued before session
        ∧ s' = mkEndpoint (set_rcu_session (en_custody s) (Some session)) (en_notices s)
    | Err _ => stays (en_custody s) (en_custody s')
    end).
Proof.
  unfold admission_capacity, drop_session. apply mwp_get_bind.
  destruct (rcu_session (en_custody s)) as [before|] eqn:Hs; [|mwp_step; reflexivity].
  mwp_step; [repeat mwp_step; apply stays_drop_session|].
  mwp_step; [repeat mwp_step; apply stays_drop_session|].
  assert (Hle : stays (en_custody s)
                  (set_rcu_session (en_custody s)
                     (Some (session_rate_window before (qe_arrival_monotonic_ms queued)))))
    by (eapply stays_session; [done|apply session_rate_window_le]).
  mwp_step. mwp_step; [repeat mwp_step; cbn; etrans; [exact Hle|apply stays_drop_session]|].
  split_and_bool. mwp_step. exists before. split; [done|]. split; [|done].
  pose proof (session_rate_window_le before (qe_arrival_monotonic_ms queued)) as [Hc _ _ _ _ _].
  split; [done|rewrite Hc; lia|by eapply bool_decide_eq_true_1|lia|lia].
Qed.

Definition newer (prior : option Z) (n : Z) : Prop :=
  match prior with Some p => p < n | None => True end.
Lemma admission_replay_wp session envelope s :
  mwp (admission_replay session envelope) s (λ s' r,
    match r with
    | Ok replay =>
        s' = s
        ∧ classify_sequence (rls_high_session_sequence session) (rls_replay_bitmap session)
            (oeb_session_sequence (sd_body envelope)) (rap_replay_window_size (rcu_policy (en_custody s)))
            (rap_maximum_sequence_gap (rcu_policy (en_custody s))) = Ok replay
        ∧ window_refuses (sq_result replay) = false
        ∧ newer (rls_high_observation_sequence session) (oeb_observation_sequence (sd_body envelope))
    | Err _ => stays (en_custody s) (en_custody s')
    end).
Proof.
  unfold admission_replay. mwp_step. mwp_step; [|reflexivity].
  mwp_step; [repeat mwp_step; cbn; case_match; apply stays_counters|].
  destruct (rls_high_observation_sequence session); [|by mwp_step].
  mwp_step; [repeat mwp_step; cbn; apply stays_counters|]. mwp_step. split_and!; [done..|]. cbn. lia.
Qed.

Lemma admission_payload_wp view session envelope s :
  let p := rcu_policy (en_custody s) in
  mwp (admission_payload view session envelope) s (λ s' r,
    match r with
    | Ok (frame, activation) =>
        s' = s
        ∧ (∃ payload, payload_bytes (sd_body envelope) = Ok payload ∧ decode_wire payload = Ok frame)
        ∧ verify_frame_identity p envelope frame = Ok tt
        ∧ rap_observation_time_freshness_required p = false
        ∧ rap_arrival_anchored_evidence_may_support_reliance p = true
        ∧ activation = rls_receiver_activation session
        ∧ rv_activation view = Ok activation
    | Err _ => stays (en_custody s) (en_custody s')
    end).
Proof.
  cbv zeta. unfold admission_payload, drop_session. mwp_step.
  do 5 (mwp_step; [|reflexivity]).
  mwp_step; [repeat mwp_step; apply stays_drop_session|]. inv_oks. split_and_bool.
  mwp_step. split_and!; try done; [by eexists|by destruct a1|by eapply bool_decide_eq_true_1].
Qed.

(** Above the highest accepted sequence is where a session accepts. *)
Lemma accepted_is_newer high bitmap received size gap replay :
  classify_sequence high bitmap received size gap = Ok replay →
  window_refuses (sq_result replay) = false →
  sq_new_high replay = received ∧ newer high received.
Proof.
  unfold classify_sequence. intros Hc Hr. inv_ok Hc.
  destruct high as [high|]; [|by injection Hc as <-].
  destruct (Z.ltb_spec high received).
  - destruct (_ <? received - high); injection Hc as <-; done.
  - destruct (_ <=? high - received); injection Hc as <-; [done|]. cbn [sq_result] in Hr. by destruct (negb (Z.land _ _ =? 0)).
Qed.
Lemma session_advanced_le session replay n :
  sq_new_high replay = n → newer (rls_high_session_sequence session) n →
  ∀ m, newer (rls_high_observation_sequence session) m →
  session_le session (session_advanced session replay m).
Proof.
  intros <- Hn m Hm. destruct session as [? ? ? ? high ? observation ? ? ?]. cbn in *.
  split; try done; cbn; [destruct high|destruct observation]; try done; cbn in *; lia.
Qed.

Lemma decode_for_admission_Ok datagram p session envelope :
  decode_observation_envelope_for_admission datagram p session = Ok envelope →
  ∃ bytes signature,
    authentic encode_envelope_body DomainObservationCustodyEnvelope OBSERVATION_ENVELOPE_KIND datagram
      (rap_accepted_sender_key p) envelope bytes signature
    ∧ envelope_body_validate (sd_body envelope) = Ok tt.
Proof.
  intros Hd. eapply decode_object_Ok in Hd as (bytes&signature&Ha&Hb&_);
    [by exists bytes, signature|apply envelope_codec|unfold OBSERVATION_ENVELOPE_KIND; lia].
Qed.

(** *** An admission *)

(** What holds of an envelope taken from the queue of [s] when it is admitted,
    of the session it belongs to and of the token it yields. *)
Record admitted (view : ReactorView) (s : ReceiverCustodyV1) (queued : QueuedEnvelope)
    (receipt : ReceiverAcceptanceReceiptV1) (verified : VerifiedRemoteObservationV1)
    (before session : ReceiverLiveSession) (envelope : ObservationCustodyEnvelopeV1)
    (bytes signature : string) : Prop := {
  adm_session : rcu_session s = Some before;
  adm_capacity : has_capacity s queued before session;
  adm_authentic : authentic encode_envelope_body DomainObservationCustodyEnvelope
    OBSERVATION_ENVELOPE_KIND (qe_bytes queued) (rap_accepted_sender_key (rcu_policy s)) envelope
    bytes signature;
  adm_body : envelope_body_validate (sd_body envelope) = Ok tt;
  adm_identity : verify_envelope_session_identity (rcu_policy s) session envelope = Ok tt;
  adm_newer : newer (rls_high_session_sequence session) (oeb_session_sequence (sd_body envelope));
  adm_newer_observation :
    newer (rls_high_observation_sequence session) (oeb_observation_sequence (sd_body envelope));
  adm_payload : ∃ payload, payload_bytes (sd_body envelope) = Ok payload
    ∧ decode_wire payload = Ok (vr_frame verified);
  adm_frame : verify_frame_identity (rcu_policy s) envelope (vr_frame verified) = Ok tt;
  adm_policy : rap_observation_time_freshness_required (rcu_policy s) = false
    ∧ rap_arrival_anchored_evidence_may_support_reliance (rcu_policy s) = true;
  adm_activation : rv_activation view = Ok (rls_receiver_activation session);
  adm_token : vr_custody verified
    = custody_reference (rcu_policy s) session (rls_receiver_activation session) queued envelope
        (vr_frame verified) receipt
        (admitted_evidence_identity envelope session (qe_arrival_monotonic_ms queued)
           (rls_receiver_activation session));
  adm_custody : custody_validate (vr_custody verified) = Ok tt;
  adm_receipt : vr_receipt verified = receipt;
  adm_receipt_valid : acceptance_validate receipt = Ok tt;
  adm_finding : rar_finding receipt = EvidenceAdmitted;
}.

Lemma acceptance_receipt_wp session queued envelope gap replay evidence s :
  mwp (acceptance_receipt session queued envelope gap replay evidence) s (λ s' r,
    stays (en_custody s) (en_custody s') ∧ rcu_session (en_custody s') = rcu_session (en_custody s)
    ∧ match r with
      | Ok receipt => acceptance_validate receipt = Ok tt ∧ rar_finding receipt = EvidenceAdmitted
      | Err _ => True
      end).
Proof.
  unfold acceptance_receipt, next_receipt_sequence, sealed_receipt. mwp_step. mwp_step. mwp_step. mwp_step.
  { mwp_step. split_and!; [reflexivity|done|done]. }
  mwp_step. mwp_step. mwp_step. mwp_step; inv_oks.
  - mwp_step. split; [apply stays_receipt_sequence|].
    split; [by destruct (en_custody s)|]. by destruct a.
  - split; [apply stays_receipt_sequence|]. split; [by destruct (en_custody s)|done].
Qed.

Lemma admit_envelope_inner_wp view subject queued s :
  mwp (admit_envelope_inner view subject queued) s (λ s' r,
    stays (en_custody s) (en_custody s')
    ∧ match r with
      | Ok (receipt, verified) => ∃ before session envelope bytes signature replay,
          admitted view (en_custody s) queued receipt verified before session envelope bytes signature
          ∧ sq_new_high replay = oeb_session_sequence (sd_body envelope)
          ∧ rcu_session (en_custody s')
            = Some (session_advanced session replay (oeb_observation_sequence (sd_body envelope)))
      | Err _ => True
      end).
Proof.
  unfold admit_envelope_inner. mwp_step. apply mwp_bind. eapply mwp_mono; [apply admission_capacity_wp|].
  intros s1 [session|e]; cbn [after]; [|done]. intros (before&Hs&Hc&->).
  assert (Hst : stays (en_custody s) (set_rcu_session (en_custody s) (Some session))).
  { eapply stays_session; [done|]. rewrite (hc_window _ _ _ _ Hc). apply session_rate_window_le. }
  mwp_step; [|done]. rename a into envelope. mwp_step; [|done].
  assert (Hpol : rcu_policy (set_rcu_session (en_custody s) (Some session)) = rcu_policy (en_custody s))
    by apply Hst.
  apply mwp_bind. eapply mwp_mono; [apply admission_replay_wp|]. cbn [en_custody]. rewrite Hpol.
  intros s2 [replay|e]; cbn [after]; [|by split; [etrans|]]. intros (->&Hcl&Hrf&Hobs).
  apply mwp_bind. eapply mwp_mono; [apply admission_payload_wp|]. cbn [en_custody]. rewrite Hpol.
  intros s3 [[frame activation]|e]; cbn [after]; [|by split; [etrans|]].
  intros (->&Hpay&Hfr&Hf&Hv&->&Ha).
  destruct (accepted_is_newer _ _ _ _ _ _ Hcl Hrf) as [Hh Hn].
  mwp_step. mwp_step. cbn [en_custody en_notices].
  set (session' := session_advanced _ _ _). set (c2 := match sq_gap replay with Some _ => _ | None => _ end _).
  assert (Hc2 : stays (en_custody s) c2 ∧ rcu_session c2 = Some session').
  { assert (Hset : stays (en_custody s) (set_rcu_session (set_rcu_session (en_custody s) (Some session))
                                           (Some session'))).
    { etrans; [exact Hst|]. eapply stays_session; [by destruct (en_custody s)|].
      by eapply session_advanced_le. }
    split.
    - etrans; [exact Hset|]. unfold c2. case_match; [apply stays_counters|reflexivity].
    - unfold c2. by case_match; destruct (en_custody s). }
  apply mwp_bind. eapply mwp_mono; [apply acceptance_receipt_wp|]. cbn [en_custody].
  intros s4 [receipt|e] (Hs4&Hses&Hr); cbn [after]; [|by split; [etrans; [apply Hc2|]|]].
  rewrite (proj2 Hc2) in Hses.
  assert (stays (en_custody s) (en_custody s4)) by (etrans; [apply Hc2|done]).
  mwp_step; [|done]. mwp_step. split; [done|].
  edestruct decode_for_admission_Ok as (bytes&signature&Hau&Hbody); [eassumption|].
  exists before, session, envelope, bytes, signature, replay. split; [|done]. inv_oks.
  split; try done; [by destruct a|by unfold session'; destruct session| |apply Hr|apply Hr].
  by destruct a0.
Qed.
End operations.
