(* ===== verification/CustodyReceiverProps.v ===== *)
(** * The receiver over its lifetime

    Any series of calls of the receiver's methods from its construction: the
    sessions it holds were opened by signed messages of the accepted sender,
    and no observation is admitted twice. *)

From S2P Require Import Prelude Ids Digest Pulse Wire Judgment Qualification Package CustodyTypes.
From S2P Require Import CustodyRecords CustodyWire CustodyWireProps RuntimeState.
From S2P Require Import LiveSupport LiveSupportProps Reactor CustodyReceiver CustodyAdmission.

(** A call of a method, with what the reactor answers and [OsRng] gives. *)
Inductive ReceiverOp :=
| OpOffer (view : ReactorView) (subject : SubjectId) (nonce datagram : string)
| OpBinding (view : ReactorView) (subject : SubjectId) (datagram : string)
| OpEnqueue (view : ReactorView) (bytes endpoint : string)
| OpAdmit (view : ReactorView) (subject : SubjectId)
| OpLifecycle (fact : GenerationLifecycleFactV1)
| OpPolicyChange
| OpUnavailable (detail : string) (answer : result ReactorCommandError RuntimeCycleOutputV1).
(** What a call hands out: a signed challenge, or a token of an admission. *)
Inductive ReceiverEvent :=
| ChallengeIssued (challenge : ReceiverSessionChallengeV1)
| ObservationAdmitted (verified : VerifiedRemoteObservationV1).

Definition issued_of (e : ReceiverEvent) : list DigestV1 :=
  match e with ChallengeIssued c => [sd_digest c] | ObservationAdmitted _ => [] end.
Definition admitted_of (e : ReceiverEvent) : list RemoteObservationCustodyReferenceV1 :=
  match e with ChallengeIssued _ => [] | ObservationAdmitted v => [vr_custody v] end.
Definition issued (es : list ReceiverEvent) : list DigestV1 := es ≫= issued_of.
Definition admissions (es : list ReceiverEvent) : list RemoteObservationCustodyReferenceV1 :=
  es ≫= admitted_of.

Section lifetime.
Context `{Sha256} `{PackageJson} `{FactJson} `{CustodyJson} `{CustodyPolicyJson} `{SignatureScheme}.

Definition receiver_step (op : ReceiverOp) (s : ReceiverState) : ReceiverState * list ReceiverEvent :=
  match op with
  | OpOffer view subject nonce datagram =>
      let '(s', r) := accept_session_offer_and_issue_challenge view subject nonce datagram s in
      (s', match r, rcu_pending_challenge (en_custody s') with
           | Ok _, Some (challenge, _, _) => [ChallengeIssued challenge]
           | _, _ => []
           end)
  | OpBinding view subject datagram => ((accept_session_binding view subject datagram s).1, [])
  | OpEnqueue view bytes endpoint => ((enqueue_envelope view bytes endpoint s).1, [])
  | OpAdmit view subject =>
      let '(s', r) := admit_next view subject s in
      (s', match r with
           | Ok a => match ad_verified a with Some v => [ObservationAdmitted v] | None => [] end
           | Err _ => []
           end)
  | OpLifecycle fact => ((apply_sender_lifecycle_fact fact s).1, [])
  | OpPolicyChange => ((invalidate_for_policy_change s).1, [])
  | OpUnavailable detail answer => ((report_transport_unavailable detail answer s).1, [])
  end.
Fixpoint receiver_run (ops : list ReceiverOp) (s : ReceiverState)
  : ReceiverState * list ReceiverEvent :=
  match ops with
  | [] => (s, [])
  | op :: rest =>
      let '(s1, es) := receiver_step op s in
      let '(s2, es') := receiver_run rest s1 in
      (s2, es ++ es')
  end.

(* ------------------------------------------------------------------ *)
(** ** What each call does *)

Lemma admitted_ext view s s' queued receipt v before session envelope bytes signature :
  rcu_session s' = rcu_session s → rcu_policy s' = rcu_policy s →
  rcu_lifecycle_status s' = rcu_lifecycle_status s →
  admitted view s queued receipt v before session envelope bytes signature →
  admitted view s' queued receipt v before session envelope bytes signature.
Proof.
  intros Hs Hp Hl [? [] ? ? ? ? ? ? ? ? ? ? ? ? ? ?]. split; rewrite ?Hs, ?Hp; try done.
  split; rewrite ?Hl, ?Hp; done.
Qed.
Lemma retain_receipt_wp receipt s :
  mwp (retain_receipt receipt) s (λ s' r,
    stays (en_custody s) (en_custody s')
    ∧ match r with
      | Ok _ => rcu_session (en_custody s') = rcu_session (en_custody s)
          ∧ rcu_receipts (en_custody s') = rcu_receipts (en_custody s) ++ [receipt]
          ∧ Z.of_nat (length (rcu_receipts (en_custody s))) < MAX_CUSTODY_RECEIPTS
      | Err _ => True
      end).
Proof.
  unfold retain_receipt, drop_session. mwp_step. mwp_step.
  - repeat mwp_step. split; [apply stays_drop_session|done].
  - unfold mwp. cbn. split; [apply stays_receipt|]. destruct (en_custody s). split_and!; [done..|]. cbn in *. lia.
Qed.

(** What an admission leaves: the token, its receipt and the session moved on. *)
Record admission_of (view : ReactorView) (s s' : ReceiverCustodyV1) (receipt : ReceiverAcceptanceReceiptV1)
    (verified : VerifiedRemoteObservationV1) (queued : QueuedEnvelope)
    (before session : ReceiverLiveSession) (envelope : ObservationCustodyEnvelopeV1)
    (bytes signature : string) : Prop := {
  ao_queued : head (rcu_inbound s) = Some queued;
  ao_admitted : admitted view s queued receipt verified before session envelope bytes signature;
  ao_session : ∃ replay,
    sq_new_high replay = oeb_session_sequence (sd_body envelope)
    ∧ rcu_session s' = Some (session_advanced session replay (oeb_observation_sequence (sd_body envelope)));
  ao_receipt : last (rcu_receipts s') = Some receipt;
  ao_bound : Z.of_nat (length (rcu_receipts s)) < MAX_CUSTODY_RECEIPTS;
}.
Lemma admit_next_wp view subject s :
  mwp (admit_next view subject) s (λ s' r,
    stays (en_custody s) (en_custody s')
    ∧ match r with
      | Ok (mkAdmission receipt (Some verified)) => ∃ queued before session envelope bytes signature,
          admission_of view (en_custody s) (en_custody s') receipt verified queued before session
            envelope bytes signature
      | _ => True
      end).
Proof.
  unfold admit_next. mwp_step. destruct (rcu_inbound (en_custody s)) as [|queued rest] eqn:Hq.
  { mwp_step. split; [reflexivity|done]. }
  mwp_step. set (s1 := mkEndpoint _ _).
  assert (Hs1 : stays (en_custody s) (en_custody s1)) by apply stays_inbound.
  apply mwp_bind. unfold b_try, mwp at 1. pose proof (admit_envelope_inner_wp view subject queued s1) as Hi.
  unfold mwp in Hi. destruct (admit_envelope_inner view subject queued s1) as [s2 r]. cbn [fst snd] in Hi |- *.
  destruct Hi as [Hs2 Hi]. cbn [after]. assert (Hs12 : stays (en_custody s) (en_custody s2)) by by etrans.
  destruct r as [[receipt verified]|error].
  - destruct Hi as (before&session&envelope&bytes&signature&replay&Ha&Hh&Hses).
    apply mwp_bind. eapply mwp_mono; [apply retain_receipt_wp|]. intros s3 [[]|e] [Hs3 Hr]; cbn [after].
    + mwp_step. destruct Hr as (Hr1&Hr2&Hr3). split; [by etrans|]. exists queued, before, session, envelope, bytes, signature.
      split; [by rewrite Hq| |exists replay; split; [done|by rewrite Hr1]|by rewrite Hr2, last_snoc|].
      * by eapply admitted_ext; [..|exact Ha]; destruct s as [[] ?].
      * destruct (st_receipts _ _ Hs12) as [l Hl]. rewrite Hl, length_app in Hr3. lia.
    + split; [by etrans|done].
  - apply mwp_bind. eapply mwp_mono; [apply leaves_refusal_receipt|].
    intros s3 [receipt|e] Hs3; cbn [after]; [|split; [by etrans|done]].
    apply mwp_bind. eapply mwp_mono; [apply leaves_retain|].
    intros s4 [[]|e] Hs4; cbn; (split; [etrans; [exact Hs12|by etrans]|done]).
Qed.

(** An offer, or a binding, of the accepted sender, as it came in. *)
Definition offered (p : ReceiverAcceptancePolicyV1) (offer : SenderSessionOfferV1) : Prop :=
  ∃ datagram bytes signature,
    authentic encode_sender_offer_body DomainSenderSessionOffer SENDER_SESSION_OFFER_KIND datagram
      (rap_accepted_sender_key p) offer bytes signature.
Definition bound (p : ReceiverAcceptancePolicyV1) (binding : SenderSessionBindingV1) : Prop :=
  binding_wf (sd_body binding) = true
  ∧ ∃ datagram bytes signature,
      authentic encode_binding_body DomainSenderSessionBinding SESSION_BINDING_KIND datagram
        (rap_accepted_sender_key p) binding bytes signature.
(** A challenge this receiver signed for an offer of the accepted sender. *)
Definition challenged (p : ReceiverAcceptancePolicyV1) (signing : CanarySigningIdentityV1)
    (challenge : ReceiverSessionChallengeV1) (offer : SenderSessionOfferV1) : Prop :=
  offered p offer
  ∧ offer_matches p (sd_body offer) = true
  ∧ rcb_sender_session_offer_digest (sd_body challenge) = sd_digest offer
  ∧ ∃ body datagram, sign_receiver_challenge signing body = Ok (challenge, datagram).
(** A session answers such a challenge with a signed binding. *)
Definition established (p : ReceiverAcceptancePolicyV1) (signing : CanarySigningIdentityV1)
    (session : ReceiverLiveSession) : Prop :=
  bound p (rls_binding session)
  ∧ ∃ offer, challenged p signing (rls_challenge session) offer
      ∧ verify_session_binding p (rls_challenge session) offer (rls_binding session) = Ok tt.

Lemma sign_object_body {B} check encode domain kind check_object s (b : B) v datagram :
  sign_object check encode domain kind check_object s b = Ok (v, datagram) → sd_body v = b.
Proof. unfold sign_object. intros Hs. inv_ok Hs. by injection Hs as <- _. Qed.
Lemma decoded_offer datagram p offer :
  decode_sender_session_offer_datagram datagram (rap_accepted_sender_key p) = Ok offer → offered p offer.
Proof.
  intros Hd. eapply decode_object_Ok in Hd as (bytes&signature&Ha&_);
    [by exists datagram, bytes, signature|apply offer_codec|unfold SENDER_SESSION_OFFER_KIND; lia].
Qed.
Lemma decoded_binding datagram p binding :
  decode_sender_session_binding_datagram datagram (rap_accepted_sender_key p) = Ok binding →
  bound p binding.
Proof.
  intros Hd. eapply decode_object_Ok in Hd as (bytes&signature&Ha&_&Hwf&_);
    [split; [done|by exists datagram, bytes, signature]|apply binding_codec|unfold SESSION_BINDING_KIND; lia].
Qed.
Lemma refuse_competing_wp {A} active subject s (Q : ReceiverState → result CustodyError A → Prop) :
  (∀ s' e, stays (en_custody s) (en_custody s') → Q s' (Err e)) → mwp (refuse_competing active subject) s Q.
Proof. intros HQ. apply HQ. apply (leaves_refuse_competing (A:=A) active subject s). Qed.
Lemma offer_wp view subject nonce datagram s :
  mwp (accept_session_offer_and_issue_challenge view subject nonce datagram) s (λ s' r,
    match r with
    | Ok _ => ∃ challenge activation offer,
        rcu_session (en_custody s) = None
        ∧ s' = mkEndpoint
                 (set_rcu_pending_challenge (en_custody s) (Some (challenge, activation, offer)))
                 (en_notices s)
        ∧ challenged (rcu_policy (en_custody s)) (rcu_signing (en_custody s)) challenge offer
        ∧ rcb_session_nonce_hex (sd_body challenge) = hex_encode nonce
        ∧ rcu_lifecycle_status (en_custody s) = CertificateAccepted
    | Err _ => stays (en_custody s) (en_custody s')
    end).
Proof.
  unfold accept_session_offer_and_issue_challenge. mwp_step.
  do 4 (mwp_step; [|reflexivity]). rename a1 into offer.
  destruct (rcu_session (en_custody s)) as [active|] eqn:Hs.
  { mwp_step; [|mwp_step; reflexivity]. by apply refuse_competing_wp. }
  do 3 (mwp_step; [|reflexivity]).
  match goal with Hc : sign_receiver_challenge _ _ = Ok ?x |- _ =>
    destruct x as [challenge d]; rename Hc into Hsign end.
  mwp_step. mwp_step. pose proof (sign_object_body _ _ _ _ _ _ _ _ _ Hsign) as Hb.
  exists challenge, a0, offer. split_and!; [done..| | |].
  - split; [by eapply decoded_offer|]. inv_oks. split; [done|]. rewrite Hb. split; [done|by eexists _, _].
  - by rewrite Hb.
  - unfold check_lifecycle in *. by destruct (rcu_lifecycle_status (en_custody s)).
Qed.
Lemma binding_wp view subject datagram s :
  mwp (accept_session_binding view subject datagram) s (λ s' r,
    match r with
    | Ok _ => ∃ challenge offer binding acceptance activation now,
        rcu_pending_challenge (en_custody s) = Some (challenge, activation, offer)
        ∧ en_custody s'
          = set_rcu_pending_challenge
              (set_rcu_session (en_custody s)
                 (Some (session_for challenge binding acceptance activation now))) None
        ∧ bound (rcu_policy (en_custody s)) binding
        ∧ verify_session_binding (rcu_policy (en_custody s)) challenge offer binding = Ok tt
        ∧ now < rcb_expires_at_receiver_monotonic_ms (sd_body challenge)
    | Err _ => stays (en_custody s) (en_custody s')
    end).
Proof.
  unfold accept_session_binding, drop_challenge. mwp_step. do 2 (mwp_step; [|reflexivity]).
  destruct (rcu_pending_challenge (en_custody s)) as [[[challenge activation] offer]|] eqn:Hp;
    [|mwp_step; reflexivity].
  mwp_step; [repeat mwp_step; apply stays_drop_challenge|].
  mwp_step; [repeat mwp_step; apply stays_drop_challenge|]. split_and_bool.
  do 2 (mwp_step; [|reflexivity]). rename a1 into binding.
  assert (a = activation) as -> by (by eapply bool_decide_eq_true_1).
  set (established := _ ≫= _). match goal with |- mwp _ _ ?Q => set (post := Q) end.
  assert (He : mwp established s post).
  { unfold established, post. mwp_step; [|reflexivity].
    match goal with Hc : sign_receiver_session_acceptance _ _ = Ok ?x |- _ => destruct x as [acceptance d] end.
    repeat mwp_step. exists challenge, offer, binding, acceptance, activation, a0.
    split_and!; [done|done|by eapply decoded_binding|by destruct a2|lia]. }
  destruct (rcu_session (en_custody s)) as [active|]; [|done].
  mwp_step; [|done]. by apply refuse_competing_wp.
Qed.

(* ------------------------------------------------------------------ *)
(** ** The invariant *)

(** Within one session every admission is newer than those before it. *)
Definition never_again (a b : RemoteObservationCustodyReferenceV1) : Prop :=
  roc_receiver_challenge_digest a = roc_receiver_challenge_digest b →
  roc_session_sequence a < roc_session_sequence b
  ∧ roc_observation_sequence a < roc_observation_sequence b.

(** A session, or a challenge, accounts for the admissions under its digest. *)
Definition accounts (session : ReceiverLiveSession) (a : RemoteObservationCustodyReferenceV1) : Prop :=
  roc_receiver_challenge_digest a = sd_digest (rls_challenge session) →
  opt_le (Some (roc_session_sequence a)) (rls_high_session_sequence session)
  ∧ opt_le (Some (roc_observation_sequence a)) (rls_high_observation_sequence session).

(** Where the pending challenge and the session of a receiver come from. *)
Record provenance (p : ReceiverAcceptancePolicyV1) (signing : CanarySigningIdentityV1)
    (s : ReceiverCustodyV1) : Prop := {
  pr_policy : rcu_policy s = p;
  pr_signing : rcu_signing s = signing;
  pr_pending : ∀ challenge activation offer,
    rcu_pending_challenge s = Some (challenge, activation, offer) →
    challenged p signing challenge offer;
  pr_session : ∀ session, rcu_session s = Some session → established p signing session;
}.
(** What a receiver keeps of the events so far. *)
Record ledger (es : list ReceiverEvent) (s : ReceiverCustodyV1) : Prop := {
  le_alone : rcu_pending_challenge s = None ∨ rcu_session s = None;
  le_pending : ∀ challenge activation offer,
    rcu_pending_challenge s = Some (challenge, activation, offer) →
    sd_digest challenge ∈ issued es
    ∧ Forall (λ a, roc_receiver_challenge_digest a ≠ sd_digest challenge) (admissions es);
  le_session : ∀ session, rcu_session s = Some session →
    sd_digest (rls_challenge session) ∈ issued es ∧ Forall (accounts session) (admissions es);
  le_issued : Forall (λ a, roc_receiver_challenge_digest a ∈ issued es) (admissions es);
  le_ordered : StronglySorted never_again (admissions es);
}.

Lemma provenance_stays p signing s s' : provenance p signing s → stays s s' → provenance p signing s'.
Proof.
  intros [Hp Hsg Hpe Hse] [Hsg' Hp' _ Hpe' Hse' _ _]. split; [congruence|congruence| |].
  - intros c a o Hpend. destruct Hpe' as [Heq|Heq]; rewrite Heq in Hpend; [|done]. by eapply Hpe.
  - intros b (a&Ha%Hse&[Hc Hb _ _ _ _])%Hse'. unfold established in *. by rewrite Hc, Hb.
Qed.
Lemma accounts_le a b r : session_le a b → accounts a r → accounts b r.
Proof.
  intros [Hc _ _ _ Hh Ho] Ha. unfold accounts. rewrite Hc. intros [? ?]%Ha. split; by etrans.
Qed.
Lemma ledger_stays es s s' : ledger es s → stays s s' → ledger es s'.
Proof.
  intros [Hal Hpe Hse Hi Ho] [_ _ _ Hpe' Hse' _ _]. split; [| | |done|done].
  - destruct Hal as [Hal|Hal]; [left; destruct Hpe' as [->|]; done|right].
    destruct (rcu_session s') as [b|]; [|done]. destruct (Hse' b) as (a&Ha&_); congruence.
  - intros c a o Hpend. destruct Hpe' as [Heq|Heq]; rewrite Heq in Hpend; [|done]. by eapply Hpe.
  - intros b (a&Ha&Hle)%Hse'. apply Hse in Ha as (Hin&Hac). rewrite (sl_challenge _ _ Hle).
    split; [done|]. eapply Forall_impl; [exact Hac|]. intros r. by apply accounts_le.
Qed.

Lemma issued_app es e : issued (es ++ e) = issued es ++ issued e.
Proof. apply bind_app. Qed.
Lemma admissions_app es e : admissions (es ++ e) = admissions es ++ admissions e.
Proof. apply bind_app. Qed.

(** Issuing a challenge of a new digest. *)
Lemma ledger_issue es s challenge activation offer :
  ledger es s → rcu_session s = None → sd_digest challenge ∉ issued es →
  ledger (es ++ [ChallengeIssued challenge])
    (set_rcu_pending_challenge s (Some (challenge, activation, offer))).
Proof.
  intros [_ _ _ Hi Ho] Hs Hnew.
  assert (Ha : admissions (es ++ [ChallengeIssued challenge]) = admissions es)
    by (rewrite admissions_app; apply app_nil_r).
  assert (Hin : issued (es ++ [ChallengeIssued challenge]) = issued es ++ [sd_digest challenge])
    by apply issued_app.
  split; rewrite ?Ha, ?Hin; destruct s; cbn in *; try done; [by right| | |].
  - intros c a o [= <- <- <-]. split; [set_solver|].
    eapply Forall_impl; [exact Hi|]. cbn. intros r Hr Heq. apply Hnew. by rewrite <- Heq.
  - by rewrite Hs.
  - eapply Forall_impl; [exact Hi|]. set_solver.
Qed.
(** Opening the session of the pending challenge. *)
Lemma ledger_open es s challenge offer binding acceptance activation now :
  ledger es s → rcu_pending_challenge s = Some (challenge, activation, offer) →
  ledger es
    (set_rcu_pending_challenge
       (set_rcu_session s (Some (session_for challenge binding acceptance activation now))) None).
Proof.
  intros [_ Hpe _ Hi Ho] Hpend. destruct (Hpe _ _ _ Hpend) as (Hin&Hne).
  split; destruct s; cbn in *; try done; [by left|]. intros session [= <-]. cbn.
  split; [done|]. eapply Forall_impl; [exact Hne|]. intros r Hr Heq. by destruct Hr.
Qed.
(** Admitting an observation in the session. *)
Lemma admission_account view s s' receipt verified queued before session envelope bytes signature :
  admission_of view s s' receipt verified queued before session envelope bytes signature →
  roc_receiver_challenge_digest (vr_custody verified) = sd_digest (rls_challenge before)
  ∧ newer (rls_high_session_sequence before) (roc_session_sequence (vr_custody verified))
  ∧ newer (rls_high_observation_sequence before) (roc_observation_sequence (vr_custody verified)).
Proof.
  intros [_ Ha _ _ _]. destruct Ha as [_ Hc _ _ _ Hn Ho _ _ _ _ -> _ _ _ _].
  rewrite (hc_window _ _ _ _ Hc) in *. cbn. destruct before. cbn in *. by case_match.
Qed.
Lemma admission_accounted view s s' receipt verified queued before session envelope bytes signature ss :
  admission_of view s s' receipt verified queued before session envelope bytes signature →
  rcu_session s' = Some ss → accounts ss (vr_custody verified).
Proof.
  intros [_ Ha (replay&Hh&Hs) _ _] Hss _. destruct Ha as [_ _ _ _ _ _ _ _ _ _ _ -> _ _ _ _].
  rewrite Hs in Hss. injection Hss as <-. destruct session. cbn. rewrite Hh. lia.
Qed.
Lemma ledger_admit es s s' view receipt verified queued before session envelope bytes signature :
  ledger es s → stays s s' →
  admission_of view s s' receipt verified queued before session envelope bytes signature →
  ledger (es ++ [ObservationAdmitted verified]) s'.
Proof.
  intros Hok Hst Had. pose proof (ledger_stays _ _ _ Hok Hst) as Hok'.
  destruct (admission_account _ _ _ _ _ _ _ _ _ _ _ Had) as (Hd&Hn&Hn').
  pose proof (adm_session _ _ _ _ _ _ _ _ _ _ (ao_admitted _ _ _ _ _ _ _ _ _ _ _ Had)) as Hbefore.
  destruct (le_session _ _ Hok _ Hbefore) as (Hin&Hac).
  assert (Ha : admissions (es ++ [ObservationAdmitted verified]) = admissions es ++ [vr_custody verified])
    by apply admissions_app.
  assert (Hi : issued (es ++ [ObservationAdmitted verified]) = issued es)
    by (rewrite issued_app; apply app_nil_r).
  destruct Hok' as [Hal Hpe Hse His Hor].
  split; rewrite ?Ha, ?Hi; [done..| | | |].
  - intros c a o Hpend.
    destruct (ao_session _ _ _ _ _ _ _ _ _ _ _ Had) as (replay&_&Hs').
    destruct Hal; congruence.
  - intros ss Hss. destruct (Hse _ Hss) as (Hin'&Hac'). split; [done|].
    apply Forall_app. split; [done|]. apply Forall_singleton. by eapply admission_accounted.
  - apply Forall_app. split; [done|]. apply Forall_singleton. by rewrite Hd.
  - apply StronglySorted_app. split_and!; [|done|by repeat constructor].
    intros a b Hina ->%list_elem_of_singleton Heq. rewrite Forall_forall in Hac.
    destruct (Hac a Hina) as [Hh Ho]; [congruence|].
    destruct (rls_high_session_sequence before), (rls_high_observation_sequence before); cbn in *; lia.
Qed.

(* ------------------------------------------------------------------ *)
(** ** Every call keeps it *)

(** A call either leaves the session as [stays] says and hands out nothing, or
    issues a challenge, opens a session, or admits an observation. *)
Inductive call (s : ReceiverCustodyV1) : ReceiverCustodyV1 → list ReceiverEvent → Prop :=
| CallStays s' : stays s s' → call s s' []
| CallIssues challenge activation offer :
    rcu_session s = None → rcu_lifecycle_status s = CertificateAccepted →
    challenged (rcu_policy s) (rcu_signing s) challenge offer →
    call s (set_rcu_pending_challenge s (Some (challenge, activation, offer))) [ChallengeIssued challenge]
| CallOpens challenge offer binding acceptance activation now :
    rcu_pending_challenge s = Some (challenge, activation, offer) →
    bound (rcu_policy s) binding →
    verify_session_binding (rcu_policy s) challenge offer binding = Ok tt →
    call s (set_rcu_pending_challenge
              (set_rcu_session s (Some (session_for challenge binding acceptance activation now))) None) []
| CallAdmits s' view receipt verified queued before session envelope bytes signature :
    stays s s' →
    admission_of view s s' receipt verified queued before session envelope bytes signature →
    call s s' [ObservationAdmitted verified].

Lemma receiver_step_call op s :
  call (en_custody s) (en_custody (receiver_step op s).1) (receiver_step op s).2.
Proof.
  destruct op as [view subject nonce datagram|view subject datagram|view bytes endpoint|view subject
                 |fact| |detail answer]; cbn [receiver_step].
  - pose proof (offer_wp view subject nonce datagram s) as Hw. unfold mwp in Hw.
    destruct (accept_session_offer_and_issue_challenge _ _ _ _ _) as [s' [d|e]]; cbn [fst snd] in *.
    + destruct Hw as (challenge&activation&offer&Hs&->&Hc&_&Hl). cbn [en_custody].
      replace (rcu_pending_challenge _) with (Some (challenge, activation, offer)) by by destruct (en_custody s).
      by constructor.
    + by constructor.
  - pose proof (binding_wp view subject datagram s) as Hw. unfold mwp in Hw.
    destruct (accept_session_binding _ _ _ _) as [s' [d|e]]; cbn [fst snd] in *; [|by constructor].
    destruct Hw as (challenge&offer&binding&acceptance&activation&now&Hp&->&Hb&Hv&_). by econstructor.
  - apply CallStays, leaves_enqueue.
  - pose proof (admit_next_wp view subject s) as [Hst Hw]. destruct (admit_next _ _ _) as [s' r]; cbn [fst snd] in *.
    destruct r as [[receipt [verified|]]|e]; [|by constructor..].
    destruct Hw as (queued&before&session&envelope&bytes&signature&Ha). by econstructor.
  - apply CallStays, leaves_lifecycle_fact.
  - apply CallStays. apply (leaves_bind invalidate_custody); [apply leaves_invalidate|]. intros. apply leaves_report.
  - apply CallStays. apply (leaves_bind invalidate_custody); [apply leaves_invalidate|]. leaves.
Qed.

Lemma call_provenance p signing s s' es :
  provenance p signing s → call s s' es → provenance p signing s'.
Proof.
  intros Hp Hc. destruct Hc as [| |challenge offer binding acceptance activation now Hpend Hb Hv|];
    [by eapply provenance_stays| | |by eapply provenance_stays];
    destruct Hp as [<- <- Hpe Hse]; split; destruct s; cbn in *; try done.
  - by intros ? ? ? [= <- <- <-].
  - intros session [= <-]. split; [done|]. exists offer. split; [|done]. by eapply Hpe.
Qed.
Lemma call_ledger es s s' es' :
  ledger es s → call s s' es' → NoDup (issued (es ++ es')) → ledger (es ++ es') s'.
Proof.
  intros Hl Hc Hnd. destruct Hc; rewrite ?app_nil_r in *.
  - by eapply ledger_stays.
  - apply ledger_issue; [done..|]. rewrite issued_app in Hnd. cbn in Hnd. apply NoDup_app in Hnd. set_solver.
  - by eapply ledger_open.
  - by eapply ledger_admit.
Qed.

Lemma receiver_run_cons op ops s :
  receiver_run (op :: ops) s
  = ((receiver_run ops (receiver_step op s).1).1,
     (receiver_step op s).2 ++ (receiver_run ops (receiver_step op s).1).2).
Proof. cbn. destruct (receiver_step op s) as [s1 es]. cbn. by destruct (receiver_run ops s1). Qed.
Lemma run_provenance p signing ops s :
  provenance p signing (en_custody s) → provenance p signing (en_custody (receiver_run ops s).1).
Proof.
  revert s. induction ops as [|op ops IH]; intros s Hp; [done|]. rewrite receiver_run_cons. cbn [fst].
  apply IH. eapply call_provenance; [done|apply receiver_step_call].
Qed.
Lemma run_ledger ops s es :
  ledger es (en_custody s) → NoDup (issued (es ++ (receiver_run ops s).2)) →
  ledger (es ++ (receiver_run ops s).2) (en_custody (receiver_run ops s).1).
Proof.
  revert s es. induction ops as [|op ops IH]; intros s es Hl; [by cbn; rewrite app_nil_r|].
  rewrite receiver_run_cons. cbn [fst snd]. rewrite (assoc_L (++)). intros Hnd. apply IH; [|done].
  eapply call_ledger; [done|apply receiver_step_call|]. rewrite issued_app in Hnd. by apply NoDup_app in Hnd as [? _].
Qed.

Lemma receiver_new_Ok signing policy m r c s :
  receiver_custody_new signing policy m r c = Ok s →
  provenance policy signing s ∧ ledger [] s ∧ rcu_session s = None ∧ rcu_receipts s = []
  ∧ receiver_policy_validate policy = Ok tt.
Proof.
  unfold receiver_custody_new. intros Hn. inv_ok Hn. injection Hn as <-.
  split_and!; [done| |done|done|by apply map_err_Ok in Hok]. split; cbn; [by left|done|done|constructor|constructor].
Qed.

(* ------------------------------------------------------------------ *)
(** ** Challenges and nonces *)

(** The bytes whose hash is the digest of a signed challenge. *)
Definition challenge_transcript (bytes signature : string) : string :=
  digest_transcript "transport.signed-object.v1"
    [domain_as_str DomainReceiverSessionChallenge; bytes; signature].
Lemma sign_object_Ok {B} check encode domain kind check_object s (b : B) v datagram :
  sign_object check encode domain kind check_object s b = Ok (v, datagram) →
  ∃ x, check b = Ok tt ∧ encode b = Ok x
    ∧ v = signed_object domain b x (custody_sign s domain x) (si_key_identity s)
    ∧ addressable x ∧ addressable (custody_sign s domain x).
Proof.
  unfold sign_object. intros Hs. inv_ok Hs. apply map_err_Ok in Hok. injection Hs as <- _.
  exists a. split_and!; [done|done|done| |].
  - unfold encode_signed_datagram in Hok2. inv_ok Hok2. apply ensure_Ok, Z.leb_le in Hok3.
    unfold addressable, u64_max. unfold u16_max in *. lia.
  - unfold addressable, custody_sign, slen. by rewrite signature_length.
Qed.
(** Two signed challenges of one digest have, short of a collision of SHA-256,
    one nonce. *)
Lemma challenge_digest_binds_nonce signing b1 b2 c1 c2 d1 d2 :
  sign_receiver_challenge signing b1 = Ok (c1, d1) → sign_receiver_challenge signing b2 = Ok (c2, d2) →
  challenge_wf b1 = true → challenge_wf b2 = true →
  sd_digest c1 = sd_digest c2 →
  ∃ x1 x2, encode_challenge_body b1 = Ok x1 ∧ encode_challenge_body b2 = Ok x2
    ∧ let t1 := challenge_transcript x1 (custody_sign signing DomainReceiverSessionChallenge x1) in
      let t2 := challenge_transcript x2 (custody_sign signing DomainReceiverSessionChallenge x2) in
      sha256 t1 = sha256 t2
      ∧ (t1 = t2 → rcb_session_nonce_hex b1 = rcb_session_nonce_hex b2).
Proof.
  intros (x1&V1&E1&->&A1)%sign_object_Ok (x2&V2&E2&->&A2)%sign_object_Ok W1 W2 Hd.
  exists x1, x2. split; [done|]. split; [done|]. cbv zeta. split; [by apply equal_digests|].
  unfold challenge_transcript. intros Ht. destruct A1, A2.
  apply digest_transcript_inj in Ht as [_ Hp]; [|done|done|by repeat apply Forall_cons_2..].
  injection Hp as -> _. pose proof (decode_body_encoded _ _ _ _ _ _ challenge_codec V1 W1 E1) as D1.
  pose proof (decode_body_encoded _ _ _ _ _ _ challenge_codec V2 W2 E2) as D2. congruence.
Qed.

(* ------------------------------------------------------------------ *)
(** ** Theorems *)

(** C30. No observation is admitted twice.  In any series of calls from the
    construction of a receiver, whatever arrives and in whatever order, the
    tokens handed out for one session carry strictly increasing session and
    observation sequences: a datagram that has been admitted, in any earlier
    session too, never yields a second token.  The challenges the receiver
    signs must have distinct digests, as their random nonces make them
    ([challenge_digest_binds_nonce]). *)
Theorem no_observation_admitted_twice signing policy m r c s0 ops :
  receiver_custody_new signing policy m r c = Ok s0 →
  let es := (receiver_run ops (mkEndpoint s0 [])).2 in
  NoDup (issued es) →
  StronglySorted never_again (admissions es).
Proof.
  intros (_&Hl&_)%receiver_new_Ok es Hnd.
  apply (le_ordered es (en_custody (receiver_run ops (mkEndpoint s0 [])).1)).
  by apply (run_ledger ops (mkEndpoint s0 []) []).
Qed.

(** C31. What is admitted was signed by the accepted sender for this receiver's
    live session.  When [admit_next] hands out a token after any series of calls, the
    datagram at the head of the queue is the one encoding of an envelope whose
    signature verifies under the key the policy accepts; it arrived before the
    session expired, names the session's challenge, binding, qualified
    generation, observer and a permitted scope, is newer than everything the
    session accepted, and its payload decodes to the token's frame; the
    session was opened by a binding and an offer signed by the same key for a
    challenge this receiver signed; the receipt and the custody reference are
    valid and the receipt is retained. *)
Theorem admitted_observation_authentic signing policy m r c s0 ops view subject s' receipt verified :
  receiver_custody_new signing policy m r c = Ok s0 →
  let s := (receiver_run ops (mkEndpoint s0 [])).1 in
  admit_next view subject s = (s', Ok (mkAdmission receipt (Some verified))) →
  ∃ queued before session envelope bytes signature,
    admission_of view (en_custody s) (en_custody s') receipt verified queued before session envelope
      bytes signature
    ∧ rcu_policy (en_custody s) = policy
    ∧ established policy signing before.
Proof.
  intros (Hp&_)%receiver_new_Ok s Ha. apply (run_provenance _ _ ops (mkEndpoint s0 [])) in Hp.
  pose proof (admit_next_wp view subject s) as [_ Hw]. rewrite Ha in Hw. cbn [fst snd] in Hw.
  destruct Hw as (queued&before&session&envelope&bytes&signature&Had).
  exists queued, before, session, envelope, bytes, signature. split; [done|].
  split; [by apply Hp|]. apply Hp, Had.
Qed.

Lemma call_receipts s s' es : call s s' es → rcu_receipts s `prefix_of` rcu_receipts s'.
Proof. destruct 1 as [s' [] | | | s' ? ? ? ? ? ? ? ? ? []]; [done| | |done]; by destruct s. Qed.
Lemma call_lifecycle s s' es :
  call s s' es → rcu_lifecycle_status s ≠ CertificateAccepted →
  rcu_lifecycle_status s' ≠ CertificateAccepted ∧ es = [].
Proof.
  destruct 1 as [s' [] | | |s' ? ? ? ? ? ? ? ? ? _ [_ Ha _ _ _]]; intros Hl; [by auto|done|by destruct s|].
  destruct Ha as [_ [] _ _ _ _ _ _ _ _ _ _ _ _ _ _]. done.
Qed.

Lemma withdrawn_run ops s :
  rcu_lifecycle_status (en_custody s) ≠ CertificateAccepted → (receiver_run ops s).2 = [].
Proof.
  revert s. induction ops as [|op ops IH]; intros s Hl; [done|]. rewrite receiver_run_cons. cbn [snd].
  destruct (call_lifecycle _ _ _ (receiver_step_call op s) Hl) as [Hl' ->]. by apply IH.
Qed.
(** The state after an accepted lifecycle fact. *)
Record withdrawn (fact : GenerationLifecycleFactV1) (s s' : ReceiverState) : Prop := {
  wd_lifecycle : rcu_lifecycle_status (en_custody s') ≠ CertificateAccepted;
  wd_session : rcu_session (en_custody s') = None;
  wd_pending : rcu_pending_challenge (en_custody s') = None;
  wd_inbound : rcu_inbound (en_custody s') = [];
  wd_reports : en_notices s' = en_notices s ++
    [mkReport None match fb_kind (lf_body fact) with
                   | KindSuperseded => CertificateSuperseded
                   | KindRevoked => CertificateRevoked
                   end
       ((fun session => sd_digest (rls_binding session)) <$> rcu_session (en_custody s))
       "accepted sender certificate lifecycle fact invalidated remote custody"];
}.

(** C36. A sender whose certificate is superseded or revoked is out for good.
    Once the receiver has accepted such a lifecycle fact it has no session, no
    challenge and an empty queue, it has reported the finding, and no later
    series of calls issues a challenge or admits an observation. *)
Theorem withdrawn_sender_never_admitted fact s s' ops :
  apply_sender_lifecycle_fact fact s = (s', Ok tt) →
  rcu_session (en_custody s') = None
  ∧ rcu_pending_challenge (en_custody s') = None
  ∧ rcu_inbound (en_custody s') = []
  ∧ (∃ report, en_notices s' = en_notices s ++ [report]
       ∧ (br_finding report = CertificateSuperseded ∨ br_finding report = CertificateRevoked))
  ∧ (receiver_run ops s').2 = [].
Proof.
  intros Hf.
  assert (Hw : mwp (apply_sender_lifecycle_fact fact) s (λ s' r, r = Ok tt → withdrawn fact s s')).
  { unfold apply_sender_lifecycle_fact, invalidate_custody, drop_session, drop_challenge.
    mwp_step. do 2 (mwp_step; [|done]). repeat mwp_step. unfold mwp. intros _. cbn.
    destruct s as [[] ?]. cbn. by split; cbn; [destruct (fb_kind _)|..]. }
  unfold mwp in Hw. rewrite Hf in Hw. destruct (Hw eq_refl) as [Hl Hs Hp Hi Hr]. split_and!; [done..| |by apply withdrawn_run].
  eexists. split; [exact Hr|]. cbn. destruct (fb_kind _); auto.
Qed.

(** Receipts are never released.  When the receiver has retained as many
    receipts as it may, no later series of calls admits an observation, not
    even in a new session. *)
Theorem exhausted_receipts_end_admission s ops :
  MAX_CUSTODY_RECEIPTS <= Z.of_nat (length (rcu_receipts (en_custody s))) →
  admissions (receiver_run ops s).2 = [].
Proof.
  revert s. induction ops as [|op ops IH]; intros s Hl; [done|]. rewrite receiver_run_cons. cbn [snd].
  pose proof (receiver_step_call op s) as Hc. rewrite admissions_app, IH.
  - rewrite app_nil_r. destruct Hc as [| | |s' ? ? ? ? ? ? ? ? ? _ Ha]; [done..|].
    pose proof (ao_bound _ _ _ _ _ _ _ _ _ _ _ Ha). lia.
  - apply call_receipts in Hc as [l ->]. rewrite length_app. lia.
Qed.
End lifetime.
