(* ===== verification/CustodySender.v ===== *)
(** * The sending end of the custody protocol

    [SenderCustodyV1] of [crates/pulse-runtime/src/custody.rs]: the offer, the
    binding that answers a challenge, the acceptance that makes the session
    live, and the emission of pulses.  A declaration of blindness to the
    reactor is a notice. *)

From S2P Require Import Prelude Ids Digest Pulse Wire Judgment Qualification CustodyTypes CustodyRecords.
From S2P Require Import CustodyWire Journal Reactor CustodyReceiver.

Record SenderLiveSession := mkSenderSession {
  sls_offer : SenderSessionOfferV1;
  sls_challenge : ReceiverSessionChallengeV1;
  sls_binding : SenderSessionBindingV1;
  sls_receiver_acceptance : option ReceiverSessionAcceptanceV1;
  sls_local_expires_at_monotonic_ms : Z;
  sls_next_session_sequence : Z;
  sls_emitted_messages : Z;
  sls_exact_activation : QualifiedGenerationBindingV1;
}.
Record SenderCustodyV1 := mkSenderCustody {
  scu_signing : CanarySigningIdentityV1;
  scu_policy : SenderEmissionPolicyV1;
  scu_pending_offer : option SenderSessionOfferV1;
  scu_session : option SenderLiveSession;
  scu_outbound : list string;
  scu_successful_emissions : Z;
  scu_queue_refusals : Z;
}.
Abbreviation SenderState := (Endpoint SenderCustodyV1 string).
Abbreviation tx := (at_endpoint SenderCustodyV1 string).

Definition set_scu_pending_offer (s : SenderCustodyV1) (v : option SenderSessionOfferV1) : SenderCustodyV1 :=
  let 'mkSenderCustody a b _ d e f g := s in mkSenderCustody a b v d e f g.
Definition set_scu_session (s : SenderCustodyV1) (v : option SenderLiveSession) : SenderCustodyV1 :=
  let 'mkSenderCustody a b c _ e f g := s in mkSenderCustody a b c v e f g.
Definition count_sender_queue_refusal (s : SenderCustodyV1) : SenderCustodyV1 :=
  let 'mkSenderCustody a b c d e f g := s in mkSenderCustody a b c d e f (sat_add g 1).
(** [SenderCustodyV1::invalidate]. *)
Definition sender_invalidated (s : SenderCustodyV1) : SenderCustodyV1 :=
  let 'mkSenderCustody a b _ _ _ f g := s in mkSenderCustody a b None None [] f g.
Definition sender_invalidate : tx unit := b_upd sender_invalidated.
Definition sender_drop_session : tx unit := b_upd (fun s => set_scu_session s None).
(** A datagram emitted in a session. *)
Definition sender_emitted (datagram : string) (s : SenderCustodyV1) : SenderCustodyV1 :=
  let 'mkSenderCustody a b c d e f g := s in
  mkSenderCustody a b c
    ((fun '(mkSenderSession o ch bi ac lo n m ex) =>
        mkSenderSession o ch bi ac lo (n + 1) (Z.min (m + 1) u32_max) ex) <$> d)
    (e ++ [datagram]) (sat_add f 1) g.

Section sender.
Context `{Sha256} `{CustodyPolicyJson} `{SignatureScheme}.

(** [SenderCustodyV1::new]. *)
Definition sender_custody_new (signing : CanarySigningIdentityV1) (policy : SenderEmissionPolicyV1)
  : result CustodyError SenderCustodyV1 :=
  map_err from_type (sender_policy_validate policy);;
  ensure (bool_decide (si_key_identity signing = sep_sender_key policy))
    (custody_error QualifiedIdentityMismatch
       "sender signing key does not match its exact emission policy");;
  Ok (mkSenderCustody signing policy None None [] 0 0).

Definition offer_body_for (p : SenderEmissionPolicyV1) (activation : QualifiedGenerationBindingV1)
    (snapshot : ReactorSnapshotV1) (nonce : string) : SenderSessionOfferBodyV1 :=
  {| sob_schema_version := SCHEMA_VERSION_V1;
     sob_protocol_version := CUSTODY_PROTOCOL_VERSION_V1;
     sob_receiver_key_identity_digest := peer_key_identity_digest (sep_accepted_receiver_key p);
     sob_sender_key_identity_digest := peer_key_identity_digest (sep_sender_key p);
     sob_sender_process_occurrence := qb_process_epoch_id activation;
     sob_sender_monotonic_epoch := me_epoch_id (sn_monotonic_epoch snapshot);
     sob_sender_nonce_hex := hex_encode nonce;
     sob_sender_manifest_digest := qb_manifest_digest activation;
     sob_sender_qualification_certificate_digest := qb_qualification_certificate_digest activation;
     sob_sender_activation_receipt_digest := qb_activation_receipt_digest activation;
     sob_sender_runtime_generation_set_digest :=
       generation_set_identity_digest (qb_generation_set activation);
     sob_observer := sep_observer p;
     sob_failure_domain_claim := sep_failure_domain_claim p;
     sob_permitted_subject_scopes := sep_permitted_subject_scopes p |}.
(** [create_session_offer]; [nonce] is what [OsRng] gave. *)
Definition create_session_offer (view : ReactorView) (nonce : string) : tx string :=
  s ← b_get;
  activation ← b_lift (map_err from_reactor (rv_activation view));
  if negb (exposes_live_standing (sn_condition (rv_snapshot view))) then
    sender_invalidate;;
    b_fail (custody_error TransportUnavailable "sender reactor does not expose live temporal custody")
  else
    '(offer, datagram) ← b_lift (sign_sender_session_offer (scu_signing s)
                                   (offer_body_for (scu_policy s) activation (rv_snapshot view) nonce));
    sender_drop_session;;
    b_upd (fun s => set_scu_pending_offer s (Some offer));;
    mret datagram.

(** The checks of a challenge against the sender's policy. *)
Definition challenge_matches_policy (p : SenderEmissionPolicyV1) (c : ReceiverSessionChallengeBodyV1)
  : result CustodyError unit :=
  ensure (bool_decide (rcb_intended_sender_key_identity_digest c
                       = peer_key_identity_digest (sep_sender_key p))
          && bool_decide (rcb_receiver_key_identity_digest c
                          = peer_key_identity_digest (sep_accepted_receiver_key p))
          && bool_decide (rcb_receiver_acceptance_policy_generation c
                          = sep_accepted_receiver_policy_generation p)
          && bool_decide (rcb_receiver_acceptance_policy_anchor_digest c
                          = sep_accepted_receiver_policy_anchor_digest p))
    (custody_error ReceiverChallengeInvalid
       "challenge does not match the sender's exact pinned peer policy");;
  ensure (bool_decide (rcb_receiver_acceptance_policy_digest c
                       = identity_digest_from_parts (rcb_receiver_acceptance_policy_anchor_digest c)
                           (rcb_accepted_sender_manifest_digest c)
                           (rcb_accepted_sender_certificate_digest c)))
    (custody_error ReceiverChallengeInvalid
       "challenge receiver-policy identity is not the exact anchored policy").
(** Whether a challenge answers the live offer of this process. *)
Definition challenge_answers_offer (c : ReceiverSessionChallengeBodyV1) (offer : SenderSessionOfferV1)
    (activation : QualifiedGenerationBindingV1) : bool :=
  let o := sd_body offer in
  bool_decide (rcb_sender_session_offer_digest c = sd_digest offer)
  && bool_decide (rcb_intended_sender_process_occurrence c = qb_process_epoch_id activation)
  && bool_decide (sob_sender_process_occurrence o = qb_process_epoch_id activation)
  && bool_decide (sob_sender_manifest_digest o = qb_manifest_digest activation)
  && bool_decide (sob_sender_qualification_certificate_digest o
                  = qb_qualification_certificate_digest activation)
  && bool_decide (sob_sender_activation_receipt_digest o = qb_activation_receipt_digest activation).
Definition binding_body_for (p : SenderEmissionPolicyV1) (challenge : ReceiverSessionChallengeV1)
    (activation : QualifiedGenerationBindingV1) (snapshot : ReactorSnapshotV1)
  : SenderSessionBindingBodyV1 :=
  {| sbb_schema_version := SCHEMA_VERSION_V1;
     sbb_protocol_version := CUSTODY_PROTOCOL_VERSION_V1;
     sbb_receiver_challenge_digest := sd_digest challenge;
     sbb_receiver_key_identity_digest := rcb_receiver_key_identity_digest (sd_body challenge);
     sbb_sender_key_identity_digest := peer_key_identity_digest (sep_sender_key p);
     sbb_sender_process_occurrence := qb_process_epoch_id activation;
     sbb_sender_monotonic_epoch := me_epoch_id (sn_monotonic_epoch snapshot);
     sbb_sender_manifest_digest := qb_manifest_digest activation;
     sbb_sender_qualification_certificate_digest := qb_qualification_certificate_digest activation;
     sbb_sender_activation_receipt_digest := qb_activation_receipt_digest activation;
     sbb_sender_runtime_generation_set_digest :=
       generation_set_identity_digest (qb_generation_set activation);
     sbb_observer := sep_observer p;
     sbb_failure_domain_claim := sep_failure_domain_claim p;
     sbb_permitted_subject_scopes := sep_permitted_subject_scopes p;
     sbb_observation_protocol_version := CUSTODY_PROTOCOL_VERSION_V1;
     sbb_session_sequence_origin := 1;
     sbb_binding_result := QualifiedAndMatchedAssertion |}.

(** [accept_receiver_challenge]. *)
Definition accept_receiver_challenge (view : ReactorView) (challenge_datagram : string) : tx string :=
  s ← b_get;
  let p := scu_policy s in
  challenge ← b_lift (decode_receiver_challenge_datagram challenge_datagram (sep_accepted_receiver_key p));
  let c := sd_body challenge in
  b_lift (challenge_matches_policy p c);;
  activation ← b_lift (map_err from_reactor (rv_activation view));
  match scu_pending_offer s with
  | None => b_fail (custody_error ReceiverChallengeInvalid
                      "sender has no live process-local offer for this challenge")
  | Some offer =>
      if negb (challenge_answers_offer c offer activation) then
        sender_invalidate;;
        b_fail (custody_error ReceiverChallengeInvalid
                  "challenge is not bound to this live sender offer and process occurrence")
      else
        b_lift (ensure (bool_decide (rcb_accepted_sender_manifest_digest c = qb_manifest_digest activation)
                        && bool_decide (rcb_accepted_sender_certificate_digest c
                                        = qb_qualification_certificate_digest activation))
                  (custody_error QualifiedIdentityMismatch
                     "receiver challenge does not accept the sender's live exact package"));;
        b_lift (ensure (exposes_live_standing (sn_condition (rv_snapshot view)))
                  (custody_error TransportUnavailable
                     "sender reactor does not expose live temporal custody"));;
        let duration := sat_sub (rcb_expires_at_receiver_monotonic_ms c)
                          (rcb_issued_at_receiver_monotonic_ms c) in
        '(binding, datagram) ← b_lift (sign_sender_session_binding (scu_signing s)
                                         (binding_body_for p challenge activation (rv_snapshot view)));
        b_upd (fun s => set_scu_session s
                 (Some (mkSenderSession offer challenge binding None
                          (sat_add (sn_observed_at_epoch_monotonic_ms (rv_snapshot view)) duration)
                          1 0 activation)));;
        b_upd (fun s => set_scu_pending_offer s None);;
        mret datagram
  end.

(** Whether an acceptance confirms the provisional session. *)
Definition acceptance_confirms (p : SenderEmissionPolicyV1) (session : SenderLiveSession)
    (activation : QualifiedGenerationBindingV1) (a : ReceiverSessionAcceptanceBodyV1) : bool :=
  let c := sd_body (sls_challenge session) in
  bool_decide (activation = sls_exact_activation session)
  && bool_decide (rsb_receiver_challenge_digest a = sd_digest (sls_challenge session))
  && bool_decide (rsb_sender_session_binding_digest a = sd_digest (sls_binding session))
  && bool_decide (rsb_receiver_key_identity_digest a
                  = peer_key_identity_digest (sep_accepted_receiver_key p))
  && bool_decide (rsb_sender_key_identity_digest a = peer_key_identity_digest (sep_sender_key p))
  && bool_decide (rsb_receiver_process_occurrence a = rcb_receiver_process_occurrence c)
  && bool_decide (rsb_receiver_monotonic_epoch a = rcb_receiver_monotonic_epoch c)
  && bool_decide (rsb_sender_process_occurrence a
                  = sbb_sender_process_occurrence (sd_body (sls_binding session)))
  && bool_decide (rsb_receiver_acceptance_policy_digest a = rcb_receiver_acceptance_policy_digest c)
  && negb (rsb_accepted_at_receiver_monotonic_ms a <? rcb_issued_at_receiver_monotonic_ms c)
  && (rsb_expires_at_receiver_monotonic_ms a =? rcb_expires_at_receiver_monotonic_ms c)
  && (rsb_maximum_messages a =? rcb_maximum_messages c)
  && bool_decide (sd_digest (sls_offer session) = rcb_sender_session_offer_digest c).
Definition session_accepted (session : SenderLiveSession) (a : ReceiverSessionAcceptanceV1)
  : SenderLiveSession :=
  let 'mkSenderSession o c b _ l n m x := session in mkSenderSession o c b (Some a) l n m x.
(** [accept_receiver_session_acceptance]. *)
Definition accept_receiver_session_acceptance (view : ReactorView) (datagram : string) : tx DigestV1 :=
  s ← b_get;
  let p := scu_policy s in
  activation ← b_lift (map_err from_reactor (rv_activation view));
  acceptance ← b_lift (decode_receiver_session_acceptance_datagram datagram
                         (sep_accepted_receiver_key p));
  now ← b_lift (map_err from_reactor (rv_now view));
  match scu_session s with
  | None => b_fail (custody_error SessionUnknown
                      "sender has no provisional session awaiting receiver acceptance")
  | Some session =>
      if has_value (sls_receiver_acceptance session) then
        b_fail (custody_error ReplayDetected "receiver session acceptance was already consumed")
      else if sls_local_expires_at_monotonic_ms session <=? now then
        sender_drop_session;;
        b_fail (custody_error SessionExpired
                  "provisional sender session expired before receiver acceptance")
      else if negb (acceptance_confirms p session activation (sd_body acceptance)) then
        sender_invalidate;;
        b_fail (custody_error SessionConflict
                  "receiver acceptance does not confirm this exact provisional session")
      else
        b_upd (fun s => set_scu_session s (Some (session_accepted session acceptance)));;
        mret (sd_digest acceptance)
  end.

(** The scope of the policy a frame falls in. *)
Definition scope_for (p : SenderEmissionPolicyV1) (frame : PulseFrameV1)
  : result CustodyError SubjectScopeV1 :=
  match List.find (fun scope => bool_decide (ss_subject scope = pf_subject frame)
                                && bool_decide (ss_subject_incarnation scope
                                                = pf_subject_incarnation frame))
          (sep_permitted_subject_scopes p) with
  | Some scope => Ok (mkSubjectScope (pf_subject frame) (pf_subject_incarnation frame) (ss_scope scope))
  | None => Err (custody_error SubjectScopeMismatch "pulse subject/incarnation is outside sender scope")
  end.
Definition envelope_body_for (p : SenderEmissionPolicyV1) (session : SenderLiveSession)
    (activation : QualifiedGenerationBindingV1) (snapshot : ReactorSnapshotV1) (frame : PulseFrameV1)
    (scope : SubjectScopeV1) (payload : string) : ObservationCustodyEnvelopeBodyV1 :=
  {| oeb_schema_version := SCHEMA_VERSION_V1;
     oeb_protocol_version := CUSTODY_PROTOCOL_VERSION_V1;
     oeb_receiver_challenge_digest := sd_digest (sls_challenge session);
     oeb_session_binding_digest := sd_digest (sls_binding session);
     oeb_receiver_key_identity_digest :=
       rcb_receiver_key_identity_digest (sd_body (sls_challenge session));
     oeb_sender_key_identity_digest := peer_key_identity_digest (sep_sender_key p);
     oeb_sender_process_occurrence := qb_process_epoch_id activation;
     oeb_sender_monotonic_epoch := me_epoch_id (sn_monotonic_epoch snapshot);
     oeb_sender_manifest_digest := qb_manifest_digest activation;
     oeb_sender_qualification_certificate_digest := qb_qualification_certificate_digest activation;
     oeb_sender_activation_receipt_digest := qb_activation_receipt_digest activation;
     oeb_observer := pf_observer frame;
     oeb_failure_domain_claim := sep_failure_domain_claim p;
     oeb_subject_scope := scope;
     oeb_observation_identity := pf_observation_digest frame;
     oeb_observation_sequence := pf_sequence frame;
     oeb_session_sequence := sls_next_session_sequence session;
     oeb_observation_kind := KindPulseV1;
     oeb_payload_hex := hex_encode payload;
     oeb_payload_digest := digest_parts "transport.observation-payload.v1" [payload];
     oeb_sender_observation_monotonic_ns := pf_observer_monotonic_ns frame;
     oeb_sender_emission_monotonic_ns :=
       Z.min (sn_observed_at_epoch_monotonic_ms snapshot * 1000000) u64_max |}.

Definition payload_malformed (e : PulseError) : CustodyError :=
  custody_error PayloadMalformed (pulse_error_display e).
(** The checks of [emit_pulse] on the session. *)
Definition emission_session (view : ReactorView) (activation : QualifiedGenerationBindingV1)
  : tx SenderLiveSession :=
  s ← b_get;
  match scu_session s with
  | None => b_fail (custody_error SessionUnknown "sender has no live receiver session")
  | Some session =>
      if negb (has_value (sls_receiver_acceptance session)) then
        b_fail (custody_error SessionUnknown
                  "sender binding is provisional until a signed receiver acceptance arrives")
      else if sls_local_expires_at_monotonic_ms session
              <=? sn_observed_at_epoch_monotonic_ms (rv_snapshot view) then
        sender_drop_session;;
        b_fail (custody_error SessionExpired "sender's conservative local session lifetime has expired")
      else if rcb_maximum_messages (sd_body (sls_challenge session)) <=? sls_emitted_messages session then
        sender_drop_session;;
        b_fail (custody_error TransportOverloaded "sender session message bound is exhausted")
      else if negb (bool_decide (activation = sls_exact_activation session)) then
        sender_drop_session;;
        b_fail (custody_error QualifiedIdentityMismatch "sender activation changed after session binding")
      else mret session
  end.
(** The payload of a frame that is within the policy, and its scope. *)
Definition emission_payload (p : SenderEmissionPolicyV1) (frame : PulseFrameV1)
  : result CustodyError (SubjectScopeV1 * string) :=
  map_err payload_malformed (frame_validate frame);;
  scope ← scope_for p frame;
  ensure (bool_decide (pf_observer frame = sep_observer p))
    (custody_error ObserverRoleMismatch "pulse observer differs from sender policy");;
  payload ← map_err payload_malformed (encode_wire frame);
  ensure (slen payload <=? MAX_CUSTODY_PAYLOAD_BYTES)
    (malformed "pulse payload exceeds the custody-envelope bound");;
  Ok (scope, payload).

(** [emit_pulse]. *)
Definition emit_pulse (view : ReactorView) (frame : PulseFrameV1) : tx string :=
  s ← b_get;
  let p := scu_policy s in
  activation ← b_lift (map_err from_reactor (rv_activation view));
  if negb (exposes_live_standing (sn_condition (rv_snapshot view))) then
    sender_invalidate;;
    b_fail (custody_error TransportUnavailable "sender reactor is not operational")
  else
    session ← emission_session view activation;
    '(scope, payload) ← b_lift (emission_payload p frame);
    if sep_sender_queue_bound p <=? Z.of_nat (length (scu_outbound s)) then
      b_upd count_sender_queue_refusal;;
      sender_invalidate;;
      b_notice "sender-boundary emission queue saturated; successful emission stopped";;
      b_fail (custody_error TransportOverloaded
                "sender bounded emission queue is full; session invalidated")
    else
      '(_, datagram) ← b_lift (sign_observation_envelope (scu_signing s)
                                 (envelope_body_for p session activation (rv_snapshot view) frame
                                    scope payload));
      b_lift (ensure (negb ((sep_maximum_datagram_bytes p <? slen datagram)
                            || (rcb_maximum_envelope_bytes (sd_body (sls_challenge session))
                                <? slen datagram)))
                (malformed "canonical observation envelope exceeds a signed datagram bound"));;
      b_lift (ensure (sls_next_session_sequence session + 1 <=? u64_max)
                (custody_error ObservationRejected "sender session sequence exhausted"));;
      b_upd (sender_emitted datagram);;
      mret datagram.
(** [pop_queued_datagram]. *)
Definition pop_queued_datagram : tx (option string) :=
  s ← b_get;
  match scu_outbound s with
  | [] => mret None
  | datagram :: rest =>
      b_upd (fun '(mkSenderCustody a b c d _ f g) => mkSenderCustody a b c d rest f g);;
      mret (Some datagram)
  end.
End sender.
