(* ===== verification/CustodySenderProps.v ===== *)
(** * The sender over its lifetime, and its exchange with the receiver

    A sender emits only in a session both ends have signed; what it emits in a
    session the receiver holds passes every check of the receiver. *)

From S2P Require Import Prelude Ids Digest Pulse Wire Judgment Qualification Package CustodyTypes.
From S2P Require Import CustodyRecords CustodyWire CustodyWireProps RuntimeState.
From S2P Require Import Journal LiveSupport Reactor CustodyReceiver CustodyAdmission CustodyReceiverProps CustodySender.

(** A call of a method of the sender. *)
Inductive SenderOp :=
| OpCreateOffer (view : ReactorView) (nonce : string)
| OpChallenge (view : ReactorView) (datagram : string)
| OpAcceptance (view : ReactorView) (datagram : string)
| OpEmit (view : ReactorView) (frame : PulseFrameV1)
| OpPop
| OpInvalidate.

Section sender_lifetime.
Context `{Sha256} `{PackageJson} `{FactJson} `{CustodyJson} `{CustodyPolicyJson} `{SignatureScheme}.

Definition sender_step (op : SenderOp) (s : SenderState) : SenderState :=
  match op with
  | OpCreateOffer view nonce => (create_session_offer view nonce s).1
  | OpChallenge view datagram => (accept_receiver_challenge view datagram s).1
  | OpAcceptance view datagram => (accept_receiver_session_acceptance view datagram s).1
  | OpEmit view frame => (emit_pulse view frame s).1
  | OpPop => (pop_queued_datagram s).1
  | OpInvalidate => (sender_invalidate s).1
  end.
Definition sender_run (ops : list SenderOp) (s : SenderState) : SenderState :=
  foldl (fun s op => sender_step op s) s ops.

(** A challenge, or an acceptance, signed by the receiver the policy pins. *)
Definition pinned_challenge (p : SenderEmissionPolicyV1) (challenge : ReceiverSessionChallengeV1) : Prop :=
  ∃ datagram bytes signature,
    authentic encode_challenge_body DomainReceiverSessionChallenge CHALLENGE_KIND datagram
      (sep_accepted_receiver_key p) challenge bytes signature.
Definition pinned_acceptance (p : SenderEmissionPolicyV1) (acceptance : ReceiverSessionAcceptanceV1) : Prop :=
  ∃ datagram bytes signature,
    authentic encode_receiver_session_acceptance_body DomainReceiverSessionAcceptance
      RECEIVER_SESSION_ACCEPTANCE_KIND datagram (sep_accepted_receiver_key p) acceptance bytes signature.

(** A session of the sender: it answers a challenge of the pinned receiver to
    its own offer, and is live when that receiver has signed its acceptance. *)
Record sender_session (p : SenderEmissionPolicyV1) (signing : CanarySigningIdentityV1)
    (session : SenderLiveSession) : Prop := {
  ses_challenge : pinned_challenge p (sls_challenge session);
  ses_challenge_wf : challenge_wf (sd_body (sls_challenge session)) = true;
  ses_policy : challenge_matches_policy p (sd_body (sls_challenge session)) = Ok tt;
  ses_offer : challenge_answers_offer (sd_body (sls_challenge session)) (sls_offer session)
                (sls_exact_activation session) = true;
  ses_binding : ∃ snapshot datagram,
    sign_sender_session_binding signing
      (binding_body_for p (sls_challenge session) (sls_exact_activation session) snapshot)
    = Ok (sls_binding session, datagram);
  ses_acceptance : ∀ a, sls_receiver_acceptance session = Some a →
    pinned_acceptance p a
    ∧ acceptance_confirms p session (sls_exact_activation session) (sd_body a) = true;
  ses_sequence : sls_next_session_sequence session = sls_emitted_messages session + 1;
  ses_emitted : 0 <= sls_emitted_messages session
                <= Z.max 0 (Z.min (rcb_maximum_messages (sd_body (sls_challenge session))) u32_max);
}.
Record sender_ok (p : SenderEmissionPolicyV1) (signing : CanarySigningIdentityV1) (s : SenderCustodyV1)
    : Prop := {
  so_policy : scu_policy s = p;
  so_signing : scu_signing s = signing;
  so_session : ∀ session, scu_session s = Some session → sender_session p signing session;
}.

Section methods.
Context (p : SenderEmissionPolicyV1) (signing : CanarySigningIdentityV1).
Implicit Type s : SenderCustodyV1.

Lemma sender_ok_drop s : sender_ok p signing s → sender_ok p signing (set_scu_session s None).
Proof. intros []. destruct s. by split. Qed.
Lemma sender_ok_invalidated s : sender_ok p signing s → sender_ok p signing (sender_invalidated s).
Proof. intros []. destruct s. by split. Qed.
Lemma sender_ok_offer s o : sender_ok p signing s → sender_ok p signing (set_scu_pending_offer s o).
Proof. intros []. destruct s. by split. Qed.
Lemma sender_ok_session s x :
  sender_ok p signing s → sender_session p signing x → sender_ok p signing (set_scu_session s (Some x)).
Proof. intros [] Hx. destruct s. split; [done..|]. by intros ? [= <-]. Qed.
End methods.
#[local] Hint Resolve sender_ok_drop sender_ok_invalidated sender_ok_offer : custody.

Lemma decoded_challenge datagram p challenge :
  decode_receiver_challenge_datagram datagram (sep_accepted_receiver_key p) = Ok challenge →
  pinned_challenge p challenge ∧ challenge_wf (sd_body challenge) = true.
Proof.
  intros Hd. eapply decode_object_Ok in Hd as (bytes&signature&Ha&_&Hwf&_);
    [split; [by exists datagram, bytes, signature|done]|apply challenge_codec|unfold CHALLENGE_KIND; lia].
Qed.
Lemma decoded_acceptance datagram p acceptance :
  decode_receiver_session_acceptance_datagram datagram (sep_accepted_receiver_key p) = Ok acceptance →
  pinned_acceptance p acceptance.
Proof.
  intros Hd. eapply decode_object_Ok in Hd as (bytes&signature&Ha&_);
    [by exists datagram, bytes, signature|apply session_acceptance_codec
    |unfold RECEIVER_SESSION_ACCEPTANCE_KIND; lia].
Qed.

Lemma create_offer_wp p signing view nonce s :
  sender_ok p signing (en_custody s) →
  mwp (create_session_offer view nonce) s (λ s' _, sender_ok p signing (en_custody s')).
Proof.
  intros Hs. unfold create_session_offer, sender_invalidate, sender_drop_session.
  mwp_step. mwp_step; [|done]. mwp_step; [repeat mwp_step; cbn; auto with custody|].
  mwp_step; [|done]. case_match. repeat mwp_step. cbn. auto with custody.
Qed.

Lemma challenge_wp p signing view datagram s :
  sender_ok p signing (en_custody s) →
  mwp (accept_receiver_challenge view datagram) s (λ s' _, sender_ok p signing (en_custody s')).
Proof.
  intros Hs. unfold accept_receiver_challenge, sender_invalidate.
  mwp_step. do 3 (mwp_step; [|done]).
  destruct (scu_pending_offer (en_custody s)) as [offer|]; [|by mwp_step].
  mwp_step; [repeat mwp_step; cbn; auto with custody|]. do 3 (mwp_step; [|done]). case_match. repeat mwp_step. cbn.
  apply sender_ok_offer, sender_ok_session; [done|]. destruct Hs as [<- <- _]. split_and_bool.
  split; cbn; try done; [by eapply decoded_challenge|by eapply decoded_challenge|by destruct a0|by simplify_eq; eexists _, _|lia].
Qed.

Lemma acceptance_wp p signing view datagram s :
  sender_ok p signing (en_custody s) →
  mwp (accept_receiver_session_acceptance view datagram) s (λ s' _, sender_ok p signing (en_custody s')).
Proof.
  intros Hs. unfold accept_receiver_session_acceptance, sender_invalidate, sender_drop_session.
  mwp_step. do 3 (mwp_step; [|done]).
  destruct (scu_session (en_custody s)) as [session|] eqn:Hses; [|by mwp_step].
  mwp_step; [by mwp_step|]. do 2 (mwp_step; [repeat mwp_step; cbn; auto with custody|]). repeat mwp_step. cbn.
  apply sender_ok_session; [done|]. pose proof (so_session _ _ _ Hs _ Hses) as []. split_and_bool.
  destruct session as [o ch bi ac lo n m ex]. cbn in *. split; cbn; try done. intros x [= <-].
  destruct Hs as [<- <- _]. split; [by eapply decoded_acceptance|].
  match goal with Hc : acceptance_confirms _ _ _ _ = true |- _ => rename Hc into Hconf end.
  assert (a = ex) as <-; [|done].
  unfold acceptance_confirms in Hconf. split_and_bool. by eapply bool_decide_eq_true_1.
Qed.

(** What holds when [emit_pulse] returns a datagram. *)
Record emission (p : SenderEmissionPolicyV1) (signing : CanarySigningIdentityV1) (view : ReactorView)
    (frame : PulseFrameV1) (s s' : SenderCustodyV1) (datagram : string) (session : SenderLiveSession)
    (envelope : ObservationCustodyEnvelopeV1) (scope : SubjectScopeV1) (payload : string) : Prop := {
  em_session : scu_session s = Some session;
  em_acceptance : has_value (sls_receiver_acceptance session) = true;
  em_live : sn_observed_at_epoch_monotonic_ms (rv_snapshot view)
            < sls_local_expires_at_monotonic_ms session;
  em_standing : exposes_live_standing (sn_condition (rv_snapshot view)) = true;
  em_activation : rv_activation view = Ok (sls_exact_activation session);
  em_bound : sls_emitted_messages session < rcb_maximum_messages (sd_body (sls_challenge session));
  em_payload : emission_payload p frame = Ok (scope, payload);
  em_signed : sign_observation_envelope signing
                (envelope_body_for p session (sls_exact_activation session) (rv_snapshot view) frame
                   scope payload) = Ok (envelope, datagram);
  em_size : slen datagram <= sep_maximum_datagram_bytes p
            ∧ slen datagram <= rcb_maximum_envelope_bytes (sd_body (sls_challenge session));
  em_queue : scu_outbound s' = scu_outbound s ++ [datagram]
             ∧ Z.of_nat (length (scu_outbound s')) <= sep_sender_queue_bound p;
}.
Lemma emission_session_wp p signing view activation s :
  sender_ok p signing (en_custody s) →
  mwp (emission_session view activation) s (λ s' r,
    match r with
    | Ok session => s' = s ∧ scu_session (en_custody s) = Some session
        ∧ has_value (sls_receiver_acceptance session) = true
        ∧ sn_observed_at_epoch_monotonic_ms (rv_snapshot view) < sls_local_expires_at_monotonic_ms session
        ∧ sls_emitted_messages session < rcb_maximum_messages (sd_body (sls_challenge session))
        ∧ activation = sls_exact_activation session
    | Err _ => sender_ok p signing (en_custody s')
    end).
Proof.
  intros Hs. unfold emission_session, sender_drop_session. mwp_step.
  destruct (scu_session (en_custody s)) as [session|]; [|by mwp_step].
  mwp_step; [by mwp_step|]. do 3 (mwp_step; [repeat mwp_step; cbn; auto with custody|]). mwp_step. split_and_bool.
  split_and!; [done|done|done|lia|lia|by eapply bool_decide_eq_true_1].
Qed.
Lemma sender_ok_emitted p signing s session datagram :
  sender_ok p signing s → scu_session s = Some session →
  sls_emitted_messages session < rcb_maximum_messages (sd_body (sls_challenge session)) →
  sender_ok p signing (sender_emitted datagram s).
Proof.
  intros [Hp Hsg Hses] Hs Hlt. apply Hses in Hs as Hok.
  assert (Hmax : rcb_maximum_messages (sd_body (sls_challenge session)) <= u32_max).
  { pose proof (ses_challenge_wf _ _ _ Hok) as Hwf. unfold challenge_wf, is_u32 in Hwf. split_and_bool. lia. }
  destruct s, session as [o ch bi ac lo n m ex]. cbn in *. subst. split; cbn; [done..|].
  intros x [= <-]. destruct Hok. cbn in *. split; cbn in *; try done; lia.
Qed.
Lemma emit_wp p signing view frame s :
  sender_ok p signing (en_custody s) →
  mwp (emit_pulse view frame) s (λ s' r,
    sender_ok p signing (en_custody s')
    ∧ match r with
      | Ok datagram => ∃ session envelope scope payload,
          emission p signing view frame (en_custody s) (en_custody s') datagram session envelope scope payload
      | Err _ => True
      end).
Proof.
  intros Hs. pose proof Hs as [Hp Hsg _]. unfold emit_pulse, sender_invalidate. mwp_step. mwp_step; [|done].
  mwp_step; [repeat mwp_step; cbn; auto with custody|].
  apply mwp_bind. eapply mwp_mono; [by apply emission_session_wp|].
  intros s1 [session|e]; cbn [after]; [|done]. intros (->&Hses&Hacc&Hlive&Hlt&->).
  mwp_step; [|done]. destruct a as [scope payload].
  mwp_step.
  { repeat mwp_step. cbn. split; [|done]. apply sender_ok_invalidated. destruct (en_custody s). by destruct Hs. }
  mwp_step; [|done]. destruct a as [envelope datagram]. do 2 (mwp_step; [|done]). repeat mwp_step.
  inv_oks. split_and_bool. rewrite Hp, Hsg in *. split; [by eapply sender_ok_emitted|].
  exists session, envelope, scope, payload. split; try done; [lia|].
  destruct (en_custody s). cbn in *. rewrite length_app. cbn. split; [done|lia].
Qed.

Lemma sender_step_ok p signing op s :
  sender_ok p signing (en_custody s) → sender_ok p signing (en_custody (sender_step op s)).
Proof.
  intros Hs. destruct op; cbn [sender_step].
  - by apply create_offer_wp.
  - by apply challenge_wp.
  - by apply acceptance_wp.
  - by apply emit_wp.
  - unfold pop_queued_datagram. destruct s as [[a b c d [|x e] f g] n]; [done|]. destruct Hs. by split.
  - by apply sender_ok_invalidated.
Qed.
Lemma sender_run_ok p signing s0 ops :
  sender_custody_new signing p = Ok s0 → sender_ok p signing (en_custody (sender_run ops (mkEndpoint s0 []))).
Proof.
  intros Hn. assert (Hs : sender_ok p signing (en_custody (mkEndpoint s0 (@nil string)))).
  { unfold sender_custody_new in Hn. inv_ok Hn. injection Hn as <-. by split. }
  unfold sender_run. revert Hs. generalize (mkEndpoint s0 (@nil string)). induction ops as [|op ops IH]; intros s Hs; [done|].
  by apply IH, sender_step_ok.
Qed.

(** C32. A pulse is emitted only in a session both ends have signed.  When
    [emit_pulse] returns a datagram after any series of calls, the sender's
    session answers a challenge signed by the pinned receiver to this sender's
    own offer, that receiver has signed an acceptance naming exactly this
    challenge and binding, the local lifetime has not run out, the activation is
    the one the session was bound to, and the envelope carries the next
    session sequence, which never exceeds the number of messages the challenge
    allows. *)
Theorem emission_needs_both_signatures p signing s0 ops view frame s' datagram :
  sender_custody_new signing p = Ok s0 →
  let s := sender_run ops (mkEndpoint s0 []) in
  emit_pulse view frame s = (s', Ok datagram) →
  ∃ session envelope scope payload acceptance,
    emission p signing view frame (en_custody s) (en_custody s') datagram session envelope scope payload
    ∧ sender_session p signing session
    ∧ sls_receiver_acceptance session = Some acceptance
    ∧ pinned_acceptance p acceptance
    ∧ rsb_receiver_challenge_digest (sd_body acceptance) = sd_digest (sls_challenge session)
    ∧ rsb_sender_session_binding_digest (sd_body acceptance) = sd_digest (sls_binding session)
    ∧ oeb_session_sequence (sd_body envelope) = sls_emitted_messages session + 1
    ∧ oeb_session_sequence (sd_body envelope) <= rcb_maximum_messages (sd_body (sls_challenge session)).
Proof.
  intros Hs%(sender_run_ok _ _ _ ops) s He. pose proof (emit_wp _ _ view frame s Hs) as [_ Hw].
  rewrite He in Hw. destruct Hw as (session&envelope&scope&payload&Hem).
  pose proof (so_session _ _ _ Hs _ (em_session _ _ _ _ _ _ _ _ _ _ _ Hem)) as Hses.
  destruct (has_value_true _ (em_acceptance _ _ _ _ _ _ _ _ _ _ _ Hem)) as [acceptance Ha].
  destruct (ses_acceptance _ _ _ Hses _ Ha) as [Hpin Hconf].
  pose proof (sign_object_body _ _ _ _ _ _ _ _ _ (em_signed _ _ _ _ _ _ _ _ _ _ _ Hem)) as Hb.
  pose proof (em_bound _ _ _ _ _ _ _ _ _ _ _ Hem). pose proof (ses_sequence _ _ _ Hses).
  unfold acceptance_confirms in Hconf. split_and_bool.
  exists session, envelope, scope, payload, acceptance. rewrite Hb. cbn.
  split_and!; [done..|by eapply bool_decide_eq_true_1|by eapply bool_decide_eq_true_1|done|lia].
Qed.

(* ------------------------------------------------------------------ *)
(** ** The exchange *)

Lemma encoded_frame_decodes f b : frame_wf f = true → encode_wire f = Ok b → decode_wire b = Ok f.
Proof.
  rewrite encode_wire_eq, decode_wire_eq. intros Hwf (Hv&Hb&Hl). split; [done|]. split; [|done].
  rewrite <-(str_app_nil_r b). by apply rd_frame_put_frame, Hb; [|apply frame_validate_counts].
Qed.
Record emitted_payload (p : SenderEmissionPolicyV1) (frame : PulseFrameV1) (scope : SubjectScopeV1)
    (payload : string) : Prop := {
  ep_scope : scope ∈ sep_permitted_subject_scopes p;
  ep_subject : ss_subject scope = pf_subject frame;
  ep_incarnation : ss_subject_incarnation scope = pf_subject_incarnation frame;
  ep_observer : pf_observer frame = sep_observer p;
  ep_encoded : encode_wire frame = Ok payload;
  ep_length : slen payload <= MAX_CUSTODY_PAYLOAD_BYTES;
}.
Lemma emission_payload_Ok p frame scope payload :
  emission_payload p frame = Ok (scope, payload) → emitted_payload p frame scope payload.
Proof.
  unfold emission_payload, scope_for. intros He. inv_ok He. injection He as <- <-.
  destruct (List.find _ _) as [found|] eqn:Hf; [|done]. injection Hok0 as <-.
  apply List.find_some in Hf as [Hin Hf]. split_and_bool. apply list_elem_of_In in Hin.
  apply ensure_Ok in Hok1, Hok3. apply map_err_Ok in Hok2.
  repeat match goal with Hb : bool_decide _ = true |- _ => apply bool_decide_eq_true_1 in Hb end.
  split; cbn; try done; [|lia]. destruct found. cbn in *. by subst.
Qed.
Lemma payload_of_encoded e payload :
  oeb_payload_hex e = hex_encode payload → slen payload <= MAX_CUSTODY_PAYLOAD_BYTES →
  payload_bytes e = Ok payload.
Proof. intros Hx Hl. unfold payload_bytes. rewrite Hx. by apply decode_hex_bounded_Ok. Qed.

(** The receiver's copy of a session the sender emits in, under a policy that
    pins the sender's key; the snapshot's values are in the range of their
    types. *)
Record agreed (ps : SenderEmissionPolicyV1) (pr : ReceiverAcceptancePolicyV1) (view : ReactorView)
    (sender : SenderLiveSession) (receiver : ReceiverLiveSession) : Prop := {
  ag_key : rap_accepted_sender_key pr = sep_sender_key ps;
  ag_challenge : rls_challenge receiver = sls_challenge sender;
  ag_binding : rls_binding receiver = sls_binding sender;
  ag_epoch : is_utf8 (me_epoch_id (sn_monotonic_epoch (rv_snapshot view))) = true;
  ag_clock : is_u64 (sn_observed_at_epoch_monotonic_ms (rv_snapshot view)) = true;
}.
Section exchange.
Context (ps : SenderEmissionPolicyV1) (pr : ReceiverAcceptancePolicyV1).
Context (signing signing_r : CanarySigningIdentityV1) (view : ReactorView) (frame : PulseFrameV1).
Context (sender : SenderLiveSession) (receiver : ReceiverLiveSession).
Context (scope : SubjectScopeV1) (payload : string).
Context (Hag : agreed ps pr view sender receiver) (Hses : sender_session ps signing sender).
Context (Hest : established pr signing_r receiver) (Hep : emitted_payload ps frame scope payload).
Context (Hwf : frame_wf frame = true).
Abbreviation body := (envelope_body_for ps sender (sls_exact_activation sender) (rv_snapshot view) frame
                    scope payload).

Lemma agreed_binding :
  ∃ snapshot, sd_body (rls_binding receiver)
              = binding_body_for ps (sls_challenge sender) (sls_exact_activation sender) snapshot.
Proof.
  destruct (ses_binding _ _ _ Hses) as (snapshot&d&Hb). exists snapshot.
  rewrite (ag_binding _ _ _ _ _ Hag). by eapply sign_object_body.
Qed.
Lemma agreed_wf : is_u64 (sls_next_session_sequence sender) = true → envelope_wf body = true.
Proof.
  intros Hn. destruct agreed_binding as [snapshot Hb]. destruct Hest as [[Hbw _] _].
  pose proof (ag_epoch _ _ _ _ _ Hag) as Hepoch.
  rewrite Hb in Hbw. unfold binding_wf in Hbw. cbn in Hbw. wf_parts Hbw.
  unfold envelope_wf. cbn. pose proof (ag_clock _ _ _ _ _ Hag) as Hc.
  assert (Hscope : scope_utf8 scope = true).
  { assert (Hall : forallb scope_utf8 (sep_permitted_subject_scopes ps) = true) by done.
    rewrite forallb_Forall, Forall_forall in Hall. apply Hall, Hep. }
  unfold frame_wf in Hwf. split_and_bool. unfold is_u64, u64_max in *. split_and_bool.
  rewrite !andb_true_iff. split_and!; done || lia.
Qed.
Lemma agreed_identity e :
  sd_body e = body →
  admissible_body pr receiver (sd_body e) = Ok tt
  ∧ verify_frame_identity pr e frame = Ok tt
  ∧ (verify_envelope_session_identity pr receiver e = Ok tt ↔
     me_epoch_id (sn_monotonic_epoch (rv_snapshot view))
     = sbb_sender_monotonic_epoch (sd_body (sls_binding sender))).
Proof.
  intros He. destruct agreed_binding as [snapshot Hb].
  rewrite <- (ag_binding _ _ _ _ _ Hag), Hb.
  destruct Hest as (_&offer&_&Hv). unfold verify_session_binding in Hv. rewrite Hb in Hv. cbn in Hv.
  apply ensure_Ok in Hv. split_and_bool.
  repeat match goal with Hx : bool_decide _ = true |- _ => apply bool_decide_eq_true_1 in Hx end.
  destruct Hep as [Hs Hsub Hinc Hobs _ _]. destruct Hag as [Hkey Hch Hbi _ _].
  unfold admissible_body, verify_envelope_session_identity, verify_frame_identity. rewrite He, Hb. cbn.
  assert (scope ∈ rap_permitted_subject_scopes pr) by congruence.
  rewrite ?Z.eqb_refl. split_and!; [by repeat (rewrite bool_decide_eq_true_2 by congruence; cbn)..|].
  split; [|intros Hepoch; by repeat (rewrite bool_decide_eq_true_2 by congruence; cbn)].
  intros Hid. inv_oks. split_and_bool. by eapply bool_decide_eq_true_1.
Qed.
End exchange.

(** C33. What an accepted sender emits, its receiver can admit.  Take any sender
    and any receiver after any series of calls, with the receiver's policy
    pinning the sender's key and both holding the same challenge and binding.
    If the sender emits a pulse then its datagram decodes for that session and is
    accepted under the sender's key, its payload is the frame that was emitted,
    its session sequence is the sender's next one, and it matches the observer,
    the frame and the permitted scope in every check of the receiver.  Of the
    identities of the session and the qualified generation nothing but the epoch
    can disagree: the receiver's identity check passes exactly when the sender's
    reactor is still in the monotonic epoch it signed into the binding, which
    [emit_pulse] does not check. *)
Theorem emitted_pulse_is_admissible key role scopes id signing ps s0 ops_s signing_r pr m r c r0 ops_r
    view frame s' datagram sender receiver :
  from_signing_key key role scopes id = Ok signing →
  sender_custody_new signing ps = Ok s0 →
  receiver_custody_new signing_r pr m r c = Ok r0 →
  let s := sender_run ops_s (mkEndpoint s0 []) in
  let rs := (receiver_run ops_r (mkEndpoint r0 [])).1 in
  emit_pulse view frame s = (s', Ok datagram) →
  scu_session (en_custody s) = Some sender → rcu_session (en_custody rs) = Some receiver →
  agreed ps pr view sender receiver → frame_wf frame = true →
  ∃ envelope payload,
    decode_observation_envelope_for_admission datagram pr receiver = Ok envelope
    ∧ payload_bytes (sd_body envelope) = Ok payload
    ∧ decode_wire payload = Ok frame
    ∧ verify_frame_identity pr envelope frame = Ok tt
    ∧ oeb_session_sequence (sd_body envelope) = sls_next_session_sequence sender
    ∧ (verify_envelope_session_identity pr receiver envelope = Ok tt ↔
       me_epoch_id (sn_monotonic_epoch (rv_snapshot view))
       = sbb_sender_monotonic_epoch (sd_body (sls_binding sender))).
Proof.
  intros Hkey Hn Hnr s rs He Hss Hrs Hag Hwf.
  assert (Hsk : si_key_identity signing = sep_sender_key ps).
  { unfold sender_custody_new in Hn. inv_ok Hn. apply ensure_Ok in Hok0. by eapply bool_decide_eq_true_1. }
  apply (sender_run_ok _ _ _ ops_s) in Hn. pose proof (emit_wp _ _ view frame s Hn) as [_ Hw].
  rewrite He in Hw. destruct Hw as (session&envelope&scope&payload&Hem).
  pose proof (em_session _ _ _ _ _ _ _ _ _ _ _ Hem) as Heq. fold s in Heq. rewrite Hss in Heq. injection Heq as <-.
  pose proof (so_session _ _ _ Hn _ Hss) as Hses.
  apply receiver_new_Ok in Hnr as (Hpr&_). apply (run_provenance _ _ ops_r (mkEndpoint r0 [])) in Hpr.
  pose proof (pr_session _ _ _ Hpr _ Hrs) as Hest.
  pose proof (emission_payload_Ok _ _ _ _ (em_payload _ _ _ _ _ _ _ _ _ _ _ Hem)) as Hep.
  pose proof (em_signed _ _ _ _ _ _ _ _ _ _ _ Hem) as Hsg. pose proof (sign_object_body _ _ _ _ _ _ _ _ _ Hsg) as Hb.
  destruct (agreed_identity _ _ _ _ _ _ _ _ _ _ Hag Hses Hest Hep _ Hb) as (Had&Hfr&Hid).
  exists envelope, payload. split; [|split; [|split; [|split; [done|split; [by rewrite Hb|exact Hid]]]]].
  - unfold decode_observation_envelope_for_admission. rewrite (ag_key _ _ _ _ _ Hag), <- Hsk.
    rewrite Hb in Had. eapply (sign_object_decodes _ _ _ _ _ _ _ _ _ _ _ _ envelope_codec);
      [unfold OBSERVATION_ENVELOPE_KIND; lia|by eapply from_signing_key_signs| |exact Had|exact Hsg].
    eapply agreed_wf; [done..|]. pose proof (ses_sequence _ _ _ Hses). pose proof (ses_emitted _ _ _ Hses).
    unfold is_u64, u64_max, u32_max in *. lia.
  - rewrite Hb. by apply payload_of_encoded, Hep.
  - by apply encoded_frame_decodes, Hep.
Qed.
End sender_lifetime.
