(* ===== verification/CustodySamples.v ===== *)
(** * An exchange

    A sender and a receiver with a toy signature scheme open a session, and
    the sender emits two pulses.  The theorems on the custody protocol are
    applied to this exchange. *)

From S2P Require Import Prelude Ids Digest Pulse Wire Samples Judgment Qualification Package Activation.
From S2P Require Import CustodyTypes CustodyRecords CustodyWire CustodyWireProps.
From S2P Require Import EvalSamples RuntimeState RuntimeArtifacts PackageSamples RuntimeSamples Journal LiveSupport Reactor ReactorSamples.
From S2P Require Import CustodyReceiver CustodyAdmission CustodyReceiverProps CustodySender CustodySenderProps.

(** A signature is the hash of key and message: anyone can forge it, but it has
    the documented sizes and verifies. *)
Definition pad_key (k : string) : string := sha256 ("key:" +:+ k).
Definition toy_signature (public message : string) : string := hex_encode (sha256 (public +:+ message)).
Lemma toy_signature_length public message : String.length (toy_signature public message) = 64%nat.
Proof. unfold toy_signature. by rewrite hex_encode_length, sha256_length. Qed.
Lemma toy_signature_verifies k m :
  bool_decide (toy_signature (pad_key k) m = toy_signature (pad_key k) m) = true.
Proof. by apply bool_decide_eq_true_2. Qed.
#[global] Instance toy_signatures : SignatureScheme :=
  {| public_key_of := pad_key;
     raw_sign k m := toy_signature (pad_key k) m;
     key_error _ := None;
     verify_strict public m s := bool_decide (s = toy_signature public m);
     public_key_length k := sha256_length _;
     signature_length k m := toy_signature_length _ _;
     public_key_usable _ := eq_refl;
     signature_verifies := toy_signature_verifies |}.
#[global] Instance terse_policy_json : CustodyPolicyJson :=
  {| peer_key_json := pk_public_key_hex;
     receiver_anchor_json := rpa_policy_generation;
     receiver_policy_json := rap_policy_generation;
     sender_policy_json := sep_policy_generation;
     peer_key_parse _ := Err "no sample document";
     receiver_policy_parse _ := Err "no sample document";
     sender_policy_parse _ := Err "no sample document" |}.

(** ** Keys, policies and activations *)

Definition blank_key : PeerKeyIdentityV1 :=
  mkPeerKey 0 0 Ed25519 PeerSender PeerReceiver "" "" [] "".
Definition sender_key_of : result CustodyError CanarySigningIdentityV1 :=
  from_signing_key "sender" PeerSender ["cpu"] "policy:peers".
Definition sender_signing : CanarySigningIdentityV1 := unwrap_or (mkSigningIdentity "" blank_key) sender_key_of.
Definition receiver_signing : CanarySigningIdentityV1 :=
  unwrap_or (mkSigningIdentity "" blank_key) (from_signing_key "receiver" PeerReceiver ["cpu"] "policy:peers").

Definition exchange_document (f : LocalQualificationPackageV1 → string) : string :=
  default "" (f <$> sample_package).
Definition exchange_scopes : list SubjectScopeV1 := [mkSubjectScope "host:a" "boot:1" "cpu"].
Definition exchange_receiver_policy : ReceiverAcceptancePolicyV1 :=
  {| rap_schema_version := SCHEMA_VERSION_V1;
     rap_policy_generation := "acceptance:1";
     rap_receiver_key := si_key_identity receiver_signing;
     rap_accepted_sender_key := si_key_identity sender_signing;
     rap_accepted_sender_manifest_digest := exchange_document (fun p => mf_manifest_digest (qp_manifest p));
     rap_accepted_sender_certificate_digest :=
       exchange_document (fun p => qc_certificate_digest (qp_certificate p));
     rap_accepted_protocol_version := CUSTODY_PROTOCOL_VERSION_V1;
     rap_accepted_pulse_schema_version := SCHEMA_VERSION_V1;
     rap_accepted_observer := "observer:a";
     rap_accepted_failure_domain_claim := "rack:1";
     rap_permitted_subject_scopes := exchange_scopes;
     rap_permitted_observation_kinds := [KindPulseV1];
     rap_maximum_datagram_bytes := 1232;
     rap_maximum_session_duration_ms := 60000;
     rap_maximum_messages_per_session := 100;
     rap_maximum_messages_per_second := 10;
     rap_receiver_queue_bound := 4;
     rap_replay_window_size := 64;
     rap_maximum_sequence_gap := 8;
     rap_certificate_status := CertificateAccepted;
     rap_lifecycle_authority_id := "authority:1";
     rap_freshness_mode := ArrivalAnchored;
     rap_arrival_anchored_evidence_may_support_reliance := true;
     rap_observation_time_freshness_required := false;
     rap_journal_id := "journal:a";
     rap_authority_grants := custody_grants_none |}.
Definition exchange_sender_policy : SenderEmissionPolicyV1 :=
  {| sep_schema_version := SCHEMA_VERSION_V1;
     sep_policy_generation := "emission:1";
     sep_sender_key := si_key_identity sender_signing;
     sep_accepted_receiver_key := si_key_identity receiver_signing;
     sep_accepted_receiver_policy_generation := "acceptance:1";
     sep_accepted_receiver_policy_anchor_digest := receiver_policy_anchor_digest exchange_receiver_policy;
     sep_observer := "observer:a";
     sep_failure_domain_claim := "rack:1";
     sep_permitted_subject_scopes := exchange_scopes;
     sep_permitted_observation_kinds := [KindPulseV1];
     sep_maximum_datagram_bytes := 1232;
     sep_sender_queue_bound := 4;
     sep_authority_grants := custody_grants_none |}.
Definition binding_of (r : result ActivationFailure LocalActivationAttemptV1)
  : result ReactorCommandError QualifiedGenerationBindingV1 :=
  match r with
  | Ok (mkAttempt _ (Some v)) => Ok (va_binding v)
  | _ => Err (mkReactorError RcNotOperational "no sample activation")
  end.
Definition exchange_binding : result ReactorCommandError QualifiedGenerationBindingV1 :=
  Eval vm_compute in binding_of (sample_activation process_start).2.

(** What the reactor answers at a time. *)
Definition view_at (now : Z) : ReactorView :=
  mkReactorView exchange_binding (Ok now)
    (snapshot_from_runtime new_runtime (reactor_epoch 0) now Operational
       "reactor owns the earliest active deadline" reactor_metrics_empty).

(** ** The exchange *)

Definition nonce_a : string := sha256 "nonce a".
Definition nonce_b : string := sha256 "nonce b".
Definition sender_start : SenderState :=
  mkEndpoint (mkSenderCustody sender_signing exchange_sender_policy None None [] 0 0) [].
Definition receiver_new : result CustodyError ReceiverCustodyV1 :=
  receiver_custody_new receiver_signing exchange_receiver_policy (default "" sample_manifest_bytes)
    (default "" sample_report_bytes) (default "" sample_certificate_bytes).
Definition extract {E A} (r : result E A) : match r return Type with Ok _ => A | Err _ => unit end :=
  match r with Ok a => a | Err _ => tt end.
Definition receiver_custody := Eval vm_compute in extract receiver_new.
Definition receiver_start : ReceiverState := mkEndpoint receiver_custody [].
Definition pulse_b : PulseFrameV1 := sample_frame_for "observer:a" 8 WithinDeclaredBound.

(** The messages of the exchange and the calls at each end. *)
Definition output {C N} (c : at_endpoint C N string) (s : Endpoint C N) : string := unwrap_or "" (c s).2.
Definition sender_offering : list SenderOp := [OpCreateOffer (view_at 10) nonce_a].
Definition offer_datagram : string :=
  Eval vm_compute in output (create_session_offer (view_at 10) nonce_a) sender_start.
Definition receiver_challenging : list ReceiverOp := [OpOffer (view_at 20) "host:a" nonce_b offer_datagram].
Definition challenge_datagram : string :=
  Eval vm_compute in
    output (accept_session_offer_and_issue_challenge (view_at 20) "host:a" nonce_b offer_datagram)
      receiver_start.
Definition sender_binding : list SenderOp := sender_offering ++ [OpChallenge (view_at 30) challenge_datagram].
Definition binding_datagram : string :=
  Eval vm_compute in
    output (accept_receiver_challenge (view_at 30) challenge_datagram)
      (sender_run sender_offering sender_start).
Definition receiver_opened : list ReceiverOp :=
  receiver_challenging ++ [OpBinding (view_at 40) "host:a" binding_datagram].
Definition acceptance_datagram : string :=
  Eval vm_compute in
    output (accept_session_binding (view_at 40) "host:a" binding_datagram)
      (receiver_run receiver_challenging receiver_start).1.
Definition sender_opened : list SenderOp := sender_binding ++ [OpAcceptance (view_at 50) acceptance_datagram].
Definition first_pulse : string :=
  Eval vm_compute in
    output (emit_pulse (view_at 60) sample_frame) (sender_run sender_opened sender_start).
Definition second_pulse : string :=
  Eval vm_compute in
    output (emit_pulse (view_at 70) pulse_b)
      (sender_run (sender_opened ++ [OpEmit (view_at 60) sample_frame]) sender_start).
(** The first pulse arrives twice, and again after the second. *)
Definition receiver_fed : list ReceiverOp :=
  receiver_opened ++ [OpEnqueue (view_at 80) first_pulse "192.0.2.1:9000"].
Definition receiver_admitting : list ReceiverOp :=
  receiver_fed
  ++ [OpEnqueue (view_at 81) first_pulse "192.0.2.1:9000"; OpAdmit (view_at 82) "host:a";
      OpAdmit (view_at 83) "host:a"; OpEnqueue (view_at 90) second_pulse "192.0.2.1:9000";
      OpEnqueue (view_at 91) first_pulse "192.0.2.2:9000"; OpAdmit (view_at 92) "host:a";
      OpAdmit (view_at 93) "host:a"].

Lemma exchange_sender : sender_custody_new sender_signing exchange_sender_policy = Ok (en_custody sender_start).
Proof. vm_compute. reflexivity. Qed.
Lemma exchange_receiver :
  receiver_custody_new receiver_signing exchange_receiver_policy (default "" sample_manifest_bytes)
    (default "" sample_report_bytes) (default "" sample_certificate_bytes) = Ok receiver_custody.
Proof. vm_compute. reflexivity. Qed.
Lemma exchange_key : sender_key_of = Ok sender_signing.
Proof. vm_compute. reflexivity. Qed.

(** ** The theorems on the exchange *)

Lemma admitting_facts :
  let es := (receiver_run receiver_admitting receiver_start).2 in
  bool_decide (NoDup (issued es)) = true
  ∧ (roc_session_sequence <$> admissions es) = [1; 2].
Proof. vm_compute. split; reflexivity. Qed.
Lemma no_observation_admitted_twice_witness :
  let es := (receiver_run receiver_admitting receiver_start).2 in
  (roc_session_sequence <$> admissions es) = [1; 2] ∧ StronglySorted never_again (admissions es).
Proof.
  split; [exact (proj2 admitting_facts)|].
  apply (no_observation_admitted_twice receiver_signing exchange_receiver_policy
           (default "" sample_manifest_bytes) (default "" sample_report_bytes)
           (default "" sample_certificate_bytes) receiver_custody receiver_admitting exchange_receiver).
  exact (bool_decide_eq_true_1 _ (proj1 admitting_facts)).
Defined.

(** Whether a call admitted something, or returned something at all. *)
Definition hands_out (r : result CustodyError ReceiverEnvelopeAdmissionV1) : bool :=
  match r with Ok (mkAdmission _ (Some _)) => true | _ => false end.
Lemma hands_out_token {S : Type} (x : S * result CustodyError ReceiverEnvelopeAdmissionV1) :
  hands_out x.2 = true → ∃ s receipt verified, x = (s, Ok (mkAdmission receipt (Some verified))).
Proof. destruct x as [s [[receipt [verified|]]|]]; try done. by exists s, receipt, verified. Qed.
Lemma returns_value {S A : Type} (x : S * result CustodyError A) : is_ok x.2 = true → ∃ s a, x = (s, Ok a).
Proof. destruct x as [s [a|]]; try done. by exists s, a. Qed.

Lemma fed_admits :
  hands_out (admit_next (view_at 82) "host:a" (receiver_run receiver_fed (mkEndpoint receiver_custody [])).1).2
  = true.
Proof. vm_compute. reflexivity. Qed.
Lemma admitted_observation_authentic_witness :
  ∃ (s' : ReceiverState) receipt verified queued before session envelope bytes signature,
    admission_of (view_at 82) (en_custody (receiver_run receiver_fed (mkEndpoint receiver_custody [])).1)
      (en_custody s') receipt verified queued before session envelope bytes signature
    ∧ established exchange_receiver_policy receiver_signing before.
Proof.
  destruct (hands_out_token _ fed_admits) as (s'&receipt&verified&Ha).
  destruct (admitted_observation_authentic receiver_signing exchange_receiver_policy
              (default "" sample_manifest_bytes) (default "" sample_report_bytes)
              (default "" sample_certificate_bytes) receiver_custody receiver_fed (view_at 82) "host:a"
              s' receipt verified exchange_receiver Ha)
    as (queued&before&session&envelope&bytes&signature&Had&_&Hest).
  exists s', receipt, verified, queued, before, session, envelope, bytes, signature. exact (conj Had Hest).
Defined.

Definition revocation_body : GenerationLifecycleFactBodyV1 :=
  {| fb_schema_version := SCHEMA_VERSION_V1;
     fb_authority_id := "authority:1";
     fb_fact_sequence := 1;
     fb_certificate_digest := rap_accepted_sender_certificate_digest exchange_receiver_policy;
     fb_kind := KindRevoked;
     fb_successor_manifest_digest := None;
     fb_successor_certificate_digest := None;
     fb_reason := "key compromise";
     fb_authority_grants := grants_none |}.
Definition revocation : GenerationLifecycleFactV1 :=
  mkFact SCHEMA_VERSION_V1 (unwrap_or "" (fact_body_digest revocation_body)) revocation_body.
Definition opened_state : ReceiverState := (receiver_run receiver_fed (mkEndpoint receiver_custody [])).1.
Definition revoked_ops : list ReceiverOp := OpAdmit (view_at 100) "host:a" :: receiver_admitting.
Lemma revocation_applies : is_ok (apply_sender_lifecycle_fact revocation opened_state).2 = true.
Proof. vm_compute. reflexivity. Qed.
Lemma withdrawn_sender_never_admitted_witness :
  ∃ s' : ReceiverState, apply_sender_lifecycle_fact revocation opened_state = (s', Ok tt)
    ∧ rcu_session (en_custody s') = None ∧ (receiver_run revoked_ops s').2 = [].
Proof.
  destruct (returns_value _ revocation_applies) as (s'&u&Ha). destruct u. exists s'. split; [exact Ha|].
  destruct (withdrawn_sender_never_admitted revocation opened_state s' revoked_ops Ha) as (Hs&_&_&_&Hr).
  exact (conj Hs Hr).
Defined.

(** A receiver that has refused as many envelopes as it leaves receipts. *)
Definition old_receipt : ReceiverAcceptanceReceiptV1 :=
  refusal_receipt_for exchange_receiver_policy None (mkQueued "junk" "192.0.2.1:9000" 0)
    (malformed "datagram is too short") 1.
Definition exhausted_state : ReceiverState :=
  mkEndpoint (set_rcu_receipts receiver_custody (replicate 256 old_receipt)) [].
Lemma exhausted_count : MAX_CUSTODY_RECEIPTS <= Z.of_nat (length (rcu_receipts (en_custody exhausted_state))).
Proof. vm_compute. discriminate. Qed.
Lemma exhausted_receipts_end_admission_witness :
  admissions (receiver_run receiver_admitting exhausted_state).2 = [].
Proof. exact (exhausted_receipts_end_admission exhausted_state receiver_admitting exhausted_count). Defined.

Lemma first_pulse_emitted :
  is_ok (emit_pulse (view_at 60) sample_frame
           (sender_run sender_opened (mkEndpoint (en_custody sender_start) []))).2 = true.
Proof. vm_compute. reflexivity. Qed.
Lemma emission_needs_both_signatures_witness :
  ∃ session acceptance,
    sender_session exchange_sender_policy sender_signing session
    ∧ sls_receiver_acceptance session = Some acceptance
    ∧ pinned_acceptance exchange_sender_policy acceptance.
Proof.
  destruct (returns_value _ first_pulse_emitted) as (s'&d&He).
  destruct (emission_needs_both_signatures exchange_sender_policy sender_signing (en_custody sender_start)
              sender_opened (view_at 60) sample_frame s' d exchange_sender He)
    as (session&envelope&scope&payload&acceptance&_&Hs&Ha&Hp&_).
  exists session, acceptance. exact (conj Hs (conj Ha Hp)).
Defined.

(** The two copies of the session. *)
Definition extract_some {A} (o : option A) : match o return Type with Some _ => A | None => unit end :=
  match o with Some a => a | None => tt end.
Definition sender_copy :=
  Eval vm_compute in extract_some (scu_session (en_custody (sender_run sender_opened sender_start))).
Definition receiver_copy :=
  Eval vm_compute in extract_some (rcu_session (en_custody (receiver_run receiver_opened receiver_start).1)).
Lemma copies :
  scu_session (en_custody (sender_run sender_opened (mkEndpoint (en_custody sender_start) [])))
  = Some sender_copy
  ∧ rcu_session (en_custody (receiver_run receiver_opened (mkEndpoint receiver_custody [])).1)
    = Some receiver_copy.
Proof. vm_compute. split; reflexivity. Qed.
Lemma copies_agree :
  agreed exchange_sender_policy exchange_receiver_policy (view_at 60) sender_copy receiver_copy.
Proof. split; vm_compute; reflexivity. Qed.
Lemma sample_frame_ok : frame_wf sample_frame = true.
Proof. vm_compute. reflexivity. Qed.
Lemma emitted_pulse_is_admissible_witness :
  ∃ datagram envelope,
    decode_observation_envelope_for_admission datagram exchange_receiver_policy receiver_copy = Ok envelope
    ∧ verify_envelope_session_identity exchange_receiver_policy receiver_copy envelope = Ok tt
    ∧ verify_frame_identity exchange_receiver_policy envelope sample_frame = Ok tt.
Proof.
  destruct (returns_value _ first_pulse_emitted) as (s'&d&He).
  destruct (emitted_pulse_is_admissible "sender" PeerSender ["cpu"] "policy:peers" sender_signing
              exchange_sender_policy (en_custody sender_start) sender_opened receiver_signing
              exchange_receiver_policy (default "" sample_manifest_bytes) (default "" sample_report_bytes)
              (default "" sample_certificate_bytes) receiver_custody receiver_opened (view_at 60)
              sample_frame s' d sender_copy receiver_copy exchange_key exchange_sender exchange_receiver
              He (proj1 copies) (proj2 copies) copies_agree sample_frame_ok)
    as (envelope&payload&Hd&_&_&Hf&_&Hid).
  exists d, envelope. split; [exact Hd|]. split; [|exact Hf]. apply Hid. vm_compute. reflexivity.
Defined.

Definition exchange_activation := Eval vm_compute in extract exchange_binding.
Definition sample_offer_body : SenderSessionOfferBodyV1 :=
  offer_body_for exchange_sender_policy exchange_activation (rv_snapshot (view_at 10)) nonce_a.
Lemma sample_offer_facts :
  is_ok (sign_sender_session_offer sender_signing sample_offer_body) = true
  ∧ offer_wf sample_offer_body = true.
Proof. vm_compute. split; reflexivity. Qed.
Lemma is_ok_pair {E A B} (r : result E (A * B)) : is_ok r = true → ∃ a b, r = Ok (a, b).
Proof. destruct r as [[a b]|]; [by exists a, b|done]. Qed.
Lemma signed_messages_roundtrip_witness :
  ∃ v d, sign_sender_session_offer sender_signing sample_offer_body = Ok (v, d)
    ∧ decode_sender_session_offer_datagram d (si_key_identity sender_signing) = Ok v.
Proof.
  destruct (is_ok_pair _ (proj1 sample_offer_facts)) as (v&d&Hs). exists v, d. split; [exact Hs|].
  destruct (signed_messages_roundtrip sender_signing
              (from_signing_key_signs _ _ _ _ _ exchange_key)) as (Ho&_).
  exact (proj1 (Ho _ _ _ Hs (proj2 sample_offer_facts))).
Defined.
